(* ===== verification/_CoqProject ===== *)
-Q . S2P
Prelude.v
Ring.v
IdPool.v
MemPool.v
Sched.v
LoserTree.v
Chain.v
IntHash.v
StrHash.v
Tokenizer.v
SkipList.v
SkipInv.v
SkipPut.v
SkipQuery.v
SkipKeys.v
TagFilter.v
TagExpr.v
MetricIndex.v
MetricInv.v
SkipLife.v
MetricLife.v
CommitLog.v
CommitLogInv.v
CommitLogLife.v
KeySearch.v
CachePool.v
CacheInv.v
CacheAlloc.v
CacheInsert.v
CacheQuery.v
CacheScan.v
CacheFlush.v
CacheSearch.v
CacheLife.v
CacheDemo.v
CompBase.v
CompInt.v
CompBool.v
CompTime.v
CompXor.v
Tscompression.v
Crc32cTables.v
Crc32c.v
ColTypes.v
FileBlock.v
BlockWrite.v
BlockLife.v
BlockMerge.v
HeadFile.v
HeadWrite.v
CommitFile.v
CommitTable.v
CommitLife.v
CacheReader.v
CommitCache.v
VnodeKeys.v
Vnode.v
VnodeLife.v
CommitDemo.v
SdbIndex.v
SdbHashInt.v
SdbHashStr.v
Sdb.v
SdbRows.v
SdbLog.v
SdbOpen.v
SdbClient.v
SdbRun.v
SdbUser.v
SdbLife.v
EdbTypes.v
EdbStore.v
EdbQuery.v
EdbCache.v
EdbBlocks.v
EdbLimits.v
EdbPut.v
