(* ===== verification/Prelude.v ===== *)
(** * luomi: a verification library for the storage of a time-series store

    luomi is a time-series database in C, grown from TDengine 1.x, with an
    embedded database of its own (src/src/edb).  A management node keeps users,
    databases and vnode groups in tables (src/src/sdb); storage nodes (vnodes)
    keep the measurements: batches of rows go into a commit log and a cache, and
    commits write the cache into files, compressed column by column
    (src/src/util/src/tcompression.c) and protected by checksums
    (src/src/util/src/tcrc32c.c).  All stand on the utilities of src/src/util.
    This library models the storage side and the utilities under it, from the
    C text, and proves what they promise.

    ** Files, and the code they model

    - Prelude.v: outcomes of C code, machine integers, byte buffers; Ring.v:
      circular arrays.
    - IdPool.v (util/src/tidpool.c), MemPool.v (util/src/tmempool.c), Sched.v
      (util/src/tsched.c), Chain.v with IntHash.v (util/src/ihash.c) and
      StrHash.v (util/src/shash.c).
    - LoserTree.v (util/src/tlosertree.c) and its client BlockMerge.v
      (createDataBlocksInfoEx of system/src/vnodeQueryImpl.c).
    - Tokenizer.v (util/src/ttokenizer.c, and [tSQLParse] of
      client/src/tscSQLParserImpl.c): the text of a statement as tokens; the
      keywords are found in StrHash.v, the parser that takes the tokens is an
      argument.
    - SkipList.v (util/src/tskiplist.c); its proofs are in SkipInv.v, SkipPut.v
      (insertion and removal), SkipQuery.v, SkipKeys.v and SkipLife.v.
      TagFilter.v (client/src/tscAst.c) with TagExpr.v, and MetricIndex.v
      (system/src/mgmtMeter.c) with MetricInv.v and MetricLife.v, are its
      clients.
    - CompBase.v, CompInt.v, CompBool.v, CompTime.v, CompXor.v, Tscompression.v
      (util/src/tcompression.c, inc/tscompression.h): one file per codec, the
      entry points in the last.
    - Crc32cTables.v, Crc32c.v (util/src/tcrc32c.c, inc/tchecksum.h).
    - SdbIndex.v, SdbHashInt.v (sdb/src/hashint.c), SdbHashStr.v
      (sdb/src/hashstr.c), Sdb.v (sdb/src/sdbEngine.c), SdbUser.v
      (system/src/mgmtUser.c, mgmtVgroup.c); the proofs about the tables are in
      SdbRows.v, SdbLog.v, SdbOpen.v, SdbClient.v, SdbRun.v, SdbUser.v and
      SdbLife.v.
    - CommitLog.v (system/src/vnodeCommit.c and the states of the commit thread in
      vnodeCache.c and vnodeFile.c), with CommitLogInv.v and CommitLogLife.v.
    - KeySearch.v (system/src/vnodeRead.c), CachePool.v and CacheQuery.v
      (system/src/vnodeCache.c, and of vnodeMeter.c and vnodeFile.c what inserts
      into the cache and what reads it to commit).  Their proofs: CacheInv.v the
      invariant and what an operation leaves alone, CacheAlloc.v, CacheInsert.v
      (insertion, the end of a commit, dropping a table), CacheScan.v,
      CacheFlush.v and CacheSearch.v the queries, CacheLife.v runs of the whole,
      CacheDemo.v a concrete one.
    - ColTypes.v (util/src/ttypes.c and getStatistics of
      client/src/tscFunctionImpl.c): null values and column statistics.
    - FileBlock.v (system/src/vnodeFile.c): blocks of the data and last files;
      BlockWrite.v and BlockLife.v show that they are read back.
    - HeadFile.v and CommitFile.v (system/src/vnodeFile.c, vnodeUtil.c): the head
      file, and a commit into the files of one number ([vnodeCommitMultiToFile]
      between [_again] and [vnodeCloseCommitFiles]).  The source of the rows is
      the class [RowReader]: a query that begins, gives blocks of rows, and ends.
      HeadWrite.v, CommitTable.v and CommitLife.v prove what a commit leaves in
      the files, against [RowReader] alone.
    - CacheReader.v: the queries of the cache are a [RowReader]; CommitCache.v: a
      commit of the cache.
    - VnodeKeys.v (system/src/vnodeFile.c): which file a commit writes and which
      files are removed; Vnode.v (vnodeFile.c, vnodeMeter.c): a vnode with its
      cache and its files, batches and whole commits; VnodeLife.v: the invariant
      and the theorems; CommitDemo.v a small vnode.
    - EdbTypes.v, EdbStore.v, EdbQuery.v (edb/inc/db.h, edb/src/db.c, compress.c,
      query.c); the proofs are there and in EdbCache.v, EdbBlocks.v,
      EdbLimits.v and EdbPut.v, which follows a database from its creation
      through any insertions to the reading of its blocks.

    A definition has the name of the C function it translates; the body of a
    loop that needs a name is called after the function ([snap_loop],
    [decode_words]).  A struct is a [Record] with the fields of the struct, and
    what the struct points to (a file, a heap, a mapping) is a field of it.

    ** How C is read

    - An operation returns a value of [res]: [Ret], or [Exit] for a failed
      [assert], or [Undef] for undefined behaviour: a read or write outside an
      object, an indeterminate value, a shift that is too wide, a node that was
      freed.  A theorem that gives [Ret] thus excludes all of these.
    - An integer of w bits is a [Z] with its wrap written out: [u8], [u32], [u64],
      [i32], [i64].  Signed overflow is read as wrapping, which is what the
      compilers the project names do.  Sizes, offsets and counts that stay
      below the length of a buffer are plain [Z].
    - Bytes are [Z] in 0..255, a buffer is a [list Z]; [rd], [wr] and their kin
      check bounds.  Multi-byte values are little-endian ([le_bytes], [le_val]).
    - A loop that is not structural has fuel; [NoFuel] means it ran out, and is
      shown not to happen: the fuel is the number of values a codec has to
      decode, the length of a file, the number of nodes in a heap plus one, twice
      the blocks of a pool, the rows and slots of a table, the files between the
      first and the last key of a commit.
    - Files are lists of bytes with a position; [write] and [malloc] succeed
      unless a definition takes their failure as an argument.
    - Code that takes a mutex around a whole operation is read as one step;
      Sched.v, where the interleaving matters, is a step relation.  Of a vnode a
      batch, the commit of one file and the call of [vnodeUpdateCommitInfo] for
      one table are steps that come in any order.
    - Code outside the C text is a class with its documented laws: LZ4
      ([LZ4Laws]), the CRC32 instructions of the processor ([SSE42Laws]), the
      width of [unsigned long] ([DataModel]), the place of the memory pool
      ([PoolMemory]), floating point arithmetic ([DoubleOps], no laws), the
      fraction of a block that is too small for the data file
      ([BlockOptionsLaws]).  Each has an instance, at which the theorems are run.

    ** Interfaces

    [SdbIndex] and [SdbIndexLaws] are what the engine asks of an index, met by
    both hash tables; [AppTool] and [AppLaws] are the callbacks of an
    application, met by users and vnode groups; [Checksum] is a sealed record,
    met by every checksum [taosResolveCRC] can pick, as is [RunningSum], a
    checksum of parts.  The engine is proved against these and never against an
    implementation.  [SkipKey] and [SkipKeyLaws] are what the skip list asks of
    its keys, met by integers and strings; [RangeLaws] is what a condition asks
    of the ends of an open range.  [VnodeData] and [VnodeLaws] are what the commit
    log asks of the rows of a vnode; [RowReader] and [ReaderLaws] are what a
    commit asks of a cache, met by the queries of CacheQuery.v.  Chain.v is
    shared by four hash tables and the list of tables of a super table, Ring.v
    by two pools and a queue.

    ** What the theorems show

    - A vnode: whatever batches and commits come, of each table the rows that
      were accepted are those that commits wrote and a rest; those written are
      found in the files of their days and read back as they were
      ([vnode_life]); a commit that no batch interrupts ends and leaves no rest
      ([commit_complete]).  The conditions on a step ([vop_ok], [commit_ok]; [whole_ok] asks
      the latter of every round) are: keys are positive and below [keyMax], and
      rows are as wide as their table; at a commit the newest file is within the
      retention, the rows have values that the compression keeps ([row_ok]: with
      compression no FLOAT column, BIGINT values of 59 bits, BOOL bytes that are
      true, false or null), and there is memory: a table needs at most one block
      for each full [pointsPerFileBlock] rows and three more ([total_need]), and
      sizes stay below 2^31.  [commit_never_ends] is a vnode whose newest file is
      older than what is kept, [int_guard_gap] and [float_lossy_lp64] are values
      that are not kept.
    - Blocks of files: a block whose columns take less than 2^23 bytes, with values
      that the compression keeps, reads back as it was written, whatever follows
      it ([block_roundtrip]); the statistics of a column are those of its values,
      but for the weighted sum ([int_statistics]).
    - Cache of a vnode: with any tables that share the pool, the rows that commits
      wrote and those the next one would write are the rows that were accepted,
      in order ([cache_no_loss]); every operation returns ([cache_step_defined]),
      for tables with less than 2^15 rows in a block of a file and room for a row
      in a block of the cache ([wide_table_overruns] and
      [short_rows_out_of_block] are others);
      a row is refused for want of blocks only ([cache_refusal]); a query reads
      the rows in its range of the newest rows ([cache_query]).  [ghost] is the
      abstract table: all its rows, how many of them are committed, and which
      blocks it has filled, marked as committed and has still to commit.
    - Commit log: whatever is submitted to tables that stay, with commits that do
      not fail, and whenever the process stops between two steps, the records that were acknowledged are in a finished commit or in
      one of the two logs, and opening the vnode submits those
      ([commit_log_durable]); so it is when a record is torn ([commit_log_torn]).
      The header fields of a record have to sum up to less than 2^23
      ([check_bit_23]); the lemmas of the module Demo are runs into the cases
      that the hypotheses leave out ([failed_commit_drops_olog],
      [shifted_log_lost]).
    - Management tables: over any life of a table, with restarts, the rows in
      memory and the rows its files open to are those of an abstract map
      ([sdb_durable]); a life leaves out insertions into a full table, automatic
      keys that are in use, and what a table opened from a torn record does; a crash
      during an operation loses at most that operation ([sdb_crash_atomic]);
      operations do not abort or touch freed memory ([sdb_operations]); closing
      frees every row once ([sdb_closed]).  [auto_key_reused] is a run that
      overwrites a row.
    - Skip list: a list stands for its entries in order ([skip_inv]: the links of
      all levels, the levels, the counters); insertion, removal, queries and
      destruction are those of that sorted list ([skip_put], [skip_remove],
      [skip_query], [skip_point_query], [skip_destroy]).  A key that is larger
      than all others cannot be asked to leave.
    - Super tables: whatever tables come, go and change their first tag, list and
      index hold the same tables ([metric_index_exact]); a query returns the
      tables its condition holds of ([metric_query_exact]), but for an OR below
      an AND ([or_below_and_lost]) and for first tags at the ends of their type
      ([less_misses_empty]).  The height drawn for a new node has to be
      below 21 when all 20 levels are in use ([level_ok]); [height_21] is a seed
      with height 21.
    - Codecs: where [unsigned long] has 64 bits, what is compressed decompresses
      to itself, in bounds, and within the stated sizes (a BOOL takes two bits);
      where a codec gives up, and where it goes wrong.
    - Checksums: the table-driven and the instruction-driven versions equal the
      bitwise one; a sealed record is accepted and a change within four bytes is
      not.
    - Embedded database, of a schema without compression and with its columns
      apart: the rows put in a new database are in its files and its cache, the
      files byte for byte ([put_db_keeps_rows]; no query may come between,
      [query_breaks_save], and the mapping has to have room for the cache,
      [last_row_outside]); a saved block reads back ([read_saved_rows]), the
      cursor walks the rows of a range whose ends are not those of the block and
      are the times of one row at most ([block_rows_walked], else
      [empty_range_escapes] and [binary_search_duplicates]), and [move_next]
      ends; and the runs on which it reads or writes outside its buffers.
    - Pools and scheduler: identifiers and blocks are never handed out twice;
      messages leave the queue in order, under every interleaving without
      interrupted waits, and all of them are run.
    - Loser tree: merging the blocks of several tables gives each block once and
      in order ([blocks_in_order]).
    - Tokens of a statement: [tSQLParse] stays inside the text, ends, and passes
      the tokens of the text in their order, each of the type that the grammar
      gives it ([sql_parsed]); [long_word_overruns] and [high_char_below_table]
      are the texts on which it does not.

    ** Not modelled

    The query engine, the grammar of SQL and what follows it (the generated
    parser, the commands), the network layer, imports of old rows and
    the opening and closing of vnodes, and the client library
    (src/src/system/src/vnode*, src/src/client but for what is named above,
    src/src/rpc); platform code (src/src/os), tools, connectors and modules;
    what is vendored (deps, lz4.c) or generated (sql.c): they are input and
    output, or stand on floating point and on the layout of messages, or are a
    hundred thousand lines of their own.  Of the modelled files:
    the second tokenizer [tStrGetToken], [sdbResetTable], which nothing calls, the functions that only release
    memory, tracing, the locks of the skip list, its floating point and wide
    character keys, a loss of power (the mapped pages of the commit log survive a
    crash of the process); of the cache the filters and the absent columns of a
    query, the changes vnodeImport.c makes to cached blocks, the timers, the locks
    and the closing of the pool, and searching by interpolation; queries of
    descending order and offsets are modelled, and run in CacheDemo.v, but not
    proved; [close_query] and the parsing of times in [open_query].  Of a commit:
    a batch that comes while the cache is read for a file, a crash between the
    two renames, a copy by [sendfile] that fails, the storage that is counted for
    statistics, and the default of ten days in a file for a vnode without the
    setting.  A vnode begins without files: [CommitLog] and [Vnode] are not joined
    by a model of the opening of a vnode. *)

From Stdlib Require Export ZArith Lia.
From stdpp Require Export list gmap.
Open Scope Z_scope.

(** ** Outcomes of C code

    [Ret a] is a normal return; [Exit] is [exit(1)] or a failed [assert];
    [Undef] is an access outside an object, a read of an uninitialised
    variable or another undefined operation; [NoFuel] marks a loop whose fuel
    ran out, and is proved unreachable where a loop is modelled with fuel. *)
Inductive res (A : Type) : Type :=
| Ret (a : A)
| Exit
| Undef
| NoFuel.
Arguments Ret {A} a.
Arguments Exit {A}.
Arguments Undef {A}.
Arguments NoFuel {A}.

Definition rbind {A B} (m : res A) (f : A -> res B) : res B :=
  match m with
  | Ret a => f a
  | Exit => Exit
  | Undef => Undef
  | NoFuel => NoFuel
  end.

Declare Scope res_scope.
Delimit Scope res_scope with res.
Notation "'let!' x := m 'in' k" := (rbind m (fun x => k))
  (at level 10, x binder, m at level 100, k at level 200) : res_scope.
Open Scope res_scope.

#[export] Instance res_eq_dec {A} `{EqDecision A} : EqDecision (res A).
Proof. solve_decision. Defined.

Lemma rbind_Ret_inv {A B} (m : res A) (f : A -> res B) b :
  rbind m f = Ret b -> exists a, m = Ret a /\ f a = Ret b.
Proof. destruct m; simpl; try discriminate. eauto. Qed.

Lemma rbind_Ret_r {A} (m : res A) : rbind m Ret = m.
Proof. by destruct m. Qed.

Lemma rbind_assoc {A B C} (m : res A) (f : A -> res B) (g : B -> res C) :
  rbind (rbind m f) g = rbind m (fun a => rbind (f a) g).
Proof. by destruct m. Qed.

(** [res_inv] splits every hypothesis [rbind m f = Ret b] it finds. *)
Ltac res_inv :=
  repeat match goal with
  | H : rbind _ _ = Ret _ |- _ =>
      let a := fresh "a" in let Ha := fresh "Ha" in
      apply rbind_Ret_inv in H as (a & Ha & H)
  | H : Ret _ = Ret _ |- _ => injection H as H; try subst
  end.

(** ** Machine integers

    A [w]-bit unsigned (signed) integer is a [Z] reduced by [wrapu w]
    ([wraps w]); conversions between the C types are these reductions. *)
Definition wrapu (w z : Z) : Z := z mod 2 ^ w.
Definition wraps (w z : Z) : Z := (z + 2 ^ (w - 1)) mod 2 ^ w - 2 ^ (w - 1).

Abbreviation u8 := (wrapu 8).
Abbreviation u16 := (wrapu 16).
Abbreviation u32 := (wrapu 32).
Abbreviation u64 := (wrapu 64).
Abbreviation i8 := (wraps 8).
Abbreviation i16 := (wraps 16).
Abbreviation i32 := (wraps 32).
Abbreviation i64 := (wraps 64).

Definition in_u (w z : Z) : Prop := 0 <= z < 2 ^ w.
Definition in_s (w z : Z) : Prop := - 2 ^ (w - 1) <= z < 2 ^ (w - 1).

Create HintDb cint discriminated.
Create Rewrite HintDb cint_rw.

Lemma pow2_pos w : 0 <= w -> 0 < 2 ^ w.
Proof. intros. apply Z.pow_pos_nonneg; lia. Qed.

Lemma pow2_half w : 0 < w -> 2 ^ w = 2 * 2 ^ (w - 1).
Proof. intros. rewrite <- Z.pow_succ_r by lia. f_equal. lia. Qed.

Lemma wrapu_range w z : 0 <= w -> in_u w (wrapu w z).
Proof. intros. apply Z.mod_pos_bound. by apply pow2_pos. Qed.

Lemma wraps_range w z : 0 < w -> in_s w (wraps w z).
Proof.
  intros. unfold in_s, wraps. rewrite (pow2_half w) by lia.
  pose proof (pow2_pos (w - 1)).
  pose proof (Z.mod_pos_bound (z + 2 ^ (w - 1)) (2 * 2 ^ (w - 1))). lia.
Qed.

Lemma wrapu_id w z : in_u w z -> wrapu w z = z.
Proof. intros. by apply Z.mod_small. Qed.

Lemma wraps_id w z : 0 < w -> in_s w z -> wraps w z = z.
Proof.
  unfold in_s, wraps. intros Hw Hz. rewrite Z.mod_small; [lia|].
  rewrite (pow2_half w) by lia. lia.
Qed.

Lemma wraps_spec w z : 0 < w -> exists q, wraps w z = z + q * 2 ^ w.
Proof.
  intros Hw. exists (- ((z + 2 ^ (w - 1)) / 2 ^ w)). unfold wraps.
  pose proof (pow2_pos w).
  rewrite (Z.mod_eq (z + 2 ^ (w - 1)) (2 ^ w)) by lia. lia.
Qed.

Lemma wrapu_spec w z : 0 <= w -> exists q, wrapu w z = z + q * 2 ^ w.
Proof.
  intros Hw. exists (- (z / 2 ^ w)). unfold wrapu.
  pose proof (pow2_pos w). rewrite (Z.mod_eq z (2 ^ w)) by lia. lia.
Qed.

(** Two numbers that agree modulo [2^w] have the same reductions. *)
Lemma wraps_congr w z z' q : 0 < w -> z = z' + q * 2 ^ w -> wraps w z = wraps w z'.
Proof.
  intros Hw ->. unfold wraps. f_equal.
  replace (z' + q * 2 ^ w + 2 ^ (w - 1)) with (z' + 2 ^ (w - 1) + q * 2 ^ w) by lia.
  apply Z_mod_plus_full.
Qed.

Lemma wrapu_congr w z z' q : 0 <= w -> z = z' + q * 2 ^ w -> wrapu w z = wrapu w z'.
Proof. intros Hw ->. unfold wrapu. apply Z_mod_plus_full. Qed.

(** Adding back what was subtracted undoes it, whatever overflowed. *)
Lemma wraps_sub_add w a b : 0 < w -> in_s w a -> wraps w (wraps w (a - b) + b) = a.
Proof.
  intros Hw Ha. destruct (wraps_spec w (a - b) Hw) as [q Hq].
  rewrite (wraps_congr w _ a q) by lia. by apply wraps_id.
Qed.

Lemma wraps_wrapu w z : 0 < w -> wraps w (wrapu w z) = wraps w z.
Proof.
  intros Hw. destruct (wrapu_spec w z) as [q Hq]; [lia|].
  by apply (wraps_congr w _ _ q).
Qed.

Lemma wrapu_wraps w z : 0 < w -> wrapu w (wraps w z) = wrapu w z.
Proof.
  intros Hw. destruct (wraps_spec w z Hw) as [q Hq].
  apply (wrapu_congr w _ _ q); lia.
Qed.

#[export] Hint Resolve wrapu_range wraps_range : cint.
#[export] Hint Rewrite wraps_wrapu wrapu_wraps using lia : cint_rw.

(** ** Little-endian bytes and buffers

    Memory is a list of bytes, each a [Z] in [0, 256).  An access outside the
    list is [Undef]. *)
Definition byte_ok (b : Z) : Prop := 0 <= b < 256.
Definition bytes_ok (l : list Z) : Prop := Forall byte_ok l.

Fixpoint le_bytes (n : nat) (z : Z) : list Z :=
  match n with
  | O => []
  | S n' => z mod 256 :: le_bytes n' (z / 256)
  end.

Fixpoint le_val (l : list Z) : Z :=
  match l with
  | [] => 0
  | b :: t => b + 256 * le_val t
  end.

Lemma length_le_bytes n z : length (le_bytes n z) = n.
Proof. revert z. induction n; intros z; simpl; auto. Qed.

Lemma le_bytes_ok n z : bytes_ok (le_bytes n z).
Proof.
  unfold bytes_ok. revert z. induction n; intros z; simpl; [constructor|].
  constructor; [|done]. apply Z.mod_pos_bound. lia.
Qed.

Lemma pow256_S n : 2 ^ (8 * Z.of_nat (S n)) = 256 * 2 ^ (8 * Z.of_nat n).
Proof.
  replace (8 * Z.of_nat (S n)) with (8 + 8 * Z.of_nat n) by lia.
  rewrite Z.pow_add_r by lia. reflexivity.
Qed.

Lemma le_val_bytes n z : le_val (le_bytes n z) = z mod 2 ^ (8 * Z.of_nat n).
Proof.
  revert z. induction n; intros z.
  - simpl. by rewrite Z.mod_1_r.
  - simpl le_bytes. simpl le_val. rewrite IHn, pow256_S.
    pose proof (pow2_pos (8 * Z.of_nat n)).
    rewrite Z.rem_mul_r by lia. lia.
Qed.

Lemma le_val_range l : bytes_ok l -> in_u (8 * Z.of_nat (length l)) (le_val l).
Proof.
  unfold in_u. induction 1 as [|b l Hb _ IH].
  - simpl. lia.
  - simpl length. rewrite pow256_S. simpl le_val. unfold byte_ok in Hb. lia.
Qed.

Lemma le_bytes_val l : bytes_ok l -> le_bytes (length l) (le_val l) = l.
Proof.
  induction 1 as [|b l Hb _ IH]; [done|]. simpl. unfold byte_ok in Hb. f_equal.
  - rewrite Z.mul_comm, Z_mod_plus_full. by apply Z.mod_small.
  - rewrite Z.mul_comm, Z.div_add, Z.div_small by lia. by rewrite Z.add_0_l.
Qed.

Lemma le_bytes_congr n z z' q :
  z = z' + q * 2 ^ (8 * Z.of_nat n) -> le_bytes n z = le_bytes n z'.
Proof.
  revert z z'. induction n; intros z z' Hz; [done|]. rewrite pow256_S in Hz. simpl.
  subst z. f_equal.
  - replace (q * (256 * 2 ^ (8 * Z.of_nat n))) with
      (q * 2 ^ (8 * Z.of_nat n) * 256) by lia. apply Z_mod_plus_full.
  - apply IHn. replace (q * (256 * 2 ^ (8 * Z.of_nat n))) with
      (q * 2 ^ (8 * Z.of_nat n) * 256) by lia. rewrite Z.div_add by lia. lia.
Qed.

Lemma le_bytes_wraps n z : (0 < n)%nat ->
  le_bytes n (wraps (8 * Z.of_nat n) z) = le_bytes n z.
Proof.
  intros Hn. destruct (wraps_spec (8 * Z.of_nat n) z) as [q Hq]; [lia|].
  by apply (le_bytes_congr _ _ _ q).
Qed.

Lemma le_val_app l1 l2 :
  le_val (l1 ++ l2) = le_val l1 + 2 ^ (8 * Z.of_nat (length l1)) * le_val l2.
Proof.
  induction l1 as [|b l1 IH].
  - simpl. lia.
  - simpl length. rewrite pow256_S. simpl. rewrite IH. lia.
Qed.

(** A computation that does not run out of fuel. *)
Definition ends {A} (m : res A) : Prop := m <> NoFuel.

Lemma ends_bind {A B} (m : res A) (f : A -> res B) :
  ends m -> (forall a, m = Ret a -> ends (f a)) -> ends (rbind m f).
Proof. destruct m; intros Hm Hf; cbn [rbind]; try done. by apply Hf. Qed.

(** [rd buf off len] is the [len] bytes at [buf + off]. *)
Definition rd (buf : list Z) (off len : Z) : res (list Z) :=
  if bool_decide (0 <= off /\ 0 <= len /\ off + len <= Z.of_nat (length buf)) then
    Ret (take (Z.to_nat len) (drop (Z.to_nat off) buf))
  else Undef.

(** [rd1 buf off] is the byte [buf\[off\]]. *)
Definition rd1 (buf : list Z) (off : Z) : res Z :=
  if off <? 0 then Undef
  else match buf !! Z.to_nat off with Some b => Ret b | None => Undef end.

(** [rds w buf j] is the signed [w]-byte element [((intN_t * )buf)\[j\]]. *)
Definition rds (w : Z) (buf : list Z) (j : Z) : res Z :=
  let! bs := rd buf (j * w) w in Ret (wraps (8 * w) (le_val bs)).

(** [wr buf off bs] is [memcpy(buf + off, bs, length bs)]. *)
Definition wr (buf : list Z) (off : Z) (bs : list Z) : res (list Z) :=
  if bool_decide (0 <= off /\ off + Z.of_nat (length bs) <= Z.of_nat (length buf)) then
    Ret (take (Z.to_nat off) buf ++ bs ++ drop (Z.to_nat off + length bs) buf)
  else Undef.

Lemma rd_ends buf off len : ends (rd buf off len).
Proof. unfold rd. by case_bool_decide. Qed.

Lemma wr_ends buf off bs : ends (wr buf off bs).
Proof. unfold wr. by case_bool_decide. Qed.

Lemma rds_ends w buf j : ends (rds w buf j).
Proof. apply ends_bind; [apply rd_ends|done]. Qed.

Lemma wr_app_mid a b c off bs : off = Z.of_nat (length a) -> length b = length bs ->
  wr (a ++ b ++ c) off bs = Ret (a ++ bs ++ c).
Proof.
  intros -> Hl. unfold wr. rewrite bool_decide_true by (rewrite !length_app; lia).
  rewrite Nat2Z.id, take_app_length, <- Hl, <- drop_drop, !drop_app_length. done.
Qed.

Lemma wr_Ret buf off bs buf' : wr buf off bs = Ret buf' ->
  0 <= off /\ length buf' = length buf /\
  exists a b c, buf = a ++ b ++ c /\ Z.of_nat (length a) = off /\ length b = length bs /\
    buf' = a ++ bs ++ c.
Proof.
  unfold wr. case_bool_decide as Hb; [|done]. intros [= <-]. split; [lia|]. split.
  - rewrite !length_app, length_take, length_drop. lia.
  - exists (take (Z.to_nat off) buf), (take (length bs) (drop (Z.to_nat off) buf)),
      (drop (Z.to_nat off + length bs) buf).
    rewrite <- drop_drop, !take_drop, !length_take, length_drop. repeat split; lia.
Qed.

(** Reading what was written, and elsewhere. *)
Lemma rd_wr_same buf off bs buf' : wr buf off bs = Ret buf' ->
  rd buf' off (Z.of_nat (length bs)) = Ret bs.
Proof.
  intros (Ho & _ & a & b & c & -> & Ha & Hb & ->)%wr_Ret. unfold rd.
  rewrite bool_decide_true by (rewrite !length_app; lia).
  rewrite Nat2Z.id, <- Ha, Nat2Z.id, drop_app_length, take_app_length. done.
Qed.

Lemma rd_wr_other buf off bs buf' off' len : wr buf off bs = Ret buf' ->
  off' + len <= off \/ off + Z.of_nat (length bs) <= off' -> rd buf' off' len = rd buf off' len.
Proof.
  intros (Ho & Hl & a & b & c & -> & Ha & Hb & ->)%wr_Ret Hd. unfold rd. rewrite Hl.
  case_bool_decide as Hr; [|done]. f_equal. destruct Hd as [Hd|Hd].
  - rewrite !drop_app_le, !take_app_le by (rewrite ?length_drop; lia). done.
  - rewrite !drop_app, Hb. replace (drop (Z.to_nat off' - length a) bs) with (@nil Z)
      by (symmetry; apply drop_ge; lia).
    replace (drop (Z.to_nat off' - length a) b) with (@nil Z) by (symmetry; apply drop_ge; lia).
    done.
Qed.

Lemma wr_ok buf off bs : 0 <= off -> off + Z.of_nat (length bs) <= Z.of_nat (length buf) ->
  exists buf', wr buf off bs = Ret buf' /\ length buf' = length buf.
Proof.
  intros H1 H2. unfold wr. rewrite bool_decide_true by lia. eexists. split; [done|].
  rewrite !length_app, length_take, length_drop. lia.
Qed.

Lemma bytes_ok_app a b : bytes_ok (a ++ b) <-> bytes_ok a /\ bytes_ok b.
Proof. apply Forall_app. Qed.

Lemma bytes_ok_cons b l : byte_ok b -> bytes_ok l -> bytes_ok (b :: l).
Proof. by constructor. Qed.

Lemma byte_ok_u8 z : byte_ok (u8 z).
Proof. exact (wrapu_range 8 z ltac:(lia)). Qed.

Lemma bytes_ok_rd buf off len bs : bytes_ok buf -> rd buf off len = Ret bs -> bytes_ok bs.
Proof.
  unfold rd. intros Hb. case_bool_decide; [|done]. intros [= <-]. by apply Forall_take, Forall_drop.
Qed.

Lemma rd_app_mid a b c off len :
  off = Z.of_nat (length a) -> len = Z.of_nat (length b) ->
  rd (a ++ b ++ c) off len = Ret b.
Proof.
  intros -> ->. unfold rd. rewrite bool_decide_true by (rewrite !length_app; lia).
  rewrite !Nat2Z.id, drop_app_length, take_app_length. done.
Qed.

Lemma rd_full l : rd l 0 (Z.of_nat (length l)) = Ret l.
Proof. pose proof (rd_app_mid [] l [] 0 (Z.of_nat (length l)) eq_refl eq_refl) as H.
  simpl in H. by rewrite app_nil_r in H. Qed.

Lemma rd_Ret buf off len bs : rd buf off len = Ret bs ->
  exists a c, buf = a ++ bs ++ c /\ Z.of_nat (length a) = off /\ Z.of_nat (length bs) = len.
Proof.
  unfold rd. case_bool_decide as Hb; [|done]. intros [= <-].
  exists (take (Z.to_nat off) buf), (drop (Z.to_nat len) (drop (Z.to_nat off) buf)).
  rewrite !take_drop, length_take, length_take, length_drop. repeat split; lia.
Qed.

Lemma rd1_app_mid a b c off : off = Z.of_nat (length a) -> rd1 (a ++ b :: c) off = Ret b.
Proof.
  intros ->. unfold rd1. rewrite (proj2 (Z.ltb_ge _ _)) by lia.
  rewrite Nat2Z.id, list_lookup_middle; done.
Qed.

Lemma rd1_lookup l i b : 0 <= i -> l !! Z.to_nat i = Some b -> rd1 l i = Ret b.
Proof. intros Hi Hb. unfold rd1. rewrite (proj2 (Z.ltb_ge _ _)) by lia. by rewrite Hb. Qed.

Lemma wr_one l i v : 0 <= i -> (Z.to_nat i < length l)%nat -> wr l i [v] = Ret (<[Z.to_nat i := v]> l).
Proof.
  intros Hi Hl. unfold wr. rewrite bool_decide_true by (cbn; lia). f_equal. rewrite insert_take_drop by done. cbn. do 3 f_equal. lia.
Qed.

(** The bytes of a C string, without the terminator, at the start of [mem]. *)
Fixpoint c_string (mem : list Z) : res (list Z) :=
  match mem with
  | [] => Undef
  | b :: mem => if b =? 0 then Ret [] else let! s := c_string mem in Ret (b :: s)
  end.

Lemma c_string_inv mem s : c_string mem = Ret s -> exists rest, mem = s ++ 0 :: rest /\ 0 ∉ s.
Proof.
  revert s. induction mem as [|b mem IH]; intros s Hs; [done|]. cbn [c_string] in Hs.
  destruct (Z.eqb_spec b 0) as [->|Hb].
  - injection Hs as <-. exists mem. split; [done|]. by apply not_elem_of_nil.
  - apply rbind_Ret_inv in Hs as (s' & Hs & [= <-]). destruct (IH s' Hs) as (rest & -> & Hn).
    exists rest. split; [done|]. apply not_elem_of_cons. split; congruence.
Qed.

Lemma c_string_of s rest : (0 ∉ s) -> c_string (s ++ 0 :: rest) = Ret s.
Proof.
  induction s as [|b s IH]; intros Hs; [done|]. apply not_elem_of_cons in Hs as [Hb Hs].
  cbn [app c_string]. rewrite (proj2 (Z.eqb_neq b 0)), IH by (done || lia). done.
Qed.

Lemma rem_mod a b : 0 <= a -> 0 < b -> Z.rem a b = a mod b.
Proof. intros. apply Z.rem_mod_nonneg; lia. Qed.

(** ** Constant tables, and facts about a finite range checked by evaluation *)
Lemma check_range (P : Z -> bool) (n : Z) :
  forallb P (seqZ 0 n) = true -> forall s, 0 <= s < n -> P s = true.
Proof.
  rewrite forallb_forall. intros HP s Hs. apply HP. apply list_elem_of_In, elem_of_seqZ. lia.
Qed.

Lemma rd1_table (t : list Z) s : 0 <= s < Z.of_nat (length t) ->
  rd1 t s = Ret (nth (Z.to_nat s) t 0).
Proof.
  intros Hs. destruct (lookup_lt_is_Some_2 t (Z.to_nat s)) as [v Hv]; [lia|].
  rewrite (rd1_lookup _ _ v) by (done || lia). by erewrite nth_lookup_Some.
Qed.

Lemma rd1_table_inv (t : list Z) s v : rd1 t s = Ret v ->
  0 <= s < Z.of_nat (length t) /\ v = nth (Z.to_nat s) t 0.
Proof.
  unfold rd1. destruct (Z.ltb_spec s 0); [done|].
  destruct (t !! Z.to_nat s) eqn:Hl; [|done]. intros [= ->].
  pose proof (lookup_lt_Some _ _ _ Hl). split; [lia|]. by erewrite nth_lookup_Some.
Qed.

Lemma rem2 i : 0 <= i -> Z.rem i 2 = i mod 2.
Proof. intros. apply rem_mod; lia. Qed.

(** ** Arrays of [w]-byte signed integers in memory *)
Definition pack_elems (w : nat) (vals : list Z) : list Z := concat (map (le_bytes w) vals).

Lemma length_pack_elems w vals : length (pack_elems w vals) = (length vals * w)%nat.
Proof.
  unfold pack_elems. induction vals; simpl; [done|]. by rewrite length_app, length_le_bytes, IHvals.
Qed.

Lemma pack_elems_app w l1 l2 : pack_elems w (l1 ++ l2) = pack_elems w l1 ++ pack_elems w l2.
Proof. unfold pack_elems. by rewrite map_app, concat_app. Qed.

Lemma pack_elems_cons w v l : pack_elems w (v :: l) = le_bytes w v ++ pack_elems w l.
Proof. done. Qed.

Lemma pack_elems_one w v : pack_elems w [v] = le_bytes w v.
Proof. unfold pack_elems. simpl. by rewrite app_nil_r. Qed.

Lemma pack_elems_ok w l : bytes_ok (pack_elems w l).
Proof.
  unfold bytes_ok. induction l; [constructor|]. rewrite pack_elems_cons.
  apply Forall_app. split; [apply le_bytes_ok|done].
Qed.

(** Every byte array of the right length is such an array. *)
Lemma typed_view w (n : nat) input :
  (0 < w)%nat -> bytes_ok input -> length input = (n * w)%nat ->
  exists vals, length vals = n /\ Forall (in_s (8 * Z.of_nat w)) vals /\
    input = pack_elems w vals.
Proof.
  intros Hw. revert input. induction n as [|n IH]; intros input Hok Hlen.
  - exists []. destruct input; [done|]. simpl in Hlen. lia.
  - destruct (IH (drop w input)) as (vals & Hl & Hr & Heq).
    { by apply Forall_drop. }
    { rewrite length_drop. simpl in Hlen. lia. }
    exists (wraps (8 * Z.of_nat w) (le_val (take w input)) :: vals).
    split; [simpl; lia|]. split; [constructor; [apply wraps_range; lia|done]|].
    rewrite pack_elems_cons, <- Heq, le_bytes_wraps by lia.
    assert (Ht : length (take w input) = w) by (rewrite length_take; simpl in Hlen; lia).
    rewrite <- Ht at 1. rewrite le_bytes_val by by apply Forall_take.
    by rewrite take_drop.
Qed.

Lemma rds_pack w vals j v :
  (0 < w)%nat -> 0 <= j -> vals !! Z.to_nat j = Some v -> in_s (8 * Z.of_nat w) v ->
  rds (Z.of_nat w) (pack_elems w vals) j = Ret v.
Proof.
  intros Hw Hj Hv Hr. unfold rds. rewrite <- (take_drop_middle _ _ _ Hv).
  rewrite pack_elems_app, pack_elems_cons. apply lookup_lt_Some in Hv.
  rewrite rd_app_mid; [| |by rewrite length_le_bytes].
  - simpl. rewrite le_val_bytes. change (_ mod _) with (wrapu (8 * Z.of_nat w) v).
    rewrite wraps_wrapu by lia. by rewrite wraps_id by (done || lia).
  - rewrite length_pack_elems, length_take. lia.
Qed.

(** The same view with unsigned elements. *)
Lemma typed_view_u w (n : nat) input :
  (0 < w)%nat -> bytes_ok input -> length input = (n * w)%nat ->
  exists vals, length vals = n /\ Forall (in_u (8 * Z.of_nat w)) vals /\
    input = pack_elems w vals.
Proof.
  intros Hw Hok Hlen. destruct (typed_view w n input Hw Hok Hlen) as (vals & Hl & _ & ->).
  exists (map (wrapu (8 * Z.of_nat w)) vals). split; [by rewrite length_map|]. split.
  - apply Forall_map, Forall_true. intros v. apply wrapu_range. lia.
  - unfold pack_elems. rewrite map_map. f_equal. apply map_ext. intros v.
    destruct (wrapu_spec (8 * Z.of_nat w) v) as [q Hq]; [lia|].
    symmetry. by apply (le_bytes_congr _ _ _ q).
Qed.

(** Element [i] of the view, as it is read at the head of the remaining ones. *)
Lemma rd_pack_drop w vals i v vs : 0 <= i -> drop (Z.to_nat i) vals = v :: vs ->
  rd (pack_elems w vals) (i * Z.of_nat w) (Z.of_nat w) = Ret (le_bytes w v) /\
  drop (Z.to_nat (i + 1)) vals = vs /\ v ∈ vals.
Proof.
  intros Hi Hd. assert (Hv : vals !! Z.to_nat i = Some v)
    by (rewrite <- (Nat.add_0_r (Z.to_nat i)), <- lookup_drop, Hd; done).
  split; [|split].
  - rewrite <- (take_drop_middle _ _ _ Hv), pack_elems_app, pack_elems_cons.
    apply lookup_lt_Some in Hv. apply rd_app_mid; rewrite ?length_le_bytes; [|done].
    rewrite length_pack_elems, length_take. lia.
  - replace (Z.to_nat (i + 1)) with (Z.to_nat i + 1)%nat by lia. by rewrite <- drop_drop, Hd.
  - by eapply list_elem_of_lookup_2.
Qed.

Lemma drop_nil_len {A} (l : list A) i : 0 <= i -> drop (Z.to_nat i) l = [] ->
  Z.of_nat (length l) <= i.
Proof.
  intros Hi Hd. apply (f_equal length) in Hd. rewrite length_drop in Hd. simpl in Hd. lia.
Qed.

Lemma drop_cons_len {A} (l l' : list A) i : 0 <= i -> drop (Z.to_nat i) l = l' -> l' <> [] ->
  Z.of_nat (length l) = i + Z.of_nat (length l').
Proof.
  intros Hi Hd Hne. apply (f_equal length) in Hd. rewrite length_drop in Hd.
  destruct l'; [done|]. simpl in *. lia.
Qed.

(** Induction over a list two elements at a time. *)
Lemma list_ind2 {A} (P : list A -> Prop) :
  P [] -> (forall x, P [x]) -> (forall x y l, P l -> P (x :: y :: l)) -> forall l, P l.
Proof.
  intros H0 H1 H2 l. enough (P l /\ forall x, P (x :: l)) by tauto.
  induction l as [|y l [IH1 IH2]]; auto.
Qed.

(** Optional steps inside [res]: [None] abandons the computation. *)
Notation "'let?' x := m 'in' k" := (match m with Some x => k | None => Ret None end)
  (at level 10, x name, m at level 100, k at level 200) : res_scope.

(** ** Bits *)
Lemma lor_shiftl a b n : 0 <= n -> 0 <= a < 2 ^ n -> Z.lor a (Z.shiftl b n) = a + b * 2 ^ n.
Proof.
  intros Hn Ha. rewrite <- Z.shiftl_mul_pow2 by lia.
  rewrite <- Z.lxor_lor, Z.add_nocarry_lxor; [done| |];
    (apply Z.bits_inj'; intros i Hi; rewrite Z.land_spec, Z.bits_0, Z.shiftl_spec by lia;
     destruct (decide (i < n));
     [rewrite (Z.testbit_neg_r b) by lia; apply andb_false_r|
      rewrite <- (Z.mod_small a (2 ^ n)), Z.mod_pow2_bits_high by lia; done]).
Qed.

(** The mask [(1 << n) - 1] keeps the low [n] bits. *)
Lemma land_mask a n : 0 <= n -> Z.land a (2 ^ n - 1) = a mod 2 ^ n.
Proof. intros. rewrite <- Z.land_ones by lia. by rewrite Z.ones_equiv. Qed.

Lemma lor_range a b n : 0 <= n -> in_u n a -> in_u n b -> in_u n (Z.lor a b).
Proof.
  unfold in_u. intros Hn Ha Hb. split; [apply Z.lor_nonneg; lia|].
  rewrite <- (Z.mod_small a (2 ^ n)), <- (Z.mod_small b (2 ^ n)) by lia.
  rewrite <- !Z.land_ones, <- Z.land_lor_distr_l, Z.land_ones by lia.
  apply Z.mod_pos_bound. by apply pow2_pos.
Qed.

Lemma lxor_range a b n : 0 <= n -> in_u n a -> in_u n b -> in_u n (Z.lxor a b).
Proof.
  unfold in_u. intros Hn Ha Hb. split; [apply Z.lxor_nonneg; lia|].
  rewrite <- (Z.mod_small a (2 ^ n)), <- (Z.mod_small b (2 ^ n)) by lia.
  rewrite <- !Z.land_ones by lia.
  replace (Z.lxor (Z.land a (Z.ones n)) (Z.land b (Z.ones n)))
    with (Z.land (Z.lxor a b) (Z.ones n))
    by (apply Z.bits_inj'; intros i Hi; rewrite !Z.lxor_spec, !Z.land_spec, Z.lxor_spec;
        destruct (Z.testbit a i), (Z.testbit b i), (Z.testbit (Z.ones n) i); done).
  rewrite Z.land_ones by lia. apply Z.mod_pos_bound. by apply pow2_pos.
Qed.

(** [x ^ (2^n - 1)] is the complement within [n] bits. *)
Lemma lxor_ones x n : 0 <= n -> 0 <= x < 2 ^ n -> Z.lxor x (2 ^ n - 1) = 2 ^ n - 1 - x.
Proof.
  intros Hn Hx. replace (2 ^ n - 1) with (Z.ones n) by (rewrite Z.ones_equiv; lia).
  rewrite (Z.sub_nocarry_ldiff (Z.ones n) x).
  - apply Z.bits_inj'. intros i Hi. rewrite Z.lxor_spec, Z.ldiff_spec.
    destruct (decide (i < n)).
    + rewrite Z.ones_spec_low by lia. by destruct (Z.testbit x i).
    + rewrite Z.ones_spec_high by lia.
      rewrite <- (Z.mod_small x (2 ^ n)), Z.mod_pow2_bits_high by lia. done.
  - apply Z.bits_inj'. intros i Hi. rewrite Z.ldiff_spec, Z.bits_0.
    destruct (decide (i < n)).
    + rewrite Z.ones_spec_low by lia. by destruct (Z.testbit x i).
    + rewrite <- (Z.mod_small x (2 ^ n)), Z.mod_pow2_bits_high by lia. done.
Qed.

(** ** GCC builtins on a 64-bit word; undefined at 0 *)
Definition builtin_clzll (x : Z) : Z := 63 - Z.log2 x.

Fixpoint ctz_pos (p : positive) : Z :=
  match p with
  | xO p' => 1 + ctz_pos p'
  | _ => 0
  end.

Definition builtin_ctzll (x : Z) : Z :=
  match x with
  | Zpos p => ctz_pos p
  | _ => 0
  end.

Lemma ctz_spec x : 0 < x -> 0 <= builtin_ctzll x <= Z.log2 x /\ (2 ^ builtin_ctzll x | x).
Proof.
  destruct x as [|p|p]; try lia. intros _. unfold builtin_ctzll.
  induction p as [p _|p [IH1 [k Hk]]|]; cbn [ctz_pos].
  - split; [split; [lia|apply Z.log2_nonneg]|apply Z.divide_1_l].
  - split.
    + change (Z.pos p~0) with (2 * Z.pos p). rewrite Z.log2_double by lia. lia.
    + exists k. rewrite Z.pow_add_r by lia. lia.
  - split; [simpl; lia|apply Z.divide_1_l].
Qed.

Lemma log2_range x n : 0 < n -> 0 < x < 2 ^ n -> 0 <= Z.log2 x < n.
Proof. intros. split; [apply Z.log2_nonneg|]. apply Z.log2_lt_pow2; lia. Qed.

Arguments wrapu : simpl never.
Arguments wraps : simpl never.
Arguments rd : simpl never.
Arguments wr : simpl never.
Arguments rd1 : simpl never.
Arguments rds : simpl never.

(** ** Filters that keep all, nothing, or the same *)
Lemma filter_id {A} (P : A -> Prop) `{!forall x, Decision (P x)} l : Forall P l -> filter P l = l.
Proof. induction 1 as [|x l Hx Hl IH]; [done|]. by rewrite filter_cons, decide_True, IH. Qed.

Lemma filter_none {A} (P : A -> Prop) `{!forall x, Decision (P x)} l : Forall (fun x => ~ P x) l -> filter P l = [].
Proof. induction 1 as [|x l Hx Hl IH]; [done|]. by rewrite filter_cons, decide_False, IH. Qed.

Lemma filter_ext_in {A} (P Q : A -> Prop) `{!forall x, Decision (P x), !forall x, Decision (Q x)} (l : list A) :
  (forall x, x ∈ l -> P x <-> Q x) -> filter P l = filter Q l.
Proof.
  induction l as [|x l IH]; intros Hx; [done|]. rewrite !filter_cons, IH by (intros y Hy; apply Hx; by constructor).
  pose proof (Hx x ltac:(constructor)) as Hpq. destruct (decide (P x)); [by rewrite decide_True by tauto|by rewrite decide_False by tauto].
Qed.

(** ** What a list of containers holds, when one of them changes *)
Lemma collect_insert {A B} (g : A -> list B) l i x y : l !! i = Some x ->
  concat (map g (<[i := y]> l)) ++ g x ≡ₚ concat (map g l) ++ g y.
Proof.
  revert i. induction l as [|z l IH]; intros [|i] Hi; try done; cbn in *.
  - injection Hi as ->. rewrite <- !app_assoc, (Permutation_app_comm (g y)), (app_assoc (g x)).
    apply Permutation_app_tail, Permutation_app_comm.
  - rewrite <- !app_assoc. by rewrite (IH i Hi).
Qed.
