(* ===== verification/Ring.v ===== *)
(** * Ring buffers

    The id pool, the memory pool and the scheduler queue all keep a circular
    array with a head slot and an element count.  [ring l s c] is the queue
    such an array [l] holds: [c] elements from slot [s], wrapping round. *)
From S2P Require Import Prelude.

Definition ring {A} (l : list A) (s c : Z) : list A :=
  take (Z.to_nat c) (rotate (Z.to_nat s) l).

Section ring.
Context {A : Type}.
Implicit Types (l : list A) (s c : Z) (x : A).

Lemma length_ring l s c :
  0 <= c <= Z.of_nat (length l) -> Z.of_nat (length (ring l s c)) = c.
Proof. intros. unfold ring. rewrite length_take, length_rotate. lia. Qed.

Lemma lookup_ring l s c (k : nat) :
  0 <= s < Z.of_nat (length l) -> 0 <= c <= Z.of_nat (length l) -> Z.of_nat k < c ->
  ring l s c !! k = l !! Z.to_nat ((s + Z.of_nat k) mod Z.of_nat (length l)).
Proof.
  intros Hs Hc Hk. unfold ring. rewrite lookup_take_lt by lia.
  rewrite lookup_rotate_r by lia. f_equal. unfold rotate_nat_add.
  rewrite Z2Nat.id by lia. done.
Qed.

Lemma lookup_ring_ge l s c (k : nat) : c <= Z.of_nat k -> ring l s c !! k = None.
Proof. intros. unfold ring. apply lookup_take_ge. lia. Qed.

Lemma ring_lookup_Some l s c k x :
  0 <= s < Z.of_nat (length l) -> 0 <= c <= Z.of_nat (length l) ->
  ring l s c !! k = Some x ->
  Z.of_nat k < c /\ l !! Z.to_nat ((s + Z.of_nat k) mod Z.of_nat (length l)) = Some x.
Proof.
  intros Hs Hc Hk.
  destruct (decide (Z.of_nat k < c)) as [Hlt|Hge].
  - split; [done|]. by rewrite <- lookup_ring with (c := c).
  - rewrite lookup_ring_ge in Hk by lia. done.
Qed.

(** Taking the head slot. *)
Lemma ring_pop l s c :
  0 <= s < Z.of_nat (length l) -> 0 < c <= Z.of_nat (length l) ->
  exists x, l !! Z.to_nat s = Some x /\
    ring l s c = x :: ring l ((s + 1) mod Z.of_nat (length l)) (c - 1).
Proof.
  intros Hs Hc. destruct (lookup_lt_is_Some_2 l (Z.to_nat s)) as [x Hx]; [lia|].
  exists x. split; [done|].
  pose proof (Z.mod_pos_bound (s + 1) (Z.of_nat (length l))).
  apply list_eq. intros [|k]; simpl.
  - rewrite lookup_ring by lia. rewrite Z.add_0_r, Z.mod_small by lia. done.
  - destruct (decide (Z.of_nat (S k) < c)).
    + rewrite !lookup_ring by lia. f_equal. f_equal.
      rewrite Zplus_mod_idemp_l. f_equal. lia.
    + rewrite !lookup_ring_ge by lia. done.
Qed.

(** Clearing the head slot once it is taken. *)
Lemma ring_clear l s c x :
  0 <= s < Z.of_nat (length l) -> 0 < c <= Z.of_nat (length l) ->
  ring (<[Z.to_nat s := x]> l) ((s + 1) mod Z.of_nat (length l)) (c - 1) =
  ring l ((s + 1) mod Z.of_nat (length l)) (c - 1).
Proof.
  intros Hs Hc. set (n := Z.of_nat (length l)) in *.
  pose proof (Z.mod_pos_bound (s + 1) n). apply list_eq. intros k.
  destruct (decide (Z.of_nat k < c - 1)) as [Hk|Hk].
  - rewrite !lookup_ring by (rewrite ?length_insert; lia). rewrite length_insert. fold n.
    rewrite list_lookup_insert_ne; [done|]. rewrite Zplus_mod_idemp_l.
    pose proof (Z.mod_pos_bound (s + 1 + Z.of_nat k) n).
    intros Heq%Z2Nat.inj; [|lia..].
    assert ((s + 1 + Z.of_nat k) mod n = s + 1 + Z.of_nat k \/
            (s + 1 + Z.of_nat k) mod n = s + 1 + Z.of_nat k - n) as He
      by (destruct (decide (s + 1 + Z.of_nat k < n)); [left|right];
          [apply Z.mod_small|rewrite <- (Z_mod_plus_full _ (-1)), Z.mod_small]; lia).
    lia.
  - by rewrite !lookup_ring_ge by lia.
Qed.

(** Filling the slot behind the last element. *)
Lemma ring_push l s c x :
  0 <= s < Z.of_nat (length l) -> 0 <= c < Z.of_nat (length l) ->
  ring (<[Z.to_nat ((s + c) mod Z.of_nat (length l)) := x]> l) s (c + 1) =
  ring l s c ++ [x].
Proof.
  intros Hs Hc. set (n := Z.of_nat (length l)) in *.
  pose proof (Z.mod_pos_bound (s + c) n).
  assert (Hlen : Z.of_nat (length (ring l s c)) = c) by (apply length_ring; lia).
  apply list_eq. intros k.
  destruct (decide (Z.of_nat k < c)) as [Hk|Hk].
  - rewrite lookup_app_l by lia. rewrite !lookup_ring by (rewrite ?length_insert; lia).
    rewrite length_insert. fold n. rewrite list_lookup_insert_ne; [done|].
    pose proof (Z.mod_pos_bound (s + Z.of_nat k) n).
    intros Heq%Z2Nat.inj; [|lia..].
    assert ((s + c) mod n = s + c \/ (s + c) mod n = s + c - n) as Hd
      by (destruct (decide (s + c < n)); [left|right];
          [apply Z.mod_small|rewrite <- (Z_mod_plus_full _ (-1)), Z.mod_small]; lia).
    assert ((s + Z.of_nat k) mod n = s + Z.of_nat k \/
            (s + Z.of_nat k) mod n = s + Z.of_nat k - n) as He
      by (destruct (decide (s + Z.of_nat k < n)); [left|right];
          [apply Z.mod_small|rewrite <- (Z_mod_plus_full _ (-1)), Z.mod_small]; lia).
    lia.
  - destruct (decide (Z.of_nat k = c)) as [Hkc|Hkc].
    + rewrite lookup_app_r, lookup_ring by (rewrite ?length_insert; lia).
      rewrite length_insert. fold n. rewrite Hkc.
      rewrite list_lookup_insert_eq by lia. by replace (k - _)%nat with 0%nat by lia.
    + rewrite lookup_ring_ge by lia. symmetry. apply lookup_ge_None_2.
      rewrite length_app. simpl. lia.
Qed.

End ring.

Arguments ring : simpl never.
