(* ===== verification/IdPool.v ===== *)
(** * The id pool (src/src/util/src/tidpool.c)

    A pool hands out session ids in [1, maxId).  The free ids sit in a ring of
    [maxId] slots. *)
From S2P Require Import Prelude Ring.

Record id_pool_t := {
  maxId : Z;
  numOfFree : Z;
  freeSlot : Z;
  freeList : list Z
}.

Fixpoint fill_ids (n : nat) (i : Z) (idList : list Z) : list Z :=
  match n with
  | O => idList
  | S n' => fill_ids n' (i + 1) (<[Z.to_nat (i - 1) := i]> idList)
  end.

(** The two [bool]s say whether the two [malloc]s succeed; [junk] is what the
    fresh array holds. *)
Definition taosInitIdPool (malloc1 malloc2 : bool) (junk : Z) (maxId0 : Z) : option id_pool_t :=
  let maxId1 := if maxId0 <? 3 then 3 else maxId0 in
  if negb malloc1 then None
  else if negb malloc2 then None
  else
    let idList := replicate (Z.to_nat maxId1) junk in
    Some {| maxId := maxId1; numOfFree := maxId1 - 1; freeSlot := 0;
            freeList := fill_ids (Z.to_nat (maxId1 - 1)) 1 idList |}.

Definition taosAllocateId (handle : option id_pool_t) : res (Z * option id_pool_t) :=
  match handle with
  | None => Ret (-1, None)
  | Some p =>
      if 0 <? numOfFree p then
        let! id := rd1 (freeList p) (freeSlot p) in
        if maxId p =? 0 then Undef else
        Ret (id, Some {| maxId := maxId p; numOfFree := numOfFree p - 1;
                         freeSlot := Z.rem (freeSlot p + 1) (maxId p);
                         freeList := freeList p |})
      else Ret (-1, Some p)
  end.

(** [freeList == NULL] cannot occur in a pool that was initialised; a cleaned
    pool has [maxId = 0]. *)
Definition taosFreeId (p : id_pool_t) (id : Z) : res id_pool_t :=
  if maxId p =? 0 then Ret p
  else if (id <=? 0) || (maxId p <=? id) then Ret p
  else
    let slot := Z.rem (freeSlot p + numOfFree p) (maxId p) in
    if (slot <? 0) || (Z.of_nat (length (freeList p)) <=? slot) then Undef
    else Ret {| maxId := maxId p; numOfFree := numOfFree p + 1; freeSlot := freeSlot p;
                freeList := <[Z.to_nat slot := id]> (freeList p) |}.

Definition taosIdPoolNumOfUsed (p : id_pool_t) : Z := maxId p - numOfFree p - 1.

Definition taosIdPoolReinit (p : id_pool_t) : id_pool_t :=
  {| maxId := maxId p; numOfFree := 0; freeSlot := 0;
     freeList := replicate (Z.to_nat (maxId p)) 0 ++ drop (Z.to_nat (maxId p)) (freeList p) |}.

Definition taosIdPoolMarkStatus (p : id_pool_t) (id status : Z) : res id_pool_t :=
  if (id <? 0) || (Z.of_nat (length (freeList p)) <=? id) then Undef
  else Ret {| maxId := maxId p; numOfFree := numOfFree p; freeSlot := freeSlot p;
              freeList := <[Z.to_nat id := status]> (freeList p) |}.

(** The loop [for (i = 1; i < maxId; ++i)] of [taosIdPoolSetFreeList]: it
    compacts the unmarked ids to the front of the very array it scans. *)
Fixpoint set_free_loop (n : nat) (i pos : Z) (l : list Z) : res (Z * list Z) :=
  match n with
  | O => Ret (pos, l)
  | S n' =>
      let! v := rd1 l i in
      if v =? 0 then set_free_loop n' (i + 1) (pos + 1) (<[Z.to_nat pos := i]> l)
      else set_free_loop n' (i + 1) pos l
  end.

Definition taosIdPoolSetFreeList (p : id_pool_t) : res id_pool_t :=
  let! r := set_free_loop (Z.to_nat (maxId p - 1)) 1 0 (freeList p) in
  Ret {| maxId := maxId p; numOfFree := r.1; freeSlot := 0; freeList := r.2 |}.

(** ** The pool as a FIFO queue of free ids *)
Definition free_ids (p : id_pool_t) : list Z := ring (freeList p) (freeSlot p) (numOfFree p).

Record pool_wf (p : id_pool_t) : Prop := {
  wf_max : 3 <= maxId p;
  wf_len : Z.of_nat (length (freeList p)) = maxId p;
  wf_slot : 0 <= freeSlot p < maxId p;
  wf_free : 0 <= numOfFree p < maxId p
}.

Lemma alloc_some p :
  pool_wf p -> 0 < numOfFree p ->
  exists id p', taosAllocateId (Some p) = Ret (id, Some p') /\ pool_wf p' /\
    maxId p' = maxId p /\ free_ids p = id :: free_ids p'.
Proof.
  intros [Hm Hl Hs Hf] Hn.
  destruct (ring_pop (freeList p) (freeSlot p) (numOfFree p)) as (id & Hid & Hpop); [lia..|].
  eexists id, _. simpl. rewrite (proj2 (Z.ltb_lt _ _)) by lia.
  rewrite (rd1_lookup _ _ id) by (done || lia). simpl.
  rewrite (proj2 (Z.eqb_neq _ _)), rem_mod by lia. split; [done|].
  pose proof (Z.mod_pos_bound (freeSlot p + 1) (maxId p)).
  split; [constructor; simpl; lia|]. split; [done|].
  unfold free_ids at 1. rewrite Hpop, Hl. done.
Qed.

Lemma alloc_none p : pool_wf p -> numOfFree p = 0 -> taosAllocateId (Some p) = Ret (-1, Some p).
Proof. intros _ Hn. simpl. by rewrite Hn. Qed.

Lemma free_push p id :
  pool_wf p -> 1 <= id < maxId p -> numOfFree p < maxId p - 1 ->
  exists p', taosFreeId p id = Ret p' /\ pool_wf p' /\ maxId p' = maxId p /\
    free_ids p' = free_ids p ++ [id].
Proof.
  intros [Hm Hl Hs Hf] Hid Hn. unfold taosFreeId.
  rewrite (proj2 (Z.eqb_neq _ _)) by lia.
  rewrite (proj2 (Z.leb_gt _ _)), (proj2 (Z.leb_gt _ _)) by lia. simpl.
  rewrite rem_mod by lia.
  pose proof (Z.mod_pos_bound (freeSlot p + numOfFree p) (maxId p)).
  rewrite (proj2 (Z.ltb_ge _ _)), (proj2 (Z.leb_gt _ _)) by lia. simpl.
  eexists. split; [done|]. split; [constructor; simpl; rewrite ?length_insert; lia|].
  split; [done|]. unfold free_ids. simpl. rewrite <- Hl. apply ring_push; lia.
Qed.

(** The ids [taosInitIdPool] writes: slot [k] gets id [k + 1]. *)
Lemma fill_ids_lookup n i l (k : nat) :
  1 <= i -> (Z.to_nat (i - 1) + n <= length l)%nat ->
  fill_ids n i l !! k =
    if bool_decide (i - 1 <= Z.of_nat k < i - 1 + Z.of_nat n) then Some (Z.of_nat k + 1)
    else l !! k.
Proof.
  revert i l. induction n as [|n IH]; intros i l Hi Hl; cbn [fill_ids].
  - rewrite bool_decide_false by lia. done.
  - rewrite IH by (rewrite ?length_insert; lia).
    destruct (decide (Z.of_nat k = i - 1)) as [Hk|Hk].
    + rewrite bool_decide_false, bool_decide_true by lia.
      replace (Z.to_nat (i - 1)) with k by lia. rewrite list_lookup_insert_eq by lia.
      f_equal. lia.
    + rewrite list_lookup_insert_ne by lia.
      repeat case_bool_decide; try done; lia.
Qed.

Lemma length_fill_ids n i l : length (fill_ids n i l) = length l.
Proof. revert i l. induction n; intros; simpl; [done|]. by rewrite IHn, length_insert. Qed.

Lemma init_wf junk m p :
  taosInitIdPool true true junk m = Some p ->
  pool_wf p /\ maxId p = Z.max 3 m /\ free_ids p = seqZ 1 (maxId p - 1).
Proof.
  unfold taosInitIdPool. simpl. intros [= <-]. simpl.
  set (M := if m <? 3 then 3 else m).
  assert (HM : M = Z.max 3 m) by (unfold M; destruct (Z.ltb_spec m 3); lia).
  assert (Hlen : length (fill_ids (Z.to_nat (M - 1)) 1 (replicate (Z.to_nat M) junk)) = Z.to_nat M)
    by by rewrite length_fill_ids, length_replicate.
  split; [constructor; simpl; lia|]. split; [done|].
  unfold free_ids. simpl. apply list_eq. intros k.
  destruct (decide (Z.of_nat k < M - 1)) as [Hk|Hk].
  - rewrite lookup_ring, lookup_seqZ_lt by lia. rewrite Z.add_0_l, Z.mod_small by lia.
    rewrite Nat2Z.id. rewrite fill_ids_lookup by (rewrite ?length_replicate; lia).
    rewrite bool_decide_true by lia. f_equal. lia.
  - rewrite lookup_ring_ge, lookup_seqZ_ge by lia. done.
Qed.

(** ** Clients

    A client takes ids from the pool and gives back only ids it holds. *)
Inductive pool_step : id_pool_t * list Z -> id_pool_t * list Z -> Prop :=
| step_alloc p p' id held :
    taosAllocateId (Some p) = Ret (id, Some p') -> id <> -1 ->
    pool_step (p, held) (p', id :: held)
| step_alloc_fail p p' held :
    taosAllocateId (Some p) = Ret (-1, Some p') -> pool_step (p, held) (p', held)
| step_free p p' id h1 h2 :
    taosFreeId p id = Ret p' -> pool_step (p, h1 ++ id :: h2) (p', h1 ++ h2).

Definition pool_inv (m : Z) (s : id_pool_t * list Z) : Prop :=
  pool_wf s.1 /\ maxId s.1 = m /\ free_ids s.1 ++ s.2 ≡ₚ seqZ 1 (m - 1).

Lemma pool_inv_lengths m p held :
  pool_inv m (p, held) -> numOfFree p + Z.of_nat (length held) = m - 1.
Proof.
  intros ([Hm Hl Hs Hf] & Hmax & Hperm). simpl in *.
  apply Permutation_length in Hperm. rewrite length_app, length_seqZ in Hperm.
  pose proof (length_ring (freeList p) (freeSlot p) (numOfFree p)).
  unfold free_ids in Hperm. lia.
Qed.

Lemma pool_inv_range m p held id :
  pool_inv m (p, held) -> id ∈ held \/ id ∈ free_ids p -> 1 <= id < m.
Proof.
  intros (Hwf & Hmax & Hperm) Hid. simpl in *.
  assert (Hin : id ∈ seqZ 1 (m - 1)) by (rewrite <- Hperm, elem_of_app; tauto).
  apply elem_of_seqZ in Hin. lia.
Qed.

Lemma pool_inv_step m s s' : pool_step s s' -> pool_inv m s -> pool_inv m s'.
Proof.
  intros Hst Hinv. pose proof Hinv as Hinv0.
  destruct Hst as [p p' id held Ha Hne|p p' held Ha|p p' id h1 h2 Hf];
    destruct Hinv as (Hwf & Hmax & Hperm); simpl in *.
  - destruct (decide (numOfFree p = 0)) as [H0|H0].
    { rewrite H0 in Ha. simpl in Ha. congruence. }
    destruct (alloc_some p Hwf) as (id' & p'' & Ha' & Hwf' & Hm' & Hids); [destruct Hwf; lia|].
    simpl in Ha'. rewrite Ha in Ha'. injection Ha' as <- <-.
    split; [done|]. split; [simpl; lia|]. simpl. rewrite <- Hperm, Hids. simpl.
    by rewrite <- Permutation_middle.
  - destruct (decide (numOfFree p = 0)) as [H0|H0].
    { rewrite H0 in Ha. simpl in Ha. injection Ha as <-. done. }
    destruct (alloc_some p Hwf) as (id' & p'' & Ha' & Hwf' & Hm' & Hids); [destruct Hwf; lia|].
    simpl in Ha'. rewrite Ha in Ha'. injection Ha' as <- <-.
    exfalso. apply (pool_inv_range m p held (-1)) in Hinv0; [lia|].
    right. rewrite Hids. set_solver.
  - pose proof (pool_inv_lengths _ _ _ Hinv0) as Hlen. rewrite length_app in Hlen. simpl in Hlen.
    destruct (free_push p id Hwf) as (p'' & Hf' & Hwf' & Hm' & Hids); [|lia|].
    { rewrite Hmax. apply (pool_inv_range m p _ id Hinv0). left. set_solver. }
    rewrite Hf in Hf'. injection Hf' as <-.
    split; [done|]. split; [simpl; lia|]. simpl. rewrite Hids, <- Hperm.
    rewrite <- app_assoc. f_equiv. simpl. by rewrite Permutation_middle.
Qed.

Lemma pool_inv_steps m s s' : rtc pool_step s s' -> pool_inv m s -> pool_inv m s'.
Proof. induction 1; eauto using pool_inv_step. Qed.

(** C18.  No id is handed out twice.  Whatever a client that frees only ids it
    holds does after [taosInitIdPool], the ids it holds are distinct, lie in
    [1, maxId), are as many as [taosIdPoolNumOfUsed] reports, and an
    allocation fails exactly when all [maxId - 1] ids are held. *)
Theorem pool_ids_unique (junk m : Z) (p0 p : id_pool_t) (held : list Z) :
  taosInitIdPool true true junk m = Some p0 ->
  rtc pool_step (p0, []) (p, held) ->
  NoDup held /\ Forall (fun id => 1 <= id < Z.max 3 m) held /\
  taosIdPoolNumOfUsed p = Z.of_nat (length held) /\
  ((exists p', taosAllocateId (Some p) = Ret (-1, Some p')) <->
   Z.of_nat (length held) = Z.max 3 m - 1).
Proof.
  intros Hinit Hrun. apply init_wf in Hinit as (Hwf & Hmax & Hids).
  assert (Hinv : pool_inv (Z.max 3 m) (p, held)).
  { apply (pool_inv_steps _ _ _ Hrun). split; [done|]. split; [done|].
    simpl. by rewrite app_nil_r, Hids, Hmax. }
  pose proof (pool_inv_lengths _ _ _ Hinv) as Hlen.
  pose proof Hinv as (Hwf' & Hmax' & Hperm). simpl in *.
  split; [|split; [|split]].
  - assert (Hnd : NoDup (free_ids p ++ held)) by (rewrite Hperm; apply NoDup_seqZ).
    by apply NoDup_app in Hnd as (_ & _ & ?).
  - apply Forall_forall. intros id Hid. apply (pool_inv_range _ p held id Hinv). by left.
  - unfold taosIdPoolNumOfUsed. lia.
  - split.
    + intros [p' Ha]. destruct (decide (numOfFree p = 0)) as [H0|H0]; [lia|].
      destruct (alloc_some p Hwf') as (id & p'' & Ha' & _ & _ & Hid); [destruct Hwf'; lia|].
      simpl in Ha'. rewrite Ha in Ha'. injection Ha' as <- <-.
      exfalso. apply (pool_inv_range _ p held (-1)) in Hinv; [lia|].
      right. rewrite Hid. set_solver.
    + intros Hall. exists p. apply (alloc_none p Hwf'). lia.
Qed.

(** A pool of ten ids: two allocations, the first id given back. *)
Lemma pool_ids_unique_witness :
  exists p0 p, taosInitIdPool true true 7 10 = Some p0 /\
    rtc pool_step (p0, []) (p, [2]) /\ NoDup [2].
Proof.
  eexists _, _. split; [reflexivity|].
  assert (Hrun : rtc pool_step
    ({| maxId := 10; numOfFree := 9; freeSlot := 0; freeList := [1;2;3;4;5;6;7;8;9;7] |}, [])
    ({| maxId := 10; numOfFree := 8; freeSlot := 2; freeList := [1;2;3;4;5;6;7;8;9;1] |}, [2])).
  { eapply rtc_l; [eapply (step_alloc _ _ 1); [reflexivity|done]|].
    eapply rtc_l; [eapply (step_alloc _ _ 2); [reflexivity|done]|].
    eapply rtc_l; [eapply (step_free _ _ 1 [2] []); reflexivity|]. apply rtc_refl. }
  split; [exact Hrun|].
  exact (proj1 (pool_ids_unique 7 10 _ _ _ eq_refl Hrun)).
Defined.

(** ** Rebuilding a pool from marks *)
Definition unmarked (l : list Z) (i n : Z) : list Z :=
  filter (fun k => l !! Z.to_nat k = Some 0) (seqZ i n).

Lemma unmarked_cons l i n : 0 < n -> 0 <= i ->
  unmarked l i n = (if bool_decide (l !! Z.to_nat i = Some 0) then [i] else []) ++
                   unmarked l (i + 1) (n - 1).
Proof.
  intros Hn Hi. unfold unmarked. rewrite seqZ_cons by lia. simpl.
  rewrite filter_cons. case_decide as Hd; case_bool_decide; done.
Qed.

Lemma unmarked_insert l j x i n : 0 <= j < i ->
  unmarked (<[Z.to_nat j := x]> l) i n = unmarked l i n.
Proof.
  intros Hj. unfold unmarked.
  assert (Hall : Forall (fun k => i <= k) (seqZ i n))
    by (apply Forall_forall; intros k Hk%elem_of_seqZ; lia).
  induction Hall as [|k ks Hk _ IH]; [done|]. rewrite !filter_cons.
  rewrite (list_lookup_insert_ne l (Z.to_nat j)) by lia. by rewrite IH.
Qed.

Lemma set_free_loop_spec n i pos l :
  0 <= pos < i -> i + Z.of_nat n <= Z.of_nat (length l) ->
  exists l', set_free_loop n i pos l =
      Ret (pos + Z.of_nat (length (unmarked l i (Z.of_nat n))), l') /\
    length l' = length l /\
    take (Z.to_nat pos + length (unmarked l i (Z.of_nat n))) l' =
      take (Z.to_nat pos) l ++ unmarked l i (Z.of_nat n).
Proof.
  revert i pos l. induction n as [|n IH]; intros i pos l Hp Hl.
  - exists l. unfold unmarked. rewrite seqZ_nil by lia. simpl.
    rewrite Z.add_0_r, Nat.add_0_r, app_nil_r. done.
  - destruct (lookup_lt_is_Some_2 l (Z.to_nat i)) as [v Hv]; [lia|].
    cbn [set_free_loop]. rewrite (rd1_lookup _ _ v) by (done || lia). cbn [rbind].
    rewrite unmarked_cons by lia. rewrite Hv.
    replace (Z.of_nat (S n) - 1) with (Z.of_nat n) by lia.
    destruct (Z.eqb_spec v 0) as [->|Hne].
    + rewrite bool_decide_true by done.
      destruct (IH (i + 1) (pos + 1) (<[Z.to_nat pos := i]> l)) as (l' & Hr & Hlen & Ht);
        [lia|rewrite length_insert; lia|].
      rewrite unmarked_insert in Hr, Ht by lia. exists l'.
      rewrite length_app. simpl. rewrite Hr. split; [do 2 f_equal; lia|].
      split; [by rewrite Hlen, length_insert|].
      replace (Z.to_nat pos + S _)%nat with
        (Z.to_nat (pos + 1) + length (unmarked l (i + 1) (Z.of_nat n)))%nat by lia.
      rewrite Ht. replace (Z.to_nat (pos + 1)) with (S (Z.to_nat pos)) by lia.
      rewrite (take_S_r _ _ i) by (apply list_lookup_insert_eq; lia).
      rewrite take_insert_ge by lia. by rewrite <- app_assoc.
    + rewrite bool_decide_false by congruence. simpl.
      destruct (IH (i + 1) pos l) as (l' & Hr & Hlen & Ht); [lia..|]. eauto.
Qed.

(** [taosIdPoolSetFreeList] rebuilds the queue from the marks set by
    [taosIdPoolMarkStatus]: although it writes the queue into the array it is
    still scanning, the free ids are afterwards exactly the unmarked ones, in
    increasing order, and the pool is well formed. *)
Theorem set_free_list_spec (p : id_pool_t) :
  3 <= maxId p -> Z.of_nat (length (freeList p)) = maxId p ->
  exists p', taosIdPoolSetFreeList p = Ret p' /\ pool_wf p' /\ maxId p' = maxId p /\
    free_ids p' = unmarked (freeList p) 1 (maxId p - 1).
Proof.
  intros Hm Hl. unfold taosIdPoolSetFreeList.
  destruct (set_free_loop_spec (Z.to_nat (maxId p - 1)) 1 0 (freeList p))
    as (l' & -> & Hlen & Ht); [lia..|].
  rewrite Z2Nat.id in * by lia.
  set (u := unmarked (freeList p) 1 (maxId p - 1)) in *. simpl.
  assert (Hu : (length u <= Z.to_nat (maxId p - 1))%nat).
  { unfold u, unmarked. etransitivity; [apply length_filter|]. by rewrite length_seqZ. }
  eexists. split; [done|]. split; [constructor; simpl; lia|]. split; [done|].
  unfold free_ids, ring. simpl. rewrite Z.add_0_l, Nat2Z.id.
  simpl in Ht. transitivity (take (length u) l'); [|exact Ht]. unfold rotate.
  rewrite Nat.Div0.mod_0_l. simpl. by rewrite app_nil_r.
Qed.

(** Ids 2 and 4 of five are marked as used. *)
Lemma set_free_list_spec_witness :
  exists p', taosIdPoolSetFreeList
      {| maxId := 6; numOfFree := 0; freeSlot := 0; freeList := [0;0;1;0;1;0] |} = Ret p' /\
    free_ids p' = [1; 3; 5].
Proof.
  destruct (set_free_list_spec
    {| maxId := 6; numOfFree := 0; freeSlot := 0; freeList := [0;0;1;0;1;0] |})
    as (p' & H1 & _ & _ & H2); [unfold maxId; lia|reflexivity|].
  exists p'. split; [exact H1|]. rewrite H2. reflexivity.
Defined.
