(* ===== verification/MemPool.v ===== *)
(** * The memory pool (src/src/util/src/tmempool.c)

    Blocks of one size cut from one allocation; the indices of the free blocks
    sit in a ring.  A pointer is an offset into the pool, or [None] for
    [NULL]. *)
From S2P Require Import Prelude Ring.

Record pool_t := {
  numOfFree : Z;
  first : Z;
  numOfBlock : Z;
  blockSize : Z;
  freeList : list Z;
  pool : list Z }.

Fixpoint fill_indices (n : nat) (i : Z) (freeList : list Z) : list Z :=
  match n with
  | O => freeList
  | S n' => fill_indices n' (i + 1) (<[Z.to_nat i := i]> freeList)
  end.

(** The [bool] says whether the three calls of [malloc] succeed; [junk] is what
    fresh memory holds.  A product of the parameters beyond [int] is undefined. *)
Definition taosMemPoolInit (mallocs : bool) (junk : Z) (numOfBlock0 blockSize0 : Z) : res (option pool_t) :=
  if (numOfBlock0 <=? 1) || (blockSize0 <=? 1) then Ret None
  else if 2 ^ 31 <=? blockSize0 * numOfBlock0 then Undef
  else if negb mallocs then Ret None
  else
    Ret (Some {| numOfFree := numOfBlock0; first := 0; numOfBlock := numOfBlock0;
                 blockSize := blockSize0;
                 freeList := fill_indices (Z.to_nat numOfBlock0) 0
                               (replicate (Z.to_nat numOfBlock0) junk);
                 pool := replicate (Z.to_nat (blockSize0 * numOfBlock0)) junk |}).

Definition set_pool (mem : list Z) (p : pool_t) : pool_t :=
  {| numOfFree := numOfFree p; first := first p; numOfBlock := numOfBlock p;
     blockSize := blockSize p; freeList := freeList p; pool := mem |}.

Definition taosMemPoolMalloc (p : pool_t) : res (option Z * pool_t) :=
  if numOfFree p <=? 0 then Ret (None, p)
  else
    let! idx := rd1 (freeList p) (first p) in
    let pos := blockSize p * idx in
    if numOfBlock p =? 0 then Undef else
    let! mem := wr (pool p) pos (replicate (Z.to_nat (blockSize p)) 0) in
    Ret (Some pos, {| numOfFree := numOfFree p - 1; first := Z.rem (first p + 1) (numOfBlock p);
                      numOfBlock := numOfBlock p; blockSize := blockSize p;
                      freeList := freeList p; pool := mem |}).

Definition taosMemPoolFree (p : pool_t) (pMem : option Z) : res pool_t :=
  match pMem with
  | None => Ret p
  | Some a =>
      if (blockSize p =? 0) || (numOfBlock p =? 0) then Undef
      else if negb (Z.rem (i32 a) (blockSize p) =? 0) then Ret p
      else
        let index := i32 (Z.quot a (blockSize p)) in
        if (index <? 0) || (numOfBlock p <=? index) then Ret p
        else
          let slot := Z.rem (first p + numOfFree p) (numOfBlock p) in
          if (slot <? 0) || (Z.of_nat (length (freeList p)) <=? slot) then Undef
          else
            let! mem := wr (pool p) a (replicate (Z.to_nat (blockSize p)) 0) in
            Ret {| numOfFree := numOfFree p + 1; first := first p; numOfBlock := numOfBlock p;
                   blockSize := blockSize p; freeList := <[Z.to_nat slot := index]> (freeList p);
                   pool := mem |}
  end.

(** ** The free blocks as a queue *)
Definition free_blocks (p : pool_t) : list Z := ring (freeList p) (first p) (numOfFree p).

Record pool_wf (p : pool_t) : Prop := {
  wf_blocks : 1 < numOfBlock p;
  wf_size : 1 < blockSize p;
  wf_total : blockSize p * numOfBlock p < 2 ^ 31;
  wf_len : Z.of_nat (length (freeList p)) = numOfBlock p;
  wf_first : 0 <= first p < numOfBlock p;
  wf_free : 0 <= numOfFree p <= numOfBlock p;
  wf_pool : Z.of_nat (length (pool p)) = blockSize p * numOfBlock p }.

(** A client holds blocks, and knows what it wrote to each. *)
Record mem_inv (p : pool_t) (held : list (Z * list Z)) : Prop := {
  mi_wf : pool_wf p;
  mi_perm : free_blocks p ++ map (fun h => h.1 / blockSize p) held ≡ₚ seqZ 0 (numOfBlock p);
  mi_held : forall a bs, (a, bs) ∈ held -> a = blockSize p * (a / blockSize p) /\
    Z.of_nat (length bs) = blockSize p /\ rd (pool p) a (blockSize p) = Ret bs }.

(** Its steps: take a block, fail to, write to a block it holds, give one back,
    or pass an address that is not one of the pool's. *)
Inductive mem_step : pool_t * list (Z * list Z) -> pool_t * list (Z * list Z) -> Prop :=
| ms_malloc p p' a held : taosMemPoolMalloc p = Ret (Some a, p') ->
    mem_step (p, held) (p', (a, replicate (Z.to_nat (blockSize p)) 0) :: held)
| ms_full p p' held : taosMemPoolMalloc p = Ret (None, p') -> mem_step (p, held) (p', held)
| ms_write p a bs bs' mem h1 h2 : length bs' = length bs -> wr (pool p) a bs' = Ret mem ->
    mem_step (p, h1 ++ (a, bs) :: h2) (set_pool mem p, h1 ++ (a, bs') :: h2)
| ms_free p p' a bs h1 h2 : taosMemPoolFree p (Some a) = Ret p' ->
    mem_step (p, h1 ++ (a, bs) :: h2) (p', h1 ++ h2)
| ms_bad p p' pMem held : (forall a, pMem = Some a -> in_s 32 a /\
      (Z.rem a (blockSize p) <> 0 \/ a < 0 \/ blockSize p * numOfBlock p <= a)) ->
    taosMemPoolFree p pMem = Ret p' -> mem_step (p, held) (p', held).

Lemma fill_indices_lookup n i l (k : nat) : 0 <= i -> (Z.to_nat i + n <= length l)%nat ->
  fill_indices n i l !! k =
    if bool_decide (i <= Z.of_nat k < i + Z.of_nat n) then Some (Z.of_nat k) else l !! k.
Proof.
  revert i l. induction n as [|n IH]; intros i l Hi Hl; cbn [fill_indices].
  - by rewrite bool_decide_false by lia.
  - rewrite IH by (rewrite ?length_insert; lia).
    destruct (decide (Z.of_nat k = i)) as [Hk|Hk].
    + rewrite bool_decide_false, bool_decide_true by lia.
      replace (Z.to_nat i) with k by lia. rewrite list_lookup_insert_eq by lia. f_equal. lia.
    + rewrite list_lookup_insert_ne by lia. repeat case_bool_decide; try done; lia.
Qed.

Lemma length_fill_indices n i l : length (fill_indices n i l) = length l.
Proof. revert i l. induction n; intros; simpl; [done|]. by rewrite IHn, length_insert. Qed.

Lemma init_mem_inv mallocs junk nb bs p :
  taosMemPoolInit mallocs junk nb bs = Ret (Some p) ->
  mem_inv p [] /\ numOfBlock p = nb /\ blockSize p = bs.
Proof.
  unfold taosMemPoolInit. intros Hi. destruct (Z.leb_spec nb 1), (Z.leb_spec bs 1); try done.
  destruct (Z.leb_spec (2 ^ 31) (bs * nb)); [done|]. destruct mallocs; [|done].
  injection Hi as <-. split; [|done].
  assert (Hlen : length (fill_indices (Z.to_nat nb) 0 (replicate (Z.to_nat nb) junk)) = Z.to_nat nb)
    by by rewrite length_fill_indices, length_replicate.
  constructor; cbn [pool freeList first numOfFree numOfBlock blockSize map].
  - constructor; cbn [pool freeList first numOfFree numOfBlock blockSize]; rewrite ?length_replicate; lia.
  - rewrite app_nil_r. unfold free_blocks. cbn [freeList first numOfFree].
    replace (ring _ 0 nb) with (seqZ 0 nb); [done|]. symmetry. apply list_eq. intros k.
    destruct (decide (Z.of_nat k < nb)) as [Hk|Hk].
    + rewrite lookup_ring, lookup_seqZ_lt by lia. rewrite Z.add_0_l, Z.mod_small by lia.
      rewrite Nat2Z.id, fill_indices_lookup by (rewrite ?length_replicate; lia).
      by rewrite bool_decide_true by lia.
    + by rewrite lookup_ring_ge, lookup_seqZ_ge by lia.
  - intros a b Hin. by apply elem_of_nil in Hin.
Qed.

(** ** The steps keep the invariant *)
Lemma held_index p held a bs : mem_inv p held -> (a, bs) ∈ held ->
  0 <= a / blockSize p < numOfBlock p.
Proof.
  intros [Hwf Hperm _] Hin. assert (Hi : a / blockSize p ∈ seqZ 0 (numOfBlock p)).
  { rewrite <- Hperm. apply elem_of_app. right. apply list_elem_of_fmap. by exists (a, bs). }
  apply elem_of_seqZ in Hi. lia.
Qed.

Lemma free_index p held k : mem_inv p held -> k ∈ free_blocks p -> 0 <= k < numOfBlock p.
Proof.
  intros [Hwf Hperm _] Hin. assert (Hi : k ∈ seqZ 0 (numOfBlock p)).
  { rewrite <- Hperm. apply elem_of_app. by left. }
  apply elem_of_seqZ in Hi. lia.
Qed.

(** A write to block [k] leaves the block at another held address alone. *)
Lemma write_other p held mem k bs a b : mem_inv p held -> wr (pool p) (blockSize p * k) bs = Ret mem ->
  Z.of_nat (length bs) = blockSize p -> (a, b) ∈ held -> a / blockSize p <> k ->
  rd mem a (blockSize p) = Ret b.
Proof.
  intros [Hwf _ Hheld] Hw Hl Hin Hne. destruct (Hheld a b Hin) as (Ha & _ & Hr). rewrite <- Hr.
  apply (rd_wr_other _ _ _ _ _ _ Hw). rewrite Hl. destruct Hwf.
  set (j := a / blockSize p) in *. rewrite Ha. destruct (decide (j < k)); nia.
Qed.

Lemma block_fits p k : pool_wf p -> 0 <= k < numOfBlock p ->
  0 <= blockSize p * k /\ blockSize p * k + blockSize p <= Z.of_nat (length (pool p)).
Proof. intros [] Hk. nia. Qed.

Lemma malloc_spec p held : mem_inv p held -> numOfFree p <> 0 ->
  exists k p', taosMemPoolMalloc p = Ret (Some (blockSize p * k), p') /\ 0 <= k < numOfBlock p /\
    blockSize p' = blockSize p /\ numOfBlock p' = numOfBlock p /\
    mem_inv p' ((blockSize p * k, replicate (Z.to_nat (blockSize p)) 0) :: held).
Proof.
  intros Hinv Hn. pose proof Hinv as [[Hb Hs Ht Hl Hf Hc Hp] Hperm Hheld].
  destruct (ring_pop (freeList p) (first p) (numOfFree p)) as (k & Hk & Hpop); [lia..|].
  assert (Hkr : 0 <= k < numOfBlock p).
  { apply (free_index p held k Hinv). unfold free_blocks. rewrite Hpop. by constructor. }
  set (zeros := replicate (Z.to_nat (blockSize p)) 0).
  assert (Hz : Z.of_nat (length zeros) = blockSize p) by (unfold zeros; rewrite length_replicate; lia).
  destruct (block_fits p k (mi_wf _ _ Hinv) Hkr) as [Hlo Hhi].
  destruct (wr_ok (pool p) (blockSize p * k) zeros Hlo) as (mem & Hw & Hml); [lia|].
  exists k. eexists. split.
  { unfold taosMemPoolMalloc. rewrite (proj2 (Z.leb_gt _ _)) by lia.
    rewrite (rd1_lookup _ _ k) by (done || lia). cbn [rbind].
    rewrite (proj2 (Z.eqb_neq _ _)) by lia. fold zeros. rewrite Hw. reflexivity. }
  split; [done|]. split; [done|]. split; [done|].
  pose proof (Z.mod_pos_bound (first p + 1) (numOfBlock p) ltac:(lia)).
  assert (Hdiv : blockSize p * k / blockSize p = k) by (rewrite Z.mul_comm; apply Z.div_mul; lia).
  assert (Hnd : NoDup (free_blocks p ++ map (fun h => h.1 / blockSize p) held))
    by (rewrite Hperm; apply NoDup_seqZ).
  constructor; cbn [pool freeList first numOfFree numOfBlock blockSize map fst].
  - constructor; cbn [pool freeList first numOfFree numOfBlock blockSize]; rewrite ?rem_mod; lia.
  - rewrite <- Hperm. unfold free_blocks. cbn [freeList first numOfFree].
    rewrite Hpop, Hl, rem_mod, Hdiv by lia. cbn [app]. by rewrite <- Permutation_middle.
  - intros a b [[= -> ->]|Hin]%elem_of_cons.
    + rewrite Hdiv. split; [done|]. split; [done|]. rewrite <- Hz at 2. by apply (rd_wr_same (pool p)).
    + destruct (Hheld a b Hin) as (Ha & Hbl & _). split; [done|]. split; [done|].
      apply (write_other p held mem k zeros a b Hinv Hw Hz Hin). intros E.
      unfold free_blocks in Hnd. rewrite Hpop in Hnd. cbn [app] in Hnd. apply NoDup_cons in Hnd as [Hni _].
      apply Hni, elem_of_app. right. apply list_elem_of_fmap. by exists (a, b).
Qed.

Lemma free_spec p h1 a bs h2 : mem_inv p (h1 ++ (a, bs) :: h2) ->
  exists p', taosMemPoolFree p (Some a) = Ret p' /\ blockSize p' = blockSize p /\
    numOfBlock p' = numOfBlock p /\ mem_inv p' (h1 ++ h2).
Proof.
  intros Hinv. pose proof Hinv as [[Hb Hs Ht Hl Hf Hc Hp] Hperm Hheld].
  assert (Hin : (a, bs) ∈ h1 ++ (a, bs) :: h2) by (apply elem_of_app; right; by constructor).
  destruct (Hheld a bs Hin) as (Ha & Hbl & _). pose proof (held_index _ _ _ _ Hinv Hin) as Hk.
  set (k := a / blockSize p) in *.
  assert (Hfree : numOfFree p < numOfBlock p).
  { apply Permutation_length in Hperm. rewrite length_app, length_map, length_app, length_seqZ in Hperm.
    cbn [length] in Hperm. pose proof (length_ring (freeList p) (first p) (numOfFree p)).
    unfold free_blocks in Hperm. lia. }
  set (zeros := replicate (Z.to_nat (blockSize p)) 0).
  assert (Hz : Z.of_nat (length zeros) = blockSize p) by (unfold zeros; rewrite length_replicate; lia).
  destruct (block_fits p k (mi_wf _ _ Hinv) Hk) as [Hlo Hhi].
  destruct (wr_ok (pool p) (blockSize p * k) zeros Hlo) as (mem & Hw & Hml); [lia|].
  pose proof (Z.mod_pos_bound (first p + numOfFree p) (numOfBlock p) ltac:(lia)).
  assert (Hq : Z.quot a (blockSize p) = k).
  { rewrite Ha, Z.mul_comm. apply Z.quot_mul. lia. }
  assert (Hr : Z.rem a (blockSize p) = 0) by (rewrite Ha, Z.mul_comm; apply Z.rem_mul; lia).
  assert (Hi32 : i32 a = a) by (apply wraps_id; [lia|unfold in_s; nia]).
  eexists. split.
  { unfold taosMemPoolFree. rewrite !(proj2 (Z.eqb_neq _ 0)) by lia. cbn [orb].
    rewrite Hi32, Hr, Hq, (wraps_id 32 k) by (unfold in_s; lia). cbn [Z.eqb negb].
    rewrite (proj2 (Z.ltb_ge _ _)), (proj2 (Z.leb_gt _ _)) by lia. cbn [orb].
    rewrite rem_mod by lia. rewrite (proj2 (Z.ltb_ge _ _)), (proj2 (Z.leb_gt _ _)) by lia. cbn [orb].
    fold zeros. rewrite Ha, Hw. reflexivity. }
  split; [done|]. split; [done|].
  assert (Hnd : NoDup (free_blocks p ++ map (fun h => h.1 / blockSize p) (h1 ++ (a, bs) :: h2)))
    by (rewrite Hperm; apply NoDup_seqZ).
  constructor; cbn [pool freeList first numOfFree numOfBlock blockSize].
  - constructor; cbn [pool freeList first numOfFree numOfBlock blockSize]; rewrite ?length_insert; lia.
  - rewrite <- Hperm. unfold free_blocks. cbn [freeList first numOfFree].
    rewrite <- Hl, ring_push by lia. rewrite !map_app. cbn [map fst]. fold k.
    rewrite <- app_assoc. apply Permutation_app_head. cbn [app]. by rewrite <- Permutation_middle.
  - intros a' b' Hin'. assert (Hin0 : (a', b') ∈ h1 ++ (a, bs) :: h2).
    { apply elem_of_app in Hin' as [?|?]; apply elem_of_app; [by left|right; by constructor]. }
    destruct (Hheld a' b' Hin0) as (Ha' & Hbl' & _). split; [done|]. split; [done|].
    apply (write_other p _ mem k zeros a' b' Hinv Hw Hz Hin0). intros E.
    apply NoDup_app in Hnd as (_ & _ & Hnd). rewrite map_app in Hnd. cbn [map fst] in Hnd.
    fold k in Hnd. rewrite <- Permutation_middle in Hnd. apply NoDup_cons in Hnd as [Hni _].
    apply Hni. rewrite <- map_app. apply list_elem_of_fmap. by exists (a', b').
Qed.

Lemma write_spec p h1 a bs h2 bs' mem : mem_inv p (h1 ++ (a, bs) :: h2) -> length bs' = length bs ->
  wr (pool p) a bs' = Ret mem -> mem_inv (set_pool mem p) (h1 ++ (a, bs') :: h2).
Proof.
  intros Hinv Hlen Hw. pose proof Hinv as [[Hb Hs Ht Hl Hf Hc Hp] Hperm Hheld].
  assert (Hin : (a, bs) ∈ h1 ++ (a, bs) :: h2) by (apply elem_of_app; right; by constructor).
  destruct (Hheld a bs Hin) as (Ha & Hbl & _).
  assert (Hnd : NoDup (free_blocks p ++ map (fun h => h.1 / blockSize p) (h1 ++ (a, bs) :: h2)))
    by (rewrite Hperm; apply NoDup_seqZ).
  apply NoDup_app in Hnd as (_ & _ & Hnd). rewrite map_app in Hnd. cbn [map fst] in Hnd.
  rewrite <- Permutation_middle, <- map_app in Hnd. apply NoDup_cons in Hnd as [Hni _].
  apply wr_Ret in Hw as Hw'. destruct Hw' as (_ & Hml & _).
  constructor; cbn [pool freeList first numOfFree numOfBlock blockSize set_pool].
  - constructor; cbn [pool freeList first numOfFree numOfBlock blockSize set_pool]; lia.
  - unfold free_blocks in *. cbn [freeList first numOfFree set_pool].
    rewrite <- Hperm, !map_app. done.
  - intros a' b' Hin'. assert (Hcases : (a', b') = (a, bs') \/ (a', b') ∈ h1 ++ h2).
    { apply elem_of_app in Hin' as [?|[?|?]%elem_of_cons]; [right; apply elem_of_app; by left|by left|].
      right. apply elem_of_app. by right. }
    destruct Hcases as [[= -> ->]|Hin2].
    + split; [done|]. split; [lia|]. replace (blockSize p) with (Z.of_nat (length bs')) by lia.
      by apply (rd_wr_same (pool p)).
    + assert (Hin0 : (a', b') ∈ h1 ++ (a, bs) :: h2).
      { apply elem_of_app in Hin2 as [?|?]; apply elem_of_app; [by left|right; by constructor]. }
      destruct (Hheld a' b' Hin0) as (Ha' & Hbl' & _). split; [done|]. split; [done|].
      rewrite Ha in Hw. apply (write_other p _ mem (a / blockSize p) bs' a' b' Hinv Hw); [lia|done|].
      intros E. apply Hni. apply list_elem_of_fmap. exists (a', b'). by split.
Qed.

Lemma mem_step_inv s s' : mem_step s s' -> mem_inv s.1 s.2 ->
  mem_inv s'.1 s'.2 /\ blockSize s'.1 = blockSize s.1 /\ numOfBlock s'.1 = numOfBlock s.1.
Proof.
  intros Hst. destruct Hst as [p p' a held Ha|p p' held Ha|p a bs bs' mem h1 h2 Hl Hw|
    p p' a bs h1 h2 Hf|p p' pMem held Hbad Hf]; cbn [fst snd]; intros Hinv.
  - destruct (decide (numOfFree p = 0)) as [H0|H0].
    { unfold taosMemPoolMalloc in Ha. by rewrite H0 in Ha. }
    destruct (malloc_spec p held Hinv H0) as (k & p'' & Hm & _ & E1 & E2 & Hinv').
    rewrite Hm in Ha. injection Ha as <- <-. done.
  - unfold taosMemPoolMalloc in Ha. destruct (_ <=? 0); [by injection Ha as <-|].
    apply rbind_Ret_inv in Ha as (k & _ & Ha). destruct (_ =? 0); [done|].
    apply rbind_Ret_inv in Ha as (mem & _ & Ha). done.
  - split; [|done]. by apply (write_spec p h1 a bs h2 bs' mem Hinv Hl Hw).
  - destruct (free_spec p h1 a bs h2 Hinv) as (p'' & Hf' & E1 & E2 & Hinv').
    rewrite Hf in Hf'. injection Hf' as <-. done.
  - enough (p' = p) as -> by done. unfold taosMemPoolFree in Hf. destruct pMem as [a|]; [|by injection Hf].
    destruct (Hbad a eq_refl) as [Hr Hcases]. destruct (mi_wf _ _ Hinv) as [Hb Hs Ht _ _ _ _].
    rewrite !(proj2 (Z.eqb_neq _ 0)) in Hf by lia. cbn [orb] in Hf.
    rewrite (wraps_id 32 a) in Hf by (done || lia).
    destruct (Z.eqb_spec (Z.rem a (blockSize p)) 0) as [Hrem|]; [|by injection Hf]. cbn [negb] in Hf.
    pose proof (Z.quot_rem a (blockSize p) ltac:(lia)) as Hqr. unfold in_s in Hr.
    set (k := Z.quot a (blockSize p)) in *.
    rewrite (wraps_id 32 k) in Hf by (unfold in_s; nia).
    destruct Hcases as [|[Hneg|Hbig]]; [done|..].
    + rewrite (proj2 (Z.ltb_lt k 0)) in Hf by nia. by injection Hf.
    + rewrite (proj2 (Z.leb_le (numOfBlock p) k)), orb_true_r in Hf by nia. by injection Hf.
Qed.

(** C19.  Blocks of the pool are isolated.  Whatever a client does after
    [taosMemPoolInit] that frees only blocks it holds and writes only inside
    them (addresses that are not a block of the pool may be passed to
    [taosMemPoolFree] too), the blocks it holds are different, start at
    multiples of the block size inside the pool, hold what was last written to
    each (zeros at first), and an allocation fails exactly when all are held. *)
Theorem mem_pool_isolated mallocs junk nb bs p0 p held :
  taosMemPoolInit mallocs junk nb bs = Ret (Some p0) -> rtc mem_step (p0, []) (p, held) ->
  NoDup (map fst held) /\
  (forall a b, (a, b) ∈ held -> (bs | a) /\ 0 <= a /\ a + bs <= Z.of_nat (length (pool p)) /\
    rd (pool p) a bs = Ret b) /\
  ((exists p', taosMemPoolMalloc p = Ret (None, p')) <-> Z.of_nat (length held) = nb).
Proof.
  intros Hinit Hrun. destruct (init_mem_inv _ _ _ _ _ Hinit) as (Hinv0 & <- & <-).
  assert (Hinv : mem_inv p held /\ blockSize p = blockSize p0 /\ numOfBlock p = numOfBlock p0).
  { clear Hinit. remember (p0, []) as s0 eqn:E0. remember (p, held) as s eqn:E1.
    assert (H0 : mem_inv s0.1 s0.2) by by subst s0.
    enough (mem_inv s.1 s.2 /\ blockSize s.1 = blockSize s0.1 /\ numOfBlock s.1 = numOfBlock s0.1) as H1
      by (subst; exact H1).
    clear E0 E1 Hinv0. induction Hrun as [s|s s1 s2 Hst _ IH]; [done|].
    destruct (mem_step_inv _ _ Hst H0) as (H1 & <- & <-). by apply IH. }
  destruct Hinv as (Hinv & <- & <-). pose proof Hinv as [Hwf Hperm Hheld].
  split; [|split].
  - assert (Hnd : NoDup (map (fun h => h.1 / blockSize p) held)).
    { assert (Hnd : NoDup (free_blocks p ++ map (fun h => h.1 / blockSize p) held))
        by (rewrite Hperm; apply NoDup_seqZ). by apply NoDup_app in Hnd as (_ & _ & ?). }
    apply (NoDup_fmap_1 (fun a => a / blockSize p)). by rewrite <- list_fmap_compose.
  - intros a b Hin. destruct (Hheld a b Hin) as (Ha & Hl & Hr).
    pose proof (held_index _ _ _ _ Hinv Hin) as Hk. destruct (block_fits p _ Hwf Hk).
    split; [exists (a / blockSize p); lia|]. split; [lia|]. split; [lia|done].
  - apply Permutation_length in Hperm. rewrite length_app, length_map, length_seqZ in Hperm.
    destruct Hwf as [Hb Hs Ht Hl Hf Hc Hp].
    pose proof (length_ring (freeList p) (first p) (numOfFree p)). unfold free_blocks in Hperm.
    split.
    + intros [p' Hm]. destruct (decide (numOfFree p = 0)) as [H0|H0]; [lia|].
      destruct (malloc_spec p held Hinv H0) as (k & p'' & Hm' & _). rewrite Hm in Hm'. discriminate.
    + intros Hall. exists p. unfold taosMemPoolMalloc. by rewrite (proj2 (Z.leb_le _ _)) by lia.
Qed.

(** A pool of two blocks of four bytes: take one, write to it. *)
Lemma mem_pool_isolated_witness : exists p0 p,
  taosMemPoolInit true 9 2 4 = Ret (Some p0) /\ rtc mem_step (p0, []) (p, [(0, [1; 2; 3; 4])]) /\
  rd (pool p) 0 4 = Ret [1; 2; 3; 4].
Proof.
  eexists _, _. split; [reflexivity|].
  assert (Hrun : rtc mem_step
    ({| numOfFree := 2; first := 0; numOfBlock := 2; blockSize := 4; freeList := [0; 1];
        pool := [9; 9; 9; 9; 9; 9; 9; 9] |}, [])
    ({| numOfFree := 1; first := 1; numOfBlock := 2; blockSize := 4; freeList := [0; 1];
        pool := [1; 2; 3; 4; 9; 9; 9; 9] |}, [(0, [1; 2; 3; 4])])).
  { eapply rtc_l; [eapply (ms_malloc _ _ 0); reflexivity|].
    eapply rtc_l; [eapply (ms_write _ 0 [0; 0; 0; 0] [1; 2; 3; 4] _ [] []); reflexivity|].
    apply rtc_refl. }
  split; [exact Hrun|].
  destruct (mem_pool_isolated true 9 2 4 _ _ _ eq_refl Hrun) as (_ & Hb & _).
  destruct (Hb 0 [1; 2; 3; 4]) as (_ & _ & _ & Hr); [by constructor|exact Hr].
Defined.
