(* ===== verification/Sched.v ===== *)
(** * The task scheduler (src/src/util/src/tsched.c)

    A bounded queue between the threads that call [taosScheduleTask] and the
    worker threads that run [taosProcessSchedQueue], as a step relation on the
    semaphores, the mutex, the ring and the program points of all threads. *)
From S2P Require Import Prelude Ring.

(** Function pointers and handles are addresses; 0 is [NULL]. *)
Record SSchedMsg := { fp : Z; tfp : Z; msg : Z; ahandle : Z; thandle : Z }.

Definition zero_msg : SSchedMsg := {| fp := 0; tfp := 0; msg := 0; ahandle := 0; thandle := 0 |}.

(** What a worker does with a message it took. *)
Inductive call : Type :=
| call_fp (f : Z) (m : SSchedMsg)
| call_tfp (f a t : Z).

Definition dispatch (m : SSchedMsg) : option call :=
  if negb (fp m =? 0) then Some (call_fp (fp m) m)
  else if negb (tfp m =? 0) then Some (call_tfp (tfp m) (ahandle m) (thandle m))
  else None.

(** Program points: of [taosScheduleTask], before each of its calls, and of the
    loop of [taosProcessSchedQueue]. *)
Inductive producer_pc : Type :=
| P_idle
| P_lock (m : SSchedMsg)
| P_write (m : SSchedMsg)
| P_unlock
| P_post.

Inductive worker_pc : Type :=
| C_wait
| C_lock
| C_take
| C_unlock (m : SSchedMsg)
| C_post (m : SSchedMsg)
| C_run (m : SSchedMsg).

(** The queue, and the threads: a producer with the messages it still has to
    schedule.  [written], [taken] and [calls] record what happened: the
    messages in the order they entered and left the ring, and the calls. *)
Record SSchedQueue := {
  queueSize : Z;
  emptySem : Z;
  fullSem : Z;
  queueMutex : bool;
  fullSlot : Z;
  emptySlot : Z;
  queue : list SSchedMsg;
  producers : list (producer_pc * list SSchedMsg);
  workers : list worker_pc;
  written : list SSchedMsg;
  taken : list SSchedMsg;
  ran : list SSchedMsg }.

Definition taosInitScheduler (queueSize0 numOfThreads : Z) (todo : list (list SSchedMsg)) : SSchedQueue :=
  {| queueSize := queueSize0; emptySem := queueSize0; fullSem := 0; queueMutex := false;
     fullSlot := 0; emptySlot := 0; queue := replicate (Z.to_nat queueSize0) zero_msg;
     producers := map (fun t => (P_idle, t)) todo;
     workers := replicate (Z.to_nat numOfThreads) C_wait; written := []; taken := []; ran := [] |}.

(** Thread [i] moves on. *)
Definition set_producer (i : nat) (p : producer_pc * list SSchedMsg) (s : SSchedQueue) : SSchedQueue :=
  {| queueSize := queueSize s; emptySem := emptySem s; fullSem := fullSem s;
     queueMutex := queueMutex s; fullSlot := fullSlot s; emptySlot := emptySlot s; queue := queue s;
     producers := <[i := p]> (producers s); workers := workers s; written := written s;
     taken := taken s; ran := ran s |}.
Definition set_worker (i : nat) (c : worker_pc) (s : SSchedQueue) : SSchedQueue :=
  {| queueSize := queueSize s; emptySem := emptySem s; fullSem := fullSem s;
     queueMutex := queueMutex s; fullSlot := fullSlot s; emptySlot := emptySlot s; queue := queue s;
     producers := producers s; workers := <[i := c]> (workers s); written := written s;
     taken := taken s; ran := ran s |}.

(** The synchronisation objects: [sem_wait] and [sem_post] add to a semaphore. *)
Definition sems (empty full : Z) (locked : bool) (s : SSchedQueue) : SSchedQueue :=
  {| queueSize := queueSize s; emptySem := emptySem s + empty; fullSem := fullSem s + full;
     queueMutex := locked; fullSlot := fullSlot s; emptySlot := emptySlot s; queue := queue s;
     producers := producers s; workers := workers s; written := written s;
     taken := taken s; ran := ran s |}.

(** [queue[emptySlot] = *pMsg; emptySlot = (emptySlot + 1) % queueSize]. *)
Definition put_msg (m : SSchedMsg) (s : SSchedQueue) : SSchedQueue :=
  {| queueSize := queueSize s; emptySem := emptySem s; fullSem := fullSem s;
     queueMutex := queueMutex s; fullSlot := fullSlot s;
     emptySlot := Z.rem (emptySlot s + 1) (queueSize s);
     queue := <[Z.to_nat (emptySlot s) := m]> (queue s);
     producers := producers s; workers := workers s; written := written s ++ [m];
     taken := taken s; ran := ran s |}.

(** [msg = queue[fullSlot]; memset(...); fullSlot = (fullSlot + 1) % queueSize]. *)
Definition take_msg (m : SSchedMsg) (s : SSchedQueue) : SSchedQueue :=
  {| queueSize := queueSize s; emptySem := emptySem s; fullSem := fullSem s;
     queueMutex := queueMutex s; fullSlot := Z.rem (fullSlot s + 1) (queueSize s);
     emptySlot := emptySlot s; queue := <[Z.to_nat (fullSlot s) := zero_msg]> (queue s);
     producers := producers s; workers := workers s; written := written s;
     taken := taken s ++ [m]; ran := ran s |}.

Definition run_msg (m : SSchedMsg) (s : SSchedQueue) : SSchedQueue :=
  {| queueSize := queueSize s; emptySem := emptySem s; fullSem := fullSem s;
     queueMutex := queueMutex s; fullSlot := fullSlot s; emptySlot := emptySlot s; queue := queue s;
     producers := producers s; workers := workers s; written := written s;
     taken := taken s; ran := ran s ++ [m] |}.

(** The calls made so far, in order. *)
Definition calls (s : SSchedQueue) : list call := omap dispatch (ran s).

(** One step of one thread.  With [signals], [sem_wait] may be interrupted: the
    workers try again, [taosScheduleTask] only logs the error and goes on. *)
Inductive step (signals : bool) : SSchedQueue -> SSchedQueue -> Prop :=
| step_p_wait s i m todo : producers s !! i = Some (P_idle, m :: todo) -> 0 < emptySem s ->
    step signals s (set_producer i (P_lock m, todo) (sems (-1) 0 (queueMutex s) s))
| step_p_intr s i m todo : signals = true -> producers s !! i = Some (P_idle, m :: todo) ->
    step signals s (set_producer i (P_lock m, todo) s)
| step_p_lock s i m todo : producers s !! i = Some (P_lock m, todo) -> queueMutex s = false ->
    step signals s (set_producer i (P_write m, todo) (sems 0 0 true s))
| step_p_write s i m todo : producers s !! i = Some (P_write m, todo) ->
    step signals s (set_producer i (P_unlock, todo) (put_msg m s))
| step_p_unlock s i todo : producers s !! i = Some (P_unlock, todo) ->
    step signals s (set_producer i (P_post, todo) (sems 0 0 false s))
| step_p_post s i todo : producers s !! i = Some (P_post, todo) ->
    step signals s (set_producer i (P_idle, todo) (sems 0 1 (queueMutex s) s))
| step_c_wait s i : workers s !! i = Some C_wait -> 0 < fullSem s ->
    step signals s (set_worker i C_lock (sems 0 (-1) (queueMutex s) s))
| step_c_intr s i : signals = true -> workers s !! i = Some C_wait -> step signals s s
| step_c_lock s i : workers s !! i = Some C_lock -> queueMutex s = false ->
    step signals s (set_worker i C_take (sems 0 0 true s))
| step_c_take s i m : workers s !! i = Some C_take -> queue s !! Z.to_nat (fullSlot s) = Some m ->
    step signals s (set_worker i (C_unlock m) (take_msg m s))
| step_c_unlock s i m : workers s !! i = Some (C_unlock m) ->
    step signals s (set_worker i (C_post m) (sems 0 0 false s))
| step_c_post s i m : workers s !! i = Some (C_post m) ->
    step signals s (set_worker i (C_run m) (sems 1 0 (queueMutex s) s))
| step_c_run s i m : workers s !! i = Some (C_run m) ->
    step signals s (set_worker i C_wait (run_msg m s)).

(** [n] steps. *)
Inductive steps (signals : bool) : nat -> SSchedQueue -> SSchedQueue -> Prop :=
| steps_0 s : steps signals 0 s s
| steps_S n s s' s'' : steps signals n s s' -> step signals s' s'' -> steps signals (S n) s s''.

Lemma steps_cons signals n s s' s'' :
  step signals s s' -> steps signals n s' s'' -> steps signals (S n) s s''.
Proof.
  intros Hs. induction 1 as [|n s1 s2 s3 H1 IH H2]; (eapply steps_S; [|done]); [apply steps_0|by apply IH].
Qed.

(** ** Counting threads *)
Definition sumf {A} (f : A -> Z) (l : list A) : Z := foldr (fun x a => f x + a) 0 l.

Lemma sumf_cons {A} (f : A -> Z) x l : sumf f (x :: l) = f x + sumf f l.
Proof. done. Qed.

Lemma sumf_insert {A} (f : A -> Z) l i x y :
  l !! i = Some x -> sumf f (<[i := y]> l) = sumf f l - f x + f y.
Proof.
  revert i. induction l as [|z l IH]; intros [|i] Hi; try done.
  - injection Hi as ->. change (<[0%nat := y]> (x :: l)) with (y :: l). rewrite !sumf_cons. lia.
  - change (<[S i := y]> (z :: l)) with (z :: <[i := y]> l). rewrite !sumf_cons.
    rewrite (IH i Hi). lia.
Qed.

Lemma sumf_nonneg {A} (f : A -> Z) l : (forall a, 0 <= f a) -> 0 <= sumf f l.
Proof. intros Hf. induction l as [|x l IH]; [done|]. rewrite sumf_cons. specialize (Hf x). lia. Qed.

Lemma sumf_le {A} (f : A -> Z) l i x : (forall a, 0 <= f a) -> l !! i = Some x -> f x <= sumf f l.
Proof.
  intros Hf. revert i. induction l as [|z l IH]; intros [|i] Hi; try done; rewrite sumf_cons.
  - injection Hi as ->. pose proof (sumf_nonneg f l Hf). lia.
  - specialize (IH i Hi). specialize (Hf z). lia.
Qed.

Lemma sumf_zero {A} (f : A -> Z) l : (forall a, a ∈ l -> f a = 0) -> sumf f l = 0.
Proof.
  induction l as [|x l IH]; intros Hf; [done|]. rewrite sumf_cons, Hf by constructor.
  apply IH. intros a Ha. apply Hf. by constructor.
Qed.

(** ** The invariant *)
Section Invariant.
Context (size : Z) (all : list SSchedMsg) (Hsize : 0 < size).

(** Producers that hold a slot they have not filled; that filled one and have
    not announced it; and the messages producers have not written yet. *)
Definition claims (p : producer_pc * list SSchedMsg) : Z :=
  match p.1 with P_lock _ | P_write _ => 1 | _ => 0 end.
Definition unannounced (p : producer_pc * list SSchedMsg) : Z :=
  match p.1 with P_unlock | P_post => 1 | _ => 0 end.
Definition unwritten (p : producer_pc * list SSchedMsg) : list SSchedMsg :=
  match p.1 with P_lock m | P_write m => m :: p.2 | _ => p.2 end.
Definition p_critical (p : producer_pc * list SSchedMsg) : Z :=
  match p.1 with P_write _ | P_unlock => 1 | _ => 0 end.

(** Workers that will take a message; that took one and have not given the slot
    back; and the messages workers hold. *)
Definition takes (c : worker_pc) : Z := match c with C_lock | C_take => 1 | _ => 0 end.
Definition unreturned (c : worker_pc) : Z := match c with C_unlock _ | C_post _ => 1 | _ => 0 end.
Definition holds (c : worker_pc) : list SSchedMsg :=
  match c with C_unlock m | C_post m | C_run m => [m] | _ => [] end.
Definition c_critical (c : worker_pc) : Z := match c with C_take | C_unlock _ => 1 | _ => 0 end.

(** The number of messages in the ring. *)
Definition in_ring (s : SSchedQueue) : Z := Z.of_nat (length (written s)) - Z.of_nat (length (taken s)).

Record sched_inv (s : SSchedQueue) : Prop := {
  i_size : queueSize s = size;
  i_queue : Z.of_nat (length (queue s)) = size;
  i_full : 0 <= fullSlot s < size;
  i_empty : emptySlot s = (fullSlot s + in_ring s) mod size;
  i_sems : 0 <= emptySem s /\ 0 <= fullSem s;
  i_free : emptySem s + sumf claims (producers s) + in_ring s + sumf unreturned (workers s) = size;
  i_busy : fullSem s + sumf unannounced (producers s) + sumf takes (workers s) = in_ring s;
  i_mutex : sumf p_critical (producers s) + sumf c_critical (workers s) =
    (if queueMutex s then 1 else 0);
  i_fifo : written s = taken s ++ ring (queue s) (fullSlot s) (in_ring s);
  i_taken : taken s ≡ₚ ran s ++ concat (map holds (workers s));
  i_all : all ≡ₚ written s ++ concat (map unwritten (producers s)) }.

Lemma claims_nonneg p : 0 <= claims p. Proof. unfold claims. case_match; lia. Qed.
Lemma unannounced_nonneg p : 0 <= unannounced p. Proof. unfold unannounced. case_match; lia. Qed.
Lemma takes_nonneg c : 0 <= takes c. Proof. unfold takes. case_match; lia. Qed.
Lemma unreturned_nonneg c : 0 <= unreturned c. Proof. unfold unreturned. case_match; lia. Qed.
Lemma p_critical_nonneg p : 0 <= p_critical p. Proof. unfold p_critical. case_match; lia. Qed.
Lemma c_critical_nonneg c : 0 <= c_critical c. Proof. unfold c_critical. case_match; lia. Qed.

(** A step of a producer, or of a worker, in the counts. *)
Lemma producer_moves l i p p' : l !! i = Some p ->
  sumf claims (<[i := p']> l) = sumf claims l - claims p + claims p' /\
  sumf unannounced (<[i := p']> l) = sumf unannounced l - unannounced p + unannounced p' /\
  sumf p_critical (<[i := p']> l) = sumf p_critical l - p_critical p + p_critical p' /\
  concat (map unwritten (<[i := p']> l)) ++ unwritten p ≡ₚ concat (map unwritten l) ++ unwritten p' /\
  claims p <= sumf claims l /\ p_critical p <= sumf p_critical l.
Proof using.
  intros Hi. rewrite !(sumf_insert _ _ _ _ _ Hi). split_and!; try done.
  - by apply collect_insert.
  - by apply (sumf_le _ _ i); [apply claims_nonneg|].
  - by apply (sumf_le _ _ i); [apply p_critical_nonneg|].
Qed.

Lemma worker_moves l i c c' : l !! i = Some c ->
  sumf takes (<[i := c']> l) = sumf takes l - takes c + takes c' /\
  sumf unreturned (<[i := c']> l) = sumf unreturned l - unreturned c + unreturned c' /\
  sumf c_critical (<[i := c']> l) = sumf c_critical l - c_critical c + c_critical c' /\
  concat (map holds (<[i := c']> l)) ++ holds c ≡ₚ concat (map holds l) ++ holds c' /\
  takes c <= sumf takes l /\ c_critical c <= sumf c_critical l.
Proof using.
  intros Hi. rewrite !(sumf_insert _ _ _ _ _ Hi). split_and!; try done.
  - by apply collect_insert.
  - by apply (sumf_le _ _ i); [apply takes_nonneg|].
  - by apply (sumf_le _ _ i); [apply c_critical_nonneg|].
Qed.

Lemma init_inv n todo : concat todo = all -> sched_inv (taosInitScheduler size n todo).
Proof using Hsize.
  intros Hall. constructor; cbn [taosInitScheduler queueSize queue fullSlot emptySlot emptySem fullSem
    producers workers written taken ran queueMutex]; try done.
  - rewrite length_replicate. lia.
  - lia.
  - rewrite !sumf_zero; [unfold in_ring; cbn; lia|intros c [-> _]%elem_of_replicate; done|].
    intros p (t & -> & _)%list_elem_of_fmap. done.
  - rewrite !sumf_zero; [done|intros c [-> _]%elem_of_replicate; done|].
    intros p (t & -> & _)%list_elem_of_fmap. done.
  - rewrite !sumf_zero; [done|intros c [-> _]%elem_of_replicate; done|].
    intros p (t & -> & _)%list_elem_of_fmap. done.
  - assert (Hk : forall k, concat (map holds (replicate k C_wait)) = [])
      by (intros k; induction k as [|k IH]; [done|exact IH]). by rewrite Hk.
  - rewrite map_map. cbn. by rewrite map_id, Hall.
Qed.

(** The steps that touch neither the ring nor the messages of a thread. *)
Lemma quiet_producer s i p p' de df (b : bool) : sched_inv s -> producers s !! i = Some p ->
  unwritten p' = unwritten p ->
  emptySem s + de + sumf claims (producers s) - claims p + claims p' =
    emptySem s + sumf claims (producers s) ->
  fullSem s + df + sumf unannounced (producers s) - unannounced p + unannounced p' =
    fullSem s + sumf unannounced (producers s) ->
  0 <= emptySem s + de -> 0 <= fullSem s + df ->
  (if b then 1 else 0) = (if queueMutex s then 1 else 0) - p_critical p + p_critical p' ->
  sched_inv (set_producer i p' (sems de df b s)).
Proof using.
  intros [I1 I2 I3 I4 I5 I6 I7 I8 I9 I10 I11] Hi Hu Hc Ha He Hf Hb.
  destruct (producer_moves _ _ _ p' Hi) as (E1 & E2 & E3 & E4 & _ & _).
  constructor; cbn [set_producer sems queueSize queue fullSlot emptySlot emptySem fullSem
    producers workers written taken ran queueMutex]; unfold in_ring in *;
    cbn [written taken set_producer sems]; try done; try lia.
  rewrite Hu in E4. apply Permutation_app_inv_r in E4. by rewrite E4.
Qed.

Lemma quiet_worker s i c c' de df (b : bool) : sched_inv s -> workers s !! i = Some c ->
  holds c' = holds c ->
  emptySem s + de + sumf unreturned (workers s) - unreturned c + unreturned c' =
    emptySem s + sumf unreturned (workers s) ->
  fullSem s + df + sumf takes (workers s) - takes c + takes c' =
    fullSem s + sumf takes (workers s) ->
  0 <= emptySem s + de -> 0 <= fullSem s + df ->
  (if b then 1 else 0) = (if queueMutex s then 1 else 0) - c_critical c + c_critical c' ->
  sched_inv (set_worker i c' (sems de df b s)).
Proof using.
  intros [I1 I2 I3 I4 I5 I6 I7 I8 I9 I10 I11] Hi Hu Hc Ha He Hf Hb.
  destruct (worker_moves _ _ _ c' Hi) as (E1 & E2 & E3 & E4 & _ & _).
  constructor; cbn [set_worker sems queueSize queue fullSlot emptySlot emptySem fullSem
    producers workers written taken ran queueMutex]; unfold in_ring in *;
    cbn [written taken set_worker sems]; try done; try lia.
  rewrite Hu in E4. apply Permutation_app_inv_r in E4. by rewrite E4.
Qed.

Lemma in_ring_nonneg s : sched_inv s -> 0 <= in_ring s.
Proof using.
  intros [I1 I2 I3 I4 [I5 I5'] I6 I7 I8 I9 I10 I11].
  pose proof (sumf_nonneg _ (producers s) unannounced_nonneg).
  pose proof (sumf_nonneg _ (workers s) takes_nonneg). lia.
Qed.

Lemma in_ring_le s : sched_inv s -> in_ring s + sumf claims (producers s) <= size.
Proof using.
  intros [I1 I2 I3 I4 [I5 I5'] I6 I7 I8 I9 I10 I11].
  pose proof (sumf_nonneg _ (workers s) unreturned_nonneg). lia.
Qed.

Lemma write_inv s i m todo : sched_inv s -> producers s !! i = Some (P_write m, todo) ->
  sched_inv (set_producer i (P_unlock, todo) (put_msg m s)).
Proof using Hsize.
  intros Hinv Hi. pose proof (in_ring_nonneg s Hinv) as Hn. pose proof (in_ring_le s Hinv) as Hle.
  destruct Hinv as [I1 I2 I3 I4 I5 I6 I7 I8 I9 I10 I11].
  destruct (producer_moves _ _ _ (P_unlock, todo) Hi) as (E1 & E2 & E3 & E4 & E5 & _).
  cbn [claims unannounced p_critical unwritten fst snd] in E1, E2, E3, E4, E5.
  assert (Hring : in_ring (set_producer i (P_unlock, todo) (put_msg m s)) = in_ring s + 1)
    by (unfold in_ring; cbn; rewrite length_app; cbn; lia).
  pose proof (Z.mod_pos_bound (fullSlot s + in_ring s) size Hsize).
  constructor; rewrite ?Hring; cbn [set_producer put_msg queueSize queue fullSlot emptySlot emptySem fullSem
    producers workers written taken ran queueMutex]; try done; try lia.
  - by rewrite length_insert.
  - rewrite I1, rem_mod by lia. rewrite I4, Zplus_mod_idemp_l. f_equal. lia.
  - rewrite I4, <- I2, ring_push by lia. by rewrite app_assoc, <- I9.
  - rewrite I11, <- app_assoc. apply Permutation_app_head.
    apply (Permutation_app_inv_r todo). rewrite <- E4, <- app_assoc.
    cbn [app]. by rewrite <- Permutation_middle.
Qed.

Lemma take_inv s i m : sched_inv s -> workers s !! i = Some C_take ->
  queue s !! Z.to_nat (fullSlot s) = Some m ->
  sched_inv (set_worker i (C_unlock m) (take_msg m s)).
Proof using Hsize.
  intros Hinv Hi Hm. pose proof (in_ring_nonneg s Hinv) as Hn. pose proof (in_ring_le s Hinv) as Hle.
  pose proof (sumf_nonneg _ (producers s) claims_nonneg) as Hcl.
  pose proof (sumf_nonneg _ (producers s) unannounced_nonneg) as Hun.
  destruct Hinv as [I1 I2 I3 I4 [I5 I5'] I6 I7 I8 I9 I10 I11].
  destruct (worker_moves _ _ _ (C_unlock m) Hi) as (E1 & E2 & E3 & E4 & E5 & _).
  cbn [takes unreturned c_critical holds] in E1, E2, E3, E4, E5.
  assert (Hring : in_ring (set_worker i (C_unlock m) (take_msg m s)) = in_ring s - 1)
    by (unfold in_ring; cbn; rewrite length_app; cbn; lia).
  pose proof (Z.mod_pos_bound (fullSlot s + 1) size Hsize).
  destruct (ring_pop (queue s) (fullSlot s) (in_ring s)) as (x & Hx & Hpop); [lia|lia|].
  assert (x = m) as -> by congruence.
  constructor; rewrite ?Hring; cbn [set_worker take_msg queueSize queue fullSlot emptySlot emptySem fullSem
    producers workers written taken ran queueMutex]; try done; try lia.
  - by rewrite length_insert.
  - rewrite I1, rem_mod by lia. lia.
  - rewrite I1, rem_mod by lia. rewrite I4, Zplus_mod_idemp_l. f_equal. lia.
  - rewrite I1, rem_mod by lia. rewrite <- I2, ring_clear by lia.
    rewrite I9 at 1. rewrite Hpop, I2, <- app_assoc. done.
  - rewrite I10, <- app_assoc. apply Permutation_app_head. rewrite app_nil_r in E4. by rewrite E4.
Qed.

Lemma run_inv s i m : sched_inv s -> workers s !! i = Some (C_run m) ->
  sched_inv (set_worker i C_wait (run_msg m s)).
Proof using.
  intros [I1 I2 I3 I4 I5 I6 I7 I8 I9 I10 I11] Hi.
  destruct (worker_moves _ _ _ C_wait Hi) as (E1 & E2 & E3 & E4 & _ & _).
  cbn [takes unreturned c_critical holds] in E1, E2, E3, E4. rewrite app_nil_r in E4.
  constructor; cbn [set_worker run_msg queueSize queue fullSlot emptySlot emptySem fullSem
    producers workers written taken ran queueMutex]; unfold in_ring in *;
    cbn [written taken set_worker run_msg]; try done; try lia.
  rewrite I10, <- app_assoc. apply Permutation_app_head. rewrite <- E4.
  apply Permutation_app_comm.
Qed.

(** Every step that no signal interrupts keeps the invariant. *)
Lemma step_inv s s' : step false s s' -> sched_inv s -> sched_inv s'.
Proof using Hsize.
  intros Hstep Hinv. pose proof Hinv as [_ _ _ _ [Ie If] _ _ _ _ _ _].
  destruct Hstep as [s i m todo Hi He|s i m todo Hs|s i m todo Hi Hm|s i m todo Hi|s i todo Hi|s i todo Hi|
    s i Hi Hf|s i Hs|s i Hi Hm|s i m Hi Hm|s i m Hi|s i m Hi|s i m Hi]; try done.
  - eapply quiet_producer; [done|done|done|cbn; lia..].
  - eapply quiet_producer; [done|done|done|cbn; try lia..]. by rewrite Hm.
  - by apply write_inv.
  - eapply quiet_producer; [done|done|done|cbn; try lia..].
    pose proof (producer_moves _ _ _ (P_post, todo) Hi) as (_ & _ & _ & _ & _ & E).
    pose proof (sumf_nonneg _ (workers s) c_critical_nonneg). destruct Hinv.
    cbn in E. destruct (queueMutex s); lia.
  - eapply quiet_producer; [done|done|done|cbn; lia..].
  - eapply quiet_worker; [done|done|done|cbn; lia..].
  - eapply quiet_worker; [done|done|done|cbn; try lia..]. by rewrite Hm.
  - by apply take_inv.
  - eapply quiet_worker; [done|done|done|cbn; try lia..].
    pose proof (worker_moves _ _ _ (C_post m) Hi) as (_ & _ & _ & _ & _ & E).
    pose proof (sumf_nonneg _ (producers s) p_critical_nonneg). destruct Hinv.
    cbn in E. destruct (queueMutex s); lia.
  - eapply quiet_worker; [done|done|done|cbn; lia..].
  - by apply run_inv.
Qed.

Lemma steps_inv n s s' : steps false n s s' -> sched_inv s -> sched_inv s'.
Proof using Hsize. induction 1; [done|]. intros Hs. eapply step_inv; [done|]. by apply IHsteps. Qed.

(** ** The work left *)
Definition p_work (p : producer_pc * list SSchedMsg) : Z :=
  11 * Z.of_nat (length p.2) +
  match p.1 with P_idle => 0 | P_lock _ => 10 | P_write _ => 9 | P_unlock => 8 | P_post => 7 end.
Definition c_work (c : worker_pc) : Z :=
  match c with
  | C_wait => 0 | C_lock => 5 | C_take => 4 | C_unlock _ => 3 | C_post _ => 2 | C_run _ => 1
  end.
Definition work (s : SSchedQueue) : Z :=
  sumf p_work (producers s) + 6 * fullSem s + sumf c_work (workers s).

Lemma p_work_nonneg p : 0 <= p_work p. Proof. unfold p_work. case_match; lia. Qed.
Lemma c_work_nonneg c : 0 <= c_work c. Proof. unfold c_work. case_match; lia. Qed.

Lemma step_work s s' : step false s s' -> work s' = work s - 1.
Proof using.
  intros Hstep. unfold work.
  destruct Hstep as [s i m todo Hi He|s i m todo Hs|s i m todo Hi Hm|s i m todo Hi|s i todo Hi|s i todo Hi|
    s i Hi Hf|s i Hs|s i Hi Hm|s i m Hi Hm|s i m Hi|s i m Hi|s i m Hi]; try done;
    cbn [producers workers fullSem set_producer set_worker sems put_msg take_msg run_msg];
    rewrite (sumf_insert _ _ _ _ _ Hi); unfold p_work, c_work; cbn [fst snd length]; lia.
Qed.

Lemma steps_work n s s' : steps false n s s' -> work s' = work s - Z.of_nat n.
Proof using.
  induction 1 as [|n s s' s'' Hs IH Hstep]; [lia|]. rewrite (step_work _ _ Hstep), IH. lia.
Qed.

Lemma sumf_ex {A} (f : A -> Z) l : sumf f l <> 0 -> exists i x, l !! i = Some x /\ f x <> 0.
Proof using.
  induction l as [|x l IH]; intros Hs; [done|]. rewrite sumf_cons in Hs.
  destruct (decide (f x = 0)) as [Hx|Hx].
  - destruct IH as (i & y & Hi & Hy); [lia|]. by exists (S i), y.
  - by exists 0%nat, x.
Qed.

(** Nothing moves only when nothing is left to do. *)
Lemma stuck_done s : sched_inv s -> workers s <> [] -> (forall s', ~ step false s s') -> work s = 0.
Proof using Hsize.
  intros Hinv Hw Hstuck. pose proof Hinv as [I1 I2 I3 I4 [I5 I5'] I6 I7 I8 _ _ _].
  assert (Hfree : queueMutex s = false).
  { destruct (queueMutex s) eqn:Hm; [|done]. exfalso.
    destruct (decide (sumf p_critical (producers s) = 0)) as [Hz|Hz].
    - destruct (sumf_ex c_critical (workers s)) as (i & c & Hi & Hc); [lia|].
      destruct c as [| | |m|m|m]; try done.
      + destruct (lookup_lt_is_Some_2 (queue s) (Z.to_nat (fullSlot s))) as [m Hq]; [lia|].
        by eapply Hstuck, step_c_take.
      + by eapply Hstuck, step_c_unlock.
    - apply sumf_ex in Hz as (i & [pc todo] & Hi & Hp). destruct pc; try done.
      + by eapply Hstuck, step_p_write.
      + by eapply Hstuck, step_p_unlock. }
  assert (Hidle : forall c, c ∈ workers s -> c = C_wait).
  { intros c [i Hi]%list_elem_of_lookup. destruct c as [| | |m|m|m]; [done|exfalso..].
    - by eapply Hstuck, step_c_lock.
    - destruct (lookup_lt_is_Some_2 (queue s) (Z.to_nat (fullSlot s))) as [m Hq]; [lia|].
      by eapply Hstuck, step_c_take.
    - by eapply Hstuck, step_c_unlock.
    - by eapply Hstuck, step_c_post.
    - by eapply Hstuck, step_c_run. }
  assert (Hfs : fullSem s = 0).
  { destruct (workers s) as [|c ws] eqn:Hws; [done|].
    destruct (decide (0 < fullSem s)) as [Hp|]; [|lia]. exfalso.
    apply (Hstuck _ (step_c_wait _ s 0 ltac:(by rewrite Hws, (Hidle c ltac:(constructor))) Hp)). }
  assert (Hpidle : forall p, p ∈ producers s -> p.1 = P_idle).
  { intros [pc todo] [i Hi]%list_elem_of_lookup. destruct pc; [done|exfalso..].
    - by eapply Hstuck, step_p_lock.
    - by eapply Hstuck, step_p_write.
    - by eapply Hstuck, step_p_unlock.
    - by eapply Hstuck, step_p_post. }
  rewrite (sumf_zero takes) in I7 by (intros c Hc; by rewrite (Hidle c Hc)).
  rewrite (sumf_zero unreturned) in I6 by (intros c Hc; by rewrite (Hidle c Hc)).
  rewrite (sumf_zero unannounced) in I7
    by (intros p Hp; unfold unannounced; by rewrite (Hpidle p Hp)).
  rewrite (sumf_zero claims) in I6 by (intros p Hp; unfold claims; by rewrite (Hpidle p Hp)).
  unfold work. rewrite Hfs, (sumf_zero c_work) by (intros c Hc; by rewrite (Hidle c Hc)).
  rewrite (sumf_zero p_work); [lia|]. intros [pc [|m todo]] Hp.
  - unfold p_work. by rewrite (Hpidle _ Hp).
  - exfalso. pose proof (Hpidle _ Hp) as E. cbn in E. subst pc.
    apply list_elem_of_lookup in Hp as [i Hi]. eapply Hstuck, step_p_wait; [exact Hi|lia].
Qed.

(** When no work is left every message was written, taken and run. *)
Lemma done_all s : sched_inv s -> work s = 0 -> all ≡ₚ ran s /\ written s = taken s.
Proof using.
  intros [I1 I2 I3 I4 [I5 I5'] I6 I7 I8 I9 I10 I11] Hz. unfold work in Hz.
  pose proof (sumf_nonneg _ (producers s) p_work_nonneg).
  pose proof (sumf_nonneg _ (workers s) c_work_nonneg).
  assert (Hpz : sumf p_work (producers s) = 0) by lia.
  assert (Hcz : sumf c_work (workers s) = 0) by lia.
  assert (Hp : forall p, p ∈ producers s -> p = (P_idle, [])).
  { intros p [i Hi]%list_elem_of_lookup.
    pose proof (sumf_le _ _ _ _ p_work_nonneg Hi) as Hle. rewrite Hpz in Hle. destruct p as [pc [|m todo]]; unfold p_work in Hle.
    - destruct pc; cbn in Hle; (done || lia).
    - cbn [fst snd length] in Hle. destruct pc; lia. }
  assert (Hc : forall c, c ∈ workers s -> c = C_wait).
  { intros c [i Hi]%list_elem_of_lookup.
    pose proof (sumf_le _ _ _ _ c_work_nonneg Hi) as Hle. rewrite Hcz in Hle. destruct c; cbn in Hle; (done || lia). }
  assert (Hu : concat (map unwritten (producers s)) = []).
  { clear -Hp. induction (producers s) as [|p l IH]; [done|]. cbn. rewrite IH.
    - by rewrite (Hp p ltac:(constructor)).
    - intros q Hq. apply Hp. by constructor. }
  assert (Hh : concat (map holds (workers s)) = []).
  { clear -Hc. induction (workers s) as [|c l IH]; [done|]. cbn. rewrite IH.
    - by rewrite (Hc c ltac:(constructor)).
    - intros q Hq. apply Hc. by constructor. }
  rewrite (sumf_zero takes) in I7 by (intros c E; by rewrite (Hc c E)).
  rewrite (sumf_zero unannounced) in I7 by (intros p E; by rewrite (Hp p E)).
  assert (Hn : in_ring s = 0) by lia. rewrite Hn in I9. unfold ring in I9. cbn in I9.
  rewrite app_nil_r in I9. split; [|done]. rewrite I11, Hu, app_nil_r, I9, I10, Hh, app_nil_r. done.
Qed.
End Invariant.

(** ** Theorems *)

(** C20.  Whatever the threads and the order of their steps, as long as no signal
    interrupts [sem_wait], the scheduler is a bounded first-in first-out queue:
    the messages taken by workers are, in order, the ones written first, the
    others are in the ring, never more than [queueSize]; every message taken
    was run or is held by the worker that took it; and no scheduled message is
    lost or duplicated on its way into the queue. *)
Theorem sched_fifo size threads todo n s : 0 < size ->
  steps false n (taosInitScheduler size threads todo) s ->
  exists waiting, written s = taken s ++ waiting /\ Z.of_nat (length waiting) <= size /\
    waiting = ring (queue s) (fullSlot s) (Z.of_nat (length waiting)) /\
    taken s ≡ₚ ran s ++ concat (map holds (workers s)) /\
    concat todo ≡ₚ written s ++ concat (map unwritten (producers s)).
Proof.
  intros Hsize Hsteps.
  pose proof (steps_inv size (concat todo) Hsize n _ _ Hsteps
    (init_inv size (concat todo) Hsize threads todo eq_refl)) as Hinv.
  pose proof (in_ring_nonneg _ _ _ Hinv). pose proof (in_ring_le _ _ _ Hinv) as Hle.
  pose proof (sumf_nonneg _ (producers s) claims_nonneg).
  destruct Hinv as [I1 I2 I3 I4 I5 I6 I7 I8 I9 I10 I11].
  assert (Hlen : Z.of_nat (length (ring (queue s) (fullSlot s) (in_ring s))) = in_ring s)
    by (apply length_ring; lia).
  exists (ring (queue s) (fullSlot s) (in_ring s)). rewrite Hlen. split_and!; (done || lia).
Qed.

(** C21.  With at least one worker no run deadlocks or goes on for ever: every run
    has at most eleven steps for each message, and one that cannot be continued
    has run every message scheduled exactly once. *)
Theorem sched_completes size threads todo n s : 0 < size -> 0 < threads ->
  steps false n (taosInitScheduler size threads todo) s ->
  Z.of_nat n <= 11 * Z.of_nat (length (concat todo)) /\
  ((forall s', ~ step false s s') ->
    concat todo ≡ₚ ran s /\ Z.of_nat n = 11 * Z.of_nat (length (concat todo))).
Proof.
  intros Hsize Hthreads Hsteps.
  pose proof (steps_inv size (concat todo) Hsize n _ _ Hsteps
    (init_inv size (concat todo) Hsize threads todo eq_refl)) as Hinv.
  pose proof (steps_work n _ _ Hsteps) as Hwork.
  assert (Hinit : work (taosInitScheduler size threads todo) = 11 * Z.of_nat (length (concat todo))).
  { unfold work. cbn [producers workers fullSem taosInitScheduler].
    rewrite (sumf_zero c_work) by (intros c [-> _]%elem_of_replicate; done).
    enough (sumf p_work (map (fun t => (P_idle, t)) todo) = 11 * Z.of_nat (length (concat todo))) by lia.
    clear. induction todo as [|t todo IH]; [done|]. cbn [map concat]. rewrite sumf_cons, IH, length_app.
    unfold p_work. cbn [fst snd]. lia. }
  assert (Hnn : 0 <= work s).
  { unfold work. destruct Hinv as [_ _ _ _ [_ I5] _ _ _ _ _ _].
    pose proof (sumf_nonneg _ (producers s) p_work_nonneg).
    pose proof (sumf_nonneg _ (workers s) c_work_nonneg). lia. }
  split; [lia|]. intros Hstuck.
  assert (Hworkers : workers s <> []).
  { assert (Hlen : length (workers s) = Z.to_nat threads); [|intros E; rewrite E in Hlen; cbn in Hlen; lia].
    clear -Hsteps. remember (taosInitScheduler size threads todo) as s0 eqn:Hs0.
    induction Hsteps as [s0|n s0 s s' Hsteps IH Hstep].
    - subst. cbn. by rewrite length_replicate.
    - specialize (IH Hs0). rewrite <- IH. destruct Hstep; cbn; by rewrite ?length_insert. }
  pose proof (stuck_done _ _ Hsize s Hinv Hworkers Hstuck) as Hz.
  destruct (done_all _ _ s Hinv Hz) as [Hall _]. split; [done|]. lia.
Qed.

Definition task (n : Z) : SSchedMsg := {| fp := n; tfp := 0; msg := 0; ahandle := 0; thandle := 0 |}.

(** One producer writes a task into a queue of one slot. *)
Lemma sched_fifo_witness : exists s waiting,
  steps false 3 (taosInitScheduler 1 1 [[task 7]]) s /\ written s = taken s ++ waiting /\
  waiting = ring (queue s) (fullSlot s) (Z.of_nat (length waiting)) /\ written s = [task 7].
Proof.
  assert (exists s, steps false 3 (taosInitScheduler 1 1 [[task 7]]) s /\ written s = [task 7])
    as (s & Hs & Hw).
  { eexists. split.
    - eapply steps_S; [eapply steps_S; [eapply steps_S; [apply steps_0|]|]|].
      + eapply (step_p_wait _ _ 0); reflexivity.
      + eapply (step_p_lock _ _ 0); reflexivity.
      + eapply (step_p_write _ _ 0); reflexivity.
    - reflexivity. }
  destruct (sched_fifo 1 1 [[task 7]] 3 s ltac:(lia) Hs) as (waiting & H1 & _ & H2 & _).
  by exists s, waiting.
Defined.

(** No run with one task is longer than eleven steps. *)
Lemma sched_completes_witness :
  (exists s, steps false 1 (taosInitScheduler 1 1 [[task 7]]) s) /\
  forall n s, steps false n (taosInitScheduler 1 1 [[task 7]]) s -> Z.of_nat n <= 11.
Proof.
  split.
  - eexists. eapply steps_S; [apply steps_0|]. eapply (step_p_wait _ _ 0); reflexivity.
  - intros n s Hs. destruct (sched_completes 1 1 [[task 7]] n s) as [Hn _]; [lia|lia|exact Hs|].
    exact Hn.
Defined.

(** A signal during [sem_wait] makes a producer go on without a free slot: a
    task that no worker has taken is overwritten. *)
Lemma interrupted_producer_overwrites : exists n s,
  steps true n (taosInitScheduler 1 1 [[task 7]; [task 8]]) s /\
  written s = [task 7; task 8] /\ taken s = [] /\ queue s = [task 8] /\
  Forall (fun p => p.1 = P_idle) (producers s).
Proof.
  do 2 eexists. split.
  - eapply steps_cons; [eapply (step_p_wait _ _ 0); reflexivity|].
    eapply steps_cons; [eapply (step_p_lock _ _ 0); reflexivity|].
    eapply steps_cons; [eapply (step_p_write _ _ 0); reflexivity|].
    eapply steps_cons; [eapply (step_p_unlock _ _ 0); reflexivity|].
    eapply steps_cons; [eapply (step_p_post _ _ 0); reflexivity|].
    eapply steps_cons; [eapply (step_p_intr _ _ 1); reflexivity|].
    eapply steps_cons; [eapply (step_p_lock _ _ 1); reflexivity|].
    eapply steps_cons; [eapply (step_p_write _ _ 1); reflexivity|].
    eapply steps_cons; [eapply (step_p_unlock _ _ 1); reflexivity|].
    eapply steps_cons; [eapply (step_p_post _ _ 1); reflexivity|].
    apply steps_0.
  - split; [reflexivity|]. split; [reflexivity|]. split; [reflexivity|]. repeat constructor.
Qed.
