(* ===== verification/LoserTree.v ===== *)
(** * The loser tree (util/src/tlosertree.c)

    A tournament of [numOfEntries] sources: a node keeps the loser of the match played
    there, node 0 the winner of all.  The sources are compared by a callback; when that of
    the winner has changed, the matches on its way to the root are played again. *)
From S2P Require Import Prelude.

(** ** The code *)

(** Of a node only the [index] is ever set. *)
Record SLoserTreeInfo := mkTree { numOfEntries : Z; totalEntries : Z; pNode : list Z }.

Section Tree.
Context (comparaFn : Z -> Z -> res Z).

Definition tLoserTreeInit (t : SLoserTreeInfo) : res SLoserTreeInfo :=
  if (Z.land (totalEntries t) 1 =? 0) && (i32 (Z.shiftl (numOfEntries t) 1) =? totalEntries t) then
    Ret (mkTree (numOfEntries t) (totalEntries t)
           (map (fun i => if Z.of_nat i <? numOfEntries t then -1 else Z.of_nat i - numOfEntries t) (seq 0 (Z.to_nat (totalEntries t)))))
  else Exit.

(** The way to the root, of at most 31 nodes. *)
Fixpoint climb (fuel : nat) (parentId kLeaf : Z) (nodes : list Z) : res (list Z) :=
  match fuel with
  | O => NoFuel
  | S fuel =>
    if 0 <? parentId then
      let! index := rd1 nodes parentId in
      if index =? -1 then wr nodes parentId [kLeaf]
      else
        let! ret := comparaFn index kLeaf in
        if ret <? 0 then let! nodes := wr nodes parentId [kLeaf] in climb fuel (Z.shiftr parentId 1) index nodes
        else climb fuel (Z.shiftr parentId 1) kLeaf nodes
    else
      let! first := rd1 nodes 1 in
      if kLeaf =? first then Ret nodes else wr nodes 0 [kLeaf]
  end.

Definition tLoserTreeAdjust (idx : Z) (t : SLoserTreeInfo) : res SLoserTreeInfo :=
  if (idx <=? totalEntries t - 1) && (numOfEntries t <=? idx) && (2 <=? totalEntries t) then
    if totalEntries t =? 2 then
      let! nodes := wr (pNode t) 0 [0] in let! nodes := wr nodes 1 [0] in Ret (mkTree (numOfEntries t) (totalEntries t) nodes)
    else
      let! kLeaf := rd1 (pNode t) idx in
      let! nodes := climb 32 (Z.shiftr idx 1) kLeaf (pNode t) in Ret (mkTree (numOfEntries t) (totalEntries t) nodes)
  else Exit.

(** The leaves from [n - 1] on down to the first, after [n]. *)
Fixpoint adjust_leaves (n : nat) (t : SLoserTreeInfo) : res SLoserTreeInfo :=
  match n with
  | O => Ret t
  | S n => let! t := tLoserTreeAdjust (numOfEntries t + Z.of_nat n) t in adjust_leaves n t
  end.
Definition tLoserTreeRebuild (t : SLoserTreeInfo) : res SLoserTreeInfo :=
  if Z.land (totalEntries t) 1 =? 0 then let! t := tLoserTreeInit t in adjust_leaves (Z.to_nat (totalEntries t - numOfEntries t)) t else Exit.
Definition tLoserTreeCreate (numOfEntries : Z) : res SLoserTreeInfo :=
  let totalEntries := i32 (Z.shiftl numOfEntries 1) in
  let! t := tLoserTreeInit (mkTree numOfEntries totalEntries (replicate (Z.to_nat totalEntries) 0)) in
  adjust_leaves (Z.to_nat (totalEntries - numOfEntries)) t.
End Tree.

(** ** Nodes as binary numbers: the parent is the number without its last digit *)
Fixpoint within (p c : positive) : Prop :=
  p = c \/ match c with xH => False | xO c => within p c | xI c => within p c end.
Definition above (p c : positive) : Prop := match c with xH => False | xO c => within p c | xI c => within p c end.
Definition parent (c : positive) : positive := match c with xH => xH | xO c => c | xI c => c end.
Definition sibling (c : positive) : positive := match c with xH => xH | xO c => xI c | xI c => xO c end.

#[export] Instance within_dec p c : Decision (within p c).
Proof. induction c; cbn; apply _. Defined.
#[export] Instance above_dec p c : Decision (above p c).
Proof. destruct c; cbn; apply _. Defined.

Lemma within_self c : within c c.
Proof. destruct c; by left. Qed.
Lemma within_above p c : within p c <-> p = c \/ above p c.
Proof. by destruct c. Qed.
Lemma within_le p c : within p c -> (p <= c)%positive.
Proof. induction c; cbn; intros [->|Hp]; try lia; specialize (IHc Hp); lia. Qed.
Lemma above_lt p c : above p c -> (p < c)%positive.
Proof. destruct c; cbn; [| |done]; intros Hp%within_le; lia. Qed.
Lemma above_parent p c : above p c -> p <> parent c -> above p (parent c).
Proof. destruct c; cbn; [| |done]; intros Hp Hne; apply within_above in Hp as [?|?]; done. Qed.
Lemma parent_above p c : c <> 1%positive -> within p (parent c) -> above p c.
Proof. by destruct c. Qed.
Lemma within_parent p c : within p c -> within (parent p) c.
Proof.
  induction c; cbn; intros [->|Hp]; cbn; [right; apply within_self|right; by apply IHc|right; apply within_self|right; by apply IHc|by left|done].
Qed.
(** Two different children have nothing in common. *)
Lemma within_children j c : within (xO j) c -> within (xI j) c -> False.
Proof.
  induction c as [c IH|c IH|]; cbn; intros [Ha|Ha] [Hb|Hb]; try done; [|by apply IH| |by apply IH].
  - injection Hb as ->. apply within_le in Ha. lia.
  - injection Ha as ->. apply within_le in Hb. lia.
Qed.
Lemma within_sibling d c : d <> 1%positive -> within d c -> within (sibling d) c -> False.
Proof. destruct d; cbn; [| |done]; intros _ Ha Hb; by eapply within_children. Qed.
Lemma above_within p q c : above p q -> within q c -> above p c.
Proof.
  revert q. induction c as [c IH|c IH|]; cbn; intros q Hp [->|Hq]; try done; apply within_above; right; by eapply IH.
Qed.

(** ** The matches *)
Section Matches.
Context (k : Z).
Definition leaf (x : Z) : positive := Z.to_pos (x + k).
Definition node (nodes : list Z) (j : positive) : option Z := nodes !! Pos.to_nat j.

(** [W] is who won below a node, if all matches there were played. *)
Definition played (le : Z -> Z -> Prop) (nodes : list Z) (W : positive -> option Z) (j : positive) : Prop :=
  match W (xO j), W (xI j) with
  | Some x, Some y => W j = Some x /\ node nodes j = Some y /\ le x y \/ W j = Some y /\ node nodes j = Some x /\ le y x
  | Some x, None | None, Some x => W j = None /\ node nodes j = Some x
  | None, None => W j = None /\ node nodes j = Some (-1)
  end.

Definition from_leaf (W : positive -> option Z) : Prop := forall j x, W j = Some x -> 0 <= x < k /\ within j (leaf x).

(** The leaf [c] with [x] is to climb: nothing was played above it. *)
Record climbs (le : Z -> Z -> Prop) (c : positive) (x : Z) (nodes : list Z) (W : positive -> option Z) : Prop := {
  cl_start : W c = Some x;
  cl_above : forall q, above q c -> W q = None;
  cl_played : forall j, Z.pos j < k -> ~ above j c -> played le nodes W j;
  cl_wait : forall d, within d c -> d <> 1%positive -> node nodes (parent d) = Some (default (-1) (W (sibling d)));
  cl_leaf : from_leaf W }.

Definition won (W : positive -> option Z) (p : positive) (x : Z) : positive -> option Z := fun q => if decide (q = p) then Some x else W q.

Lemma distinct W d x : from_leaf W -> d <> 1%positive -> W d = Some x -> W (sibling d) = Some x -> False.
Proof. intros HW Hd H1 H2. apply HW in H1 as [_ H1]. apply HW in H2 as [_ H2]. by eapply within_sibling. Qed.

Lemma node_insert nodes p v q : (Pos.to_nat p < length nodes)%nat -> node (<[Pos.to_nat p := v]> nodes) q = if decide (q = p) then Some v else node nodes q.
Proof.
  intros Hp. unfold node. destruct (decide (q = p)) as [->|Hne]; [by apply list_lookup_insert_eq|]. apply list_lookup_insert_ne. lia.
Qed.

(** One match. *)
Lemma match_step le c x nodes W y w l : climbs le c x nodes W -> c <> 1%positive -> Z.pos c < 2 * k -> W (sibling c) = Some y -> length nodes = Z.to_nat (2 * k) ->
  w = x /\ l = y /\ le x y \/ w = y /\ l = x /\ le y x -> climbs le (parent c) w (<[Pos.to_nat (parent c) := l]> nodes) (won W (parent c) w).
Proof.
  intros [Hs Ha Hp Hw Hl] Hc Hk Hy Hlen Hm. set (p := parent c).
  assert (Hpc : (p < c)%positive) by (apply above_lt; apply parent_above; [done|apply within_self]). assert (Hpn : (Pos.to_nat p < length nodes)%nat) by lia.
  assert (Hsib : forall d, within d p -> d <> 1%positive -> sibling d <> p).
  { intros d Hd Hd1 E. apply (within_sibling d p Hd1 Hd). rewrite E. apply within_self. }
  constructor.
  - unfold won. by rewrite decide_True.
  - intros q Hq. unfold won. rewrite decide_False by (intros ->; apply above_lt in Hq; lia). apply Ha. apply parent_above; [done|]. apply within_above. by right.
  - intros j Hj Hnot. unfold played. rewrite !node_insert by done. destruct (decide (j = p)) as [->|Hne].
    + assert (Hch : won W p w (xO p) = W (xO p) /\ won W p w (xI p) = W (xI p)) by (unfold won; rewrite !decide_False by lia; done). destruct Hch as [-> ->].
      assert (Ep : won W p w p = Some w) by (unfold won; by rewrite decide_True). rewrite Ep.
      destruct c as [c|c|]; [| |done]; cbn in p, Hy; subst p; rewrite Hs, Hy; destruct Hm as [(-> & -> & ?)|(-> & -> & ?)]; auto.
    + assert (Hnc : ~ above j c).
      { intros Hjc. apply Hnot. by apply above_parent. }
      assert (Hch : forall d, parent d = j -> d <> 1%positive -> won W p w d = W d).
      { intros d Hd Hd1. unfold won. rewrite decide_False; [done|]. intros ->. apply Hnot. rewrite <- Hd. apply parent_above; [done|apply within_self]. }
      rewrite (Hch (xO j)), (Hch (xI j)) by done. unfold won. rewrite decide_False by done. by apply Hp.
  - intros d Hd Hd1. rewrite node_insert by done. rewrite decide_False.
    2:{ intros E. apply within_le in Hd. assert (Hlt : (parent d < d)%positive) by (apply above_lt, parent_above; [done|apply within_self]). lia. }
    unfold won. rewrite decide_False by (by apply Hsib). apply Hw; [|done]. apply within_above. right. by apply parent_above.
  - intros j z. unfold won. destruct (decide (j = p)) as [->|Hne]; [|by apply Hl]. intros [= ->].
    destruct Hm as [(-> & -> & _)|(-> & -> & _)]; [apply Hl in Hs as [? Hin]|apply Hl in Hy as [? Hin]]; (split; [done|]); unfold p.
    + by apply within_parent.
    + apply within_parent in Hin. by destruct c.
Qed.

(** An empty place. *)
Lemma wait_step le c x nodes W : climbs le c x nodes W -> c <> 1%positive -> Z.pos c < 2 * k -> W (sibling c) = None -> length nodes = Z.to_nat (2 * k) ->
  forall j, Z.pos j < k -> played le (<[Pos.to_nat (parent c) := x]> nodes) W j.
Proof.
  intros [Hs Ha Hp Hw Hl] Hc Hk Hy Hlen j Hj. set (p := parent c).
  assert (Hpc : (p < c)%positive) by (apply above_lt; apply parent_above; [done|apply within_self]). assert (Hpn : (Pos.to_nat p < length nodes)%nat) by lia.
  assert (Hpa : above p c) by (apply parent_above; [done|apply within_self]).
  destruct (decide (above j c)) as [Hjc|Hjc].
  2:{ specialize (Hp j Hj Hjc). unfold played in *. rewrite !node_insert by done. rewrite !decide_False; [done|]. by intros ->. }
  unfold played. rewrite !node_insert by done. destruct (decide (j = p)) as [->|Hne].
  - rewrite (Ha p Hpa). destruct c as [c|c|]; [| |done]; cbn in p, Hy; subst p; by rewrite Hs, Hy.
  - assert (Hd : exists d, parent d = j /\ d <> 1%positive /\ above d c).
    { clear - Hjc Hne. subst p. induction c as [c IH|c IH|]; cbn in *; [| |done]; apply within_above in Hjc as [?|Hjc]; try done.
      - destruct (decide (j = parent c)) as [->|Hne2]; [exists c; split; [done|]; split; [by intros ->|]; apply within_self|].
        destruct (IH Hjc Hne2) as (d & ? & ? & ?). exists d. split; [done|]. split; [done|]. apply within_above. by right.
      - destruct (decide (j = parent c)) as [->|Hne2]; [exists c; split; [done|]; split; [by intros ->|]; apply within_self|].
        destruct (IH Hjc Hne2) as (d & ? & ? & ?). exists d. split; [done|]. split; [done|]. apply within_above. by right. }
    destruct Hd as (d & Ed & Hd1 & Hdc). pose proof (Hw d (proj2 (within_above _ _) (or_intror Hdc)) Hd1) as Hn. rewrite Ed in Hn. rewrite Hn, (Ha j Hjc).
    pose proof (Ha d Hdc) as Hwd. destruct d as [d|d|]; [| |done]; cbn [parent sibling] in *; subst d; rewrite Hwd; [by destruct (W (xO j))|by destruct (W (xI j))].
Qed.

(** ** Climbing *)
Section Climb.
Context (le : Z -> Z -> Prop) (cmp : Z -> Z -> res Z).
Context (Hcmp : forall a b, 0 <= a < k -> 0 <= b < k -> a <> b -> exists r, cmp a b = Ret r /\ (r < 0 -> le a b) /\ (0 <= r -> le b a)).

Lemma parent_half c : Z.shiftr (Z.pos c) 1 = if decide (c = 1%positive) then 0 else Z.pos (parent c).
Proof. by destruct c. Qed.

Lemma climb_ok fuel : forall c x nodes W, climbs le c x nodes W -> 2 <= k -> Z.pos c < 2 * k -> Z.pos c < 2 ^ Z.of_nat fuel -> length nodes = Z.to_nat (2 * k) ->
  exists nodes' W', climb cmp fuel (Z.shiftr (Z.pos c) 1) x nodes = Ret nodes' /\ length nodes' = length nodes /\
    (forall j, Z.pos j < k -> played le nodes' W' j) /\ from_leaf W' /\ (forall j, ~ above j c -> W' j = W j) /\
    (forall j, k <= Z.pos j -> node nodes' j = node nodes j) /\ forall z, W' 1%positive = Some z -> nodes' !! 0%nat = Some z.
Proof using Hcmp.
  induction fuel as [|fuel IH]; intros c x nodes W Hcl Hk Hc Hf Hlen; [cbn in Hf; lia|]. pose proof Hcl as [Hs Ha Hp Hw Hl].
  cbn [climb]. rewrite parent_half. destruct (decide (c = 1%positive)) as [->|Hc1].
  - change (0 <? 0) with false. cbv iota. pose proof (Hp 1%positive ltac:(lia) (fun h => h)) as Hp1. unfold played in Hp1.
    assert (Hn : exists y, node nodes 1 = Some y /\ y <> x).
    { rewrite Hs in Hp1. destruct (W 2%positive) as [a|] eqn:Ea, (W 3%positive) as [b|] eqn:Eb; try by destruct Hp1.
      assert (a <> b) by (intros ->; by apply (distinct W 2%positive b)).
      destruct Hp1 as [(E & Hn & _)|(E & Hn & _)]; injection E as <-; eexists; (split; [exact Hn|congruence]). }
    destruct Hn as (y & Hn & Hne). rewrite (rd1_lookup nodes 1 y) by (lia || exact Hn). cbn [rbind]. rewrite (proj2 (Z.eqb_neq x y)) by congruence.
    rewrite wr_one by lia. exists (<[0%nat := x]> nodes), W. split; [done|]. split; [by rewrite length_insert|].
    assert (Hnode : forall j, node (<[0%nat := x]> nodes) j = node nodes j) by (intros j; unfold node; apply list_lookup_insert_ne; lia).
    split; [intros j Hj; specialize (Hp j Hj (fun h => h)); unfold played in *; by rewrite Hnode|]. split; [done|]. split; [done|]. split; [done|].
    intros z Hz. rewrite Hs in Hz. injection Hz as <-. apply list_lookup_insert_eq. lia.
  - change (0 <? Z.pos (parent c)) with true. cbv iota.
    assert (Hpa : above (parent c) c) by (apply parent_above; [done|apply within_self]). pose proof (above_lt _ _ Hpa) as Hlt.
    assert (Hpk : Z.pos (parent c) < k) by (clear - Hc Hc1; destruct c; cbn [parent]; lia).
    pose proof (Hw c (within_self c) Hc1) as Hn. unfold node in Hn. rewrite (rd1_lookup nodes (Z.pos (parent c)) _) by (try lia; exact Hn). cbn [rbind].
    assert (Hroot : within 1%positive c) by (clear; induction c; cbn; auto).
    destruct (W (sibling c)) as [y|] eqn:Ey; cbn [default].
    + destruct (Hl _ _ Ey) as [Hy _]. destruct (Hl _ _ Hs) as [Hx _]. unfold id. rewrite (proj2 (Z.eqb_neq y (-1))) by lia.
      assert (Hxy : y <> x) by (intros ->; by apply (distinct W c x)).
      destruct (Hcmp y x Hy Hx Hxy) as (r & -> & Hr1 & Hr2). cbn [rbind].
      assert (Hfuel : Z.pos (parent c) < 2 ^ Z.of_nat fuel).
      { rewrite Nat2Z.inj_succ, Z.pow_succ_r in Hf by lia. clear - Hf Hc1. destruct c; cbn [parent]; lia. }
      assert (Hgo : forall w l, w = x /\ l = y /\ le x y \/ w = y /\ l = x /\ le y x ->
        exists nodes' W', climb cmp fuel (Z.shiftr (Z.pos (parent c)) 1) w (<[Pos.to_nat (parent c) := l]> nodes) = Ret nodes' /\ length nodes' = length nodes /\
        (forall j, Z.pos j < k -> played le nodes' W' j) /\ from_leaf W' /\ (forall j, ~ above j c -> W' j = W j) /\
        (forall j, k <= Z.pos j -> node nodes' j = node nodes j) /\ forall z, W' 1%positive = Some z -> nodes' !! 0%nat = Some z).
      { intros w l Hm. destruct (IH _ _ _ _ (match_step le c x nodes W y w l Hcl Hc1 Hc Ey Hlen Hm) Hk ltac:(lia) Hfuel) as (nodes' & W' & K1 & K2 & K3 & K4 & K5 & K6 & K7);
          [by rewrite length_insert|]. rewrite length_insert in K2.
        exists nodes', W'. do 4 (split; [done|]). split; [|split; [|done]].
        - intros j Hj. rewrite K5.
          + unfold won. rewrite decide_False; [done|]. by intros ->.
          + intros Hja. apply Hj. apply parent_above; [done|]. apply within_above. by right.
        - intros j Hj. rewrite K6 by done. rewrite node_insert by lia. rewrite decide_False; [done|]. intros ->. lia. }
      destruct (Z.ltb_spec r 0) as [Hr|Hr].
      * rewrite wr_one by lia. cbn [rbind]. change (Z.to_nat (Z.pos (parent c))) with (Pos.to_nat (parent c)). apply Hgo. right. auto.
      * assert (E : <[Pos.to_nat (parent c) := y]> nodes = nodes) by (by apply list_insert_id). pose proof (Hgo x y (or_introl (conj eq_refl (conj eq_refl (Hr2 Hr))))) as Hg. by rewrite E in Hg.
    + unfold id. change (-1 =? -1) with true. cbv iota. rewrite wr_one by lia. eexists _, W. split; [done|]. split; [by rewrite length_insert|].
      split; [by apply (wait_step le c x nodes W)|]. split; [done|]. split; [done|]. split.
      * intros j Hj. change (Z.to_nat (Z.pos (parent c))) with (Pos.to_nat (parent c)). rewrite node_insert by lia. rewrite decide_False; [done|]. intros ->. lia.
      * intros z Hz. rewrite Ha in Hz; [done|]. apply within_above in Hroot as [Hroot|?]; [by destruct Hc1|done].
Qed.
End Climb.

(** ** A leaf more *)
Definition all_played (le : Z -> Z -> Prop) (nodes : list Z) (W : positive -> option Z) : Prop := forall j, Z.pos j < k -> played le nodes W j.

Lemma above_small q c : above q c -> 2 * Z.pos q <= Z.pos c.
Proof.
  induction c as [c IH|c IH|]; cbn; [| |done]; intros Hq%within_above; (destruct Hq as [->|Hq]; [lia|]); specialize (IH Hq); lia.
Qed.

Lemma none_above le nodes W c q : all_played le nodes W -> Z.pos c < 2 * k -> W c = None -> above q c -> W q = None.
Proof.
  intros Hp. revert q. assert (Hup : forall j, Z.pos j < k -> W (xO j) = None \/ W (xI j) = None -> W j = None).
  { intros j Hj Hn. specialize (Hp j Hj). unfold played in Hp. destruct (W (xO j)), (W (xI j)); destruct Hn as [?|?]; try done; by destruct Hp. }
  induction c as [c IH|c IH|]; cbn; intros q Hc Hn Hq; [| |done]; apply within_above in Hq as [->|Hq].
  - apply Hup; [lia|by right].
  - apply IH; [lia| |done]. apply Hup; [lia|by right].
  - apply Hup; [lia|by left].
  - apply IH; [lia| |done]. apply Hup; [lia|by left].
Qed.

Lemma open_leaf le nodes W c : all_played le nodes W -> from_leaf W -> k <= Z.pos c < 2 * k -> W c = None -> climbs le c (Z.pos c - k) nodes (won W c (Z.pos c - k)).
Proof.
  intros Hp Hl Hc Hn.
  assert (Hw : forall q, q <> c -> won W c (Z.pos c - k) q = W q) by (intros q Hq; unfold won; by rewrite decide_False).
  assert (Hnone : forall d, within d c -> W d = None).
  { intros d Hd. apply within_above in Hd as [->|Hd]; [done|]. by eapply none_above; [|exact (proj2 Hc)| |]. }
  constructor.
  - unfold won. by rewrite decide_True.
  - intros q Hq. rewrite Hw by (intros ->; apply above_lt in Hq; lia). apply Hnone, within_above. by right.
  - intros j Hj Hnot. assert (Hch : forall d, parent d = j -> d <> 1%positive -> d <> c).
    { intros d Hd Hd1 ->. apply Hnot. rewrite <- Hd. apply parent_above; [done|apply within_self]. }
    unfold played. rewrite (Hw (xO j)), (Hw (xI j)), (Hw j) by (try (apply Hch; done); intros ->; lia). by apply Hp.
  - intros d Hd Hd1. assert (Hdc := within_le _ _ Hd).
    assert (Hpd : Z.pos (parent d) < k) by (clear - Hdc Hc Hd1; destruct d; cbn [parent]; lia).
    rewrite Hw by (intros E; apply (within_sibling d c Hd1 Hd); rewrite E; apply within_self).
    specialize (Hp _ Hpd). unfold played in Hp. pose proof (Hnone d Hd) as Hnd.
    destruct d as [d|d|]; [| |done]; cbn [parent sibling] in *; rewrite Hnd in Hp; [destruct (W (xO d))|destruct (W (xI d))]; by destruct Hp as [_ ->].
  - intros j x. unfold won. destruct (decide (j = c)) as [->|Hne]; [|by apply Hl]. intros [= <-]. split; [lia|]. unfold leaf.
    replace (Z.pos c - k + k) with (Z.pos c) by lia. apply within_self.
Qed.

(** ** The tree *)

(** The leaves from [n] on take part. *)
Record tree_from (n : Z) (le : Z -> Z -> Prop) (t : SLoserTreeInfo) : Prop := {
  tf_entries : numOfEntries t = k /\ totalEntries t = 2 * k /\ length (pNode t) = Z.to_nat (2 * k);
  tf_leaves : forall j, k <= Z.pos j < 2 * k -> node (pNode t) j = Some (Z.pos j - k);
  tf_played : exists W, all_played le (pNode t) W /\ from_leaf W /\
    (forall j, k <= Z.pos j < 2 * k -> W j = if k + n <=? Z.pos j then Some (Z.pos j - k) else None) /\
    forall z, W 1%positive = Some z -> pNode t !! 0%nat = Some z }.
Abbreviation tree_ok := (tree_from 0).

(** [le] orders the sources as the callback does. *)
Record ordered_by (le : Z -> Z -> Prop) (cmp : Z -> Z -> res Z) : Prop := {
  ob_cmp : forall a b, 0 <= a < k -> 0 <= b < k -> a <> b -> exists r, cmp a b = Ret r /\ (r < 0 -> le a b) /\ (0 <= r -> le b a);
  ob_trans : forall a b c, le a b -> le b c -> le a c;
  ob_refl : forall a, le a a }.

Context (Hk : 1 <= k < 2 ^ 30).

Lemma all_won le nodes W : all_played le nodes W -> (forall j, k <= Z.pos j < 2 * k -> exists x, W j = Some x) -> forall j, Z.pos j < 2 * k -> exists x, W j = Some x.
Proof using Type.
  intros Hp Hleaf. assert (Hall : forall n j, n = Z.to_nat (2 * k - Z.pos j) -> Z.pos j < 2 * k -> exists x, W j = Some x).
  { intros n. induction (lt_wf n) as [n _ IH]. intros j -> Hj2. destruct (Z.le_gt_cases k (Z.pos j)) as [Hj|Hj]; [by apply Hleaf|].
    destruct (IH (Z.to_nat (2 * k - Z.pos (xO j))) ltac:(lia) (xO j) eq_refl ltac:(lia)) as [a Ha]. destruct (IH (Z.to_nat (2 * k - Z.pos (xI j))) ltac:(lia) (xI j) eq_refl ltac:(lia)) as [b Hb].
    specialize (Hp j Hj). unfold played in Hp. rewrite Ha, Hb in Hp. destruct Hp as [(? & _)|(? & _)]; by eexists. }
  intros j. by eapply Hall.
Qed.

(** The winner is the least. *)
Lemma tree_winner le cmp t : ordered_by le cmp -> tree_ok le t -> exists w, pNode t !! 0%nat = Some w /\ 0 <= w < k /\ forall y, 0 <= y < k -> le w y.
Proof using Hk.
  intros [_ Htr Hrefl] [_ _ (W & Hp & Hl & Hleaf & Hroot)].
  pose proof (all_won le (pNode t) W Hp ltac:(intros j Hj; rewrite Hleaf by lia; rewrite (proj2 (Z.leb_le _ _)) by lia; by eexists)) as Hsome.
  destruct (Hsome 1%positive ltac:(lia)) as [w Hw]. exists w. split; [by apply Hroot|]. split; [by destruct (Hl _ _ Hw)|].
  assert (Hmin : forall c, Z.pos c < 2 * k -> forall v, W c = Some v -> le w v).
  { assert (Hstep : forall j v, Z.pos j < k -> (forall u, W j = Some u -> le w u) -> W (xO j) = Some v \/ W (xI j) = Some v -> le w v).
    { intros j v Hj Hu Hv. specialize (Hp j Hj). unfold played in Hp.
      destruct (Hsome (xO j) ltac:(lia)) as [a Ha]. destruct (Hsome (xI j) ltac:(lia)) as [b Hb].
      rewrite Ha, Hb in Hp, Hv. destruct Hp as [(E & _ & Hle)|(E & _ & Hle)]; pose proof (Hu _ E); destruct Hv as [[= <-]|[= <-]]; try done; by eapply Htr. }
    induction c as [c IH|c IH|]; intros Hc v Hv.
    - apply (Hstep c v); [lia| |by right]. apply IH. lia.
    - apply (Hstep c v); [lia| |by left]. apply IH. lia.
    - rewrite Hw in Hv. injection Hv as ->. apply Hrefl. }
  intros y Hy. apply (Hmin (leaf y)); [unfold leaf; lia|]. rewrite Hleaf by (unfold leaf; lia). unfold leaf. rewrite Z2Pos.id by lia. rewrite (proj2 (Z.leb_le _ _)) by lia.
  f_equal. lia.
Qed.

(** A leaf that does not take part enters. *)
Lemma adjust_open le cmp t W n : ordered_by le cmp -> 2 <= k -> 0 <= n < k -> numOfEntries t = k /\ totalEntries t = 2 * k /\ length (pNode t) = Z.to_nat (2 * k) ->
  (forall j, k <= Z.pos j < 2 * k -> node (pNode t) j = Some (Z.pos j - k)) -> all_played le (pNode t) W -> from_leaf W -> W (leaf n) = None ->
  exists nodes' W', tLoserTreeAdjust cmp (k + n) t = Ret (mkTree k (2 * k) nodes') /\ length nodes' = Z.to_nat (2 * k) /\
    (forall j, k <= Z.pos j < 2 * k -> node nodes' j = Some (Z.pos j - k)) /\ all_played le nodes' W' /\ from_leaf W' /\
    (forall j, k <= Z.pos j < 2 * k -> W' j = if decide (j = leaf n) then Some n else W j) /\ forall z, W' 1%positive = Some z -> nodes' !! 0%nat = Some z.
Proof using Hk.
  intros [Hcmp _ _] Hk2 Hn (E1 & E2 & E3) Hleaves Hp Hl Hnone. unfold tLoserTreeAdjust. rewrite E1, E2.
  rewrite !(proj2 (Z.leb_le _ _)) by lia. cbn [andb]. rewrite (proj2 (Z.eqb_neq _ _)) by lia.
  set (c := leaf n) in *. assert (Ec : Z.pos c = k + n) by (unfold c, leaf; lia). rewrite <- Ec.
  pose proof (Hleaves c ltac:(lia)) as Hlc. unfold node in Hlc. rewrite (rd1_lookup _ (Z.pos c) _ ltac:(lia) Hlc). cbn [rbind].
  destruct (climb_ok le cmp Hcmp 32 c (Z.pos c - k) (pNode t) (won W c (Z.pos c - k))) as (nodes' & W' & -> & K1 & K2 & K3 & K4 & K5 & K6); try done; try lia.
  { apply open_leaf; try done. lia. }
  exists nodes', W'. split; [done|]. split; [by rewrite K1|]. split; [intros j Hj; rewrite K5 by lia; by apply Hleaves|]. do 2 (split; [done|]). split; [|done].
  intros j Hj. rewrite K4 by (intros Hja%above_small; lia). unfold won. destruct (decide (j = c)); [f_equal; lia|done].
Qed.

Lemma adjust_enters n le cmp t : ordered_by le cmp -> 2 <= k -> 0 <= n < k -> tree_from (n + 1) le t ->
  exists t', tLoserTreeAdjust cmp (k + n) t = Ret t' /\ tree_from n le t'.
Proof using Hk.
  intros Hord Hk2 Hn [HE Hleaves (W & Hp & Hl & Hleaf & _)]. assert (Ec : Z.pos (leaf n) = k + n) by (unfold leaf; lia).
  destruct (adjust_open le cmp t W n Hord Hk2 Hn HE Hleaves Hp Hl) as (nodes' & W' & -> & K1 & K2 & K3 & K4 & K5 & K6).
  { rewrite Hleaf by lia. by rewrite (proj2 (Z.leb_gt _ _)) by lia. }
  eexists. split; [reflexivity|]. constructor; [done|done|]. exists W'. do 2 (split; [done|]). split; [|done]. intros j Hj. rewrite K5 by done.
  destruct (decide (j = leaf n)) as [->|Hne]; [rewrite (proj2 (Z.leb_le _ _)) by lia; f_equal; lia|]. rewrite Hleaf by lia. assert (Z.pos j <> k + n) by congruence.
  destruct (Z.leb_spec (k + (n + 1)) (Z.pos j)), (Z.leb_spec (k + n) (Z.pos j)); try done; lia.
Qed.

Lemma create_leaves le cmp n : ordered_by le cmp -> 2 <= k -> Z.of_nat n <= k -> forall t, tree_from (Z.of_nat n) le t ->
  exists t', adjust_leaves cmp n t = Ret t' /\ tree_ok le t'.
Proof using Hk.
  intros Hord Hk2. induction n as [|n IH]; intros Hn t Ht; [by exists t|]. cbn [adjust_leaves]. destruct Ht as [[E1 E2] Hl Hp]. rewrite E1.
  destruct (adjust_enters (Z.of_nat n) le cmp t Hord Hk2 ltac:(lia)) as (t' & -> & Ht'); [constructor; [by split|done|by rewrite Nat2Z.inj_succ in Hp]|].
  cbn [rbind]. apply IH; [lia|done].
Qed.

Lemma one_ok le t : k = 1 -> numOfEntries t = 1 -> totalEntries t = 2 -> pNode t = [0; 0] -> tree_ok le t.
Proof using Hk.
  intros Ek E1 E2 E3. assert (Hone : forall j, k <= Z.pos j < 2 * k -> j = 1%positive) by (intros; lia). constructor.
  - rewrite E1, E2, E3, Ek. done.
  - intros j Hj. rewrite (Hone j Hj), E3, Ek. done.
  - exists (won (fun _ => None) 1 0). split; [intros j Hj; lia|]. split; [|split].
    + intros j x. unfold won. destruct (decide (j = 1%positive)) as [->|]; [|done]. intros [= <-]. split; [lia|]. unfold leaf. rewrite Ek. by left.
    + intros j Hj. rewrite (Hone j Hj), Ek. done.
    + intros z [= <-]. by rewrite E3.
Qed.

Lemma create_ok le cmp : ordered_by le cmp -> exists t, tLoserTreeCreate cmp k = Ret t /\ tree_ok le t.
Proof using Hk.
  intros Hord. unfold tLoserTreeCreate, tLoserTreeInit. cbn [numOfEntries totalEntries].
  assert (E2 : Z.shiftl k 1 = 2 * k) by (rewrite Z.shiftl_mul_pow2; lia). rewrite E2, (wraps_id 32) by (try lia; unfold in_s; lia).
  assert (E3 : Z.land (2 * k) 1 = 0) by (rewrite (land_mask _ 1) by lia; change (2 ^ 1) with 2; rewrite Z.mul_comm; apply Z.mod_mul; lia).
  rewrite E3, !Z.eqb_refl. cbn [andb rbind]. replace (2 * k - k) with k by lia.
  set (nodes := map _ _). assert (Hlen : length nodes = Z.to_nat (2 * k)) by (unfold nodes; by rewrite length_map, length_seq).
  assert (Hnode : forall i, (i < Z.to_nat (2 * k))%nat -> nodes !! i = Some (if Z.of_nat i <? k then -1 else Z.of_nat i - k)).
  { intros i Hi. unfold nodes. rewrite list_lookup_fmap, lookup_seq_lt by done. done. }
  destruct (Z.eq_dec k 1) as [Ek|Hk1].
  { assert (En : nodes = [-1; 0]) by (unfold nodes; by rewrite Ek). rewrite En, Ek. cbn. eexists. split; [reflexivity|]. by apply one_ok. }
  apply (create_leaves le cmp); [done|lia|lia|]. rewrite Z2Nat.id by lia. constructor; cbn [numOfEntries totalEntries pNode].
  - done.
  - intros j Hj. unfold node. rewrite Hnode by lia. by rewrite positive_nat_Z, (proj2 (Z.ltb_ge _ _)) by lia.
  - exists (fun _ => None). split; [|split; [done|split; [|done]]].
    + intros j Hj. unfold played, node. rewrite Hnode by lia. by rewrite positive_nat_Z, (proj2 (Z.ltb_lt _ _)) by lia.
    + intros j Hj. by rewrite (proj2 (Z.leb_gt _ _)) by lia.
Qed.

Lemma above_child j c : above j c -> within (xO j) c \/ within (xI j) c.
Proof using Type.
  induction c as [c IH|c IH|]; cbn; [| |done]; intros [->|Hj]%within_above; [by right; left|by destruct (IH Hj); [left|right]; right|by left; left|by destruct (IH Hj); [left|right]; right].
Qed.

(** The winner leaves. *)
Lemma winner_leaves le le' nodes W x : all_played le nodes W -> from_leaf W -> W 1%positive = Some x -> 0 <= x < k ->
  (forall a b, a <> x -> b <> x -> le a b -> le' a b) ->
  let W0 := fun q => if decide (within q (leaf x)) then None else W q in all_played le' nodes W0 /\ from_leaf W0.
Proof using Hk.
  intros Hp Hl Hroot Hx Hle W0. set (c := leaf x). assert (Ec : Z.pos c = x + k) by (unfold c, leaf; lia).
  assert (Hother : forall d v, d <> 1%positive -> within d c -> W (sibling d) = Some v -> v <> x).
  { intros d v Hd1 Hdc Hv ->. apply Hl in Hv as [_ Hv]. by apply (within_sibling d c). }
  assert (Hway : forall q, within q c -> W q = Some x).
  { assert (Hstep : forall j d, (d = xO j \/ d = xI j) -> within d c -> W j = Some x -> W d = Some x).
    { intros j d Hd Hdc Hj. pose proof (within_le _ _ Hdc) as Hle2. assert (Hjk : Z.pos j < k) by (destruct Hd as [->| ->]; lia). specialize (Hp j Hjk). unfold played in Hp.
      assert (Hd1 : d <> 1%positive) by (by destruct Hd as [->| ->]). pose proof (fun v => Hother d v Hd1 Hdc) as Hno.
      destruct (W (xO j)) as [a|] eqn:Ea, (W (xI j)) as [b|] eqn:Eb; try (destruct Hp; congruence).
      rewrite Hj in Hp. destruct Hd as [->| ->]; cbn [sibling] in Hno; [specialize (Hno b Eb)|specialize (Hno a Ea)]; destruct Hp as [(E & _)|(E & _)]; congruence. }
    induction q as [q IH|q IH|]; intros Hq; [| |done]; (eapply Hstep; [first [by left|by right]|done|]); apply IH; by apply within_parent in Hq. }
  split.
  2:{ intros j v. unfold W0. destruct (decide _); [done|]. apply Hl. }
  intros j Hj. specialize (Hp j Hj). unfold played, W0 in *. destruct (decide (within j (leaf x))) as [Hjc|Hjc]; fold c in Hjc.
  - pose proof (Hway j Hjc) as Hwj. rewrite Hwj in Hp. apply within_above in Hjc as [->|Hjc]; [lia|].
    destruct (above_child j c Hjc) as [Hd|Hd].
    + pose proof (fun v => Hother (xO j) v ltac:(done) Hd) as Hno. cbn [sibling] in Hno. rewrite (Hway _ Hd) in Hp. rewrite decide_True by exact Hd.
      rewrite decide_False by (intros Hd2; by eapply within_children).
      destruct (W (xI j)) as [b|]; [|by destruct Hp]. specialize (Hno b eq_refl). destruct Hp as [(_ & -> & _)|(E & _)]; [done|congruence].
    + pose proof (fun v => Hother (xI j) v ltac:(done) Hd) as Hno. cbn [sibling] in Hno. rewrite (Hway _ Hd) in Hp.
      rewrite decide_False by (intros Hd2; by eapply within_children). rewrite decide_True by exact Hd.
      destruct (W (xO j)) as [b|]; [|by destruct Hp]. specialize (Hno b eq_refl). destruct Hp as [(E & _)|(_ & -> & _)]; [congruence|done].
  - assert (Hch : forall d, parent d = j -> d <> 1%positive -> ~ within d c) by (intros d <- Hd1 Hd; by apply Hjc, within_parent).
    rewrite (decide_False (P := within (xO j) _)) by (by apply Hch). rewrite (decide_False (P := within (xI j) _)) by (by apply Hch).
    assert (Hne : forall d v, parent d = j -> d <> 1%positive -> W d = Some v -> v <> x).
    { intros d v Hd Hd1 Hv ->. apply Hl in Hv as [_ Hv]. by apply (Hch d). }
    destruct (W (xO j)) as [a|] eqn:Ea, (W (xI j)) as [b|] eqn:Eb; try done.
    pose proof (Hne (xO j) a eq_refl ltac:(done) Ea). pose proof (Hne (xI j) b eq_refl ltac:(done) Eb).
    destruct Hp as [(? & ? & ?)|(? & ? & ?)]; [left|right]; auto.
Qed.

(** The winner has changed, and climbs again. *)
Lemma adjust_winner le le' cmp' t w : ordered_by le' cmp' -> tree_ok le t -> pNode t !! 0%nat = Some w -> 0 <= w < k ->
  (forall a b, a <> w -> b <> w -> le a b -> le' a b) -> exists t', tLoserTreeAdjust cmp' (w + k) t = Ret t' /\ tree_ok le' t'.
Proof using Hk.
  intros Hord [(E1 & E2 & E3) Hleaves (W & Hp & Hl & Hleaf & Hroot)] Hw Hwk Hle. destruct (Z.eq_dec k 1) as [Ek|Hk1].
  { unfold tLoserTreeAdjust. rewrite E1, E2, Ek. assert (w = 0) as -> by lia. rewrite Ek in E3. change (Z.to_nat (2 * 1)) with 2%nat in E3.
    destruct (pNode t) as [|a [|b [|]]]; try discriminate E3. exists (mkTree 1 2 [0; 0]). split; [reflexivity|]. by apply one_ok. }
  destruct (all_won le (pNode t) W Hp ltac:(intros j Hj; rewrite Hleaf by lia; rewrite (proj2 (Z.leb_le _ _)) by lia; by eexists) 1%positive ltac:(lia)) as [x Hr1].
  assert (x = w) as -> by (pose proof (Hroot _ Hr1); congruence). destruct (winner_leaves le le' (pNode t) W w Hp Hl Hr1 Hwk Hle) as [Hp0 Hl0].
  set (W0 := fun q => _) in Hp0, Hl0. assert (Ec : Z.pos (leaf w) = w + k) by (unfold leaf; lia). rewrite Z.add_comm.
  destruct (adjust_open le' cmp' t W0 w Hord ltac:(lia) Hwk (conj E1 (conj E2 E3)) Hleaves Hp0 Hl0) as (nodes' & W' & -> & K1 & K2 & K3 & K4 & K5 & K6).
  { unfold W0. rewrite decide_True; [done|apply within_self]. }
  eexists. split; [reflexivity|]. constructor; [done|done|]. exists W'. do 2 (split; [done|]). split; [|done]. intros j Hj. rewrite K5 by done.
  rewrite (proj2 (Z.leb_le _ _)) by lia. destruct (decide (j = leaf w)) as [->|Hne]; [f_equal; lia|]. unfold W0.
  rewrite decide_False by (intros [?|Hja%above_small]%within_above; [done|lia]). rewrite Hleaf by lia. by rewrite (proj2 (Z.leb_le _ _)) by lia.
Qed.
End Matches.
