(* ===== verification/Chain.v ===== *)
(** * Hash buckets of doubly linked nodes

    The hash tables of src/src/util/src/ihash.c, src/src/sdb/src/hashint.c and
    src/src/sdb/src/hashstr.c share one structure: an array of buckets, each the
    head of a chain of nodes in the heap.  This file holds the steps their
    operations take on it, and shows that a table is one stack of nodes per
    key. *)
From S2P Require Import Prelude.

Section Chain.
Context {K D : Type} `{!EqDecision K}.

(** A node; addresses are non-zero, 0 is [NULL]. *)
Record node := { key : K; prev : Z; next : Z; data : D }.

Definition load (h : gmap Z node) (p : Z) : res node :=
  match h !! p with Some n => Ret n | None => Undef end.
Definition set_prev (p v : Z) (h : gmap Z node) : res (gmap Z node) :=
  let! n := load h p in
  Ret (<[p := {| key := key n; prev := v; next := next n; data := data n |}]> h).
Definition set_next (p v : Z) (h : gmap Z node) : res (gmap Z node) :=
  let! n := load h p in
  Ret (<[p := {| key := key n; prev := prev n; next := v; data := data n |}]> h).
Definition set_data (p : Z) (v : D) (h : gmap Z node) : res (gmap Z node) :=
  let! n := load h p in
  Ret (<[p := {| key := key n; prev := prev n; next := next n; data := v |}]> h).
Definition free_node (p : Z) (h : gmap Z node) : res (gmap Z node) :=
  let! _ := load h p in Ret (delete p h).

Record table := { hashList : list Z; heap : gmap Z node }.
Definition set_heap (h : gmap Z node) (t : table) : table :=
  {| hashList := hashList t; heap := h |}.
Definition set_bucket (i p : Z) (t : table) : table :=
  {| hashList := <[Z.to_nat i := p]> (hashList t); heap := heap t |}.

Definition empty_table (buckets : Z) : table :=
  {| hashList := replicate (Z.to_nat buckets) 0; heap := ∅ |}.

(** [while (pNode) { if (pNode->key == key) break; pNode = pNode->next; }] *)
Fixpoint find_node (fuel : nat) (h : gmap Z node) (p : Z) (k : K) : res Z :=
  match fuel with
  | O => NoFuel
  | S fuel' =>
      if p =? 0 then Ret 0
      else
        let! n := load h p in
        if decide (key n = k) then Ret p else find_node fuel' h (next n) k
  end.

Definition find_fuel (t : table) : nat := S (size (heap t)).

(** The node with key [k] in bucket [hash], or 0. *)
Definition find_in (t : table) (hash : Z) (k : K) : res Z :=
  let! p := rd1 (hashList t) hash in
  find_node (find_fuel t) (heap t) p k.

(** A new node at [pNode] becomes the first of bucket [hash]. *)
Definition push_node (t : table) (hash pNode : Z) (k : K) (d : D) : res table :=
  let! head := rd1 (hashList t) hash in
  let h := <[pNode := {| key := k; prev := 0; next := head; data := d |}]> (heap t) in
  let! h := if negb (head =? 0) then set_prev head pNode h else Ret h in
  Ret (set_bucket hash pNode (set_heap h t)).

(** The node at [pNode] leaves bucket [hash]; it is not freed. *)
Definition unlink_node (t : table) (hash pNode : Z) : res table :=
  let! n := load (heap t) pNode in
  let! t :=
    if negb (prev n =? 0) then
      let! h := set_next (prev n) (next n) (heap t) in Ret (set_heap h t)
    else Ret (set_bucket hash (next n) t) in
  let! h := if negb (next n =? 0) then set_prev (next n) (prev n) (heap t) else Ret (heap t) in
  Ret (set_heap h t).

(** Every node of a chain, then of all buckets, is freed; the result is what is
    left of the heap. *)
Fixpoint free_chain (fuel : nat) (h : gmap Z node) (p : Z) : res (gmap Z node) :=
  match fuel with
  | O => NoFuel
  | S fuel' =>
      if p =? 0 then Ret h
      else
        let! n := load h p in
        let! h := free_node p h in free_chain fuel' h (next n)
  end.

Fixpoint free_buckets (fuel : nat) (h : gmap Z node) (ps : list Z) : res (gmap Z node) :=
  match ps with
  | [] => Ret h
  | p :: ps => let! h := free_chain fuel h p in free_buckets fuel h ps
  end.

(** ** Linked segments *)
Definition entry : Type := Z * K * D.
Definition addr (e : entry) : Z := e.1.1.
Definition ekey (e : entry) : K := e.1.2.

(** The nodes [l] from [p] to [q]: the first has [pr] before it, [la] is the
    address of the last. *)
Fixpoint seg (h : gmap Z node) (p pr : Z) (l : list entry) (q la : Z) : Prop :=
  match l with
  | [] => p = q /\ la = pr
  | e :: l =>
      p = addr e /\ p <> 0 /\ exists nx,
        h !! p = Some {| key := ekey e; prev := pr; next := nx; data := e.2 |} /\ seg h nx p l q la
  end.

Lemma seg_app h l1 l2 : forall p pr q la,
  seg h p pr (l1 ++ l2) q la <-> exists m lm, seg h p pr l1 m lm /\ seg h m lm l2 q la.
Proof.
  induction l1 as [|e l1 IH]; intros p pr q la; cbn [app seg].
  - split; [intros Hs; by exists p, pr|intros (m & lm & (-> & ->) & Hs); done].
  - split.
    + intros (-> & Hn & nx & Hl & Hs). apply IH in Hs as (m & lm & H1 & H2).
      exists m, lm. split; [|done]. split; [done|]. split; [done|]. by exists nx.
    + intros (m & lm & (-> & Hn & nx & Hl & H1) & H2). split; [done|]. split; [done|].
      exists nx. split; [done|]. apply IH. by exists m, lm.
Qed.

Lemma seg_frame h h' l : forall p pr q la, (forall a, a ∈ map addr l -> h' !! a = h !! a) ->
  seg h p pr l q la -> seg h' p pr l q la.
Proof.
  induction l as [|e l IH]; intros p pr q la Hf Hs; [done|].
  destruct Hs as (-> & Hn & nx & Hl & Hs). split; [done|]. split; [done|]. exists nx.
  split; [rewrite Hf; [done|by constructor]|]. apply IH; [|done].
  intros a Ha. apply Hf. by constructor.
Qed.

(** Where a non-empty segment is changed: at its first node and at its last. *)
Lemma seg_set_prev h e l p pr q la v : NoDup (map addr (e :: l)) -> seg h p pr (e :: l) q la ->
  exists h', set_prev p v h = Ret h' /\ seg h' p v (e :: l) q la /\ is_Some (h !! p) /\
    forall a, a <> p -> h' !! a = h !! a.
Proof.
  intros Hnd (-> & Hn & nx & Hl & Hs). unfold set_prev, load. rewrite Hl. cbn [rbind key next data].
  eexists. split; [done|]. split; [|split; [by eexists|by intros; apply lookup_insert_ne]].
  split; [done|]. split; [done|]. exists nx. rewrite lookup_insert_eq. split; [done|].
  apply (seg_frame h); [|done]. intros a Ha. apply lookup_insert_ne. intros <-.
  cbn [map] in Hnd. by apply NoDup_cons in Hnd as [? _].
Qed.

Lemma seg_set_next h l : forall p pr q la v, l <> [] -> NoDup (map addr l) -> seg h p pr l q la ->
  exists h', set_next la v h = Ret h' /\ seg h' p pr l v la /\ la ∈ map addr l /\
    forall a, a <> la -> h' !! a = h !! a.
Proof.
  induction l as [|e l IH]; intros p pr q la v Hne Hnd Hs; [done|].
  destruct Hs as (-> & Hn & nx & Hl & Hs). cbn [map] in Hnd |- *. apply NoDup_cons in Hnd as [Hni Hnd].
  destruct l as [|e2 l].
  - destruct Hs as [<- ->]. unfold set_next, load. rewrite Hl. cbn [rbind key prev data].
    eexists. split; [done|]. split; [|split; [by constructor|by intros; apply lookup_insert_ne]].
    split; [done|]. split; [done|]. exists v. by rewrite lookup_insert_eq.
  - destruct (IH nx (addr e) q la v ltac:(done) Hnd Hs) as (h' & Hset & Hs' & Hin & Hf).
    exists h'. split; [done|]. split; [|split; [by constructor|done]].
    split; [done|]. split; [done|]. exists nx. split; [|done].
    rewrite Hf; [done|]. intros E. rewrite E in Hni. done.
Qed.

Lemma seg_first h p pr l q la : seg h p pr l q la -> (l = [] /\ p = q /\ la = pr) \/
  exists e l', l = e :: l' /\ p = addr e /\ p <> 0.
Proof. destruct l as [|e l]; cbn; [intros [-> ->]; by left|intros (-> & Hn & _); right; eauto]. Qed.

Lemma seg_last_nonzero h l : forall p pr q la, l <> [] -> seg h p pr l q la -> la <> 0.
Proof.
  induction l as [|e l IH]; intros p pr q la Hne Hs; [done|]. destruct Hs as (-> & Hn & nx & Hl & Hs).
  destruct l as [|e2 l]; [by destruct Hs as [_ ->]|by apply (IH nx (addr e) q)].
Qed.

(** The search finds the first node with the key. *)
Lemma find_node_spec h key0 l : forall fuel p pr la, (length l < fuel)%nat -> seg h p pr l 0 la ->
  find_node fuel h p key0 =
    Ret (match list_find (fun e => ekey e = key0) l with Some (_, e) => addr e | None => 0 end).
Proof.
  induction l as [|e l IH]; intros [|fuel] p pr la Hf Hs; cbn [length] in Hf; try lia; cbn [find_node].
  - destruct Hs as [-> _]. done.
  - destruct Hs as (-> & Hn & nx & Hl & Hs). rewrite (proj2 (Z.eqb_neq _ _) Hn).
    unfold load. rewrite Hl. cbn [rbind key next list_find].
    destruct (decide (ekey e = key0)) as [He|He]; [done|].
    {  rewrite (IH fuel nx (addr e) la); [|lia|done].
      destruct (list_find _ l) as [[i e']|]; done. }
Qed.


(** ** The table as buckets of entries *)
Section Buckets.
(** The bucket of a key. *)
Context (hf : K -> res Z).

Definition addresses (bs : list (list entry)) : list Z := concat (map (map addr) bs).

Record chains (o : table) (bs : list (list entry)) : Prop := {
  ch_bs : length bs = length (hashList o);
  ch_seg : forall i p l, hashList o !! i = Some p -> bs !! i = Some l -> exists la, seg (heap o) p 0 l 0 la;
  ch_nodup : NoDup (addresses bs);
  ch_dom : forall a, is_Some (heap o !! a) <-> a ∈ addresses bs;
  ch_hash : forall i l e, bs !! i = Some l -> e ∈ l -> hf (ekey e) = Ret (Z.of_nat i) }.

Lemma bucket_addresses bs i l a : bs !! i = Some l -> a ∈ map addr l -> a ∈ addresses bs.
Proof using.
  intros Hl Ha. unfold addresses. rewrite <- (take_drop_middle bs i l Hl), map_app, concat_app.
  cbn [map concat]. rewrite !elem_of_app. tauto.
Qed.

Lemma addresses_insert bs i l l' : bs !! i = Some l ->
  addresses (<[i := l']> bs) ++ map addr l ≡ₚ addresses bs ++ map addr l'.
Proof using. apply (collect_insert (map addr)). Qed.

Lemma bucket_nodup o bs i l : chains o bs -> bs !! i = Some l -> NoDup (map addr l).
Proof using.
  intros Hinv Hl. pose proof (ch_nodup _ _ Hinv) as Hnd. unfold addresses in Hnd.
  rewrite <- (take_drop_middle bs i l Hl), map_app in Hnd. cbn [map] in Hnd.
  rewrite concat_app in Hnd. cbn [concat] in Hnd.
  apply NoDup_app in Hnd as (_ & _ & Hnd). by apply NoDup_app in Hnd as (Hnd & _ & _).
Qed.

(** An address of one bucket is in no other. *)
Lemma bucket_disjoint o bs i j l l' a : chains o bs -> bs !! i = Some l -> bs !! j = Some l' ->
  i <> j -> a ∈ map addr l -> a ∈ map addr l' -> False.
Proof using.
  intros Hinv Hi Hj Hij Ha Ha'. pose proof (ch_nodup _ _ Hinv) as Hnd.
  pose proof (addresses_insert bs i l [] Hi) as Hp. cbn [map] in Hp. rewrite app_nil_r in Hp.
  rewrite <- Hp in Hnd. apply NoDup_app in Hnd as (_ & Hdis & _). apply (Hdis a); [|done].
  apply (bucket_addresses _ j l'); [|done]. by rewrite list_lookup_insert_ne.
Qed.

Lemma bucket_fuel o bs i l : chains o bs -> bs !! i = Some l -> (length l < find_fuel o)%nat.
Proof using.
  intros Hinv Hl. unfold find_fuel. apply Nat.lt_succ_r.
  pose proof (bucket_nodup o bs i l Hinv Hl) as Hnd.
  assert (Hsub : list_to_set (map addr l) ⊆ (dom (heap o) : gset Z)).
  { intros a Ha%elem_of_list_to_set. apply elem_of_dom. apply (ch_dom _ _ Hinv).
    by eapply bucket_addresses. }
  apply subseteq_size in Hsub. rewrite size_list_to_set, size_dom, length_map in Hsub by done. done.
Qed.

Lemma chains_empty n : chains (empty_table n) (replicate (Z.to_nat n) []).
Proof using.
  assert (Hnil : forall k, addresses (replicate k []) = [])
    by (intros k; induction k as [|k IH]; [done|exact IH]).
  constructor; cbn [hashList heap empty_table]; rewrite ?length_replicate, ?Hnil; try done.
  - intros i p l [-> _]%lookup_replicate [-> _]%lookup_replicate. by exists 0.
  - constructor.
  - intros a. rewrite lookup_empty. split; [by intros [? ?]|by intros ?%elem_of_nil].
  - intros i l e [-> _]%lookup_replicate He. by apply elem_of_nil in He.
Qed.

(** Keys the hash function maps into the table. *)
Definition in_table (o : table) (k : K) (h : Z) : Prop :=
  hf k = Ret h /\ 0 <= h < Z.of_nat (length (hashList o)).

Lemma bucket_of o bs h : chains o bs -> 0 <= h < Z.of_nat (length (hashList o)) ->
  exists p l, hashList o !! Z.to_nat h = Some p /\ bs !! Z.to_nat h = Some l /\
    rd1 (hashList o) h = Ret p /\ exists la, seg (heap o) p 0 l 0 la.
Proof using.
  intros Hinv Hr. pose proof (ch_bs _ _ Hinv).
  destruct (lookup_lt_is_Some_2 (hashList o) (Z.to_nat h)) as [p Hp]; [lia|].
  destruct (lookup_lt_is_Some_2 bs (Z.to_nat h)) as [l Hl]; [lia|].
  exists p, l. split; [done|]. split; [done|]. split; [by apply rd1_lookup; [lia|]|].
  by apply (ch_seg _ _ Hinv (Z.to_nat h)).
Qed.

(** Replacing bucket [h] by [l'], whose nodes are in the new heap. *)
Lemma rebucket o bs h l l' p' hp : chains o bs -> 0 <= h ->
  bs !! Z.to_nat h = Some l -> (exists la, seg hp p' 0 l' 0 la) ->
  (forall a, a ∉ map addr l -> a ∉ map addr l' -> hp !! a = heap o !! a) ->
  NoDup (map addr l') -> (forall a, a ∈ map addr l' -> a ∈ map addr l \/ heap o !! a = None) ->
  (forall a, a ∈ map addr l' -> is_Some (hp !! a)) ->
  (forall a, a ∈ map addr l -> a ∉ map addr l' -> hp !! a = None) ->
  (forall e, e ∈ l' -> hf (ekey e) = Ret h) ->
  chains (set_heap hp (set_bucket h p' o)) (<[Z.to_nat h := l']> bs).
Proof using.
  intros Hinv Hr Hl Hseg Hframe Hnd' Hfrom Hin Hout Hhash.
  pose proof Hinv as [Hbs Hs Hnd Hdom Hh].
  pose proof (lookup_lt_Some _ _ _ Hl) as Hlt.
  pose proof (addresses_insert bs (Z.to_nat h) l [] Hl) as Hrest.
  pose proof (addresses_insert bs (Z.to_nat h) l l' Hl) as Hnew. cbn [map] in Hrest.
  rewrite app_nil_r in Hrest.
  assert (Hperm : addresses (<[Z.to_nat h := l']> bs) ≡ₚ addresses (<[Z.to_nat h := []]> bs) ++ map addr l').
  { apply (Permutation_app_inv_r (map addr l)). rewrite Hnew, <- Hrest, <- !app_assoc.
    apply Permutation_app_head, Permutation_app_comm. }
  set (others := addresses (<[Z.to_nat h := []]> bs)) in *.
  assert (Hothers : forall a, a ∈ others -> (a ∉ map addr l) /\ (a ∉ map addr l')).
  { intros a Ha. assert (Hnl : a ∉ map addr l).
    { rewrite <- Hrest in Hnd. apply NoDup_app in Hnd as (_ & Hd & _). by apply Hd. }
    split; [done|]. intros Hl'. destruct (Hfrom a Hl') as [|Hnone]; [done|].
    assert (Hsome : is_Some (heap o !! a)); [|destruct Hsome; congruence].
    apply Hdom. rewrite <- Hrest. apply elem_of_app. by left. }
  constructor; cbn [hashList heap set_heap set_bucket]; rewrite ?length_insert; try done.
  - intros i p lst Hp Hi. destruct (decide (i = Z.to_nat h)) as [->|Hne].
    + rewrite list_lookup_insert_eq in Hp by lia. rewrite list_lookup_insert_eq in Hi by done.
      injection Hp as <-. injection Hi as <-. done.
    + rewrite list_lookup_insert_ne in Hp by done. rewrite list_lookup_insert_ne in Hi by done. destruct (Hs i p lst Hp Hi) as [la Hsg].
      exists la. apply (seg_frame (heap o)); [|done]. intros a Ha.
      assert (Hao : a ∈ others).
      { apply (bucket_addresses _ i lst); [|done]. by rewrite list_lookup_insert_ne. }
      destruct (Hothers a Hao). by apply Hframe.
  - rewrite Hperm. apply NoDup_app. split; [|split; [|done]].
    + rewrite <- Hrest in Hnd. by apply NoDup_app in Hnd as (? & _ & _).
    + intros a Ha. by apply Hothers.
  - intros a. rewrite Hperm, elem_of_app. destruct (decide (a ∈ map addr l')) as [Ha'|Ha'].
    + split; [by right|]. intros _. by apply Hin.
    + destruct (decide (a ∈ map addr l)) as [Ha|Ha].
      * rewrite (Hout a Ha Ha'). split; [by intros [? ?]|]. intros [Ho|]; [|done].
        by destruct (Hothers a Ho).
      * rewrite Hframe, Hdom, <- Hrest, elem_of_app by done. tauto.
  - intros i lst e Hi He. destruct (decide (i = Z.to_nat h)) as [->|Hne].
    + rewrite list_lookup_insert_eq in Hi by done. injection Hi as <-. rewrite Z2Nat.id by lia.
      by apply Hhash.
    + rewrite list_lookup_insert_ne in Hi by done. by apply (Hh i lst).
Qed.

(** Adding puts a new node at the front of its bucket. *)
Lemma push_both o bs k h a d (l : list entry) : chains o bs -> in_table o k h ->
  bs !! Z.to_nat h = Some l -> a <> 0 -> heap o !! a = None ->
  exists o', push_node o h a k d = Ret o' /\ length (hashList o') = length (hashList o) /\
    chains o' (<[Z.to_nat h := ((a, k, d) : entry) :: l]> bs) /\
    forall p, p <> a -> data <$> heap o' !! p = data <$> heap o !! p.
Proof using.
  intros Hinv [Hk Hr] Hl Ha Hfresh.
  destruct (bucket_of o bs h Hinv Hr) as (p & l0 & Hp & Hl0 & Hrd & la & Hseg).
  rewrite Hl in Hl0. injection Hl0 as <-.
  unfold push_node. rewrite Hrd. cbn [rbind].
  set (nd := {| key := k; prev := 0; next := p; data := d |}).
  pose proof (bucket_nodup o bs _ l Hinv Hl) as Hnd.
  assert (Hnotin : a ∉ addresses bs).
  { intros Hin. apply (ch_dom _ _ Hinv) in Hin as [? E]. congruence. }
  assert (Hni : a ∉ map addr l) by (intros Hin; by apply Hnotin, (bucket_addresses _ _ _ _ Hl)).
  assert (Hseg1 : seg (<[a := nd]> (heap o)) p 0 l 0 la).
  { apply (seg_frame (heap o)); [|done]. intros x Hx. apply lookup_insert_ne. congruence. }
  assert (exists hp, (if negb (p =? 0) then set_prev p a (<[a := nd]> (heap o)) else Ret (<[a := nd]> (heap o)))
      = Ret hp /\ (exists la, seg hp p a l 0 la) /\ hp !! a = Some nd /\
      (forall x, x ∉ map addr l -> x <> a -> hp !! x = heap o !! x) /\
      (forall x, x ∈ map addr l -> is_Some (hp !! x)) /\
      forall x, x <> a -> data <$> hp !! x = data <$> heap o !! x) as
    (hp & -> & Hs2 & Hself & Hframe & Hsome & Hdata).
  { assert (Hall : forall x, x ∈ map addr l -> is_Some (heap o !! x)).
    { intros x Hx. apply (ch_dom _ _ Hinv). by eapply bucket_addresses. }
    destruct (seg_first _ _ _ _ _ _ Hseg1) as [(-> & -> & ->)|(e & l' & -> & -> & Hn)].
    - cbn. exists (<[a := nd]> (heap o)). split; [done|]. split; [by exists a|].
      split; [by rewrite lookup_insert_eq|]. split; [intros x _ Hx; by rewrite lookup_insert_ne|].
      split; [intros x Hx; by apply elem_of_nil in Hx|]. intros x Hx. by rewrite lookup_insert_ne.
    - rewrite (proj2 (Z.eqb_neq _ _) Hn). cbn [negb].
      destruct (seg_set_prev _ e l' _ _ _ _ a Hnd Hseg1) as (hp & Hset & Hs & _ & Hf).
      exists hp. split; [done|]. split; [by exists la|].
      assert (Hae : a <> addr e) by (intros ->; apply Hni; by constructor).
      split; [rewrite Hf by done; by rewrite lookup_insert_eq|].
      assert (He : is_Some (hp !! addr e)).
      { destruct Hs as (_ & _ & nx & E & _). by eexists. }
      split; [intros x Hx Hxa; rewrite Hf; [by rewrite lookup_insert_ne|];
        intros ->; apply Hx; by constructor|].
      split.
      + intros x Hx. destruct (decide (x = addr e)) as [->|Hxe]; [done|]. rewrite Hf by done.
        rewrite lookup_insert_ne; [by apply Hall|]. intros <-. done.
      + intros x Hx. destruct (decide (x = addr e)) as [->|Hxe].
        * destruct Hs as (_ & _ & nx & -> & _). destruct Hseg as (_ & _ & nx' & -> & _). done.
        * rewrite Hf by done. by rewrite lookup_insert_ne. }
  cbn [rbind]. eexists. split; [done|]. split; [cbn; by rewrite length_insert|]. split; [|exact Hdata].
  apply (rebucket o bs h l _ a hp); try done; [lia|..].
  - destruct Hs2 as [lb Hs2]. exists lb. split; [done|]. split; [done|]. exists p. by split.
  - intros x Hx Hx'. apply Hframe; [done|]. intros ->. apply Hx'. by constructor.
  - cbn [map]. by constructor.
  - intros x [->|Hx]%elem_of_cons; [by right|by left].
  - intros x [->|Hx]%elem_of_cons; [change (is_Some (hp !! a)); by rewrite Hself|by apply Hsome].
  - intros x Hx Hx'. exfalso. apply Hx'. by constructor.
  - intros e [->|He]%elem_of_cons; [done|]. rewrite (ch_hash _ _ Hinv _ _ e Hl He), Z2Nat.id by lia. done.
Qed.

(** The nodes of a bucket hold its values. *)
Lemma bucket_data o bs i l e : chains o bs -> bs !! i = Some l -> e ∈ l ->
  exists n, heap o !! addr e = Some n /\ key n = ekey e /\ data n = e.2.
Proof using.
  intros Hinv Hl He. pose proof (lookup_lt_Some _ _ _ Hl) as Hlt. rewrite (ch_bs _ _ Hinv) in Hlt.
  destruct (lookup_lt_is_Some_2 (hashList o) i Hlt) as [p Hp].
  destruct (ch_seg _ _ Hinv i p l Hp Hl) as [la Hseg].
  apply list_elem_of_split in He as (l1 & l2 & ->).
  apply seg_app in Hseg as (m & lm & _ & (-> & _ & nx & E & _)). by eexists.
Qed.

(** Looking up finds the first node with the key. *)
Lemma find_both o bs k h l : chains o bs -> in_table o k h -> bs !! Z.to_nat h = Some l ->
  find_in o h k =
    Ret (match list_find (fun e => ekey e = k) l with Some (_, e) => addr e | None => 0 end).
Proof using.
  intros Hinv [Hk Hr] Hl.
  destruct (bucket_of o bs h Hinv Hr) as (p & l0 & Hp & Hl0 & Hrd & la & Hseg).
  rewrite Hl in Hl0. injection Hl0 as <-. unfold find_in. rewrite Hrd. cbn [rbind].
  apply (find_node_spec _ _ _ _ _ 0 la); [|done]. by eapply bucket_fuel.
Qed.

(** Unlinking a node: first from the node before it, or from the bucket, ... *)
Lemma unlink_before o h p l1 a la1 nx : hashList o !! Z.to_nat h = Some p -> NoDup (map addr l1) ->
  seg (heap o) p 0 l1 a la1 ->
  exists hp p', (if negb (la1 =? 0) then
      let! hp := set_next la1 nx (heap o) in Ret (set_heap hp o) else Ret (set_bucket h nx o)) =
      Ret (set_heap hp (set_bucket h p' o)) /\ seg hp p' 0 l1 nx la1 /\
    forall x, x ∉ map addr l1 -> hp !! x = heap o !! x.
Proof using.
  intros Hp Hnd Hs. destruct (seg_first _ _ _ _ _ _ Hs) as [(-> & -> & ->)|(e & l' & -> & _)].
  - exists (heap o), nx. split; [reflexivity|]. split; [by split|].
    intros x _. reflexivity.
  - rewrite (proj2 (Z.eqb_neq la1 0)) by exact (seg_last_nonzero _ (e :: l') _ _ _ _ ltac:(discriminate) Hs). cbn [negb].
    destruct (seg_set_next _ (e :: l') p 0 a la1 nx ltac:(done) Hnd Hs) as (hp & -> & Hs' & Hin & Hf).
    cbn [rbind]. exists hp, p. split.
    + unfold set_bucket. rewrite list_insert_id by done. by destruct o.
    + split; [done|]. intros x Hx. apply Hf. congruence.
Qed.

(** ... then from the node behind it. *)
Lemma unlink_behind hp nx a la1 l2 la : NoDup (map addr l2) -> seg hp nx a l2 0 la ->
  exists hp', (if negb (nx =? 0) then set_prev nx la1 hp else Ret hp) = Ret hp' /\
    (exists lb, seg hp' nx la1 l2 0 lb) /\ forall x, x ∉ map addr l2 -> hp' !! x = hp !! x.
Proof using.
  intros Hnd Hs. destruct (seg_first _ _ _ _ _ _ Hs) as [(-> & -> & _)|(e & l' & -> & -> & Hn)].
  - exists hp. split; [done|]. split; [by exists la1|done].
  - rewrite (proj2 (Z.eqb_neq _ _) Hn). cbn [negb].
    destruct (seg_set_prev hp e l' _ _ _ _ la1 Hnd Hs) as (hp' & Hset & Hs' & _ & Hf).
    exists hp'. split; [done|]. split; [by exists la|]. intros x Hx. apply Hf.
    intros ->. apply Hx. by constructor.
Qed.

Lemma unlink_both o bs k h l1 e l2 : chains o bs -> in_table o k h ->
  bs !! Z.to_nat h = Some (l1 ++ e :: l2) ->
  exists o1 hp, unlink_node o h (addr e) = Ret o1 /\ free_node (addr e) (heap o1) = Ret hp /\
    length (hashList o1) = length (hashList o) /\
    chains (set_heap hp o1) (<[Z.to_nat h := l1 ++ l2]> bs) /\ hp !! addr e = None /\
    forall x, x <> addr e -> data <$> hp !! x = data <$> heap o !! x.
Proof using.
  intros Hinv [Hk Hr] Hl.
  destruct (bucket_of o bs h Hinv Hr) as (p & l0 & Hp & Hl0 & Hrd & la & Hseg).
  rewrite Hl in Hl0. injection Hl0 as <-.
  pose proof (bucket_nodup o bs _ _ Hinv Hl) as Hnd. rewrite map_app in Hnd. cbn [map] in Hnd.
  apply NoDup_app in Hnd as (Hnd1 & Hdis & Hnd2). apply NoDup_cons in Hnd2 as [Hni2 Hnd2].
  assert (Hni1 : addr e ∉ map addr l1) by (intros Hin; apply (Hdis _ Hin); by constructor).
  apply seg_app in Hseg as (m & la1 & Hs1 & -> & Hn & nx & Hnode & Hs2).
  unfold unlink_node.
  unfold load at 1. rewrite Hnode. cbn [rbind next prev].
  destruct (unlink_before o h p l1 (addr e) la1 nx Hp Hnd1 Hs1) as (hp0 & p' & Hstep & Hs1' & Hf1).
  rewrite Hstep. cbn [rbind heap set_heap].
  assert (Hs2' : seg hp0 nx (addr e) l2 0 la).
  { apply (seg_frame (heap o)); [|done]. intros x Hx. apply Hf1. intros Hx1. apply (Hdis _ Hx1). by constructor. }
  destruct (unlink_behind hp0 nx (addr e) la1 l2 la Hnd2 Hs2') as (hp1 & Hstep2 & [lb Hs2''] & Hf2).
  rewrite Hstep2. cbn [rbind].
  eexists _, _. split; [done|]. cbn [heap set_heap].
  assert (Hnode1 : hp1 !! addr e = heap o !! addr e) by (rewrite Hf2, Hf1; done).
  unfold free_node, load. rewrite Hnode1, Hnode. cbn [rbind].
  split; [done|]. split; [cbn; by rewrite length_insert|].
  assert (Hlook : forall x, x <> addr e -> (x ∉ map addr l1) -> (x ∉ map addr l2) ->
    delete (addr e) hp1 !! x = heap o !! x).
  { intros x Hx Hx1 Hx2. rewrite lookup_delete_ne by done. by rewrite Hf2, Hf1. }
  assert (Hs' : seg (delete (addr e) hp1) p' 0 (l1 ++ l2) 0 lb).
  { apply seg_app. exists nx, la1. split.
    - apply (seg_frame hp0); [|done]. intros x Hx. rewrite lookup_delete_ne by congruence.
      apply Hf2. intros Hx2. apply (Hdis _ Hx). by constructor.
    - apply (seg_frame hp1); [|done]. intros x Hx. apply lookup_delete_ne. congruence. }
  assert (Hall : forall y, y ∈ l1 ++ l2 -> y ∈ l1 ++ e :: l2).
  { intros y [?|?]%elem_of_app; apply elem_of_app; [by left|right; by constructor]. }
  split; [|split; [by rewrite lookup_delete_eq|]].
  - apply (rebucket o bs h (l1 ++ e :: l2) (l1 ++ l2) p' (delete (addr e) hp1)); try done; [lia|..].
    + by exists lb.
    + intros x Hx _. rewrite map_app in Hx. cbn [map] in Hx. rewrite elem_of_app, elem_of_cons in Hx.
      apply Hlook; tauto.
    + rewrite map_app. apply NoDup_app. split; [done|]. split; [|done].
      intros x Hx Hx2. apply (Hdis x Hx). by constructor.
    + intros x Hx. left. rewrite map_app in Hx |- *. cbn [map]. rewrite elem_of_app in Hx.
      rewrite elem_of_app, elem_of_cons. tauto.
    + intros x Hx. apply list_elem_of_fmap in Hx as (y & -> & Hy).
      apply list_elem_of_split in Hy as (k1 & k2 & Hy). rewrite Hy in Hs'.
      apply seg_app in Hs' as (m & lm & _ & (-> & _ & nx' & E & _)). by rewrite E.
    + intros x Hx Hx'. rewrite map_app in Hx, Hx'. cbn [map] in Hx.
      rewrite elem_of_app, elem_of_cons in Hx. rewrite elem_of_app in Hx'.
      assert (x = addr e) as -> by tauto. apply lookup_delete_eq.
    + intros y Hy. rewrite (ch_hash _ _ Hinv _ _ y Hl (Hall y Hy)), Z2Nat.id by lia. done.
  - intros x Hx. destruct (decide (x ∈ map addr (l1 ++ l2))) as [Hin|Hin].
    + apply list_elem_of_fmap in Hin as (y & -> & Hy). destruct (bucket_data o bs _ _ y Hinv Hl (Hall y Hy)) as (n & -> & _ & Hny). cbn [fmap option_fmap option_map]. rewrite Hny.
      apply list_elem_of_split in Hy as (k1 & k2 & Hy). rewrite Hy in Hs'.
      apply seg_app in Hs' as (m & lm & _ & (-> & _ & nx' & E & _)). by rewrite E.
    + rewrite map_app, elem_of_app in Hin. f_equal. apply Hlook; tauto.
Qed.

(** ** Cleaning up *)
Lemma free_chain_spec l : forall fuel h p pr la, (length l < fuel)%nat -> NoDup (map addr l) ->
  seg h p pr l 0 la ->
  exists h', free_chain fuel h p = Ret h' /\ (forall a, a ∈ map addr l -> h' !! a = None) /\
    forall a, a ∉ map addr l -> h' !! a = h !! a.
Proof using.
  induction l as [|e l IH]; intros [|fuel] h p pr la Hf Hnd Hs; cbn [length] in Hf; try lia;
    cbn [free_chain].
  - destruct Hs as [-> _]. exists h. split; [done|]. split; [by intros a Ha%elem_of_nil|done].
  - destruct Hs as (-> & Hn & nx & Hl & Hs). rewrite (proj2 (Z.eqb_neq _ _) Hn).
    unfold free_node, load. rewrite Hl. cbn [rbind next]. cbn [map] in Hnd.
    apply NoDup_cons in Hnd as [Hni Hnd].
    destruct (IH fuel (delete (addr e) h) nx (addr e) la ltac:(lia) Hnd) as (h' & Hr & Hin & Hout).
    { apply (seg_frame h); [|done]. intros a Ha. apply lookup_delete_ne. congruence. }
    exists h'. split; [done|]. cbn [map]. split.
    + intros a [->|Ha]%elem_of_cons; [|by apply Hin]. by rewrite Hout, lookup_delete_eq.
    + intros a Ha. apply not_elem_of_cons in Ha as [Ha1 Ha2]. by rewrite Hout, lookup_delete_ne by done.
Qed.

Lemma free_buckets_spec fuel bs : forall h ps, length ps = length bs -> NoDup (addresses bs) ->
  (forall l, l ∈ bs -> (length l < fuel)%nat) ->
  (forall i p l, ps !! i = Some p -> bs !! i = Some l -> exists la, seg h p 0 l 0 la) ->
  exists h', free_buckets fuel h ps = Ret h' /\ (forall a, a ∈ addresses bs -> h' !! a = None) /\
    forall a, a ∉ addresses bs -> h' !! a = h !! a.
Proof using.
  induction bs as [|l bs IH]; intros h [|p ps] Hlen Hnd Hf Hs; try done; cbn [free_buckets].
  - exists h. split; [done|]. split; [by intros a Ha%elem_of_nil|done].
  - injection Hlen as Hlen. unfold addresses in Hnd |- *. cbn [map concat] in Hnd |- *.
    fold (addresses bs) in Hnd |- *. apply NoDup_app in Hnd as (Hnd1 & Hdis & Hnd2).
    destruct (Hs 0%nat p l eq_refl eq_refl) as [la Hsl].
    destruct (free_chain_spec l fuel h p 0 la ltac:(apply Hf; by constructor) Hnd1 Hsl)
      as (h1 & -> & Hin1 & Hout1). cbn [rbind].
    destruct (IH h1 ps Hlen Hnd2) as (h' & Hr & Hin & Hout).
    + intros l' Hl'. apply Hf. by constructor.
    + intros i p' l' Hp' Hl'. destruct (Hs (S i) p' l' Hp' Hl') as [lb Hsl']. exists lb.
      apply (seg_frame h); [|done]. intros a Ha. apply Hout1. intros Ha'.
      apply (Hdis a Ha'). by eapply bucket_addresses.
    + exists h'. split; [done|]. split.
      * intros a [Ha|Ha]%elem_of_app; [|by apply Hin]. rewrite Hout; [by apply Hin1|by apply Hdis].
      * intros a Ha. rewrite elem_of_app in Ha. rewrite Hout, Hout1; tauto.
Qed.

Lemma cleanup_chains o bs : chains o bs -> free_buckets (find_fuel o) (heap o) (hashList o) = Ret ∅.
Proof using.
  intros Hinv. pose proof Hinv as [Hbs Hs Hnd Hdom Hh].
  destruct (free_buckets_spec (find_fuel o) bs (heap o) (hashList o)) as (h' & -> & Hin & Hout); try done.
  - intros l [i Hl]%list_elem_of_lookup. by eapply bucket_fuel.
  - f_equal. apply map_empty. intros a. destruct (decide (a ∈ addresses bs)) as [Ha|Ha]; [by apply Hin|].
    rewrite Hout by done. destruct (heap o !! a) eqn:E; [|done]. exfalso. apply Ha, Hdom. by rewrite E.
Qed.


(** ** The table as a stack of values for each key *)
Definition stack (bs : list (list entry)) (h : Z) (k : K) : list (Z * D) :=
  map (fun e => (addr e, e.2)) (filter (fun e => ekey e = k) (default [] (bs !! Z.to_nat h))).

Definition stacks (o : table) (m : K -> list (Z * D)) : Prop :=
  exists bs, chains o bs /\ forall k h, in_table o k h -> m k = stack bs h k.

Definition set_stack (k : K) (l : list (Z * D)) (m : K -> list (Z * D)) : K -> list (Z * D) :=
  fun x => if decide (x = k) then l else m x.

Lemma set_stack_same k l m : set_stack k l m k = l.
Proof using. unfold set_stack. by rewrite decide_True. Qed.

Lemma set_stack_other k l m x : x <> k -> set_stack k l m x = m x.
Proof using. intros. unfold set_stack. by rewrite decide_False. Qed.

Lemma split_first (l : list entry) k : Forall (fun e => ekey e <> k) l \/
  exists l1 e l2, l = l1 ++ e :: l2 /\ ekey e = k /\ Forall (fun e => ekey e <> k) l1.
Proof using EqDecision0.
  induction l as [|e l [IH|(l1 & e' & l2 & -> & He & Hl1)]]; [by left|..].
  - destruct (decide (ekey e = k)); [right; by exists [], e, l|left; by constructor].
  - right. destruct (decide (ekey e = k)) as [|Hne]; [by exists [], e, (l1 ++ e' :: l2)|].
    exists (e :: l1), e', l2. split; [done|]. split; [done|]. by constructor.
Qed.

Lemma filter_no_key (l : list entry) k : Forall (fun e => ekey e <> k) l ->
  filter (fun e => ekey e = k) l = [].
Proof using. induction 1 as [|e l He _ IH]; [done|]. by rewrite filter_cons_False. Qed.

Lemma stacks_empty n : stacks (empty_table n) (fun _ => []).
Proof using.
  eexists. split; [apply chains_empty|]. intros k h _. unfold stack.
  destruct (_ !! _) as [l|] eqn:E; [|done]. by apply lookup_replicate in E as [-> _].
Qed.

(** A bucket that changes in the nodes of one key only. *)
Lemma stacks_rebucket o o' bs m k h l l' s : in_table o k h -> bs !! Z.to_nat h = Some l ->
  length (hashList o') = length (hashList o) -> (forall k h, in_table o k h -> m k = stack bs h k) ->
  chains o' (<[Z.to_nat h := l']> bs) ->
  map (fun e => (addr e, e.2)) (filter (fun e => ekey e = k) l') = s ->
  (forall x, x <> k -> map (fun e => (addr e, e.2)) (filter (fun e => ekey e = x) l') =
    map (fun e => (addr e, e.2)) (filter (fun e => ekey e = x) l)) ->
  stacks o' (set_stack k s m).
Proof using.
  intros [Hk Hr] Hl Hlen Hm Hch Hs Hother. eexists. split; [exact Hch|]. intros k' h' [Hk' Hr'].
  rewrite Hlen in Hr'. unfold stack. pose proof (lookup_lt_Some _ _ _ Hl) as Hlt.
  destruct (decide (k' = k)) as [->|Hne].
  - rewrite set_stack_same. assert (h' = h) as -> by congruence. by rewrite list_lookup_insert_eq.
  - rewrite set_stack_other by done. rewrite (Hm k' h' (conj Hk' Hr')). unfold stack.
    destruct (decide (h' = h)) as [->|Hh].
    + rewrite Hl, list_lookup_insert_eq by done. symmetry. by apply Hother.
    + by rewrite list_lookup_insert_ne by lia.
Qed.

Lemma push_stacks o m k h a d : stacks o m -> in_table o k h -> a <> 0 -> heap o !! a = None ->
  exists o', push_node o h a k d = Ret o' /\ length (hashList o') = length (hashList o) /\
    stacks o' (set_stack k ((a, d) :: m k) m) /\ data <$> heap o' = <[a := d]> (data <$> heap o).
Proof using.
  intros (bs & Hch & Hm) Hin Ha Hfresh.
  destruct (bucket_of o bs h Hch (proj2 Hin)) as (p & l & _ & Hl & _).
  destruct (push_both o bs k h a d l Hch Hin Hl Ha Hfresh) as (o' & Hp & Hlen & Hch' & Hdata).
  exists o'. split; [done|]. split; [done|]. split.
  - apply (stacks_rebucket o o' bs m k h l _ _ Hin Hl Hlen Hm Hch').
    + rewrite filter_cons_True by done. rewrite (Hm k h Hin). unfold stack. by rewrite Hl.
    + intros x Hx. by rewrite filter_cons_False.
  - apply map_eq. intros x. destruct (decide (x = a)) as [->|Hx].
    + rewrite lookup_insert_eq, lookup_fmap.
      destruct (bucket_data o' _ (Z.to_nat h) _ ((a, k, d) : entry) Hch'
        (list_lookup_insert_eq _ _ _ ltac:(by eapply lookup_lt_Some)) ltac:(by constructor))
        as (n & E & _ & En).
      change (addr (a, k, d)) with a in E. rewrite E. cbn. by rewrite En.
    + rewrite lookup_insert_ne, !lookup_fmap by done. by apply Hdata.
Qed.

Lemma find_stacks o m k h : stacks o m -> in_table o k h ->
  find_in o h k = Ret (match m k with (a, _) :: _ => a | [] => 0 end) /\
  Forall (fun ad => ad.1 <> 0 /\ exists n, heap o !! ad.1 = Some n /\ key n = k /\ data n = ad.2) (m k).
Proof using.
  intros (bs & Hch & Hm) Hin.
  destruct (bucket_of o bs h Hch (proj2 Hin)) as (p & l & _ & Hl & _ & la & Hseg).
  rewrite (find_both o bs k h l Hch Hin Hl), (Hm k h Hin). unfold stack. rewrite Hl.
  cbn [default from_option id]. split.
  - f_equal. destruct (split_first l k) as [Hno|(l1 & e & l2 & -> & He & Hl1)].
    + rewrite (proj2 (list_find_None _ _)) by done. by rewrite filter_no_key.
    + rewrite filter_app, filter_no_key, filter_cons_True by done.
      rewrite list_find_app_r by (by apply list_find_None). cbn [list_find]. by rewrite decide_True.
  - apply Forall_forall. intros ad (e & -> & [Hk He]%list_elem_of_filter)%list_elem_of_fmap. split.
    + apply list_elem_of_split in He as (l1 & l2 & ->).
      by apply seg_app in Hseg as (m' & lm & _ & (-> & Hn & _)).
    + destruct (bucket_data o bs _ l e Hch Hl He) as (n & E & Hkn & Hd). exists n.
      by rewrite <- Hk.
Qed.

Lemma delete_stacks o m k h a d s : stacks o m -> in_table o k h -> m k = (a, d) :: s ->
  exists o1 hp, unlink_node o h a = Ret o1 /\ free_node a (heap o1) = Ret hp /\
    length (hashList o1) = length (hashList o) /\
    stacks (set_heap hp o1) (set_stack k s m) /\ data <$> hp = delete a (data <$> heap o).
Proof using.
  intros (bs & Hch & Hm) Hin Hk.
  destruct (bucket_of o bs h Hch (proj2 Hin)) as (p & l & _ & Hl & _).
  rewrite (Hm k h Hin) in Hk. unfold stack in Hk. rewrite Hl in Hk. cbn [default from_option id] in Hk.
  destruct (split_first l k) as [Hno|(l1 & e & l2 & -> & He & Hl1)].
  { by rewrite filter_no_key in Hk. }
  rewrite filter_app, filter_no_key, filter_cons_True in Hk by done. injection Hk as <- <- Hs.
  destruct (unlink_both o bs k h l1 e l2 Hch Hin Hl) as (o1 & hp & Hu & Hf & Hlen & Hch' & Hgone & Hdata).
  exists o1, hp. split; [done|]. split; [done|]. split; [done|]. split.
  - apply (stacks_rebucket o (set_heap hp o1) bs m k h _ _ _ Hin Hl Hlen Hm Hch').
    + rewrite filter_app, filter_no_key by done. done.
    + intros x Hx. rewrite !filter_app, filter_cons_False by congruence. done.
  - apply map_eq. intros x. destruct (decide (x = addr e)) as [->|Hx].
    + by rewrite lookup_delete_eq, lookup_fmap, Hgone.
    + rewrite lookup_delete_ne, !lookup_fmap by done. by apply Hdata.
Qed.

(** Overwriting the data of a node. *)
Lemma seg_set_data h l1 e l2 v : forall p pr q la, NoDup (map addr (l1 ++ e :: l2)) ->
  seg h p pr (l1 ++ e :: l2) q la ->
  exists h', set_data (addr e) v h = Ret h' /\
    seg h' p pr (l1 ++ ((addr e, ekey e, v) : entry) :: l2) q la /\
    h' !! addr e = (fun n => {| key := key n; prev := prev n; next := next n; data := v |}) <$> h !! addr e /\
    forall x, x <> addr e -> h' !! x = h !! x.
Proof using.
  intros p pr q la Hnd Hs. apply seg_app in Hs as (m & lm & Hs1 & -> & Hn & nx & E & Hs2).
  unfold set_data, load. rewrite E. cbn [rbind key prev next].
  rewrite map_app in Hnd. cbn [map] in Hnd. apply NoDup_app in Hnd as (_ & Hdis & Hnd2).
  apply NoDup_cons in Hnd2 as [Hni _].
  eexists. split; [done|]. split; [|split].
  - apply seg_app. exists (addr e), lm. split.
    + apply (seg_frame h); [|done]. intros a Ha. apply lookup_insert_ne. intros <-.
      apply (Hdis _ Ha). by constructor.
    + split; [done|]. split; [done|]. exists nx. split; [by rewrite lookup_insert_eq|].
      apply (seg_frame h); [|done]. intros a Ha. apply lookup_insert_ne. by intros <-.
  - by rewrite lookup_insert_eq.
  - intros x Hx. by apply lookup_insert_ne.
Qed.

Lemma set_data_both o bs h l1 e l2 v : chains o bs -> 0 <= h < Z.of_nat (length (hashList o)) ->
  bs !! Z.to_nat h = Some (l1 ++ e :: l2) ->
  exists hp, set_data (addr e) v (heap o) = Ret hp /\
    chains (set_heap hp o) (<[Z.to_nat h := l1 ++ ((addr e, ekey e, v) : entry) :: l2]> bs) /\
    data <$> hp = <[addr e := v]> (data <$> heap o).
Proof using.
  intros Hch Hr Hl. destruct (bucket_of o bs h Hch Hr) as (p & l & Hp & Hl' & _ & la & Hseg).
  rewrite Hl in Hl'. injection Hl' as <-. pose proof (bucket_nodup o bs _ _ Hch Hl) as Hnd.
  destruct (seg_set_data _ l1 e l2 v _ _ _ _ Hnd Hseg) as (hp & Hset & Hseg' & Hat & Hf).
  exists hp. split; [done|].
  set (e' := ((addr e, ekey e, v) : entry)) in *.
  assert (Haddr : map addr (l1 ++ e' :: l2) = map addr (l1 ++ e :: l2)) by (by rewrite !map_app).
  assert (Hsome : forall x, x ∈ map addr (l1 ++ e :: l2) -> is_Some (heap o !! x)).
  { intros x Hx. apply (ch_dom _ _ Hch). by eapply bucket_addresses. }
  split.
  - assert (Ho : set_heap hp (set_bucket h p o) = set_heap hp o)
      by (unfold set_bucket, set_heap; cbn; by rewrite list_insert_id).
    rewrite <- Ho. apply (rebucket o bs h (l1 ++ e :: l2)); rewrite ?Haddr; try done.
    + apply Hr.
    + by exists la.
    + intros x Hx _. apply Hf. intros ->. apply Hx. rewrite map_app. apply elem_of_app. right. by constructor.
    + intros x Hx. by left.
    + intros x Hx. destruct (decide (x = addr e)) as [->|Hne]; [rewrite Hat|rewrite Hf by done].
      * apply fmap_is_Some. by apply Hsome.
      * by apply Hsome.
    + intros y Hy. transitivity (hf (ekey y)); [done|]. rewrite <- (Z2Nat.id h) by apply Hr.
      assert (exists z, z ∈ l1 ++ e :: l2 /\ ekey z = ekey y) as (z & Hz & <-).
      { apply elem_of_app in Hy as [Hy|[->|Hy]%elem_of_cons].
        - exists y. split; [|done]. apply elem_of_app. by left.
        - exists e. split; [|done]. apply elem_of_app. right. by constructor.
        - exists y. split; [|done]. apply elem_of_app. right. by constructor. }
      by apply (ch_hash _ _ Hch _ _ z Hl).
  - apply map_eq. intros x. rewrite lookup_fmap. destruct (decide (x = addr e)) as [->|Hx].
    + rewrite lookup_insert_eq, Hat. destruct (Hsome (addr e)) as [n ->]; [|done].
      rewrite map_app. apply elem_of_app. right. by constructor.
    + rewrite lookup_insert_ne, lookup_fmap, Hf by done. done.
Qed.

Lemma set_data_stacks o m k h a d v s : stacks o m -> in_table o k h -> m k = (a, d) :: s ->
  exists hp, set_data a v (heap o) = Ret hp /\
    stacks (set_heap hp o) (set_stack k ((a, v) :: s) m) /\ data <$> hp = <[a := v]> (data <$> heap o).
Proof using.
  intros (bs & Hch & Hm) Hin Hk.
  destruct (bucket_of o bs h Hch (proj2 Hin)) as (p & l & Hp & Hl & _ & la & Hseg).
  rewrite (Hm k h Hin) in Hk. unfold stack in Hk. rewrite Hl in Hk. cbn [default from_option id] in Hk.
  destruct (split_first l k) as [Hno|(l1 & e & l2 & -> & He & Hl1)].
  { by rewrite filter_no_key in Hk. }
  rewrite filter_app, filter_no_key, filter_cons_True in Hk by done. injection Hk as <- <- Hs.
  destruct (set_data_both o bs h l1 e l2 v Hch (proj2 Hin) Hl) as (hp & Hset & Hch' & Hd).
  exists hp. split; [done|]. split; [|done].
  apply (stacks_rebucket o (set_heap hp o) bs m k h _ _ _ Hin Hl eq_refl Hm Hch').
  - rewrite filter_app, filter_no_key, filter_cons_True by done. cbn [app map addr fst snd]. by f_equal.
  - intros x Hx. rewrite !filter_app, !filter_cons_False; [done|congruence|].
    cbn. congruence.
Qed.

(** ** Iteration: the entries, bucket by bucket *)
Definition entries (bs : list (list entry)) : list entry := concat bs.

Definition head_addr (l : list entry) : Z := match l with e :: _ => addr e | [] => 0 end.

(** The first node of the buckets [ps]. *)
Fixpoint first_node (ps : list Z) : Z :=
  match ps with [] => 0 | p :: ps => if negb (p =? 0) then p else first_node ps end.

Lemma first_node_spec o bs i : chains o bs ->
  first_node (drop i (hashList o)) = head_addr (entries (drop i bs)).
Proof using.
  intros Hch. pose proof (ch_bs _ _ Hch) as Hlen.
  remember (drop i (hashList o)) as ps eqn:Ep. remember (drop i bs) as bs' eqn:Eb.
  revert i bs' Ep Eb. induction ps as [|p ps IH]; intros i bs' Ep Eb.
  - assert (length bs' = 0)%nat as Hz; [|by destruct bs'].
    rewrite Eb, length_drop, Hlen, <- length_drop, <- Ep. done.
  - assert (Hp : hashList o !! i = Some p).
    { rewrite <- (Nat.add_0_r i), <- lookup_drop, <- Ep. done. }
    destruct (lookup_lt_is_Some_2 bs i) as [l Hl]; [rewrite Hlen; by eapply lookup_lt_Some|].
    rewrite (drop_S _ _ _ Hl) in Eb. rewrite (drop_S _ _ _ Hp) in Ep. injection Ep as Ep.
    subst bs'. unfold entries. cbn [concat first_node].
    destruct (ch_seg _ _ Hch i p l Hp Hl) as [la Hs].
    destruct (seg_first _ _ _ _ _ _ Hs) as [(-> & -> & _)|(e & l' & -> & -> & Hn)].
    + cbn [Z.eqb negb app]. by apply (IH (S i)).
    + rewrite (proj2 (Z.eqb_neq _ _) Hn). done.
Qed.

(** From a node to the one behind it: in its bucket, or in the next that is not empty. *)
Lemma next_entry o bs pre e post i : chains o bs -> entries bs = pre ++ e :: post ->
  hf (ekey e) = Ret (Z.of_nat i) ->
  exists n, heap o !! addr e = Some n /\ key n = ekey e /\ data n = e.2 /\ addr e <> 0 /\
    (if next n =? 0 then first_node (drop (S i) (hashList o)) else next n) = head_addr post.
Proof using.
  intros Hch He Hi.
  assert (exists l1 l2, bs !! i = Some (l1 ++ e :: l2) /\ post = l2 ++ entries (drop (S i) bs)) as
    (l1 & l2 & Hl & ->).
  { assert (Hpos : exists j l1 l2, bs !! j = Some (l1 ++ e :: l2) /\ post = l2 ++ entries (drop (S j) bs)).
    { clear -He. unfold entries in *. revert pre He. induction bs as [|l bs IH]; intros pre He.
      - by destruct pre.
      - cbn [concat] in He. destruct (app_eq_inv l _ pre (e :: post) He) as
          [(k & -> & Hk)|(k & -> & Hk)].
        + destruct k as [|e' k]; [|injection Hk as <- ->; by exists 0%nat, pre, k].
          destruct (IH [] ltac:(symmetry; exact Hk)) as (j & l1 & l2 & ? & ?). by exists (S j), l1, l2.
        + destruct (IH k Hk) as (j & l1 & l2 & ? & ?). by exists (S j), l1, l2. }
    destruct Hpos as (j & l1 & l2 & Hj & ->).
    assert (i = j) as ->; [|by exists l1, l2].
    pose proof (ch_hash _ _ Hch j _ e Hj ltac:(apply elem_of_app; right; by constructor)) as Hk.
    rewrite Hi in Hk. injection Hk as Hk. lia. }
  pose proof (lookup_lt_Some _ _ _ Hl) as Hlt. rewrite (ch_bs _ _ Hch) in Hlt.
  destruct (lookup_lt_is_Some_2 (hashList o) i Hlt) as [p Hp].
  destruct (ch_seg _ _ Hch i p _ Hp Hl) as [la Hs].
  apply seg_app in Hs as (m & lm & _ & -> & Hn & nx & E & Hs).
  eexists. split; [exact E|]. cbn [key data next]. split; [done|]. split; [done|]. split; [done|].
  destruct (seg_first _ _ _ _ _ _ Hs) as [(-> & -> & _)|(e2 & l' & -> & -> & Hn2)].
  - cbn [Z.eqb app]. by apply first_node_spec.
  - by rewrite (proj2 (Z.eqb_neq _ _) Hn2).
Qed.

(** The entries are the stacks of all keys. *)
Lemma entries_stack o bs m e : chains o bs -> (forall k h, in_table o k h -> m k = stack bs h k) ->
  e ∈ entries bs -> (addr e, e.2) ∈ m (ekey e).
Proof using.
  intros Hch Hm He. unfold entries in He. apply list_elem_of_In, in_concat in He as (l & Hl%list_elem_of_In & He%list_elem_of_In).
  apply list_elem_of_lookup in Hl as [i Hl].
  pose proof (ch_hash _ _ Hch i l e Hl He) as Hk. pose proof (lookup_lt_Some _ _ _ Hl) as Hlt.
  rewrite (ch_bs _ _ Hch) in Hlt. rewrite (Hm (ekey e) (Z.of_nat i)) by (split; [done|lia]).
  unfold stack. rewrite Nat2Z.id, Hl. apply list_elem_of_fmap. exists e. split; [done|].
  by apply list_elem_of_filter.
Qed.
End Buckets.
End Chain.
Arguments node : clear implicits.
Arguments table : clear implicits.
