(* ===== verification/IntHash.v ===== *)
(** * The integer hash table (src/src/util/src/ihash.c)

    The operations over the buckets and chains of Chain.v.  The table is shown
    to be a stack of values per key. *)
From S2P Require Import Prelude Chain.

(** A node holds [dataSize] bytes; its address stands for that of its [data]. *)
Definition IHashNode : Type := node Z (list Z).

Record IHashObj := {
  hashTab : table Z (list Z);
  maxSessions : Z;
  dataSize : Z }.

Definition set_tab (t : table Z (list Z)) (o : IHashObj) : IHashObj :=
  {| hashTab := t; maxSessions := maxSessions o; dataSize := dataSize o |}.

Definition taosHashInt (o : IHashObj) (key : Z) : res Z :=
  if maxSessions o =? 0 then Undef else Ret (Z.rem key (maxSessions o)).

(** The two [bool]s say whether the two [malloc]s succeed. *)
Definition taosInitIntHash (malloc1 malloc2 : bool) (maxSessions0 dataSize0 : Z) : option IHashObj :=
  if negb malloc1 then None
  else if negb malloc2 then None
  else Some {| hashTab := empty_table maxSessions0; maxSessions := maxSessions0; dataSize := dataSize0 |}.

(** What the new node holds: [dataSize] bytes of [pData], or what [malloc] left there. *)
Definition node_data (o : IHashObj) (pData : option (list Z)) (junk : list Z) : res (list Z) :=
  match pData with Some b => rd b 0 (dataSize o) | None => Ret junk end.

Section Ops.
(** [hashFp] *)
Context (hashFp : IHashObj -> Z -> res Z).

(** [malloc] yields an address and what the bytes of [data] hold. *)
Definition taosAddIntHash (o : IHashObj) (key : Z) (pData : option (list Z))
    (malloc : option (Z * list Z)) : res (Z * IHashObj) :=
  if maxSessions o =? 0 then Ret (0, o) else
  let! hash := hashFp o key in
  match malloc with
  | None => Ret (0, o)
  | Some (pNode, junk) =>
      let! bytes := node_data o pData junk in
      let! t := push_node (hashTab o) hash pNode key bytes in
      Ret (pNode, set_tab t o)
  end.

Definition taosDeleteIntHash (o : IHashObj) (key : Z) : res IHashObj :=
  if maxSessions o =? 0 then Ret o else
  let! hash := hashFp o key in
  let! pNode := find_in (hashTab o) hash key in
  if pNode =? 0 then Ret o else
  let! t := unlink_node (hashTab o) hash pNode in
  let! h := free_node pNode (heap t) in
  Ret (set_tab (set_heap h t) o).

(** The node whose [data] is returned, or 0. *)
Definition taosGetIntHashData (o : IHashObj) (key : Z) : res Z :=
  if maxSessions o =? 0 then Ret 0 else
  let! hash := hashFp o key in
  find_in (hashTab o) hash key.
End Ops.

(** The nodes that are left when all have been freed. *)
Definition taosCleanUpIntHash (o : IHashObj) : res (gmap Z IHashNode) :=
  if maxSessions o <=? 0 then Ret (heap (hashTab o))
  else free_buckets (find_fuel (hashTab o)) (heap (hashTab o)) (hashList (hashTab o)).

(** ** The table as one stack of values for each key *)
Section Table.
Context (hashFp : IHashObj -> Z -> res Z).
(** The hash depends on the number of buckets only. *)
Context (Hfp : forall o o' k, maxSessions o = maxSessions o' -> hashFp o k = hashFp o' k).

Definition key_in (o : IHashObj) (k h : Z) : Prop := hashFp o k = Ret h /\ 0 <= h < maxSessions o.

Definition bindings : Type := Z -> list (Z * list Z).

(** A client of the table, with the stacks it expects. *)
Inductive hash_step : IHashObj * bindings -> IHashObj * bindings -> Prop :=
| hs_add o o' m k h pData a junk d r : key_in o k h -> node_data o pData junk = Ret d ->
    a <> 0 -> heap (hashTab o) !! a = None ->
    taosAddIntHash hashFp o k pData (Some (a, junk)) = Ret (r, o') ->
    hash_step (o, m) (o', set_stack k ((a, d) :: m k) m)
| hs_full o o' m k h pData r : key_in o k h ->
    taosAddIntHash hashFp o k pData None = Ret (r, o') -> hash_step (o, m) (o', m)
| hs_del o o' m k h : key_in o k h -> taosDeleteIntHash hashFp o k = Ret o' ->
    hash_step (o, m) (o', set_stack k (tail (m k)) m).

Record hash_inv (o : IHashObj) (m : bindings) : Prop := {
  hi_max : 0 < maxSessions o;
  hi_len : Z.of_nat (length (hashList (hashTab o))) = maxSessions o;
  hi_stacks : stacks (hashFp o) (hashTab o) m }.

Lemma key_in_table o m k h : hash_inv o m -> key_in o k h -> in_table (hashFp o) (hashTab o) k h.
Proof using. intros [_ Hl _] [Hk Hr]. split; [done|]. by rewrite Hl. Qed.

(** The hash function of a table that has changed is the same. *)
Lemma stacks_hf o o' (t : table Z (list Z)) m : maxSessions o' = maxSessions o ->
  stacks (hashFp o) t m -> stacks (hashFp o') t m.
Proof using Hfp.
  intros E (bs & [C1 C2 C3 C4 C5] & Hm). exists bs. split.
  - constructor; try done. intros i l e Hl He. rewrite (Hfp o' o) by done. by eapply C5.
  - intros k h [Hk Hr]. apply Hm. split; [by rewrite (Hfp o o')|done].
Qed.

Lemma set_tab_inv o t m : hash_inv o m -> forall m', length (hashList t) = length (hashList (hashTab o)) ->
  stacks (hashFp o) t m' -> hash_inv (set_tab t o) m'.
Proof using Hfp.
  intros [Hmax Hlen _] m' Hl Hs. constructor; cbn [hashTab maxSessions set_tab]; [done|lia|].
  by apply (stacks_hf o).
Qed.

Lemma init_hash_inv n ds o : 0 < n -> taosInitIntHash true true n ds = Some o -> hash_inv o (fun _ => []).
Proof using.
  intros Hn [= <-]. constructor; cbn [maxSessions hashTab hashList empty_table]; [done| |apply stacks_empty].
  rewrite length_replicate. lia.
Qed.

Lemma add_both o m k h pData a junk d : hash_inv o m -> key_in o k h -> node_data o pData junk = Ret d ->
  a <> 0 -> heap (hashTab o) !! a = None ->
  exists o', taosAddIntHash hashFp o k pData (Some (a, junk)) = Ret (a, o') /\
    maxSessions o' = maxSessions o /\ hash_inv o' (set_stack k ((a, d) :: m k) m).
Proof using Hfp.
  intros Hinv Hk Hd Ha Hf. pose proof (key_in_table _ _ _ _ Hinv Hk) as Hin.
  destruct (push_stacks _ _ _ _ _ a d (hi_stacks _ _ Hinv) Hin Ha Hf) as (t & Hp & Hl & Hs & _).
  pose proof (hi_max _ _ Hinv). unfold taosAddIntHash. rewrite (proj2 (Z.eqb_neq _ 0)) by lia.
  destruct Hk as [-> _]. cbn [rbind]. rewrite Hd. cbn [rbind]. rewrite Hp. cbn [rbind].
  eexists. split; [done|]. split; [done|]. by eapply set_tab_inv.
Qed.

Lemma get_both o m k h : hash_inv o m -> key_in o k h ->
  taosGetIntHashData hashFp o k = Ret (match m k with (a, _) :: _ => a | [] => 0 end) /\
  Forall (fun ad => ad.1 <> 0 /\ data <$> heap (hashTab o) !! ad.1 = Some ad.2) (m k).
Proof using.
  intros Hinv Hk. pose proof (hi_max _ _ Hinv). pose proof (key_in_table _ _ _ _ Hinv Hk) as Hin.
  destruct (find_stacks _ _ _ _ _ (hi_stacks _ _ Hinv) Hin) as [Hf Hd]. split.
  - unfold taosGetIntHashData. rewrite (proj2 (Z.eqb_neq _ 0)) by lia. destruct Hk as [-> _]. exact Hf.
  - eapply Forall_impl; [exact Hd|]. intros ad (Hn & n & -> & _ & <-). done.
Qed.

Lemma delete_both o m k h : hash_inv o m -> key_in o k h ->
  exists o', taosDeleteIntHash hashFp o k = Ret o' /\ maxSessions o' = maxSessions o /\
    hash_inv o' (set_stack k (tail (m k)) m).
Proof using Hfp.
  intros Hinv Hk. pose proof (hi_max _ _ Hinv). pose proof (key_in_table _ _ _ _ Hinv Hk) as Hin.
  destruct (find_stacks _ _ _ _ _ (hi_stacks _ _ Hinv) Hin) as [Hf Hd].
  unfold taosDeleteIntHash. rewrite (proj2 (Z.eqb_neq _ 0)) by lia.
  pose proof Hk as [-> _]. cbn [rbind]. rewrite Hf. cbn [rbind]. destruct (m k) as [|[a d] s] eqn:Em.
  - exists o. split; [done|]. split; [done|]. destruct Hinv as [H1 H2 (bs & Hch & Hm)].
    constructor; [done|done|]. exists bs. split; [done|]. intros x hx Hx. unfold set_stack.
    destruct (decide (x = k)) as [->|]; [|by apply Hm]. by rewrite <- (Hm k hx Hx), Em.
  - apply Forall_cons_1 in Hd as [[Ha _] _]. cbn [fst] in Ha. rewrite (proj2 (Z.eqb_neq _ _) Ha).
    destruct (delete_stacks _ _ _ _ _ a d s (hi_stacks _ _ Hinv) Hin Em) as (t & hp & -> & Hfr & Hl & Hs & _).
    cbn [rbind]. rewrite Hfr. cbn [rbind]. eexists. split; [done|]. split; [done|]. by eapply set_tab_inv.
Qed.

Lemma hash_step_inv s s' : hash_step s s' -> hash_inv s.1 s.2 -> hash_inv s'.1 s'.2.
Proof using Hfp.
  destruct 1 as [o o' m k h pData a junk d r Hk Hd Ha Hf Hadd|o o' m k h pData r [Hk _] Hadd|
    o o' m k h Hk Hdel]; cbn [fst snd]; intros Hinv.
  - destruct (add_both _ _ _ _ _ _ _ _ Hinv Hk Hd Ha Hf) as (o2 & Hadd2 & _ & Hi). congruence.
  - unfold taosAddIntHash in Hadd. destruct (_ =? 0); [by injection Hadd as _ <-|].
    rewrite Hk in Hadd. by injection Hadd as _ <-.
  - destruct (delete_both _ _ _ _ Hinv Hk) as (o2 & Hdel2 & _ & Hi). congruence.
Qed.

(** C22.  Whatever sequence of additions, failed allocations and deletions a
    client makes, with any hash function that depends on the number of buckets
    only, the table behaves as one stack of values per key: a look-up returns
    the node of the latest value not yet deleted or [NULL], every value is
    still in its node, additions and deletions never touch memory outside the
    table's nodes, and cleaning up frees every node exactly once. *)
Theorem int_hash_stack n ds o0 s : 0 < n -> taosInitIntHash true true n ds = Some o0 ->
  rtc hash_step (o0, fun _ => []) s ->
  (forall k h, key_in s.1 k h ->
    taosGetIntHashData hashFp s.1 k = Ret (match s.2 k with (a, _) :: _ => a | [] => 0 end) /\
    Forall (fun ad => ad.1 <> 0 /\ data <$> heap (hashTab s.1) !! ad.1 = Some ad.2) (s.2 k) /\
    (forall a junk pData d, a <> 0 -> heap (hashTab s.1) !! a = None -> node_data s.1 pData junk = Ret d ->
      exists o', taosAddIntHash hashFp s.1 k pData (Some (a, junk)) = Ret (a, o')) /\
    exists o', taosDeleteIntHash hashFp s.1 k = Ret o') /\
  taosCleanUpIntHash s.1 = Ret ∅.
Proof using Hfp.
  intros Hn Hinit Hrun.
  assert (Hinv : hash_inv s.1 s.2).
  { pose proof (init_hash_inv n ds o0 Hn Hinit) as H0. clear Hinit Hn.
    change (hash_inv (o0, fun _ : Z => @nil (Z * list Z)).1 (o0, fun _ : Z => @nil (Z * list Z)).2) in H0.
    induction Hrun as [|x y z Hst _ IH]; [done|]. by apply IH, (hash_step_inv x). }
  split.
  - intros k h Hk. destruct (get_both _ _ _ _ Hinv Hk) as [Hg Hd]. split; [done|]. split; [done|]. split.
    + intros a junk pData d Ha Hf Hnd.
      destruct (add_both _ _ _ _ _ _ _ _ Hinv Hk Hnd Ha Hf) as (o' & -> & _). by exists o'.
    + destruct (delete_both _ _ _ _ Hinv Hk) as (o' & -> & _). by exists o'.
  - destruct Hinv as [Hmax _ (bs & Hch & _)]. unfold taosCleanUpIntHash.
    rewrite (proj2 (Z.leb_gt _ _)) by lia. by apply (cleanup_chains _ _ _ Hch).
Qed.
End Table.

Definition two_buckets : IHashObj := {| hashTab := empty_table 2; maxSessions := 2; dataSize := 4 |}.

(** With the hash function the callers install. *)
Lemma int_hash_stack_witness : exists s,
  rtc (hash_step taosHashInt) (two_buckets, fun _ => []) s /\
  taosGetIntHashData taosHashInt s.1 5 = Ret 32 /\ taosCleanUpIntHash s.1 = Ret ∅.
Proof.
  assert (exists s, rtc (hash_step taosHashInt) (two_buckets, fun _ => []) s /\
    key_in taosHashInt s.1 5 1 /\ s.2 5 = [(32, [9; 9; 9; 9]); (16, [1; 2; 3; 4])]) as (s & Hr & Ht & Hs).
  - eexists. split.
    eapply rtc_l.
    { eapply (hs_add _ _ _ _ 5 1 (Some [1; 2; 3; 4]) 16 [] [1; 2; 3; 4]); [split; [reflexivity|cbn; lia]|reflexivity|lia|reflexivity|reflexivity]. }
    eapply rtc_l.
    { eapply (hs_add _ _ _ _ 5 1 None 32 [9; 9; 9; 9] [9; 9; 9; 9]); [split; [reflexivity|cbn; lia]|reflexivity|lia|reflexivity|reflexivity]. }
    eapply rtc_l.
    { eapply (hs_add _ _ _ _ 3 1 (Some [5; 6; 7; 8]) 48 [] [5; 6; 7; 8]); [split; [reflexivity|cbn; lia]|reflexivity|lia|reflexivity|reflexivity]. }
    eapply rtc_l.
    { eapply (hs_del _ _ _ _ 3 1); [split; [reflexivity|cbn; lia]|reflexivity]. }
    apply rtc_refl.
    split; [split; [reflexivity|cbn; lia]|reflexivity].
  - exists s. split; [exact Hr|].
    destruct (fun H => int_hash_stack taosHashInt H 2 4 two_buckets _ eq_refl eq_refl Hr) as [Hk Hc].
    + intros o o' k E. unfold taosHashInt. by rewrite E.
    + split; [|exact Hc]. destruct (Hk 5 1 Ht) as [Hg _]. rewrite Hg, Hs. reflexivity.
Defined.
