(* ===== verification/StrHash.v ===== *)
(** * The string hash table (util/src/shash.c)

    The operations over the buckets and chains of Chain.v, with keys that are strings: lists
    of bytes that are not 0.  A node has the key behind its data; its address stands for
    that of the data. *)
From S2P Require Import Prelude Chain.

Definition strtab : Type := table (list Z) (list Z).
Record SHashObj := mkStr { hashTab : strtab; maxSessions : Z; dataSize : Z }.
Definition set_tab (t : strtab) (o : SHashObj) : SHashObj := mkStr t (maxSessions o) (dataSize o).

(** ** Hash functions *)
Definition spread (hash n : Z) : res Z :=
  if n =? 0 then Undef else let hashv := hash / n in Ret (u32 (hashv + hash mod n) mod n).

(** It reads an [int] at every fourth character: [mem] is the memory from the string on. *)
Fixpoint sum_words (fuel : nat) (mem : list Z) (c hash : Z) : res Z :=
  match fuel with
  | O => NoFuel
  | S fuel =>
    let! b := rd1 mem c in
    if b =? 0 then Ret hash
    else let! bs := rd mem c 4 in sum_words fuel mem (c + 4) (u32 (hash + wraps 32 (le_val bs)))
  end.
Definition taosHashString (n : Z) (mem : list Z) : res Z := let! hash := sum_words (S (length mem)) mem 0 0 in spread hash n.

(** Characters have a sign. *)
Definition taosHashStringStep1 (n : Z) (string : list Z) : res Z :=
  spread (foldl (fun hash c => u32 (hash + wraps 8 c)) 0 string) n.

(** ** Operations *)
Section Ops.
(** [hashFp], which looks at the number of buckets only *)
Context (hashFp : Z -> list Z -> res Z).

(** Whether [malloc] succeeds is not looked at. *)
Definition taosAddStrHashWithSize (o : SHashObj) (string pData : list Z) (size : Z) (malloc : Z) : res (Z * SHashObj) :=
  if maxSessions o =? 0 then Ret (0, o)
  else match string with
       | [] => Ret (0, o)
       | _ =>
         let! hash := hashFp (maxSessions o) string in
         if malloc =? 0 then Undef
         else
           let! d := rd pData 0 size in
           let! t := push_node (hashTab o) hash malloc string d in Ret (malloc, set_tab t o)
       end.
Definition taosAddStrHash (o : SHashObj) (string pData : list Z) (malloc : Z) : res (Z * SHashObj) :=
  match string with [] => Ret (0, o) | _ => taosAddStrHashWithSize o string pData (dataSize o) malloc end.

Definition taosGetStrHashData (o : SHashObj) (string : list Z) : res Z :=
  if maxSessions o =? 0 then Ret 0
  else match string with
       | [] => Ret 0
       | _ => let! hash := hashFp (maxSessions o) string in find_in (hashTab o) hash string
       end.

(** What both deletions do with the node they found. *)
Definition remove_node (o : SHashObj) (hash pNode : Z) : res SHashObj :=
  if pNode =? 0 then Ret o
  else
    let! t := unlink_node (hashTab o) hash pNode in
    let! h := free_node pNode (heap t) in Ret (set_tab (set_heap h t) o).

Definition taosDeleteStrHash (o : SHashObj) (string : list Z) : res SHashObj :=
  if maxSessions o =? 0 then Ret o
  else match string with
       | [] => Ret o
       | _ =>
         let! hash := hashFp (maxSessions o) string in
         let! pNode := find_in (hashTab o) hash string in remove_node o hash pNode
       end.

(** The node with this key and at this address; a node with another key is looked at again. *)
Fixpoint find_this (fuel : nat) (h : gmap Z (node (list Z) (list Z))) (p : Z) (string : list Z) (pDeleteNode : Z) : res Z :=
  match fuel with
  | O => NoFuel
  | S fuel =>
    if p =? 0 then Ret 0
    else
      let! n := load h p in
      if decide (key n = string) then if p =? pDeleteNode then Ret p else find_this fuel h (next n) string pDeleteNode
      else find_this fuel h p string pDeleteNode
  end.
Definition taosDeleteStrHashNode (fuel : nat) (o : SHashObj) (string : list Z) (pDeleteNode : Z) : res SHashObj :=
  if maxSessions o =? 0 then Ret o
  else match string with
       | [] => Ret o
       | _ =>
         let! hash := hashFp (maxSessions o) string in
         let! p := rd1 (hashList (hashTab o)) hash in
         let! pNode := find_this fuel (heap (hashTab o)) p string pDeleteNode in remove_node o hash pNode
       end.
End Ops.

Definition taosInitStrHash (malloc1 malloc2 : bool) (maxSessions dataSize : Z) : option SHashObj :=
  if malloc1 && malloc2 then Some (mkStr (empty_table maxSessions) maxSessions dataSize) else None.

(** The nodes that are left. *)
Definition taosCleanUpStrHash (o : SHashObj) : res (gmap Z (node (list Z) (list Z))) :=
  if maxSessions o <=? 0 then Ret (heap (hashTab o)) else free_buckets (find_fuel (hashTab o)) (heap (hashTab o)) (hashList (hashTab o)).

(** The first node whose data [fp] wants. *)
Fixpoint visit_chain (fuel : nat) (h : gmap Z (node (list Z) (list Z))) (p : Z) (fp : list Z -> bool) : res Z :=
  match fuel with
  | O => NoFuel
  | S fuel => if p =? 0 then Ret 0 else let! n := load h p in if fp (data n) then Ret p else visit_chain fuel h (next n) fp
  end.
Fixpoint visit_buckets (fuel : nat) (h : gmap Z (node (list Z) (list Z))) (ps : list Z) (fp : list Z -> bool) : res Z :=
  match ps with
  | [] => Ret 0
  | p :: ps => let! r := visit_chain fuel h p fp in if r =? 0 then visit_buckets fuel h ps fp else Ret r
  end.
Definition taosVisitStrHashWithFp (o : SHashObj) (fp : list Z -> bool) : res Z :=
  if maxSessions o <=? 0 then Ret 0 else visit_buckets (find_fuel (hashTab o)) (heap (hashTab o)) (hashList (hashTab o)) fp.

(** ** The table as a stack of values for each key *)
Lemma spread_range hash n : 0 < n -> 0 <= hash -> exists h, spread hash n = Ret h /\ 0 <= h < n.
Proof.
  intros Hn Hh. unfold spread. rewrite (proj2 (Z.eqb_neq _ _)) by lia. eexists. split; [done|]. apply Z.mod_pos_bound. lia.
Qed.
Lemma step1_range n string : 0 < n -> exists h, taosHashStringStep1 n string = Ret h /\ 0 <= h < n.
Proof.
  intros Hn. unfold taosHashStringStep1. apply spread_range; [done|]. assert (Hf : forall l a, 0 <= a -> 0 <= foldl (fun hash c => u32 (hash + wraps 8 c)) a l); [|by apply Hf].
  induction l as [|c l IH]; intros a Ha; [done|]. cbn [foldl]. apply IH. pose proof (wrapu_range 32 (a + wraps 8 c) ltac:(lia)) as Hr. unfold in_u in Hr. lia.
Qed.

Section Table.
Context (hashFp : Z -> list Z -> res Z) (Hfp : forall n s, 0 < n -> exists h, hashFp n s = Ret h /\ 0 <= h < n).

Record str_inv (o : SHashObj) (m : list Z -> list (Z * list Z)) : Prop := {
  sv_max : 0 < maxSessions o;
  sv_len : Z.of_nat (length (hashList (hashTab o))) = maxSessions o;
  sv_stacks : stacks (hashFp (maxSessions o)) (hashTab o) m }.

Lemma key_hash o m s : str_inv o m -> exists h, in_table (hashFp (maxSessions o)) (hashTab o) s h /\ hashFp (maxSessions o) s = Ret h.
Proof using Hfp.
  intros [Hm Hl _]. destruct (Hfp (maxSessions o) s Hm) as (h & Hh & Hr). exists h. split; [|done]. split; [done|]. by rewrite Hl.
Qed.

Lemma init_str n ds o : 0 < n -> taosInitStrHash true true n ds = Some o -> str_inv o (fun _ => []).
Proof using.
  intros Hn [= <-]. constructor; cbn [maxSessions hashTab hashList empty_table]; [done|rewrite length_replicate; lia|apply stacks_empty].
Qed.

Lemma add_str o m s pData a d : str_inv o m -> s <> [] -> rd pData 0 (dataSize o) = Ret d -> a <> 0 -> heap (hashTab o) !! a = None ->
  exists o', taosAddStrHash hashFp o s pData a = Ret (a, o') /\ str_inv o' (set_stack s ((a, d) :: m s) m) /\ dataSize o' = dataSize o /\
    data <$> heap (hashTab o') = <[a := d]> (data <$> heap (hashTab o)).
Proof using Hfp.
  intros Hinv Hs Hd Ha Hf. pose proof (sv_max _ _ Hinv). destruct (key_hash o m s Hinv) as (h & Hin & Hh).
  destruct (push_stacks _ _ _ _ _ a d (sv_stacks _ _ Hinv) Hin Ha Hf) as (t & Hp & Hl & Hst & Hdat).
  unfold taosAddStrHash, taosAddStrHashWithSize. destruct s as [|c s]; [done|]. rewrite (proj2 (Z.eqb_neq _ 0)) by lia. rewrite Hh. cbn [rbind].
  rewrite (proj2 (Z.eqb_neq a 0)) by done. rewrite Hd. cbn [rbind]. rewrite Hp. cbn [rbind]. eexists. split; [done|]. split; [|done]. destruct Hinv. constructor; cbn; [done|lia|done].
Qed.

Lemma get_str o m s : str_inv o m -> s <> [] -> taosGetStrHashData hashFp o s = Ret (match m s with (a, _) :: _ => a | [] => 0 end) /\
  Forall (fun ad => ad.1 <> 0 /\ data <$> heap (hashTab o) !! ad.1 = Some ad.2) (m s).
Proof using Hfp.
  intros Hinv Hs. pose proof (sv_max _ _ Hinv). destruct (key_hash o m s Hinv) as (h & Hin & Hh).
  destruct (find_stacks _ _ _ _ _ (sv_stacks _ _ Hinv) Hin) as [Hf Hd]. split.
  - unfold taosGetStrHashData. destruct s as [|c s]; [done|]. rewrite (proj2 (Z.eqb_neq _ 0)) by lia. rewrite Hh. exact Hf.
  - eapply Forall_impl; [exact Hd|]. intros ad (Hn & n & -> & _ & <-). done.
Qed.

Lemma delete_str o m s : str_inv o m -> s <> [] -> exists o', taosDeleteStrHash hashFp o s = Ret o' /\ str_inv o' (set_stack s (tail (m s)) m).
Proof using Hfp.
  intros Hinv Hs. pose proof (sv_max _ _ Hinv). destruct (key_hash o m s Hinv) as (h & Hin & Hh).
  destruct (find_stacks _ _ _ _ _ (sv_stacks _ _ Hinv) Hin) as [Hf Hd].
  unfold taosDeleteStrHash. rewrite (proj2 (Z.eqb_neq _ 0)) by lia. destruct s as [|c s0] eqn:Es; [done|]. rewrite <- Es in *. rewrite Hh. cbn [rbind]. rewrite Hf. cbn [rbind]. unfold remove_node.
  destruct (m s) as [|[a d] l] eqn:Em.
  - exists o. split; [done|]. destruct Hinv as [H1 H2 (bs & Hch & Hm)]. constructor; [done|done|]. exists bs. split; [done|]. intros x hx Hx. unfold set_stack.
    destruct (decide (x = s)) as [->|]; [|by apply Hm]. by rewrite <- (Hm s hx Hx), Em.
  - apply Forall_cons_1 in Hd as [[Ha _] _]. cbn [fst] in Ha. rewrite (proj2 (Z.eqb_neq _ _) Ha).
    destruct (delete_stacks _ _ _ _ _ a d l (sv_stacks _ _ Hinv) Hin Em) as (t & hp & -> & Hfr & Hl & Hst & _).
    cbn [rbind]. rewrite Hfr. cbn [rbind]. eexists. split; [done|]. destruct Hinv. constructor; cbn; [done|by rewrite Hl|done].
Qed.

Lemma cleanup_str o m : str_inv o m -> taosCleanUpStrHash o = Ret ∅.
Proof using.
  intros [Hmax _ (bs & Hch & _)]. unfold taosCleanUpStrHash. rewrite (proj2 (Z.leb_gt _ _)) by lia. by apply (cleanup_chains _ _ _ Hch).
Qed.
End Table.

(** ** What goes wrong *)

(** A node with another key in the same bucket: the deletion does not end. *)
Lemma delete_node_spins hashFp o string node hash p n : maxSessions o <> 0 -> string <> [] -> hashFp (maxSessions o) string = Ret hash ->
  rd1 (hashList (hashTab o)) hash = Ret p -> p <> 0 -> heap (hashTab o) !! p = Some n -> key n <> string ->
  forall fuel, taosDeleteStrHashNode hashFp fuel o string node = NoFuel.
Proof.
  intros Hmax Hs Hh Hp Hp0 Hn Hk fuel. unfold taosDeleteStrHashNode. rewrite (proj2 (Z.eqb_neq _ _)) by done. destruct string as [|c s] eqn:Es; [done|]. rewrite <- Es in *.
  rewrite Hh. cbn [rbind]. rewrite Hp. cbn [rbind]. assert (E : find_this fuel (heap (hashTab o)) p string node = NoFuel); [|by rewrite E].
  induction fuel as [|fuel IH]; [done|]. cbn [find_this]. rewrite (proj2 (Z.eqb_neq _ _)) by done. unfold load. rewrite Hn. cbn [rbind]. by rewrite decide_False.
Qed.

(** The hash of the connections of the RPC layer reads behind a string of three characters. *)
Lemma hash_string_overruns : taosHashString 7 [97; 98; 99; 0] = Undef.
Proof. reflexivity. Qed.

(** What is behind a string of three characters decides its bucket. *)
Lemma hash_string_differs : taosHashString 7 [97; 98; 99; 0; 0] = Ret 4 /\ taosHashString 7 [97; 98; 99; 0; 1; 0; 0; 0; 0] <> Ret 4.
Proof. split; [vm_compute; reflexivity|vm_compute; discriminate]. Qed.
