(* ===== verification/Tokenizer.v ===== *)
(** * The tokens of SQL (util/src/ttokenizer.c)

    [tSQLGetToken] finds the token that begins at a place of a string, [tSQLParse] of
    client/src/tscSQLParserImpl.c gives the tokens to the parser that lemon generates.  A
    string is the list of bytes in memory from its first one on, 0 and what is behind it
    included. *)
From Stdlib Require Import Ascii String.
From S2P Require Import Prelude Chain StrHash.

(** ** Keywords *)
Definition TK_ID : Z := 1.
Definition TK_BOOL : Z := 2.
Definition TK_INTEGER : Z := 5.
Definition TK_FLOAT : Z := 7.
Definition TK_STRING : Z := 9.
Definition TK_EQ : Z := 16.
Definition TK_NE : Z := 17.
Definition TK_GT : Z := 25.
Definition TK_GE : Z := 26.
Definition TK_LT : Z := 27.
Definition TK_LE : Z := 28.
Definition TK_BITAND : Z := 29.
Definition TK_BITOR : Z := 30.
Definition TK_LSHIFT : Z := 31.
Definition TK_RSHIFT : Z := 32.
Definition TK_PLUS : Z := 33.
Definition TK_MINUS : Z := 34.
Definition TK_STAR : Z := 37.
Definition TK_SLASH : Z := 38.
Definition TK_REM : Z := 39.
Definition TK_CONCAT : Z := 40.
Definition TK_BITNOT : Z := 43.
Definition TK_DOT : Z := 56.
Definition TK_IP : Z := 70.
Definition TK_LP : Z := 86.
Definition TK_RP : Z := 87.
Definition TK_COMMA : Z := 91.
Definition TK_VARIABLE : Z := 95.
Definition TK_COLON : Z := 123.
Definition TK_SEMI : Z := 179.
Definition TK_SPACE : Z := 200.
Definition TK_COMMENT : Z := 201.
Definition TK_ILLEGAL : Z := 202.

Definition chars (s : string) : list Z := map (fun a => Z.of_nat (nat_of_ascii a)) (list_ascii_of_string s).

Definition kw (name : string) (type : Z) : list Z * Z := (chars name, type).

(** The names with the numbers of their tokens in inc/tsqldef.h. *)
Definition keywordTable : list (list Z * Z) := [
  kw "ID" 1; kw "BOOL" 2; kw "TINYINT" 3; kw "SMALLINT" 4; kw "INTEGER" 5; kw "INT" 5; kw "BIGINT" 6;
  kw "FLOAT" 7; kw "DOUBLE" 8; kw "STRING" 9; kw "TIMESTAMP" 10; kw "BINARY" 11; kw "NCHAR" 12;
  kw "OR" 13; kw "AND" 14; kw "NOT" 15; kw "EQ" 16; kw "NE" 17; kw "ISNULL" 18; kw "NOTNULL" 19;
  kw "IS" 20; kw "LIKE" 21; kw "GLOB" 22; kw "BETWEEN" 23; kw "IN" 24; kw "GT" 25; kw "GE" 26;
  kw "LT" 27; kw "LE" 28; kw "BITAND" 29; kw "BITOR" 30; kw "LSHIFT" 31; kw "RSHIFT" 32; kw "PLUS" 33;
  kw "MINUS" 34; kw "DIVIDE" 35; kw "TIMES" 36; kw "STAR" 37; kw "SLASH" 38; kw "REM " 39;
  kw "CONCAT" 40; kw "UMINUS" 41; kw "UPLUS" 42; kw "BITNOT" 43; kw "SHOW" 44; kw "DATABASES" 45;
  kw "MNODES" 46; kw "DNODES" 47; kw "USERS" 48; kw "MODULES" 49; kw "QUERIES" 50; kw "CONNECTIONS" 51;
  kw "STREAMS" 52; kw "CONFIGS" 53; kw "SCORES" 54; kw "GRANTS" 55; kw "DOT" 56; kw "TABLES" 57;
  kw "STABLES" 58; kw "VGROUPS" 59; kw "DROP" 60; kw "TABLE" 61; kw "DATABASE" 62; kw "USER" 63;
  kw "USE" 64; kw "DESCRIBE" 65; kw "ALTER" 66; kw "PASS" 67; kw "PRIVILEGE" 68; kw "DNODE" 69;
  kw "IP" 70; kw "LOCAL" 71; kw "IF" 72; kw "EXISTS" 73; kw "CREATE" 74; kw "KEEP" 75;
  kw "REPLICA" 77; kw "DAYS" 78; kw "ROWS" 79; kw "CACHE" 76; kw "ABLOCKS" 80; kw "TBLOCKS" 81;
  kw "CTIME" 82; kw "CLOG" 83; kw "COMP" 84; kw "PRECISION" 85; kw "LP" 86; kw "RP" 87; kw "TAGS" 88;
  kw "USING" 89; kw "AS" 90; kw "COMMA" 91; kw "NULL" 92; kw "SELECT" 93; kw "FROM" 94;
  kw "VARIABLE" 95; kw "INTERVAL" 96; kw "FILL" 97; kw "SLIDING" 98; kw "ORDER" 99; kw "BY" 100;
  kw "ASC" 101; kw "DESC" 102; kw "GROUP" 103; kw "HAVING" 104; kw "LIMIT" 105; kw "OFFSET" 106;
  kw "SLIMIT" 107; kw "SOFFSET" 108; kw "WHERE" 109; kw "NOW" 110; kw "INSERT" 111; kw "INTO" 112;
  kw "VALUES" 113; kw "RESET" 114; kw "QUERY" 115; kw "ADD" 116; kw "COLUMN" 117; kw "TAG" 118;
  kw "CHANGE" 119; kw "SET" 120; kw "KILL" 121; kw "CONNECTION" 122; kw "COLON" 123; kw "STREAM" 124;
  kw "ABORT" 128; kw "AFTER" 129; kw "ATTACH" 130; kw "BEFORE" 131; kw "BEGIN" 132; kw "CASCADE" 133;
  kw "CLUSTER" 134; kw "CONFLICT" 135; kw "COPY" 136; kw "DEFERRED" 137; kw "DELIMITERS" 138;
  kw "DETACH" 139; kw "EACH" 140; kw "END" 141; kw "EXPLAIN" 142; kw "FAIL" 143; kw "FOR" 144;
  kw "IGNORE" 145; kw "IMMEDIATE" 146; kw "INITIALLY" 147; kw "INSTEAD" 148; kw "MATCH" 149; kw "KEY" 150;
  kw "OF" 151; kw "RAISE" 152; kw "REPLACE" 153; kw "RESTRICT" 154; kw "ROW" 155; kw "STATEMENT" 156;
  kw "TRIGGER" 157; kw "VIEW" 158; kw "ALL" 159; kw "COUNT" 160; kw "SUM" 161; kw "AVG" 162;
  kw "MIN" 163; kw "MAX" 164; kw "FIRST" 165; kw "LAST" 166; kw "TOP" 167; kw "BOTTOM" 168;
  kw "STDDEV" 169; kw "PERCENTILE" 170; kw "APERCENTILE" 171; kw "LEASTSQUARES" 172; kw "HISTOGRAM" 173;
  kw "DIFF" 174; kw "SPREAD" 175; kw "WAVG" 176; kw "INTERP" 177; kw "LAST_ROW" 178; kw "SEMI" 179;
  kw "NONE" 180; kw "PREV" 181; kw "LINEAR" 182; kw "IMPORT" 183; kw "METRIC" 184; kw "TBNAME" 185;
  kw "JOIN" 186; kw "METRICS" 187; kw "STABLE" 188; kw "GATE" 125; kw "DELETE" 127; kw "UPDATE" 126].

(** The table is filled at the first call; a node has the address of an entry of
    [keywordTable], here its number.  [malloc] is where the node of an entry comes to be. *)
Section Tokens.
Context (malloc : nat -> Z).

Fixpoint add_keywords (i : nat) (kws : list (list Z * Z)) (o : SHashObj) : res SHashObj :=
  match kws with
  | [] => Ret o
  | (name, _) :: kws =>
    let! '(_, o) := taosAddStrHash taosHashStringStep1 o name (le_bytes 8 (Z.of_nat i)) (malloc i) in add_keywords (S i) kws o
  end.
Definition KeywordHashTable : res SHashObj :=
  match taosInitStrHash true true (Z.of_nat (length keywordTable)) 8 with Some o => add_keywords 0 keywordTable o | None => Undef end.

Definition upper (c : Z) : Z := if (97 <=? c) && (c <=? 122) then Z.land c 223 else c.

(** [n] characters go into 128, of which the last is meant to stay 0. *)
Fixpoint copy_key (n : nat) (j : Z) (z key : list Z) : res (list Z) :=
  match n with
  | O => Ret key
  | S n => let! c := rd1 z j in let! key := wr key j [upper c] in copy_key n (j + 1) z key
  end.
Definition tSQLKeywordCode (z : list Z) (n : Z) : res Z :=
  let! o := KeywordHashTable in
  let! key := copy_key (Z.to_nat n) 0 z (replicate 128 0) in
  let! key := c_string key in
  let! p := taosGetStrHashData taosHashStringStep1 o key in
  if p =? 0 then Ret TK_ID
  else
    let! node := load (heap (hashTab o)) p in
    match keywordTable !! Z.to_nat (le_val (data node)) with Some (_, type) => Ret type | None => Undef end.

(** ** Characters *)
Definition isIdChar_table : list Z := [
  0; 0; 0; 0; 0; 0; 0; 0; 0; 0; 0; 0; 0; 0; 0; 0;
  0; 0; 0; 0; 0; 0; 0; 0; 0; 0; 0; 0; 0; 0; 0; 0;
  0; 0; 0; 0; 0; 0; 0; 0; 0; 0; 0; 0; 0; 0; 0; 0;
  1; 1; 1; 1; 1; 1; 1; 1; 1; 1; 0; 0; 0; 0; 0; 0;
  0; 1; 1; 1; 1; 1; 1; 1; 1; 1; 1; 1; 1; 1; 1; 1;
  1; 1; 1; 1; 1; 1; 1; 1; 1; 1; 1; 0; 0; 0; 0; 1;
  0; 1; 1; 1; 1; 1; 1; 1; 1; 1; 1; 1; 1; 1; 1; 1;
  1; 1; 1; 1; 1; 1; 1; 1; 1; 1; 1; 0; 0; 0; 0; 0].
(** A character has a sign: from 128 on the index is negative. *)
Definition isIdChar (c : Z) : res bool := let! b := rd1 isIdChar_table (wraps 8 c) in Ret (negb (b =? 0)).
Definition ascii_id (c : Z) : res bool := if Z.land c 128 =? 0 then isIdChar c else Ret false.
Definition isdigit (c : Z) : bool := (48 <=? c) && (c <=? 57).
Definition isspace (c : Z) : bool := (c =? 32) || ((9 <=? c) && (c <=? 13)).
Definition unit (c : Z) : bool := existsb (Z.eqb c) (chars "asmhdnywASMHDNYW").
Definition lower (c : Z) : Z := if (65 <=? c) && (c <=? 90) then c + 32 else c.

(** [while (p(z\[i\])) i++] *)
Fixpoint skip (p : Z -> res bool) (fuel : nat) (z : list Z) (i : Z) : res Z :=
  match fuel with
  | O => NoFuel
  | S fuel => let! c := rd1 z i in let! b := p c in if b then skip p fuel z (i + 1) else Ret i
  end.
(** The same where the character before decides too, up to the end of the string. *)
Fixpoint skip_prev (p : Z -> Z -> bool) (fuel : nat) (z : list Z) (i : Z) : res Z :=
  match fuel with
  | O => NoFuel
  | S fuel =>
    let! c := rd1 z i in
    if c =? 0 then Ret i
    else let! b := rd1 z (i - 1) in if p b c then skip_prev p fuel z (i + 1) else Ret i
  end.
(** The end of a quoted string, and whether there is one. *)
Fixpoint string_end (fuel : nat) (z : list Z) (delim i : Z) : res (Z * bool) :=
  match fuel with
  | O => NoFuel
  | S fuel =>
    let! c := rd1 z i in
    if c =? 0 then Ret (i, false)
    else if c =? delim then let! d := rd1 z (i + 1) in if d =? delim then string_end fuel z delim (i + 2) else Ret (i, true)
    else string_end fuel z delim (i + 1)
  end.
(** The parts of a number behind dots, and how many there are with the first. *)
Fixpoint segments (fuel : nat) (z : list Z) (i seg : Z) : res (Z * Z) :=
  match fuel with
  | O => NoFuel
  | S fuel =>
    let! c := rd1 z i in
    if c =? 46 then
      let! d := rd1 z (i + 1) in
      if isdigit d then let! i := skip (fun c => Ret (isdigit c)) (S (length z)) z (i + 2) in segments fuel z i (seg + 1) else Ret (i, seg)
    else Ret (i, seg)
  end.

(** ** A token: its type and its length *)
Definition fuel_of (z : list Z) : nat := S (length z).

Definition number_token (z : list Z) : res (Z * Z) :=
  let! i := skip (fun c => Ret (isdigit c)) (fuel_of z) z 1 in
  let! c := rd1 z i in
  let! variable := (if unit c then let! d := rd1 z (i + 1) in let! b := isIdChar d in Ret (negb b) else Ret false) in
  if variable : bool then Ret (TK_VARIABLE, i + 1)
  else
    let! '(i, seg) := segments (fuel_of z) z i 1 in
    if seg =? 4 then Ret (TK_IP, i)
    else
      let! c := rd1 z i in
      let! exponent :=
        (if (c =? 101) || (c =? 69) then
           let! d := rd1 z (i + 1) in
           if isdigit d then Ret true
           else if (d =? 43) || (d =? 45) then let! e := rd1 z (i + 2) in Ret (isdigit e) else Ret false
         else Ret false) in
      if exponent : bool then let! i := skip (fun c => Ret (isdigit c)) (fuel_of z) z (i + 2) in Ret (TK_FLOAT, i)
      else Ret (if 1 <? seg then TK_FLOAT else TK_INTEGER, i).

Definition word_token (z : list Z) (c : Z) : res (Z * Z) :=
  if negb (Z.land c 128 =? 0) then Ret (TK_ILLEGAL, 0)
  else
    let! b := isIdChar c in
    if negb b then Ret (TK_ILLEGAL, 0)
    else let! i := skip ascii_id (fuel_of z) z 1 in let! type := tSQLKeywordCode z i in Ret (type, i).

Definition tSQLGetToken (z : list Z) : res (Z * Z) :=
  let! c := rd1 z 0 in
  if (c =? 32) || (c =? 9) || (c =? 10) || (c =? 12) || (c =? 13) then let! i := skip (fun c => Ret (isspace c)) (fuel_of z) z 1 in Ret (TK_SPACE, i)
  else if c =? 58 then Ret (TK_COLON, 1)
  else if c =? 45 then
    let! d := rd1 z 1 in
    if d =? 45 then let! i := skip (fun c => Ret (negb (c =? 0) && negb (c =? 10))) (fuel_of z) z 2 in Ret (TK_COMMENT, i) else Ret (TK_MINUS, 1)
  else if c =? 40 then Ret (TK_LP, 1)
  else if c =? 41 then Ret (TK_RP, 1)
  else if c =? 59 then Ret (TK_SEMI, 1)
  else if c =? 43 then Ret (TK_PLUS, 1)
  else if c =? 42 then Ret (TK_STAR, 1)
  else if c =? 47 then
    let! d := rd1 z 1 in
    if negb (d =? 42) then Ret (TK_SLASH, 1)
    else
      let! e := rd1 z 2 in
      if e =? 0 then Ret (TK_SLASH, 1)
      else
        let! i := skip_prev (fun b c => negb (c =? 47) || negb (b =? 42)) (fuel_of z) z 3 in
        let! c := rd1 z i in Ret (TK_COMMENT, if c =? 0 then i else i + 1)
  else if c =? 37 then Ret (TK_REM, 1)
  else if c =? 61 then let! d := rd1 z 1 in Ret (TK_EQ, if d =? 61 then 2 else 1)
  else if c =? 60 then
    let! d := rd1 z 1 in
    if d =? 61 then Ret (TK_LE, 2) else if d =? 62 then Ret (TK_NE, 2) else if d =? 60 then Ret (TK_LSHIFT, 2) else Ret (TK_LT, 1)
  else if c =? 62 then
    let! d := rd1 z 1 in if d =? 61 then Ret (TK_GE, 2) else if d =? 62 then Ret (TK_RSHIFT, 2) else Ret (TK_GT, 1)
  else if c =? 33 then let! d := rd1 z 1 in if negb (d =? 61) then Ret (TK_ILLEGAL, 2) else Ret (TK_NE, 2)
  else if c =? 124 then let! d := rd1 z 1 in if negb (d =? 124) then Ret (TK_BITOR, 1) else Ret (TK_CONCAT, 2)
  else if c =? 44 then Ret (TK_COMMA, 1)
  else if c =? 38 then Ret (TK_BITAND, 1)
  else if c =? 126 then Ret (TK_BITNOT, 1)
  else if (c =? 39) || (c =? 34) then
    let! '(i, strEnd) := string_end (fuel_of z) z c 1 in
    if strEnd : bool then Ret (TK_STRING, i + 1) else Ret (TK_ILLEGAL, 0)
  else if c =? 46 then Ret (TK_DOT, 1)
  else if isdigit c then number_token z
  else if c =? 91 then let! i := skip_prev (fun b _ => negb (b =? 93)) (fuel_of z) z 1 in Ret (TK_ID, i)
  else if existsb (Z.eqb c) (chars "TtFf") then
    let! i := skip ascii_id (fuel_of z) z 1 in
    let word n := map lower (take n z) in
    if ((i =? 4) && bool_decide (word 4%nat = chars "true")) || ((i =? 5) && bool_decide (word 5%nat = chars "false")) then Ret (TK_BOOL, i)
    else word_token z c
  else word_token z c.

(** ** Parsing *)
Section Parser.
Context {P : Type} (Parse : P -> Z -> list Z -> P * bool).

(** The state of the parser, and [validSql]. *)
Fixpoint parse_loop (fuel : nat) (z : list Z) (p : P) : res (P * bool) :=
  match fuel with
  | O => NoFuel
  | S fuel =>
    let! c := rd1 z 0 in
    if c =? 0 then Ret (Parse p 0 [])
    else
      let! '(type, n) := tSQLGetToken z in
      if (type =? TK_SPACE) || (type =? TK_COMMENT) then parse_loop fuel (drop (Z.to_nat n) z) p
      else
        if type =? TK_SEMI then let! t := rd z 0 n in Ret (Parse p 0 t)
        else if type =? TK_ILLEGAL then Ret (p, false)
        else
          let! t := rd z 0 n in
          let '(p, validSql) := Parse p type t in
          if validSql : bool then parse_loop fuel (drop (Z.to_nat n) z) p else Ret (p, false)
  end.
Definition tSQLParse (z : list Z) (p : P) : res (P * bool) := parse_loop (fuel_of z) z p.
End Parser.
End Tokens.

(** ** The grammar of tokens *)
Definition digits (l : list Z) : Prop := l <> [] /\ Forall (fun c => isdigit c = true) l.
(** [n] parts with dots between them. *)
Inductive numeral : Z -> list Z -> Prop :=
| num_one d : digits d -> numeral 1 d
| num_dot n l d : numeral n l -> digits d -> numeral (n + 1) (l ++ 46 :: d).
(** What is between two quotes. *)
Inductive quoted (q : Z) : list Z -> Prop :=
| q_end : quoted q []
| q_char c l : c <> q -> quoted q l -> quoted q (c :: l)
| q_twice l : quoted q l -> quoted q (q :: q :: l).
Definition operators : list (list Z * Z) := [
  kw ":" TK_COLON; kw "-" TK_MINUS; kw "(" TK_LP; kw ")" TK_RP; kw ";" TK_SEMI; kw "+" TK_PLUS; kw "*" TK_STAR; kw "/" TK_SLASH; kw "%" TK_REM;
  kw "=" TK_EQ; kw "==" TK_EQ; kw "<=" TK_LE; kw "<>" TK_NE; kw "<<" TK_LSHIFT; kw "<" TK_LT; kw ">=" TK_GE; kw ">>" TK_RSHIFT; kw ">" TK_GT; kw "!=" TK_NE;
  kw "|" TK_BITOR; kw "||" TK_CONCAT; kw "," TK_COMMA; kw "&" TK_BITAND; kw "~" TK_BITNOT; kw "." TK_DOT].
Definition id_char (c : Z) : bool := match ascii_id c with Ret b => b | _ => false end.
Definition keyword_code (l : list Z) : Z := match list_find (fun k => k.1 = l) keywordTable with Some (_, (_, type)) => type | None => TK_ID end.
(** The first character, 0 at the end. *)
Definition head0 (s : list Z) : Z := match s with c :: _ => c | [] => 0 end.
(** All of [l] passes, and what is behind does not begin with one more. *)
Definition run (p : Z -> bool) (l s : list Z) : Prop := Forall (fun c => p c = true) l /\ p (head0 s) = false.
(** [w] is in [l] at the end only, and there unless [l] is all there is. *)
Definition closed_by (w l s : list Z) : Prop := (forall a b, l = a ++ w ++ b -> b = []) /\ (s <> [] -> exists a, l = a ++ w).

(** [lexeme type l s]: [l] is a token of this type where [s] is behind it. *)
Inductive lexeme : Z -> list Z -> list Z -> Prop :=
| lx_space l s : l <> [] -> run isspace l s -> lexeme TK_SPACE l s
| lx_line l s : run (fun c => negb (c =? 0) && negb (c =? 10)) l s -> lexeme TK_COMMENT (chars "--" ++ l) s
| lx_block c l s : closed_by (chars "*/") (c :: l) s -> lexeme TK_COMMENT (chars "/*" ++ c :: l) s
| lx_operator type l s : (l, type) ∈ operators -> (l ++ [head0 s]) ∉ map fst operators -> lexeme type l s
| lx_string q l s : q = 39 \/ q = 34 -> quoted q l -> head0 s <> q -> lexeme TK_STRING (q :: l ++ [q]) s
| lx_integer l s : digits l -> isdigit (head0 s) = false -> lexeme TK_INTEGER l s
| lx_variable l u s : digits l -> unit u = true -> id_char (head0 s) = false -> lexeme TK_VARIABLE (l ++ [u]) s
| lx_ip l s : numeral 4 l -> isdigit (head0 s) = false -> lexeme TK_IP l s
| lx_float n l s : 1 < n -> n <> 4 -> numeral n l -> isdigit (head0 s) = false -> lexeme TK_FLOAT l s
| lx_exponent n l e sign d s : n <> 4 -> numeral n l -> e = 101 \/ e = 69 -> sign = [] \/ sign = [43] \/ sign = [45] -> digits d ->
    isdigit (head0 s) = false -> lexeme TK_FLOAT (l ++ e :: sign ++ d) s
| lx_bracket l s : closed_by (chars "]") (91 :: l) s -> lexeme TK_ID (91 :: l) s
| lx_bool l s : map lower l = chars "true" \/ map lower l = chars "false" -> run id_char l s -> lexeme TK_BOOL l s
| lx_word c l s : isdigit c = false -> map lower (c :: l) ∉ [chars "true"; chars "false"] -> run id_char (c :: l) s ->
    lexeme (keyword_code (map upper (c :: l))) (c :: l) s.

(** Where no token begins. *)
Inductive unlexed : list Z -> Prop :=
| un_bang s : head0 s <> 61 -> unlexed (33 :: s)
| un_quote q s : q = 39 \/ q = 34 -> (forall l r, s = l ++ q :: r -> quoted q l -> head0 r = q) -> unlexed (q :: s)
| un_char c s : id_char c = false -> c ∉ [32; 9; 10; 12; 13; 33; 34; 39; 91] -> c ∉ map (fun k => head0 k.1) operators -> unlexed (c :: s).

(** What the parser is given for a string, from a state on, and what comes of it. *)
Section Grammar.
Context {P : Type} (Parse : P -> Z -> list Z -> P * bool).
Inductive parses : list Z -> P -> P * bool -> Prop :=
| ps_end p : parses [] p (Parse p 0 [])
| ps_skip type l s p r : type = TK_SPACE \/ type = TK_COMMENT -> lexeme type l s -> parses s p r -> parses (l ++ s) p r
| ps_semi l s p : lexeme TK_SEMI l s -> parses (l ++ s) p (Parse p 0 l)
| ps_illegal s p : unlexed s -> parses s p (p, false)
| ps_token type l s p p' r : type ∉ [TK_SPACE; TK_COMMENT; TK_SEMI] -> lexeme type l s -> Parse p type l = (p', true) -> parses s p' r -> parses (l ++ s) p r
| ps_reject type l s p p' : type ∉ [TK_SPACE; TK_COMMENT; TK_SEMI] -> lexeme type l s -> Parse p type l = (p', false) -> parses (l ++ s) p (p', false).
End Grammar.

(** ** The keywords in the table *)
Lemma keyword_names : NoDup (map fst keywordTable) /\ Forall (fun k => k.1 <> []) keywordTable.
Proof. split; [apply (bool_decide_unpack _); vm_compute; exact I|]. unfold keywordTable. repeat constructor; discriminate. Qed.

Section Keywords.
Context (malloc : nat -> Z) (Hm : forall i, malloc i <> 0) (Hinj : forall i j, malloc i = malloc j -> i = j).
Abbreviation hash := taosHashStringStep1.

Lemma add_keywords_ok kws : forall i o m, str_inv hash o m -> dataSize o = 8 -> NoDup (map fst kws) -> Forall (fun k : list Z * Z => k.1 <> []) kws ->
  (forall j, (i <= j)%nat -> heap (hashTab o) !! malloc j = None) ->
  exists o' m', add_keywords malloc i kws o = Ret o' /\ str_inv hash o' m' /\
    forall name, m' name = match list_find (fun k => k.1 = name) kws with
                           | Some (k, _) => (malloc (i + k)%nat, le_bytes 8 (Z.of_nat (i + k))) :: m name
                           | None => m name
                           end.
Proof using Hm Hinj.
  induction kws as [|[name type] kws IH]; intros i o m Hinv Hsz Hnd Hne Hfresh; cbn [add_keywords]; [by exists o, m|].
  cbn [map fst] in Hnd. apply NoDup_cons in Hnd as [Hni Hnd]. apply Forall_cons in Hne as [Hn0 Hne]. cbn [fst] in Hn0.
  assert (Hrd : rd (le_bytes 8 (Z.of_nat i)) 0 (dataSize o) = Ret (le_bytes 8 (Z.of_nat i))) by (rewrite Hsz; apply (rd_full (le_bytes 8 (Z.of_nat i)))).
  destruct (add_str hash step1_range o m name _ (malloc i) _ Hinv Hn0 Hrd (Hm i) (Hfresh i ltac:(lia))) as (o1 & Hadd & Hinv1 & Hsz1 & Hdat). rewrite Hadd. cbn [rbind].
  destruct (IH (S i) o1 _ Hinv1) as (o' & m' & Hrun & Hinv' & Hm'); [congruence|done|done| |].
  { intros j Hj. assert (E : (data <$> heap (hashTab o1)) !! malloc j = None).
    { rewrite Hdat, lookup_insert_ne by (intros E; apply Hinj in E; lia). by rewrite lookup_fmap, Hfresh by lia. }
    rewrite lookup_fmap in E. by destruct (heap (hashTab o1) !! malloc j). }
  exists o', m'. split; [done|]. split; [done|]. intros x. rewrite Hm'. cbn [list_find fst]. unfold set_stack. destruct (decide (name = x)) as [<-|Hx].
  - rewrite (proj2 (list_find_None _ _)).
    + rewrite decide_True by done. by rewrite Nat.add_0_r.
    + apply Forall_forall. intros [n2 t2] Hin E. cbn in E. subst n2. apply Hni. apply list_elem_of_fmap. by exists (name, t2).
  - destruct (list_find _ kws) as [[k [n2 t2]]|]; cbn [prod_map fmap option_fmap option_map]; rewrite decide_False by congruence; [|done].
    cbn [fst]. replace (i + S k)%nat with (S i + k)%nat by lia. done.
Qed.

Lemma keyword_table_ok : exists o m, KeywordHashTable malloc = Ret o /\ str_inv hash o m /\
  forall name, m name = match list_find (fun k => k.1 = name) keywordTable with Some (k, _) => [(malloc k, le_bytes 8 (Z.of_nat k))] | None => [] end.
Proof using Hm Hinj.
  unfold KeywordHashTable, taosInitStrHash. cbn [andb]. set (n := Z.of_nat (length keywordTable)). assert (Hn : 0 < n) by (unfold n; vm_compute; reflexivity).
  destruct (add_keywords_ok keywordTable 0 (mkStr (empty_table n) n 8) (fun _ => []) (init_str hash n 8 _ Hn eq_refl) eq_refl) as (o & m & Ho & Hinv & Hmm); try apply keyword_names.
  - intros j _. cbn. apply lookup_empty.
  - by exists o, m.
Qed.

Lemma upper_nonzero c : c <> 0 -> upper c <> 0.
Proof.
  unfold upper. destruct (Z.leb_spec 97 c), (Z.leb_spec c 122); cbn [andb]; try done. intros _.
  assert (Hall : forall x, 0 <= x < 26 -> Z.land (97 + x) 223 <> 0).
  { intros x Hx. pose proof (check_range (fun x => negb (Z.land (97 + x) 223 =? 0)) 26 ltac:(vm_compute; reflexivity) x Hx) as Hc. cbv beta in Hc. by destruct (Z.eqb_spec (Z.land (97 + x) 223) 0). }
  replace c with (97 + (c - 97)) by lia. apply Hall. lia.
Qed.

Lemma copy_key_ok s n : forall j key, (n + j <= length s)%nat -> (n + j <= length key)%nat ->
  copy_key n (Z.of_nat j) s key = Ret (take j key ++ map upper (take n (drop j s)) ++ drop (j + n) key).
Proof.
  induction n as [|n IH]; intros j key Hs Hk; cbn [copy_key].
  - rewrite take_0, Nat.add_0_r. cbn [map app]. by rewrite take_drop.
  - destruct (lookup_lt_is_Some_2 s j) as [c Hc]; [lia|]. rewrite (rd1_lookup _ (Z.of_nat j) c) by (try lia; by rewrite Nat2Z.id).
    cbn [rbind]. rewrite wr_one by lia. cbn [rbind]. rewrite Nat2Z.id. replace (Z.of_nat j + 1) with (Z.of_nat (S j)) by lia. rewrite IH by (rewrite ?length_insert; lia).
    f_equal. rewrite drop_insert_lt, (take_S_r _ j (upper c)) by (rewrite ?list_lookup_insert_eq; lia || done).
    rewrite take_insert_ge by lia. rewrite (drop_S s c j Hc), firstn_cons. cbn [map]. rewrite <- app_assoc. cbn [app]. do 4 f_equal. lia.
Qed.

Lemma keyword_code_ok l rest : Forall (fun c => c <> 0) l -> l <> [] -> (length l < 128)%nat ->
  tSQLKeywordCode malloc (l ++ rest) (Z.of_nat (length l)) = Ret (keyword_code (map upper l)).
Proof using Hm Hinj.
  intros Hs Hl Hn. set (n := length l) in *. destruct keyword_table_ok as (o & m & Ho & Hinv & Hmm). unfold tSQLKeywordCode. rewrite Ho. cbn [rbind]. rewrite Nat2Z.id.
  pose proof (copy_key_ok (l ++ rest) n 0 (replicate 128 0) ltac:(rewrite length_app; lia) ltac:(rewrite length_replicate; lia)) as Hc.
  change (Z.of_nat 0) with 0 in Hc. rewrite take_0, drop_0, (take_app_length l rest : take n _ = l) in Hc. rewrite Hc. cbn [rbind app Nat.add].
  set (key := map upper l). assert (Hlen : length key = n) by (unfold key; by rewrite length_map).
  assert (Hd : drop n (replicate 128 0) = 0 :: replicate (127 - n) 0) by (rewrite drop_replicate; by replace (128 - n)%nat with (S (127 - n)) by lia).
  rewrite Hd, c_string_of.
  2:{ intros Hin. unfold key in Hin. apply list_elem_of_fmap in Hin as (c & E & Hin). rewrite Forall_forall in Hs. apply (upper_nonzero c); [by apply Hs|done]. }
  cbn [rbind]. assert (Hne : key <> []) by (by destruct l).
  destruct (get_str hash step1_range o m key Hinv Hne) as [Hg Hd2]. rewrite Hg. cbn [rbind]. unfold keyword_code. rewrite Hmm in *.
  destruct (list_find _ keywordTable) as [[k [name type]]|] eqn:Ef; [|done]. rewrite (proj2 (Z.eqb_neq _ 0)) by apply Hm.
  apply Forall_cons in Hd2 as [[_ Hd2] _]. cbn [fst snd] in Hd2. unfold load. destruct (heap (hashTab o) !! malloc k) as [nd|]; [|done]. change (Some (data nd) = Some (le_bytes 8 (Z.of_nat k))) in Hd2. apply (inj Some) in Hd2. cbn [rbind]. rewrite Hd2.
  apply list_find_Some in Ef as (Hk & _ & _). rewrite le_val_bytes. pose proof (lookup_lt_Some _ _ _ Hk) as Hlt. assert (Hkl : (length keywordTable < 1000)%nat) by (vm_compute; lia).
  change (2 ^ (8 * Z.of_nat 8)) with (2 ^ 64). rewrite Z.mod_small, Nat2Z.id by lia. by rewrite Hk.
Qed.
End Keywords.

(** ** Scanning *)
Definition plain (s : list Z) : Prop := Forall (fun c => 0 < c < 128) s.

Lemma plain_head s : plain s -> 0 <= head0 s < 128.
Proof. intros Hs. destruct s as [|c s]; cbn; [lia|]. apply Forall_cons in Hs as [Hc _]. lia. Qed.
Lemma head0_zero s : plain s -> head0 s = 0 -> s = [].
Proof. intros Hs. destruct s as [|c s]; [done|]. apply Forall_cons in Hs as [Hc _]. cbn. lia. Qed.

(** A place of the string [s] behind [pre]. *)
Definition at_place (z : list Z) (i : Z) (pre s : list Z) : Prop := i = Z.of_nat (length pre) /\ exists rest, z = pre ++ s ++ 0 :: rest.

Lemma rd1_at z i pre s : at_place z i pre s -> rd1 z i = Ret (head0 s).
Proof. intros (-> & rest & ->). destruct s as [|c s]; cbn [app head0]; by apply rd1_app_mid. Qed.
Lemma at_app z i pre a s j : at_place z i pre (a ++ s) -> j = i + Z.of_nat (length a) -> at_place z j (pre ++ a) s.
Proof. intros (-> & rest & ->) ->. split; [rewrite length_app; lia|]. exists rest. by rewrite <- !app_assoc. Qed.
Lemma at_next z i pre c s : at_place z i pre (c :: s) -> at_place z (i + 1) (pre ++ [c]) s.
Proof. intros Hz. by apply (at_app z i pre [c] s). Qed.
Lemma at_fuel z i pre s : at_place z i pre s -> (length s < fuel_of z)%nat.
Proof. intros (_ & rest & ->). unfold fuel_of. rewrite !length_app. lia. Qed.
Lemma rd1_next z i pre c s : at_place z i pre (c :: s) -> rd1 z (i + 1) = Ret (head0 s).
Proof. intros Hz. by apply (rd1_at _ _ (pre ++ [c])), at_next. Qed.

Lemma skip_ok p pb z : (forall c, 0 <= c < 128 -> p c = Ret (pb c)) -> pb 0 = false ->
  forall s fuel i pre, plain s -> (length s < fuel)%nat -> at_place z i pre s ->
  exists a b, s = a ++ b /\ run pb a b /\ skip p fuel z i = Ret (i + Z.of_nat (length a)).
Proof.
  intros Hp H0. induction s as [|c s IH]; intros [|fuel] i pre Hs Hf Hz; try (cbn in Hf; lia); cbn [skip]; rewrite (rd1_at _ _ _ _ Hz); cbn [rbind head0];
    rewrite Hp by (apply (plain_head _ Hs)); cbn [rbind].
  - rewrite H0. exists [], []. repeat split; [constructor|done|]. f_equal. cbn. lia.
  - apply Forall_cons in Hs as [Hc Hs]. destruct (pb c) eqn:Eb.
    + destruct (IH fuel (i + 1) _ Hs ltac:(cbn in Hf; lia) (at_next _ _ _ _ _ Hz)) as (a & b & -> & [Ha Hb] & Hr). exists (c :: a), b.
      split; [done|]. split; [split; [by constructor|done]|]. rewrite Hr. f_equal. cbn [length]. lia.
    + exists [], (c :: s). repeat split; [constructor|done|]. f_equal. cbn. lia.
Qed.

(** Every two neighbours pass, and the next two do not unless the string ends. *)
Definition run2 (p : Z -> Z -> bool) (l s : list Z) : Prop :=
  (forall u x y v, l = u ++ x :: y :: v -> p x y = true) /\ (s <> [] -> forall u x, l = u ++ [x] -> p x (head0 s) = false).

Lemma skip_prev_ok p z : forall s fuel i pre x, plain s -> (length s < fuel)%nat -> at_place z i (pre ++ [x]) s ->
  exists a b, s = a ++ b /\ run2 p (x :: a) b /\ skip_prev p fuel z i = Ret (i + Z.of_nat (length a)).
Proof.
  assert (H1 : forall (x : Z) u y w v, [x] = u ++ y :: w :: v -> False) by (intros ? [|? [|]] ? ? ? E; discriminate E).
  induction s as [|c s IH]; intros [|fuel] i pre x Hs Hf Hz; try (cbn in Hf; lia); cbn [skip_prev]; rewrite (rd1_at _ _ _ _ Hz); cbn [rbind head0].
  - exists [], []. split; [done|]. split; [split; [intros u y w v E; by apply H1 in E|done]|]. cbn. f_equal. lia.
  - apply Forall_cons in Hs as [Hc Hs]. rewrite (proj2 (Z.eqb_neq c 0)) by lia.
    assert (Hx : rd1 z (i - 1) = Ret x) by (destruct Hz as (-> & rest & ->); rewrite <- app_assoc; apply rd1_app_mid; rewrite length_app; cbn; lia).
    rewrite Hx. cbn [rbind]. destruct (p x c) eqn:Ep.
    + destruct (IH fuel (i + 1) (pre ++ [x]) c Hs ltac:(cbn in Hf; lia) (at_next _ _ _ _ _ Hz)) as (a & b & -> & [Ha Hb] & Hr). exists (c :: a), b.
      split; [done|]. split; [split|].
      * intros [|u0 u] y w v E; cbn [app] in E; [injection E as <- <- _; done|injection E as _ E; by apply (Ha u y w v)].
      * intros Hne [|u0 u] y E; [discriminate E|]. injection E as _ E. by apply (Hb Hne u).
      * rewrite Hr. f_equal. cbn [length]. lia.
    + exists [], (c :: s). split; [done|]. split; [split; [intros u y w v E; by apply H1 in E|]|cbn; f_equal; lia].
      intros _ [|? [|]] y E; try discriminate E. by injection E as <-.
Qed.

Lemma string_end_ok q z : 0 < q -> forall fuel s i pre, plain s -> (length s < fuel)%nat -> at_place z i pre s ->
  (exists l r, s = l ++ q :: r /\ quoted q l /\ head0 r <> q /\ string_end fuel z q i = Ret (i + Z.of_nat (length l), true)) \/
  (exists j, string_end fuel z q i = Ret (j, false)) /\ forall l r, s = l ++ q :: r -> quoted q l -> head0 r = q.
Proof.
  intros Hq. induction fuel as [|fuel IH]; intros s i pre Hs Hf Hz; [lia|]. cbn [string_end]. rewrite (rd1_at _ _ _ _ Hz). cbn [rbind].
  destruct s as [|c s]; cbn [head0].
  - right. split; [by exists i|]. intros l r E. by destruct l.
  - apply Forall_cons in Hs as [Hc Hs]. rewrite (proj2 (Z.eqb_neq c 0)) by lia. destruct (Z.eqb_spec c q) as [->|Hcq].
    + rewrite (rd1_next _ _ _ _ _ Hz). cbn [rbind]. destruct (Z.eqb_spec (head0 s) q) as [Hd|Hd].
      * destruct s as [|d s]; cbn in Hd; [lia|]. subst d. apply Forall_cons in Hs as [_ Hs].
        destruct (IH s (i + 2) (pre ++ [q; q]) Hs ltac:(cbn in Hf; lia)) as [(l & r & -> & Hl & Hr & Hrun)|(Hj & Hno)].
        { by apply (at_app z i pre [q; q] s). }
        -- left. exists (q :: q :: l), r. split; [done|]. split; [by constructor|]. split; [done|]. rewrite Hrun. do 2 f_equal. cbn [length]. lia.
        -- right. split; [done|]. intros l r E Hl. inversion Hl as [|c l' Hc' Hl' E'|l' Hl' E']; subst.
           ++ cbn in E. by injection E as <-.
           ++ by injection E as E1 _.
           ++ injection E as E. by apply (Hno l' r).
      * left. exists [], s. split; [done|]. split; [constructor|]. split; [done|]. cbn. do 2 f_equal. lia.
    + destruct (IH s (i + 1) _ Hs ltac:(cbn in Hf; lia) (at_next _ _ _ _ _ Hz)) as [(l & r & -> & Hl & Hr & Hrun)|(Hj & Hno)].
      * left. exists (c :: l), r. split; [done|]. split; [by constructor|]. split; [done|]. rewrite Hrun. do 2 f_equal. cbn [length]. lia.
      * right. split; [done|]. intros l r E Hl. inversion Hl as [|c' l' Hc' Hl' E'|l' Hl' E']; subst; injection E as E1 E; [congruence| |congruence].
        subst. by apply (Hno l' r).
Qed.

Lemma skip_pure pb z s i pre : pb 0 = false -> plain s -> at_place z i pre s ->
  exists a b, s = a ++ b /\ run pb a b /\ skip (fun c => Ret (pb c)) (fuel_of z) z i = Ret (i + Z.of_nat (length a)).
Proof. intros H0 Hs Hz. apply (skip_ok _ pb z) with (pre := pre); try done. by eapply at_fuel. Qed.

Lemma segments_ok z : forall fuel l s n, plain s -> (length s < fuel)%nat -> at_place z (Z.of_nat (length l)) l s -> numeral n l -> isdigit (head0 s) = false ->
  exists a b n', s = a ++ b /\ numeral n' (l ++ a) /\ 1 <= n' /\ isdigit (head0 b) = false /\ segments fuel z (Z.of_nat (length l)) n = Ret (Z.of_nat (length (l ++ a)), n').
Proof.
  assert (Hpos : forall n l, numeral n l -> 1 <= n) by (induction 1; lia).
  induction fuel as [|fuel IH]; intros l s n Hs Hf Hz Hl Hd; [lia|]. cbn [segments]. rewrite (rd1_at _ _ _ _ Hz). cbn [rbind].
  assert (Hstay : exists a b n', s = a ++ b /\ numeral n' (l ++ a) /\ 1 <= n' /\ isdigit (head0 b) = false /\ Ret (Z.of_nat (length l), n) = Ret (Z.of_nat (length (l ++ a)), n')).
  { exists [], s, n. rewrite app_nil_r. split; [done|]. split; [done|]. split; [by eapply Hpos|]. done. }
  destruct (Z.eqb_spec (head0 s) 46) as [E|E]; [|done]. destruct s as [|c s]; [done|]. cbn in E. subst c. rewrite (rd1_next _ _ _ _ _ Hz). cbn [rbind].
  destruct (isdigit (head0 s)) eqn:Ed; [|done]. apply Forall_cons in Hs as [_ Hs]. destruct s as [|d s]; [done|]. cbn in Ed. apply Forall_cons in Hs as [Hd2 Hs].
  assert (Hz2 : at_place z (Z.of_nat (length l) + 2) (l ++ [46; d]) s) by (by apply (at_app z (Z.of_nat (length l)) l [46; d] s)).
  destruct (skip_pure isdigit z s _ _ eq_refl Hs Hz2) as (a & b & -> & [Ha Hb] & Hr). unfold fuel_of in Hr. rewrite Hr. cbn [rbind].
  apply Forall_app in Hs as [_ Hs]. replace (Z.of_nat (length l) + 2 + Z.of_nat (length a)) with (Z.of_nat (length (l ++ 46 :: d :: a))) by (rewrite length_app; cbn [length]; lia).
  destruct (IH (l ++ 46 :: d :: a) b (n + 1) Hs) as (a' & b' & n' & -> & Hn' & Hpos' & Hb' & Hrun).
  - cbn [length] in Hf. rewrite length_app in Hf. lia.
  - apply (at_app z (Z.of_nat (length l)) l (46 :: d :: a) b); [done|]. rewrite length_app. lia.
  - constructor; [done|]. split; [done|]. by constructor.
  - done.
  - exists (46 :: d :: a ++ a'), b', n'. rewrite <- app_assoc in Hn', Hrun. cbn [app] in *. rewrite <- app_assoc. done.
Qed.

(** ** Tokens *)
Lemma id_table c : 0 <= c < 128 -> ascii_id c = Ret (id_char c) /\ isIdChar c = Ret (id_char c) /\ Z.land c 128 = 0.
Proof.
  intros Hc. pose proof (check_range (fun c => match ascii_id c, isIdChar c with Ret a, Ret b => Bool.eqb a b && (Z.land c 128 =? 0) | _, _ => false end) 128
    ltac:(vm_compute; reflexivity) c Hc) as H. cbv beta in H. unfold id_char.
  destruct (ascii_id c) as [a| | |], (isIdChar c) as [b| | |]; try done. apply andb_true_iff in H as [Ha%Bool.eqb_prop Hb%Z.eqb_eq]. by subst.
Qed.

(** No run of 128 characters of words. *)
Definition words_ok (s : list Z) : Prop := forall a l b, s = a ++ l ++ b -> Forall (fun c => id_char c = true) l -> (length l <= 127)%nat.

Lemma words_ok_app a s : words_ok (a ++ s) -> words_ok s.
Proof. intros Hw a' l b -> Hl. apply (Hw (a ++ a') l b); [by rewrite <- app_assoc|done]. Qed.

Ltac not_operator := let H := fresh in let o := eval vm_compute in (map fst operators) in
  intros H; change (map fst operators) with o in H; cbn [app] in H;
  repeat (apply elem_of_cons in H as [H|H]; [first [discriminate H | injection H as H; congruence | injection H as H; lia]|]); by apply elem_of_nil in H.
Ltac is_operator := apply (bool_decide_unpack _); vm_compute; exact I.

Section Found.
Context (malloc : nat -> Z) (Hm : forall i, malloc i <> 0) (Hinj : forall i j, malloc i = malloc j -> i = j).

(** What the next token of the string [s], which [z] holds, must be. *)
Definition next_token (s : list Z) (r : res (Z * Z)) : Prop :=
  (exists type l b, s = l ++ b /\ l <> [] /\ lexeme type l b /\ r = Ret (type, Z.of_nat (length l))) \/
  (exists n, r = Ret (TK_ILLEGAL, n)) /\ unlexed s.

Lemma found type l b s r n : s = l ++ b -> l <> [] -> lexeme type l b -> n = Z.of_nat (length l) -> r = Ret (type, n) -> next_token s r.
Proof. intros -> Hl Hx -> ->. left. by exists type, l, b. Qed.

Lemma operator_found c s type : ([c], type) ∈ operators -> ([c; head0 s]) ∉ map fst operators -> next_token (c :: s) (Ret (type, 1)).
Proof. intros Hin Hno. by eapply (found type [c] s); [..|apply lx_operator|reflexivity|reflexivity]. Qed.
Lemma operator2_found c d s type : ([c; d], type) ∈ operators -> ([c; d; head0 s]) ∉ map fst operators -> next_token (c :: d :: s) (Ret (type, 2)).
Proof. intros Hin Hno. by eapply (found type [c; d] s); [..|apply lx_operator|reflexivity|reflexivity]. Qed.

Lemma word_run c s z : plain (c :: s) -> words_ok (c :: s) -> at_place z 0 [] (c :: s) -> id_char c = true ->
  exists a b, s = a ++ b /\ run id_char (c :: a) b /\ skip ascii_id (fuel_of z) z 1 = Ret (Z.of_nat (length (c :: a))) /\
    tSQLKeywordCode malloc z (Z.of_nat (length (c :: a))) = Ret (keyword_code (map upper (c :: a))).
Proof using Hm Hinj.
  intros Hs Hw Hz Hc. pose proof (at_next _ _ _ _ _ Hz) as Hz1. apply Forall_cons in Hs as [Hc0 Hs].
  destruct (skip_ok ascii_id id_char z (fun c Hc => proj1 (id_table c Hc)) eq_refl s (fuel_of z) _ _ Hs (at_fuel _ _ _ _ Hz1) Hz1) as (a & b & -> & [Ha Hb] & Hr). change (0 + 1) with 1 in Hr.
  exists a, b. split; [done|]. assert (Hrun : Forall (fun c => id_char c = true) (c :: a)) by by constructor. split; [by split|]. split; [rewrite Hr; f_equal; cbn [length]; lia|].
  destruct Hz as (_ & rest & ->). cbn [app]. rewrite <- app_assoc, (app_comm_cons a _ c). apply keyword_code_ok; [done|done| |done|].
  - apply Forall_app in Hs as [Hs _]. constructor; [lia|]. eapply Forall_impl; [exact Hs|]. cbn. lia.
  - pose proof (Hw [] (c :: a) b eq_refl Hrun). lia.
Qed.

Lemma word_found c s z : plain (c :: s) -> words_ok (c :: s) -> at_place z 0 [] (c :: s) -> isdigit c = false ->
  c ∉ [32; 9; 10; 12; 13; 33; 34; 39; 91] -> c ∉ map (fun k => head0 k.1) operators ->
  (forall a b, s = a ++ b -> run id_char (c :: a) b -> map lower (c :: a) ∉ [chars "true"; chars "false"]) ->
  next_token (c :: s) (word_token malloc z c).
Proof using Hm Hinj.
  intros Hs Hw Hz Hd H1 H2 Hb. pose proof Hs as [Hc _]%Forall_cons. destruct (id_table c ltac:(lia)) as (_ & Hid & Hl). unfold word_token. rewrite Hl, Hid. cbn [Z.eqb negb rbind].
  destruct (id_char c) eqn:Ec; cbn [negb].
  - destruct (word_run c s z Hs Hw Hz Ec) as (a & b & -> & Hrun & Hsk & Hk). rewrite Hsk. cbn [rbind]. rewrite Hk. cbn [rbind].
    eapply (found _ (c :: a) b); [done|done|apply lx_word; [done|by eapply Hb|done]|reflexivity|reflexivity].
  - right. split; [by eexists|]. by constructor.
Qed.

Lemma number_found c s z : plain (c :: s) -> at_place z 0 [] (c :: s) -> isdigit c = true -> next_token (c :: s) (number_token z).
Proof using Type.
  intros Hs Hz Hc. pose proof Hs as [Hc0 Hs0]%Forall_cons. unfold number_token. pose proof (at_next _ _ _ _ _ Hz) as Hz1. cbn [app] in Hz1.
  destruct (skip_pure isdigit z s _ _ eq_refl Hs0 Hz1) as (a & b & -> & [Ha Hb] & Hr). change (0 + 1) with 1 in Hr. rewrite Hr. cbn [rbind].
  assert (Hdig : digits (c :: a)) by (split; [done|by constructor]). apply Forall_app in Hs0 as [_ Hsb].
  assert (Hzb : at_place z (Z.of_nat (length (c :: a))) (c :: a) b) by (apply (at_app z 0 [] (c :: a) b); [done|cbn [length]; lia]).
  replace (1 + Z.of_nat (length a)) with (Z.of_nat (length (c :: a))) by (cbn [length]; lia). set (i := Z.of_nat (length (c :: a))) in *.
  rewrite (rd1_at _ _ _ _ Hzb). cbn [rbind].
  assert (Hvar : exists v, (if unit (head0 b) then let! d := rd1 z (i + 1) in let! b0 := isIdChar d in Ret (negb b0) else Ret false) = Ret v /\
    (v = true -> exists u b', b = u :: b' /\ unit u = true /\ id_char (head0 b') = false)).
  { destruct (unit (head0 b)) eqn:Eu; [|by exists false]. destruct b as [|u b']; [discriminate Eu|]. cbn [head0] in Eu. rewrite (rd1_next _ _ _ _ _ Hzb). cbn [rbind].
    apply Forall_cons in Hsb as [_ Hsb]. rewrite (proj1 (proj2 (id_table (head0 b') (plain_head _ Hsb)))). cbn [rbind]. eexists. split; [done|]. intros Hv%negb_true_iff. by exists u, b'. }
  destruct Hvar as (v & -> & Hv). cbn [rbind]. destruct v.
  { destruct (Hv eq_refl) as (u & b' & -> & Hu & Hid). eapply (found _ ((c :: a) ++ [u]) b'); [by rewrite <- app_assoc|done|by apply lx_variable| |reflexivity].
    unfold i. rewrite length_app. cbn [length]. lia. }
  destruct (segments_ok z (fuel_of z) (c :: a) b 1 Hsb (at_fuel _ _ _ _ Hzb) Hzb ltac:(by constructor) Hb) as (a' & b' & n & -> & Hn & Hpos & Hb' & Hseg).
  unfold i. rewrite Hseg. cbn [rbind]. apply Forall_app in Hsb as [_ Hsb].
  set (l := (c :: a) ++ a') in *. assert (Hzl : at_place z (Z.of_nat (length l)) l b').
  { apply (at_app z i (c :: a) a' b'); [done|]. unfold l, i. rewrite length_app. lia. }
  assert (Hsplit : c :: a ++ a' ++ b' = l ++ b') by (unfold l; by rewrite <- app_assoc). assert (Hne : l <> []) by done. rewrite Hsplit. clearbody l. clear Hv Hzb Hr Ha.
  destruct (Z.eqb_spec n 4) as [->|Hn4].
  { by eapply (found _ l b'); [..|apply lx_ip|reflexivity|reflexivity]. }
  rewrite (rd1_at _ _ _ _ Hzl). cbn [rbind].
  assert (Hexp : exists v, (if (head0 b' =? 101) || (head0 b' =? 69) then let! d := rd1 z (Z.of_nat (length l) + 1) in
      if isdigit d then Ret true else if (d =? 43) || (d =? 45) then let! e := rd1 z (Z.of_nat (length l) + 2) in Ret (isdigit e) else Ret false
      else Ret false) = Ret v /\
    (v = true -> exists e x b2, b' = e :: x :: b2 /\ (e = 101 \/ e = 69) /\ (isdigit x = true \/ (x = 43 \/ x = 45) /\ isdigit (head0 b2) = true))).
  { destruct ((head0 b' =? 101) || (head0 b' =? 69)) eqn:Ee; [|by exists false]. destruct b' as [|e b1]; [discriminate Ee|]. cbn [head0] in Ee.
    assert (He : e = 101 \/ e = 69) by (apply orb_true_iff in Ee as [Ee|Ee]; apply Z.eqb_eq in Ee; tauto).
    rewrite (rd1_next _ _ _ _ _ Hzl). cbn [rbind]. destruct (isdigit (head0 b1)) eqn:Ed.
    { exists true. split; [done|]. intros _. destruct b1 as [|x b2]; [discriminate Ed|]. exists e, x, b2. tauto. }
    destruct ((head0 b1 =? 43) || (head0 b1 =? 45)) eqn:Es; [|by exists false]. destruct b1 as [|x b2]; [discriminate Es|]. cbn [head0] in Es.
    assert (Hx : x = 43 \/ x = 45) by (apply orb_true_iff in Es as [Es|Es]; apply Z.eqb_eq in Es; tauto).
    pose proof (at_next _ _ _ _ _ Hzl) as Hz2. replace (Z.of_nat (length l) + 2) with (Z.of_nat (length l) + 1 + 1) by lia. rewrite (rd1_next _ _ _ _ _ Hz2). cbn [rbind].
    eexists. split; [done|]. intros Hd. exists e, x, b2. tauto. }
  destruct Hexp as (v & -> & Hv). cbn [rbind]. destruct v.
  - destruct (Hv eq_refl) as (e & x & b2 & -> & He & Hx). apply Forall_cons in Hsb as [_ Hsb]. apply Forall_cons in Hsb as [_ Hsb].
    assert (Hz2 : at_place z (Z.of_nat (length l) + 2) (l ++ [e; x]) b2) by (by apply (at_app z (Z.of_nat (length l)) l [e; x] b2)).
    destruct (skip_pure isdigit z b2 _ _ eq_refl Hsb Hz2) as (d & b3 & -> & [Hd Hb3] & Hr). rewrite Hr. cbn [rbind].
    assert (Hlast : exists sign ds, x :: d = sign ++ ds /\ (sign = [] \/ sign = [43] \/ sign = [45]) /\ digits ds).
    { destruct Hx as [Hx|[Hx Hh]].
      - exists [], (x :: d). split; [done|]. split; [by left|]. split; [done|by constructor].
      - exists [x], d. split; [done|]. split; [destruct Hx as [-> | ->]; tauto|]. split; [|done]. intros ->. cbn [app] in Hh. congruence. }
    destruct Hlast as (sign & ds & E & Hsign & Hds).
    eapply (found _ (l ++ e :: sign ++ ds) b3); [| |eapply (lx_exponent n); done| |reflexivity].
    + by rewrite <- E, <- app_assoc.
    + by destruct l.
    + rewrite <- E, length_app. cbn [length]. lia.
  - destruct (Z.ltb_spec 1 n).
    + by eapply (found _ l b'); [..|apply (lx_float n)|reflexivity|reflexivity].
    + assert (n = 1) as -> by lia. eapply (found _ l b'); [done|done|apply lx_integer; [|done]|reflexivity|reflexivity].
      inversion Hn as [d Hd|n0 l0 d Hl0 Hd Hn0]; [done|]. exfalso. assert (1 <= n0) by (clear - Hl0; induction Hl0; lia). lia.
Qed.

Lemma run_unique p c a b a' b' : a ++ b = a' ++ b' -> run p (c :: a) b -> run p (c :: a') b' -> a = a'.
Proof using Type.
  intros E [Ha Hb] [Ha' Hb']. apply Forall_cons in Ha as [_ Ha]. apply Forall_cons in Ha' as [_ Ha']. revert a' E Ha'.
  induction Ha as [|x a Hx Ha IH]; intros [|x' a'] E Ha'; [done| | |].
  - cbn [app] in E. subst b. apply Forall_cons in Ha' as [Hx' _]. cbn [head0] in Hb. congruence.
  - cbn [app] in E. subst b'. cbn [head0] in Hb'. congruence.
  - cbn [app] in E. injection E as <- E. apply Forall_cons in Ha' as [_ Ha']. f_equal. by apply IH.
Qed.

Lemma bool_first c a : map lower (c :: a) ∈ [chars "true"; chars "false"] -> existsb (Z.eqb c) (chars "TtFf") = true.
Proof using Type.
  intros Hin. assert (Hl : lower c = 116 \/ lower c = 102).
  { apply elem_of_cons in Hin as [E|Hin]; [injection E as E _; by left|]. apply list_elem_of_singleton in Hin. injection Hin as E _. by right. }
  unfold lower in Hl. assert (Hc : c = 84 \/ c = 116 \/ c = 70 \/ c = 102) by (destruct (_ && _) eqn:E in Hl; [|lia]; apply andb_true_iff in E as [?%Z.leb_le ?%Z.leb_le]; lia).
  by destruct Hc as [-> |[-> |[-> | ->]]].
Qed.

Lemma no_close u v l : run2 (fun b c => negb (c =? 47) || negb (b =? 42)) l v -> forall w, l <> u ++ 42 :: 47 :: w.
Proof using Type. intros [Hr _] w E. by specialize (Hr _ _ _ _ E). Qed.

Lemma block_found e s2 z : plain s2 -> 0 < e -> at_place z 3 [47; 42; e] s2 ->
  next_token (47 :: 42 :: e :: s2) (let! i := skip_prev (fun b c => negb (c =? 47) || negb (b =? 42)) (fuel_of z) z 3 in
    let! c := rd1 z i in Ret (TK_COMMENT, if c =? 0 then i else i + 1)).
Proof using Type.
  intros Hs He Hz. destruct (skip_prev_ok (fun b c => negb (c =? 47) || negb (b =? 42)) z s2 (fuel_of z) 3 [47; 42] e Hs (at_fuel _ _ _ _ Hz) Hz) as (a & b & -> & Hrun & Hr).
  rewrite Hr. cbn [rbind]. assert (Hzb : at_place z (3 + Z.of_nat (length a)) ([47; 42; e] ++ a) b) by (by apply (at_app z 3 [47; 42; e] a b)).
  rewrite (rd1_at _ _ _ _ Hzb). cbn [rbind]. apply Forall_app in Hs as [_ Hsb]. destruct b as [|y b]; cbn [head0].
  - eapply (found TK_COMMENT (chars "/*" ++ e :: a) []); [change (chars "/*") with [47; 42]; by rewrite !app_nil_r|done| | |reflexivity].
    + apply lx_block. split; [|done]. intros u v E. by apply (no_close u [] _ Hrun v) in E.
    + rewrite length_app. change (length (chars "/*")) with 2%nat. cbn [length Z.eqb]. lia.
  - apply Forall_cons in Hsb as [Hy _]. rewrite (proj2 (Z.eqb_neq y 0)) by lia.
    destruct (exists_last (l := e :: a)) as (u & x & Ex); [done|]. pose proof Hrun as [_ Hstop]. specialize (Hstop ltac:(done) _ _ Ex). cbn [head0] in Hstop.
    apply orb_false_iff in Hstop as [->%negb_false_iff%Z.eqb_eq ->%negb_false_iff%Z.eqb_eq].
    eapply (found TK_COMMENT (chars "/*" ++ e :: (a ++ [47])) b); [change (chars "/*") with [47; 42]; cbn [app]; by rewrite <- app_assoc|done| | |reflexivity].
    + apply lx_block. split.
      * intros u' v E. destruct v as [|v0 v] using rev_ind; [done|]. exfalso.
        rewrite app_comm_cons in E. change (u' ++ chars "*/" ++ v ++ [v0]) with (u' ++ [42; 47] ++ v ++ [v0]) in E. rewrite !app_assoc in E.
        apply app_inj_tail in E as [E _]. rewrite <- app_assoc in E. by apply (no_close u' _ _ Hrun v) in E.
      * intros _. exists u. rewrite app_comm_cons, Ex, <- app_assoc. done.
    + rewrite !length_app. change (length (chars "/*")) with 2%nat. cbn [length]. rewrite length_app. cbn [length]. lia.
Qed.

Lemma bracket_found s z : plain s -> at_place z 1 [91] s -> next_token (91 :: s) (let! i := skip_prev (fun b _ => negb (b =? 93)) (fuel_of z) z 1 in Ret (TK_ID, i)).
Proof using Type.
  intros Hs Hz. destruct (skip_prev_ok (fun b _ => negb (b =? 93)) z s (fuel_of z) 1 [] 91 Hs (at_fuel _ _ _ _ Hz) Hz) as (a & b & -> & [Hin Hstop] & Hr).
  rewrite Hr. cbn [rbind]. eapply (found TK_ID (91 :: a) b); [done|done|apply lx_bracket; split| |reflexivity].
  - intros u [|y v] E; [done|]. exfalso. by specialize (Hin u 93 y v E).
  - intros Hb. destruct (exists_last (l := 91 :: a)) as (u & x & Ex); [done|]. specialize (Hstop Hb _ _ Ex). apply negb_false_iff, Z.eqb_eq in Hstop. exists u. by rewrite Ex, Hstop.
  - cbn [length]. lia.
Qed.

Lemma quote_found q s z : q = 39 \/ q = 34 -> plain s -> at_place z 1 [q] s ->
  next_token (q :: s) (let! '(i, strEnd) := string_end (fuel_of z) z q 1 in if strEnd : bool then Ret (TK_STRING, i + 1) else Ret (TK_ILLEGAL, 0)).
Proof using Type.
  intros Hq Hs Hz. destruct (string_end_ok q z ltac:(lia) (fuel_of z) s 1 [q] Hs (at_fuel _ _ _ _ Hz) Hz) as [(l & r & -> & Hl & Hr & Hrun)|[[j Hrun] Hno]]; rewrite Hrun; cbn [rbind].
  - eapply (found TK_STRING (q :: l ++ [q]) r); [cbn; by rewrite <- app_assoc|done|by apply lx_string| |reflexivity]. cbn [length]. rewrite length_app. cbn [length]. lia.
  - right. split; [by eexists|]. by constructor.
Qed.

Lemma true_found c s z : plain (c :: s) -> words_ok (c :: s) -> at_place z 0 [] (c :: s) -> existsb (Z.eqb c) (chars "TtFf") = true ->
  next_token (c :: s) (let! i := skip ascii_id (fuel_of z) z 1 in
    let word n := map lower (take n z) in
    if ((i =? 4) && bool_decide (word 4%nat = chars "true")) || ((i =? 5) && bool_decide (word 5%nat = chars "false")) then Ret (TK_BOOL, i)
    else word_token malloc z c).
Proof using Hm Hinj.
  intros Hs Hw Hz Hc. assert (Hcases : c = 84 \/ c = 116 \/ c = 70 \/ c = 102).
  { apply existsb_exists in Hc as (x & Hx & ->%Z.eqb_eq). vm_compute in Hx. lia. }
  destruct (word_run c s z Hs Hw Hz) as (a & b & Es & Hrun & Hsk & _); [by destruct Hcases as [-> |[-> |[-> | ->]]]|]. rewrite Hsk. cbn [rbind].
  assert (Ht : take (length (c :: a)) z = c :: a).
  { destruct Hz as (_ & rest & ->). rewrite Es. cbn [app]. rewrite <- app_assoc, (app_comm_cons a _ c). apply take_app_length. }
  destruct ((_ && _) || (_ && _)) eqn:Eb.
  - eapply (found TK_BOOL (c :: a) b); [by rewrite Es|done|apply lx_bool; [|done]|reflexivity|reflexivity].
    apply orb_true_iff in Eb as [Eb|Eb]; apply andb_true_iff in Eb as [El%Z.eqb_eq Ew%bool_decide_eq_true];
      [replace 4%nat with (length (c :: a)) in Ew by lia; left|replace 5%nat with (length (c :: a)) in Ew by lia; right]; by rewrite Ht in Ew.
  - apply word_found; try done; try (by destruct Hcases as [-> |[-> |[-> | ->]]]).
    + destruct Hcases as [-> |[-> |[-> | ->]]]; apply (bool_decide_unpack _); vm_compute; exact I.
    + destruct Hcases as [-> |[-> |[-> | ->]]]; apply (bool_decide_unpack _); vm_compute; exact I.
    + intros a' b' Es' Hrun' Hin. rewrite Es in Es'. assert (a' = a) as -> by (by eapply eq_sym, run_unique).
      apply orb_false_iff in Eb as [E4 E5].
      apply elem_of_cons in Hin as [E|E%list_elem_of_singleton]; pose proof (f_equal length E) as El; rewrite length_map in El.
      * change (length (chars "true")) with 4%nat in El. rewrite El in E4. cbn [Z.of_nat Z.eqb andb] in E4. apply bool_decide_eq_false in E4. apply E4. by rewrite <- El, Ht.
      * change (length (chars "false")) with 5%nat in El. rewrite El in E5. cbn [Z.of_nat Z.eqb andb] in E5. apply bool_decide_eq_false in E5. apply E5. by rewrite <- El, Ht.
Qed.

(** Every string begins with a token that the grammar has, or with none. *)
Lemma get_token_ok c s z : plain (c :: s) -> words_ok (c :: s) -> at_place z 0 [] (c :: s) -> next_token (c :: s) (tSQLGetToken malloc z).
Proof using Hm Hinj.
  intros Hs Hw Hz. pose proof Hs as [Hc Hs0]%Forall_cons. pose proof (at_next _ _ _ _ _ Hz) as Hz1. change (0 + 1) with 1 in Hz1. cbn [app] in Hz1.
  pose proof (rd1_at _ _ _ _ Hz1) as H1. unfold tSQLGetToken. rewrite (rd1_at _ _ _ _ Hz). cbn [rbind head0].
  destruct (_ || (c =? 13)) eqn:Esp.
  { assert (Hsp : isspace c = true) by (unfold isspace; lia).
    destruct (skip_pure isspace z s _ _ eq_refl Hs0 Hz1) as (a & b & -> & [Ha Hb] & Hr). rewrite Hr. cbn [rbind].
    eapply (found TK_SPACE (c :: a) b); [done|done|apply lx_space; [done|split; [by constructor|done]]| |reflexivity]. cbn [length]. lia. }
  destruct (Z.eqb_spec c 58) as [->|N58]; [apply operator_found; [is_operator|not_operator]|].
  destruct (Z.eqb_spec c 45) as [->|N45].
  { rewrite H1. cbn [rbind]. destruct (Z.eqb_spec (head0 s) 45) as [E|E]; [|apply operator_found; [is_operator|not_operator]].
    destruct s as [|d s]; [done|]. cbn [head0] in E. subst d. apply Forall_cons in Hs0 as [_ Hs0].
    pose proof (at_next _ _ _ _ _ Hz1) as Hz2. change (1 + 1) with 2 in Hz2. cbn [app] in Hz2.
    destruct (skip_pure (fun c => negb (c =? 0) && negb (c =? 10)) z s _ _ eq_refl Hs0 Hz2) as (a & b & -> & Hrun & Hr). rewrite Hr. cbn [rbind].
    eapply (found TK_COMMENT (chars "--" ++ a) b); [done|done|by apply lx_line| |reflexivity]. rewrite length_app. change (length (chars "--")) with 2%nat. lia. }
  destruct (Z.eqb_spec c 40) as [->|N40]; [apply operator_found; [is_operator|not_operator]|].
  destruct (Z.eqb_spec c 41) as [->|N41]; [apply operator_found; [is_operator|not_operator]|].
  destruct (Z.eqb_spec c 59) as [->|N59]; [apply operator_found; [is_operator|not_operator]|].
  destruct (Z.eqb_spec c 43) as [->|N43]; [apply operator_found; [is_operator|not_operator]|].
  destruct (Z.eqb_spec c 42) as [->|N42]; [apply operator_found; [is_operator|not_operator]|].
  destruct (Z.eqb_spec c 47) as [->|N47].
  { rewrite H1. cbn [rbind]. destruct (Z.eqb_spec (head0 s) 42) as [E|E]; cbn [negb]; [|apply operator_found; [is_operator|not_operator]].
    destruct s as [|d s]; [done|]. cbn [head0] in E. subst d. apply Forall_cons in Hs0 as [_ Hs0].
    pose proof (at_next _ _ _ _ _ Hz1) as Hz2. change (1 + 1) with 2 in Hz2. cbn [app] in Hz2. rewrite (rd1_at _ _ _ _ Hz2). cbn [rbind].
    destruct (Z.eqb_spec (head0 s) 0) as [E|E]; [apply operator_found; [is_operator|cbn [head0]; not_operator]|].
    destruct s as [|e s]; [done|]. apply Forall_cons in Hs0 as [He Hs0]. apply block_found; [done|lia|]. by apply (at_next _ 2 [47; 42] e s). }
  destruct (Z.eqb_spec c 37) as [->|N37]; [apply operator_found; [is_operator|not_operator]|].
  assert (Hnext : forall d, head0 s = d -> d <> 0 -> exists s', s = d :: s') by (intros d E Hd; destruct s as [|x s']; cbn in E; [congruence|subst; by eexists]).
  destruct (Z.eqb_spec c 61) as [->|N61].
  { rewrite H1. cbn [rbind]. destruct (Z.eqb_spec (head0 s) 61) as [E|E]; [|apply operator_found; [is_operator|not_operator]].
    destruct (Hnext _ E ltac:(done)) as [s' ->]. apply operator2_found; [is_operator|not_operator]. }
  destruct (Z.eqb_spec c 60) as [->|N60].
  { rewrite H1. cbn [rbind]. destruct (Z.eqb_spec (head0 s) 61) as [E|E]; [destruct (Hnext _ E ltac:(done)) as [s' ->]; apply operator2_found; [is_operator|not_operator]|].
    destruct (Z.eqb_spec (head0 s) 62) as [E2|E2]; [destruct (Hnext _ E2 ltac:(done)) as [s' ->]; apply operator2_found; [is_operator|not_operator]|].
    destruct (Z.eqb_spec (head0 s) 60) as [E3|E3]; [destruct (Hnext _ E3 ltac:(done)) as [s' ->]; apply operator2_found; [is_operator|not_operator]|].
    apply operator_found; [is_operator|not_operator]. }
  destruct (Z.eqb_spec c 62) as [->|N62].
  { rewrite H1. cbn [rbind]. destruct (Z.eqb_spec (head0 s) 61) as [E|E]; [destruct (Hnext _ E ltac:(done)) as [s' ->]; apply operator2_found; [is_operator|not_operator]|].
    destruct (Z.eqb_spec (head0 s) 62) as [E2|E2]; [destruct (Hnext _ E2 ltac:(done)) as [s' ->]; apply operator2_found; [is_operator|not_operator]|].
    apply operator_found; [is_operator|not_operator]. }
  destruct (Z.eqb_spec c 33) as [->|N33].
  { rewrite H1. cbn [rbind]. destruct (Z.eqb_spec (head0 s) 61) as [E|E]; cbn [negb]; [destruct (Hnext _ E ltac:(done)) as [s' ->]; apply operator2_found; [is_operator|not_operator]|].
    right. split; [by eexists|]. by constructor. }
  destruct (Z.eqb_spec c 124) as [->|N124].
  { rewrite H1. cbn [rbind]. destruct (Z.eqb_spec (head0 s) 124) as [E|E]; cbn [negb]; [destruct (Hnext _ E ltac:(done)) as [s' ->]; apply operator2_found; [is_operator|not_operator]|].
    apply operator_found; [is_operator|not_operator]. }
  destruct (Z.eqb_spec c 44) as [->|N44]; [apply operator_found; [is_operator|not_operator]|].
  destruct (Z.eqb_spec c 38) as [->|N38]; [apply operator_found; [is_operator|not_operator]|].
  destruct (Z.eqb_spec c 126) as [->|N126]; [apply operator_found; [is_operator|not_operator]|].
  destruct ((c =? 39) || (c =? 34)) eqn:Eq; [apply quote_found; [lia|done|]|].
  { apply orb_true_iff in Eq as [->%Z.eqb_eq| ->%Z.eqb_eq]; done. }
  destruct (Z.eqb_spec c 46) as [->|N46]; [apply operator_found; [is_operator|not_operator]|].
  destruct (isdigit c) eqn:Ed; [by apply number_found|].
  destruct (Z.eqb_spec c 91) as [->|N91]; [by apply bracket_found|].
  assert (Hn1 : c ∉ [32; 9; 10; 12; 13; 33; 34; 39; 91]).
  { repeat (apply not_elem_of_cons; split; [lia|]). apply not_elem_of_nil. }
  assert (Hn2 : c ∉ map (fun k => head0 k.1) operators).
  { let o := eval vm_compute in (map (fun k => head0 k.1) operators) in change (map (fun k => head0 k.1) operators) with o.
    repeat (apply not_elem_of_cons; split; [lia|]). apply not_elem_of_nil. }
  destruct (existsb (Z.eqb c) (chars "TtFf")) eqn:Et; [by apply true_found|].
  apply word_found; try done. intros a b _ _ Hin%bool_first. congruence.
Qed.
End Found.

(** No token has the type of what is none. *)
Lemma legal type l s : lexeme type l s -> type <> TK_ILLEGAL.
Proof.
  destruct 1 as [| | |type l s Hin| | | | | | | | |c l s]; try discriminate.
  - assert (Hall : Forall (fun k => k.2 <> TK_ILLEGAL) operators) by (apply (bool_decide_unpack _); vm_compute; exact I).
    rewrite Forall_forall in Hall. by apply (Hall (l, type)).
  - unfold keyword_code. destruct (list_find _ keywordTable) as [[k [name type]]|] eqn:E; [|discriminate]. apply list_find_Some in E as (Hk & _ & _).
    assert (Hall : Forall (fun k => k.2 <> TK_ILLEGAL) keywordTable) by (apply (bool_decide_unpack _); vm_compute; exact I).
    rewrite Forall_forall in Hall. apply (Hall (name, type)). by eapply list_elem_of_lookup_2.
Qed.


(** ** A statement *)
Definition demo_sql : list Z := chars "select max(v), 1.5e3 from t where ts>=now-10s and b<>'x''y' -- end;".
Definition demo_malloc (i : nat) : Z := Z.of_nat i + 1.
Definition collect (p : list (Z * list Z)) (type : Z) (l : list Z) : list (Z * list Z) * bool := (p ++ [(type, l)], true).

Lemma short_words s : (length s <= 127)%nat -> words_ok s.
Proof. intros Hs a l b -> _. rewrite !length_app in Hs. lia. Qed.


(** Without the two conditions: a word of 128 characters runs over [key], and a character
    above 127 behind a number with a unit indexes [isIdChar] below its start. *)
Lemma long_word_overruns : tSQLGetToken demo_malloc (replicate 128 97 ++ [0]) = Undef.
Proof. vm_compute. reflexivity. Qed.
Lemma high_char_below_table : tSQLGetToken demo_malloc [49; 115; 200; 0] = Undef.
Proof. vm_compute. reflexivity. Qed.

(** The names of some token types are words of the language: the rest of the statement is
    dropped behind the word semi. *)
Lemma semi_ends : tSQLParse demo_malloc collect (chars "drop table semi ;x" ++ [0]) [] = Ret ([(60, chars "drop"); (61, chars "table"); (0, chars "semi")], true).
Proof. vm_compute. reflexivity. Qed.
(** A single exclamation mark is two characters long, the terminator included. *)
Lemma bang_is_two : tSQLGetToken demo_malloc [33; 0] = Ret (TK_ILLEGAL, 2).
Proof. vm_compute. reflexivity. Qed.
