(* ===== verification/SkipList.v ===== *)
(** * The skip list (src/src/util/src/tskiplist.c)

    Nodes in a heap, linked forwards and backwards at every level they reach.
    Keys are compared by a function the list holds; nodes are named by their
    addresses, 0 is [NULL] and [HEAD] is the head embedded in the list. *)
From S2P Require Import Prelude.

Definition MAX_SKIP_LIST_LEVEL : nat := 20.
Definition HEAD : Z := 1.
Definition POINTER_BYTES : Z := 8.
Definition SIZEOF_tSkipList : Z := 360.
Definition SIZEOF_tSkipListNode : Z := 48.

(** What the list asks of keys: the comparison, and the room a key takes behind
    its node. *)
Class SkipKey (K : Type) := { comparator : K -> K -> Z; key_room : K -> Z }.

Inductive RELATION :=
| TSDB_RELATION_LESS | TSDB_RELATION_LARGE | TSDB_RELATION_EQUAL | TSDB_RELATION_LESS_EQUAL
| TSDB_RELATION_LARGE_EQUAL | TSDB_RELATION_NOT_EQUAL | TSDB_RELATION_LIKE.
#[export] Instance RELATION_eq_dec : EqDecision RELATION.
Proof. solve_decision. Defined.

(** ** Random numbers *)
(** [doGetRand]: the product is taken in 32 bits. *)
Definition doGetRand (s n : Z) : Z * Z :=
  let val := 2147483647 in
  let p := u32 (s * 16807) in
  let s := u32 (Z.shiftr p 31 + Z.land p val) in
  let s := if val <? s then u32 (s - val) else s in
  (s, Z.rem s n).

Definition getRand (s : Z) : Z :=
  let seed := Z.land s 0x7FFFFFFF in
  if (seed =? 0) || (seed =? 2147483647) then 1 else seed.

(** The loop of [getSkipListNodeRandomHeight] from height [n] on. *)
Fixpoint height_loop (fuel : nat) (s n : Z) : res (Z * Z) :=
  match fuel with
  | O => NoFuel
  | S fuel' =>
      let '(s, r) := doGetRand s (Z.of_nat MAX_SKIP_LIST_LEVEL) in
      if (Z.rem r 4 =? 0) && (n <=? Z.of_nat MAX_SKIP_LIST_LEVEL) then height_loop fuel' s (n + 1) else Ret (s, n)
  end.

Definition getSkipListNodeRandomHeight (s : Z) : res (Z * Z) :=
  height_loop (MAX_SKIP_LIST_LEVEL + 1) s 1.

Section SkipList.
Context {K : Type} `{SkipKey K}.

(** ** The list *)
Record tSkipListNode := {
  nodeLevel : nat;
  pData : Z;
  key : K;
  pForward : list Z;
  pBackward : list Z }.

Record tSkipListState := {
  nTotalMemSize : Z;
  nLevelNodeCnt : list Z;
  queryCount : Z;
  nInsertObjs : Z;
  nTotalStepsForInsert : Z }.

(** [pHead]: the forward links of the head; it has no others.  [brk]: where the
    next node goes. *)
Record tSkipList := {
  pHead : list Z;
  heap : gmap Z tSkipListNode;
  brk : Z;
  nSize : Z;
  nMaxLevel : nat;
  nLevel : nat;
  rand : Z;
  state : tSkipListState }.
Implicit Types t : tSkipList.

Definition set_head (f : list Z) t :=
  {| pHead := f; heap := heap t; brk := brk t; nSize := nSize t; nMaxLevel := nMaxLevel t;
     nLevel := nLevel t; rand := rand t; state := state t |}.
Definition set_heap (h : gmap Z tSkipListNode) t :=
  {| pHead := pHead t; heap := h; brk := brk t; nSize := nSize t; nMaxLevel := nMaxLevel t;
     nLevel := nLevel t; rand := rand t; state := state t |}.
Definition set_size (n : Z) t :=
  {| pHead := pHead t; heap := heap t; brk := brk t; nSize := n; nMaxLevel := nMaxLevel t;
     nLevel := nLevel t; rand := rand t; state := state t |}.
Definition set_level (n : nat) (s : Z) t :=
  {| pHead := pHead t; heap := heap t; brk := brk t; nSize := nSize t; nMaxLevel := nMaxLevel t;
     nLevel := n; rand := s; state := state t |}.
Definition set_state (s : tSkipListState) t :=
  {| pHead := pHead t; heap := heap t; brk := brk t; nSize := nSize t; nMaxLevel := nMaxLevel t;
     nLevel := nLevel t; rand := rand t; state := s |}.

Definition node_at t (a : Z) : res tSkipListNode :=
  match heap t !! a with Some n => Ret n | None => Undef end.
Definition at_level (l : list Z) (i : nat) : res Z :=
  match l !! i with Some p => Ret p | None => Undef end.

Definition get_forward t (x : Z) (i : nat) : res Z :=
  if x =? HEAD then at_level (pHead t) i else let! n := node_at t x in at_level (pForward n) i.
(** The backward links of the head are [NULL]. *)
Definition get_backward t (x : Z) (i : nat) : res Z :=
  if x =? HEAD then Undef else let! n := node_at t x in at_level (pBackward n) i.

Definition set_links (f b : list Z) (n : tSkipListNode) : tSkipListNode :=
  {| nodeLevel := nodeLevel n; pData := pData n; key := key n; pForward := f; pBackward := b |}.

Definition set_forward (x : Z) (i : nat) (v : Z) t : res tSkipList :=
  if x =? HEAD then let! _ := at_level (pHead t) i in Ret (set_head (<[i := v]> (pHead t)) t)
  else let! n := node_at t x in
       let! _ := at_level (pForward n) i in
       Ret (set_heap (<[x := set_links (<[i := v]> (pForward n)) (pBackward n) n]> (heap t)) t).
Definition set_backward (x : Z) (i : nat) (v : Z) t : res tSkipList :=
  if x =? HEAD then Undef
  else let! n := node_at t x in
       let! _ := at_level (pBackward n) i in
       Ret (set_heap (<[x := set_links (pForward n) (<[i := v]> (pBackward n)) n]> (heap t)) t).

(** [malloc] succeeds; [time] is the clock. *)
Definition tSkipListCreate (nMaxLevel0 : nat) (time : Z) : tSkipList :=
  {| pHead := replicate MAX_SKIP_LIST_LEVEL 0; heap := ∅; brk := HEAD + 1; nSize := 0;
     nMaxLevel := nMaxLevel0; nLevel := 1; rand := getRand time;
     state := {| nTotalMemSize := SIZEOF_tSkipList; nLevelNodeCnt := replicate MAX_SKIP_LIST_LEVEL 0;
                 queryCount := 0; nInsertObjs := 0; nTotalStepsForInsert := 0 |} |}.

(** ** Statistics *)
Definition tSkipListDoRecordPutNode t : tSkipList :=
  let s := state t in
  set_state (if nInsertObjs s =? 1000 then
      {| nTotalMemSize := nTotalMemSize s; nLevelNodeCnt := nLevelNodeCnt s; queryCount := queryCount s;
         nInsertObjs := 1; nTotalStepsForInsert := 0 |}
    else
      {| nTotalMemSize := nTotalMemSize s; nLevelNodeCnt := nLevelNodeCnt s; queryCount := queryCount s;
         nInsertObjs := wrapu 16 (nInsertObjs s + 1); nTotalStepsForInsert := nTotalStepsForInsert s |}) t.

Definition count_steps (d : Z) t : tSkipList :=
  let s := state t in
  set_state {| nTotalMemSize := nTotalMemSize s; nLevelNodeCnt := nLevelNodeCnt s; queryCount := queryCount s;
               nInsertObjs := nInsertObjs s; nTotalStepsForInsert := wrapu 16 (nTotalStepsForInsert s + d) |} t.
Definition count_query t : tSkipList :=
  let s := state t in
  set_state {| nTotalMemSize := nTotalMemSize s; nLevelNodeCnt := nLevelNodeCnt s; queryCount := u64 (queryCount s + 1);
               nInsertObjs := nInsertObjs s; nTotalStepsForInsert := nTotalStepsForInsert s |} t.
Definition count_mem (d : Z) t : tSkipList :=
  let s := state t in
  set_state {| nTotalMemSize := u64 (nTotalMemSize s + d); nLevelNodeCnt := nLevelNodeCnt s; queryCount := queryCount s;
               nInsertObjs := nInsertObjs s; nTotalStepsForInsert := nTotalStepsForInsert s |} t.

(** [recordNodeEachLevel] and [removeNodeEachLevel], with [d] 1 and -1. *)
Definition count_levels (d : Z) (level : nat) t : res tSkipList :=
  let s := state t in
  if (length (nLevelNodeCnt s) <? level)%nat then Undef else
  Ret (set_state {| nTotalMemSize := nTotalMemSize s;
    nLevelNodeCnt := map (fun c => u64 (c + d)) (take level (nLevelNodeCnt s)) ++ drop level (nLevelNodeCnt s);
    queryCount := queryCount s; nInsertObjs := nInsertObjs s; nTotalStepsForInsert := nTotalStepsForInsert s |} t).

(** ** Searching *)
Definition walk_fuel t : nat := S (size (heap t)).

(** The inner loop of every search: along level [i] while keys are smaller.
    [ret] is the last comparison, if there was one. *)
Fixpoint walk (fuel : nat) t (pKey : K) (i : nat) (x ret : Z) : res (Z * Z) :=
  match fuel with
  | O => NoFuel
  | S fuel' =>
      let! p := get_forward t x i in
      if p =? 0 then Ret (x, ret) else
      let! n := node_at t p in
      let ret := comparator (key n) pKey in
      if ret <? 0 then walk fuel' t pKey i p ret else Ret (x, ret)
  end.

(** The outer loop of [tSkipListPut] and [tSkipListRemove]; [forward] has
    [MAX_SKIP_LIST_LEVEL] elements. *)
Fixpoint search_path (i : nat) t (pKey : K) (px : Z) (forward : list Z) : res (list Z) :=
  match i with
  | O => Ret forward
  | S i' =>
      let! '(px, _) := walk (walk_fuel t) t pKey i' px (-1) in
      let! _ := at_level forward i' in
      search_path i' t pKey px (<[i' := px]> forward)
  end.

Definition no_path : list Z := replicate MAX_SKIP_LIST_LEVEL 0.

(** ** Insertion *)
(** The node a [calloc] returned, filled in. *)
Definition new_node (n : tSkipListNode) t : tSkipList :=
  {| pHead := pHead t; heap := <[brk t := n]> (heap t); brk := brk t + 1; nSize := nSize t;
     nMaxLevel := nMaxLevel t; nLevel := nLevel t; rand := rand t; state := state t |}.

Definition getOneNodeSize (pKey : K) (level : nat) : Z :=
  SIZEOF_tSkipListNode + POINTER_BYTES * (2 * Z.of_nat level) + key_room pKey.

Definition tSkipListCreateNode (data : Z) (pKey : K) (level : nat) : tSkipListNode :=
  {| nodeLevel := level; pData := data; key := pKey; pForward := replicate level 0; pBackward := replicate level 0 |}.

Definition getSkipListNodeLevel t : res (nat * tSkipList) :=
  let! '(s, h) := getSkipListNodeRandomHeight (rand t) in
  let h := Z.to_nat h in
  Ret (if nSize t =? 0 then (1%nat, set_level 1 s t)
       else if (nLevel t <? h)%nat && (nLevel t <? nMaxLevel t)%nat then (S (nLevel t), set_level (S (nLevel t)) s t)
       else (h, set_level (nLevel t) s t)).

(** The loop of [tSkipListDoInsert], for the levels from [i] on. *)
Fixpoint insert_levels (count i : nat) (forward : list Z) (pNode : Z) t : res tSkipList :=
  match count with
  | O => Ret t
  | S count' =>
      let! x := at_level forward i in
      let! t :=
        if negb (x =? 0) then
          let! t := set_backward pNode i x t in
          let! f := get_forward t x i in
          let! t := if negb (f =? 0) then set_backward f i pNode t else Ret t in
          let! t := set_forward pNode i f t in
          set_forward x i pNode t
        else
          let! t := set_forward HEAD i pNode t in set_backward pNode i HEAD t in
      insert_levels count' (S i) forward pNode t
  end.

Definition tSkipListDoInsert (forward : list Z) (level : nat) (pNode : Z) t : res tSkipList :=
  insert_levels level 0 forward pNode t.

Definition tSkipListPut (data : Z) (pKey : K) (insertIdenticalKey : Z) t : res (Z * tSkipList) :=
  let t := tSkipListDoRecordPutNode t in
  let! forward := search_path (nLevel t) t pKey HEAD no_path in
  let t := count_steps (Z.of_nat (nLevel t)) t in
  let! x := at_level forward 0 in
  let! found :=
    if (insertIdenticalKey =? 0) && negb (x =? HEAD) then
      let! n := node_at t x in Ret (comparator (key n) pKey =? 0)
    else Ret false in
  if found : bool then Ret (x, t) else
  let! '(level, t) := getSkipListNodeLevel t in
  let! t := count_levels 1 level t in
  let pNode := brk t in
  let t := new_node (tSkipListCreateNode data pKey level) t in
  let! t := tSkipListDoInsert forward level pNode t in
  let t := set_size (u64 (nSize t + 1)) t in
  Ret (pNode, count_mem (getOneNodeSize pKey level) t).

(** ** Point queries *)
(** The loop of [tSkipListGetOne] over the levels below [i]. *)
Fixpoint get_levels (i : nat) t (pKey : K) (x ret : Z) : res Z :=
  match i with
  | O => Ret 0
  | S i' =>
      let! '(x, ret) := walk (walk_fuel t) t pKey i' x ret in
      if ret =? 0 then get_forward t x i' else get_levels i' t pKey x ret
  end.

Definition tSkipListGetOne (pKey : K) t : res (Z * tSkipList) :=
  let! a := get_levels (nLevel t) t pKey HEAD (-1) in Ret (a, count_query t).

(** The nodes from [p] on up to the end key, which is what the two loops of
    [tSkipListEndParQuery] count and copy. *)
Fixpoint end_loop (fuel : nat) t (pEndKey : K) (cond : RELATION) (p : Z) : res (list Z) :=
  match fuel with
  | O => NoFuel
  | S fuel' =>
      if p =? 0 then Ret [] else
      let! n := node_at t p in
      let ret := comparator (key n) pEndKey in
      if 0 <? ret then Ret [] else
      if (ret <? 0) || (match cond with TSDB_RELATION_LESS_EQUAL => true | _ => false end) then
        let! next := get_forward t p 0 in
        let! rest := end_loop fuel' t pEndKey cond next in Ret (p :: rest)
      else Ret []
  end.

Definition tSkipListEndParQuery (pStartNode : Z) (pEndKey : K) (cond : RELATION) t : res (list Z) :=
  end_loop (walk_fuel t) t pEndKey cond pStartNode.

(** Backwards along the bottom level from the node behind [p] while keys are equal;
    the result is the first node that stays. *)
Fixpoint back_loop (fuel : nat) t (pKey : K) (p : Z) : res Z :=
  match fuel with
  | O => NoFuel
  | S fuel' =>
      let! b := get_backward t p 0 in
      if b =? HEAD then Ret p else
      let! n := node_at t b in
      if comparator (key n) pKey =? 0 then back_loop fuel' t pKey b else Ret p
  end.

(** [tSkipListGets] goes on from [pPrev->pForward[0]]. *)
Definition tSkipListGets (pKey : K) t : res (list Z * tSkipList) :=
  let! '(pNode, t) := tSkipListGetOne pKey t in
  if pNode =? 0 then Ret ([], t) else
  let! first := back_loop (walk_fuel t) t pKey pNode in
  let! pPrev := get_backward t first 0 in
  let! start := get_forward t pPrev 0 in
  let! n := node_at t pNode in
  let! r := tSkipListEndParQuery start (key n) TSDB_RELATION_LESS_EQUAL t in
  Ret (r, t).

(** ** Range queries *)
Fixpoint par_levels (i : nat) t (pKey : K) (x ret : Z) : res (Z * Z) :=
  match i with
  | O => Ret (x, ret)
  | S i' => let! '(x, ret) := walk (walk_fuel t) t pKey i' x ret in par_levels i' t pKey x ret
  end.

Fixpoint skip_equal (fuel : nat) t (pKey : K) (p : Z) : res Z :=
  match fuel with
  | O => NoFuel
  | S fuel' =>
      if p =? 0 then Ret 0 else
      let! n := node_at t p in
      if comparator (key n) pKey =? 0 then let! p := get_forward t p 0 in skip_equal fuel' t pKey p else Ret p
  end.

Definition tSkipListParQuery (pKey : K) (cond : RELATION) t : res Z :=
  match cond with
  | TSDB_RELATION_LARGE_EQUAL =>
      let! '(x, ret) := par_levels (nLevel t) t pKey HEAD (-1) in
      let! p := get_forward t x 0 in
      if ret =? 0 then back_loop (walk_fuel t) t pKey p else Ret p
  | TSDB_RELATION_LARGE =>
      let! '(x, ret) := par_levels (nLevel t) t pKey HEAD (-1) in
      let! p := get_forward t x 0 in
      if 0 <? ret then Ret p else skip_equal (walk_fuel t) t pKey p
  | _ => Ret 0
  end.

Record tSKipListQueryCond := {
  lowerBnd : K;
  upperBnd : K;
  lowerBndRelOptr : RELATION;
  upperBndRelOptr : RELATION }.

Definition tSkipListRangeQuery (q : tSKipListQueryCond) t : res (list Z * tSkipList) :=
  let t := count_query t in
  let! pStart := tSkipListParQuery (lowerBnd q) (lowerBndRelOptr q) t in
  if pStart =? 0 then Ret ([], t) else
  let! r := tSkipListEndParQuery pStart (upperBnd q) (upperBndRelOptr q) t in Ret (r, t).

(** [is_string]: the type of the lower bound is [BINARY] or [NCHAR]. *)
Definition tSkipListQuery (is_string : bool) (q : tSKipListQueryCond) t : res (list Z * tSkipList) :=
  if nSize t =? 0 then Ret ([], t) else
  let rel := comparator (lowerBnd q) (upperBnd q) in
  if (0 <? rel) && negb is_string then Ret ([], t) else
  if rel =? 0 then
    match lowerBndRelOptr q, upperBndRelOptr q with
    | TSDB_RELATION_LARGE_EQUAL, TSDB_RELATION_LESS_EQUAL => tSkipListGets (lowerBnd q) t
    | _, _ => Ret ([], t)
    end
  else tSkipListRangeQuery q t.

(** ** Several keys *)
(** The order [qsort] leaves; it may differ from this one only among equal keys. *)
Fixpoint sort_in (k : K) (l : list K) : list K :=
  match l with
  | [] => [k]
  | x :: l' => if comparator k x <=? 0 then k :: l else x :: sort_in k l'
  end.
Definition qsort (l : list K) : list K := foldr sort_in [] l.

(** The loop of [removeDuplicateKey]: [k] is [pKey[i]], [l] starts at [pKey[j]]. *)
Fixpoint unique_loop (k : K) (l : list K) : list K :=
  match l with
  | [] => [k]
  | x :: l => if comparator k x =? 0 then unique_loop k l else k :: unique_loop x l
  end.

Definition removeDuplicateKey (pKey : list K) : list K :=
  if (length pKey =? 1)%nat then pKey
  else match qsort pKey with [] => [] | k :: l => unique_loop k l end.

(** The nodes whose key is none of the (sorted) keys. *)
Fixpoint mergeResult (fuel : nat) (pKey : list K) (pNode : Z) t : res (list Z) :=
  match fuel with
  | O => NoFuel
  | S fuel' =>
      if pNode =? 0 then Ret [] else
      let! n := node_at t pNode in
      match pKey with
      | [] => let! next := get_forward t pNode 0 in
              let! rest := mergeResult fuel' [] next t in Ret (pNode :: rest)
      | k :: pKey' =>
          let ret := comparator (key n) k in
          if ret <? 0 then
            let! next := get_forward t pNode 0 in
            let! rest := mergeResult fuel' pKey next t in Ret (pNode :: rest)
          else if ret =? 0 then
            let! next := get_forward t pNode 0 in mergeResult fuel' pKey next t
          else mergeResult fuel' pKey' pNode t
      end
  end.

(** The loop over the keys of [tSkipListPointQuery], and [mergeQueryResult]. *)
Fixpoint gets_all (pKey : list K) t : res (list Z * tSkipList) :=
  match pKey with
  | [] => Ret ([], t)
  | k :: pKey =>
      let! '(r, t) := tSkipListGets k t in
      let! '(rs, t) := gets_all pKey t in Ret (r ++ rs, t)
  end.

Definition tSkipListPointQuery (pKey : list K) (include : bool) t : res (list Z * tSkipList) :=
  if (length pKey =? 0)%nat || (nSize t =? 0) then Ret ([], t) else
  let pKey := removeDuplicateKey pKey in
  if include then gets_all pKey t
  else
    let! p := at_level (pHead t) 0 in
    let! r := mergeResult (walk_fuel t + length pKey) pKey p t in Ret (r, t).

(** The nodes [fp] holds of, at most [nSize] of them looked at. *)
Fixpoint iterate_loop (count : nat) (fp : tSkipListNode -> bool) t (p : Z) : res (list Z) :=
  match count with
  | O => Ret []
  | S count' =>
      if p =? 0 then Ret [] else
      let! n := node_at t p in
      let! next := get_forward t p 0 in
      let! rest := iterate_loop count' fp t next in
      Ret (if fp n then p :: rest else rest)
  end.

Definition tSkipListIterateList (fp : tSkipListNode -> bool) t : res (list Z) :=
  let! p := at_level (pHead t) 0 in iterate_loop (Z.to_nat (nSize t)) fp t p.

(** ** Removal *)
(** The loop of [doRemove], from level [j - 1] down. *)
Fixpoint remove_levels (j : nat) (forward : list Z) t : res tSkipList :=
  match j with
  | O => Ret t
  | S j' =>
      let! x := at_level forward j' in
      let! p := get_forward t x j' in
      let! t :=
        if negb (p =? 0) then
          let! q := get_forward t p j' in
          let! t := if negb (q =? 0) then set_backward q j' x t else Ret t in
          set_forward x j' q t
        else Ret t in
      remove_levels j' forward t
  end.

Definition doRemove (pNode : Z) (forward : list Z) t : res tSkipList :=
  let! n := node_at t pNode in
  let! t := remove_levels (nodeLevel n) forward t in
  let t := count_mem (- (SIZEOF_tSkipListNode + POINTER_BYTES * Z.of_nat (nodeLevel n) * 2)) t in
  let! t := count_levels (-1) (nodeLevel n) t in
  Ret (set_size (u64 (nSize t - 1)) (set_heap (delete pNode (heap t)) t)).

(** The level is lowered while the head has no link at it. *)
Fixpoint lower_level (level : nat) t : res nat :=
  match level with
  | O => Ret O
  | S l => let! p := at_level (pHead t) l in if p =? 0 then lower_level l t else Ret level
  end.

Definition removeSupport (forward : list Z) (pKey : K) t : res (bool * tSkipList) :=
  let! x := at_level forward 0 in
  if x =? 0 then Undef else
  let! p := get_forward t x 0 in
  let! n := node_at t p in
  if comparator (key n) pKey =? 0 then
    let! t := doRemove p forward t in
    let! l := lower_level (nLevel t) t in
    Ret (true, set_level l (rand t) t)
  else Ret (false, t).

(** [forward] copied from the backward links of the node. *)
Fixpoint back_links (count i : nat) t (pNode : Z) (forward : list Z) : res (list Z) :=
  match count with
  | O => Ret forward
  | S count' =>
      let! b := get_backward t pNode i in
      let! _ := at_level forward i in
      back_links count' (S i) t pNode (<[i := b]> forward)
  end.

Definition tSkipListRemoveNode (pNode : Z) t : res tSkipList :=
  let! n := node_at t pNode in
  let! forward := back_links (nodeLevel n) 0 t pNode no_path in
  let! '(_, t) := removeSupport forward (key n) t in Ret t.

Definition tSkipListRemove (pKey : K) t : res (bool * tSkipList) :=
  let! forward := search_path (nLevel t) t pKey HEAD no_path in
  removeSupport forward pKey t.

(** ** Destruction *)
(** The nodes that are left when the bottom level has been freed. *)
Fixpoint destroy_loop (fuel : nat) (p : Z) t : res (gmap Z tSkipListNode) :=
  match fuel with
  | O => NoFuel
  | S fuel' =>
      if p =? 0 then Ret (heap t) else
      let! next := get_forward t p 0 in
      destroy_loop fuel' next (set_heap (delete p (heap t)) t)
  end.

Definition tSkipListDestroy t : res (gmap Z tSkipListNode) :=
  let! p := at_level (pHead t) 0 in destroy_loop (walk_fuel t) p t.
End SkipList.

(** ** Keys *)
(** [compareIntVal]. *)
Definition compareIntVal (lhs rhs : Z) : Z := if lhs =? rhs then 0 else if lhs <? rhs then -1 else 1.
#[export] Instance int_key : SkipKey Z := {| comparator := compareIntVal; key_room _ := 0 |}.

(** A string key; a length of -1 stands for a missing bound. *)
Record string_key := { nLen : Z; pz : list Z }.

(** The sign of [strcmp] for bytes without terminators. *)
Fixpoint strcmp (a b : list Z) : Z :=
  match a, b with
  | [], [] => 0
  | [], _ => -1
  | _, [] => 1
  | x :: a, y :: b => if x <? y then -1 else if y <? x then 1 else strcmp a b
  end.

Definition compareStrVal (pL pR : string_key) : Z :=
  if (nLen pL =? 0) && (nLen pR =? 0) then 0
  else if nLen pL =? -1 then 1
  else if nLen pR =? -1 then -1
  else strcmp (pz pL) (pz pR).
#[export] Instance str_key : SkipKey string_key := {| comparator := compareStrVal; key_room k := nLen k + 1 |}.
