(* ===== verification/SkipInv.v ===== *)
(** * The invariant of a skip list

    The links of all levels, and what the operations on a node do to them. *)
From stdpp Require Import sorting.
From S2P Require Import Prelude SkipList.

(** * The links of a skip list

    The nodes of a list in order, with their levels; at every level the nodes
    that reach it form a doubly linked chain from the head. *)

(** The comparison is a total preorder on the keys that may be stored. *)
Class SkipKeyLaws (K : Type) `{SkipKey K} := {
  key_ok : K -> Prop;
  cmp_sym : forall a b, key_ok a -> key_ok b -> comparator b a = - comparator a b;
  cmp_trans : forall a b c, key_ok a -> key_ok b -> key_ok c ->
    comparator a b <= 0 -> comparator b c <= 0 -> comparator a c <= 0 }.

Section Links.
Context {K : Type} `{SkipKey K}.
Implicit Types (t : @tSkipList K).

(** ** The store *)
Definition shape (n : @tSkipListNode K) : nat * Z * K * nat * nat :=
  (nodeLevel n, pData n, key n, length (pForward n), length (pBackward n)).

(** Everything but the links. *)
Record same t t' : Prop := {
  sm_shape : shape <$> heap t' = shape <$> heap t;
  sm_head : length (pHead t') = length (pHead t);
  sm_rest : brk t' = brk t /\ nSize t' = nSize t /\ nMaxLevel t' = nMaxLevel t /\ nLevel t' = nLevel t /\
    rand t' = rand t /\ state t' = state t }.

Lemma same_refl t : same t t.
Proof. by constructor. Qed.

Lemma same_trans t1 t2 t3 : same t1 t2 -> same t2 t3 -> same t1 t3.
Proof.
  intros [S1 S2 (S3 & S4 & S5 & S6 & S7 & S8)] [R1 R2 (R3 & R4 & R5 & R6 & R7 & R8)].
  constructor; [congruence|congruence|]. repeat split; congruence.
Qed.

Lemma same_node t t' a n : same t t' -> heap t !! a = Some n ->
  exists n', heap t' !! a = Some n' /\ shape n' = shape n.
Proof.
  intros Hs E. pose proof (sm_shape _ _ Hs) as Hh. apply (f_equal (fun m => m !! a)) in Hh.
  rewrite !lookup_fmap, E in Hh. destruct (heap t' !! a) as [n'|]; [|done]. injection Hh as E1 E2 E3 E4 E5.
  exists n'. split; [done|]. unfold shape. congruence.
Qed.

Lemma same_none t t' a : same t t' -> heap t !! a = None -> heap t' !! a = None.
Proof.
  intros Hs E. pose proof (sm_shape _ _ Hs) as Hh. apply (f_equal (fun m => m !! a)) in Hh.
  rewrite !lookup_fmap, E in Hh. by destruct (heap t' !! a).
Qed.

Lemma same_size t t' : same t t' -> size (heap t') = size (heap t).
Proof.
  intros Hs. rewrite <- (map_size_fmap shape (heap t')), (sm_shape _ _ Hs). apply map_size_fmap.
Qed.

Lemma at_level_lt (l : list Z) i p : at_level l i = Ret p -> (i < length l)%nat.
Proof. unfold at_level. destruct (l !! i) eqn:E; [|done]. intros _. by eapply lookup_lt_Some. Qed.

Lemma at_level_ok (l : list Z) i : (i < length l)%nat -> exists p, at_level l i = Ret p.
Proof. intros Hi. unfold at_level. destruct (lookup_lt_is_Some_2 l i Hi) as [p ->]. by exists p. Qed.

Lemma at_level_insert (l : list Z) i j v : (i < length l)%nat ->
  at_level (<[i := v]> l) j = if decide (j = i) then Ret v else at_level l j.
Proof.
  intros Hi. unfold at_level. destruct (decide (j = i)) as [->|Hne].
  - by rewrite list_lookup_insert_eq.
  - by rewrite list_lookup_insert_ne.
Qed.

Lemma set_links_shape f b (n : @tSkipListNode K) : length f = length (pForward n) -> length b = length (pBackward n) ->
  shape (set_links f b n) = shape n.
Proof. intros Hf Hb. unfold shape. cbn. by rewrite Hf, Hb. Qed.

Lemma same_set_heap t x n n' : heap t !! x = Some n -> shape n' = shape n -> same t (set_heap (<[x := n']> (heap t)) t).
Proof.
  intros E Hs. constructor; [|done|done]. cbn [heap set_heap]. rewrite fmap_insert, Hs.
  apply insert_id. by rewrite lookup_fmap, E.
Qed.

Lemma set_forward_spec x i v t p : get_forward t x i = Ret p -> exists t', set_forward x i v t = Ret t' /\ same t t' /\
  (forall y j, get_forward t' y j = if decide (y = x /\ j = i) then Ret v else get_forward t y j) /\
  (forall y j, get_backward t' y j = get_backward t y j).
Proof.
  intros Hg. unfold get_forward in Hg. unfold set_forward. destruct (Z.eqb_spec x HEAD) as [->|Hx].
  - rewrite Hg. cbn [rbind]. eexists. split; [done|]. pose proof (at_level_lt _ _ _ Hg) as Hi. split; [|split; [|done]].
    + constructor; [done|apply length_insert|done].
    + intros y j. unfold get_forward. cbn [pHead set_head]. destruct (Z.eqb_spec y HEAD) as [->|Hy].
      * rewrite at_level_insert by done. destruct (decide (j = i)) as [->|Hj]; [by rewrite decide_True|by rewrite decide_False by tauto].
      * destruct (decide (y = HEAD /\ j = i)) as [[]|]; done.
  - unfold node_at in Hg |- *. destruct (heap t !! x) as [n|] eqn:E; [|done]. cbn [rbind] in Hg |- *.
    rewrite Hg. cbn [rbind]. eexists. split; [done|]. pose proof (at_level_lt _ _ _ Hg) as Hi. split; [|split].
    + apply (same_set_heap _ _ n); [done|]. apply set_links_shape; [by rewrite length_insert|done].
    + intros y j. unfold get_forward, node_at. cbn [pHead heap set_heap]. destruct (Z.eqb_spec y HEAD) as [->|Hy].
      * destruct (decide (HEAD = x /\ j = i)) as [[]|]; [congruence|done].
      * destruct (decide (y = x)) as [->|Hne].
        -- rewrite lookup_insert_eq, E. cbn [rbind pForward set_links]. rewrite at_level_insert by done.
           destruct (decide (j = i)) as [->|Hj]; [by rewrite decide_True|by rewrite decide_False by tauto].
        -- rewrite lookup_insert_ne by done. destruct (decide (y = x /\ j = i)) as [[]|]; done.
    + intros y j. unfold get_backward, node_at. cbn [heap set_heap]. destruct (Z.eqb_spec y HEAD); [done|].
      destruct (decide (y = x)) as [->|Hne]; [by rewrite lookup_insert_eq, E|by rewrite lookup_insert_ne].
Qed.

Lemma set_backward_spec x i v t p : get_backward t x i = Ret p -> exists t', set_backward x i v t = Ret t' /\ same t t' /\
  (forall y j, get_backward t' y j = if decide (y = x /\ j = i) then Ret v else get_backward t y j) /\
  (forall y j, get_forward t' y j = get_forward t y j).
Proof.
  intros Hg. unfold get_backward in Hg. unfold set_backward. destruct (Z.eqb_spec x HEAD) as [->|Hx]; [done|].
  unfold node_at in Hg |- *. destruct (heap t !! x) as [n|] eqn:E; [|done]. cbn [rbind] in Hg |- *.
  rewrite Hg. cbn [rbind]. eexists. split; [done|]. pose proof (at_level_lt _ _ _ Hg) as Hi. split; [|split].
  - apply (same_set_heap _ _ n); [done|]. apply set_links_shape; [done|by rewrite length_insert].
  - intros y j. unfold get_backward, node_at. cbn [heap set_heap]. destruct (Z.eqb_spec y HEAD) as [->|Hy].
    + destruct (decide (HEAD = x /\ j = i)) as [[]|]; [congruence|done].
    + destruct (decide (y = x)) as [->|Hne].
      * rewrite lookup_insert_eq, E. cbn [rbind pBackward set_links]. rewrite at_level_insert by done.
        destruct (decide (j = i)) as [->|Hj]; [by rewrite decide_True|by rewrite decide_False by tauto].
      * rewrite lookup_insert_ne by done. destruct (decide (y = x /\ j = i)) as [[]|]; done.
  - intros y j. unfold get_forward, node_at. cbn [pHead heap set_heap]. destruct (Z.eqb_spec y HEAD); [done|].
    destruct (decide (y = x)) as [->|Hne]; [by rewrite lookup_insert_eq, E|by rewrite lookup_insert_ne].
Qed.

(** ** Chains *)
(** The nodes [l] of level [i] behind [x], up to [q]. *)
Fixpoint lseg t (i : nat) (x : Z) (l : list Z) (q : Z) : Prop :=
  match l with
  | [] => get_forward t x i = Ret q
  | y :: l => get_forward t x i = Ret y /\ get_backward t y i = Ret x /\ lseg t i y l q
  end.

Definition end_of (x : Z) (l : list Z) : Z := List.last l x.
Definition first_of (l : list Z) (q : Z) : Z := match l with [] => q | y :: _ => y end.

Lemma end_of_app x l1 l2 : end_of x (l1 ++ l2) = end_of (end_of x l1) l2.
Proof.
  unfold end_of. revert x. induction l1 as [|y l1 IH]; intros x; [done|]. cbn [app].
  destruct l1 as [|z l1]; [|exact (IH x)]. cbn [app]. destruct l2 as [|w l2]; [done|].
  cbn [List.last]. clear IH. revert w. induction l2 as [|v l2 IH2]; intros w; [done|]. cbn [List.last]. apply IH2.
Qed.

Lemma end_of_cons x y l : end_of x (y :: l) = end_of y l.
Proof. change (y :: l) with ([y] ++ l). by rewrite end_of_app. Qed.

Lemma end_of_in x l : end_of x l = x \/ end_of x l ∈ l.
Proof.
  revert x. induction l as [|y l IH]; intros x; [by left|]. rewrite end_of_cons. right.
  destruct (IH y) as [->|Hin]; by constructor.
Qed.

Lemma lseg_frame t t' i x l q :
  (forall y, y = x \/ y ∈ l -> get_forward t' y i = get_forward t y i) ->
  (forall y, y ∈ l -> get_backward t' y i = get_backward t y i) -> lseg t i x l q -> lseg t' i x l q.
Proof.
  revert x. induction l as [|y l IH]; intros x Hf Hb Hl; cbn [lseg] in *.
  - rewrite Hf; [done|by left].
  - destruct Hl as (H1 & H2 & H3). rewrite Hf by by left. rewrite Hb by constructor. split; [done|]. split; [done|].
    apply IH; [|intros z Hz; apply Hb; by constructor|done].
    intros z Hz. apply Hf. right. destruct Hz as [->|Hz]; by constructor.
Qed.

Lemma lseg_app t i x l1 l2 q : lseg t i x (l1 ++ l2) q <->
  lseg t i x l1 (first_of l2 q) /\
  match l2 with [] => True | y :: l => get_backward t y i = Ret (end_of x l1) /\ lseg t i y l q end.
Proof.
  revert x. induction l1 as [|z l1 IH]; intros x; cbn [app lseg].
  - destruct l2 as [|y l2]; cbn [lseg first_of]; [tauto|]. unfold end_of. cbn. tauto.
  - rewrite IH, end_of_cons. tauto.
Qed.

(** The link behind the last node changes. *)
Lemma lseg_set_last t t' i x l q v : NoDup (x :: l) -> lseg t i x l q ->
  (forall y, y = x \/ y ∈ l -> get_forward t' y i = if decide (y = end_of x l) then Ret v else get_forward t y i) ->
  (forall y, y ∈ l -> get_backward t' y i = get_backward t y i) -> lseg t' i x l v.
Proof.
  revert x. induction l as [|y l IH]; intros x Hnd Hl Hf Hb; cbn [lseg] in *.
  - rewrite Hf by by left. unfold end_of. cbn. by rewrite decide_True.
  - destruct Hl as (H1 & H2 & H3). apply NoDup_cons in Hnd as [Hni Hnd].
    rewrite Hf, decide_False; [| |by left].
    + rewrite Hb by constructor. split; [done|]. split; [done|]. apply IH; [done|done| |].
      * intros z Hz. rewrite Hf, end_of_cons; [done|]. right. destruct Hz as [->|Hz]; by constructor.
      * intros z Hz. apply Hb. by constructor.
    + rewrite end_of_cons. intros ->. destruct (end_of_in y l) as [E|Hin].
      * rewrite E in Hni. apply Hni. constructor.
      * apply Hni. by constructor.
Qed.

Lemma lseg_forward t i x l1 l2 q : lseg t i x (l1 ++ l2) q -> get_forward t (end_of x l1) i = Ret (first_of l2 q).
Proof.
  intros (H1 & _)%lseg_app. clear -H1. revert x H1. induction l1 as [|y l1 IH]; intros x Hl; cbn [lseg] in *; [done|].
  rewrite end_of_cons. apply IH, Hl.
Qed.

Lemma lseg_backward t i x l1 y l2 q : lseg t i x (l1 ++ y :: l2) q -> get_backward t y i = Ret (end_of x l1).
Proof. intros (_ & H1 & _)%lseg_app. done. Qed.

(** The forward links of the nodes themselves, which the scans follow. *)
Fixpoint fwd_chain t (i : nat) (l : list Z) (q : Z) : Prop :=
  match l with
  | [] => True
  | y :: l => get_forward t y i = Ret (first_of l q) /\ fwd_chain t i l q
  end.

Lemma lseg_fwd_chain t i x l q : lseg t i x l q -> fwd_chain t i l q.
Proof.
  revert x. induction l as [|y l IH]; intros x Hl; [done|]. cbn [lseg fwd_chain] in *. destruct Hl as (_ & _ & Hl).
  split; [|by apply (IH y)]. exact (lseg_forward t i y [] l q Hl).
Qed.

Lemma fwd_chain_app t i l1 l2 q : fwd_chain t i (l1 ++ l2) q -> fwd_chain t i l2 q.
Proof. induction l1 as [|y l1 IH]; [done|]. cbn [app fwd_chain]. intros [_ Hl]. by apply IH. Qed.

Lemma fwd_chain_frame t t' i l q : (forall y, y ∈ l -> get_forward t' y i = get_forward t y i) ->
  fwd_chain t i l q -> fwd_chain t' i l q.
Proof.
  induction l as [|y l IH]; intros Hf Hl; [done|]. cbn [fwd_chain] in *. destruct Hl as [H1 H2].
  split; [rewrite Hf; [done|constructor]|]. apply IH; [|done]. intros z Hz. apply Hf. by constructor.
Qed.

(** A step that changes the links of one level only. *)
Definition only (i : nat) t t' : Prop :=
  same t t' /\ forall y j, j <> i -> get_forward t' y j = get_forward t y j /\ get_backward t' y j = get_backward t y j.

Lemma only_lseg i t t' j x l q : only i t t' -> j <> i -> lseg t j x l q -> lseg t' j x l q.
Proof. intros [_ Ho] Hj. apply lseg_frame; intros y _; by apply Ho. Qed.

Lemma only_trans i t1 t2 t3 : only i t1 t2 -> only i t2 t3 -> only i t1 t3.
Proof.
  intros [S1 O1] [S2 O2]. split; [by eapply same_trans|]. intros y j Hj.
  destruct (O1 y j Hj) as [E1 E2], (O2 y j Hj) as [E3 E4]. split; congruence.
Qed.

Lemma forward_only i t t' : same t t' -> forall x v,
  (forall y j, get_forward t' y j = if decide (y = x /\ j = i) then Ret v else get_forward t y j) ->
  (forall y j, get_backward t' y j = get_backward t y j) -> only i t t'.
Proof.
  intros Hs x v Hf Hb. split; [done|]. intros y j Hj. split; [|done].
  rewrite Hf, decide_False; [done|]. tauto.
Qed.

Lemma backward_only i t t' : same t t' -> forall x v,
  (forall y j, get_backward t' y j = if decide (y = x /\ j = i) then Ret v else get_backward t y j) ->
  (forall y j, get_forward t' y j = get_forward t y j) -> only i t t'.
Proof.
  intros Hs x v Hb Hf. split; [done|]. intros y j Hj. split; [done|].
  rewrite Hb, decide_False; [done|]. tauto.
Qed.

(** ** One level of an insertion and of a removal *)
(** [p] is put between [l1] and [l2]; its own links exist. *)
Lemma insert_at t i l1 l2 p b0 f0 : NoDup (HEAD :: l1 ++ l2) -> p <> HEAD -> p <> 0 -> p ∉ l1 ++ l2 -> 0 ∉ l1 ++ l2 ->
  lseg t i HEAD (l1 ++ l2) 0 -> get_backward t p i = Ret b0 -> get_forward t p i = Ret f0 ->
  exists t', (let! t := set_backward p i (end_of HEAD l1) t in
      let! f := get_forward t (end_of HEAD l1) i in
      let! t := if negb (f =? 0) then set_backward f i p t else Ret t in
      let! t := set_forward p i f t in
      set_forward (end_of HEAD l1) i p t) = Ret t' /\ only i t t' /\ lseg t' i HEAD (l1 ++ p :: l2) 0.
Proof.
  intros Hnd Hph Hp0 Hp Hz Hl Hpb Hpf.
  pose proof (lseg_forward _ _ _ _ _ _ Hl) as Hx.
  destruct (set_backward_spec p i (end_of HEAD l1) t b0 Hpb) as (t1 & -> & S1 & B1 & F1). cbn [rbind].
  rewrite F1, Hx. cbn [rbind].
  assert (Ht2 : exists t2, (if negb (first_of l2 0 =? 0) then set_backward (first_of l2 0) i p t1 else Ret t1) = Ret t2 /\
    same t1 t2 /\ only i t1 t2 /\ (forall y j, get_forward t2 y j = get_forward t1 y j) /\
    forall y, get_backward t2 y i = if decide (l2 <> [] /\ y = first_of l2 0) then Ret p else get_backward t1 y i).
  { destruct l2 as [|y l2]; cbn [first_of].
    - exists t1. split; [done|]. split; [apply same_refl|]. split; [split; [apply same_refl|done]|]. split; [done|].
      intros y. by rewrite decide_False by tauto.
    - assert (Hy : y <> 0) by (intros ->; apply Hz, elem_of_app; right; by constructor).
      rewrite (proj2 (Z.eqb_neq _ _) Hy). cbn [negb].
      destruct (set_backward_spec y i p t1 (end_of HEAD l1)) as (t2 & -> & S2 & B2 & F2).
      { rewrite B1, decide_False; [by eapply lseg_backward|]. intros [-> _]. apply Hp, elem_of_app. right. constructor. }
      exists t2. split; [done|]. split; [done|]. split; [by eapply backward_only|]. split; [done|].
      intros z. rewrite B2. destruct (decide (z = y)) as [->|Hne].
      + by rewrite !decide_True.
      + by rewrite !decide_False by tauto. }
  destruct Ht2 as (t2 & -> & S2 & O2 & F2 & B2). cbn [rbind].
  destruct (set_forward_spec p i (first_of l2 0) t2 f0) as (t3 & -> & S3 & F3 & B3); [by rewrite F2, F1|]. cbn [rbind].
  assert (Hxp : end_of HEAD l1 <> p).
  { destruct (end_of_in HEAD l1) as [->|Hin]; [done|]. intros <-. apply Hp, elem_of_app. by left. }
  destruct (set_forward_spec (end_of HEAD l1) i p t3 (first_of l2 0)) as (t4 & -> & S4 & F4 & B4).
  { rewrite F3, decide_False by tauto. by rewrite F2, F1. }
  exists t4. split; [done|]. split.
  { eapply only_trans; [eapply backward_only; [exact S1|exact B1|exact F1]|].
    eapply only_trans; [exact O2|]. eapply only_trans; eapply forward_only; eauto. }
  apply lseg_app in Hl as [Hl1 Hl2]. change (HEAD :: l1 ++ l2) with ((HEAD :: l1) ++ l2) in Hnd.
  apply NoDup_app in Hnd as (Hnd1 & Hdis & Hnd2).
  assert (Hl2h : forall y, y ∈ l2 -> y <> end_of HEAD l1).
  { intros y Hy ->. apply (Hdis (end_of HEAD l1)); [|done]. destruct (end_of_in HEAD l1) as [->|?]; by constructor. }
  apply lseg_app. cbn [first_of lseg]. split; [|split].
  - eapply (lseg_set_last t); [done|exact Hl1| |].
    + intros y Hy. rewrite F4. destruct (decide (y = end_of HEAD l1)) as [->|Hne]; [by rewrite decide_True|].
      rewrite decide_False by tauto. rewrite F3, decide_False; [by rewrite F2, F1|].
      intros [-> _]. destruct Hy as [->|Hy]; [done|]. apply Hp, elem_of_app. by left.
    + intros y Hy. rewrite B4, B3, B2, decide_False.
      * rewrite B1, decide_False; [done|]. intros [-> _]. apply Hp, elem_of_app. by left.
      * intros [Hne ->]. destruct l2 as [|z l2]; [done|]. apply (Hdis z); by constructor.
  - rewrite B4, B3, B2, decide_False.
    + rewrite B1. by rewrite decide_True.
    + intros [Hne E]. destruct l2 as [|z l2]; [done|]. cbn in E. subst z. apply Hp, elem_of_app. right. constructor.
  - assert (Hfp : get_forward t4 p i = Ret (first_of l2 0)).
    { rewrite F4, decide_False by (intros [E _]; by symmetry in E). rewrite F3. by rewrite decide_True. }
    destruct l2 as [|y l2]; cbn [lseg first_of] in *; [done|]. destruct Hl2 as [Hby Hl2].
    split; [done|]. split; [rewrite B4, B3, B2; by rewrite decide_True|].
    apply NoDup_cons in Hnd2 as [Hni Hnd2].
    apply (lseg_frame t); [| |done].
    + intros z Hz'. assert (Hzin : z ∈ y :: l2) by (destruct Hz' as [->|Hz']; by constructor).
      rewrite F4, decide_False by (intros [E _]; by apply (Hl2h z)).
      rewrite F3, decide_False by (intros [-> _]; apply Hp, elem_of_app; by right). by rewrite F2, F1.
    + intros z Hz'. rewrite B4, B3, B2, decide_False by (intros [_ ->]; done).
      rewrite B1, decide_False; [done|]. intros [-> _]. apply Hp, elem_of_app. right. by constructor.
Qed.

(** [p] between [l1] and [l2] is taken out. *)
Lemma remove_at t i l1 l2 p : NoDup (HEAD :: l1 ++ p :: l2) -> 0 ∉ l1 ++ p :: l2 -> lseg t i HEAD (l1 ++ p :: l2) 0 ->
  exists t', (let! q := get_forward t p i in
      let! t := if negb (q =? 0) then set_backward q i (end_of HEAD l1) t else Ret t in
      set_forward (end_of HEAD l1) i q t) = Ret t' /\ only i t t' /\ lseg t' i HEAD (l1 ++ l2) 0.
Proof.
  intros Hnd Hz Hl. pose proof (lseg_forward t i HEAD l1 (p :: l2) 0 Hl) as Hx. cbn [first_of] in Hx.
  assert (Hq : get_forward t p i = Ret (first_of l2 0)).
  { replace (l1 ++ p :: l2) with ((l1 ++ [p]) ++ l2) in Hl by by rewrite <- app_assoc.
    apply lseg_forward in Hl. rewrite end_of_app, end_of_cons in Hl. exact Hl. }
  rewrite Hq. cbn [rbind].
  apply lseg_app in Hl as [Hl1 Hl2]. cbn [first_of lseg] in Hl1, Hl2. destruct Hl2 as [Hbp Hl2].
  change (HEAD :: l1 ++ p :: l2) with ((HEAD :: l1) ++ p :: l2) in Hnd. apply NoDup_app in Hnd as (Hnd1 & Hdis & Hnd2).
  apply NoDup_cons in Hnd2 as [Hpi Hnd2].
  assert (Ht1 : exists t1, (if negb (first_of l2 0 =? 0) then set_backward (first_of l2 0) i (end_of HEAD l1) t else Ret t) = Ret t1 /\
    only i t t1 /\ (forall y j, get_forward t1 y j = get_forward t y j) /\
    forall y, get_backward t1 y i = if decide (l2 <> [] /\ y = first_of l2 0) then Ret (end_of HEAD l1) else get_backward t y i).
  { destruct l2 as [|y l2]; cbn [first_of].
    - exists t. split; [done|]. split; [split; [apply same_refl|done]|]. split; [done|].
      intros y. by rewrite decide_False by tauto.
    - assert (Hy : y <> 0).
      { intros ->. apply Hz, elem_of_app. right. constructor. constructor. }
      rewrite (proj2 (Z.eqb_neq _ _) Hy). cbn [negb lseg] in Hl2 |- *. destruct Hl2 as (_ & Hby & _).
      destruct (set_backward_spec y i (end_of HEAD l1) t p Hby) as (t1 & -> & S1 & B1 & F1).
      exists t1. split; [done|]. split; [by eapply backward_only|]. split; [done|].
      intros z. rewrite B1. destruct (decide (z = y)) as [->|Hne].
      + by rewrite !decide_True.
      + by rewrite !decide_False by tauto. }
  destruct Ht1 as (t1 & -> & O1 & F1 & B1). cbn [rbind].
  destruct (set_forward_spec (end_of HEAD l1) i (first_of l2 0) t1 p) as (t2 & -> & S2 & F2 & B2); [by rewrite F1|].
  exists t2. split; [done|]. split; [eapply only_trans; [exact O1|by eapply forward_only]|].
  assert (Hl2h : forall y, y ∈ l2 -> y <> end_of HEAD l1).
  { intros y Hy ->. apply (Hdis (end_of HEAD l1)); [destruct (end_of_in HEAD l1) as [->|?]; by constructor|by constructor]. }
  apply lseg_app. split.
  - eapply (lseg_set_last t); [done|exact Hl1| |].
    + intros y _. rewrite F2. destruct (decide (y = end_of HEAD l1)) as [->|Hne]; [by rewrite decide_True|].
      rewrite decide_False by tauto. by rewrite F1.
    + intros y Hy. rewrite B2, B1, decide_False; [done|]. intros [Hne ->]. destruct l2 as [|z l2]; [done|].
      apply (Hdis z); [by constructor|]. constructor. constructor.
  - destruct l2 as [|y l2]; [done|]. cbn [lseg first_of] in *. destruct Hl2 as (_ & _ & Hl2).
    split; [rewrite B2, B1; by rewrite decide_True|]. apply NoDup_cons in Hnd2 as [Hni Hnd2].
    apply (lseg_frame t); [| |done].
    + intros z Hz'. assert (Hzin : z ∈ y :: l2) by (destruct Hz' as [->|Hz']; by constructor).
      rewrite F2, decide_False by (intros [E _]; by apply (Hl2h z)). by rewrite F1.
    + intros z Hz'. rewrite B2, B1, decide_False by (intros [_ ->]; done). done.
Qed.
(** ** All levels of an insertion and of a removal *)
(** Steps that change the links of the levels from [i] below [n] only. *)
Definition within (i n : nat) t t' : Prop :=
  same t t' /\ forall y j, ~ (i <= j < n)%nat -> get_forward t' y j = get_forward t y j /\ get_backward t' y j = get_backward t y j.

Lemma only_within i n m t1 t2 t3 : only m t1 t2 -> within i n t2 t3 -> (i <= m < n)%nat \/ m = n \/ (S m = i)%nat ->
  within (Nat.min i m) (Nat.max n (S m)) t1 t3.
Proof.
  intros [S1 O1] [S2 O2] Hm. split; [by eapply same_trans|]. intros y j Hj.
  destruct (O1 y j) as [E1 E2]; [lia|]. destruct (O2 y j) as [E3 E4]; [lia|]. split; congruence.
Qed.

Lemma within_lseg i n t t' j x l q : within i n t t' -> ~ (i <= j < n)%nat -> lseg t j x l q -> lseg t' j x l q.
Proof. intros [_ Ho] Hj. apply lseg_frame; intros y _; by apply Ho. Qed.

(** An empty level: its first node. *)
Lemma insert_first t i p b0 : p <> HEAD -> lseg t i HEAD [] 0 ->
  get_backward t p i = Ret b0 -> get_forward t p i = Ret 0 ->
  exists t', (let! t := set_forward HEAD i p t in set_backward p i HEAD t) = Ret t' /\ only i t t' /\ lseg t' i HEAD [p] 0.
Proof.
  intros Hp Hl Hb Hf. cbn [lseg] in Hl. destruct (set_forward_spec HEAD i p t 0 Hl) as (t1 & -> & S1 & F1 & B1). cbn [rbind].
  destruct (set_backward_spec p i HEAD t1 b0) as (t2 & -> & S2 & B2 & F2); [by rewrite B1|].
  exists t2. split; [done|]. split.
  - eapply only_trans; [by eapply forward_only|by eapply backward_only].
  - cbn [lseg]. rewrite !F2, !F1, B2. rewrite !decide_True by done. rewrite decide_False by tauto. done.
Qed.

Lemma end_of_nz l : 0 ∉ l -> end_of HEAD l <> 0.
Proof. intros Hz. destruct (end_of_in HEAD l) as [->|Hin]; [done|]. intros E. by rewrite E in Hin. Qed.

Lemma insert_levels_spec (l1 l2 : nat -> list Z) fwd p count i t : p <> HEAD -> p <> 0 ->
  (forall j, (i <= j < i + count)%nat -> fwd !! j = Some (end_of HEAD (l1 j)) \/ fwd !! j = Some 0 /\ l1 j = [] /\ l2 j = []) ->
  (forall j, (i <= j < i + count)%nat -> NoDup (HEAD :: l1 j ++ l2 j) /\ ~ p ∈ l1 j ++ l2 j /\ ~ 0 ∈ l1 j ++ l2 j /\
    lseg t j HEAD (l1 j ++ l2 j) 0 /\ get_forward t p j = Ret 0 /\ exists b0, get_backward t p j = Ret b0) ->
  exists t', insert_levels count i fwd p t = Ret t' /\ within i (i + count) t t' /\
    forall j, (i <= j < i + count)%nat -> lseg t' j HEAD (l1 j ++ p :: l2 j) 0.
Proof.
  intros Hph Hp0. revert i t. induction count as [|count IH]; intros i t Hf Hj; cbn [insert_levels].
  - exists t. split; [done|]. split; [split; [apply same_refl|done]|]. lia.
  - destruct (Hj i ltac:(lia)) as (Hnd & Hp & Hz & Hl & Hpf & b0 & Hpb).
    assert (Hz1 : 0 ∉ l1 i) by (intros ?; apply Hz, elem_of_app; by left).
    assert (Hstep : exists x t1, fwd !! i = Some x /\
      (if negb (x =? 0) then
          let! t := set_backward p i x t in let! f := get_forward t x i in
          let! t := if negb (f =? 0) then set_backward f i p t else Ret t in
          let! t := set_forward p i f t in set_forward x i p t
        else let! t := set_forward HEAD i p t in set_backward p i HEAD t) = Ret t1 /\
      only i t t1 /\ lseg t1 i HEAD (l1 i ++ p :: l2 i) 0).
    { destruct (Hf i ltac:(lia)) as [Hx|(Hx & E1 & E2)].
      - destruct (insert_at t i (l1 i) (l2 i) p b0 0) as (t1 & Hr & Ho & Hl1); try done.
        exists (end_of HEAD (l1 i)), t1. rewrite (proj2 (Z.eqb_neq _ _) (end_of_nz _ Hz1)). done.
      - rewrite E1, E2 in Hl |- *. destruct (insert_first t i p b0) as (t1 & Hr & Ho & Hl1); try done. by exists 0, t1. }
    destruct Hstep as (x & t1 & Hx & Hr & Ho & Hl1). unfold at_level at 1. rewrite Hx. cbn [rbind]. rewrite Hr. cbn [rbind].
    destruct (IH (S i) t1) as (t2 & -> & Hw & Hl2).
    + intros j Hr'. apply Hf. lia.
    + intros j Hr'. destruct (Hj j ltac:(lia)) as (? & ? & ? & Hlj & Hpfj & b1 & Hpbj).
      destruct (proj2 Ho p j ltac:(lia)) as [-> ->]. repeat split; try done; [|by exists b1].
      eapply only_lseg; [exact Ho|lia|done].
    + exists t2. split; [done|]. split.
      * replace i with (Nat.min (S i) i) at 1 by lia. replace (i + S count)%nat with (Nat.max (S i + count) (S i)) by lia.
        eapply only_within; [exact Ho|exact Hw|lia].
      * intros j Hr'. destruct (decide (j = i)) as [->|]; [|apply Hl2; lia].
        eapply within_lseg; [exact Hw|lia|done].
Qed.

Lemma remove_levels_spec (l1 l2 : nat -> list Z) fwd p j t :
  (forall i, (i < j)%nat -> fwd !! i = Some (end_of HEAD (l1 i))) ->
  (forall i, (i < j)%nat -> NoDup (HEAD :: l1 i ++ p :: l2 i) /\ ~ 0 ∈ l1 i ++ p :: l2 i /\
    lseg t i HEAD (l1 i ++ p :: l2 i) 0) ->
  exists t', remove_levels j fwd t = Ret t' /\ within 0 j t t' /\
    forall i, (i < j)%nat -> lseg t' i HEAD (l1 i ++ l2 i) 0.
Proof.
  revert t. induction j as [|j IH]; intros t Hf Hj; cbn [remove_levels].
  - exists t. split; [done|]. split; [split; [apply same_refl|done]|]. lia.
  - destruct (Hj j ltac:(lia)) as (Hnd & Hz & Hl). unfold at_level at 1. rewrite (Hf j) by lia. cbn [rbind].
    pose proof (lseg_forward _ _ _ _ _ _ Hl) as Hp. cbn [first_of] in Hp. rewrite Hp. cbn [rbind].
    assert (Hpz : p <> 0) by (intros ->; apply Hz, elem_of_app; right; constructor).
    rewrite (proj2 (Z.eqb_neq _ _) Hpz). cbn [negb].
    destruct (remove_at t j (l1 j) (l2 j) p Hnd Hz Hl) as (t1 & -> & Ho & Hl1). cbn [rbind].
    destruct (IH t1) as (t2 & -> & Hw & Hl2).
    + intros i Hi. apply Hf. lia.
    + intros i Hi. destruct (Hj i ltac:(lia)) as (? & ? & ?). repeat split; try done. eapply only_lseg; [exact Ho|lia|done].
    + exists t2. split; [done|]. split.
      * replace 0%nat with (Nat.min 0 j) by lia. replace (S j) with (Nat.max j (S j)) by lia.
        eapply only_within; [exact Ho|exact Hw|lia].
      * intros i Hi. destruct (decide (i = j)) as [->|]; [|apply Hl2; lia].
        eapply within_lseg; [exact Hw|lia|done].
Qed.
End Links.

(** * A skip list as a sorted list

    The operations of SkipList.v on the list of entries a skip list holds: what
    each search finds, and what an insertion or a removal leaves. *)

Section Ops.
Context {K : Type} `{SkipKeyLaws K}.
Implicit Types (t : @tSkipList K) (k : K).

(** ** Entries *)
(** A node: its address, key, data and level. *)
Record ent := Ent { ea : Z; ek : K; ed : Z; el : nat }.
Implicit Types (e : ent) (E A B C : list ent).

Definition addrs E : list Z := map ea E.
(** The nodes that reach level [i]. *)
Definition chain E (i : nat) : list ent := filter (fun e => (i < el e)%nat) E.
Definition lt_key k E : list ent := filter (fun e => comparator (ek e) k < 0) E.
Definition ge_key k E : list ent := filter (fun e => ~ comparator (ek e) k < 0) E.

Record skip_inv t E : Prop := {
  sk_nodes : forall e, e ∈ E -> exists n, heap t !! ea e = Some n /\ shape n = (el e, ed e, ek e, el e, el e);
  sk_dom : forall a, is_Some (heap t !! a) -> a ∈ addrs E;
  sk_nodup : NoDup (addrs E);
  sk_addr : HEAD < brk t /\ forall a, a ∈ addrs E -> HEAD < a < brk t;
  sk_links : forall i, (i < MAX_SKIP_LIST_LEVEL)%nat -> lseg t i HEAD (addrs (chain E i)) 0;
  sk_sorted : StronglySorted (fun x y => comparator (ek x) (ek y) <= 0) E;
  sk_keys : Forall (fun e => key_ok (ek e)) E;
  sk_levels : Forall (fun e => (1 <= el e <= nLevel t)%nat) E;
  sk_max : (nLevel t <= MAX_SKIP_LIST_LEVEL)%nat /\ nMaxLevel t = MAX_SKIP_LIST_LEVEL;
  sk_head : length (pHead t) = MAX_SKIP_LIST_LEVEL;
  sk_size : nSize t = Z.of_nat (length E) /\ Z.of_nat (length E) < 2 ^ 64;
  sk_cnt : nLevelNodeCnt (state t) = map (fun i => Z.of_nat (length (chain E i))) (seq 0 MAX_SKIP_LIST_LEVEL) }.

Lemma addrs_app A B : addrs (A ++ B) = addrs A ++ addrs B.
Proof. apply map_app. Qed.
Lemma chain_app A B i : chain (A ++ B) i = chain A i ++ chain B i.
Proof. apply filter_app. Qed.
Lemma chain_in E i e : e ∈ chain E i <-> (i < el e)%nat /\ e ∈ E.
Proof. unfold chain. by rewrite list_elem_of_filter. Qed.
Lemma addrs_in E e : e ∈ E -> ea e ∈ addrs E.
Proof. intros He. apply list_elem_of_fmap. by exists e. Qed.

Lemma chain_addrs_sub E i a : a ∈ addrs (chain E i) -> a ∈ addrs E.
Proof. intros (e & -> & [_ He]%chain_in)%list_elem_of_fmap. by apply addrs_in. Qed.

Lemma chain_nodup E i : NoDup (addrs E) -> NoDup (addrs (chain E i)).
Proof.
  unfold addrs. induction E as [|e E IH]; intros Hnd; [constructor|].
  cbn [map] in Hnd. apply NoDup_cons in Hnd as [Hni Hnd]. unfold chain. rewrite filter_cons. case_decide.
  - cbn [map]. apply NoDup_cons. split; [|by apply IH]. intros Hin. by apply Hni, (chain_addrs_sub _ i).
  - by apply IH.
Qed.

Lemma chain_0 t E : skip_inv t E -> chain E 0 = E.
Proof.
  intros Hi. apply filter_id. eapply Forall_impl; [apply (sk_levels _ _ Hi)|]. cbn. lia.
Qed.

Lemma chain_high t E i : skip_inv t E -> (nLevel t <= i)%nat -> chain E i = [].
Proof.
  intros Hi Hl. apply filter_none. eapply Forall_impl; [apply (sk_levels _ _ Hi)|]. cbn. lia.
Qed.

Lemma heap_size t E : skip_inv t E -> size (heap t) = length E.
Proof.
  intros Hi. rewrite <- size_dom. replace (dom (heap t)) with (list_to_set (addrs E) : gset Z).
  - rewrite size_list_to_set by apply (sk_nodup _ _ Hi). apply length_map.
  - apply set_eq. intros a. rewrite elem_of_list_to_set, elem_of_dom. split; [|apply (sk_dom _ _ Hi)].
    intros (e & -> & He)%list_elem_of_fmap. destruct (sk_nodes _ _ Hi e He) as (n & -> & _). by eexists.
Qed.

Lemma node_of t E e : skip_inv t E -> e ∈ E -> exists n, node_at t (ea e) = Ret n /\ key n = ek e /\ pData n = ed e /\
  nodeLevel n = el e /\ ea e <> 0 /\ ea e <> HEAD.
Proof.
  intros Hi He. destruct (sk_nodes _ _ Hi e He) as (n & En & Hs). exists n. unfold node_at. rewrite En.
  injection Hs as H1 H2 H3 _ _. destruct (sk_addr _ _ Hi) as [_ Ha]. pose proof (Ha (ea e) (addrs_in _ _ He)) as Hr.
  unfold HEAD in Hr |- *. repeat split; try done; lia.
Qed.

(** ** The order of keys *)
Lemma cmp_refl k : key_ok k -> comparator k k = 0.
Proof using Type*. intros Hk. pose proof (cmp_sym k k Hk Hk). lia. Qed.

(** In a sorted list what a downward closed property holds of comes first. *)
Lemma sorted_split (P : ent -> Prop) `{!forall e, Decision (P e)} E :
  StronglySorted (fun x y => comparator (ek x) (ek y) <= 0) E ->
  (forall x y, x ∈ E -> y ∈ E -> comparator (ek x) (ek y) <= 0 -> P y -> P x) ->
  E = filter P E ++ filter (fun e => ~ P e) E.
Proof.
  induction 1 as [|e E Hs IH Hall]; intros HP; [done|].
  assert (HP' : forall x y, x ∈ E -> y ∈ E -> comparator (ek x) (ek y) <= 0 -> P y -> P x).
  { intros x y Hx Hy. apply HP; by constructor. }
  rewrite !filter_cons. destruct (decide (P e)) as [He|He].
  - rewrite decide_False by tauto. cbn [app]. f_equal. by apply IH.
  - assert (Hno : Forall (fun x => ~ P x) E).
    { rewrite Forall_forall in Hall |- *. intros x Hx Hpx. apply He, (HP e x); [constructor|by constructor|by apply Hall|done]. }
    by rewrite decide_True, filter_none, (filter_id (fun x => ~ P x)).
Qed.

(** A bound that cuts the keys that may be stored in two. *)
Definition bound_ok k : Prop := forall a b, key_ok a -> key_ok b -> comparator a b <= 0 ->
  (comparator b k <= 0 -> comparator a k <= 0) /\ (comparator b k < 0 -> comparator a k < 0).

Lemma key_bound k : key_ok k -> bound_ok k.
Proof using Type*.
  intros Hk a b Ha Hb Hab. pose proof (cmp_sym a k Ha Hk). pose proof (cmp_sym b k Hb Hk).
  assert (Hle : comparator b k <= 0 -> comparator a k <= 0) by (intros Hbk; by apply (cmp_trans a b k)).
  split; [done|]. intros Hbk. assert (Hak : comparator a k <= 0) by (apply Hle; lia).
  destruct (Z.eq_dec (comparator a k) 0) as [Hz|]; [|lia].
  assert (comparator k b <= 0) by (apply (cmp_trans k a b); [done|done|done|lia|done]). lia.
Qed.

Lemma inv_split t E k : skip_inv t E -> key_ok k -> E = lt_key k E ++ ge_key k E.
Proof using Type*.
  intros Hi Hk. pose proof (sk_keys _ _ Hi) as Hok. rewrite Forall_forall in Hok.
  apply sorted_split; [apply (sk_sorted _ _ Hi)|]. intros x y Hx Hy Hxy. by apply key_bound; auto.
Qed.

Lemma lt_key_in k E e : e ∈ lt_key k E <-> comparator (ek e) k < 0 /\ e ∈ E.
Proof. unfold lt_key. by rewrite list_elem_of_filter. Qed.
Lemma ge_key_in k E e : e ∈ ge_key k E <-> 0 <= comparator (ek e) k /\ e ∈ E.
Proof. unfold ge_key. rewrite list_elem_of_filter. split; intros [? ?]; (split; [lia|done]). Qed.

(** ** Walking a level *)
(** The last comparison of a walk over [C] that stops in front of [B]. *)
Definition last_cmp k C B (ret : Z) : Z :=
  match B with b :: _ => comparator (ek b) k | [] => match last C with Some e => comparator (ek e) k | None => ret end end.

Lemma walk_spec t E k i C1 C2 B ret F : skip_inv t E -> (i < MAX_SKIP_LIST_LEVEL)%nat ->
  chain E i = C1 ++ C2 ++ B -> Forall (fun e => comparator (ek e) k < 0) C2 ->
  match B with b :: _ => 0 <= comparator (ek b) k | [] => True end -> (length C2 < F)%nat ->
  walk F t k i (end_of HEAD (addrs C1)) ret = Ret (end_of HEAD (addrs (C1 ++ C2)), last_cmp k C2 B ret).
Proof.
  intros Hi Hlev. revert C1 ret F. induction C2 as [|c C2 IH]; intros C1 ret F Hch Hlt HB HF;
    (destruct F as [|F]; [cbn in HF; lia|]); cbn [walk]; pose proof (sk_links _ _ Hi i Hlev) as Hl; rewrite Hch in Hl.
  - cbn [app] in Hl. rewrite app_nil_r. rewrite addrs_app in Hl. rewrite (lseg_forward _ _ _ _ _ _ Hl). cbn [rbind].
    destruct B as [|b B]; cbn [addrs map first_of last_cmp]; [done|].
    assert (Hb : b ∈ E) by (apply (chain_in E i); rewrite Hch; apply elem_of_app; right; constructor).
    destruct (node_of _ _ _ Hi Hb) as (n & Hn & Hk & _ & _ & Hnz & _).
    rewrite (proj2 (Z.eqb_neq _ _) Hnz), Hn. cbn [rbind]. rewrite Hk, (proj2 (Z.ltb_ge _ 0)) by done. done.
  - rewrite addrs_app in Hl. rewrite (lseg_forward _ _ _ _ _ _ Hl). cbn [rbind app addrs map first_of].
    assert (Hc : c ∈ E) by (apply (chain_in E i); rewrite Hch; apply elem_of_app; right; constructor).
    destruct (node_of _ _ _ Hi Hc) as (n & Hn & Hk & _ & _ & Hnz & _).
    apply Forall_cons in Hlt as [Hltc Hlt].
    rewrite (proj2 (Z.eqb_neq _ _) Hnz), Hn. cbn [rbind]. rewrite Hk, (proj2 (Z.ltb_lt _ 0)) by done.
    specialize (IH (C1 ++ [c]) (comparator (ek c) k) F).
    rewrite addrs_app, end_of_app in IH. cbn [addrs map] in IH. rewrite end_of_cons in IH. cbn [end_of List.last] in IH.
    change (end_of (ea c) []) with (ea c) in IH. rewrite IH; [| |done|done|cbn in HF; lia].
    + rewrite <- app_assoc. destruct B; [|done].
      unfold last_cmp. rewrite last_cons. by destruct (last C2).
    + by rewrite <- app_assoc.
Qed.

(** A walk from where the level above ended. *)
Lemma upper_prefix A (j j' : nat) : (j <= j')%nat -> exists C1 C2, chain A j = C1 ++ C2 /\
  end_of HEAD (addrs C1) = end_of HEAD (addrs (chain A j')).
Proof.
  intros Hj. induction A as [|e A IH] using rev_ind; [by exists [], []|].
  destruct IH as (C1 & C2 & HC & HE). rewrite !chain_app. unfold chain at 2 4. rewrite !filter_cons, !filter_nil.
  destruct (decide (j' < el e)%nat) as [Hh|Hh].
  - rewrite decide_True by lia. exists (chain A j ++ [e]), []. split; [by rewrite app_nil_r|].
    rewrite !addrs_app, !end_of_app. done.
  - rewrite app_nil_r. case_decide.
    + exists C1, (C2 ++ [e]). by rewrite HC, <- app_assoc.
    + exists C1, C2. by rewrite HC, app_nil_r.
Qed.

Lemma level_walk t E k i ret : skip_inv t E -> key_ok k -> (i < MAX_SKIP_LIST_LEVEL)%nat ->
  exists C2, walk (walk_fuel t) t k i (end_of HEAD (addrs (chain (lt_key k E) (S i)))) ret =
    Ret (end_of HEAD (addrs (chain (lt_key k E) i)), last_cmp k C2 (chain (ge_key k E) i) ret) /\
    Forall (fun e => comparator (ek e) k < 0) C2.
Proof using Type*.
  intros Hi Hk Hlev. destruct (upper_prefix (lt_key k E) i (S i) ltac:(lia)) as (C1 & C2 & HC & HE).
  exists C2. rewrite <- HE.
  assert (HC2 : Forall (fun e => comparator (ek e) k < 0) C2).
  { apply Forall_forall. intros e He. assert (Hin : e ∈ chain (lt_key k E) i) by (rewrite HC; apply elem_of_app; by right).
    apply chain_in in Hin as [_ Hin]. by apply lt_key_in in Hin as [? _]. }
  split; [|done]. rewrite (walk_spec t E k i C1 C2 (chain (ge_key k E) i)); [by rewrite HC|done|done| |done| |].
  - rewrite (inv_split _ _ k Hi Hk) at 1. by rewrite chain_app, HC, <- app_assoc.
  - destruct (chain (ge_key k E) i) as [|b B] eqn:Eb; [done|].
    assert (Hin : b ∈ chain (ge_key k E) i) by (rewrite Eb; constructor).
    apply chain_in in Hin as [_ Hin]. by apply ge_key_in in Hin as [? _].
  - unfold walk_fuel. rewrite (heap_size _ _ Hi). pose proof (inv_split _ _ k Hi Hk) as Hs.
    apply (f_equal (length (A := ent))) in Hs. rewrite length_app in Hs.
    pose proof (length_filter (fun e => (i < el e)%nat) (lt_key k E)) as Hf.
    apply (f_equal (length (A := ent))) in HC. rewrite length_app in HC. unfold chain in HC. lia.
Qed.
(** The path of a search: at every level the last node with a smaller key. *)
Lemma search_path_spec t E k i fwd : skip_inv t E -> key_ok k -> (i <= MAX_SKIP_LIST_LEVEL)%nat ->
  length fwd = MAX_SKIP_LIST_LEVEL ->
  exists fwd', search_path i t k (end_of HEAD (addrs (chain (lt_key k E) i))) fwd = Ret fwd' /\
    forall j, fwd' !! j = if decide (j < i)%nat then Some (end_of HEAD (addrs (chain (lt_key k E) j))) else fwd !! j.
Proof using Type*.
  intros Hi Hk. revert fwd. induction i as [|i IH]; intros fwd Hl Hf; cbn [search_path].
  - exists fwd. split; [done|]. intros j. by rewrite decide_False by lia.
  - destruct (level_walk t E k i (-1) Hi Hk ltac:(lia)) as (C2 & Hw & _). rewrite Hw. cbn [rbind].
    destruct (at_level_ok fwd i ltac:(lia)) as [v ->]. cbn [rbind].
    destruct (IH (<[i := end_of HEAD (addrs (chain (lt_key k E) i))]> fwd)) as (fwd' & Hr & Hj);
      [lia|by rewrite length_insert|]. exists fwd'. split; [done|]. intros j. rewrite Hj.
    destruct (decide (j < i)%nat); [by rewrite decide_True by lia|]. destruct (decide (j = i)) as [->|].
    + rewrite list_lookup_insert_eq by lia. by rewrite decide_True by lia.
    + rewrite list_lookup_insert_ne by done. by rewrite decide_False by lia.
Qed.

(** The path from the head, over all levels in use. *)
Lemma search_from_head t E k : skip_inv t E -> key_ok k ->
  exists fwd, search_path (nLevel t) t k HEAD no_path = Ret fwd /\
    forall j, (j < MAX_SKIP_LIST_LEVEL)%nat ->
      fwd !! j = Some (if decide (j < nLevel t)%nat then end_of HEAD (addrs (chain (lt_key k E) j)) else 0).
Proof using Type*.
  intros Hi Hk. destruct (search_path_spec t E k (nLevel t) no_path Hi Hk) as (fwd & Hr & Hf);
    [apply (sk_max _ _ Hi)|done|].
  assert (Hnil : chain (lt_key k E) (nLevel t) = []).
  { pose proof (chain_high _ _ _ Hi (le_n (nLevel t))) as Hc. rewrite (inv_split _ _ k Hi Hk), chain_app in Hc.
    by apply app_eq_nil in Hc as [? _]. }
  rewrite Hnil in Hr. exists fwd. split; [exact Hr|]. intros j Hj. rewrite Hf.
  destruct (decide (j < nLevel t)%nat); [done|]. by apply lookup_replicate_2.
Qed.
End Ops.
