(* ===== verification/SkipPut.v ===== *)
(** * Insertion into a skip list, and removal from it *)
From stdpp Require Import sorting.
From S2P Require Import Prelude SkipList SkipInv.

(** * Insertion into and removal from a skip list

    Insertion puts the new entry behind the entries with smaller keys and before
    the others; removal takes one entry out. *)

Section Put.
Context {K : Type} `{SkipKeyLaws K}.
Implicit Types (t : @tSkipList K) (k : K) (e : @ent K) (E A B : list (@ent K)).

(** ** The invariant and the other fields *)
Lemma skip_inv_state s t E : nLevelNodeCnt s = nLevelNodeCnt (state t) -> skip_inv t E -> skip_inv (set_state s t) E.
Proof.
  intros Hs [I1 I2 I3 I4 I5 I6 I7 I8 I9 I10 I11 I12]. constructor; try done.
  - intros i Hi. apply (lseg_frame t); [done|done|by apply I5].
  - by rewrite <- I12.
Qed.

Lemma count_mem_inv d t E : skip_inv t E -> skip_inv (count_mem d t) E.
Proof. by apply skip_inv_state. Qed.
Lemma count_query_inv t E : skip_inv t E -> skip_inv (count_query t) E.
Proof. by apply skip_inv_state. Qed.
Lemma count_steps_inv d t E : skip_inv t E -> skip_inv (count_steps d t) E.
Proof. by apply skip_inv_state. Qed.
Lemma record_put_inv t E : skip_inv t E -> skip_inv (tSkipListDoRecordPutNode t) E.
Proof. apply skip_inv_state. by destruct (nInsertObjs (state t) =? 1000). Qed.

(** The number of nodes at every level. *)
Definition counts E : list Z := map (fun i => Z.of_nat (length (chain E i))) (seq 0 MAX_SKIP_LIST_LEVEL).

Lemma counts_lookup E i : (i < MAX_SKIP_LIST_LEVEL)%nat -> counts E !! i = Some (Z.of_nat (length (chain E i))).
Proof. intros Hi. unfold counts. by rewrite list_lookup_fmap, lookup_seq_lt. Qed.

Lemma count_levels_spec d lv t E E' : (lv <= MAX_SKIP_LIST_LEVEL)%nat -> nLevelNodeCnt (state t) = counts E ->
  (forall i, (i < MAX_SKIP_LIST_LEVEL)%nat ->
    Z.of_nat (length (chain E' i)) = Z.of_nat (length (chain E i)) + if decide (i < lv)%nat then d else 0) ->
  Z.of_nat (length E') < 2 ^ 64 ->
  exists s, count_levels d lv t = Ret (set_state s t) /\ nLevelNodeCnt s = counts E'.
Proof.
  intros Hlv Hc Hd Hr. unfold count_levels. rewrite Hc.
  assert (Hlen : length (counts E) = MAX_SKIP_LIST_LEVEL) by done.
  rewrite Hlen, (proj2 (Nat.ltb_ge _ _)) by done. eexists. split; [done|]. cbn [nLevelNodeCnt].
  apply list_eq_same_length with MAX_SKIP_LIST_LEVEL; [done| |].
  - rewrite length_app, length_map, length_take, length_drop, Hlen. lia.
  - intros i x y Hi Hx Hy. rewrite counts_lookup in Hy by done. injection Hy as <-.
    specialize (Hd i Hi). rewrite Hd. pose proof (length_filter (fun e => (i < el e)%nat) E') as Hf. fold (chain E' i) in Hf.
    destruct (decide (i < lv)%nat) as [Hl|Hl].
    + rewrite lookup_app_l in Hx by (rewrite length_map, length_take, Hlen; lia).
      rewrite list_lookup_fmap, lookup_take_lt, counts_lookup in Hx by done. injection Hx as <-.
      apply wrapu_id. unfold in_u. lia.
    + rewrite lookup_app_r in Hx by (rewrite length_map, length_take, Hlen; lia).
      rewrite length_map, length_take, Hlen, lookup_drop in Hx.
      replace (lv `min` MAX_SKIP_LIST_LEVEL + (i - lv `min` MAX_SKIP_LIST_LEVEL))%nat with i in Hx by lia.
      replace (lv + (i - lv `min` MAX_SKIP_LIST_LEVEL))%nat with i in Hx by lia.
      rewrite counts_lookup in Hx by done. injection Hx as <-. lia.
Qed.
(** ** Entries in place *)
Lemma inv_addrs t E i a : skip_inv t E -> a ∈ addrs (chain E i) -> HEAD < a < brk t.
Proof. intros Hi Ha. apply (sk_addr _ _ Hi), (chain_addrs_sub _ i), Ha. Qed.

Lemma inv_nodup t E i : skip_inv t E -> NoDup (HEAD :: addrs (chain E i)).
Proof.
  intros Hi. apply NoDup_cons. split; [|apply chain_nodup, (sk_nodup _ _ Hi)].
  intros Ha. pose proof (inv_addrs _ _ _ _ Hi Ha). lia.
Qed.

Lemma inv_nz t E i : skip_inv t E -> ~ 0 ∈ addrs (chain E i).
Proof. intros Hi Ha. pose proof (inv_addrs _ _ _ _ Hi Ha). unfold HEAD in *. lia. Qed.

Lemma chain_split t E k i : skip_inv t E -> key_ok k ->
  addrs (chain E i) = addrs (chain (lt_key k E) i) ++ addrs (chain (ge_key k E) i).
Proof using Type*. intros Hi Hk. rewrite (inv_split _ _ k Hi Hk) at 1. by rewrite chain_app, addrs_app. Qed.

Lemma chain_middle A e B i : chain (A ++ e :: B) i = chain A i ++ (if decide (i < el e)%nat then [e] else []) ++ chain B i.
Proof. rewrite chain_app. f_equal. unfold chain at 1. rewrite filter_cons. by case_decide. Qed.

(** The new entry where a search for its key stops. *)
Definition put_at (e : ent) E : list ent := lt_key (ek e) E ++ e :: ge_key (ek e) E.

Lemma put_perm t E e : skip_inv t E -> key_ok (ek e) -> put_at e E ≡ₚ e :: E.
Proof using Type*. intros Hi Hk. unfold put_at. rewrite <- Permutation_middle, <- (inv_split _ _ _ Hi Hk). done. Qed.

Lemma put_sorted t E e : skip_inv t E -> key_ok (ek e) ->
  StronglySorted (fun x y => comparator (ek x) (ek y) <= 0) (put_at e E).
Proof using Type*.
  intros Hi Hk. pose proof (sk_sorted _ _ Hi) as Hs. rewrite (inv_split _ _ _ Hi Hk) in Hs.
  apply StronglySorted_app in Hs as (Hab & Ha & Hb).
  apply StronglySorted_app. split; [|split; [done|]].
  - intros x y Hx [->|Hy]%elem_of_cons; [|by apply Hab]. apply lt_key_in in Hx as [Hx _]. lia.
  - apply StronglySorted_cons. split; [|done]. apply Forall_forall. intros y [Hy Hin]%ge_key_in.
    pose proof (sk_keys _ _ Hi) as Hok. rewrite Forall_forall in Hok. pose proof (cmp_sym (ek y) (ek e) (Hok y Hin) Hk). lia.
Qed.

Lemma put_chain_length E e i :
  length (chain (put_at e E) i) = (length (chain (lt_key (ek e) E ++ ge_key (ek e) E) i) + if decide (i < el e)%nat then 1 else 0)%nat.
Proof. unfold put_at. rewrite chain_middle, chain_app, !length_app. case_decide; cbn [length]; lia. Qed.

Lemma put_counts t E e s lv : skip_inv t E -> key_ok (ek e) -> lv = el e -> (lv <= MAX_SKIP_LIST_LEVEL)%nat ->
  state t = s -> Z.of_nat (length E) + 1 < 2 ^ 64 ->
  exists s', count_levels 1 lv t = Ret (set_state s' t) /\ nLevelNodeCnt s' = counts (put_at e E).
Proof using Type*.
  intros Hi Hk -> Hlv <- Hr. apply count_levels_spec with E; [done|apply (sk_cnt _ _ Hi)| |].
  - intros i _. rewrite put_chain_length, <- (inv_split _ _ _ Hi Hk). case_decide; lia.
  - rewrite (Permutation_length (put_perm _ _ _ Hi Hk)). cbn [length]. lia.
Qed.
(** ** Linking the new node *)
Lemma new_node_forward n t y j : y <> brk t -> get_forward (new_node n t) y j = get_forward t y j.
Proof. intros Hy. unfold get_forward, node_at. cbn [pHead heap new_node]. by rewrite lookup_insert_ne by done. Qed.

Lemma new_node_backward n t y j : y <> brk t -> get_backward (new_node n t) y j = get_backward t y j.
Proof. intros Hy. unfold get_backward, node_at. cbn [heap new_node]. by rewrite lookup_insert_ne by done. Qed.

Lemma new_node_links n t E s : skip_inv t E -> forall i, (i < MAX_SKIP_LIST_LEVEL)%nat ->
  lseg (new_node n (set_state s t)) i HEAD (addrs (chain E i)) 0.
Proof.
  intros Hi i Hl. pose proof (sk_addr _ _ Hi) as [Hb _]. apply (lseg_frame t); [| |by apply (sk_links _ _ Hi)].
  - intros y Hy. apply (new_node_forward n (set_state s t)). cbn [brk set_state].
    destruct Hy as [->|Hy]; [lia|]. pose proof (inv_addrs _ _ _ _ Hi Hy). lia.
  - intros y Hy. apply (new_node_backward n (set_state s t)). cbn [brk set_state].
    pose proof (inv_addrs _ _ _ _ Hi Hy). lia.
Qed.

(** A search path whose missing levels are empty. *)
Definition path_ok E k lv (fwd : list Z) : Prop := forall j, (j < lv)%nat ->
  fwd !! j = Some (end_of HEAD (addrs (chain (lt_key k E) j))) \/
  fwd !! j = Some 0 /\ addrs (chain (lt_key k E) j) = [] /\ addrs (chain (ge_key k E) j) = [].

Lemma do_insert_links t E e fwd s : skip_inv t E -> key_ok (ek e) -> ea e = brk t -> (el e <= MAX_SKIP_LIST_LEVEL)%nat ->
  path_ok E (ek e) (el e) fwd ->
  let t1 := new_node (tSkipListCreateNode (ed e) (ek e) (el e)) (set_state s t) in
  exists t', tSkipListDoInsert fwd (el e) (brk t) t1 = Ret t' /\ same t1 t' /\
    forall i, (i < MAX_SKIP_LIST_LEVEL)%nat -> lseg t' i HEAD (addrs (chain (put_at e E) i)) 0.
Proof using Type*.
  intros Hi Hk Hp Hlv Hf t1. pose proof (sk_addr _ _ Hi) as [Hb _].
  assert (Hn : heap t1 !! brk t = Some (tSkipListCreateNode (ed e) (ek e) (el e))) by apply lookup_insert_eq.
  unfold tSkipListDoInsert.
  destruct (insert_levels_spec (fun j => addrs (chain (lt_key (ek e) E) j)) (fun j => addrs (chain (ge_key (ek e) E) j))
    fwd (brk t) (el e) 0 t1) as (t' & Hr & [Hs Hw] & Hl).
  - lia.
  - unfold HEAD in Hb. lia.
  - intros j Hj. apply Hf. lia.
  - intros j Hj. rewrite <- (chain_split t E (ek e) j Hi Hk). split; [by apply (inv_nodup t)|].
    split; [intros Ha; pose proof (inv_addrs _ _ _ _ Hi Ha); lia|]. split; [by apply (inv_nz t)|].
    split; [apply new_node_links; [done|lia]|].
    unfold get_forward, get_backward, node_at. rewrite (proj2 (Z.eqb_neq (brk t) HEAD)) by lia. rewrite Hn. cbn [rbind].
    unfold at_level. cbn [pForward pBackward tSkipListCreateNode]. rewrite !lookup_replicate_2 by lia. split; [done|by exists 0].
  - exists t'. split; [done|]. split; [done|]. intros i Hi'. unfold put_at. rewrite chain_middle, !addrs_app.
    case_decide.
    + unfold addrs at 2. cbn [map app]. rewrite Hp. apply Hl. lia.
    + cbn [addrs map app]. rewrite <- (chain_split t E (ek e) i Hi Hk).
      eapply within_lseg; [split; [exact Hs|exact Hw]|lia|]. by apply new_node_links.
Qed.

(** The invariant after an insertion, apart from the links. *)
Lemma put_inv t E e s t' z : skip_inv t E -> key_ok (ek e) -> ea e = brk t -> (1 <= el e <= nLevel t)%nat ->
  Z.of_nat (length E) + 1 < 2 ^ 64 -> nLevelNodeCnt s = counts (put_at e E) -> z = nSize t + 1 ->
  same (new_node (tSkipListCreateNode (ed e) (ek e) (el e)) (set_state s t)) t' ->
  (forall i, (i < MAX_SKIP_LIST_LEVEL)%nat -> lseg t' i HEAD (addrs (chain (put_at e E) i)) 0) ->
  skip_inv (set_size z t') (put_at e E).
Proof using Type*.
  intros Hi Hk Hp Hlv Hr Hc -> Hs Hl. pose proof (put_perm _ _ _ Hi Hk) as HP.
  assert (HPa : addrs (put_at e E) ≡ₚ brk t :: addrs E) by (unfold addrs; rewrite HP; cbn [map]; by rewrite Hp).
  destruct (sm_rest _ _ Hs) as (R1 & R2 & R3 & R4 & R5 & R6). cbn [brk nSize nMaxLevel nLevel rand state new_node set_state] in *.
  destruct (sk_addr _ _ Hi) as [Hb Ha]. destruct (sk_size _ _ Hi) as [Hsz _].
  constructor; cbn [heap brk nSize nMaxLevel nLevel state pHead set_size].
  - intros x Hx. rewrite HP in Hx. apply elem_of_cons in Hx as [->|Hx].
    + rewrite Hp. destruct (same_node _ _ (brk t) (tSkipListCreateNode (ed e) (ek e) (el e)) Hs) as (n' & -> & Hsh);
        [apply lookup_insert_eq|]. exists n'. split; [done|]. rewrite Hsh. unfold shape. cbn. by rewrite !length_replicate.
    + destruct (sk_nodes _ _ Hi x Hx) as (n & En & Hsh). pose proof (Ha _ (addrs_in _ _ Hx)) as Hxa.
      destruct (same_node _ _ (ea x) n Hs) as (n' & -> & Hsh').
      * cbn [heap new_node set_state]. rewrite lookup_insert_ne; [done|cbn [brk set_state]; lia].
      * exists n'. split; [done|]. by rewrite Hsh'.
  - intros a Hd. rewrite HPa. destruct (decide (a = brk t)) as [->|Hne]; [constructor|]. constructor.
    apply (sk_dom _ _ Hi). destruct (heap t !! a) eqn:E1; [by eexists|].
    rewrite (same_none _ _ a Hs) in Hd; [by destruct Hd|]. cbn [heap new_node set_state]. by rewrite lookup_insert_ne.
  - rewrite HPa. apply NoDup_cons. split; [|apply (sk_nodup _ _ Hi)]. intros Hin. specialize (Ha _ Hin). lia.
  - rewrite R1. split; [lia|]. intros a Hin. rewrite HPa in Hin. apply elem_of_cons in Hin as [->|Hin]; [lia|].
    specialize (Ha _ Hin). lia.
  - intros i Hi'. apply (lseg_frame t'); [done|done|by apply Hl].
  - by apply (put_sorted t).
  - rewrite HP. constructor; [done|apply (sk_keys _ _ Hi)].
  - rewrite HP, R4. constructor; [done|apply (sk_levels _ _ Hi)].
  - rewrite R3, R4. apply (sk_max _ _ Hi).
  - rewrite (sm_head _ _ Hs). apply (sk_head _ _ Hi).
  - rewrite HP. cbn [length]. lia.
  - rewrite R6. exact Hc.
Qed.
(** ** The level of a new node *)
Lemma height_loop_total fuel s n : 1 <= n <= 21 -> 22 - n <= Z.of_nat fuel ->
  exists s' h, height_loop fuel s n = Ret (s', h) /\ n <= h <= 21.
Proof.
  revert s n. induction fuel as [|fuel IH]; intros s n Hn Hf; [lia|]. cbn [height_loop].
  destruct (doGetRand s (Z.of_nat MAX_SKIP_LIST_LEVEL)) as [s' r].
  destruct ((Z.rem r 4 =? 0) && (n <=? Z.of_nat MAX_SKIP_LIST_LEVEL)) eqn:E.
  - apply andb_prop in E as [_ Hle%Z.leb_le]. unfold MAX_SKIP_LIST_LEVEL in Hle.
    destruct (IH s' (n + 1)) as (s2 & h & -> & Hh); [lia|lia|]. exists s2, h. split; [done|lia].
  - exists s', n. split; [done|lia].
Qed.

Lemma height_total s : exists s' h, getSkipListNodeRandomHeight s = Ret (s', h) /\ 1 <= h <= 21.
Proof. apply height_loop_total; unfold MAX_SKIP_LIST_LEVEL; lia. Qed.

(** The list can still grow a level, or the height drawn next has one. *)
Definition level_ok t : Prop :=
  nSize t = 0 \/ (nLevel t < MAX_SKIP_LIST_LEVEL)%nat \/
  forall s h, getSkipListNodeRandomHeight (rand t) = Ret (s, h) -> h <= Z.of_nat MAX_SKIP_LIST_LEVEL.

Lemma skip_inv_level t E l s : skip_inv t E -> Forall (fun e => (el e <= l)%nat) E -> (l <= MAX_SKIP_LIST_LEVEL)%nat ->
  skip_inv (set_level l s t) E.
Proof.
  intros [I1 I2 I3 I4 I5 I6 I7 I8 I9 I10 I11 I12] Hl Hm. constructor; try done.
  - intros i Hi. apply (lseg_frame t); [done|done|by apply I5].
  - apply Forall_forall. intros e He. rewrite Forall_forall in I8, Hl. specialize (I8 e He). specialize (Hl e He).
    cbn [nLevel set_level]. lia.
  - split; [done|apply I9].
Qed.

Lemma getSkipListNodeLevel_spec t E : skip_inv t E -> level_ok t ->
  exists lv l s, getSkipListNodeLevel t = Ret (lv, set_level l s t) /\ (1 <= lv <= l)%nat /\ skip_inv (set_level l s t) E.
Proof.
  intros Hi Hok. unfold getSkipListNodeLevel. destruct (height_total (rand t)) as (s & h & Hh & Hr). rewrite Hh. cbn [rbind].
  destruct (sk_max _ _ Hi) as [Hm Hmx]. destruct (sk_size _ _ Hi) as [Hsz _]. pose proof (sk_levels _ _ Hi) as Hlv.
  destruct (Z.eqb_spec (nSize t) 0) as [Hz|Hz].
  - exists 1%nat, 1%nat, s. split; [done|]. split; [lia|]. destruct E; [|cbn [length] in Hsz; lia].
    apply skip_inv_level; [done|constructor|unfold MAX_SKIP_LIST_LEVEL; lia].
  - rewrite Hmx. destruct ((nLevel t <? Z.to_nat h)%nat && (nLevel t <? MAX_SKIP_LIST_LEVEL)%nat) eqn:Eb.
    + apply andb_prop in Eb as [_ Hlt%Nat.ltb_lt]. exists (S (nLevel t)), (S (nLevel t)), s. split; [done|].
      split; [lia|]. apply skip_inv_level; [done| |lia]. eapply Forall_impl; [exact Hlv|]. cbn. lia.
    + exists (Z.to_nat h), (nLevel t), s. split; [done|]. split.
      * split; [lia|]. apply andb_false_iff in Eb as [Hge%Nat.ltb_ge|Hge%Nat.ltb_ge]; [done|].
        destruct Hok as [?|[?|Hok]]; [done|lia|]. specialize (Hok s h Hh). lia.
      * apply skip_inv_level; [done| |done]. eapply Forall_impl; [exact Hlv|]. cbn. lia.
Qed.

(** ** [tSkipListPut] *)
(** No node is found equal: the path ends at a smaller key. *)
Lemma put_not_found t E k (fwd : list Z) x : skip_inv t E -> key_ok k -> x = end_of HEAD (addrs (chain (lt_key k E) 0)) ->
  fwd !! 0%nat = Some x -> x <> HEAD -> exists n, node_at t x = Ret n /\ (comparator (key n) k =? 0) = false.
Proof using Type*.
  intros Hi Hk -> Hf Hne. destruct (end_of_in HEAD (addrs (chain (lt_key k E) 0))) as [|Hin]; [done|].
  apply list_elem_of_fmap in Hin as (e & -> & [_ [Hlt He]%lt_key_in]%chain_in).
  destruct (node_of _ _ _ Hi He) as (n & Hn & Hkey & _). exists n. split; [done|]. rewrite Hkey. apply Z.eqb_neq. lia.
Qed.

Lemma tSkipListPut_spec t E d k ident : skip_inv t E -> key_ok k -> level_ok t -> Z.of_nat (length E) + 1 < 2 ^ 64 ->
  ident <> 0 \/ (0 < nLevel t)%nat ->
  exists lv t', tSkipListPut d k ident t = Ret (brk t, t') /\ skip_inv t' (put_at (Ent (brk t) k d lv) E) /\ brk t' = brk t + 1.
Proof using Type*.
  intros Hi Hk Hok Hr Hid. unfold tSkipListPut.
  pose proof (record_put_inv _ _ Hi) as Hi1. destruct (search_from_head _ _ k Hi1 Hk) as (fwd & Hs & Hf). rewrite Hs. cbn [rbind].
  pose proof (count_steps_inv (Z.of_nat (nLevel (tSkipListDoRecordPutNode t))) _ _ Hi1) as Hi2.
  set (t2 := count_steps _ _) in *. pose proof (Hf 0%nat ltac:(unfold MAX_SKIP_LIST_LEVEL; lia)) as Hf0.
  unfold at_level. rewrite Hf0. cbn [rbind]. change (nLevel (tSkipListDoRecordPutNode t)) with (nLevel t) in *.
  set (x := if decide (0 < nLevel t)%nat then _ else 0) in *.
  assert (Hfound : (if (ident =? 0) && negb (x =? HEAD) then let! n := node_at t2 x in Ret (comparator (key n) k =? 0) else Ret false) = Ret false).
  { destruct (Z.eqb_spec ident 0) as [Hz|]; [|done]. destruct (Z.eqb_spec x HEAD) as [|Hx]; [done|]. cbn [andb negb].
    destruct Hid as [?|Hid]; [done|].
    destruct (put_not_found t2 E k fwd x Hi2 Hk) as (n & -> & Hc); [unfold x; by rewrite decide_True|done|done|].
    cbn [rbind]. by rewrite Hc. }
  rewrite Hfound. cbn [rbind].
  destruct (getSkipListNodeLevel_spec t2 E Hi2 Hok) as (lv & l & s & -> & Hlv & Hi3). cbn [rbind].
  pose (e := Ent (brk t) k d lv).
  assert (Hl20 : (lv <= MAX_SKIP_LIST_LEVEL)%nat) by (pose proof (sk_max _ _ Hi3) as [Hm _]; cbn [nLevel set_level] in Hm; lia).
  destruct (put_counts _ E e _ lv Hi3 Hk eq_refl Hl20 eq_refl Hr) as (s' & Hcnt & Hs'). rewrite Hcnt. cbn [rbind].
  destruct (do_insert_links _ E e fwd s' Hi3 Hk eq_refl Hl20) as (t4 & Hins & Hsame & Hlinks).
  { intros j Hj. cbn [el e] in Hj. cbn [ek e]. rewrite Hf by lia. destruct (decide (j < nLevel t)%nat) as [Hjl|Hjl]; [by left|right].
    pose proof (chain_split _ _ k j Hi Hk) as Hc. rewrite (chain_high _ _ j Hi) in Hc by lia.
    symmetry in Hc. apply app_eq_nil in Hc as [-> ->]. done. }
  cbn [ed ek el e] in Hins. cbn [brk set_state] in Hins |- *. rewrite Hins. cbn [rbind].
  pose proof (put_inv _ E e s' t4 (u64 (nSize t4 + 1)) Hi3 Hk eq_refl) as Hfin.
  destruct (sm_rest _ _ Hsame) as (R1 & R2 & _).
  exists lv, (count_mem (getOneNodeSize k lv) (set_size (u64 (nSize t4 + 1)) t4)). split; [|split].
  - done.
  - apply count_mem_inv, Hfin; try done. rewrite R2. apply wrapu_id.
    pose proof (sk_size _ _ Hi) as [Hsz _]. unfold in_u. cbn [nSize new_node set_state set_level]. change (nSize t2) with (nSize t). lia.
  - cbn [brk count_mem set_size set_state]. by rewrite R1.
Qed.
End Put.

(** * Removal from a skip list, and its destruction *)

Section Remove.
Context {K : Type} `{SkipKeyLaws K}.
Implicit Types (t : @tSkipList K) (k : K) (e : @ent K) (E A B : list (@ent K)).

Lemma inv_sub_nodup A e B : NoDup (addrs (A ++ e :: B)) -> NoDup (addrs (A ++ B)) /\ ~ ea e ∈ addrs (A ++ B).
Proof.
  intros Hnd. assert (HP : addrs (A ++ e :: B) ≡ₚ ea e :: addrs (A ++ B)) by (unfold addrs; by rewrite <- Permutation_middle).
  rewrite HP in Hnd. by apply NoDup_cons in Hnd as [? ?].
Qed.

Lemma drop_in A e B x : x ∈ A ++ B -> x ∈ A ++ e :: B.
Proof. rewrite !elem_of_app, elem_of_cons. tauto. Qed.

(** A free of the node of [e] after its links are gone. *)
Lemma freed_links t a i l : ~ a ∈ l -> a <> HEAD -> lseg t i HEAD l 0 ->
  lseg (set_heap (delete a (heap t)) t) i HEAD l 0.
Proof.
  intros Ha Hh. apply lseg_frame.
  - intros y Hy. unfold get_forward, node_at. cbn [heap pHead set_heap]. rewrite lookup_delete_ne; [done|].
    intros <-. by destruct Hy.
  - intros y Hy. unfold get_backward, node_at. cbn [heap set_heap]. rewrite lookup_delete_ne; [done|]. by intros <-.
Qed.

Lemma remove_links t A e B fwd : skip_inv t (A ++ e :: B) ->
  (forall i, (i < el e)%nat -> fwd !! i = Some (end_of HEAD (addrs (chain A i)))) ->
  exists t', remove_levels (el e) fwd t = Ret t' /\ same t t' /\
    forall i, (i < MAX_SKIP_LIST_LEVEL)%nat -> lseg t' i HEAD (addrs (chain (A ++ B) i)) 0.
Proof.
  intros Hi Hf. pose proof (sk_levels _ _ Hi) as Hlv. rewrite Forall_forall in Hlv.
  assert (He : e ∈ A ++ e :: B) by (apply elem_of_app; right; constructor).
  specialize (Hlv e He). pose proof (sk_max _ _ Hi) as [Hm _].
  assert (Hch : forall i, (i < el e)%nat ->
    addrs (chain A i) ++ ea e :: addrs (chain B i) = addrs (chain (A ++ e :: B) i)).
  { intros i Hl. rewrite chain_middle, decide_True by done. by rewrite !addrs_app. }
  destruct (remove_levels_spec (fun i => addrs (chain A i)) (fun i => addrs (chain B i)) fwd (ea e) (el e) t Hf)
    as (t' & Hr & [Hs Hw] & Hl).
  - intros i Hl. rewrite (Hch i Hl). split; [by apply (inv_nodup t)|]. split; [by apply (inv_nz t)|].
    apply (sk_links _ _ Hi). lia.
  - exists t'. split; [done|]. split; [done|]. intros i Hl'. destruct (decide (i < el e)%nat) as [Hlt|Hge].
    + rewrite chain_app, addrs_app. by apply Hl.
    + eapply within_lseg; [split; [exact Hs|exact Hw]|lia|]. pose proof (sk_links _ _ Hi i Hl') as Hc.
      rewrite chain_middle, decide_False in Hc by done. by rewrite chain_app.
Qed.

(** The invariant after a node is unlinked and freed. *)
Lemma remove_inv t A e B t' s z : skip_inv t (A ++ e :: B) -> same t t' ->
  (forall i, (i < MAX_SKIP_LIST_LEVEL)%nat -> lseg t' i HEAD (addrs (chain (A ++ B) i)) 0) ->
  nLevelNodeCnt s = counts (A ++ B) -> z = nSize t - 1 ->
  skip_inv (set_size z (set_heap (delete (ea e) (heap t')) (set_state s t'))) (A ++ B).
Proof.
  intros Hi Hs Hl Hc ->. destruct (sm_rest _ _ Hs) as (R1 & R2 & R3 & R4 & R5 & R6).
  destruct (sk_addr _ _ Hi) as [Hb Ha]. destruct (sk_size _ _ Hi) as [Hsz Hr]. rewrite length_app in Hsz, Hr. cbn [length] in Hsz, Hr.
  destruct (inv_sub_nodup _ _ _ (sk_nodup _ _ Hi)) as [Hnd Hni].
  constructor; cbn [heap brk nSize nMaxLevel nLevel state pHead set_size set_heap set_state].
  - intros x Hx. destruct (sk_nodes _ _ Hi x (drop_in _ _ _ _ Hx)) as (n & En & Hsh).
    destruct (same_node _ _ _ _ Hs En) as (n' & En' & Hsh'). exists n'.
    rewrite lookup_delete_ne, En'; [by rewrite Hsh'|]. intros E1. apply Hni. rewrite E1. by apply addrs_in.
  - intros a [n Hn]. apply lookup_delete_Some in Hn as [Hne Hn].
    assert (Hin : a ∈ addrs (A ++ e :: B)).
    { apply (sk_dom _ _ Hi). destruct (heap t !! a) eqn:E1; [by eexists|]. by rewrite (same_none _ _ a Hs E1) in Hn. }
    unfold addrs in Hin |- *. rewrite map_app in Hin |- *. cbn [map] in Hin.
    apply elem_of_app in Hin as [|[->|]%elem_of_cons]; [|done|]; apply elem_of_app; tauto.
  - done.
  - rewrite R1. split; [done|]. intros a (x & -> & Hx)%list_elem_of_fmap. apply Ha, addrs_in. by apply drop_in.
  - intros i Hi'. apply (lseg_frame (set_heap (delete (ea e) (heap t')) t')); [done|done|].
    apply freed_links; [|pose proof (Ha (ea e) ltac:(apply addrs_in, elem_of_app; right; constructor)); lia|by apply Hl].
    intros Hin. by apply Hni, (chain_addrs_sub _ i).
  - pose proof (sk_sorted _ _ Hi) as Hso. apply StronglySorted_app in Hso as (H1 & H2 & H3%StronglySorted_cons).
    apply StronglySorted_app. split; [|tauto]. intros x y Hx Hy. apply H1; [done|]. by constructor.
  - pose proof (sk_keys _ _ Hi) as Hok. apply Forall_app in Hok as [? [_ ?]%Forall_cons]. by apply Forall_app.
  - pose proof (sk_levels _ _ Hi) as Hok. rewrite R4. apply Forall_app in Hok as [? [_ ?]%Forall_cons]. by apply Forall_app.
  - rewrite R3, R4. apply (sk_max _ _ Hi).
  - rewrite (sm_head _ _ Hs). apply (sk_head _ _ Hi).
  - rewrite length_app. lia.
  - done.
Qed.
Lemma remove_counts t A e B lv : skip_inv t (A ++ e :: B) -> lv = el e ->
  forall t', nLevelNodeCnt (state t') = nLevelNodeCnt (state t) ->
  exists s', count_levels (-1) lv t' = Ret (set_state s' t') /\ nLevelNodeCnt s' = counts (A ++ B).
Proof.
  intros Hi -> t' Hst. pose proof (sk_levels _ _ Hi) as Hlv. apply Forall_app in Hlv as [_ [Hlv _]%Forall_cons].
  pose proof (sk_max _ _ Hi) as [Hm _]. destruct (sk_size _ _ Hi) as [_ Hr]. rewrite length_app in Hr. cbn [length] in Hr.
  apply count_levels_spec with (A ++ e :: B); [lia|by rewrite Hst, (sk_cnt _ _ Hi)| |rewrite length_app; lia].
  intros i Hl. rewrite chain_middle, chain_app, !length_app. case_decide; cbn [length]; lia.
Qed.

(** A removal allocates nothing, draws no number and adds no level. *)
Definition quiet t t' : Prop := brk t' = brk t /\ rand t' = rand t /\ (nLevel t' <= nLevel t)%nat.

Lemma doRemove_spec t A e B fwd : skip_inv t (A ++ e :: B) ->
  (forall i, (i < el e)%nat -> fwd !! i = Some (end_of HEAD (addrs (chain A i)))) ->
  exists t', doRemove (ea e) fwd t = Ret t' /\ skip_inv t' (A ++ B) /\ quiet t t'.
Proof.
  intros Hi Hf. unfold doRemove.
  destruct (node_of _ _ e Hi) as (n & -> & _ & _ & Hn & _); [apply elem_of_app; right; constructor|]. cbn [rbind]. rewrite Hn.
  destruct (remove_links t A e B fwd Hi Hf) as (t1 & -> & Hs & Hl). cbn [rbind].
  set (t2 := count_mem _ t1).
  destruct (sm_rest _ _ Hs) as (R1 & R2 & R3 & R4 & R5 & R6).
  destruct (remove_counts t A e B (el e) Hi eq_refl t2) as (s' & -> & Hc); [by cbn [t2 count_mem state set_state nLevelNodeCnt]; rewrite R6|].
  cbn [rbind]. eexists. split; [done|]. split; [|by split; [|split; [|apply Nat.eq_le_incl]]].
  assert (Hz : u64 (nSize (set_state s' t2) - 1) = nSize t - 1).
  { cbn [nSize set_state t2 count_mem]. rewrite R2. apply wrapu_id. destruct (sk_size _ _ Hi) as [-> Hr].
    rewrite length_app in Hr |- *. cbn [length] in *. unfold in_u. lia. }
  rewrite Hz. exact (remove_inv t A e B t1 s' _ Hi Hs Hl Hc eq_refl).
Qed.

Lemma head_link t E i : skip_inv t E -> (i < MAX_SKIP_LIST_LEVEL)%nat ->
  at_level (pHead t) i = Ret (first_of (addrs (chain E i)) 0).
Proof. intros Hi Hl. exact (lseg_forward t i HEAD [] (addrs (chain E i)) 0 (sk_links _ _ Hi i Hl)). Qed.

Lemma first_nz t E i : skip_inv t E -> first_of (addrs (chain E i)) 0 = 0 -> chain E i = [].
Proof.
  intros Hi Hz. pose proof (inv_nz t E i Hi) as Hn. destruct (chain E i) as [|x l]; [done|]. cbn in Hz.
  exfalso. apply Hn. rewrite <- Hz. constructor.
Qed.

Lemma lower_level_spec t E level : skip_inv t E -> (level <= MAX_SKIP_LIST_LEVEL)%nat ->
  exists l, lower_level level t = Ret l /\ (l <= level)%nat /\ (l = 0%nat \/ chain E (l - 1) <> []) /\
    forall i, (l <= i < level)%nat -> chain E i = [].
Proof.
  intros Hi. induction level as [|level IH]; intros Hl; cbn [lower_level].
  - exists 0%nat. split; [done|]. split; [done|]. split; [by left|lia].
  - rewrite (head_link t E) by done. cbn [rbind].
    destruct (Z.eqb_spec (first_of (addrs (chain E level)) 0) 0) as [Hz|Hz].
    + destruct IH as (l & -> & Hle & Hne & Hem); [lia|]. exists l. split; [done|]. split; [lia|]. split; [done|].
      intros i Hr. destruct (decide (i = level)) as [->|]; [by apply (first_nz t)|apply Hem; lia].
    + exists (S level). split; [done|]. split; [done|]. split; [|lia]. right. intros Hc. apply Hz.
      replace (S level - 1)%nat with level in Hc by lia. by rewrite Hc.
Qed.

(** The level in use is that of the highest node. *)
Definition tight t E : Prop := nLevel t = 0%nat \/ chain E (nLevel t - 1) <> [].

Lemma lower_inv t E : skip_inv t E -> exists l, lower_level (nLevel t) t = Ret l /\ (l <= nLevel t)%nat /\
  skip_inv (set_level l (rand t) t) E /\ tight (set_level l (rand t) t) E.
Proof.
  intros Hi. pose proof (sk_max _ _ Hi) as [Hm _]. destruct (lower_level_spec t E (nLevel t) Hi Hm) as (l & -> & Hle & Hti & Hem).
  exists l. split; [done|]. split; [done|]. split; [|done]. apply skip_inv_level; [done| |lia].
  pose proof (sk_levels _ _ Hi) as Hlv. rewrite Forall_forall in Hlv |- *. intros x Hx. specialize (Hlv x Hx).
  destruct (decide (el x <= l)%nat) as [|Hgt]; [done|]. exfalso.
  assert (Hin : x ∈ chain E (el x - 1)) by (apply chain_in; split; [lia|done]).
  rewrite Hem in Hin by lia. by apply elem_of_nil in Hin.
Qed.

(** What [removeSupport] looks at. *)
Lemma first_link t A e B : skip_inv t (A ++ e :: B) -> end_of HEAD (addrs (chain A 0)) <> 0 /\
  get_forward t (end_of HEAD (addrs (chain A 0))) 0 = Ret (ea e).
Proof.
  intros Hi. pose proof (sk_levels _ _ Hi) as Hlv. apply Forall_app in Hlv as [_ [Hlv _]%Forall_cons].
  pose proof (sk_links _ _ Hi 0%nat ltac:(unfold MAX_SKIP_LIST_LEVEL; lia)) as Hl. pose proof (inv_nz _ _ 0%nat Hi) as Hz.
  rewrite chain_middle, decide_True, !addrs_app in Hl, Hz by lia. cbn [addrs map app] in Hl, Hz.
  split; [apply end_of_nz; intros ?; apply Hz, elem_of_app; by left|exact (lseg_forward _ _ _ _ _ _ Hl)].
Qed.

Lemma removeSupport_spec t A e B fwd k : skip_inv t (A ++ e :: B) ->
  (forall i, (i < el e)%nat -> fwd !! i = Some (end_of HEAD (addrs (chain A i)))) -> comparator (ek e) k = 0 ->
  exists t', removeSupport fwd k t = Ret (true, t') /\ skip_inv t' (A ++ B) /\ tight t' (A ++ B) /\ quiet t t'.
Proof.
  intros Hi Hf Hk. assert (He : e ∈ A ++ e :: B) by (apply elem_of_app; right; constructor).
  pose proof (sk_levels _ _ Hi) as Hlv. rewrite Forall_forall in Hlv. specialize (Hlv e He).
  pose proof (sk_max _ _ Hi) as [Hm _]. unfold removeSupport, at_level. rewrite (Hf 0%nat) by lia. cbn [rbind].
  destruct (first_link t A e B Hi) as [Hnz Hl].
  rewrite (proj2 (Z.eqb_neq _ _) Hnz), Hl. cbn [rbind].
  destruct (node_of _ _ e Hi He) as (n & -> & Hkey & _). cbn [rbind]. rewrite Hkey, Hk. cbn [Z.eqb].
  destruct (doRemove_spec t A e B fwd Hi Hf) as (t1 & -> & Hi1 & Hb1 & Hr1 & Hl1). cbn [rbind].
  destruct (lower_inv _ _ Hi1) as (l & -> & Hle & Hi2 & Ht2). cbn [rbind]. eexists. split; [done|]. split; [done|].
  split; [done|]. split; [done|]. split; [done|]. cbn [nLevel set_level]. lia.
Qed.

(** ** [tSkipListRemove] *)
Lemma path_chain t E k e B (fwd : list Z) : skip_inv t E -> E = lt_key k E ++ e :: B ->
  (forall j, (j < MAX_SKIP_LIST_LEVEL)%nat ->
     fwd !! j = Some (if decide (j < nLevel t)%nat then end_of HEAD (addrs (chain (lt_key k E) j)) else 0)) ->
  forall i, (i < el e)%nat -> fwd !! i = Some (end_of HEAD (addrs (chain (lt_key k E) i))).
Proof.
  intros Hi Hs Hf i Hl. pose proof (sk_levels _ _ Hi) as Hlv. rewrite Forall_forall in Hlv.
  specialize (Hlv e ltac:(rewrite Hs; apply elem_of_app; right; constructor)).
  pose proof (sk_max _ _ Hi) as [Hm _]. rewrite Hf by lia. by rewrite decide_True by lia.
Qed.

Lemma tSkipListRemove_found t E k e B : skip_inv t E -> key_ok k -> ge_key k E = e :: B -> comparator (ek e) k = 0 ->
  exists t', tSkipListRemove k t = Ret (true, t') /\ skip_inv t' (lt_key k E ++ B) /\ tight t' (lt_key k E ++ B) /\ quiet t t'.
Proof using Type*.
  intros Hi Hk Hge He. unfold tSkipListRemove. destruct (search_from_head t E k Hi Hk) as (fwd & -> & Hf). cbn [rbind].
  pose proof (inv_split _ _ k Hi Hk) as Hs. rewrite Hge in Hs.
  pose proof (path_chain t E k e B fwd Hi Hs Hf) as Hp.
  apply (removeSupport_spec t (lt_key k E) e B fwd k); [by rewrite <- Hs|done|done].
Qed.

(** No such key, and a larger one. *)
Lemma tSkipListRemove_absent t E k e B : skip_inv t E -> key_ok k -> ge_key k E = e :: B -> comparator (ek e) k <> 0 ->
  tSkipListRemove k t = Ret (false, t).
Proof using Type*.
  intros Hi Hk Hge He. unfold tSkipListRemove. destruct (search_from_head t E k Hi Hk) as (fwd & -> & Hf). cbn [rbind].
  pose proof (inv_split _ _ k Hi Hk) as Hs. rewrite Hge in Hs. pose proof (path_chain t E k e B fwd Hi Hs Hf) as Hp.
  assert (Hin : e ∈ E) by (rewrite Hs; apply elem_of_app; right; constructor).
  pose proof (sk_levels _ _ Hi) as Hlv. rewrite Forall_forall in Hlv. specialize (Hlv e Hin).
  pose proof (sk_max _ _ Hi) as [Hm _].
  unfold removeSupport, at_level. rewrite (Hp 0%nat) by lia. cbn [rbind].
  destruct (first_link t (lt_key k E) e B) as [Hnz Hl]; [by rewrite <- Hs|].
  rewrite (proj2 (Z.eqb_neq _ _) Hnz), Hl. cbn [rbind].
  destruct (node_of _ _ e Hi) as (n & -> & Hkey & _); [done|]. cbn [rbind].
  by rewrite Hkey, (proj2 (Z.eqb_neq _ _) He).
Qed.
(** All keys smaller: the node looked at is [NULL]. *)
Lemma tSkipListRemove_null t E k : skip_inv t E -> key_ok k -> ge_key k E = [] -> tSkipListRemove k t = Undef.
Proof using Type*.
  intros Hi Hk Hge. unfold tSkipListRemove. destruct (search_from_head t E k Hi Hk) as (fwd & -> & Hf). cbn [rbind].
  pose proof (inv_split _ _ k Hi Hk) as Hs. rewrite Hge, app_nil_r in Hs.
  assert (H0' : (0 < MAX_SKIP_LIST_LEVEL)%nat) by (unfold MAX_SKIP_LIST_LEVEL; lia).
  unfold removeSupport, at_level. rewrite (Hf 0%nat H0'). cbn [rbind].
  destruct (decide (0 < nLevel t)%nat); [|done].
  pose proof (inv_nz _ _ 0%nat Hi) as Hz. pose proof (sk_links _ _ Hi 0%nat H0') as Hl.
  rewrite <- Hs. rewrite <- (app_nil_r (addrs (chain E 0))) in Hl.
  rewrite (proj2 (Z.eqb_neq _ _) (end_of_nz _ Hz)), (lseg_forward _ _ _ _ _ _ Hl). cbn [rbind first_of].
  unfold node_at. destruct (heap t !! 0) eqn:E0; [|done]. exfalso.
  pose proof (sk_dom _ _ Hi 0 ltac:(by eexists)) as Hin. destruct (sk_addr _ _ Hi) as [_ Ha]. specialize (Ha 0 Hin).
  unfold HEAD in Ha. lia.
Qed.

(** ** [tSkipListRemoveNode] *)
Lemma back_links_spec t a (f : nat -> Z) count i fwd : (i + count <= length fwd)%nat ->
  (forall j, (i <= j < i + count)%nat -> get_backward t a j = Ret (f j)) ->
  exists fwd', back_links count i t a fwd = Ret fwd' /\
    forall j, (j < i + count)%nat -> fwd' !! j = if decide (i <= j)%nat then Some (f j) else fwd !! j.
Proof.
  revert i fwd. induction count as [|count IH]; intros i fwd Hl Hb; cbn [back_links].
  - exists fwd. split; [done|]. intros j Hj. by rewrite decide_False by lia.
  - rewrite Hb by lia. cbn [rbind]. destruct (at_level_ok fwd i ltac:(lia)) as [v ->]. cbn [rbind].
    destruct (IH (S i) (<[i := f i]> fwd)) as (fwd' & -> & Hf).
    + rewrite length_insert. lia.
    + intros j Hj. apply Hb. lia.
    + exists fwd'. split; [done|]. intros j Hj. rewrite Hf by lia. destruct (decide (j = i)) as [->|Hne].
      * rewrite decide_False by lia. rewrite decide_True by lia. apply list_lookup_insert_eq. lia.
      * rewrite list_lookup_insert_ne by done. destruct (decide (S i <= j)%nat); [by rewrite decide_True by lia|].
        by rewrite decide_False by lia.
Qed.

Lemma tSkipListRemoveNode_spec t A e B : skip_inv t (A ++ e :: B) ->
  exists t', tSkipListRemoveNode (ea e) t = Ret t' /\ skip_inv t' (A ++ B) /\ tight t' (A ++ B) /\ quiet t t'.
Proof using Type*.
  intros Hi. assert (He : e ∈ A ++ e :: B) by (apply elem_of_app; right; constructor).
  pose proof (sk_levels _ _ Hi) as Hlv. rewrite Forall_forall in Hlv. specialize (Hlv e He).
  pose proof (sk_max _ _ Hi) as [Hm _]. pose proof (sk_keys _ _ Hi) as Hok. rewrite Forall_forall in Hok. specialize (Hok e He).
  unfold tSkipListRemoveNode. destruct (node_of _ _ e Hi He) as (n & -> & Hkey & _ & Hn & _). cbn [rbind]. rewrite Hn, Hkey.
  destruct (back_links_spec t (ea e) (fun i => end_of HEAD (addrs (chain A i))) (el e) 0 no_path) as (fwd & -> & Hf).
  - unfold no_path. rewrite length_replicate. lia.
  - intros j Hj. pose proof (sk_links _ _ Hi j ltac:(lia)) as Hl. rewrite chain_middle, decide_True, !addrs_app in Hl by lia.
    exact (lseg_backward _ _ _ _ _ _ _ Hl).
  - cbn [rbind]. destruct (removeSupport_spec t A e B fwd (ek e) Hi) as (t' & -> & Hr).
    + intros i Hl. by rewrite Hf by lia.
    + by apply cmp_refl.
    + cbn [rbind]. by exists t'.
Qed.

(** ** [tSkipListDestroy] *)
Lemma destroy_loop_spec (l : list Z) fuel t : NoDup l -> (forall a, a ∈ l -> a <> 0 /\ a <> HEAD) ->
  fwd_chain t 0 l 0 -> (length l < fuel)%nat ->
  exists h, destroy_loop fuel (first_of l 0) t = Ret h /\ forall a, h !! a = if decide (a ∈ l) then None else heap t !! a.
Proof.
  revert fuel t. induction l as [|a l IH]; intros fuel t Hnd Hnz Hl Hf; (destruct fuel as [|fuel]; [cbn in Hf; lia|]);
    cbn [destroy_loop first_of].
  - exists (heap t). split; [done|]. intros a. rewrite decide_False; [done|]. by intros ?%elem_of_nil.
  - destruct (Hnz a ltac:(constructor)) as [Ha0 Hah]. rewrite (proj2 (Z.eqb_neq _ _) Ha0).
    apply NoDup_cons in Hnd as [Hni Hnd]. destruct Hl as [Hfw Hl]. rewrite Hfw. cbn [rbind].
    destruct (IH fuel (set_heap (delete a (heap t)) t)) as (h & -> & Hh); [done| | |cbn in Hf; lia|].
    + intros y Hy. apply Hnz. by constructor.
    + apply (fwd_chain_frame t); [|done]. intros y Hy. unfold get_forward, node_at. cbn [heap pHead set_heap].
      rewrite lookup_delete_ne; [done|]. by intros <-.
    + exists h. split; [done|]. intros y. rewrite Hh. cbn [heap set_heap]. destruct (decide (y = a)) as [->|Hy].
      * rewrite (decide_False (P := a ∈ l)) by done. rewrite lookup_delete_eq. by rewrite decide_True by constructor.
      * rewrite lookup_delete_ne by done. destruct (decide (y ∈ l)) as [Hin|Hin].
        -- by rewrite decide_True by by constructor.
        -- by rewrite decide_False by by intros [|]%elem_of_cons.
Qed.

Lemma tSkipListDestroy_spec t E : skip_inv t E -> tSkipListDestroy t = Ret ∅.
Proof.
  intros Hi. assert (H0' : (0 < MAX_SKIP_LIST_LEVEL)%nat) by (unfold MAX_SKIP_LIST_LEVEL; lia).
  unfold tSkipListDestroy. rewrite (head_link t E 0 Hi H0'). cbn [rbind]. rewrite (chain_0 _ _ Hi).
  destruct (destroy_loop_spec (addrs E) (walk_fuel t) t) as (h & -> & Hh).
  - apply (sk_nodup _ _ Hi).
  - intros a Ha. destruct (sk_addr _ _ Hi) as [_ Hr]. specialize (Hr a Ha). unfold HEAD in *. lia.
  - pose proof (sk_links _ _ Hi 0%nat H0') as Hl. rewrite (chain_0 _ _ Hi) in Hl. by apply lseg_fwd_chain in Hl.
  - unfold walk_fuel, addrs. rewrite (heap_size _ _ Hi), length_map. lia.
  - f_equal. apply map_eq. intros a. rewrite Hh, lookup_empty. case_decide as Ha; [done|].
    destruct (heap t !! a) eqn:E1; [|done]. exfalso. apply Ha, (sk_dom _ _ Hi). by eexists.
Qed.
End Remove.
