(* ===== verification/SkipQuery.v ===== *)
(** * What the queries of a skip list find *)
From stdpp Require Import sorting.
From S2P Require Import Prelude SkipList SkipInv SkipPut.

Section Query.
Context {K : Type} `{SkipKeyLaws K}.
Implicit Types (t : @tSkipList K) (k : K) (e : @ent K) (E A B : list (@ent K)).

(** ** Parts of the list *)
Definition eq_key k E : list ent := filter (fun e => comparator (ek e) k = 0) E.
Definition gt_key k E : list ent := filter (fun e => 0 < comparator (ek e) k) E.

Definition above (k : K) (op : RELATION) e : Prop :=
  match op with
  | TSDB_RELATION_LARGE_EQUAL => 0 <= comparator (ek e) k
  | TSDB_RELATION_LARGE => 0 < comparator (ek e) k
  | _ => False
  end.
Definition below (k : K) (op : RELATION) e : Prop :=
  match op with TSDB_RELATION_LESS_EQUAL => comparator (ek e) k <= 0 | _ => comparator (ek e) k < 0 end.
#[export] Instance above_dec k op e : Decision (above k op e).
Proof. destruct op; cbn; apply _. Defined.
#[export] Instance below_dec k op e : Decision (below k op e).
Proof. destruct op; cbn; apply _. Defined.

(** The entries between the bounds of a condition. *)
Definition in_range (q : @tSKipListQueryCond K) E : list ent :=
  filter (fun e => above (lowerBnd q) (lowerBndRelOptr q) e /\ below (upperBnd q) (upperBndRelOptr q) e) E.

Lemma inv_ok t E e : skip_inv t E -> e ∈ E -> key_ok (ek e).
Proof. intros Hi He. pose proof (sk_keys _ _ Hi) as Hok. rewrite Forall_forall in Hok. by apply Hok. Qed.

Lemma ge_split t E k : skip_inv t E -> key_ok k -> ge_key k E = eq_key k E ++ gt_key k E.
Proof using Type*.
  intros Hi Hk. pose proof (sk_sorted _ _ Hi) as Hs. rewrite (inv_split _ _ k Hi Hk) in Hs. apply StronglySorted_app in Hs as (_ & _ & Hs).
  rewrite (sorted_split (fun e => comparator (ek e) k <= 0) (ge_key k E) Hs) at 1.
  - unfold ge_key, eq_key, gt_key. rewrite !list_filter_filter. f_equal; apply list_filter_iff; intros e; lia.
  - intros x y [_ Hx]%ge_key_in [_ Hy]%ge_key_in Hxy. apply (key_bound k Hk); [by eapply inv_ok|by eapply inv_ok|done].
Qed.

Lemma inv_fwd t E A B : skip_inv t E -> E = A ++ B -> fwd_chain t 0 (addrs B) 0.
Proof.
  intros Hi HE. pose proof (sk_links _ _ Hi 0%nat ltac:(unfold MAX_SKIP_LIST_LEVEL; lia)) as Hl.
  rewrite (chain_0 _ _ Hi), HE, addrs_app in Hl. apply lseg_fwd_chain, fwd_chain_app in Hl. done.
Qed.

Lemma inv_link t E A B : skip_inv t E -> E = A ++ B -> get_forward t (end_of HEAD (addrs A)) 0 = Ret (first_of (addrs B) 0).
Proof.
  intros Hi HE. pose proof (sk_links _ _ Hi 0%nat ltac:(unfold MAX_SKIP_LIST_LEVEL; lia)) as Hl.
  rewrite (chain_0 _ _ Hi), HE, addrs_app in Hl. by apply lseg_forward in Hl.
Qed.

Lemma inv_back t E A e B : skip_inv t E -> E = A ++ e :: B -> get_backward t (ea e) 0 = Ret (end_of HEAD (addrs A)).
Proof.
  intros Hi HE. pose proof (sk_links _ _ Hi 0%nat ltac:(unfold MAX_SKIP_LIST_LEVEL; lia)) as Hl.
  rewrite (chain_0 _ _ Hi), HE, addrs_app in Hl. by apply lseg_backward in Hl.
Qed.

Lemma inv_fuel t E A B : skip_inv t E -> E = A ++ B -> (length B < walk_fuel t)%nat /\ (length A < walk_fuel t)%nat.
Proof.
  intros Hi HE. unfold walk_fuel. rewrite (heap_size _ _ Hi).
  apply (f_equal (length (A := ent))) in HE. rewrite length_app in HE. lia.
Qed.

(** ** [tSkipListGetOne] *)
Lemma last_cmp_nz k C B ret : Forall (fun e => comparator (ek e) k < 0) C -> ret <> 0 ->
  match B with b :: _ => comparator (ek b) k <> 0 | [] => True end -> last_cmp k C B ret <> 0.
Proof.
  intros HC Hr HB. unfold last_cmp. destruct B; [|done]. destruct (last C) as [e|] eqn:El; [|done].
  apply last_Some in El as [C' ->]. apply Forall_app in HC as [_ [He _]%Forall_cons]. lia.
Qed.

Lemma get_levels_spec t E k i ret : skip_inv t E -> key_ok k -> (i <= MAX_SKIP_LIST_LEVEL)%nat -> ret <> 0 ->
  exists a, get_levels i t k (end_of HEAD (addrs (chain (lt_key k E) i))) ret = Ret a /\
    ((exists e, e ∈ eq_key k E /\ a = ea e) \/
     a = 0 /\ forall j, (j < i)%nat -> match chain (ge_key k E) j with e :: _ => comparator (ek e) k <> 0 | [] => True end).
Proof using Type*.
  intros Hi Hk. revert ret. induction i as [|i IH]; intros ret Hl Hr; cbn [get_levels].
  - exists 0. split; [done|]. right. split; [done|lia].
  - destruct (level_walk t E k i ret Hi Hk ltac:(lia)) as (C & -> & HC). cbn [rbind].
    destruct (chain (ge_key k E) i) as [|b B] eqn:Eb.
    + rewrite (proj2 (Z.eqb_neq _ _) (last_cmp_nz k C [] ret HC Hr I)).
      destruct (IH (last_cmp k C [] ret)) as (a & -> & [Ha|[Ha Hj]]); [lia|by apply last_cmp_nz|exists a; by split; [|left]|].
      exists a. split; [done|]. right. split; [done|]. intros j Hlt. destruct (decide (j = i)) as [->|]; [by rewrite Eb|apply Hj; lia].
    + change (last_cmp k C (b :: B) ret) with (comparator (ek b) k). destruct (Z.eqb_spec (comparator (ek b) k) 0) as [Hz|Hz].
      * assert (Hb : b ∈ chain (ge_key k E) i) by (rewrite Eb; constructor). apply chain_in in Hb as [_ [_ Hb]%ge_key_in].
        exists (ea b). split; [|left; exists b; split; [by apply list_elem_of_filter|done]].
        pose proof (sk_links _ _ Hi i ltac:(lia)) as Hlk. rewrite (chain_split _ _ k i Hi Hk) in Hlk.
        rewrite (lseg_forward _ _ _ _ _ _ Hlk), Eb. done.
      * destruct (IH (comparator (ek b) k)) as (a & -> & [Ha|[Ha Hj]]); [lia|done|exists a; by split; [|left]|].
        exists a. split; [done|]. right. split; [done|]. intros j Hlt. destruct (decide (j = i)) as [->|]; [by rewrite Eb|apply Hj; lia].
Qed.

Lemma tSkipListGetOne_spec t E k : skip_inv t E -> key_ok k ->
  exists a, tSkipListGetOne k t = Ret (a, count_query t) /\
    ((exists e, e ∈ eq_key k E /\ a = ea e) \/ a = 0 /\ eq_key k E = []).
Proof using Type*.
  intros Hi Hk. unfold tSkipListGetOne. pose proof (sk_max _ _ Hi) as [Hm _].
  destruct (get_levels_spec t E k (nLevel t) (-1) Hi Hk Hm ltac:(lia)) as (a & Hg & Ha).
  assert (Hnil : chain (lt_key k E) (nLevel t) = []).
  { pose proof (chain_high _ _ _ Hi (le_n (nLevel t))) as Hc. rewrite (inv_split _ _ k Hi Hk), chain_app in Hc.
    by apply app_eq_nil in Hc as [? _]. }
  rewrite Hnil in Hg. change (end_of HEAD (addrs [])) with HEAD in Hg. rewrite Hg. cbn [rbind]. exists a. split; [done|].
  destruct Ha as [?|[-> Hj]]; [by left|right]. split; [done|].
  destruct (eq_key k E) as [|e Q] eqn:Eq; [done|]. exfalso.
  assert (He : e ∈ eq_key k E) by (rewrite Eq; constructor). apply list_elem_of_filter in He as [Hz He].
  pose proof (sk_levels _ _ Hi) as Hlv. rewrite Forall_forall in Hlv. specialize (Hlv e He).
  specialize (Hj 0%nat ltac:(lia)). pose proof (ge_split _ _ k Hi Hk) as Hs. rewrite Eq in Hs.
  pose proof (chain_0 _ _ Hi) as Hc0. rewrite (inv_split _ _ k Hi Hk), chain_app in Hc0.
  rewrite Hs in Hj. cbn [app] in Hj. unfold chain in Hj. rewrite filter_cons, decide_True in Hj by lia. done.
Qed.
(** ** The two scans along the bottom level *)
Lemma end_loop_spec t E k cond L1 L2 fuel : skip_inv t E -> Forall (fun e => e ∈ E) (L1 ++ L2) ->
  fwd_chain t 0 (addrs (L1 ++ L2)) 0 -> Forall (below k cond) L1 ->
  match L2 with e :: _ => ~ below k cond e | [] => True end -> (length L1 < fuel)%nat ->
  end_loop fuel t k cond (first_of (addrs (L1 ++ L2)) 0) = Ret (addrs L1).
Proof.
  intros Hi. revert fuel. induction L1 as [|e L1 IH]; intros fuel Hin Hl Hb Hst Hf; (destruct fuel as [|fuel]; [cbn in Hf; lia|]);
    cbn [end_loop].
  - destruct L2 as [|e L2]; [done|]. cbn [app addrs map first_of]. apply Forall_cons in Hin as [He _].
    destruct (node_of _ _ e Hi He) as (n & -> & Hkey & _ & _ & Hnz & _). rewrite (proj2 (Z.eqb_neq _ _) Hnz). cbn [rbind].
    rewrite Hkey. destruct (Z.ltb_spec 0 (comparator (ek e) k)); [done|].
    destruct cond; cbn [below] in Hst; try done; by rewrite (proj2 (Z.ltb_ge _ 0)) by lia.
  - cbn [app addrs map first_of] in *. apply Forall_cons in Hin as [He Hin]. apply Forall_cons in Hb as [Hbe Hb].
    destruct (node_of _ _ e Hi He) as (n & -> & Hkey & _ & _ & Hnz & _). rewrite (proj2 (Z.eqb_neq _ _) Hnz). cbn [rbind].
    rewrite Hkey. destruct Hl as [Hfw Hl].
    assert (Hgo : (0 <? comparator (ek e) k) = false /\
      ((comparator (ek e) k <? 0) || match cond with TSDB_RELATION_LESS_EQUAL => true | _ => false end) = true).
    { rewrite orb_true_iff, Z.ltb_ge, Z.ltb_lt. destruct cond; cbn [below] in Hbe; split; lia || (right; done) || (left; lia). }
    destruct Hgo as [-> ->]. rewrite Hfw. cbn [rbind]. fold (addrs (L1 ++ L2)).
    rewrite IH; [done|done|done|done|done|cbn in Hf; lia].
Qed.

Lemma back_loop_spec t E k A Q e B fuel : skip_inv t E -> E = A ++ Q ++ e :: B ->
  Forall (fun e => comparator (ek e) k < 0) A -> Forall (fun e => comparator (ek e) k = 0) Q -> (length Q < fuel)%nat ->
  back_loop fuel t k (ea e) = Ret (first_of (addrs (Q ++ [e])) 0).
Proof.
  intros Hi. revert e B fuel. induction Q as [|q Q IH] using rev_ind; intros e B fuel HE HA HQ Hf;
    (destruct fuel as [|fuel]; [lia|]); cbn [back_loop].
  - cbn [app] in HE. rewrite (inv_back t E A e B Hi HE). cbn [rbind app addrs map first_of].
    destruct (Z.eqb_spec (end_of HEAD (addrs A)) HEAD) as [|Hne]; [done|].
    destruct (end_of_in HEAD (addrs A)) as [|Hin]; [done|]. apply list_elem_of_fmap in Hin as (a & -> & Ha).
    assert (HaE : a ∈ E) by (rewrite HE; apply elem_of_app; by left).
    destruct (node_of _ _ a Hi HaE) as (n & -> & Hkey & _). cbn [rbind]. rewrite Hkey, Forall_forall in *. specialize (HA a Ha).
    by rewrite (proj2 (Z.eqb_neq _ 0)) by lia.
  - assert (HE' : E = (A ++ Q ++ [q]) ++ e :: B) by (rewrite HE; by rewrite <- !app_assoc).
    rewrite (inv_back t E _ e B Hi HE'). cbn [rbind]. rewrite !addrs_app, !end_of_app.
    assert (HqE : q ∈ E) by (rewrite HE'; rewrite !elem_of_app; left; right; right; constructor).
    destruct (node_of _ _ q Hi HqE) as (n & Hn & Hkey & _ & _ & _ & Hnh).
    change (end_of (end_of (end_of HEAD (addrs A)) (addrs Q)) (addrs [q])) with (ea q).
    rewrite (proj2 (Z.eqb_neq _ _) Hnh), Hn. cbn [rbind]. apply Forall_app in HQ as [HQ [Hq _]%Forall_cons].
    rewrite Hkey, Hq. cbn [Z.eqb]. rewrite (IH q (e :: B)); [|by rewrite HE, <- !app_assoc|done|done|].
    + by destruct Q.
    + rewrite length_app in Hf. cbn in Hf. lia.
Qed.

(** ** [tSkipListGets] *)
Lemma lt_all k E : Forall (fun e => comparator (ek e) k < 0) (lt_key k E).
Proof. apply Forall_forall. by intros e [? _]%lt_key_in. Qed.
Lemma eq_all k E : Forall (fun e => comparator (ek e) k = 0) (eq_key k E).
Proof. apply Forall_forall. by intros e [? _]%list_elem_of_filter. Qed.

(** A key that compares equal cuts the list at the same places. *)
Lemma same_cut k k' a : key_ok k -> key_ok k' -> key_ok a -> comparator k' k = 0 ->
  (comparator a k' <= 0 <-> comparator a k <= 0).
Proof using Type*.
  intros Hk Hk' Ha Hz. pose proof (cmp_sym k' k Hk' Hk). split; intros Hle.
  - apply (cmp_trans a k' k); try done. lia.
  - apply (cmp_trans a k k'); try done. lia.
Qed.

Lemma three_parts t E k : skip_inv t E -> key_ok k -> E = lt_key k E ++ eq_key k E ++ gt_key k E.
Proof using Type*. intros Hi Hk. rewrite <- (ge_split _ _ k Hi Hk). by apply (inv_split t). Qed.

Lemma tSkipListGets_spec t E k : skip_inv t E -> key_ok k -> tSkipListGets k t = Ret (addrs (eq_key k E), count_query t).
Proof using Type*.
  intros Hi Hk. unfold tSkipListGets. destruct (tSkipListGetOne_spec t E k Hi Hk) as (a & -> & Ha). cbn [rbind].
  pose proof (count_query_inv _ _ Hi) as Hi'. set (t1 := count_query t) in *. clearbody t1. clear Hi t. rename t1 into t, Hi' into Hi.
  destruct Ha as [(e & He & ->)|[-> Hnil]]; [|by rewrite Hnil].
  pose proof (three_parts _ _ k Hi Hk) as Hs. pose proof He as [Hz HeE]%list_elem_of_filter.
  destruct (node_of _ _ e Hi HeE) as (n & Hn & Hkey & _ & _ & Hnz & _). rewrite (proj2 (Z.eqb_neq _ _) Hnz), Hn.
  destruct (list_elem_of_split _ _ He) as (Q1 & Q2 & HQ). pose proof (eq_all k E) as Heq. rewrite HQ in Heq.
  assert (HE : E = lt_key k E ++ Q1 ++ e :: (Q2 ++ gt_key k E)) by (rewrite Hs at 1; rewrite HQ, <- app_assoc; done).
  rewrite (back_loop_spec t E k (lt_key k E) Q1 e (Q2 ++ gt_key k E)); [|done|done|apply lt_all|by apply Forall_app in Heq as [? _]|].
  2: { destruct (inv_fuel t E _ _ Hi HE) as [Hl _]. rewrite length_app in Hl. lia. }
  cbn [rbind]. destruct (Q1 ++ [e]) as [|q Q] eqn:EQ; [by destruct Q1|]. cbn [addrs map first_of].
  assert (HE2 : E = lt_key k E ++ q :: (Q ++ Q2 ++ gt_key k E)).
  { rewrite HE at 1. f_equal. change (e :: Q2 ++ gt_key k E) with ([e] ++ Q2 ++ gt_key k E). by rewrite app_assoc, EQ. }
  rewrite (inv_back t E _ q _ Hi HE2). cbn [rbind]. rewrite (inv_link t E _ _ Hi HE2). cbn [rbind]. rewrite Hkey.
  assert (HQ' : eq_key k E = q :: Q ++ Q2).
  { rewrite HQ. change (e :: Q2) with ([e] ++ Q2). by rewrite app_assoc, EQ. }
  replace (q :: Q ++ Q2 ++ gt_key k E) with (eq_key k E ++ gt_key k E) by (rewrite HQ'; cbn [app]; by rewrite <- app_assoc).
  unfold tSkipListEndParQuery. rewrite (end_loop_spec t E (ek e) TSDB_RELATION_LESS_EQUAL (eq_key k E) (gt_key k E)); [done|done| | | | |].
  - rewrite Forall_app, !Forall_forall. split; intros x [_ Hx]%list_elem_of_filter; done.
  - by apply (inv_fwd t E (lt_key k E)).
  - apply Forall_forall. intros x [Hx HxE]%list_elem_of_filter. cbn [below].
    apply (same_cut k (ek e) (ek x)); try done; [by eapply inv_ok|by eapply inv_ok|lia].
  - destruct (gt_key k E) as [|x L] eqn:El; [done|]. cbn [below].
    assert (Hx : x ∈ gt_key k E) by (rewrite El; constructor). apply list_elem_of_filter in Hx as [Hx HxE].
    rewrite (same_cut k (ek e) (ek x)); try done; [lia|by eapply inv_ok|by eapply inv_ok].
  - destruct (inv_fuel t E _ _ Hi Hs) as [Hl _]. rewrite length_app in Hl. lia.
Qed.
(** ** [tSkipListParQuery] *)
Lemma chain_0_lt t E k : skip_inv t E -> chain (lt_key k E) 0 = lt_key k E.
Proof.
  intros Hi. apply filter_id. apply Forall_forall. intros e [_ He]%lt_key_in.
  pose proof (sk_levels _ _ Hi) as Hlv. rewrite Forall_forall in Hlv. specialize (Hlv e He). lia.
Qed.

Lemma chain_0_ge t E k : skip_inv t E -> chain (ge_key k E) 0 = ge_key k E.
Proof.
  intros Hi. apply filter_id. apply Forall_forall. intros e [_ He]%ge_key_in.
  pose proof (sk_levels _ _ Hi) as Hlv. rewrite Forall_forall in Hlv. specialize (Hlv e He). lia.
Qed.

Lemma last_cmp_neg k C ret : Forall (fun e => comparator (ek e) k < 0) C -> ret < 0 -> last_cmp k C [] ret < 0.
Proof.
  intros HC Hr. unfold last_cmp. destruct (last C) as [e|] eqn:El; [|done].
  apply last_Some in El as [C' ->]. by apply Forall_app in HC as [_ [He _]%Forall_cons].
Qed.

Lemma par_levels_spec t E k i ret : skip_inv t E -> key_ok k -> (i <= MAX_SKIP_LIST_LEVEL)%nat ->
  (ge_key k E = [] -> ret < 0) ->
  exists ret', par_levels i t k (end_of HEAD (addrs (chain (lt_key k E) i))) ret =
      Ret (end_of HEAD (addrs (chain (lt_key k E) 0)), ret') /\
    (ge_key k E = [] -> ret' < 0) /\ ((0 < i)%nat -> forall b B, ge_key k E = b :: B -> ret' = comparator (ek b) k).
Proof using Type*.
  intros Hi Hk. revert ret. induction i as [|i IH]; intros ret Hl Hr; cbn [par_levels].
  - exists ret. split; [done|]. split; [done|lia].
  - destruct (level_walk t E k i ret Hi Hk ltac:(lia)) as (C & -> & HC). cbn [rbind].
    destruct (IH (last_cmp k C (chain (ge_key k E) i) ret)) as (ret' & Hp & Hn & Hc); [lia| |].
    + intros Hnil. rewrite Hnil. apply last_cmp_neg; [done|by apply Hr].
    + exists ret'. split; [done|]. split; [done|]. intros _ b B Hge. destruct i as [|i]; [|apply (Hc ltac:(lia) b B Hge)].
      cbn [par_levels] in Hp. injection Hp as <-. by rewrite (chain_0_ge t), Hge.
Qed.

Lemma skip_equal_spec t E k Q R fuel : skip_inv t E -> Forall (fun e => e ∈ E) (Q ++ R) -> fwd_chain t 0 (addrs (Q ++ R)) 0 ->
  Forall (fun e => comparator (ek e) k = 0) Q -> match R with e :: _ => comparator (ek e) k <> 0 | [] => True end ->
  (length Q < fuel)%nat -> skip_equal fuel t k (first_of (addrs (Q ++ R)) 0) = Ret (first_of (addrs R) 0).
Proof.
  intros Hi. revert fuel. induction Q as [|q Q IH]; intros fuel Hin Hl HQ HR Hf; (destruct fuel as [|fuel]; [cbn in Hf; lia|]);
    cbn [skip_equal].
  - destruct R as [|e R]; [done|]. cbn [app addrs map first_of]. apply Forall_cons in Hin as [He _].
    destruct (node_of _ _ e Hi He) as (n & -> & Hkey & _ & _ & Hnz & _). rewrite (proj2 (Z.eqb_neq _ _) Hnz). cbn [rbind].
    by rewrite Hkey, (proj2 (Z.eqb_neq _ _) HR).
  - cbn [app addrs map first_of] in *. apply Forall_cons in Hin as [He Hin]. apply Forall_cons in HQ as [Hq HQ].
    destruct (node_of _ _ q Hi He) as (n & -> & Hkey & _ & _ & Hnz & _). rewrite (proj2 (Z.eqb_neq _ _) Hnz). cbn [rbind].
    rewrite Hkey, Hq. cbn [Z.eqb]. destruct Hl as [Hfw Hl]. rewrite Hfw. cbn [rbind]. fold (addrs (Q ++ R)).
    apply IH; try done. cbn in Hf. lia.
Qed.

(** Where a range starts. *)
Definition suffix k (op : RELATION) E : list ent :=
  match op with TSDB_RELATION_LARGE_EQUAL => ge_key k E | TSDB_RELATION_LARGE => gt_key k E | _ => [] end.

Lemma par_head t E k : skip_inv t E -> key_ok k ->
  exists ret, par_levels (nLevel t) t k HEAD (-1) = Ret (end_of HEAD (addrs (lt_key k E)), ret) /\
    match ge_key k E with b :: _ => ret = comparator (ek b) k | [] => ret < 0 end.
Proof using Type*.
  intros Hi Hk. pose proof (sk_max _ _ Hi) as [Hm _].
  destruct (par_levels_spec t E k (nLevel t) (-1) Hi Hk Hm ltac:(lia)) as (ret & Hp & Hn & Hc).
  pose proof (chain_high _ _ _ Hi (le_n (nLevel t))) as Hh. rewrite (inv_split _ _ k Hi Hk), chain_app in Hh.
  apply app_eq_nil in Hh as [Hh _]. rewrite Hh, (chain_0_lt t) in Hp by done. exists ret. split; [exact Hp|].
  destruct (ge_key k E) as [|b B] eqn:Eb; [by apply Hn|]. refine (Hc _ b B eq_refl).
  assert (Hb : b ∈ ge_key k E) by (rewrite Eb; constructor). apply ge_key_in in Hb as [_ Hb].
  pose proof (sk_levels _ _ Hi) as Hlv. rewrite Forall_forall in Hlv. specialize (Hlv b Hb). lia.
Qed.

Lemma tSkipListParQuery_spec t E k op : skip_inv t E -> key_ok k ->
  tSkipListParQuery k op t = Ret (first_of (addrs (suffix k op E)) 0).
Proof using Type*.
  intros Hi Hk. destruct op; try done; cbn [tSkipListParQuery suffix];
    destruct (par_head t E k Hi Hk) as (ret & -> & Hret); cbn [rbind];
    pose proof (inv_split _ _ k Hi Hk) as Hs; rewrite (inv_link t E _ _ Hi Hs); cbn [rbind];
    pose proof (ge_split _ _ k Hi Hk) as Hg.
  - assert (Hgt : 0 < ret -> eq_key k E = []).
    { intros Hr. pose proof (eq_all k E) as Ha. destruct (eq_key k E) as [|e Q]; [done|]. rewrite Hg in Hret. cbn [app] in Hret.
      apply Forall_cons in Ha as [Ha _]. lia. }
    destruct (Z.ltb_spec 0 ret) as [Hr|Hr]; [by rewrite Hg, (Hgt Hr)|]. rewrite Hg.
    assert (Hs3 : E = lt_key k E ++ eq_key k E ++ gt_key k E) by (by rewrite <- Hg).
    apply (skip_equal_spec t E); [done| |by apply (inv_fwd t E (lt_key k E))|apply eq_all| |].
    + rewrite Forall_app, !Forall_forall. split; intros x [_ Hx]%list_elem_of_filter; done.
    + destruct (gt_key k E) as [|x L] eqn:El; [done|]. assert (Hx : x ∈ gt_key k E) by (rewrite El; constructor).
      apply list_elem_of_filter in Hx as [Hx _]. lia.
    + destruct (inv_fuel t E _ _ Hi Hs3) as [Hl _]. rewrite length_app in Hl. lia.
  - destruct (Z.eqb_spec ret 0) as [->|]; [|done].
    destruct (ge_key k E) as [|b B] eqn:Eb; [lia|]. cbn [addrs map first_of].
    apply (back_loop_spec t E k (lt_key k E) [] b B); [done|done|apply lt_all|constructor|cbn; unfold walk_fuel; lia].
Qed.

(** ** [tSkipListRangeQuery] and [tSkipListQuery] *)
Lemma suffix_filter k op E : suffix k op E = filter (fun e => above k op e) E.
Proof.
  destruct op; cbn [suffix above]; try done; try by rewrite filter_none by (apply Forall_forall; tauto).
  apply list_filter_iff. intros e. lia.
Qed.

Lemma suffix_split t E k op : skip_inv t E -> key_ok k -> exists A, suffix k op E = [] \/ E = A ++ suffix k op E.
Proof using Type*.
  intros Hi Hk. destruct op; cbn [suffix]; try by exists []; left.
  - exists (lt_key k E ++ eq_key k E). right. rewrite <- app_assoc. by apply (three_parts t).
  - exists (lt_key k E). right. by apply (inv_split t).
Qed.

Lemma tSkipListRangeQuery_spec t E q : skip_inv t E -> key_ok (lowerBnd q) -> bound_ok (upperBnd q) ->
  tSkipListRangeQuery q t = Ret (addrs (in_range q E), count_query t).
Proof using Type*.
  intros Hi Hk Hu. unfold tSkipListRangeQuery. pose proof (count_query_inv _ _ Hi) as Hi'. set (t1 := count_query t) in *.
  clearbody t1. clear Hi t. rename t1 into t, Hi' into Hi.
  rewrite (tSkipListParQuery_spec t E) by done. cbn [rbind].
  set (op := lowerBndRelOptr q). set (k := lowerBnd q) in *. set (hi := upperBnd q) in *. set (uop := upperBndRelOptr q).
  assert (Hf : in_range q E = filter (fun e => below hi uop e) (suffix k op E)).
  { rewrite suffix_filter, list_filter_filter. apply list_filter_iff. intros e. unfold k, op, hi, uop. tauto. }
  rewrite Hf. destruct (suffix_split t E k op Hi Hk) as [A [->|HE]]; [done|]. set (S := suffix k op E) in *.
  assert (HinE : forall e, e ∈ S -> e ∈ E) by (intros e He; rewrite HE; apply elem_of_app; by right).
  destruct (Z.eqb_spec (first_of (addrs S) 0) 0) as [Hz|Hz].
  - destruct S as [|e S]; [done|]. exfalso. destruct (node_of _ _ e Hi) as (n & _ & _ & _ & _ & Hnz & _); [apply HinE; constructor|]. done.
  - pose proof (sk_sorted _ _ Hi) as Hso. rewrite HE in Hso. apply StronglySorted_app in Hso as (_ & _ & Hso).
    assert (Hsp : S = filter (fun e => below hi uop e) S ++ filter (fun e => ~ below hi uop e) S).
    { apply sorted_split; [done|]. intros x y Hx Hy Hxy. pose proof (Hu (ek x) (ek y) (inv_ok _ _ _ Hi (HinE _ Hx)) (inv_ok _ _ _ Hi (HinE _ Hy)) Hxy) as [H1 H2].
      destruct uop; cbn [below]; auto. }
    pose proof (inv_fwd t E A S Hi HE) as Hfw. destruct (inv_fuel t E A S Hi HE) as [Hfu _].
    unfold tSkipListEndParQuery. rewrite Hsp in Hfw, Hfu |- * at 1.
    rewrite (end_loop_spec t E hi uop); [done|done| |done| | |].
    + rewrite Forall_app, !Forall_forall. split; intros x [_ Hx]%list_elem_of_filter; by apply HinE.
    + apply Forall_forall. by intros x [Hx _]%list_elem_of_filter.
    + destruct (filter (fun e => ~ below hi uop e) S) as [|x L] eqn:El; [done|].
      assert (Hx : x ∈ filter (fun e => ~ below hi uop e) S) by (rewrite El; constructor). by apply list_elem_of_filter in Hx as [Hx _].
    + rewrite length_app in Hfu. lia.
Qed.
Lemma empty_range q E : (forall e, e ∈ E -> above (lowerBnd q) (lowerBndRelOptr q) e ->
  below (upperBnd q) (upperBndRelOptr q) e -> False) -> in_range q E = [].
Proof. intros He. apply filter_none, Forall_forall. intros e Hin [Ha Hb]. by apply (He e). Qed.

Lemma above_le k op e : key_ok k -> key_ok (ek e) -> above k op e -> comparator k (ek e) <= 0.
Proof using Type*. intros Hk He Ha. pose proof (cmp_sym (ek e) k He Hk). destruct op; cbn [above] in Ha; lia. Qed.

Lemma below_le k op e : below k op e -> comparator (ek e) k <= 0.
Proof. destruct op; cbn [below]; lia. Qed.

(** The condition of a query whose bounds can be compared with the keys. *)
Definition cond_ok (q : @tSKipListQueryCond K) : Prop :=
  key_ok (lowerBnd q) /\ bound_ok (upperBnd q) /\ (comparator (lowerBnd q) (upperBnd q) = 0 -> key_ok (upperBnd q)).

Lemma point_range t E q : skip_inv t E -> cond_ok q -> comparator (lowerBnd q) (upperBnd q) = 0 ->
  in_range q E = match lowerBndRelOptr q, upperBndRelOptr q with
    | TSDB_RELATION_LARGE_EQUAL, TSDB_RELATION_LESS_EQUAL => eq_key (lowerBnd q) E
    | _, _ => []
    end.
Proof using Type*.
  intros Hi (Hl & Hb & Hu) Hz. specialize (Hu Hz). pose proof (cmp_sym _ _ Hl Hu) as Hs.
  assert (Hcut : forall e, e ∈ E -> comparator (ek e) (upperBnd q) <= 0 <-> comparator (ek e) (lowerBnd q) <= 0).
  { intros e He. apply same_cut; try done; [by eapply inv_ok|lia]. }
  assert (Hcut2 : forall e, e ∈ E -> comparator (ek e) (upperBnd q) < 0 -> comparator (ek e) (lowerBnd q) < 0).
  { intros e He Hlt. assert (Hok : key_ok (ek e)) by by eapply inv_ok.
    pose proof (proj1 (Hcut e He) ltac:(lia)). destruct (Z.eq_dec (comparator (ek e) (lowerBnd q)) 0) as [Hz'|]; [|lia].
    pose proof (cmp_sym _ _ Hok Hl). pose proof (proj2 (Hb (lowerBnd q) (ek e) Hl Hok ltac:(lia)) Hlt). lia. }
  unfold in_range, eq_key.
  destruct (lowerBndRelOptr q), (upperBndRelOptr q); cbn [above below];
    try (apply filter_none, Forall_forall; intros e He [Ha Hbe]; try specialize (Hcut2 e He Hbe); try apply (Hcut e He) in Hbe; lia).
  apply filter_ext_in. intros e He. rewrite (Hcut e He). lia.
Qed.

(** All three ways of a query give the entries between the bounds. *)
Lemma tSkipListQuery_spec t E q is_string : skip_inv t E -> cond_ok q ->
  exists t', tSkipListQuery is_string q t = Ret (addrs (in_range q E), t') /\ (t' = t \/ t' = count_query t).
Proof using Type*.
  intros Hi Hq. pose proof Hq as (Hl & Hb & Hu). unfold tSkipListQuery. destruct (sk_size _ _ Hi) as [Hsz _].
  destruct (Z.eqb_spec (nSize t) 0) as [Hz|Hz].
  { exists t. destruct E; [|cbn in Hsz; lia]. split; [done|by left]. }
  destruct (Z.ltb_spec 0 (comparator (lowerBnd q) (upperBnd q))) as [Hr|Hr]; cbn [andb].
  - assert (He : in_range q E = []).
    { apply empty_range. intros e Hin Ha Hbe%below_le. assert (Hok : key_ok (ek e)) by by eapply inv_ok.
      pose proof (proj1 (Hb (lowerBnd q) (ek e) Hl Hok (above_le _ _ _ Hl Hok Ha)) Hbe). lia. }
    destruct is_string; cbn [negb]; [|rewrite He; exists t; by split; [|left]].
    rewrite (proj2 (Z.eqb_neq _ _)) by lia. exists (count_query t). split; [by apply tSkipListRangeQuery_spec|by right].
  - destruct (Z.eqb_spec (comparator (lowerBnd q) (upperBnd q)) 0) as [Hz'|Hz'].
    + rewrite (point_range t E q Hi Hq Hz'). destruct (lowerBndRelOptr q), (upperBndRelOptr q);
        try (exists t; by split; [|left]). exists (count_query t). split; [by apply tSkipListGets_spec|by right].
    + exists (count_query t). split; [by apply tSkipListRangeQuery_spec|by right].
Qed.
End Query.
