(* ===== verification/SkipKeys.v ===== *)
(** * Queries for several keys, scans with a filter, and the keys themselves *)
From stdpp Require Import sorting.
From S2P Require Import Prelude SkipList SkipInv SkipPut SkipQuery.

Section Keys.
Context {K : Type} `{SkipKeyLaws K}.
Implicit Types (t : @tSkipList K) (k : K) (e : @ent K) (E A B : list (@ent K)) (ks : list K).

Definition key_le (a b : K) : Prop := comparator a b <= 0.
Definition key_lt (a b : K) : Prop := comparator a b < 0.

(** The entries that have one of the keys. *)
Definition has_key ks e : Prop := Exists (fun k => comparator (ek e) k = 0) ks.
#[export] Instance has_key_dec ks e : Decision (has_key ks e).
Proof. unfold has_key. apply _. Defined.

(** ** Distinct keys in order *)
Lemma sort_in_perm k ks : sort_in k ks ≡ₚ k :: ks.
Proof. induction ks as [|x ks IH]; [done|]. cbn [sort_in]. destruct (comparator k x <=? 0); [done|]. rewrite IH. constructor. Qed.

Lemma qsort_perm ks : qsort ks ≡ₚ ks.
Proof. induction ks as [|k ks IH]; [done|]. cbn [qsort foldr]. rewrite sort_in_perm. by f_equiv. Qed.

Lemma sort_in_sorted k ks : Forall key_ok (k :: ks) -> StronglySorted key_le ks -> StronglySorted key_le (sort_in k ks).
Proof using Type*.
  intros [Hk Hok]%Forall_cons Hs. induction Hs as [|x ks Hs IH Hx]; [repeat constructor|].
  apply Forall_cons in Hok as [Hxk Hok]. cbn [sort_in]. destruct (Z.leb_spec (comparator k x) 0) as [Hle|Hgt].
  - constructor; [by constructor|]. constructor; [done|]. rewrite Forall_forall in Hx, Hok |- *. intros y Hy.
    apply (cmp_trans k x y); try done; [by apply Hok|by apply Hx].
  - constructor; [by apply IH|]. rewrite sort_in_perm. constructor; [|done]. unfold key_le.
    pose proof (cmp_sym k x Hk Hxk). lia.
Qed.

Lemma qsort_sorted ks : Forall key_ok ks -> StronglySorted key_le (qsort ks).
Proof using Type*.
  induction ks as [|k ks IH]; intros Hok; [constructor|]. cbn [qsort foldr]. apply sort_in_sorted.
  - apply Forall_cons in Hok as [? ?]. constructor; [done|]. change (foldr sort_in [] ks) with (qsort ks). by rewrite qsort_perm.
  - apply IH. by apply Forall_cons in Hok as [_ ?].
Qed.

Lemma eq_trans_key a b c : key_ok a -> key_ok b -> key_ok c -> comparator a b = 0 -> comparator b c = 0 -> comparator a c = 0.
Proof using Type*.
  intros Ha Hb Hc H1 H2. pose proof (cmp_sym a b Ha Hb). pose proof (cmp_sym b c Hb Hc). pose proof (cmp_sym a c Ha Hc).
  pose proof (cmp_trans a b c Ha Hb Hc ltac:(lia) ltac:(lia)). pose proof (cmp_trans c b a Hc Hb Ha ltac:(lia) ltac:(lia)). lia.
Qed.

Lemma lt_le_key a b c : key_ok a -> key_ok b -> key_ok c -> comparator a b < 0 -> comparator b c <= 0 -> comparator a c < 0.
Proof using Type*.
  intros Ha Hb Hc H1 H2. pose proof (cmp_trans a b c Ha Hb Hc ltac:(lia) H2) as H3.
  destruct (Z.eq_dec (comparator a c) 0) as [Hz|]; [|lia]. pose proof (cmp_sym a c Ha Hc). pose proof (cmp_sym a b Ha Hb).
  pose proof (cmp_trans b c a Hb Hc Ha H2 ltac:(lia)). lia.
Qed.

Lemma unique_loop_spec k ks : Forall key_ok (k :: ks) -> StronglySorted key_le (k :: ks) ->
  StronglySorted key_lt (unique_loop k ks) /\ Forall (fun x => x ∈ k :: ks) (unique_loop k ks) /\
  Forall (fun x => Exists (fun y => comparator x y = 0) (unique_loop k ks)) (k :: ks).
Proof using Type*.
  revert k. induction ks as [|x ks IH]; intros k [Hk Hok]%Forall_cons [Hle Hs]%StronglySorted_cons; cbn [unique_loop].
  - split; [repeat constructor|]. split; [repeat constructor|]. constructor; [|done]. constructor. by apply cmp_refl.
  - pose proof Hok as [Hx Hok']%Forall_cons. destruct (Z.eqb_spec (comparator k x) 0) as [Hz|Hz].
    + destruct (IH k) as (H1 & H2 & H3).
      * by constructor.
      * apply StronglySorted_cons. split; [by apply Forall_cons in Hle as [_ ?]|by apply StronglySorted_cons in Hs as [_ ?]].
      * split; [done|]. split.
        -- eapply Forall_impl; [exact H2|]. cbn. intros y [->|Hy]%elem_of_cons; [constructor|]. by do 2 constructor.
        -- apply Forall_cons in H3 as [H3 H4]. constructor; [done|]. constructor; [|done].
           rewrite Exists_exists in H3 |- *. destruct H3 as (y & Hy & Hky). exists y. split; [done|].
           rewrite Forall_forall in H2. assert (Hyok : key_ok y).
           { specialize (H2 y Hy). apply elem_of_cons in H2 as [->|Hin]; [done|]. rewrite Forall_forall in Hok'. by apply Hok'. }
           apply (eq_trans_key x k y); try done. pose proof (cmp_sym k x Hk Hx). lia.
    + destruct (IH x Hok Hs) as (H1 & H2 & H3). split; [|split].
      * apply StronglySorted_cons. split; [|done]. rewrite Forall_forall in H2 |- *. intros y Hy. specialize (H2 y Hy).
        apply Forall_cons in Hle as [Hkx Hle]. unfold key_le in Hkx. apply elem_of_cons in H2 as [->|Hin]; [unfold key_lt; lia|].
        apply StronglySorted_cons in Hs as [Hsx _]. rewrite Forall_forall in Hsx, Hok'.
        apply (lt_le_key k x y); try done; [by apply Hok'|lia|by apply Hsx].
      * constructor; [constructor|]. eapply Forall_impl; [exact H2|]. cbn. intros y Hy. by constructor.
      * constructor; [constructor; by apply cmp_refl|]. eapply Forall_impl; [exact H3|]. cbn. intros y Hy. by constructor.
Qed.
Lemma removeDuplicateKey_spec ks : Forall key_ok ks ->
  StronglySorted key_lt (removeDuplicateKey ks) /\ Forall key_ok (removeDuplicateKey ks) /\
  forall e, key_ok (ek e) -> has_key (removeDuplicateKey ks) e <-> has_key ks e.
Proof using Type*.
  intros Hok. unfold removeDuplicateKey. destruct (Nat.eqb_spec (length ks) 1) as [Hl|Hl].
  { split; [|done]. destruct ks as [|k [|]]; repeat constructor; done. }
  pose proof (qsort_perm ks) as HP. pose proof (qsort_sorted ks Hok) as Hs. rewrite <- HP in Hok.
  destruct (qsort ks) as [|k l].
  { assert (ks = []) as -> by (by apply Permutation_nil). split; [constructor|done]. }
  destruct (unique_loop_spec k l Hok Hs) as (H1 & H2 & H3). split; [done|].
  rewrite Forall_forall in H2, H3, Hok. split; [apply Forall_forall; auto|]. intros e He.
  unfold has_key. rewrite <- HP, !Exists_exists. split; intros (x & Hx & Hz).
  - exists x. by split; [apply H2|].
  - specialize (H3 x Hx). rewrite Exists_exists in H3. destruct H3 as (y & Hy & Hxy). exists y. split; [done|].
    by apply (eq_trans_key (ek e) x y); auto.
Qed.

(** ** [tSkipListPointQuery] *)
Lemma keys_split t E k ks : skip_inv t E -> StronglySorted key_lt (k :: ks) -> Forall key_ok (k :: ks) ->
  filter (has_key (k :: ks)) E = eq_key k E ++ filter (has_key ks) E.
Proof using Type*.
  intros Hi [Hlt Hs]%StronglySorted_cons [Hk Hok]%Forall_cons. rewrite Forall_forall in Hlt, Hok.
  assert (Hno : forall e, e ∈ E -> comparator (ek e) k <= 0 -> ~ has_key ks e).
  { intros e He Hle (x & Hx & Hz)%Exists_exists. pose proof (inv_ok _ _ _ Hi He) as Hek.
    pose proof (cmp_sym k x Hk (Hok x Hx)) as Hs1. pose proof (Hlt x Hx) as Hkx. unfold key_lt in Hkx.
    pose proof (cmp_sym (ek e) x Hek (Hok x Hx)). pose proof (cmp_trans x (ek e) k (Hok x Hx) Hek Hk ltac:(lia) Hle). lia. }
  rewrite (three_parts _ _ k Hi Hk) at 1 3. rewrite !filter_app.
  rewrite (filter_none (has_key (k :: ks)) (lt_key k E)), (filter_none (has_key ks) (lt_key k E)),
    (filter_none (has_key ks) (eq_key k E)), (filter_id (has_key (k :: ks)) (eq_key k E)).
  - cbn [app]. f_equal. apply filter_ext_in. intros e [He _]%list_elem_of_filter. unfold has_key. rewrite Exists_cons.
    split; [intros [?|?]; [lia|done]|by right].
  - apply Forall_forall. intros e [He _]%list_elem_of_filter. by constructor.
  - apply Forall_forall. intros e [He Hin]%list_elem_of_filter. apply Hno; [done|lia].
  - apply Forall_forall. intros e [He Hin]%lt_key_in. apply Hno; [done|lia].
  - apply Forall_forall. intros e [He Hin]%lt_key_in [Hz|Hin']%Exists_cons; [lia|]. by apply (Hno e Hin ltac:(lia)).
Qed.

Lemma gets_all_spec ks t E : skip_inv t E -> StronglySorted key_lt ks -> Forall key_ok ks ->
  exists t', gets_all ks t = Ret (addrs (filter (has_key ks) E), t') /\ skip_inv t' E.
Proof using Type*.
  revert t. induction ks as [|k ks IH]; intros t Hi Hs Hok; cbn [gets_all].
  - exists t. rewrite filter_none; [done|]. apply Forall_forall. by intros e _ ?%Exists_nil.
  - rewrite (keys_split t E k ks Hi Hs Hok). apply Forall_cons in Hok as [Hk Hok]. apply StronglySorted_cons in Hs as [_ Hs].
    rewrite (tSkipListGets_spec t E) by done. cbn [rbind].
    destruct (IH (count_query t)) as (t' & -> & Hi'); [by apply count_query_inv|done|done|]. cbn [rbind].
    exists t'. split; [|done]. by rewrite addrs_app.
Qed.

Lemma mergeResult_spec t E A B ks fuel : skip_inv t E -> E = A ++ B -> StronglySorted key_lt ks -> Forall key_ok ks ->
  (length B + length ks < fuel)%nat ->
  mergeResult fuel ks (first_of (addrs B) 0) t = Ret (addrs (filter (fun e => ~ has_key ks e) B)).
Proof using Type*.
  intros Hi. revert A B ks. induction fuel as [|fuel IH]; intros A B ks HE Hs Hok Hf; [lia|]. cbn [mergeResult].
  destruct B as [|e B]; [done|]. cbn [addrs map first_of].
  assert (He : e ∈ E) by (rewrite HE; apply elem_of_app; right; constructor). pose proof (inv_ok _ _ _ Hi He) as Hek.
  destruct (node_of _ _ e Hi He) as (n & -> & Hkey & _ & _ & Hnz & _). rewrite (proj2 (Z.eqb_neq _ _) Hnz). cbn [rbind].
  assert (HE' : E = (A ++ [e]) ++ B) by by rewrite <- app_assoc.
  pose proof (inv_fwd t E A (e :: B) Hi HE) as [Hfw _]. cbn in Hf.
  destruct ks as [|k ks].
  - fold (addrs B) in Hfw. rewrite Hfw. cbn [rbind]. rewrite (IH _ B [] HE' Hs Hok) by (cbn; lia). cbn [rbind].
    rewrite filter_cons, decide_True by (by intros ?%Exists_nil). done.
  - fold (addrs B) in Hfw. rewrite Hkey, Hfw. cbn [rbind]. pose proof Hok as [Hk Hok']%Forall_cons. pose proof Hs as [Hlt Hs']%StronglySorted_cons.
    destruct (Z.ltb_spec (comparator (ek e) k) 0) as [Hc|Hc]; [|destruct (Z.eqb_spec (comparator (ek e) k) 0) as [Hz|Hz]].
    + rewrite (IH _ B (k :: ks) HE' Hs Hok) by (cbn in *; lia). cbn [rbind]. rewrite filter_cons, decide_True; [done|].
      intros [Hz|Hin]%Exists_cons; [lia|]. apply Exists_exists in Hin as (x & Hx & Hz). rewrite Forall_forall in Hlt, Hok'.
      pose proof (Hlt x Hx) as Hkx. unfold key_lt in Hkx. pose proof (lt_le_key (ek e) k x Hek Hk (Hok' x Hx) Hc ltac:(lia)). lia.
    + rewrite (IH _ B (k :: ks) HE' Hs Hok) by (cbn in *; lia). rewrite filter_cons, decide_False; [done|].
      intros Hno. apply Hno. by constructor.
    + change (ea e) with (first_of (addrs (e :: B)) 0). rewrite (IH A (e :: B) ks HE Hs' Hok') by (cbn in *; lia).
      do 2 f_equal. apply filter_ext_in. intros x Hx. unfold has_key. rewrite Exists_cons.
      assert (Hxk : comparator (ek x) k <> 0); [|tauto].
      assert (HxE : x ∈ E) by (rewrite HE; apply elem_of_app; by right). pose proof (inv_ok _ _ _ Hi HxE) as Hxok.
      assert (Hex : comparator (ek e) (ek x) <= 0).
      { apply elem_of_cons in Hx as [->|Hx]; [pose proof (cmp_refl (ek e) Hek); lia|]. pose proof (sk_sorted _ _ Hi) as Hso.
        rewrite HE in Hso. apply StronglySorted_app in Hso as (_ & _ & [Hso _]%StronglySorted_cons). rewrite Forall_forall in Hso. by apply Hso. }
      intros Hxz. pose proof (proj1 (key_bound k Hk (ek e) (ek x) Hek Hxok Hex) ltac:(lia)). lia.
Qed.

Lemma tSkipListPointQuery_spec t E ks include : skip_inv t E -> Forall key_ok ks -> ks <> [] ->
  exists t', tSkipListPointQuery ks include t =
      Ret (addrs (if include : bool then filter (has_key ks) E else filter (fun e => ~ has_key ks e) E), t') /\ skip_inv t' E.
Proof using Type*.
  intros Hi Hok Hne. unfold tSkipListPointQuery. destruct (sk_size _ _ Hi) as [Hsz _].
  destruct ks as [|k0 ks0]; [done|]. set (ks := k0 :: ks0) in *. cbn [length Nat.eqb ks orb].
  destruct (Z.eqb_spec (nSize t) 0) as [Hz|Hz].
  { exists t. destruct E; [|cbn in Hsz; lia]. by destruct include. }
  destruct (removeDuplicateKey_spec ks Hok) as (Hs & Hok' & Heq). fold ks.
  assert (HeqE : forall e, e ∈ E -> has_key (removeDuplicateKey ks) e <-> has_key ks e) by (intros e He; by eapply Heq, inv_ok).
  destruct include.
  - destruct (gets_all_spec _ t E Hi Hs Hok') as (t' & -> & Hi'). exists t'. split; [|done]. do 3 f_equal. by apply filter_ext_in.
  - rewrite (head_link t E 0 Hi) by (unfold MAX_SKIP_LIST_LEVEL; lia). cbn [rbind]. rewrite (chain_0 _ _ Hi).
    rewrite (mergeResult_spec t E [] E _ _ Hi eq_refl Hs Hok').
    + cbn [rbind]. exists t. split; [|done]. do 3 f_equal. apply filter_ext_in. intros e He. by rewrite HeqE.
    + unfold walk_fuel. rewrite (heap_size _ _ Hi). lia.
Qed.

(** ** [tSkipListIterateList] *)
Lemma iterate_loop_spec fp f t E A B : skip_inv t E -> E = A ++ B ->
  (forall e n, e ∈ E -> node_at t (ea e) = Ret n -> fp n = f e) ->
  iterate_loop (length B) fp t (first_of (addrs B) 0) = Ret (addrs (filter (fun e => f e = true) B)).
Proof.
  intros Hi HE Hfp. revert A HE. induction B as [|e B IH]; intros A HE; [done|]. cbn [length iterate_loop addrs map first_of].
  assert (He : e ∈ E) by (rewrite HE; apply elem_of_app; right; constructor).
  destruct (node_of _ _ e Hi He) as (n & Hn & Hkey & _ & _ & Hnz & _). rewrite (proj2 (Z.eqb_neq _ _) Hnz), Hn. cbn [rbind].
  pose proof (inv_fwd t E A (e :: B) Hi HE) as [Hfw _]. fold (addrs B) in Hfw. rewrite Hfw. cbn [rbind].
  rewrite (IH (A ++ [e])) by by rewrite <- app_assoc. cbn [rbind]. rewrite (Hfp e n He Hn), filter_cons.
  destruct (f e); [by rewrite decide_True|by rewrite decide_False].
Qed.

Lemma tSkipListIterateList_spec fp f t E : skip_inv t E ->
  (forall e n, e ∈ E -> node_at t (ea e) = Ret n -> fp n = f e) ->
  tSkipListIterateList fp t = Ret (addrs (filter (fun e => f e = true) E)).
Proof.
  intros Hi Hfp. unfold tSkipListIterateList. rewrite (head_link t E 0 Hi) by (unfold MAX_SKIP_LIST_LEVEL; lia). cbn [rbind].
  rewrite (chain_0 _ _ Hi). destruct (sk_size _ _ Hi) as [-> _]. rewrite Nat2Z.id. by apply (iterate_loop_spec fp f t E []).
Qed.
End Keys.

(** ** The keys *)
#[export] Instance int_laws : SkipKeyLaws Z.
Proof.
  apply (Build_SkipKeyLaws Z int_key (fun _ => True)); cbn [comparator int_key]; unfold compareIntVal; intros *;
    repeat match goal with |- context [?x =? ?y] => destruct (Z.eqb_spec x y) | |- context [?x <? ?y] => destruct (Z.ltb_spec x y) end; lia.
Defined.

Lemma int_cmp a b : (comparator a b < 0 <-> a < b) /\ (comparator a b = 0 <-> a = b) /\ (0 < comparator a b <-> b < a).
Proof.
  cbn [comparator int_key]. unfold compareIntVal.
  destruct (Z.eqb_spec a b); [|destruct (Z.ltb_spec a b)]; lia.
Qed.

(** What [tSkipListCreateKey] makes of a tag: the length is the width of the
    column, the characters end at the first zero. *)
Definition str_ok (k : string_key) : Prop :=
  Z.of_nat (length (pz k)) <= nLen k /\ Forall (fun c => 0 < c < 256) (pz k).

Lemma strcmp_sym a b : strcmp b a = - strcmp a b.
Proof.
  revert b. induction a as [|x a IH]; intros [|y b]; try done. cbn [strcmp].
  destruct (Z.ltb_spec x y), (Z.ltb_spec y x); try lia. apply IH.
Qed.

Lemma strcmp_trans a b c : strcmp a b <= 0 -> strcmp b c <= 0 -> strcmp a c <= 0.
Proof.
  revert b c. induction a as [|x a IH]; intros [|y b] [|z c]; cbn [strcmp]; try lia.
  destruct (Z.ltb_spec x y), (Z.ltb_spec y x), (Z.ltb_spec y z), (Z.ltb_spec z y), (Z.ltb_spec x z), (Z.ltb_spec z x);
    try lia. apply IH.
Qed.

Lemma str_cmp a b : str_ok a -> str_ok b -> compareStrVal a b = strcmp (pz a) (pz b).
Proof.
  intros [Ha _] [Hb _]. unfold compareStrVal.
  destruct (Z.eqb_spec (nLen a) 0) as [Ea|], (Z.eqb_spec (nLen b) 0) as [Eb|]; cbn [andb];
    rewrite ?(proj2 (Z.eqb_neq (nLen a) (-1))), ?(proj2 (Z.eqb_neq (nLen b) (-1))) by lia; try done.
  destruct a as [la za], b as [lb zb]. cbn [pz nLen] in *. destruct za, zb; try done; cbn [length] in *; lia.
Qed.

#[export] Instance str_laws : SkipKeyLaws string_key.
Proof.
  apply (Build_SkipKeyLaws string_key str_key str_ok); cbn [comparator str_key]; intros *.
  - intros Ha Hb. rewrite !str_cmp by done. apply strcmp_sym.
  - intros Ha Hb Hc. rewrite !str_cmp by done. apply strcmp_trans.
Defined.

(** No upper bound: every key is below it. *)
Definition no_upper : string_key := {| nLen := -1; pz := [] |}.

Lemma no_upper_above k : str_ok k -> compareStrVal k no_upper = -1.
Proof.
  intros [Hk _]. unfold compareStrVal. cbn [nLen no_upper]. rewrite andb_false_r.
  rewrite (proj2 (Z.eqb_neq (nLen k) (-1))) by lia. done.
Qed.

Lemma no_upper_bound : bound_ok no_upper.
Proof. intros a b Ha Hb _. cbn [comparator str_key]. by rewrite (no_upper_above a Ha). Qed.
