(* ===== verification/TagFilter.v ===== *)
(** * Conditions on tags (src/src/client/src/tscAst.c)

    The tree of a condition is traversed over the skip list of a super table:
    conditions on the first tag are answered by the skip list, the others by
    looking at every node, and the sets of nodes are joined. *)
From stdpp Require Import sorting.
From S2P Require Import Prelude SkipList SkipInv SkipPut SkipQuery SkipKeys.

(** ** The tree *)
Section Filter.
Context {K : Type} `{SkipKey K}.

(** A condition on column [colIdx]; the skip list is over column 0, [-1] is the
    table name. *)
Record tQueryInfo := { colIdx : Z; optr : RELATION; q : K }.

Inductive connective := TSDB_RELATION_AND | TSDB_RELATION_OR.

Inductive tSQLBinaryExpr :=
| Leaf (info : tQueryInfo)
| Node (nSQLBinaryOptr : connective) (pLeft pRight : tSQLBinaryExpr).

(** [filterOnPrimaryKey], which is computed when the tree is built. *)
Fixpoint isQueryOnPrimaryKey (e : tSQLBinaryExpr) : bool :=
  match e with
  | Leaf info => colIdx info =? 0
  | Node _ l r => isQueryOnPrimaryKey l || isQueryOnPrimaryKey r
  end.

(** The bounds of a range with no bound, by the type of the key. *)
Class RangeInit := { lower0 : K; upper0 : K; string_type : bool }.
Context `{RangeInit}.

Definition setInitialValueForRangeQueryCondition : @tSKipListQueryCond K :=
  {| lowerBnd := lower0; upperBnd := upper0;
     lowerBndRelOptr := TSDB_RELATION_LARGE; upperBndRelOptr := TSDB_RELATION_LESS |}.

Definition set_lower (k : K) (op : RELATION) (c : @tSKipListQueryCond K) : tSKipListQueryCond :=
  {| lowerBnd := k; upperBnd := upperBnd c; lowerBndRelOptr := op; upperBndRelOptr := upperBndRelOptr c |}.
Definition set_upper (k : K) (op : RELATION) (c : @tSKipListQueryCond K) : tSKipListQueryCond :=
  {| lowerBnd := lowerBnd c; upperBnd := k; lowerBndRelOptr := lowerBndRelOptr c; upperBndRelOptr := op |}.

(** Whether a node satisfies a condition. *)
Context (fp : tQueryInfo -> @tSkipListNode K -> bool).
Implicit Types t : @tSkipList K.

Definition tSQLDoFilterInitialResult (colInfo : tQueryInfo) t : res (list Z * tSkipList) :=
  let c := setInitialValueForRangeQueryCondition in
  let by_fp := let! r := tSkipListIterateList (fp colInfo) t in Ret (r, t) in
  if colIdx colInfo =? 0 then
    match optr colInfo with
    | TSDB_RELATION_LIKE => by_fp
    | TSDB_RELATION_EQUAL => tSkipListPointQuery [q colInfo] true t
    | TSDB_RELATION_NOT_EQUAL => tSkipListPointQuery [q colInfo] false t
    | TSDB_RELATION_LESS_EQUAL => tSkipListQuery string_type (set_upper (q colInfo) (optr colInfo) c) t
    | TSDB_RELATION_LESS => tSkipListQuery string_type (set_upper (q colInfo) TSDB_RELATION_LESS c) t
    | TSDB_RELATION_LARGE => tSkipListQuery string_type (set_lower (q colInfo) TSDB_RELATION_LARGE c) t
    | TSDB_RELATION_LARGE_EQUAL => tSkipListQuery string_type (set_lower (q colInfo) (optr colInfo) c) t
    end
  else by_fp.

Fixpoint tSQLListTraverseOnResult (colInfo : tQueryInfo) (pRes : list Z) t : res (list Z) :=
  match pRes with
  | [] => Ret []
  | p :: pRes =>
      let! n := node_at t p in
      let! rest := tSQLListTraverseOnResult colInfo pRes t in
      Ret (if fp colInfo n then p :: rest else rest)
  end.

(** ** Sets of nodes *)
(** The loops of [merge] and [intersect] over the sorted addresses. *)
Fixpoint merge_loop (fuel : nat) (l r : list Z) : res (list Z) :=
  match fuel with
  | O => NoFuel
  | S fuel' =>
      match l, r with
      | [], _ => Ret r
      | _, [] => Ret l
      | x :: l', y :: r' =>
          if x - y <? 0 then let! rest := merge_loop fuel' l' r in Ret (x :: rest)
          else if 0 <? x - y then let! rest := merge_loop fuel' l r' in Ret (y :: rest)
          else let! rest := merge_loop fuel' l' r' in Ret (y :: rest)
      end
  end.

Fixpoint intersect_loop (fuel : nat) (l r : list Z) : res (list Z) :=
  match fuel with
  | O => NoFuel
  | S fuel' =>
      match l, r with
      | [], _ => Ret []
      | _, [] => Ret []
      | x :: l', y :: r' =>
          if x - y <? 0 then intersect_loop fuel' l' r
          else if 0 <? x - y then intersect_loop fuel' l r'
          else let! rest := intersect_loop fuel' l' r' in Ret (y :: rest)
      end
  end.

Definition compareByAddr (l : list Z) : list Z := qsort l.
Definition set_fuel (l r : list Z) : nat := S (length l + length r).
Definition merge (l r : list Z) : res (list Z) := merge_loop (set_fuel l r) (compareByAddr l) (compareByAddr r).
Definition intersect (l r : list Z) : res (list Z) := intersect_loop (set_fuel l r) (compareByAddr l) (compareByAddr r).

(** ** The traversal *)
(** [use]: [pSkipList] is not [NULL]. *)
Fixpoint tSQLBinaryExprTraverse (e : tSQLBinaryExpr) (use : bool) (result : list Z) t : res (list Z * tSkipList) :=
  match e with
  | Leaf info =>
      if use then
        match result with [] => tSQLDoFilterInitialResult info t | _ => Exit end
      else let! r := tSQLListTraverseOnResult info result t in Ret (r, t)
  | Node op l r =>
      let weight := (Z.b2z (isQueryOnPrimaryKey l) + Z.b2z (isQueryOnPrimaryKey r)) in
      if (weight =? 0) && negb (Nat.eqb (length result) 0) && negb use then
        let! '(result, t) := tSQLBinaryExprTraverse l use result t in
        tSQLBinaryExprTraverse r use result t
      else if (weight =? 0) || (weight =? 2) || ((weight =? 1) && match op with TSDB_RELATION_OR => true | _ => false end) then
        let! '(rLeft, t) := tSQLBinaryExprTraverse l use [] t in
        let! '(rRight, t) := tSQLBinaryExprTraverse r use [] t in
        let! result := match op with TSDB_RELATION_AND => intersect rLeft rRight | TSDB_RELATION_OR => merge rLeft rRight end in
        Ret (result, t)
      else
        match op with
        | TSDB_RELATION_AND =>
            if isQueryOnPrimaryKey l then
              let! '(result, t) := tSQLBinaryExprTraverse l use result t in
              tSQLBinaryExprTraverse r false result t
            else
              let! '(result, t) := tSQLBinaryExprTraverse r use result t in
              tSQLBinaryExprTraverse l false result t
        | TSDB_RELATION_OR => Exit
        end
  end.
End Filter.
Arguments tQueryInfo : clear implicits.
Arguments tSQLBinaryExpr : clear implicits.
Arguments RangeInit : clear implicits.

Definition INT64_MAX : Z := 2 ^ 63 - 1.
Definition INT64_MIN : Z := - 2 ^ 63.
#[export] Instance int_range : RangeInit Z := {| lower0 := INT64_MIN; upper0 := INT64_MAX; string_type := false |}.
#[export] Instance str_range : RangeInit string_key :=
  {| lower0 := {| nLen := 0; pz := [] |}; upper0 := no_upper; string_type := true |}.
