(* ===== verification/TagExpr.v ===== *)
(** * What a condition on tags selects *)
From stdpp Require Import sorting.
From S2P Require Import Prelude SkipList SkipInv SkipPut SkipQuery SkipKeys TagFilter.

(** ** Sets of addresses *)
Lemma compareByAddr_spec l : NoDup l -> compareByAddr l ≡ₚ l /\ StronglySorted Z.lt (compareByAddr l).
Proof.
  intros Hnd. pose proof (qsort_perm (K := Z) l) as HP. split; [exact HP|].
  pose proof (qsort_sorted (K := Z) l (ltac:(by apply Forall_true))) as Hs.
  change (qsort l) with (compareByAddr l) in *. rewrite <- HP in Hnd. clear HP. revert Hnd Hs.
  generalize (compareByAddr l). clear l. intros l Hnd Hs. induction Hs as [|x l Hs IH Hx]; [constructor|].
  apply NoDup_cons in Hnd as [Hni Hnd]. constructor; [by apply IH|]. rewrite Forall_forall in Hx |- *. intros y Hy.
  specialize (Hx y Hy). unfold key_le in Hx. destruct (int_cmp x y) as (H1 & H2 & H3).
  destruct (Z.eq_dec (comparator x y) 0) as [E|E]; [|apply H1; lia]. apply H2 in E as ->. done.
Qed.

Lemma merge_loop_spec fuel l r : StronglySorted Z.lt l -> StronglySorted Z.lt r -> (length l + length r < fuel)%nat ->
  exists u, merge_loop fuel l r = Ret u /\ StronglySorted Z.lt u /\ forall a, a ∈ u <-> a ∈ l \/ a ∈ r.
Proof.
  revert l r. induction fuel as [|fuel IH]; intros l r Hl Hr Hf; [lia|]. cbn [merge_loop].
  destruct l as [|x l]; [exists r; split; [done|]; split; [done|]; intros a; rewrite elem_of_nil; tauto|].
  destruct r as [|y r]; [exists (x :: l); split; [done|]; split; [done|]; intros a; rewrite elem_of_nil; tauto|].
  pose proof Hl as [Hx Hl']%StronglySorted_cons. pose proof Hr as [Hy Hr']%StronglySorted_cons. rewrite Forall_forall in Hx, Hy.
  destruct (Z.ltb_spec (x - y) 0) as [Hlt|Hge]; [|destruct (Z.ltb_spec 0 (x - y)) as [Hgt|Hle]].
  - destruct (IH l (y :: r) Hl' Hr) as (u & -> & Hu & Hin); [cbn in *; lia|]. exists (x :: u). split; [done|]. split.
    + apply StronglySorted_cons. split; [|done]. apply Forall_forall. intros a [Ha|[->|Ha]%elem_of_cons]%Hin; [by apply Hx|lia|].
      specialize (Hy a Ha). lia.
    + intros a. rewrite elem_of_cons, Hin, (elem_of_cons l). tauto.
  - destruct (IH (x :: l) r Hl Hr') as (u & -> & Hu & Hin); [cbn in *; lia|]. exists (y :: u). split; [done|]. split.
    + apply StronglySorted_cons. split; [|done]. apply Forall_forall. intros a [[->|Ha]%elem_of_cons|Ha]%Hin; [lia| |by apply Hy].
      specialize (Hx a Ha). lia.
    + intros a. rewrite elem_of_cons, Hin, (elem_of_cons r). tauto.
  - assert (x = y) as -> by lia. destruct (IH l r Hl' Hr') as (u & -> & Hu & Hin); [cbn in *; lia|]. exists (y :: u). split; [done|]. split.
    + apply StronglySorted_cons. split; [|done]. apply Forall_forall. intros a [Ha|Ha]%Hin; [by apply Hx|by apply Hy].
    + intros a. rewrite !elem_of_cons, Hin. tauto.
Qed.

Lemma intersect_loop_spec fuel l r : StronglySorted Z.lt l -> StronglySorted Z.lt r -> (length l + length r < fuel)%nat ->
  exists u, intersect_loop fuel l r = Ret u /\ StronglySorted Z.lt u /\ forall a, a ∈ u <-> a ∈ l /\ a ∈ r.
Proof.
  revert l r. induction fuel as [|fuel IH]; intros l r Hl Hr Hf; [lia|]. cbn [intersect_loop].
  destruct l as [|x l]; [exists []; split; [done|]; split; [constructor|]; intros a; rewrite elem_of_nil; tauto|].
  destruct r as [|y r]; [exists []; split; [done|]; split; [constructor|]; intros a; rewrite elem_of_nil; tauto|].
  pose proof Hl as [Hx Hl']%StronglySorted_cons. pose proof Hr as [Hy Hr']%StronglySorted_cons. rewrite Forall_forall in Hx, Hy.
  destruct (Z.ltb_spec (x - y) 0) as [Hlt|Hge]; [|destruct (Z.ltb_spec 0 (x - y)) as [Hgt|Hle]].
  - destruct (IH l (y :: r) Hl' Hr) as (u & -> & Hu & Hin); [cbn in *; lia|]. exists u. split; [done|]. split; [done|].
    intros a. rewrite Hin, (elem_of_cons l). split; [tauto|]. intros [[->|Ha] Hb]; [|done].
    apply elem_of_cons in Hb as [->|Hb]; [lia|]. specialize (Hy _ Hb). lia.
  - destruct (IH (x :: l) r Hl Hr') as (u & -> & Hu & Hin); [cbn in *; lia|]. exists u. split; [done|]. split; [done|].
    intros a. rewrite Hin, (elem_of_cons r). split; [tauto|]. intros [Ha [->|Hb]]; [|done].
    apply elem_of_cons in Ha as [->|Ha]; [lia|]. specialize (Hx _ Ha). lia.
  - assert (x = y) as -> by lia. destruct (IH l r Hl' Hr') as (u & -> & Hu & Hin); [cbn in *; lia|]. exists (y :: u). split; [done|]. split.
    + apply StronglySorted_cons. split; [|done]. apply Forall_forall. intros a [Ha _]%Hin. by apply Hx.
    + intros a. rewrite !elem_of_cons, Hin. split; [tauto|]. intros [[->|Ha] [Hb|Hb]]; [by left|by left|by left|by right].
Qed.

Lemma lt_sorted_nodup (l : list Z) : StronglySorted Z.lt l -> NoDup l.
Proof.
  induction 1 as [|x l Hs IH Hx]; constructor; [|done]. rewrite Forall_forall in Hx. intros Hin. specialize (Hx x Hin). lia.
Qed.

Lemma merge_spec l r : NoDup l -> NoDup r -> exists u, merge l r = Ret u /\ NoDup u /\ forall a, a ∈ u <-> a ∈ l \/ a ∈ r.
Proof.
  intros Hl Hr. destruct (compareByAddr_spec l Hl) as [Pl Sl], (compareByAddr_spec r Hr) as [Pr Sr]. unfold merge, set_fuel.
  destruct (merge_loop_spec (S (length l + length r)) _ _ Sl Sr) as (u & -> & Hu & Hin); [rewrite Pl, Pr; lia|].
  exists u. split; [done|]. split; [by apply lt_sorted_nodup|]. intros a. by rewrite Hin, Pl, Pr.
Qed.

Lemma intersect_spec l r : NoDup l -> NoDup r -> exists u, intersect l r = Ret u /\ NoDup u /\ forall a, a ∈ u <-> a ∈ l /\ a ∈ r.
Proof.
  intros Hl Hr. destruct (compareByAddr_spec l Hl) as [Pl Sl], (compareByAddr_spec r Hr) as [Pr Sr]. unfold intersect, set_fuel.
  destruct (intersect_loop_spec (S (length l + length r)) _ _ Sl Sr) as (u & -> & Hu & Hin); [rewrite Pl, Pr; lia|].
  exists u. split; [done|]. split; [by apply lt_sorted_nodup|]. intros a. by rewrite Hin, Pl, Pr.
Qed.

(** ** Conditions *)
Section Expr.
Context {K : Type} `{SkipKeyLaws K} `{!RangeInit K}.
Implicit Types (t : @tSkipList K) (k : K) (e : @ent K) (E L : list (@ent K)) (x : tSQLBinaryExpr K) (info : tQueryInfo K).

(** The bounds of an open range can be compared with the keys. *)
Class RangeLaws : Prop := {
  lower_ok : key_ok (lower0 : K);
  upper_ok : bound_ok (upper0 : K);
  upper_eq : forall k, key_ok k -> comparator k upper0 = 0 -> key_ok (upper0 : K) }.
Context `{!RangeLaws}.

(** [k op v] *)
Definition rel_holds (op : RELATION) (v : K) e : bool :=
  match op with
  | TSDB_RELATION_LESS => comparator (ek e) v <? 0
  | TSDB_RELATION_LARGE => 0 <? comparator (ek e) v
  | TSDB_RELATION_EQUAL => comparator (ek e) v =? 0
  | TSDB_RELATION_LESS_EQUAL => comparator (ek e) v <=? 0
  | TSDB_RELATION_LARGE_EQUAL => 0 <=? comparator (ek e) v
  | TSDB_RELATION_NOT_EQUAL => negb (comparator (ek e) v =? 0)
  | TSDB_RELATION_LIKE => true
  end.

(** The filter looks at the key and the table of a node only; on the first tag
    it compares the key. *)
Context (fp : tQueryInfo K -> @tSkipListNode K -> bool) (f : tQueryInfo K -> K -> Z -> bool).
Definition sat info e : bool := f info (ek e) (ed e).
Context (fp_data : forall info n, fp info n = f info (key n) (pData n)).
Definition agrees E : Prop := forall info e, e ∈ E -> colIdx info = 0 -> optr info <> TSDB_RELATION_LIKE ->
  sat info e = rel_holds (optr info) (q info) e.

(** The keys are strictly between the bounds of an open range. *)
Definition inside E : Prop := Forall (fun e => 0 < comparator (ek e) lower0 /\ comparator (ek e) upper0 < 0) E.

Lemma inside_in E e : inside E -> e ∈ E -> 0 < comparator (ek e) lower0 /\ comparator (ek e) upper0 < 0.
Proof. intros Hin He. unfold inside in Hin. rewrite Forall_forall in Hin. by apply Hin. Qed.

Lemma range_op E (op : RELATION) (v : K) (c : @tSKipListQueryCond K) : inside E ->
  match op with
  | TSDB_RELATION_LESS | TSDB_RELATION_LESS_EQUAL => c = set_upper v op setInitialValueForRangeQueryCondition
  | TSDB_RELATION_LARGE | TSDB_RELATION_LARGE_EQUAL => c = set_lower v op setInitialValueForRangeQueryCondition
  | _ => False
  end -> in_range c E = filter (fun e => rel_holds op v e = true) E.
Proof.
  intros Hin Hop. apply filter_ext_in. intros e He. pose proof (inside_in E e Hin He) as [Hl Hu].
  destruct op; try done; subst c; cbn; rewrite ?Z.ltb_lt, ?Z.leb_le; tauto.
Qed.

Lemma range_cond_ok (op : RELATION) (v : K) : key_ok v ->
  cond_ok (set_upper v op setInitialValueForRangeQueryCondition) /\
  cond_ok (set_lower v op setInitialValueForRangeQueryCondition).
Proof using Type*.
  intros Hv. split; (split; [|split]); cbn.
  - apply lower_ok.
  - by apply key_bound.
  - done.
  - done.
  - apply upper_ok.
  - by apply upper_eq.
Qed.

Lemma point_one t E v include : skip_inv t E -> key_ok v ->
  exists t', tSkipListPointQuery [v] include t =
    Ret (addrs (filter (fun e => rel_holds (if include : bool then TSDB_RELATION_EQUAL else TSDB_RELATION_NOT_EQUAL) v e = true) E), t') /\
    skip_inv t' E.
Proof using Type*.
  intros Hi Hv. destruct (tSkipListPointQuery_spec t E [v] include Hi) as (t' & -> & Hi'); [by constructor|done|].
  exists t'. split; [|done]. do 2 f_equal. destruct include; f_equal; apply list_filter_iff; intros e; unfold has_key;
    rewrite Exists_cons, Exists_nil; cbn [rel_holds]; rewrite ?negb_true_iff, ?Z.eqb_eq, ?Z.eqb_neq; tauto.
Qed.

(** The value of a condition on the first tag is a key. *)
Definition info_ok info : Prop := colIdx info = 0 -> optr info <> TSDB_RELATION_LIKE -> key_ok (q info).

Lemma by_fp_spec info t E : skip_inv t E -> tSkipListIterateList (fp info) t = Ret (addrs (filter (fun e => sat info e = true) E)).
Proof using Type*.
  intros Hi. apply tSkipListIterateList_spec; [done|]. intros e n He Hn. destruct (node_of _ _ e Hi He) as (n' & Hn' & Hk & Hd & _).
  rewrite Hn in Hn'. injection Hn' as <-. by rewrite fp_data, Hk, Hd.
Qed.

Lemma tSQLDoFilterInitialResult_spec info t E : skip_inv t E -> inside E -> agrees E -> info_ok info ->
  exists t', tSQLDoFilterInitialResult fp info t = Ret (addrs (filter (fun e => sat info e = true) E), t') /\ skip_inv t' E.
Proof using Type*.
  intros Hi Hin Hag Hok. unfold tSQLDoFilterInitialResult. destruct (Z.eqb_spec (colIdx info) 0) as [Hc|Hc];
    [|rewrite (by_fp_spec info t E Hi); by exists t].
  destruct (decide (optr info = TSDB_RELATION_LIKE)) as [Hl|Hl]; [rewrite Hl, (by_fp_spec info t E Hi); by exists t|].
  specialize (Hok Hc Hl). destruct (range_cond_ok (optr info) (q info) Hok) as [Hup Hlo].
  assert (Hs : filter (fun e => sat info e = true) E = filter (fun e => rel_holds (optr info) (q info) e = true) E).
  { apply filter_ext_in. intros e He. by rewrite Hag. }
  rewrite Hs. clear Hs.
  assert (Hq : forall c, cond_ok c -> in_range c E = filter (fun e => rel_holds (optr info) (q info) e = true) E -> exists t',
    tSkipListQuery string_type c t = Ret (addrs (filter (fun e => rel_holds (optr info) (q info) e = true) E), t') /\ skip_inv t' E).
  { intros c Hcok Hr. destruct (tSkipListQuery_spec t E c string_type Hi Hcok) as (t' & -> & Ht). rewrite Hr. exists t'. split; [done|].
    destruct Ht as [->| ->]; [done|by apply count_query_inv]. }
  destruct (optr info); try done.
  - apply Hq; [done|]. by apply range_op.
  - apply Hq; [done|]. by apply range_op.
  - apply (point_one t E (q info) true Hi Hok).
  - apply Hq; [done|]. by apply range_op.
  - apply Hq; [done|]. by apply range_op.
  - apply (point_one t E (q info) false Hi Hok).
Qed.

Lemma tSQLListTraverseOnResult_spec info t E L : skip_inv t E -> Forall (fun e => e ∈ E) L ->
  tSQLListTraverseOnResult fp info (addrs L) t = Ret (addrs (filter (fun e => sat info e = true) L)).
Proof using Type*.
  intros Hi. induction 1 as [|e L He HL IH]; [done|]. cbn [addrs map tSQLListTraverseOnResult].
  destruct (node_of _ _ e Hi He) as (n & -> & Hk & Hd & _). cbn [rbind]. fold (addrs L). rewrite IH. cbn [rbind].
  rewrite fp_data, Hk, Hd. fold (sat info e). rewrite filter_cons. destruct (sat info e); [by rewrite decide_True|by rewrite decide_False].
Qed.
(** ** Trees *)
Fixpoint eval x e : bool :=
  match x with
  | Leaf info => sat info e
  | Node TSDB_RELATION_AND l r => eval l e && eval r e
  | Node TSDB_RELATION_OR l r => eval l e || eval r e
  end.

Fixpoint and_only x : bool :=
  match x with
  | Leaf _ => true
  | Node TSDB_RELATION_AND l r => and_only l && and_only r
  | Node TSDB_RELATION_OR _ _ => false
  end.

(** Below an AND whose other side is about the first tag there is no OR. *)
Fixpoint supported x : bool :=
  match x with
  | Leaf _ => true
  | Node op l r =>
      match op, isQueryOnPrimaryKey l, isQueryOnPrimaryKey r with
      | TSDB_RELATION_AND, true, false => supported l && and_only r
      | TSDB_RELATION_AND, false, true => and_only l && supported r
      | _, _, _ => supported l && supported r
      end
  end.

Fixpoint leaves_ok x : Prop := match x with Leaf info => info_ok info | Node _ l r => leaves_ok l /\ leaves_ok r end.

(** The result is the set of nodes the tree holds of. *)
Definition selects x E (r : list Z) : Prop :=
  NoDup r /\ forall a, a ∈ r <-> exists e, e ∈ E /\ ea e = a /\ eval x e = true.

Lemma addrs_filter_nodup (P : ent -> Prop) `{!forall e, Decision (P e)} L : NoDup (addrs L) -> NoDup (addrs (filter P L)).
Proof.
  induction L as [|e L IH]; intros Hnd; [constructor|]. cbn [addrs map] in Hnd.
  apply NoDup_cons in Hnd as [Hni Hnd]. rewrite filter_cons. case_decide; [|by apply IH]. cbn [addrs map]. apply NoDup_cons.
  split; [|by apply IH]. intros (y & Hy & [_ Hin]%list_elem_of_filter)%list_elem_of_fmap. apply Hni. rewrite Hy. by apply addrs_in.
Qed.

Lemma addrs_filter_in (P : ent -> Prop) `{!forall e, Decision (P e)} L a :
  a ∈ addrs (filter P L) <-> exists e, e ∈ L /\ ea e = a /\ P e.
Proof.
  unfold addrs. rewrite list_elem_of_fmap. split.
  - intros (e & -> & [Hs He]%list_elem_of_filter). by exists e.
  - intros (e & He & <- & Hs). exists e. by rewrite list_elem_of_filter.
Qed.

Lemma filter_selects x t E : skip_inv t E -> selects x E (addrs (filter (fun e => eval x e = true) E)).
Proof. intros Hi. split; [apply addrs_filter_nodup, (sk_nodup _ _ Hi)|intros a; apply addrs_filter_in]. Qed.

Lemma addr_inj t E e e' : skip_inv t E -> e ∈ E -> e' ∈ E -> ea e = ea e' -> e = e'.
Proof.
  intros Hi He He' Ha. apply list_elem_of_lookup in He as [i Hi1]. apply list_elem_of_lookup in He' as [j Hj1].
  assert (i = j) as ->; [|congruence].
  apply (NoDup_lookup (addrs E) i j (ea e)); [apply (sk_nodup _ _ Hi)| |]; unfold addrs; rewrite list_lookup_fmap.
  - by rewrite Hi1.
  - rewrite Hj1. cbn. by rewrite Ha.
Qed.

Lemma selects_entries x E r : selects x E r -> exists L, r = addrs L /\ Forall (fun e => e ∈ E /\ eval x e = true) L.
Proof.
  intros [_ Hr]. assert (Hin : forall a, a ∈ r -> exists e, e ∈ E /\ ea e = a /\ eval x e = true) by (intros a Ha; by apply Hr).
  clear Hr. induction r as [|a r IH]; [by exists []|]. destruct IH as (L & -> & HL); [intros b Hb; apply Hin; by constructor|].
  destruct (Hin a ltac:(constructor)) as (e & He & <- & Hs). exists (e :: L). split; [done|]. by constructor.
Qed.

(** Without the index: a tree of ANDs filters the nodes it is given. *)
Lemma traverse_scan x t E L : skip_inv t E -> Forall (fun e => e ∈ E) L -> and_only x = true -> isQueryOnPrimaryKey x = false ->
  tSQLBinaryExprTraverse fp x false (addrs L) t = Ret (addrs (filter (fun e => eval x e = true) L), t).
Proof using Type*.
  intros Hi. revert L. induction x as [info|op l IHl r IHr]; intros L HL Ha Hp; cbn [tSQLBinaryExprTraverse].
  - rewrite (tSQLListTraverseOnResult_spec info t E L Hi HL). done.
  - destruct op; [|done]. cbn [and_only] in Ha. apply andb_prop in Ha as [Hal Har]. cbn [isQueryOnPrimaryKey] in Hp.
    apply orb_false_elim in Hp as [Hpl Hpr]. rewrite Hpl, Hpr. cbn [Z.b2z Z.add Z.eqb andb negb].
    destruct L as [|e L].
    + cbn [addrs map length Nat.eqb negb andb orb].
      pose proof (IHl [] ltac:(constructor) Hal Hpl) as E1. pose proof (IHr [] ltac:(constructor) Har Hpr) as E2.
      cbn [addrs map filter list_filter] in E1, E2. rewrite E1. cbn [rbind]. rewrite E2. done.
    + cbn [addrs map length Nat.eqb negb andb]. fold (addrs L). change (0 + 0 =? 0) with true. cbn [andb].
      pose proof (IHl (e :: L) HL Hal Hpl) as E1. cbn [addrs map] in E1. fold (addrs L) in E1. rewrite E1. cbn [rbind].
      fold (addrs (filter (fun e => eval l e = true) (e :: L))). rewrite IHr; [| |done|done].
      2: { rewrite Forall_forall in HL |- *. intros y [_ Hy]%list_elem_of_filter. by apply HL. }
      do 2 f_equal. rewrite list_filter_filter. f_equal. apply list_filter_iff. intros y. cbn [eval]. rewrite andb_true_iff. tauto.
Qed.
(** An AND that filters what its first side selects. *)
Lemma scan_selects x1 x2 t E r : skip_inv t E -> selects x1 E r -> and_only x2 = true -> isQueryOnPrimaryKey x2 = false ->
  exists r', tSQLBinaryExprTraverse fp x2 false r t = Ret (r', t) /\ selects (Node TSDB_RELATION_AND x1 x2) E r'.
Proof using Type*.
  intros Hi Hr Ha Hp. destruct (selects_entries x1 E r Hr) as (L & -> & HL). destruct Hr as [Hnd Hr].
  rewrite Forall_forall in HL.
  exists (addrs (filter (fun e => eval x2 e = true) L)). split; [apply (traverse_scan x2 t E); try done|split].
  - apply Forall_forall. intros e He. by apply HL.
  - by apply addrs_filter_nodup.
  - intros a. rewrite addrs_filter_in. cbn [eval]. split.
    + intros (e & He & Hea & Hs). exists e. rewrite andb_true_iff. destruct (HL e He). done.
    + intros (e & He & Hea & [Hs1 Hs2]%andb_prop).
      assert (HaL : a ∈ addrs L) by (apply Hr; by exists e). apply list_elem_of_fmap in HaL as (e' & Hae & He').
      exists e'. split; [done|]. split; [done|]. destruct (HL e' He') as [HeE' _].
      rewrite (addr_inj t E e' e Hi HeE' He); [done|congruence].
Qed.

Lemma selects_swap x1 x2 E r : selects (Node TSDB_RELATION_AND x1 x2) E r -> selects (Node TSDB_RELATION_AND x2 x1) E r.
Proof. intros [Hnd Hr]. split; [done|]. intros a. rewrite Hr. cbn [eval]. split; intros (e & ? & ? & ?); exists e; rewrite andb_comm; done. Qed.

Lemma join_selects op x1 x2 t E r1 r2 : skip_inv t E -> selects x1 E r1 -> selects x2 E r2 ->
  exists r, match op with TSDB_RELATION_AND => intersect r1 r2 | TSDB_RELATION_OR => merge r1 r2 end = Ret r /\ selects (Node op x1 x2) E r.
Proof.
  intros Hi [Hn1 S1] [Hn2 S2]. destruct op.
  - destruct (intersect_spec r1 r2 Hn1 Hn2) as (r & -> & Hnd & Hin). exists r. split; [done|]. split; [done|].
    intros a. rewrite Hin, S1, S2. cbn [eval]. split.
    + intros [(e & He & Hea & Hs) (e' & He' & Hea' & Hs')]. exists e. rewrite andb_true_iff.
      assert (e' = e) as -> by (apply (addr_inj t E); congruence). done.
    + intros (e & He & Hea & [Hs1 Hs2]%andb_prop). split; by exists e.
  - destruct (merge_spec r1 r2 Hn1 Hn2) as (r & -> & Hnd & Hin). exists r. split; [done|]. split; [done|].
    intros a. rewrite Hin, S1, S2. cbn [eval]. split.
    + intros [(e & He & Hea & Hs)|(e & He & Hea & Hs)]; exists e; rewrite Hs, ?orb_true_r; done.
    + intros (e & He & Hea & [Hs|Hs]%orb_prop); [left|right]; by exists e.
Qed.

Lemma traverse_index x t E : skip_inv t E -> inside E -> agrees E -> leaves_ok x -> supported x = true ->
  exists r t', tSQLBinaryExprTraverse fp x true [] t = Ret (r, t') /\ selects x E r /\ skip_inv t' E.
Proof using Type*.
  intros Hi Hin Hag. revert t Hi. induction x as [info|op l IHl r IHr]; intros t Hi Hok Hs; cbn [tSQLBinaryExprTraverse].
  - destruct (tSQLDoFilterInitialResult_spec info t E Hi Hin Hag Hok) as (t' & -> & Hi'). eexists _, t'. split; [done|]. split; [|done].
    exact (filter_selects (Leaf info) t E Hi).
  - destruct Hok as [Hokl Hokr]. cbn [length Nat.eqb negb]. rewrite !andb_false_r.
    assert (Hboth : supported l = true -> supported r = true -> exists r0 t',
      (let! '(rLeft, t) := tSQLBinaryExprTraverse fp l true [] t in
       let! '(rRight, t) := tSQLBinaryExprTraverse fp r true [] t in
       let! result := match op with TSDB_RELATION_AND => intersect rLeft rRight | TSDB_RELATION_OR => merge rLeft rRight end in
       Ret (result, t)) = Ret (r0, t') /\ selects (Node op l r) E r0 /\ skip_inv t' E).
    { intros Hsl Hsr. destruct (IHl t Hi Hokl Hsl) as (rl & t1 & -> & Hl & Hi1). cbn [rbind].
      destruct (IHr t1 Hi1 Hokr Hsr) as (rr & t2 & -> & Hr & Hi2). cbn [rbind].
      destruct (join_selects op l r t E rl rr Hi Hl Hr) as (u & -> & Hu). cbn [rbind]. by exists u, t2. }
    cbn [supported] in Hs. destruct (isQueryOnPrimaryKey l) eqn:Epl, (isQueryOnPrimaryKey r) eqn:Epr; cbn [Z.b2z Z.add Z.eqb].
    + destruct op; apply andb_prop in Hs as [Hs1 Hs2]; exact (Hboth Hs1 Hs2).
    + destruct op; apply andb_prop in Hs as [Hs1 Hs2]; [|exact (Hboth Hs1 Hs2)]. change ((1 + 0 =? 0) || (1 + 0 =? 2) || (1 + 0 =? 1) && false) with false.
      cbn iota. destruct (IHl t Hi Hokl Hs1) as (rl & t1 & -> & Hl & Hi1). cbn [rbind].
      destruct (scan_selects l r t1 E rl Hi1 Hl Hs2 Epr) as (u & -> & Hu). by exists u, t1.
    + destruct op; apply andb_prop in Hs as [Hs1 Hs2]; [|exact (Hboth Hs1 Hs2)]. change ((0 + 1 =? 0) || (0 + 1 =? 2) || (0 + 1 =? 1) && false) with false.
      cbn iota. destruct (IHr t Hi Hokr Hs2) as (rl & t1 & -> & Hl & Hi1). cbn [rbind].
      destruct (scan_selects r l t1 E rl Hi1 Hl Hs1 Epl) as (u & -> & Hu). exists u, t1. split; [done|]. split; [|done]. by apply selects_swap.
    + destruct op; apply andb_prop in Hs as [Hs1 Hs2]; exact (Hboth Hs1 Hs2).
Qed.
End Expr.
