(* ===== verification/MetricIndex.v ===== *)
(** * The tables of a super table (src/src/system/src/mgmtMeter.c)

    A super table holds its tables in a doubly linked list and in a skip list
    over their first tag.  The list is one bucket of Chain.v. *)
From stdpp Require Import sorting.
From S2P Require Import Prelude Chain SkipList SkipInv SkipPut SkipQuery SkipKeys TagFilter TagExpr.

Section Metric.
Context {K T : Type} `{SkipKey K} `{!RangeInit K}.

(** A table: its [gid], [(vgId, sid)], and its tags, the first apart. *)
Definition gid : Type := Z * Z.
Definition STabObj : Type := @Chain.node gid (K * T).

(** [pHead] is the only bucket of [meters]. *)
Record metric := {
  meters : @Chain.table gid (K * T);
  numOfMeters : Z;
  pSkipList : option (@tSkipList K) }.
Implicit Types m : metric.

Definition new_metric : metric := {| meters := Chain.empty_table 1; numOfMeters := 0; pSkipList := None |}.
Definition set_meters (o : @Chain.table gid (K * T)) (n : Z) m : metric :=
  {| meters := o; numOfMeters := n; pSkipList := pSkipList m |}.
Definition set_index (t : tSkipList) m : metric :=
  {| meters := meters m; numOfMeters := numOfMeters m; pSkipList := Some t |}.
Definition the_meter (a : Z) m : res STabObj := Chain.load (Chain.heap (meters m)) a.

(** ** The index *)
Definition createKeyFromTagValue (pMeter : STabObj) : K := (Chain.data pMeter).1.

Definition addMeterIntoMetricIndex (time pMeter : Z) m : res metric :=
  let t := match pSkipList m with None => tSkipListCreate MAX_SKIP_LIST_LEVEL time | Some t => t end in
  let! n := the_meter pMeter m in
  let! '(_, t) := tSkipListPut pMeter (createKeyFromTagValue n) 1 t in
  Ret (set_index t m).

Fixpoint remove_found (pMeter : Z) (g : gid) (pRes : list Z) m (t : tSkipList) : res tSkipList :=
  match pRes with
  | [] => Ret t
  | p :: pRes =>
      let! n := node_at t p in
      let! pOneMeter := the_meter (pData n) m in
      let! t :=
        if decide (Chain.key pOneMeter = g) then
          if pData n =? pMeter then tSkipListRemoveNode p t else Exit
        else Ret t in
      remove_found pMeter g pRes m t
  end.

Definition removeMeterFromMetricIndex (pMeter : Z) m : res metric :=
  match pSkipList m with
  | None => Ret m
  | Some t =>
      let! n := the_meter pMeter m in
      let! '(pRes, t) := tSkipListGets (createKeyFromTagValue n) t in
      let! t := remove_found pMeter (Chain.key n) pRes m t in
      Ret (set_index t m)
  end.

(** ** Tables come and go *)
Definition mgmtAddMeterIntoMetric (time pMeter : Z) (g : gid) (tags : K * T) m : res metric :=
  let! o := Chain.push_node (meters m) 0 pMeter g tags in
  addMeterIntoMetricIndex time pMeter (set_meters o (wraps 32 (numOfMeters m + 1)) m).

(** The node leaves the list, in the order of the source. *)
Definition unlink_meter (pMeter : Z) (o : @Chain.table gid (K * T)) : res (@Chain.table gid (K * T)) :=
  let! n := Chain.load (Chain.heap o) pMeter in
  let! h := if negb (Chain.prev n =? 0) then Chain.set_next (Chain.prev n) (Chain.next n) (Chain.heap o) else Ret (Chain.heap o) in
  let! h := if negb (Chain.next n =? 0) then Chain.set_prev (Chain.next n) (Chain.prev n) h else Ret h in
  Ret (if Chain.prev n =? 0 then Chain.set_bucket 0 (Chain.next n) (Chain.set_heap h o) else Chain.set_heap h o).

Definition mgmtRemoveMeterFromMetric (pMeter : Z) m : res metric :=
  let! o := unlink_meter pMeter (meters m) in
  removeMeterFromMetricIndex pMeter (set_meters o (wraps 32 (numOfMeters m - 1)) m).

(** The row of the table is freed when [mgmtMeterActionDelete] has returned. *)
Definition free_row (pMeter : Z) m : res metric :=
  let! h := Chain.free_node pMeter (Chain.heap (meters m)) in
  Ret (set_meters (Chain.set_heap h (meters m)) (numOfMeters m) m).

(** [mgmtMeterModifyTagValueByCol] for the first tag. *)
Definition modify_first_tag (time pMeter : Z) (k : K) m : res metric :=
  let! m := removeMeterFromMetricIndex pMeter m in
  let! n := the_meter pMeter m in
  let! h := Chain.set_data pMeter (k, (Chain.data n).2) (Chain.heap (meters m)) in
  addMeterIntoMetricIndex time pMeter (set_meters (Chain.set_heap h (meters m)) (numOfMeters m) m).

(** ** Queries *)
(** The comparison of another tag, or of the first by [LIKE], with the value of
    a condition. *)
Context (tag_cmp : tQueryInfo K -> K * T -> Z).

Definition relation (op : RELATION) (ret : Z) : bool :=
  match op with
  | TSDB_RELATION_LESS => ret <? 0
  | TSDB_RELATION_LARGE => 0 <? ret
  | TSDB_RELATION_EQUAL => ret =? 0
  | TSDB_RELATION_LESS_EQUAL => ret <=? 0
  | TSDB_RELATION_LARGE_EQUAL => 0 <=? ret
  | TSDB_RELATION_NOT_EQUAL => negb (ret =? 0)
  | TSDB_RELATION_LIKE => ret =? 0
  end.

(** The comparison and the relation in the callback. *)
Definition elem_filter (info : tQueryInfo K) (tags : K * T) : bool :=
  relation (optr info)
    (if (colIdx info =? 0) && negb (bool_decide (optr info = TSDB_RELATION_LIKE)) then comparator tags.1 (q info)
     else tag_cmp info tags).

Definition tSQLElemFilterCallback (o : @Chain.table gid (K * T)) (info : tQueryInfo K) (n : @tSkipListNode K) : bool :=
  match Chain.heap o !! pData n with Some pMeter => elem_filter info (Chain.data pMeter) | None => false end.

(** [None]: no condition. *)
Definition mgmtRetrieveMetersFromMetric (cond : option (tSQLBinaryExpr K)) m : res (list Z * metric) :=
  match pSkipList m with
  | None => if numOfMeters m =? 0 then Ret ([], m) else Exit
  | Some t =>
      if nSize t =? 0 then if numOfMeters m =? 0 then Ret ([], m) else Exit
      else
        match cond with
        | None => let! r := tSkipListIterateList (fun _ => true) t in Ret (r, m)
        | Some x =>
            let! '(r, t) := tSQLBinaryExprTraverse (tSQLElemFilterCallback (meters m)) x true [] t in
            Ret (r, set_index t m)
        end
  end.

(** The tables of a result. *)
Fixpoint tables_of (pRes : list Z) (t : @tSkipList K) : res (list Z) :=
  match pRes with
  | [] => Ret []
  | p :: pRes => let! n := node_at t p in let! rest := tables_of pRes t in Ret (pData n :: rest)
  end.

Definition result_tables (pRes : list Z) m : res (list Z) :=
  match pSkipList m with Some t => tables_of pRes t | None => match pRes with [] => Ret [] | _ => Undef end end.
End Metric.
Arguments metric : clear implicits.
