(* ===== verification/MetricInv.v ===== *)
(** * The index of a super table holds its tables *)
From stdpp Require Import sorting.
From S2P Require Import Prelude Chain SkipList SkipInv SkipPut SkipQuery SkipKeys TagFilter TagExpr MetricIndex.

(** ** Unlinking *)
Section Unlink.
Context {K D : Type}.
Implicit Types (o : @Chain.table K D) (h : gmap Z (@Chain.node K D)).

Definition kd (n : @Chain.node K D) : K * D := (Chain.key n, Chain.data n).

Lemma set_next_kd p v h h' : Chain.set_next p v h = Ret h' -> forall a, kd <$> h' !! a = kd <$> h !! a.
Proof.
  unfold Chain.set_next, Chain.load. destruct (h !! p) as [n|] eqn:E; [|done]. cbn [rbind]. intros [= <-] a.
  destruct (decide (a = p)) as [->|]; [by rewrite lookup_insert_eq, E|by rewrite lookup_insert_ne].
Qed.

Lemma set_prev_kd p v h h' : Chain.set_prev p v h = Ret h' -> forall a, kd <$> h' !! a = kd <$> h !! a.
Proof.
  unfold Chain.set_prev, Chain.load. destruct (h !! p) as [n|] eqn:E; [|done]. cbn [rbind]. intros [= <-] a.
  destruct (decide (a = p)) as [->|]; [by rewrite lookup_insert_eq, E|by rewrite lookup_insert_ne].
Qed.

Lemma unlink_node_kd o i p o' : Chain.unlink_node o i p = Ret o' -> forall a, kd <$> Chain.heap o' !! a = kd <$> Chain.heap o !! a.
Proof.
  unfold Chain.unlink_node. destruct (Chain.load (Chain.heap o) p) as [n| | |]; try done. cbn [rbind].
  destruct (negb (Chain.prev n =? 0)).
  - destruct (Chain.set_next (Chain.prev n) (Chain.next n) (Chain.heap o)) as [h| | |] eqn:E1; try done. cbn [rbind].
    destruct (negb (Chain.next n =? 0)).
    + destruct (Chain.set_prev _ _ _) as [h'| | |] eqn:E2; try done. cbn [rbind]. intros [= <-] a. cbn [Chain.heap Chain.set_heap].
      by rewrite (set_prev_kd _ _ _ _ E2), (set_next_kd _ _ _ _ E1).
    + intros [= <-] a. apply (set_next_kd _ _ _ _ E1).
  - cbn [rbind]. destruct (negb (Chain.next n =? 0)).
    + destruct (Chain.set_prev _ _ _) as [h'| | |] eqn:E2; try done. cbn [rbind]. intros [= <-] a.
      apply (set_prev_kd _ _ _ _ E2).
    + by intros [= <-] a.
Qed.
End Unlink.

Section Spec.
Context {K T : Type} `{SkipKeyLaws K} `{!RangeInit K}.
Implicit Types (m : metric K T) (t : @tSkipList K) (E : list (@ent K)).
Abbreviation member := (@entry gid (K * T)).
Implicit Types L : list member.

Lemma unlink_meter_eq a (o : @Chain.table gid (K * T)) : unlink_meter a o = Chain.unlink_node o 0 a.
Proof.
  unfold unlink_meter, Chain.unlink_node. destruct (Chain.load _ a) as [n| | |]; [|done|done|done]. cbn [rbind].
  destruct (Z.eqb_spec (Chain.prev n) 0) as [Hp|Hp]; cbn [negb rbind].
  - destruct (negb (Chain.next n =? 0)); [|done]. change (Chain.heap (set_bucket 0 (Chain.next n) o)) with (Chain.heap o).
    by destruct (Chain.set_prev _ _ (Chain.heap o)).
  - destruct (Chain.set_next _ _ _) as [h| | |]; [|done|done|done]. cbn [rbind].
    destruct (negb (Chain.next n =? 0)); [|done]. cbn [Chain.heap Chain.set_heap]. by destruct (Chain.set_prev _ _ h).
Qed.

(** ** The invariant *)
Definition in_list (o : @Chain.table gid (K * T)) L : Prop := chains (fun _ => Ret 0) o [L].
Definition same_entries E L : Prop := map (fun e => (ed e, ek e)) E ≡ₚ map (fun x : member => (addr x, x.2.1)) L.

Definition index_ok (i : option (@tSkipList K)) L : Prop :=
  match i with None => L = [] | Some t => exists E, skip_inv t E /\ same_entries E L end.

Record metric_inv m L : Prop := {
  mi_list : in_list (meters m) L;
  mi_num : numOfMeters m = Z.of_nat (length L) /\ Z.of_nat (length L) < 2 ^ 31;
  mi_gid : NoDup (map ekey L);
  mi_keys : Forall (fun x : member => key_ok x.2.1) L;
  mi_index : index_ok (pSkipList m) L }.

Lemma in_list_addr o L : in_list o L -> NoDup (map addr L).
Proof. intros Hc. by apply (bucket_nodup _ o [L] 0 L Hc). Qed.

Lemma in_list_load o L (x : member) : in_list o L -> x ∈ L ->
  exists n, Chain.load (Chain.heap o) (addr x) = Ret n /\ Chain.key n = ekey x /\ Chain.data n = x.2.
Proof.
  intros Hc Hx. destruct (bucket_data _ o [L] 0 L x Hc eq_refl Hx) as (n & E & Hk & Hd). exists n.
  unfold Chain.load. by rewrite E.
Qed.

Lemma new_metric_inv : metric_inv new_metric [].
Proof.
  constructor; try done; [|apply NoDup_nil_2]. unfold in_list. apply (chains_empty (fun _ => Ret 0) 1).
Qed.

Lemma create_inv time : skip_inv (tSkipListCreate (K := K) MAX_SKIP_LIST_LEVEL time) [].
Proof.
  constructor; try done; try (by intros ? ?%elem_of_nil); try by constructor.
  - intros a. cbn [heap tSkipListCreate]. rewrite lookup_empty. by intros [? ?].
  - split; [done|]. by intros ? ?%elem_of_nil.
  - intros i Hi. change (at_level (replicate MAX_SKIP_LIST_LEVEL 0) i = Ret 0). unfold at_level.
    by rewrite lookup_replicate_2.
  - unfold tSkipListCreate. cbn [nLevel nMaxLevel]. unfold MAX_SKIP_LIST_LEVEL. lia.
Qed.

(** ** Entries and tables *)
Lemma entries_in E L e : same_entries E L -> e ∈ E -> exists x, x ∈ L /\ addr x = ed e /\ x.2.1 = ek e.
Proof.
  intros HP He. assert (Hin : (ed e, ek e) ∈ map (fun x : member => (addr x, x.2.1)) L).
  { rewrite <- HP. apply list_elem_of_fmap. by exists e. }
  apply list_elem_of_fmap in Hin as (x & [= H1 H2] & Hx). by exists x.
Qed.

Lemma entry_of E L (x : member) : same_entries E L -> x ∈ L -> exists e, e ∈ E /\ ed e = addr x /\ ek e = x.2.1.
Proof.
  intros HP Hx. assert (Hin : (addr x, x.2.1) ∈ map (fun e => (ed e, ek e)) E).
  { rewrite HP. apply list_elem_of_fmap. by exists x. }
  apply list_elem_of_fmap in Hin as (e & [= H1 H2] & He). by exists e.
Qed.

Lemma entries_data E L : same_entries E L -> map ed E ≡ₚ map addr L.
Proof.
  intros HP. apply (fmap_Permutation fst) in HP. rewrite <- !list_fmap_compose in HP. exact HP.
Qed.

Lemma member_inj L x y : NoDup (map addr L) -> x ∈ L -> y ∈ L -> addr x = addr y -> x = y.
Proof.
  intros Hnd Hx Hy Ha. apply list_elem_of_lookup in Hx as [i Hi]. apply list_elem_of_lookup in Hy as [j Hj].
  assert (i = j) as ->; [|congruence]. apply (NoDup_lookup (map addr L) i j (addr x)); [done| |].
  - by rewrite list_lookup_fmap, Hi.
  - rewrite list_lookup_fmap, Hj. cbn. by rewrite Ha.
Qed.

Lemma gid_inj L x y : NoDup (map ekey L) -> x ∈ L -> y ∈ L -> ekey x = ekey y -> x = y.
Proof.
  intros Hnd Hx Hy Ha. apply list_elem_of_lookup in Hx as [i Hi]. apply list_elem_of_lookup in Hy as [j Hj].
  assert (i = j) as ->; [|congruence]. apply (NoDup_lookup (map ekey L) i j (ekey x)); [done| |].
  - by rewrite list_lookup_fmap, Hi.
  - rewrite list_lookup_fmap, Hj. cbn. by rewrite Ha.
Qed.
(** ** Adding to the index *)
(** The next insertion finds a level for its node. *)
Definition ready (i : option (@tSkipList K)) : Prop := match i with None => True | Some t => level_ok t end.

Lemma same_length E L : same_entries E L -> length E = length L.
Proof. intros HP. apply Permutation_length in HP. by rewrite !length_map in HP. Qed.

Lemma put_index i L time (x : member) : index_ok i L -> ready i -> key_ok x.2.1 -> Z.of_nat (length L) + 1 < 2 ^ 31 ->
  exists p t', tSkipListPut (addr x) x.2.1 1 (match i with None => tSkipListCreate MAX_SKIP_LIST_LEVEL time | Some t => t end) = Ret (p, t') /\
    index_ok (Some t') (x :: L).
Proof.
  intros Hi Hr Hk Hl.
  assert (Hex : exists E, skip_inv (match i with None => tSkipListCreate MAX_SKIP_LIST_LEVEL time | Some t => t end) E /\ same_entries E L).
  { destruct i as [t|]; [done|]. exists []. split; [apply create_inv|]. cbn in Hi. subst L. unfold same_entries. reflexivity. }
  destruct Hex as (E & HE & HP). set (t := match i with None => _ | Some t => t end) in *.
  destruct (tSkipListPut_spec t E (addr x) x.2.1 1 HE Hk) as (lv & t' & Hput & Hi' & _).
  - destruct i; [done|by left].
  - rewrite (same_length E L HP). lia.
  - by left.
  - exists (brk t), t'. split; [done|]. eexists. split; [exact Hi'|]. unfold same_entries.
    rewrite (put_perm t E (Ent (brk t) x.2.1 (addr x) lv) HE Hk). cbn [map ed ek]. by rewrite HP.
Qed.

Definition loads (o : @Chain.table gid (K * T)) L : Prop := forall x, x ∈ L ->
  exists n, Chain.load (Chain.heap o) (addr x) = Ret n /\ Chain.key n = ekey x /\ Chain.data n = x.2.

Lemma add_index_spec time m L (x : member) : loads (meters m) [x] -> index_ok (pSkipList m) L -> ready (pSkipList m) ->
  key_ok x.2.1 -> Z.of_nat (length L) + 1 < 2 ^ 31 ->
  exists t', addMeterIntoMetricIndex time (addr x) m = Ret (set_index t' m) /\ index_ok (Some t') (x :: L).
Proof.
  intros Hld Hi Hr Hk Hl. destruct (Hld x ltac:(constructor)) as (n & Hn & _ & Hd).
  destruct (put_index (pSkipList m) L time x Hi Hr Hk Hl) as (p & t' & Hput & Hi').
  exists t'. split; [|done]. unfold addMeterIntoMetricIndex, the_meter. rewrite Hn. cbn [rbind].
  unfold createKeyFromTagValue. rewrite Hd, Hput. done.
Qed.

(** ** Removing from the index *)
(** The entries found are of other tables. *)
Lemma remove_found_none a g m t E Q : skip_inv t E -> Forall (fun e => e ∈ E) Q ->
  Forall (fun e => exists n, Chain.load (Chain.heap (meters m)) (ed e) = Ret n /\ Chain.key n <> g) Q ->
  remove_found a g (addrs Q) m t = Ret t.
Proof.
  intros Hi. induction Q as [|e Q IH]; intros HQ Hno; [done|]. apply Forall_cons in HQ as [He HQ]. apply Forall_cons in Hno as [(n & Hn & Hne) Hno].
  cbn [addrs map remove_found]. destruct (node_of _ _ e Hi He) as (nd & -> & _ & Hd & _). cbn [rbind].
  unfold the_meter. rewrite Hd, Hn. cbn [rbind]. rewrite decide_False by done. cbn [rbind]. by apply IH.
Qed.

Lemma remove_found_spec a g m t Q1 e Q2 A B : skip_inv t (A ++ e :: B) ->
  Forall (fun y => y ∈ A ++ B) (Q1 ++ Q2) -> ed e = a ->
  (exists n, Chain.load (Chain.heap (meters m)) a = Ret n /\ Chain.key n = g) ->
  Forall (fun e => exists n, Chain.load (Chain.heap (meters m)) (ed e) = Ret n /\ Chain.key n <> g) (Q1 ++ Q2) ->
  exists t', remove_found a g (addrs (Q1 ++ e :: Q2)) m t = Ret t' /\ skip_inv t' (A ++ B) /\ quiet t t'.
Proof using Type*.
  intros Hi HQ Ha (n & Hn & Hk) Hno. apply Forall_app in Hno as [Hno1 Hno2]. apply Forall_app in HQ as [HQ1 HQ2].
  assert (He : e ∈ A ++ e :: B) by (apply elem_of_app; right; constructor).
  induction Q1 as [|y Q1 IH].
  - cbn [app addrs map remove_found]. destruct (node_of _ _ e Hi He) as (nd & -> & _ & Hd & _). cbn [rbind].
    unfold the_meter at 1. rewrite Hd, Ha, Hn. cbn [rbind]. rewrite decide_True, Z.eqb_refl by done.
    destruct (tSkipListRemoveNode_spec t A e B Hi) as (t' & -> & Hi' & _ & Hq). cbn [rbind]. exists t'. split; [|done].
    by apply (remove_found_none a g m t' (A ++ B) Q2).
  - apply Forall_cons in HQ1 as [Hy HQ1]. apply Forall_cons in Hno1 as [(ny & Hny & Hne) Hno1].
    cbn [app addrs map remove_found]. destruct (node_of _ _ y Hi (drop_in _ _ _ _ Hy)) as (nd & -> & _ & Hd & _). cbn [rbind].
    unfold the_meter at 1. rewrite Hd, Hny. cbn [rbind]. rewrite decide_False by done. cbn [rbind]. by apply IH.
Qed.

Lemma level_keep t t' : level_ok t -> nSize t <> 0 -> quiet t t' -> level_ok t'.
Proof.
  intros [Hz|Hl] Hn (_ & Hr & Hle); [done|]. right. destruct Hl as [Hlt|Hh]; [left; lia|right]. intros s h. rewrite Hr. apply Hh.
Qed.

Lemma split_entries E L1 L2 e (x : member) A B : same_entries E (L1 ++ x :: L2) -> E = A ++ e :: B -> ed e = addr x -> ek e = x.2.1 ->
  same_entries (A ++ B) (L1 ++ L2).
Proof.
  unfold same_entries. intros HP -> Hd Hk. rewrite !map_app in HP |- *. cbn [map] in HP. rewrite Hd, Hk in HP.
  rewrite <- !Permutation_middle in HP. by apply Permutation_cons_inv in HP.
Qed.

(** The other entries with the key stay, and are of other tables. *)
Lemma other_entries k E A e B Q1 Q2 : NoDup (map ed E) -> E = A ++ e :: B -> eq_key k E = Q1 ++ e :: Q2 ->
  forall y, y ∈ Q1 ++ Q2 -> y ∈ A ++ B /\ ed y <> ed e.
Proof.
  intros Hnd HE HQ y Hy. assert (HyE : y ∈ E).
  { assert (Hyq : y ∈ eq_key k E) by (rewrite HQ, elem_of_app, elem_of_cons; apply elem_of_app in Hy; tauto).
    by apply list_elem_of_filter in Hyq as [_ ?]. }
  assert (Hne : y <> e).
  { intros ->. pose proof (NoDup_fmap_1 ed E Hnd) as HndE. apply (NoDup_filter (fun e => comparator (ek e) k = 0)) in HndE.
    fold (eq_key k E) in HndE. rewrite HQ, <- Permutation_middle in HndE. apply NoDup_cons in HndE as [Hni _]. done. }
  rewrite HE in Hnd, HyE. rewrite <- Permutation_middle in Hnd, HyE. cbn [map] in Hnd. apply NoDup_cons in Hnd as [Hni _].
  apply elem_of_cons in HyE as [|HyE]; [done|]. split; [done|]. intros Hde. apply Hni. rewrite <- Hde.
  apply list_elem_of_fmap. by exists y.
Qed.

Lemma remove_index_spec m L1 (x : member) L2 : loads (meters m) (L1 ++ x :: L2) -> NoDup (map addr (L1 ++ x :: L2)) ->
  NoDup (map ekey (L1 ++ x :: L2)) -> key_ok x.2.1 -> index_ok (pSkipList m) (L1 ++ x :: L2) ->
  exists t', removeMeterFromMetricIndex (addr x) m = Ret (set_index t' m) /\ index_ok (Some t') (L1 ++ L2) /\
    (ready (pSkipList m) -> level_ok t').
Proof using Type*.
  intros Hld Hna Hng Hk Hi. set (L := L1 ++ x :: L2) in *. assert (Hx : x ∈ L) by (apply elem_of_app; right; constructor).
  destruct (pSkipList m) as [t|] eqn:Et; [|cbn in Hi; unfold L in Hi; by destruct L1]. destruct Hi as (E & Hi & HP).
  unfold removeMeterFromMetricIndex. rewrite Et. unfold the_meter. destruct (Hld x Hx) as (n & -> & Hkn & Hdn). cbn [rbind].
  unfold createKeyFromTagValue. rewrite Hdn, Hkn. rewrite (tSkipListGets_spec t E) by done. cbn [rbind].
  destruct (entry_of E L x HP Hx) as (e & He & Hed & Hek).
  assert (Hq : e ∈ eq_key x.2.1 E) by (apply list_elem_of_filter; rewrite Hek; split; [by apply cmp_refl|done]).
  destruct (list_elem_of_split _ _ Hq) as (Q1 & Q2 & HQ). destruct (list_elem_of_split _ _ He) as (A & B & HE).
  pose proof (entries_data E L HP) as HPd. pose proof Hna as Hnd. rewrite <- HPd in Hnd.
  pose proof (other_entries x.2.1 E A e B Q1 Q2 Hnd HE HQ) as Hother.
  rewrite HQ. rewrite HE in Hi.
  destruct (remove_found_spec (addr x) (ekey x) m (count_query t) Q1 e Q2 A B) as (t' & -> & Hi' & Hquiet).
  - by apply count_query_inv.
  - apply Forall_forall. intros y Hy. by apply Hother.
  - done.
  - destruct (Hld x Hx) as (n' & Hn' & Hk' & _). by exists n'.
  - apply Forall_forall. intros y Hy. destruct (Hother y Hy) as [HyE Hyd].
    destruct (entries_in E L y HP) as (z & Hz & Hza & _); [rewrite HE; by apply drop_in|].
    destruct (Hld z Hz) as (nz & Hnz & Hkz & _). exists nz. rewrite <- Hza. split; [done|]. rewrite Hkz. intros Hgz.
    apply Hyd. rewrite <- Hza, Hed. by rewrite (gid_inj L z x Hng Hz Hx Hgz).
  - cbn [rbind]. exists t'. split; [done|]. split.
    + exists (A ++ B). split; [done|]. by apply (split_entries E L1 L2 e x A B).
    + cbn [ready]. intros Hr. apply (level_keep t); [done| |exact Hquiet].
      destruct (sk_size _ _ Hi) as [Hsz _]. rewrite length_app in Hsz. cbn [length] in Hsz. lia.
Qed.
End Spec.
