(* ===== verification/SkipLife.v ===== *)
(** * What a skip list promises

    A list with the entries [E] in order: insertion, removal, queries and
    destruction in terms of [E]. *)
From stdpp Require Import sorting.
From S2P Require Import Prelude SkipList SkipInv SkipPut SkipQuery SkipKeys MetricInv.

Section Life.
Context {K : Type} `{SkipKeyLaws K}.
Implicit Types (t : @tSkipList K) (k : K) (e : @ent K) (E A B : list (@ent K)).


(** C36.  Removing a node takes that entry out and frees it; removing a key takes
    out its first entry, changes nothing if there is none but a larger key, and
    dereferences [NULL] if all keys are smaller. *)
Theorem skip_remove t E : skip_inv t E ->
  (forall A e B, E = A ++ e :: B -> exists t', tSkipListRemoveNode (ea e) t = Ret t' /\ skip_inv t' (A ++ B) /\ heap t' !! ea e = None) /\
  forall k, key_ok k ->
    match ge_key k E with
    | [] => tSkipListRemove k t = Undef
    | e :: B =>
        if decide (comparator (ek e) k = 0) then
          exists t', tSkipListRemove k t = Ret (true, t') /\ skip_inv t' (lt_key k E ++ B) /\ heap t' !! ea e = None
        else tSkipListRemove k t = Ret (false, t)
    end.
Proof using Type*.
  intros Hi. assert (Hgone : forall A e B t', E = A ++ e :: B -> skip_inv t' (A ++ B) -> heap t' !! ea e = None).
  { intros A e B t' HE Hi'. destruct (heap t' !! ea e) eqn:En; [|done]. exfalso.
    pose proof (sk_nodup _ _ Hi) as Hnd. rewrite HE in Hnd. destruct (inv_sub_nodup _ _ _ Hnd) as [_ Hni].
    apply Hni, (sk_dom _ _ Hi'). by eexists. }
  split.
  - intros A e B HE. pose proof Hi as Hi0. rewrite HE in Hi0. destruct (tSkipListRemoveNode_spec t A e B Hi0) as (t' & Hr & Hi' & _).
    exists t'. split; [done|]. split; [done|]. by apply (Hgone A e B).
  - intros k Hk. destruct (ge_key k E) as [|e B] eqn:Eg; [by apply (tSkipListRemove_null t E)|].
    pose proof (inv_split _ _ k Hi Hk) as HE. rewrite Eg in HE. destruct (decide (comparator (ek e) k = 0)) as [Hz|Hz].
    + destruct (tSkipListRemove_found t E k e B Hi Hk Eg Hz) as (t' & Hr & Hi' & _). exists t'. split; [done|]. split; [done|].
      by apply (Hgone (lt_key k E) e B).
    + by apply (tSkipListRemove_absent t E k e B).
Qed.

(** C37.  A query with two bounds returns the nodes between them, in order, and
    changes nothing but the count of queries. *)
Theorem skip_query t E q is_string : skip_inv t E -> cond_ok q ->
  exists t', tSkipListQuery is_string q t = Ret (addrs (in_range q E), t') /\ (t' = t \/ t' = count_query t) /\ skip_inv t' E.
Proof using Type*.
  intros Hi Hq. destruct (tSkipListQuery_spec t E q is_string Hi Hq) as (t' & Hr & Ht). exists t'. split; [done|]. split; [done|].
  destruct Ht as [->| ->]; [done|by apply count_query_inv].
Qed.

(** A query for a set of keys, in any order and with repetitions, returns
    the nodes that have one of them, or those that have none, in order and each
    once. *)
Theorem skip_point_query t E ks include : skip_inv t E -> Forall key_ok ks -> ks <> [] ->
  exists t', tSkipListPointQuery ks include t =
      Ret (addrs (if include : bool then filter (has_key ks) E else filter (fun e => ~ has_key ks e) E), t') /\ skip_inv t' E.
Proof using Type*. apply tSkipListPointQuery_spec. Qed.

(** Destroying a list frees every node, and each once. *)
Theorem skip_destroy t E : skip_inv t E -> tSkipListDestroy t = Ret ∅.
Proof using Type*. apply tSkipListDestroy_spec. Qed.

(** One insertion of a known result. *)
Lemma put_step t E d k ident p t' : skip_inv t E -> key_ok k -> level_ok t -> Z.of_nat (length E) + 1 < 2 ^ 64 ->
  ident <> 0 \/ (0 < nLevel t)%nat -> tSkipListPut d k ident t = Ret (p, t') ->
  exists lv, skip_inv t' (put_at (Ent p k d lv) E).
Proof using Type*.
  intros Hi Hk Hl Hr Hid Hp. destruct (tSkipListPut_spec t E d k ident Hi Hk Hl Hr Hid) as (lv & t2 & Hp2 & Hi' & _).
  rewrite Hp in Hp2. injection Hp2 as -> ->. by exists lv.
Qed.
End Life.

(** ** A list of four nodes, two with the same key *)
Definition put_all (l : list (Z * Z)) (t : @tSkipList Z) : res (@tSkipList Z) :=
  foldl (fun r dk => let! t := r in let! '(_, t) := tSkipListPut dk.1 dk.2 1 t in Ret t) (Ret t) l.
Definition ok_list (r : res (@tSkipList Z)) : @tSkipList Z :=
  match r with Ret t => t | _ => tSkipListCreate MAX_SKIP_LIST_LEVEL 0 end.
Definition demo_puts : list (Z * Z) := [(501, 5); (301, 3); (502, 5); (701, 7)].
Definition demo (n : nat) : @tSkipList Z := ok_list (put_all (take n demo_puts) (tSkipListCreate MAX_SKIP_LIST_LEVEL 12345)).

Lemma demo_step n d k p E : skip_inv (demo n) E -> (nLevel (demo n) <? MAX_SKIP_LIST_LEVEL)%nat = true ->
  Z.of_nat (length E) + 1 < 2 ^ 64 -> tSkipListPut d k 1 (demo n) = Ret (p, demo (S n)) ->
  exists lv, skip_inv (demo (S n)) (put_at (Ent p k d lv) E).
Proof.
  intros Hi Hl%Nat.ltb_lt Hr Hp. apply (put_step (demo n) E d k 1 p (demo (S n)) Hi); [done|right; by left|done|by left|done].
Qed.

Lemma demo_inv : exists E, skip_inv (demo 4) E /\ map (fun e => (ea e, ek e, ed e)) E = [(3, 3, 301); (4, 5, 502); (2, 5, 501); (5, 7, 701)].
Proof.
  assert (H0 : skip_inv (demo 0) []) by apply (create_inv 12345).
  destruct (demo_step 0 501 5 2 [] H0) as [l1 H1]; [done|done|vm_compute; reflexivity|].
  destruct (demo_step 1 301 3 3 _ H1) as [l2 H2]; [done|done|vm_compute; reflexivity|].
  destruct (demo_step 2 502 5 4 _ H2) as [l3 H3]; [done|done|vm_compute; reflexivity|].
  destruct (demo_step 3 701 7 5 _ H3) as [l4 H4]; [done|done|vm_compute; reflexivity|].
  eexists. split; [exact H4|]. vm_compute. reflexivity.
Qed.


Lemma skip_remove_witness : exists E, skip_inv (demo 4) E /\
  (forall A e B, E = A ++ e :: B -> exists t', tSkipListRemoveNode (ea e) (demo 4) = Ret t' /\ skip_inv t' (A ++ B) /\ heap t' !! ea e = None) /\
  tSkipListRemove 6 (demo 4) = Ret (false, demo 4) /\ tSkipListRemove 8 (demo 4) = Undef.
Proof.
  destruct demo_inv as (E & Hi & Hm). exists E. destruct (skip_remove (demo 4) E Hi) as [Hn Hk]. split; [exact Hi|]. split; [exact Hn|].
  destruct E as [|[a1 k1 d1 l1] [|[a2 k2 d2 l2] [|[a3 k3 d3 l3] [|[a4 k4 d4 l4] [|]]]]]; try discriminate Hm.
  injection Hm as -> -> -> -> -> -> -> -> -> -> -> ->. split; [exact (Hk 6 I)|exact (Hk 8 I)].
Defined.

Lemma skip_query_witness : exists t', tSkipListQuery false
    {| lowerBnd := 3; upperBnd := 7; lowerBndRelOptr := TSDB_RELATION_LARGE; upperBndRelOptr := TSDB_RELATION_LESS |} (demo 4) = Ret ([4; 2], t').
Proof.
  destruct demo_inv as (E & Hi & Hm).
  destruct (skip_query (demo 4) E {| lowerBnd := 3; upperBnd := 7; lowerBndRelOptr := TSDB_RELATION_LARGE; upperBndRelOptr := TSDB_RELATION_LESS |} false Hi)
    as (t' & Hq & _).
  - split; [exact I|]. split; [apply key_bound; exact I|]. intros _. exact I.
  - exists t'. destruct E as [|[a1 k1 d1 l1] [|[a2 k2 d2 l2] [|[a3 k3 d3 l3] [|[a4 k4 d4 l4] [|]]]]]; try discriminate Hm.
    injection Hm as -> -> -> -> -> -> -> -> -> -> -> ->. exact Hq.
Defined.

Lemma skip_point_query_witness : exists t', tSkipListPointQuery [7; 3; 7; 4] true (demo 4) = Ret ([3; 5], t').
Proof.
  destruct demo_inv as (E & Hi & Hm).
  destruct (skip_point_query (demo 4) E [7; 3; 7; 4] true Hi) as (t' & Hq & _); [repeat constructor|discriminate|].
  exists t'. destruct E as [|[a1 k1 d1 l1] [|[a2 k2 d2 l2] [|[a3 k3 d3 l3] [|[a4 k4 d4 l4] [|]]]]]; try discriminate Hm.
  injection Hm as -> -> -> -> -> -> -> -> -> -> -> ->. exact Hq.
Defined.

Lemma skip_destroy_witness : tSkipListDestroy (demo 4) = Ret ∅.
Proof. destruct demo_inv as (E & Hi & _). apply (skip_destroy (demo 4) E Hi). Defined.

(** ** What the code does not mean to do *)
Definition after {A} (r : res (A * @tSkipList Z)) : @tSkipList Z :=
  match r with Ret (_, t) => t | _ => tSkipListCreate MAX_SKIP_LIST_LEVEL 0 end.
Definition one_key : @tSkipList Z := after (tSkipListPut 501 5 0 (demo 0)).

(** A list emptied by a removal has no level; an insertion that is to refuse
    identical keys then looks at the key of [NULL]. *)
Lemma put_into_emptied : tSkipListRemove 5 one_key = Ret (true, after (tSkipListRemove 5 one_key)) /\
  tSkipListPut 501 5 0 (after (tSkipListRemove 5 one_key)) = Undef.
Proof. split; vm_compute; reflexivity. Qed.

(** An identical key is inserted although it is to be refused. *)
Lemma identical_inserted : tSkipListPut 502 5 0 one_key = Ret (3, after (tSkipListPut 502 5 0 one_key)) /\
  nSize (after (tSkipListPut 502 5 0 one_key)) = 2.
Proof. split; vm_compute; reflexivity. Qed.

(** A height above the number of levels. *)
Lemma height_21 : snd <$> (match getSkipListNodeRandomHeight 118635692 with Ret p => Some p | _ => None end) = Some 21.
Proof. vm_compute. reflexivity. Qed.
