(* ===== verification/MetricLife.v ===== *)
(** * The life of a super table

    Tables are added, dropped and given another first tag; at every moment the
    index holds exactly the tables of the list, and a query returns the tables
    whose tags satisfy its condition. *)
From stdpp Require Import sorting.
From S2P Require Import Prelude Chain SkipList SkipInv SkipPut SkipQuery SkipKeys TagFilter TagExpr MetricIndex MetricInv.

Section Life.
Context {K T : Type} `{SkipKeyLaws K} `{!RangeInit K}.
Implicit Types (m : metric K T) (t : @tSkipList K) (E : list (@ent K)).
Abbreviation member := (@entry gid (K * T)).
Implicit Types L : list member.

(** ** One operation *)
Lemma list_in_table (o : @Chain.table gid (K * T)) L g : in_list o L -> in_table (fun _ : gid => Ret 0) o g 0.
Proof. intros Hc. split; [done|]. pose proof (ch_bs _ _ _ Hc) as Hl. cbn [length] in Hl. lia. Qed.

Lemma in_list_loads (o : @Chain.table gid (K * T)) L : in_list o L -> loads o L.
Proof. intros Hc x Hx. by eapply in_list_load. Qed.

(** A table that can be added: its row is not in the list, and its [gid] is its own. *)
Definition can_add m L (x : member) : Prop :=
  addr x <> 0 /\ Chain.heap (meters m) !! addr x = None /\ ~ ekey x ∈ map ekey L /\ key_ok x.2.1 /\
  ready (pSkipList m) /\ Z.of_nat (length L) + 1 < 2 ^ 31.

Lemma add_spec time m L (x : member) : metric_inv m L -> can_add m L x ->
  exists m', mgmtAddMeterIntoMetric time (addr x) (ekey x) x.2 m = Ret m' /\ metric_inv m' (x :: L).
Proof.
  intros [I1 [I2 I2'] I3 I4 I5] (Hnz & Hfree & Hg & Hk & Hr & Hl). unfold mgmtAddMeterIntoMetric.
  destruct (push_both (fun _ => Ret 0) (meters m) [L] (ekey x) 0 (addr x) x.2 L I1 (list_in_table _ _ _ I1) eq_refl Hnz Hfree)
    as (o' & -> & _ & Hc & _). cbn [rbind]. destruct x as [[a g] d]. change (in_list o' ((a, g, d) :: L)) in Hc.
  destruct (add_index_spec time (set_meters o' (wraps 32 (numOfMeters m + 1)) m) L (a, g, d)) as (t' & Hadd & Hi); try done.
  - intros y Hy. apply list_elem_of_singleton in Hy as ->. apply (in_list_load _ _ _ Hc). constructor.
  - cbn [addr ekey fst snd] in *. rewrite Hadd. eexists. split; [done|]. constructor; cbn [meters numOfMeters pSkipList set_index set_meters].
    + done.
    + cbn [length]. split; [|lia]. rewrite wraps_id; [lia|lia|]. unfold in_s. lia.
    + cbn [map]. by apply NoDup_cons.
    + by constructor.
    + done.
Qed.

Lemma drop_spec m L1 (x : member) L2 : metric_inv m (L1 ++ x :: L2) ->
  exists m1 m', mgmtRemoveMeterFromMetric (addr x) m = Ret m1 /\ free_row (addr x) m1 = Ret m' /\ metric_inv m' (L1 ++ L2).
Proof using Type*.
  intros [I1 [I2 I2'] I3 I4 I5]. unfold mgmtRemoveMeterFromMetric. rewrite unlink_meter_eq.
  destruct (unlink_both (fun _ => Ret 0) (meters m) [L1 ++ x :: L2] (ekey x) 0 L1 x L2 I1 (list_in_table _ _ _ I1) eq_refl)
    as (o1 & hp & Hu & Hfree & _ & Hc & _). rewrite Hu. cbn [rbind].
  set (m0 := set_meters o1 (wraps 32 (numOfMeters m - 1)) m).
  assert (Hld : loads o1 (L1 ++ x :: L2)).
  { intros y Hy. destruct (in_list_load _ _ y I1 Hy) as (n & Hn & Hkn & Hdn). unfold Chain.load in *.
    pose proof (unlink_node_kd _ _ _ _ Hu (addr y)) as Hkd. destruct (Chain.heap (meters m) !! addr y) as [n0|]; [|done].
    injection Hn as ->. destruct (Chain.heap o1 !! addr y) as [n1|]; [|done]. injection Hkd as Hk1 Hd1. exists n1. split; [done|].
    by rewrite Hk1, Hd1. }
  apply Forall_app in I4 as [I41 [I4x I42]%Forall_cons].
  destruct (remove_index_spec m0 L1 x L2 Hld (in_list_addr _ _ I1) I3 I4x I5) as (t' & -> & Hi & _).
  eexists (set_index t' m0), _. split; [done|]. split.
  { unfold free_row. cbn [meters set_index m0 set_meters]. rewrite Hfree. cbn [rbind]. reflexivity. }
  constructor; cbn [meters numOfMeters pSkipList set_index set_meters m0].
  - exact Hc.
  - rewrite length_app in I2, I2' |- *. cbn [length] in I2, I2'. split; [|lia]. rewrite wraps_id; [lia|lia|]. unfold in_s. lia.
  - rewrite map_app in I3 |- *. cbn [map] in I3. rewrite <- Permutation_middle in I3. by apply NoDup_cons in I3 as [_ ?].
  - by apply Forall_app.
  - exact Hi.
Qed.

Lemma retag_spec time m L1 (x : member) L2 k : metric_inv m (L1 ++ x :: L2) -> key_ok k -> ready (pSkipList m) ->
  exists m', modify_first_tag time (addr x) k m = Ret m' /\ metric_inv m' (L1 ++ (addr x, ekey x, (k, x.2.2)) :: L2).
Proof using Type*.
  intros [I1 [I2 I2'] I3 I4 I5] Hk Hr. unfold modify_first_tag.
  pose proof I4 as [I41 [I4x I42]%Forall_cons]%Forall_app.
  destruct (remove_index_spec m L1 x L2 (in_list_loads _ _ I1) (in_list_addr _ _ I1) I3 I4x I5) as (t' & -> & Hi & Hlv). cbn [rbind].
  unfold the_meter. cbn [meters set_index].
  destruct (in_list_load _ _ x I1) as (n & -> & _ & Hdn); [apply elem_of_app; right; constructor|]. cbn [rbind]. rewrite Hdn.
  destruct (set_data_both (fun _ => Ret 0) (meters m) [L1 ++ x :: L2] 0 L1 x L2 (k, x.2.2) I1 (proj2 (list_in_table _ _ (ekey x) I1)) eq_refl)
    as (hp & -> & Hc & _). cbn [rbind]. set (x' := ((addr x, ekey x, (k, x.2.2)) : member)).
  change (in_list (Chain.set_heap hp (meters m)) (L1 ++ x' :: L2)) in Hc.
  set (m0 := set_meters (Chain.set_heap hp (meters m)) (numOfMeters (set_index t' m)) (set_index t' m)).
  rewrite length_app in I2'. cbn [length] in I2'.
  destruct (add_index_spec time m0 (L1 ++ L2) x') as (t2 & Hadd & Hi2); try done.
  - intros y Hy. apply list_elem_of_singleton in Hy as ->. apply (in_list_load _ _ _ Hc). apply elem_of_app. right. constructor.
  - by apply Hlv.
  - rewrite length_app. lia.
  - change (addr x) with (addr x'). rewrite Hadd. eexists. split; [done|]. constructor; cbn [meters numOfMeters pSkipList set_index set_meters m0].
    + exact Hc.
    + rewrite I2, !length_app. cbn [length]. split; [done|lia].
    + rewrite map_app in I3 |- *. exact I3.
    + apply Forall_app. split; [done|]. by constructor.
    + destruct Hi2 as (E & HE & HP). exists E. split; [done|]. unfold same_entries in *. rewrite HP. cbn [map]. rewrite !map_app.
      cbn [map]. apply Permutation_middle.
Qed.

(** ** Sequences of operations *)
Inductive metric_op :=
| AddMeter (time a : Z) (g : gid) (tags : K * T)
| DropMeter (a : Z)
| SetTag (time a : Z) (k : K).

Definition apply_op (o : metric_op) m : res (metric K T) :=
  match o with
  | AddMeter time a g tags => mgmtAddMeterIntoMetric time a g tags m
  | DropMeter a => let! m := mgmtRemoveMeterFromMetric a m in free_row a m
  | SetTag time a k => modify_first_tag time a k m
  end.

(** What an operation does to the tables. *)
Definition apply_list (o : metric_op) L : list member :=
  match o with
  | AddMeter _ a g tags => (a, g, tags) :: L
  | DropMeter a => filter (fun x => addr x <> a) L
  | SetTag _ a k => map (fun x : member => if decide (addr x = a) then (addr x, ekey x, (k, x.2.2)) else x) L
  end.

Definition op_ok (o : metric_op) m L : Prop :=
  match o with
  | AddMeter _ a g tags => can_add m L (a, g, tags)
  | DropMeter a => a ∈ map addr L
  | SetTag _ a k => a ∈ map addr L /\ key_ok k /\ ready (pSkipList m)
  end.

Lemma drop_list L1 (x : member) L2 : NoDup (map addr (L1 ++ x :: L2)) ->
  filter (fun y => addr y <> addr x) (L1 ++ x :: L2) = L1 ++ L2.
Proof.
  intros Hnd. rewrite map_app in Hnd. cbn [map] in Hnd. apply NoDup_app in Hnd as (_ & Hd & [Hni _]%NoDup_cons).
  rewrite filter_app, filter_cons, decide_False by tauto. rewrite !filter_id; [done| |].
  - apply Forall_forall. intros y Hy E. apply Hni. rewrite <- E. by apply list_elem_of_fmap_2.
  - apply Forall_forall. intros y Hy E. apply (Hd (addr y)); [by apply list_elem_of_fmap_2|]. rewrite E. constructor.
Qed.

Lemma retag_list L1 (x : member) L2 k : NoDup (map addr (L1 ++ x :: L2)) ->
  map (fun y : member => if decide (addr y = addr x) then (addr y, ekey y, (k, y.2.2)) else y) (L1 ++ x :: L2) =
  L1 ++ (addr x, ekey x, (k, x.2.2)) :: L2.
Proof.
  intros Hnd. rewrite map_app in Hnd. cbn [map] in Hnd. apply NoDup_app in Hnd as (_ & Hd & [Hni _]%NoDup_cons).
  rewrite map_app. cbn [map]. rewrite decide_True by done. f_equal; [|f_equal].
  - rewrite <- (list_fmap_id L1) at 2. apply list_fmap_ext. intros i y Hy%list_elem_of_lookup_2. rewrite decide_False; [done|].
    intros E. apply (Hd (addr y)); [by apply list_elem_of_fmap_2|]. rewrite E. constructor.
  - rewrite <- (list_fmap_id L2) at 2. apply list_fmap_ext. intros i y Hy%list_elem_of_lookup_2. rewrite decide_False; [done|].
    intros E. apply Hni. rewrite <- E. by apply list_elem_of_fmap_2.
Qed.

Lemma op_both o m L : metric_inv m L -> op_ok o m L -> exists m', apply_op o m = Ret m' /\ metric_inv m' (apply_list o L).
Proof using Type*.
  intros Hi Ho. destruct o as [time a g tags|a|time a k]; cbn [apply_op apply_list op_ok] in *.
  - exact (add_spec time m L (a, g, tags) Hi Ho).
  - apply list_elem_of_fmap in Ho as (x & -> & Hx). apply list_elem_of_split in Hx as (L1 & L2 & ->).
    rewrite drop_list by apply (in_list_addr _ _ (mi_list _ _ Hi)).
    destruct (drop_spec m L1 x L2 Hi) as (m1 & m' & -> & Hf & Hi'). cbn [rbind]. by exists m'.
  - destruct Ho as (Ho & Hk & Hr). apply list_elem_of_fmap in Ho as (x & -> & Hx). apply list_elem_of_split in Hx as (L1 & L2 & ->).
    rewrite retag_list by apply (in_list_addr _ _ (mi_list _ _ Hi)). by apply retag_spec.
Qed.

Inductive runs : list metric_op -> metric K T -> list member -> Prop :=
| runs_nil : runs [] new_metric []
| runs_op ops m L o m' : runs ops m L -> op_ok o m L -> apply_op o m = Ret m' -> runs (ops ++ [o]) m' (apply_list o L).

Lemma runs_inv ops m L : runs ops m L -> metric_inv m L.
Proof using Type*.
  induction 1 as [|ops m L o m' _ IH Ho Hr]; [apply new_metric_inv|].
  destruct (op_both o m L IH Ho) as (m2 & Hr2 & Hi). rewrite Hr in Hr2. by injection Hr2 as ->.
Qed.
(** C7.  After any sequence of additions, drops and changes of the first tag, the
    list and the skip list of a super table hold exactly its tables, each under
    its current tag, and every further operation on a table that is there, or
    of one that is not yet, succeeds: the assertion of the removal never
    fails. *)
Theorem metric_index_exact ops m L : runs ops m L ->
  metric_inv m L /\ forall o, op_ok o m L -> exists m', apply_op o m = Ret m' /\ metric_inv m' (apply_list o L).
Proof using Type*. intros Hr. apply runs_inv in Hr. split; [done|]. intros o Ho. by apply op_both. Qed.

(** ** Queries *)
Context (tag_cmp : tQueryInfo K -> K * T -> Z).

Fixpoint table_sat (x : tSQLBinaryExpr K) (tags : K * T) : bool :=
  match x with
  | Leaf info => elem_filter tag_cmp info tags
  | Node TSDB_RELATION_AND l r => table_sat l tags && table_sat r tags
  | Node TSDB_RELATION_OR l r => table_sat l tags || table_sat r tags
  end.

Definition cond_sat (cond : option (tSQLBinaryExpr K)) (tags : K * T) : bool :=
  match cond with None => true | Some x => table_sat x tags end.

(** The first tags are strictly between the bounds of an open range. *)
Definition tags_inside L : Prop := Forall (fun x : member => 0 < comparator x.2.1 lower0 /\ comparator x.2.1 upper0 < 0) L.

Definition query_ok (cond : option (tSQLBinaryExpr K)) L : Prop :=
  match cond with None => True | Some x => tags_inside L /\ leaves_ok x /\ supported x = true end.

(** The callback, from the key and the table of a node. *)
Definition by_table (o : @Chain.table gid (K * T)) (info : tQueryInfo K) (k : K) (d : Z) : bool :=
  match Chain.heap o !! d with Some n => elem_filter tag_cmp info (Chain.data n) | None => false end.

Lemma by_table_member (o : @Chain.table gid (K * T)) L info (x : member) k : in_list o L -> x ∈ L ->
  by_table o info k (addr x) = elem_filter tag_cmp info x.2.
Proof.
  intros Hc Hx. destruct (in_list_load o L x Hc Hx) as (n & Hn & _ & Hd). unfold Chain.load in Hn. unfold by_table.
  destruct (Chain.heap o !! addr x); [|done]. injection Hn as ->. by rewrite Hd.
Qed.

Lemma member_agrees (o : @Chain.table gid (K * T)) L E : in_list o L -> same_entries E L -> agrees (by_table o) E.
Proof.
  intros Hc HP info e He Hcol Hlike. destruct (entries_in E L e HP He) as (x & Hx & Ha & Hk). unfold sat.
  rewrite <- Ha, (by_table_member o L) by done. unfold elem_filter. rewrite Hcol, bool_decide_false by done. cbn [Z.eqb negb andb].
  rewrite Hk. by destruct (optr info).
Qed.

Lemma member_eval (o : @Chain.table gid (K * T)) L E x e (y : member) : in_list o L -> y ∈ L -> addr y = ed e ->
  eval (by_table o) x e = table_sat x y.2.
Proof.
  intros Hc Hy Ha. induction x as [info|op l IHl r IHr]; cbn [eval table_sat].
  - unfold sat. rewrite <- Ha. by apply (by_table_member o L).
  - by rewrite IHl, IHr.
Qed.

Lemma tables_of_entries t E Q : skip_inv t E -> Forall (fun e => e ∈ E) Q -> tables_of (addrs Q) t = Ret (map ed Q).
Proof.
  intros Hi. induction 1 as [|e Q He HQ IH]; [done|]. cbn [addrs map tables_of].
  destruct (node_of _ _ e Hi He) as (n & -> & _ & Hd & _). cbn [rbind]. fold (addrs Q). rewrite IH. cbn [rbind]. by rewrite Hd.
Qed.

(** A set of nodes as a set of tables. *)
Lemma selected_tables t E L (o : @Chain.table gid (K * T)) r (P : member -> Prop) (Q : @ent K -> Prop) :
  skip_inv t E -> in_list o L -> same_entries E L -> NoDup r ->
  (forall a, a ∈ r <-> exists e, e ∈ E /\ ea e = a /\ Q e) ->
  (forall e (y : member), e ∈ E -> y ∈ L -> addr y = ed e -> Q e <-> P y) ->
  exists l, tables_of r t = Ret l /\ NoDup l /\ forall a, a ∈ l <-> exists y, y ∈ L /\ addr y = a /\ P y.
Proof.
  intros Hi Hc HP Hnd Hr Heq.
  assert (HL : exists M, r = addrs M /\ Forall (fun e => e ∈ E /\ Q e) M).
  { assert (Hin : forall a, a ∈ r -> exists e, e ∈ E /\ ea e = a /\ Q e) by (intros a Ha; by apply Hr). clear Hr Hnd.
    induction r as [|a r IH]; [by exists []|]. destruct IH as (M & -> & HM); [intros b Hb; apply Hin; by constructor|].
    destruct (Hin a ltac:(constructor)) as (e & He & <- & Hs). exists (e :: M). split; [done|]. by constructor. }
  destruct HL as (M & -> & HM). rewrite Forall_forall in HM. exists (map ed M).
  pose proof (in_list_addr _ _ Hc) as Hna. rewrite <- (entries_data E L HP) in Hna.
  split; [apply (tables_of_entries t E); [done|]; apply Forall_forall; intros e He; by apply HM|]. split.
  - apply (NoDup_fmap_2_strong ed M); [|by apply NoDup_fmap_1 in Hnd].
    intros e e' [He _]%HM [He' _]%HM Hd. apply list_elem_of_lookup in He as [i Hi1]. apply list_elem_of_lookup in He' as [j Hj1].
    assert (i = j) as ->; [|congruence]. apply (NoDup_lookup (map ed E) i j (ed e)); [done| |]; rewrite list_lookup_fmap.
    + by rewrite Hi1.
    + rewrite Hj1. cbn. by rewrite Hd.
  - intros a. split.
    + intros (e & -> & He)%list_elem_of_fmap. destruct (HM e He) as [HeE Hq].
      destruct (entries_in E L e HP HeE) as (y & Hy & Ha & _). exists y. split; [done|]. split; [done|]. by apply (Heq e y).
    + intros (y & Hy & <- & Hs). destruct (entry_of E L y HP Hy) as (e & He & Hd & _). rewrite <- Hd.
      assert (Hin : ea e ∈ addrs M) by (apply Hr; exists e; split; [done|]; split; [done|]; by apply (Heq e y)).
      apply list_elem_of_fmap in Hin as (e' & Hae & He'). apply list_elem_of_fmap. exists e'. split; [|done].
      destruct (HM e' He') as [HeE' _]. by rewrite (addr_inj t E e e' Hi He HeE' Hae).
Qed.
Lemma inside_entries E L : same_entries E L -> tags_inside L -> inside E.
Proof.
  intros HP Hin. apply Forall_forall. intros e He. destruct (entries_in E L e HP He) as (x & Hx & _ & Hk).
  unfold tags_inside in Hin. rewrite Forall_forall in Hin. rewrite <- Hk. by apply Hin.
Qed.

(** What a query promises. *)
Definition retrieved cond m L : Prop := exists r m' l, mgmtRetrieveMetersFromMetric tag_cmp cond m = Ret (r, m') /\
  metric_inv m' L /\ result_tables r m' = Ret l /\ NoDup l /\
  forall a, a ∈ l <-> exists y, y ∈ L /\ addr y = a /\ cond_sat cond y.2 = true.

Lemma retrieve_nothing cond m L : metric_inv m L -> L = [] -> mgmtRetrieveMetersFromMetric tag_cmp cond m = Ret ([], m) -> retrieved cond m L.
Proof.
  intros Hi -> Hr. exists [], m, []. split; [done|]. split; [done|]. split; [unfold result_tables; by destruct (pSkipList m)|].
  split; [constructor|]. intros a. rewrite elem_of_nil. split; [done|]. by intros (y & ?%elem_of_nil & _).
Qed.

Lemma retrieve_both `{!RangeLaws} cond m L : metric_inv m L -> query_ok cond L -> retrieved cond m L.
Proof using Type*.
  intros Hi Hq. pose proof Hi as [I1 [I2 I2'] I3 I4 I5].
  assert (Hnil : L = [] -> (numOfMeters m =? 0) = true) by (intros ->; by rewrite I2).
  destruct (pSkipList m) as [t|] eqn:Et; cbn [index_ok] in I5.
  2: { apply retrieve_nothing; [done|done|]. unfold mgmtRetrieveMetersFromMetric. by rewrite Et, (Hnil I5). }
  destruct I5 as (E & HE & HP). destruct (sk_size _ _ HE) as [Hsz _].
  destruct (Z.eqb_spec (nSize t) 0) as [Hz|Hz].
  { assert (HL : L = []) by (apply same_length in HP; destruct L; [done|cbn in HP; lia]).
    apply retrieve_nothing; [done|done|]. unfold mgmtRetrieveMetersFromMetric. by rewrite Et, Hz, (Hnil HL). }
  unfold retrieved, mgmtRetrieveMetersFromMetric. rewrite Et, (proj2 (Z.eqb_neq _ _) Hz). destruct cond as [x|].
  - destruct Hq as (Hin & Hok & Hsup).
    destruct (traverse_index (tSQLElemFilterCallback tag_cmp (meters m)) (by_table (meters m)) ltac:(done) x t E HE
      (inside_entries E L HP Hin) (member_agrees _ _ _ I1 HP) Hok Hsup) as (r & t' & -> & [Hnd Hr] & HE').
    cbn [rbind]. destruct (selected_tables t' E L (meters m) r (fun y => table_sat x y.2 = true) _ HE' I1 HP Hnd Hr) as (l & Hl & Hnl & Hal).
    { intros e y He Hy Ha. by rewrite (member_eval (meters m) L E x e y I1 Hy Ha). }
    exists r, (set_index t' m), l. split; [done|]. split; [|done]. constructor; try done. by exists E.
  - rewrite (tSkipListIterateList_spec (fun _ => true) (fun _ => true) t E HE) by done. cbn [rbind].
    destruct (selected_tables t E L (meters m) (addrs (filter (fun _ => true = true) E)) (fun y => True) (fun _ => True) HE I1 HP)
      as (l & Hl & Hnl & Hal).
    + apply addrs_filter_nodup, (sk_nodup _ _ HE).
    + intros a. rewrite addrs_filter_in. split; intros (e & ? & ? & _); by exists e.
    + done.
    + eexists _, m, l. split; [done|]. split; [done|]. unfold result_tables. rewrite Et. split; [done|]. split; [done|].
      intros a. rewrite Hal. split; intros (y & ? & ? & _); by exists y.
Qed.
(** C8.  A query returns every table whose tags satisfy the condition, and each once, if no
    OR stands below an AND whose other side is about the first tag, and the first tag of
    every table is strictly inside the open range of its type ([tags_inside]: a string is not
    empty, see [less_misses_empty]). *)
Theorem metric_query_exact `{!RangeLaws} ops m L cond : runs ops m L -> query_ok cond L -> retrieved cond m L.
Proof using Type*. intros Hr. apply runs_inv in Hr. by apply retrieve_both. Qed.
End Life.

(** ** A super table over an integer tag *)
#[export] Instance int_range_laws : RangeLaws (K := Z).
Proof.
  constructor; [done| |done]. by apply key_bound.
Defined.

#[export] Instance str_range_laws : RangeLaws (K := string_key).
Proof.
  constructor.
  - split; [done|constructor].
  - apply no_upper_bound.
  - intros k Hk. change (comparator k upper0) with (compareStrVal k no_upper). by rewrite no_upper_above.
Defined.

Definition second_tag (info : tQueryInfo Z) (tags : Z * Z) : Z := comparator tags.2 (q info).

Definition ok_metric (r : res (metric Z Z)) : metric Z Z := match r with Ret m => m | _ => new_metric end.
Definition demo_ops : list (@metric_op Z Z) :=
  [AddMeter 12345 101 (2, 1) (7, 30); AddMeter 0 102 (2, 2) (3, 40); AddMeter 0 103 (2, 3) (7, 50); SetTag 0 102 9; DropMeter 101].
Definition demo_metric (n : nat) : metric Z Z := foldl (fun m o => ok_metric (apply_op o m)) new_metric (take n demo_ops).
Definition demo_tables : list (@entry gid (Z * Z)) := [(103, (2, 3), (7, 50)); (102, (2, 2), (9, 40))].

Definition cond_k (op : RELATION) (v : Z) : tSQLBinaryExpr Z := Leaf {| colIdx := 0; optr := op; q := v |}.
Definition cond_b (op : RELATION) (v : Z) : tSQLBinaryExpr Z := Leaf {| colIdx := 1; optr := op; q := v |}.

Definition readyb (i : option (@tSkipList Z)) : bool :=
  match i with None => true | Some t => (nLevel t <? MAX_SKIP_LIST_LEVEL)%nat end.
Lemma readyb_ok i : readyb i = true -> ready i.
Proof. destruct i as [t|]; [|done]. intros Hb%Nat.ltb_lt. right. by left. Qed.

Definition can_addb (m : metric Z Z) (L : list (@entry gid (Z * Z))) (x : @entry gid (Z * Z)) : bool :=
  negb (addr x =? 0) && bool_decide (Chain.heap (meters m) !! addr x = None) && bool_decide (~ ekey x ∈ map ekey L) &&
  readyb (pSkipList m) && (Z.of_nat (length L) + 1 <? 2 ^ 31).
Lemma can_addb_ok m L x : can_addb m L x = true -> can_add m L x.
Proof.
  unfold can_addb. rewrite !andb_true_iff, negb_true_iff, !bool_decide_eq_true, Z.eqb_neq, Z.ltb_lt.
  intros [[[[H1 H2] H3] H4] H5]. split; [done|]. split; [done|]. split; [done|]. split; [done|]. split; [by apply readyb_ok|done].
Qed.

Lemma demo_runs : runs demo_ops (demo_metric 5) demo_tables.
Proof.
  assert (H1 : runs (take 1 demo_ops) (demo_metric 1) [(101, (2, 1), (7, 30))]).
  { apply (runs_op [] new_metric [] (AddMeter 12345 101 (2, 1) (7, 30)) (demo_metric 1)); [constructor|by apply can_addb_ok|].
    vm_compute. reflexivity. }
  assert (H2 : runs (take 2 demo_ops) (demo_metric 2) [(102, (2, 2), (3, 40)); (101, (2, 1), (7, 30))]).
  { apply (runs_op _ _ _ (AddMeter 0 102 (2, 2) (3, 40)) (demo_metric 2) H1); [by apply can_addb_ok|]. vm_compute. reflexivity. }
  assert (H3 : runs (take 3 demo_ops) (demo_metric 3) [(103, (2, 3), (7, 50)); (102, (2, 2), (3, 40)); (101, (2, 1), (7, 30))]).
  { apply (runs_op _ _ _ (AddMeter 0 103 (2, 3) (7, 50)) (demo_metric 3) H2); [by apply can_addb_ok|]. vm_compute. reflexivity. }
  assert (H4 : runs (take 4 demo_ops) (demo_metric 4) [(103, (2, 3), (7, 50)); (102, (2, 2), (9, 40)); (101, (2, 1), (7, 30))]).
  { apply (runs_op _ _ _ (SetTag 0 102 9) (demo_metric 4) H3); [|vm_compute; reflexivity].
    split; [|split; [done|by apply readyb_ok]]. apply list_elem_of_lookup. by exists 1%nat. }
  apply (runs_op _ _ _ (DropMeter 101) (demo_metric 5) H4); [|vm_compute; reflexivity].
  apply list_elem_of_lookup. by exists 2%nat.
Qed.

Lemma metric_index_exact_witness : metric_inv (demo_metric 5) demo_tables /\
  forall o, op_ok o (demo_metric 5) demo_tables -> exists m', apply_op o (demo_metric 5) = Ret m' /\ metric_inv m' (apply_list o demo_tables).
Proof. apply (metric_index_exact demo_ops). exact demo_runs. Defined.

Lemma metric_query_exact_witness : retrieved second_tag
  (Some (Node TSDB_RELATION_AND (cond_k TSDB_RELATION_LARGE_EQUAL 8) (cond_b TSDB_RELATION_LESS 45))) (demo_metric 5) demo_tables.
Proof.
  apply (metric_query_exact second_tag demo_ops).
  - exact demo_runs.
  - split; [|split; [|reflexivity]].
    + repeat constructor.
    + split; intros _ _; exact I.
Defined.

(** An OR below an AND whose other side is about the first tag: both tables
    satisfy the condition, none is returned. *)
Definition or_cond : tSQLBinaryExpr Z :=
  Node TSDB_RELATION_AND (cond_k TSDB_RELATION_LARGE_EQUAL 0)
    (Node TSDB_RELATION_OR (cond_b TSDB_RELATION_EQUAL 50) (cond_b TSDB_RELATION_EQUAL 40)).

Lemma or_below_and_lost : Forall (fun x => table_sat second_tag or_cond x.2 = true) demo_tables /\
  exists m', mgmtRetrieveMetersFromMetric second_tag (Some or_cond) (demo_metric 5) = Ret ([], m').
Proof. split; [repeat constructor|]. eexists. vm_compute. reflexivity. Qed.

(** A table whose first tag is the empty string is not less than "b". *)
Definition empty_tag : string_key := {| nLen := 8; pz := [] |}.
Definition less_b : tQueryInfo string_key := {| colIdx := 0; optr := TSDB_RELATION_LESS; q := {| nLen := 1; pz := [98] |} |}.

Definition empty_tag_list : res (@tSkipList string_key) :=
  let! '(_, t) := tSkipListPut 101 empty_tag 1 (tSkipListCreate MAX_SKIP_LIST_LEVEL 0) in Ret t.

Lemma less_misses_empty : comparator empty_tag (q less_b) < 0 /\
  (let! t := empty_tag_list in let! '(r, _) := tSQLDoFilterInitialResult (fun _ _ => true) less_b t in
   let! all := tSkipListIterateList (fun _ => true) t in Ret (all, r)) = Ret ([2], []).
Proof. split; [done|]. vm_compute. reflexivity. Qed.
