(* ===== verification/CommitLog.v ===== *)
(** * The commit log of a vnode (system/src/vnodeCommit.c)

    Every submission is appended to a mapped file, [.log]; when the cached rows
    are committed to the data files the log is renamed to [.olog] and a new one
    begun, and [.olog] is removed when the commit is over.  A vnode that is
    opened replays first [.olog], then [.log].  The threads that start and end a
    commit are those of vnodeCache.c and vnodeFile.c.

    What a submission and a commit do to the cached rows and data files is the
    class [VnodeData]: the log calls it and does not look inside. *)
From S2P Require Import Prelude.

(** ** Data *)
Record SMeterObj := { sid : Z; sversion : Z; state : Z }.

Record SCommitHead := mkHead {
  h_sversion : Z; h_sid : Z; h_contLen : Z; h_action : Z (* int : 8 *); h_simpleCheck : Z (* int : 24 *) }.

Definition SIZEOF_SCommitHead := 16.
Definition head_bytes (h : SCommitHead) : list Z :=
  le_bytes 4 (h_sversion h) ++ le_bytes 4 (h_sid h) ++ le_bytes 4 (h_contLen h) ++
  le_bytes 4 (u8 (h_action h) + 256 * wrapu 24 (h_simpleCheck h)).
Definition head_of (b : list Z) : SCommitHead :=
  let w := le_val (take 4 (drop 12 b)) in
  mkHead (i32 (le_val (take 4 b))) (i32 (le_val (take 4 (drop 4 b)))) (i32 (le_val (take 4 (drop 8 b))))
    (i8 w) (wraps 24 (w / 256)).

(** [(sversion + sid + contLen + action) & 0xFFFFFF] *)
Definition check_sum (sv sd len act : Z) : Z := Z.land (i32 (sv + sd + len + act)) (Z.ones 24).

Definition TSDB_ACTION_INSERT := 0.
Definition TSDB_ACTION_IMPORT := 1.
Definition TSDB_ACTION_MAX := 4.
Definition TSDB_METER_STATE_DELETING := 16.
Definition TSDB_CODE_SUCCESS := 0.
Definition TSDB_CODE_ACTION_IN_PROGRESS := 1.
Definition TSDB_PAYLOAD_SIZE := 65480 - 100.

(** The rows of the vnode, in the cache and in the data files: [vnodeInsertPoints]
    and [vnodeImportPoints] called with the source [TSDB_DATA_SOURCE_LOG] on the
    table [sid], the content and the version of its schema, the commit of the
    cached rows, and whether there are any ([lastKey] is not 0). *)
Class VnodeData (St : Type) := {
  meterList : St -> Z -> option SMeterObj;
  version : St -> Z;
  set_version : Z -> St -> St;
  vnodeInsertPoints : Z -> list Z -> Z -> St -> St;
  vnodeImportPoints : Z -> list Z -> Z -> St -> St;
  hasLastKey : St -> bool;
  commitData : St -> St }.

Inductive thread := NoThread | Created | Committing.
Inductive mapping := Unmapped | MapLog | MapUnlinked.
Inductive fileName := LogFn | LogOFn.
Inductive fault := NoFault | OpenFails | FallocateFails | MmapFails.

(** [pWrite] is the offset from [pMem]; [None] is NULL.  [errFiles] are the files
    renamed to "error".  The mapping is shared: what it holds is the file. *)
Record SVnodeObj (St : Type) := mkVnode {
  data : St;
  meterListOpen : bool;
  commitLog : bool; maxSessions : Z; cacheBlockSize : Z; totalBlocks : Z;
  unsynced : bool;
  commitInProcess : bool;
  poolCommitInProcess : bool; commitThread : thread;
  logFd : Z; pMem : mapping; pWrite : option Z;
  mappingSize : Z; mappingThreshold : Z;
  logFile : option (list Z); ologFile : option (list Z); errFiles : list (list Z) }.
Arguments mkVnode {St}.
Arguments data {St} _. Arguments meterListOpen {St} _. Arguments commitLog {St} _.
Arguments maxSessions {St} _. Arguments cacheBlockSize {St} _. Arguments totalBlocks {St} _.
Arguments unsynced {St} _. Arguments commitInProcess {St} _. Arguments poolCommitInProcess {St} _.
Arguments commitThread {St} _. Arguments logFd {St} _. Arguments pMem {St} _. Arguments pWrite {St} _.
Arguments mappingSize {St} _. Arguments mappingThreshold {St} _. Arguments logFile {St} _.
Arguments ologFile {St} _. Arguments errFiles {St} _.

Section Setters.
Context {St : Type}.
Implicit Types v : SVnodeObj St.
Definition set_data (s : St) v := mkVnode s (meterListOpen v) (commitLog v) (maxSessions v) (cacheBlockSize v)
  (totalBlocks v) (unsynced v) (commitInProcess v) (poolCommitInProcess v) (commitThread v) (logFd v) (pMem v)
  (pWrite v) (mappingSize v) (mappingThreshold v) (logFile v) (ologFile v) (errFiles v).
Definition set_commit (c p : bool) (t : thread) v := mkVnode (data v) (meterListOpen v) (commitLog v) (maxSessions v)
  (cacheBlockSize v) (totalBlocks v) (unsynced v) c p t (logFd v) (pMem v)
  (pWrite v) (mappingSize v) (mappingThreshold v) (logFile v) (ologFile v) (errFiles v).
Definition set_map (fd : Z) (m : mapping) (w : option Z) v := mkVnode (data v) (meterListOpen v) (commitLog v)
  (maxSessions v) (cacheBlockSize v) (totalBlocks v) (unsynced v) (commitInProcess v) (poolCommitInProcess v)
  (commitThread v) fd m w (mappingSize v) (mappingThreshold v) (logFile v) (ologFile v) (errFiles v).
Definition set_sizes (s t : Z) v := mkVnode (data v) (meterListOpen v) (commitLog v)
  (maxSessions v) (cacheBlockSize v) (totalBlocks v) (unsynced v) (commitInProcess v) (poolCommitInProcess v)
  (commitThread v) (logFd v) (pMem v) (pWrite v) s t (logFile v) (ologFile v) (errFiles v).
Definition set_files (l o : option (list Z)) (e : list (list Z)) v := mkVnode (data v) (meterListOpen v) (commitLog v)
  (maxSessions v) (cacheBlockSize v) (totalBlocks v) (unsynced v) (commitInProcess v) (poolCommitInProcess v)
  (commitThread v) (logFd v) (pMem v) (pWrite v) (mappingSize v) (mappingThreshold v) l o e.
End Setters.

(** ** Sizes

    [fl n] is the integer [n] converted to a double. *)
Definition fl (n : Z) : Z :=
  let e := Z.max 0 (Z.log2 (Z.abs n) - 52) in
  let q := n / 2 ^ e in let r := n mod 2 ^ e in
  let up := if 2 * r =? 2 ^ e then Z.odd q else 2 ^ e <? 2 * r in
  (if up then q + 1 else q) * 2 ^ e.
(** [((int64_t)cacheBlockSize) * totalBlocks * 1.5] and [mappingSize * 0.7]; the
    double 0.7 is 6305039478318694 / 2^53. *)
Definition mapping_size (blockSize blocks : Z) : Z := Z.quot (fl (fl (i64 (blockSize * blocks)) * 3)) 2.
Definition mapping_threshold (size : Z) : Z := Z.quot (fl (fl size * 6305039478318694)) (2 ^ 53).

Definition VALIDFD (fd : Z) : bool := 2 <? fd.

Section CommitLog.
Context {St : Type} `{VnodeData St}.
Implicit Types v : SVnodeObj St.

(** ** Opening and renewing *)
Definition vnodeOpenCommitLog (flt : fault) v (firstV : Z) : res (Z * SVnodeObj St) :=
  match flt with
  | OpenFails => Ret (-1, set_map (-1) (pMem v) (pWrite v) v)
  | _ =>
    let fd := 3 in
    let old := default [] (logFile v) in
    let v := set_files (Some old) (ologFile v) (errFiles v) v in
    let err v := Ret (-1, set_map (-1) (match flt with MmapFails => Unmapped | _ => pMem v end) (pWrite v)
                            (set_files None (ologFile v) (errFiles v) v)) in
    match flt with
    | FallocateFails => err v
    | _ =>
      let bytes := old ++ replicate (Z.to_nat (mappingSize v) - length old) 0 in
      if negb (Z.of_nat (length bytes) =? mappingSize v) then err v
      else match flt with
      | MmapFails => err v
      | _ =>
        let! bytes := wr bytes 0 (le_bytes 8 firstV) in
        Ret (fd, set_map fd MapLog (Some 8) (set_files (Some bytes) (ologFile v) (errFiles v) v))
      end
    end
  end.

Definition vnodeRenewCommitLog (flt : fault) v : res (Z * SVnodeObj St) :=
  let v := if VALIDFD (logFd v)
    then set_map (logFd v) Unmapped (pWrite v)
           (match logFile v with
            | Some l => set_files None (Some l) (errFiles v) v
            | None => v
            end)
    else v in
  if commitLog v then
    let! '(_, v) := vnodeOpenCommitLog flt v (version (data v)) in Ret (logFd v, v)
  else Ret (logFd v, v).

Definition vnodeRemoveCommitLog v : SVnodeObj St := set_files (logFile v) None (errFiles v) v.

(** ** The commit thread *)
Definition vnodeCreateCommitThread v : SVnodeObj St :=
  if poolCommitInProcess v then v
  else if unsynced v then v
  else set_commit (commitInProcess v) true Created v.
Definition vnodeProcessCommitTimer v : SVnodeObj St := vnodeCreateCommitThread v.
Definition vnodeCommitOver v : SVnodeObj St := set_commit (commitInProcess v) false (commitThread v) v.

(** [vnodeCommitMultiToFile] up to and including the renewal of the log, and
    from there on; [None]: there was nothing to commit.  The files of the commit
    cannot be opened if [openFiles] is false. *)
Definition commit_over v : SVnodeObj St :=
  let v := vnodeCommitOver (set_commit false (poolCommitInProcess v) (commitThread v) v) in
  set_commit (commitInProcess v) (poolCommitInProcess v) NoThread v.
Definition commit_start (flt : fault) v : res (bool * SVnodeObj St) :=
  if negb (hasLastKey (data v)) then Ret (false, commit_over v)
  else
    let! '(_, v) := vnodeRenewCommitLog flt v in
    Ret (true, set_commit true (poolCommitInProcess v) Committing v).
Definition commit_finish (openFiles : bool) v : SVnodeObj St :=
  if negb openFiles then commit_over v
  else commit_over (vnodeRemoveCommitLog (set_data (commitData (data v)) v)).
Definition vnodeCommitToFile (flt : fault) (openFiles : bool) v : res (SVnodeObj St) :=
  let! '(go, v) := commit_start flt v in
  Ret (if go : bool then commit_finish openFiles v else v).

(** ** Replaying *)
Definition file_of v (n : fileName) : option (list Z) := match n with LogFn => logFile v | LogOFn => ologFile v end.
Definition move_to_error v (n : fileName) : SVnodeObj St :=
  match n, file_of v n with
  | LogFn, Some b => set_files None (ologFile v) (errFiles v ++ [b]) v
  | LogOFn, Some b => set_files (logFile v) None (errFiles v ++ [b]) v
  | _, None => v
  end.

Definition vnodeIsMeterDeleting (m : SMeterObj) : bool := TSDB_METER_STATE_DELETING <=? state m.

(** The two entries of [vnodeProcessAction]; an index that is not one of them
    is out of bounds. *)
Definition vnodeProcessAction (act sid : Z) (cont : list Z) (sv : Z) (s : St) : res St :=
  if act =? TSDB_ACTION_INSERT then Ret (vnodeInsertPoints sid cont sv s)
  else if act =? TSDB_ACTION_IMPORT then Ret (vnodeImportPoints sid cont sv s)
  else Undef.

(** The descriptor's position, [head] ([None]: nothing was read into it yet), the
    buffer [cont] of [bufLen] bytes, which [realloc] leaves indeterminate where it
    grows, and what is restored so far. *)
Record reader := mkReader {
  r_pos : Z; r_head : option (list Z); r_cont : list (option Z); r_bufLen : Z;
  r_totalLen : Z; r_actions : Z; r_data : St }.

Definition det (l : list (option Z)) : res (list Z) := match mapM Datatypes.id l with Some x => Ret x | None => Undef end.

Definition read_head (file : list Z) (r : reader) : res (option (SCommitHead * reader)) :=
  let got := take 16 (drop (Z.to_nat (r_pos r)) file) in
  match got with
  | [] => Ret None
  | _ =>
    let! hb := (if Nat.eqb (length got) 16 then Ret got
                else match r_head r with
                     | Some old => Ret (got ++ drop (length got) old)
                     | None => Undef
                     end) in
    Ret (Some (head_of hb, mkReader (r_pos r + Z.of_nat (length got)) (Some hb) (r_cont r) (r_bufLen r)
                             (r_totalLen r) (r_actions r) (r_data r)))
  end.

(** [read(fd, cont, contLen + sizeof(simpleCheck))], the buffer grown before if
    it is too small. *)
Definition read_cont (file : list Z) (contLen : Z) (r : reader) : res reader :=
  let '(cont, bufLen) :=
    if u64 (r_bufLen r) <? contLen + 4
    then (r_cont r ++ replicate (Z.to_nat (contLen + 4) - length (r_cont r)) None, i32 (contLen + 4))
    else (r_cont r, r_bufLen r) in
  let got := take (Z.to_nat (contLen + 4)) (drop (Z.to_nat (r_pos r)) file) in
  if (length cont <? length got)%nat then Undef
  else Ret (mkReader (r_pos r + Z.of_nat (length got)) (r_head r) (map Some got ++ drop (length got) cont) bufLen
              (r_totalLen r) (r_actions r) (r_data r)).

(** The end of a turn of the loop. *)
Definition count_len (contLen : Z) (r : reader) : reader :=
  mkReader (r_pos r) (r_head r) (r_cont r) (r_bufLen r) (u64 (r_totalLen r + SIZEOF_SCommitHead + contLen + 4))
    (r_actions r) (r_data r).

(** One turn: [inl] to go on, [inr] to leave the loop. *)
Definition restore_step (maxSessions : Z) (file : list Z) (r : reader) : res (reader + reader) :=
  let! got := read_head file r in
  match got with
  | None => Ret (inr r)
  | Some (h, r) =>
    if negb (check_sum (h_sversion h) (h_sid h) (h_contLen h) (h_action h) =? h_simpleCheck h) then Ret (inr r)
    else if (maxSessions <=? h_sid h) || (h_sid h <? 0) || (TSDB_ACTION_MAX <=? h_action h)
    then Ret (inl (count_len (h_contLen h) r))
    else if 0 <? h_contLen h then
      let! r := read_cont file (h_contLen h) r in
      let! trailer := det (take 4 (drop (Z.to_nat (h_contLen h)) (r_cont r))) in
      if negb (i32 (le_val trailer) =? h_simpleCheck h) then Ret (inr r)
      else match meterList (r_data r) (h_sid h) with
      | None => Ret (inl r)
      | Some m =>
        if vnodeIsMeterDeleting m then Ret (inl r)
        else
          let! cont := det (take (Z.to_nat (h_contLen h)) (r_cont r)) in
          let! s := vnodeProcessAction (h_action h) (h_sid h) cont (h_sversion h) (r_data r) in
          Ret (inl (count_len (h_contLen h)
            (mkReader (r_pos r) (r_head r) (r_cont r) (r_bufLen r) (r_totalLen r) (r_actions r + 1) s)))
      end
    else Ret (inr r)
  end.

Fixpoint restore_loop (fuel : nat) (maxSessions : Z) (file : list Z) (r : reader) : res reader :=
  match fuel with
  | O => NoFuel
  | S fuel =>
    let! x := restore_step maxSessions file r in
    match x with inl r => restore_loop fuel maxSessions file r | inr r => Ret r end
  end.

(** Returns the [size_t], [*firstV] and the vnode.  The version is eight bytes;
    a shorter file leaves the higher bytes of [*firstV] as they are. *)
Definition vnodeRestoreDataFromLog (canOpen : bool) (n : fileName) v (firstV : Z) : res (Z * Z * SVnodeObj St) :=
  if negb (meterListOpen v) then Ret (0, firstV, v)
  else match file_of v n with
  | None => Ret (0, firstV, v)
  | Some file =>
    let got := take 8 file in
    if negb canOpen || Nat.eqb (length got) 0 then Ret (u64 (-1), firstV, move_to_error v n)
    else
      let firstV := le_val (got ++ drop (length got) (le_bytes 8 firstV)) in
      let r := mkReader (Z.of_nat (length got)) None (replicate (Z.to_nat TSDB_PAYLOAD_SIZE) (Some 0))
                 TSDB_PAYLOAD_SIZE 0 0 (set_version firstV (data v)) in
      let! r := restore_loop (S (length file)) (maxSessions v) file r in
      Ret (r_totalLen r, firstV, set_data (r_data r) v)
  end.

(** [rf] are the outcomes of the two [open] calls that read, [flt] those of the
    log opened by the commit of [.olog] and of the last one, [openFiles] that of
    the files of that commit. *)
Definition vnodeInitCommit (rf : bool * bool) (flt : fault * fault) (openFiles : bool) v : res (Z * SVnodeObj St) :=
  let size := mapping_size (cacheBlockSize v) (totalBlocks v) in
  let v := set_sizes size (mapping_threshold size) v in
  let! '(size, firstV, v) := vnodeRestoreDataFromLog rf.1 LogOFn v 0 in
  let! v := (if 0 <? size then
      let! v := (if negb (commitInProcess v) then vnodeCommitToFile flt.1 openFiles v else Ret v) in
      Ret (vnodeRemoveCommitLog v)
    else Ret v) in
  let! '(size, firstV, v) := vnodeRestoreDataFromLog rf.2 LogFn v firstV in
  if negb (commitLog v) then Ret (0, v)
  else
    let firstV := if size =? 0 then version (data v) else firstV in
    let! '(fd, v) := vnodeOpenCommitLog flt.2 v firstV in
    if fd <? 0 then Ret (-1, v)
    else Ret (0, set_map (logFd v) (pMem v) (match pWrite v with Some w => Some (i64 (w + size)) | None => None end) v).

Definition vnodeCleanUpCommit v : SVnodeObj St :=
  let v' := if commitLog v && (0 <? logFd v) then set_files None (ologFile v) (errFiles v) v else v in
  match pMem v', logFile v' with MapLog, None => set_map (logFd v') MapUnlinked (pWrite v') v' | _, _ => v' end.

(** ** Appending *)
Definition log_record (pObj : SMeterObj) (action : Z) (cont : list Z) (contLen : Z) : list Z :=
  let check := wraps 24 (check_sum (sversion pObj) (sid pObj) contLen (i8 action)) in
  head_bytes (mkHead (sversion pObj) (sid pObj) contLen (i8 action) check) ++ cont ++ le_bytes 4 check.

Definition vnodeWriteToCommitLog (pObj : SMeterObj) (action : Z) (cont : list Z) (contLen : Z) v
  : res (Z * SVnodeObj St) :=
  match pWrite v with
  | None => Ret (0, v)
  | Some w =>
    if u64 (mappingSize v - w) <? u64 (contLen + SIZEOF_SCommitHead + 4 + 100)
    then Ret (TSDB_CODE_ACTION_IN_PROGRESS, vnodeProcessCommitTimer v)
    else
      let! cont := rd cont 0 contLen in
      let! v := (match pMem v with
        | Unmapped => Undef
        | MapUnlinked => Ret v
        | MapLog =>
          match logFile v with
          | None => Undef
          | Some mem =>
            let! mem := wr mem w (log_record pObj action cont contLen) in
            Ret (set_files (Some mem) (ologFile v) (errFiles v) v)
          end
        end) in
      let w := w + SIZEOF_SCommitHead + contLen + 4 in
      let v := set_map (logFd v) (pMem v) (Some w) v in
      Ret (0, if mappingThreshold v <? w then vnodeProcessCommitTimer v else v)
  end.

(** The part of [vnodeInsertPoints] and [vnodeImportPoints] that writes the log,
    for a submission that is not from the log, and what follows. *)
Definition TSDB_CODE_INVALID_COMMIT_LOG := 109.
Definition submit (sd act : Z) (cont : list Z) v : res (Z * SVnodeObj St) :=
  match meterList (data v) sd with
  | None => Undef
  | Some m =>
    let! '(code, v) :=
      (if commitLog v then
        if logFd v <? 0 then Ret (TSDB_CODE_INVALID_COMMIT_LOG, v)
        else vnodeWriteToCommitLog m act cont (Z.of_nat (length cont)) v
      else Ret (0, v)) in
    if negb (code =? 0) then Ret (code, v)
    else let! s := vnodeProcessAction act sd cont (sversion m) (data v) in Ret (0, set_data s v)
  end.

(** The vnode is opened again, on the files that are there and the rows [s] that
    the data files hold: [vnodeInitStoreVnode] on a cleared [SVnodeObj]. *)
Definition reboot (s : St) v : SVnodeObj St :=
  mkVnode s true (commitLog v) (maxSessions v) (cacheBlockSize v) (totalBlocks v) (unsynced v) false false NoThread
    0 Unmapped None 0 0 (logFile v) (ologFile v) (errFiles v).
Definition restart (s : St) v : res (Z * SVnodeObj St) := vnodeInitCommit (true, true) (NoFault, NoFault) true (reboot s v).
End CommitLog.
Arguments reader : clear implicits.
Arguments mkReader {St}.
