(* ===== verification/CommitLogInv.v ===== *)
(** * The invariant of the commit log, and its operations *)
From S2P Require Import Prelude CommitLog.

(** * Records of the commit log, and what replaying them does *)

#[local] Ltac Zify.zify_post_hook ::= Z.div_mod_to_equations.

(** A record as it was submitted. *)
Record crec := mkRec { c_sv : Z; c_sid : Z; c_act : Z; c_cont : list Z }.
Definition c_len (r : crec) : Z := Z.of_nat (length (c_cont r)).
Definition c_sum (r : crec) : Z := c_sv r + c_sid r + c_len r + c_act r.
Definition c_head (r : crec) : SCommitHead := mkHead (c_sv r) (c_sid r) (c_len r) (c_act r) (c_sum r).
Definition render (r : crec) : list Z := head_bytes (c_head r) ++ c_cont r ++ le_bytes 4 (c_sum r).
Definition render_all (l : list crec) : list Z := concat (map render l).
Definition total (l : list crec) : Z := Z.of_nat (length (render_all l)).

(** What a client submits, for [n] tables; the sum of the four fields stays below
    2^23, as [simpleCheck] is a signed field of 24 bits. *)
Record rec_ok (n : Z) (r : crec) : Prop := {
  rc_sv : 0 <= c_sv r;
  rc_sid : 0 <= c_sid r < n;
  rc_act : c_act r = TSDB_ACTION_INSERT \/ c_act r = TSDB_ACTION_IMPORT;
  rc_cont : c_cont r <> [] /\ bytes_ok (c_cont r);
  rc_sum : c_sum r < 2 ^ 23 }.

Lemma rec_ok_bounds n r : rec_ok n r ->
  0 < c_len r /\ 0 <= c_act r <= 1 /\ 0 <= c_sv r /\ 0 <= c_sid r /\ 0 < c_sum r < 2 ^ 23 /\
  c_len r < 2 ^ 23 /\ c_sv r < 2 ^ 23 /\ c_sid r < 2 ^ 23.
Proof.
  intros [? ? ? [Hc _] Hs]. unfold c_sum, c_len, TSDB_ACTION_INSERT, TSDB_ACTION_IMPORT in *.
  destruct (c_cont r); [done|]. cbn [length] in *. lia.
Qed.

Lemma length_head_bytes h : length (head_bytes h) = 16%nat.
Proof. unfold head_bytes. by rewrite !length_app, !length_le_bytes. Qed.

Lemma head_bytes_ok h : bytes_ok (head_bytes h).
Proof. unfold head_bytes. rewrite !bytes_ok_app. repeat split; apply le_bytes_ok. Qed.

Lemma length_render r : Z.of_nat (length (render r)) = 20 + c_len r.
Proof. unfold render, c_len. rewrite !length_app, length_head_bytes, length_le_bytes. lia. Qed.

Lemma total_nil : total [] = 0.
Proof. done. Qed.

Lemma total_snoc l r : total (l ++ [r]) = total l + 20 + c_len r.
Proof.
  unfold total, render_all. rewrite map_app, concat_app, length_app. cbn [map concat].
  rewrite app_nil_r. pose proof (length_render r). lia.
Qed.

Lemma total_nonneg l : 0 <= total l.
Proof. unfold total. lia. Qed.

(** ** Decoding the head *)
Lemma le_val_4 z : in_s 32 z -> i32 (le_val (le_bytes 4 z)) = z.
Proof.
  intros Hz. rewrite le_val_bytes. change (8 * Z.of_nat 4) with 32. fold (wrapu 32 z).
  rewrite wraps_wrapu by lia. by apply wraps_id.
Qed.

Lemma head_of_bytes h : in_s 32 (h_sversion h) -> in_s 32 (h_sid h) -> in_s 32 (h_contLen h) ->
  in_s 8 (h_action h) -> in_s 24 (h_simpleCheck h) -> head_of (head_bytes h) = h.
Proof.
  intros H1 H2 H3 H4 H5. destruct h as [a b c d e]. cbn in *. unfold head_bytes, head_of. cbn.
  assert (E : forall z, z mod 256 + 256 * (z / 256 mod 256 + 256 * (z / 256 / 256 mod 256 +
    256 * (z / 256 / 256 / 256 mod 256 + 256 * 0))) = le_val (le_bytes 4 z)) by done.
  rewrite !E, !le_val_4 by done.
  rewrite le_val_bytes. change (8 * Z.of_nat 4) with 32.
  pose proof (wrapu_range 8 d ltac:(lia)) as Hd. pose proof (wrapu_range 24 e ltac:(lia)) as He.
  unfold in_u in Hd, He. rewrite (Z.mod_small (_ + _)) by lia.
  rewrite (wraps_congr 8 (u8 d + 256 * wrapu 24 e) (u8 d) (wrapu 24 e)) by lia.
  assert (E2 : (u8 d + 256 * wrapu 24 e) / 256 = wrapu 24 e)
    by (revert Hd He; generalize (u8 d) (wrapu 24 e); intros; lia).
  rewrite E2.
  rewrite !wraps_wrapu by lia. rewrite !wraps_id by (done || lia). done.
Qed.

Lemma check_sum_small a b c d : 0 <= a + b + c + d < 2 ^ 24 -> check_sum a b c d = a + b + c + d.
Proof.
  intros Hs. unfold check_sum. rewrite wraps_id by (unfold in_s; lia).
  rewrite Z.land_ones by lia. by apply Z.mod_small.
Qed.

Lemma c_head_of n r : rec_ok n r -> head_of (head_bytes (c_head r)) = c_head r.
Proof.
  intros Hr%rec_ok_bounds. apply head_of_bytes; unfold in_s; cbn; lia.
Qed.

Lemma c_check n r : rec_ok n r -> check_sum (c_sv r) (c_sid r) (c_len r) (c_act r) = c_sum r.
Proof. intros Hr%rec_ok_bounds. apply check_sum_small. unfold c_sum in *. lia. Qed.

(** [vnodeWriteToCommitLog] appends exactly the rendered record. *)
Lemma log_record_render n m r : rec_ok n r -> sid m = c_sid r -> sversion m = c_sv r ->
  log_record m (c_act r) (c_cont r) (c_len r) = render r.
Proof.
  intros Hr Hs Hv. pose proof (rec_ok_bounds _ _ Hr). unfold log_record, render, c_head. rewrite Hs, Hv.
  rewrite (wraps_id 8) by (unfold in_s; lia). rewrite (c_check _ _ Hr).
  rewrite wraps_id by (unfold in_s; lia). done.
Qed.

(** ** Where the replay stops

    [stops n tail]: the bytes after the last record are not taken for one. *)
Inductive stops (n : Z) (tail : list Z) : Prop :=
| stops_head h : (16 <= length tail)%nat -> head_of (take 16 tail) = h ->
    check_sum (h_sversion h) (h_sid h) (h_contLen h) (h_action h) <> h_simpleCheck h -> stops n tail
| stops_empty h : (16 <= length tail)%nat -> head_of (take 16 tail) = h ->
    0 <= h_sid h < n -> h_action h < TSDB_ACTION_MAX -> h_contLen h <= 0 -> stops n tail
| stops_body h : head_of (take 16 tail) = h ->
    0 <= h_sid h < n -> h_action h < TSDB_ACTION_MAX -> 0 < h_contLen h < 2 ^ 31 - 4 ->
    16 + h_contLen h + 4 <= Z.of_nat (length tail) ->
    i32 (le_val (take 4 (drop (Z.to_nat (16 + h_contLen h)) tail))) <> h_simpleCheck h -> stops n tail.

Definition zeros (k : nat) : list Z := replicate k 0.

Lemma stops_zeros n k : 0 < n -> (16 <= k)%nat -> stops n (zeros k).
Proof.
  intros Hn Hk. apply stops_empty with (mkHead 0 0 0 0 0); unfold zeros, TSDB_ACTION_MAX; [by rewrite length_replicate| |cbn; lia..].
  by rewrite take_replicate, Nat.min_l by lia.
Qed.

(** ** Torn records

    A crash while a record is copied leaves its first [k] bytes, followed by
    zeros.  Either that is the whole record, or the replay stops there. *)
Lemma le_val_zeros k : le_val (zeros k) = 0.
Proof. induction k as [|k IH]; [done|]. unfold zeros in *. cbn. rewrite IH. done. Qed.

Lemma zeros_ok k : bytes_ok (zeros k).
Proof. unfold zeros. apply Forall_replicate. unfold byte_ok. lia. Qed.

Lemma le_val_inj l1 l2 : bytes_ok l1 -> bytes_ok l2 -> length l1 = length l2 -> le_val l1 = le_val l2 -> l1 = l2.
Proof. intros H1 H2 Hl E. rewrite <- (le_bytes_val l1), <- (le_bytes_val l2) by done. by rewrite Hl, E. Qed.

Lemma le_bytes_four z : 0 <= z < 2 ^ 32 -> exists a b c d, le_bytes 4 z = [a; b; c; d] /\
  z = a + 256 * b + 65536 * c + 16777216 * d /\ byte_ok a /\ byte_ok b /\ byte_ok c /\ byte_ok d.
Proof.
  intros Hz. exists (z mod 256), (z / 256 mod 256), (z / 256 / 256 mod 256), (z / 256 / 256 / 256 mod 256).
  split; [done|]. unfold byte_ok. lia.
Qed.

Lemma head_of_16 a0 a1 a2 a3 b0 b1 b2 b3 c0 c1 c2 c3 d e0 e1 e2 :
  bytes_ok [a0; a1; a2; a3; b0; b1; b2; b3; c0; c1; c2; c3; d; e0; e1; e2] ->
  a3 < 128 -> b3 < 128 -> c3 < 128 -> d < 128 -> e2 < 128 ->
  head_of [a0; a1; a2; a3; b0; b1; b2; b3; c0; c1; c2; c3; d; e0; e1; e2] =
  mkHead (a0 + 256 * a1 + 65536 * a2 + 16777216 * a3) (b0 + 256 * b1 + 65536 * b2 + 16777216 * b3)
    (c0 + 256 * c1 + 65536 * c2 + 16777216 * c3) d (e0 + 256 * e1 + 65536 * e2).
Proof.
  unfold bytes_ok. rewrite !Forall_cons. unfold byte_ok. intros Hb ? ? ? ? ?. unfold head_of. cbn [take drop le_val].
  f_equal; try (rewrite wraps_id by (unfold in_s; lia); lia).
  rewrite (wraps_congr 8 _ d (e0 + 256 * e1 + 65536 * e2)) by lia. apply wraps_id; [lia|unfold in_s; lia].
Qed.

(** A head cut short is whole after all, or its check is wrong, or it says that
    nothing follows. *)
Lemma torn_head n r k : rec_ok n r -> (k < 16)%nat ->
  let hb := take k (head_bytes (c_head r)) ++ zeros (16 - k) in
  let h := head_of hb in
  hb = head_bytes (c_head r) \/
  check_sum (h_sversion h) (h_sid h) (h_contLen h) (h_action h) <> h_simpleCheck h \/
  (0 <= h_sid h < n /\ h_action h < TSDB_ACTION_MAX /\ h_contLen h <= 0).
Proof.
  intros Hr0 Hk. pose proof (rc_sid _ _ Hr0). apply rec_ok_bounds in Hr0 as Hr. clear Hr0.
  cbv zeta. unfold head_bytes, c_head. cbn [h_sversion h_sid h_contLen h_action h_simpleCheck].
  destruct (le_bytes_four (c_sv r)) as (a0 & a1 & a2 & a3 & -> & Ea & Ha); [lia|].
  destruct (le_bytes_four (c_sid r)) as (b0 & b1 & b2 & b3 & -> & Eb & Hb); [lia|].
  destruct (le_bytes_four (c_len r)) as (c0 & c1 & c2 & c3 & -> & Ec & Hc); [lia|].
  destruct (le_bytes_four (u8 (c_act r) + 256 * wrapu 24 (c_sum r))) as (d & e0 & e1 & e2 & -> & Ed & Hd).
  { unfold wrapu. lia. }
  rewrite !(wrapu_id _ _) in Ed by (unfold in_u; lia). unfold c_sum in *. unfold byte_ok in *.
  assert (d = c_act r /\ e0 + 256 * e1 + 65536 * e2 = c_sv r + c_sid r + c_len r + c_act r) as [Ed1 Ed2] by lia.
  destruct (decide (k = 14%nat /\ e1 = 0 /\ e2 = 0 \/ k = 15%nat /\ e2 = 0)) as [[(-> & -> & ->)|(-> & ->)]|Hne];
    [by left..|right].
  do 16 (destruct k as [|k]; [cbn [take app zeros replicate Nat.sub];
    rewrite head_of_16 by (try (repeat apply Forall_cons_2; try apply Forall_nil_2; unfold byte_ok); lia);
    cbn [h_sversion h_sid h_contLen h_action h_simpleCheck];
    rewrite check_sum_small by lia; unfold TSDB_ACTION_MAX; lia|]).
  lia.
Qed.

Lemma take_zeros i k : take i (zeros k) = zeros (Nat.min i k).
Proof. unfold zeros. by rewrite take_replicate. Qed.

Lemma drop_zeros i k : drop i (zeros k) = zeros (k - i).
Proof. unfold zeros. by rewrite drop_replicate. Qed.

Lemma zeros_app i k : zeros (i + k) = zeros i ++ zeros k.
Proof. unfold zeros. by rewrite replicate_add. Qed.

Lemma length_zeros k : length (zeros k) = k.
Proof. apply length_replicate. Qed.

(** A window of a list of which only the first [k] elements are there. *)
Lemma cut_window i w k z (l : list Z) : (k <= length l)%nat -> (i + w <= length l)%nat ->
  take w (drop i (take k l ++ zeros (length l - k + z))) = take (k - i) (take w (drop i l)) ++ zeros (w - (k - i)).
Proof.
  intros Hk Hl. rewrite drop_app, skipn_firstn_comm, length_take, drop_zeros, take_app, take_zeros, !take_take.
  rewrite length_take, length_drop. f_equal; f_equal; lia.
Qed.

Lemma render_windows r :
  take 16 (drop 0 (render r)) = head_bytes (c_head r) /\
  take 4 (drop (16 + length (c_cont r)) (render r)) = le_bytes 4 (c_sum r).
Proof.
  unfold render. split.
  - rewrite drop_0. apply take_app_length'. by rewrite length_head_bytes.
  - rewrite app_assoc, drop_app_length' by (rewrite length_app, length_head_bytes; done). done.
Qed.

Lemma cut_whole k l1 z : (k <= length l1)%nat -> take k l1 ++ zeros (length l1 - k) = l1 ->
  take k l1 ++ zeros (length l1 - k + z) = l1 ++ zeros z.
Proof. intros Hk E. rewrite zeros_app, app_assoc. by rewrite E. Qed.

(** What a crash in the middle of a copy leaves. *)
Definition torn (k : nat) (r : crec) (z : nat) : list Z := take k (render r) ++ zeros (length (render r) - k + z).

Lemma torn_stops n r k z : rec_ok n r -> (k <= length (render r))%nat ->
  torn k r z = render r ++ zeros z \/ stops n (torn k r z).
Proof.
  intros Hr Hk. pose proof (rec_ok_bounds _ _ Hr) as Hb. pose proof (length_render r) as Hlen.
  destruct (render_windows r) as [Hw0 Hw1]. unfold c_len in *.
  assert (Hhb : take 16 (torn k r z) = take k (head_bytes (c_head r)) ++ zeros (16 - k)).
  { rewrite <- (drop_0 (torn _ _ _)). unfold torn. rewrite cut_window by lia. rewrite Hw0, Nat.sub_0_r. done. }
  assert (Htl : length (torn k r z) = (length (render r) + z)%nat).
  { unfold torn. rewrite length_app, length_take, length_zeros. lia. }
  assert (Hhead : take 16 (torn k r z) = head_bytes (c_head r) \/ stops n (torn k r z)).
  { destruct (decide (k < 16)%nat) as [Hk16|].
    - destruct (torn_head n r k Hr Hk16) as [E|[E|(E1 & E2 & E3)]]; rewrite <- Hhb in *.
      + by left.
      + right. by eapply stops_head; [lia|done|].
      + right. by eapply stops_empty; [lia|done|..].
    - left. rewrite Hhb, take_ge by (rewrite length_head_bytes; lia).
      replace (16 - k)%nat with 0%nat by lia. apply app_nil_r. }
  destruct Hhead as [Hhead|?]; [|by right].
  set (i := (16 + length (c_cont r))%nat) in *.
  set (t := take (k - i) (le_bytes 4 (c_sum r)) ++ zeros (4 - (k - i))).
  assert (Ht : take 4 (drop i (torn k r z)) = t).
  { unfold torn. rewrite cut_window by lia. by rewrite Hw1. }
  destruct (decide (t = le_bytes 4 (c_sum r))) as [Et|Et].
  - left. apply cut_whole; [done|].
    assert (i < k)%nat as Hik.
    { apply Nat.nle_gt. intros Hle. assert (le_val t = c_sum r) as E.
      { rewrite Et, le_val_bytes. apply Z.mod_small. lia. }
      unfold t in E. replace (k - i)%nat with 0%nat in E by lia.
      change (le_val (zeros 4) = c_sum r) in E. rewrite le_val_zeros in E. lia. }
    transitivity (take i (render r) ++ take (k - i) (drop i (render r)) ++ zeros (length (render r) - k)).
    { rewrite app_assoc, take_take_drop. do 2 f_equal. lia. }
    assert (Ed : drop i (render r) = le_bytes 4 (c_sum r)).
    { rewrite <- Hw1. symmetry. apply take_ge. rewrite length_drop. lia. }
    rewrite Ed. replace (length (render r) - k)%nat with (4 - (k - i))%nat by lia.
    fold t. rewrite Et, <- Ed. apply take_drop.
  - right. apply stops_body with (c_head r); cbn [c_head h_sid h_action h_contLen h_simpleCheck].
    + rewrite Hhead. by eapply c_head_of.
    + apply (rc_sid _ _ Hr).
    + unfold TSDB_ACTION_MAX. lia.
    + unfold c_len. lia.
    + rewrite Htl. unfold c_len. lia.
    + unfold c_len. replace (Z.to_nat (16 + _)) with i by lia. rewrite Ht. intros E. apply Et.
      assert (Hlt : length t = 4%nat).
      { unfold t. rewrite length_app, length_take, length_le_bytes, length_zeros. lia. }
      assert (Hok : bytes_ok t).
      { unfold t. apply bytes_ok_app. split; [apply Forall_take, le_bytes_ok|apply zeros_ok]. }
      apply le_val_inj; [done|apply le_bytes_ok|by rewrite length_le_bytes|].
      pose proof (le_val_range t Hok) as Hrg. rewrite Hlt in Hrg. unfold in_u in Hrg. cbn in Hrg.
      rewrite le_val_bytes, Z.mod_small by lia. revert E. unfold wraps. cbn. lia.
Qed.

(** * Replaying a log

    A log is a version, a list of records and a tail that is not taken for a
    record; [vnodeRestoreDataFromLog] submits exactly these records, in order,
    and returns their size. *)

(** What a submission, a commit and the version leave alone: the list of tables. *)
Class VnodeLaws (St : Type) `{VnodeData St} : Prop := {
  set_version_meters z s : meterList (set_version z s) = meterList s;
  version_set z s : version (set_version z s) = u64 z;
  insert_meters sd c sv s : meterList (vnodeInsertPoints sd c sv s) = meterList s;
  import_meters sd c sv s : meterList (vnodeImportPoints sd c sv s) = meterList s;
  commit_meters s : meterList (commitData s) = meterList s;
  version_u64 s : in_u 64 (version s) }.

Section Replay.
Context {St : Type} `{VnodeLaws St}.
Implicit Types (v : SVnodeObj St) (s : St) (rd : reader St) (l : list crec).

Definition apply_rec (r : crec) s : St :=
  if c_act r =? TSDB_ACTION_INSERT then vnodeInsertPoints (c_sid r) (c_cont r) (c_sv r) s
  else vnodeImportPoints (c_sid r) (c_cont r) (c_sv r) s.
Definition replay l s : St := foldl (fun s r => apply_rec r s) s l.

(** The table of a record is there and is not being dropped. *)
Definition ready s (r : crec) : Prop :=
  exists m, meterList s (c_sid r) = Some m /\ vnodeIsMeterDeleting m = false.

Lemma apply_rec_meters r s : meterList (apply_rec r s) = meterList s.
Proof using Type*. unfold apply_rec. destruct (_ =? _); [apply insert_meters|apply import_meters]. Qed.

Lemma replay_meters l s : meterList (replay l s) = meterList s.
Proof using Type*.
  revert s. induction l as [|r l IH]; intros s; [done|]. cbn. unfold replay in IH.
  by rewrite IH, apply_rec_meters.
Qed.

Lemma ready_meters s s' r : meterList s' = meterList s -> ready s r -> ready s' r.
Proof using. unfold ready. by intros ->. Qed.

Lemma replay_app l1 l2 s : replay (l1 ++ l2) s = replay l2 (replay l1 s).
Proof using. apply foldl_app. Qed.

(** ** The reads *)
Definition buf_ok rd : Prop := r_bufLen rd = Z.of_nat (length (r_cont rd)) /\ r_bufLen rd < 2 ^ 31.

Lemma det_Some (l : list Z) : det (map Some l) = Ret l.
Proof using.
  unfold det. replace (mapM Datatypes.id (map Some l)) with (Some l); [done|].
  induction l as [|x l IH]; [done|]. cbn. cbn in IH. by rewrite <- IH.
Qed.

Lemma read_head_full file rd : (16 <= length (drop (Z.to_nat (r_pos rd)) file))%nat ->
  let got := take 16 (drop (Z.to_nat (r_pos rd)) file) in
  read_head file rd = Ret (Some (head_of got, mkReader (r_pos rd + 16) (Some got) (r_cont rd) (r_bufLen rd)
    (r_totalLen rd) (r_actions rd) (r_data rd))).
Proof using.
  intros Hl. cbv zeta. unfold read_head. set (got := take 16 _).
  assert (Hg : length got = 16%nat) by (unfold got; rewrite length_take; lia).
  destruct got as [|b got']; [done|]. rewrite Hg. done.
Qed.

Lemma read_cont_full file n rd : 0 < n < 2 ^ 31 - 4 -> buf_ok rd ->
  n + 4 <= Z.of_nat (length (drop (Z.to_nat (r_pos rd)) file)) ->
  exists rd', read_cont file n rd = Ret rd' /\ buf_ok rd' /\ r_pos rd' = r_pos rd + n + 4 /\ r_head rd' = r_head rd /\
    r_totalLen rd' = r_totalLen rd /\ r_actions rd' = r_actions rd /\ r_data rd' = r_data rd /\
    take (Z.to_nat (n + 4)) (r_cont rd') = map Some (take (Z.to_nat (n + 4)) (drop (Z.to_nat (r_pos rd)) file)).
Proof using.
  intros Hn [Hb Hb2] Hl. unfold read_cont. set (got := take (Z.to_nat (n + 4)) _).
  assert (Hg : length got = Z.to_nat (n + 4)) by (unfold got; rewrite length_take; lia).
  rewrite wrapu_id by (unfold in_u; lia).
  destruct (Z.ltb_spec (r_bufLen rd) (n + 4)) as [Hlt|Hge].
  - rewrite (proj2 (Nat.ltb_ge _ _)) by (rewrite length_app, length_replicate; lia).
    rewrite wraps_id by (unfold in_s; lia). eexists. split; [reflexivity|]. unfold buf_ok. cbn.
    rewrite !length_app, length_map, length_drop, length_app, length_replicate, Hg.
    repeat split; try lia. rewrite take_app_length' by (by rewrite length_map). done.
  - rewrite (proj2 (Nat.ltb_ge _ _)) by lia.
    eexists. split; [reflexivity|]. unfold buf_ok. cbn.
    rewrite !length_app, length_map, length_drop, Hg. repeat split; try lia.
    rewrite take_app_length' by (by rewrite length_map). done.
Qed.

(** The content and the trailer, out of the buffer. *)
Lemma buf_parts (cont : list (option Z)) (got : list Z) n : 0 <= n -> take (Z.to_nat (n + 4)) cont = map Some got ->
  take (Z.to_nat n) cont = map Some (take (Z.to_nat n) got) /\
  take 4 (drop (Z.to_nat n) cont) = map Some (take 4 (drop (Z.to_nat n) got)).
Proof using.
  intros Hn E. split.
  - replace (Z.to_nat n) with (Nat.min (Z.to_nat n) (Z.to_nat (n + 4))) at 1 by lia.
    rewrite <- take_take, E. apply firstn_map.
  - replace 4%nat with (Z.to_nat (n + 4) - Z.to_nat n)%nat at 1 by lia.
    rewrite <- skipn_firstn_comm, E, skipn_map, <- firstn_map. symmetry. apply take_ge.
    rewrite length_map, length_drop. apply (f_equal length) in E. rewrite length_take, length_map in E. lia.
Qed.

Lemma process_action n r s : rec_ok n r ->
  vnodeProcessAction (c_act r) (c_sid r) (c_cont r) (c_sv r) s = Ret (apply_rec r s).
Proof using. intros Hr. unfold vnodeProcessAction, apply_rec. destruct (rc_act _ _ Hr) as [-> | ->]; done. Qed.

(** ** One turn of the loop *)
Lemma step_record n file pre r rest rd : rec_ok n r -> ready (r_data rd) r -> buf_ok rd ->
  file = pre ++ render r ++ rest -> r_pos rd = Z.of_nat (length pre) ->
  exists rd', restore_step n file rd = Ret (inl rd') /\ buf_ok rd' /\
    r_pos rd' = Z.of_nat (length (pre ++ render r)) /\
    r_totalLen rd' = u64 (r_totalLen rd + Z.of_nat (length (render r))) /\
    r_actions rd' = r_actions rd + 1 /\ r_data rd' = apply_rec r (r_data rd).
Proof using.
  intros Hr (m & Hm & Hd) Hb Hf Hp. pose proof (rec_ok_bounds _ _ Hr) as Hbd. pose proof (length_render r) as Hlen.
  assert (Hdrop : drop (Z.to_nat (r_pos rd)) file = render r ++ rest).
  { subst file. rewrite Hp, Nat2Z.id. apply drop_app_length. }
  unfold restore_step. rewrite read_head_full by (rewrite Hdrop, length_app; lia). cbn [rbind].
  rewrite Hdrop.
  assert (Hgot : take 16 (render r ++ rest) = head_bytes (c_head r)).
  { rewrite take_app_le by lia. apply (render_windows r). }
  rewrite Hgot, (c_head_of _ _ Hr). cbn [c_head h_sversion h_sid h_contLen h_action h_simpleCheck].
  rewrite (c_check _ _ Hr), Z.eqb_refl. cbn [negb].
  rewrite (proj2 (Z.leb_gt _ _)) by (apply (rc_sid _ _ Hr)). rewrite (proj2 (Z.ltb_ge _ _)) by lia.
  rewrite (proj2 (Z.leb_gt _ _)) by (unfold TSDB_ACTION_MAX; lia). cbn [orb].
  rewrite (proj2 (Z.ltb_lt _ _)) by lia.
  set (rd1 := mkReader _ _ _ _ _ _ _).
  assert (Hdrop1 : drop (Z.to_nat (r_pos rd1)) file = c_cont r ++ le_bytes 4 (c_sum r) ++ rest).
  { subst rd1. cbn. rewrite Z2Nat.inj_add, <- drop_drop, Hdrop by lia. unfold render.
    rewrite <- app_assoc. rewrite drop_app_length' by (by rewrite length_head_bytes). by rewrite <- app_assoc. }
  destruct (read_cont_full file (c_len r) rd1) as (rd2 & Hrd & Hb2 & Hp2 & _ & Ht2 & Ha2 & Hd2 & Hbuf).
  { lia. } { done. } { rewrite Hdrop1, !length_app, length_le_bytes. unfold c_len. lia. }
  rewrite Hrd. cbn [rbind]. rewrite Hdrop1 in Hbuf.
  assert (Hcl : Z.to_nat (c_len r) = length (c_cont r)) by (unfold c_len; lia).
  destruct (buf_parts _ _ (c_len r) ltac:(lia) Hbuf) as [Hc Htr].
  rewrite take_take, Nat.min_l in Hc by lia. rewrite Hcl, take_app_length in Hc.
  rewrite Hcl in Htr |- *. rewrite skipn_firstn_comm, drop_app_length, take_take in Htr.
  rewrite Nat.min_l in Htr by lia. rewrite take_app_length' in Htr by done.
  rewrite Htr, det_Some. cbn [rbind]. rewrite le_val_4 by (unfold in_s; lia). rewrite Z.eqb_refl. cbn [negb].
  rewrite Hd2. cbn [rd1 r_data]. rewrite Hm, Hd, Hc, det_Some. cbn [rbind].
  rewrite (process_action _ _ _ Hr). cbn [rbind]. eexists. split; [reflexivity|]. subst rd1.
  unfold count_len, buf_ok in *. cbn [r_pos r_head r_cont r_bufLen r_totalLen r_actions r_data] in *.
  rewrite Ht2, Ha2, Hp2, length_app. repeat split; try tauto; try lia. f_equal. unfold SIZEOF_SCommitHead. lia.
Qed.

(** The loop ends where the tail begins. *)
Lemma step_stop n file pre tail rd : stops n tail -> buf_ok rd -> file = pre ++ tail ->
  r_pos rd = Z.of_nat (length pre) ->
  exists rd', restore_step n file rd = Ret (inr rd') /\ r_totalLen rd' = r_totalLen rd /\ r_data rd' = r_data rd.
Proof using.
  intros Hs Hb Hf Hp.
  assert (Hdrop : drop (Z.to_nat (r_pos rd)) file = tail).
  { subst file. rewrite Hp, Nat2Z.id. apply drop_app_length. }
  assert (Hl : (16 <= length tail)%nat) by (destruct Hs; lia).
  unfold restore_step. rewrite read_head_full by (by rewrite Hdrop). cbn [rbind]. rewrite Hdrop.
  destruct Hs as [h _ Hh Hc|h _ Hh Hsid Hact Hlen|h Hh Hsid Hact Hlen Hroom Htr]; rewrite Hh.
  - rewrite (proj2 (Z.eqb_neq _ _) Hc). cbn [negb]. by eexists.
  - destruct (_ =? _); cbn [negb]; [|by eexists].
    rewrite (proj2 (Z.leb_gt _ _)), (proj2 (Z.ltb_ge _ _)), (proj2 (Z.leb_gt _ _)) by lia. cbn [orb].
    rewrite (proj2 (Z.ltb_ge _ _)) by lia. by eexists.
  - destruct (_ =? _); cbn [negb]; [|by eexists].
    rewrite (proj2 (Z.leb_gt _ _)), (proj2 (Z.ltb_ge _ _)), (proj2 (Z.leb_gt _ _)) by lia. cbn [orb].
    rewrite (proj2 (Z.ltb_lt _ _)) by lia. set (rd1 := mkReader _ _ _ _ _ _ _).
    assert (Hdrop1 : drop (Z.to_nat (r_pos rd1)) file = drop 16 tail).
    { subst rd1. cbn. by rewrite Z2Nat.inj_add, <- drop_drop, Hdrop by lia. }
    destruct (read_cont_full file (h_contLen h) rd1) as (rd2 & Hrd & Hb2 & _ & _ & Ht2 & _ & Hd2 & Hbuf).
    { done. } { done. } { rewrite Hdrop1, length_drop. lia. }
    rewrite Hrd. cbn [rbind]. destruct (buf_parts _ _ (h_contLen h) ltac:(lia) Hbuf) as [_ ->].
    rewrite Hdrop1, det_Some. cbn [rbind]. rewrite skipn_firstn_comm, take_take, drop_drop.
    replace (Nat.min 4 _) with 4%nat by lia. replace (16 + Z.to_nat (h_contLen h))%nat with (Z.to_nat (16 + h_contLen h)) by lia.
    rewrite (proj2 (Z.eqb_neq _ _) Htr). cbn [negb]. eexists. split; [reflexivity|]. by rewrite Ht2, Hd2.
Qed.

(** ** The whole log *)
Lemma restore_loop_exact n file l tail : stops n tail -> forall fuel pre rd, Forall (rec_ok n) l ->
  Forall (ready (r_data rd)) l -> buf_ok rd -> file = pre ++ render_all l ++ tail ->
  r_pos rd = Z.of_nat (length pre) -> 0 <= r_totalLen rd -> r_totalLen rd + total l < 2 ^ 64 -> (length l < fuel)%nat ->
  exists rd', restore_loop fuel n file rd = Ret rd' /\ r_totalLen rd' = r_totalLen rd + total l /\
    r_data rd' = replay l (r_data rd).
Proof using Type*.
  intros Hst. induction l as [|r l IH]; intros fuel pre rd Hok Hready Hb Hf Hp Ht0 Ht Hfuel;
    (destruct fuel as [|fuel]; [cbn in Hfuel; lia|]); cbn [restore_loop].
  - destruct (step_stop n file pre tail rd Hst Hb Hf Hp) as (rd' & -> & Et & Ed). cbn [rbind].
    eexists. split; [reflexivity|]. rewrite Et, Ed, total_nil. split; [lia|done].
  - apply Forall_cons in Hok as [Hr Hok]. apply Forall_cons in Hready as [Hrr Hready].
    cbn [render_all map concat] in Hf. rewrite <- app_assoc in Hf.
    destruct (step_record n file pre r _ rd Hr Hrr Hb Hf Hp) as (rd' & -> & Hb' & Hp' & Ht' & _ & Hd'). cbn [rbind].
    assert (Etot : total (r :: l) = Z.of_nat (length (render r)) + total l).
    { unfold total, render_all. cbn [map concat]. rewrite length_app. lia. }
    pose proof (total_nonneg l) as Htl. rewrite Etot in Ht |- *.
    rewrite wrapu_id in Ht' by (unfold in_u; lia).
    destruct (IH fuel (pre ++ render r) rd') as (rd2 & -> & Et2 & Ed2); try done; try lia.
    + rewrite Hd'. eapply Forall_impl; [done|]. intros x. apply ready_meters, apply_rec_meters.
    + rewrite Hf. by rewrite <- app_assoc.
    + cbn [length] in Hfuel. lia.
    + eexists. split; [reflexivity|]. rewrite Et2, Ed2, Ht', Hd'. split; [lia|done].
Qed.

(** The bytes of a log. *)
Definition log_bytes (fv : Z) l (tail : list Z) : list Z := le_bytes 8 fv ++ render_all l ++ tail.

Lemma length_records n l : Forall (rec_ok n) l -> (length l <= length (render_all l))%nat.
Proof using.
  induction 1 as [|r l Hr _ IH]; [done|]. unfold render_all in *. cbn [map concat]. rewrite length_app.
  pose proof (length_render r). apply rec_ok_bounds in Hr. cbn [length]. lia.
Qed.

Lemma restore_exact v f l fv tail fv0 : meterListOpen v = true ->
  file_of v f = Some (log_bytes fv l tail) -> in_u 64 fv -> stops (maxSessions v) tail ->
  Forall (rec_ok (maxSessions v)) l -> Forall (ready (data v)) l -> total l < 2 ^ 64 ->
  vnodeRestoreDataFromLog true f v fv0 = Ret (total l, fv, set_data (replay l (set_version fv (data v))) v).
Proof using Type*.
  intros Ho Hf Hfv Hst Hok Hready Ht. unfold vnodeRestoreDataFromLog. rewrite Ho, Hf. cbn [negb].
  assert (Hgot : take 8 (log_bytes fv l tail) = le_bytes 8 fv).
  { unfold log_bytes. apply take_app_length'. by rewrite length_le_bytes. }
  rewrite Hgot, length_le_bytes. cbn [negb orb Nat.eqb].
  rewrite drop_ge by (by rewrite length_le_bytes). rewrite app_nil_r, le_val_bytes.
  change (8 * Z.of_nat 8) with 64. rewrite Z.mod_small by done.
  edestruct (restore_loop_exact (maxSessions v) (log_bytes fv l tail) l tail Hst) as (rd & -> & Et & Ed).
  - done.
  - cbn [r_data]. eapply Forall_impl; [done|]. intros x. apply ready_meters, set_version_meters.
  - split; [|done]. cbn [r_bufLen r_cont]. rewrite length_replicate. done.
  - done.
  - cbn [r_pos]. by rewrite length_le_bytes.
  - done.
  - cbn [r_totalLen]. lia.
  - pose proof (length_records _ _ Hok). unfold log_bytes. rewrite !length_app. lia.
  - cbn [rbind]. rewrite Et, Ed. done.
Qed.
End Replay.
#[global] Arguments log_bytes : simpl never.
