(* ===== verification/CommitLogLife.v ===== *)
(** * The life of a commit log

    A vnode takes submissions, starts and ends commits, crashes and is opened
    again.  Abstractly the accepted records are split in three: those a
    completed commit has taken over, those in [.olog] and those in [.log]. *)
From S2P Require Import Prelude CommitLog CommitLogInv.

Section Life.
Context {St : Type} `{VnodeLaws St}.
Implicit Types (v : SVnodeObj St) (s : St) (l O L : list crec).

(** ** Opening *)

(** The file [.log] is [b], or is not there and would be made as [b]. *)
Definition log_is v (b : list Z) : Prop :=
  Z.of_nat (length b) = mappingSize v /\ (logFile v = Some b \/ logFile v = None /\ b = zeros (length b)).

Lemma open_log v b fv : log_is v b -> 8 <= mappingSize v ->
  vnodeOpenCommitLog NoFault v fv = Ret (3, set_map 3 MapLog (Some 8)
    (set_files (Some (le_bytes 8 fv ++ drop 8 b)) (ologFile v) (errFiles v) v)).
Proof using.
  intros [Hl Hb] H8. unfold vnodeOpenCommitLog. cbn [set_files mappingSize].
  assert (E : default [] (logFile v) ++ replicate (Z.to_nat (mappingSize v) - length (default [] (logFile v))) 0 = b).
  { destruct Hb as [-> | [-> Hz]]; cbn [default].
    - replace (_ - _)%nat with 0%nat by (cbn; lia). apply app_nil_r.
    - rewrite app_nil_l. cbn [length]. rewrite Nat.sub_0_r, Hz. unfold zeros. f_equal. lia. }
  rewrite E. rewrite (proj2 (Z.eqb_eq _ _)) by done. cbn [negb].
  unfold wr. rewrite bool_decide_true by (rewrite length_le_bytes; lia). cbn [rbind]. done.
Qed.

Lemma log_bytes_reopen fv fv' L tail : le_bytes 8 fv' ++ drop 8 (log_bytes fv L tail) = log_bytes fv' L tail.
Proof using. unfold log_bytes. by rewrite drop_app_length' by (by rewrite length_le_bytes). Qed.

Lemma zeros_log k : (8 <= k)%nat -> zeros k = log_bytes 0 [] (zeros (k - 8)).
Proof using.
  intros Hk. unfold log_bytes. replace k with (8 + (k - 8))%nat at 1 by lia. by rewrite zeros_app.
Qed.

(** ** Opening a vnode after a crash *)

(** Only the version differs. *)
Definition upto_version s s' : Prop := s' = s \/ exists w, s' = set_version w s.

(** What the vnode holds after it was opened on the data files [s]: the records
    of [.olog] are submitted and, if there are any, committed; then those of
    [.log] are submitted. *)
Definition committed O s : St := match O with [] => s | _ => if hasLastKey s then commitData s else s end.
Definition reopened O L s s' : Prop :=
  exists a b, upto_version s a /\ upto_version (committed O (replay O a)) b /\ s' = replay L b.

Lemma upto_meters s s' : upto_version s s' -> meterList s' = meterList s.
Proof using Type*. intros [-> | [w ->]]; [done|apply set_version_meters]. Qed.

Lemma committed_meters O s : meterList (committed O s) = meterList s.
Proof using Type*. destruct O; [done|]. cbn. destruct (hasLastKey s); [apply commit_meters|done]. Qed.

Lemma reopened_meters O L s s' : reopened O L s s' -> meterList s' = meterList s.
Proof using Type*.
  intros (a & b & Ha & Hb & ->). rewrite replay_meters. apply upto_meters in Ha, Hb.
  by rewrite Hb, committed_meters, replay_meters.
Qed.

(** The records of the two files. *)
Definition olog_holds v O : Prop :=
  (ologFile v = None /\ O = []) \/ exists fv k, ologFile v = Some (log_bytes fv O (zeros k)) /\ in_u 64 fv /\ (16 <= k)%nat /\
    Z.of_nat (length (log_bytes fv O (zeros k))) = mapping_size (cacheBlockSize v) (totalBlocks v).
Definition log_holds v L (tail : list Z) : Prop :=
  Z.of_nat (length (log_bytes 0 L tail)) = mapping_size (cacheBlockSize v) (totalBlocks v) /\
  stops (maxSessions v) tail /\
  (logFile v = None /\ L = [] /\ tail = zeros (length tail) \/
   exists fv, logFile v = Some (log_bytes fv L tail) /\ in_u 64 fv).

Definition recs_ok v l : Prop := Forall (rec_ok (maxSessions v)) l /\ Forall (ready (data v)) l.

(** What does not change while a vnode is open. *)
Definition config v : bool * bool * Z * Z * Z * bool :=
  (meterListOpen v, commitLog v, maxSessions v, cacheBlockSize v, totalBlocks v, unsynced v).

(** The log is open for records after [L]. *)
Record opened v L (tail : list Z) : Prop := {
  op_fd : logFd v = 3;
  op_map : pMem v = MapLog;
  op_write : pWrite v = Some (8 + total L);
  op_size : mappingSize v = mapping_size (cacheBlockSize v) (totalBlocks v);
  op_log : exists fv, logFile v = Some (log_bytes fv L tail) /\ in_u 64 fv }.

Lemma length_log_bytes fv fv' L tail : length (log_bytes fv L tail) = length (log_bytes fv' L tail).
Proof using. unfold log_bytes. by rewrite !length_app, !length_le_bytes. Qed.

Lemma log_bytes_total fv L tail : Z.of_nat (length (log_bytes fv L tail)) = 8 + total L + Z.of_nat (length tail).
Proof using. unfold log_bytes, total. rewrite !length_app, length_le_bytes. lia. Qed.

(** The second half of [vnodeInitCommit]: restoring [.log] and opening it. *)
Definition init_log (v : SVnodeObj St) (firstV : Z) : res (Z * SVnodeObj St) :=
  let! '(size, firstV, v) := vnodeRestoreDataFromLog true LogFn v firstV in
  if negb (commitLog v) then Ret (0, v)
  else
    let firstV := if size =? 0 then version (data v) else firstV in
    let! '(fd, v) := vnodeOpenCommitLog NoFault v firstV in
    if fd <? 0 then Ret (-1, v)
    else Ret (0, set_map (logFd v) (pMem v) (match pWrite v with Some w => Some (i64 (w + size)) | None => None end) v).

Lemma init_log_spec v L tail fv0 : log_holds v L tail -> recs_ok v L ->
  mappingSize v = mapping_size (cacheBlockSize v) (totalBlocks v) -> mappingSize v < 2 ^ 62 ->
  meterListOpen v = true -> commitLog v = true ->
  exists v', init_log v fv0 = Ret (0, v') /\ opened v' L tail /\ config v' = config v /\
    ologFile v' = ologFile v /\ commitThread v' = commitThread v /\ poolCommitInProcess v' = poolCommitInProcess v /\
    commitInProcess v' = commitInProcess v /\
    exists b, upto_version (data v) b /\ data v' = replay L b.
Proof using Type*.
  intros (Hlen & Hst & Hlog) [Hok Hready] Hsz Hmax Hopen Hcl. unfold init_log.
  pose proof (total_nonneg L) as HtL. rewrite log_bytes_total in Hlen.
  assert (Hres : exists fv fv' b, vnodeRestoreDataFromLog true LogFn v fv0 = Ret (total L, fv', set_data (replay L b) v) /\
    upto_version (data v) b /\ log_is v (log_bytes fv L tail) /\ ((total L =? 0) = false -> in_u 64 fv')).
  { destruct Hlog as [(Hnone & -> & Htail)|(fv & Hsome & Hfv)].
    - exists 0, fv0, (data v). split.
      { unfold vnodeRestoreDataFromLog. rewrite Hopen. cbn [negb file_of]. rewrite Hnone. by destruct v. }
      split; [by left|]. split; [|done]. split; [rewrite log_bytes_total; lia|].
      right. split; [done|]. unfold log_bytes. cbn [render_all map concat app].
      rewrite Htail at 1. rewrite length_app, zeros_app, length_le_bytes. done.
    - exists fv, fv, (set_version fv (data v)). split; [|split; [right; eauto|]].
      { apply restore_exact with tail; try done. lia. }
      split; [split; [rewrite log_bytes_total; lia|by left]|done]. }
  destruct Hres as (fv & fv' & b & -> & Hb & His & Hfv'). cbn [rbind set_data commitLog]. rewrite Hcl. cbn [negb].
  set (w := if total L =? 0 then _ else fv').
  rewrite (open_log _ (log_bytes fv L tail)) by (done || (cbn; lia)). cbn [rbind].
  rewrite log_bytes_reopen. cbn [Z.ltb Z.compare]. eexists. split; [reflexivity|]. split; [|split; [done|]].
  - constructor; cbn; try done.
    + f_equal. apply wraps_id; [lia|]. unfold in_s. lia.
    + exists w. split; [done|]. unfold w. destruct (total L =? 0) eqn:E; [apply version_u64|by apply Hfv'].
  - cbn. repeat split. by exists b.
Qed.

(** A vnode that was just opened, with the files a crash left. *)
Record closed v : Prop := {
  cl_open : meterListOpen v = true; cl_log : commitLog v = true;
  cl_commit : commitInProcess v = false; cl_fd : logFd v = 0; cl_n : 0 < maxSessions v;
  cl_max : 24 <= mapping_size (cacheBlockSize v) (totalBlocks v) < 2 ^ 62 }.

Definition idle v : Prop := commitInProcess v = false /\ poolCommitInProcess v = false /\ commitThread v = NoThread.

Lemma total_pos v r l : recs_ok v (r :: l) -> 0 < total (r :: l).
Proof using.
  intros [Hok _]. apply Forall_cons in Hok as [Hr _]. apply rec_ok_bounds in Hr.
  unfold total, render_all. cbn [map concat]. rewrite length_app. pose proof (length_render r). lia.
Qed.

(** The first half of [vnodeInitCommit]: restoring [.olog] and committing it. *)
Definition init_olog v : res (Z * SVnodeObj St) :=
  let! '(size, firstV, v) := vnodeRestoreDataFromLog true LogOFn v 0 in
  let! v := (if 0 <? size then
      let! v := (if negb (commitInProcess v) then vnodeCommitToFile NoFault true v else Ret v) in
      Ret (vnodeRemoveCommitLog v)
    else Ret v) in
  Ret (firstV, v).

(** The commit of [.olog] may renew [.log]; this does not change its records. *)
Lemma commit_init v L tail : log_holds v L tail -> recs_ok v L -> closed v ->
  mappingSize v = mapping_size (cacheBlockSize v) (totalBlocks v) ->
  exists v', vnodeCommitToFile NoFault true v = Ret v' /\ log_holds v' L tail /\ idle v' /\ config v' = config v /\
    mappingSize v' = mappingSize v /\ data v' = (if hasLastKey (data v) then commitData (data v) else data v) /\
    (ologFile v' = None \/ ologFile v' = ologFile v).
Proof using Type*.
  intros (Hlen & Hst & Hlog) Hrecs [Ho Hcl Hci Hfd Hn Hmax] Hsz. unfold vnodeCommitToFile, commit_start.
  destruct (hasLastKey (data v)) eqn:Hk; cbn [negb].
  2:{ cbn [rbind]. eexists. split; [done|]. repeat split; try done. by right. }
  unfold vnodeRenewCommitLog. rewrite Hfd. cbn [VALIDFD Z.ltb Z.compare]. rewrite Hcl.
  assert (exists fv, log_is v (log_bytes fv L tail)) as [fv His].
  { destruct Hlog as [(Hnone & -> & Htail)|(fv & Hs & _)].
    - exists 0. split; [lia|]. right. split; [done|]. unfold log_bytes. cbn [render_all map concat app].
      rewrite Htail at 1. by rewrite length_app, zeros_app, length_le_bytes.
    - exists fv. split; [|by left]. rewrite (length_log_bytes _ 0). lia. }
  rewrite (open_log v _ _ His) by lia. cbn [rbind]. rewrite log_bytes_reopen.
  eexists. split; [reflexivity|]. repeat split; try done; [|by left].
  right. cbn. eexists. split; [done|apply version_u64].
Qed.

Lemma init_olog_spec v O L tail : closed v -> idle v -> olog_holds v O -> log_holds v L tail ->
  recs_ok v O -> recs_ok v L -> mappingSize v = mapping_size (cacheBlockSize v) (totalBlocks v) ->
  exists fv v', init_olog v = Ret (fv, v') /\ log_holds v' L tail /\ idle v' /\ config v' = config v /\
    mappingSize v' = mappingSize v /\ ologFile v' = (match O with [] => ologFile v | _ => None end) /\
    exists a, upto_version (data v) a /\ data v' = committed O (replay O a).
Proof using Type*.
  intros Hcl Hidle Holog Hlog HrO HrL Hsz. pose proof Hcl as [Ho Hc Hci Hfd Hn Hmax]. unfold init_olog.
  destruct Holog as [[Hnone ->]|(fv & k & Hs & Hfv & Hk & Hlen)].
  - unfold vnodeRestoreDataFromLog. rewrite Ho. cbn [negb file_of]. rewrite Hnone. cbn [rbind Z.ltb Z.compare].
    eexists _, v. repeat (split; [done|]). exists (data v). split; [by left|done].
  - rewrite (restore_exact v LogOFn O fv (zeros k)); try done; [|by apply stops_zeros|apply HrO|apply HrO|].
    2:{ rewrite log_bytes_total in Hlen. lia. }
    cbn [rbind]. set (a := set_version fv (data v)). set (v1 := set_data (replay O a) v).
    assert (Ha : upto_version (data v) a) by (right; eauto).
    destruct (decide (O = [])) as [->|HO].
    { cbn [total render_all map concat length Z.of_nat Z.ltb Z.compare rbind]. eexists _, v1.
      repeat (split; [done|]). by exists a. }
    assert (HtO : 0 < total O) by (destruct O; [done|by eapply total_pos]).
    rewrite (proj2 (Z.ltb_lt _ _) HtO). cbn [v1 commitInProcess set_data]. rewrite Hci. cbn [negb].
    fold v1. destruct (commit_init v1 L tail) as (v2 & -> & Hl2 & Hi2 & Hc2 & Hs2 & Hd2 & _); try done.
    { split; [apply HrL|]. eapply Forall_impl; [apply HrL|]. intros x. apply ready_meters. cbn.
      rewrite replay_meters. apply set_version_meters. }
    cbn [rbind]. eexists _, _. split; [reflexivity|].
    split; [done|]. split; [done|]. split; [done|]. split; [done|].
    split; [by destruct O|]. exists a. split; [done|]. cbn. rewrite Hd2. by destruct O.
Qed.

Lemma init_split v : vnodeInitCommit (true, true) (NoFault, NoFault) true v =
  let size := mapping_size (cacheBlockSize v) (totalBlocks v) in
  let! '(fv, v) := init_olog (set_sizes size (mapping_threshold size) v) in init_log v fv.
Proof using.
  unfold vnodeInitCommit, init_olog. cbv zeta. cbn [fst snd].
  destruct (vnodeRestoreDataFromLog _ LogOFn _ _) as [[[size fv] v1]| | |]; cbn [rbind]; try done.
  by destruct (if 0 <? size then _ else _); cbn [rbind].
Qed.

(** [vnodeInitCommit] replays both files and leaves the log open behind its
    records. *)
Lemma init_spec v O L tail : closed v -> idle v -> olog_holds v O -> log_holds v L tail -> recs_ok v O -> recs_ok v L ->
  exists v', vnodeInitCommit (true, true) (NoFault, NoFault) true v = Ret (0, v') /\ opened v' L tail /\ idle v' /\
    config v' = config v /\ ologFile v' = (match O with [] => ologFile v | _ => None end) /\
    reopened O L (data v) (data v').
Proof using Type*.
  intros Hcl Hi Ho Hl HrO HrL. rewrite init_split. cbv zeta. set (v1 := set_sizes _ _ v).
  assert (Hcl1 : closed v1) by (destruct Hcl; constructor; done).
  destruct (init_olog_spec v1 O L tail) as (fv & v2 & -> & Hl2 & Hi2 & Hc2 & Hs2 & Ho2 & a & Ha & Hd2); try done.
  cbn [rbind]. pose proof Hc2 as Hc3. unfold config in Hc3. injection Hc3 as E1 E2 E3 E4 E5 E6. cbn in E1, E2, E3, E4, E5.
  destruct Hcl as [Hop Hcl _ _ _ Hmax].
  destruct (init_log_spec v2 L tail fv) as (v3 & -> & Hop3 & Hc4 & Ho3 & Ht3 & Hp3 & Hi3 & b & Hb & Hd3); try congruence.
  - split; [rewrite E3; apply HrL|]. eapply Forall_impl; [apply HrL|]. intros x. apply ready_meters.
    rewrite Hd2, committed_meters, replay_meters. by apply upto_meters in Ha as ->.
  - rewrite Hs2, E4, E5. done.
  - rewrite Hs2. apply Hmax.
  - exists v3. split; [done|]. split; [done|]. split; [unfold idle in *; by rewrite Ht3, Hp3, Hi3|].
    split; [rewrite Hc4, Hc2; done|]. split; [rewrite Ho3, Ho2; by destruct O|].
    exists a, b. split; [done|]. rewrite <- Hd2. done.
Qed.

(** ** Events and the abstract log *)
Inductive event := EvAck (r : crec) | EvRefuse | EvRenew | EvDone | EvCrash | EvNone.

Record alog := mkLog { durable : list crec; pending : list crec; logged : list crec }.
Definition spec_ev (a : alog) (e : event) : alog :=
  match e with
  | EvAck r => mkLog (durable a) (pending a) (logged a ++ [r])
  | EvRenew => mkLog (durable a) (logged a) []
  | EvDone | EvCrash => mkLog (durable a ++ pending a) [] (logged a)
  | EvRefuse | EvNone => a
  end.
Definition acked (es : list event) : list crec := omap (fun e => match e with EvAck r => Some r | _ => None end) es.

(** ** Operations

    A submission; the commit timer; the two steps of the commit thread, when
    there is one; a crash and the opening of the vnode on the data files [s]. *)
Inductive op := OpSubmit (sd act : Z) (cont : list Z) | OpTimer | OpStart | OpFinish | OpCrash (s : St).

Definition exec (o : op) v : res (event * SVnodeObj St) :=
  match o with
  | OpSubmit sd act cont =>
    let! '(code, v') := submit sd act cont v in
    Ret (if code =? 0
         then EvAck (mkRec (default 0 (sversion <$> meterList (data v) sd)) sd act cont) else EvRefuse, v')
  | OpTimer => Ret (EvNone, vnodeProcessCommitTimer v)
  | OpStart =>
    match commitThread v with
    | Created => let! '(go, v) := commit_start NoFault v in Ret (if go : bool then EvRenew else EvNone, v)
    | _ => Ret (EvNone, v)
    end
  | OpFinish =>
    match commitThread v with
    | Committing => Ret (EvDone, commit_finish true v)
    | _ => Ret (EvNone, v)
    end
  | OpCrash s => let! '(code, v) := restart s v in if code <? 0 then Exit else Ret (EvCrash, v)
  end.
Fixpoint run (os : list op) v : res (list event * SVnodeObj St) :=
  match os with
  | [] => Ret ([], v)
  | o :: os => let! '(e, v) := exec o v in let! '(es, v) := run os v in Ret (e :: es, v)
  end.

(** ** The invariant *)
Context (M : Z -> option SMeterObj) (n : Z).

Record inv v (a : alog) : Prop := {
  iv_cfg : meterListOpen v = true /\ commitLog v = true /\ maxSessions v = n /\ 0 < n;
  iv_size : 24 <= mapping_size (cacheBlockSize v) (totalBlocks v) < 2 ^ 62;
  iv_log : exists k, opened v (logged a) (zeros k) /\ (16 <= k)%nat /\ 8 + total (logged a) + Z.of_nat k = mappingSize v;
  iv_olog : olog_holds v (pending a);
  iv_pending : recs_ok v (pending a);
  iv_logged : recs_ok v (logged a);
  iv_meters : meterList (data v) = M;
  iv_thread : match commitThread v with
              | Committing => poolCommitInProcess v = true
              | Created => poolCommitInProcess v = true /\ commitInProcess v = false /\ pending a = []
              | NoThread => poolCommitInProcess v = false /\ commitInProcess v = false /\ pending a = []
              end }.

Definition op_ok (o : op) : Prop :=
  match o with
  | OpSubmit sd act cont => exists m, M sd = Some m /\ vnodeIsMeterDeleting m = false /\ sid m = sd /\
      rec_ok n (mkRec (sversion m) sd act cont)
  | OpCrash s => meterList s = M
  | _ => True
  end.

Lemma recs_ok_data v v' l : maxSessions v' = maxSessions v -> meterList (data v') = meterList (data v) ->
  recs_ok v l -> recs_ok v' l.
Proof using.
  intros Hn Hm [H1 H2]. split; [by rewrite Hn|]. eapply Forall_impl; [apply H2|]. intros x. by apply ready_meters.
Qed.

Lemma inv_timer v a : inv v a -> inv (vnodeProcessCommitTimer v) a.
Proof using.
  intros Hinv. unfold vnodeProcessCommitTimer, vnodeCreateCommitThread.
  destruct (poolCommitInProcess v) eqn:Hp; [done|]. destruct (unsynced v); [done|].
  destruct Hinv as [H1 H2 H3 H4 H5 H6 H7 H8]. destruct H3 as (k & [] & ? & ?). constructor; cbn; try done.
  - exists k. done.
  - destruct (commitThread v); [tauto|by destruct H8|congruence].
Qed.

Lemma log_bytes_write fv L r k : (length (render r) <= k)%nat ->
  wr (log_bytes fv L (zeros k)) (8 + total L) (render r) = Ret (log_bytes fv (L ++ [r]) (zeros (k - length (render r)))).
Proof using.
  intros Hk. unfold log_bytes at 1. rewrite app_assoc.
  replace k with (length (render r) + (k - length (render r)))%nat at 1 by lia. rewrite zeros_app.
  rewrite wr_app_mid; [|unfold total; rewrite length_app, length_le_bytes; lia|apply length_zeros].
  unfold log_bytes, render_all. rewrite map_app, concat_app. cbn [map concat]. rewrite app_nil_r, <- !app_assoc. done.
Qed.

(** The two outcomes of [vnodeWriteToCommitLog]. *)
Lemma log_write_spec v L k m r : opened v L (zeros k) -> 8 + total L + Z.of_nat k = mappingSize v -> mappingSize v < 2 ^ 62 ->
  rec_ok n r -> sid m = c_sid r -> sversion m = c_sv r ->
  vnodeWriteToCommitLog m (c_act r) (c_cont r) (c_len r) v =
    if Z.of_nat k <? c_len r + 120 then Ret (TSDB_CODE_ACTION_IN_PROGRESS, vnodeProcessCommitTimer v)
    else Ret (0,
      let w := 8 + total (L ++ [r]) in
      let v' := set_map (logFd v) MapLog (Some w)
        (set_files (match logFile v with
                    | Some b => Some (take 8 b ++ render_all (L ++ [r]) ++ zeros (k - length (render r)))
                    | None => None end) (ologFile v) (errFiles v) v) in
      if mappingThreshold v <? w then vnodeProcessCommitTimer v' else v').
Proof using.
  intros [Hfd Hmap Hw Hsz (fv & Hlog & Hfv)] Hk Hmax Hr Hsid Hsv. pose proof (rec_ok_bounds _ _ Hr) as Hb.
  pose proof (total_nonneg L) as HtL. pose proof (length_render r) as Hlr.
  unfold vnodeWriteToCommitLog. rewrite Hw. change SIZEOF_SCommitHead with 16.
  rewrite !wrapu_id by (unfold in_u; lia).
  replace (mappingSize v - (8 + total L)) with (Z.of_nat k) by lia. replace (c_len r + 16 + 4 + 100) with (c_len r + 120) by lia.
  destruct (Z.ltb_spec (Z.of_nat k) (c_len r + 120)); [done|].
  unfold c_len at 1. rewrite rd_full. cbn [rbind]. rewrite Hmap, Hlog.
  rewrite (log_record_render n) by done. rewrite log_bytes_write by lia. cbn [rbind].
  rewrite total_snoc. replace (8 + total L + 16 + c_len r + 4) with (8 + (total L + 20 + c_len r)) by lia.
  unfold log_bytes. rewrite take_app_length' by (by rewrite length_le_bytes). cbn. rewrite Hmap. done.
Qed.

(** ** Every operation keeps the invariant *)
Definition exec_ok v (a : alog) (o : op) : Prop :=
  exists e v', exec o v = Ret (e, v') /\ inv v' (spec_ev a e) /\
    (e = EvRenew -> pending a = []).

Lemma inv_data v a s : meterList s = meterList (data v) -> inv v a -> inv (set_data s v) a.
Proof using Type*.
  intros Hs [H1 H2 (k & [] & Hk) H4 H5 H6 H7 H8]. constructor; cbn; try done.
  - by exists k.
  - by eapply (recs_ok_data v).
  - by eapply (recs_ok_data v).
  - congruence.
Qed.

Lemma exec_submit v a sd act cont : inv v a -> op_ok (OpSubmit sd act cont) -> exec_ok v a (OpSubmit sd act cont).
Proof using Type*.
  intros Hinv (m & Hm & Hdel & Hsid & Hr). pose proof Hinv as [(Ho & Hcl & Hn & Hpos) H2 (k & Hop & Hk & Htot) H4 H5 H6 H7 H8].
  unfold exec_ok, exec, submit. rewrite H7, Hm, Hcl, (op_fd _ _ _ Hop). cbn [Z.ltb Z.compare].
  set (r := mkRec (sversion m) sd act cont) in *.
  assert (Hmax : mappingSize v < 2 ^ 62) by (rewrite (op_size _ _ _ Hop); lia).
  pose proof (log_write_spec v (logged a) k m r Hop Htot Hmax Hr Hsid eq_refl) as Hw.
  change (vnodeWriteToCommitLog m act cont _ v) with (vnodeWriteToCommitLog m (c_act r) (c_cont r) (c_len r) v).
  rewrite Hw. clear Hw.
  destruct (Z.ltb_spec (Z.of_nat k) (c_len r + 120)) as [Hlt|Hge]; cbn [rbind Z.eqb negb TSDB_CODE_ACTION_IN_PROGRESS].
  { eexists _, _. split; [reflexivity|]. split; [|done]. by apply inv_timer. }
  cbv zeta. set (w := 8 + total _). set (v1 := set_map _ _ _ _).
  assert (Hv1 : inv v1 (spec_ev a (EvAck r))).
  { destruct Hop as [Hfd Hmap Hw Hsz (fv & Hlog & Hfv)]. pose proof (length_render r). pose proof (rec_ok_bounds _ _ Hr).
    constructor; cbn; try done.
    - exists (k - length (render r))%nat. split; [|rewrite total_snoc; lia]. constructor; cbn; try done.
      exists fv. split; [|done]. rewrite Hlog. unfold log_bytes. by rewrite take_app_length' by (by rewrite length_le_bytes).
    - destruct H6. split; cbn; apply Forall_app; split; try done; apply Forall_singleton; [by rewrite Hn|].
      exists m. by rewrite H7. }
  set (v2 := if _ <? _ then _ else _).
  assert (Hv2 : inv v2 (spec_ev a (EvAck r))) by (unfold v2; destruct (_ <? _); [by apply inv_timer|done]).
  rewrite (process_action n r _ Hr). cbn [rbind]. eexists _, _. split; [reflexivity|]. split; [|done].
  apply inv_data; [|done]. apply apply_rec_meters.
Qed.

Lemma exec_start v a : inv v a -> exec_ok v a OpStart.
Proof using Type*.
  intros Hinv. unfold exec_ok, exec. destruct (commitThread v) eqn:Ht; [by eexists _, _| |by eexists _, _].
  destruct Hinv as [H1 H2 (k & Hop & Hk & Htot) H4 H5 H6 H7 H8]. rewrite Ht in H8. destruct H8 as (Hp & Hci & Hpe).
  destruct Hop as [Hfd Hmap Hw Hsz (fv & Hlog & Hfv)].
  unfold commit_start. destruct (hasLastKey (data v)); cbn [negb rbind].
  - unfold vnodeRenewCommitLog. rewrite Hfd, Hlog. change (VALIDFD 3) with true. cbv iota. cbn [set_map set_files commitLog].
    destruct H1 as (Ho & Hcl & Hn & Hpos). rewrite Hcl. set (v1 := set_map _ _ _ _).
    set (b := zeros (Z.to_nat (mappingSize v))).
    assert (Hb : length b = Z.to_nat (mappingSize v)) by apply length_zeros.
    rewrite (open_log v1 b) by (try (split; [|right; split; [done|]]); cbn; rewrite ?Hb; done || lia).
    cbn [rbind]. eexists _, _. split; [reflexivity|]. split; [|done].
    constructor; cbn; try done.
    + exists (Z.to_nat (mappingSize v) - 8)%nat. split; [|rewrite total_nil; lia]. constructor; cbn; try done.
      exists (version (data v)). split; [|apply version_u64]. f_equal. unfold b.
      rewrite zeros_log by lia. apply log_bytes_reopen.
    + right. exists fv, k. cbn. repeat split; try done; try apply Hfv. rewrite log_bytes_total, length_zeros. lia.
  - eexists _, _. split; [reflexivity|]. split; [|done]. constructor; cbn; try done.
    exists k. split; [|done]. constructor; cbn; try done. by exists fv.
Qed.

Lemma exec_finish v a : inv v a -> exec_ok v a OpFinish.
Proof using Type*.
  intros Hinv. unfold exec_ok, exec. destruct (commitThread v) eqn:Ht; [by eexists _, _..|].
  destruct Hinv as [H1 H2 (k & [] & Hk & Htot) H4 H5 H6 H7 H8].
  eexists _, _. split; [reflexivity|]. split; [|done]. constructor; cbn; try done.
  - by exists k.
  - by left.
  - eapply (recs_ok_data v); [done|apply commit_meters|done].
  - by rewrite commit_meters.
Qed.

(** The files a crash leaves hold the records. *)
Lemma restart_spec s v a k : meterList s = M -> inv v a ->
  opened v (logged a) (zeros k) -> (16 <= k)%nat -> 8 + total (logged a) + Z.of_nat k = mappingSize v ->
  forall L tail fv, recs_ok v L -> stops n tail -> in_u 64 fv ->
  length (log_bytes fv L tail) = Z.to_nat (mappingSize v) ->
  exists v', restart s (set_files (Some (log_bytes fv L tail)) (ologFile v) (errFiles v) v) = Ret (0, v') /\
    opened v' L tail /\ idle v' /\ config v' = config v /\
    ologFile v' = (match pending a with [] => ologFile v | _ => None end) /\
    reopened (pending a) L s (data v').
Proof using Type*.
  intros Hs [H1 H2 _ H4 H5 H6 H7 _] Hop Hk Htot L tail fv HL Htail Hfv Hlen. destruct H1 as (Ho & Hcl & Hn & Hpos).
  unfold restart. set (v0 := reboot s _).
  destruct (init_spec v0 (pending a) L tail) as (v' & Hi & Hop' & Hid & Hc & Holog & Hre).
  - constructor; cbn; try done. lia.
  - done.
  - destruct H4 as [?|?]; [by left|by right].
  - split; [|split].
    + rewrite (length_log_bytes _ fv), Hlen. cbn. rewrite (op_size _ _ _ Hop). lia.
    + cbn. by rewrite Hn.
    + right. by exists fv.
  - eapply (recs_ok_data v); [done|cbn; congruence|done].
  - eapply (recs_ok_data v); [done|cbn; congruence|done].
  - exists v'. rewrite Hi. split; [done|]. split; [done|]. split; [done|]. split; [|done].
    rewrite Hc. unfold config. cbn. by rewrite Ho.
Qed.

Lemma exec_crash v a s : inv v a -> op_ok (OpCrash s) -> exec_ok v a (OpCrash s).
Proof using Type*.
  intros Hinv Hs. cbn in Hs. pose proof Hinv as [H1 H2 (k & Hop & Hk & Htot) H4 H5 H6 H7 H8].
  pose proof Hop as [_ _ _ Hsz (fv & Hlog & Hfv)]. unfold exec_ok, exec.
  destruct (restart_spec s v a k Hs Hinv Hop Hk Htot (logged a) (zeros k) fv) as (v' & Hr & Hop' & (Hc1 & Hc2 & Hc3) & Hc & Holog & Hre).
  { done. } { apply stops_zeros; [apply H1|done]. } { done. }
  { apply Nat2Z.inj. rewrite log_bytes_total, length_zeros. lia. }
  replace (set_files (Some _) (ologFile v) (errFiles v) v) with v in Hr by (rewrite <- Hlog; by destruct v).
  rewrite Hr. cbn [rbind Z.ltb Z.compare]. eexists _, _. split; [reflexivity|]. split; [|done].
  unfold config in Hc. injection Hc as E1 E2 E3 E4 E5 E6. apply reopened_meters in Hre.
  assert (Hsz' : mappingSize v' = mappingSize v) by (rewrite (op_size _ _ _ Hop'), (op_size _ _ _ Hop), E4, E5; done).
  constructor; cbn [spec_ev pending logged durable].
  - by rewrite E1, E2, E3.
  - by rewrite E4, E5.
  - exists k. rewrite Hsz'. done.
  - unfold olog_holds in *. rewrite Holog, E4, E5. destruct (pending a); [|by left; split].
    destruct H4 as [[H4 _]|H4]; [by left; split|by right].
  - split; constructor.
  - eapply (recs_ok_data v); [done|congruence|done].
  - congruence.
  - by rewrite Hc1, Hc2, Hc3.
Qed.

Lemma exec_inv v a o : inv v a -> op_ok o -> exec_ok v a o.
Proof using Type*.
  intros Hinv Ho. destruct o as [sd act cont| | | |s].
  - by apply exec_submit.
  - eexists _, _. split; [reflexivity|]. split; [by apply inv_timer|done].
  - by apply exec_start.
  - by apply exec_finish.
  - by apply exec_crash.
Qed.

(** Every record that was acknowledged is in one of the three parts, in order. *)
Lemma spec_ev_acked a e : (e = EvRenew -> pending a = []) ->
  durable (spec_ev a e) ++ pending (spec_ev a e) ++ logged (spec_ev a e) =
  (durable a ++ pending a ++ logged a) ++ acked [e].
Proof using.
  intros He. destruct e; cbn; rewrite ?app_nil_r, <- ?app_assoc; try done.
  by rewrite He.
Qed.

Lemma acked_cons e es : acked (e :: es) = acked [e] ++ acked es.
Proof using. by destruct e. Qed.

Lemma life_inv os : forall v a, inv v a -> Forall op_ok os ->
  exists es v', run os v = Ret (es, v') /\ inv v' (foldl spec_ev a es) /\
    let a' := foldl spec_ev a es in
    durable a' ++ pending a' ++ logged a' = (durable a ++ pending a ++ logged a) ++ acked es.
Proof using Type*.
  induction os as [|o os IH]; intros v a Hinv Hos.
  - exists [], v. cbn. by rewrite app_nil_r.
  - apply Forall_cons in Hos as [Ho Hos]. destruct (exec_inv v a o Hinv Ho) as (e & v1 & He & Hinv1 & Hren).
    destruct (IH v1 (spec_ev a e) Hinv1 Hos) as (es & v2 & Hrun & Hinv2 & Hack).
    exists (e :: es), v2. cbn [run]. rewrite He. cbn [rbind]. rewrite Hrun. cbn [rbind foldl]. split; [done|].
    split; [done|]. cbv zeta in *. rewrite Hack, (spec_ev_acked a e Hren), (acked_cons e es). by rewrite !app_assoc.
Qed.

(** A vnode that is opened for the first time. *)
Lemma fresh_inv v : closed v -> idle v -> maxSessions v = n -> logFile v = None -> ologFile v = None -> meterList (data v) = M ->
  exists v', vnodeInitCommit (true, true) (NoFault, NoFault) true v = Ret (0, v') /\ inv v' (mkLog [] [] []).
Proof using Type*.
  intros Hcl Hi Hn Hl Ho Hm. pose proof Hcl as [Hop Hc _ _ Hpos Hmax].
  set (size := mapping_size (cacheBlockSize v) (totalBlocks v)) in *. set (k := (Z.to_nat size - 8)%nat).
  destruct (init_spec v [] [] (zeros k)) as (v' & Hinit & Hopv & (Hc1 & Hc2 & Hc3) & Hcfg & Holog & Hre); try done.
  - by left.
  - split; [rewrite log_bytes_total, total_nil, length_zeros; lia|].
    split; [apply stops_zeros; lia|]. left. by rewrite length_zeros.
  - exists v'. split; [done|]. apply reopened_meters in Hre. unfold config in Hcfg. injection Hcfg as E1 E2 E3 E4 E5 E6.
    constructor; cbn; rewrite ?E1, ?E2, ?E3, ?E4, ?E5, ?Hc1, ?Hc2, ?Hc3; try done.
    + repeat split; congruence || lia.
    + exists k. rewrite (op_size _ _ _ Hopv), E4, E5, total_nil. fold size. split; [done|]. lia.
    + left. by rewrite Holog.
    + congruence.
Qed.

(** C4.  Whatever is submitted to a new vnode - insertions and imports to tables that stay,
    with records whose sum of four header fields is below 2^23 ([rec_ok]) -, whenever its
    commits begin and end, none of them in failure, and wherever between two of these steps
    it crashes (not in the middle of a write, for which see [commit_log_torn]): every record
    that was acknowledged is, in order, in one of three parts, those of commits that ended,
    those of the commit that is under way and those after it; and opening the vnode again, on
    whatever rows [s] its data files hold, succeeds and submits exactly the last two parts.
    ([check_bit_23] and [Demo] have the runs that lose records without these conditions.) *)
Theorem commit_log_durable v os : closed v -> idle v -> maxSessions v = n -> logFile v = None -> ologFile v = None ->
  meterList (data v) = M -> Forall op_ok os ->
  exists v1 es v2, vnodeInitCommit (true, true) (NoFault, NoFault) true v = Ret (0, v1) /\ run os v1 = Ret (es, v2) /\
    let a := foldl spec_ev (mkLog [] [] []) es in
    durable a ++ pending a ++ logged a = acked es /\
    forall s, meterList s = M -> exists v3, restart s v2 = Ret (0, v3) /\ reopened (pending a) (logged a) s (data v3).
Proof using Type*.
  intros Hcl Hi Hn Hl Ho Hm Hos. destruct (fresh_inv v Hcl Hi Hn Hl Ho Hm) as (v1 & Hinit & Hinv).
  destruct (life_inv os v1 _ Hinv Hos) as (es & v2 & Hrun & Hinv2 & Hack). exists v1, es, v2.
  split; [done|]. split; [done|]. cbv zeta in *. split; [done|]. intros s Hs.
  pose proof Hinv2 as [H1 H2 (k & Hop & Hk & Htot) _ _ H6 _ _]. pose proof Hop as [_ _ _ Hsz (fv & Hlog & Hfv)].
  destruct (restart_spec s v2 _ k Hs Hinv2 Hop Hk Htot _ (zeros k) fv H6) as (v3 & Hr & _ & _ & _ & _ & Hre); try done.
  { apply stops_zeros; [apply H1|done]. }
  { apply Nat2Z.inj. rewrite log_bytes_total, length_zeros. lia. }
  exists v3. split; [|done]. rewrite <- Hr. f_equal. rewrite <- Hlog. by destruct v2.
Qed.

(** A crash while the bytes of a record are copied, after [k] of them. *)
Definition crash_in_write (m : SMeterObj) (act : Z) (cont : list Z) (k : nat) v : SVnodeObj St :=
  match logFile v, pWrite v with
  | Some mem, Some w =>
    match wr mem w (take k (log_record m act cont (Z.of_nat (length cont)))) with
    | Ret mem => set_files (Some mem) (ologFile v) (errFiles v) v
    | _ => v
    end
  | _, _ => v
  end.

(** The states of such a life, and what happened in it. *)
Definition reach (es : list event) v : Prop :=
  exists v0 os v1, closed v0 /\ idle v0 /\ maxSessions v0 = n /\ logFile v0 = None /\ ologFile v0 = None /\
    meterList (data v0) = M /\ Forall op_ok os /\
    vnodeInitCommit (true, true) (NoFault, NoFault) true v0 = Ret (0, v1) /\ run os v1 = Ret (es, v).

Lemma reach_inv es v : reach es v -> inv v (foldl spec_ev (mkLog [] [] []) es).
Proof using Type*.
  intros (v0 & os & v1 & Hcl & Hi & Hn & Hl & Ho & Hm & Hos & Hinit & Hrun).
  destruct (fresh_inv v0 Hcl Hi Hn Hl Ho Hm) as (v1' & Hinit' & Hinv). rewrite Hinit in Hinit'. injection Hinit' as <-.
  destruct (life_inv os v1 _ Hinv Hos) as (es' & v' & Hrun' & Hinv' & _). rewrite Hrun in Hrun'. by injection Hrun' as <- <-.
Qed.

Lemma torn_bytes fv L r k kz : (length (render r) <= kz)%nat -> (k <= length (render r))%nat ->
  wr (log_bytes fv L (zeros kz)) (8 + total L) (take k (render r)) = Ret (log_bytes fv L (torn k r (kz - length (render r)))).
Proof using.
  intros Hkz Hk. unfold log_bytes, torn. rewrite app_assoc.
  replace kz with (k + (kz - k))%nat at 1 by lia. rewrite zeros_app.
  rewrite wr_app_mid; [|unfold total; rewrite length_app, length_le_bytes; lia|rewrite length_zeros, length_take; lia].
  rewrite <- app_assoc. do 5 f_equal. lia.
Qed.

(** C38.  A crash in the middle of a write that had room, in any state of such a
    life: opening the vnode again submits the acknowledged records as before, and
    the new one after them only if the bytes that were not written are zero, so
    that all of it is in the file. *)
Theorem commit_log_torn es v m act cont k s : reach es v -> meterList s = M ->
  M (sid m) = Some m -> vnodeIsMeterDeleting m = false -> rec_ok n (mkRec (sversion m) (sid m) act cont) ->
  (exists v', vnodeWriteToCommitLog m act cont (Z.of_nat (length cont)) v = Ret (0, v')) ->
  let r := mkRec (sversion m) (sid m) act cont in
  let a := foldl spec_ev (mkLog [] [] []) es in
  (k <= length (render r))%nat ->
  exists v', restart s (crash_in_write m act cont k v) = Ret (0, v') /\
    (reopened (pending a) (logged a) s (data v') \/
     reopened (pending a) (logged a ++ [r]) s (data v') /\ Forall (fun b => b = 0) (drop k (render r))).
Proof using Type*.
  intros Hreach Hs Hm Hdel Hr (vw & Hacc) r a Hkr. fold r in Hr. pose proof (reach_inv _ _ Hreach) as Hinv. fold a in Hinv.
  pose proof Hinv as [H1 H2 (kz & Hop & Hk & Htot) _ _ H6 H7 _]. pose proof Hop as [Hfd Hmap Hw Hsz (fv & Hlog & Hfv)].
  assert (Hroom : (length (render r) + 16 <= kz)%nat).
  { pose proof (length_render r). pose proof (log_write_spec v (logged a) kz m r Hop Htot ltac:(lia) Hr eq_refl eq_refl) as Hws.
    change (vnodeWriteToCommitLog m act cont _ v) with (vnodeWriteToCommitLog m (c_act r) (c_cont r) (c_len r) v) in Hacc.
    rewrite Hws in Hacc. destruct (Z.ltb_spec (Z.of_nat kz) (c_len r + 120)); [done|lia]. }
  unfold crash_in_write. rewrite Hlog, Hw.
  change (log_record m act cont _) with (log_record m (c_act r) (c_cont r) (c_len r)).
  rewrite (log_record_render n) by done. rewrite torn_bytes by lia.
  set (z := (kz - length (render r))%nat).
  assert (Htl : forall L, Z.of_nat (length (log_bytes fv L (torn k r z))) = 8 + total L + Z.of_nat kz).
  { intros L. rewrite log_bytes_total. unfold torn. rewrite length_app, length_take, length_zeros. lia. }
  destruct (torn_stops n r k z Hr Hkr) as [Hwhole|Hstop].
  - assert (HL : recs_ok v (logged a ++ [r])).
    { destruct H6. split; apply Forall_app; split; try done; apply Forall_singleton; [by destruct H1 as (_ & _ & -> & _)|].
      exists m. by rewrite H7. }
    assert (E : log_bytes fv (logged a) (torn k r z) = log_bytes fv (logged a ++ [r]) (zeros z)).
    { rewrite Hwhole. unfold log_bytes, render_all. rewrite map_app, concat_app. cbn [map concat].
      by rewrite app_nil_r, <- app_assoc. }
    destruct (restart_spec s v a kz Hs Hinv Hop Hk Htot _ (zeros z) fv HL) as (v' & Hre & _ & _ & _ & _ & Hro); try done.
    { apply stops_zeros; [apply H1|lia]. } { rewrite <- E. apply Nat2Z.inj. rewrite Htl. lia. }
    exists v'. rewrite E. split; [done|]. right. split; [done|].
    assert (Hw2 : take k (render r) ++ zeros (length (render r) - k + z) = take k (render r) ++ drop k (render r) ++ zeros z)
      by (rewrite app_assoc, take_drop; exact Hwhole).
    apply app_inv_head in Hw2. rewrite zeros_app in Hw2. apply app_inj_1 in Hw2 as [<- _].
    + apply Forall_replicate. done.
    + by rewrite length_zeros, length_drop.
  - destruct (restart_spec s v a kz Hs Hinv Hop Hk Htot _ (torn k r z) fv H6) as (v' & Hre & _ & _ & _ & _ & Hro); try done.
    { apply Nat2Z.inj. rewrite Htl. lia. }
    exists v'. split; [done|]. by left.
Qed.
End Life.

(** ** A vnode of four tables, whose rows are what was submitted *)
Module Demo.
Record rows := mkRows { r_version : Z; cached : list (Z * list Z); filed : list (Z * list Z); dropped : list Z }.
Definition add_row (sd : Z) (cont : list Z) (s : rows) : rows :=
  mkRows (r_version s + 1) (cached s ++ [(sd, cont)]) (filed s) (dropped s).
#[export] Instance demo_data : VnodeData rows := {|
  meterList s sd := if (0 <=? sd) && (sd <? 4) && negb (existsb (Z.eqb sd) (dropped s))
                    then Some {| sid := sd; sversion := 1; state := 0 |} else None;
  version s := u64 (r_version s);
  set_version z s := mkRows z (cached s) (filed s) (dropped s);
  vnodeInsertPoints sd cont _ s := add_row sd cont s;
  vnodeImportPoints sd cont _ s := add_row sd cont s;
  hasLastKey s := match cached s with [] => false | _ => true end;
  commitData s := mkRows (r_version s) [] (filed s ++ cached s) (dropped s) |}.
#[export] Instance demo_laws : VnodeLaws rows.
Proof. constructor; try done. intros s. apply wrapu_range. lia. Qed.

Definition no_rows : rows := mkRows 0 [] [] [].
Definition vnode (log olog : option (list Z)) (s : rows) : SVnodeObj rows :=
  mkVnode s true true 4 100 4 false false false NoThread 0 Unmapped None 0 0 log olog [].
Definition new_vnode := vnode None None no_rows.
Definition opened_vnode := match vnodeInitCommit (true, true) (NoFault, NoFault) true new_vnode with Ret (_, v) => v | _ => new_vnode end.
Definition ops : list (op (St := rows)) :=
  [OpSubmit 0 0 [1; 2; 3]; OpSubmit 1 1 [4]; OpTimer; OpStart; OpSubmit 2 0 [5; 6]; OpCrash no_rows;
   OpSubmit 3 0 [7]; OpTimer; OpStart; OpFinish; OpSubmit 0 0 [8]].

Lemma new_closed : closed new_vnode /\ idle new_vnode.
Proof. split; [|by repeat split]. constructor; [done|done|done|done|cbn; lia|]. vm_compute. split; congruence. Qed.

Lemma demo_op_ok sd act cont : 0 <= sd < 4 -> act = 0 \/ act = 1 -> cont <> [] -> bytes_ok cont ->
  Z.of_nat (length cont) < 2 ^ 20 -> op_ok (meterList no_rows) 4 (OpSubmit (St := rows) sd act cont).
Proof.
  intros Hsd Hact Hc Hb Hl. exists {| sid := sd; sversion := 1; state := 0 |}. cbn.
  rewrite (proj2 (Z.leb_le _ _)), (proj2 (Z.ltb_lt _ _)) by lia. repeat (split; [done|]).
  constructor; cbn; try done; try lia. unfold c_sum, c_len. cbn. lia.
Qed.

Lemma ops_ok : Forall (op_ok (meterList no_rows) 4) ops.
Proof.
  unfold ops. repeat (apply Forall_cons; split); try done;
    apply demo_op_ok; try done; try lia; try (by left); try (by right); repeat apply Forall_cons_2; try done.
Qed.

(** What happens in it: the first commit is cut off by the crash, and done when
    the vnode is opened. *)
Lemma demo_run : exists v, run ops opened_vnode = Ret
  ([EvAck (mkRec 1 0 0 [1; 2; 3]); EvAck (mkRec 1 1 1 [4]); EvNone; EvRenew; EvAck (mkRec 1 2 0 [5; 6]); EvCrash;
    EvAck (mkRec 1 3 0 [7]); EvNone; EvRenew; EvDone; EvAck (mkRec 1 0 0 [8])], v).
Proof. eexists. vm_compute. reflexivity. Qed.

Definition done_vnode := match run ops opened_vnode with Ret (_, v) => v | _ => new_vnode end.
Definition demo_events : list event := match run ops opened_vnode with Ret (es, _) => es | _ => [] end.

Lemma commit_log_durable_witness :
  exists v1 es v2, vnodeInitCommit (true, true) (NoFault, NoFault) true new_vnode = Ret (0, v1) /\
    run ops v1 = Ret (es, v2) /\
    let a := foldl spec_ev (mkLog [] [] []) es in
    durable a ++ pending a ++ logged a = acked es /\
    forall s, meterList s = meterList no_rows ->
      exists v3, restart s v2 = Ret (0, v3) /\ reopened (pending a) (logged a) s (data v3).
Proof.
  apply (commit_log_durable (meterList no_rows) 4 new_vnode ops); try reflexivity;
    [apply new_closed|apply new_closed|apply ops_ok].
Defined.

Lemma demo_reach : reach (meterList no_rows) 4 demo_events done_vnode.
Proof.
  exists new_vnode, ops, opened_vnode. destruct new_closed as [Hc Hi].
  do 2 (split; [assumption|]). do 4 (split; [reflexivity|]). split; [apply ops_ok|].
  split; vm_compute; reflexivity.
Qed.

(** A record of which only the last, zero, byte is missing is taken. *)
Lemma commit_log_torn_witness : exists v',
  restart no_rows (crash_in_write {| sid := 2; sversion := 1; state := 0 |} 0 [9; 9] 21 done_vnode) = Ret (0, v') /\
  let a := foldl spec_ev (mkLog [] [] []) demo_events in
  (reopened (pending a) (logged a) no_rows (data v') \/
   reopened (pending a) (logged a ++ [mkRec 1 2 0 [9; 9]]) no_rows (data v') /\
   Forall (fun b => b = 0) (drop 21 (render (mkRec 1 2 0 [9; 9])))).
Proof.
  apply (commit_log_torn (meterList no_rows) 4 demo_events done_vnode {| sid := 2; sversion := 1; state := 0 |} 0 [9; 9] 21 no_rows).
  - apply demo_reach.
  - reflexivity.
  - reflexivity.
  - reflexivity.
  - constructor; cbn; [lia|lia|by left|split; [done|repeat constructor; done]|unfold c_sum, c_len; cbn; lia].
  - eexists. vm_compute. reflexivity.
  - apply Nat.leb_le. reflexivity.
Defined.

(** ** Where acknowledged records are lost

    [served v os s]: what the vnode holds in its cache and files after the
    operations [os], and the events. *)
Definition served (os : list (op (St := rows))) (v : SVnodeObj rows) : res (list event * list (Z * list Z) * list (Z * list Z)) :=
  let! '(es, v) := run os v in Ret (es, filed (data v), cached (data v)).

(** A crash between the creation of [.log] and its allocation leaves an empty
    file.  Restoring it fails with -1, which as a [size_t] is not below 0; the
    position to write at is then one byte short... *)
Lemma empty_log_shifts {St} `{VnodeLaws St} (v : SVnodeObj St) : closed v -> idle v ->
  logFile v = Some [] -> ologFile v = None ->
  exists v', vnodeInitCommit (true, true) (NoFault, NoFault) true v = Ret (0, v') /\ pWrite v' = Some 7.
Proof.
  intros [Ho Hcl Hci Hfd Hn Hmax] Hi Hl Hol. unfold vnodeInitCommit. set (v1 := set_sizes _ _ v).
  assert (E1 : vnodeRestoreDataFromLog true LogOFn v1 0 = Ret (0, 0, v1)).
  { unfold vnodeRestoreDataFromLog. cbn. by rewrite Ho, Hol. }
  cbn [fst snd]. rewrite E1. cbn [rbind Z.ltb Z.compare].
  assert (E2 : vnodeRestoreDataFromLog true LogFn v1 0 = Ret (u64 (-1), 0, move_to_error v1 LogFn)).
  { unfold vnodeRestoreDataFromLog. cbn. by rewrite Ho, Hl. }
  rewrite E2. cbn [rbind]. unfold move_to_error. cbn [file_of]. cbn [v1 set_sizes logFile]. rewrite Hl. fold v1.
  set (v2 := set_files None _ _ v1). cbn [v2 commitLog set_files v1 set_sizes]. rewrite Hcl. cbn [negb]. fold v1. fold v2.
  change (u64 (-1) =? 0) with false. cbv iota.
  rewrite (open_log v2 (zeros (Z.to_nat (mappingSize v2)))).
  - cbn [rbind Z.ltb Z.compare]. eexists. split; reflexivity.
  - split; [rewrite length_zeros; cbn; lia|]. right. by rewrite length_zeros.
  - cbn. lia.
Qed.

(** ... and what is acknowledged from then on is not found again. *)
Lemma shifted_log_lost :
  (let! '(code, v) := vnodeInitCommit (true, true) (NoFault, NoFault) true (vnode (Some []) None no_rows) in
   served [OpSubmit 0 0 [1; 2; 3]; OpSubmit 1 0 [4]; OpCrash no_rows] v) =
    Ret ([EvAck (mkRec 1 0 0 [1; 2; 3]); EvAck (mkRec 1 1 0 [4]); EvCrash], [], []).
Proof. vm_compute. reflexivity. Qed.

(** A record of a table that is gone is read but not counted, so the next write
    goes into the middle of the records behind it, which are not committed yet. *)
Lemma ignored_record_overwritten :
  let gone := mkRows 0 [] [] [2] in
  served [OpSubmit 2 0 [1; 2; 3]; OpSubmit 0 0 [4; 5]; OpCrash gone; OpSubmit 1 0 [6]; OpCrash gone] opened_vnode =
    Ret ([EvAck (mkRec 1 2 0 [1; 2; 3]); EvAck (mkRec 1 0 0 [4; 5]); EvCrash; EvAck (mkRec 1 1 0 [6]); EvCrash], [], []).
Proof. vm_compute. reflexivity. Qed.

(** A commit that cannot open its files leaves its records in [.olog], where the
    next commit puts its own. *)
Lemma failed_commit_drops_olog :
  (let! '(es, v) := run [OpSubmit 0 0 [1]; OpTimer; OpStart] opened_vnode in
   let! '(es2, f, c) := served [OpSubmit 1 0 [2]; OpTimer; OpStart; OpCrash no_rows] (commit_finish false v) in
   Ret (acked (es ++ es2), f, c)) =
    Ret ([mkRec 1 0 0 [1]; mkRec 1 1 0 [2]], [(1, [2])], []).
Proof. vm_compute. reflexivity. Qed.

(** The bytes of a torn record stay behind the record that is written over them:
    if a part of them looks like a record, it is submitted although no client
    ever did. *)
Lemma stale_bytes_replayed :
  let m sd := {| sid := sd; sversion := 1; state := 0 |} in
  let forged := render (mkRec 1 3 0 [66]) in
  let torn_v := crash_in_write (m 0) 0 (replicate 5 7 ++ forged ++ replicate 50 7) 60 opened_vnode in
  served [OpCrash no_rows; OpSubmit 1 0 [9]; OpCrash no_rows] torn_v =
    Ret ([EvCrash; EvAck (mkRec 1 1 0 [9]); EvCrash], [], [(1, [9]); (3, [66])]).
Proof. vm_compute. reflexivity. Qed.
End Demo.

(** [simpleCheck] is a signed field of 24 bits: if the sum has bit 23, the head
    that is read back does not match it. *)
Lemma check_bit_23 n m act cont rest : in_s 32 (sversion m) -> in_s 32 (sid m) -> 0 <= act < 128 ->
  Z.of_nat (length cont) < 2 ^ 31 ->
  2 ^ 23 <= check_sum (sversion m) (sid m) (Z.of_nat (length cont)) act ->
  stops n (log_record m act cont (Z.of_nat (length cont)) ++ rest).
Proof.
  intros Hv Hs Ha Hl Hb. unfold log_record. rewrite (wraps_id 8) by (unfold in_s; lia).
  set (c := check_sum _ _ _ _) in *. set (h := mkHead _ _ _ _ _).
  assert (Hc : 0 <= c < 2 ^ 24).
  { unfold c, check_sum. rewrite Z.land_ones by lia. apply Z.mod_pos_bound. lia. }
  assert (Hw : wraps 24 c = c - 2 ^ 24).
  { rewrite (wraps_congr 24 c (c - 2 ^ 24) 1) by lia. apply wraps_id; [lia|unfold in_s; lia]. }
  apply stops_head with h.
  - rewrite !length_app, length_head_bytes. lia.
  - rewrite <- !app_assoc, take_app_length' by (by rewrite length_head_bytes).
    apply head_of_bytes; try done; cbn; unfold in_s in *; [lia|lia|].
    rewrite Hw. lia.
  - cbn. fold c. rewrite Hw. lia.
Qed.
