(* ===== verification/KeySearch.v ===== *)
(** * Searching a time stamp in a column (system/src/vnodeRead.c)

    The keys of a block are a column of increasing 8-byte integers.  Order 0 is
    a search from the newest key, for the last that is not larger; order 1 is
    one from the oldest, for the first that is not smaller. *)
From S2P Require Import Prelude.

Definition TSDB_KEYSIZE := 8.

(** [keyList\[j\]], where [keyList] is the address [off]. *)
Definition keyList (mem : list Z) (off j : Z) : res Z :=
  let! d := rd mem (off + TSDB_KEYSIZE * j) TSDB_KEYSIZE in Ret (i64 (le_val d)).

Fixpoint search_newest (fuel : nat) (kl : Z -> res Z) (key firstPos lastPos : Z) : res Z :=
  match fuel with
  | O => NoFuel
  | S fuel =>
    let! last := kl lastPos in
    if last <=? key then Ret lastPos
    else
      let! first := kl firstPos in
      if key =? first then Ret firstPos
      else if key <? first then Ret (firstPos - 1)
      else
        let midPos := Z.shiftr (lastPos - firstPos + 1) 1 + firstPos in
        let! mid := kl midPos in
        if key <? mid then search_newest fuel kl key firstPos (midPos - 1)
        else if mid <? key then search_newest fuel kl key (midPos + 1) lastPos
        else Ret midPos
  end.

Fixpoint search_oldest (fuel : nat) (kl : Z -> res Z) (num key firstPos lastPos : Z) : res Z :=
  match fuel with
  | O => NoFuel
  | S fuel =>
    let! first := kl firstPos in
    if key <=? first then Ret firstPos
    else
      let! last := kl lastPos in
      if key =? last then Ret lastPos
      else if last <? key then (if num <=? lastPos + 1 then Ret (-1) else Ret (lastPos + 1))
      else
        let midPos := Z.shiftr (lastPos - firstPos + 1) 1 + firstPos in
        let! mid := kl midPos in
        if key <? mid then search_oldest fuel kl num key firstPos (midPos - 1)
        else if mid <? key then search_oldest fuel kl num key (midPos + 1) lastPos
        else Ret midPos
  end.

(** [pValue] is the address [off] in [mem]. *)
Definition vnodeBinarySearchKey (mem : list Z) (off num key order : Z) : res Z :=
  if num <=? 0 then Ret (-1)
  else if order =? 0 then search_newest (Z.to_nat num) (keyList mem off) key 0 (num - 1)
  else search_oldest (Z.to_nat num) (keyList mem off) num key 0 (num - 1).

(** ** The searches find the keys *)

(** The keys before [n] satisfy [P], those from [n] on do not. *)
Definition cut (P : Z -> Prop) (K : list Z) (n : Z) : Prop :=
  0 <= n <= Z.of_nat (length K) /\ (forall j k, K !! j = Some k -> Z.of_nat j < n -> P k) /\
  (forall j k, K !! j = Some k -> n <= Z.of_nat j -> ~ P k).
Definition increasing (K : list Z) : Prop := forall i j a b, (i < j)%nat -> K !! i = Some a -> K !! j = Some b -> a < b.

Section Search.
Context (kl : Z -> res Z) (K : list Z) (key : Z).
Context (Hkl : forall j k, K !! j = Some k -> kl (Z.of_nat j) = Ret k) (Hinc : increasing K).

Lemma kl_at p : 0 <= p < Z.of_nat (length K) -> exists k, kl p = Ret k /\ K !! Z.to_nat p = Some k.
Proof using Hkl.
  intros Hp. destruct (lookup_lt_is_Some_2 K (Z.to_nat p)) as [k Hk]; [lia|]. exists k. split; [|done].
  rewrite <- (Hkl _ _ Hk). f_equal. lia.
Qed.

Lemma increasing_le p q a b : K !! Z.to_nat p = Some a -> K !! Z.to_nat q = Some b -> 0 <= p <= q -> a <= b.
Proof using Hinc.
  intros Ha Hb Hpq. destruct (decide (p = q)) as [->|Hne]; [rewrite Ha in Hb; injection Hb; lia|].
  pose proof (Hinc (Z.to_nat p) (Z.to_nat q) a b ltac:(lia) Ha Hb). lia.
Qed.

Lemma cut_le p a : K !! Z.to_nat p = Some a -> 0 <= p -> a <= key ->
  (forall j k, K !! j = Some k -> p < Z.of_nat j -> key < k) -> cut (fun k => k <= key) K (p + 1).
Proof using Hinc.
  intros Ha Hp Hle Hafter. pose proof (lookup_lt_Some _ _ _ Ha). split; [lia|]. split.
  - intros j k Hj Hlt. enough (k <= a) by lia. apply (increasing_le (Z.of_nat j) p k a); [by rewrite Nat2Z.id|done|lia].
  - intros j k Hj Hge Hk. specialize (Hafter j k Hj ltac:(lia)). lia.
Qed.

Lemma cut_lt p a : K !! Z.to_nat p = Some a -> 0 <= p -> key <= a ->
  (forall j k, K !! j = Some k -> Z.of_nat j < p -> k < key) -> cut (fun k => k < key) K p.
Proof using Hinc.
  intros Ha Hp Hle Hbefore. pose proof (lookup_lt_Some _ _ _ Ha). split; [lia|]. split.
  - intros j k Hj Hlt. by apply (Hbefore j k Hj).
  - intros j k Hj Hge Hk. enough (a <= k) by lia. apply (increasing_le p (Z.of_nat j) a k); [done|by rewrite Nat2Z.id|lia].
Qed.

(** What a round of the searches knows. *)
Definition around (f l : Z) : Prop := 0 <= f <= l /\ l < Z.of_nat (length K) /\
  (forall j k, K !! j = Some k -> Z.of_nat j < f -> k < key) /\ (forall j k, K !! j = Some k -> l < Z.of_nat j -> key < k).

Lemma around_mid f l a b : around f l -> K !! Z.to_nat f = Some a -> K !! Z.to_nat l = Some b -> a < key -> key < b ->
  exists m k, kl (Z.shiftr (l - f + 1) 1 + f) = Ret k /\ m = Z.shiftr (l - f + 1) 1 + f /\ K !! Z.to_nat m = Some k /\ 0 <= m /\
    (key < k -> around f (m - 1) /\ m - 1 < l) /\ (k < key -> around (m + 1) l /\ f < m + 1).
Proof using Hkl Hinc.
  intros (Hfl & Hl & Hbef & Haft) Ha Hb Hak Hkb. assert (f <> l) by (intros ->; rewrite Ha in Hb; injection Hb; lia).
  set (m := Z.shiftr (l - f + 1) 1 + f).
  assert (Hm : f < m <= l).
  { unfold m. rewrite Z.shiftr_div_pow2 by lia. change (2 ^ 1) with 2.
    pose proof (Z.div_le_lower_bound (l - f + 1) 2 1 ltac:(lia) ltac:(lia)).
    pose proof (Z.div_le_upper_bound (l - f + 1) 2 (l - f) ltac:(lia) ltac:(lia)). lia. }
  destruct (kl_at m ltac:(lia)) as (k & Hk1 & Hk2). exists m, k. split; [done|]. split; [done|]. split; [done|]. split; [lia|].
  split.
  - intros Hlt. split; [|lia]. split; [lia|]. split; [lia|]. split; [done|]. intros j x Hj Hlt2.
    enough (k <= x) by lia. apply (increasing_le m (Z.of_nat j) k x); [done|by rewrite Nat2Z.id|lia].
  - intros Hgt. assert (m < l).
    { destruct (decide (m = l)) as [E|]; [|lia]. rewrite E in Hk2. rewrite Hb in Hk2. injection Hk2. lia. }
    split; [|lia]. split; [lia|]. split; [lia|]. split; [|done]. intros j x Hj Hlt2.
    enough (x <= k) by lia. apply (increasing_le (Z.of_nat j) m x k); [by rewrite Nat2Z.id|done|lia].
Qed.

Lemma search_newest_spec : forall fuel f l, around f l -> l - f < Z.of_nat fuel ->
  exists r, search_newest fuel kl key f l = Ret r /\ cut (fun k => k <= key) K (r + 1).
Proof using Hkl Hinc.
  induction fuel as [|fuel IH]; intros f l Har Hfuel; [destruct Har; lia|]. pose proof Har as (Hfl & Hl & Hbef & Haft).
  destruct (kl_at f ltac:(lia)) as (a & Ha1 & Ha2). destruct (kl_at l ltac:(lia)) as (b & Hb1 & Hb2).
  cbn [search_newest]. rewrite Hb1. cbn [rbind]. destruct (Z.leb_spec b key) as [Hbk|Hkb].
  { exists l. split; [done|]. by apply (cut_le l b); [|lia|..]. }
  rewrite Ha1. cbn [rbind]. destruct (Z.eqb_spec key a) as [Heq|Hne].
  { exists f. split; [done|]. apply (cut_le f a); [done|lia|lia|]. intros j k Hj Hlt.
    rewrite Heq. apply (Hinc (Z.to_nat f) j a k); [lia|done|done]. }
  destruct (Z.ltb_spec key a) as [Hka|Hak].
  { exists (f - 1). split; [done|]. split; [lia|]. split; intros j k Hj Hlt.
    - specialize (Hbef j k Hj ltac:(lia)). lia.
    - enough (a <= k) by lia. apply (increasing_le f (Z.of_nat j) a k); [done|by rewrite Nat2Z.id|lia]. }
  destruct (around_mid f l a b Har Ha2 Hb2 ltac:(lia) Hkb) as (m & k & Hk1 & Hm & Hk2 & Hm0 & Hdown & Hup).
  rewrite Hk1, <- Hm. cbn [rbind]. destruct (Z.ltb_spec key k) as [Hlt|Hge].
  { destruct (Hdown Hlt) as [Hd ?]. apply IH; [done|lia]. }
  destruct (Z.ltb_spec k key) as [Hlt|Hge2].
  { destruct (Hup Hlt) as [Hu ?]. apply IH; [done|lia]. }
  exists m. split; [done|]. apply (cut_le m k); [done|lia|lia|]. intros j x Hj Hlt.
  assert (key = k) as -> by lia. apply (Hinc (Z.to_nat m) j k x); [lia|done|done].
Qed.

Lemma search_oldest_spec : forall fuel f l, around f l -> l - f < Z.of_nat fuel ->
  exists r n, search_oldest fuel kl (Z.of_nat (length K)) key f l = Ret r /\ cut (fun k => k < key) K n /\
    r = if n =? Z.of_nat (length K) then -1 else n.
Proof using Hkl Hinc.
  induction fuel as [|fuel IH]; intros f l Har Hfuel; [destruct Har; lia|]. pose proof Har as (Hfl & Hl & Hbef & Haft).
  destruct (kl_at f ltac:(lia)) as (a & Ha1 & Ha2). destruct (kl_at l ltac:(lia)) as (b & Hb1 & Hb2).
  cbn [search_oldest]. rewrite Ha1. cbn [rbind]. destruct (Z.leb_spec key a) as [Hka|Hak].
  { exists f, f. split; [done|]. split; [by apply (cut_lt f a); [|lia|..]|].
    by rewrite (proj2 (Z.eqb_neq _ _)) by lia. }
  rewrite Hb1. cbn [rbind]. destruct (Z.eqb_spec key b) as [Heq|Hne].
  { exists l, l. split; [done|]. split; [|by rewrite (proj2 (Z.eqb_neq _ _)) by lia].
    apply (cut_lt l b); [done|lia|lia|]. intros j k Hj Hlt. rewrite Heq. apply (Hinc j (Z.to_nat l) k b); [lia|done|done]. }
  destruct (Z.ltb_spec b key) as [Hbk|Hkb].
  { assert (Hc : cut (fun k => k < key) K (l + 1)).
    { split; [lia|]. split; intros j k Hj Hlt.
      - enough (k <= b) by lia. apply (increasing_le (Z.of_nat j) l k b); [by rewrite Nat2Z.id|done|lia].
      - intros ?. specialize (Haft j k Hj ltac:(lia)). lia. }
    exists (if l + 1 =? Z.of_nat (length K) then -1 else l + 1), (l + 1). split; [|done].
    destruct (Z.leb_spec (Z.of_nat (length K)) (l + 1)), (Z.eqb_spec (l + 1) (Z.of_nat (length K))); (done || lia). }
  destruct (around_mid f l a b Har Ha2 Hb2 ltac:(lia) ltac:(lia)) as (m & k & Hk1 & Hm & Hk2 & Hm0 & Hdown & Hup).
  rewrite Hk1, <- Hm. cbn [rbind]. destruct (Z.ltb_spec key k) as [Hlt|Hge].
  { destruct (Hdown Hlt) as [Hd ?]. apply IH; [done|lia]. }
  destruct (Z.ltb_spec k key) as [Hlt|Hge2].
  { destruct (Hup Hlt) as [Hu ?]. apply IH; [done|lia]. }
  pose proof (lookup_lt_Some _ _ _ Hk2).
  exists m, m. split; [done|]. split; [|by rewrite (proj2 (Z.eqb_neq _ _)) by lia].
  apply (cut_lt m k); [done|lia|lia|]. intros j x Hj Hlt. assert (key = k) as -> by lia.
  apply (Hinc j (Z.to_nat m) x k); [lia|done|done].
Qed.
End Search.

(** The keys at an address. *)
Definition keys_at (mem : list Z) (off : Z) (K : list Z) : Prop :=
  forall j k, K !! j = Some k -> keyList mem off (Z.of_nat j) = Ret k.

(** In a column of increasing keys, the search from the newest finds the last key
    that is not larger than [key], [-1] if all are. *)
Lemma search_newest_column mem off K key : keys_at mem off K -> increasing K ->
  exists r, vnodeBinarySearchKey mem off (Z.of_nat (length K)) key 0 = Ret r /\ cut (fun k => k <= key) K (r + 1).
Proof.
  intros Hat Hinc. unfold vnodeBinarySearchKey. destruct (Z.leb_spec (Z.of_nat (length K)) 0) as [Hle|Hgt].
  - exists (-1). split; [done|]. destruct K; [|cbn in Hle; lia]. split; [cbn; lia|]. split; intros j k Hj; by rewrite lookup_nil in Hj.
  - cbn [Z.eqb]. apply (search_newest_spec _ K); [done|done| |lia]. split; [lia|]. split; [lia|].
    split; intros j k Hj ?; [lia|]. apply lookup_lt_Some in Hj. lia.
Qed.

(** The search from the oldest finds the first key that is not smaller. *)
Lemma search_oldest_column mem off K key : keys_at mem off K -> increasing K ->
  exists r n, vnodeBinarySearchKey mem off (Z.of_nat (length K)) key 1 = Ret r /\ cut (fun k => k < key) K n /\
    r = if n =? Z.of_nat (length K) then -1 else n.
Proof.
  intros Hat Hinc. unfold vnodeBinarySearchKey. destruct (Z.leb_spec (Z.of_nat (length K)) 0) as [Hle|Hgt].
  - exists (-1), 0. split; [done|]. destruct K; [|cbn in Hle; lia]. split; [|done].
    split; [cbn; lia|]. split; intros j k Hj; by rewrite lookup_nil in Hj.
  - cbn [Z.eqb]. apply (search_oldest_spec _ K); [done|done| |lia]. split; [lia|]. split; [lia|].
    split; intros j k Hj ?; [lia|]. apply lookup_lt_Some in Hj. lia.
Qed.
