(* ===== verification/CachePool.v ===== *)
(** * The cache of a vnode (system/src/vnodeCache.c)

    A pool of memory blocks is shared by the tables of a vnode.  Each table has a
    circular list of blocks that hold its latest rows, column by column; a block
    whose rows are committed is taken from the table that has it, oldest first,
    when a table needs one and comes by it. *)
From S2P Require Import Prelude.

(** ** Data

    [offset] and the addresses in it are relative to the block; [b_mem] is the
    memory of the block, of which the header and the offsets are the fields.
    [pMeterObj] is the key of the table in [meters]. *)
Record SCacheBlock := mkBlock {
  notFree : bool; numOfPoints : Z (* short *); slot : Z; index : Z; blockId : Z;
  pMeterObj : option Z; offset : list Z; b_mem : list Z }.

(** [cacheBlocks] holds the numbers of blocks in the pool; [None] is NULL. *)
Record SCacheInfo := mkInfo {
  blocks : Z; maxBlocks : Z; numOfBlocks : Z; unCommittedBlocks : Z; currentSlot : Z;
  commitSlot : Z; commitPoint : Z; cacheBlocks : list (option nat) }.

(** [schema] is the width of each column. *)
Record SMeterObj := mkMeter {
  schema : list Z; bytesPerPoint : Z; pointsPerFileBlock : Z; pointsPerBlock : Z;
  freePoints : Z; commitCount : Z; lastKey : Z; pCache : option SCacheInfo }.
Definition numOfColumns (m : SMeterObj) : Z := Z.of_nat (length (schema m)).

Record SCachePool := mkPool {
  pMem : list SCacheBlock; freeSlot : Z; count : Z (* uint64 *); notFreeSlots : Z; threshold : Z;
  commitInProcess : bool; unsynced : bool; cacheBlockSize : Z; blocksPerMeter : Z }.
Definition totalBlocks (p : SCachePool) : Z := Z.of_nat (length (pMem p)).

Record cache := mkCache { pool : SCachePool; meters : gmap Z SMeterObj }.

Definition SIZEOF_SCacheBlock := 32.
Definition SIZEOF_PTR := 8.

(** ** Field updates *)
Definition set_pool (p : SCachePool) (c : cache) : cache := mkCache p (meters c).
Definition set_meter (m : Z) (o : SMeterObj) (c : cache) : cache := mkCache (pool c) (<[m := o]> (meters c)).
Definition with_mem (l : list SCacheBlock) (p : SCachePool) : SCachePool :=
  mkPool l (freeSlot p) (count p) (notFreeSlots p) (threshold p) (commitInProcess p) (unsynced p) (cacheBlockSize p)
    (blocksPerMeter p).
Definition with_slots (free notfree : Z) (p : SCachePool) : SCachePool :=
  mkPool (pMem p) free (count p) notfree (threshold p) (commitInProcess p) (unsynced p) (cacheBlockSize p)
    (blocksPerMeter p).
Definition with_count (n : Z) (p : SCachePool) : SCachePool :=
  mkPool (pMem p) (freeSlot p) n (notFreeSlots p) (threshold p) (commitInProcess p) (unsynced p) (cacheBlockSize p)
    (blocksPerMeter p).
Definition with_commit (b : bool) (p : SCachePool) : SCachePool :=
  mkPool (pMem p) (freeSlot p) (count p) (notFreeSlots p) (threshold p) b (unsynced p) (cacheBlockSize p)
    (blocksPerMeter p).
Definition set_block (i : nat) (b : SCacheBlock) (c : cache) : cache :=
  set_pool (with_mem (<[i := b]> (pMem (pool c))) (pool c)) c.
Definition with_info (i : SCacheInfo) (m : SMeterObj) : SMeterObj :=
  mkMeter (schema m) (bytesPerPoint m) (pointsPerFileBlock m) (pointsPerBlock m) (freePoints m) (commitCount m) (lastKey m)
    (Some i).
Definition with_points (fp : Z) (cc : Z) (m : SMeterObj) : SMeterObj :=
  mkMeter (schema m) (bytesPerPoint m) (pointsPerFileBlock m) (pointsPerBlock m) fp cc (lastKey m) (pCache m).
Definition with_lastKey (k : Z) (m : SMeterObj) : SMeterObj :=
  mkMeter (schema m) (bytesPerPoint m) (pointsPerFileBlock m) (pointsPerBlock m) (freePoints m) (commitCount m) k (pCache m).

Definition block (c : cache) (i : nat) : res SCacheBlock := match pMem (pool c) !! i with Some b => Ret b | None => Undef end.
Definition meter (c : cache) (m : Z) : res SMeterObj := match meters c !! m with Some o => Ret o | None => Undef end.
Definition info (o : SMeterObj) : res SCacheInfo := match pCache o with Some i => Ret i | None => Undef end.
(** [pInfo->cacheBlocks\[s\]] *)
Definition block_at (i : SCacheInfo) (s : Z) : res (option nat) :=
  if s <? 0 then Undef else match cacheBlocks i !! Z.to_nat s with Some x => Ret x | None => Undef end.
Definition deref (x : option nat) : res nat := match x with Some i => Ret i | None => Undef end.

(** ** Opening

    [malloc] and [calloc] succeed.  A block is [cacheBlockSize] zero bytes; a
    block of more than 1 GB is refused.  [totalBlocks * 0.6] in doubles, cut to a [long],
    is the quotient below. *)
Definition zero_block (size : Z) : SCacheBlock := mkBlock false 0 0 0 0 None [] (replicate (Z.to_nat size) 0).
Definition vnodeOpenCachePool (blockSize total perMeter : Z) : option SCachePool :=
  let maxAllocBlock := Z.quot (1024 * 1024 * 1024) blockSize in
  if maxAllocBlock <? 1 then None
  else Some (mkPool (replicate (Z.to_nat total) (zero_block blockSize)) 0 1 0 (Z.quot (total * 6) 10) false false blockSize perMeter).

Definition vnodeAllocateCacheInfo (m : Z) (c : cache) : res cache :=
  let! o := meter c m in
  let maxB := blocksPerMeter (pool c) in
  let i := mkInfo 0 maxB 0 0 (-1) 0 0 (replicate (Z.to_nat maxB) None) in
  let ppb := i32 (u64 (cacheBlockSize (pool c) - SIZEOF_SCacheBlock - numOfColumns o * SIZEOF_PTR) / u64 (bytesPerPoint o)) in
  let ppb := if pointsPerFileBlock o <? ppb then pointsPerFileBlock o else ppb in
  Ret (set_meter m (mkMeter (schema o) (bytesPerPoint o) (pointsPerFileBlock o) ppb (i32 (ppb * maxB)) (commitCount o)
                      (lastKey o) (Some i)) c).

(** ** Freeing *)

(** The header of a block is cleared, not its offsets and its rows. *)
Definition vnodeFreeCacheBlock (x : option nat) (c : cache) : res (Z * cache) :=
  match x with
  | None => Ret (-1, c)
  | Some i =>
    let! b := block c i in
    let! m := match pMeterObj b with Some m => Ret m | None => Undef end in
    let! o := meter c m in
    let! pi := info o in
    let pi := mkInfo (blocks pi) (maxBlocks pi) (i32 (numOfBlocks pi - 1)) (unCommittedBlocks pi) (currentSlot pi)
                (commitSlot pi) (commitPoint pi) (cacheBlocks pi) in
    let c := set_meter m (with_info pi o) c in
    let p := pool c in
    let c := if notFree b then set_pool (with_slots (freeSlot p) (notFreeSlots p - 1) p) c else c in
    Ret (0, set_block i (mkBlock false 0 0 0 0 None (offset b) (b_mem b)) c)
  end.

Fixpoint free_blocks (n : nat) (pi : SCacheInfo) (s : Z) (c : cache) : res cache :=
  match n with
  | O => Ret c
  | S n =>
    let! x := block_at pi s in
    let! '(_, c) := vnodeFreeCacheBlock x c in
    free_blocks n pi (Z.rem (s - 1 + maxBlocks pi) (maxBlocks pi)) c
  end.

Definition vnodeFreeCacheInfo (m : Z) (c : cache) : res cache :=
  let! o := meter c m in
  match pCache o with
  | None => Ret c
  | Some pi =>
    let! c := free_blocks (Z.to_nat (numOfBlocks pi)) pi (currentSlot pi) c in
    let! o := meter c m in
    Ret (set_meter m (mkMeter (schema o) (bytesPerPoint o) (pointsPerFileBlock o) (pointsPerBlock o) (freePoints o)
                        (commitCount o) (lastKey o) None) c)
  end.

(** ** The end of a commit *)

(** One block is marked; [pInfo] and the pool count it off. *)
Definition commit_block (m s : Z) (c : cache) : res cache :=
  let! o := meter c m in
  let! pi := info o in
  let! x := block_at pi s in
  let! i := deref x in
  let! b := block c i in
  if negb (notFree b) then Exit
  else
    let c := set_block i (mkBlock false (numOfPoints b) (slot b) (index b) (blockId b) (pMeterObj b) (offset b) (b_mem b)) c in
    let c := set_meter m (with_info (mkInfo (blocks pi) (maxBlocks pi) (numOfBlocks pi) (i32 (unCommittedBlocks pi - 1))
               (currentSlot pi) (commitSlot pi) (commitPoint pi) (cacheBlocks pi)) o) c in
    Ret (set_pool (with_slots (freeSlot (pool c)) (notFreeSlots (pool c) - 1) (pool c)) c).

Fixpoint commit_loop (fuel : nat) (m maxB ppb s pos tslot slots : Z) (c : cache) : res (Z * cache) :=
  match fuel with
  | O => NoFuel
  | S fuel =>
    if negb (tslot =? s) || ((tslot =? s) && (pos =? ppb)) then
      let! c := commit_block m tslot c in
      if tslot =? s then Ret (slots + 1, c)
      else commit_loop fuel m maxB ppb s pos (Z.rem (tslot + 1) maxB) (slots + 1) c
    else Ret (slots, c)
  end.

Definition vnodeUpdateCommitInfo (m s pos cnt : Z) (c : cache) : res cache :=
  let! o := meter c m in
  let! pi := info o in
  let ppb := pointsPerBlock o in
  let tslot := if commitPoint pi =? ppb then Z.rem (commitSlot pi + 1) (maxBlocks pi) else commitSlot pi in
  let! '(slots, c) := commit_loop (S (Z.to_nat (maxBlocks pi))) m (maxBlocks pi) ppb s pos tslot 0 c in
  let! o := meter c m in
  let! pi := info o in
  Ret (set_meter m (with_info (mkInfo (blocks pi) (maxBlocks pi) (numOfBlocks pi) (unCommittedBlocks pi)
         (currentSlot pi) s pos (cacheBlocks pi)) (with_points (i32 (freePoints o + ppb * slots)) cnt o)) c).

(** ** Allocating *)
Definition vnodeCreateCommitThread (p : SCachePool) : SCachePool :=
  if commitInProcess p then p else if unsynced p then p else with_commit true p.

(** The oldest block of the table that has the committed block at [freeSlot]. *)
Definition evict (b : SCacheBlock) (c : cache) : res (option cache) :=
  let! rm := match pMeterObj b with Some m => Ret m | None => Undef end in
  let! ro := meter c rm in
  let! ri := info ro in
  let firstSlot := Z.rem (currentSlot ri - numOfBlocks ri + 1 + maxBlocks ri) (maxBlocks ri) in
  let! x := block_at ri firstSlot in
  match x with
  | Some j =>
    let! fb := block c j in
    let c := set_pool (with_slots (index fb) (notFreeSlots (pool c)) (pool c)) c in
    let! '(_, c) := vnodeFreeCacheBlock (Some j) c in
    Ret (Some c)
  | None => Ret None
  end.

(** [pPool->freeSlot] moves to a block that can be used; [false]: too many blocks
    that are not committed were passed. *)
Fixpoint find_free (fuel : nat) (skipped : Z) (c : cache) : res (bool * cache) :=
  match fuel with
  | O => NoFuel
  | S fuel =>
    let p := pool c in
    let next := Z.rem (freeSlot p + 1) (totalBlocks p) in
    let! b := block c (Z.to_nat (freeSlot p)) in
    if blockId b =? 0 then Ret (true, c)
    else if notFree b then
      let c := set_pool (with_slots next (notFreeSlots p) p) c in
      if threshold p <? skipped + 1 then Ret (false, set_pool (vnodeCreateCommitThread (pool c)) c)
      else find_free fuel (skipped + 1) c
    else
      let! r := evict b c in
      match r with
      | Some c => Ret (true, c)
      | None => find_free fuel (skipped + 1) (set_pool (with_slots next (notFreeSlots p) p) c)
      end
  end.

(** [offset\[0\]] and those of the columns behind it. *)
Fixpoint col_offsets (off ppb : Z) (cols : list Z) : list Z :=
  match cols with
  | [] => []
  | w :: cols => off :: col_offsets (off + w * ppb) ppb cols
  end.

(** The block at [freeSlot] becomes the newest of the table; its oldest block is
    freed if it has too many now, and a commit is asked for if too many blocks are
    not committed. *)
Definition take_block (m : Z) (c : cache) : res (Z * cache) :=
  let p := pool c in
  let idx := freeSlot p in
  let! b := block c (Z.to_nat idx) in
  let c := set_pool (with_slots (Z.rem (idx + 1) (totalBlocks p)) (notFreeSlots p + 1) p) c in
  let! o := meter c m in
  let! pi := info o in
  let nblocks := i64 (blocks pi + 1) in
  let cur := Z.rem (currentSlot pi + 1) (maxBlocks pi) in
  let num := i32 (numOfBlocks pi + 1) in
  let offs := col_offsets (SIZEOF_SCacheBlock + numOfColumns o * SIZEOF_PTR) (pointsPerBlock o) (schema o) in
  let c := set_block (Z.to_nat idx) (mkBlock true (numOfPoints b) cur idx nblocks (Some m) offs (b_mem b)) c in
  let c := set_meter m (with_info (mkInfo nblocks (maxBlocks pi) num (i32 (unCommittedBlocks pi + 1)) cur
             (commitSlot pi) (commitPoint pi) (cacheBlocks pi)) o) c in
  let! c := (if maxBlocks pi <? num then
      let! o := meter c m in
      let! pi := info o in
      let! x := block_at pi cur in
      let! '(_, c) := vnodeFreeCacheBlock x c in Ret c
    else Ret c) in
  let! o := meter c m in
  let! pi := info o in
  if Z.of_nat (length (cacheBlocks pi)) <=? cur then Undef
  else
    let pi := mkInfo (blocks pi) (maxBlocks pi) (numOfBlocks pi) (unCommittedBlocks pi) (currentSlot pi)
                (commitSlot pi) (commitPoint pi) (<[Z.to_nat cur := Some (Z.to_nat idx)]> (cacheBlocks pi)) in
    let c := set_meter m (with_info pi o) c in
    if (threshold (pool c) <? notFreeSlots (pool c)) || (Z.quot (maxBlocks pi) 2 <=? unCommittedBlocks pi)
    then Ret (1, set_pool (vnodeCreateCommitThread (pool c)) c)
    else Ret (0, c).

Definition vnodeAllocateCacheBlock (m : Z) (c : cache) : res (Z * cache) :=
  let! o := meter c m in
  match pCache o with
  | None => Ret (-1, c)
  | Some pi =>
    if maxBlocks pi - 1 <=? unCommittedBlocks pi then Ret (-1, set_pool (vnodeCreateCommitThread (pool c)) c)
    else
      let! '(found, c) := find_free (2 * length (pMem (pool c))) 0 c in
      if negb found then Ret (-1, c) else take_block m c
  end.

(** ** Inserting *)

(** The columns of a row are copied behind those of the rows before it. *)
Fixpoint put_row (cols offs : list Z) (n : Z) (data mem : list Z) : res (list Z) :=
  match cols, offs with
  | w :: cols, off :: offs =>
    let! d := rd data 0 w in
    let! mem := wr mem (off + n * w) d in
    put_row cols offs n (drop (Z.to_nat w) data) mem
  | [], _ => Ret mem
  | _, [] => Undef
  end.

(** The row goes into the newest block of the table. *)
Definition store_row (m : Z) (data : list Z) (c : cache) : res (Z * cache) :=
  let! o := meter c m in
  let! pi := info o in
  let! x := block_at pi (currentSlot pi) in
  let! i := deref x in
  let! b := block c i in
  let! mem := put_row (schema o) (offset b) (numOfPoints b) data (b_mem b) in
  let c := set_meter m (with_points (i32 (freePoints o - 1)) (commitCount o) o) c in
  let c := set_block i (mkBlock (notFree b) (i16 (numOfPoints b + 1)) (slot b) (index b) (blockId b) (pMeterObj b)
             (offset b) mem) c in
  Ret (0, set_pool (with_count (u64 (count (pool c) + 1)) (pool c)) c).

Definition vnodeInsertPointToCache (m : Z) (data : list Z) (c : cache) : res (Z * cache) :=
  let! o := meter c m in
  let! pi := info o in
  let! '(code, c) := (if numOfBlocks pi =? 0 then vnodeAllocateCacheBlock m c else Ret (0, c)) in
  if code <? 0 then Ret (-1, c)
  else
    let! o := meter c m in
    let! pi := info o in
    if currentSlot pi <? 0 then Ret (-1, c)
    else
      let! x := block_at pi (currentSlot pi) in
      let! i := deref x in
      let! b := block c i in
      let! '(code, c) := (if pointsPerBlock o <=? numOfPoints b then vnodeAllocateCacheBlock m c else Ret (0, c)) in
      if code <? 0 then Ret (-1, c) else store_row m data c.

Definition vnodeIsCacheCommitted (m : Z) (c : cache) : res bool :=
  let! o := meter c m in
  match pCache o with
  | None => Ret true
  | Some pi =>
    if currentSlot pi <? 0 then Ret true
    else
      let! x := block_at pi (currentSlot pi) in
      let! i := deref x in
      let! b := block c i in
      Ret ((commitSlot pi =? currentSlot pi) && (commitPoint pi =? numOfPoints b))
  end.

(** ** A batch of rows (vnodeMeter.c)

    The part of [vnodeInsertPoints] that decides whether a batch is taken and that
    gives its rows to the cache: [deleting] is [state >= TSDB_METER_STATE_DELETING],
    [tsKey] the time and [msPerDay] that of the precision. *)
Definition TSDB_CODE_ACTION_IN_PROGRESS := 1.
Definition TSDB_CODE_NOT_ACTIVE_SESSION := 20.
Definition TSDB_CODE_BATCH_SIZE_TOO_BIG := 104.
Definition TSDB_CODE_TIMESTAMP_OUT_OF_RANGE := 105.

Definition valid_timestamp (key curKey msPerDay : Z) : bool := (0 <=? key) && (key <=? curKey + 36500 * msPerDay).

Fixpoint insert_rows (m : Z) (deleting : bool) (tsKey msPerDay points : Z) (rows : list (list Z)) (c : cache) : res (Z * Z * cache) :=
  match rows with
  | [] => Ret (0, points, c)
  | row :: rows =>
    if deleting then Ret (TSDB_CODE_NOT_ACTIVE_SESSION, points, c)
    else
      let! d := rd row 0 8 in
      let key := i64 (le_val d) in
      let! o := meter c m in
      if key <=? lastKey o then insert_rows m deleting tsKey msPerDay points rows c
      else if negb (valid_timestamp key tsKey msPerDay) then Ret (TSDB_CODE_TIMESTAMP_OUT_OF_RANGE, points, c)
      else
        let! '(code, c) := vnodeInsertPointToCache m row c in
        if code <? 0 then Ret (TSDB_CODE_ACTION_IN_PROGRESS, points, c)
        else
          let! o := meter c m in
          insert_rows m deleting tsKey msPerDay (points + 1) rows (set_meter m (with_lastKey key o) c)
  end.

Definition insert_points (m : Z) (deleting : bool) (tsKey msPerDay : Z) (rows : list (list Z)) (c : cache) : res (Z * Z * cache) :=
  let! o := meter c m in
  let n := Z.of_nat (length rows) in
  if (blocksPerMeter (pool c) - 2) * pointsPerBlock o <=? n then Ret (TSDB_CODE_BATCH_SIZE_TOO_BIG, 0, c)
  else if (freePoints o <? n) || (freePoints o <? Z.shiftl (pointsPerBlock o) 1)
          || (totalBlocks (pool c) - 2 <? notFreeSlots (pool c))
  then Ret (TSDB_CODE_ACTION_IN_PROGRESS, 0, set_pool (vnodeCreateCommitThread (pool c)) c)
  else insert_rows m deleting tsKey msPerDay 0 rows c.

(** ** Reading the rows of a table back *)

(** The row [n] of a block. *)
Fixpoint get_row (cols offs : list Z) (n : Z) (mem : list Z) : res (list Z) :=
  match cols, offs with
  | w :: cols, off :: offs =>
    let! d := rd mem (off + n * w) w in
    let! rest := get_row cols offs n mem in Ret (d ++ rest)
  | [], _ => Ret []
  | _, [] => Undef
  end.
Fixpoint get_rows (cols offs : list Z) (n : nat) (mem : list Z) : res (list (list Z)) :=
  match n with
  | O => Ret []
  | S n => let! l := get_rows cols offs n mem in let! r := get_row cols offs (Z.of_nat n) mem in Ret (l ++ [r])
  end.
