(* ===== verification/CacheInv.v ===== *)
(** * The invariant of the cache

    What an operation leaves alone, the rows of a block, and then the invariant: which blocks
    a table has, in which order, and which rows are in them ([ghost]). *)
From S2P Require Import Prelude CachePool.

(** * What no operation of the cache changes *)

(** The size and the limits of the pool. *)
Definition pcfg (c : cache) : nat * Z * Z * Z :=
  (length (pMem (pool c)), threshold (pool c), cacheBlockSize (pool c), blocksPerMeter (pool c)).

Lemma pcfg_block i b c : pcfg (set_block i b c) = pcfg c.
Proof. unfold pcfg. cbn. by rewrite length_insert. Qed.
Lemma pcfg_meter m o c : pcfg (set_meter m o c) = pcfg c.
Proof. done. Qed.
Lemma pcfg_slots a b c : pcfg (set_pool (with_slots a b (pool c)) c) = pcfg c.
Proof. done. Qed.
Lemma pcfg_count a c : pcfg (set_pool (with_count a (pool c)) c) = pcfg c.
Proof. done. Qed.
Lemma pcfg_thread p c : pcfg (set_pool (vnodeCreateCommitThread p) c) = pcfg (set_pool p c).
Proof. unfold pcfg, vnodeCreateCommitThread. by destruct (commitInProcess p), (unsynced p). Qed.
Create Rewrite HintDb pcfg.
#[local] Hint Rewrite pcfg_block pcfg_meter pcfg_slots pcfg_count pcfg_thread : pcfg.

(** [walk] follows an operation that returned through its branches. *)
Ltac walk := repeat match goal with
  | H : rbind _ _ = Ret _ |- _ => apply rbind_Ret_inv in H as (? & ? & H)
  | H : (let '(_, _) := ?x in _) = Ret _ |- _ => destruct x
  | H : (if ?b then _ else _) = Ret _ |- _ => destruct b
  | H : match ?x with Some _ => _ | None => _ end = Ret _ |- _ => destruct x
  | H : Ret _ = Ret _ |- _ => injection H as H; subst
  | H : _ = Ret _ |- _ => discriminate H
  end.

Ltac pcfg_done := autorewrite with pcfg; try done; try (unfold pcfg; cbn; rewrite ?length_insert; done).

Lemma free_block_pcfg x c z c' : vnodeFreeCacheBlock x c = Ret (z, c') -> pcfg c' = pcfg c.
Proof.
  unfold vnodeFreeCacheBlock. intros H. walk; [|done]. autorewrite with pcfg. by destruct (notFree _).
Qed.

Lemma free_blocks_pcfg n : forall pi s c c', free_blocks n pi s c = Ret c' -> pcfg c' = pcfg c.
Proof.
  induction n as [|n IH]; intros pi s c c' H; cbn in H; walk; [done|].
  rewrite (IH _ _ _ _ H). by eapply free_block_pcfg.
Qed.

Lemma free_info_pcfg m c c' : vnodeFreeCacheInfo m c = Ret c' -> pcfg c' = pcfg c.
Proof. unfold vnodeFreeCacheInfo. intros H. walk; [|done]. autorewrite with pcfg. by eapply free_blocks_pcfg. Qed.

Lemma commit_loop_pcfg fuel : forall m mb ppb s pos t n c n' c', commit_loop fuel m mb ppb s pos t n c = Ret (n', c') -> pcfg c' = pcfg c.
Proof.
  induction fuel as [|fuel IH]; intros m mb ppb s pos t n c n' c' H; [done|]. cbn in H. unfold commit_block in H. walk; try done;
    try (rewrite (IH _ _ _ _ _ _ _ _ _ _ H)); pcfg_done.
Qed.

Lemma update_commit_pcfg m s pos cnt c c' : vnodeUpdateCommitInfo m s pos cnt c = Ret c' -> pcfg c' = pcfg c.
Proof.
  unfold vnodeUpdateCommitInfo. intros H. walk; autorewrite with pcfg.
  by eapply commit_loop_pcfg.
Qed.

Lemma evict_pcfg b c c' : evict b c = Ret (Some c') -> pcfg c' = pcfg c.
Proof. unfold evict. intros H. walk; try done. by erewrite free_block_pcfg by done. Qed.

Lemma find_free_pcfg fuel : forall n c r c', find_free fuel n c = Ret (r, c') -> pcfg c' = pcfg c.
Proof.
  induction fuel as [|fuel IH]; intros n c r c' H; [done|]. cbn in H. walk; pcfg_done;
    try (by rewrite (IH _ _ _ _ H)); by eapply evict_pcfg.
Qed.

Lemma take_block_pcfg m c r c' : take_block m c = Ret (r, c') -> pcfg c' = pcfg c.
Proof.
  unfold take_block. intros H. walk;
    repeat match goal with H : vnodeFreeCacheBlock _ _ = Ret _ |- _ => apply free_block_pcfg in H end; pcfg_done;
    match goal with H : pcfg _ = pcfg _ |- _ => autorewrite with pcfg in H end; pcfg_done; congruence.
Qed.

Lemma allocate_pcfg m c r c' : vnodeAllocateCacheBlock m c = Ret (r, c') -> pcfg c' = pcfg c.
Proof.
  unfold vnodeAllocateCacheBlock. intros H. walk; autorewrite with pcfg; try done; [by eapply find_free_pcfg|].
  rewrite (take_block_pcfg _ _ _ _ H). by eapply find_free_pcfg.
Qed.

Lemma store_pcfg m row c r c' : store_row m row c = Ret (r, c') -> pcfg c' = pcfg c.
Proof. unfold store_row. intros H. walk. pcfg_done. Qed.

Lemma insert_pcfg m row c r c' : vnodeInsertPointToCache m row c = Ret (r, c') -> pcfg c' = pcfg c.
Proof.
  unfold vnodeInsertPointToCache. intros H. walk;
    repeat match goal with
      | H : vnodeAllocateCacheBlock _ _ = Ret _ |- _ => apply allocate_pcfg in H
      | H : store_row _ _ _ = Ret _ |- _ => apply store_pcfg in H
      end; congruence.
Qed.

Lemma insert_rows_pcfg m del ts ms rows : forall points c code k c', insert_rows m del ts ms points rows c = Ret (code, k, c') ->
  pcfg c' = pcfg c.
Proof.
  induction rows as [|r rows IH]; intros points c code k c' H; cbn in H; walk; try done; try (by eapply IH); try (by eapply insert_pcfg).
  rewrite (IH _ _ _ _ _ H). autorewrite with pcfg. by eapply insert_pcfg.
Qed.

Lemma insert_points_pcfg m del ts ms rows c code k c' : insert_points m del ts ms rows c = Ret (code, k, c') -> pcfg c' = pcfg c.
Proof.
  unfold insert_points. intros H. walk; try done; [by rewrite pcfg_thread|by eapply insert_rows_pcfg].
Qed.

Lemma allocate_info_pcfg m c c' : vnodeAllocateCacheInfo m c = Ret c' -> pcfg c' = pcfg c.
Proof. unfold vnodeAllocateCacheInfo. intros H. walk. done. Qed.

(** * Rows in a block of the cache

    Writing a row copies its columns into a block; reading it back gives the row,
    and the other rows of the block are as before. *)

Definition row_width (cols : list Z) : Z := foldr Z.add 0 cols.

Lemma row_width_nonneg cols : Forall (fun w => 0 <= w) cols -> 0 <= row_width cols.
Proof. unfold row_width. induction 1; cbn; lia. Qed.

(** A row depends on the bytes from the first column on only. *)
Lemma get_row_ext cols : forall off ppb n m1 m2, Forall (fun w => 0 <= w) cols -> 0 <= n -> 0 <= ppb ->
  (forall a l, off <= a -> rd m1 a l = rd m2 a l) ->
  get_row cols (col_offsets off ppb cols) n m1 = get_row cols (col_offsets off ppb cols) n m2.
Proof.
  induction cols as [|w cols IH]; intros off ppb n m1 m2 Hc Hn Hp Hext; [done|].
  apply Forall_cons in Hc as [Hw Hc]. cbn [col_offsets get_row]. rewrite (Hext (off + n * w)) by nia.
  rewrite (IH (off + w * ppb) ppb n m1 m2); [done|done|done|done|]. intros a l Ha. apply Hext. nia.
Qed.

Lemma copy_row_spec cols : forall off ppb n data mem, Forall (fun w => 0 <= w) cols -> 0 <= off -> 0 <= n < ppb ->
  Z.of_nat (length data) = row_width cols -> off + ppb * row_width cols <= Z.of_nat (length mem) ->
  exists mem', put_row cols (col_offsets off ppb cols) n data mem = Ret mem' /\ length mem' = length mem /\
    get_row cols (col_offsets off ppb cols) n mem' = Ret data /\
    (forall j, 0 <= j < ppb -> j <> n ->
      get_row cols (col_offsets off ppb cols) j mem' = get_row cols (col_offsets off ppb cols) j mem) /\
    (forall a l, a + l <= off -> rd mem' a l = rd mem a l).
Proof.
  induction cols as [|w cols IH]; intros off ppb n data mem Hc Hoff Hn Hd Hm.
  { cbn in Hd. destruct data; [|done]. exists mem. done. }
  apply Forall_cons in Hc as [Hw Hc]. cbn [col_offsets put_row get_row row_width foldr] in *.
  fold (row_width cols) in *. pose proof (row_width_nonneg cols Hc) as Hrw.
  assert (Hrd : rd data 0 w = Ret (take (Z.to_nat w) data)).
  { unfold rd. rewrite bool_decide_true by lia. done. }
  assert (Hld : length (take (Z.to_nat w) data) = Z.to_nat w) by (rewrite length_take; lia).
  rewrite Hrd. cbn [rbind].
  destruct (wr_ok mem (off + n * w) (take (Z.to_nat w) data)) as (mem1 & Hwr & Hl1); [nia|rewrite Hld; nia|].
  rewrite Hwr. cbn [rbind].
  destruct (IH (off + w * ppb) ppb n (drop (Z.to_nat w) data) mem1 Hc) as (mem2 & Hput & Hl2 & Hget & Hoth & Hbelow).
  { nia. } { done. } { rewrite length_drop. lia. } { rewrite Hl1. nia. }
  exists mem2. split; [done|]. split; [congruence|]. split; [|split].
  - rewrite (Hbelow (off + n * w)) by nia. pose proof (rd_wr_same _ _ _ _ Hwr) as Hs. rewrite Hld, Z2Nat.id in Hs by done.
    rewrite Hs, Hget. cbn [rbind]. by rewrite take_drop.
  - intros j Hj Hjn. rewrite (Hbelow (off + j * w)) by nia.
    rewrite (rd_wr_other _ _ _ _ (off + j * w) w Hwr) by (rewrite Hld; nia).
    rewrite (Hoth j Hj Hjn). rewrite (get_row_ext cols (off + w * ppb) ppb j mem1 mem); [done|done|lia|lia|].
    intros a l Ha. apply (rd_wr_other _ _ _ _ a l Hwr). right. rewrite Hld. nia.
  - intros a l Ha. rewrite (Hbelow a l) by nia. apply (rd_wr_other _ _ _ _ a l Hwr). left. nia.
Qed.

(** ** The rows of a block *)
Definition rows_in (cols offs : list Z) (mem : list Z) (rows : list (list Z)) : Prop :=
  forall j r, rows !! j = Some r -> get_row cols offs (Z.of_nat j) mem = Ret r.

Lemma get_rows_in cols offs mem rows : rows_in cols offs mem rows -> get_rows cols offs (length rows) mem = Ret rows.
Proof.
  induction rows as [|r rows IH] using rev_ind; intros Hin; [done|].
  rewrite length_app, Nat.add_1_r. cbn [get_rows]. rewrite IH.
  - cbn [rbind]. rewrite (Hin (length rows) r) by (by rewrite lookup_app_r, Nat.sub_diag). done.
  - intros j x Hj. apply Hin. by apply lookup_app_l_Some.
Qed.

(** * The invariant of the cache

    A table stands for the rows it was given since its cache was made.  The block
    number [k] holds the [k]-th run of [pointsPerBlock] of them, at the place
    [k - 1] modulo [maxBlocks] of the circular list; the last [numOfBlocks] blocks
    are there, and of these the first are committed. *)

(** The rows of a table, the number of its newest block, how many blocks are
    marked as committed and how many rows are. *)
Record ghost := mkG { g_rows : list (list Z); g_hi : Z; g_done : Z; g_com : Z }.

Definition base (o : SMeterObj) : Z := SIZEOF_SCacheBlock + numOfColumns o * SIZEOF_PTR.
Definition offs_of (o : SMeterObj) : list Z := col_offsets (base o) (pointsPerBlock o) (schema o).
Definition chunk (ppb k : Z) (R : list (list Z)) : list (list Z) := take (Z.to_nat ppb) (drop (Z.to_nat ((k - 1) * ppb)) R).
Definition place (mb k : Z) : nat := Z.to_nat ((k - 1) mod mb).

Record geometry (bs : Z) (o : SMeterObj) : Prop := {
  ge_schema : Forall (fun w => 0 <= w) (schema o);
  ge_ppb : 1 <= pointsPerBlock o < 2 ^ 15;
  ge_room : base o + pointsPerBlock o * row_width (schema o) <= bs }.

Record block_ok (bs m : Z) (o : SMeterObj) (mb : Z) (g : ghost) (k : Z) (i : nat) (b : SCacheBlock) : Prop := {
  bo_id : blockId b = k;
  bo_meter : pMeterObj b = Some m;
  bo_slot : slot b = (k - 1) mod mb;
  bo_index : index b = Z.of_nat i;
  bo_free : notFree b = bool_decide (g_done g < k);
  bo_off : offset b = offs_of o;
  bo_mem : Z.of_nat (length (b_mem b)) = bs;
  bo_num : numOfPoints b = Z.of_nat (length (chunk (pointsPerBlock o) k (g_rows g)));
  bo_rows : rows_in (schema o) (offs_of o) (b_mem b) (chunk (pointsPerBlock o) k (g_rows g)) }.

Definition live (pi : SCacheInfo) (g : ghost) (k : Z) : Prop := g_hi g - numOfBlocks pi < k <= g_hi g.

Record core (bs : Z) (L : list SCacheBlock) (m : Z) (o : SMeterObj) (pi : SCacheInfo) (g : ghost) : Prop := {
  co_geo : geometry bs o;
  co_mb : 0 < maxBlocks pi < 2 ^ 30;
  co_len : length (cacheBlocks pi) = Z.to_nat (maxBlocks pi);
  co_nb : 0 <= numOfBlocks pi <= maxBlocks pi /\ numOfBlocks pi <= g_hi g < 2 ^ 62;
  co_live : forall k, live pi g k -> exists i b, cacheBlocks pi !! place (maxBlocks pi) k = Some (Some i) /\
    L !! i = Some b /\ block_ok bs m o (maxBlocks pi) g k i b }.

(** The blocks that are not committed. *)
Fixpoint nf_count (L : list SCacheBlock) : Z :=
  match L with [] => 0 | b :: L => (if notFree b then 1 else 0) + nf_count L end.

(** A block is free, or it is one of the blocks of a table. *)
Definition owned (c : cache) (G : gmap Z ghost) (i : nat) (b : SCacheBlock) : Prop :=
  exists m o pi g, pMeterObj b = Some m /\ meters c !! m = Some o /\ pCache o = Some pi /\ G !! m = Some g /\
    live pi g (blockId b) /\ cacheBlocks pi !! place (maxBlocks pi) (blockId b) = Some (Some i).
Definition is_clear (b : SCacheBlock) : Prop := blockId b = 0 /\ notFree b = false /\ numOfPoints b = 0 /\ pMeterObj b = None.

Record pool_ok (bs : Z) (c : cache) (G : gmap Z ghost) : Prop := {
  po_total : 0 < totalBlocks (pool c) < 2 ^ 30;
  po_free : 0 <= freeSlot (pool c) < totalBlocks (pool c);
  po_threshold : 0 <= threshold (pool c) < totalBlocks (pool c);
  po_count : notFreeSlots (pool c) = nf_count (pMem (pool c));
  po_own : forall i b, pMem (pool c) !! i = Some b -> Z.of_nat (length (b_mem b)) = bs /\
    (is_clear b \/ blockId b <> 0 /\ owned c G i b);
  po_meters : forall m o, meters c !! m = Some o ->
    match pCache o with
    | None => G !! m = None
    | Some pi => exists g, G !! m = Some g /\ core bs (pMem (pool c)) m o pi g
    end;
  po_ghost : forall m g, G !! m = Some g -> exists o pi, meters c !! m = Some o /\ pCache o = Some pi }.

(** ** Counting *)
Lemma nf_count_insert L : forall i b b', L !! i = Some b ->
  nf_count (<[i := b']> L) = nf_count L - (if notFree b then 1 else 0) + (if notFree b' then 1 else 0).
Proof.
  induction L as [|x L IH]; intros [|i] b b' Hi; try done; cbn in *.
  - injection Hi as ->. lia.
  - rewrite (IH _ _ _ Hi). lia.
Qed.

Lemma nf_count_range L : 0 <= nf_count L <= Z.of_nat (length L).
Proof. induction L as [|x L IH]; cbn; [lia|]. destruct (notFree x); lia. Qed.

(** ** Blocks and their tables *)
Lemma core_block bs c G m o pi : pool_ok bs c G -> meters c !! m = Some o -> pCache o = Some pi ->
  exists g, G !! m = Some g /\ core bs (pMem (pool c)) m o pi g.
Proof. intros Hp Ho Hpi. pose proof (po_meters _ _ _ Hp m o Ho) as H. by rewrite Hpi in H. Qed.

Lemma core_meter bs c G m g : pool_ok bs c G -> G !! m = Some g -> exists o pi, meters c !! m = Some o /\ pCache o = Some pi /\
  core bs (pMem (pool c)) m o pi g.
Proof.
  intros Hp Hg. destruct (po_ghost _ _ _ Hp m g Hg) as (o & pi & Ho & Hpi). exists o, pi. split; [done|]. split; [done|].
  destruct (core_block _ _ _ _ _ _ Hp Ho Hpi) as (g' & Hg' & Hc). congruence.
Qed.

(** A block that is not free is one of its table's, and as it should be. *)
Lemma own_block bs c G i b : pool_ok bs c G -> pMem (pool c) !! i = Some b -> blockId b <> 0 ->
  exists m o pi g, pMeterObj b = Some m /\ meters c !! m = Some o /\ pCache o = Some pi /\ G !! m = Some g /\
    core bs (pMem (pool c)) m o pi g /\ live pi g (blockId b) /\
    cacheBlocks pi !! place (maxBlocks pi) (blockId b) = Some (Some i) /\
    block_ok bs m o (maxBlocks pi) g (blockId b) i b.
Proof.
  intros Hp Hb Hid. destruct (po_own _ _ _ Hp i b Hb) as [_ [(? & _)|[_ (m & o & pi & g & Hm & Ho & Hpi & Hg & Hl & Hc)]]]; [done|].
  destruct (core_block _ _ _ _ _ _ Hp Ho Hpi) as (g' & Hg' & Hcore). assert (g' = g) as -> by congruence.
  exists m, o, pi, g. do 6 (split; [done|]). split; [done|].
  destruct (co_live _ _ _ _ _ _ Hcore _ Hl) as (i' & b' & Hc' & Hb' & Hok). rewrite Hc in Hc'. injection Hc' as <-.
  rewrite Hb in Hb'. by injection Hb' as <-.
Qed.

Lemma place_lt mb k : 0 < mb -> (place mb k < Z.to_nat mb)%nat.
Proof. intros Hm. unfold place. pose proof (Z.mod_pos_bound (k - 1) mb). lia. Qed.

(** Two live blocks of a table have different places. *)
Lemma place_inj mb k k' : 0 < mb -> place mb k = place mb k' -> Z.abs (k - k') < mb -> k = k'.
Proof.
  intros Hm E Hd. unfold place in E. apply Z2Nat.inj in E; [|apply Z.mod_pos_bound; lia..].
  assert ((k - 1 - (k' - 1)) mod mb = 0) as Hz by (rewrite Zminus_mod, E, Z.sub_diag; apply Z.mod_0_l; lia).
  apply Z.mod_divide in Hz as [q Hq]; [|lia].
  assert (Hq2 : Z.abs (k - k') = Z.abs q * mb) by (replace (k - k') with (q * mb) by lia; rewrite Z.abs_mul; lia).
  assert (q = 0) by nia. lia.
Qed.

(** A table keeps its blocks when the blocks of others change. *)
Lemma core_sub bs L L' m o o' pi pi' g g' : core bs L m o pi g ->
  schema o' = schema o -> pointsPerBlock o' = pointsPerBlock o ->
  maxBlocks pi' = maxBlocks pi -> cacheBlocks pi' = cacheBlocks pi -> g_rows g' = g_rows g -> g_done g' = g_done g ->
  0 <= numOfBlocks pi' <= maxBlocks pi' -> numOfBlocks pi' <= g_hi g' < 2 ^ 62 ->
  (forall k, live pi' g' k -> live pi g k /\
    forall i b, L !! i = Some b -> pMeterObj b = Some m -> blockId b = k -> L' !! i = Some b) ->
  core bs L' m o' pi' g'.
Proof.
  intros [[Hs Hppb Hroom] Hmb Hlen Hnb Hlive] Es Ep Em Ec Er Ed Hn1 Hn2 Hsub.
  constructor; [|by rewrite Em|by rewrite Ec, Em|lia|].
  - constructor; unfold base, numOfColumns in *; rewrite ?Es, ?Ep; done.
  - intros k Hk. destruct (Hsub k Hk) as [Hk0 Hsame]. destruct (Hlive k Hk0) as (i & b & Hc & Hb & Hok).
    exists i, b. rewrite Ec, Em. split; [done|]. split; [apply Hsame; [done|apply Hok|apply Hok]|].
    destruct Hok. constructor; unfold offs_of, base, numOfColumns in *; rewrite ?Es, ?Ep, ?Er, ?Ed; done.
Qed.

Lemma core_frame bs L L' m o pi g : core bs L m o pi g ->
  (forall i b, L !! i = Some b -> pMeterObj b = Some m -> L' !! i = Some b) -> core bs L' m o pi g.
Proof.
  intros Hc Hf. eapply core_sub; try done; try apply Hc. intros k Hk. split; [done|]. intros i b Hb Hm _. by apply Hf.
Qed.

(** ** Freeing the oldest or the newest block of a table *)
Definition cleared (b : SCacheBlock) : SCacheBlock := mkBlock false 0 0 0 0 None (offset b) (b_mem b).
Definition fewer (pi : SCacheInfo) : SCacheInfo :=
  mkInfo (blocks pi) (maxBlocks pi) (numOfBlocks pi - 1) (unCommittedBlocks pi) (currentSlot pi) (commitSlot pi)
    (commitPoint pi) (cacheBlocks pi).
Definition freed (c : cache) (m : Z) (o : SMeterObj) (pi : SCacheInfo) (i : nat) (b : SCacheBlock) : cache :=
  mkCache (with_mem (<[i := cleared b]> (pMem (pool c)))
             (with_slots (freeSlot (pool c)) (notFreeSlots (pool c) - (if notFree b then 1 else 0)) (pool c)))
    (<[m := with_info (fewer pi) o]> (meters c)).

Lemma free_eq c i b m o pi : pMem (pool c) !! i = Some b -> pMeterObj b = Some m -> meters c !! m = Some o ->
  pCache o = Some pi -> 0 < numOfBlocks pi < 2 ^ 31 -> vnodeFreeCacheBlock (Some i) c = Ret (0, freed c m o pi i b).
Proof.
  intros Hb Hm Ho Hpi Hn. unfold vnodeFreeCacheBlock, block, meter, info. rewrite Hb. cbn [rbind]. rewrite Hm. cbn [rbind].
  rewrite Ho. cbn [rbind]. rewrite Hpi. cbn [rbind]. rewrite (wraps_id 32) by (unfold in_s; lia).
  unfold freed. destruct c as [[] ms]. cbn. destruct (notFree b); cbn; rewrite ?Z.sub_0_r; reflexivity.
Qed.

(** Which block of the table goes, and what is left of it. *)
Definition less (pi : SCacheInfo) (g : ghost) (k : Z) : ghost :=
  if decide (k = g_hi g - numOfBlocks pi + 1) then g else mkG (g_rows g) (g_hi g - 1) (g_done g) (g_com g).

Lemma free_ok bs c G i b m o pi g : pool_ok bs c G -> pMem (pool c) !! i = Some b -> blockId b <> 0 ->
  pMeterObj b = Some m -> meters c !! m = Some o -> pCache o = Some pi -> G !! m = Some g ->
  blockId b = g_hi g - numOfBlocks pi + 1 \/ blockId b = g_hi g ->
  0 < numOfBlocks pi < 2 ^ 31 /\ pool_ok bs (freed c m o pi i b) (<[m := less pi g (blockId b)]> G).
Proof.
  intros Hp Hb Hid Hm Ho Hpi Hg Hends.
  destruct (own_block _ _ _ _ _ Hp Hb Hid) as (m' & o' & pi' & g' & Hm' & Ho' & Hpi' & Hg' & Hcore & Hl & Hc & Hok).
  assert (m' = m) as -> by congruence. assert (o' = o) as -> by congruence. assert (pi' = pi) as -> by congruence.
  assert (g' = g) as -> by congruence.
  pose proof (co_nb _ _ _ _ _ _ Hcore) as [Hnb Hnb2]. pose proof (co_mb _ _ _ _ _ _ Hcore) as Hmb. unfold live in Hl.
  split; [lia|].
  assert (Hlive : forall k, live (fewer pi) (less pi g (blockId b)) k -> live pi g k /\ k <> blockId b).
  { intros k. unfold live, less, fewer. cbn. destruct (decide _); cbn; lia. }
  assert (Hback : forall k, live pi g k -> k <> blockId b -> live (fewer pi) (less pi g (blockId b)) k).
  { intros k. unfold live, less, fewer. cbn. destruct (decide _); cbn; lia. }
  assert (Hil : (i < length (pMem (pool c)))%nat) by (by eapply lookup_lt_Some).
  assert (Hown : core bs (<[i := cleared b]> (pMem (pool c))) m (with_info (fewer pi) o) (fewer pi) (less pi g (blockId b))).
  { eapply core_sub; try exact Hcore; try done.
    - unfold less. by destruct (decide _).
    - unfold less. by destruct (decide _).
    - cbn. lia.
    - unfold less. destruct (decide _); cbn; lia.
    - intros k Hk. destruct (Hlive k Hk) as [Hk1 Hk2]. split; [done|]. intros j b' Hb' _ Hid'.
      rewrite list_lookup_insert_ne; [done|]. intros <-. congruence. }
  constructor; cbn; rewrite ?length_insert.
  - unfold totalBlocks. cbn. rewrite length_insert. apply Hp.
  - unfold totalBlocks. cbn. rewrite length_insert. apply Hp.
  - unfold totalBlocks. cbn. rewrite length_insert. apply Hp.
  - rewrite (nf_count_insert _ _ _ _ Hb), (po_count _ _ _ Hp). cbn. lia.
  - intros j b' Hj. destruct (decide (i = j)) as [<-|Hij].
    + rewrite list_lookup_insert_eq in Hj by done. injection Hj as <-.
      split; [apply (po_own _ _ _ Hp i b Hb)|left; done].
    + rewrite list_lookup_insert_ne in Hj by done. destruct (po_own _ _ _ Hp j b' Hj) as [Hml Hcase]. split; [done|].
      destruct Hcase as [?|[Hid' (m2 & o2 & pi2 & g2 & E1 & E2 & E3 & E4 & E5 & E6)]]; [by left|right]. split; [done|].
      unfold owned. cbn. destruct (decide (m = m2)) as [<-|Hmm].
      * exists m, (with_info (fewer pi) o), (fewer pi), (less pi g (blockId b)). rewrite !lookup_insert_eq.
        assert (pi2 = pi) as -> by congruence. assert (g2 = g) as -> by congruence.
        repeat (split; [done|]). split; [|done]. apply Hback; [done|]. intros E. rewrite E in E6. congruence.
      * exists m2, o2, pi2, g2. rewrite !lookup_insert_ne by done. done.
  - intros m2 o2 H2. destruct (decide (m = m2)) as [<-|Hmm].
    + rewrite lookup_insert_eq in H2. injection H2 as <-. cbn. exists (less pi g (blockId b)). by rewrite lookup_insert_eq.
    + rewrite lookup_insert_ne in H2 by done. rewrite lookup_insert_ne by done. pose proof (po_meters _ _ _ Hp m2 o2 H2) as H3.
      destruct (pCache o2); [|done]. destruct H3 as (g2 & Hg2 & Hc2). exists g2. split; [done|].
      eapply core_frame; [done|]. intros j b' Hj Hmj. rewrite list_lookup_insert_ne; [done|]. congruence.
  - intros m2 g2 H2. destruct (decide (m = m2)) as [<-|Hmm].
    + rewrite lookup_insert_eq. eauto.
    + rewrite lookup_insert_ne in H2 by done. rewrite lookup_insert_ne by done. by apply (po_ghost _ _ _ Hp m2 g2).
Qed.

(** ** A table between two operations *)
Definition nrows (g : ghost) : Z := Z.of_nat (length (g_rows g)).
Definition cur_slot (mb hi : Z) : Z := if hi =? 0 then -1 else (hi - 1) mod mb.

Record settled (o : SMeterObj) (pi : SCacheInfo) (g : ghost) : Prop := {
  se_blocks : blocks pi = g_hi g;
  se_cur : currentSlot pi = cur_slot (maxBlocks pi) (g_hi g);
  se_rows : (g_hi g - 1) * pointsPerBlock o <= nrows g <= g_hi g * pointsPerBlock o;
  se_empty : numOfBlocks pi = 0 -> nrows g = g_hi g * pointsPerBlock o;
  se_width : Forall (fun r => Z.of_nat (length r) = row_width (schema o)) (g_rows g);
  se_unc : unCommittedBlocks pi = g_hi g - g_done g;
  se_unc_range : 0 <= unCommittedBlocks pi <= numOfBlocks pi /\ unCommittedBlocks pi < maxBlocks pi;
  se_com : 0 <= g_com g <= nrows g /\ g_done g = g_com g / pointsPerBlock o;
  se_pos : exists k, commitSlot pi = (k - 1) mod maxBlocks pi /\ 1 <= k <= Z.max 1 (g_hi g) /\
    g_com g = (k - 1) * pointsPerBlock o + commitPoint pi /\ 0 <= commitPoint pi <= pointsPerBlock o;
  se_free : freePoints o = pointsPerBlock o * maxBlocks pi - (nrows g - pointsPerBlock o * g_done g);
  se_size : pointsPerBlock o * maxBlocks pi < 2 ^ 31 }.

Record inv (bs : Z) (c : cache) (G : gmap Z ghost) : Prop := {
  in_pool : pool_ok bs c G;
  in_settled : forall m o pi g, meters c !! m = Some o -> pCache o = Some pi -> G !! m = Some g -> settled o pi g }.

Lemma slot_back mb hi n : 0 < mb -> 0 < hi -> 0 <= n <= mb ->
  Z.rem (cur_slot mb hi - n + 1 + mb) mb = (hi - n) mod mb.
Proof.
  intros Hm Hh Hn. unfold cur_slot. rewrite (proj2 (Z.eqb_neq _ _)) by lia.
  pose proof (Z.mod_pos_bound (hi - 1) mb Hm). rewrite rem_mod by lia.
  replace (hi - n) with (hi - 1 + (- n + 1)) by lia. rewrite <- (Z.add_mod_idemp_l (hi - 1)) by lia.
  replace ((hi - 1) mod mb - n + 1 + mb) with ((hi - 1) mod mb + (- n + 1) + 1 * mb) by lia. by rewrite Z.mod_add by lia.
Qed.

Lemma slot_next mb hi : 0 < mb -> 0 <= hi -> Z.rem (cur_slot mb hi + 1) mb = hi mod mb.
Proof.
  intros Hm Hh. unfold cur_slot. destruct (Z.eqb_spec hi 0) as [->|].
  - rewrite Z.mod_0_l by lia. apply Z.rem_0_l. lia.
  - pose proof (Z.mod_pos_bound (hi - 1) mb Hm). rewrite rem_mod by lia. rewrite Z.add_mod_idemp_l by lia. f_equal. lia.
Qed.

(** The oldest block of a table, once it is committed, can go. *)
Lemma settled_less o pi g : settled o pi g -> 0 < numOfBlocks pi -> g_hi g - numOfBlocks pi + 1 <= g_done g ->
  1 <= pointsPerBlock o -> settled (with_info (fewer pi) o) (fewer pi) g.
Proof.
  intros [] Hn Hk Hp. constructor; cbn; try done.
  - intros Hz. destruct se_com0 as [Hc Hd]. assert (g_hi g <= g_com g / pointsPerBlock o) by lia.
    pose proof (Z.mul_div_le (g_com g) (pointsPerBlock o) ltac:(lia)). nia.
  - lia.
Qed.

Lemma inv_evict bs c G i b m o pi g : inv bs c G -> pMem (pool c) !! i = Some b -> blockId b <> 0 ->
  pMeterObj b = Some m -> meters c !! m = Some o -> pCache o = Some pi -> G !! m = Some g ->
  blockId b = g_hi g - numOfBlocks pi + 1 -> blockId b <= g_done g ->
  0 < numOfBlocks pi < 2 ^ 31 /\ inv bs (freed c m o pi i b) G.
Proof.
  intros [Hp Hs] Hb Hid Hm Ho Hpi Hg Hold Hdone.
  destruct (free_ok bs c G i b m o pi g Hp Hb Hid Hm Ho Hpi Hg (or_introl Hold)) as [Hn Hp']. split; [done|].
  unfold less in Hp'. rewrite decide_True in Hp' by done. rewrite insert_id in Hp' by done. constructor; [done|].
  intros m2 o2 pi2 g2 H2 Hpi2 Hg2. cbn in H2. destruct (decide (m = m2)) as [<-|Hne].
  - rewrite lookup_insert_eq in H2. injection H2 as <-. cbn in Hpi2. injection Hpi2 as <-.
    assert (g2 = g) as -> by congruence. destruct (core_block _ _ _ _ _ _ Hp Ho Hpi) as (g' & Hg' & Hcore).
    apply settled_less; [by apply (Hs m)|lia|lia|apply (co_geo _ _ _ _ _ _ Hcore)].
  - rewrite lookup_insert_ne in H2 by done. by apply (Hs m2).
Qed.

(** Moving [freeSlot], and the flag of the commit thread. *)
Definition same_pool (p p' : SCachePool) : Prop :=
  pMem p' = pMem p /\ threshold p' = threshold p /\ notFreeSlots p' = notFreeSlots p.
Lemma inv_same_pool bs c G p' : inv bs c G -> same_pool (pool c) p' -> 0 <= freeSlot p' < totalBlocks (pool c) ->
  inv bs (set_pool p' c) G.
Proof.
  intros [[] Hs] (Hm & Ht & Hn) Hf. constructor; [|done]. unfold totalBlocks in *.
  constructor; unfold totalBlocks; cbn; rewrite ?Hm, ?Ht, ?Hn; done.
Qed.
