(* ===== verification/CacheAlloc.v ===== *)
(** * Allocating a block of the cache *)
From S2P Require Import Prelude CachePool CacheInv.

(** ** Evicting *)

(** What an eviction leaves alone: all of a table but the number of its blocks. *)
Definition strip (o : SMeterObj) : SMeterObj :=
  match pCache o with
  | None => o
  | Some pi => with_info (mkInfo (blocks pi) (maxBlocks pi) 0 (unCommittedBlocks pi) (currentSlot pi) (commitSlot pi)
                            (commitPoint pi) (cacheBlocks pi)) o
  end.
Definition same_tables (c c' : cache) : Prop :=
  (forall m, strip <$> meters c' !! m = strip <$> meters c !! m) /\
  length (pMem (pool c')) = length (pMem (pool c)) /\ threshold (pool c') = threshold (pool c) /\
  notFreeSlots (pool c') = notFreeSlots (pool c).

Lemma same_tables_refl c : same_tables c c.
Proof. done. Qed.

Lemma same_tables_trans c1 c2 c3 : same_tables c1 c2 -> same_tables c2 c3 -> same_tables c1 c3.
Proof. intros (A & B & C & D) (A' & B' & C' & D'). split; [intros m; by rewrite A', A|]. repeat split; congruence. Qed.

Lemma same_tables_pool c p : same_pool (pool c) p -> same_tables c (set_pool p c).
Proof. intros (A & B & C). repeat split; cbn; congruence. Qed.

Lemma strip_inv o o' pi : strip o' = strip o -> pCache o = Some pi -> exists pi', pCache o' = Some pi' /\
  schema o' = schema o /\ pointsPerBlock o' = pointsPerBlock o /\ blocks pi' = blocks pi /\ maxBlocks pi' = maxBlocks pi /\
  unCommittedBlocks pi' = unCommittedBlocks pi /\ currentSlot pi' = currentSlot pi.
Proof.
  unfold strip. intros E Hpi. rewrite Hpi in E. destruct (pCache o') as [pi'|] eqn:E'.
  - exists pi'. unfold with_info in E. injection E. intros. repeat split; congruence.
  - rewrite E in E'. done.
Qed.

Lemma same_tables_meter c c' m o pi : same_tables c c' -> meters c !! m = Some o -> pCache o = Some pi ->
  exists o' pi', meters c' !! m = Some o' /\ pCache o' = Some pi' /\ strip o' = strip o.
Proof.
  intros (Hm & _) Ho Hpi. specialize (Hm m). rewrite Ho in Hm. cbn in Hm.
  destruct (meters c' !! m) as [o'|]; [|done]. cbn in Hm. injection Hm as Hm. exists o'.
  destruct (strip_inv _ _ _ Hm Hpi) as (pi' & Hpi' & _). by exists pi'.
Qed.

Lemma evict_spec bs c G b : inv bs c G -> pMem (pool c) !! Z.to_nat (freeSlot (pool c)) = Some b -> blockId b <> 0 ->
  notFree b = false ->
  exists c' b', evict b c = Ret (Some c') /\ inv bs c' G /\ same_tables c c' /\
    pMem (pool c') !! Z.to_nat (freeSlot (pool c')) = Some b' /\ is_clear b'.
Proof.
  intros Hinv Hb Hid Hnf. pose proof (in_pool _ _ _ Hinv) as Hp.
  destruct (own_block _ _ _ _ _ Hp Hb Hid) as (m & o & pi & g & Hm & Ho & Hpi & Hg & Hcore & Hl & Hc & Hok).
  pose proof (in_settled _ _ _ Hinv m o pi g Ho Hpi Hg) as Hs.
  pose proof (co_nb _ _ _ _ _ _ Hcore) as [Hnb Hnb2]. pose proof (co_mb _ _ _ _ _ _ Hcore) as Hmb. unfold live in Hl.
  assert (Hk : blockId b <= g_done g).
  { pose proof (bo_free _ _ _ _ _ _ _ _ Hok) as Hf. rewrite Hnf in Hf. symmetry in Hf. apply bool_decide_eq_false in Hf. lia. }
  set (k0 := g_hi g - numOfBlocks pi + 1).
  destruct (co_live _ _ _ _ _ _ Hcore k0) as (j & fb & Hcj & Hfb & Hokj); [unfold live; lia|].
  unfold evict. rewrite Hm. cbn [rbind]. unfold meter. rewrite Ho. cbn [rbind]. unfold info. rewrite Hpi. cbn [rbind].
  rewrite (se_cur _ _ _ Hs), slot_back by lia.
  replace (g_hi g - numOfBlocks pi) with (k0 - 1) by lia. unfold block_at.
  pose proof (Z.mod_pos_bound (k0 - 1) (maxBlocks pi) ltac:(lia)).
  rewrite (proj2 (Z.ltb_ge _ _)) by lia. fold (place (maxBlocks pi) k0). rewrite Hcj. cbn [rbind].
  unfold block. rewrite Hfb. cbn [rbind]. set (c1 := set_pool _ c).
  assert (Hj : (j < length (pMem (pool c)))%nat) by (by eapply lookup_lt_Some).
  assert (Hinv1 : inv bs c1 G).
  { apply inv_same_pool; [done|done|]. cbn. rewrite (bo_index _ _ _ _ _ _ _ _ Hokj). unfold totalBlocks. lia. }
  destruct (inv_evict bs c1 G j fb m o pi g) as [Hn Hinv2]; try done.
  { rewrite (bo_id _ _ _ _ _ _ _ _ Hokj). lia. } { apply Hokj. } { apply Hokj. }
  { rewrite (bo_id _ _ _ _ _ _ _ _ Hokj). lia. }
  rewrite (free_eq c1 j fb m o pi) by (done || apply Hokj). cbn [rbind].
  eexists _, (cleared fb). split; [reflexivity|]. split; [done|]. split; [|split; [|done]].
  - split; [|cbn; rewrite length_insert; split; [done|split; [done|]]].
    + intros m2. cbn. destruct (decide (m = m2)) as [<-|Hne].
      * rewrite lookup_insert_eq, Ho. cbn. unfold strip. cbn. rewrite Hpi. done.
      * by rewrite lookup_insert_ne.
    + rewrite (bo_free _ _ _ _ _ _ _ _ Hokj), bool_decide_false by lia. lia.
  - cbn. rewrite (bo_index _ _ _ _ _ _ _ _ Hokj), Nat2Z.id. by apply list_lookup_insert_eq.
Qed.

(** ** Looking for a block *)

(** The blocks that were passed are not committed, so that there are more than
    [threshold] of them if the search gives up. *)
Lemma nf_count_app l1 l2 : nf_count (l1 ++ l2) = nf_count l1 + nf_count l2.
Proof. induction l1 as [|x l1 IH]; cbn; lia. Qed.

Lemma nf_count_all l : Forall (fun b => notFree b = true) l -> nf_count l = Z.of_nat (length l).
Proof. induction 1 as [|x l Hx _ IH]; [done|]. cbn [nf_count length]. rewrite Hx. lia. Qed.

Lemma nf_window (L : list SCacheBlock) (s w : nat) : (s < length L)%nat -> (w <= length L)%nat ->
  (forall t, (t < w)%nat -> exists b, L !! ((s + t) mod length L)%nat = Some b /\ notFree b = true) ->
  Z.of_nat w <= nf_count L.
Proof.
  intros Hs Hw Hall. rewrite <- (take_drop s L), nf_count_app, Z.add_comm, <- nf_count_app.
  set (R := drop s L ++ take s L).
  assert (Hlen : length R = length L) by (unfold R; rewrite length_app, length_drop, length_take; lia).
  rewrite <- (take_drop w R), nf_count_app. pose proof (nf_count_range (drop w R)).
  rewrite nf_count_all; [rewrite length_take; lia|].
  apply Forall_lookup_2. intros t b Ht. apply lookup_take_Some in Ht as [Ht Htw].
  destruct (Hall t Htw) as (b' & Hb' & Hnf). enough (b = b') as -> by done.
  enough (R !! t = L !! ((s + t) mod length L)%nat) by congruence.
  unfold R. destruct (decide (t < length L - s)%nat).
  - rewrite lookup_app_l by (rewrite length_drop; lia). rewrite lookup_drop. f_equal. symmetry. apply Nat.mod_small. lia.
  - rewrite lookup_app_r by (rewrite length_drop; lia). rewrite length_drop, lookup_take_lt by lia. f_equal.
    replace (s + t)%nat with (t - (length L - s) + 1 * length L)%nat by lia.
    rewrite Nat.Div0.mod_add, Nat.mod_small by lia. done.
Qed.

Lemma commit_thread_same p : same_pool p (vnodeCreateCommitThread p) /\ freeSlot (vnodeCreateCommitThread p) = freeSlot p.
Proof. unfold vnodeCreateCommitThread. destruct (commitInProcess p), (unsynced p); done. Qed.

Lemma inv_commit_thread bs c G : inv bs c G -> inv bs (set_pool (vnodeCreateCommitThread (pool c)) c) G /\
  same_tables c (set_pool (vnodeCreateCommitThread (pool c)) c).
Proof.
  intros Hinv. destruct (commit_thread_same (pool c)) as [Hs Hf]. split; [|by apply same_tables_pool].
  apply inv_same_pool; [done|done|]. rewrite Hf. apply (po_free _ _ _ (in_pool _ _ _ Hinv)).
Qed.

Definition passed (L : list SCacheBlock) (s w : nat) : Prop :=
  forall t, (t < w)%nat -> exists b, L !! ((s + t) mod length L)%nat = Some b /\ notFree b = true.

Lemma find_free_spec bs G (s : nat) : forall fuel w c, inv bs c G -> Z.of_nat w <= threshold (pool c) ->
  threshold (pool c) - Z.of_nat w < Z.of_nat fuel -> (s < length (pMem (pool c)))%nat ->
  freeSlot (pool c) = Z.of_nat ((s + w) mod length (pMem (pool c))) -> passed (pMem (pool c)) s w ->
  exists found c', find_free fuel (Z.of_nat w) c = Ret (found, c') /\ inv bs c' G /\ same_tables c c' /\
    if found : bool then exists b, pMem (pool c') !! Z.to_nat (freeSlot (pool c')) = Some b /\ is_clear b
    else threshold (pool c) < notFreeSlots (pool c).
Proof.
  induction fuel as [|fuel IH]; intros w c Hinv Hw Hfuel Hs Hfs Hpass; [lia|].
  pose proof (in_pool _ _ _ Hinv) as Hp. pose proof (po_free _ _ _ Hp) as Hfree. pose proof (po_threshold _ _ _ Hp) as Hth.
  unfold totalBlocks in Hfree, Hth. set (n := length (pMem (pool c))) in *.
  destruct (lookup_lt_is_Some_2 (pMem (pool c)) (Z.to_nat (freeSlot (pool c)))) as [b Hb]; [lia|].
  cbn [find_free]. unfold block. rewrite Hb. cbn [rbind].
  destruct (Z.eqb_spec (blockId b) 0) as [Hid|Hid].
  { exists true, c. split; [done|]. split; [done|]. split; [done|]. exists b. split; [done|].
    destruct (po_own _ _ _ Hp _ b Hb) as [_ [?|[? _]]]; done. }
  destruct (notFree b) eqn:Hnf.
  - set (next := Z.rem _ _). set (c1 := set_pool _ c).
    assert (Hnext : next = Z.of_nat ((s + S w) mod n)).
    { unfold next, totalBlocks. fold n. rewrite Hfs. rewrite rem_mod by lia.
      replace (s + S w)%nat with (s + w + 1)%nat by lia. rewrite !Nat2Z.inj_mod, Nat2Z.inj_add.
      change (Z.of_nat 1) with 1. rewrite Z.add_mod_idemp_l by lia. f_equal. lia. }
    assert (Hn0 : (n <> 0)%nat) by lia. pose proof (Nat.mod_upper_bound (s + S w) n Hn0) as Hub.
    assert (Hinv1 : inv bs c1 G).
    { apply inv_same_pool; [done|done|]. cbn. unfold totalBlocks. fold n. lia. }
    assert (Hst : same_tables c c1) by (apply same_tables_pool; done).
    assert (Hpass1 : passed (pMem (pool c)) s (S w)).
    { intros t Ht. destruct (decide (t = w)) as [->|Htw]; [|apply Hpass; lia].
      exists b. split; [|done]. rewrite <- Hb. f_equal. fold n. lia. }
    destruct (Z.ltb_spec (threshold (pool c)) (Z.of_nat w + 1)) as [Hlt|Hge].
    + destruct (inv_commit_thread bs c1 G Hinv1) as [Hinv2 Hst2]. eexists false, _. split; [reflexivity|].
      split; [done|]. split; [by eapply same_tables_trans|]. rewrite (po_count _ _ _ Hp).
      enough (Z.of_nat (S w) <= nf_count (pMem (pool c))) by lia. apply (nf_window _ s); [done|fold n; lia|done].
    + replace (Z.of_nat w + 1) with (Z.of_nat (S w)) by lia.
      destruct (IH (S w) c1) as (found & c' & Hfind & Hinv2 & Hst2 & Hres); try done; try (cbn; lia).
      exists found, c'. split; [done|]. split; [done|]. split; [by eapply same_tables_trans|]. done.
  - destruct (evict_spec bs c G b Hinv Hb Hid Hnf) as (c' & b' & -> & Hinv' & Hst & Hb' & Hcl). cbn [rbind].
    exists true, c'. split; [done|]. split; [done|]. split; [done|]. by exists b'.
Qed.

(** ** Taking a block *)
Definition next_slot (pi : SCacheInfo) : Z := Z.rem (currentSlot pi + 1) (maxBlocks pi).
Definition new_info (pi : SCacheInfo) (idx : nat) : SCacheInfo :=
  mkInfo (blocks pi + 1) (maxBlocks pi) (numOfBlocks pi + 1) (unCommittedBlocks pi + 1) (next_slot pi) (commitSlot pi)
    (commitPoint pi) (<[Z.to_nat (next_slot pi) := Some idx]> (cacheBlocks pi)).
Definition new_block (m : Z) (o : SMeterObj) (pi : SCacheInfo) (idx : nat) (b : SCacheBlock) : SCacheBlock :=
  mkBlock true (numOfPoints b) (next_slot pi) (Z.of_nat idx) (blocks pi + 1) (Some m) (offs_of o) (b_mem b).
Definition claimed (m : Z) (o : SMeterObj) (pi : SCacheInfo) (idx : nat) (b : SCacheBlock) (c : cache) : cache :=
  mkCache (with_mem (<[idx := new_block m o pi idx b]> (pMem (pool c)))
             (with_slots (Z.rem (Z.of_nat idx + 1) (totalBlocks (pool c))) (notFreeSlots (pool c) + 1) (pool c)))
    (<[m := with_info (new_info pi idx) o]> (meters c)).
Definition grown (g : ghost) : ghost := mkG (g_rows g) (g_hi g + 1) (g_done g) (g_com g).

Lemma chunk_beyond ppb k R : Z.of_nat (length R) <= (k - 1) * ppb -> chunk ppb k R = [].
Proof. intros Hl. unfold chunk. rewrite drop_ge by lia. apply take_nil. Qed.

(** A table whose blocks are full takes a clear block as its newest. *)
Lemma claim_ok bs c G m o pi g idx b : inv bs c G -> pMem (pool c) !! idx = Some b -> is_clear b ->
  meters c !! m = Some o -> pCache o = Some pi -> G !! m = Some g -> numOfBlocks pi < maxBlocks pi ->
  unCommittedBlocks pi < maxBlocks pi - 1 -> nrows g = g_hi g * pointsPerBlock o -> g_hi g + 1 < 2 ^ 62 ->
  inv bs (claimed m o pi idx b c) (<[m := grown g]> G).
Proof.
  intros [Hp Hs] Hb (Hid0 & Hnf0 & Hnp0 & Hpm0) Ho Hpi Hg Hnb Hunc Hfull Hhi.
  destruct (core_block _ _ _ _ _ _ Hp Ho Hpi) as (g' & Hg' & Hcore). assert (g' = g) as -> by congruence.
  pose proof (Hs m o pi g Ho Hpi Hg) as Hset. pose proof (co_nb _ _ _ _ _ _ Hcore) as [Hn1 Hn2].
  pose proof (co_mb _ _ _ _ _ _ Hcore) as Hmb. pose proof (co_geo _ _ _ _ _ _ Hcore) as Hgeo.
  assert (Hi : (idx < length (pMem (pool c)))%nat) by (by eapply lookup_lt_Some).
  assert (Hnext : next_slot pi = g_hi g mod maxBlocks pi) by (unfold next_slot; rewrite (se_cur _ _ _ Hset); apply slot_next; lia).
  assert (Hpl : Z.to_nat (next_slot pi) = place (maxBlocks pi) (g_hi g + 1)).
  { rewrite Hnext. unfold place. do 2 f_equal. lia. }
  assert (Hother : forall k, live pi g k -> place (maxBlocks pi) k <> Z.to_nat (next_slot pi)).
  { intros k Hk E. rewrite Hpl in E. unfold live in Hk. apply place_inj in E; lia. }
  assert (Hcore' : core bs (<[idx := new_block m o pi idx b]> (pMem (pool c))) m (with_info (new_info pi idx) o)
                     (new_info pi idx) (grown g)).
  { constructor; cbn; [by destruct Hgeo|done|by rewrite length_insert, (co_len _ _ _ _ _ _ Hcore)|lia|].
    intros k Hk. unfold live in Hk. cbn in Hk. destruct (decide (k = g_hi g + 1)) as [->|Hne].
    - exists idx, (new_block m o pi idx b).
      rewrite <- Hpl, list_lookup_insert_eq by (rewrite (co_len _ _ _ _ _ _ Hcore), Hpl; apply place_lt; lia).
      rewrite list_lookup_insert_eq by done. split; [done|]. split; [done|].
      assert (Hch : chunk (pointsPerBlock o) (g_hi g + 1) (g_rows g) = []) by (apply chunk_beyond; unfold nrows in Hfull; lia).
      constructor; cbn; try done.
      + by rewrite (se_blocks _ _ _ Hset).
      + rewrite Hnext. f_equal. lia.
      + rewrite bool_decide_true; [done|]. pose proof (se_unc_range _ _ _ Hset). pose proof (se_unc _ _ _ Hset). lia.
      + by destruct (po_own _ _ _ Hp idx b Hb).
      + by rewrite Hch.
      + by rewrite Hch.
    - assert (Hl : live pi g k) by (unfold live; lia). destruct (co_live _ _ _ _ _ _ Hcore k Hl) as (j & bj & Hc & Hj & Hok).
      exists j, bj. rewrite list_lookup_insert_ne by (symmetry; by apply Hother). split; [done|].
      rewrite list_lookup_insert_ne; [split; [done|by destruct Hok]|]. intros <-.
      rewrite Hb in Hj. injection Hj as <-. pose proof (bo_id _ _ _ _ _ _ _ _ Hok). lia. }
  constructor.
  - constructor; cbn; rewrite ?length_insert.
    + unfold totalBlocks. cbn. rewrite length_insert. apply Hp.
    + unfold totalBlocks. cbn. rewrite length_insert. pose proof (po_total _ _ _ Hp) as Ht. unfold totalBlocks in Ht.
      rewrite rem_mod by lia. apply Z.mod_pos_bound. lia.
    + unfold totalBlocks. cbn. rewrite length_insert. apply Hp.
    + rewrite (nf_count_insert _ _ _ _ Hb), (po_count _ _ _ Hp), Hnf0. cbn. lia.
    + intros j b' Hj. destruct (decide (idx = j)) as [<-|Hij].
      * rewrite list_lookup_insert_eq in Hj by done. injection Hj as <-. split; [apply (po_own _ _ _ Hp idx b Hb)|right].
        pose proof (se_blocks _ _ _ Hset). cbn. split; [lia|]. unfold owned. cbn.
        exists m, (with_info (new_info pi idx) o), (new_info pi idx), (grown g). rewrite !lookup_insert_eq.
        do 4 (split; [done|]). split; [unfold live; cbn; lia|]. cbn.
        rewrite (se_blocks _ _ _ Hset), <- Hpl. apply list_lookup_insert_eq.
        rewrite (co_len _ _ _ _ _ _ Hcore), Hpl. apply place_lt. lia.
      * rewrite list_lookup_insert_ne in Hj by done. destruct (po_own _ _ _ Hp j b' Hj) as [Hml Hcase]. split; [done|].
        destruct Hcase as [?|[Hid' (m2 & o2 & pi2 & g2 & E1 & E2 & E3 & E4 & E5 & E6)]]; [by left|right]. split; [done|].
        unfold owned. cbn. destruct (decide (m = m2)) as [<-|Hmm].
        -- exists m, (with_info (new_info pi idx) o), (new_info pi idx), (grown g). rewrite !lookup_insert_eq.
           assert (pi2 = pi) as -> by congruence. assert (g2 = g) as -> by congruence.
           do 4 (split; [done|]). split; [unfold live in *; cbn; lia|]. cbn.
           rewrite list_lookup_insert_ne; [done|]. symmetry. by apply Hother.
        -- exists m2, o2, pi2, g2. rewrite !lookup_insert_ne by done. done.
    + intros m2 o2 H2. destruct (decide (m = m2)) as [<-|Hmm].
      * rewrite lookup_insert_eq in H2. injection H2 as <-. cbn. exists (grown g). by rewrite lookup_insert_eq.
      * rewrite lookup_insert_ne in H2 by done. rewrite lookup_insert_ne by done. pose proof (po_meters _ _ _ Hp m2 o2 H2) as H3.
        destruct (pCache o2); [|done]. destruct H3 as (g2 & Hg2 & Hc2). exists g2. split; [done|].
        eapply core_frame; [done|]. intros j b' Hj Hmj. rewrite list_lookup_insert_ne; [done|]. intros <-.
        congruence.
    + intros m2 g2 H2. destruct (decide (m = m2)) as [<-|Hmm].
      * rewrite lookup_insert_eq. eauto.
      * rewrite lookup_insert_ne in H2 by done. rewrite lookup_insert_ne by done. by apply (po_ghost _ _ _ Hp m2 g2).
  - intros m2 o2 pi2 g2 H2 Hpi2 Hg2. cbn in H2. destruct (decide (m = m2)) as [<-|Hmm].
    + rewrite lookup_insert_eq in H2. rewrite lookup_insert_eq in Hg2. injection H2 as <-. injection Hg2 as <-. cbn in Hpi2. injection Hpi2 as <-.
      destruct (se_pos _ _ _ Hset) as (kc & Hk1 & Hk2 & Hk3). destruct Hset. destruct (ge_ppb _ _ Hgeo). constructor; cbn; try done.
      * lia.
      * rewrite Hnext. unfold cur_slot. rewrite (proj2 (Z.eqb_neq _ _)) by lia. f_equal. lia.
      * unfold nrows in *. cbn. lia.
      * lia.
      * lia.
      * lia.
      * exists kc. split; [done|]. split; [lia|done].
    + rewrite lookup_insert_ne in H2 by done. rewrite lookup_insert_ne in Hg2 by done. by apply (Hs m2).
Qed.

(** What holds of a table and of the pool after each of the outcomes. *)
Definition cfg (o : SMeterObj) : list Z * Z * Z * Z * Z * option Z :=
  (schema o, bytesPerPoint o, pointsPerFileBlock o, pointsPerBlock o, lastKey o, maxBlocks <$> pCache o).
Definition same_cfg (c c' : cache) : Prop := forall m, cfg <$> meters c' !! m = cfg <$> meters c !! m.

Lemma same_tables_cfg c c' : same_tables c c' -> same_cfg c c'.
Proof.
  intros (Hm & _) m. specialize (Hm m). destruct (meters c' !! m) as [o'|], (meters c !! m) as [o|]; try done. cbn in *.
  injection Hm as Hm. f_equal. assert (E : forall x, cfg (strip x) = cfg x) by (intros x; unfold strip, cfg; destruct (pCache x) eqn:Ex; cbn; by rewrite ?Ex).
  by rewrite <- (E o'), Hm, E.
Qed.

(** The tail of [vnodeAllocateCacheBlock] is the claim of a block, after the
    oldest block of the table was freed if it has [maxBlocks] of them. *)
Lemma take_block_eq bs c G m o pi g b : inv bs c G -> meters c !! m = Some o -> pCache o = Some pi -> G !! m = Some g ->
  pMem (pool c) !! Z.to_nat (freeSlot (pool c)) = Some b -> is_clear b -> unCommittedBlocks pi < maxBlocks pi - 1 ->
  g_hi g + 1 < 2 ^ 62 ->
  exists c1 o1 pi1, inv bs c1 G /\ same_tables c c1 /\ pMem (pool c1) !! Z.to_nat (freeSlot (pool c)) = Some b /\
    meters c1 !! m = Some o1 /\ pCache o1 = Some pi1 /\ numOfBlocks pi1 < maxBlocks pi1 /\ strip o1 = strip o /\
    take_block m c =
      let c2 := claimed m o1 pi1 (Z.to_nat (freeSlot (pool c))) b c1 in
      if (threshold (pool c2) <? notFreeSlots (pool c2)) || (Z.quot (maxBlocks pi) 2 <=? unCommittedBlocks pi + 1)
      then Ret (1, set_pool (vnodeCreateCommitThread (pool c2)) c2) else Ret (0, c2).
Proof.
  intros Hinv Ho Hpi Hg Hb Hcl Hunc Hhi. pose proof (in_pool _ _ _ Hinv) as Hp.
  destruct (core_block _ _ _ _ _ _ Hp Ho Hpi) as (g' & Hg' & Hcore). assert (g' = g) as -> by congruence.
  pose proof (in_settled _ _ _ Hinv m o pi g Ho Hpi Hg) as Hs. pose proof (co_nb _ _ _ _ _ _ Hcore) as [Hn1 Hn2].
  pose proof (co_mb _ _ _ _ _ _ Hcore) as Hmb. pose proof (se_unc_range _ _ _ Hs) as Hur. pose proof (se_unc _ _ _ Hs) as Hu.
  pose proof (po_free _ _ _ Hp) as Hfree. set (idx := Z.to_nat (freeSlot (pool c))) in *.
  assert (Hidx : Z.of_nat idx = freeSlot (pool c)) by lia.
  unfold take_block, block. fold idx. rewrite Hb. cbn [rbind]. unfold meter. cbn [set_pool meters pool]. rewrite Ho. cbn [rbind].
  unfold info. rewrite Hpi. cbn [rbind]. rewrite (wraps_id 64), !(wraps_id 32) by (unfold in_s; rewrite ?(se_blocks _ _ _ Hs); lia).
  assert (Hcur : next_slot pi = g_hi g mod maxBlocks pi) by (unfold next_slot; rewrite (se_cur _ _ _ Hs); apply slot_next; lia).
  pose proof (Z.mod_pos_bound (g_hi g) (maxBlocks pi) ltac:(lia)) as Hcb.
  assert (Hlen : Z.of_nat (length (cacheBlocks pi)) = maxBlocks pi) by (rewrite (co_len _ _ _ _ _ _ Hcore); lia).
  fold (next_slot pi).
  destruct (Z.ltb_spec (maxBlocks pi) (numOfBlocks pi + 1)) as [Hfull|Hroom].
  - set (k0 := g_hi g - numOfBlocks pi + 1).
    destruct (co_live _ _ _ _ _ _ Hcore k0) as (j & fb & Hcj & Hfb & Hok); [unfold live; lia|].
    assert (Hpl : place (maxBlocks pi) k0 = Z.to_nat (next_slot pi)).
    { unfold place. rewrite Hcur. f_equal. replace (k0 - 1) with (g_hi g + (-1) * maxBlocks pi) by lia. apply Z.mod_add. lia. }
    assert (Hji : j <> idx). { intros ->. rewrite Hb in Hfb. injection Hfb as <-. destruct Hcl as [Hz _]. pose proof (bo_id _ _ _ _ _ _ _ _ Hok). lia. }
    destruct (inv_evict bs c G j fb m o pi g) as [_ Hinv1]; try done.
    { rewrite (bo_id _ _ _ _ _ _ _ _ Hok). lia. } { apply Hok. } { apply Hok. }
    { rewrite (bo_id _ _ _ _ _ _ _ _ Hok). lia. }
    exists (freed c m o pi j fb), (with_info (fewer pi) o), (fewer pi). split; [done|].
    assert (Hnf : notFree fb = false) by (rewrite (bo_free _ _ _ _ _ _ _ _ Hok); apply bool_decide_false; lia).
    split; [|split; [|split; [|split; [done|split; [cbn; lia|split; [by unfold strip; cbn; rewrite Hpi|]]]]]].
    + split; [|cbn; rewrite length_insert, Hnf; repeat split; lia]. intros m2. cbn.
      destruct (decide (m = m2)) as [<-|Hne]; [|by rewrite lookup_insert_ne].
      rewrite lookup_insert_eq, Ho. cbn. unfold strip. cbn. by rewrite Hpi.
    + cbn. by rewrite list_lookup_insert_ne.
    + cbn. by rewrite lookup_insert_eq.
    + cbn [set_meter meters set_block set_pool]. rewrite lookup_insert_eq. cbn [rbind with_info pCache].
      unfold block_at. rewrite (proj2 (Z.ltb_ge _ _)) by lia. cbn [cacheBlocks]. rewrite <- Hpl, Hcj. cbn [rbind].
      set (pi2 := mkInfo _ _ _ _ _ _ _ _). set (o2 := with_info pi2 o). set (c2 := set_meter m o2 _).
      rewrite (free_eq c2 j fb m o2 pi2); [|cbn; by rewrite list_lookup_insert_ne|apply Hok|cbn; by rewrite lookup_insert_eq|done|cbn; lia].
      cbn [rbind]. unfold freed at 1. cbn [meters]. rewrite lookup_insert_eq. cbn [rbind with_info pCache fewer pi2 cacheBlocks].
      rewrite (proj2 (Z.leb_gt _ _)) by lia.
      set (cf := set_meter m _ _). set (cg := claimed _ _ _ _ _ _).
      assert (E : cf = cg).
      { unfold cf, cg, claimed, freed, c2, o2, pi2, set_meter, set_block, set_pool, with_mem, with_slots, totalBlocks,
          new_block, new_info, fewer, next_slot. cbn. rewrite Hnf, length_insert, Hpl, Hidx. unfold next_slot.
        rewrite (list_insert_insert_ne _ j idx) by done. rewrite !insert_insert_eq.
        do 2 f_equal; [f_equal; lia|]. unfold with_info. cbn. do 3 f_equal. lia. }
      rewrite E. cbn [fewer unCommittedBlocks pi2]. done.
  - exists c, o, pi. split; [done|]. split; [done|]. split; [done|]. split; [done|]. split; [done|]. split; [lia|].
    split; [done|]. cbn [rbind set_meter meters]. rewrite lookup_insert_eq. cbn [rbind with_info pCache cacheBlocks].
    rewrite (proj2 (Z.leb_gt _ _)) by lia. set (cf := set_meter m _ _). set (cg := claimed _ _ _ _ _ _).
    assert (E : cf = cg).
    { unfold cf, cg, claimed, set_meter, set_block, set_pool, with_mem, with_slots, totalBlocks, new_block, new_info.
      cbn. rewrite Hidx, !insert_insert_eq. done. }
    rewrite E. done.
Qed.

(** A block is refused only if the table has [maxBlocks - 1] blocks that are not
    committed, or the pool more than [threshold]. *)
Lemma allocate_spec bs c G m o pi g : inv bs c G -> meters c !! m = Some o -> pCache o = Some pi -> G !! m = Some g ->
  nrows g = g_hi g * pointsPerBlock o -> g_hi g + 1 < 2 ^ 62 ->
  exists code c', vnodeAllocateCacheBlock m c = Ret (code, c') /\ same_cfg c c' /\
    ((code = -1 /\ inv bs c' G /\ (maxBlocks pi - 1 <= unCommittedBlocks pi \/ threshold (pool c) < notFreeSlots (pool c))) \/
     (0 <= code /\ inv bs c' (<[m := grown g]> G))).
Proof.
  intros Hinv Ho Hpi Hg Hfull Hhi. unfold vnodeAllocateCacheBlock, meter. rewrite Ho. cbn [rbind]. rewrite Hpi.
  destruct (Z.leb_spec (maxBlocks pi - 1) (unCommittedBlocks pi)) as [Hle|Hgt].
  { destruct (inv_commit_thread bs c G Hinv) as [Hi Hst]. eexists _, _. split; [reflexivity|].
    split; [by apply same_tables_cfg|]. left. split; [done|]. split; [done|]. by left. }
  pose proof (in_pool _ _ _ Hinv) as Hp. pose proof (po_free _ _ _ Hp) as Hfree. pose proof (po_threshold _ _ _ Hp) as Hth.
  unfold totalBlocks in Hfree, Hth.
  destruct (find_free_spec bs G (Z.to_nat (freeSlot (pool c))) (2 * length (pMem (pool c))) 0 c Hinv) as
    (found & c1 & Hff & Hinv1 & Hst & Hres); try lia.
  { rewrite Nat.add_0_r, Nat.mod_small by lia. lia. } { intros t Ht. lia. }
  change (find_free _ 0 c) with (find_free (2 * length (pMem (pool c))) (Z.of_nat 0) c). rewrite Hff.
  cbn [rbind]. destruct found; cbn [negb].
  2:{ eexists _, _. split; [reflexivity|]. split; [by apply same_tables_cfg|]. left. split; [done|]. split; [done|]. by right. }
  destruct Hres as (b & Hb & Hcl). destruct (same_tables_meter c c1 m o pi Hst Ho Hpi) as (o1 & pi1 & Ho1 & Hpi1 & Hs1).
  destruct (strip_inv _ _ _ Hs1 Hpi) as (pi1' & Hpi1' & Esch & Eppb & Ebl & Emb & Eunc & Ecur).
  assert (pi1' = pi1) as -> by congruence.
  destruct (take_block_eq bs c1 G m o1 pi1 g b Hinv1 Ho1 Hpi1 Hg Hb Hcl) as
    (c2 & o2 & pi2 & Hinv2 & Hst2 & Hb2 & Ho2 & Hpi2 & Hroom & Hs2 & ->); [lia|done|].
  destruct (strip_inv _ _ _ Hs2 Hpi1) as (pi2' & Hpi2' & Esch2 & Eppb2 & Ebl2 & Emb2 & Eunc2 & Ecur2).
  assert (pi2' = pi2) as -> by congruence.
  pose proof (claim_ok bs c2 G m o2 pi2 g _ b Hinv2 Hb2 Hcl Ho2 Hpi2 Hg Hroom ltac:(lia) ltac:(congruence) Hhi) as Hinv3.
  set (c3 := claimed _ _ _ _ _ _) in *.
  assert (Hcfg : same_cfg c c3).
  { intros m2. rewrite <- (same_tables_cfg _ _ Hst m2), <- (same_tables_cfg _ _ Hst2 m2). unfold c3, claimed. cbn.
    destruct (decide (m = m2)) as [<-|Hne]; [|by rewrite lookup_insert_ne].
    rewrite lookup_insert_eq, Ho2. unfold cfg. cbn. by rewrite Hpi2. }
  cbv zeta. destruct (inv_commit_thread bs c3 _ Hinv3) as [Hinv4 Hst4].
  destruct (_ || _); eexists _, _; (split; [reflexivity|]); (split; [|right; done]); [|done].
  intros m2. rewrite (same_tables_cfg _ _ Hst4 m2). apply Hcfg.
Qed.
