(* ===== verification/CacheInsert.v ===== *)
(** * The operations of the cache keep its invariant

    The insertion of a row, the end of a commit, and the drop of a table. *)
From S2P Require Import Prelude CachePool CacheInv CacheAlloc.

(** * Inserting a row into the cache *)

Definition pushed (g : ghost) (r : list Z) : ghost := mkG (g_rows g ++ [r]) (g_hi g) (g_done g) (g_com g).

Lemma chunk_full ppb k (R : list (list Z)) r : 1 <= ppb -> 1 <= k -> k * ppb <= Z.of_nat (length R) ->
  chunk ppb k (R ++ [r]) = chunk ppb k R.
Proof. intros Hp Hk Hl. unfold chunk. rewrite drop_app_le by nia. apply take_app_le. rewrite length_drop. nia. Qed.

Lemma chunk_push ppb k (R : list (list Z)) r : 1 <= ppb -> 1 <= k -> (k - 1) * ppb <= Z.of_nat (length R) < k * ppb ->
  chunk ppb k (R ++ [r]) = chunk ppb k R ++ [r].
Proof.
  intros Hp Hk Hl. unfold chunk. rewrite drop_app_le by nia. rewrite !take_ge; [done|rewrite length_drop; nia|].
  rewrite length_app, length_drop. cbn. nia.
Qed.

Lemma length_chunk ppb k (R : list (list Z)) : 1 <= ppb -> 1 <= k -> (k - 1) * ppb <= Z.of_nat (length R) ->
  Z.of_nat (length (chunk ppb k R)) = Z.min ppb (Z.of_nat (length R) - (k - 1) * ppb).
Proof. intros Hp Hk Hl. unfold chunk. rewrite length_take, length_drop. nia. Qed.

Section Store.
Context (bs : Z) (c : cache) (G : gmap Z ghost) (m : Z) (o : SMeterObj) (pi : SCacheInfo) (g : ghost) (row : list Z).
Context (Hinv : inv bs c G) (Ho : meters c !! m = Some o) (Hpi : pCache o = Some pi) (Hg : G !! m = Some g).
Context (Hrow : Z.of_nat (length row) = row_width (schema o)) (Hroom : nrows g < g_hi g * pointsPerBlock o).

Definition stored_meter : SMeterObj := with_points (freePoints o - 1) (commitCount o) o.
Definition stored_block (b : SCacheBlock) (mem : list Z) : SCacheBlock :=
  mkBlock (notFree b) (numOfPoints b + 1) (slot b) (index b) (blockId b) (pMeterObj b) (offset b) mem.
Definition stored (i : nat) (b : SCacheBlock) (mem : list Z) : cache :=
  mkCache (with_count (u64 (count (pool c) + 1)) (with_mem (<[i := stored_block b mem]> (pMem (pool c))) (pool c)))
    (<[m := stored_meter]> (meters c)).

(** The block of the row, and its memory with the row in it. *)
Lemma store_eq : exists i b mem, store_row m row c = Ret (0, stored i b mem) /\
  cacheBlocks pi !! place (maxBlocks pi) (g_hi g) = Some (Some i) /\ pMem (pool c) !! i = Some b /\
  block_ok bs m o (maxBlocks pi) g (g_hi g) i b /\
  Z.of_nat (length mem) = bs /\ rows_in (schema o) (offs_of o) mem (chunk (pointsPerBlock o) (g_hi g) (g_rows g) ++ [row]).
Proof using Hinv Ho Hpi Hg Hrow Hroom.
  pose proof (in_pool _ _ _ Hinv) as Hp. pose proof (in_settled _ _ _ Hinv m o pi g Ho Hpi Hg) as Hs.
  destruct (core_block _ _ _ _ _ _ Hp Ho Hpi) as (g' & Hg' & Hcore). assert (g' = g) as -> by congruence.
  pose proof (co_geo _ _ _ _ _ _ Hcore) as [Hsch Hppb Hfit]. pose proof (co_nb _ _ _ _ _ _ Hcore) as [Hn1 Hn2].
  pose proof (co_mb _ _ _ _ _ _ Hcore) as Hmb. pose proof (se_rows _ _ _ Hs) as Hrows.
  assert (Hnb : 0 < numOfBlocks pi) by (destruct (decide (numOfBlocks pi = 0)) as [E|]; [pose proof (se_empty _ _ _ Hs E); lia|lia]).
  destruct (co_live _ _ _ _ _ _ Hcore (g_hi g)) as (i & b & Hc & Hb & Hok); [unfold live; lia|].
  pose proof Hok as [Hid Hpm Hsl Hix Hfr Hof Hmem Hnum Hin].
  unfold nrows in *. rewrite length_chunk in Hnum by lia. rewrite Z.min_r in Hnum by lia.
  destruct (copy_row_spec (schema o) (base o) (pointsPerBlock o) (numOfPoints b) row (b_mem b)) as
    (mem & Hput & Hml & Hget & Hoth & _); try done.
  { unfold base, SIZEOF_SCacheBlock, SIZEOF_PTR, numOfColumns. lia. } { lia. } { lia. }
  exists i, b, mem. split; [|split; [done|split; [done|split; [done|split; [lia|]]]]].
  - unfold store_row, meter, info, block_at, block, deref. rewrite Ho. cbn [rbind]. rewrite Hpi. cbn [rbind].
    rewrite (se_cur _ _ _ Hs). unfold cur_slot. rewrite (proj2 (Z.eqb_neq _ _)) by lia.
    pose proof (Z.mod_pos_bound (g_hi g - 1) (maxBlocks pi) ltac:(lia)). rewrite (proj2 (Z.ltb_ge _ _)) by lia.
    fold (place (maxBlocks pi) (g_hi g)). rewrite Hc. cbn [rbind]. rewrite Hb. cbn [rbind].
    rewrite Hof. unfold offs_of. rewrite Hput. cbn [rbind].
    pose proof (se_free _ _ _ Hs) as Hfp. pose proof (se_size _ _ _ Hs). destruct (se_com _ _ _ Hs) as [Hcom Hdone].
    pose proof (Z.mul_div_le (g_com g) (pointsPerBlock o) ltac:(lia)). pose proof (se_unc_range _ _ _ Hs).
    pose proof (se_unc _ _ _ Hs). unfold nrows in *.
    rewrite (wraps_id 32) by (unfold in_s; nia). rewrite (wraps_id 16) by (unfold in_s; lia).
    unfold stored, stored_block. by rewrite Hof.
  - intros j r Hj. apply lookup_app_Some in Hj as [Hj|[Hjl Hj]].
    + unfold offs_of. rewrite Hoth; [by apply Hin| |].
      * apply lookup_lt_Some in Hj. apply Nat2Z.inj_lt in Hj. rewrite length_chunk in Hj by lia. lia.
      * intros E. apply lookup_lt_Some in Hj. apply Nat2Z.inj_lt in Hj. rewrite length_chunk in Hj by lia. lia.
    + apply Nat2Z.inj_le in Hjl. rewrite length_chunk in Hjl by lia.
      destruct (j - length _)%nat as [|d] eqn:Ej; [|done]. injection Hj as <-.
      assert (Z.of_nat j = numOfPoints b) as ->; [|exact Hget].
      apply Nat.sub_0_le, Nat2Z.inj_le in Ej. rewrite length_chunk in Ej by lia. lia.
Qed.

Lemma store_spec : exists c', store_row m row c = Ret (0, c') /\ same_cfg c c' /\ inv bs c' (<[m := pushed g row]> G).
Proof using Hinv Ho Hpi Hg Hrow Hroom.
  destruct store_eq as (i & b & mem & -> & Hc & Hb & Hok & Hml & Hrin). exists (stored i b mem). split; [done|].
  pose proof (in_pool _ _ _ Hinv) as Hp. pose proof (in_settled _ _ _ Hinv m o pi g Ho Hpi Hg) as Hs.
  destruct (core_block _ _ _ _ _ _ Hp Ho Hpi) as (g' & Hg' & Hcore). assert (g' = g) as -> by congruence.
  pose proof (co_geo _ _ _ _ _ _ Hcore) as [Hsch Hppb Hfit]. pose proof (co_nb _ _ _ _ _ _ Hcore) as [Hn1 Hn2].
  pose proof (se_rows _ _ _ Hs) as Hrows. assert (Hil : (i < length (pMem (pool c)))%nat) by (by eapply lookup_lt_Some).
  assert (Hhi : 0 < g_hi g) by (unfold nrows in *; nia). split.
  { intros m2. unfold stored. cbn. destruct (decide (m = m2)) as [<-|Hne]; [|by rewrite lookup_insert_ne].
    by rewrite lookup_insert_eq, Ho. }
  assert (Hcore' : core bs (<[i := stored_block b mem]> (pMem (pool c))) m stored_meter pi (pushed g row)).
  { constructor; cbn; [by constructor|apply Hcore|apply Hcore|done|].
    intros k Hk. unfold live in Hk. cbn in Hk. destruct (decide (k = g_hi g)) as [->|Hne].
    - exists i, (stored_block b mem). split; [done|]. rewrite list_lookup_insert_eq by done. split; [done|].
      destruct Hok. unfold nrows in *. constructor; cbn; try done; rewrite chunk_push by lia; [|done].
      rewrite length_app. cbn. lia.
    - destruct (co_live _ _ _ _ _ _ Hcore k Hk) as (j & bj & Hcj & Hj & Hokj). exists j, bj. split; [done|].
      rewrite list_lookup_insert_ne.
      + split; [done|]. destruct Hokj. unfold nrows in *. constructor; cbn; try done; by rewrite chunk_full by nia.
      + intros <-. rewrite Hb in Hj. injection Hj as <-. pose proof (bo_id _ _ _ _ _ _ _ _ Hok).
        pose proof (bo_id _ _ _ _ _ _ _ _ Hokj). lia. }
  constructor.
  - constructor; unfold totalBlocks; cbn; rewrite ?length_insert; try apply Hp.
    + rewrite (nf_count_insert _ _ _ _ Hb), (po_count _ _ _ Hp). cbn. lia.
    + intros j b' Hj. destruct (decide (i = j)) as [<-|Hij].
      * rewrite list_lookup_insert_eq in Hj by done. injection Hj as <-. cbn. split; [done|right].
        pose proof (bo_id _ _ _ _ _ _ _ _ Hok) as Hbid. pose proof (bo_meter _ _ _ _ _ _ _ _ Hok).
        split; [lia|]. exists m, stored_meter, pi, (pushed g row). cbn. rewrite !lookup_insert_eq.
        rewrite Hbid. repeat (split; [done|]). split; [|done]. unfold live. cbn.
        destruct (decide (numOfBlocks pi = 0)) as [E|]; [pose proof (se_empty _ _ _ Hs E); lia|lia].
      * rewrite list_lookup_insert_ne in Hj by done. destruct (po_own _ _ _ Hp j b' Hj) as [Hml' Hcase]. split; [done|].
        destruct Hcase as [?|[Hid' (m2 & o2 & pi2 & g2 & E1 & E2 & E3 & E4 & E5 & E6)]]; [by left|right]. split; [done|].
        unfold owned. cbn. destruct (decide (m = m2)) as [<-|Hmm].
        -- exists m, stored_meter, pi, (pushed g row). rewrite !lookup_insert_eq.
           assert (pi2 = pi) as -> by congruence. assert (g2 = g) as -> by congruence. done.
        -- exists m2, o2, pi2, g2. rewrite !lookup_insert_ne by done. done.
    + intros m2 o2 H2. destruct (decide (m = m2)) as [<-|Hmm].
      * rewrite lookup_insert_eq in H2. injection H2 as <-. cbn. rewrite Hpi. exists (pushed g row). by rewrite lookup_insert_eq.
      * rewrite lookup_insert_ne in H2 by done. rewrite lookup_insert_ne by done. pose proof (po_meters _ _ _ Hp m2 o2 H2) as H3.
        destruct (pCache o2); [|done]. destruct H3 as (g2 & Hg2 & Hc2). exists g2. split; [done|].
        eapply core_frame; [done|]. intros j b' Hj Hmj. rewrite list_lookup_insert_ne; [done|]. intros <-.
        rewrite Hb in Hj. injection Hj as <-. pose proof (bo_meter _ _ _ _ _ _ _ _ Hok). congruence.
    + intros m2 g2 H2. destruct (decide (m = m2)) as [<-|Hmm].
      * rewrite lookup_insert_eq. eauto.
      * rewrite lookup_insert_ne in H2 by done. rewrite lookup_insert_ne by done. by apply (po_ghost _ _ _ Hp m2 g2).
  - intros m2 o2 pi2 g2 H2 Hpi2 Hg2. cbn in H2. destruct (decide (m = m2)) as [<-|Hmm].
    + rewrite lookup_insert_eq in H2. rewrite lookup_insert_eq in Hg2. injection H2 as <-. injection Hg2 as <-.
      cbn in Hpi2. assert (pi2 = pi) as -> by congruence. pose proof (se_pos _ _ _ Hs) as Hpos.
      pose proof (se_empty _ _ _ Hs) as Hem.
      assert (Hnr : nrows (pushed g row) = nrows g + 1) by (unfold nrows; cbn; rewrite length_app; cbn; lia).
      destruct Hs. constructor; cbn; try done; try lia.
      apply Forall_app. by split; [|apply Forall_singleton].
    + rewrite lookup_insert_ne in H2 by done. rewrite lookup_insert_ne in Hg2 by done. by apply (in_settled _ _ _ Hinv m2).
Qed.
End Store.

(** The newest block of a table that has blocks. *)
Lemma cur_block bs c G m o pi g : inv bs c G -> meters c !! m = Some o -> pCache o = Some pi -> G !! m = Some g ->
  numOfBlocks pi <> 0 -> exists i b, 0 <= currentSlot pi /\ block_at pi (currentSlot pi) = Ret (Some i) /\
    block c i = Ret b /\ numOfPoints b = nrows g - (g_hi g - 1) * pointsPerBlock o.
Proof.
  intros Hinv Ho Hpi Hg Hnb. pose proof (in_settled _ _ _ Hinv m o pi g Ho Hpi Hg) as Hs.
  destruct (core_block _ _ _ _ _ _ (in_pool _ _ _ Hinv) Ho Hpi) as (g' & Hg' & Hcore). assert (g' = g) as -> by congruence.
  pose proof (co_nb _ _ _ _ _ _ Hcore) as [Hn1 Hn2]. pose proof (co_mb _ _ _ _ _ _ Hcore) as Hmb.
  destruct (co_live _ _ _ _ _ _ Hcore (g_hi g)) as (i & b & Hc & Hb & Hok); [unfold live; lia|].
  rewrite (se_cur _ _ _ Hs). unfold cur_slot. rewrite (proj2 (Z.eqb_neq _ _)) by lia.
  pose proof (Z.mod_pos_bound (g_hi g - 1) (maxBlocks pi) ltac:(lia)). exists i, b. split; [lia|].
  unfold block_at. rewrite (proj2 (Z.ltb_ge _ _)) by lia. fold (place (maxBlocks pi) (g_hi g)). rewrite Hc.
  unfold block. rewrite Hb. split; [done|]. split; [done|]. rewrite (bo_num _ _ _ _ _ _ _ _ Hok).
  pose proof (se_rows _ _ _ Hs). destruct (ge_ppb _ _ (co_geo _ _ _ _ _ _ Hcore)). unfold nrows in *.
  rewrite length_chunk by lia. lia.
Qed.

Lemma same_cfg_trans c1 c2 c3 : same_cfg c1 c2 -> same_cfg c2 c3 -> same_cfg c1 c3.
Proof. intros A B m. by rewrite B, A. Qed.

Lemma same_cfg_meter c c' m o o' : same_cfg c c' -> meters c !! m = Some o -> meters c' !! m = Some o' ->
  schema o' = schema o /\ pointsPerBlock o' = pointsPerBlock o.
Proof. intros Hc Ho Ho'. specialize (Hc m). rewrite Ho, Ho' in Hc. unfold cfg in Hc. cbn in Hc. by injection Hc. Qed.

(** Storing after a block was allocated. *)
Lemma grown_store bs c c1 G m o g row : inv bs c1 (<[m := grown g]> G) -> same_cfg c c1 -> meters c !! m = Some o ->
  Z.of_nat (length row) = row_width (schema o) -> nrows g = g_hi g * pointsPerBlock o -> 1 <= pointsPerBlock o ->
  exists o1 pi1 c', meters c1 !! m = Some o1 /\ pCache o1 = Some pi1 /\ numOfBlocks pi1 <> 0 /\
    pointsPerBlock o1 = pointsPerBlock o /\ store_row m row c1 = Ret (0, c') /\ same_cfg c c' /\
    inv bs c' (<[m := mkG (g_rows g ++ [row]) (g_hi g + 1) (g_done g) (g_com g)]> G).
Proof.
  intros Hinv Hcfg Ho Hrow Hfull Hppb.
  destruct (core_meter bs c1 _ m (grown g) (in_pool _ _ _ Hinv)) as (o1 & pi1 & Ho1 & Hpi1 & Hcore1); [apply lookup_insert_eq|].
  destruct (same_cfg_meter _ _ _ _ _ Hcfg Ho Ho1) as [Es Ep].
  assert (Hg1 : <[m := grown g]> G !! m = Some (grown g)) by apply lookup_insert_eq.
  pose proof (in_settled _ _ _ Hinv m o1 pi1 _ Ho1 Hpi1 Hg1) as Hs1.
  destruct (store_spec bs c1 _ m o1 pi1 (grown g) row Hinv Ho1 Hpi1 Hg1) as (c' & Hst & Hcfg' & Hinv').
  { congruence. } { unfold nrows in *. cbn. rewrite Ep. lia. }
  exists o1, pi1, c'. split; [done|]. split; [done|]. split.
  { intros E. apply (se_empty _ _ _ Hs1) in E. unfold nrows in *. cbn in E. rewrite Ep in E. lia. }
  split; [done|]. split; [done|]. split; [by eapply same_cfg_trans|]. by rewrite insert_insert_eq in Hinv'.
Qed.

(** A row is refused only if its table needs a block and there is none to have. *)
Lemma cache_insert_spec bs c G m o pi g row : inv bs c G -> meters c !! m = Some o -> pCache o = Some pi -> G !! m = Some g ->
  Z.of_nat (length row) = row_width (schema o) -> nrows g < 2 ^ 61 ->
  exists code c', vnodeInsertPointToCache m row c = Ret (code, c') /\ same_cfg c c' /\
    ((code = -1 /\ inv bs c' G /\ nrows g = g_hi g * pointsPerBlock o /\
        (maxBlocks pi - 1 <= unCommittedBlocks pi \/ threshold (pool c) < notFreeSlots (pool c))) \/
     (code = 0 /\ exists hi', g_hi g <= hi' /\ (hi' - 1) * pointsPerBlock o <= nrows g /\ inv bs c' (<[m := mkG (g_rows g ++ [row]) hi' (g_done g) (g_com g)]> G))).
Proof.
  intros Hinv Ho Hpi Hg Hrow Hmax. pose proof (in_settled _ _ _ Hinv m o pi g Ho Hpi Hg) as Hs.
  destruct (core_block _ _ _ _ _ _ (in_pool _ _ _ Hinv) Ho Hpi) as (g' & Hg' & Hcore). assert (g' = g) as -> by congruence.
  pose proof (ge_ppb _ _ (co_geo _ _ _ _ _ _ Hcore)) as Hppb. pose proof (se_rows _ _ _ Hs) as Hrows.
  assert (Hhi : g_hi g + 1 < 2 ^ 62) by nia.
  unfold vnodeInsertPointToCache. unfold meter at 1. rewrite Ho. cbn [rbind]. unfold info at 1. rewrite Hpi. cbn [rbind].
  destruct (Z.eqb_spec (numOfBlocks pi) 0) as [Hz|Hnz].
  - pose proof (se_empty _ _ _ Hs Hz) as Hfull.
    destruct (allocate_spec bs c G m o pi g Hinv Ho Hpi Hg Hfull Hhi) as (code & c1 & -> & Hcfg & [(-> & Hinv1 & Hwhy)|(Hcode & Hinv1)]).
    { cbn [rbind Z.ltb Z.compare]. eexists _, _. split; [reflexivity|]. split; [done|]. by left. }
    cbn [rbind]. rewrite (proj2 (Z.ltb_ge _ _)) by lia.
    destruct (grown_store bs c c1 G m o g row Hinv1 Hcfg Ho Hrow Hfull) as
      (o1 & pi1 & c' & Ho1 & Hpi1 & Hnb1 & Ep & Hst & Hcfg' & Hinv'); [lia|].
    unfold meter at 1. rewrite Ho1. cbn [rbind]. unfold info at 1. rewrite Hpi1. cbn [rbind].
    destruct (cur_block bs c1 _ m o1 pi1 (grown g) Hinv1 Ho1 Hpi1) as (i & b & Hcs & Hat & Hbl & Hnum); [apply lookup_insert_eq|done|].
    rewrite (proj2 (Z.ltb_ge _ _)) by lia. rewrite Hat. cbn [rbind deref]. rewrite Hbl. cbn [rbind].
    rewrite (proj2 (Z.leb_gt _ _)) by (rewrite Hnum, Ep; unfold nrows in *; cbn; lia). cbn [rbind Z.ltb Z.compare].
    exists 0, c'. split; [done|]. split; [done|]. right. split; [done|]. eexists. split; [|split; [|exact Hinv']]; cbn; lia.
  - cbn [rbind Z.ltb Z.compare]. unfold meter at 1. rewrite Ho. cbn [rbind]. unfold info at 1. rewrite Hpi. cbn [rbind].
    destruct (cur_block bs c G m o pi g Hinv Ho Hpi Hg Hnz) as (i & b & Hcs & Hat & Hbl & Hnum).
    rewrite (proj2 (Z.ltb_ge _ _)) by lia. rewrite Hat. cbn [rbind deref]. rewrite Hbl. cbn [rbind].
    destruct (Z.leb_spec (pointsPerBlock o) (numOfPoints b)) as [Hfull|Hroom].
    + assert (Hfull' : nrows g = g_hi g * pointsPerBlock o) by lia.
      destruct (allocate_spec bs c G m o pi g Hinv Ho Hpi Hg Hfull' Hhi) as (code & c1 & -> & Hcfg & [(-> & Hinv1 & Hwhy)|(Hcode & Hinv1)]).
      { cbn [rbind Z.ltb Z.compare]. eexists _, _. split; [reflexivity|]. split; [done|]. by left. }
      cbn [rbind]. rewrite (proj2 (Z.ltb_ge _ _)) by lia.
      destruct (grown_store bs c c1 G m o g row Hinv1 Hcfg Ho Hrow Hfull') as
        (o1 & pi1 & c' & Ho1 & Hpi1 & Hnb1 & Ep & Hst & Hcfg' & Hinv'); [lia|].
      exists 0, c'. split; [done|]. split; [done|]. right. split; [done|]. eexists. split; [|split; [|exact Hinv']]; cbn; lia.
    + cbn [rbind Z.ltb Z.compare].
      destruct (store_spec bs c G m o pi g row Hinv Ho Hpi Hg Hrow) as (c' & -> & Hcfg & Hinv'); [lia|].
      exists 0, c'. split; [done|]. split; [done|]. right. split; [done|]. eexists. split; [|split; [|exact Hinv']]; cbn; lia.
Qed.

(** * Marking the rows of a commit, and dropping a table *)

Definition done_to (g : ghost) (d : Z) : ghost := mkG (g_rows g) (g_hi g) d (g_com g).
Definition unc_to (pi : SCacheInfo) (u : Z) : SCacheInfo :=
  mkInfo (blocks pi) (maxBlocks pi) (numOfBlocks pi) u (currentSlot pi) (commitSlot pi) (commitPoint pi) (cacheBlocks pi).

(** The oldest block that is not committed is marked. *)
Lemma commit_block_spec bs c G m o pi g : pool_ok bs c G -> meters c !! m = Some o -> pCache o = Some pi -> G !! m = Some g ->
  unCommittedBlocks pi = g_hi g - g_done g -> 0 < unCommittedBlocks pi <= numOfBlocks pi ->
  exists c', commit_block m (g_done g mod maxBlocks pi) c = Ret c' /\
    pool_ok bs c' (<[m := done_to g (g_done g + 1)]> G) /\
    meters c' = <[m := with_info (unc_to pi (unCommittedBlocks pi - 1)) o]> (meters c).
Proof.
  intros Hp Ho Hpi Hg Hu Hur.
  destruct (core_block _ _ _ _ _ _ Hp Ho Hpi) as (g' & Hg' & Hcore). assert (g' = g) as -> by congruence.
  pose proof (co_nb _ _ _ _ _ _ Hcore) as [Hn1 Hn2]. pose proof (co_mb _ _ _ _ _ _ Hcore) as Hmb.
  set (k := g_done g + 1). destruct (co_live _ _ _ _ _ _ Hcore k) as (i & b & Hc & Hb & Hok); [unfold live; lia|].
  pose proof Hok as [Hid Hpm Hsl Hix Hfr Hof Hmem Hnum Hin]. rewrite bool_decide_true in Hfr by lia.
  assert (Hil : (i < length (pMem (pool c)))%nat) by (by eapply lookup_lt_Some).
  unfold commit_block, meter, info, block_at, deref, block. rewrite Ho. cbn [rbind]. rewrite Hpi. cbn [rbind].
  pose proof (Z.mod_pos_bound (g_done g) (maxBlocks pi) ltac:(lia)). rewrite (proj2 (Z.ltb_ge _ _)) by lia.
  replace (Z.to_nat (g_done g mod maxBlocks pi)) with (place (maxBlocks pi) k) by (unfold place; do 2 f_equal; lia).
  rewrite Hc. cbn [rbind]. rewrite Hb. cbn [rbind]. rewrite Hfr. cbn [negb].
  rewrite (wraps_id 32) by (unfold in_s; lia). eexists. split; [reflexivity|]. split; [|done].
  set (b' := mkBlock false _ _ _ _ _ _ _). fold (unc_to pi (unCommittedBlocks pi - 1)). set (pi' := unc_to pi _).
  set (g' := done_to g k).
  assert (Hcore' : core bs (<[i := b']> (pMem (pool c))) m (with_info pi' o) pi' g').
  { destruct Hcore as [Hgeo ? Hlen ? Hlive]. constructor; cbn; [by destruct Hgeo|done|done|done|].
    intros k' Hk'. destruct (Hlive k' Hk') as (j & bj & Hcj & Hj & Hokj). exists (j : nat).
    destruct (decide (k' = k)) as [->|Hne].
    - exists b'. assert (j = i) as -> by congruence. rewrite list_lookup_insert_eq by done. split; [done|]. split; [done|].
      constructor; cbn; try done. rewrite bool_decide_false; [done|lia].
    - exists bj. split; [done|]. rewrite list_lookup_insert_ne.
      + split; [done|]. destruct Hokj as [? ? ? ? Hf ? ? ? ?]. constructor; cbn; try done. rewrite Hf.
        apply bool_decide_ext. lia.
      + intros <-. rewrite Hb in Hj. injection Hj as <-. pose proof (bo_id _ _ _ _ _ _ _ _ Hokj). congruence. }
  constructor; unfold totalBlocks; cbn; rewrite ?length_insert; try apply Hp.
  - rewrite (nf_count_insert _ _ _ _ Hb), (po_count _ _ _ Hp), Hfr. cbn. lia.
  - intros j bj Hj. destruct (decide (i = j)) as [<-|Hij].
    + rewrite list_lookup_insert_eq in Hj by done. injection Hj as <-. cbn. split; [done|right]. split; [lia|].
      exists m, (with_info pi' o), pi', g'. cbn. rewrite !lookup_insert_eq, Hid. repeat (split; [done|]).
      split; [unfold live; cbn; lia|done].
    + rewrite list_lookup_insert_ne in Hj by done. destruct (po_own _ _ _ Hp j bj Hj) as [Hml' Hcase]. split; [done|].
      destruct Hcase as [?|[Hid' (m2 & o2 & pi2 & g2 & E1 & E2 & E3 & E4 & E5 & E6)]]; [by left|right]. split; [done|].
      unfold owned. cbn. destruct (decide (m = m2)) as [<-|Hmm].
      * exists m, (with_info pi' o), pi', g'. rewrite !lookup_insert_eq.
        assert (pi2 = pi) as -> by congruence. assert (g2 = g) as -> by congruence. done.
      * exists m2, o2, pi2, g2. rewrite !lookup_insert_ne by done. done.
  - intros m2 o2 H2. destruct (decide (m = m2)) as [<-|Hmm].
    + rewrite lookup_insert_eq in H2. injection H2 as <-. cbn. exists g'. by rewrite lookup_insert_eq.
    + rewrite lookup_insert_ne in H2 by done. rewrite lookup_insert_ne by done. pose proof (po_meters _ _ _ Hp m2 o2 H2) as H3.
      destruct (pCache o2); [|done]. destruct H3 as (g2 & Hg2 & Hc2). exists g2. split; [done|].
      eapply core_frame; [done|]. intros j bj Hj Hmj. rewrite list_lookup_insert_ne; [done|]. congruence.
  - intros m2 g2 H2. destruct (decide (m = m2)) as [<-|Hmm].
    + rewrite lookup_insert_eq. eauto.
    + rewrite lookup_insert_ne in H2 by done. rewrite lookup_insert_ne by done. by apply (po_ghost _ _ _ Hp m2 g2).
Qed.

Lemma slot_eq mb k k' : 0 < mb -> Z.abs (k - k') < mb -> (k mod mb =? k' mod mb) = (k =? k').
Proof.
  intros Hm Hd. destruct (Z.eqb_spec k k') as [->|Hne]; [apply Z.eqb_refl|]. apply Z.eqb_neq. intros E. apply Hne.
  apply (Z.add_cancel_r _ _ 1). apply (place_inj mb); [done| |lia]. unfold place. f_equal.
  by replace (k + 1 - 1) with k by lia; replace (k' + 1 - 1) with k' by lia.
Qed.

(** The loop marks the blocks up to the one of the new position. *)
Lemma commit_loop_spec bs G m o pi g kt pos ppb : G !! m = Some g -> 0 < maxBlocks pi -> pCache o = Some pi ->
  kt <= g_hi g -> numOfBlocks pi <= maxBlocks pi ->
  let K := if pos =? ppb then kt else kt - 1 in
  forall fuel d slots c, pool_ok bs c (<[m := done_to g d]> G) ->
  meters c !! m = Some (with_info (unc_to pi (g_hi g - d)) o) -> g_hi g - d <= numOfBlocks pi ->
  d < kt -> d <= K -> K - d < Z.of_nat fuel ->
  exists c', commit_loop fuel m (maxBlocks pi) ppb ((kt - 1) mod maxBlocks pi) pos (d mod maxBlocks pi) slots c =
      Ret (slots + (K - d), c') /\
    pool_ok bs c' (<[m := done_to g K]> G) /\
    meters c' = <[m := with_info (unc_to pi (g_hi g - K)) o]> (meters c).
Proof.
  intros Hg Hmb Hpi Hkt Hnb K. induction fuel as [|fuel IH]; intros d slots c Hp Hm Hun Hd HK Hfuel; [lia|].
  cbn [commit_loop]. rewrite slot_eq by lia.
  assert (Hstep : negb (d =? kt - 1) || ((d =? kt - 1) && (pos =? ppb)) = (d <? K)).
  { unfold K. destruct (Z.eqb_spec d (kt - 1)), (Z.eqb_spec pos ppb); cbn; symmetry; (apply Z.ltb_lt || apply Z.ltb_ge); lia. }
  rewrite Hstep. destruct (Z.ltb_spec d K) as [Hlt|Hge].
  - destruct (commit_block_spec bs c _ m _ _ (done_to g d) Hp Hm eq_refl (lookup_insert_eq _ _ _)) as (c1 & Hcb & Hp1 & Hm1);
      [done|cbn; unfold K in *; destruct (pos =? ppb); lia|].
    cbn [done_to g_done unc_to maxBlocks] in Hcb. rewrite Hcb. cbn [rbind].
    rewrite insert_insert_eq in Hp1. change (done_to (done_to g d) _) with (done_to g (d + 1)) in Hp1.
    assert (Hm1' : meters c1 = <[m := with_info (unc_to pi (g_hi g - (d + 1))) o]> (meters c)).
    { rewrite Hm1. unfold with_info, unc_to. cbn. do 4 f_equal. lia. }
    destruct (Z.eqb_spec d (kt - 1)) as [Heq|Hne].
    + assert (K = d + 1) as -> by (unfold K in *; destruct (pos =? ppb); lia).
      exists c1. split; [do 2 f_equal; lia|]. by split.
    + assert (Hn : Z.rem (d mod maxBlocks pi + 1) (maxBlocks pi) = (d + 1) mod maxBlocks pi).
      { pose proof (Z.mod_pos_bound d (maxBlocks pi) Hmb). rewrite rem_mod by lia. apply Z.add_mod_idemp_l. lia. }
      rewrite Hn. destruct (IH (d + 1) (slots + 1) c1 Hp1) as (c' & -> & Hp' & Hm'); try lia.
      { by rewrite Hm1', lookup_insert_eq. }
      exists c'. split; [do 2 f_equal; lia|]. split; [done|]. by rewrite Hm', Hm1', insert_insert_eq.
  - exists c. assert (K = d) as -> by lia. split; [do 2 f_equal; lia|]. split; [done|]. by rewrite insert_id.
Qed.

(** A change of what a table says of its commit. *)
Lemma pool_ok_meter bs c G m o pi g o' pi' g' : pool_ok bs c G -> meters c !! m = Some o -> pCache o = Some pi ->
  G !! m = Some g -> pCache o' = Some pi' -> cfg o' = cfg o -> maxBlocks pi' = maxBlocks pi ->
  cacheBlocks pi' = cacheBlocks pi -> numOfBlocks pi' = numOfBlocks pi -> g_rows g' = g_rows g -> g_hi g' = g_hi g ->
  g_done g' = g_done g -> pool_ok bs (set_meter m o' c) (<[m := g']> G).
Proof.
  intros Hp Ho Hpi Hg Hpi' Ecfg Em Ec En Er Eh Ed. unfold cfg in Ecfg. injection Ecfg as Es Eb Ef Ep El Emm.
  destruct (core_block _ _ _ _ _ _ Hp Ho Hpi) as (g0 & Hg0 & Hcore). assert (g0 = g) as -> by congruence.
  pose proof (co_nb _ _ _ _ _ _ Hcore) as [Hn1 Hn2].
  assert (Hlive : forall k, live pi' g' k <-> live pi g k) by (intros k; unfold live; by rewrite En, Eh).
  constructor; unfold totalBlocks; cbn; try apply Hp.
  - intros j b Hj. destruct (po_own _ _ _ Hp j b Hj) as [Hml Hcase]. split; [done|].
    destruct Hcase as [?|[Hid (m2 & o2 & pi2 & g2 & E1 & E2 & E3 & E4 & E5 & E6)]]; [by left|right]. split; [done|].
    unfold owned. cbn. destruct (decide (m = m2)) as [<-|Hmm].
    + exists m, o', pi', g'. rewrite !lookup_insert_eq. assert (pi2 = pi) as -> by congruence.
      assert (g2 = g) as -> by congruence. rewrite Hlive, Ec, Em. done.
    + exists m2, o2, pi2, g2. rewrite !lookup_insert_ne by done. done.
  - intros m2 o2 H2. destruct (decide (m = m2)) as [<-|Hmm].
    + rewrite lookup_insert_eq in H2. injection H2 as <-. rewrite Hpi'. exists g'. rewrite lookup_insert_eq. split; [done|].
      eapply core_sub; try exact Hcore; try done; try lia. intros k Hk. apply Hlive in Hk. by split.
    + rewrite lookup_insert_ne in H2 by done. rewrite lookup_insert_ne by done. by apply (po_meters _ _ _ Hp m2 o2).
  - intros m2 g2 H2. destruct (decide (m = m2)) as [<-|Hmm].
    + rewrite lookup_insert_eq. eauto.
    + rewrite lookup_insert_ne in H2 by done. rewrite lookup_insert_ne by done. by apply (po_ghost _ _ _ Hp m2 g2).
Qed.

(** The end of a commit of rows up to the place [pos] of the block [kt]. *)
Lemma update_commit_spec bs c G m o pi g kt pos cnt : inv bs c G -> meters c !! m = Some o -> pCache o = Some pi ->
  G !! m = Some g -> 1 <= kt <= g_hi g -> 0 <= pos <= pointsPerBlock o ->
  let com := (kt - 1) * pointsPerBlock o + pos in g_com g < com <= nrows g ->
  exists c', vnodeUpdateCommitInfo m ((kt - 1) mod maxBlocks pi) pos cnt c = Ret c' /\ same_cfg c c' /\
    inv bs c' (<[m := mkG (g_rows g) (g_hi g) (com / pointsPerBlock o) com]> G).
Proof.
  intros Hinv Ho Hpi Hg Hkt Hpos com Hcom. pose proof (in_settled _ _ _ Hinv m o pi g Ho Hpi Hg) as Hs.
  destruct (core_block _ _ _ _ _ _ (in_pool _ _ _ Hinv) Ho Hpi) as (g' & Hg' & Hcore). assert (g' = g) as -> by congruence.
  pose proof (ge_ppb _ _ (co_geo _ _ _ _ _ _ Hcore)) as Hppb. pose proof (co_nb _ _ _ _ _ _ Hcore) as [Hn1 Hn2].
  pose proof (co_mb _ _ _ _ _ _ Hcore) as Hmb. pose proof (se_unc _ _ _ Hs) as Hu. pose proof (se_unc_range _ _ _ Hs) as Hur.
  destruct (se_com _ _ _ Hs) as [Hc0 Hdone]. destruct (se_pos _ _ _ Hs) as (kc & Hslot & Hkc & Hgc & Hcp).
  set (ppb := pointsPerBlock o) in *. set (mb := maxBlocks pi) in *. set (d := g_done g) in *.
  assert (HK : com / ppb = if pos =? ppb then kt else kt - 1).
  { destruct (Z.eqb_spec pos ppb) as [->|Hne]; unfold com.
    - replace ((kt - 1) * ppb + ppb) with (kt * ppb) by lia. apply Z.div_mul. lia.
    - rewrite Z.add_comm, Z.div_add, Z.div_small by lia. lia. }
  assert (Hd : d = if commitPoint pi =? ppb then kc else kc - 1).
  { rewrite Hdone, Hgc. destruct (Z.eqb_spec (commitPoint pi) ppb) as [->|Hne].
    - replace ((kc - 1) * ppb + ppb) with (kc * ppb) by lia. apply Z.div_mul. lia.
    - rewrite Z.add_comm, Z.div_add, Z.div_small by lia. lia. }
  pose proof (Z.mul_div_le (g_com g) ppb ltac:(lia)) as Hlow. rewrite <- Hdone in Hlow.
  assert (Hdk : d < kt).
  { destruct (Z.lt_ge_cases d kt) as [|Hge]; [done|].
    pose proof (Z.mul_le_mono_nonneg_l kt d ppb ltac:(lia) Hge). lia. }
  assert (HdK : d <= com / ppb) by (rewrite Hdone; apply Z.div_le_mono; lia).
  assert (HKhi : com / ppb <= g_hi g) by (rewrite HK; destruct (pos =? ppb); lia).
  assert (Ht : (if commitPoint pi =? ppb then Z.rem (commitSlot pi + 1) mb else commitSlot pi) = d mod mb).
  { rewrite Hd, Hslot. destruct (commitPoint pi =? ppb); [|done].
    pose proof (Z.mod_pos_bound (kc - 1) mb ltac:(lia)). rewrite rem_mod by lia. rewrite Z.add_mod_idemp_l by lia. f_equal. lia. }
  assert (Eo : with_info (unc_to pi (g_hi g - d)) o = o).
  { destruct o as [? ? ? ? ? ? ? pc]. cbn in *. unfold with_info. cbn. rewrite Hpi. f_equal. f_equal.
    destruct pi. unfold unc_to. cbn in *. f_equal. lia. }
  assert (Eg : <[m := done_to g d]> G = G) by (apply insert_id; rewrite Hg; by destruct g).
  unfold vnodeUpdateCommitInfo, meter at 1, info at 1. rewrite Ho. cbn [rbind]. rewrite Hpi. cbn [rbind]. fold ppb mb. rewrite Ht.
  pose proof (commit_loop_spec bs G m o pi g kt pos ppb Hg ltac:(lia) Hpi ltac:(lia) ltac:(lia)) as Hloop. cbv zeta in Hloop.
  rewrite <- HK in Hloop. fold mb in Hloop.
  destruct (Hloop (S (Z.to_nat mb)) d 0 c) as (c1 & -> & Hp1 & Hm1); try lia.
  { rewrite Eg. apply Hinv. } { by rewrite Eo. }
  cbn [rbind]. unfold meter, info. rewrite Hm1, lookup_insert_eq. cbn [rbind with_info pCache].
  pose proof (se_free _ _ _ Hs) as Hfree. pose proof (se_size _ _ _ Hs) as Hsize. fold ppb mb in Hfree, Hsize.
  pose proof (se_rows _ _ _ Hs) as Hrows. fold ppb in Hrows.
  pose proof (Z.mul_div_le com ppb ltac:(lia)) as Hlow2.
  assert (Efree : freePoints o + ppb * (0 + (com / ppb - d)) = ppb * mb - (nrows g - ppb * (com / ppb))).
  { fold d in Hfree. rewrite Hfree. lia. }
  assert (Hfr : 0 <= nrows g - ppb * (com / ppb) <= ppb * mb).
  { pose proof (Z.mul_le_mono_nonneg_l _ _ ppb ltac:(lia) HdK).
    pose proof (Z.mul_le_mono_nonneg_l (g_hi g - d) mb ppb ltac:(lia) ltac:(lia)). lia. }
  change (freePoints (with_info _ o)) with (freePoints o). rewrite Efree, (wraps_id 32) by (unfold in_s; lia).
  eexists. split; [reflexivity|]. set (o' := with_info _ _). set (pi' := mkInfo _ _ _ _ _ _ _ _) in o'. split.
  { intros m2. cbn. rewrite Hm1, insert_insert_eq. destruct (decide (m = m2)) as [<-|Hne]; [|by rewrite lookup_insert_ne].
    rewrite lookup_insert_eq, Ho. unfold cfg. cbn. by rewrite Hpi. }
  constructor.
  - assert (Hp2 : pool_ok bs (set_meter m o' c1)
        (<[m := mkG (g_rows g) (g_hi g) (com / ppb) com]> (<[m := done_to g (com / ppb)]> G))).
    { eapply (pool_ok_meter bs c1); [exact Hp1|by rewrite Hm1, lookup_insert_eq|reflexivity|apply lookup_insert_eq|..]; done. }
    by rewrite insert_insert_eq in Hp2.
  - intros m2 o2 pi2 g2 H2 Hpi2 Hg2. cbn in H2. rewrite Hm1, insert_insert_eq in H2. destruct (decide (m = m2)) as [<-|Hne].
    + rewrite lookup_insert_eq in H2. rewrite lookup_insert_eq in Hg2. injection H2 as <-. injection Hg2 as <-.
      cbn in Hpi2. injection Hpi2 as <-. clear Hloop Hp1.
      pose proof (se_empty _ _ _ Hs) as Hem. fold ppb in Hem. pose proof (Z.mul_le_mono_nonneg_l _ _ ppb ltac:(lia) HdK).
      destruct Hs. constructor; cbn; fold ppb mb d; try done; try lia.
      * split; [|done]. unfold nrows in *. cbn. lia.
      * exists kt. split; [done|]. split; [lia|]. by split.
    + rewrite lookup_insert_ne in H2 by done. rewrite lookup_insert_ne in Hg2 by done. by apply (in_settled _ _ _ Hinv m2).
Qed.

(** * Making and dropping the cache of a table *)

(** ** Dropping: the blocks of the table are freed, the newest first *)
Lemma free_blocks_spec bs G m pi0 : forall n c o pi g, pool_ok bs c (<[m := g]> G) -> meters c !! m = Some o ->
  pCache o = Some pi -> cacheBlocks pi = cacheBlocks pi0 -> maxBlocks pi = maxBlocks pi0 -> numOfBlocks pi = Z.of_nat n ->
  exists c' o' pi' g', free_blocks n pi0 ((g_hi g - 1) mod maxBlocks pi0) c = Ret c' /\ pool_ok bs c' (<[m := g']> G) /\
    meters c' = <[m := o']> (meters c) /\ pCache o' = Some pi' /\ numOfBlocks pi' = 0 /\ cfg o' = cfg o.
Proof.
  induction n as [|n IH]; intros c o pi g Hp Ho Hpi Ec Em En.
  { exists c, o, pi, g. cbn. by rewrite (insert_id (meters c)). }
  destruct (core_block _ _ _ _ _ _ Hp Ho Hpi) as (g' & Hg' & Hcore). rewrite lookup_insert_eq in Hg'. injection Hg' as <-.
  pose proof (co_nb _ _ _ _ _ _ Hcore) as [Hn1 Hn2]. pose proof (co_mb _ _ _ _ _ _ Hcore) as Hmb.
  destruct (co_live _ _ _ _ _ _ Hcore (g_hi g)) as (i & b & Hc & Hb & Hok); [unfold live; lia|].
  pose proof (bo_id _ _ _ _ _ _ _ _ Hok) as Hid. pose proof (bo_meter _ _ _ _ _ _ _ _ Hok) as Hm.
  pose proof (Z.mod_pos_bound (g_hi g - 1) (maxBlocks pi) ltac:(lia)) as Hrange.
  destruct (free_ok bs c _ i b m o pi g Hp Hb ltac:(lia) Hm Ho Hpi (lookup_insert_eq _ _ _) ltac:(by right)) as [Hn Hp'].
  rewrite insert_insert_eq in Hp'.
  cbn [free_blocks]. unfold block_at. rewrite <- Em, <- Ec. rewrite (proj2 (Z.ltb_ge _ _)) by lia.
  fold (place (maxBlocks pi) (g_hi g)). rewrite Hc. cbn [rbind]. rewrite (free_eq c i b m o pi Hb Hm Ho Hpi Hn). cbn [rbind].
  destruct n as [|n].
  - exists (freed c m o pi i b), (with_info (fewer pi) o), (fewer pi), (less pi g (blockId b)). cbn [free_blocks].
    do 4 (split; [done|]). split; [cbn; lia|]. unfold cfg. cbn. by rewrite Hpi.
  - assert (Hless : less pi g (blockId b) = mkG (g_rows g) (g_hi g - 1) (g_done g) (g_com g)).
    { unfold less. rewrite decide_False; [done|]. rewrite Hid. lia. }
    rewrite Hless in Hp'.
    destruct (IH (freed c m o pi i b) (with_info (fewer pi) o) (fewer pi) (mkG (g_rows g) (g_hi g - 1) (g_done g) (g_com g)))
      as (c' & o' & pi' & g' & Hf & Hpc & Hmc & Hpi' & Hz & Hcfg); try done.
    { cbn. by rewrite lookup_insert_eq. } { cbn. lia. }
    assert (Hs : Z.rem ((g_hi g - 1) mod maxBlocks pi - 1 + maxBlocks pi) (maxBlocks pi) = (g_hi g - 1 - 1) mod maxBlocks pi).
    { rewrite rem_mod by lia. rewrite <- (Z.add_mod_idemp_l (g_hi g - 1) (-1)) by lia.
      replace ((g_hi g - 1) mod maxBlocks pi - 1 + maxBlocks pi) with ((g_hi g - 1) mod maxBlocks pi + -1 + 1 * maxBlocks pi) by lia.
      by rewrite Z.mod_add by lia. }
    rewrite Hs, Em. cbn [g_hi] in Hf. rewrite Hf. exists c', o', pi', g'. split; [done|]. split; [done|].
    split; [rewrite Hmc; cbn; by rewrite insert_insert_eq|]. split; [done|]. split; [done|].
    rewrite Hcfg. unfold cfg. cbn. by rewrite Hpi.
Qed.

Definition no_info (o : SMeterObj) : SMeterObj :=
  mkMeter (schema o) (bytesPerPoint o) (pointsPerFileBlock o) (pointsPerBlock o) (freePoints o) (commitCount o) (lastKey o) None.

(** A table that has no block is forgotten. *)
Lemma forget_ok bs c G m o pi g : pool_ok bs c G -> meters c !! m = Some o -> pCache o = Some pi -> G !! m = Some g ->
  numOfBlocks pi = 0 -> pool_ok bs (set_meter m (no_info o) c) (delete m G).
Proof.
  intros Hp Ho Hpi Hg Hz. constructor; unfold totalBlocks; cbn; try apply Hp.
  - intros j b Hj. destruct (po_own _ _ _ Hp j b Hj) as [Hml Hcase]. split; [done|].
    destruct Hcase as [?|[Hid (m2 & o2 & pi2 & g2 & E1 & E2 & E3 & E4 & E5 & E6)]]; [by left|right]. split; [done|].
    destruct (decide (m = m2)) as [<-|Hmm].
    + assert (pi2 = pi) as -> by congruence. unfold live in E5. lia.
    + exists m2, o2, pi2, g2. cbn. rewrite lookup_insert_ne, lookup_delete_ne by done. done.
  - intros m2 o2 H2. destruct (decide (m = m2)) as [<-|Hmm].
    + rewrite lookup_insert_eq in H2. injection H2 as <-. cbn. apply lookup_delete_eq.
    + rewrite lookup_insert_ne in H2 by done. rewrite lookup_delete_ne by done. by apply (po_meters _ _ _ Hp m2 o2).
  - intros m2 g2 H2. destruct (decide (m = m2)) as [<-|Hmm]; [by rewrite lookup_delete_eq in H2|].
    rewrite lookup_delete_ne in H2 by done. rewrite lookup_insert_ne by done. by apply (po_ghost _ _ _ Hp m2 g2).
Qed.

Lemma cache_drop_spec bs c G m o : inv bs c G -> meters c !! m = Some o ->
  exists c', vnodeFreeCacheInfo m c = Ret c' /\
    (forall m2, m2 <> m -> cfg <$> meters c' !! m2 = cfg <$> meters c !! m2) /\ inv bs c' (delete m G) /\
    exists o', meters c' !! m = Some o' /\ pCache o' = None.
Proof.
  intros Hinv Ho. pose proof (in_pool _ _ _ Hinv) as Hp. unfold vnodeFreeCacheInfo, meter. rewrite Ho. cbn [rbind].
  destruct (pCache o) as [pi|] eqn:Hpi.
  2:{ exists c. split; [done|]. split; [done|]. split; [|by exists o].
      pose proof (po_meters _ _ _ Hp m o Ho) as Hm. rewrite Hpi in Hm. by rewrite delete_id. }
  destruct (core_block _ _ _ _ _ _ Hp Ho Hpi) as (g & Hg & Hcore). pose proof (in_settled _ _ _ Hinv m o pi g Ho Hpi Hg) as Hs.
  pose proof (co_nb _ _ _ _ _ _ Hcore) as [Hn1 Hn2]. pose proof (co_mb _ _ _ _ _ _ Hcore) as Hmb.
  destruct (free_blocks_spec bs G m pi (Z.to_nat (numOfBlocks pi)) c o pi g) as
    (c1 & o1 & pi1 & g1 & Hf & Hp1 & Hm1 & Hpi1 & Hz & Hcfg); try done; [by rewrite insert_id|lia|].
  assert (Hfb : free_blocks (Z.to_nat (numOfBlocks pi)) pi (currentSlot pi) c = Ret c1).
  { rewrite (se_cur _ _ _ Hs). unfold cur_slot. destruct (Z.eqb_spec (g_hi g) 0) as [E|E]; [|done].
    replace (numOfBlocks pi) with 0 in * by lia. exact Hf. }
  rewrite Hfb. cbn [rbind]. rewrite Hm1, lookup_insert_eq. cbn [rbind]. fold (no_info o1).
  exists (set_meter m (no_info o1) c1). split; [done|].
  assert (Hmeters : meters (set_meter m (no_info o1) c1) = <[m := no_info o1]> (meters c)) by (cbn; by rewrite Hm1, insert_insert_eq).
  split; [|split; [constructor|]].
  - intros m2 Hne. rewrite Hmeters. by rewrite lookup_insert_ne.
  - assert (Hd : delete m (<[m := g1]> G) = delete m G) by apply delete_insert_eq. rewrite <- Hd.
    eapply forget_ok; [exact Hp1|by rewrite Hm1, lookup_insert_eq|done|apply lookup_insert_eq|done].
  - intros m2 o2 pi2 g2 H2 Hpi2 Hg2. rewrite Hmeters in H2. destruct (decide (m = m2)) as [<-|Hne].
    + by rewrite lookup_delete_eq in Hg2.
    + rewrite lookup_insert_ne in H2 by done. rewrite lookup_delete_ne in Hg2 by done. by apply (in_settled _ _ _ Hinv m2).
  - exists (no_info o1). rewrite Hmeters. by rewrite lookup_insert_eq.
Qed.

(** ** Making: a table gets an empty list of blocks *)

(** A block takes the addresses of the columns and at least one row; the numbers
    of rows fit their fields, of which that of a block is a [short]. *)
Record sizes (bs perMeter : Z) (o : SMeterObj) : Prop := {
  si_bytes : bytesPerPoint o = row_width (schema o) /\ 0 < bytesPerPoint o;
  si_schema : Forall (fun w => 0 <= w) (schema o);
  si_block : base o + bytesPerPoint o <= bs < 2 ^ 30;
  si_file : 1 <= pointsPerFileBlock o < 2 ^ 15;
  si_meter : 0 < perMeter < 2 ^ 16 }.

Definition new_cache (perMeter : Z) : SCacheInfo := mkInfo 0 perMeter 0 0 (-1) 0 0 (replicate (Z.to_nat perMeter) None).
Definition rows_per_block (bs : Z) (o : SMeterObj) : Z := Z.min (pointsPerFileBlock o) ((bs - base o) / bytesPerPoint o).
Definition made (bs perMeter : Z) (o : SMeterObj) : SMeterObj :=
  mkMeter (schema o) (bytesPerPoint o) (pointsPerFileBlock o) (rows_per_block bs o) (rows_per_block bs o * perMeter)
    (commitCount o) (lastKey o) (Some (new_cache perMeter)).

Lemma create_eq c m o bs pm : meters c !! m = Some o -> cacheBlockSize (pool c) = bs -> blocksPerMeter (pool c) = pm ->
  sizes bs pm o -> vnodeAllocateCacheInfo m c = Ret (set_meter m (made bs pm o) c).
Proof.
  intros Ho Ebs Epm [[Hb1 Hb2] Hsch Hbs Hfile Hpm]. unfold vnodeAllocateCacheInfo, meter. rewrite Ho. cbn [rbind].
  rewrite Ebs, Epm. unfold base in Hbs.
  assert (Hn : 0 <= numOfColumns o) by (unfold numOfColumns; lia). unfold SIZEOF_SCacheBlock, SIZEOF_PTR in *.
  rewrite !(wrapu_id 64) by (unfold in_u; lia).
  assert (Hq : 1 <= (bs - 32 - numOfColumns o * 8) / bytesPerPoint o <= bs).
  { split; [apply Z.div_le_lower_bound; lia|]. apply Z.div_le_upper_bound; [lia|]. nia. }
  rewrite (wraps_id 32) by (unfold in_s; lia). unfold made, rows_per_block, base, SIZEOF_SCacheBlock, SIZEOF_PTR.
  replace (bs - (32 + numOfColumns o * 8)) with (bs - 32 - numOfColumns o * 8) by lia.
  set (q := _ / _) in *.
  assert (E : (if pointsPerFileBlock o <? q then pointsPerFileBlock o else q) = Z.min (pointsPerFileBlock o) q).
  { destruct (Z.ltb_spec (pointsPerFileBlock o) q); lia. }
  rewrite E. rewrite (wraps_id 32) by (unfold in_s; nia). done.
Qed.

Lemma create_spec bs c G m o : inv bs c G -> meters c !! m = Some o -> pCache o = None -> cacheBlockSize (pool c) = bs ->
  sizes bs (blocksPerMeter (pool c)) o ->
  exists c', vnodeAllocateCacheInfo m c = Ret c' /\ inv bs c' (<[m := mkG [] 0 0 0]> G) /\ pool c' = pool c /\
    exists o', meters c' = <[m := o']> (meters c) /\ schema o' = schema o /\ pCache o' <> None /\
      pointsPerFileBlock o' = pointsPerFileBlock o /\ bytesPerPoint o' = bytesPerPoint o.
Proof.
  intros Hinv Ho Hnone Ebs Hsi. set (pm := blocksPerMeter (pool c)) in *. rewrite (create_eq c m o bs pm Ho Ebs eq_refl Hsi).
  pose proof (in_pool _ _ _ Hinv) as Hp. pose proof (po_meters _ _ _ Hp m o Ho) as Hgm. rewrite Hnone in Hgm.
  destruct Hsi as [[Hb1 Hb2] Hsch Hbs Hfile Hpm]. set (o' := made bs pm o).
  assert (Hq : 1 <= rows_per_block bs o < 2 ^ 15 /\ base o + rows_per_block bs o * row_width (schema o) <= bs).
  { unfold rows_per_block. rewrite <- Hb1. pose proof (Z.mul_div_le (bs - base o) (bytesPerPoint o) Hb2).
    assert (1 <= (bs - base o) / bytesPerPoint o) by (apply Z.div_le_lower_bound; lia).
    split; [lia|]. nia. }
  destruct Hq as [Hppb Hroom].
  eexists. split; [reflexivity|]. split; [|split; [done|exists o'; by repeat split]].
  assert (Hcore : core bs (pMem (pool c)) m o' (new_cache pm) (mkG [] 0 0 0)).
  { constructor; cbn; [by constructor|lia|by rewrite length_replicate|lia|]. intros k Hk. unfold live in Hk. cbn in Hk. lia. }
  constructor.
  - constructor; unfold totalBlocks; cbn; try apply Hp.
    + intros j b Hj. destruct (po_own _ _ _ Hp j b Hj) as [Hml Hcase]. split; [done|].
      destruct Hcase as [?|[Hid (m2 & o2 & pi2 & g2 & E1 & E2 & E3 & E4 & E5 & E6)]]; [by left|right]. split; [done|].
      exists m2, o2, pi2, g2. cbn. rewrite !lookup_insert_ne by congruence. done.
    + intros m2 o2 H2. destruct (decide (m = m2)) as [<-|Hmm].
      * rewrite lookup_insert_eq in H2. injection H2 as <-. cbn. eexists. by rewrite lookup_insert_eq.
      * rewrite lookup_insert_ne in H2 by done. rewrite lookup_insert_ne by done. by apply (po_meters _ _ _ Hp m2 o2).
    + intros m2 g2 H2. destruct (decide (m = m2)) as [<-|Hmm].
      * rewrite lookup_insert_eq. eexists _, _. split; [done|]. done.
      * rewrite lookup_insert_ne in H2 by done. rewrite lookup_insert_ne by done. by apply (po_ghost _ _ _ Hp m2 g2).
  - intros m2 o2 pi2 g2 H2 Hpi2 Hg2. cbn in H2. destruct (decide (m = m2)) as [<-|Hmm].
    + rewrite lookup_insert_eq in H2. rewrite lookup_insert_eq in Hg2. injection H2 as <-. injection Hg2 as <-.
      cbn in Hpi2. injection Hpi2 as <-. constructor; cbn; try done; try lia.
      * unfold nrows. cbn. lia.
      * exists 1. split; [by rewrite Z.mod_0_l by lia|]. lia.
      * unfold nrows. cbn. lia.
      * nia.
    + rewrite lookup_insert_ne in H2 by done. rewrite lookup_insert_ne in Hg2 by done. by apply (in_settled _ _ _ Hinv m2).
Qed.
