(* ===== verification/CacheQuery.v ===== *)
(** * Reading rows from the cache (system/src/vnodeCache.c, vnodeFile.c)

    A query is a cursor: the slot and the position of the next row.  The commit
    of a table is a query from the first row that is not committed, and the
    query of a client starts with a search of its first key. *)
From S2P Require Import Prelude CachePool KeySearch.

(** ** Data

    The query is of all the columns of the table in their order, as
    [vnodeSetCommitQuery] makes it, and has no filters.  [sdata] are the buffers
    of the columns, [sdata\[col\]->data], and [len] their [len]. *)
Record SQuery := mkQuery {
  q_asc : bool; q_skey : Z; q_ekey : Z; q_key : Z; q_lastKey : Z; q_slot : Z; q_pos : Z; q_over : bool; q_keyIsMet : bool;
  q_currentSlot : Z; q_firstSlot : Z; q_numOfBlocks : Z; q_blockId : Z; q_offset : Z (* limit.offset *);
  q_pointsToRead : Z; q_pointsOffset : Z; q_pointsRead : Z; q_sdata : list (list Z); q_len : list Z }.

Definition set_pos (s p : Z) (q : SQuery) : SQuery :=
  mkQuery (q_asc q) (q_skey q) (q_ekey q) (q_key q) (q_lastKey q) s p (q_over q) (q_keyIsMet q) (q_currentSlot q)
    (q_firstSlot q) (q_numOfBlocks q) (q_blockId q) (q_offset q) (q_pointsToRead q) (q_pointsOffset q) (q_pointsRead q)
    (q_sdata q) (q_len q).
Definition set_over (over met : bool) (q : SQuery) : SQuery :=
  mkQuery (q_asc q) (q_skey q) (q_ekey q) (q_key q) (q_lastKey q) (q_slot q) (q_pos q) over met (q_currentSlot q)
    (q_firstSlot q) (q_numOfBlocks q) (q_blockId q) (q_offset q) (q_pointsToRead q) (q_pointsOffset q) (q_pointsRead q)
    (q_sdata q) (q_len q).
Definition set_window (cur first num bid : Z) (q : SQuery) : SQuery :=
  mkQuery (q_asc q) (q_skey q) (q_ekey q) (q_key q) (q_lastKey q) (q_slot q) (q_pos q) (q_over q) (q_keyIsMet q) cur
    first num bid (q_offset q) (q_pointsToRead q) (q_pointsOffset q) (q_pointsRead q) (q_sdata q) (q_len q).
Definition set_keys (skey key lastKey offset : Z) (q : SQuery) : SQuery :=
  mkQuery (q_asc q) skey (q_ekey q) key lastKey (q_slot q) (q_pos q) (q_over q) (q_keyIsMet q) (q_currentSlot q)
    (q_firstSlot q) (q_numOfBlocks q) (q_blockId q) offset (q_pointsToRead q) (q_pointsOffset q) (q_pointsRead q)
    (q_sdata q) (q_len q).
Definition set_toRead (toRead offset : Z) (q : SQuery) : SQuery :=
  mkQuery (q_asc q) (q_skey q) (q_ekey q) (q_key q) (q_lastKey q) (q_slot q) (q_pos q) (q_over q) (q_keyIsMet q)
    (q_currentSlot q) (q_firstSlot q) (q_numOfBlocks q) (q_blockId q) (q_offset q) toRead offset (q_pointsRead q)
    (q_sdata q) (q_len q).
Definition set_read (n : Z) (sdata : list (list Z)) (len : list Z) (q : SQuery) : SQuery :=
  mkQuery (q_asc q) (q_skey q) (q_ekey q) (q_key q) (q_lastKey q) (q_slot q) (q_pos q) (q_over q) (q_keyIsMet q)
    (q_currentSlot q) (q_firstSlot q) (q_numOfBlocks q) (q_blockId q) (q_offset q) (q_pointsToRead q) (q_pointsOffset q) n
    sdata len.

(** [vnodeGetTSInCacheBlock] *)
Definition offset0 (b : SCacheBlock) : res Z := match offset b with off :: _ => Ret off | [] => Undef end.
Definition vnodeGetTSInCacheBlock (b : SCacheBlock) (pos : Z) : res Z :=
  let! off := offset0 b in keyList (b_mem b) off pos.
Definition block_of (pi : SCacheInfo) (s : Z) (c : cache) : res SCacheBlock :=
  let! x := block_at pi s in let! i := deref x in block c i.
Definition step_slot (s d mb : Z) : Z := Z.rem (s + d + mb) mb.

(** ** The next slot *)
Definition vnodeUpdateQuerySlotPos (pi : SCacheInfo) (c : cache) (q : SQuery) : res SQuery :=
  let step := if q_asc q then -1 else 1 in
  if (q_asc q && (q_slot q =? q_currentSlot q)) || (negb (q_asc q) && (q_slot q =? q_firstSlot q))
  then Ret (set_over true (q_keyIsMet q) q)
  else
    let s := step_slot (q_slot q) (- step) (maxBlocks pi) in
    if q_asc q then Ret (set_pos s 0 q)
    else let! b := block_of pi s c in Ret (set_pos s (numOfPoints b - 1) q).

(** ** The first row of a query *)

(** The slot of the block that may have [skey], with its first and its last key. *)
Fixpoint search_slot (fuel : nat) (pi : SCacheInfo) (c : cache) (q : SQuery) (firstSlot lastSlot : Z) : res (Z * Z * Z) :=
  match fuel with
  | O => NoFuel
  | S fuel =>
    let mb := maxBlocks pi in
    let n := Z.rem (lastSlot - firstSlot + 1 + mb) mb in
    let numOfBlocks := if n =? 0 then mb else n in
    let midSlot := Z.rem (firstSlot + Z.shiftr numOfBlocks 1) mb in
    let! b := block_of pi midSlot c in
    let! keyFirst := vnodeGetTSInCacheBlock b 0 in
    let! keyLast := vnodeGetTSInCacheBlock b (numOfPoints b - 1) in
    let found := Ret (midSlot, keyFirst, keyLast) in
    if numOfBlocks =? 1 then found
    else if keyLast <? q_skey q then
      if numOfBlocks =? 2 then found
      else
        let up := search_slot fuel pi c q (Z.rem (midSlot + 1) mb) lastSlot in
        if q_asc q then up
        else
          let! b := block_of pi (step_slot midSlot 1 mb) c in
          let! nextKeyFirst := vnodeGetTSInCacheBlock b 0 in
          if q_skey q <? nextKeyFirst then found else up
    else if q_skey q <? keyFirst then
      let down := search_slot fuel pi c q firstSlot (step_slot midSlot (-1) mb) in
      if q_asc q then
        let! b := block_of pi (step_slot midSlot (-1) mb) c in
        let! prevKeyLast := vnodeGetTSInCacheBlock b (numOfPoints b - 1) in
        if prevKeyLast <? q_skey q then found else down
      else down
    else found
  end.

(** The rows of [limit.offset] are skipped. *)
Fixpoint skip_slots (fuel : nat) (pi : SCacheInfo) (c : cache) (asc : bool) (cur first : Z) (off s : Z) : res (bool * Z * Z) :=
  match fuel with
  | O => NoFuel
  | S fuel =>
    let! b := block_of pi s c in
    if numOfPoints b <? off then
      let off := off - numOfPoints b in
      if (asc && (s =? cur)) || (negb asc && (s =? first)) then Ret (false, off, s)
      else skip_slots fuel pi c asc cur first off (step_slot s (if asc then 1 else -1) (maxBlocks pi))
    else Ret (true, off, s)
  end.

Definition forward_offset (pi : SCacheInfo) (c : cache) (midSlot : Z) (b : SCacheBlock) (q : SQuery) : res SQuery :=
  let maxReads := if q_asc q then numOfPoints b - q_pos q else q_pos q + 1 in
  if q_offset q <? maxReads then
    let p := if q_asc q then q_pos q + q_offset q else q_pos q - q_offset q in
    let! k := vnodeGetTSInCacheBlock b p in
    Ret (set_keys (q_skey q) k (q_lastKey q) 0 (set_pos (q_slot q) p q))
  else if numOfBlocks pi =? 1 then Ret (set_pos (q_slot q) (-1) q)
  else
    let step := if q_asc q then 1 else -1 in
    let! '(hasData, off, s) := skip_slots (S (Z.to_nat (maxBlocks pi))) pi c (q_asc q) (q_currentSlot q) (q_firstSlot q)
                                 (q_offset q - maxReads) (step_slot midSlot step (maxBlocks pi)) in
    let! b := block_of pi s c in
    if hasData : bool then
      let p := if q_asc q then off else numOfPoints b - off - 1 in
      let! k := vnodeGetTSInCacheBlock b p in
      Ret (set_keys (q_skey q) k (q_lastKey q) 0 (set_pos s p q))
    else
      let! k := vnodeGetTSInCacheBlock b (if q_asc q then numOfPoints b - 1 else 0) in
      Ret (set_keys (i64 (k + step)) (q_key q) k off (set_pos (q_slot q) (-1) q)).

Definition vnodeSearchPointInCache (pi : SCacheInfo) (c : cache) (q : SQuery) : res SQuery :=
  let q := set_pos (-1) (-1) q in
  let n := numOfBlocks pi in
  let lastSlot := currentSlot pi in
  if n <=? 0 then Ret q
  else
    let firstSlot := Z.rem (lastSlot - n + 1 + maxBlocks pi) (maxBlocks pi) in
    let! b := block_of pi firstSlot c in
    let! keyFirst := vnodeGetTSInCacheBlock b 0 in
    let! b := block_of pi lastSlot c in
    let! keyLast := vnodeGetTSInCacheBlock b (numOfPoints b - 1) in
    let q := set_window lastSlot firstSlot n (blockId b) q in
    if (if q_asc q then (keyLast <? q_skey q) || (q_ekey q <? keyFirst)
        else (q_skey q <? keyFirst) || (keyLast <? q_ekey q)) then Ret q
    else
      let! '(midSlot, keyFirst, keyLast) := search_slot (S (Z.to_nat (maxBlocks pi))) pi c q firstSlot lastSlot in
      let q := set_pos midSlot (-1) q in
      let next := set_pos (step_slot midSlot 1 (maxBlocks pi)) (-1) q in
      if q_asc q && (keyLast <? q_skey q) then Ret next
      else if q_asc q && (q_ekey q <? keyFirst) then Ret q
      else if negb (q_asc q) && (q_skey q <? keyFirst) then Ret q
      else if negb (q_asc q) && (keyLast <? q_ekey q) then Ret next
      else
        let! b := block_of pi midSlot c in
        let! off := offset0 b in
        let! p := vnodeBinarySearchKey (b_mem b) off (numOfPoints b) (q_skey q) (if q_asc q then 1 else 0) in
        let! k := vnodeGetTSInCacheBlock b p in
        let q := set_keys (q_skey q) k (q_lastKey q) (q_offset q) (set_pos midSlot p q) in
        if 0 <? q_offset q then forward_offset pi c midSlot b q else Ret q.

(** ** One reading *)

(** [n] values of each column are copied to its buffer. *)
Fixpoint copy_cols (cols offs : list Z) (start n at_ : Z) (mem : list Z) (sdata : list (list Z)) : res (list (list Z)) :=
  match cols, offs, sdata with
  | w :: cols, off :: offs, d :: sdata =>
    let! v := rd mem (off + start * w) (n * w) in
    let! d := wr d (at_ * w) v in
    let! rest := copy_cols cols offs start n at_ mem sdata in Ret (d :: rest)
  | [], _, _ => Ret sdata
  | _, _, _ => Undef
  end.

(** What there is to read in the block, and the last position that the end of the
    query allows, [-1] if the block does not bound it. *)
Definition reads_of (b : SCacheBlock) (q : SQuery) (maxReads : Z) : res (Z * Z) :=
  let! off := offset0 b in
  let! startkey := vnodeGetTSInCacheBlock b 0 in
  let! endkey := vnodeGetTSInCacheBlock b (numOfPoints b - 1) in
  if q_asc q then
    if endkey <? q_ekey q then Ret (maxReads, -1)
    else
      let! lastPos := vnodeBinarySearchKey (b_mem b) (off + TSDB_KEYSIZE * q_pos q) maxReads (q_ekey q) 0 in
      Ret (if 0 <=? lastPos then lastPos + 1 else 0, lastPos)
  else
    if q_ekey q <? startkey then Ret (maxReads, -1)
    else
      let! lastPos := vnodeBinarySearchKey (b_mem b) off maxReads (q_ekey q) 1 in
      Ret (if 0 <=? lastPos then q_pos q - lastPos + 1 else 0, lastPos).

Definition vnodeQueryFromCache (m : Z) (c : cache) (q : SQuery) : res (Z * SQuery) :=
  let q := set_read 0 (q_sdata q) (q_len q) q in
  if q_over q then Ret (0, q)
  else
    let! o := meter c m in
    match pCache o with
    | None => Ret (0, set_over true (q_keyIsMet q) q)
    | Some pi =>
      if numOfBlocks pi =? 0 then Ret (0, set_over true (q_keyIsMet q) q)
      else
        let! q := (if (q_slot q <? 0) || (q_pos q <? 0) then vnodeSearchPointInCache pi c q else Ret q) in
        if (q_slot q <? 0) || (q_pos q <? 0) then Ret (0, set_over true (q_keyIsMet q) q)
        else
          let step := if q_asc q then -1 else 1 in
          let! b := block_of pi (q_slot q) c in
          let maxReads := if q_asc q then numOfPoints b - q_pos q else q_pos q + 1 in
          if maxReads <=? 0 then let! q := vnodeUpdateQuerySlotPos pi c q in Ret (0, q)
          else
            let! '(numOfReads, lastPos) := reads_of b q maxReads in
            let '(numOfReads, q) :=
              if q_pointsToRead q - q_pointsRead q <? numOfReads then (q_pointsToRead q - q_pointsRead q, q)
              else (numOfReads, if (0 <=? lastPos) || (numOfReads =? 0) then set_over true true q else q) in
            let startPos := if q_asc q then q_pos q else q_pos q - numOfReads + 1 in
            let! sdata := copy_cols (schema o) (offset b) startPos numOfReads (q_pointsOffset q) (b_mem b) (q_sdata q) in
            let pos := q_pos q - numOfReads * step in
            let! lastKey := vnodeGetTSInCacheBlock b (pos + step) in
            let q := set_keys (i64 (lastKey - step)) (q_key q) lastKey (q_offset q) (set_pos (q_slot q) pos q) in
            let update := ((pos <? 0) || (pointsPerBlock o <=? pos) || (numOfReads =? 0)) && negb (q_over q) in
            let thrown := negb (bool_decide (pMeterObj b = Some m)) || (q_blockId q <? blockId b) in
            let read := if thrown then 0 else q_pointsRead q + numOfReads in
            let q := set_read read sdata (q_len q) q in
            let! q := (if update || thrown then vnodeUpdateQuerySlotPos pi c q else Ret q) in
            Ret (read, set_read read sdata (map (fun w => w * (read + q_pointsOffset q)) (schema o)) q)
    end.

(** ** The rows of a commit *)

(** [firstSlot] is 0 before the call.  The second result is the key that [firstKey] of the
    vnode is lowered to, where the rows are older than those of the commit. *)
Definition vnodeSetCommitQuery (m : Z) (c : cache) (q : SQuery) : res (SQuery * option Z) :=
  let! o := meter c m in
  let! pi := info o in
  let q := mkQuery true (q_skey q) (q_ekey q) (q_key q) (q_lastKey q) (commitSlot pi) (commitPoint pi) false (q_keyIsMet q)
             (currentSlot pi) (q_firstSlot q) (numOfBlocks pi) (q_blockId q) (q_offset q) (q_pointsToRead q)
             (q_pointsOffset q) (q_pointsRead q) (q_sdata q) (q_len q) in
  if (q_numOfBlocks q <=? 0) || (q_firstSlot q <? 0) then Ret (set_over true (q_keyIsMet q) q, None)
  else
    let first := Z.rem (q_currentSlot q - q_numOfBlocks q + 1 + maxBlocks pi) (maxBlocks pi) in
    let! b := block_of pi (q_currentSlot q) c in
    let q := set_window (q_currentSlot q) first (q_numOfBlocks q) (blockId b) q in
    let! nothing := (if commitSlot pi =? q_currentSlot q then
        let! b := block_of pi (commitSlot pi) c in Ret (commitPoint pi =? numOfPoints b)
      else Ret false) in
    if nothing : bool then Ret (set_over true (q_keyIsMet q) q, None)
    else
      let q := if q_pos q =? pointsPerBlock o then set_pos (Z.rem (q_slot q + 1) (maxBlocks pi)) 0 q else q in
      let! b := block_of pi (q_slot q) c in
      let! off := offset0 b in
      let! w := match schema o with w :: _ => Ret w | [] => Undef end in
      let! d := rd (b_mem b) (off + q_pos q * w) TSDB_KEYSIZE in
      if i64 (le_val d) <? q_skey q then Ret (set_over true (q_keyIsMet q) q, Some (i64 (le_val d))) else Ret (q, None).

(** A block of the file is filled, [pointsRead] rows of it are there already. *)
Fixpoint fill_block (fuel : nat) (m : Z) (c : cache) (ppfb pointsRead : Z) (q : SQuery) : res (Z * SQuery) :=
  match fuel with
  | O => NoFuel
  | S fuel =>
    if pointsRead <? ppfb then
      let! '(n, q) := vnodeQueryFromCache m c (set_toRead (ppfb - pointsRead) pointsRead q) in
      let pointsRead := pointsRead + n in
      if q_over q then Ret (pointsRead, q) else fill_block fuel m c ppfb pointsRead q
    else Ret (pointsRead, q)
  end.

(** The blocks of the file that a commit of the table writes, with how many rows
    each has, the number of rows committed and the query after them.
    [pointsReadLast] is the number of rows of the last block of the file, which
    are read into [sdata] to be written again. *)
Fixpoint commit_blocks (fuel : nat) (m : Z) (c : cache) (ppfb pointsReadLast : Z) (q : SQuery)
    : res (list (Z * list (list Z)) * Z * SQuery) :=
  match fuel with
  | O => NoFuel
  | S fuel =>
    if q_over q then Ret ([], 0, q)
    else
      let! '(pointsRead, q) := fill_block fuel m c ppfb pointsReadLast q in
      if pointsRead =? 0 then Ret ([], 0, q)
      else
        let b := (pointsRead, q_sdata q) in
        let n := pointsRead - pointsReadLast in
        if (pointsRead <? ppfb) || q_keyIsMet q then Ret ([b], n, q)
        else
          let! '(bs, k, q) := commit_blocks fuel m c ppfb 0 q in
          Ret (b :: bs, n + k, q)
  end.

(** The part of [vnodeCommitMultiToFile] that reads a table: [last] is the number of
    rows in the last block of the file and [sdata] the buffers, with these rows in
    them.  The blocks, the number of rows committed and the query after it. *)
Definition commit_query (skey ekey : Z) (sdata : list (list Z)) : SQuery :=
  mkQuery true skey ekey 0 skey 0 0 false false 0 0 0 0 0 0 0 0 sdata [].
Definition commit_table (m skey ekey last : Z) (sdata : list (list Z)) (c : cache)
    : res (list (Z * list (list Z)) * Z * SQuery) :=
  let! o := meter c m in
  let! pi := info o in
  let! '(q, _) := vnodeSetCommitQuery m c (commit_query skey ekey sdata) in
  let q := if 0 <? last then set_over false (q_keyIsMet q) q else q in
  commit_blocks (Z.to_nat (maxBlocks pi * pointsPerBlock o + 2 * maxBlocks pi + 4)) m c (pointsPerFileBlock o) last q.

(** The rows of a block that was written. *)
Fixpoint out_row (cols : list Z) (sdata : list (list Z)) (j : Z) : res (list Z) :=
  match cols, sdata with
  | w :: cols, d :: sdata =>
    let! v := rd d (j * w) w in let! rest := out_row cols sdata j in Ret (v ++ rest)
  | [], _ => Ret []
  | _, [] => Undef
  end.
Fixpoint read_out (cols : list Z) (n : nat) (sdata : list (list Z)) : res (list (list Z)) :=
  match n with
  | O => Ret []
  | S n => let! l := read_out cols n sdata in let! r := out_row cols sdata (Z.of_nat n) in Ret (l ++ [r])
  end.
Fixpoint written (cols : list Z) (bls : list (Z * list (list Z))) : res (list (list Z)) :=
  match bls with
  | [] => Ret []
  | (n, sdata) :: bls => let! l := read_out cols (Z.to_nat n) sdata in let! rest := written cols bls in Ret (l ++ rest)
  end.
