(* ===== verification/CacheScan.v ===== *)
(** * Queries of the cache, block by block

    What one call of [vnodeQueryFromCache] reads, and the calls after each other. *)
From S2P Require Import Prelude KeySearch CachePool CacheInv CacheQuery CacheInsert.

(** * Rows of the cache in the buffers of a query *)

Lemma rd_sub buf o len v a l : rd buf o len = Ret v -> 0 <= a -> 0 <= l -> a + l <= len -> rd v a l = rd buf (o + a) l.
Proof.
  unfold rd. case_bool_decide as Hb; [|done]. intros [= <-] Ha Hl Hle.
  rewrite !bool_decide_true by (rewrite ?length_take, ?length_drop; lia).
  f_equal. rewrite skipn_firstn_comm, take_take, drop_drop. f_equal; [lia|]. f_equal. lia.
Qed.

(** Rows in the buffers of the columns. *)
Definition out_rows (cols : list Z) (sdata : list (list Z)) (at_ : Z) (rows : list (list Z)) : Prop :=
  forall i r, rows !! i = Some r -> out_row cols sdata (at_ + Z.of_nat i) = Ret r.

Lemma out_rows_app cols sdata at_ l1 l2 : out_rows cols sdata at_ l1 -> out_rows cols sdata (at_ + Z.of_nat (length l1)) l2 ->
  out_rows cols sdata at_ (l1 ++ l2).
Proof.
  intros H1 H2 i r Hi. apply lookup_app_Some in Hi as [Hi|[Hl Hi]]; [by apply H1|].
  replace (at_ + Z.of_nat i) with (at_ + Z.of_nat (length l1) + Z.of_nat (i - length l1)) by lia. by apply H2.
Qed.

Lemma read_out_rows cols sdata rows : out_rows cols sdata 0 rows -> read_out cols (length rows) sdata = Ret rows.
Proof.
  induction rows as [|r rows IH] using rev_ind; intros Hin; [done|].
  rewrite length_app, Nat.add_1_r. cbn [read_out]. rewrite IH.
  - cbn [rbind]. specialize (Hin (length rows) r). rewrite Z.add_0_l in Hin. rewrite Hin; [done|].
    by rewrite lookup_app_r, Nat.sub_diag.
  - intros j x Hj. apply Hin. by apply lookup_app_l_Some.
Qed.

(** Buffers of [n] rows. *)
Definition room (cols : list Z) (n : Z) (sdata : list (list Z)) : Prop :=
  Forall2 (fun w d => 0 <= w /\ n * w <= Z.of_nat (length d)) cols sdata.

Lemma room_mono cols n n' sdata : n' <= n -> room cols n sdata -> room cols n' sdata.
Proof. unfold room. intros Hn Hr. eapply Forall2_impl; [exact Hr|]. intros w d [Hw Hd]. split; [done|]. nia. Qed.

Lemma rd_in mem off len v a l : rd mem off len = Ret v -> 0 <= a -> 0 <= l -> a + l <= len -> exists x, rd mem (off + a) l = Ret x.
Proof. unfold rd. case_bool_decide as H; [|done]. intros _ Ha Hl Hle. rewrite bool_decide_true by lia. eauto. Qed.

Lemma copy_cols_spec cols : forall off ppb mem start n at_ sdata, 0 <= off -> 0 <= start -> 0 <= n -> 0 <= at_ ->
  start + n <= ppb -> off + ppb * row_width cols <= Z.of_nat (length mem) -> room cols (at_ + n) sdata ->
  exists sdata', copy_cols cols (col_offsets off ppb cols) start n at_ mem sdata = Ret sdata' /\
    map length sdata' = map length sdata /\
    (forall i, 0 <= i < n -> out_row cols sdata' (at_ + i) = get_row cols (col_offsets off ppb cols) (start + i) mem) /\
    (forall j, 0 <= j < at_ -> out_row cols sdata' j = out_row cols sdata j).
Proof.
  induction cols as [|w cols IH]; intros off ppb mem start n at_ sdata Hoff Hs Hn Hat Hle Hm Hroom.
  { exists sdata. split; [done|]. done. }
  unfold room in Hroom. apply Forall2_cons_inv_l in Hroom as (d & sdata' & [Hw Hd] & Hroom & ->).
  assert (Hcols : Forall (fun w => 0 <= w) cols).
  { clear -Hroom. induction Hroom as [|x y l k [? ?] ? ?]; constructor; done. }
  pose proof (row_width_nonneg cols Hcols) as Hrw. cbn [row_width foldr] in Hm. fold (row_width cols) in Hm.
  cbn [copy_cols col_offsets].
  assert (Hrd : exists v, rd mem (off + start * w) (n * w) = Ret v /\ Z.of_nat (length v) = n * w).
  { unfold rd. rewrite bool_decide_true by nia. eexists. split; [done|]. rewrite length_take, length_drop. nia. }
  destruct Hrd as (v & Hv & Hlv). rewrite Hv. cbn [rbind].
  destruct (wr_ok d (at_ * w) v) as (d' & Hwr & Hld); [nia|rewrite Hlv; nia|]. rewrite Hwr. cbn [rbind].
  destruct (IH (off + w * ppb) ppb mem start n at_ sdata') as (rest & -> & Hlen & Hin & Hout); try done; try nia.
  cbn [rbind]. exists (d' :: rest). split; [done|]. split; [cbn; by rewrite Hld, Hlen|]. split.
  - intros i Hi. cbn [out_row get_row]. rewrite (Hin i Hi).
    pose proof (rd_wr_same _ _ _ _ Hwr) as Hsame. rewrite Hlv in Hsame.
    replace ((at_ + i) * w) with (at_ * w + i * w) by lia. replace (off + (start + i) * w) with (off + start * w + i * w) by lia.
    rewrite <- (rd_sub _ _ _ _ (i * w) w Hsame) by nia. rewrite (rd_sub _ _ _ _ (i * w) w Hv) by nia. done.
  - intros j Hj. cbn [out_row]. rewrite (Hout j Hj). rewrite (rd_wr_other _ _ _ _ (j * w) w Hwr); [done|]. left. nia.
Qed.

Lemma room_length cols n sdata sdata' : room cols n sdata -> map length sdata' = map length sdata -> room cols n sdata'.
Proof.
  intros Hr. revert sdata'. induction Hr as [|w d cols sdata [Hw Hd] _ IH]; intros [|d' sdata'] Hl; try done; [constructor|].
  cbn in Hl. injection Hl as E Hl. constructor; [by rewrite E|by apply IH].
Qed.

(** ** Keys

    The first column is the time stamp: [dnodeMgmt.c] refuses a table of another
    kind. *)
Definition row_key (r : list Z) : Z := i64 (le_val (take 8 r)).
Definition keyed (o : SMeterObj) : Prop := exists cols, schema o = TSDB_KEYSIZE :: cols.

Lemma row_key_at o j mem r : keyed o -> get_row (schema o) (offs_of o) j mem = Ret r ->
  keyList mem (base o) j = Ret (row_key r).
Proof.
  intros [cols Hs]. unfold offs_of, keyList. rewrite Hs. cbn [col_offsets get_row]. unfold TSDB_KEYSIZE. rewrite (Z.mul_comm j).
  destruct (rd mem (base o + 8 * j) 8) as [d| | |] eqn:Hd; try done. cbn [rbind].
  destruct (get_row cols _ j mem); [|done..]. cbn [rbind]. intros [= <-]. unfold row_key.
  apply rd_Ret in Hd as (x & y & _ & _ & Hl). rewrite take_app_le, take_ge; [done| |]; lia.
Qed.

Lemma rows_keys o mem rows off : keyed o -> rows_in (schema o) (offs_of o) mem rows -> off = base o ->
  keys_at mem off (map row_key rows).
Proof.
  intros Hk Hin -> j k Hj. apply list_lookup_fmap_Some in Hj as (r & -> & Hr). apply row_key_at; [done|]. by apply Hin.
Qed.

Lemma keys_drop mem off K p : 0 <= p -> keys_at mem off K -> keys_at mem (off + TSDB_KEYSIZE * p) (drop (Z.to_nat p) K).
Proof.
  intros Hp Hat j k Hj. rewrite lookup_drop in Hj. specialize (Hat _ _ Hj). unfold keyList in *. rewrite <- Hat.
  by replace (off + TSDB_KEYSIZE * p + TSDB_KEYSIZE * Z.of_nat j) with (off + TSDB_KEYSIZE * Z.of_nat (Z.to_nat p + j))
    by (unfold TSDB_KEYSIZE; lia).
Qed.

Lemma increasing_drop K n : increasing K -> increasing (drop n K).
Proof. intros H i j a b Hij Ha Hb. rewrite lookup_drop in Ha, Hb. exact (H (n + i)%nat (n + j)%nat a b ltac:(lia) Ha Hb). Qed.
Lemma increasing_take K n : increasing K -> increasing (take n K).
Proof. intros H i j a b Hij Ha Hb. apply lookup_take_Some in Ha as [Ha _], Hb as [Hb _]. exact (H i j a b Hij Ha Hb). Qed.

Definition sorted (g : ghost) : Prop := increasing (map row_key (g_rows g)).
Lemma sorted_chunk ppb k g : sorted g -> increasing (map row_key (chunk ppb k (g_rows g))).
Proof. intros Hs. unfold chunk. rewrite <- firstn_map, <- skipn_map. by apply increasing_take, increasing_drop. Qed.

(** * A query reads the rows of its table *)

Lemma lookup_chunk ppb k (R : list (list Z)) j r : 1 <= k -> 1 <= ppb ->
  chunk ppb k R !! j = Some r <-> R !! Z.to_nat ((k - 1) * ppb + Z.of_nat j) = Some r /\ Z.of_nat j < ppb.
Proof.
  intros Hk Hp. unfold chunk. rewrite lookup_take_Some, lookup_drop.
  replace (Z.to_nat ((k - 1) * ppb) + j)%nat with (Z.to_nat ((k - 1) * ppb + Z.of_nat j)) by nia.
  split; intros [H1 H2]; (split; [done|lia]).
Qed.

Lemma key_lt g i j a b : sorted g -> (i < j)%nat -> g_rows g !! i = Some a -> g_rows g !! j = Some b -> row_key a < row_key b.
Proof. intros Hs Hij Ha Hb. apply (Hs i j); [done| |]; apply list_lookup_fmap_Some; eauto. Qed.
Lemma key_le g i j a b : sorted g -> 0 <= i <= j -> g_rows g !! Z.to_nat i = Some a -> g_rows g !! Z.to_nat j = Some b ->
  row_key a <= row_key b.
Proof.
  intros Hs Hij Ha Hb. destruct (decide (i = j)) as [->|Hne]; [rewrite Ha in Hb; injection Hb as ->; lia|].
  pose proof (key_lt g (Z.to_nat i) (Z.to_nat j) a b Hs ltac:(lia) Ha Hb). lia.
Qed.

Section Scan.
Context (bs : Z) (c : cache) (G : gmap Z ghost) (m : Z) (o : SMeterObj) (pi : SCacheInfo) (g : ghost).
Context (Hinv : inv bs c G) (Ho : meters c !! m = Some o) (Hpi : pCache o = Some pi) (Hg : G !! m = Some g).
Context (Hkeyed : keyed o) (Hsorted : sorted g).

Let ppb := pointsPerBlock o.
Let mb := maxBlocks pi.
Let R := g_rows g.

(** The number of rows of the block [k]. *)
Definition pts (k : Z) : Z := Z.min ppb (nrows g - (k - 1) * ppb).

Lemma scan_core : core bs (pMem (pool c)) m o pi g /\ settled o pi g.
Proof using Hinv Ho Hpi Hg.
  destruct (core_block _ _ _ _ _ _ (in_pool _ _ _ Hinv) Ho Hpi) as (g' & Hg' & Hcore). assert (g' = g) as -> by congruence.
  split; [done|]. by apply (in_settled _ _ _ Hinv m).
Qed.

Lemma scan_bounds : 1 <= ppb < 2 ^ 15 /\ 0 < mb < 2 ^ 30 /\ 0 <= numOfBlocks pi <= mb /\ numOfBlocks pi <= g_hi g /\
  (g_hi g - 1) * ppb <= nrows g <= g_hi g * ppb.
Proof using Hinv Ho Hpi Hg.
  destruct scan_core as [Hcore Hs]. pose proof (ge_ppb _ _ (co_geo _ _ _ _ _ _ Hcore)). pose proof (co_mb _ _ _ _ _ _ Hcore).
  pose proof (co_nb _ _ _ _ _ _ Hcore). pose proof (se_rows _ _ _ Hs). unfold ppb, mb. lia.
Qed.

Lemma pts_full k : 1 <= k < g_hi g -> pts k = ppb.
Proof using Hinv Ho Hpi Hg. intros Hk. destruct scan_bounds as (? & ? & ? & ? & ?). unfold pts. nia. Qed.

Lemma pts_last : 1 <= g_hi g -> (g_hi g - 1) * ppb + pts (g_hi g) = nrows g.
Proof using Hinv Ho Hpi Hg. intros Hk. destruct scan_bounds as (? & ? & ? & ? & ?). unfold pts. nia. Qed.

Lemma block_live k : live pi g k -> exists i b, block_of pi ((k - 1) mod mb) c = Ret b /\
  cacheBlocks pi !! place mb k = Some (Some i) /\ block_ok bs m o mb g k i b /\ numOfPoints b = pts k.
Proof using Hinv Ho Hpi Hg.
  intros Hk. destruct scan_core as [Hcore Hs]. destruct scan_bounds as (Hppb & Hmb & Hn & Hn2 & Hr).
  destruct (co_live _ _ _ _ _ _ Hcore k Hk) as (i & b & Hc & Hb & Hok). exists i, b. unfold live in Hk.
  fold mb in Hc, Hok.
  pose proof (Z.mod_pos_bound (k - 1) mb ltac:(lia)).
  unfold block_of, block_at, deref, block. rewrite (proj2 (Z.ltb_ge _ _)) by lia. fold (place mb k). rewrite Hc. cbn [rbind].
  rewrite Hb. split; [done|]. split; [done|]. split; [done|]. rewrite (bo_num _ _ _ _ _ _ _ _ Hok). unfold pts, nrows.
  fold ppb. unfold nrows in Hr. apply length_chunk; nia.
Qed.

(** The key of a row of a block. *)
Lemma ts_row k i b j : live pi g k -> block_ok bs m o mb g k i b -> 0 <= j < pts k ->
  exists r, R !! Z.to_nat ((k - 1) * ppb + j) = Some r /\ vnodeGetTSInCacheBlock b j = Ret (row_key r).
Proof using Hinv Ho Hpi Hg Hkeyed.
  intros Hk Hok Hj. destruct scan_bounds as (Hppb & Hmb & Hn & Hn2 & Hr). unfold live in Hk. unfold pts, nrows in Hj.
  assert (0 <= (k - 1) * ppb) by (apply Z.mul_nonneg_nonneg; lia).
  destruct (lookup_lt_is_Some_2 R (Z.to_nat ((k - 1) * ppb + j))) as [r Hr1]; [unfold R; lia|]. exists r. split; [done|].
  assert (Hch : chunk ppb k R !! Z.to_nat j = Some r).
  { apply lookup_chunk; [lia|lia|]. rewrite Z2Nat.id by lia. split; [done|lia]. }
  pose proof (bo_rows _ _ _ _ _ _ _ _ Hok _ _ Hch) as Hin. rewrite Z2Nat.id in Hin by lia.
  unfold vnodeGetTSInCacheBlock, offset0. rewrite (bo_off _ _ _ _ _ _ _ _ Hok).
  pose proof (row_key_at o j (b_mem b) r Hkeyed Hin) as Hkey. destruct Hkeyed as [cols Hc]. unfold offs_of. rewrite Hc. done.
Qed.

Lemma ts_before k i b : live pi g k -> block_ok bs m o mb g k i b -> exists x, vnodeGetTSInCacheBlock b (-1) = Ret x.
Proof using Hinv Ho Hpi Hg Hkeyed.
  intros Hk Hok. destruct scan_core as [Hcore Hs]. pose proof (co_geo _ _ _ _ _ _ Hcore) as [Hsch Hppb Hfit].
  pose proof (row_width_nonneg _ Hsch) as Hw.
  unfold vnodeGetTSInCacheBlock, offset0. rewrite (bo_off _ _ _ _ _ _ _ _ Hok). destruct Hkeyed as [cols Hc].
  unfold offs_of. rewrite Hc. cbn [col_offsets rbind]. unfold keyList, rd, TSDB_KEYSIZE, base, SIZEOF_SCacheBlock, SIZEOF_PTR,
    numOfColumns in *. pose proof (bo_mem _ _ _ _ _ _ _ _ Hok). rewrite bool_decide_true by nia. cbn [rbind]. eauto.
Qed.

Lemma block_keys k i b : live pi g k -> block_ok bs m o mb g k i b ->
  offset0 b = Ret (base o) /\ keys_at (b_mem b) (base o) (map row_key (chunk ppb k R)).
Proof using Hinv Ho Hpi Hg Hkeyed.
  intros Hk Hok. split.
  - unfold offset0. rewrite (bo_off _ _ _ _ _ _ _ _ Hok). destruct Hkeyed as [cols Hc]. unfold offs_of. by rewrite Hc.
  - apply (rows_keys o); [done| |done]. apply (bo_rows _ _ _ _ _ _ _ _ Hok).
Qed.

(** ** Where a query is *)
Record cursor (q : SQuery) (k : Z) : Prop := {
  cu_asc : q_asc q = true;
  cu_slot : q_slot q = (k - 1) mod mb;
  cu_cur : q_currentSlot q = (g_hi g - 1) mod mb;
  cu_bid : q_blockId q = g_hi g;
  cu_live : live pi g k;
  cu_pos : 0 <= q_pos q <= pts k }.
Definition place_of (q : SQuery) (k : Z) : Z := (k - 1) * ppb + q_pos q.
(** How many readings may still find nothing to read. *)
Definition left_of (q : SQuery) (k : Z) : Z := 2 * (g_hi g - k) + (if q_pos q =? pts k then 0 else 1).

Lemma slot_is k k' : live pi g k -> live pi g k' -> ((k - 1) mod mb =? (k' - 1) mod mb) = (k =? k').
Proof using Hinv Ho Hpi Hg.
  intros Hk Hk'. destruct scan_bounds as (Hppb & Hmb & Hn & Hn2 & Hr). unfold live in *.
  destruct (Z.eqb_spec k k') as [->|Hne]; [apply Z.eqb_refl|]. apply Z.eqb_neq. intros E. apply Hne.
  apply (place_inj mb); [lia|unfold place; by f_equal|lia].
Qed.

Lemma next_slot_of k : step_slot ((k - 1) mod mb) 1 mb = k mod mb.
Proof using Hinv Ho Hpi Hg.
  destruct scan_bounds as (Hppb & Hmb & Hn & Hn2 & Hr). unfold step_slot.
  pose proof (Z.mod_pos_bound (k - 1) mb ltac:(lia)). rewrite rem_mod by lia.
  replace ((k - 1) mod mb + 1 + mb) with ((k - 1) mod mb + 1 + 1 * mb) by lia. rewrite Z.mod_add by lia.
  rewrite Z.add_mod_idemp_l by lia. f_equal. lia.
Qed.

(** At the end of a block, the query goes to the next or is over. *)
Lemma slot_update_spec q k : cursor q k -> q_pos q = pts k ->
  exists q' k', vnodeUpdateQuerySlotPos pi c q = Ret q' /\ cursor q' k' /\ k <= k' /\ place_of q' k' = place_of q k /\
    q_sdata q' = q_sdata q /\ q_ekey q' = q_ekey q /\ q_keyIsMet q' = q_keyIsMet q /\
    (if q_over q' then q_over q = true \/ place_of q k = nrows g else q_over q = false /\ k < k').
Proof using Hinv Ho Hpi Hg.
  intros [Hasc Hslot Hcur Hbid Hlive Hpos] Hend. destruct scan_bounds as (Hppb & Hmb & Hn & Hn2 & Hr).
  assert (Hhi : live pi g (g_hi g)) by (unfold live in *; lia).
  unfold vnodeUpdateQuerySlotPos. rewrite Hasc, Hslot, Hcur. cbn [andb negb orb]. rewrite slot_is by done. rewrite orb_false_r.
  destruct (Z.eqb_spec k (g_hi g)) as [->|Hne].
  - exists (set_over true (q_keyIsMet q) q), (g_hi g). split; [done|]. split; [by constructor|]. split; [lia|].
    split; [done|]. do 3 (split; [done|]). cbn. right. unfold place_of. rewrite Hend. apply pts_last. unfold live in *. lia.
  - change (- -1) with 1. fold mb. rewrite next_slot_of.
    exists (set_pos (k mod mb) 0 q), (k + 1). split; [done|]. unfold live in *.
    assert (Hp : pts k = ppb) by (apply pts_full; lia).
    split.
    { constructor; cbn; try done; [f_equal; lia|unfold live; lia|]. split; [lia|]. unfold pts. nia. }
    split; [lia|]. split; [unfold place_of; cbn; lia|]. do 3 (split; [done|]). cbn.
    destruct (q_over q); [by left|]. split; [done|lia].
Qed.

(** What there is to read: the rows up to the end of the query, and if these are
    not all of the block then none of the rows behind them is of the query. *)
Lemma reads_spec q k i b : cursor q k -> block_ok bs m o mb g k i b -> numOfPoints b = pts k -> q_pos q < pts k ->
  exists n lp, reads_of b q (pts k - q_pos q) = Ret (n, lp) /\ 0 <= n <= pts k - q_pos q /\
    (forall j r, 0 <= j < n -> R !! Z.to_nat (place_of q k + j) = Some r -> row_key r <= q_ekey q) /\
    (if (0 <=? lp) || (n =? 0) then forall r, R !! Z.to_nat (place_of q k + n) = Some r -> q_ekey q < row_key r
     else n = pts k - q_pos q).
Proof using Hinv Ho Hpi Hg Hkeyed Hsorted.
  intros Hcu Hok Hnum Hlt. pose proof Hcu as [Hasc Hslot Hcur Hbid Hlive Hpos]. destruct scan_bounds as (Hppb & Hmb & Hn & Hn2 & Hr).
  destruct (block_keys k i b Hlive Hok) as [Hoff Hkeys].
  destruct (ts_row k i b 0 Hlive Hok ltac:(lia)) as (r0 & _ & Hts0).
  destruct (ts_row k i b (pts k - 1) Hlive Hok ltac:(lia)) as (re & Hre & Htse).
  unfold reads_of. rewrite Hoff. cbn [rbind]. rewrite Hts0. cbn [rbind]. rewrite Hnum, Htse. cbn [rbind]. rewrite Hasc.
  unfold live in Hlive. assert (Hk0 : 0 <= (k - 1) * ppb) by (apply Z.mul_nonneg_nonneg; lia). unfold place_of.
  destruct (Z.ltb_spec (row_key re) (q_ekey q)) as [Hall|Hsome].
  - exists (pts k - q_pos q), (-1). split; [done|]. split; [lia|]. split.
    + intros j r Hj Hrj. enough (row_key r <= row_key re) by lia.
      apply (key_le g ((k - 1) * ppb + q_pos q + j) ((k - 1) * ppb + (pts k - 1))); [done|lia|done|done].
    + cbn [Z.leb Z.compare orb]. by rewrite (proj2 (Z.eqb_neq _ _)) by lia.
  - set (K := drop (Z.to_nat (q_pos q)) (map row_key (chunk ppb k R))).
    assert (HlK : Z.of_nat (length K) = pts k - q_pos q).
    { unfold K. rewrite length_drop, length_map. pose proof (length_chunk ppb k R) as Hlc. unfold pts, nrows in *.
      fold R in Hr, Hlt |- *. assert ((k - 1) * ppb <= (g_hi g - 1) * ppb) by (apply Z.mul_le_mono_nonneg_r; lia). lia. }
    destruct (search_newest_column (b_mem b) (base o + TSDB_KEYSIZE * q_pos q) K (q_ekey q)) as (r & Hsearch & Hc1 & Hc2 & Hc3).
    { apply keys_drop; [lia|done]. } { apply increasing_drop. by apply sorted_chunk. }
    rewrite HlK in Hsearch. rewrite Hsearch. cbn [rbind]. rewrite HlK in Hc1.
    assert (Hrow : forall j x, 0 <= j < pts k - q_pos q -> R !! Z.to_nat ((k - 1) * ppb + q_pos q + j) = Some x ->
      K !! Z.to_nat j = Some (row_key x)).
    { intros j x Hj Hx. unfold K. rewrite lookup_drop. apply list_lookup_fmap_Some. exists x. split; [done|].
      apply lookup_chunk; [lia|lia|]. unfold pts in Hj. split; [|lia]. rewrite <- Hx. f_equal. lia. }
    assert (En : (if 0 <=? r then r + 1 else 0) = r + 1) by (destruct (Z.leb_spec 0 r); lia). rewrite En.
    exists (r + 1), r. split; [done|]. split; [lia|]. split.
    + intros j x Hj Hx. eapply Hc2; [apply (Hrow j x); [lia|done]|lia].
    + assert (Hcond : (0 <=? r) || (r + 1 =? 0) = true).
      { destruct (Z.leb_spec 0 r); [done|]. cbn. apply Z.eqb_eq. lia. }
      rewrite Hcond. intros x Hx. destruct (decide (r + 1 = pts k - q_pos q)) as [E|E].
      * enough (row_key re < row_key x) by lia.
        apply (key_lt g (Z.to_nat ((k - 1) * ppb + (pts k - 1))) (Z.to_nat ((k - 1) * ppb + q_pos q + (r + 1)))); [done|lia|done|done].
      * enough (~ row_key x <= q_ekey q) by lia. eapply (Hc3 (Z.to_nat (r + 1))); [apply Hrow; [lia|done]|lia].
Qed.

(** One reading takes the next rows of the query, as many as there is room for; if
    it is over then no row behind them is of the query. *)
Lemma query_spec q k : cursor q k -> q_over q = false -> 0 < q_pointsToRead q -> 0 <= q_pointsOffset q ->
  room (schema o) (q_pointsOffset q + q_pointsToRead q) (q_sdata q) ->
  exists n q' k', vnodeQueryFromCache m c q = Ret (n, q') /\ 0 <= n <= q_pointsToRead q /\ cursor q' k' /\
    place_of q' k' = place_of q k + n /\ q_ekey q' = q_ekey q /\
    map length (q_sdata q') = map length (q_sdata q) /\
    out_rows (schema o) (q_sdata q') (q_pointsOffset q) (take (Z.to_nat n) (drop (Z.to_nat (place_of q k)) R)) /\
    (forall j, 0 <= j < q_pointsOffset q -> out_row (schema o) (q_sdata q') j = out_row (schema o) (q_sdata q) j) /\
    (forall j r, 0 <= j < n -> R !! Z.to_nat (place_of q k + j) = Some r -> row_key r <= q_ekey q) /\
    (if q_over q' then forall r, R !! Z.to_nat (place_of q k + n) = Some r -> q_ekey q < row_key r
     else q_keyIsMet q' = q_keyIsMet q /\ (n = q_pointsToRead q \/ left_of q' k' < left_of q k)).
Proof using Hinv Ho Hpi Hg Hkeyed Hsorted.
  intros Hcu Hover Hto Hoffs Hroom. pose proof Hcu as [Hasc Hslot Hcur Hbid Hlive Hpos].
  destruct scan_bounds as (Hppb & Hmb & Hn & Hn2 & Hr). destruct scan_core as [Hcore Hset].
  destruct (block_live k Hlive) as (i & b & Hblk & _ & Hok & Hnum).
  pose proof (Z.mod_pos_bound (k - 1) mb ltac:(lia)) as Hsl. pose proof Hlive as Hlive'. unfold live in Hlive'.
  unfold vnodeQueryFromCache. cbn [set_read q_over]. rewrite Hover. unfold meter. rewrite Ho. cbn [rbind]. rewrite Hpi.
  rewrite (proj2 (Z.eqb_neq _ _)) by lia. cbn [set_read q_slot q_pos q_asc q_over].
  assert (Hneg : (q_slot q <? 0) || (q_pos q <? 0) = false).
  { rewrite Hslot. apply orb_false_iff. split; apply Z.ltb_ge; lia. }
  rewrite Hneg. cbn [rbind set_read q_slot q_pos q_asc]. rewrite Hneg, Hslot, Hblk. cbn [rbind]. rewrite Hasc, Hnum.
  destruct (Z.leb_spec (pts k - q_pos q) 0) as [Hnone|Hmore].
  - (* nothing is left in the block *)
    set (q1 := set_read 0 (q_sdata q) (q_len q) q).
    destruct (slot_update_spec q1 k) as (q' & k' & -> & Hcu' & Hkk & Hpl & Hsd & Hek & Hmet & Hov); [by constructor|cbn; lia|].
    cbn [rbind]. exists 0, q', k'. split; [done|]. split; [lia|]. split; [done|].
    change (place_of q1 k) with (place_of q k) in *. split; [lia|]. split; [done|]. rewrite Hsd. cbn [q1 set_read q_sdata].
    split; [done|]. split; [intros j r Hj; by rewrite take_0 in Hj|]. split; [done|]. split; [lia|].
    destruct (q_over q') eqn:Eo.
    + intros r Hr'. destruct Hov as [Hov|Hov]; [cbn in Hov; congruence|]. apply lookup_lt_Some in Hr'.
      unfold nrows in *. fold R in Hov, Hr. rewrite Hov in Hr'. lia.
    + split; [done|]. right. destruct Hcu'. unfold left_of. destruct (q_pos q =? pts k) eqn:E; [|apply Z.eqb_neq in E; lia].
      destruct (q_pos q' =? pts k'); lia.
  - (* rows are read *)
    destruct (reads_spec (set_read 0 (q_sdata q) (q_len q) q) k i b) as (e & lp & He & Hrange & Hkeys & Hend);
      [by constructor|done|done|cbn; lia|].
    cbn [set_read q_pos q_ekey] in He, Hrange, Hkeys, Hend. change (place_of (set_read _ _ _ q) k) with (place_of q k) in *.
    rewrite He. cbn [rbind set_read q_pointsToRead q_pointsRead].
    rewrite Z.sub_0_r.
    set (q1 := set_read 0 (q_sdata q) (q_len q) q).
    assert (Hpair : exists n qm, (if q_pointsToRead q <? e then (q_pointsToRead q, q1)
        else (e, if (0 <=? lp) || (e =? 0) then set_over true true q1 else q1)) = (n, qm) /\
      (qm = q1 \/ qm = set_over true true q1) /\ 0 <= n <= e /\ n <= q_pointsToRead q /\
      (if q_over qm then n = e /\ (forall r, R !! Z.to_nat (place_of q k + e) = Some r -> q_ekey q < row_key r)
       else 0 < n /\ q_keyIsMet qm = q_keyIsMet q /\ (n = q_pointsToRead q \/ n = pts k - q_pos q))).
    { destruct (Z.ltb_spec (q_pointsToRead q) e) as [Hlt|Hge].
      - exists (q_pointsToRead q), q1. split; [done|]. split; [by left|]. split; [lia|]. split; [lia|].
        cbn. rewrite Hover. auto.
      - destruct ((0 <=? lp) || (e =? 0)) eqn:Ec.
        + exists e, (set_over true true q1). split; [done|]. split; [by right|]. split; [lia|]. split; [lia|]. done.
        + exists e, q1. apply orb_false_iff in Ec as [_ Ec]. apply Z.eqb_neq in Ec. split; [done|]. split; [by left|].
          split; [lia|]. split; [lia|]. cbn. rewrite Hover. split; [lia|]. auto. }
    destruct Hpair as (n & qm & -> & Hqm & Hn0 & Hn1 & Hover').
    assert (Hsame : q_asc qm = q_asc q /\ q_slot qm = q_slot q /\ q_pos qm = q_pos q /\ q_pointsOffset qm = q_pointsOffset q /\
      q_sdata qm = q_sdata q /\ q_blockId qm = q_blockId q /\ q_ekey qm = q_ekey q /\ q_currentSlot qm = q_currentSlot q /\
      q_pointsRead qm = 0) by (by destruct Hqm as [-> | ->]).
    destruct Hsame as (Em1 & Em2 & Em3 & Em4 & Em5 & Em6 & Em7 & Em8 & Em9). cbn beta iota zeta.
    rewrite Em1, Hasc, Em3, Em4, Em5. replace (q_pos q - n * -1) with (q_pos q + n) by lia.
    pose proof (co_geo _ _ _ _ _ _ Hcore) as [Hsch Hppb' Hfit].
    rewrite (bo_off _ _ _ _ _ _ _ _ Hok). unfold offs_of.
    destruct (copy_cols_spec (schema o) (base o) (pointsPerBlock o) (b_mem b) (q_pos q) n (q_pointsOffset q) (q_sdata q)) as
      (sdata & Hcopy & Hlen & Hin & Hout); try lia.
    { unfold base, SIZEOF_SCacheBlock, SIZEOF_PTR, numOfColumns. lia. } { unfold pts in Hrange. fold ppb. lia. }
    { pose proof (bo_mem _ _ _ _ _ _ _ _ Hok). lia. } { eapply room_mono; [|exact Hroom]. lia. }
    rewrite Hcopy. cbn [rbind].
    assert (Hts : exists x, vnodeGetTSInCacheBlock b (q_pos q + n + -1) = Ret x).
    { destruct (decide (q_pos q + n = 0)) as [E|E]; [rewrite E; by apply (ts_before k i)|].
      destruct (ts_row k i b (q_pos q + n + -1) Hlive Hok ltac:(lia)) as (x & _ & Hx). eauto. }
    destruct Hts as (lk & Hlk). rewrite Hlk. cbn [rbind].
    rewrite (bool_decide_true (pMeterObj b = Some m)) by apply Hok. cbn [negb orb].
    assert (Hbd : (q_blockId qm <? blockId b) = false).
    { rewrite Em6, Hbid, (bo_id _ _ _ _ _ _ _ _ Hok). apply Z.ltb_ge. lia. }
    cbn [q_blockId q_over q_slot q_len q_pointsRead set_keys set_pos]. rewrite Hbd, orb_false_r, Em9, Z.add_0_l.
    set (qf := set_read n sdata _ _).
    assert (Hcf : cursor qf k).
    { constructor; cbn; congruence || done || lia. }
    assert (Hplf : place_of qf k = place_of q k + n) by (unfold place_of; cbn; lia).
    assert (Hrows : out_rows (schema o) sdata (q_pointsOffset q) (take (Z.to_nat n) (drop (Z.to_nat (place_of q k)) R))).
    { intros j r Hj. apply lookup_take_Some in Hj as [Hj Hjn]. rewrite lookup_drop in Hj. rewrite (Hin (Z.of_nat j)) by lia.
      assert (Hk0 : 0 <= (k - 1) * ppb) by (apply Z.mul_nonneg_nonneg; lia).
      assert (Hch : chunk ppb k R !! Z.to_nat (q_pos q + Z.of_nat j) = Some r).
      { apply lookup_chunk; [lia|lia|]. unfold pts in Hrange. split; [|lia]. rewrite <- Hj. f_equal. unfold place_of. lia. }
      pose proof (bo_rows _ _ _ _ _ _ _ _ Hok _ _ Hch) as Hget. rewrite Z2Nat.id in Hget by lia. exact Hget. }
    assert (Hmono : forall j r, 0 <= j < n -> R !! Z.to_nat (place_of q k + j) = Some r -> row_key r <= q_ekey q).
    { intros j r Hj. apply Hkeys. lia. }
    fold ppb. destruct (_ && negb (q_over qm)) eqn:Hup.
    + apply andb_true_iff in Hup as [Hfull Hno]. apply negb_true_iff in Hno. rewrite Hno in Hover'.
      assert (Hpe : q_pos q + n = ppb /\ pts k = ppb).
      { rewrite !orb_true_iff, Z.ltb_lt, Z.leb_le, Z.eqb_eq in Hfull. unfold pts in *. lia. }
      destruct (slot_update_spec qf k Hcf) as (q' & k' & -> & Hcu' & Hkk & Hpl & Hsd & Hek & Hmet & Hov); [cbn; lia|].
      cbn [rbind]. eexists n, _, k'. split; [reflexivity|]. split; [lia|]. split; [by destruct Hcu'|].
      split; [change (place_of (set_read _ _ _ q') k') with (place_of q' k'); lia|].
      cbn [set_read q_ekey q_sdata q_over q_keyIsMet]. split; [rewrite Hek; exact Em7|].
      do 4 (split; [done|]). destruct (q_over q') eqn:Eo.
      * intros r Hr'. destruct Hov as [Hov|Hov]; [cbn in Hov; congruence|]. apply lookup_lt_Some in Hr'.
        unfold nrows in *. fold R in Hov, Hr. rewrite <- Hplf, Hov in Hr'. lia.
      * split; [rewrite Hmet; apply Hover'|]. right. unfold left_of. cbn [set_read q_pos].
        rewrite (proj2 (Z.eqb_neq (q_pos q) _)) by lia. destruct (q_pos q' =? pts k'); lia.
    + cbn [rbind]. eexists n, _, k. split; [reflexivity|]. split; [lia|]. split; [by destruct Hcf|].
      split; [exact Hplf|]. split; [exact Em7|]. do 4 (split; [done|]). cbn [set_read q_over q_keyIsMet set_keys set_pos qf].
      destruct (q_over qm).
      * destruct Hover' as [-> Hbeyond]. exact Hbeyond.
      * destruct Hover' as (Hpos0 & Hmet & Hor). split; [done|]. destruct Hor as [Hor|Hor]; [by left|right].
        unfold left_of. cbn. rewrite (proj2 (Z.eqb_neq (q_pos q) _)) by lia. rewrite (proj2 (Z.eqb_eq _ _)) by lia. lia.
Qed.
End Scan.
