(* ===== verification/CacheFlush.v ===== *)
(** * A commit reads the rows that are not committed *)
From S2P Require Import Prelude KeySearch CachePool CacheInv CacheQuery CacheInsert CacheScan.

Lemma take_add_drop {A} (l : list A) a b t : take (a + b) (drop t l) = take a (drop t l) ++ take b (drop (t + a) l).
Proof.
  rewrite <- (take_drop a (take (a + b) (drop t l))) at 1. rewrite take_take, Nat.min_l by lia. f_equal.
  rewrite skipn_firstn_comm, drop_drop. f_equal. lia.
Qed.

(** The newest block of a table has a row. *)
Definition tight (o : SMeterObj) (g : ghost) : Prop := g_hi g = 0 \/ (g_hi g - 1) * pointsPerBlock o < nrows g.

Section Flush.
Context (bs : Z) (c : cache) (G : gmap Z ghost) (m : Z) (o : SMeterObj) (pi : SCacheInfo) (g : ghost).
Context (Hinv : inv bs c G) (Ho : meters c !! m = Some o) (Hpi : pCache o = Some pi) (Hg : G !! m = Some g).
Context (Hkeyed : keyed o) (Hsorted : sorted g).

(** The rows from the place [t] on, [n] of them. *)
Definition rows_from (t n : Z) : list (list Z) := take (Z.to_nat n) (drop (Z.to_nat t) (g_rows g)).
Definition none_from (t ekey : Z) : Prop := forall r, g_rows g !! Z.to_nat t = Some r -> ekey < row_key r.
Definition all_upto (t n ekey : Z) : Prop :=
  forall j r, 0 <= j < n -> g_rows g !! Z.to_nat (t + j) = Some r -> row_key r <= ekey.

Lemma cursor_place q k : cursor o pi g q k -> 0 <= place_of o q k <= nrows g.
Proof using Hinv Ho Hpi Hg.
  intros [? ? ? ? Hlive Hpos]. destruct (scan_bounds bs c G m o pi g Hinv Ho Hpi Hg) as (Hppb & Hmb & Hn & Hn2 & Hr).
  unfold live in Hlive. assert (0 <= (k - 1) * pointsPerBlock o) by (apply Z.mul_nonneg_nonneg; lia).
  unfold place_of, pts in *. lia.
Qed.

Lemma length_rows_from t n : 0 <= t -> 0 <= n -> t + n <= nrows g -> Z.of_nat (length (rows_from t n)) = n.
Proof. intros Ht Hn Hle. unfold rows_from, nrows in *. rewrite length_take, length_drop. lia. Qed.

Lemma rows_from_add t a b : 0 <= t -> 0 <= a -> 0 <= b -> rows_from t (a + b) = rows_from t a ++ rows_from (t + a) b.
Proof.
  intros Ht Ha Hb. unfold rows_from. rewrite !Z2Nat.inj_add by lia. apply take_add_drop.
Qed.

Lemma all_upto_add t a b ekey : 0 <= a -> all_upto t a ekey -> all_upto (t + a) b ekey -> all_upto t (a + b) ekey.
Proof.
  intros Ha H1 H2 j r Hj Hr. destruct (decide (j < a)); [apply (H1 j r); [lia|done]|]. apply (H2 (j - a) r); [lia|].
  rewrite <- Hr. f_equal. lia.
Qed.

Lemma left_nonneg q k : cursor o pi g q k -> 0 <= left_of o g q k < 2 * numOfBlocks pi.
Proof. intros [? ? ? ? Hlive ?]. unfold live in Hlive. unfold left_of. destruct (_ =? _); lia. Qed.

(** A block of the file takes the next rows, until it is full or the query over. *)
Lemma fill_spec ppfb : forall fuel p q k, cursor o pi g q k -> q_over q = false -> 0 <= p < ppfb ->
  room (schema o) ppfb (q_sdata q) -> left_of o g q k + 1 < Z.of_nat fuel ->
  exists n q' k', fill_block fuel m c ppfb p q = Ret (p + n, q') /\ 0 <= n /\ p + n <= ppfb /\ cursor o pi g q' k' /\
    place_of o q' k' = place_of o q k + n /\ q_ekey q' = q_ekey q /\ map length (q_sdata q') = map length (q_sdata q) /\
    out_rows (schema o) (q_sdata q') p (rows_from (place_of o q k) n) /\
    (forall j, 0 <= j < p -> out_row (schema o) (q_sdata q') j = out_row (schema o) (q_sdata q) j) /\
    all_upto (place_of o q k) n (q_ekey q) /\
    (if q_over q' then none_from (place_of o q k + n) (q_ekey q) else p + n = ppfb /\ q_keyIsMet q' = q_keyIsMet q).
Proof using Hinv Ho Hpi Hg Hkeyed Hsorted.
  induction fuel as [|fuel IH]; intros p q k Hcu Hover Hp Hroom Hfuel; [pose proof (left_nonneg q k Hcu); lia|].
  pose proof (left_nonneg q k Hcu) as Hleft. cbn [fill_block]. rewrite (proj2 (Z.ltb_lt _ _)) by lia.
  set (q0 := set_toRead (ppfb - p) p q).
  destruct (query_spec bs c G m o pi g Hinv Ho Hpi Hg Hkeyed Hsorted q0 k) as
    (n & q1 & k1 & Hq & Hn & Hcu1 & Hpl & Hek & Hlen & Hrows & Hkeep & Hkeys & Hend); [by destruct Hcu|done|cbn; lia|cbn; lia| |].
  { cbn. eapply room_mono; [|exact Hroom]. lia. }
  cbn [set_toRead q_pointsToRead q_pointsOffset q_sdata q_ekey q_keyIsMet q0] in *.
  change (place_of o q0 k) with (place_of o q k) in *. change (left_of o g q0 k) with (left_of o g q k) in *.
  rewrite Hq. cbn [rbind]. pose proof (cursor_place q k Hcu) as Hp0. pose proof (cursor_place q1 k1 Hcu1) as Hp1.
  destruct (q_over q1) eqn:Eo.
  { exists n, q1, k1. split; [done|]. do 9 (split; [done || lia|]). by rewrite Eo. }
  destruct Hend as [Hmet Hprog]. destruct (decide (n = ppfb - p)) as [En|En].
  { destruct fuel as [|fuel]; [lia|]. cbn [fill_block]. rewrite (proj2 (Z.ltb_ge _ _)) by lia.
    exists n, q1, k1. split; [done|]. do 9 (split; [done || lia|]). rewrite Eo. split; [lia|done]. }
  destruct (IH (p + n) q1 k1 Hcu1 Eo) as (n2 & q2 & k2 & Hf & Hn2 & Hle2 & Hcu2 & Hpl2 & Hek2 & Hlen2 & Hrows2 & Hkeep2 & Hkeys2 & Hend2);
    [lia|by eapply room_length|lia|].
  rewrite Hf. rewrite Hpl in *. rewrite Hek in *.
  exists (n + n2), q2, k2. replace (p + (n + n2)) with (p + n + n2) by lia.
  replace (place_of o q k + (n + n2)) with (place_of o q k + n + n2) by lia. pose proof (cursor_place q2 k2 Hcu2) as Hp2.
  split; [done|]. split; [lia|]. split; [lia|]. split; [done|]. split; [lia|]. split; [done|]. split; [congruence|].
  split; [|split; [|split; [by apply all_upto_add; [lia|..]|]]].
  - rewrite rows_from_add by lia. apply out_rows_app; [|by rewrite length_rows_from by lia].
    intros i r Hi. rewrite Hkeep2; [by apply Hrows|]. apply lookup_lt_Some in Hi. apply Nat2Z.inj_lt in Hi.
    rewrite length_rows_from in Hi by lia. lia.
  - intros j Hj. rewrite Hkeep2 by lia. by apply Hkeep.
  - destruct (q_over q2); [done|]. destruct Hend2 as [? ->]. by split.
Qed.

(** The blocks of a commit hold the rows of the last block of the file and then all
    those of the query. *)
Lemma blocks_spec ppfb : forall fuel L q k, cursor o pi g q k -> q_over q = false -> q_keyIsMet q = false ->
  Z.of_nat (length L) < ppfb -> room (schema o) ppfb (q_sdata q) -> out_rows (schema o) (q_sdata q) 0 L ->
  nrows g - place_of o q k + 2 * numOfBlocks pi + 2 < Z.of_nat fuel ->
  exists bls n q' k', commit_blocks fuel m c ppfb (Z.of_nat (length L)) q = Ret (bls, n, q') /\
    written (schema o) bls = Ret (L ++ rows_from (place_of o q k) n) /\ 0 <= n /\ cursor o pi g q' k' /\
    place_of o q' k' = place_of o q k + n /\ Forall (fun b => 0 < fst b <= ppfb) bls /\
    all_upto (place_of o q k) n (q_ekey q) /\ none_from (place_of o q k + n) (q_ekey q).
Proof using Hinv Ho Hpi Hg Hkeyed Hsorted.
  induction fuel as [|fuel IH]; intros L q k Hcu Hover Hmet HL Hroom HLrows Hfuel.
  { pose proof (cursor_place q k Hcu). pose proof (left_nonneg q k Hcu). lia. }
  pose proof (cursor_place q k Hcu) as Hp0. pose proof (left_nonneg q k Hcu) as Hleft.
  cbn [commit_blocks]. rewrite Hover.
  destruct (fill_spec ppfb fuel (Z.of_nat (length L)) q k Hcu Hover ltac:(lia) Hroom ltac:(lia)) as
    (n & q1 & k1 & -> & Hn & Hle & Hcu1 & Hpl & Hek & Hlen & Hrows & Hkeep & Hkeys & Hend).
  cbn [rbind]. pose proof (cursor_place q1 k1 Hcu1) as Hp1.
  assert (Hread : read_out (schema o) (Z.to_nat (Z.of_nat (length L) + n)) (q_sdata q1) = Ret (L ++ rows_from (place_of o q k) n)).
  { rewrite <- (read_out_rows (schema o) (q_sdata q1) (L ++ rows_from (place_of o q k) n)).
    - f_equal. rewrite length_app. pose proof (length_rows_from (place_of o q k) n). lia.
    - apply out_rows_app; [|done]. intros i r Hi. rewrite Hkeep; [by apply HLrows|]. apply lookup_lt_Some in Hi. lia. }
  destruct (Z.eqb_spec (Z.of_nat (length L) + n) 0) as [Hz|Hnz].
  { exists [], 0, q1, k1. assert (n = 0) as -> by lia. destruct L; [|cbn in Hz; lia].
    split; [done|]. split; [done|]. split; [lia|]. split; [done|]. split; [done|]. split; [by constructor|]. split; [done|].
    destruct (q_over q1); [done|cbn in Hend; lia]. }
  destruct (q_over q1) eqn:Eo.
  - (* the query is over: this block is the last *)
    destruct (_ || _).
    + eexists [_], _, q1, k1. split; [reflexivity|]. replace (Z.of_nat (length L) + n - Z.of_nat (length L)) with n by lia.
      split; [cbn; rewrite Hread; cbn; by rewrite app_nil_r|]. split; [done|]. split; [done|]. split; [done|].
      split; [by repeat constructor; cbn; lia|]. by split.
    + destruct fuel as [|fuel]; [lia|]. cbn [commit_blocks]. rewrite Eo. cbn [rbind].
      eexists [_], n, q1, k1. split; [do 3 f_equal; lia|]. split; [cbn; rewrite Hread; cbn; by rewrite app_nil_r|].
      split; [done|]. split; [done|]. split; [done|]. split; [by repeat constructor; cbn; lia|]. by split.
  - destruct Hend as [Hfull Hmet1]. rewrite Hmet1, Hmet, orb_false_r, (proj2 (Z.ltb_ge _ _)) by lia.
    destruct (IH [] q1 k1 Hcu1 Eo) as (bls & n2 & q2 & k2 & Hcb & Hwr & Hn2 & Hcu2 & Hpl2 & Hsz & Hkeys2 & Hnone2);
      [congruence|cbn; lia|by eapply room_length|by intros i r Hi|lia|].
    change (Z.of_nat (length [])) with 0 in Hcb. rewrite Hcb. cbn [rbind]. rewrite Hpl in *. rewrite Hek in *.
    eexists _, (n + n2), q2, k2. split; [do 3 f_equal; lia|]. pose proof (cursor_place q2 k2 Hcu2).
    split; [cbn [written]; rewrite Hread; cbn [rbind]; rewrite Hwr; cbn [rbind app]; rewrite rows_from_add by lia; by rewrite app_assoc|].
    split; [lia|]. split; [done|]. split; [lia|]. split; [constructor; [cbn; lia|done]|].
    split; [by apply all_upto_add|]. by rewrite Z.add_assoc.
Qed.

(** ** The query of a commit *)
Lemma set_commit_spec skey ekey sdata : tight o g ->
  exists q low, vnodeSetCommitQuery m c (commit_query skey ekey sdata) = Ret (q, low) /\ q_ekey q = ekey /\ q_sdata q = sdata /\
    q_keyIsMet q = false /\
    (q_over q = true -> g_com g = nrows g \/ exists r, g_rows g !! Z.to_nat (g_com g) = Some r /\ row_key r < skey) /\
    (forall r, g_rows g !! Z.to_nat (g_com g) = Some r -> row_key r < skey -> q_over q = true) /\
    (forall k, low = Some k -> exists r, g_rows g !! Z.to_nat (g_com g) = Some r /\ row_key r = k) /\
    ((numOfBlocks pi = 0 /\ q_over q = true /\ g_com g = nrows g) \/
     (0 < numOfBlocks pi /\ exists k, cursor o pi g q k /\ place_of o q k = g_com g)).
Proof using Hinv Ho Hpi Hg Hkeyed.
  intros Htight. destruct (scan_core bs c G m o pi g Hinv Ho Hpi Hg) as [Hcore Hs].
  destruct (scan_bounds bs c G m o pi g Hinv Ho Hpi Hg) as (Hppb & Hmb & Hn & Hn2 & Hr).
  destruct (se_com _ _ _ Hs) as [Hcom Hdone]. pose proof (se_unc _ _ _ Hs) as Hu. pose proof (se_unc_range _ _ _ Hs) as Hur.
  destruct (se_pos _ _ _ Hs) as (kc & Hslot & Hkc & Hgc & Hcp). set (ppb := pointsPerBlock o) in *. set (mb := maxBlocks pi) in *.
  assert (Hlow : g_done g * ppb <= g_com g) by (rewrite Hdone, Z.mul_comm; apply Z.mul_div_le; lia).
  assert (Hd : g_done g = if commitPoint pi =? ppb then kc else kc - 1).
  { rewrite Hdone, Hgc. destruct (Z.eqb_spec (commitPoint pi) ppb) as [->|Hne].
    - replace ((kc - 1) * ppb + ppb) with (kc * ppb) by lia. apply Z.div_mul. lia.
    - rewrite Z.add_comm, Z.div_add, Z.div_small by lia. lia. }
  unfold vnodeSetCommitQuery, meter, info. rewrite Ho. cbn [rbind]. rewrite Hpi. cbn [rbind q_numOfBlocks q_firstSlot commit_query].
  change (0 <? 0) with false. rewrite orb_false_r. destruct (Z.leb_spec (numOfBlocks pi) 0) as [Hz|Hpos].
  { eexists _, _. split; [reflexivity|]. do 3 (split; [done|]).
    assert (E : g_com g = nrows g).
    { pose proof (se_empty _ _ _ Hs ltac:(lia)) as He. fold ppb in He. assert (g_done g = g_hi g) as Hdh by lia. rewrite Hdh in Hlow. lia. }
    split; [auto|]. do 2 (split; [done|]). left. split; [lia|done]. }
  assert (Hhi : live pi g (g_hi g)) by (unfold live; lia).
  assert (Hcur : currentSlot pi = (g_hi g - 1) mod mb).
  { rewrite (se_cur _ _ _ Hs). unfold cur_slot. by rewrite (proj2 (Z.eqb_neq _ _)) by lia. }
  destruct (block_live bs c G m o pi g Hinv Ho Hpi Hg _ Hhi) as (ih & bh & Hblh & _ & Hokh & Hnumh). fold mb in Hblh.
  pose proof (pts_last bs c G m o pi g Hinv Ho Hpi Hg ltac:(lia)) as Hpl. fold ppb in Hpl.
  destruct Htight as [|Htight]; [lia|]. fold ppb in Htight.
  cbn [q_currentSlot q_slot q_pos q_over q_sdata q_ekey q_keyIsMet]. rewrite Hcur, Hblh. cbn [rbind set_window q_currentSlot].
  rewrite Hslot. unfold ppb in Hgc. fold ppb in Hgc.
  assert (Hkd : g_done g <= kc <= g_hi g) by (destruct (commitPoint pi =? ppb); lia).
  rewrite slot_eq by lia.
  assert (Hnothing : (if kc - 1 =? g_hi g - 1 then let! b := block_of pi ((kc - 1) mod mb) c in Ret (commitPoint pi =? numOfPoints b)
      else Ret false) = Ret (g_com g =? nrows g)).
  { destruct (Z.eqb_spec (kc - 1) (g_hi g - 1)) as [E|E].
    - assert (kc = g_hi g) as -> by lia. rewrite Hblh. cbn [rbind]. rewrite Hnumh. f_equal.
      destruct (Z.eqb_spec (commitPoint pi) (pts o g (g_hi g))), (Z.eqb_spec (g_com g) (nrows g)); (done || lia).
    - f_equal. symmetry. apply Z.eqb_neq. assert (kc * ppb <= (g_hi g - 1) * ppb) by (apply Z.mul_le_mono_nonneg_r; lia). lia. }
  rewrite Hnothing. cbn [rbind]. destruct (Z.eqb_spec (g_com g) (nrows g)) as [Eall|Ehave].
  - eexists _, _. split; [reflexivity|]. do 3 (split; [done|]). split; [auto|]. do 2 (split; [done|]). right. split; [done|].
    assert (kc = g_hi g) as ->.
    { destruct (Z.lt_ge_cases kc (g_hi g)); [|lia].
      assert (kc * ppb <= (g_hi g - 1) * ppb) by (apply Z.mul_le_mono_nonneg_r; lia). lia. }
    exists (g_hi g). split.
    + constructor; cbn; try done. by rewrite (bo_id _ _ _ _ _ _ _ _ Hokh). lia.
    + unfold place_of. cbn. fold ppb. lia.
  - set (q1 := set_window _ _ _ _ _). set (k := g_done g + 1).
    assert (Hdhi : g_done g < g_hi g).
    { destruct (Z.lt_ge_cases (g_done g) (g_hi g)) as [|Hge]; [done|].
      assert (g_hi g * ppb <= g_done g * ppb) by (apply Z.mul_le_mono_nonneg_r; lia). lia. }
    assert (Hk : live pi g k) by (unfold live; lia).
    set (q2 := if q_pos q1 =? ppb then set_pos (Z.rem (q_slot q1 + 1) mb) 0 q1 else q1).
    assert (Hq2 : q_slot q2 = (k - 1) mod mb /\ (k - 1) * ppb + q_pos q2 = g_com g /\ 0 <= q_pos q2 < ppb /\ q_asc q2 = true /\
      q_currentSlot q2 = (g_hi g - 1) mod mb /\ q_blockId q2 = blockId bh /\ q_ekey q2 = ekey /\ q_sdata q2 = sdata /\
      q_keyIsMet q2 = false /\ q_skey q2 = skey /\ q_over q2 = false).
    { unfold q2, q1, k. cbn [set_window q_pos q_slot set_pos]. rewrite Hd.
      destruct (Z.eqb_spec (commitPoint pi) ppb) as [E|E]; cbn.
      - split; [|repeat split; lia]. pose proof (Z.mod_pos_bound (kc - 1) mb ltac:(lia)).
        rewrite rem_mod by lia. rewrite Z.add_mod_idemp_l by lia. f_equal. lia.
      - split; [f_equal; lia|repeat split; lia]. }
    destruct Hq2 as (F1 & F2 & F3 & F4 & F5 & F6 & F7 & F8 & F9 & F10 & F11).
    assert (Hcu : cursor o pi g q2 k).
    { constructor; try done; [by rewrite F6, (bo_id _ _ _ _ _ _ _ _ Hokh)|]. unfold pts. fold ppb. lia. }
    destruct (block_live bs c G m o pi g Hinv Ho Hpi Hg _ Hk) as (i & b & Hbl & _ & Hok & Hnum). fold mb in Hbl.
    destruct (ts_row bs c G m o pi g Hinv Ho Hpi Hg Hkeyed k i b (q_pos q2) Hk Hok) as (r & Hr1 & Hts).
    { unfold pts. fold ppb. lia. }
    destruct (block_keys bs c G m o pi g Hinv Ho Hpi Hg Hkeyed k i b Hk Hok) as [Hoff _].
    cbv zeta. fold ppb mb. fold q2. rewrite F1, Hbl. cbn [rbind]. rewrite Hoff. cbn [rbind]. pose proof Hkeyed as [cols Hsch]. rewrite Hsch. cbn [rbind].
    unfold vnodeGetTSInCacheBlock in Hts. rewrite Hoff in Hts. cbn [rbind] in Hts. unfold keyList in Hts.
    rewrite (Z.mul_comm (q_pos q2)). apply rbind_Ret_inv in Hts as (d & Hd1 & Hd2). rewrite Hd1. cbn [rbind].
    injection Hd2 as Hd2. rewrite Hd2. fold ppb in Hr1. rewrite F2 in Hr1.
    destruct (Z.ltb_spec (row_key r) (q_skey q2)) as [Hsmall|Hbig].
    + eexists _, _. split; [reflexivity|]. cbn. split; [done|]. split; [done|]. split; [done|]. split; [|split; [done|split; [by intros k0 [= <-]; exists r|]]].
      * intros _. right. exists r. split; [done|]. congruence.
      * right. split; [done|]. exists k. split; [by destruct Hcu|exact F2].
    + exists q2, None. split; [done|]. do 3 (split; [done|]). split; [by rewrite F11|].
      split; [intros r' Hr' Hlt; assert (r' = r) as -> by congruence; lia|]. split; [done|]. right. split; [done|]. by exists k.
Qed.

(** A commit reads, after the rows of the last block of the file, the rows that are
    not committed and are not behind the end of the commit; where it stops is where
    the next begins. *)
Lemma commit_table_spec skey ekey L sdata : tight o g -> Z.of_nat (length L) < pointsPerFileBlock o ->
  room (schema o) (pointsPerFileBlock o) sdata ->
  out_rows (schema o) sdata 0 L ->
  exists bls n q, commit_table m skey ekey (Z.of_nat (length L)) sdata c = Ret (bls, n, q) /\
    written (schema o) bls = Ret (L ++ rows_from (g_com g) n) /\ 0 <= n /\ g_com g + n <= nrows g /\
    Forall (fun b => 0 < fst b <= pointsPerFileBlock o) bls /\ all_upto (g_com g) n ekey /\
    (0 < n -> exists k, 1 <= k <= g_hi g /\ q_slot q = (k - 1) mod maxBlocks pi /\ 0 <= q_pos q <= pointsPerBlock o /\
       (k - 1) * pointsPerBlock o + q_pos q = g_com g + n) /\
    (0 < Z.of_nat (length L) \/ (forall r, g_rows g !! Z.to_nat (g_com g) = Some r -> skey <= row_key r) ->
       none_from (g_com g + n) ekey).
Proof using Hinv Ho Hpi Hg Hkeyed Hsorted.
  intros Htight HL Hroom HLrows. destruct (scan_core bs c G m o pi g Hinv Ho Hpi Hg) as [Hcore Hs].
  destruct (scan_bounds bs c G m o pi g Hinv Ho Hpi Hg) as (Hppb & Hmb & Hn & Hn2 & Hr).
  destruct (se_com _ _ _ Hs) as [Hcom Hdone]. pose proof (se_unc _ _ _ Hs) as Hu. pose proof (se_unc_range _ _ _ Hs) as Hur.
  assert (Hnone : g_com g = nrows g -> none_from (g_com g) ekey).
  { intros E r Hr1. apply lookup_lt_Some in Hr1. unfold nrows in *. lia. }
  destruct (set_commit_spec skey ekey sdata Htight) as (q & low & Hq & Hek & Hsd & Hmet & Hov & _ & _ & Hcase).
  unfold commit_table, meter, info. rewrite Ho. cbn [rbind]. rewrite Hpi. cbn [rbind]. rewrite Hq. cbn [rbind].
  set (fuel := Z.to_nat _). set (q1 := if 0 <? Z.of_nat (length L) then set_over false (q_keyIsMet q) q else q).
  assert (Ef : exists f, fuel = S (S f)) by (exists (fuel - 2)%nat; unfold fuel; nia).
  assert (Hstop : q_over q1 = true -> L = [] /\ q1 = q).
  { unfold q1. destruct (Z.ltb_spec 0 (Z.of_nat (length L))); [done|]. intros _. split; [destruct L; [done|cbn in *; lia]|done]. }
  assert (Hsame : q_slot q1 = q_slot q /\ q_pos q1 = q_pos q /\ q_sdata q1 = sdata /\ q_ekey q1 = ekey /\ q_keyIsMet q1 = false).
  { unfold q1. destruct (0 <? _); by rewrite <- Hsd, <- Hek. }
  destruct Hsame as (E1 & E2 & E3 & E4 & E5).
  destruct (q_over q1) eqn:Eo.
  { destruct (Hstop eq_refl) as [-> Eq]. exists [], 0, q1. split; [destruct Ef as [f ->]; cbn; by rewrite Eo|].
    split; [done|]. split; [done|]. split; [lia|]. split; [constructor|]. split; [intros j r Hj; lia|]. split; [lia|].
    rewrite Eq in Eo. rewrite Z.add_0_r. intros [Hl|Hsk]; [cbn in Hl; lia|]. destruct (Hov Eo) as [E|(r & Hr1 & Hlt)]; [by apply Hnone|].
    specialize (Hsk r Hr1). lia. }
  destruct Hcase as [(Hz & Eov & Eall)|(Hpos & k & Hcu & Hpl)].
  - (* no blocks: only the last block of the file is written again *)
    assert (HL0 : 0 < Z.of_nat (length L)).
    { destruct (Z.lt_ge_cases 0 (Z.of_nat (length L))) as [|Hge]; [done|]. unfold q1 in Eo. rewrite (proj2 (Z.ltb_ge _ _)) in Eo by lia. congruence. }
    destruct Ef as [f ->].
    cbn [commit_blocks]. rewrite Eo. cbn [fill_block]. rewrite (proj2 (Z.ltb_lt _ _)) by lia.
    unfold vnodeQueryFromCache. cbn [set_read set_toRead q_over q_keyIsMet q_sdata q_len]. rewrite Eo. unfold meter. rewrite Ho. cbn [rbind].
    rewrite Hpi, Hz. cbn [Z.eqb rbind set_over q_over q_sdata set_read set_toRead]. rewrite (proj2 (Z.eqb_neq _ _)) by lia.
    rewrite Z.add_0_r, (proj2 (Z.ltb_lt _ _)) by lia. cbn [orb].
    eexists _, _, _. split; [reflexivity|]. cbn [q_sdata set_over set_read set_toRead]. rewrite E3, Z.sub_diag.
    split; [cbn; rewrite Nat2Z.id, read_out_rows by done; cbn; by rewrite !app_nil_r|]. split; [lia|]. split; [lia|].
    split; [by repeat constructor; cbn; lia|]. split; [intros j r Hj; lia|]. split; [lia|]. intros _. rewrite Z.add_0_r. by apply Hnone.
  - assert (Hcu1 : cursor o pi g q1 k) by (unfold q1; destruct (0 <? _); by destruct Hcu).
    assert (Hpl1 : place_of o q1 k = g_com g) by (unfold place_of in *; by rewrite E2).
    destruct (blocks_spec (pointsPerFileBlock o) fuel L q1 k Hcu1 Eo E5 HL) as
      (bls & n & q2 & k2 & Hcb & Hwr & Hn0 & Hcu2 & Hpl2 & Hsz & Hkeys & Hnone2); [by rewrite E3|by rewrite E3| |].
    { rewrite Hpl1. unfold fuel. pose proof (Z.mul_div_le (g_com g) (pointsPerBlock o) ltac:(lia)) as Hlow. rewrite <- Hdone in Hlow.
      assert (pointsPerBlock o * unCommittedBlocks pi <= pointsPerBlock o * maxBlocks pi) by (apply Z.mul_le_mono_nonneg_l; lia). lia. }
    rewrite Hpl1, E4 in *. pose proof (cursor_place q2 k2 Hcu2) as Hp2.
    exists bls, n, q2. split; [done|]. split; [done|]. split; [done|]. split; [lia|]. split; [done|]. split; [done|]. split; [|done].
    intros Hn1. exists k2. destruct Hcu2 as [? ? ? ? Hlive Hp3]. unfold live in Hlive. unfold place_of in Hpl2. unfold pts in Hp3.
    split; [lia|]. split; [done|]. split; [lia|done].
Qed.
End Flush.
