(* ===== verification/CacheSearch.v ===== *)
(** * A query finds its first row *)
From S2P Require Import Prelude KeySearch CachePool CacheInv CacheQuery CacheInsert CacheScan CacheFlush.

Section Search.
Context (bs : Z) (c : cache) (G : gmap Z ghost) (m : Z) (o : SMeterObj) (pi : SCacheInfo) (g : ghost).
Context (Hinv : inv bs c G) (Ho : meters c !! m = Some o) (Hpi : pCache o = Some pi) (Hg : G !! m = Some g).
Context (Hkeyed : keyed o) (Hsorted : sorted g) (Htight : tight o g).

(** The rows in the cache are the last of the table. *)
Definition first_row : Z := (g_hi g - numOfBlocks pi) * pointsPerBlock o.

Lemma pts_pos k : live pi g k -> 1 <= pts o g k <= pointsPerBlock o.
Proof using Hinv Ho Hpi Hg Htight.
  intros Hk. destruct (scan_bounds bs c G m o pi g Hinv Ho Hpi Hg) as (Hppb & Hmb & Hn & Hn2 & Hr). unfold live in Hk.
  destruct Htight as [|Ht]; [lia|]. unfold pts.
  assert ((k - 1) * pointsPerBlock o <= (g_hi g - 1) * pointsPerBlock o) by (apply Z.mul_le_mono_nonneg_r; lia). lia.
Qed.

(** The last key of a block. *)
Definition key_of (i : Z) (x : Z) : Prop := exists r, g_rows g !! Z.to_nat i = Some r /\ row_key r = x.
Definition first_in (k : Z) : Z := (k - 1) * pointsPerBlock o.
Definition last_in (k : Z) : Z := (k - 1) * pointsPerBlock o + (pts o g k - 1).

Lemma key_of_le i j a b : key_of i a -> key_of j b -> 0 <= i <= j -> a <= b.
Proof using Hsorted. intros (r & Hr & <-) (s & Hs & <-) Hij. by apply (key_le g i j). Qed.
Lemma key_of_lt i j a b : key_of i a -> key_of j b -> 0 <= i < j -> a < b.
Proof using Hsorted. intros (r & Hr & <-) (s & Hs & <-) Hij. apply (key_lt g (Z.to_nat i) (Z.to_nat j) r s Hsorted); [lia|done|done]. Qed.

Lemma block_ends k : live pi g k -> exists b kf kl, block_of pi ((k - 1) mod maxBlocks pi) c = Ret b /\
  vnodeGetTSInCacheBlock b 0 = Ret kf /\ vnodeGetTSInCacheBlock b (numOfPoints b - 1) = Ret kl /\
  key_of (first_in k) kf /\ key_of (last_in k) kl.
Proof using Hinv Ho Hpi Hg Hkeyed Htight.
  intros Hk. destruct (block_live bs c G m o pi g Hinv Ho Hpi Hg k Hk) as (i & b & Hb & _ & Hok & Hnum). pose proof (pts_pos k Hk).
  destruct (ts_row bs c G m o pi g Hinv Ho Hpi Hg Hkeyed k i b 0 Hk Hok ltac:(lia)) as (rf & Hrf & Hf).
  destruct (ts_row bs c G m o pi g Hinv Ho Hpi Hg Hkeyed k i b (pts o g k - 1) Hk Hok ltac:(lia)) as (rl & Hrl & Hl).
  exists b, (row_key rf), (row_key rl). rewrite Hnum. split; [done|]. split; [done|]. split; [done|].
  rewrite Z.add_0_r in Hrf. split; [by exists rf|by exists rl].
Qed.

Lemma first_in_pos k : live pi g k -> 0 <= first_in k /\ first_in k <= last_in k.
Proof using Hinv Ho Hpi Hg Htight.
  intros Hk. destruct (scan_bounds bs c G m o pi g Hinv Ho Hpi Hg) as (Hppb & Hmb & Hn & Hn2 & Hr). pose proof (pts_pos k Hk).
  unfold live in Hk. unfold first_in, last_in. assert (0 <= (k - 1) * pointsPerBlock o) by (apply Z.mul_nonneg_nonneg; lia). lia.
Qed.

Lemma blocks_order k k' : live pi g k -> live pi g k' -> k < k' -> last_in k < first_in k'.
Proof using Hinv Ho Hpi Hg Htight.
  intros Hk Hk' Hlt. destruct (scan_bounds bs c G m o pi g Hinv Ho Hpi Hg) as (Hppb & Hmb & Hn & Hn2 & Hr). pose proof (pts_pos k Hk).
  unfold first_in, last_in. assert (k * pointsPerBlock o <= (k' - 1) * pointsPerBlock o) by (apply Z.mul_le_mono_nonneg_r; lia). lia.
Qed.

(** The distance of two slots. *)
Lemma slots_between f l : live pi g f -> live pi g l -> f <= l ->
  (let n := Z.rem ((l - 1) mod maxBlocks pi - (f - 1) mod maxBlocks pi + 1 + maxBlocks pi) (maxBlocks pi) in
   if n =? 0 then maxBlocks pi else n) = l - f + 1.
Proof using Hinv Ho Hpi Hg.
  intros Hf Hl Hle. destruct (scan_bounds bs c G m o pi g Hinv Ho Hpi Hg) as (Hppb & Hmb & Hn & Hn2 & Hr). unfold live in *.
  set (mb := maxBlocks pi) in *. pose proof (Z.mod_pos_bound (l - 1) mb ltac:(lia)). pose proof (Z.mod_pos_bound (f - 1) mb ltac:(lia)).
  cbv zeta. rewrite rem_mod by lia.
  assert (E : ((l - 1) mod mb - (f - 1) mod mb + 1 + mb) mod mb = (l - f + 1) mod mb).
  { replace ((l - 1) mod mb - (f - 1) mod mb + 1 + mb) with (((l - 1) mod mb - (f - 1) mod mb + 1) + 1 * mb) by lia.
    rewrite Z.mod_add by lia. rewrite <- (Z.add_mod_idemp_l (_ - _)) by lia. rewrite <- Zminus_mod, Z.add_mod_idemp_l by lia. f_equal. lia. }
  rewrite E. destruct (decide (l - f + 1 = mb)) as [Eq|Ne].
  - rewrite Eq, Z.mod_same by lia. cbn. lia.
  - rewrite Z.mod_small by lia. by rewrite (proj2 (Z.eqb_neq _ _)) by lia.
Qed.

Lemma slot_plus f d : 0 <= d -> Z.rem ((f - 1) mod maxBlocks pi + d) (maxBlocks pi) = (f + d - 1) mod maxBlocks pi.
Proof using Hinv Ho Hpi Hg.
  intros Hd. destruct (scan_bounds bs c G m o pi g Hinv Ho Hpi Hg) as (Hppb & Hmb & Hn & Hn2 & Hr).
  pose proof (Z.mod_pos_bound (f - 1) (maxBlocks pi) ltac:(lia)). rewrite rem_mod by lia. rewrite Z.add_mod_idemp_l by lia. f_equal. lia.
Qed.

Lemma prev_slot_of k : step_slot ((k - 1) mod maxBlocks pi) (-1) (maxBlocks pi) = (k - 1 - 1) mod maxBlocks pi.
Proof using Hinv Ho Hpi Hg.
  destruct (scan_bounds bs c G m o pi g Hinv Ho Hpi Hg) as (Hppb & Hmb & Hn & Hn2 & Hr). unfold step_slot.
  pose proof (Z.mod_pos_bound (k - 1) (maxBlocks pi) ltac:(lia)). rewrite rem_mod by lia.
  replace ((k - 1) mod maxBlocks pi + -1 + maxBlocks pi) with ((k - 1) mod maxBlocks pi + -1 + 1 * maxBlocks pi) by lia.
  rewrite Z.mod_add by lia. rewrite Z.add_mod_idemp_l by lia. f_equal.
Qed.

(** The block with the first key that is not smaller than [skey]. *)
Definition target (skey k : Z) : Prop := live pi g k /\ (exists kl, key_of (last_in k) kl /\ skey <= kl) /\
  (forall j x, live pi g j -> j < k -> key_of (last_in j) x -> x < skey).

Lemma search_slot_spec q : q_asc q = true -> forall fuel f l, live pi g f -> live pi g l -> f <= l -> l - f < Z.of_nat fuel ->
  (exists kl, key_of (last_in l) kl /\ q_skey q <= kl) ->
  (forall j x, live pi g j -> j < f -> key_of (last_in j) x -> x < q_skey q) ->
  exists k kf kl, search_slot fuel pi c q ((f - 1) mod maxBlocks pi) ((l - 1) mod maxBlocks pi) =
      Ret ((k - 1) mod maxBlocks pi, kf, kl) /\ target (q_skey q) k /\ key_of (first_in k) kf /\ key_of (last_in k) kl.
Proof using Hinv Ho Hpi Hg Hkeyed Hsorted Htight.
  intros Hasc. destruct (scan_bounds bs c G m o pi g Hinv Ho Hpi Hg) as (Hppb & Hmb & Hn & Hn2 & Hr).
  induction fuel as [|fuel IH]; intros f l Hf Hl Hle Hfuel Hlast Hbefore; [lia|].
  cbn [search_slot]. pose proof (slots_between f l Hf Hl Hle) as Hnum. cbv zeta in Hnum. rewrite Hnum.
  set (d := Z.shiftr (l - f + 1) 1).
  assert (Hd : d = (l - f + 1) / 2) by (unfold d; rewrite Z.shiftr_div_pow2 by lia; done).
  assert (Hd2 : 0 <= d /\ 2 * d <= l - f + 1 < 2 * d + 2).
  { pose proof (Z.mul_div_le (l - f + 1) 2 ltac:(lia)). pose proof (Z.mul_succ_div_gt (l - f + 1) 2 ltac:(lia)).
    pose proof (Z.div_pos (l - f + 1) 2 ltac:(lia) ltac:(lia)). lia. }
  rewrite slot_plus by lia. set (k := f + d). assert (Hk : live pi g k) by (unfold live in *; lia).
  destruct (block_ends k Hk) as (b & kf & kl & -> & Hkf & Hkl & Kf & Kl). cbn [rbind]. rewrite Hkf. cbn [rbind]. rewrite Hkl. cbn [rbind].
  destruct Hlast as (ll & Kll & Hll).
  assert (Hord : forall j, live pi g j -> k < j -> forall x, key_of (last_in j) x -> kl < x).
  { intros j Hj Hkj x Kx. pose proof (blocks_order k j Hk Hj Hkj). pose proof (first_in_pos k Hk). pose proof (first_in_pos j Hj).
    apply (key_of_lt (last_in k) (last_in j)); [done|done|lia]. }
  destruct (Z.eqb_spec (l - f + 1) 1) as [E1|E1].
  { assert (Ekf : k = f) by lia. assert (Elk : l = k) by lia. rewrite Elk in Kll. exists k, kf, kl. split; [done|]. split; [|done].
    split; [done|]. split; [by exists ll|]. intros j x Hj Hjk. apply Hbefore; [done|lia]. }
  destruct (Z.ltb_spec kl (q_skey q)) as [Hsmall|Hge].
  { assert (k <> l).
    { intros Ekl. rewrite <- Ekl in Kll. enough (kl = ll) by lia. destruct Kl as (r & Hr1 & <-), Kll as (s & Hs1 & <-). congruence. }
    destruct (Z.eqb_spec (l - f + 1) 2) as [E2|E2]; [lia|]. rewrite Hasc.
    rewrite slot_plus by lia. apply IH; [unfold live in *; lia|done|lia|lia|by exists ll|].
    intros j x Hj Hjk Kx. destruct (decide (j = k)) as [Ejk|Hne]; [rewrite Ejk in Kx|].
    - enough (x = kl) by lia. destruct Kl as (r & Hr1 & <-), Kx as (s & Hs1 & <-). congruence.
    - enough (x <= kl) by lia. pose proof (blocks_order j k Hj Hk ltac:(lia)). pose proof (first_in_pos k Hk). pose proof (first_in_pos j Hj).
      apply (key_of_le (last_in j) (last_in k)); [done|done|lia]. }
  assert (Hfound : (forall j x, live pi g j -> j < k -> key_of (last_in j) x -> x < q_skey q) -> target (q_skey q) k).
  { intros Hb. split; [done|]. split; [by exists kl|done]. }
  destruct (Z.ltb_spec (q_skey q) kf) as [Hlow|Hin].
  - rewrite Hasc, prev_slot_of. assert (Hk1 : live pi g (k - 1)) by (unfold live in *; lia).
    destruct (block_ends (k - 1) Hk1) as (b1 & kf1 & kl1 & -> & _ & Hkl1 & _ & Kl1). cbn [rbind]. rewrite Hkl1. cbn [rbind].
    destruct (Z.ltb_spec kl1 (q_skey q)) as [Hgap|Hno].
    + exists k, kf, kl. split; [done|]. split; [|done]. apply Hfound. intros j x Hj Hjk Kx.
      enough (x <= kl1) by lia. destruct (decide (j = k - 1)) as [->|Hne].
      * destruct Kl1 as (r & Hr1 & <-), Kx as (s & Hs1 & <-). replace s with r by congruence. lia.
      * pose proof (blocks_order j (k - 1) Hj Hk1 ltac:(lia)). pose proof (first_in_pos (k - 1) Hk1). pose proof (first_in_pos j Hj).
        apply (key_of_le (last_in j) (last_in (k - 1))); [done|done|lia].
    + apply IH; [done|done|lia|lia|by exists kl1|done].
  - exists k, kf, kl. split; [done|]. split; [|done]. apply Hfound. intros j x Hj Hjk Kx.
    pose proof (blocks_order j k Hj Hk Hjk). pose proof (first_in_pos k Hk). pose proof (first_in_pos j Hj).
    pose proof (key_of_lt (last_in j) (first_in k) x kf Kx Kf ltac:(lia)). lia.
Qed.

(** The rows of the blocks before the target are smaller. *)
Lemma before_target skey k i r : target skey k -> first_row <= i < first_in k -> g_rows g !! Z.to_nat i = Some r -> row_key r < skey.
Proof using Hinv Ho Hpi Hg Hkeyed Hsorted Htight.
  intros (Hk & _ & Hbef) Hi Hr. destruct (scan_bounds bs c G m o pi g Hinv Ho Hpi Hg) as (Hppb & Hmb & Hn & Hn2 & Hrr).
  unfold live in Hk. assert (Hk1 : live pi g (k - 1)).
  { unfold live, first_row, first_in in *. destruct (decide (k = g_hi g - numOfBlocks pi + 1)) as [E|E]; [|lia].
    exfalso. rewrite E in Hi. lia. }
  destruct (block_ends (k - 1) Hk1) as (b & kf & kl & _ & _ & _ & _ & Kl). pose proof (Hbef (k - 1) kl Hk1 ltac:(lia) Kl).
  assert (Hfull : pts o g (k - 1) = pointsPerBlock o).
  { apply (pts_full bs c G m o pi g Hinv Ho Hpi Hg). unfold live in Hk1. lia. }
  assert (E : last_in (k - 1) = first_in k - 1) by (unfold last_in, first_in; rewrite Hfull; lia).
  assert (0 <= first_row) by (unfold first_row; apply Z.mul_nonneg_nonneg; lia).
  enough (row_key r <= kl) by lia. apply (key_of_le i (last_in (k - 1))); [by exists r|done|lia].
Qed.

(** What a new query of the keys from [skey] to [ekey] finds: its first row, or that
    no row of the cache is of it. *)
Definition in_range (q : SQuery) (r : list Z) : Prop := q_skey q <= row_key r <= q_ekey q.
#[global] Instance in_range_dec q r : Decision (in_range q r).
Proof. unfold in_range. apply _. Defined.

Lemma search_spec q : q_asc q = true -> q_offset q = 0 -> 0 < numOfBlocks pi ->
  exists q', vnodeSearchPointInCache pi c q = Ret q' /\ q_over q' = q_over q /\ q_keyIsMet q' = q_keyIsMet q /\
    q_sdata q' = q_sdata q /\ q_ekey q' = q_ekey q /\ q_pointsToRead q' = q_pointsToRead q /\
    q_pointsOffset q' = q_pointsOffset q /\ q_pointsRead q' = q_pointsRead q /\ q_asc q' = true /\
    (((q_slot q' <? 0) || (q_pos q' <? 0) = true /\
      forall i r, first_row <= i -> g_rows g !! Z.to_nat i = Some r -> ~ in_range q r) \/
     (exists k, cursor o pi g q' k /\ first_row <= place_of o q' k /\
        (forall i r, first_row <= i < place_of o q' k -> g_rows g !! Z.to_nat i = Some r -> row_key r < q_skey q) /\
        exists r, g_rows g !! Z.to_nat (place_of o q' k) = Some r /\ q_skey q <= row_key r)).
Proof using Hinv Ho Hpi Hg Hkeyed Hsorted Htight.
  intros Hasc Hoff Hpos. destruct (scan_bounds bs c G m o pi g Hinv Ho Hpi Hg) as (Hppb & Hmb & Hn & Hn2 & Hr).
  destruct (scan_core bs c G m o pi g Hinv Ho Hpi Hg) as [Hcore Hs]. set (k0 := g_hi g - numOfBlocks pi + 1).
  assert (Hk0 : live pi g k0) by (unfold live, k0; lia). assert (Hh : live pi g (g_hi g)) by (unfold live; lia).
  assert (Hfr : first_row = first_in k0) by (unfold first_row, first_in, k0; f_equal; lia).
  destruct (block_ends k0 Hk0) as (b0 & kf0 & kl0 & Hb0 & Hkf0 & _ & Kf0 & _).
  destruct (block_ends (g_hi g) Hh) as (bh & kfh & klh & Hbh & _ & Hklh & _ & Klh).
  pose proof (first_in_pos k0 Hk0) as Hf0. pose proof (first_in_pos _ Hh) as Hfh.
  assert (Hlast : last_in (g_hi g) = nrows g - 1).
  { pose proof (pts_last bs c G m o pi g Hinv Ho Hpi Hg ltac:(lia)). unfold last_in. lia. }
  assert (Hcur : currentSlot pi = (g_hi g - 1) mod maxBlocks pi).
  { rewrite (se_cur _ _ _ Hs). unfold cur_slot. by rewrite (proj2 (Z.eqb_neq _ _)) by lia. }
  unfold vnodeSearchPointInCache. cbv zeta. rewrite (proj2 (Z.leb_gt _ _)) by lia.
  assert (Hfs : Z.rem (currentSlot pi - numOfBlocks pi + 1 + maxBlocks pi) (maxBlocks pi) = (k0 - 1) mod maxBlocks pi).
  { rewrite (se_cur _ _ _ Hs), slot_back by lia. f_equal. lia. }
  rewrite Hfs, Hcur, Hb0. cbn [rbind]. rewrite Hkf0. cbn [rbind]. rewrite Hbh. cbn [rbind]. rewrite Hklh. cbn [rbind].
  cbn [set_pos set_window q_asc q_skey q_ekey q_offset q_lastKey q_pos q_slot]. rewrite Hasc. cbn [andb negb].
  assert (Hrange : forall i r, first_row <= i -> g_rows g !! Z.to_nat i = Some r -> kf0 <= row_key r <= klh).
  { intros i r Hi Hri. pose proof (lookup_lt_Some _ _ _ Hri). unfold nrows in Hlast. split.
    - apply (key_of_le (first_in k0) i); [done|by exists r|lia].
    - apply (key_of_le i (last_in (g_hi g))); [by exists r|done|lia]. }
  destruct ((klh <? q_skey q) || (q_ekey q <? kf0)) eqn:Eout.
  { eexists. split; [reflexivity|]. do 8 (split; [done|]). left. split; [done|].
    intros i r Hi Hri [H1 H2]. pose proof (Hrange i r Hi Hri). apply orb_true_iff in Eout as [E|E]; apply Z.ltb_lt in E; lia. }
  apply orb_false_iff in Eout as [E1 E2]. apply Z.ltb_ge in E1, E2. 
  set (q1 := set_window _ _ _ _ _).
  destruct (search_slot_spec q1 Hasc (S (Z.to_nat (maxBlocks pi))) k0 (g_hi g) Hk0 Hh) as (k & kf & kl & Hss & Htar & Kf & Kl).
  { unfold k0. lia. } { unfold k0. lia. } { by exists klh. }
  { intros j x Hj Hjk. unfold live, k0 in *. lia. }
  change (q_skey q1) with (q_skey q) in Htar. rewrite Hss. cbn [rbind]. pose proof Htar as (Hk & (kl' & Kl' & Hkl) & _).
  assert (kl' = kl) as -> by (destruct Kl as (r & Hr1 & <-), Kl' as (s & Hs1 & <-); congruence).
  rewrite (proj2 (Z.ltb_ge kl _)) by lia. pose proof (first_in_pos k Hk) as Hfk.
  destruct (Z.ltb_spec (q_ekey q) kf) as [Hbefore|Hin].
  { eexists. split; [reflexivity|]. do 8 (split; [done|]). left. split; [by apply orb_true_r|].
    intros i r Hi Hri [H1 H2]. destruct (Z.lt_ge_cases i (first_in k)) as [Hlt|Hge].
    - pose proof (before_target (q_skey q) k i r Htar ltac:(lia) Hri). lia.
    - enough (kf <= row_key r) by lia. apply (key_of_le (first_in k) i); [done|by exists r|lia]. }
  destruct (block_live bs c G m o pi g Hinv Ho Hpi Hg k Hk) as (i & b & Hb & _ & Hok & Hnum). rewrite Hb. cbn [rbind].
  destruct (block_keys bs c G m o pi g Hinv Ho Hpi Hg Hkeyed k i b Hk Hok) as [Hoff0 Hkeys]. rewrite Hoff0. cbn [rbind].
  pose proof (pts_pos k Hk) as Hpts. set (K := map row_key (chunk (pointsPerBlock o) k (g_rows g))) in *.
  assert (Hk1 : 1 <= k) by (unfold live in Hk; lia).
  assert (HlK : Z.of_nat (length K) = pts o g k).
  { unfold K. rewrite length_map. pose proof (length_chunk (pointsPerBlock o) k (g_rows g)) as Hlc. unfold pts, nrows, last_in in *. lia. }
  destruct (search_oldest_column (b_mem b) (base o) K (q_skey q) Hkeys (sorted_chunk _ _ _ Hsorted)) as (r & n & Hsearch & (Hc1 & Hc2 & Hc3) & Er).
  assert (HK : forall j x, 0 <= j < pts o g k -> g_rows g !! Z.to_nat (first_in k + j) = Some x -> K !! Z.to_nat j = Some (row_key x)).
  { intros j x Hj Hx. apply list_lookup_fmap_Some. exists x. split; [done|].
    apply lookup_chunk; [lia|lia|]. rewrite Z2Nat.id by lia. split; [done|]. unfold pts in Hj. lia. }
  assert (Hn1 : n < pts o g k).
  { destruct (Z.lt_ge_cases n (pts o g k)) as [|Hge]; [done|]. exfalso. destruct Kl as (x & Hx & <-).
    pose proof (HK (pts o g k - 1) x ltac:(lia) Hx) as Hx2. pose proof (Hc2 _ _ Hx2 ltac:(lia)). lia. }
  rewrite HlK in Er. rewrite (proj2 (Z.eqb_neq n _)) in Er by lia. subst r. rewrite Hnum, <- HlK, Hsearch. cbn [rbind].
  destruct (ts_row bs c G m o pi g Hinv Ho Hpi Hg Hkeyed k i b n Hk Hok ltac:(lia)) as (x & Hx & Hts). rewrite Hts. cbn [rbind].
  cbn [set_keys q_offset]. rewrite Hoff. change (0 <? 0) with false. cbv iota.
  eexists. split; [reflexivity|]. do 8 (split; [done|]). right. exists k. split.
  { constructor; cbn; try done; [|lia]. destruct (block_live bs c G m o pi g Hinv Ho Hpi Hg _ Hh) as (ih & bh' & Hbh' & _ & Hokh & _).
    rewrite Hbh in Hbh'. injection Hbh' as <-. by apply Hokh. }
  unfold place_of. cbn [q_pos set_keys set_pos]. fold (first_in k). unfold first_in in Hx. fold (first_in k) in Hx.
  assert (Hkk : first_row <= first_in k).
  { rewrite Hfr. unfold first_in. apply Z.mul_le_mono_nonneg_r; [lia|]. unfold live, k0 in *. lia. }
  split; [lia|]. split.
  - intros j y Hj Hy. destruct (Z.lt_ge_cases j (first_in k)) as [Hlt|Hge]; [apply (before_target (q_skey q) k j y Htar); [lia|done]|].
    apply (Hc2 (Z.to_nat (j - first_in k))); [|lia]. apply HK; [lia|]. rewrite <- Hy. f_equal. lia.
  - exists x. split; [done|]. pose proof (Hc3 _ _ (HK n x ltac:(lia) Hx) ltac:(lia)). lia.
Qed.

(** ** A query of a client *)
Definition slotless (q : SQuery) : bool := (q_slot q <? 0) || (q_pos q <? 0).

Lemma query_started q q1 : q_over q = false -> slotless q = true -> numOfBlocks pi <> 0 ->
  vnodeSearchPointInCache pi c (set_read 0 (q_sdata q) (q_len q) q) = Ret q1 -> q_over q1 = false -> q_pointsRead q1 = 0 ->
  vnodeQueryFromCache m c q =
    if slotless q1 then Ret (0, set_over true (q_keyIsMet q1) q1) else vnodeQueryFromCache m c q1.
Proof using Ho Hpi.
  intros Hov Hsl Hnb Hs Hov1 Hpr. unfold slotless in *. unfold vnodeQueryFromCache at 1. cbn [set_read q_over]. rewrite Hov. unfold meter at 1.
  rewrite Ho. cbn [rbind]. rewrite Hpi, (proj2 (Z.eqb_neq _ _)) by done. cbn [set_read q_slot q_pos]. rewrite Hsl, Hs. cbn [rbind].
  destruct ((q_slot q1 <? 0) || (q_pos q1 <? 0)) eqn:E; [done|].
  unfold vnodeQueryFromCache. assert (Eq : set_read 0 (q_sdata q1) (q_len q1) q1 = q1) by (destruct q1; cbn in *; by subst).
  rewrite Eq, Hov1. unfold meter. rewrite Ho. cbn [rbind]. rewrite Hpi, (proj2 (Z.eqb_neq _ _)) by done. rewrite E. cbn [rbind]. by rewrite E.
Qed.

Definition cached : list (list Z) := drop (Z.to_nat first_row) (g_rows g).

Lemma range_filter q p n : first_row <= p -> 0 <= first_row -> 0 <= n -> p + n <= nrows g ->
  (forall i r, first_row <= i < p -> g_rows g !! Z.to_nat i = Some r -> row_key r < q_skey q) ->
  (exists r, g_rows g !! Z.to_nat p = Some r /\ q_skey q <= row_key r) -> all_upto g p n (q_ekey q) ->
  filter (in_range q) cached = rows_from g p n ++ filter (in_range q) (drop (Z.to_nat (p + n)) (g_rows g)).
Proof using Hsorted.
  intros Hp Hf Hn Hle Hbef (r0 & Hr0 & Hk0) Hall. unfold cached.
  replace (drop (Z.to_nat first_row) (g_rows g)) with
    (take (Z.to_nat (p - first_row)) (drop (Z.to_nat first_row) (g_rows g)) ++ rows_from g p n ++ drop (Z.to_nat (p + n)) (g_rows g)).
  2:{ unfold rows_from. replace (drop (Z.to_nat (p + n)) (g_rows g)) with (drop (Z.to_nat n) (drop (Z.to_nat p) (g_rows g)))
        by (rewrite drop_drop; f_equal; lia). rewrite take_drop.
      replace (drop (Z.to_nat p) (g_rows g)) with (drop (Z.to_nat (p - first_row)) (drop (Z.to_nat first_row) (g_rows g)))
        by (rewrite drop_drop; f_equal; lia). by rewrite take_drop. }
  rewrite !filter_app, filter_none, filter_id; [done| |].
  - apply Forall_lookup_2. intros j r Hj. unfold rows_from in Hj. apply lookup_take_Some in Hj as [Hj Hjn]. rewrite lookup_drop in Hj.
    assert (Hr : g_rows g !! Z.to_nat (p + Z.of_nat j) = Some r) by (rewrite <- Hj; f_equal; lia). split.
    + etransitivity; [exact Hk0|]. apply (key_le g p (p + Z.of_nat j)); [done|lia|done|done].
    + apply (Hall (Z.of_nat j) r); [lia|done].
  - apply Forall_lookup_2. intros j r Hj [H1 _]. apply lookup_take_Some in Hj as [Hj Hjn]. rewrite lookup_drop in Hj.
    pose proof (Hbef (first_row + Z.of_nat j) r ltac:(lia)) as Hlt. rewrite <- Hj in Hlt.
    specialize (Hlt ltac:(f_equal; lia)). lia.
Qed.

(** An ascending query, read into buffers of [cap] rows, gives the first rows of the
    cache that are in its range, and it is over only if these are all. *)
Lemma client_query_spec fuel cap q : q_asc q = true -> q_offset q = 0 -> slotless q = true -> q_over q = false -> 0 < cap ->
  room (schema o) cap (q_sdata q) -> 2 * numOfBlocks pi + 2 < Z.of_nat fuel ->
  exists n q', fill_block fuel m c cap 0 q = Ret (n, q') /\ 0 <= n <= cap /\
    out_rows (schema o) (q_sdata q') 0 (take (Z.to_nat n) (filter (in_range q) cached)) /\
    n <= Z.of_nat (length (filter (in_range q) cached)) /\
    (if q_over q' then n = Z.of_nat (length (filter (in_range q) cached)) else n = cap).
Proof using Hinv Ho Hpi Hg Hkeyed Hsorted Htight.
  intros Hasc Hoff Hsl Hov Hcap Hroom Hfuel. destruct (scan_bounds bs c G m o pi g Hinv Ho Hpi Hg) as (Hppb & Hmb & Hn & Hn2 & Hr).
  destruct (scan_core bs c G m o pi g Hinv Ho Hpi Hg) as [Hcore Hs].
  assert (Hfirst : 0 <= first_row) by (unfold first_row; apply Z.mul_nonneg_nonneg; lia).
  destruct fuel as [|fuel]; [lia|]. cbn [fill_block]. rewrite (proj2 (Z.ltb_lt _ _)) by lia. rewrite Z.sub_0_r.
  set (q0 := set_toRead cap 0 q).
  assert (Hnothing : forall q', q_over q' = true -> filter (in_range q) cached = [] ->
    exists n q1, (let! '(n, q) := Ret (0, q') in
        if q_over q then Ret (0 + n, q) else fill_block fuel m c cap (0 + n) q) = Ret (n, q1) /\ 0 <= n <= cap /\
      out_rows (schema o) (q_sdata q1) 0 (take (Z.to_nat n) (filter (in_range q) cached)) /\
      n <= Z.of_nat (length (filter (in_range q) cached)) /\
      (if q_over q1 then n = Z.of_nat (length (filter (in_range q) cached)) else n = cap)).
  { intros q' Eo Enil. cbn [rbind]. rewrite Eo, Enil. exists 0, q'. split; [done|]. split; [lia|]. rewrite Eo. split; [|done].
    intros i r Hi. by rewrite take_nil in Hi. }
  destruct (decide (numOfBlocks pi = 0)) as [Hz|Hnz].
  { assert (Hqz : vnodeQueryFromCache m c q0 = Ret (0, set_over true (q_keyIsMet q) (set_read 0 (q_sdata q0) (q_len q0) q0))).
    { unfold vnodeQueryFromCache. cbn [set_read q_over q0 set_toRead]. rewrite Hov. unfold meter. rewrite Ho. cbn [rbind]. by rewrite Hpi, Hz. }
    rewrite Hqz. apply Hnothing; [done|]. unfold cached, first_row. rewrite Hz, Z.sub_0_r.
    pose proof (se_empty _ _ _ Hs Hz). rewrite drop_ge; [done|]. unfold nrows in *. lia. }
  set (qr := set_read 0 (q_sdata q0) (q_len q0) q0).
  destruct (search_spec qr Hasc Hoff ltac:(lia)) as (q1 & Hq1 & Hov1 & Hmet1 & Hsd1 & Hek1 & Hto1 & Hpo1 & Hpr1 & Hasc1 & Hcase).
  change (q_over qr) with (q_over q) in Hov1. rewrite Hov in Hov1.
  rewrite (query_started q0 q1 Hov Hsl Hnz Hq1 Hov1 Hpr1).
  destruct Hcase as [[Hsl1 Hnone]|(k & Hcu & Hfp & Hbef & Hat)].
  - unfold slotless. rewrite Hsl1. apply Hnothing; [done|]. apply filter_none, Forall_lookup_2. intros j r Hj. unfold cached in Hj.
    rewrite lookup_drop in Hj. apply (Hnone (first_row + Z.of_nat j) r); [lia|]. rewrite <- Hj. f_equal. lia.
  - assert (Hsl1 : slotless q1 = false).
    { destruct Hcu as [_ Hslot _ _ Hlive Hpos]. unfold slotless. rewrite Hslot. pose proof (Z.mod_pos_bound (k - 1) (maxBlocks pi) ltac:(lia)).
      apply orb_false_iff. split; apply Z.ltb_ge; lia. }
    rewrite Hsl1.
    destruct (fill_spec bs c G m o pi g Hinv Ho Hpi Hg Hkeyed Hsorted cap (S fuel) 0 q1 k Hcu Hov1) as
      (n & q' & k' & Hfill & Hn0 & Hle & Hcu' & Hpl & _ & _ & Hrows & _ & Hall & Hend); [lia| | |].
    { rewrite Hsd1. exact Hroom. } { pose proof (left_nonneg o pi g q1 k Hcu). lia. }
    assert (Hsame : set_toRead cap 0 q1 = q1) by (destruct q1; cbn in *; by subst).
    cbn [fill_block] in Hfill. rewrite (proj2 (Z.ltb_lt _ _)) in Hfill by lia. rewrite Z.sub_0_r, Hsame in Hfill. rewrite Hfill.
    pose proof (cursor_place bs c G m o pi g Hinv Ho Hpi Hg q' k' Hcu') as Hp'. rewrite Hpl in Hp'.
    rewrite Hek1 in Hall, Hend. change (q_ekey qr) with (q_ekey q) in Hall, Hend.
    pose proof (range_filter q (place_of o q1 k) n Hfp Hfirst Hn0 ltac:(lia) Hbef Hat Hall) as Hfil.
    pose proof (length_rows_from g (place_of o q1 k) n) as Hlen. pose proof (cursor_place bs c G m o pi g Hinv Ho Hpi Hg q1 k Hcu) as Hp1.
    exists n, q'. split; [done|]. split; [lia|]. rewrite Hfil. rewrite length_app.
    split; [rewrite take_app_le, take_ge by lia; exact Hrows|]. split; [lia|].
    destruct (q_over q'); [|lia]. rewrite (filter_none (in_range q)); [cbn; lia|]. apply Forall_lookup_2. intros j r Hj [_ H2].
    rewrite lookup_drop in Hj. destruct (lookup_lt_is_Some_2 (g_rows g) (Z.to_nat (place_of o q1 k + n))) as [x Hx].
    { apply lookup_lt_Some in Hj. lia. }
    pose proof (Hend x Hx). enough (row_key x <= row_key r) by lia.
    apply (key_le g (place_of o q1 k + n) (place_of o q1 k + n + Z.of_nat j)); [done|lia|done|]. rewrite <- Hj. f_equal. lia.
Qed.
End Search.
