(* ===== verification/CacheLife.v ===== *)
(** * The life of a cache

    Batches of rows, then any operations in any order, with what was accepted and what was
    written to the files. *)
From S2P Require Import Prelude KeySearch CachePool CacheInv CacheAlloc CacheInsert CacheQuery CacheScan CacheFlush CacheSearch.

(** * Inserting a batch of rows *)


(** The rows of a batch that are newer than all before them. *)
Fixpoint accepts (last : Z) (rows : list (list Z)) : list (list Z) :=
  match rows with
  | [] => []
  | r :: rows => if row_key r <=? last then accepts last rows else r :: accepts (row_key r) rows
  end.

Definition newest (o : SMeterObj) (g : ghost) : Prop := Forall (fun r => row_key r <= lastKey o) (g_rows g).
Definition rekeyed (m lk : Z) (c c' : cache) : Prop :=
  forall m2, cfg <$> meters c' !! m2 = (if decide (m2 = m) then fun o => cfg (with_lastKey lk o) else cfg) <$> meters c !! m2.

Lemma sorted_push g o r hi : sorted g -> newest o g -> lastKey o < row_key r ->
  sorted (mkG (g_rows g ++ [r]) hi (g_done g) (g_com g)).
Proof.
  intros Hs Hn Hr i j a b Hij Ha Hb. cbn in *. rewrite map_app in Ha, Hb. cbn in Ha, Hb.
  apply lookup_app_Some in Hb as [Hb|[Hlb Hb]].
  - apply (Hs i j a b); [done| |done]. rewrite <- Ha. symmetry. apply lookup_app_l. apply lookup_lt_Some in Hb. lia.
  - assert (b = row_key r) as -> by (destruct (j - _)%nat; [by injection Hb|done]).
    apply lookup_app_Some in Ha as [Ha|[Hla Ha]].
    + apply list_lookup_fmap_Some in Ha as (x & -> & Hx). pose proof (proj1 (Forall_lookup _ _) Hn i x Hx) as Hle. cbn in Hle. lia.
    + apply lookup_lt_Some in Ha. cbn in Ha. destruct (j - _)%nat eqn:Ej; [|done]. lia.
Qed.

Lemma inv_rekey bs c G m o pi g k : inv bs c G -> meters c !! m = Some o -> pCache o = Some pi -> G !! m = Some g ->
  inv bs (set_meter m (with_lastKey k o) c) G.
Proof.
  intros Hinv Ho Hpi Hg. destruct (scan_core bs c G m o pi g Hinv Ho Hpi Hg) as [Hcore Hs].
  pose proof (in_pool _ _ _ Hinv) as Hp. constructor.
  - constructor; unfold totalBlocks; cbn; try apply Hp.
    + intros j b Hj. destruct (po_own _ _ _ Hp j b Hj) as [Hml Hcase]. split; [done|].
      destruct Hcase as [?|[Hid (m2 & o2 & pi2 & g2 & E1 & E2 & E3 & E4 & E5 & E6)]]; [by left|right]. split; [done|].
      unfold owned. cbn. destruct (decide (m = m2)) as [<-|Hmm].
      * exists m, (with_lastKey k o), pi2, g2. rewrite lookup_insert_eq. assert (o2 = o) as -> by congruence. done.
      * exists m2, o2, pi2, g2. rewrite lookup_insert_ne by done. done.
    + intros m2 o2 H2. destruct (decide (m = m2)) as [<-|Hmm].
      * rewrite lookup_insert_eq in H2. injection H2 as <-. cbn. rewrite Hpi. exists g. split; [done|].
        destruct Hcore as [[] ? ? ? Hlive]. constructor; try done. intros k' Hk'. destruct (Hlive k' Hk') as (i & b & ? & ? & Hok).
        exists i, b. split; [done|]. split; [done|]. by destruct Hok.
      * rewrite lookup_insert_ne in H2 by done. by apply (po_meters _ _ _ Hp m2 o2).
    + intros m2 g2 H2. destruct (decide (m = m2)) as [<-|Hmm].
      * rewrite lookup_insert_eq. eauto.
      * rewrite lookup_insert_ne by done. by apply (po_ghost _ _ _ Hp m2 g2).
  - intros m2 o2 pi2 g2 H2 Hpi2 Hg2. cbn in H2. destruct (decide (m = m2)) as [<-|Hmm].
    + rewrite lookup_insert_eq in H2. injection H2 as <-. cbn in Hpi2. assert (pi2 = pi) as -> by congruence.
      assert (g2 = g) as -> by congruence. by destruct Hs.
    + rewrite lookup_insert_ne in H2 by done. by apply (in_settled _ _ _ Hinv m2).
Qed.

Lemma tight_push o g r hi : (hi - 1) * pointsPerBlock o <= nrows g -> tight o (mkG (g_rows g ++ [r]) hi (g_done g) (g_com g)).
Proof. intros H. right. unfold nrows in *. cbn. rewrite length_app. cbn. lia. Qed.

(** What a table is after a batch: [k] of the accepted rows are in, in their order. *)
Record batch_done (bs m : Z) (o : SMeterObj) (g : ghost) (rows : list (list Z)) (c c' : cache) (G : gmap Z ghost) (k : nat) : Prop := {
  bd_len : (k <= length (accepts (lastKey o) rows))%nat;
  bd_key : exists lk hi, (lk = lastKey o \/ exists r, r ∈ rows /\ lk = row_key r) /\ let g' := mkG (g_rows g ++ take k (accepts (lastKey o) rows)) hi (g_done g) (g_com g) in
    g_hi g <= hi /\ rekeyed m lk c c' /\ inv bs c' (<[m := g']> G) /\ sorted g' /\ newest (with_lastKey lk o) g' /\ (tight o g -> tight o g') }.

Lemma batch_nothing bs m o g rows c c' G : inv bs c' G -> same_cfg c c' -> meters c !! m = Some o -> G !! m = Some g ->
  sorted g -> newest o g -> batch_done bs m o g rows c c' G 0.
Proof.
  intros Hinv Hcfg Ho Hg Hs Hn. constructor; [lia|]. exists (lastKey o), (g_hi g). split; [by left|]. rewrite take_0, app_nil_r.
  assert (E : mkG (g_rows g) (g_hi g) (g_done g) (g_com g) = g) by (by destruct g). cbv zeta. rewrite E.
  assert (Eo : with_lastKey (lastKey o) o = o) by (by destruct o). split; [lia|]. split; [|by rewrite insert_id, Eo].
  intros m2. rewrite (Hcfg m2). destruct (decide (m2 = m)) as [->|]; [|done]. rewrite Ho. cbn. by rewrite Eo.
Qed.

Section Batch.
Context (bs m tsKey msPerDay : Z) (deleting : bool).

(** A row is refused as [vnodeAllocateCacheBlock] refuses a block to the table. *)
Lemma insert_rows_spec : forall rows points c G o pi g, inv bs c G -> meters c !! m = Some o -> pCache o = Some pi ->
  G !! m = Some g -> keyed o -> sorted g -> newest o g -> Forall (fun r => Z.of_nat (length r) = row_width (schema o)) rows ->
  nrows g + Z.of_nat (length rows) < 2 ^ 61 ->
  exists code k c', insert_rows m deleting tsKey msPerDay points rows c = Ret (code, points + Z.of_nat k, c') /\
    batch_done bs m o g rows c c' G k /\ (code = 0 -> k = length (accepts (lastKey o) rows)).
Proof.
  induction rows as [|r rows IH]; intros points c G o pi g Hinv Ho Hpi Hg Hk Hs Hn Hw Hmax.
  { exists 0, 0%nat, c. cbn. rewrite Z.add_0_r. split; [done|]. split; [by apply batch_nothing|done]. }
  apply Forall_cons in Hw as [Hw1 Hw]. cbn [length] in Hmax. cbn [insert_rows].
  assert (Hstop : forall code, code <> 0 -> exists code' k c', Ret (code, points, c) = Ret (code', points + Z.of_nat k, c') /\
    batch_done bs m o g (r :: rows) c c' G k /\ (code' = 0 -> k = length (accepts (lastKey o) (r :: rows)))).
  { intros code Hc. exists code, 0%nat, c. rewrite Z.add_0_r. split; [done|]. split; [by apply batch_nothing|done]. }
  destruct deleting; [by apply Hstop|].
  destruct (scan_core bs c G m o pi g Hinv Ho Hpi Hg) as [Hcore Hset].
  pose proof (ge_schema _ _ (co_geo _ _ _ _ _ _ Hcore)) as Hsch.
  assert (Hrd : rd r 0 8 = Ret (take 8 r)).
  { destruct Hk as [cols Hcols]. rewrite Hcols in Hsch, Hw1. apply Forall_cons in Hsch as [_ Hsch].
    pose proof (row_width_nonneg cols Hsch). cbn in Hw1. fold (row_width cols) in Hw1. unfold TSDB_KEYSIZE in Hw1.
    unfold rd. by rewrite bool_decide_true by lia. }
  rewrite Hrd. cbn [rbind]. unfold meter at 1. rewrite Ho. cbn [rbind]. fold (row_key r). cbn [accepts].
  destruct (Z.leb_spec (row_key r) (lastKey o)) as [Hold|Hnew].
  { destruct (IH points c G o pi g Hinv Ho Hpi Hg Hk Hs Hn Hw ltac:(lia)) as (code & k & c' & Hr & [Hl Hd] & Hall).
    exists code, k, c'. split; [done|]. split; [|done]. constructor; cbn [accepts]; rewrite (proj2 (Z.leb_le _ _)) by lia; [done|].
    destruct Hd as (lk & hi & Hlk & Hd). exists lk, hi. split; [|done]. destruct Hlk as [?|(x & ? & ?)]; [by left|right]. exists x. split; [by right|done]. }
  assert (Hskip : accepts (lastKey o) (r :: rows) = r :: accepts (row_key r) rows).
  { cbn. by rewrite (proj2 (Z.leb_gt _ _)) by lia. }
  destruct (negb (valid_timestamp _ _ _)).
  { destruct (Hstop TSDB_CODE_TIMESTAMP_OUT_OF_RANGE) as (code & k & c' & ? & ? & Hall); [done|]. rewrite Hskip in Hall. eauto 8. }
  destruct (cache_insert_spec bs c G m o pi g r Hinv Ho Hpi Hg Hw1 ltac:(lia)) as (code & c1 & -> & Hcfg & [(-> & Hinv1 & _)|(-> & hi & Hhi0 & Hhi & Hinv1)]);
    cbn [rbind Z.ltb Z.compare].
  { exists TSDB_CODE_ACTION_IN_PROGRESS, 0%nat, c1. rewrite Z.add_0_r. split; [done|]. split; [|done].
    by apply batch_nothing. }
  set (g1 := mkG (g_rows g ++ [r]) hi (g_done g) (g_com g)) in *.
  destruct (core_meter bs c1 _ m g1 (in_pool _ _ _ Hinv1) (lookup_insert_eq _ _ _)) as (o1 & pi1 & Ho1 & Hpi1 & Hcore1).
  unfold meter. rewrite Ho1. cbn [rbind]. set (c2 := set_meter m (with_lastKey (row_key r) o1) c1).
  pose proof (inv_rekey bs c1 _ m o1 pi1 g1 (row_key r) Hinv1 Ho1 Hpi1 (lookup_insert_eq _ _ _)) as Hinv2. fold c2 in Hinv2.
  pose proof (Hcfg m) as Hcm. rewrite Ho, Ho1 in Hcm. unfold cfg in Hcm. cbn in Hcm. injection Hcm as Es Eb Ef Ep El Em.
  destruct (IH (points + 1) c2 _ (with_lastKey (row_key r) o1) pi1 g1 Hinv2) as (code & k & c' & Hrun & [Hlen (lk & hi' & Hlk & Hhi' & Hre & Hinv' & Hs' & Hn' & Ht')] & Hall).
  { cbn. apply lookup_insert_eq. } { done. } { apply lookup_insert_eq. } { unfold keyed. cbn. by rewrite Es. }
  { by apply (sorted_push g o). }
  { unfold newest. cbn. apply Forall_app. split; [|by apply Forall_singleton].
    eapply Forall_impl; [exact Hn|]. intros x Hx. cbn in Hx. lia. }
  { cbn. by rewrite Es. } { unfold nrows in *. cbn. rewrite length_app. cbn. lia. }
  cbn [with_lastKey lastKey] in *. exists code, (S k), c'.
  split; [rewrite Hrun; do 3 f_equal; lia|]. split.
  - constructor; rewrite Hskip; [cbn; lia|]. exists lk, hi'. split.
    { destruct Hlk as [->|(x & ? & ->)]; right; [exists r|exists x]; (split; [|done]); [by left|by right]. }
    cbn [take]. cbn [g1 g_rows g_done g_com] in *.
    rewrite <- app_assoc in *. cbn [app] in *. rewrite insert_insert_eq in Hinv'. split; [cbn in Hhi'; lia|]. split; [|split; [done|split; [done|split]]].
    + intros m2. rewrite (Hre m2). cbn. destruct (decide (m2 = m)) as [->|Hne].
      * rewrite lookup_insert_eq, Ho. cbn. unfold cfg. cbn. by rewrite Es, Eb, Ef, Ep, Em.
      * rewrite lookup_insert_ne by done. apply Hcfg.
    + exact Hn'.
    + intros _. unfold tight in *. cbn in *. rewrite Ep in Ht'. apply Ht'. right. unfold nrows in *. cbn. rewrite length_app. cbn. lia.
  - intros ->. cbn. by rewrite Hall.
Qed.

(** A batch is refused, or its rows that are newer than those of the table go into
    the cache one by one until one is refused. *)
Lemma insert_points_spec rows c G o pi g : inv bs c G -> meters c !! m = Some o -> pCache o = Some pi ->
  G !! m = Some g -> keyed o -> sorted g -> newest o g -> Forall (fun r => Z.of_nat (length r) = row_width (schema o)) rows ->
  nrows g + Z.of_nat (length rows) < 2 ^ 61 ->
  exists code k c', insert_points m deleting tsKey msPerDay rows c = Ret (code, Z.of_nat k, c') /\
    batch_done bs m o g rows c c' G k /\ (code = 0 -> k = length (accepts (lastKey o) rows)).
Proof.
  intros Hinv Ho Hpi Hg Hk Hs Hn Hw Hmax. unfold insert_points, meter. rewrite Ho. cbn [rbind].
  destruct (_ <=? Z.of_nat (length rows)).
  { exists TSDB_CODE_BATCH_SIZE_TOO_BIG, 0%nat, c. split; [done|]. split; [by apply batch_nothing|done]. }
  destruct (_ || _).
  { destruct (inv_commit_thread bs c G Hinv) as [Hi Hst].
    eexists TSDB_CODE_ACTION_IN_PROGRESS, 0%nat, _. split; [reflexivity|]. split; [|done].
    by apply batch_nothing. }
  destruct (insert_rows_spec rows 0 c G o pi g Hinv Ho Hpi Hg Hk Hs Hn Hw Hmax) as (code & k & c' & Hr & Hd & Hall).
  by exists code, k, c'.
Qed.
End Batch.

(** * The life of the cache of a vnode

    Tables are made and dropped, batches are inserted, and commits read tables and
    are over later, in any order.  What the files have and what the next commit
    would read are together the rows that were accepted. *)


(** ** Steps

    [w_pend] is the slot and the position of the commits that read the table and
    are not over; [w_in] are the rows that were accepted and [w_file] those that
    were written, since the cache of the table was made. *)
Record world := mkWorld { w_cache : cache; w_pend : gmap Z (Z * Z); w_in : gmap Z (list (list Z)); w_file : gmap Z (list (list Z)) }.
Definition rows_at (t : gmap Z (list (list Z))) (m : Z) : list (list Z) := default [] (t !! m).

Inductive op :=
| Create (m : Z) (pNew : SMeterObj)
| Insert (m : Z) (deleting : bool) (tsKey msPerDay : Z) (rows : list (list Z))
| Flush (m skey ekey : Z) (last : list (list Z)) (sdata : list (list Z))
| Over (m cnt : Z)
| Drop_table (m : Z).

Definition step (x : op) (w : world) : res world :=
  match x with
  | Create m pNew =>
    match meters (w_cache w) !! m with
    | Some _ => Ret w
    | None =>
      let! c := vnodeAllocateCacheInfo m (set_meter m pNew (w_cache w)) in
      Ret (mkWorld c (w_pend w) (<[m := []]> (w_in w)) (<[m := []]> (w_file w)))
    end
  | Insert m deleting tsKey msPerDay rows =>
    match meters (w_cache w) !! m with
    | None => Ret w
    | Some o =>
      let! '(_, points, c) := insert_points m deleting tsKey msPerDay rows (w_cache w) in
      let accepted := take (Z.to_nat points) (accepts (lastKey o) rows) in
      Ret (mkWorld c (w_pend w) (<[m := rows_at (w_in w) m ++ accepted]> (w_in w)) (w_file w))
    end
  | Flush m skey ekey last sdata =>
    match meters (w_cache w) !! m, w_pend w !! m with
    | Some o, None =>
      let! '(bls, n, q) := commit_table m skey ekey (Z.of_nat (length last)) sdata (w_cache w) in
      let! rows := written (schema o) bls in
      Ret (mkWorld (w_cache w) (if 0 <? n then <[m := (q_slot q, q_pos q)]> (w_pend w) else w_pend w) (w_in w)
             (<[m := rows_at (w_file w) m ++ drop (length last) rows]> (w_file w)))
    | _, _ => Ret w
    end
  | Over m cnt =>
    match w_pend w !! m with
    | None => Ret w
    | Some (s, p) =>
      let! c := vnodeUpdateCommitInfo m s p cnt (w_cache w) in Ret (mkWorld c (delete m (w_pend w)) (w_in w) (w_file w))
    end
  | Drop_table m =>
    match meters (w_cache w) !! m with
    | None => Ret w
    | Some _ =>
      let! c := vnodeFreeCacheInfo m (w_cache w) in
      Ret (mkWorld (mkCache (pool c) (delete m (meters c))) (delete m (w_pend w)) (delete m (w_in w)) (delete m (w_file w)))
    end
  end.

(** What the rest of the vnode sees to: a new table has a key and fits its block;
    rows are as wide as the columns, and less than 2^61; the buffers of a commit
    have room for a block of the file, and the rows of its last block in them. *)
Definition op_ok (x : op) (w : world) : Prop :=
  match x with
  | Create m pNew => pCache pNew = None /\ keyed pNew /\
      sizes (cacheBlockSize (pool (w_cache w))) (blocksPerMeter (pool (w_cache w))) pNew
  | Insert m deleting tsKey msPerDay rows => forall o, meters (w_cache w) !! m = Some o ->
      Forall (fun r => Z.of_nat (length r) = row_width (schema o)) rows /\
      Z.of_nat (length (rows_at (w_in w) m)) + Z.of_nat (length rows) < 2 ^ 61
  | Flush m skey ekey last sdata => forall o, meters (w_cache w) !! m = Some o ->
      room (schema o) (pointsPerFileBlock o) sdata /\ out_rows (schema o) sdata 0 last /\
      Z.of_nat (length last) < pointsPerFileBlock o
  | Over _ _ | Drop_table _ => True
  end.

Inductive reachable (w0 : world) : world -> Prop :=
| reach_start : reachable w0 w0
| reach_step w x w' : reachable w0 w -> op_ok x w -> step x w = Ret w' -> reachable w0 w'.

Definition opened (p : SCachePool) : world := mkWorld (mkCache p ∅) ∅ ∅ ∅.

(** ** The invariant *)
Record table_ok (w : world) (m : Z) (o : SMeterObj) (pi : SCacheInfo) (g : ghost) : Prop := {
  tb_keyed : keyed o;
  tb_sorted : sorted g;
  tb_newest : newest o g;
  tb_tight : tight o g;
  tb_file : 1 <= pointsPerFileBlock o;
  tb_in : w_in w !! m = Some (g_rows g);
  tb_out : match w_pend w !! m with
    | None => w_file w !! m = Some (take (Z.to_nat (g_com g)) (g_rows g))
    | Some (s, p) => exists kt, let com := (kt - 1) * pointsPerBlock o + p in
        1 <= kt <= g_hi g /\ s = (kt - 1) mod maxBlocks pi /\ 0 <= p <= pointsPerBlock o /\ g_com g < com <= nrows g /\
        w_file w !! m = Some (take (Z.to_nat com) (g_rows g))
    end }.

Record winv (bs pm : Z) (w : world) (G : gmap Z ghost) : Prop := {
  wi_inv : inv bs (w_cache w) G;
  wi_size : cacheBlockSize (pool (w_cache w)) = bs;
  wi_max : blocksPerMeter (pool (w_cache w)) = pm;
  wi_tables : forall m o, meters (w_cache w) !! m = Some o -> exists pi g, pCache o = Some pi /\ G !! m = Some g /\ table_ok w m o pi g;
  wi_none : forall m, meters (w_cache w) !! m = None -> w_pend w !! m = None }.

Lemma table_frame w w' m o o' pi pi' g : table_ok w m o pi g -> pCache o = Some pi -> pCache o' = Some pi' -> cfg o' = cfg o ->
  w_pend w' !! m = w_pend w !! m -> w_in w' !! m = w_in w !! m -> w_file w' !! m = w_file w !! m -> table_ok w' m o' pi' g.
Proof.
  intros [] Hpi Hpi' Hcfg Ep Ei Ef. unfold cfg in Hcfg. rewrite Hpi, Hpi' in Hcfg. cbn in Hcfg. injection Hcfg as Es Eb Efb Eppb El Em.
  unfold keyed, newest, tight in *. constructor; unfold keyed, newest, tight; rewrite ?Es, ?El, ?Eppb, ?Efb, ?Ep, ?Ei, ?Ef, ?Em; done.
Qed.

(** A step is of one table; the others are as they were. *)
Lemma winv_frame bs pm w w' G G' m : winv bs pm w G -> inv bs (w_cache w') G' -> pcfg (w_cache w') = pcfg (w_cache w) ->
  (forall m2, m2 <> m -> G' !! m2 = G !! m2 /\ cfg <$> meters (w_cache w') !! m2 = cfg <$> meters (w_cache w) !! m2 /\
     w_pend w' !! m2 = w_pend w !! m2 /\ w_in w' !! m2 = w_in w !! m2 /\ w_file w' !! m2 = w_file w !! m2) ->
  match meters (w_cache w') !! m with
  | Some o' => exists pi' g', pCache o' = Some pi' /\ G' !! m = Some g' /\ table_ok w' m o' pi' g'
  | None => w_pend w' !! m = None
  end -> winv bs pm w' G'.
Proof.
  intros [Hinv Hsize Hmax Htables Hnone] Hinv' Hcfg Hothers Hm. unfold pcfg in Hcfg. injection Hcfg as _ _ Ebs Epm.
  constructor; [done|congruence|congruence| |].
  - intros m2 o2 H2. destruct (decide (m2 = m)) as [->|Hne]; [by rewrite H2 in Hm|].
    destruct (Hothers m2 Hne) as (EG & Ecfg & Ep & Ei & Ef). rewrite H2 in Ecfg.
    destruct (meters (w_cache w) !! m2) as [o|] eqn:Ho; [|done]. cbn in Ecfg. apply (inj Some) in Ecfg.
    destruct (Htables m2 o Ho) as (pi & g & Hpi & Hg & Htab).
    assert (Emax : maxBlocks <$> pCache o2 = maxBlocks <$> pCache o) by (by injection Ecfg).
    rewrite Hpi in Emax. destruct (pCache o2) as [pi2|] eqn:Hpi2; [|done]. exists pi2, g. split; [done|]. split; [congruence|].
    by eapply table_frame.
  - intros m2 H2. destruct (decide (m2 = m)) as [->|Hne]; [by rewrite H2 in Hm|].
    destruct (Hothers m2 Hne) as (EG & Ecfg & Ep & Ei & Ef). rewrite H2 in Ecfg. rewrite Ep. apply Hnone.
    by destruct (meters (w_cache w) !! m2).
Qed.

(** The columns and the size of the blocks in the files. *)
Definition shape (o : SMeterObj) : list Z * Z := (schema o, pointsPerFileBlock o).
Definition same_shapes (w w' : world) : Prop := forall m, shape <$> meters (w_cache w') !! m = shape <$> meters (w_cache w) !! m.

(** The newest key of a table changes only to that of a row of [rows]. *)
Definition keys_from (rows : list (list Z)) (w w' : world) : Prop := forall m o', meters (w_cache w') !! m = Some o' ->
  exists o, meters (w_cache w) !! m = Some o /\ (lastKey o' = lastKey o \/ exists r, r ∈ rows /\ lastKey o' = row_key r).

Section Steps.
Context (bs pm : Z) (w : world) (G : gmap Z ghost) (Hw : winv bs pm w G).

Lemma create_step m pNew : op_ok (Create m pNew) w -> exists w' G', step (Create m pNew) w = Ret w' /\ winv bs pm w' G'.
Proof using Hw.
  intros (Hnone & Hkey & Hsizes). destruct Hw as [Hinv Hsize Hmax Htables Hnp]. cbn [step].
  destruct (meters (w_cache w) !! m) as [o|] eqn:Ho; [by exists w, G|].
  assert (Hgm : G !! m = None).
  { destruct (G !! m) as [g|] eqn:Hg; [|done]. destruct (po_ghost _ _ _ (in_pool _ _ _ Hinv) m g Hg) as (o & pi & Ho' & _). congruence. }
  assert (Hinv0 : inv bs (set_meter m pNew (w_cache w)) G).
  { pose proof (in_pool _ _ _ Hinv) as Hp. constructor.
    - constructor; unfold totalBlocks; cbn; try apply Hp.
      + intros j b Hj. destruct (po_own _ _ _ Hp j b Hj) as [Hml Hcase]. split; [done|].
        destruct Hcase as [?|[Hid (m2 & o2 & pi2 & g2 & E1 & E2 & E3)]]; [by left|right]. split; [done|].
        exists m2, o2, pi2, g2. cbn. rewrite lookup_insert_ne by congruence. done.
      + intros m2 o2 H2. destruct (decide (m = m2)) as [<-|Hmm].
        * rewrite lookup_insert_eq in H2. injection H2 as <-. by rewrite Hnone.
        * rewrite lookup_insert_ne in H2 by done. by apply (po_meters _ _ _ Hp m2 o2).
      + intros m2 g2 H2. rewrite lookup_insert_ne by congruence. by apply (po_ghost _ _ _ Hp m2 g2).
    - intros m2 o2 pi2 g2 H2 Hpi2 Hg2. cbn in H2. rewrite lookup_insert_ne in H2 by congruence. by apply (in_settled _ _ _ Hinv m2). }
  destruct (create_spec bs (set_meter m pNew (w_cache w)) G m pNew Hinv0) as (c' & Hc & Hinv' & Hpool & o' & Hm' & Es & Hpi & Efb & Eb);
    [apply lookup_insert_eq|done|done|by rewrite <- Hsize|].
  rewrite Hc. cbn [rbind]. eexists _, _. split; [reflexivity|].
  eapply (winv_frame bs pm w _ G _ m); [done|exact Hinv'| | |]; cbn [w_cache w_pend w_in w_file].
  - unfold pcfg. by rewrite Hpool.
  - intros m2 Hne. rewrite Hm'. cbn. rewrite !lookup_insert_ne by done. done.
  - rewrite Hm', lookup_insert_eq. destruct (pCache o') as [pi'|] eqn:Hpi'; [|done]. exists pi', (mkG [] 0 0 0).
    rewrite lookup_insert_eq. split; [done|]. split; [done|]. destruct Hsizes. constructor; cbn.
    + unfold keyed. by rewrite Es.
    + intros i j a b Hij Ha. by destruct i.
    + by constructor.
    + by left.
    + lia.
    + apply lookup_insert_eq.
    + rewrite (Hnp m Ho). apply lookup_insert_eq.
Qed.

Lemma insert_step m deleting tsKey msPerDay rows : op_ok (Insert m deleting tsKey msPerDay rows) w ->
  exists w' G', step (Insert m deleting tsKey msPerDay rows) w = Ret w' /\ same_shapes w w' /\ keys_from rows w w' /\ winv bs pm w' G'.
Proof using Hw.
  intros Hok. cbn [step]. destruct (meters (w_cache w) !! m) as [o|] eqn:Ho; [|exists w, G; do 2 (split; [done|]); split; [intros x y Hy; exists y; by split; [|left]|done]].
  destruct (Hok o Ho) as [Hwidth Hmax].
  pose proof (wi_inv _ _ _ _ Hw) as Hinv. destruct (wi_tables _ _ _ _ Hw m o Ho) as (pi & g & Hpi & Hg & Htab). destruct Htab as [].
  unfold rows_at in Hmax |- *. rewrite tb_in0 in *. cbn [default] in *.
  destruct (insert_points_spec bs m tsKey msPerDay deleting rows (w_cache w) G o pi g Hinv Ho Hpi Hg) as
    (code & k & c' & Hins & [Hlen (lk & hi & Hlk & Hhi & Hre & Hinv' & Hs' & Hn' & Ht')] & _); try done.
  rewrite Hins. cbn [rbind]. rewrite Nat2Z.id. eexists _, _. split; [reflexivity|]. split.
  { intros m2. specialize (Hre m2). cbn [w_cache]. apply (f_equal (fmap (fun x => (x.1.1.1.1.1, x.1.1.1.2)))) in Hre. rewrite <- !option_fmap_compose in Hre.
    destruct (decide (m2 = m)); exact Hre. }
  split.
  { intros m2 o2 H2. specialize (Hre m2). cbn [w_cache] in H2. rewrite H2 in Hre. cbn in Hre.
    assert (Hlast : forall x y, cfg x = cfg y -> lastKey x = lastKey y) by (intros x y E; unfold cfg in E; by injection E).
    destruct (meters (w_cache w) !! m2) as [y|] eqn:Hy; [|by destruct (decide _)]. exists y. split; [done|].
    destruct (decide (m2 = m)) as [->|]; cbn in Hre; apply (inj Some), Hlast in Hre; rewrite Hre; [|by left]. cbn. assert (y = o) as -> by congruence. exact Hlk. }
  set (acc := take k _) in *.
  set (g' := mkG _ _ _ _) in *.
  destruct (core_meter bs c' _ m g' (in_pool _ _ _ Hinv') (lookup_insert_eq _ _ _)) as (o' & pi' & Ho' & Hpi' & Hcore').
  pose proof (Hre m) as Hrm. rewrite decide_True, Ho, Ho' in Hrm by done. cbn in Hrm. unfold cfg in Hrm. rewrite Hpi' in Hrm. cbn in Hrm.
  rewrite Hpi in Hrm. injection Hrm as Es Eb Ef Ep El Em.
  eapply (winv_frame bs pm w _ G _ m); [done|exact Hinv'| | |]; cbn [w_cache w_pend w_in w_file].
  - by eapply insert_points_pcfg.
  - intros m2 Hne. rewrite !lookup_insert_ne by done. split; [done|]. split; [|done]. rewrite (Hre m2). by rewrite decide_False.
  - rewrite Ho'. exists pi', g'. rewrite lookup_insert_eq. split; [done|]. split; [done|].
    assert (Hpre : take (Z.to_nat (g_com g)) (g_rows g ++ acc) = take (Z.to_nat (g_com g)) (g_rows g)).
    { apply take_app_le. destruct (se_com _ _ _ (in_settled _ _ _ Hinv m o pi g Ho Hpi Hg)) as [Hc _]. unfold nrows in Hc. lia. }
    constructor; cbn [w_in w_pend w_file].
    + unfold keyed. by rewrite Es.
    + done.
    + unfold newest in *. cbn in Hn' |- *. by rewrite El.
    + unfold tight in *. rewrite Ep. by apply Ht'.
    + lia.
    + apply lookup_insert_eq.
    + rewrite Em, Ep. cbn [g' g_com g_rows g_hi]. destruct (w_pend w !! m) as [[s p]|].
      * destruct tb_out0 as (kt & H1 & H2 & H3 & H4 & H5). exists kt. cbv zeta.
        destruct (core_block _ _ _ _ _ _ (in_pool _ _ _ Hinv) Ho Hpi) as (g0 & Hg0 & Hcore). assert (g0 = g) as -> by congruence.
        pose proof (ge_ppb _ _ (co_geo _ _ _ _ _ _ Hcore)). pose proof (ge_ppb _ _ (co_geo _ _ _ _ _ _ Hcore')).
        pose proof (se_rows _ _ _ (in_settled _ _ _ Hinv' m o' pi' g' Ho' Hpi' (lookup_insert_eq _ _ _))) as Hrows'.
        rewrite Ep in Hrows'. cbn [g' g_hi] in Hrows'. pose proof (se_rows _ _ _ (in_settled _ _ _ Hinv m o pi g Ho Hpi Hg)) as Hrows.
        assert (Hnr : nrows g <= nrows g') by (unfold nrows; cbn; rewrite length_app; lia).
        assert (Hcom : 0 <= (kt - 1) * pointsPerBlock o) by (apply Z.mul_nonneg_nonneg; lia).
        split; [lia|]. split; [done|]. split; [done|]. split; [lia|].
        rewrite take_app_le by (unfold nrows in H4; lia). done.
      * by rewrite Hpre.
Qed.

Lemma flush_step m skey ekey L sdata : op_ok (Flush m skey ekey L sdata) w ->
  exists w' G', step (Flush m skey ekey L sdata) w = Ret w' /\ winv bs pm w' G'.
Proof using Hw.
  intros Hok. cbn [step]. destruct (meters (w_cache w) !! m) as [o|] eqn:Ho; [|by exists w, G].
  destruct (w_pend w !! m) as [sp|] eqn:Hp; [by exists w, G|]. destruct (Hok o Ho) as (Hroom & Hrows & HL).
  pose proof (wi_inv _ _ _ _ Hw) as Hinv. destruct (wi_tables _ _ _ _ Hw m o Ho) as (pi & g & Hpi & Hg & Htab).
  pose proof Htab as []. rewrite Hp in tb_out0.
  destruct (commit_table_spec bs (w_cache w) G m o pi g Hinv Ho Hpi Hg tb_keyed0 tb_sorted0 skey ekey L sdata tb_tight0 HL Hroom Hrows)
    as (bls & n & q & -> & Hwr & Hn & Hle & _ & _ & Hend & _).
  cbn [rbind]. rewrite Hwr. cbn [rbind]. rewrite drop_app_length. unfold rows_at. rewrite tb_out0. cbn [default].
  destruct (se_com _ _ _ (in_settled _ _ _ Hinv m o pi g Ho Hpi Hg)) as [Hcom _].
  assert (Hfile : take (Z.to_nat (g_com g)) (g_rows g) ++ rows_from g (g_com g) n = take (Z.to_nat (g_com g + n)) (g_rows g)).
  { unfold rows_from. rewrite Z2Nat.inj_add by lia. pose proof (take_add_drop (g_rows g) (Z.to_nat (g_com g)) (Z.to_nat n) 0) as E.
    rewrite drop_0 in E. by rewrite E. }
  unfold id. rewrite Hfile.
  eexists _, G. split; [reflexivity|]. eapply (winv_frame bs pm w _ G G m); [done|done|done| |]; cbn [w_cache w_pend w_in w_file].
  - intros m2 Hne. rewrite lookup_insert_ne by done. do 2 (split; [done|]). split; [|done].
    destruct (0 <? n); [by rewrite lookup_insert_ne|done].
  - rewrite Ho. exists pi, g. split; [done|]. split; [done|]. constructor; cbn [w_in w_pend w_file]; try done.
    rewrite lookup_insert_eq. destruct (Z.ltb_spec 0 n) as [Hpos|Hz].
    + destruct (Hend Hpos) as (k & Hk & Hs & Hq & Hpl). rewrite lookup_insert_eq. exists k. cbv zeta. rewrite Hpl.
      split; [done|]. split; [done|]. split; [done|]. split; [lia|done].
    + rewrite Hp. do 3 f_equal. lia.
Qed.

Lemma over_step m cnt : exists w' G', step (Over m cnt) w = Ret w' /\ same_shapes w w' /\ keys_from [] w w' /\ winv bs pm w' G'.
Proof using Hw.
  cbn [step]. destruct (w_pend w !! m) as [[s p]|] eqn:Hp; [|exists w, G; do 2 (split; [done|]); split; [intros x y Hy; exists y; by split; [|left]|done]].
  pose proof (wi_inv _ _ _ _ Hw) as Hinv. destruct (meters (w_cache w) !! m) as [o|] eqn:Ho.
  2:{ pose proof (wi_none _ _ _ _ Hw m Ho). congruence. }
  destruct (wi_tables _ _ _ _ Hw m o Ho) as (pi & g & Hpi & Hg & Htab). pose proof Htab as []. rewrite Hp in tb_out0.
  destruct tb_out0 as (kt & Hkt & -> & Hpr & Hcom & Hfile).
  destruct (update_commit_spec bs (w_cache w) G m o pi g kt p cnt Hinv Ho Hpi Hg Hkt Hpr Hcom) as (c' & Hc & Hcfg & Hinv').
  rewrite Hc. cbn [rbind]. eexists _, _. split; [reflexivity|]. split.
  { intros m2. specialize (Hcfg m2). apply (f_equal (fmap (fun x => (x.1.1.1.1.1, x.1.1.1.2)))) in Hcfg. rewrite <- !option_fmap_compose in Hcfg. exact Hcfg. }
  split.
  { intros m2 o2 H2. specialize (Hcfg m2). cbn [w_cache] in H2. rewrite H2 in Hcfg. destruct (meters (w_cache w) !! m2) as [y|] eqn:Hy; [|done]. exists y. split; [done|left].
    cbn in Hcfg. apply (inj Some) in Hcfg. unfold cfg in Hcfg. by injection Hcfg. }
  set (g' := mkG _ _ _ _) in *.
  eapply (winv_frame bs pm w _ G _ m); [done|exact Hinv'| | |]; cbn [w_cache w_pend w_in w_file].
  - by eapply update_commit_pcfg.
  - intros m2 Hne. rewrite lookup_insert_ne, lookup_delete_ne by done. split; [done|]. by split; [apply Hcfg|].
  - destruct (core_meter bs c' _ m g' (in_pool _ _ _ Hinv') (lookup_insert_eq _ _ _)) as (o' & pi' & Ho' & Hpi' & Hcore').
    rewrite Ho'. exists pi', g'. rewrite lookup_insert_eq. split; [done|]. split; [done|].
    pose proof (Hcfg m) as Hm. rewrite Ho, Ho' in Hm. cbn in Hm. apply (inj Some) in Hm.
    set (w1 := mkWorld c' ∅ (w_in w) (w_file w)).
    assert (Ht1 : table_ok (mkWorld c' (w_pend w) (w_in w) (w_file w)) m o' pi' g) by (by eapply (table_frame w)).
    destruct Ht1 as [? ? ? ? ? ? ?]. constructor; try done. cbn. by rewrite lookup_delete_eq.
Qed.

Lemma drop_step m : exists w' G', step (Drop_table m) w = Ret w' /\ winv bs pm w' G'.
Proof using Hw.
  cbn [step]. destruct (meters (w_cache w) !! m) as [o|] eqn:Ho; [|by exists w, G].
  pose proof (wi_inv _ _ _ _ Hw) as Hinv.
  destruct (cache_drop_spec bs (w_cache w) G m o Hinv Ho) as (c' & Hc & Hcfg & Hinv' & o' & Ho' & Hnone).
  rewrite Hc. cbn [rbind]. eexists _, (delete m G). split; [reflexivity|].
  eapply (winv_frame bs pm w _ G _ m); [done| | | |]; cbn [w_cache w_pend w_in w_file meters].
  - pose proof (in_pool _ _ _ Hinv') as Hp. constructor.
    + constructor; unfold totalBlocks; cbn; try apply Hp.
      * intros j b Hj. destruct (po_own _ _ _ Hp j b Hj) as [Hml Hcase]. split; [done|].
        destruct Hcase as [?|[Hid (m2 & o2 & pi2 & g2 & E1 & E2 & E3 & E4)]]; [by left|right]. split; [done|].
        exists m2, o2, pi2, g2. cbn. rewrite lookup_delete_ne by congruence. done.
      * intros m2 o2 H2. apply lookup_delete_Some in H2 as [_ H2]. by apply (po_meters _ _ _ Hp m2 o2).
      * intros m2 g2 H2. rewrite lookup_delete_ne; [by apply (po_ghost _ _ _ Hp m2 g2)|]. intros ->. by rewrite lookup_delete_eq in H2.
    + intros m2 o2 pi2 g2 H2 Hpi2 Hg2. cbn in H2. apply lookup_delete_Some in H2 as [_ H2]. by apply (in_settled _ _ _ Hinv' m2).
  - etransitivity; [|by eapply free_info_pcfg]. done.
  - intros m2 Hne. rewrite !lookup_delete_ne by done. split; [done|]. by split; [apply Hcfg|].
  - rewrite lookup_delete_eq. apply lookup_delete_eq.
Qed.

Lemma any_step x : op_ok x w -> exists w' G', step x w = Ret w' /\ winv bs pm w' G'.
Proof using Hw.
  intros Hok. destruct x as [m o|m d ts ms rows|m sk ek L sd|m cnt|m].
  - by apply create_step.
  - destruct (insert_step m d ts ms rows Hok) as (w' & G' & H1 & _ & _ & H2). by exists w', G'.
  - by apply flush_step.
  - destruct (over_step m cnt) as (w' & G' & H1 & _ & _ & H2). by exists w', G'.
  - by apply drop_step.
Qed.
End Steps.

(** ** The pool as it is opened *)
Lemma nf_count_filter l : nf_count l = Z.of_nat (length (filter (fun b => notFree b = true) l)).
Proof.
  induction l as [|b l IH]; [done|]. cbn [nf_count]. rewrite IH. destruct (notFree b) eqn:E.
  - rewrite filter_cons_True by done. cbn. lia.
  - rewrite filter_cons_False by (by rewrite E). lia.
Qed.

Lemma nf_count_fresh n bs : nf_count (replicate n (zero_block bs)) = 0.
Proof. induction n as [|n IH]; [done|]. cbn in *. lia. Qed.

Lemma opened_ok bs total pm p : vnodeOpenCachePool bs total pm = Some p -> 0 < bs -> 0 < total < 2 ^ 30 -> winv bs pm (opened p) ∅.
Proof.
  unfold vnodeOpenCachePool. destruct (_ <? 1); [done|]. intros [= <-] Hbs Ht. constructor; cbn; try done.
  constructor; [|done]. constructor; unfold totalBlocks; cbn; rewrite ?length_replicate; try done; try lia.
  - pose proof (Z.quot_pos (total * 6) 10 ltac:(lia) ltac:(lia)). pose proof (Z.quot_lt_upper_bound (total * 6) 10 total ltac:(lia) ltac:(lia)).
    lia.
  - by rewrite nf_count_fresh.
  - intros i b Hb. apply lookup_replicate in Hb as [-> _]. cbn. rewrite length_replicate. split; [lia|]. by left.
Qed.

Lemma reachable_ok bs total pm p w : vnodeOpenCachePool bs total pm = Some p -> 0 < bs -> 0 < total < 2 ^ 30 ->
  reachable (opened p) w -> exists G, winv bs pm w G.
Proof.
  intros Hp Hbs Ht. induction 1 as [|w x w' _ [G Hw] Hok Hs]; [exists ∅; by eapply opened_ok|].
  destruct (any_step bs pm w G Hw x Hok) as (w1 & G1 & Hs1 & Hw1). rewrite Hs in Hs1. injection Hs1 as <-. by exists G1.
Qed.

Section Reachable.
Context (bs total pm : Z) (p : SCachePool) (Hp : vnodeOpenCachePool bs total pm = Some p) (Hbs : 0 < bs) (Ht : 0 < total < 2 ^ 30).

(** C11.  Every step of the cache whose operands are in order ([op_ok]) is defined, whatever
    such steps came before it: no access is out of bounds, no assertion fails, no loop runs
    on.  In order means: the tables have fewer than 2^15 rows in a block of a file and a block
    of the cache holds a header and a row ([sizes]; [mgmtCheckDbParams] admits others, for
    which [CacheDemo.wide_table_overruns] and [CacheDemo.short_rows_out_of_block] are
    accesses out of the block), rows are as wide as their table, the buffers of a commit
    have room, and a table has had fewer than 2^61 rows. *)
Theorem cache_step_defined w x : reachable (opened p) w -> op_ok x w -> exists w', step x w = Ret w'.
Proof using Hp Hbs Ht.
  intros Hr Hok. destruct (reachable_ok bs total pm p w Hp Hbs Ht Hr) as [G Hw].
  destruct (any_step bs pm w G Hw x Hok) as (w' & G' & Hs & _). by exists w'.
Qed.

(** C5.  The rows of the files and those that a commit would read next are the rows that
    were accepted, in their order; these have increasing keys. *)
Theorem cache_no_loss w m o sdata : reachable (opened p) w -> meters (w_cache w) !! m = Some o -> w_pend w !! m = None ->
  room (schema o) (pointsPerFileBlock o) sdata ->
  exists bls n q rest, commit_table m (- 2 ^ 63) (2 ^ 63 - 1) 0 sdata (w_cache w) = Ret (bls, n, q) /\
    written (schema o) bls = Ret rest /\ rows_at (w_file w) m ++ rest = rows_at (w_in w) m /\
    increasing (map row_key (rows_at (w_in w) m)).
Proof using Hp Hbs Ht.
  intros Hr Ho Hpend Hroom. destruct (reachable_ok bs total pm p w Hp Hbs Ht Hr) as [G Hw]. pose proof (wi_inv _ _ _ _ Hw) as Hinv.
  destruct (wi_tables _ _ _ _ Hw m o Ho) as (pi & g & Hpi & Hg & []). rewrite Hpend in tb_out0.
  destruct (commit_table_spec bs (w_cache w) G m o pi g Hinv Ho Hpi Hg tb_keyed0 tb_sorted0 (- 2 ^ 63) (2 ^ 63 - 1) [] sdata tb_tight0)
    as (bls & n & q & Hc & Hwr & Hn & Hle & _ & _ & _ & Hnone); [cbn; lia|done|by intros i r Hi|].
  exists bls, n, q, (rows_from g (g_com g) n). split; [done|]. split; [done|]. unfold rows_at. rewrite tb_in0, tb_out0. cbn [default].
  unfold id. split; [|done]. destruct (se_com _ _ _ (in_settled _ _ _ Hinv m o pi g Ho Hpi Hg)) as [Hcom _].
  assert (Hall : g_com g + n = nrows g).
  { destruct (Z.lt_ge_cases (g_com g + n) (nrows g)) as [Hlt|]; [|lia]. exfalso.
    destruct (lookup_lt_is_Some_2 (g_rows g) (Z.to_nat (g_com g + n))) as [r Hr1]; [unfold nrows in *; lia|].
    assert (Hk : 2 ^ 63 - 1 < row_key r).
    { apply Hnone; [|done]. right. intros x _. pose proof (wraps_range 64 (le_val (take 8 x)) ltac:(lia)) as Hx.
      unfold in_s in Hx. unfold row_key. lia. }
    pose proof (wraps_range 64 (le_val (take 8 r)) ltac:(lia)) as Hx. unfold in_s in Hx. unfold row_key in Hk. lia. }
  unfold rows_from. rewrite (take_ge (drop _ _)); [apply take_drop|]. rewrite length_drop. unfold nrows in *. lia.
Qed.

(** C39.  A row is refused only if its table has all but one of its blocks uncommitted, or
    the pool more of them than its threshold. *)
Theorem cache_refusal w m o pi row : reachable (opened p) w -> meters (w_cache w) !! m = Some o -> pCache o = Some pi ->
  Z.of_nat (length row) = row_width (schema o) -> Z.of_nat (length (rows_at (w_in w) m)) < 2 ^ 61 ->
  exists code c', vnodeInsertPointToCache m row (w_cache w) = Ret (code, c') /\
    (code = 0 \/ code = -1 /\ (maxBlocks pi - 1 <= unCommittedBlocks pi \/
       threshold (pool (w_cache w)) < Z.of_nat (length (filter (fun b => notFree b = true) (pMem (pool (w_cache w))))))).
Proof using Hp Hbs Ht.
  intros Hr Ho Hpi Hrow Hmax. destruct (reachable_ok bs total pm p w Hp Hbs Ht Hr) as [G Hw]. pose proof (wi_inv _ _ _ _ Hw) as Hinv.
  destruct (wi_tables _ _ _ _ Hw m o Ho) as (pi' & g & Hpi' & Hg & []). assert (pi' = pi) as -> by congruence.
  unfold rows_at in Hmax. rewrite tb_in0 in Hmax. cbn in Hmax.
  destruct (cache_insert_spec bs (w_cache w) G m o pi g row Hinv Ho Hpi Hg Hrow Hmax) as (code & c' & Hc & _ & Hcase).
  exists code, c'. split; [done|]. destruct Hcase as [(-> & _ & _ & Hwhy)|(-> & _)]; [right|by left]. split; [done|].
  destruct Hwhy as [Hwhy|Hwhy]; [by left|right]. rewrite (po_count _ _ _ (in_pool _ _ _ Hinv)) in Hwhy.
  by rewrite <- nf_count_filter.
Qed.

(** C12.  What an ascending query reads of the cache: the rows in its range of the newest
    rows of the table, among which are all that are not in the files. *)
Theorem cache_query w m o pi fuel cap q : reachable (opened p) w -> meters (w_cache w) !! m = Some o -> pCache o = Some pi ->
  q_asc q = true -> q_offset q = 0 -> slotless q = true -> q_over q = false -> 0 < cap -> room (schema o) cap (q_sdata q) ->
  2 * maxBlocks pi + 2 < Z.of_nat fuel ->
  exists rows n q', rows `suffix_of` rows_at (w_in w) m /\
    drop (length (rows_at (w_file w) m)) (rows_at (w_in w) m) `suffix_of` rows /\
    let found := filter (in_range q) rows in
    fill_block fuel m (w_cache w) cap 0 q = Ret (n, q') /\ 0 <= n <= cap /\
    read_out (schema o) (Z.to_nat n) (q_sdata q') = Ret (take (Z.to_nat n) found) /\
    (if q_over q' then n = Z.of_nat (length found) else n = cap).
Proof using Hp Hbs Ht.
  intros Hr Ho Hpi Hasc Hoff Hsl Hov Hcap Hroom Hfuel. destruct (reachable_ok bs total pm p w Hp Hbs Ht Hr) as [G Hw].
  pose proof (wi_inv _ _ _ _ Hw) as Hinv. destruct (wi_tables _ _ _ _ Hw m o Ho) as (pi' & g & Hpi' & Hg & []).
  assert (pi' = pi) as -> by congruence. pose proof (in_settled _ _ _ Hinv m o pi g Ho Hpi Hg) as Hs.
  destruct (scan_bounds bs _ G m o pi g Hinv Ho Hpi Hg) as (Hppb & Hmb & Hn & Hn2 & Hrr).
  destruct (client_query_spec bs (w_cache w) G m o pi g Hinv Ho Hpi Hg tb_keyed0 tb_sorted0 tb_tight0 fuel cap q) as
    (n & q' & Hf & Hn0 & Hrows & Hle & Hend); try done; [lia|].
  unfold rows_at. rewrite tb_in0. cbn [default]. unfold id.
  exists (cached o pi g), n, q'. split; [eexists; symmetry; apply take_drop|]. split; [|split; [done|split; [done|split; [|done]]]].
  - destruct (se_com _ _ _ Hs) as [Hcom Hdone]. pose proof (Z.mul_div_le (g_com g) (pointsPerBlock o) ltac:(lia)) as Hlow.
    rewrite <- Hdone in Hlow. pose proof (se_unc _ _ _ Hs). pose proof (se_unc_range _ _ _ Hs).
    assert (Hfirst : first_row o pi g <= g_com g).
    { unfold first_row. assert ((g_hi g - numOfBlocks pi) * pointsPerBlock o <= g_done g * pointsPerBlock o) by (apply Z.mul_le_mono_nonneg_r; lia). lia. }
    assert (Hfile : exists f, g_com g <= f /\ w_file w !! m = Some (take (Z.to_nat f) (g_rows g)) /\ f <= nrows g).
    { destruct (w_pend w !! m) as [[s0 p0]|]; [|exists (g_com g); split; [lia|]; split; [done|lia]].
      destruct tb_out0 as (kt & _ & _ & _ & Hk & Hk2). eexists. split; [|split; [exact Hk2|lia]]. lia. }
    destruct Hfile as (f & Hf1 & -> & Hf2). cbn [from_option]. rewrite length_take. unfold nrows in Hf2. rewrite Nat.min_l by lia.
    exists (take (Z.to_nat (f - first_row o pi g)) (cached o pi g)). unfold cached.
    assert (0 <= first_row o pi g) by (unfold first_row; apply Z.mul_nonneg_nonneg; lia).
    replace (drop (Z.to_nat f) (g_rows g)) with (drop (Z.to_nat (f - first_row o pi g)) (drop (Z.to_nat (first_row o pi g)) (g_rows g)))
      by (rewrite drop_drop; f_equal; lia). by rewrite take_drop.
  - pose proof (read_out_rows _ _ _ Hrows) as Hread. rewrite length_take, Nat.min_l in Hread by lia. exact Hread.
Qed.
End Reachable.
