(* ===== verification/CacheDemo.v ===== *)
(** * The cache on concrete tables

    The hypotheses of the theorems hold of runs of the cache, and two limits that
    the configuration does not keep. *)
From S2P Require Import Prelude KeySearch CachePool CacheInv CacheInsert CacheQuery CacheScan CacheSearch CacheLife.

Fixpoint run (l : list op) (w : world) : res world :=
  match l with [] => Ret w | x :: l => let! w := step x w in run l w end.
Fixpoint all_ok (l : list op) (w : world) : Prop :=
  match l with [] => True | x :: l => op_ok x w /\ match step x w with Ret w => all_ok l w | _ => False end end.

Lemma reach_run w0 l : forall w w', reachable w0 w -> all_ok l w -> run l w = Ret w' -> reachable w0 w'.
Proof.
  induction l as [|x l IH]; intros w w' Hr Hok Hrun; cbn in *; [by injection Hrun as <-|].
  destruct Hok as [Hx Hok]. destruct (step x w) as [w1| | |] eqn:Hs; try done. cbn in Hrun. apply (IH w1); [|done|done].
  by apply (reach_step w0 w x).
Qed.

(** Two tables share a pool of four blocks; a row is a key and four bytes. *)
Definition pool4 : SCachePool := match vnodeOpenCachePool 76 4 4 with Some p => p | None => mkPool [] 0 0 0 0 false false 0 0 end.
Definition table : SMeterObj := mkMeter [8; 4] 12 10 0 0 0 0 None.
Definition row (k : Z) : list Z := le_bytes 8 k ++ [k; k; k; k].
Definition buffers : list (list Z) := [replicate 80 0; replicate 40 0].
Definition days : Z := 86400000.

(** The second commit of the first table is under way, and the second table needs a
    block that the first has. *)
Definition life : list op :=
  [Create 1 table; Create 2 table; Insert 1 false 0 days [row 1; row 2; row 3]; Flush 1 0 2 [] buffers; Insert 2 false 0 days [row 4];
   Over 1 7; Insert 1 false 0 days [row 3; row 5; row 4]; Insert 2 false 0 days [row 5; row 6]; Flush 1 0 9 [] buffers; Over 1 8;
   Insert 2 false 0 days [row 7]; Insert 1 false 0 days [row 8]].
Definition lived : world := match run life (opened pool4) with Ret w => w | _ => opened pool4 end.

Lemma life_rows : (rows_at (w_in lived) 1, rows_at (w_file lived) 1, rows_at (w_in lived) 2) =
  ([row 1; row 2; row 3; row 5; row 8], [row 1; row 2; row 3; row 5], [row 4; row 5; row 6; row 7]).
Proof. vm_compute. reflexivity. Qed.

Lemma all_ok_cons x l w w' : op_ok x w -> step x w = Ret w' -> all_ok l w' -> all_ok (x :: l) w.
Proof. intros Hx Hs Hl. cbn. by rewrite Hs. Qed.

Ltac op_holds :=
  first
  [ exact I
  | match goal with |- op_ok (Create _ _) _ => split; [done|]; split; [by exists [4]|]; constructor; vm_compute; repeat (constructor || discriminate) end
  | let o := fresh in let Ho := fresh in intros o Ho; vm_compute in Ho; injection Ho as <-;
    first
    [ split; [repeat constructor|vm_compute; reflexivity]
    | split; [repeat constructor; cbn; lia|split; [by intros ? ? ?|cbn; lia]] ] ].
Ltac run_step :=
  match goal with |- all_ok (?x :: _) ?w =>
    match eval vm_compute in (step x w) with Ret ?v => apply (all_ok_cons x _ w v); [op_holds|vm_compute; reflexivity|] end end.

Lemma life_ok : all_ok life (opened pool4).
Proof. unfold life. do 12 run_step. exact I. Qed.

Lemma lived_reachable : reachable (opened pool4) lived.
Proof. apply (reach_run _ life (opened pool4)); [constructor|exact life_ok|vm_compute; reflexivity]. Qed.

Definition table1 : SMeterObj := match meters (w_cache lived) !! 1 with Some o => o | None => table end.
Definition info1 : SCacheInfo := match pCache table1 with Some pi => pi | None => new_cache 0 end.

Lemma cache_step_defined_witness : reachable (opened pool4) lived /\ op_ok (Insert 1 false 0 days [row 9]) lived /\
  exists w', step (Insert 1 false 0 days [row 9]) lived = Ret w'.
Proof.
  assert (Hok : op_ok (Insert 1 false 0 days [row 9]) lived) by op_holds.
  split; [exact lived_reachable|]. split; [exact Hok|].
  apply (cache_step_defined 76 4 4 pool4 eq_refl ltac:(lia) ltac:(lia) lived _ lived_reachable Hok).
Defined.

Lemma cache_no_loss_witness : reachable (opened pool4) lived /\ exists bls n q rest,
  commit_table 1 (- 2 ^ 63) (2 ^ 63 - 1) 0 buffers (w_cache lived) = Ret (bls, n, q) /\
  written (schema table1) bls = Ret rest /\ rows_at (w_file lived) 1 ++ rest = rows_at (w_in lived) 1 /\
  increasing (map row_key (rows_at (w_in lived) 1)).
Proof.
  split; [exact lived_reachable|].
  apply (cache_no_loss 76 4 4 pool4 eq_refl ltac:(lia) ltac:(lia) lived 1 table1 buffers lived_reachable).
  - vm_compute. reflexivity.
  - vm_compute. reflexivity.
  - vm_compute. repeat (constructor || discriminate).
Defined.

(** The pool has more blocks that are not committed than its threshold: a new row
    of the second table is refused. *)
Lemma cache_refusal_witness : reachable (opened pool4) lived /\ exists code c',
  vnodeInsertPointToCache 1 (row 9) (w_cache lived) = Ret (code, c') /\
  (code = 0 \/ code = -1 /\ (maxBlocks info1 - 1 <= unCommittedBlocks info1 \/
     threshold (pool (w_cache lived)) < Z.of_nat (length (filter (fun b => notFree b = true) (pMem (pool (w_cache lived))))))).
Proof.
  split; [exact lived_reachable|].
  apply (cache_refusal 76 4 4 pool4 eq_refl ltac:(lia) ltac:(lia) lived 1 table1 info1 (row 9) lived_reachable).
  - vm_compute. reflexivity.
  - vm_compute. reflexivity.
  - vm_compute. reflexivity.
  - vm_compute. reflexivity.
Defined.

(** A query of the keys 2 to 6 reads the rows 3 and 5: the first two rows of the table
    were evicted. *)
Definition range_query : SQuery := mkQuery true 2 6 0 2 (-1) (-1) false false 0 0 0 0 0 0 0 0 buffers [].

Lemma cache_query_witness : reachable (opened pool4) lived /\ exists rows n q',
  rows `suffix_of` rows_at (w_in lived) 1 /\ drop (length (rows_at (w_file lived) 1)) (rows_at (w_in lived) 1) `suffix_of` rows /\
  let found := filter (in_range range_query) rows in
  fill_block 20 1 (w_cache lived) 10 0 range_query = Ret (n, q') /\ 0 <= n <= 10 /\
  read_out (schema table1) (Z.to_nat n) (q_sdata q') = Ret (take (Z.to_nat n) found) /\
  (if q_over q' then n = Z.of_nat (length found) else n = 10).
Proof.
  split; [exact lived_reachable|].
  apply (cache_query 76 4 4 pool4 eq_refl ltac:(lia) ltac:(lia) lived 1 table1 info1 20 10 range_query lived_reachable).
  - vm_compute. reflexivity.
  - vm_compute. reflexivity.
  - reflexivity.
  - reflexivity.
  - reflexivity.
  - reflexivity.
  - lia.
  - vm_compute. repeat (constructor || discriminate).
  - vm_compute. reflexivity.
Defined.

Lemma range_query_reads : (let! '(n, q) := fill_block 20 1 (w_cache lived) 10 0 range_query in read_out (schema table1) (Z.to_nat n) (q_sdata q)) =
  Ret [row 3; row 5].
Proof. vm_compute. reflexivity. Qed.

(** ** Limits

    [numOfPoints] is a [short]: the row after the 32767th of a block makes it
    negative, and the next is written before the block. *)
Lemma short_rows_negative : i16 (32767 + 1) = -32768.
Proof. reflexivity. Qed.

Lemma short_rows_out_of_block m data c o pi i b w cols off offs : meter c m = Ret o -> pCache o = Some pi ->
  block_at pi (currentSlot pi) = Ret (Some i) -> block c i = Ret b -> numOfPoints b = -32768 ->
  schema o = w :: cols -> offset b = off :: offs -> 0 < w <= Z.of_nat (length data) -> off < 32768 * w ->
  store_row m data c = Undef.
Proof.
  intros Ho Hpi Hat Hb Hn Hs Hoff Hw Hlt. unfold store_row. rewrite Ho. cbn [rbind]. unfold info. rewrite Hpi. cbn [rbind].
  rewrite Hat. cbn [rbind deref]. rewrite Hb. cbn [rbind]. rewrite Hs, Hoff, Hn. cbn [put_row].
  unfold rd, wr. rewrite bool_decide_true by lia. cbn [rbind]. by rewrite bool_decide_false by lia.
Qed.

(** A block of 100 bytes, which a database may have, is smaller than the addresses
    of nine columns: the number of rows of a block wraps, and a row is written
    behind the block. *)
Definition wide_table : SMeterObj := mkMeter [8; 4; 4; 4; 4; 4; 4; 4; 4] 40 200 0 0 0 0 None.
Definition pool100 : SCachePool := match vnodeOpenCachePool 100 10 32 with Some p => p | None => pool4 end.
Definition wide_cache : res cache := vnodeAllocateCacheInfo 1 (mkCache pool100 {[ 1 := wide_table ]}).

Lemma wide_table_overruns :
  (let! c := wide_cache in let! o := meter c 1 in Ret (pointsPerBlock o)) = Ret 200 /\
  (let! c := wide_cache in vnodeInsertPointToCache 1 (replicate 40 7) c) = Undef.
Proof. split; vm_compute; reflexivity. Qed.

(** ** The offset of a descending query

    Three blocks hold the rows 1 to 5.  A descending query that skips the rows of
    whole blocks gets the position -1 in the last of them and ends there: the rows 1
    and 2 are not read.  One with an offset less reads the rows 1 to 3. *)
Definition five_rows : res cache :=
  let! w := run [Create 1 table; Insert 1 false 0 days [row 1; row 2; row 3]; Insert 1 false 0 days [row 4; row 5]] (opened pool4) in
  Ret (w_cache w).
Definition newest_first (off : Z) : SQuery := mkQuery false 9 0 0 9 (-1) (-1) false false 0 0 0 0 off 0 0 0 buffers [].
Definition descending (off : Z) : res (list (list Z)) :=
  let! c := five_rows in
  let! '(n, q) := vnodeQueryFromCache 1 c (set_toRead 10 0 (newest_first off)) in
  let! l := read_out (schema table) (Z.to_nat n) (q_sdata q) in
  let! '(n', q') := vnodeQueryFromCache 1 c (set_toRead 10 n q) in
  let! l' := read_out (schema table) (Z.to_nat (n + n')) (q_sdata q') in Ret l'.

Lemma descending_offset_ends :
  descending 2 = Ret [row 3; row 1; row 2] /\ descending 3 = Ret [] /\
  (let! c := five_rows in let! '(n, q) := vnodeQueryFromCache 1 c (set_toRead 10 0 (newest_first 3)) in Ret (n, q_over q, q_offset q)) =
    Ret (0, true, 0).
Proof. split; [|split]; vm_compute; reflexivity. Qed.
