(* ===== verification/CompBase.v ===== *)
(** * Shared pieces of the column codecs (tscompression.h, tcompression.c)

    Data-model constants, bit masks, the overflow guard and the zigzag map. *)
From S2P Require Import Prelude.

(** The codecs use [unsigned long], whose width is the one thing the two
    supported targets (LP64 Linux, ILP32 ARM) disagree on. *)
Class DataModel := { ulong_bits : Z; ulong_range : ulong_bits = 32 \/ ulong_bits = 64 }.
Definition LP64 : DataModel := {| ulong_bits := 64; ulong_range := or_intror eq_refl |}.
Definition ILP32 : DataModel := {| ulong_bits := 32; ulong_range := or_introl eq_refl |}.

Definition BITS_PER_BYTE : Z := 8.
Definition CHAR_BYTES : Z := 1.
Definition SHORT_BYTES : Z := 2.
Definition INT_BYTES : Z := 4.
Definition LONG_BYTES : Z := 8.
Definition FLOAT_BYTES : Z := 4.
Definition DOUBLE_BYTES : Z := 8.

Definition TSDB_DATA_TYPE_TINYINT : Z := 2.
Definition TSDB_DATA_TYPE_SMALLINT : Z := 3.
Definition TSDB_DATA_TYPE_INT : Z := 4.
Definition TSDB_DATA_TYPE_BIGINT : Z := 5.
Definition TSDB_DATA_BOOL_NULL : Z := 2.

Definition ONE_STAGE_COMP : Z := 1.
Definition TWO_STAGE_COMP : Z := 2.

(** [((1ul << _x) - 1)]: a shift by the width of [unsigned long] or more is
    undefined. *)
Definition INT64MASK `{DataModel} (x : Z) : res Z :=
  if (0 <=? x) && (x <? ulong_bits) then Ret (wrapu ulong_bits (Z.shiftl 1 x) - 1) else Undef.

(** [((uint32_t)1 << _x) - 1] and [((uint8_t)1 << _x) - 1], used with constants. *)
Definition INT32MASK (x : Z) : Z := u32 (Z.shiftl 1 x) - 1.
Definition INT8MASK (x : Z) : Z := Z.shiftl 1 x - 1.

Definition INT64_MAX : Z := 9223372036854775807.
Definition INT64_MIN : Z := -9223372036854775808.

Definition safeInt64Add (a b : Z) : bool :=
  if ((0 <? a) && (INT64_MAX - a <? b)) || ((a <? 0) && (b <? INT64_MIN - a)) then false
  else true.

(** [(uint64_t)((diff >> 63) ^ (diff << 1))] *)
Definition zigzag_encode (diff : Z) : Z :=
  u64 (Z.lxor (Z.shiftr diff (LONG_BYTES * BITS_PER_BYTE - 1)) (i64 (Z.shiftl diff 1))).

(** [(int64_t)((v >> 1) ^ -(v & 1))] on a [uint64_t v] *)
Definition zigzag_decode (v : Z) : Z :=
  i64 (Z.lxor (Z.shiftr v 1) (u64 (- Z.land v 1))).

Lemma INT64MASK_LP64 x : 0 <= x < 64 -> @INT64MASK LP64 x = Ret (2 ^ x - 1).
Proof.
  intros Hx. unfold INT64MASK. simpl ulong_bits.
  rewrite (proj2 (Z.leb_le _ _)), (proj2 (Z.ltb_lt _ _)) by lia. simpl.
  rewrite Z.shiftl_1_l, wrapu_id; [done|]. split; [by apply Z.pow_nonneg|].
  apply Z.pow_lt_mono_r; lia.
Qed.

Lemma INT64MASK_const `{DM : DataModel} x : 0 <= x < 32 -> INT64MASK x = Ret (2 ^ x - 1).
Proof.
  intros Hx. unfold INT64MASK. pose proof ulong_range.
  rewrite (proj2 (Z.leb_le _ _)), (proj2 (Z.ltb_lt _ _)) by lia. simpl.
  rewrite Z.shiftl_1_l, wrapu_id; [done|]. split; [by apply Z.pow_nonneg|].
  apply Z.pow_lt_mono_r; lia.
Qed.

(** The closed form of the zigzag map. *)
Lemma zigzag_encode_eq d : in_s 64 d ->
  zigzag_encode d = if d <? 0 then - 2 * d - 1 else 2 * d.
Proof.
  unfold in_s, zigzag_encode, LONG_BYTES, BITS_PER_BYTE. intros Hd. change (64 - 1) with 63 in Hd.
  rewrite Z.shiftl_mul_pow2, Z.shiftr_div_pow2 by lia. change (8 * 8 - 1) with 63.
  destruct (wraps_spec 64 (d * 2 ^ 1)) as [q Hq]; [lia|].
  destruct (Z.ltb_spec d 0).
  - replace (d / 2 ^ 63) with (-1) by (apply (Z.div_unique _ _ _ (d + 2 ^ 63)); lia).
    rewrite Z.lxor_m1_l. unfold Z.lnot.
    rewrite (wrapu_congr 64 _ (- 2 * d - 1) (- q)) by lia. apply wrapu_id. split; lia.
  - rewrite (Z.div_small d) by lia. rewrite Z.lxor_0_l.
    rewrite (wrapu_congr 64 _ (2 * d) q) by lia. apply wrapu_id. split; lia.
Qed.

Lemma zigzag_encode_range d : in_s 64 d -> in_u 64 (zigzag_encode d).
Proof. intros. unfold zigzag_encode. by apply wrapu_range. Qed.

Lemma land_1 v : Z.land v 1 = v mod 2.
Proof. exact (land_mask v 1 ltac:(lia)). Qed.

Lemma zigzag_decode_encode d : in_s 64 d -> zigzag_decode (zigzag_encode d) = d.
Proof.
  intros Hd. rewrite zigzag_encode_eq by done. unfold zigzag_decode.
  unfold in_s in Hd. change (64 - 1) with 63 in Hd.
  rewrite Z.shiftr_div_pow2 by lia. change (2 ^ 1) with 2.
  rewrite land_1.
  destruct (Z.ltb_spec d 0).
  - replace ((-2 * d - 1) mod 2) with 1 by (apply (Z.mod_unique _ _ (- d - 1)); lia).
    replace ((-2 * d - 1) / 2) with (- d - 1) by (apply (Z.div_unique _ _ _ 1); lia).
    change (u64 (Z.opp 1)) with (2 ^ 64 - 1). rewrite lxor_ones by lia.
    rewrite (wraps_congr 64 _ d 1) by lia. by apply wraps_id.
  - replace ((2 * d) mod 2) with 0 by (apply (Z.mod_unique _ _ d); lia).
    replace (2 * d / 2) with d by (apply (Z.div_unique _ _ _ 0); lia).
    change (u64 (Z.opp 0)) with 0. rewrite Z.lxor_0_r. by apply wraps_id.
Qed.

Lemma zigzag_decode_range v : in_s 64 (zigzag_decode v).
Proof. unfold zigzag_decode. by apply wraps_range. Qed.

#[export] Hint Resolve zigzag_encode_range zigzag_decode_range : cint.

(** The guard is exact: it fails just when the 64-bit sum would overflow. *)
Lemma safeInt64Add_spec a b : in_s 64 a -> in_s 64 b ->
  safeInt64Add a b = bool_decide (in_s 64 (a + b)).
Proof.
  unfold in_s, safeInt64Add, INT64_MAX, INT64_MIN. change (64 - 1) with 63. intros Ha Hb.
  destruct (Z.ltb_spec 0 a), (Z.ltb_spec (9223372036854775807 - a) b), (Z.ltb_spec a 0),
    (Z.ltb_spec b (-9223372036854775808 - a)); simpl;
    symmetry; first [apply bool_decide_eq_true | apply bool_decide_eq_false]; lia.
Qed.

(** Two four-bit tags share a byte, the first in the low half. *)
Lemma nibbles f1 f2 : 0 <= f1 < 16 -> 0 <= f2 < 16 ->
  let flags := u8 (Z.lor f1 (Z.shiftl f2 4)) in
  byte_ok flags /\ Z.land flags (INT8MASK 4) = f1 /\
  Z.land (Z.shiftr flags 4) (INT8MASK 4) = f2 /\ Z.shiftr flags 4 = f2.
Proof.
  intros H1 H2.
  pose proof (check_range (fun f1 => forallb (fun f2 =>
    let flags := u8 (Z.lor f1 (Z.shiftl f2 4)) in
    (0 <=? flags) && (flags <? 256) && (Z.land flags (INT8MASK 4) =? f1) &&
    (Z.land (Z.shiftr flags 4) (INT8MASK 4) =? f2) && (Z.shiftr flags 4 =? f2))
    (seqZ 0 16)) 16 ltac:(vm_compute; reflexivity) f1 H1) as H.
  cbv beta in H. apply (check_range _ 16) with (s := f2) in H; [|done].
  cbv zeta in H. unfold byte_ok. cbv zeta. lia.
Qed.

(** ** What a column codec promises

    [compress input n] encodes the [n] elements of [width] bytes in [input];
    [decompress] needs only [n] and finds the encoding at the head of its
    buffer. *)
Class ColumnCodec (width : Z) (compress decompress : list Z -> Z -> res (list Z)) : Prop := {
  codec_width : 0 < width;
  codec_law n input out post : bytes_ok input -> 0 <= n ->
    Z.of_nat (length input) = n * width -> compress input n = Ret out ->
    bytes_ok out /\ Z.of_nat (length out) <= n * width + 1 /\
    decompress (out ++ post) n = Ret input }.
