(* ===== verification/CompInt.v ===== *)
(** * Simple8B integer codec (tcompression.c)

    [tsCompressINTImp] and [tsDecompressINTImp] over byte buffers. *)
From S2P Require Import Prelude CompBase.

Definition bit_per_integer : list Z :=
  [0; 0; 1; 2; 3; 4; 5; 6; 7; 8; 10; 12; 15; 20; 30; 60].
Definition selector_to_elems : list Z :=
  [240; 120; 60; 30; 20; 15; 12; 10; 8; 7; 6; 5; 4; 3; 2; 1].
Definition bit_to_selector : list Z :=
  [0;  2;  3;  4;  5;  6;  7;  8;  9;  10; 10; 11; 11; 12; 12; 12; 13; 13; 13; 13; 13;
   14; 14; 14; 14; 14; 14; 14; 14; 14; 14; 15; 15; 15; 15; 15; 15; 15; 15; 15; 15; 15;
   15; 15; 15; 15; 15; 15; 15; 15; 15; 15; 15; 15; 15; 15; 15; 15; 15; 15; 15].

Definition SIMPLE8B_MAX_INT64 : Z := 2305843009213693951.

(** The [switch (type)] that sets [word_length]; the default exits. *)
Definition word_length_of (type : Z) : res Z :=
  if type =? TSDB_DATA_TYPE_BIGINT then Ret LONG_BYTES
  else if type =? TSDB_DATA_TYPE_INT then Ret INT_BYTES
  else if type =? TSDB_DATA_TYPE_SMALLINT then Ret SHORT_BYTES
  else if type =? TSDB_DATA_TYPE_TINYINT then Ret CHAR_BYTES
  else Exit.

(** The [switch (type)] that reads element [j] as an [int64_t]. *)
Definition read_elem (type : Z) (input : list Z) (j : Z) : res Z :=
  let! wl := word_length_of type in rds wl input j.

(** [tmp_bit]: the number of significant bits of a zigzag value. *)
Definition bit_length (zigzag_value : Z) : Z :=
  if zigzag_value =? 0 then 0
  else LONG_BYTES * BITS_PER_BYTE - builtin_clzll zigzag_value.

(** [while (elems < selector_to_elems[selector]) selector++]. *)
Fixpoint shrink_selector (fuel : nat) (elems selector : Z) : res Z :=
  match fuel with
  | O => NoFuel
  | S fuel' =>
      let! s2e := rd1 selector_to_elems selector in
      if elems <? s2e then shrink_selector fuel' elems (selector + 1) else Ret selector
  end.

(** The scanning loop [for (j = i; j < nelements; j++)]: how many of the next
    elements share one 64-bit word.  [None] is [goto _copy_and_exit]; [n] is
    [nelements - j]. *)
Fixpoint scan_group (n : nat) (type : Z) (input : list Z)
    (j prev_value prev_value_tmp selector elems bit : Z) : res (option (Z * Z * Z)) :=
  match n with
  | O => Ret (Some (selector, elems, bit))
  | S n' =>
      let! curr_value := read_elem type input j in
      if negb (safeInt64Add curr_value (i64 (- prev_value))) then Ret None else
      let zigzag_value := zigzag_encode (i64 (curr_value - prev_value_tmp)) in
      if SIMPLE8B_MAX_INT64 <=? zigzag_value then Ret None else
      let tmp_bit := bit_length zigzag_value in
      let! room := rd1 selector_to_elems selector in
      let! fits :=
        if elems + 1 <=? room then
          let! sel_bit := rd1 bit_to_selector tmp_bit in
          let! room' := rd1 selector_to_elems sel_bit in
          Ret (elems + 1 <=? room')
        else Ret false in
      if fits : bool then
        let! sel_bit := rd1 bit_to_selector tmp_bit in
        let selector := if sel_bit <? selector then selector else sel_bit in
        let! bit := rd1 bit_per_integer selector in
        scan_group n' type input (j + 1) prev_value curr_value selector (elems + 1) bit
      else
        let! selector := shrink_selector 17 elems selector in
        let! elems := rd1 selector_to_elems selector in
        let! bit := rd1 bit_per_integer selector in
        Ret (Some (selector, elems, bit))
  end.

Section WithModel.
Context `{DM : DataModel}.

(** The packing loop [for (k = 0; k < elems; k++)]. *)
Fixpoint pack_group (n : nat) (type : Z) (input : list Z) (k i prev_value bit buffer : Z)
    : res (Z * Z * Z) :=
  match n with
  | O => Ret (buffer, i, prev_value)
  | S n' =>
      let! curr_value := read_elem type input i in
      let zigzag_value := zigzag_encode (i64 (curr_value - prev_value)) in
      let! mask := INT64MASK bit in
      let buffer := Z.lor buffer (u64 (Z.shiftl (Z.land zigzag_value mask) (bit * k + 4))) in
      pack_group n' type input (k + 1) (i + 1) curr_value bit buffer
  end.

(** The outer loop; [out] is what has been written at [output + 1], so
    [opos = 1 + length out].  [None] is the jump to [_copy_and_exit]. *)
Fixpoint compress_groups (fuel : nat) (type : Z) (input : list Z)
    (nelements byte_limit i prev_value : Z) (out : list Z) : res (option (list Z)) :=
  match fuel with
  | O => NoFuel
  | S fuel' =>
      if i <? nelements then
        let! g := scan_group (Z.to_nat (nelements - i)) type input i prev_value prev_value 0 0 0 in
        match g with
        | None => Ret None
        | Some (selector, elems, bit) =>
            let! p := pack_group (Z.to_nat elems) type input 0 i prev_value bit
                        (Z.lor 0 selector) in
            let '(buffer, i, prev_value) := p in
            let opos := 1 + Z.of_nat (length out) in
            if opos + 8 <=? byte_limit then
              compress_groups fuel' type input nelements byte_limit i prev_value
                (out ++ le_bytes 8 buffer)
            else Ret None
        end
      else Ret (Some out)
  end.

(** The bytes written to [output]; the C function returns their number. *)
Definition tsCompressINTImp (input : list Z) (nelements type : Z) : res (list Z) :=
  let! word_length := word_length_of type in
  let byte_limit := nelements * word_length + 1 in
  let! r := compress_groups (S (Z.to_nat nelements)) type input nelements byte_limit 0 0 [] in
  match r with
  | Some out => Ret (0 :: out)
  | None => let! raw := rd input 0 (byte_limit - 1) in Ret (1 :: raw)
  end.

(** The loop over one word's elements; the result is the decoded bytes, the
    running value and the count. *)
Fixpoint decode_word (n : nat) (w selector bit word_length nelements : Z)
    (i count prev_value : Z) (out : list Z) : res (Z * Z * list Z) :=
  match n with
  | O => Ret (count, prev_value, out)
  | S n' =>
      let! zigzag_value :=
        if (selector =? 0) || (selector =? 1) then Ret 0
        else let! mask := INT64MASK bit in Ret (Z.land (Z.shiftr w (4 + bit * i)) mask) in
      let diff := zigzag_decode zigzag_value in
      let curr_value := i64 (diff + prev_value) in
      let out := out ++ le_bytes (Z.to_nat word_length) curr_value in
      let count := count + 1 in
      if count =? nelements then Ret (count, curr_value, out)
      else decode_word n' w selector bit word_length nelements (i + 1) count curr_value out
  end.

(** The [while (1)] loop; [ip] is the offset of the next word. *)
Fixpoint decode_words (fuel : nat) (input : list Z) (word_length nelements : Z)
    (ip count prev_value : Z) (out : list Z) : res (list Z) :=
  match fuel with
  | O => NoFuel
  | S fuel' =>
      if count =? nelements then Ret out else
      let! ws := rd input ip LONG_BYTES in
      let w := le_val ws in
      let! mask := INT64MASK 4 in
      let selector := Z.land w mask in
      let! bit := rd1 bit_per_integer selector in
      let! elems := rd1 selector_to_elems selector in
      let! r := decode_word (Z.to_nat elems) w selector bit word_length nelements
                  0 count prev_value out in
      let '(count, prev_value, out) := r in
      decode_words fuel' input word_length nelements (ip + LONG_BYTES) count prev_value out
  end.

(** The bytes written to [output]. *)
Definition tsDecompressINTImp (input : list Z) (nelements type : Z) : res (list Z) :=
  let! word_length := word_length_of type in
  let! ind := rd1 input 0 in
  if ind =? 1 then rd input 1 (nelements * word_length)
  else decode_words (S (Z.to_nat nelements)) input word_length nelements 1 0 0 [].

End WithModel.

(** ** Tables *)
Definition bpi (s : Z) : Z := nth (Z.to_nat s) bit_per_integer 0.
Definition s2e (s : Z) : Z := nth (Z.to_nat s) selector_to_elems 0.
Definition bts (t : Z) : Z := nth (Z.to_nat t) bit_to_selector 0.

Lemma selector_facts s : 0 <= s <= 15 ->
  1 <= s2e s <= 240 /\ 0 <= bpi s <= 60 /\ s2e s * bpi s <= 60 /\
  (s <= 1 -> bpi s = 0) /\ (2 <= s -> 1 <= bpi s).
Proof.
  intros Hs.
  pose proof (check_range (fun s => (1 <=? s2e s) && (s2e s <=? 240) && (0 <=? bpi s) &&
    (bpi s <=? 60) && (s2e s * bpi s <=? 60) && ((2 <=? s) || (bpi s =? 0)) &&
    ((s <=? 1) || (1 <=? bpi s))) 16 eq_refl s ltac:(lia)) as H.
  cbv beta in H. lia.
Qed.

Lemma selector_mono s t : 0 <= s <= t -> t <= 15 -> s2e t <= s2e s /\ bpi s <= bpi t.
Proof.
  intros Hs Ht.
  pose proof (check_range (fun s => forallb (fun t => (t <? s) ||
    ((s2e t <=? s2e s) && (bpi s <=? bpi t))) (seqZ 0 16)) 16 eq_refl s ltac:(lia)) as H.
  cbv beta in H. rewrite forallb_forall in H. specialize (H t).
  rewrite <- list_elem_of_In, elem_of_seqZ in H. specialize (H ltac:(lia)). lia.
Qed.

Lemma bts_facts t : 0 <= t <= 60 -> 0 <= bts t <= 15 /\ t <= bpi (bts t).
Proof.
  intros Ht.
  pose proof (check_range (fun t => (0 <=? bts t) && (bts t <=? 15) && (t <=? bpi (bts t)))
    61 eq_refl t ltac:(lia)) as H.
  cbv beta in H. lia.
Qed.

Lemma bit_length_spec z : 0 <= z -> 0 <= bit_length z /\ z < 2 ^ bit_length z.
Proof.
  intros Hz. unfold bit_length, builtin_clzll, LONG_BYTES, BITS_PER_BYTE.
  destruct (Z.eqb_spec z 0) as [->|Hne]; [simpl; lia|].
  pose proof (Z.log2_nonneg z). pose proof (Z.log2_spec z ltac:(lia)).
  replace (8 * 8 - (63 - Z.log2 z)) with (Z.succ (Z.log2 z)) by lia. lia.
Qed.

Lemma bit_length_le z n : 0 <= n -> 0 <= z < 2 ^ n -> bit_length z <= n.
Proof.
  intros Hn Hz. unfold bit_length, builtin_clzll, LONG_BYTES, BITS_PER_BYTE.
  destruct (Z.eqb_spec z 0) as [->|Hne]; [lia|].
  pose proof (Z.log2_lt_pow2 z n ltac:(lia)). lia.
Qed.

Lemma shrink_selector_spec fuel elems s s' :
  0 <= s <= 15 -> shrink_selector fuel elems s = Ret s' ->
  s <= s' <= 15 /\ s2e s' <= elems.
Proof.
  revert s. induction fuel as [|fuel IH]; intros s Hs; cbn [shrink_selector]; [done|].
  rewrite rd1_table by (simpl; lia). cbn [rbind]. fold (s2e s).
  destruct (Z.ltb_spec elems (s2e s)).
  - intros Hr. destruct (decide (s = 15)) as [->|].
    + destruct fuel; cbn [shrink_selector] in Hr; [done|].
      by change (rd1 selector_to_elems (15 + 1)) with (@Undef Z) in Hr.
    + apply IH in Hr; lia.
  - intros [= <-]. lia.
Qed.

Lemma shrink_selector_total fuel elems s :
  1 <= elems -> 0 <= s <= 15 -> 16 - s < Z.of_nat fuel ->
  exists s', shrink_selector fuel elems s = Ret s'.
Proof.
  intros He. revert s. induction fuel as [|fuel IH]; intros s Hs Hf; [lia|]. cbn [shrink_selector].
  rewrite rd1_table by (simpl; lia). cbn [rbind]. fold (s2e s).
  destruct (Z.ltb_spec elems (s2e s)); [|eauto].
  destruct (decide (s = 15)) as [->|]; [|apply IH; lia].
  change (s2e 15) with 1 in *. lia.
Qed.

Arguments bpi : simpl never.
Arguments s2e : simpl never.
Arguments bts : simpl never.
#[local] Opaque selector_to_elems bit_per_integer bit_to_selector.

(** ** Groups of deltas *)
Fixpoint deltas (prev : Z) (vs : list Z) : list Z :=
  match vs with
  | [] => []
  | v :: t => zigzag_encode (i64 (v - prev)) :: deltas v t
  end.

(** The payload of a word: [bit]-wide fields, first element lowest. *)
Fixpoint fields (bit : Z) (zs : list Z) : Z :=
  match zs with
  | [] => 0
  | z :: t => z + 2 ^ bit * fields bit t
  end.

Lemma length_deltas prev vs : length (deltas prev vs) = length vs.
Proof. revert prev. induction vs; intros; simpl; auto. Qed.

Lemma deltas_range prev vs : Forall (in_u 64) (deltas prev vs).
Proof.
  revert prev. induction vs; intros; simpl; constructor; auto with cint.
  apply zigzag_encode_range, wraps_range. lia.
Qed.

Lemma take_deltas n prev vs : take n (deltas prev vs) = deltas prev (take n vs).
Proof. revert prev vs. induction n; intros prev [|v vs]; simpl; [done..|]. by rewrite IHn. Qed.

Lemma fields_range bit zs :
  0 <= bit -> Forall (fun z => 0 <= z < 2 ^ bit) zs ->
  0 <= fields bit zs < 2 ^ (bit * Z.of_nat (length zs)).
Proof.
  intros Hb. induction 1 as [|z zs Hz _ IH]; simpl; [rewrite Z.mul_0_r; lia|].
  replace (bit * Z.of_nat (S (length zs))) with (bit + bit * Z.of_nat (length zs)) by lia.
  rewrite Z.pow_add_r by lia. pose proof (pow2_pos bit Hb). nia.
Qed.

Section Codec.
Context (type : Z) (w : nat) (vals : list Z).
Context (Hwl : word_length_of type = Ret (Z.of_nat w)) (Hw : (0 < w)%nat) (Hw8 : (w <= 8)%nat).
Context (Hvals : Forall (in_s (8 * Z.of_nat w)) vals).

Let input := pack_elems w vals.
Let n := Z.of_nat (length vals).

Lemma in_s_64 v : in_s (8 * Z.of_nat w) v -> in_s 64 v.
Proof.
  unfold in_s. intros Hv.
  assert (2 ^ (8 * Z.of_nat w - 1) <= 2 ^ (64 - 1)) by (apply Z.pow_le_mono_r; lia). lia.
Qed.

Lemma vals_in_s v : v ∈ vals -> in_s (8 * Z.of_nat w) v.
Proof. rewrite Forall_forall in Hvals. apply Hvals. Qed.

Lemma read_elem_vals j v : 0 <= j -> vals !! Z.to_nat j = Some v ->
  read_elem type input j = Ret v.
Proof.
  intros Hj Hv. unfold read_elem. rewrite Hwl. cbn [rbind]. unfold input.
  apply rds_pack; [done..|]. apply vals_in_s. by eapply list_elem_of_lookup_2.
Qed.

(** What the scan guarantees of the group it selects. *)
Definition group_ok (zs : list Z) (sel bit : Z) : Prop :=
  0 <= sel <= 15 /\ bit = bpi sel /\ Z.of_nat (length zs) <= s2e sel /\
  Forall (fun z => 0 <= z < 2 ^ bit) zs.

Lemma group_ok_snoc zs sel bit z sel_bit :
  group_ok zs sel bit -> 0 <= z < 2 ^ 64 -> sel_bit = bts (bit_length z) ->
  0 <= bit_length z <= 60 ->
  Z.of_nat (length zs) + 1 <= s2e sel -> Z.of_nat (length zs) + 1 <= s2e sel_bit ->
  let sel' := if sel_bit <? sel then sel else sel_bit in
  group_ok (zs ++ [z]) sel' (bpi sel').
Proof.
  intros (Hs & -> & Hl & Hzs) Hz -> Hbl H1 H2 sel'.
  destruct (bts_facts (bit_length z)) as [Hb1 Hb2]; [lia|].
  assert (Hs' : 0 <= sel' <= 15 /\ sel <= sel' /\ bts (bit_length z) <= sel' /\
    (sel' = sel \/ sel' = bts (bit_length z)))
    by (unfold sel'; destruct (Z.ltb_spec (bts (bit_length z)) sel); lia).
  destruct Hs' as (Hr & Hle1 & Hle2 & Heq).
  destruct (selector_mono sel sel') as [_ Hm1]; [lia..|].
  destruct (selector_mono (bts (bit_length z)) sel') as [_ Hm2]; [lia..|].
  split; [done|]. split; [done|]. split.
  - rewrite length_app. simpl. destruct Heq as [-> | ->]; lia.
  - apply Forall_app. split.
    + eapply Forall_impl; [exact Hzs|]. simpl. intros x Hx.
      pose proof (Z.pow_le_mono_r 2 (bpi sel) (bpi sel')). lia.
    + constructor; [|constructor]. destruct (bit_length_spec z); [lia|].
      pose proof (Z.pow_le_mono_r 2 (bit_length z) (bpi sel')). lia.
Qed.

Lemma group_ok_take zs sel bit sel' :
  group_ok zs sel bit -> sel <= sel' <= 15 -> s2e sel' <= Z.of_nat (length zs) ->
  group_ok (take (Z.to_nat (s2e sel')) zs) sel' (bpi sel').
Proof.
  intros (Hs & -> & Hl & Hzs) Hs' He.
  destruct (selector_mono sel sel') as [_ Hm]; [lia..|].
  pose proof (selector_facts sel' ltac:(lia)) as (? & _).
  split; [lia|]. split; [done|]. split; [rewrite length_take; lia|].
  apply Forall_take. eapply Forall_impl; [exact Hzs|]. simpl. intros x Hx.
  pose proof (Z.pow_le_mono_r 2 (bpi sel) (bpi sel')). lia.
Qed.

(** A scan result selects a prefix of [all]: a full word's worth, or all of it. *)
Definition scan_result (all : list Z) (g : Z * Z * Z) : Prop :=
  exists sel e bit, g = (sel, Z.of_nat e, bit) /\ (e <= length all)%nat /\
    group_ok (take e all) sel bit /\
    (Z.of_nat e = s2e sel \/ e = length all) /\ (all <> [] -> (0 < e)%nat).

Lemma scan_result_all zs sel bit :
  group_ok zs sel bit -> scan_result zs (sel, Z.of_nat (length zs), bit).
Proof.
  intros Hg. exists sel, (length zs), bit. rewrite take_ge by lia.
  split_and!; auto. by destruct zs; simpl; [|lia].
Qed.

Lemma scan_result_break zs rest sel bit g :
  group_ok zs sel bit ->
  (let! s' := shrink_selector 17 (Z.of_nat (length zs)) sel in
   let! e := rd1 selector_to_elems s' in
   let! b := rd1 bit_per_integer s' in Ret (Some (s', e, b))) = Ret (Some g) ->
  scan_result (zs ++ rest) g.
Proof.
  intros Hg Hm. pose proof Hg as (Hs & Hbit & Hl & Hzs).
  apply rbind_Ret_inv in Hm as (s' & Hshr & Hm).
  apply shrink_selector_spec in Hshr as [Hs' He]; [|lia].
  change 15 with (Z.of_nat (length selector_to_elems) - 1) in Hs' at 1.
  rewrite (rd1_table selector_to_elems) in Hm by lia.
  rewrite (rd1_table bit_per_integer) in Hm
    by (change (length bit_per_integer) with (length selector_to_elems); lia).
  cbn [rbind] in Hm. injection Hm as <-. fold (s2e s') (bpi s').
  change (Z.of_nat (length selector_to_elems) - 1) with 15 in Hs'.
  pose proof (selector_facts s' ltac:(lia)) as (? & _).
  exists s', (Z.to_nat (s2e s')), (bpi s'). rewrite Z2Nat.id, length_app, take_app_le by lia.
  split; [done|]. split; [lia|]. split; [by apply (group_ok_take zs sel bit s')|].
  split; [by left|lia].
Qed.

Lemma scan_group_spec rem : forall j pv prev zs sel bit g,
  0 <= j -> drop (Z.to_nat j) vals = rem -> group_ok zs sel bit ->
  scan_group (length rem) type input j pv prev sel (Z.of_nat (length zs)) bit = Ret (Some g) ->
  scan_result (zs ++ deltas prev rem) g.
Proof.
  induction rem as [|v rem IH]; intros j pv prev zs sel bit g Hj Hrem Hg Hscan;
    cbn [scan_group length] in Hscan; cbn [deltas].
  - injection Hscan as <-. rewrite app_nil_r. by apply scan_result_all.
  - assert (Hv : vals !! Z.to_nat j = Some v) by (rewrite <- (Nat.add_0_r (Z.to_nat j)),
      <- lookup_drop, Hrem; done).
    assert (Hrem' : drop (Z.to_nat (j + 1)) vals = rem) by
      (replace (Z.to_nat (j + 1)) with (Z.to_nat j + 1)%nat by lia;
       rewrite <- drop_drop, Hrem; done).
    rewrite (read_elem_vals j v) in Hscan by done. cbn [rbind] in Hscan.
    destruct (negb _); [done|].
    set (z := zigzag_encode (i64 (v - prev))) in *.
    destruct (SIMPLE8B_MAX_INT64 <=? z); [done|].
    assert (Hz : 0 <= z < 2 ^ 64) by (apply zigzag_encode_range, wraps_range; lia).
    destruct (bit_length_spec z) as [Hbl _]; [lia|].
    apply rbind_Ret_inv in Hscan as (room & Hroom & Hscan).
    apply rbind_Ret_inv in Hscan as (fits & Hfits & Hscan).
    destruct fits; [|by eapply scan_result_break].
    apply rd1_table_inv in Hroom as [_ Hroom]. fold (s2e sel) in Hroom.
    destruct (Z.leb_spec (Z.of_nat (length zs) + 1) room); [|done].
    apply rbind_Ret_inv in Hfits as (sb & Hsb & Hfits). rewrite Hsb in Hscan.
    apply rd1_table_inv in Hsb as [Htb Hsb].
    change (Z.of_nat (length bit_to_selector)) with 61 in Htb. fold (bts (bit_length z)) in Hsb.
    apply rbind_Ret_inv in Hfits as (room' & Hroom' & Hfits).
    apply rd1_table_inv in Hroom' as [_ Hroom']. fold (s2e sb) in Hroom'.
    injection Hfits as Hfits%Z.leb_le. cbn [rbind] in Hscan.
    pose proof (group_ok_snoc zs sel bit z sb Hg Hz Hsb ltac:(lia) ltac:(lia) ltac:(lia)) as Hg'.
    cbv zeta in Hg'. set (sel' := if sb <? sel then sel else sb) in *.
    apply rbind_Ret_inv in Hscan as (b' & Hb' & Hscan).
    apply rd1_table_inv in Hb' as [_ Hb']. fold (bpi sel') in Hb'. subst b'.
    replace (Z.of_nat (length zs) + 1) with (Z.of_nat (length (zs ++ [z]))) in Hscan
      by (rewrite length_app; simpl; lia).
    apply (IH (j + 1) pv v (zs ++ [z]) sel' (bpi sel') g) in Hscan; [|lia|done|done].
    by rewrite <- app_assoc in Hscan.
Qed.

(** *** Words, with a 64-bit [unsigned long] *)
#[local] Existing Instance LP64.

Lemma fields_cons bit z t : fields bit (z :: t) = z + 2 ^ bit * fields bit t.
Proof. done. Qed.

Lemma default_last_cons (prev v : Z) ch : default prev (last (v :: ch)) = default v (last ch).
Proof. rewrite last_cons. by destruct (last ch). Qed.

Lemma pack_group_spec ch : forall rest k i prev bit buffer,
  0 <= bit <= 60 -> 0 <= k -> 0 <= i -> bit * (k + Z.of_nat (length ch)) <= 60 ->
  0 <= buffer < 2 ^ (bit * k + 4) -> drop (Z.to_nat i) vals = ch ++ rest ->
  Forall (fun z => 0 <= z < 2 ^ bit) (deltas prev ch) ->
  pack_group (length ch) type input k i prev bit buffer =
    Ret (buffer + 2 ^ (bit * k + 4) * fields bit (deltas prev ch),
         i + Z.of_nat (length ch), default prev (last ch)).
Proof.
  induction ch as [|v ch IH]; intros rest k i prev bit buffer Hbit Hk Hi Hroom Hbuf Hrem Hz.
  - simpl. by rewrite Z.mul_0_r, !Z.add_0_r.
  - cbn [pack_group length deltas]. cbn [deltas] in Hz.
    apply Forall_cons in Hz as [Hz Hzs].
    rewrite (read_elem_vals i v)
      by (done || by rewrite <- (Nat.add_0_r (Z.to_nat i)), <- lookup_drop, Hrem).
    cbn [rbind]. rewrite INT64MASK_LP64 by lia. cbn [rbind].
    rewrite land_mask, (Z.mod_small _ (2 ^ bit)) by lia.
    set (z := zigzag_encode (i64 (v - prev))) in *. cbn [length] in Hroom.
    assert (Hpow : 2 ^ (bit * k + 4) * 2 ^ bit = 2 ^ (bit * (k + 1) + 4))
      by (rewrite <- Z.pow_add_r by nia; f_equal; lia).
    assert (Hle : 2 ^ (bit * (k + 1) + 4) <= 2 ^ 64) by (apply Z.pow_le_mono_r; nia).
    assert (Hp : 0 < 2 ^ (bit * k + 4)) by (apply pow2_pos; nia).
    assert (Hlt : z * 2 ^ (bit * k + 4) < 2 ^ (bit * (k + 1) + 4)) by nia.
    rewrite wrapu_id by (unfold in_u; rewrite Z.shiftl_mul_pow2 by nia; nia).
    assert (Hexp : 0 <= bit * k + 4) by nia.
    rewrite lor_shiftl by (assumption || lia).
    rewrite (IH rest); [|lia..| | |done].
    + rewrite fields_cons, <- Hpow.
      f_equal. f_equal; [f_equal; [ring|lia]|]. symmetry. apply default_last_cons.
    + nia.
    + replace (Z.to_nat (i + 1)) with (Z.to_nat i + 1)%nat by lia.
      by rewrite <- drop_drop, Hrem.
Qed.

Lemma fields_div bit z zs : 0 <= bit -> 0 <= z < 2 ^ bit ->
  fields bit (z :: zs) mod 2 ^ bit = z /\ fields bit (z :: zs) / 2 ^ bit = fields bit zs.
Proof.
  intros Hb Hz. rewrite fields_cons. pose proof (pow2_pos bit Hb). split.
  - rewrite Z.mul_comm, Z_mod_plus_full. by apply Z.mod_small.
  - rewrite Z.mul_comm, Z.div_add, Z.div_small by lia. lia.
Qed.

(** One word decodes to the values it was packed from. *)
Lemma decode_word_spec ch : forall e word sel i count prev out,
  0 <= sel <= 15 -> 0 <= i -> (length ch <= e)%nat -> ch <> [] ->
  bpi sel * (i + Z.of_nat (length ch)) <= 60 ->
  Forall (in_s 64) ch -> 0 <= word ->
  word / 2 ^ (4 + bpi sel * i) = fields (bpi sel) (deltas prev ch) ->
  Forall (fun z => 0 <= z < 2 ^ bpi sel) (deltas prev ch) ->
  count + Z.of_nat (length ch) <= n -> e = length ch \/ count + Z.of_nat (length ch) = n ->
  decode_word e word sel (bpi sel) (Z.of_nat w) n i count prev out =
    Ret (count + Z.of_nat (length ch), default prev (last ch), out ++ pack_elems w ch).
Proof.
  induction ch as [|v ch IH]; intros e word sel i count prev out Hs Hi He Hne Hroom Hch Hword
    Hdiv Hz Hcount Hend; [done|].
  destruct e as [|e]; [simpl in He; lia|]. cbn [decode_word length deltas] in *.
  apply Forall_cons in Hz as [Hz Hzs]. apply Forall_cons in Hch as [Hv Hch].
  pose proof (selector_facts sel Hs) as (_ & Hb & _ & Hb0 & _).
  set (z := zigzag_encode (i64 (v - prev))) in *.
  destruct (fields_div (bpi sel) z (deltas v ch)) as [Hmod Hd]; [lia..|].
  assert (Hnext : (if (sel =? 0) || (sel =? 1) then Ret 0
      else let! mask := INT64MASK (bpi sel) in
           Ret (Z.land (Z.shiftr word (4 + bpi sel * i)) mask)) = Ret z).
  { destruct (Z.leb_spec sel 1).
    - rewrite (Hb0 ltac:(lia)) in Hz. replace z with 0 by lia.
      by replace ((sel =? 0) || (sel =? 1)) with true by lia.
    - replace ((sel =? 0) || (sel =? 1)) with false by lia.
      rewrite INT64MASK_LP64 by lia. cbn [rbind]. rewrite land_mask by lia.
      rewrite Z.shiftr_div_pow2 by nia. by rewrite Hdiv, Hmod. }
  rewrite Hnext. cbn [rbind].
  assert (Hcur : i64 (zigzag_decode z + prev) = v).
  { unfold z. rewrite zigzag_decode_encode by (apply wraps_range; lia).
    apply wraps_sub_add; [lia|done]. }
  rewrite Hcur, Nat2Z.id.
  destruct (Z.eqb_spec (count + 1) n) as [Heq|Hneq].
  - assert (ch = []) as -> by (destruct ch; [done|simpl in Hcount; lia]).
    by rewrite pack_elems_one.
  - destruct ch as [|v' ch].
    + destruct Hend as [Hend|]; [|simpl in *; lia]. injection Hend as ->.
      cbn [length decode_word]. by rewrite pack_elems_one.
    + set (ch' := v' :: ch) in *.
      rewrite (IH e word sel (i + 1)); try done; try lia; [|].
      * rewrite default_last_cons, pack_elems_cons, app_assoc.
        do 3 f_equal. lia.
      * replace (4 + bpi sel * (i + 1)) with (4 + bpi sel * i + bpi sel) by lia.
        rewrite Z.pow_add_r, <- Z.div_div, Hdiv by (nia || apply Z.pow_nonzero; lia). done.
Qed.

Lemma fields_bound bit zs : 0 <= bit -> bit * Z.of_nat (length zs) <= 60 ->
  Forall (fun z => 0 <= z < 2 ^ bit) zs -> 0 <= fields bit zs < 2 ^ 60.
Proof.
  intros Hb Hl Hz. pose proof (fields_range bit zs Hb Hz).
  pose proof (Z.pow_le_mono_r 2 (bit * Z.of_nat (length zs)) 60). lia.
Qed.

(** One turn of the encoder's outer loop, undone by one turn of the decoder's. *)
Lemma encode_group_spec i prev rem g :
  0 <= i -> drop (Z.to_nat i) vals = rem -> rem <> [] ->
  scan_result (deltas prev rem) g ->
  exists ch rest sel word,
    rem = ch ++ rest /\ ch <> [] /\ g = (sel, Z.of_nat (length ch), bpi sel) /\
    pack_group (length ch) type input 0 i prev (bpi sel) (Z.lor 0 sel) =
      Ret (word, i + Z.of_nat (length ch), default prev (last ch)) /\
    forall fuel pre ws acc,
      i + Z.of_nat (length rem) = n ->
      decode_words (S fuel) (pre ++ le_bytes 8 word ++ ws) (Z.of_nat w) n
          (Z.of_nat (length pre)) i prev acc =
        decode_words fuel (pre ++ le_bytes 8 word ++ ws) (Z.of_nat w) n
          (Z.of_nat (length pre) + 8) (i + Z.of_nat (length ch)) (default prev (last ch))
          (acc ++ pack_elems w ch).
Proof.
  intros Hi Hrem Hne (sel & e & bit & -> & He & Hg & Hend & Hpos).
  rewrite take_deltas in Hg. rewrite length_deltas in He, Hend.
  assert (He0 : (0 < e)%nat) by (apply Hpos; by destruct rem).
  set (ch := take e rem) in *.
  assert (Hlch : length ch = e) by (unfold ch; rewrite length_take; lia).
  destruct Hg as (Hs & -> & Hle & Hz). rewrite length_deltas, Hlch in Hle.
  pose proof (selector_facts sel Hs) as (Hs2e & Hb & Hroom & _).
  exists ch, (drop e rem), sel, (sel + 16 * fields (bpi sel) (deltas prev ch)).
  assert (Hsplit : rem = ch ++ drop e rem) by (unfold ch; by rewrite take_drop).
  assert (Hchne : ch <> []) by (intros Hnil; rewrite Hnil in Hlch; simpl in Hlch; lia).
  assert (Hf : 0 <= fields (bpi sel) (deltas prev ch) < 2 ^ 60)
    by (apply fields_bound; [lia|rewrite length_deltas; nia|done]).
  split; [done|]. split; [done|]. split; [by rewrite Hlch|]. split.
  - rewrite Z.lor_0_l, (pack_group_spec ch (drop e rem)); try (done || lia || nia).
    + by rewrite Z.mul_0_r.
    + rewrite Z.mul_0_r. change (2 ^ (0 + 4)) with 16. lia.
    + by rewrite Hrem.
  - intros fuel pre ws acc Hn. cbn [decode_words].
    assert (Hlen : (length ch <= length rem)%nat) by (rewrite Hlch; lia).
    rewrite (proj2 (Z.eqb_neq i n)) by lia.
    rewrite (rd_app_mid pre) by (done || by rewrite length_le_bytes). cbn [rbind].
    rewrite le_val_bytes, Z.mod_small by (change (2 ^ (8 * Z.of_nat 8)) with (2 ^ 64); lia).
    rewrite INT64MASK_LP64 by lia. cbn [rbind]. rewrite land_mask by lia.
    change (2 ^ 4) with 16.
    assert (Hsel : (sel + 16 * fields (bpi sel) (deltas prev ch)) mod 16 = sel)
      by (rewrite Z.mul_comm, Z_mod_plus_full; apply Z.mod_small; lia).
    rewrite Hsel, !rd1_table by (change (Z.of_nat (length bit_per_integer)) with 16;
      change (Z.of_nat (length selector_to_elems)) with 16; lia).
    cbn [rbind]. fold (s2e sel) (bpi sel).
    rewrite (decode_word_spec ch); try (done || lia || nia).
    + apply Forall_forall. intros v Hv. apply in_s_64, vals_in_s.
      assert (Hvr : v ∈ rem) by (rewrite Hsplit; apply elem_of_app; by left).
      rewrite <- Hrem in Hvr.
      eapply subseteq_drop; exact Hvr.
    + rewrite Z.mul_0_r. change (2 ^ (4 + 0)) with 16.
      rewrite Z.mul_comm, Z.div_add, Z.div_small by lia. lia.
Qed.

Lemma groups_spec fuel : forall i prev out bl out',
  0 <= i <= n -> compress_groups fuel type input n bl i prev out = Ret (Some out') ->
  exists ws, out' = out ++ ws /\
    forall fuel' pre post acc, n - i < Z.of_nat fuel' ->
      decode_words fuel' (pre ++ ws ++ post) (Z.of_nat w) n (Z.of_nat (length pre)) i prev acc =
        Ret (acc ++ pack_elems w (drop (Z.to_nat i) vals)).
Proof.
  induction fuel as [|fuel IH]; intros i prev out bl out' Hi Hc; [done|].
  cbn [compress_groups] in Hc. destruct (Z.ltb_spec i n) as [Hlt|Hge].
  - set (rem := drop (Z.to_nat i) vals) in *.
    assert (Hlr : length rem = Z.to_nat (n - i)) by (unfold rem, n; rewrite length_drop; lia).
    assert (Hne : rem <> []) by (intros Hnil; rewrite Hnil in Hlr; simpl in Hlr; lia).
    apply rbind_Ret_inv in Hc as (g & Hscan & Hc). destruct g as [g|]; [|done].
    rewrite <- Hlr in Hscan. change 0 with (Z.of_nat (length (@nil Z))) in Hscan at 2.
    apply (scan_group_spec rem i prev prev [] 0 0) in Hscan; [|lia|done|].
    2: { split; [lia|]. split; [done|]. split; [simpl; discriminate|constructor]. }
    destruct (encode_group_spec i prev rem g) as (ch & rest & sel & word & Hsp & Hch & -> & Hp & Hd);
      [lia|done..|].
    rewrite Nat2Z.id, Hp in Hc. cbn [rbind] in Hc.
    destruct (_ <=? bl); [|done].
    assert (Hlch : (length ch <= length rem)%nat) by (rewrite Hsp, length_app; lia).
    apply IH in Hc as (ws & -> & Hdec); [|lia].
    exists (le_bytes 8 word ++ ws). rewrite app_assoc. split; [done|].
    intros fuel' pre post acc Hf. destruct fuel' as [|fuel']; [lia|].
    rewrite <- app_assoc. rewrite Hd by lia.
    replace (Z.of_nat (length pre) + 8) with (Z.of_nat (length (pre ++ le_bytes 8 word)))
      by (rewrite length_app, length_le_bytes; lia).
    rewrite app_assoc. rewrite Hdec by (destruct ch; simpl in *; [done|lia]).
    rewrite <- app_assoc, <- pack_elems_app. do 2 f_equal. f_equal.
    replace (Z.to_nat (i + Z.of_nat (length ch))) with (Z.to_nat i + length ch)%nat by lia.
    rewrite <- drop_drop. fold rem. rewrite Hsp, drop_app_length. done.
  - injection Hc as <-. exists []. rewrite app_nil_r. split; [done|].
    intros fuel' pre post acc Hf. destruct fuel' as [|fuel']; [lia|]. cbn [decode_words].
    rewrite (proj2 (Z.eqb_eq i n)) by lia. rewrite drop_ge by lia.
    unfold pack_elems. simpl. by rewrite app_nil_r.
Qed.

Lemma groups_size fuel : forall i prev out bl out',
  compress_groups fuel type input n bl i prev out = Ret (Some out') ->
  1 + Z.of_nat (length out) <= bl -> 1 + Z.of_nat (length out') <= bl.
Proof.
  induction fuel as [|fuel IH]; intros i prev out bl out' Hc Hl; [done|].
  cbn [compress_groups] in Hc. destruct (i <? n); [|by injection Hc as <-].
  apply rbind_Ret_inv in Hc as (g & _ & Hc). destruct g as [[[sel e] bit]|]; [|done].
  apply rbind_Ret_inv in Hc as ([[buffer i'] prev'] & _ & Hc).
  destruct (Z.leb_spec (1 + Z.of_nat (length out) + 8) bl); [|done].
  apply IH in Hc; [done|]. rewrite length_app, length_le_bytes. lia.
Qed.

(** *** Totality when the deltas fit 60 bits *)
Context (Hsmall : Forall (in_s 59) vals).

Lemma vals_small v : v ∈ vals -> in_s 59 v.
Proof using Hsmall. rewrite Forall_forall in Hsmall. apply Hsmall. Qed.

Lemma delta_small v prev : in_s 59 v -> in_s 59 prev ->
  0 <= zigzag_encode (i64 (v - prev)) < 2 ^ 60.
Proof.
  unfold in_s. change (59 - 1) with 58. intros Hv Hp.
  rewrite wraps_id, zigzag_encode_eq by (lia || unfold in_s; change (64 - 1) with 63; lia).
  destruct (Z.ltb_spec (v - prev) 0); lia.
Qed.

Lemma scan_group_total rem : forall j pv prev zs sel bit,
  0 <= j -> drop (Z.to_nat j) vals = rem -> group_ok zs sel bit -> in_s 59 prev ->
  exists g, scan_group (length rem) type input j pv prev sel (Z.of_nat (length zs)) bit = Ret g.
Proof.
  induction rem as [|v rem IH]; intros j pv prev zs sel bit Hj Hrem Hg Hprev;
    cbn [scan_group length]; [by eexists|].
  assert (Hv : vals !! Z.to_nat j = Some v) by (rewrite <- (Nat.add_0_r (Z.to_nat j)),
    <- lookup_drop, Hrem; done).
  assert (Hrem' : drop (Z.to_nat (j + 1)) vals = rem) by
    (replace (Z.to_nat (j + 1)) with (Z.to_nat j + 1)%nat by lia;
     rewrite <- drop_drop, Hrem; done).
  assert (Hvs : in_s 59 v) by (eapply vals_small, list_elem_of_lookup_2; exact Hv).
  rewrite (read_elem_vals j v) by done. cbn [rbind].
  destruct (negb _); [by eexists|].
  pose proof (delta_small v prev Hvs Hprev) as Hz.
  set (z := zigzag_encode (i64 (v - prev))) in *.
  destruct (SIMPLE8B_MAX_INT64 <=? z); [by eexists|].
  destruct (bit_length_spec z) as [Hbl _]; [lia|].
  pose proof (bit_length_le z 60 ltac:(lia) Hz) as Hbl'.
  pose proof Hg as (Hs & Hbit & Hl & Hzs).
  destruct (bts_facts (bit_length z)) as [Hb1 _]; [lia|].
  rewrite !(rd1_table selector_to_elems sel)
    by (change (Z.of_nat (length selector_to_elems)) with 16; lia).
  rewrite !(rd1_table bit_to_selector)
    by (change (Z.of_nat (length bit_to_selector)) with 61; lia).
  cbn [rbind]. fold (bts (bit_length z)) (s2e sel).
  rewrite !(rd1_table selector_to_elems (bts _))
    by (change (Z.of_nat (length selector_to_elems)) with 16; lia).
  cbn [rbind]. fold (s2e (bts (bit_length z))).
  pose proof (selector_facts sel Hs) as (Hs2e & _).
  pose proof (selector_facts (bts (bit_length z)) Hb1) as (Hs2e' & _).
  assert (Hbreak : 1 <= Z.of_nat (length zs) -> exists g,
    (let! s' := shrink_selector 17 (Z.of_nat (length zs)) sel in
     let! e := rd1 selector_to_elems s' in
     let! b := rd1 bit_per_integer s' in Ret (Some (s', e, b))) = Ret g).
  { intros He. destruct (shrink_selector_total 17 (Z.of_nat (length zs)) sel) as [s' Hs']; [lia..|].
    rewrite Hs'. apply shrink_selector_spec in Hs' as [Hr _]; [|lia]. cbn [rbind].
    rewrite !rd1_table by (change (Z.of_nat (length bit_per_integer)) with 16;
      change (Z.of_nat (length selector_to_elems)) with 16; lia). by eexists. }
  destruct (Z.leb_spec (Z.of_nat (length zs) + 1) (s2e sel)); cbn [rbind]; [|apply Hbreak; lia].
  destruct (Z.leb_spec (Z.of_nat (length zs) + 1) (s2e (bts (bit_length z)))); [|apply Hbreak; lia].
  pose proof (group_ok_snoc zs sel bit z _ Hg ltac:(lia) eq_refl ltac:(lia) ltac:(lia) ltac:(lia)) as Hg'.
  cbv zeta in Hg'. set (sel' := if _ <? sel then _ else _) in *.
  rewrite rd1_table
    by (change (Z.of_nat (length bit_per_integer)) with 16; destruct Hg'; lia).
  cbn [rbind]. fold (bpi sel').
  replace (Z.of_nat (length zs) + 1) with (Z.of_nat (length (zs ++ [z])))
    by (rewrite length_app; simpl; lia).
  apply IH; [lia|done..].
Qed.

Lemma groups_total fuel : forall i prev out bl,
  0 <= i <= n -> in_s 59 prev -> n - i < Z.of_nat fuel ->
  exists r, compress_groups fuel type input n bl i prev out = Ret r.
Proof.
  induction fuel as [|fuel IH]; intros i prev out bl Hi Hprev Hf; [lia|].
  cbn [compress_groups]. destruct (Z.ltb_spec i n) as [Hlt|Hge]; [|by eexists].
  set (rem := drop (Z.to_nat i) vals).
  assert (Hlr : length rem = Z.to_nat (n - i)) by (unfold rem, n; rewrite length_drop; lia).
  assert (Hne : rem <> []) by (intros Hnil; rewrite Hnil in Hlr; simpl in Hlr; lia).
  assert (Hg0 : group_ok [] 0 0)
    by (split; [lia|]; split; [done|]; split; [simpl; discriminate|constructor]).
  destruct (scan_group_total rem i prev prev [] 0 0) as [g Hscan]; [lia|done..|].
  rewrite <- Hlr. change (Z.of_nat (length (@nil Z))) with 0 in Hscan. rewrite Hscan. cbn [rbind].
  destruct g as [g|]; [|by eexists].
  change 0 with (Z.of_nat (length (@nil Z))) in Hscan at 2.
  apply (scan_group_spec rem i prev prev [] 0 0) in Hscan; [|lia|done..].
  destruct (encode_group_spec i prev rem g) as (ch & rest & sel & word & Hsp & Hch & -> & Hp & _);
    [lia|done..|].
  rewrite Nat2Z.id, Hp. cbn [rbind]. destruct (_ <=? bl); [|by eexists].
  assert (Hlch : (length ch <= length rem)%nat) by (rewrite Hsp, length_app; lia).
  apply IH; [lia| |destruct ch; simpl in *; [done|lia]].
  destruct (last ch) as [x|] eqn:Hx; [|done]. simpl. apply vals_small.
  apply last_Some_elem_of in Hx. apply (subseteq_drop (Z.to_nat i)).
  fold rem. rewrite Hsp. apply elem_of_app. by left.
Qed.

End Codec.

(** ** Properties *)
#[local] Transparent selector_to_elems bit_per_integer bit_to_selector.
#[local] Existing Instance LP64.

Lemma word_length_of_inv type wl : word_length_of type = Ret wl ->
  exists w, wl = Z.of_nat w /\ (0 < w)%nat /\ (w <= 8)%nat /\
    (type = TSDB_DATA_TYPE_BIGINT \/ (w <= 4)%nat).
Proof.
  unfold word_length_of, LONG_BYTES, INT_BYTES, SHORT_BYTES, CHAR_BYTES.
  destruct (Z.eqb_spec type TSDB_DATA_TYPE_BIGINT); [|repeat destruct (_ =? _); try done];
    intros [= <-].
  - exists 8%nat. lia.
  - exists 4%nat. lia.
  - exists 2%nat. lia.
  - exists 1%nat. lia.
Qed.

Lemma narrow_small w vals : (0 < w)%nat -> (w <= 4)%nat ->
  Forall (in_s (8 * Z.of_nat w)) vals -> Forall (in_s 59) vals.
Proof.
  intros Hw Hw4 Hv. eapply Forall_impl; [exact Hv|]. unfold in_s. clear Hv. intros v Hv.
  pose proof (Z.pow_le_mono_r 2 (8 * Z.of_nat w - 1) (59 - 1)). lia.
Qed.

Lemma groups_bytes type input n bl fuel : forall i prev out out',
  compress_groups fuel type input n bl i prev out = Ret (Some out') ->
  bytes_ok out -> bytes_ok out'.
Proof.
  induction fuel as [|fuel IH]; intros i prev out out' Hc Hok; [done|].
  cbn [compress_groups] in Hc. destruct (i <? n); [|by injection Hc as <-].
  apply rbind_Ret_inv in Hc as (g & _ & Hc). destruct g as [[[sel e] bit]|]; [|done].
  apply rbind_Ret_inv in Hc as ([[buffer i'] prev'] & _ & Hc). destruct (_ <=? bl); [|done].
  apply IH in Hc; [done|]. apply bytes_ok_app. split; [done|apply le_bytes_ok].
Qed.

Lemma int_codec type wl : word_length_of type = Ret wl ->
  ColumnCodec wl (fun input n => tsCompressINTImp input n type)
    (fun input n => tsDecompressINTImp input n type).
Proof.
  intros Hwl. destruct (word_length_of_inv _ _ Hwl) as (w & -> & Hw & Hw8 & _).
  split; [lia|]. intros n input out post Hin Hn Hlen Hout.
  destruct (typed_view w (Z.to_nat n) input) as (vals & Hnv & Hvals & ->); [lia|done|lia|].
  unfold tsCompressINTImp in Hout. rewrite Hwl in Hout. cbn [rbind] in Hout.
  apply rbind_Ret_inv in Hout as (r & Hr & Hout).
  unfold tsDecompressINTImp. rewrite Hwl. cbn [rbind].
  replace n with (Z.of_nat (length vals)) in * by lia.
  destruct r as [ws|].
  - injection Hout as <-.
    split; [apply bytes_ok_cons; [done|by eapply groups_bytes; [exact Hr|constructor]]|].
    pose proof Hr as Hsize. apply (groups_size type w vals Hw Hw8) in Hsize; [|simpl; lia].
    apply (groups_spec type w vals Hwl Hw Hw8 Hvals) in Hr as (ws' & -> & Hdec); [|lia].
    split; [simpl in *; lia|].
    change (rd1 _ 0) with (Ret 0). cbn [rbind]. change (0 =? 1) with false. cbn iota.
    apply (Hdec _ [0] post []). lia.
  - apply rbind_Ret_inv in Hout as (raw & Hraw & Hout). injection Hout as <-.
    replace (_ + 1 - 1) with (Z.of_nat (length (pack_elems w vals))) in Hraw by lia.
    rewrite rd_full in Hraw. injection Hraw as <-. split; [by apply bytes_ok_cons|].
    change (rd1 _ 0) with (Ret 1). cbn [rbind]. change (1 =? 1) with true. cbn iota.
    split; [simpl; lia|]. apply (rd_app_mid [1]); [done|lia].
Qed.

(** C13.  Integer columns round-trip (LP64): whatever [tsCompressINTImp] returns
    for a column of any integer type, [tsDecompressINTImp] decodes to exactly
    the bytes that went in, even when other bytes follow the encoding, and the
    encoding never exceeds the input by more than its one flag byte. *)
Theorem int_roundtrip (type wl n : Z) (input out post : list Z)
    (Hwl : word_length_of type = Ret wl) (Hin : bytes_ok input) (Hn : 0 <= n)
    (Hlen : Z.of_nat (length input) = n * wl)
    (Hout : tsCompressINTImp input n type = Ret out) :
  tsDecompressINTImp (out ++ post) n type = Ret input /\
  Z.of_nat (length out) <= n * wl + 1.
Proof.
  destruct (int_codec type wl Hwl) as [_ Hlaw].
  destruct (Hlaw n input out post Hin Hn Hlen Hout) as (_ & ? & ?). done.
Qed.

(** A column whose values have 59 bits at most is encoded, group by group. *)
Lemma int_all (type wl n : Z) (vals : list Z)
    (Hwl : word_length_of type = Ret wl) (Hn : n = Z.of_nat (length vals))
    (Hvals : Forall (in_s (8 * wl)) vals)
    (Hsmall : type = TSDB_DATA_TYPE_BIGINT -> Forall (in_s 59) vals) :
  exists out, tsCompressINTImp (pack_elems (Z.to_nat wl) vals) n type = Ret out.
Proof.
  destruct (word_length_of_inv _ _ Hwl) as (w & -> & Hw & Hw8 & Htype). rewrite Nat2Z.id.
  assert (Hs : Forall (in_s 59) vals).
  { destruct (decide (type = TSDB_DATA_TYPE_BIGINT)) as [Hb|Hb]; [by apply Hsmall|].
    destruct Htype; [done|]. by apply (narrow_small w). }
  unfold tsCompressINTImp. rewrite Hwl. cbn [rbind]. subst n.
  destruct (groups_total type w vals Hwl Hw Hw8 Hvals Hs (S (Z.to_nat (Z.of_nat (length vals))))
    0 0 [] (Z.of_nat (length vals) * Z.of_nat w + 1)) as [r Hr]; [lia| |lia|].
  { unfold in_s. change (59 - 1) with 58. lia. }
  rewrite Hr. cbn [rbind]. destruct r as [ws|]; [by eexists|].
  replace (_ + 1 - 1) with (Z.of_nat (length (pack_elems w vals)))
    by (rewrite length_pack_elems; lia).
  rewrite rd_full. by eexists.
Qed.

(** C14.  Integer columns always compress where unsigned long has 64 bits (LP64): for
    TINYINT, SMALLINT and INT columns of any content, and for BIGINT columns whose values fit
    59 bits, [tsCompressINTImp] returns, every table access in bounds and every loop ending.
    (Where it has 32 bits, see [int_ilp32_undef].) *)
Theorem int_total (type wl n : Z) (vals : list Z)
    (Hwl : word_length_of type = Ret wl) (Hn : n = Z.of_nat (length vals))
    (Hvals : Forall (in_s (8 * wl)) vals)
    (Hsmall : type = TSDB_DATA_TYPE_BIGINT -> Forall (in_s 59) vals) :
  exists out, tsCompressINTImp (pack_elems (Z.to_nat wl) vals) n type = Ret out.
Proof. exact (int_all type wl n vals Hwl Hn Hvals Hsmall). Qed.

Lemma clz_bits z k : 0 <= k -> 2 ^ k <= z < 2 ^ (k + 1) -> bit_length z = k + 1.
Proof.
  intros Hk Hz. unfold bit_length, builtin_clzll, LONG_BYTES, BITS_PER_BYTE.
  pose proof (pow2_pos k Hk). rewrite (proj2 (Z.eqb_neq z 0)) by lia.
  rewrite (Z.log2_unique z k) by (lia || (split; [lia|]; rewrite <- Z.add_1_r; lia)). lia.
Qed.

(** The first step of the scan of a one-element BIGINT column. *)
Lemma scan_one v : 0 <= v < 2 ^ 60 - 1 ->
  scan_group 1 TSDB_DATA_TYPE_BIGINT (le_bytes 8 v) 0 0 0 0 0 0 =
    (let! sel := rd1 bit_to_selector (bit_length (2 * v)) in
     let! room := rd1 selector_to_elems sel in
     if 1 <=? room then
       let! bit := rd1 bit_per_integer (if sel <? 0 then 0 else sel) in
       Ret (Some (if sel <? 0 then 0 else sel, 1, bit))
     else
       let! selector := shrink_selector 17 0 0 in
       let! elems := rd1 selector_to_elems selector in
       let! bit := rd1 bit_per_integer selector in
       Ret (Some (selector, elems, bit))).
Proof.
  intros Hv. cbn [scan_group]. unfold read_elem. change (word_length_of _) with (Ret LONG_BYTES).
  cbn [rbind]. rewrite <- (pack_elems_one 8). change LONG_BYTES with (Z.of_nat 8).
  rewrite (rds_pack 8 [v] 0 v) by (done || lia || (unfold in_s; simpl; lia)). cbn [rbind].
  rewrite safeInt64Add_spec by (unfold in_s; change (i64 (- 0)) with 0; simpl; lia).
  rewrite bool_decide_true by (unfold in_s; change (i64 (- 0)) with 0; simpl; lia).
  cbn [negb].
  rewrite (wraps_id 64) by (lia || unfold in_s; simpl; lia).
  rewrite zigzag_encode_eq by (unfold in_s; simpl; lia).
  rewrite (proj2 (Z.ltb_ge (v - 0) 0)) by lia. rewrite Z.sub_0_r.
  unfold SIMPLE8B_MAX_INT64. rewrite (proj2 (Z.leb_gt _ (2 * v))) by lia.
  rewrite (rd1_table selector_to_elems 0) by (change (Z.of_nat (length selector_to_elems)) with 16; lia).
  cbn [rbind]. change (0 + 1 <=? nth (Z.to_nat 0) selector_to_elems 0) with true. cbn iota.
  destruct (rd1 bit_to_selector (bit_length (2 * v))) as [sel| | |]; cbn [rbind]; try done.
  destruct (rd1 selector_to_elems sel) as [room| | |]; cbn [rbind]; try done.
Qed.

(** The guard of the codec is one bit too weak: a BIGINT column holding the
    single value [v] with [2^59 <= v < 2^60 - 1] passes the [SIMPLE8B_MAX_INT64]
    test with a 61-bit zigzag value, and the encoder then reads
    [bit_to_selector] past its last entry. *)
Theorem int_guard_gap `{DM : DataModel} (v : Z) (Hv : 2 ^ 59 <= v < 2 ^ 60 - 1) :
  tsCompressINTImp (le_bytes 8 v) 1 TSDB_DATA_TYPE_BIGINT = Undef.
Proof.
  unfold tsCompressINTImp. change (word_length_of _) with (Ret LONG_BYTES). cbn [rbind].
  change (S (Z.to_nat 1)) with 2%nat. cbn [compress_groups]. change (0 <? 1) with true. cbn iota.
  change (Z.to_nat (1 - 0)) with 1%nat. rewrite scan_one by lia.
  rewrite (clz_bits (2 * v) 60) by lia. done.
Qed.

(** On a 32-bit target ([unsigned long] of 32 bits, the ARM build) the
    60-bit mask is an undefined shift: a BIGINT column holding one [v] with
    [2^29 <= v < 2^59] cannot be encoded. *)
Theorem int_ilp32_undef (v : Z) (Hv : 2 ^ 29 <= v < 2 ^ 59) :
  @tsCompressINTImp ILP32 (le_bytes 8 v) 1 TSDB_DATA_TYPE_BIGINT = Undef.
Proof.
  unfold tsCompressINTImp. change (word_length_of _) with (Ret LONG_BYTES). cbn [rbind].
  change (S (Z.to_nat 1)) with 2%nat. cbn [compress_groups]. change (0 <? 1) with true. cbn iota.
  change (Z.to_nat (1 - 0)) with 1%nat. rewrite scan_one by lia.
  assert (Hbl : 31 <= bit_length (2 * v) <= 60).
  { split; [|apply bit_length_le; lia].
    destruct (bit_length_spec (2 * v)) as [H1 H2]; [lia|].
    destruct (Z.le_gt_cases 31 (bit_length (2 * v))); [done|].
    pose proof (Z.pow_le_mono_r 2 (bit_length (2 * v)) 30). lia. }
  rewrite rd1_table by (change (Z.of_nat (length bit_to_selector)) with 61; lia).
  fold (bts (bit_length (2 * v))).
  assert (Hsel : bts (bit_length (2 * v)) = 15).
  { pose proof (check_range (fun t => (t <? 31) || (bts t =? 15)) 61 eq_refl
      (bit_length (2 * v)) ltac:(lia)) as H. cbv beta in H. lia. }
  rewrite Hsel. cbn [rbind]. change (rd1 selector_to_elems 15) with (Ret 1). cbn [rbind].
  change (1 <=? 1) with true. change (15 <? 0) with false. cbn iota.
  change (rd1 bit_per_integer 15) with (Ret 60). cbn [rbind].
  change (Z.to_nat 1) with 1%nat. cbn [pack_group]. unfold read_elem.
  change (word_length_of _) with (Ret LONG_BYTES). cbn [rbind].
  rewrite <- (pack_elems_one 8). change LONG_BYTES with (Z.of_nat 8).
  by rewrite (rds_pack 8 [v] 0 v) by (done || lia || (unfold in_s; simpl; lia)).
Qed.

Lemma int_roundtrip_witness :
  let vals := [7; -3; 1000; 1000; -2 ^ 31] in
  exists out, tsCompressINTImp (pack_elems 4 vals) 5 TSDB_DATA_TYPE_INT = Ret out /\
    tsDecompressINTImp (out ++ [9; 9]) 5 TSDB_DATA_TYPE_INT = Ret (pack_elems 4 vals).
Proof.
  eexists. split; [vm_compute; reflexivity|].
  apply (int_roundtrip TSDB_DATA_TYPE_INT 4); try reflexivity; [apply pack_elems_ok|lia].
Defined.

Lemma int_total_witness :
  exists out, tsCompressINTImp (pack_elems 8 [2 ^ 58 - 1; - 2 ^ 58; 0]) 3 TSDB_DATA_TYPE_BIGINT
    = Ret out.
Proof.
  apply (int_total TSDB_DATA_TYPE_BIGINT 8 3); [reflexivity..| |];
    [|intros _]; repeat constructor; unfold in_s; simpl; lia.
Defined.

Lemma int_guard_gap_witness :
  @tsCompressINTImp LP64 (le_bytes 8 (2 ^ 59 + 5)) 1 TSDB_DATA_TYPE_BIGINT = Undef.
Proof. apply int_guard_gap. lia. Defined.

Lemma int_ilp32_undef_witness :
  @tsCompressINTImp ILP32 (le_bytes 8 (2 ^ 40)) 1 TSDB_DATA_TYPE_BIGINT = Undef /\
  exists out, @tsCompressINTImp LP64 (le_bytes 8 (2 ^ 40)) 1 TSDB_DATA_TYPE_BIGINT = Ret out.
Proof.
  split; [apply int_ilp32_undef; lia|]. eexists. vm_compute. reflexivity.
Defined.
