(* ===== verification/CompBool.v ===== *)
(** * Bool column codecs (tcompression.c)

    The two-bits-per-value codec [tsCompressBoolImp] and the run-length codec
    [tsCompressBoolRLEImp], with their decoders. *)
From S2P Require Import Prelude CompBase.

#[local] Ltac Zify.zify_post_hook ::= Z.div_mod_to_equations.

(** The branches on [input[i]] that update [output[pos]]. *)
Definition bool_put (cur i v : Z) : res Z :=
  let ele_per_byte := BITS_PER_BYTE / 2 in
  let sh := 2 * (Z.rem i ele_per_byte) in
  if v =? 1 then Ret (u8 (Z.lor cur (u8 (Z.shiftl 1 sh))))
  else if v =? 0 then Ret (u8 (Z.land cur (u8 (Z.shiftl 1 sh - 1))))
  else if v =? TSDB_DATA_BOOL_NULL then Ret (u8 (Z.lor cur (u8 (Z.shiftl 2 sh))))
  else Exit.

(** The loop; [out] is [output\[0 .. pos\]] and [n] is [nelements - i]. *)
Fixpoint bool_compress_loop (n : nat) (input : list Z) (i pos : Z) (out : list Z) : res (list Z) :=
  match n with
  | O => Ret out
  | S n' =>
      let ele_per_byte := BITS_PER_BYTE / 2 in
      let first := Z.rem i ele_per_byte =? 0 in
      let pos := if first then pos + 1 else pos in
      let out := if first then out ++ [0] else out in
      let! v := rd1 input i in
      let! cur := rd1 out pos in
      let! b := bool_put cur i v in
      bool_compress_loop n' input (i + 1) pos (<[Z.to_nat pos := b]> out)
  end.

(** The bytes written to [output]; the C function returns their number. *)
Definition tsCompressBoolImp (input : list Z) (nelements : Z) : res (list Z) :=
  bool_compress_loop (Z.to_nat nelements) input 0 (-1) [].

(** The element decoded from a byte, a signed [char] shifted right. *)
Definition bool_get (byte i : Z) : Z :=
  let ele_per_byte := BITS_PER_BYTE / 2 in
  let ele := u8 (Z.land (Z.shiftr (i8 byte) (2 * (Z.rem i ele_per_byte))) (INT8MASK 2)) in
  if ele =? 1 then 1 else if ele =? 2 then TSDB_DATA_BOOL_NULL else 0.

Fixpoint bool_decompress_loop (n : nat) (input : list Z) (i ipos : Z) (out : list Z)
    : res (list Z) :=
  match n with
  | O => Ret out
  | S n' =>
      let ele_per_byte := BITS_PER_BYTE / 2 in
      let ipos := if Z.rem i ele_per_byte =? 0 then ipos + 1 else ipos in
      let! b := rd1 input ipos in
      bool_decompress_loop n' input (i + 1) ipos (out ++ [bool_get b i])
  end.

Definition tsDecompressBoolImp (input : list Z) (nelements : Z) : res (list Z) :=
  bool_decompress_loop (Z.to_nat nelements) input 0 (-1) [].

(** [for (++i; i < nelements; i++)]: extends a run of [num]; the result is
    the new [counter] and [i]. *)
Fixpoint rle_run (n : nat) (input : list Z) (num i counter : Z) : res (Z * Z) :=
  match n with
  | O => Ret (counter, i)
  | S n' =>
      let! v := rd1 input i in
      if v =? num then
        let counter := u8 (counter + 1) in
        if counter =? INT8MASK 7 then Ret (counter, i + 1)
        else rle_run n' input num (i + 1) counter
      else Ret (counter, i)
  end.

(** The encoded byte of a run. *)
Definition rle_byte (num counter : Z) : res Z :=
  if num =? 1 then Ret (u8 (Z.lor (INT8MASK 1) (Z.shiftl counter 1)))
  else if num =? 0 then Ret (u8 (Z.lor (Z.shiftl counter 1) (INT8MASK 0)))
  else Exit.

Fixpoint rle_compress_loop (fuel : nat) (input : list Z) (nelements i : Z) (out : list Z)
    : res (list Z) :=
  match fuel with
  | O => NoFuel
  | S fuel' =>
      if i <? nelements then
        let! num := rd1 input i in
        let! r := rle_run (Z.to_nat (nelements - (i + 1))) input num (i + 1) 1 in
        let '(counter, i) := r in
        let! b := rle_byte num counter in
        rle_compress_loop fuel' input nelements i (out ++ [b])
      else Ret out
  end.

Definition tsCompressBoolRLEImp (input : list Z) (nelements : Z) : res (list Z) :=
  rle_compress_loop (S (Z.to_nat nelements)) input nelements 0 [].

(** The [while (1)] loop; [out] is [output\[0 .. opos - 1\]]. *)
Fixpoint rle_decompress_loop (fuel : nat) (input : list Z) (nelements ipos : Z) (out : list Z)
    : res (list Z) :=
  match fuel with
  | O => NoFuel
  | S fuel' =>
      let! encode := rd1 input ipos in
      let counter := Z.land (Z.shiftr (i8 encode) 1) (INT8MASK 7) in
      let value := Z.land (i8 encode) (INT8MASK 1) in
      let out := out ++ replicate (Z.to_nat counter) value in
      if nelements <=? Z.of_nat (length out) then Ret out
      else rle_decompress_loop fuel' input nelements (ipos + 1) out
  end.

(** Everything written to [output], which is [nelements] bytes when the runs
    add up to it; each turn of the loop consumes a byte of [input]. *)
Definition tsDecompressBoolRLEImp (input : list Z) (nelements : Z) : res (list Z) :=
  rle_decompress_loop (S (length input)) input nelements 0 [].

(** ** Two bits per value *)
Definition bool_ok (v : Z) : bool := (v =? 0) || (v =? 1) || (v =? 2).

(** One [output[pos]] update: the fields below are kept, the new one is [v]. *)
Lemma bool_put_spec cur i v :
  0 <= i -> 0 <= cur < 4 ^ (i mod 4) -> bool_ok v = true ->
  exists b, bool_put cur i v = Ret b /\ 0 <= b < 4 ^ (i mod 4 + 1) /\ bool_get b i = v /\
    forall j, 0 <= j -> j mod 4 < i mod 4 -> bool_get b j = bool_get cur j.
Proof.
  intros Hi Hcur Hv. pose proof (Z.mod_pos_bound i 4 ltac:(lia)) as Hk.
  assert (Hrem : forall j, 0 <= j -> Z.rem j (BITS_PER_BYTE / 2) = j mod 4)
    by (intros; apply rem_mod; lia).
  assert (Hput : bool_put cur i v = bool_put cur (i mod 4) v)
    by (unfold bool_put; rewrite !Hrem, Z.mod_mod by lia; done).
  assert (Hget : forall b j, 0 <= j -> bool_get b j = bool_get b (j mod 4))
    by (intros; unfold bool_get; rewrite !Hrem, Z.mod_mod by (pose proof (Z.mod_pos_bound j 4); lia); done).
  assert (Hcheck : forall k, 0 <= k < 4 -> forall c, 0 <= c < 256 -> forall x, 0 <= x < 3 ->
    ((4 ^ k <=? c) || match bool_put c k x with
     | Ret b => (0 <=? b) && (b <? 4 ^ (k + 1)) && (bool_get b k =? x) &&
         forallb (fun j => (k <=? j) || (bool_get b j =? bool_get c j)) (seqZ 0 4)
     | _ => false end) = true).
  { intros k Hk' c Hc x Hx.
    pose proof (check_range (fun k => forallb (fun c => forallb (fun x =>
      ((4 ^ k <=? c) || match bool_put c k x with
     | Ret b => (0 <=? b) && (b <? 4 ^ (k + 1)) && (bool_get b k =? x) &&
         forallb (fun j => (k <=? j) || (bool_get b j =? bool_get c j)) (seqZ 0 4)
     | _ => false end)) (seqZ 0 3)) (seqZ 0 256)) 4 ltac:(vm_compute; reflexivity) k Hk') as H.
    cbv beta in H. apply (check_range _ 256) with (s := c) in H; [|lia].
    by apply (check_range _ 3) with (s := x) in H; [|lia]. }
  assert (Hpow : 4 ^ (i mod 4) <= 4 ^ 3) by (apply Z.pow_le_mono_r; lia).
  specialize (Hcheck (i mod 4) Hk cur ltac:(lia) v ltac:(unfold bool_ok in Hv; lia)).
  rewrite (proj2 (Z.leb_gt _ _)) in Hcheck by lia. cbn [orb] in Hcheck.
  rewrite Hput. destruct (bool_put cur (i mod 4) v) as [b| | |]; try done.
  apply andb_prop in Hcheck as [Hb Hkeep]. exists b.
  split; [done|]. split; [lia|]. split; [rewrite Hget by lia; lia|].
  intros j Hj Hlt. rewrite (Hget b j), (Hget cur j) by done. pose proof (Z.mod_pos_bound j 4 ltac:(lia)).
  apply (check_range _ 4) with (s := j mod 4) in Hkeep; [|lia]. cbv beta in Hkeep. lia.
Qed.


Lemma bool_put_error cur i v : bool_ok v = false -> bool_put cur i v = Exit.
Proof.
  unfold bool_ok, bool_put, TSDB_DATA_BOOL_NULL. intros Hv.
  by destruct (v =? 1), (v =? 0), (v =? 2).
Qed.

(** [out] encodes the first [i] of [vals]. *)
Record bool_enc (vals : list Z) (i : Z) (out : list Z) : Prop := {
  enc_len : Z.of_nat (length out) = (i + 3) / 4;
  enc_last : i mod 4 <> 0 -> exists b, out !! Z.to_nat (i / 4) = Some b /\ 0 <= b < 4 ^ (i mod 4);
  enc_get : forall j v, 0 <= j < i -> vals !! Z.to_nat j = Some v ->
    exists b, out !! Z.to_nat (j / 4) = Some b /\ bool_get b j = v }.

Lemma bool_enc_nil vals : bool_enc vals 0 [].
Proof. split; [done..|]. intros; lia. Qed.

(** The byte the step works on. *)
Definition bool_cell (i : Z) (out : list Z) : list Z := if i mod 4 =? 0 then out ++ [0] else out.

Lemma bool_cell_spec vals i out : 0 <= i -> bool_enc vals i out ->
  exists cur, bool_cell i out !! Z.to_nat (i / 4) = Some cur /\ 0 <= cur < 4 ^ (i mod 4) /\
    Z.of_nat (length (bool_cell i out)) = i / 4 + 1.
Proof.
  intros Hi [Hl Hlast _]. unfold bool_cell. pose proof (Z.mod_pos_bound i 4 ltac:(lia)).
  destruct (Z.eqb_spec (i mod 4) 0) as [Hz|Hz].
  - exists 0. rewrite Hz. assert (Hq : (i + 3) / 4 = i / 4) by lia.
    rewrite lookup_app_r, length_app by lia.
    replace (Z.to_nat (i / 4) - length out)%nat with 0%nat by lia.
    split; [done|]. simpl. lia.
  - destruct (Hlast Hz) as (b & Hb & Hr). exists b. split; [done|]. lia.
Qed.

Lemma bool_enc_step vals i out v cur b :
  0 <= i -> bool_enc vals i out -> vals !! Z.to_nat i = Some v ->
  bool_cell i out !! Z.to_nat (i / 4) = Some cur ->
  0 <= b < 4 ^ (i mod 4 + 1) -> bool_get b i = v ->
  (forall j, 0 <= j -> j mod 4 < i mod 4 -> bool_get b j = bool_get cur j) ->
  bool_enc vals (i + 1) (<[Z.to_nat (i / 4) := b]> (bool_cell i out)).
Proof.
  intros Hi Henc Hv Hcur Hb Hget Hkeep.
  destruct (bool_cell_spec vals i out Hi Henc) as (c0 & _ & _ & Hlen).
  destruct Henc as [Hl _ Henc]. pose proof (Z.mod_pos_bound i 4 ltac:(lia)).
  split.
  - rewrite length_insert, Hlen. lia.
  - intros Hm. assert (Hq : (i + 1) / 4 = i / 4 /\ (i + 1) mod 4 = i mod 4 + 1) by lia.
    destruct Hq as [-> ->]. exists b. rewrite list_lookup_insert_eq by lia. done.
  - intros j x Hj Hx. destruct (decide (j = i)) as [->|Hne].
    { exists b. rewrite list_lookup_insert_eq by lia. split; [done|congruence]. }
    destruct (Henc j x ltac:(lia) Hx) as (c & Hc & Hcx).
    assert (Hcell : bool_cell i out !! Z.to_nat (j / 4) = Some c).
    { unfold bool_cell. destruct (i mod 4 =? 0); [|done].
      rewrite lookup_app_l; [done|]. by eapply lookup_lt_Some. }
    destruct (decide (j / 4 = i / 4)) as [Heq|Hdiff].
    + exists b. rewrite Heq, list_lookup_insert_eq by lia. split; [done|].
      rewrite Heq in Hcell. simplify_eq. apply Hkeep; lia.
    + exists c. rewrite list_lookup_insert_ne by lia. done.
Qed.

Lemma bool_compress_spec vals n : forall i out,
  0 <= i -> i + Z.of_nat n = Z.of_nat (length vals) ->
  forallb bool_ok vals = true -> bool_enc vals i out ->
  exists out', bool_compress_loop n vals i ((i + 3) / 4 - 1) out = Ret out' /\
    bool_enc vals (Z.of_nat (length vals)) out'.
Proof.
  induction n as [|n IH]; intros i out Hi Hn Hok Henc; cbn [bool_compress_loop].
  - exists out. split; [done|]. by replace (Z.of_nat (length vals)) with i by lia.
  - change (BITS_PER_BYTE / 2) with 4. rewrite rem_mod by lia. fold (bool_cell i out).
    destruct (lookup_lt_is_Some_2 vals (Z.to_nat i)) as [v Hv]; [lia|].
    rewrite (rd1_lookup _ _ _ Hi Hv). cbn [rbind].
    destruct (bool_cell_spec vals i out Hi Henc) as (cur & Hcur & Hr & _).
    pose proof (Z.mod_pos_bound i 4 ltac:(lia)).
    assert (Hpos : (if i mod 4 =? 0 then (i + 3) / 4 - 1 + 1 else (i + 3) / 4 - 1) = i / 4)
      by (destruct (Z.eqb_spec (i mod 4) 0); lia).
    rewrite Hpos, (rd1_lookup _ (i / 4) cur) by (lia || done). cbn [rbind].
    rewrite forallb_forall in Hok.
    destruct (bool_put_spec cur i v Hi Hr) as (b & -> & Hb & Hget & Hkeep).
    { apply Hok, list_elem_of_In. by eapply list_elem_of_lookup_2. }
    cbn [rbind]. specialize (IH (i + 1)).
    replace ((i + 1 + 3) / 4 - 1) with (i / 4) in IH by lia. apply IH; [lia..|by apply forallb_forall|]. by eapply bool_enc_step.
Qed.

Lemma bool_decompress_spec vals enc post n : forall i acc,
  0 <= i -> i + Z.of_nat n = Z.of_nat (length vals) ->
  bool_enc vals (Z.of_nat (length vals)) enc ->
  bool_decompress_loop n (enc ++ post) i ((i + 3) / 4 - 1) acc =
    Ret (acc ++ drop (Z.to_nat i) vals).
Proof.
  induction n as [|n IH]; intros i acc Hi Hn Henc; cbn [bool_decompress_loop].
  - rewrite drop_ge by lia. by rewrite app_nil_r.
  - change (BITS_PER_BYTE / 2) with 4. rewrite rem_mod by lia.
    destruct (lookup_lt_is_Some_2 vals (Z.to_nat i)) as [v Hv]; [lia|].
    destruct (enc_get _ _ _ Henc i v ltac:(lia) Hv) as (b & Hb & Hget).
    pose proof (Z.mod_pos_bound i 4 ltac:(lia)).
    assert (Hpos : (if i mod 4 =? 0 then (i + 3) / 4 - 1 + 1 else (i + 3) / 4 - 1) = i / 4)
      by (destruct (Z.eqb_spec (i mod 4) 0); lia).
    rewrite Hpos, (rd1_lookup _ _ b) by (lia || by apply lookup_app_l_Some). cbn [rbind].
    replace (i / 4) with ((i + 1 + 3) / 4 - 1) by lia. rewrite IH by (lia || done).
    rewrite (drop_S vals v (Z.to_nat i)) by done. rewrite Hget, <- app_assoc.
    by replace (Z.to_nat (i + 1)) with (S (Z.to_nat i)) by lia.
Qed.

Lemma bool_compress_error vals n : forall i out,
  0 <= i -> i + Z.of_nat n = Z.of_nat (length vals) ->
  forallb bool_ok (drop (Z.to_nat i) vals) = false -> bool_enc vals i out ->
  bool_compress_loop n vals i ((i + 3) / 4 - 1) out = Exit.
Proof.
  induction n as [|n IH]; intros i out Hi Hn Hbad Henc; cbn [bool_compress_loop].
  - by rewrite drop_ge in Hbad by lia.
  - change (BITS_PER_BYTE / 2) with 4. rewrite rem_mod by lia. fold (bool_cell i out).
    destruct (lookup_lt_is_Some_2 vals (Z.to_nat i)) as [v Hv]; [lia|].
    rewrite (rd1_lookup _ _ _ Hi Hv). cbn [rbind].
    destruct (bool_cell_spec vals i out Hi Henc) as (cur & Hcur & Hr & _).
    pose proof (Z.mod_pos_bound i 4 ltac:(lia)).
    assert (Hpos : (if i mod 4 =? 0 then (i + 3) / 4 - 1 + 1 else (i + 3) / 4 - 1) = i / 4)
      by (destruct (Z.eqb_spec (i mod 4) 0); lia).
    rewrite Hpos, (rd1_lookup _ (i / 4) cur) by (lia || done). cbn [rbind].
    rewrite (drop_S vals v) in Hbad by done. cbn [forallb] in Hbad.
    destruct (bool_ok v) eqn:Hok; [|by rewrite bool_put_error].
    destruct (bool_put_spec cur i v Hi Hr Hok) as (b & -> & Hb & Hget & Hkeep).
    cbn [rbind]. specialize (IH (i + 1)).
    replace ((i + 1 + 3) / 4 - 1) with (i / 4) in IH by lia. apply IH; [lia..| |by eapply bool_enc_step].
    by replace (Z.to_nat (i + 1)) with (S (Z.to_nat i)) by lia.
Qed.

(** ** Runs *)
Lemma rle_byte_spec num counter : num = 0 \/ num = 1 -> 1 <= counter <= 127 ->
  exists b, rle_byte num counter = Ret b /\ byte_ok b /\
    Z.land (Z.shiftr (i8 b) 1) (INT8MASK 7) = counter /\ Z.land (i8 b) (INT8MASK 1) = num.
Proof.
  intros Hnum Hc.
  pose proof (check_range (fun num => forallb (fun c => (c =? 0) ||
    match rle_byte num c with
    | Ret b => (0 <=? b) && (b <? 256) && (Z.land (Z.shiftr (i8 b) 1) (INT8MASK 7) =? c) &&
        (Z.land (i8 b) (INT8MASK 1) =? num)
    | _ => false end) (seqZ 0 128)) 2 ltac:(vm_compute; reflexivity) num ltac:(lia)) as H.
  cbv beta in H. apply (check_range _ 128) with (s := counter) in H; [|lia].
  cbv beta in H. rewrite (proj2 (Z.eqb_neq counter 0)) in H by lia. cbn [orb] in H.
  destruct (rle_byte num counter) as [b| | |]; try done. exists b. unfold byte_ok. split; [done|]. lia.
Qed.

Lemma rle_run_spec vals num n : forall i counter,
  0 <= i -> i + Z.of_nat n = Z.of_nat (length vals) -> 1 <= counter < 127 ->
  exists k, rle_run n vals num i counter = Ret (counter + Z.of_nat k, i + Z.of_nat k) /\
    counter + Z.of_nat k <= 127 /\ (k <= n)%nat /\
    drop (Z.to_nat i) vals = replicate k num ++ drop (Z.to_nat i + k) vals.
Proof.
  induction n as [|n IH]; intros i counter Hi Hn Hc; cbn [rle_run].
  - exists 0%nat. rewrite Nat.add_0_r. split; [do 2 f_equal; lia|]. split; [lia|done].
  - destruct (lookup_lt_is_Some_2 vals (Z.to_nat i)) as [v Hv]; [lia|].
    rewrite (rd1_lookup _ _ v) by done. cbn [rbind].
    destruct (Z.eqb_spec v num) as [->|Hne].
    2: { exists 0%nat. rewrite Nat.add_0_r. split; [do 2 f_equal; lia|]. split; [lia|].
         split; [lia|done]. }
    rewrite (wrapu_id 8) by (unfold in_u; lia). change (INT8MASK 7) with 127.
    destruct (Z.eqb_spec (counter + 1) 127) as [Heq|Hneq].
    + exists 1%nat. split; [do 2 f_equal; lia|]. split; [lia|]. split; [lia|].
      rewrite (drop_S vals num) by done. cbn [replicate app]. by rewrite Nat.add_1_r.
    + destruct (IH (i + 1) (counter + 1)) as (k & -> & Hk & Hkn & Hd); [lia..|].
      exists (S k). split; [do 2 f_equal; lia|]. split; [lia|]. split; [lia|].
      rewrite (drop_S vals num) by done. cbn [replicate app]. f_equal.
      replace (Z.to_nat (i + 1)) with (S (Z.to_nat i)) in Hd by lia. rewrite Hd.
      f_equal. f_equal. lia.
Qed.

Lemma rle_spec vals fuel : forall i out,
  0 <= i <= Z.of_nat (length vals) -> Z.of_nat (length vals) - i < Z.of_nat fuel ->
  Forall (fun v => v = 0 \/ v = 1) vals ->
  exists bs, rle_compress_loop fuel vals (Z.of_nat (length vals)) i out = Ret (out ++ bs) /\
    Z.of_nat (length bs) <= Z.of_nat (length vals) - i /\
    forall fuel' pre post acc, i < Z.of_nat (length vals) -> Z.of_nat (length acc) = i ->
      (length bs < fuel')%nat ->
      rle_decompress_loop fuel' (pre ++ bs ++ post) (Z.of_nat (length vals))
        (Z.of_nat (length pre)) acc = Ret (acc ++ drop (Z.to_nat i) vals).
Proof.
  induction fuel as [|fuel IH]; intros i out Hi Hf Hvals; [lia|]. cbn [rle_compress_loop].
  destruct (Z.ltb_spec i (Z.of_nat (length vals))) as [Hlt|Hge].
  2: { exists []. rewrite app_nil_r. split; [done|]. split; [simpl; lia|]. intros; lia. }
  destruct (lookup_lt_is_Some_2 vals (Z.to_nat i)) as [num Hnum]; [lia|].
  rewrite (rd1_lookup _ _ num) by (done || lia). cbn [rbind].
  destruct (rle_run_spec vals num (Z.to_nat (Z.of_nat (length vals) - (i + 1))) (i + 1) 1)
    as (k & -> & Hk & Hkn & Hd); [lia..|]. cbn [rbind].
  assert (Hbit : num = 0 \/ num = 1).
  { rewrite Forall_forall in Hvals. apply Hvals. by eapply list_elem_of_lookup_2. }
  destruct (rle_byte_spec num (1 + Z.of_nat k) Hbit) as (b & -> & _ & Hcnt & Hval); [lia|].
  cbn [rbind].
  destruct (IH (i + 1 + Z.of_nat k) (out ++ [b])) as (bs & Heq & Hbs & Hdec); [lia|lia|done|].
  exists (b :: bs). rewrite Heq, <- app_assoc. split; [done|]. split; [simpl; lia|].
  intros fuel' pre post acc _ Hacc Hf'. destruct fuel' as [|fuel']; [lia|].
  cbn [rle_decompress_loop]. change (pre ++ (b :: bs) ++ post) with (pre ++ b :: (bs ++ post)).
  rewrite rd1_app_mid by done. cbn [rbind]. rewrite Hcnt, Hval.
  assert (Hdrop : drop (Z.to_nat i) vals =
    replicate (Z.to_nat (1 + Z.of_nat k)) num ++ drop (Z.to_nat (i + 1 + Z.of_nat k)) vals).
  { replace (Z.to_nat (1 + Z.of_nat k)) with (S k) by lia. rewrite (drop_S vals num) by done.
    cbn [replicate app]. f_equal.
    replace (Z.to_nat (i + 1)) with (S (Z.to_nat i)) in Hd by lia. rewrite Hd.
    f_equal. f_equal. lia. }
  rewrite length_app, length_replicate.
  destruct (Z.leb_spec (Z.of_nat (length vals))
    (Z.of_nat (length acc + Z.to_nat (1 + Z.of_nat k)))) as [Hdone|Hmore].
  - rewrite Hdrop, drop_ge by lia. by rewrite app_nil_r.
  - replace (pre ++ b :: bs ++ post) with ((pre ++ [b]) ++ bs ++ post) by by rewrite <- app_assoc.
    replace (Z.of_nat (length pre) + 1) with (Z.of_nat (length (pre ++ [b])))
      by (rewrite length_app; simpl; lia).
    rewrite Hdec by (rewrite ?length_app, ?length_replicate; simpl in *; lia).
    by rewrite <- app_assoc, <- Hdrop.
Qed.

(** ** The codec's promise *)
Lemma bool_both (input post : list Z) :
  if forallb bool_ok input then
    exists out, tsCompressBoolImp input (Z.of_nat (length input)) = Ret out /\
      Z.of_nat (length out) = (Z.of_nat (length input) + 3) / 4 /\
      tsDecompressBoolImp (out ++ post) (Z.of_nat (length input)) = Ret input
  else tsCompressBoolImp input (Z.of_nat (length input)) = Exit.
Proof.
  unfold tsCompressBoolImp, tsDecompressBoolImp. rewrite Nat2Z.id.
  change (-1) with ((0 + 3) / 4 - 1). destruct (forallb bool_ok input) eqn:Hok.
  - destruct (bool_compress_spec input (length input) 0 []) as (out & -> & Henc);
      [lia..|done|apply bool_enc_nil|].
    exists out. split; [done|]. split; [apply Henc|].
    by rewrite (bool_decompress_spec input) by (done || lia).
  - by apply bool_compress_error; [lia..| |apply bool_enc_nil].
Qed.

Lemma bool_put_byte cur i v b : bool_put cur i v = Ret b -> byte_ok b.
Proof.
  unfold bool_put. destruct (v =? 1); [|destruct (v =? 0); [|destruct (v =? TSDB_DATA_BOOL_NULL)]];
    try done; intros [= <-]; apply byte_ok_u8.
Qed.

Lemma bool_loop_bytes input n : forall i pos out out',
  bool_compress_loop n input i pos out = Ret out' -> bytes_ok out -> bytes_ok out'.
Proof.
  induction n as [|n IH]; intros i pos out out' Hc Hok; cbn [bool_compress_loop] in Hc;
    [by injection Hc as <-|].
  apply rbind_Ret_inv in Hc as (v & _ & Hc). apply rbind_Ret_inv in Hc as (cur & _ & Hc).
  apply rbind_Ret_inv in Hc as (b & Hb & Hc). apply IH in Hc; [done|].
  apply Forall_insert; [|by eapply bool_put_byte].
  destruct (_ =? 0); [|done]. apply bytes_ok_app. split; [done|]. apply bytes_ok_cons; [done|constructor].
Qed.

#[export] Instance bool_codec : ColumnCodec 1 tsCompressBoolImp tsDecompressBoolImp.
Proof.
  split; [lia|]. intros n input out post Hin Hn Hlen Hout.
  pose proof (bool_both input post) as H. replace (Z.of_nat (length input)) with n in * by lia.
  destruct (forallb bool_ok input); [|congruence].
  destruct H as (out' & Hout' & Hl & Hdec). rewrite Hout in Hout'. injection Hout' as <-.
  split; [|split; [lia|done]]. by eapply bool_loop_bytes; [exact Hout|constructor].
Qed.

(** ** Properties *)

(** Bool columns round-trip: a column of false, true and NULL compresses
    to a quarter of its size, rounded up - two bits for each value, where the comment at the
    head of tcompression.c says one - and decodes to itself whatever
    follows it; a byte that is none of the three makes the encoder exit. *)
Theorem bool_roundtrip (input post : list Z) :
  if forallb bool_ok input then
    exists out, tsCompressBoolImp input (Z.of_nat (length input)) = Ret out /\
      Z.of_nat (length out) = (Z.of_nat (length input) + 3) / 4 /\
      tsDecompressBoolImp (out ++ post) (Z.of_nat (length input)) = Ret input
  else tsCompressBoolImp input (Z.of_nat (length input)) = Exit.
Proof. exact (bool_both input post). Qed.

(** The run-length codec round-trips every non-empty column of zeros and
    ones, never needs more bytes than values, and both loops end. *)
Theorem bool_rle_roundtrip (input post : list Z)
    (Hin : Forall (fun v => v = 0 \/ v = 1) input) (Hne : input <> []) :
  exists out, tsCompressBoolRLEImp input (Z.of_nat (length input)) = Ret out /\
    (length out <= length input)%nat /\
    tsDecompressBoolRLEImp (out ++ post) (Z.of_nat (length input)) = Ret input.
Proof.
  unfold tsCompressBoolRLEImp, tsDecompressBoolRLEImp. rewrite Nat2Z.id.
  destruct (rle_spec input (S (length input)) 0 []) as (bs & -> & Hl & Hdec); [lia..|done|].
  exists bs. split; [done|]. split; [lia|]. rewrite length_app.
  assert (Hpos : (0 < length input)%nat) by (destruct input; [done|simpl; lia]).
  by rewrite (Hdec _ [] post []) by (simpl; lia).
Qed.

Lemma bool_rle_roundtrip_witness :
  let input := replicate 200 1 ++ [0; 0; 1] in
  exists out, tsCompressBoolRLEImp input 203 = Ret out /\ (length out <= 203)%nat /\
    tsDecompressBoolRLEImp (out ++ [5]) 203 = Ret input.
Proof.
  apply (bool_rle_roundtrip (replicate 200 1 ++ [0; 0; 1]) [5]); [|done].
  apply Forall_app. split; [apply Forall_replicate; by right|].
  repeat (constructor; [by auto|]). constructor.
Defined.
