(* ===== verification/CompTime.v ===== *)
(** * Timestamp column codec (tcompression.c)

    [tsCompressTimestampImp] stores zigzag-encoded deltas of deltas, two to a
    flag byte, each in the fewest bytes that hold it. *)
From S2P Require Import Prelude CompBase.

(** [flag1], [flag2]: how many bytes a zigzag value needs. *)
Definition dd_flag (dd : Z) : Z :=
  if dd =? 0 then 0 else u8 (LONG_BYTES - builtin_clzll dd / BITS_PER_BYTE).

(** [if ((_pos + size - 1) >= nelements * LONG_BYTES) goto _exit_over;
    memcpy(output + _pos, &v, size); _pos += size;] with [out] the bytes
    written at [output + 1], so [_pos = 1 + length out].  [None] is the jump. *)
Definition put_bytes (nelements size v : Z) (out : list Z) : option (list Z) :=
  let _pos := 1 + Z.of_nat (length out) in
  if nelements * LONG_BYTES <=? _pos + size - 1 then None
  else Some (out ++ le_bytes (Z.to_nat size) v).

(** The main loop on a little-endian machine; [n] is [nelements - i].  The
    result carries [flag1] and [dd1] to the code after the loop. *)
Fixpoint time_loop (n : nat) (input : list Z) (nelements i prev_value prev_delta flag1 dd1 : Z)
    (out : list Z) : res (option (Z * Z * list Z)) :=
  match n with
  | O => Ret (Some (flag1, dd1, out))
  | S n' =>
      let! curr_value := rds LONG_BYTES input i in
      if negb (safeInt64Add curr_value (i64 (- prev_value))) then Ret None else
      let curr_delta := i64 (curr_value - prev_value) in
      if negb (safeInt64Add curr_delta (i64 (- prev_delta))) then Ret None else
      let zigzag_value := zigzag_encode (i64 (curr_delta - prev_delta)) in
      if Z.rem i 2 =? 0 then
        time_loop n' input nelements (i + 1) curr_value curr_delta
          (dd_flag zigzag_value) zigzag_value out
      else
        let dd2 := zigzag_value in
        let flag2 := dd_flag dd2 in
        let flags := u8 (Z.lor flag1 (Z.shiftl flag2 4)) in
        let? out := put_bytes nelements CHAR_BYTES flags out in
        let? out := put_bytes nelements flag1 dd1 out in
        let? out := put_bytes nelements flag2 dd2 out in
        time_loop n' input nelements (i + 1) curr_value curr_delta flag1 dd1 out
  end.

(** [if (nelements % 2 == 1)]: the last, unpaired value. *)
Definition time_tail (nelements flag1 dd1 : Z) (out : list Z) : option (list Z) :=
  if Z.rem nelements 2 =? 1 then
    match put_bytes nelements CHAR_BYTES (u8 (Z.lor flag1 (Z.shiftl 0 4))) out with
    | None => None
    | Some out => put_bytes nelements flag1 dd1 out
    end
  else Some out.

(** The bytes written to [output]; the C function returns their number. *)
Definition tsCompressTimestampImp (input : list Z) (nelements : Z) : res (list Z) :=
  if negb (0 <=? nelements) then Exit else
  if nelements =? 0 then Ret [] else
  let! prev_value := rds LONG_BYTES input 0 in
  let prev_delta := i64 (- prev_value) in
  let! r := time_loop (Z.to_nat nelements) input nelements 0 prev_value prev_delta 0 0 [] in
  let done := match r with
    | Some (flag1, dd1, out) => time_tail nelements flag1 dd1 out
    | None => None
    end in
  match done with
  | Some out => Ret (1 :: out)
  | None => let! raw := rd input 0 (nelements * LONG_BYTES) in Ret (0 :: raw)
  end.

(** [dd = 0; memcpy(&dd, input + ipos, nbytes)] and the zigzag decoding. *)
Definition decode_dd (input : list Z) (ipos nbytes : Z) : res Z :=
  if nbytes =? 0 then Ret 0
  else if LONG_BYTES <? nbytes then Undef
  else let! bs := rd input ipos nbytes in Ret (zigzag_decode (le_val bs)).

(** The [while (1)] loop; [out] is the bytes of [ostream\[0 .. opos - 1\]]. *)
Fixpoint time_decode (fuel : nat) (input : list Z) (nelements ipos opos prev_value prev_delta : Z)
    (out : list Z) : res (list Z) :=
  match fuel with
  | O => NoFuel
  | S fuel' =>
      let! flags := rd1 input ipos in
      let ipos := ipos + 1 in
      let nbytes := Z.land flags (INT8MASK 4) in
      let! delta_of_delta := decode_dd input ipos nbytes in
      let ipos := ipos + nbytes in
      let prev_delta := if opos =? 0 then 0 else i64 (delta_of_delta + prev_delta) in
      let prev_value := if opos =? 0 then delta_of_delta else i64 (prev_value + prev_delta) in
      let out := out ++ le_bytes 8 prev_value in
      let opos := opos + 1 in
      if opos =? nelements then Ret out else
      let nbytes := Z.land (Z.shiftr flags 4) (INT8MASK 4) in
      let! delta_of_delta := decode_dd input ipos nbytes in
      let ipos := ipos + nbytes in
      let prev_delta := i64 (delta_of_delta + prev_delta) in
      let prev_value := i64 (prev_value + prev_delta) in
      let out := out ++ le_bytes 8 prev_value in
      let opos := opos + 1 in
      if opos =? nelements then Ret out else
      time_decode fuel' input nelements ipos opos prev_value prev_delta out
  end.

(** The bytes written to [output]. *)
Definition tsDecompressTimestampImp (input : list Z) (nelements : Z) : res (list Z) :=
  if negb (0 <=? nelements) then Exit else
  if nelements =? 0 then Ret [] else
  let! ind := rd1 input 0 in
  if ind =? 0 then rd input 1 (nelements * LONG_BYTES)
  else if ind =? 1 then time_decode (Z.to_nat nelements) input nelements 1 0 0 0 []
  else Exit.

(** ** The encoding as a list of pairs *)
Fixpoint zigzags (prev_value prev_delta : Z) (vs : list Z) : list Z :=
  match vs with
  | [] => []
  | v :: t =>
      let d := i64 (v - prev_value) in zigzag_encode (i64 (d - prev_delta)) :: zigzags v d t
  end.

Definition dd_bytes (z : Z) : list Z := le_bytes (Z.to_nat (dd_flag z)) z.

Fixpoint enc_pairs (zs : list Z) : list Z :=
  match zs with
  | z1 :: z2 :: t =>
      u8 (Z.lor (dd_flag z1) (Z.shiftl (dd_flag z2) 4)) ::
        dd_bytes z1 ++ dd_bytes z2 ++ enc_pairs t
  | [z] => u8 (Z.lor (dd_flag z) (Z.shiftl 0 4)) :: dd_bytes z
  | [] => []
  end.

Lemma dd_flag_spec z : in_u 64 z -> 0 <= dd_flag z <= 8 /\ z < 2 ^ (8 * dd_flag z).
Proof.
  unfold in_u, dd_flag, LONG_BYTES, BITS_PER_BYTE, builtin_clzll. intros Hz.
  destruct (Z.eqb_spec z 0) as [->|Hne]; [simpl; lia|].
  pose proof (log2_range z 64 ltac:(lia) ltac:(lia)) as Hlog.
  assert (Hq : 0 <= (63 - Z.log2 z) / 8 < 8)
    by (split; [apply Z.div_pos; lia|apply Z.div_lt_upper_bound; lia]).
  pose proof (Z.mul_div_le (63 - Z.log2 z) 8 ltac:(lia)) as Hmd.
  rewrite wrapu_id by (unfold in_u; simpl; lia). split; [lia|].
  apply (Z.lt_le_trans _ (2 ^ Z.succ (Z.log2 z))).
  - apply Z.log2_spec. lia.
  - apply Z.pow_le_mono_r; lia.
Qed.

Lemma zigzags_range pv pd vs : Forall (in_u 64) (zigzags pv pd vs).
Proof.
  revert pv pd. induction vs; intros; simpl; constructor; [|done].
  apply zigzag_encode_range, wraps_range. lia.
Qed.

Lemma decode_dd_spec d pre post : in_s 64 d ->
  decode_dd (pre ++ dd_bytes (zigzag_encode d) ++ post) (Z.of_nat (length pre))
    (dd_flag (zigzag_encode d)) = Ret d.
Proof.
  intros Hd. pose proof (zigzag_encode_range d Hd) as Hz.
  pose proof (zigzag_decode_encode d Hd) as Hdec.
  set (z := zigzag_encode d) in *. destruct (dd_flag_spec z Hz) as [Hf Hlt].
  unfold decode_dd, LONG_BYTES. destruct (Z.eqb_spec (dd_flag z) 0) as [H0|Hne].
  - rewrite H0 in Hlt. unfold in_u in Hz. replace z with 0 in Hdec by (simpl in Hlt; lia).
    change (zigzag_decode 0) with 0 in Hdec. by rewrite Hdec.
  - rewrite (proj2 (Z.ltb_ge _ _)) by lia.
    rewrite rd_app_mid by (unfold dd_bytes; rewrite ?length_le_bytes; lia). cbn [rbind].
    unfold dd_bytes. rewrite le_val_bytes, Z2Nat.id by lia.
    rewrite Z.mod_small by (unfold in_u in Hz; lia). by rewrite Hdec.
Qed.

(** ** The encoder writes the pairs *)
Lemma put_bytes_inv n size v out out' : put_bytes n size v out = Some out' ->
  out' = out ++ le_bytes (Z.to_nat size) v /\ 1 + Z.of_nat (length out) + size <= n * 8.
Proof.
  unfold put_bytes, LONG_BYTES. destruct (Z.leb_spec (n * 8) (1 + Z.of_nat (length out) + size - 1));
    [done|]. intros [= <-]. split; [done|lia].
Qed.

Lemma put_bytes_len n size v out out' : 0 <= size ->
  put_bytes n size v out = Some out' -> Z.of_nat (length out') < n * 8.
Proof.
  intros Hs Hp. apply put_bytes_inv in Hp as [-> Hl]. rewrite length_app, length_le_bytes. lia.
Qed.

Section Pairs.
Context (vals : list Z) (Hvals : Forall (in_s 64) vals).
Let n := Z.of_nat (length vals).
Let input := pack_elems 8 vals.

Lemma rds_input i v vs : 0 <= i -> drop (Z.to_nat i) vals = v :: vs ->
  rds LONG_BYTES input i = Ret v /\ drop (Z.to_nat (i + 1)) vals = vs /\ in_s 64 v.
Proof using Hvals.
  intros Hi Hd. destruct (rd_pack_drop 8 vals i v vs Hi Hd) as (Hrd & Hd' & Hin).
  assert (Hr : in_s 64 v) by (rewrite Forall_forall in Hvals; by apply Hvals).
  split; [|done]. unfold rds. change LONG_BYTES with (Z.of_nat 8). unfold input. rewrite Hrd.
  cbn [rbind]. rewrite le_val_bytes. change (_ mod _) with (u64 v).
  change (8 * Z.of_nat 8) with 64. rewrite wraps_wrapu, wraps_id by (done || lia). done.
Qed.

Lemma le_bytes_u8 x : le_bytes 1 (u8 x) = [u8 x].
Proof. cbn [le_bytes]. rewrite Z.mod_small; [done|]. by apply wrapu_range. Qed.

Lemma time_loop_spec vs : forall i pv pd f d out f' d' out1 out',
  0 <= i <= n -> i mod 2 = 0 -> drop (Z.to_nat i) vals = vs ->
  time_loop (length vs) input n i pv pd f d out = Ret (Some (f', d', out1)) ->
  time_tail n f' d' out1 = Some out' ->
  out' = out ++ enc_pairs (zigzags pv pd vs).
Proof using Hvals.
  induction vs as [|v|v1 v2 vs IH] using list_ind2;
    intros i pv pd f d out f' d' out1 out' Hi Hev Hd Hl Ht.
  - injection Hl as <- <- <-. pose proof (drop_nil_len vals i ltac:(lia) Hd) as Hn. fold n in Hn.
    unfold time_tail in Ht. rewrite rem2 in Ht by lia. replace n with i in Ht by lia.
    rewrite Hev in Ht. injection Ht as <-. by rewrite app_nil_r.
  - destruct (rds_input i v [] ltac:(lia) Hd) as (Hv & _ & _).
    pose proof (drop_cons_len vals [v] i ltac:(lia) Hd ltac:(done)) as Hn. fold n in Hn.
    cbn [time_loop length] in Hl. rewrite Hv in Hl. cbn [rbind] in Hl.
    do 2 (destruct (negb _); [done|]). rewrite rem2, Hev in Hl by lia.
    simplify_eq Hl. intros <- <- <-. unfold time_tail in Ht. rewrite rem2 in Ht by lia.
    replace (n mod 2) with 1 in Ht by (rewrite Hn; simpl; rewrite Z.add_mod, Hev by lia; done).
    cbn in Ht. destruct (put_bytes n CHAR_BYTES _ out) as [o|] eqn:Hp; [|done].
    apply put_bytes_inv in Hp as [-> _]. apply put_bytes_inv in Ht as [-> _].
    cbn [zigzags enc_pairs]. unfold dd_bytes. change (Z.to_nat CHAR_BYTES) with 1%nat.
    by rewrite le_bytes_u8, <- app_assoc.
  - destruct (rds_input i v1 _ ltac:(lia) Hd) as (Hv1 & Hd1 & _).
    destruct (rds_input (i + 1) v2 _ ltac:(lia) Hd1) as (Hv2 & Hd2 & _).
    pose proof (drop_cons_len vals _ i ltac:(lia) Hd ltac:(done)) as Hn. fold n in Hn.
    cbn [time_loop length] in Hl. rewrite Hv1, Hv2 in Hl. cbn [rbind] in Hl.
    do 2 (destruct (negb _); [done|]). rewrite !rem2 in Hl by lia.
    replace ((i + 1) mod 2) with 1 in Hl by (rewrite Z.add_mod, Hev by lia; done).
    rewrite Hev in Hl. cbn [Z.eqb] in Hl. change (1 =? 0) with false in Hl. cbn iota in Hl.
    do 2 (destruct (negb _); [done|]).
    destruct (put_bytes _ CHAR_BYTES _ _) as [o1|] eqn:Hp1; [|done].
    destruct (put_bytes _ _ _ o1) as [o2|] eqn:Hp2; [|done].
    destruct (put_bytes _ _ _ o2) as [o3|] eqn:Hp3; [|done].
    apply put_bytes_inv in Hp1 as [-> _], Hp2 as [-> _], Hp3 as [-> _].
    eapply IH in Hl; [|simpl in Hn; lia| |exact Hd2|exact Ht].
    2: { replace (i + 1 + 1) with (i + 1 * 2) by lia. by rewrite Z_mod_plus_full. }
    rewrite Hl. cbn [zigzags enc_pairs]. unfold dd_bytes. change (Z.to_nat CHAR_BYTES) with 1%nat.
    by rewrite le_bytes_u8, <- !app_assoc.
Qed.

Lemma time_loop_total vs : forall i pv pd f d out,
  0 <= i -> 0 <= f -> drop (Z.to_nat i) vals = vs -> Z.of_nat (length out) < n * 8 ->
  exists r, time_loop (length vs) input n i pv pd f d out = Ret r /\
    match r with Some (f', _, out') => 0 <= f' /\ Z.of_nat (length out') < n * 8 | None => True end.
Proof using Hvals.
  induction vs as [|v vs IH]; intros i pv pd f d out Hi Hf Hd Hl; cbn [time_loop length];
    [by eexists|].
  destruct (rds_input i v vs Hi Hd) as (-> & Hd' & _). cbn [rbind].
  destruct (negb _); [by eexists|]. destruct (negb _); [by eexists|].
  destruct (dd_flag_spec (zigzag_encode (i64 (i64 (v - pv) - pd)))) as [Hfl _].
  { apply zigzag_encode_range, wraps_range. lia. }
  destruct (Z.rem i 2 =? 0); [apply IH; lia || done|].
  destruct (put_bytes _ CHAR_BYTES _ _) as [o1|] eqn:Hp1; [|by eexists].
  destruct (put_bytes _ _ _ o1) as [o2|] eqn:Hp2; [|by eexists].
  destruct (put_bytes _ _ _ o2) as [o3|] eqn:Hp3; [|by eexists].
  apply put_bytes_len in Hp3; [|lia]. apply IH; lia || done.
Qed.

(** The decoder's state once [opos] values are out, against the encoder's. *)
Definition decoder_in_step (opos v pv pd pv' pd' : Z) : Prop :=
  if opos =? 0 then pv = v /\ pd = i64 (- v) else pv' = pv /\ pd' = pd.

Lemma first_value opos v pv pd pv' pd' :
  in_s 64 v -> decoder_in_step opos v pv pd pv' pd' ->
  let dod := i64 (i64 (v - pv) - pd) in
  let pd2 := if opos =? 0 then 0 else i64 (dod + pd') in
  pd2 = i64 (v - pv) /\ (if opos =? 0 then dod else i64 (pv' + pd2)) = v.
Proof.
  unfold decoder_in_step. intros Hv Hst. cbv zeta. destruct (opos =? 0).
  - destruct Hst as [-> ->]. rewrite Z.sub_diag. change (i64 0) with 0. split; [done|].
    destruct (wraps_spec 64 (- v)) as [q Hq]; [lia|].
    rewrite (wraps_congr 64 _ v (- q)) by lia. by apply wraps_id.
  - destruct Hst as [-> ->]. rewrite wraps_sub_add by (lia || by apply wraps_range).
    split; [done|]. rewrite Z.add_comm. by apply wraps_sub_add.
Qed.

Lemma next_value v pv pd : in_s 64 v ->
  let pd2 := i64 (i64 (i64 (v - pv) - pd) + pd) in pd2 = i64 (v - pv) /\ i64 (pv + pd2) = v.
Proof.
  intros Hv. cbv zeta. rewrite wraps_sub_add by (lia || by apply wraps_range).
  split; [done|]. rewrite Z.add_comm. by apply wraps_sub_add.
Qed.

Lemma dd_nibbles z1 z2 : in_u 64 z1 -> in_u 64 z2 ->
  let flags := u8 (Z.lor (dd_flag z1) (Z.shiftl (dd_flag z2) 4)) in
  Z.land flags (INT8MASK 4) = dd_flag z1 /\
  Z.land (Z.shiftr flags 4) (INT8MASK 4) = dd_flag z2.
Proof.
  intros H1 H2. destruct (dd_flag_spec z1 H1), (dd_flag_spec z2 H2).
  destruct (nibbles (dd_flag z1) (dd_flag z2)) as (_ & Ha & Hb & _); [lia..|done].
Qed.

Lemma length_dd_bytes z : in_u 64 z -> Z.of_nat (length (dd_bytes z)) = dd_flag z.
Proof. intros Hz. destruct (dd_flag_spec z Hz). unfold dd_bytes. rewrite length_le_bytes. lia. Qed.

(** One flag byte and the two values it announces, found in the middle of a
    buffer and decoded. *)
Lemma decode_pair d1 d2 pre rest post :
  in_s 64 d1 -> in_s 64 d2 ->
  let z1 := zigzag_encode d1 in let z2 := zigzag_encode d2 in
  let flags := u8 (Z.lor (dd_flag z1) (Z.shiftl (dd_flag z2) 4)) in
  let buf := pre ++ (flags :: dd_bytes z1 ++ dd_bytes z2 ++ rest) ++ post in
  let pre' := pre ++ flags :: dd_bytes z1 ++ dd_bytes z2 in
  let pos := Z.of_nat (length pre) + 1 in
  let n1 := Z.land flags (INT8MASK 4) in
  let n2 := Z.land (Z.shiftr flags 4) (INT8MASK 4) in
  rd1 buf (Z.of_nat (length pre)) = Ret flags /\ decode_dd buf pos n1 = Ret d1 /\
  decode_dd buf (pos + n1) n2 = Ret d2 /\
  buf = pre' ++ rest ++ post /\ pos + n1 + n2 = Z.of_nat (length pre').
Proof.
  intros Hr1 Hr2 z1 z2 flags buf pre' pos n1 n2.
  pose proof (zigzag_encode_range d1 Hr1) as Hz1. pose proof (zigzag_encode_range d2 Hr2) as Hz2.
  destruct (dd_nibbles _ _ Hz1 Hz2) as [Hlo Hhi]. change (n1 = dd_flag z1) in Hlo.
  change (n2 = dd_flag z2) in Hhi.
  pose proof (length_dd_bytes _ Hz1) as Hl1. pose proof (length_dd_bytes _ Hz2) as Hl2.
  fold z1 in Hl1. fold z2 in Hl2.
  assert (Hbuf1 : buf = (pre ++ [flags]) ++ dd_bytes z1 ++ (dd_bytes z2 ++ rest ++ post))
    by (unfold buf; rewrite <- !app_comm_cons, <- !app_assoc; reflexivity).
  assert (Hbuf2 : buf = (pre ++ flags :: dd_bytes z1) ++ dd_bytes z2 ++ (rest ++ post))
    by (rewrite Hbuf1, <- !app_assoc; reflexivity).
  split; [|split; [|split; [|split]]].
  - unfold buf. rewrite <- app_comm_cons. apply rd1_app_mid. reflexivity.
  - rewrite Hbuf1, Hlo.
    replace pos with (Z.of_nat (length (pre ++ [flags]))) by (rewrite length_app; simpl; lia).
    by apply decode_dd_spec.
  - rewrite Hbuf2, Hlo, Hhi.
    replace (pos + dd_flag z1) with (Z.of_nat (length (pre ++ flags :: dd_bytes z1)))
      by (rewrite length_app; cbn [length]; lia).
    by apply decode_dd_spec.
  - rewrite Hbuf2. unfold pre'. by rewrite <- !app_assoc, <- !app_comm_cons, <- !app_assoc.
  - unfold pre'. rewrite length_app. cbn [length]. rewrite length_app. lia.
Qed.

Lemma time_decode_spec vs : forall fuel pre post opos pv pd pv' pd' acc,
  vs <> [] -> Forall (in_s 64) vs -> 0 <= opos -> opos + Z.of_nat (length vs) = n ->
  decoder_in_step opos (hd 0 vs) pv pd pv' pd' -> (length vs <= fuel)%nat ->
  time_decode fuel (pre ++ enc_pairs (zigzags pv pd vs) ++ post) n (Z.of_nat (length pre))
    opos pv' pd' acc = Ret (acc ++ pack_elems 8 vs).
Proof.
  induction vs as [|v|v1 v2 vs IH] using list_ind2;
    intros fuel pre post opos pv pd pv' pd' acc Hne Hvs Ho Hn Hst Hf; [done|..];
    destruct fuel as [|fuel]; try (simpl in Hf; lia); cbn [time_decode zigzags enc_pairs hd] in *.
  - apply Forall_cons in Hvs as [Hv _].
    destruct (first_value _ _ _ _ _ _ Hv Hst) as [Hpd Hpv]. cbv zeta in Hpd, Hpv.
    destruct (decode_pair (i64 (i64 (v - pv) - pd)) 0 pre [] post) as (Hfl & Hd1 & _);
      [apply wraps_range; lia|done|].
    change (zigzag_encode 0) with 0 in *. change (dd_flag 0) with 0 in *.
    change (dd_bytes 0) with (@nil Z) in *. rewrite !app_nil_r in *.
    rewrite Hfl. cbn [rbind]. rewrite Hd1. cbn [rbind]. rewrite Hpv.
    rewrite (proj2 (Z.eqb_eq (opos + 1) n)) by (simpl in Hn; lia). by rewrite pack_elems_one.
  - apply Forall_cons in Hvs as [Hv1 Hvs]. apply Forall_cons in Hvs as [Hv2 Hvs].
    destruct (first_value _ _ _ _ _ _ Hv1 Hst) as [Hpd Hpv]. cbv zeta in Hpd, Hpv.
    destruct (next_value v2 v1 (i64 (v1 - pv)) Hv2) as [Hpd2 Hpv2]. cbv zeta in Hpd2, Hpv2. rewrite Hpd2 in Hpv2.
    destruct (decode_pair (i64 (i64 (v1 - pv) - pd)) (i64 (i64 (v2 - v1) - i64 (v1 - pv))) pre
      (enc_pairs (zigzags v2 (i64 (v2 - v1)) vs)) post) as (Hfl & Hd1 & Hd2 & Hbuf & Hpos);
      [apply wraps_range; lia..|].
    rewrite Hfl. cbn [rbind]. rewrite Hd1. cbn [rbind]. rewrite Hd2. cbn [rbind].
    rewrite Hpv, Hpd, Hpd2, Hpv2, Hpos, Hbuf.
    rewrite (proj2 (Z.eqb_neq (opos + 1) n)) by (simpl in Hn; lia).
    rewrite pack_elems_cons, pack_elems_cons, !(app_assoc acc), (app_assoc (acc ++ _)).
    destruct (Z.eqb_spec (opos + 1 + 1) n) as [Hend|Hmore].
    + destruct vs; [|simpl in Hn; lia]. unfold pack_elems. simpl. by rewrite app_nil_r.
    + assert (Hvne : vs <> []) by (intros ->; simpl in Hn; lia).
      apply IH; [done..|lia|simpl in Hn; lia| |simpl in Hf; lia].
      unfold decoder_in_step. by rewrite (proj2 (Z.eqb_neq _ 0)) by lia.
Qed.
End Pairs.

(** ** The codec's promise *)
Lemma put_bytes_bytes n size v out out' :
  put_bytes n size v out = Some out' -> bytes_ok out -> bytes_ok out'.
Proof.
  intros Hp Hok. apply put_bytes_inv in Hp as [-> _]. apply bytes_ok_app.
  split; [done|apply le_bytes_ok].
Qed.

Lemma time_loop_bytes input nel n : forall i pv pd f d out f' d' out',
  time_loop n input nel i pv pd f d out = Ret (Some (f', d', out')) ->
  bytes_ok out -> bytes_ok out'.
Proof.
  induction n as [|n IH]; intros i pv pd f d out f' d' out' Hc Hok; cbn [time_loop] in Hc.
  { by simplify_eq Hc; intros _ _ <-. }
  apply rbind_Ret_inv in Hc as (v & _ & Hc). destruct (negb _); [done|]. cbv zeta in Hc.
  destruct (negb _); [done|]. destruct (Z.rem i 2 =? 0); [by eapply IH|].
  destruct (put_bytes _ CHAR_BYTES _ _) as [o1|] eqn:Hp1; [|done].
  destruct (put_bytes _ _ _ o1) as [o2|] eqn:Hp2; [|done].
  destruct (put_bytes _ _ _ o2) as [o3|] eqn:Hp3; [|done].
  eapply IH; [exact Hc|]. eapply put_bytes_bytes, put_bytes_bytes, put_bytes_bytes;
    [exact Hp3|exact Hp2|exact Hp1|done].
Qed.

Lemma time_tail_bytes n f d out out' :
  time_tail n f d out = Some out' -> bytes_ok out -> bytes_ok out'.
Proof.
  unfold time_tail. intros Ht Hok. destruct (_ =? 1); [|by injection Ht as <-].
  destruct (put_bytes _ CHAR_BYTES _ _) eqn:Hp; [|done].
  eapply put_bytes_bytes; [exact Ht|]. by eapply put_bytes_bytes.
Qed.

Lemma time_bytes input n out : bytes_ok input ->
  tsCompressTimestampImp input n = Ret out -> bytes_ok out.
Proof.
  unfold tsCompressTimestampImp. intros Hin. destruct (negb _); [done|].
  destruct (n =? 0); [intros [= <-]; constructor|]. intros Hc.
  apply rbind_Ret_inv in Hc as (v & _ & Hc). apply rbind_Ret_inv in Hc as (r & Hr & Hc).
  destruct (match r with Some _ => _ | None => None end) as [o|] eqn:Ht.
  - injection Hc as <-. apply bytes_ok_cons; [done|]. destruct r as [[[f d] o1]|]; [|done].
    eapply time_tail_bytes; [exact Ht|]. eapply time_loop_bytes; [exact Hr|constructor].
  - apply rbind_Ret_inv in Hc as (raw & Hraw & Hc). injection Hc as <-.
    apply bytes_ok_cons; [done|]. by eapply bytes_ok_rd.
Qed.

Lemma time_both (n : Z) (input post : list Z) :
  bytes_ok input -> 0 <= n -> Z.of_nat (length input) = n * 8 ->
  exists out, tsCompressTimestampImp input n = Ret out /\
    Z.of_nat (length out) <= n * 8 + 1 /\ tsDecompressTimestampImp (out ++ post) n = Ret input.
Proof.
  intros Hin Hn Hlen.
  destruct (typed_view 8 (Z.to_nat n) input) as (vals & Hnv & Hvals & ->); [lia|done|lia|].
  replace n with (Z.of_nat (length vals)) in * by lia.
  unfold tsCompressTimestampImp, tsDecompressTimestampImp.
  rewrite (proj2 (Z.leb_le 0 _)) by lia. cbn [negb].
  destruct vals as [|v0 vs0] eqn:Hvs; [by exists []|]. rewrite <- Hvs in *.
  rewrite (proj2 (Z.eqb_neq _ 0)) by (rewrite Hvs; simpl; lia).
  destruct (rds_input vals Hvals 0 v0 vs0) as (-> & _ & Hv0); [lia|by rewrite Hvs|]. cbn [rbind].
  rewrite Nat2Z.id.
  destruct (time_loop_total vals Hvals vals 0 v0 (i64 (- v0)) 0 0 []) as (r & Hloop & Hr);
    [lia..|by rewrite Hvs|rewrite Hvs; simpl; lia|].
  rewrite Hloop. cbn [rbind].
  assert (Hraw : rd (pack_elems 8 vals) 0 (Z.of_nat (length vals) * LONG_BYTES) =
    Ret (pack_elems 8 vals)).
  { change LONG_BYTES with 8. rewrite <- Hlen. apply rd_full. }
  destruct (match r with Some _ => _ | None => None end) as [out|] eqn:Htail.
  - destruct r as [[[f d] out1]|]; [|done]. destruct Hr as [Hf0 Hl0]. eexists. split; [done|]. split.
    + unfold time_tail in Htail. destruct (Z.rem _ 2 =? 1).
      * destruct (put_bytes _ CHAR_BYTES _ _) as [o|]; [|done].
        apply put_bytes_len in Htail; simpl length; lia.
      * injection Htail as <-. simpl length. lia.
    + apply (time_loop_spec vals Hvals vals 0 v0 (i64 (- v0)) 0 0 [] f d out1 out) in Htail;
        [|lia|done..]. cbn [app] in Htail. subst out.
      rewrite <- app_comm_cons. change (rd1 _ 0) with (Ret 1). cbn [rbind].
      change (1 =? 0) with false. change (1 =? 1) with true. cbn iota.
      apply (time_decode_spec vals vals _ [1] post 0 v0 (i64 (- v0)) 0 0 []);
        [by rewrite Hvs|done|lia|lia|by rewrite Hvs|lia].
  - rewrite Hraw. cbn [rbind]. eexists. split; [done|]. split; [cbn [length]; lia|].
    rewrite <- app_comm_cons. change (rd1 _ 0) with (Ret 0). cbn [rbind].
    change (0 =? 0) with true. cbn iota. apply (rd_app_mid [0]); [done|].
    change LONG_BYTES with 8. lia.
Qed.

#[export] Instance time_codec : ColumnCodec 8 tsCompressTimestampImp tsDecompressTimestampImp.
Proof.
  split; [lia|]. intros n input out post Hin Hn Hlen Hout.
  destruct (time_both n input post Hin Hn Hlen) as (out' & Hout' & Hl & Hdec).
  rewrite Hout in Hout'. injection Hout' as <-. split; [by eapply time_bytes|done].
Qed.

(** ** Properties *)

(** C15.  Timestamp columns round-trip: every column of 64-bit values, whatever
    the values, compresses to at most one byte more than its size and decodes
    to itself, whatever follows it. *)
Theorem time_roundtrip (n : Z) (input post : list Z)
    (Hin : bytes_ok input) (Hn : 0 <= n) (Hlen : Z.of_nat (length input) = n * 8) :
  exists out, tsCompressTimestampImp input n = Ret out /\ Z.of_nat (length out) <= n * 8 + 1 /\ tsDecompressTimestampImp (out ++ post) n = Ret input.
Proof. by apply time_both. Qed.

Lemma time_roundtrip_witness :
  let vals := [1500000000000; 1500000001000; 1500000002000; 1500000003001; - 2 ^ 63] in
  exists out, tsCompressTimestampImp (pack_elems 8 vals) 5 = Ret out /\
    Z.of_nat (length out) <= 41 /\ tsDecompressTimestampImp (out ++ [1; 2]) 5 = Ret (pack_elems 8 vals).
Proof.
  apply (time_roundtrip 5); [apply pack_elems_ok|lia|by rewrite length_pack_elems].
Defined.
