(* ===== verification/CompXor.v ===== *)
(** * Floating-point column codecs (tcompression.c)

    [tsCompressDoubleImp] and [tsCompressFloatImp] and their decoders: each
    value's bits are xored with the previous value's, and the difference is
    stored in the fewest bytes, dropping leading or trailing zero bytes.  The
    two codecs are the same code over 8-byte and 4-byte words; they are
    translated once, over the four things that differ. *)
From S2P Require Import Prelude CompBase.

Section Codec.
(** [W]: [LONG_BYTES] or [FLOAT_BYTES]; [acc_bits]: the width of the type in
    which the decoder shifts a byte; [clz], [ctz]: the builtins on a nonzero
    word, as the C code calls them. *)
Context (W acc_bits : Z) (clz ctz : Z -> Z).

(** The tag of a difference: its byte count less one, and 8 when trailing
    rather than leading bytes are dropped. *)
Definition xor_flag (diff : Z) : Z :=
  let leading_zeros := if diff =? 0 then W * BITS_PER_BYTE else clz diff in
  let trailing_zeros := if diff =? 0 then W * BITS_PER_BYTE else ctz diff in
  if leading_zeros <? trailing_zeros then
    let nbytes := u8 (W - Z.quot trailing_zeros BITS_PER_BYTE) in
    let nbytes := if 0 <? nbytes then nbytes - 1 else nbytes in
    u8 (Z.lor (Z.shiftl 1 3) nbytes)
  else
    let nbytes := u8 (W - Z.quot leading_zeros BITS_PER_BYTE) in
    if 0 <? nbytes then nbytes - 1 else nbytes.

(** [while (nbytes)]: the low bytes of [diff]. *)
Fixpoint emit_bytes (nbytes : nat) (diff : Z) : list Z :=
  match nbytes with
  | O => []
  | S nbytes' => Z.land diff 255 :: emit_bytes nbytes' (Z.shiftr diff BITS_PER_BYTE)
  end.

(** A shift by a negative amount or by the width of the word is undefined. *)
Definition encodeValue (diff flag : Z) (out : list Z) : res (list Z) :=
  let nbytes := u8 (Z.land flag (INT8MASK 3) + 1) in
  let nshift := (W * BITS_PER_BYTE - nbytes * BITS_PER_BYTE) * Z.shiftr flag 3 in
  if (0 <=? nshift) && (nshift <? W * BITS_PER_BYTE) then
    Ret (out ++ emit_bytes (Z.to_nat nbytes) (Z.shiftr diff nshift))
  else Undef.

(** The main loop; [n] is [nelements - i], [out] the bytes at [output + 1].
    The result carries the pending [prev_diff] and [prev_flag]; [None] is the
    uncompressed exit. *)
Fixpoint xor_loop (n : nat) (input : list Z) (byte_limit i prev_value prev_diff prev_flag : Z)
    (out : list Z) : res (option (Z * Z * list Z)) :=
  match n with
  | O => Ret (Some (prev_diff, prev_flag, out))
  | S n' =>
      let! bs := rd input (i * W) W in
      let bits := le_val bs in
      let predicted := prev_value in
      let diff := Z.lxor bits predicted in
      let flag := xor_flag diff in
      if Z.rem i 2 =? 0 then
        xor_loop n' input byte_limit (i + 1) bits diff flag out
      else
        let opos := 1 + Z.of_nat (length out) in
        let nbyte1 := Z.land prev_flag (INT8MASK 3) + 1 in
        let nbyte2 := Z.land flag (INT8MASK 3) + 1 in
        if opos + 1 + nbyte1 + nbyte2 <=? byte_limit then
          let flags := u8 (Z.lor prev_flag (Z.shiftl flag 4)) in
          let! out := encodeValue prev_diff prev_flag (out ++ [flags]) in
          let! out := encodeValue diff flag out in
          xor_loop n' input byte_limit (i + 1) bits prev_diff prev_flag out
        else Ret None
  end.

(** [if (nelements % 2)]: the last, unpaired value and one filler byte. *)
Definition xor_tail (nelements byte_limit prev_diff prev_flag : Z) (out : list Z)
    : res (option (list Z)) :=
  if negb (Z.rem nelements 2 =? 0) then
    let opos := 1 + Z.of_nat (length out) in
    let nbyte1 := Z.land prev_flag (INT8MASK 3) + 1 in
    let nbyte2 := 1 in
    if opos + 1 + nbyte1 + nbyte2 <=? byte_limit then
      let! out := encodeValue prev_diff prev_flag (out ++ [prev_flag]) in
      let! out := encodeValue 0 0 out in
      Ret (Some out)
    else Ret None
  else Ret (Some out).

(** The bytes written to [output]; the C function returns their number. *)
Definition xor_compress (input : list Z) (nelements : Z) : res (list Z) :=
  let byte_limit := nelements * W + 1 in
  let! r := xor_loop (Z.to_nat nelements) input byte_limit 0 0 0 0 [] in
  let! done := match r with
    | Some (prev_diff, prev_flag, out) => xor_tail nelements byte_limit prev_diff prev_flag out
    | None => Ret None
    end in
  match done with
  | Some out => Ret (0 :: out)
  | None => let! raw := rd input 0 (byte_limit - 1) in Ret (1 :: raw)
  end.

(** The accumulation loop of the decoder; [n] is [nbytes - i]. *)
Fixpoint gather_bytes (n : nat) (input : list Z) (ipos i diff : Z) : res (Z * Z) :=
  match n with
  | O => Ret (diff, ipos)
  | S n' =>
      let! b := rd1 input ipos in
      if BITS_PER_BYTE * i <? acc_bits then
        let diff := Z.lor diff (wrapu acc_bits (Z.shiftl (Z.land 255 b) (BITS_PER_BYTE * i))) in
        gather_bytes n' input (ipos + 1) (i + 1) diff
      else Undef
  end.

(** The decoded difference and the new [*ipos]. *)
Definition decodeValue (input : list Z) (ipos flag : Z) : res (Z * Z) :=
  let nbytes := Z.land flag (INT8MASK 3) + 1 in
  let! r := gather_bytes (Z.to_nat nbytes) input ipos 0 0 in
  let '(diff, ipos) := r in
  let shift_width := (W * BITS_PER_BYTE - nbytes * BITS_PER_BYTE) * Z.shiftr flag 3 in
  if (0 <=? shift_width) && (shift_width <? W * BITS_PER_BYTE) then
    Ret (wrapu (W * BITS_PER_BYTE) (Z.shiftl diff shift_width), ipos)
  else Undef.

Fixpoint xor_decode (n : nat) (input : list Z) (i flags ipos prev_value : Z) (out : list Z)
    : res (list Z) :=
  match n with
  | O => Ret out
  | S n' =>
      let first := Z.rem i 2 =? 0 in
      let! flags := if first then rd1 input ipos else Ret flags in
      let ipos := if first then ipos + 1 else ipos in
      let flag := Z.land flags (INT8MASK 4) in
      let flags := Z.shiftr flags 4 in
      let! r := decodeValue input ipos flag in
      let '(diff, ipos) := r in
      let bits := Z.lxor prev_value diff in
      xor_decode n' input (i + 1) flags ipos bits (out ++ le_bytes (Z.to_nat W) bits)
  end.

(** The bytes written to [output]. *)
Definition xor_decompress (input : list Z) (nelements : Z) : res (list Z) :=
  let! ind := rd1 input 0 in
  if ind =? 1 then rd input 1 (nelements * W)
  else xor_decode (Z.to_nat nelements) input 0 0 1 0 [].
End Codec.

(** ** The two instances *)
Definition clz32_as_ul `{DataModel} (x : Z) : Z := ulong_bits - 1 - Z.log2 x.

Definition encodeDoubleValue := encodeValue LONG_BYTES.
Definition tsCompressDoubleImp := xor_compress DOUBLE_BYTES builtin_clzll builtin_ctzll.
Definition decodeDoubleValue `{DataModel} := decodeValue LONG_BYTES ulong_bits.
Definition tsDecompressDoubleImp `{DataModel} := xor_decompress DOUBLE_BYTES ulong_bits.

(** [__builtin_clzl] and [__builtin_ctzl] take an [unsigned long]. *)
Definition encodeFloatValue := encodeValue FLOAT_BYTES.
Definition tsCompressFloatImp `{DataModel} :=
  xor_compress FLOAT_BYTES clz32_as_ul builtin_ctzll.
Definition decodeFloatValue := decodeValue FLOAT_BYTES 32.
Definition tsDecompressFloatImp := xor_decompress FLOAT_BYTES 32.

(** ** Tags are exact *)
Section Proofs.
Context (W acc_bits : Z) (clz ctz : Z -> Z).
Context (HW : W = 4 \/ W = 8) (Hacc : 8 * W <= acc_bits).
Context (Hclz : forall x, 0 < x < 2 ^ (8 * W) -> clz x = 8 * W - 1 - Z.log2 x).
Context (Hctz : forall x, 0 < x < 2 ^ (8 * W) -> 0 <= ctz x <= Z.log2 x /\ (2 ^ ctz x | x)).

(** A tag that says how many bytes to keep, and from which end. *)
Definition tag_ok (diff flag : Z) : Prop :=
  0 <= flag < 16 /\ Z.land flag (INT8MASK 3) + 1 <= W /\
  exists q, diff = q * 2 ^ ((W - (Z.land flag (INT8MASK 3) + 1)) * 8 * Z.shiftr flag 3) /\
    0 <= q < 2 ^ (8 * (Z.land flag (INT8MASK 3) + 1)).

Lemma tag_parts k (b : bool) : 0 <= k < 8 ->
  let flag := if b then u8 (Z.lor (Z.shiftl 1 3) k) else k in
  0 <= flag < 16 /\ Z.land flag (INT8MASK 3) = k /\ Z.shiftr flag 3 = if b then 1 else 0.
Proof.
  intros Hk.
  pose proof (check_range (fun k => forallb (fun b : bool =>
    let flag := if b then u8 (Z.lor (Z.shiftl 1 3) k) else k in
    (0 <=? flag) && (flag <? 16) && (Z.land flag (INT8MASK 3) =? k) &&
    (Z.shiftr flag 3 =? if b then 1 else 0)) [true; false]) 8
    ltac:(vm_compute; reflexivity) k Hk) as H.
  cbn [forallb] in H. destruct b; cbv zeta in *; lia.
Qed.

Lemma tag_ok_0 : tag_ok 0 0.
Proof using HW.
  unfold tag_ok. change (Z.land 0 (INT8MASK 3) + 1) with 1. split; [done|]. split; [lia|].
  exists 0. split; [lia|done].
Qed.

Lemma xor_flag_spec diff : in_u (8 * W) diff -> tag_ok diff (xor_flag W clz ctz diff).
Proof using HW Hclz Hctz.
  unfold in_u, xor_flag, BITS_PER_BYTE. intros Hd.
  destruct (Z.eqb_spec diff 0) as [->|Hne].
  { rewrite (proj2 (Z.ltb_ge _ _)) by lia.
    replace (u8 (W - Z.quot (W * 8) 8)) with 0
      by (rewrite Z.quot_mul, Z.sub_diag by lia; done).
    exact tag_ok_0. }
  rewrite Hclz by lia. destruct (Hctz diff ltac:(lia)) as [Hc Hdiv].
  pose proof (log2_range diff (8 * W) ltac:(lia) ltac:(lia)) as Hlog.
  destruct (Z.log2_spec diff ltac:(lia)) as [_ Hup].
  set (lz := 8 * W - 1 - Z.log2 diff) in *. set (tz := ctz diff) in *.
  rewrite !Z.quot_div_nonneg by lia.
  assert (Hq : forall z, 0 <= z < 8 * W -> 0 <= z / 8 < W /\ 8 * (z / 8) <= z < 8 * (z / 8) + 8).
  { intros z Hz. pose proof (Z.mod_pos_bound z 8 ltac:(lia)). pose proof (Z.div_mod z 8 ltac:(lia)).
    lia. }
  destruct (Z.ltb_spec lz tz) as [Hlt|Hge].
  - destruct (Hq tz) as [Hq1 Hq2]; [lia|]. rewrite (wrapu_id 8 (W - tz / 8)) by (unfold in_u; lia).
    rewrite (proj2 (Z.ltb_lt _ _)) by lia.
    destruct (tag_parts (W - tz / 8 - 1) true) as (Hr & Hk & Hsh); [lia|].
    cbv zeta in *. split; [done|]. rewrite Hk, Hsh. split; [lia|].
    exists (diff / 2 ^ (8 * (tz / 8))).
    assert (Hdvd : (2 ^ (8 * (tz / 8)) | diff)).
    { eapply Z.divide_trans; [|exact Hdiv]. exists (2 ^ (tz - 8 * (tz / 8))).
      rewrite <- Z.pow_add_r by lia. f_equal. lia. }
    replace ((W - (W - tz / 8 - 1 + 1)) * 8 * 1) with (8 * (tz / 8)) by lia.
    pose proof (pow2_pos (8 * (tz / 8)) ltac:(lia)).
    split; [|split].
    + rewrite Z.mul_comm. apply Z_div_exact_full_2; [lia|]. by apply Z.mod_divide; [lia|].
    + apply Z.div_pos; lia.
    + apply Z.div_lt_upper_bound; [lia|]. rewrite <- Z.pow_add_r by lia.
      replace (8 * (tz / 8) + 8 * (W - tz / 8 - 1 + 1)) with (8 * W) by lia. lia.
  - destruct (Hq lz) as [Hq1 Hq2]; [lia|]. rewrite (wrapu_id 8 (W - lz / 8)) by (unfold in_u; lia).
    rewrite (proj2 (Z.ltb_lt _ _)) by lia.
    destruct (tag_parts (W - lz / 8 - 1) false) as (Hr & Hk & Hsh); [lia|].
    cbv zeta in *. split; [done|]. rewrite Hk, Hsh, Z.mul_0_r. split; [lia|].
    exists diff. change (2 ^ 0) with 1. split; [lia|]. split; [lia|].
    apply (Z.lt_le_trans _ _ _ Hup). apply Z.pow_le_mono_r; lia.
Qed.

(** ** One value out and back *)
Definition value_bytes (diff flag : Z) : list Z :=
  le_bytes (Z.to_nat (Z.land flag (INT8MASK 3) + 1))
    (Z.shiftr diff ((W - (Z.land flag (INT8MASK 3) + 1)) * 8 * Z.shiftr flag 3)).

Lemma value_bytes_0 : value_bytes 0 0 = [0].
Proof. unfold value_bytes. by rewrite Z.shiftr_0_l. Qed.

Lemma emit_bytes_eq k diff : emit_bytes k diff = le_bytes k diff.
Proof.
  revert diff. induction k as [|k IH]; intros diff; [done|]. cbn [emit_bytes le_bytes].
  change 255 with (2 ^ 8 - 1). rewrite land_mask by lia.
  rewrite IH, Z.shiftr_div_pow2 by (unfold BITS_PER_BYTE; lia). done.
Qed.

Lemma tag_shift flag : 0 <= flag < 16 -> 0 <= Z.shiftr flag 3 <= 1.
Proof.
  intros Hf. rewrite Z.shiftr_div_pow2 by lia. change (2 ^ 3) with 8.
  pose proof (Z.mod_pos_bound flag 8 ltac:(lia)). pose proof (Z.div_mod flag 8 ltac:(lia)). lia.
Qed.

Lemma tag_low flag : 0 <= Z.land flag (INT8MASK 3) < 8.
Proof. change (INT8MASK 3) with (2 ^ 3 - 1). rewrite land_mask by lia. by apply Z.mod_pos_bound. Qed.

Lemma encodeValue_spec diff flag out : tag_ok diff flag ->
  encodeValue W diff flag out = Ret (out ++ value_bytes diff flag).
Proof using HW.
  intros (Hf & Hl & _). pose proof (tag_shift flag Hf). pose proof (tag_low flag).
  unfold encodeValue, value_bytes, BITS_PER_BYTE.
  rewrite (wrapu_id 8) by (unfold in_u; change (2 ^ 8) with 256; lia).
  set (k := Z.land flag (INT8MASK 3) + 1) in *.
  replace ((W * 8 - k * 8) * Z.shiftr flag 3) with ((W - k) * 8 * Z.shiftr flag 3) by lia.
  rewrite (proj2 (Z.leb_le _ _)), (proj2 (Z.ltb_lt _ _)) by nia. cbn [andb].
  by rewrite emit_bytes_eq.
Qed.

Lemma gather_bytes_spec k : forall pre post x i acc,
  0 <= i -> 0 <= acc < 2 ^ (8 * i) -> i + Z.of_nat k <= W ->
  gather_bytes acc_bits k (pre ++ le_bytes k x ++ post) (Z.of_nat (length pre)) i acc =
    Ret (acc + 2 ^ (8 * i) * (x mod 2 ^ (8 * Z.of_nat k)), Z.of_nat (length pre) + Z.of_nat k).
Proof using HW Hacc.
  induction k as [|k IH]; intros pre post x i acc Hi Hr Hk; cbn [gather_bytes le_bytes].
  - change (2 ^ (8 * Z.of_nat 0)) with 1. rewrite Z.mod_1_r. do 2 f_equal; lia.
  - rewrite <- app_comm_cons, rd1_app_mid by done. cbn [rbind]. unfold BITS_PER_BYTE.
    rewrite (proj2 (Z.ltb_lt _ _)) by lia. rewrite Z.land_comm.
    change 255 with (2 ^ 8 - 1). rewrite land_mask by lia. change (2 ^ 8) with 256.
    rewrite Z.mod_mod by lia. pose proof (Z.mod_pos_bound x 256 ltac:(lia)).
    assert (Hstep : 2 ^ (8 * (i + 1)) = 256 * 2 ^ (8 * i))
      by (replace (8 * (i + 1)) with (8 + 8 * i) by lia; by rewrite Z.pow_add_r by lia).
    rewrite wrapu_id.
    2: { unfold in_u. rewrite Z.shiftl_mul_pow2 by lia.
      pose proof (Z.pow_le_mono_r 2 (8 * (i + 1)) acc_bits). pose proof (pow2_pos (8 * i)). nia. }
    rewrite lor_shiftl by lia.
    rewrite (cons_middle (x mod 256) pre (le_bytes k (x / 256) ++ post)), (app_assoc pre).
    replace (Z.of_nat (length pre) + 1) with (Z.of_nat (length (pre ++ [x mod 256])))
      by (rewrite length_app; simpl; lia).
    rewrite IH by (lia || nia). rewrite length_app, pow256_S, Z.rem_mul_r by
      (lia || apply pow2_pos; lia).
    rewrite Hstep. cbn [length]. do 2 f_equal; lia.
Qed.

Lemma decodeValue_spec diff flag pre post : tag_ok diff flag -> in_u (8 * W) diff ->
  decodeValue W acc_bits (pre ++ value_bytes diff flag ++ post) (Z.of_nat (length pre)) flag =
    Ret (diff, Z.of_nat (length (pre ++ value_bytes diff flag))).
Proof using HW Hacc.
  intros (Hf & Hl & q & Hq & Hqr) Hd. pose proof (tag_shift flag Hf). pose proof (tag_low flag).
  unfold decodeValue, value_bytes, BITS_PER_BYTE.
  set (k := Z.land flag (INT8MASK 3) + 1) in *. set (sh := (W - k) * 8 * Z.shiftr flag 3) in *.
  assert (Hsh : 0 <= sh < W * 8) by (unfold sh; nia).
  rewrite gather_bytes_spec by lia. cbn [rbind].
  replace ((W * 8 - k * 8) * Z.shiftr flag 3) with sh by (unfold sh; lia).
  rewrite (proj2 (Z.leb_le _ _)), (proj2 (Z.ltb_lt _ _)) by lia. cbn [andb].
  rewrite length_app, length_le_bytes, Nat2Z.inj_add. do 2 f_equal.
  rewrite Z2Nat.id by lia. change (2 ^ (8 * 0)) with 1.
  pose proof (pow2_pos sh ltac:(lia)).
  rewrite Z.shiftr_div_pow2, Hq, Z.div_mul, Z.mod_small, Z.mul_1_l, Z.add_0_l by lia.
  rewrite Z.shiftl_mul_pow2, <- Hq by lia. apply wrapu_id. by rewrite Z.mul_comm.
Qed.

(** ** The stream of pairs *)
Fixpoint diffs (prev_value : Z) (vs : list Z) : list Z :=
  match vs with
  | [] => []
  | v :: t => Z.lxor v prev_value :: diffs v t
  end.

Definition tag (d : Z) : Z := xor_flag W clz ctz d.

Fixpoint enc_pairs (ds : list Z) : list Z :=
  match ds with
  | d1 :: d2 :: t =>
      u8 (Z.lor (tag d1) (Z.shiftl (tag d2) 4)) ::
        value_bytes d1 (tag d1) ++ value_bytes d2 (tag d2) ++ enc_pairs t
  | [d] => tag d :: value_bytes d (tag d) ++ [0]
  | [] => []
  end.

Lemma length_value_bytes d f :
  Z.of_nat (length (value_bytes d f)) = Z.land f (INT8MASK 3) + 1.
Proof. unfold value_bytes. rewrite length_le_bytes. pose proof (tag_low f). lia. Qed.

Lemma lxor_in v pv : in_u (8 * W) v -> in_u (8 * W) pv -> in_u (8 * W) (Z.lxor v pv).
Proof using HW. intros. apply lxor_range; [lia|done..]. Qed.

Lemma tag_spec d : in_u (8 * W) d -> tag_ok d (tag d).
Proof using HW Hclz Hctz. apply xor_flag_spec. Qed.

(** ** What is written are bytes *)
Lemma encodeValue_bytes diff flag out out' :
  encodeValue W diff flag out = Ret out' -> bytes_ok out -> bytes_ok out'.
Proof.
  unfold encodeValue. destruct (_ && _); [|done]. intros [= <-] Hok. rewrite emit_bytes_eq.
  apply bytes_ok_app. split; [done|apply le_bytes_ok].
Qed.

Lemma xor_flag_byte diff : byte_ok (xor_flag W clz ctz diff).
Proof.
  unfold xor_flag. destruct (_ <? _); [apply byte_ok_u8|].
  pose proof (byte_ok_u8 (W - Z.quot (if diff =? 0 then W * BITS_PER_BYTE else clz diff)
    BITS_PER_BYTE)) as H. unfold byte_ok in *. destruct (Z.ltb_spec 0 (u8
    (W - Z.quot (if diff =? 0 then W * BITS_PER_BYTE else clz diff) BITS_PER_BYTE))); lia.
Qed.

Lemma xor_loop_bytes inp limit k : forall i pv pd pf out pd' pf' out',
  xor_loop W clz ctz k inp limit i pv pd pf out = Ret (Some (pd', pf', out')) ->
  byte_ok pf -> bytes_ok out -> byte_ok pf' /\ bytes_ok out'.
Proof.
  induction k as [|k IH]; intros i pv pd pf out pd' pf' out' Hc Hpf Hok; cbn [xor_loop] in Hc.
  { by simplify_eq Hc; intros _ <- <-. }
  apply rbind_Ret_inv in Hc as (bs & _ & Hc). cbv zeta in Hc.
  destruct (Z.rem i 2 =? 0); [eapply IH; [exact Hc|apply xor_flag_byte|done]|].
  destruct (_ <=? limit); [|done].
  apply rbind_Ret_inv in Hc as (o1 & Ho1 & Hc). apply rbind_Ret_inv in Hc as (o2 & Ho2 & Hc).
  eapply IH; [exact Hc|done|]. eapply encodeValue_bytes; [exact Ho2|].
  eapply encodeValue_bytes; [exact Ho1|]. apply bytes_ok_app.
  split; [done|]. apply bytes_ok_cons; [apply byte_ok_u8|constructor].
Qed.

Lemma xor_tail_bytes nelements limit pd pf out out' :
  xor_tail W nelements limit pd pf out = Ret (Some out') ->
  byte_ok pf -> bytes_ok out -> bytes_ok out'.
Proof.
  unfold xor_tail. intros Ht Hpf Hok. destruct (negb _); [|by injection Ht as <-].
  destruct (_ <=? limit); [|done].
  apply rbind_Ret_inv in Ht as (o1 & Ho1 & Ht). apply rbind_Ret_inv in Ht as (o2 & Ho2 & Ht).
  injection Ht as <-. eapply encodeValue_bytes; [exact Ho2|].
  eapply encodeValue_bytes; [exact Ho1|]. apply bytes_ok_app.
  split; [done|]. apply bytes_ok_cons; [done|constructor].
Qed.

Lemma xor_bytes (nelements : Z) (inp out : list Z) : bytes_ok inp ->
  xor_compress W clz ctz inp nelements = Ret out -> bytes_ok out.
Proof.
  unfold xor_compress. intros Hin Hc. apply rbind_Ret_inv in Hc as (r & Hr & Hc).
  apply rbind_Ret_inv in Hc as (d & Hd & Hc). destruct d as [o|].
  - injection Hc as <-. apply bytes_ok_cons; [done|].
    destruct r as [[[pd pf] o1]|]; [|done].
    assert (Hpf : byte_ok pf /\ bytes_ok o1)
      by (eapply xor_loop_bytes; [exact Hr|done|constructor]).
    eapply xor_tail_bytes; [exact Hd|apply Hpf..].
  - apply rbind_Ret_inv in Hc as (raw & Hraw & Hc). injection Hc as <-.
    apply bytes_ok_cons; [done|]. by eapply bytes_ok_rd.
Qed.

(** ** The decoder reads the pairs back *)
Lemma tag_nibbles d1 d2 : tag_ok d1 (tag d1) -> tag_ok d2 (tag d2) ->
  let flags := u8 (Z.lor (tag d1) (Z.shiftl (tag d2) 4)) in
  Z.land flags (INT8MASK 4) = tag d1 /\ Z.land (Z.shiftr flags 4) (INT8MASK 4) = tag d2.
Proof.
  intros (H1 & _) (H2 & _). destruct (nibbles (tag d1) (tag d2) H1 H2) as (_ & Ha & Hb & _). done.
Qed.

(** Decoding one value in the middle of a buffer, and xoring it in. *)
Lemma decode_value v pv pre post : in_u (8 * W) v -> in_u (8 * W) pv ->
  let d := Z.lxor v pv in
  decodeValue W acc_bits (pre ++ value_bytes d (tag d) ++ post) (Z.of_nat (length pre)) (tag d) =
    Ret (d, Z.of_nat (length (pre ++ value_bytes d (tag d)))) /\ Z.lxor pv d = v.
Proof using HW Hacc Hclz Hctz.
  intros Hv Hpv d. split.
  - apply decodeValue_spec; [apply tag_spec|]; by apply lxor_in.
  - unfold d. rewrite (Z.lxor_comm v), <- Z.lxor_assoc, Z.lxor_nilpotent. apply Z.lxor_0_l.
Qed.

Lemma xor_decode_spec vs : forall i fl pre post pv acc,
  0 <= i -> i mod 2 = 0 -> Forall (in_u (8 * W)) vs -> in_u (8 * W) pv ->
  xor_decode W acc_bits (length vs) (pre ++ enc_pairs (diffs pv vs) ++ post) i fl
    (Z.of_nat (length pre)) pv acc = Ret (acc ++ pack_elems (Z.to_nat W) vs).
Proof using HW Hacc Hclz Hctz.
  induction vs as [|v|v1 v2 vs IH] using list_ind2; intros i fl pre post pv acc Hi Hev Hvs Hpv;
    cbn [xor_decode length diffs enc_pairs]; rewrite ?rem2, ?Hev by lia.
  - unfold pack_elems. simpl. by rewrite app_nil_r.
  - apply Forall_cons in Hvs as [Hv _].
    destruct (decode_value v pv (pre ++ [tag (Z.lxor v pv)]) (0 :: post) Hv Hpv) as [Hdec Hx].
    pose proof (tag_spec _ (lxor_in v pv Hv Hpv)) as Ht.
    assert (Hlo : Z.land (tag (Z.lxor v pv)) (INT8MASK 4) = tag (Z.lxor v pv)).
    { change (INT8MASK 4) with (2 ^ 4 - 1). rewrite land_mask by lia.
      apply Z.mod_small. by destruct Ht. }
    cbn [Z.eqb]. rewrite <- app_comm_cons, rd1_app_mid by done. cbn [rbind]. rewrite Hlo.
    rewrite <- app_assoc, cons_middle, app_assoc in *. cbn [app] in *.
    replace (Z.of_nat (length pre) + 1) with (Z.of_nat (length (pre ++ [tag (Z.lxor v pv)])))
      by (rewrite length_app; simpl; lia).
    rewrite Hdec. cbn [rbind]. by rewrite Hx, pack_elems_one.
  - apply Forall_cons in Hvs as [Hv1 Hvs]. apply Forall_cons in Hvs as [Hv2 Hvs].
    set (d1 := Z.lxor v1 pv). set (d2 := Z.lxor v2 v1).
    destruct (tag_nibbles d1 d2) as [Hlo Hhi]; [by apply tag_spec, lxor_in..|]. cbv zeta in Hlo, Hhi.
    set (fl' := u8 (Z.lor (tag d1) (Z.shiftl (tag d2) 4))) in *. clearbody fl'.
    set (rest := enc_pairs (diffs v2 vs)).
    destruct (decode_value v1 pv (pre ++ [fl']) (value_bytes d2 (tag d2) ++ rest ++ post) Hv1 Hpv)
      as [Hdec1 Hx1]. fold d1 in Hdec1, Hx1.
    destruct (decode_value v2 v1 ((pre ++ [fl']) ++ value_bytes d1 (tag d1)) (rest ++ post) Hv2 Hv1)
      as [Hdec2 Hx2]. fold d2 in Hdec2, Hx2.
    assert (Hbuf : pre ++ (fl' :: value_bytes d1 (tag d1) ++ value_bytes d2 (tag d2) ++ rest) ++ post =
      (pre ++ [fl']) ++ value_bytes d1 (tag d1) ++ value_bytes d2 (tag d2) ++ rest ++ post)
      by (rewrite <- !app_assoc; cbn [app]; by rewrite <- !app_assoc).
    assert (Hfl : rd1 (pre ++ (fl' :: value_bytes d1 (tag d1) ++ value_bytes d2 (tag d2) ++ rest)
      ++ post) (Z.of_nat (length pre)) = Ret fl') by (rewrite <- app_comm_cons; by apply rd1_app_mid).
    change (0 =? 0) with true. cbn iota. rewrite Hfl. cbn [rbind]. rewrite Hlo, Hbuf.
    replace ((i + 1) mod 2) with 1 by (rewrite Z.add_mod, Hev by lia; done).
    change (1 =? 0) with false. cbn iota. cbn [rbind]. rewrite Hhi.
    replace (Z.of_nat (length pre) + 1) with (Z.of_nat (length (pre ++ [fl'])))
      by (rewrite length_app; simpl; lia).
    rewrite Hdec1. cbn [rbind]. rewrite Hx1, (app_assoc (pre ++ [fl'])), Hdec2. cbn [rbind].
    rewrite Hx2, (app_assoc _ (value_bytes d2 (tag d2))). unfold rest.
    rewrite IH; [|lia| |done..].
    + by rewrite !pack_elems_cons, !app_assoc.
    + replace (i + 1 + 1) with (i + 1 * 2) by lia. by rewrite Z_mod_plus_full.
Qed.

(** ** The encoder writes the pairs *)
Context (vals : list Z) (Hvals : Forall (in_u (8 * W)) vals).
Let n := Z.of_nat (length vals).
Let bl := n * W + 1.
Let input := pack_elems (Z.to_nat W) vals.

Lemma rd_input i v vs : 0 <= i -> drop (Z.to_nat i) vals = v :: vs ->
  (let! bs := rd input (i * W) W in Ret (le_val bs)) = Ret v /\
  drop (Z.to_nat (i + 1)) vals = vs /\ in_u (8 * W) v.
Proof using HW Hvals.
  intros Hi Hd. destruct (rd_pack_drop (Z.to_nat W) vals i v vs Hi Hd) as (Hrd & Hd' & Hin).
  rewrite Z2Nat.id in Hrd by lia. unfold input. rewrite Hrd. cbn [rbind].
  assert (Hv : in_u (8 * W) v) by (rewrite Forall_forall in Hvals; by apply Hvals).
  split; [|done]. rewrite le_val_bytes, Z2Nat.id by lia. by rewrite Z.mod_small.
Qed.

Definition finish (r : option (Z * Z * list Z)) : res (option (list Z)) :=
  match r with
  | Some (prev_diff, prev_flag, out) => xor_tail W n bl prev_diff prev_flag out
  | None => Ret None
  end.

Lemma xor_loop_spec vs : forall i pv pd pf out,
  0 <= i -> i mod 2 = 0 -> drop (Z.to_nat i) vals = vs -> i <= n ->
  in_u (8 * W) pv -> 1 + Z.of_nat (length out) <= bl ->
  exists r, rbind (xor_loop W clz ctz (length vs) input bl i pv pd pf out) finish = Ret r /\
    match r with
    | Some out' => out' = out ++ enc_pairs (diffs pv vs) /\ 1 + Z.of_nat (length out') <= bl
    | None => True
    end.
Proof using HW Hclz Hctz Hvals.
  induction vs as [|v|v1 v2 vs IH] using list_ind2; intros i pv pd pf out Hi Hev Hd Hin Hpv Hout.
  - pose proof (drop_nil_len vals i Hi Hd) as Hn. fold n in Hn.
    cbn [xor_loop length rbind finish]. unfold xor_tail. rewrite rem2 by lia.
    replace n with i by lia. rewrite Hev. cbn [negb Z.eqb]. eexists. split; [done|].
    by rewrite app_nil_r.
  - destruct (rd_input i v [] Hi Hd) as (Hv & _ & Hvr).
    pose proof (drop_cons_len vals [v] i Hi Hd ltac:(done)) as Hn. fold n in Hn.
    cbn [xor_loop length]. apply rbind_Ret_inv in Hv as (bs & -> & [= Hv]).
    cbn [rbind]. rewrite Hv.
    rewrite rem2, Hev by lia. cbn [Z.eqb rbind finish]. unfold xor_tail. rewrite rem2 by lia.
    replace (n mod 2) with 1 by (rewrite Hn; simpl; rewrite Z.add_mod, Hev by lia; done).
    cbn [negb Z.eqb]. change (negb (1 =? 0)) with true. cbn iota.
    fold (tag (Z.lxor v pv)). pose proof (tag_spec _ (lxor_in v pv Hvr Hpv)) as Htag.
    destruct (Z.leb_spec (1 + Z.of_nat (length out) + 1 +
      (Z.land (tag (Z.lxor v pv)) (INT8MASK 3) + 1) + 1) bl); [|by eexists].
    rewrite (encodeValue_spec _ _ _ Htag). cbn [rbind].
    rewrite (encodeValue_spec _ _ _ tag_ok_0).
    cbn [rbind]. eexists. split; [done|]. cbn [diffs enc_pairs].
    rewrite value_bytes_0. split.
    + by rewrite <- !app_assoc.
    + rewrite !length_app, !Nat2Z.inj_add, length_value_bytes. simpl length. lia.
  - destruct (rd_input i v1 _ Hi Hd) as (Hv1 & Hd1 & Hv1r).
    destruct (rd_input (i + 1) v2 _ ltac:(lia) Hd1) as (Hv2 & Hd2 & Hv2r).
    pose proof (drop_cons_len vals _ i Hi Hd ltac:(done)) as Hn. fold n in Hn. cbn [length] in Hn.
    apply rbind_Ret_inv in Hv1 as (bs1 & Hb1 & [= Hv1]).
    apply rbind_Ret_inv in Hv2 as (bs2 & Hb2 & [= Hv2]).
    cbn [xor_loop length]. rewrite Hb1, Hb2. cbn [rbind]. rewrite Hv1, Hv2.
    rewrite !rem2, Hev by lia.
    replace ((i + 1) mod 2) with 1 by (rewrite Z.add_mod, Hev by lia; done).
    change (0 =? 0) with true. change (1 =? 0) with false. cbn iota.
    fold (tag (Z.lxor v1 pv)) (tag (Z.lxor v2 v1)).
    pose proof (tag_spec _ (lxor_in v1 pv Hv1r Hpv)) as Ht1.
    pose proof (tag_spec _ (lxor_in v2 v1 Hv2r Hv1r)) as Ht2.
    destruct (Z.leb_spec (1 + Z.of_nat (length out) + 1 +
      (Z.land (tag (Z.lxor v1 pv)) (INT8MASK 3) + 1) +
      (Z.land (tag (Z.lxor v2 v1)) (INT8MASK 3) + 1)) bl); [|by eexists].
    rewrite (encodeValue_spec _ _ _ Ht1). cbn [rbind].
    rewrite (encodeValue_spec _ _ _ Ht2). cbn [rbind].
    set (out2 := (_ ++ value_bytes (Z.lxor v2 v1) _)).
    destruct (IH (i + 1 + 1) v2 (Z.lxor v1 pv) (tag (Z.lxor v1 pv)) out2) as (r & -> & Hr);
      [lia| |done|lia|done| |].
    { replace (i + 1 + 1) with (i + 1 * 2) by lia. by rewrite Z_mod_plus_full. }
    { unfold out2. rewrite !length_app, !Nat2Z.inj_add, !length_value_bytes. simpl length. lia. }
    exists r. split; [done|]. destruct r as [out'|]; [|done]. destruct Hr as [-> Hlen].
    split; [|done]. cbn [diffs enc_pairs]. unfold out2. by rewrite <- !app_assoc.
Qed.

(** The whole codec, for any word width. *)
Lemma xor_roundtrip (post : list Z) :
  exists out, xor_compress W clz ctz input n = Ret out /\ Z.of_nat (length out) <= bl /\
    xor_decompress W acc_bits (out ++ post) n = Ret input.
Proof using HW Hacc Hclz Hctz Hvals.
  unfold xor_compress, xor_decompress. fold bl.
  assert (Hin : rd input 0 (bl - 1) = Ret input).
  { replace (bl - 1) with (Z.of_nat (length input)); [apply rd_full|].
    unfold input, bl, n. rewrite length_pack_elems. nia. }
  destruct (xor_loop_spec vals 0 0 0 0 []) as (r & Hloop & Hr);
    [lia|done|done|unfold n; lia|split; [lia|apply pow2_pos; lia]|simpl; unfold bl, n; lia|].
  unfold n at 1. rewrite Nat2Z.id.
  destruct (xor_loop W clz ctz (length vals) input bl 0 0 0 0 []) as [p| | |] eqn:Hl; try done.
  cbn [rbind] in *. fold (finish p). rewrite Hloop. cbn [rbind]. destruct r as [out|].
  - destruct Hr as [-> Hlen]. eexists. split; [done|]. split; [cbn [length]; lia|].
    rewrite <- app_comm_cons. change (rd1 _ 0) with (Ret 0). cbn [rbind app].
    change (0 =? 1) with false. cbn iota. unfold n. rewrite Nat2Z.id.
    apply (xor_decode_spec vals 0 0 [0] post 0 []); [lia|done|done|].
    split; [lia|apply pow2_pos; lia].
  - rewrite Hin. cbn [rbind]. eexists. split; [done|].
    assert (Hlen : Z.of_nat (length input) = n * W)
      by (unfold input, n; rewrite length_pack_elems; nia).
    split; [cbn [length]; unfold bl; lia|].
    rewrite <- app_comm_cons. change (rd1 _ 0) with (Ret 1). cbn [rbind].
    change (1 =? 1) with true. cbn iota. by apply (rd_app_mid [1]).
Qed.
End Proofs.

(** ** Properties *)
Lemma builtins_64 x : 0 < x < 2 ^ (8 * 8) ->
  builtin_clzll x = 8 * 8 - 1 - Z.log2 x /\
  0 <= builtin_ctzll x <= Z.log2 x /\ (2 ^ builtin_ctzll x | x).
Proof. intros Hx. split; [done|]. apply ctz_spec. lia. Qed.

Lemma double_both (n : Z) (input post : list Z) :
  bytes_ok input -> 0 <= n -> Z.of_nat (length input) = n * 8 ->
  exists out, tsCompressDoubleImp input n = Ret out /\ Z.of_nat (length out) <= n * 8 + 1 /\
    @tsDecompressDoubleImp LP64 (out ++ post) n = Ret input.
Proof.
  intros Hin Hn Hlen.
  destruct (typed_view_u 8 (Z.to_nat n) input) as (vals & Hnv & Hvals & ->); [lia|done|lia|].
  replace n with (Z.of_nat (length vals)) by lia.
  apply (xor_roundtrip 8 64); [lia|lia|apply builtins_64..|done].
Qed.

Lemma float_both (n : Z) (input post : list Z) :
  bytes_ok input -> 0 <= n -> Z.of_nat (length input) = n * 4 ->
  exists out, @tsCompressFloatImp ILP32 input n = Ret out /\
    Z.of_nat (length out) <= n * 4 + 1 /\ tsDecompressFloatImp (out ++ post) n = Ret input.
Proof.
  intros Hin Hn Hlen.
  destruct (typed_view_u 4 (Z.to_nat n) input) as (vals & Hnv & Hvals & ->); [lia|done|lia|].
  replace n with (Z.of_nat (length vals)) by lia.
  apply (xor_roundtrip 4 32); [lia|lia| |intros x Hx; apply ctz_spec; lia|done].
  intros x _. reflexivity.
Qed.

#[export] Instance double_codec : ColumnCodec 8 tsCompressDoubleImp (@tsDecompressDoubleImp LP64).
Proof.
  split; [lia|]. intros n input out post Hin Hn Hlen Hout.
  destruct (double_both n input post Hin Hn Hlen) as (out' & Hout' & Hl & Hdec).
  rewrite Hout in Hout'. injection Hout' as <-. split; [by eapply xor_bytes|done].
Qed.

#[export] Instance float_codec_ilp32 : ColumnCodec 4 (@tsCompressFloatImp ILP32) tsDecompressFloatImp.
Proof.
  split; [lia|]. intros n input out post Hin Hn Hlen Hout.
  destruct (float_both n input post Hin Hn Hlen) as (out' & Hout' & Hl & Hdec).
  rewrite Hout in Hout'. injection Hout' as <-. split; [by eapply xor_bytes|done].
Qed.

(** C16.  Double columns round-trip bit for bit (LP64): any array of 64-bit
    patterns compresses, without an undefined shift, to at most one byte more
    than its size, and decodes to itself. *)
Theorem double_roundtrip (n : Z) (input post : list Z)
    (Hin : bytes_ok input) (Hn : 0 <= n) (Hlen : Z.of_nat (length input) = n * 8) :
  exists out, tsCompressDoubleImp input n = Ret out /\ Z.of_nat (length out) <= n * 8 + 1 /\
    @tsDecompressDoubleImp LP64 (out ++ post) n = Ret input.
Proof. by apply double_both. Qed.

(** Float columns round-trip bit for bit where [unsigned long] is 32 bits
    wide, as [__builtin_clzl] then counts the bits of the word it is given. *)
Theorem float_roundtrip_ilp32 (n : Z) (input post : list Z)
    (Hin : bytes_ok input) (Hn : 0 <= n) (Hlen : Z.of_nat (length input) = n * 4) :
  exists out, @tsCompressFloatImp ILP32 input n = Ret out /\
    Z.of_nat (length out) <= n * 4 + 1 /\ tsDecompressFloatImp (out ++ post) n = Ret input.
Proof. by apply float_both. Qed.

(** Where [unsigned long] is 64 bits wide the float codec loses data: a
    one-element column whose bit pattern is at least [2 ^ 24] (every negative
    float, and every positive one from 2.4e-38 up) is stored as its lowest
    byte only, so it decodes to the pattern modulo 256, another value. *)
Theorem float_lossy_lp64 (x : Z) (Hx : 2 ^ 24 <= x < 2 ^ 32) :
  exists out, @tsCompressFloatImp LP64 (le_bytes 4 x) 1 = Ret out /\
    tsDecompressFloatImp out 1 = Ret (le_bytes 4 (x mod 256)) /\
    le_bytes 4 (x mod 256) <> le_bytes 4 x.
Proof.
  assert (Hlog : 24 <= Z.log2 x < 32)
    by (split; [apply Z.log2_le_pow2|apply Z.log2_lt_pow2]; lia).
  assert (Hflag : xor_flag FLOAT_BYTES (@clz32_as_ul LP64) builtin_ctzll x = 0).
  { unfold xor_flag, clz32_as_ul, BITS_PER_BYTE, FLOAT_BYTES. simpl ulong_bits.
    rewrite (proj2 (Z.eqb_neq x 0)) by lia.
    destruct (ctz_spec x ltac:(lia)) as [Hc _].
    rewrite (proj2 (Z.ltb_ge _ _)) by lia.
    replace (Z.quot (64 - 1 - Z.log2 x) 8) with 4; [done|].
    rewrite Z.quot_div_nonneg by lia. apply (Z.div_unique _ _ _ (31 - Z.log2 x)); lia. }
  exists [0; 0; x mod 256; 0]. split; [|split].
  - unfold tsCompressFloatImp, xor_compress. change (Z.to_nat 1) with 1%nat. cbn [xor_loop].
    assert (Hrd : rd (le_bytes 4 x) (0 * FLOAT_BYTES) FLOAT_BYTES = Ret (le_bytes 4 x))
      by exact (rd_full (le_bytes 4 x)).
    rewrite Hrd. cbn [rbind]. rewrite le_val_bytes.
    rewrite Z.mod_small by (change (2 ^ (8 * Z.of_nat 4)) with (2 ^ 32); lia).
    rewrite Z.lxor_0_r, Hflag.
    assert (He : forall y out, encodeValue FLOAT_BYTES y 0 out =
      Ret (out ++ [Z.land (Z.shiftr y 0) 255])) by reflexivity.
    assert (Hmask : Z.land (Z.shiftr x 0) 255 = x mod 256)
      by (change 255 with (2 ^ 8 - 1); by rewrite Z.shiftr_0_r, land_mask by lia).
    change (Z.rem 0 2 =? 0) with true. cbn iota. cbn [rbind]. unfold xor_tail.
    change (negb (Z.rem 1 2 =? 0)) with true. cbn iota zeta.
    match goal with |- context [?a <=? ?b] => change (a <=? b) with true end.
    cbn iota. rewrite !He. cbn [rbind app]. rewrite He, Hmask. done.
  - assert (Hb : 0 <= x mod 256 < 256) by (apply Z.mod_pos_bound; lia).
    assert (Hcheck : forallb (fun b => bool_decide (tsDecompressFloatImp [0; 0; b; 0] 1 =
      Ret (le_bytes 4 b))) (seqZ 0 256) = true) by (vm_compute; reflexivity).
    apply (check_range _ 256) with (s := x mod 256) in Hcheck; [|lia].
    by apply bool_decide_eq_true in Hcheck.
  - intros Heq. apply (f_equal le_val) in Heq. rewrite !le_val_bytes in Heq.
    change (2 ^ (8 * Z.of_nat 4)) with (2 ^ 32) in Heq.
    assert (Hb : 0 <= x mod 256 < 256) by (apply Z.mod_pos_bound; lia).
    rewrite (Z.mod_small (x mod 256) (2 ^ 32)), (Z.mod_small x (2 ^ 32)) in Heq by lia. lia.
Qed.

Lemma double_roundtrip_witness :
  let input := pack_elems 8 [4607182418800017408; 4611686018427387904; 0] in
  exists out, tsCompressDoubleImp input 3 = Ret out /\ Z.of_nat (length out) <= 25 /\
    @tsDecompressDoubleImp LP64 (out ++ [7]) 3 = Ret input.
Proof. apply (double_roundtrip 3); [apply pack_elems_ok|lia|done]. Defined.

Lemma float_roundtrip_ilp32_witness :
  let input := pack_elems 4 [1065353216; 1073741824; 0] in
  exists out, @tsCompressFloatImp ILP32 input 3 = Ret out /\ Z.of_nat (length out) <= 13 /\
    tsDecompressFloatImp (out ++ [7]) 3 = Ret input.
Proof. apply (float_roundtrip_ilp32 3); [apply pack_elems_ok|lia|done]. Defined.

(** 1.0f comes back as 0.0f. *)
Lemma float_lossy_lp64_witness :
  exists out, @tsCompressFloatImp LP64 (le_bytes 4 1065353216) 1 = Ret out /\
    tsDecompressFloatImp out 1 = Ret (le_bytes 4 (1065353216 mod 256)) /\
    le_bytes 4 (1065353216 mod 256) <> le_bytes 4 1065353216.
Proof. apply float_lossy_lp64. lia. Defined.
