(* ===== verification/Tscompression.v ===== *)
(** * The column compression interface (tscompression.h, tcompression.c)

    The string codec on top of LZ4 and the per-type entry points, one or two
    stages.  Output and scratch buffers have the sizes the caller passes: a
    write past them is [Undef]. *)
From S2P Require Import Prelude CompBase CompInt CompBool CompTime CompXor.

(** LZ4's two entry points.  [LZ4_compress_default src cap] is what is written
    to a destination of [cap] bytes ([[]] for the result 0);
    [LZ4_decompress_safe src cap] is [None] for a negative result. *)
Class LZ4 := {
  LZ4_compress_default : list Z -> Z -> list Z;
  LZ4_decompress_safe : list Z -> Z -> option (list Z) }.

(** What lz4.h documents: a successful compression fits its destination, is
    undone by decompression, and consists of bytes. *)
Class LZ4Laws `{LZ4} := {
  lz4_fits src cap : Z.of_nat (length (LZ4_compress_default src cap)) <= Z.max 0 cap;
  lz4_roundtrip src cap cap' : bytes_ok src -> LZ4_compress_default src cap <> [] ->
    Z.of_nat (length src) <= cap' ->
    LZ4_decompress_safe (LZ4_compress_default src cap) cap' = Some src;
  lz4_bytes src cap : bytes_ok src -> bytes_ok (LZ4_compress_default src cap) }.

(** A write of [bs] to a buffer of [size] bytes. *)
Definition fits (size : Z) (bs : list Z) : res (list Z) :=
  if Z.of_nat (length bs) <=? size then Ret bs else Undef.

Section Strings.
Context `{LZ4}.

Definition tsCompressStringImp (input : list Z) (inputSize outputSize : Z) : res (list Z) :=
  let! src := rd input 0 inputSize in
  let compressed := LZ4_compress_default src (outputSize - 1) in
  let compressed_data_size := Z.of_nat (length compressed) in
  if (compressed_data_size <=? 0) || (inputSize <? compressed_data_size) then
    fits outputSize (0 :: src)
  else fits outputSize (1 :: compressed).

Definition tsDecompressStringImp (input : list Z) (compressedSize outputSize : Z)
    : res (list Z) :=
  let! ind := rd1 input 0 in
  if ind =? 1 then
    let! src := rd input 1 (compressedSize - 1) in
    match LZ4_decompress_safe src outputSize with
    | Some out => Ret out
    | None => Exit
    end
  else if ind =? 0 then
    let! src := rd input 1 (compressedSize - 1) in fits outputSize src
  else Exit.

(** The shape every numeric entry point has: [one] writes to [output], [two]
    to [buffer], which the string codec then compresses. *)
Definition compress_with (imp : res (list Z)) (outputSize algorithm bufferSize : Z)
    : res (list Z) :=
  if algorithm =? ONE_STAGE_COMP then
    let! out := imp in fits outputSize out
  else if algorithm =? TWO_STAGE_COMP then
    let! out := imp in
    let! buffer := fits bufferSize out in
    tsCompressStringImp buffer (Z.of_nat (length out)) outputSize
  else Exit.

Definition decompress_with (imp : list Z -> res (list Z)) (input : list Z)
    (compressedSize outputSize algorithm bufferSize : Z) : res (list Z) :=
  if algorithm =? ONE_STAGE_COMP then
    let! out := imp input in fits outputSize out
  else if algorithm =? TWO_STAGE_COMP then
    let! buffer := tsDecompressStringImp input compressedSize bufferSize in
    let! out := imp buffer in fits outputSize out
  else Exit.

Section Entry.
Context `{DataModel}.

Definition tsCompressTinyint (input : list Z) (inputSize nelements outputSize algorithm bufferSize : Z)
    : res (list Z) :=
  compress_with (tsCompressINTImp input nelements TSDB_DATA_TYPE_TINYINT)
    outputSize algorithm bufferSize.

Definition tsDecompressTinyint (input : list Z)
    (compressedSize nelements outputSize algorithm bufferSize : Z) : res (list Z) :=
  decompress_with (fun b => tsDecompressINTImp b nelements TSDB_DATA_TYPE_TINYINT)
    input compressedSize outputSize algorithm bufferSize.

Definition tsCompressSmallint (input : list Z) (inputSize nelements outputSize algorithm bufferSize : Z)
    : res (list Z) :=
  compress_with (tsCompressINTImp input nelements TSDB_DATA_TYPE_SMALLINT)
    outputSize algorithm bufferSize.

Definition tsDecompressSmallint (input : list Z)
    (compressedSize nelements outputSize algorithm bufferSize : Z) : res (list Z) :=
  decompress_with (fun b => tsDecompressINTImp b nelements TSDB_DATA_TYPE_SMALLINT)
    input compressedSize outputSize algorithm bufferSize.

Definition tsCompressInt (input : list Z) (inputSize nelements outputSize algorithm bufferSize : Z)
    : res (list Z) :=
  compress_with (tsCompressINTImp input nelements TSDB_DATA_TYPE_INT)
    outputSize algorithm bufferSize.

Definition tsDecompressInt (input : list Z)
    (compressedSize nelements outputSize algorithm bufferSize : Z) : res (list Z) :=
  decompress_with (fun b => tsDecompressINTImp b nelements TSDB_DATA_TYPE_INT)
    input compressedSize outputSize algorithm bufferSize.

Definition tsCompressBigint (input : list Z) (inputSize nelements outputSize algorithm bufferSize : Z)
    : res (list Z) :=
  compress_with (tsCompressINTImp input nelements TSDB_DATA_TYPE_BIGINT)
    outputSize algorithm bufferSize.

Definition tsDecompressBigint (input : list Z)
    (compressedSize nelements outputSize algorithm bufferSize : Z) : res (list Z) :=
  decompress_with (fun b => tsDecompressINTImp b nelements TSDB_DATA_TYPE_BIGINT)
    input compressedSize outputSize algorithm bufferSize.

Definition tsCompressBool (input : list Z) (inputSize nelements outputSize algorithm bufferSize : Z)
    : res (list Z) :=
  compress_with (tsCompressBoolImp input nelements) outputSize algorithm bufferSize.

Definition tsDecompressBool (input : list Z)
    (compressedSize nelements outputSize algorithm bufferSize : Z) : res (list Z) :=
  decompress_with (fun b => tsDecompressBoolImp b nelements)
    input compressedSize outputSize algorithm bufferSize.

Definition tsCompressString (input : list Z) (inputSize nelements outputSize algorithm bufferSize : Z)
    : res (list Z) := tsCompressStringImp input inputSize outputSize.

Definition tsDecompressString (input : list Z)
    (compressedSize nelements outputSize algorithm bufferSize : Z) : res (list Z) :=
  tsDecompressStringImp input compressedSize outputSize.

Definition tsCompressFloat (input : list Z) (inputSize nelements outputSize algorithm bufferSize : Z)
    : res (list Z) :=
  compress_with (tsCompressFloatImp input nelements) outputSize algorithm bufferSize.

Definition tsDecompressFloat (input : list Z)
    (compressedSize nelements outputSize algorithm bufferSize : Z) : res (list Z) :=
  decompress_with (fun b => tsDecompressFloatImp b nelements)
    input compressedSize outputSize algorithm bufferSize.

Definition tsCompressDouble (input : list Z) (inputSize nelements outputSize algorithm bufferSize : Z)
    : res (list Z) :=
  compress_with (tsCompressDoubleImp input nelements) outputSize algorithm bufferSize.

Definition tsDecompressDouble (input : list Z)
    (compressedSize nelements outputSize algorithm bufferSize : Z) : res (list Z) :=
  decompress_with (fun b => tsDecompressDoubleImp b nelements)
    input compressedSize outputSize algorithm bufferSize.

Definition tsCompressTimestamp (input : list Z) (inputSize nelements outputSize algorithm bufferSize : Z)
    : res (list Z) :=
  compress_with (tsCompressTimestampImp input nelements) outputSize algorithm bufferSize.

Definition tsDecompressTimestamp (input : list Z)
    (compressedSize nelements outputSize algorithm bufferSize : Z) : res (list Z) :=
  decompress_with (fun b => tsDecompressTimestampImp b nelements)
    input compressedSize outputSize algorithm bufferSize.
End Entry.
End Strings.

(** ** Round trips *)
Lemma fits_Ret size bs : Z.of_nat (length bs) <= size -> fits size bs = Ret bs.
Proof. intros. unfold fits. by rewrite (proj2 (Z.leb_le _ _)) by lia. Qed.

Lemma fits_inv size bs out : fits size bs = Ret out -> out = bs /\ Z.of_nat (length bs) <= size.
Proof. unfold fits. destruct (Z.leb_spec (Z.of_nat (length bs)) size); [|done]. by intros [= <-]. Qed.

(** The two branches of the decoder, on a block found at the head of a buffer. *)
Lemma decompress_raw `{LZ4} src post outputSize : Z.of_nat (length src) <= outputSize ->
  tsDecompressStringImp ((0 :: src) ++ post) (Z.of_nat (length src) + 1) outputSize = Ret src.
Proof.
  intros Hs. unfold tsDecompressStringImp. rewrite <- app_comm_cons.
  change (rd1 _ 0) with (Ret 0). cbn [rbind]. change (0 =? 1) with false.
  change (0 =? 0) with true. cbn iota.
  rewrite (rd_app_mid [0] src post) by (done || lia). cbn [rbind]. by apply fits_Ret.
Qed.

Lemma decompress_lz4 `{LZ4} block src post outputSize :
  LZ4_decompress_safe block outputSize = Some src ->
  tsDecompressStringImp ((1 :: block) ++ post) (Z.of_nat (length block) + 1) outputSize = Ret src.
Proof.
  intros Hs. unfold tsDecompressStringImp. rewrite <- app_comm_cons.
  change (rd1 _ 0) with (Ret 1). cbn [rbind]. change (1 =? 1) with true. cbn iota.
  rewrite (rd_app_mid [1] block post) by (done || lia). cbn [rbind]. by rewrite Hs.
Qed.

Lemma string_law `{LZ4Laws} (input out post : list Z) (outputSize outputSize' : Z) :
  bytes_ok input -> Z.of_nat (length input) <= outputSize' ->
  tsCompressStringImp input (Z.of_nat (length input)) outputSize = Ret out ->
  Z.of_nat (length out) <= Z.of_nat (length input) + 1 /\
  tsDecompressStringImp (out ++ post) (Z.of_nat (length out)) outputSize' = Ret input.
Proof.
  intros Hin Hout' Hc. unfold tsCompressStringImp in Hc. rewrite rd_full in Hc. cbn [rbind] in Hc.
  set (c := LZ4_compress_default input (outputSize - 1)) in *.
  destruct (Z.leb_spec (Z.of_nat (length c)) 0) as [Hz|Hpos];
    [|destruct (Z.ltb_spec (Z.of_nat (length input)) (Z.of_nat (length c)))]; cbn [orb] in Hc;
    apply fits_inv in Hc as [-> _]; cbn [length];
    (split; [lia|]); rewrite Nat2Z.inj_succ, <- Z.add_1_r.
  - by apply decompress_raw.
  - by apply decompress_raw.
  - apply decompress_lz4, lz4_roundtrip; [done| |done]. fold c. intros Hnil. rewrite Hnil in Hpos.
    simpl in Hpos. lia.
Qed.

Lemma string_total `{LZ4Laws} (input : list Z) (outputSize : Z) :
  Z.of_nat (length input) + 1 <= outputSize ->
  exists out, tsCompressStringImp input (Z.of_nat (length input)) outputSize = Ret out.
Proof.
  intros Hout. unfold tsCompressStringImp. rewrite rd_full. cbn [rbind].
  pose proof (lz4_fits input (outputSize - 1)) as Hfit.
  destruct (_ || _); rewrite fits_Ret by (cbn [length]; lia); by eexists.
Qed.

(** Any codec that keeps its promise keeps it through either algorithm. *)
Lemma entry_law `{LZ4Laws} width compress decompress
    `{!ColumnCodec width compress decompress} n input out post
    outputSize outputSize' algorithm bufferSize bufferSize' :
  bytes_ok input -> 0 <= n -> Z.of_nat (length input) = n * width ->
  n * width <= outputSize' -> n * width + 1 <= bufferSize' ->
  compress_with (compress input n) outputSize algorithm bufferSize = Ret out ->
  Z.of_nat (length out) <= n * width + 2 /\
  decompress_with (fun b => decompress b n) (out ++ post) (Z.of_nat (length out))
    outputSize' algorithm bufferSize' = Ret input.
Proof.
  intros Hin Hn Hlen Hout' Hbuf' Hc. unfold compress_with, decompress_with in *.
  destruct (algorithm =? ONE_STAGE_COMP).
  - apply rbind_Ret_inv in Hc as (o & Ho & Hc). apply fits_inv in Hc as [-> _].
    destruct (codec_law n input o post Hin Hn Hlen Ho) as (_ & Hl & ->). cbn [rbind].
    split; [lia|]. apply fits_Ret. lia.
  - destruct (algorithm =? TWO_STAGE_COMP); [|done].
    apply rbind_Ret_inv in Hc as (o & Ho & Hc). apply rbind_Ret_inv in Hc as (b & Hb & Hc).
    apply fits_inv in Hb as [-> _].
    destruct (codec_law n input o [] Hin Hn Hlen Ho) as (Hok & Hl & Hdec).
    rewrite app_nil_r in Hdec.
    destruct (string_law o out post outputSize bufferSize' Hok) as (Hl' & ->); [lia|done|].
    cbn [rbind]. rewrite Hdec. cbn [rbind]. split; [lia|]. apply fits_Ret. lia.
Qed.

(** ** Properties *)

(** C17.  String columns round-trip: into an output one byte larger than the
    input, [tsCompressStringImp] always succeeds, incompressible data
    included, and [tsDecompressStringImp] gives the input back from any buffer
    that starts with the encoding. *)
Theorem string_roundtrip `{LZ4Laws} (input post : list Z) (outputSize outputSize' : Z)
    (Hin : bytes_ok input) (Hout : Z.of_nat (length input) + 1 <= outputSize)
    (Hout' : Z.of_nat (length input) <= outputSize') :
  exists out, tsCompressStringImp input (Z.of_nat (length input)) outputSize = Ret out /\
    Z.of_nat (length out) <= Z.of_nat (length input) + 1 /\
    tsDecompressStringImp (out ++ post) (Z.of_nat (length out)) outputSize' = Ret input.
Proof.
  destruct (string_total input outputSize Hout) as [out Hc]. exists out. split; [done|].
  by apply (string_law input out post outputSize outputSize').
Qed.

(** A lawful stand-in for LZ4 that packs runs of one byte value and gives up
    on anything else. *)
Definition toy_lz4 : LZ4 := {|
  LZ4_compress_default src cap :=
    match src with
    | b :: t => if forallb (Z.eqb b) t && (2 <=? cap) && (Z.of_nat (length src) <? 256)
                then [b; Z.of_nat (length src)] else []
    | [] => []
    end;
  LZ4_decompress_safe src cap :=
    match src with
    | [b; n] => if n <=? cap then Some (replicate (Z.to_nat n) b) else None
    | _ => None
    end |}.

#[export] Instance toy_lz4_laws : @LZ4Laws toy_lz4.
Proof.
  split; intros [|b t] cap; cbn [LZ4_compress_default LZ4_decompress_safe toy_lz4]; try (simpl; lia);
    try done; destruct (forallb (Z.eqb b) t) eqn:Hall, (Z.leb_spec 2 cap),
      (Z.ltb_spec (Z.of_nat (length (b :: t))) 256); cbn [andb]; try (simpl; lia); try done; try (intros _; exact (Forall_nil_2 _)).
  2:{ intros Hok. apply Forall_cons in Hok as [Hb _]. apply Forall_cons; split; [done|]. apply Forall_singleton. unfold byte_ok. lia. }
  intros cap' _ _ Hcap. rewrite (proj2 (Z.leb_le _ _)) by done. rewrite Nat2Z.id. f_equal.
  cbn [length replicate]. f_equal. clear -Hall. induction t as [|x t IH]; [done|].
  cbn [forallb length replicate] in *. apply andb_prop in Hall as [Hx Ht].
  apply Z.eqb_eq in Hx as <-. by rewrite IH.
Qed.

Lemma string_roundtrip_witness :
  exists out, @tsCompressStringImp toy_lz4 (replicate 20 65) 20 21 = Ret out /\
    Z.of_nat (length out) <= 21 /\
    @tsDecompressStringImp toy_lz4 (out ++ [1]) (Z.of_nat (length out)) 20 = Ret (replicate 20 65).
Proof.
  apply (@string_roundtrip toy_lz4 toy_lz4_laws (replicate 20 65) [1] 21 20);
    [apply Forall_replicate; done|done|done].
Defined.
