(* ===== verification/Crc32c.v ===== *)
(** * CRC-32C (tcrc32c.c)

    The bitwise, the table-driven and the instruction-driven checksum, and
    the checksum records of tchecksum.h. *)
From S2P Require Import Prelude Crc32cTables.

Definition POLY : Z := 0x82f63b78.
Definition LONG_SHIFT : Z := 8192.
Definition SHORT_SHIFT : Z := 256.

(** [tab\[k\]\[i\]] *)
Definition tab_at (tab : list (list Z)) (k i : Z) : res Z :=
  match tab !! Z.to_nat k with
  | Some row => rd1 row i
  | None => Undef
  end.

(** [tab\[k1\]\[i1\] ^ tab\[k2\]\[i2\] ^ ...] *)
Fixpoint xor_tabs (tab : list (list Z)) (kis : list (Z * Z)) : res Z :=
  match kis with
  | [] => Ret 0
  | (k, i) :: t =>
      let! x := tab_at tab k i in
      let! y := xor_tabs tab t in
      Ret (Z.lxor x y)
  end.

(** An unsigned little-endian word in memory. *)
Definition rdu (w : Z) (input : list Z) (off : Z) : res Z :=
  let! bs := rd input off w in Ret (le_val bs).

(** The bit loop of [append_trivial], on [j] = the steps left. *)
Fixpoint trivial_bits (j : nat) (crc : Z) : Z :=
  match j with
  | O => crc
  | S j' =>
      trivial_bits j' (Z.lxor (Z.lxor (Z.shiftr crc 1) 0x80000000)
        (u32 (Z.land (u32 (Z.lnot crc)) 1 * POLY)))
  end.

Fixpoint append_trivial_loop (n : nat) (crc : Z) (input : list Z) (i : Z) : res Z :=
  match n with
  | O => Ret crc
  | S n' =>
      let! b := rd1 input i in
      append_trivial_loop n' (trivial_bits 8 (Z.lxor crc b)) input (i + 1)
  end.

Definition append_trivial (crc : Z) (input : list Z) (length : Z) : res Z :=
  append_trivial_loop (Z.to_nat length) crc input 0.

(** [table\[0\]\[(crc ^ *next++) & 0xff\] ^ (crc >> 8)] *)
Definition table_step (crc b : Z) : res Z :=
  let! t := tab_at table 0 (Z.land (Z.lxor crc b) 0xff) in Ret (Z.lxor t (Z.shiftr crc 8)).

(** [while (length && go(next)) { crc = step(crc, *next++); --length; }];
    the state is [(next, length, crc)], [next] an offset into [input]. *)
Fixpoint byte_loop (fuel : nat) (go : Z -> bool) (step : Z -> Z -> res Z) (input : list Z)
    (next length crc : Z) : res (Z * Z * Z) :=
  match fuel with
  | O => NoFuel
  | S fuel' =>
      if negb (length =? 0) && go next then
        let! b := rd1 input next in
        let! crc := step crc b in
        byte_loop fuel' go step input (next + 1) (length - 1) crc
      else Ret (next, length, crc)
  end.

(** [while (length >= size) { crc = step(crc, next); next += size; length -= size; }] *)
Fixpoint block_loop (fuel : nat) (size : Z) (step : Z -> Z -> res Z) (next length crc : Z)
    : res (Z * Z * Z) :=
  match fuel with
  | O => NoFuel
  | S fuel' =>
      if size <=? length then
        let! crc := step crc next in
        block_loop fuel' size step (next + size) (length - size) crc
      else Ret (next, length, crc)
  end.

(** [((uintptr_t)next & mask) != 0] for a buffer at address [addr]. *)
Definition unaligned (addr mask next : Z) : bool := negb (Z.land (addr + next) mask =? 0).

(** The body of the eight-byte loop. *)
Definition adler_step (input : list Z) (crc next : Z) : res Z :=
  let! w := rdu 8 input next in
  let crc := Z.lxor crc w in
  xor_tabs table
    [(7, Z.land crc 0xff); (6, Z.land (Z.shiftr crc 8) 0xff);
     (5, Z.land (Z.shiftr crc 16) 0xff); (4, Z.land (Z.shiftr crc 24) 0xff);
     (3, Z.land (Z.shiftr crc 32) 0xff); (2, Z.land (Z.shiftr crc 40) 0xff);
     (1, Z.land (Z.shiftr crc 48) 0xff); (0, Z.shiftr crc 56)].

Definition append_adler_table (addr crci : Z) (input : list Z) (length : Z) : res Z :=
  let fuel := S (Z.to_nat length) in
  let crc := Z.lxor crci 0xffffffff in
  let! s := byte_loop fuel (unaligned addr 7) table_step input 0 length crc in
  let '(next, length, crc) := s in
  let! s := block_loop fuel 8 (adler_step input) next length crc in
  let '(next, length, crc) := s in
  let! s := byte_loop fuel (fun _ => true) table_step input next length crc in
  let '(_, _, crc) := s in
  Ret (u32 (Z.lxor crc 0xffffffff)).

(** The body of the sixteen-byte loop ([_M_X64] builds). *)
Definition sf_step_x64 (input : list Z) (crc next : Z) : res Z :=
  let! w := rdu 8 input next in
  let crc := Z.lxor crc w in
  let! high := rdu 8 input (next + 8) in
  xor_tabs table
    [(15, Z.land crc 0xff); (14, Z.land (Z.shiftr crc 8) 0xff);
     (13, Z.land (Z.shiftr crc 16) 0xff); (12, Z.land (Z.shiftr crc 24) 0xff);
     (11, Z.land (Z.shiftr crc 32) 0xff); (10, Z.land (Z.shiftr crc 40) 0xff);
     (9, Z.land (Z.shiftr crc 48) 0xff); (8, Z.shiftr crc 56);
     (7, Z.land high 0xff); (6, Z.land (Z.shiftr high 8) 0xff);
     (5, Z.land (Z.shiftr high 16) 0xff); (4, Z.land (Z.shiftr high 24) 0xff);
     (3, Z.land (Z.shiftr high 32) 0xff); (2, Z.land (Z.shiftr high 40) 0xff);
     (1, Z.land (Z.shiftr high 48) 0xff); (0, Z.shiftr high 56)].

(** The body of the twelve-byte loop (the other builds). *)
Definition sf_step (input : list Z) (crc next : Z) : res Z :=
  let! w := rdu 4 input next in
  let crc := Z.lxor crc w in
  let! high := rdu 4 input (next + 4) in
  let! high2 := rdu 4 input (next + 8) in
  xor_tabs table
    [(11, Z.land crc 0xff); (10, Z.land (Z.shiftr crc 8) 0xff);
     (9, Z.land (Z.shiftr crc 16) 0xff); (8, Z.shiftr crc 24);
     (7, Z.land high 0xff); (6, Z.land (Z.shiftr high 8) 0xff);
     (5, Z.land (Z.shiftr high 16) 0xff); (4, Z.shiftr high 24);
     (3, Z.land high2 0xff); (2, Z.land (Z.shiftr high2 8) 0xff);
     (1, Z.land (Z.shiftr high2 16) 0xff); (0, Z.shiftr high2 24)].

(** [x64] says whether [_M_X64] is defined. *)
Definition crc32c_sf (x64 : bool) (addr crci : Z) (input : list Z) (length : Z) : res Z :=
  let fuel := S (Z.to_nat length) in
  let crc := Z.lxor crci 0xffffffff in
  let! s := byte_loop fuel (unaligned addr (if x64 then 7 else 3)) table_step input 0 length crc in
  let '(next, length, crc) := s in
  let! s := if x64 then block_loop fuel 16 (sf_step_x64 input) next length crc
            else block_loop fuel 12 (sf_step input) next length crc in
  let '(next, length, crc) := s in
  let! s := byte_loop fuel (fun _ => true) table_step input next length crc in
  let '(_, _, crc) := s in
  Ret (Z.lxor (u32 crc) 0xffffffff).

(** ** The instruction-driven version *)

(** The [_mm_crc32] intrinsics, by operand width. *)
Class SSE42 := {
  mm_crc32_u8 : Z -> Z -> Z;
  mm_crc32_u32 : Z -> Z -> Z;
  mm_crc32_u64 : Z -> Z -> Z }.

(** Apply the zeros operator table to [crc]. *)
Definition shift_crc (shift_table : list (list Z)) (crc : Z) : res Z :=
  xor_tabs shift_table
    [(0, Z.land crc 0xff); (1, Z.land (Z.shiftr crc 8) 0xff);
     (2, Z.land (Z.shiftr crc 16) 0xff); (3, Z.shiftr crc 24)].

(** The [do ... while (next < end)] loop over three lanes [shift] bytes apart,
    [w] bytes of each at a time with the instruction [op]. *)
Fixpoint lanes (fuel : nat) (w shift : Z) (op : Z -> Z -> Z) (input : list Z)
    (next end_ crc0 crc1 crc2 : Z) : res (Z * Z * Z) :=
  match fuel with
  | O => NoFuel
  | S fuel' =>
      let! a0 := rdu w input next in
      let! a1 := rdu w input (next + shift) in
      let! a2 := rdu w input (next + 2 * shift) in
      let crc0 := op crc0 a0 in
      let crc1 := op crc1 a1 in
      let crc2 := op crc2 a2 in
      let next := next + w in
      if next <? end_ then lanes fuel' w shift op input next end_ crc0 crc1 crc2
      else Ret (crc0, crc1, crc2)
  end.

(** One turn of the loops over [3 * shift] bytes. *)
Definition triple_step (shift_table : list (list Z)) (w shift : Z) (op : Z -> Z -> Z)
    (input : list Z) (crc0 next : Z) : res Z :=
  let! l := lanes (Z.to_nat shift) w shift op input next (next + shift) crc0 0 0 in
  let '(crc0, crc1, crc2) := l in
  let! s := shift_crc shift_table (u32 crc0) in
  let crc0 := Z.lxor s crc1 in
  let! s := shift_crc shift_table (u32 crc0) in
  Ret (Z.lxor s crc2).

(** [while (next < end)] over words. *)
Fixpoint word_loop (fuel : nat) (w : Z) (op : Z -> Z -> Z) (input : list Z)
    (next end_ crc0 : Z) : res (Z * Z) :=
  match fuel with
  | O => NoFuel
  | S fuel' =>
      if next <? end_ then
        let! a := rdu w input next in
        word_loop fuel' w op input (next + w) end_ (op crc0 a)
      else Ret (next, crc0)
  end.

Definition crc32c_hw `{SSE42} (x64 : bool) (addr crc : Z) (buf : list Z) (len : Z) : res Z :=
  let fuel := S (Z.to_nat len) in
  let w := if x64 then 8 else 4 in
  let op := if x64 then mm_crc32_u64 else mm_crc32_u32 in
  let u8_step := fun crc0 b => Ret (mm_crc32_u8 (u32 crc0) b) in
  let crc0 := Z.lxor crc 0xffffffff in
  let! s := byte_loop fuel (unaligned addr 7) u8_step buf 0 len crc0 in
  let '(next, len, crc0) := s in
  let! s := block_loop fuel (3 * LONG_SHIFT) (triple_step long_shifts w LONG_SHIFT op buf)
              next len crc0 in
  let '(next, len, crc0) := s in
  let! s := block_loop fuel (3 * SHORT_SHIFT) (triple_step short_shifts w SHORT_SHIFT op buf)
              next len crc0 in
  let '(next, len, crc0) := s in
  let! s := word_loop fuel w op buf next (next + (len - Z.land len 7)) crc0 in
  let '(next, crc0) := s in
  let len := Z.land len 7 in
  let! s := byte_loop fuel (fun _ => true) u8_step buf next len crc0 in
  let '(_, _, crc0) := s in
  Ret (Z.lxor (u32 crc0) 0xffffffff).

(** [taosResolveCRC]: the implementation behind the [crc32c] pointer on an x86
    build, and on ARM. *)
Definition taosResolveCRC `{SSE42} (arm sse42 x64 : bool) :
    Z -> Z -> list Z -> Z -> res Z :=
  if arm then crc32c_sf x64
  else if sse42 then crc32c_hw x64 else crc32c_sf x64.

(** ** Checksum records (tchecksum.h), over the [crc32c] pointer *)
Section Checksum.
Context (crc32c : Z -> Z -> list Z -> Z -> res Z) (addr : Z).

Definition taosCalcChecksum (csi : Z) (stream : list Z) (ssize : Z) : res Z :=
  crc32c addr csi stream ssize.

(** The buffer after the call, or [None] for the result -1. *)
Definition taosCalcChecksumAppend (csi : Z) (stream : list Z) (ssize : Z)
    : res (option (list Z)) :=
  if ssize <? 4 then Ret None else
  let! c := crc32c addr csi stream (ssize - 4) in
  if Z.of_nat (length stream) <? ssize then Undef else
  Ret (Some (take (Z.to_nat (ssize - 4)) stream ++ le_bytes 4 c ++ drop (Z.to_nat ssize) stream)).

Definition taosCheckChecksum (stream : list Z) (ssize checksum : Z) : res bool :=
  let! c := crc32c addr 0 stream ssize in Ret (checksum =? c).

Definition taosCheckChecksumWhole (stream : list Z) (ssize : Z) : res bool :=
  if ssize <? 4 then Ret false else
  let! stored := rdu 4 stream (ssize - 4) in
  let! c := crc32c addr 0 stream (ssize - 4) in
  Ret (stored =? c).
End Checksum.

(** ** The reference: one bit at a time *)
Definition crc_step (x : Z) : Z := Z.lxor (Z.shiftr x 1) (if Z.odd x then POLY else 0).

Fixpoint steps (n : nat) (x : Z) : Z :=
  match n with
  | O => x
  | S n' => steps n' (crc_step x)
  end.

Definition crc_bytes (crc : Z) (bs : list Z) : Z :=
  fold_left (fun c b => steps 8 (Z.lxor c b)) bs crc.

Definition crc32c_spec (crci : Z) (bs : list Z) : Z :=
  Z.lxor (crc_bytes (Z.lxor crci 0xffffffff) bs) 0xffffffff.

(** *** Linearity *)
Lemma lxor_swap a b c d :
  Z.lxor (Z.lxor a b) (Z.lxor c d) = Z.lxor (Z.lxor a c) (Z.lxor b d).
Proof.
  rewrite !Z.lxor_assoc. f_equal. rewrite <- !Z.lxor_assoc. f_equal. apply Z.lxor_comm.
Qed.

Lemma lxor_cancel_l a b : Z.lxor a (Z.lxor a b) = b.
Proof. by rewrite <- Z.lxor_assoc, Z.lxor_nilpotent, Z.lxor_0_l. Qed.

Lemma odd_lxor a b : Z.odd (Z.lxor a b) = xorb (Z.odd a) (Z.odd b).
Proof. rewrite <- !Z.bit0_odd. apply Z.lxor_spec. Qed.

Lemma crc_step_lxor a b : crc_step (Z.lxor a b) = Z.lxor (crc_step a) (crc_step b).
Proof.
  unfold crc_step. rewrite Z.shiftr_lxor, odd_lxor, lxor_swap. f_equal.
  destruct (Z.odd a), (Z.odd b); by rewrite ?Z.lxor_nilpotent, ?Z.lxor_0_l, ?Z.lxor_0_r.
Qed.

Lemma steps_lxor n a b : steps n (Z.lxor a b) = Z.lxor (steps n a) (steps n b).
Proof. revert a b. induction n as [|n IH]; intros; cbn [steps]; [done|]. by rewrite crc_step_lxor, IH. Qed.

Lemma steps_add n m x : steps (n + m) x = steps m (steps n x).
Proof. revert x. induction n as [|n IH]; intros; [done|]. cbn [steps Nat.add]. apply IH. Qed.

Lemma steps_0 n : steps n 0 = 0.
Proof. induction n; done. Qed.

Lemma steps_pow2 n x : steps n (2 ^ Z.of_nat n * x) = x.
Proof.
  revert x. induction n as [|n IH]; intros x; cbn [steps]; [by rewrite Z.mul_1_l|].
  rewrite Nat2Z.inj_succ, Z.pow_succ_r by lia. unfold crc_step.
  rewrite <- Z.mul_assoc, Z.odd_mul. cbn [Z.odd andb]. rewrite Z.lxor_0_r, Z.shiftr_div_pow2 by lia.
  change (2 ^ 1) with 2. rewrite Z.mul_comm, Z.div_mul by lia. apply IH.
Qed.

Lemma steps8_byte v : steps 8 (256 * v) = v.
Proof. exact (steps_pow2 8 v). Qed.

Lemma crc_step_range x : in_u 32 x -> in_u 32 (crc_step x).
Proof.
  unfold crc_step. intros Hx. apply lxor_range; [lia| |destruct (Z.odd x); done].
  unfold in_u in *. rewrite Z.shiftr_div_pow2 by lia. change (2 ^ 1) with 2.
  split; [apply Z.div_pos; lia|apply Z.div_lt_upper_bound; lia].
Qed.

Lemma steps_range n x : in_u 32 x -> in_u 32 (steps n x).
Proof. revert x. induction n; intros; cbn [steps]; [done|]. auto using crc_step_range. Qed.

(** A byte above an [8]-bit boundary is untouched by eight steps. *)
Lemma lxor_add_high c b v : byte_ok b -> Z.lxor c (b + 256 * v) = Z.lxor (Z.lxor c b) (256 * v).
Proof.
  intros Hb. rewrite Z.lxor_assoc. f_equal. unfold byte_ok in Hb.
  pose proof (lor_shiftl b v 8 ltac:(lia) Hb) as Hl. change (2 ^ 8) with 256 in Hl.
  replace (b + 256 * v) with (b + v * 256) by lia. rewrite <- Hl.
  replace (256 * v) with (Z.shiftl v 8) by (rewrite Z.shiftl_mul_pow2 by lia; lia).
  symmetry. apply Z.lxor_lor. apply Z.bits_inj'. intros i Hi.
  rewrite Z.land_spec, Z.bits_0, Z.shiftl_spec by lia. destruct (decide (i < 8)).
  - rewrite (Z.testbit_neg_r v) by lia. apply andb_false_r.
  - rewrite <- (Z.mod_small b (2 ^ 8)), Z.mod_pow2_bits_high by (lia || exact Hb). done.
Qed.

(** The checksum of a block is one long run of steps over its little-endian
    value. *)
Lemma crc_bytes_cons c b bs : crc_bytes c (b :: bs) = crc_bytes (steps 8 (Z.lxor c b)) bs.
Proof. reflexivity. Qed.

Lemma le_val_cons b bs : le_val (b :: bs) = b + 256 * le_val bs.
Proof. reflexivity. Qed.

Lemma crc_bytes_steps bs : forall c, bytes_ok bs ->
  crc_bytes c bs = steps (8 * length bs) (Z.lxor c (le_val bs)).
Proof.
  induction bs as [|b bs IH]; intros c Hok; [by rewrite Z.lxor_0_r|].
  apply Forall_cons in Hok as [Hb Hok]. rewrite crc_bytes_cons, le_val_cons, IH by done.
  assert (Hn : (8 * length (b :: bs) = 8 + 8 * length bs)%nat) by (cbn [length]; lia).
  rewrite Hn, steps_add. apply f_equal.
  by rewrite lxor_add_high, (steps_lxor 8 (Z.lxor c b)), steps8_byte by done.
Qed.

Lemma crc_bytes_one c b : crc_bytes c [b] = steps 8 (Z.lxor c b).
Proof. reflexivity. Qed.

Lemma crc_bytes_app c a b : crc_bytes c (a ++ b) = crc_bytes (crc_bytes c a) b.
Proof. apply fold_left_app. Qed.

Lemma crc_bytes_range bs : forall c, in_u 32 c -> bytes_ok bs -> in_u 32 (crc_bytes c bs).
Proof.
  induction bs as [|b bs IH]; intros c Hc Hok; [done|]. apply Forall_cons in Hok as [Hb Hok].
  apply IH; [|done]. apply steps_range, lxor_range; [lia|done|].
  unfold in_u, byte_ok in *. lia.
Qed.

(** ** The tables *)
Definition tab_entry (tab : list (list Z)) (k i : Z) : Z :=
  nth (Z.to_nat i) (nth (Z.to_nat k) tab []) 0.

(** Every row has 256 entries, so lookups at byte indices are in bounds. *)
Definition rows_full (tab : list (list Z)) : bool := forallb (fun r => (length r =? 256)%nat) tab.

Lemma tab_at_entry tab k i : rows_full tab = true -> 0 <= k < Z.of_nat (length tab) -> byte_ok i ->
  tab_at tab k i = Ret (tab_entry tab k i).
Proof.
  intros Hf Hk Hi. unfold tab_at, tab_entry.
  destruct (lookup_lt_is_Some_2 tab (Z.to_nat k)) as [row Hrow]; [lia|]. rewrite Hrow.
  rewrite (nth_lookup_Some _ _ _ _ Hrow).
  assert (Hlen : length row = 256%nat).
  { unfold rows_full in Hf. rewrite forallb_forall in Hf. apply Nat.eqb_eq, Hf.
    apply list_elem_of_In. by eapply list_elem_of_lookup_2. }
  unfold byte_ok in Hi. apply rd1_table. lia.
Qed.

(** [table\[k\]\[i\]] is [i] advanced by [k + 1] bytes. *)
Definition table_row_ok (k : Z) : bool :=
  forallb (fun i => tab_entry table k i =? steps (8 * S (Z.to_nat k)) i) (seqZ 0 256).

Lemma table_rows : forallb table_row_ok (seqZ 0 16) = true.
Proof. vm_compute. reflexivity. Qed.

Lemma table_full : rows_full table = true.
Proof. vm_compute. reflexivity. Qed.

Lemma table_at k i : 0 <= k < 16 -> byte_ok i ->
  tab_at table k i = Ret (steps (8 * S (Z.to_nat k)) i).
Proof.
  intros Hk Hi. rewrite tab_at_entry by (done || apply table_full). f_equal.
  pose proof (check_range _ 16 table_rows k Hk) as H. unfold table_row_ok in H.
  apply (check_range _ 256) with (s := i) in H; [|exact Hi]. by apply Z.eqb_eq in H.
Qed.

#[local] Opaque steps.

(** ** Slicing: one table lookup per byte *)
Fixpoint slice_terms (bs : list Z) : list (Z * Z) :=
  match bs with
  | [] => []
  | b :: t => (Z.of_nat (length t), b) :: slice_terms t
  end.

Lemma xor_tabs_slice bs : bytes_ok bs -> (length bs <= 16)%nat ->
  xor_tabs table (slice_terms bs) = Ret (steps (8 * length bs) (le_val bs)).
Proof.
  induction 1 as [|b bs Hb Hok IH]; intros Hl; [done|]. cbn [slice_terms xor_tabs].
  cbn [length] in Hl. rewrite table_at, IH by (done || lia). cbn [rbind]. f_equal.
  rewrite Nat2Z.id, le_val_cons.
  assert (Hn : (8 * length (b :: bs) = 8 + 8 * length bs)%nat) by (cbn [length]; lia).
  assert (Hn' : (8 * S (length bs) = 8 + 8 * length bs)%nat) by lia.
  rewrite Hn, Hn', !steps_add, <- steps_lxor. apply f_equal.
  pose proof (lxor_add_high 0 b (le_val bs) Hb) as Hadd. rewrite !Z.lxor_0_l in Hadd.
  by rewrite Hadd, steps_lxor, steps8_byte.
Qed.

(** The bytes of a register as the code extracts them. *)
Lemma le_bytes_S n x : le_bytes (S n) x = Z.land x 0xff :: le_bytes n (Z.shiftr x 8).
Proof.
  cbn [le_bytes]. change 0xff with (2 ^ 8 - 1). rewrite land_mask by lia.
  by rewrite Z.shiftr_div_pow2 by lia.
Qed.

Lemma le_bytes_4 x : in_u 32 x ->
  le_bytes 4 x = [Z.land x 0xff; Z.land (Z.shiftr x 8) 0xff; Z.land (Z.shiftr x 16) 0xff;
                  Z.shiftr x 24].
Proof.
  intros Hx. rewrite !le_bytes_S, !Z.shiftr_shiftr by lia. cbn [le_bytes Z.add Pos.add].
  do 4 f_equal. unfold in_u in Hx. change 0xff with (2 ^ 8 - 1). rewrite land_mask by lia.
  apply Z.mod_small. rewrite Z.shiftr_div_pow2 by lia.
  split; [apply Z.div_pos; lia|apply Z.div_lt_upper_bound; lia].
Qed.

Lemma le_bytes_8 x : in_u 64 x ->
  le_bytes 8 x = [Z.land x 0xff; Z.land (Z.shiftr x 8) 0xff; Z.land (Z.shiftr x 16) 0xff;
                  Z.land (Z.shiftr x 24) 0xff; Z.land (Z.shiftr x 32) 0xff;
                  Z.land (Z.shiftr x 40) 0xff; Z.land (Z.shiftr x 48) 0xff; Z.shiftr x 56].
Proof.
  intros Hx. rewrite !le_bytes_S, !Z.shiftr_shiftr by lia. cbn [le_bytes Z.add Pos.add].
  do 8 f_equal. unfold in_u in Hx. change 0xff with (2 ^ 8 - 1). rewrite land_mask by lia.
  apply Z.mod_small. rewrite Z.shiftr_div_pow2 by lia.
  split; [apply Z.div_pos; lia|apply Z.div_lt_upper_bound; lia].
Qed.

(** A 32-bit register xored into the first bytes of a block. *)
Lemma lxor_le_val c bs rest : in_u 32 c -> bytes_ok bs -> bytes_ok rest -> (4 <= length bs)%nat ->
  Z.lxor c (le_val (bs ++ rest)) = le_val (le_bytes (length bs) (Z.lxor c (le_val bs)) ++ rest) /\
  in_u (8 * Z.of_nat (length bs)) (Z.lxor c (le_val bs)).
Proof.
  intros Hc Hbs Hrest Hl. pose proof (le_val_range bs Hbs) as Hr.
  assert (Hx : in_u (8 * Z.of_nat (length bs)) (Z.lxor c (le_val bs))).
  { apply lxor_range; [lia| |done]. unfold in_u in *.
    pose proof (Z.pow_le_mono_r 2 32 (8 * Z.of_nat (length bs))). lia. }
  split; [|done]. rewrite !le_val_app, length_le_bytes, le_val_bytes.
  unfold in_u in Hx, Hr. rewrite (Z.mod_small (Z.lxor c (le_val bs))) by done.
  rewrite (Z.mul_comm _ (le_val rest)). rewrite <- !lor_shiftl by (done || lia).
  set (h := Z.shiftl (le_val rest) _).
  assert (Hdis : forall a, 0 <= a < 2 ^ (8 * Z.of_nat (length bs)) -> Z.lxor a h = Z.lor a h).
  { intros a Ha. apply Z.lxor_lor. apply Z.bits_inj'. intros i Hi. unfold h.
    rewrite Z.land_spec, Z.bits_0, Z.shiftl_spec by lia.
    destruct (decide (i < 8 * Z.of_nat (length bs))).
    - rewrite (Z.testbit_neg_r (le_val rest)) by lia. apply andb_false_r.
    - rewrite <- (Z.mod_small a (2 ^ (8 * Z.of_nat (length bs)))), Z.mod_pow2_bits_high by
        (done || lia). done. }
  rewrite <- !Hdis by done. by rewrite Z.lxor_assoc.
Qed.

(** ** Loops keep the checksum of what is left *)
Section Loops.
Context (input : list Z) (Hin : bytes_ok input).

Definition seg (off len : Z) : list Z := take (Z.to_nat len) (drop (Z.to_nat off) input).

Lemma seg_ok off len : bytes_ok (seg off len).
Proof. by apply Forall_take, Forall_drop. Qed.

Lemma length_seg off len : 0 <= off -> 0 <= len -> off + len <= Z.of_nat (length input) ->
  length (seg off len) = Z.to_nat len.
Proof. intros. unfold seg. rewrite length_take, length_drop. lia. Qed.

Lemma rd_seg off len : 0 <= off -> 0 <= len -> off + len <= Z.of_nat (length input) ->
  rd input off len = Ret (seg off len).
Proof. intros. unfold rd. by rewrite bool_decide_true by lia. Qed.

Lemma seg_split off k len : 0 <= off -> 0 <= k <= len ->
  seg off len = seg off k ++ seg (off + k) (len - k).
Proof.
  intros Ho Hk. unfold seg.
  replace (Z.to_nat (off + k)) with (Z.to_nat off + Z.to_nat k)%nat by lia.
  rewrite <- drop_drop. generalize (drop (Z.to_nat off) input). intros l.
  replace (Z.to_nat len) with (Z.to_nat k + Z.to_nat (len - k))%nat by lia.
  by rewrite take_take_drop.
Qed.

Lemma seg_0 off : seg off 0 = [].
Proof. done. Qed.

(** The state of the loops: [length] bytes left from [next], register [crc]. *)
Definition state_ok (next len crc : Z) : Prop :=
  0 <= next /\ 0 <= len /\ next + len <= Z.of_nat (length input) /\ in_u 32 crc.

(** [step] consumes [k] bytes. *)
Definition step_ok (k : Z) (step : Z -> Z -> res Z) : Prop :=
  forall next len crc, state_ok next len crc -> k <= len ->
    step crc next = Ret (crc_bytes crc (seg next k)).

(** [s] is a later state of the same computation. *)
Definition later (next len crc : Z) (s : Z * Z * Z) : Prop :=
  let '(next', len', crc') := s in
  state_ok next' len' crc' /\ len' <= len /\ next' + len' = next + len /\
  crc_bytes crc' (seg next' len') = crc_bytes crc (seg next len).

Lemma state_prefix k next len crc : state_ok next len crc -> 0 <= k <= len -> state_ok next k crc.
Proof. intros (Hn & Hl & Hb & Hc) Hk. split; [lia|]. split; [lia|]. split; [lia|done]. Qed.

Lemma later_refl next len crc : state_ok next len crc -> later next len crc (next, len, crc).
Proof. done. Qed.

Lemma later_step k next len crc : state_ok next len crc -> 0 <= k <= len ->
  later next len crc (next + k, len - k, crc_bytes crc (seg next k)).
Proof using Hin.
  intros (Hn & Hl & Hb & Hc) Hk. split; [|split; [lia|split; [lia|]]].
  - split; [lia|]. split; [lia|]. split; [lia|]. apply crc_bytes_range; [done|apply seg_ok].
  - by rewrite (seg_split next k len), crc_bytes_app by lia.
Qed.

Lemma later_trans next len crc n1 l1 c1 s :
  later next len crc (n1, l1, c1) -> later n1 l1 c1 s -> later next len crc s.
Proof.
  destruct s as [[n2 l2] c2]. intros (H1 & H2 & H3 & H4) (G1 & G2 & G3 & G4).
  split; [done|]. split; [lia|]. split; [lia|congruence].
Qed.

Lemma block_loop_spec size step fuel : 0 < size -> step_ok size step ->
  forall next len crc, state_ok next len crc -> len < Z.of_nat fuel ->
  exists next' len' crc', block_loop fuel size step next len crc = Ret (next', len', crc') /\
    later next len crc (next', len', crc') /\ len' < size.
Proof using Hin.
  intros Hsize Hstep. induction fuel as [|fuel IH]; intros next len crc Hst Hf;
    [unfold state_ok in Hst; lia|].
  pose proof Hst as (Hn & Hl & _). cbn [block_loop].
  destruct (Z.leb_spec size len) as [Hle|Hgt].
  - rewrite (Hstep next len crc Hst Hle). cbn [rbind].
    pose proof (later_step size next len crc Hst ltac:(lia)) as Hlat. pose proof Hlat as [Hst' _].
    destruct (IH _ _ _ Hst') as (n' & l' & c' & -> & Hl' & Hlt); [lia|].
    exists n', l', c'. split; [done|]. split; [by eapply later_trans|done].
  - exists next, len, crc. split; [done|]. by split; [apply later_refl|].
Qed.

Lemma byte_loop_spec go step fuel :
  (forall c b, in_u 32 c -> byte_ok b -> step c b = Ret (steps 8 (Z.lxor c b))) ->
  forall next len crc, state_ok next len crc -> len < Z.of_nat fuel ->
  exists next' len' crc', byte_loop fuel go step input next len crc = Ret (next', len', crc') /\
    later next len crc (next', len', crc') /\ (len' = 0 \/ go next' = false).
Proof using Hin.
  intros Hstep. induction fuel as [|fuel IH]; intros next len crc Hst Hf;
    [unfold state_ok in Hst; lia|].
  pose proof Hst as (Hn & Hl & Hb & Hc). cbn [byte_loop].
  destruct (Z.eqb_spec len 0) as [Hz|Hnz]; cbn [negb andb].
  { exists next, len, crc. split; [done|]. split; [by apply later_refl|by left]. }
  destruct (go next) eqn:Hgo.
  2: { exists next, len, crc. split; [done|]. split; [by apply later_refl|by right]. }
  destruct (lookup_lt_is_Some_2 input (Z.to_nat next)) as [b Hlook]; [lia|].
  rewrite (rd1_lookup _ _ b) by done. cbn [rbind].
  assert (Hbok : byte_ok b).
  { unfold bytes_ok in Hin. rewrite Forall_forall in Hin. apply Hin.
    by eapply list_elem_of_lookup_2. }
  assert (Hseg : seg next 1 = [b]).
  { unfold seg. by rewrite (drop_S _ _ _ Hlook). }
  rewrite Hstep by done. cbn [rbind].
  pose proof (later_step 1 next len crc Hst ltac:(lia)) as Hlat.
  rewrite Hseg, crc_bytes_one in Hlat.
  pose proof Hlat as [Hst' _].
  destruct (IH _ _ _ Hst') as (n' & l' & c' & -> & Hl' & Hend); [lia|].
  exists n', l', c'. split; [done|]. split; [by eapply later_trans|done].
Qed.

(** ** The software steps *)
Lemma table_step_spec c b : in_u 32 c -> byte_ok b -> table_step c b = Ret (steps 8 (Z.lxor c b)).
Proof.
  intros Hc Hb. unfold table_step. change 0xff with (2 ^ 8 - 1). rewrite land_mask by lia.
  assert (Hx : in_u 32 (Z.lxor c b)) by (apply lxor_range; [lia|done|]; unfold in_u, byte_ok in *; lia).
  set (x := Z.lxor c b) in *.
  assert (Hlow : byte_ok (x mod 2 ^ 8)) by (apply Z.mod_pos_bound; lia).
  rewrite table_at by (done || lia). cbn [rbind]. f_equal.
  assert (Hhigh : Z.shiftr c 8 = x / 256).
  { change 256 with (2 ^ 8). rewrite <- (Z.shiftr_div_pow2 x 8) by lia. unfold x. rewrite Z.shiftr_lxor.
    replace (Z.shiftr b 8) with 0; [by rewrite Z.lxor_0_r|].
    rewrite Z.shiftr_div_pow2 by lia. symmetry. apply Z.div_small. exact Hb. }
  rewrite Hhigh. change (2 ^ 8) with 256 in *.
  pose proof (Z.div_mod x 256 ltac:(lia)) as Hdm.
  pose proof (lxor_add_high 0 (x mod 256) (x / 256) Hlow) as Hadd. rewrite !Z.lxor_0_l in Hadd.
  replace x with (x mod 256 + 256 * (x / 256)) at 3 by lia.
  rewrite Hadd, (steps_lxor 8), steps8_byte. done.
Qed.

(** A block whose first word is xored with the register, looked up byte by
    byte. *)
Lemma slice_block next k w crc : state_ok next k crc -> (w = 4 \/ w = 8) -> w <= k <= 16 ->
  xor_tabs table (slice_terms (le_bytes (Z.to_nat w) (Z.lxor crc (le_val (seg next w))) ++
    seg (next + w) (k - w))) = Ret (crc_bytes crc (seg next k)).
Proof using Hin.
  intros (Hn & _ & Hb & Hc) Hw Hk.
  destruct (lxor_le_val crc (seg next w) (seg (next + w) (k - w)) Hc) as [Heq _];
    [apply seg_ok..|rewrite length_seg; lia|].
  rewrite length_seg in Heq by lia.
  rewrite xor_tabs_slice.
  - rewrite <- Heq, <- seg_split by lia. rewrite crc_bytes_steps by apply seg_ok.
    f_equal. f_equal. rewrite length_app, length_le_bytes, !length_seg by lia. lia.
  - apply bytes_ok_app. split; [apply le_bytes_ok|apply seg_ok].
  - rewrite length_app, length_le_bytes, length_seg; lia.
Qed.
Lemma rdu_seg w next : 0 <= w -> 0 <= next -> next + w <= Z.of_nat (length input) ->
  rdu w input next = Ret (le_val (seg next w)) /\
  seg next w = le_bytes (Z.to_nat w) (le_val (seg next w)) /\
  in_u (8 * w) (le_val (seg next w)).
Proof using Hin.
  intros Hw Hn Hb. unfold rdu. rewrite rd_seg by lia. cbn [rbind].
  pose proof (length_seg next w Hn Hw Hb) as Hl. split; [done|]. split.
  - rewrite <- Hl. symmetry. apply le_bytes_val, seg_ok.
  - pose proof (le_val_range _ (seg_ok next w)) as Hr. rewrite Hl, Z2Nat.id in Hr by lia. done.
Qed.

Lemma rdu_word w next : 0 <= w -> 0 <= next -> next + w <= Z.of_nat (length input) ->
  exists v, rdu w input next = Ret v /\ seg next w = le_bytes (Z.to_nat w) v /\ in_u (8 * w) v.
Proof using Hin.
  intros Hw Hn Hb. destruct (rdu_seg w next Hw Hn Hb) as (Hr & Hs & Hu). by eexists.
Qed.

(** The register and the first word stay within the word. *)
Lemma reg_range w next crc : (w = 4 \/ w = 8) -> in_u 32 crc -> 0 <= next ->
  next + w <= Z.of_nat (length input) -> in_u (8 * w) (Z.lxor crc (le_val (seg next w))).
Proof using Hin.
  intros Hw Hc Hn Hb. apply lxor_range; [lia| |].
  - unfold in_u in *. pose proof (Z.pow_le_mono_r 2 32 (8 * w)). lia.
  - by apply (rdu_seg w next); [lia..|].
Qed.

(** Consecutive words after the first, as one segment. *)
Lemma sf_step_ok : step_ok 12 (sf_step input).
Proof using Hin.
  intros next len crc Hst Hk. pose proof Hst as (Hn & Hl & Hb & Hc). unfold sf_step.
  destruct (rdu_seg 4 next) as (-> & _ & _); [lia..|]. cbn [rbind].
  destruct (rdu_word 4 (next + 4)) as (v1 & -> & Hs1 & Hr1); [lia..|]. cbn [rbind].
  destruct (rdu_word 4 (next + 8)) as (v2 & -> & Hs2 & Hr2); [lia..|]. cbn [rbind].
  rewrite <- (slice_block next 12 4 crc); [|by apply (state_prefix 12 next len); [|lia]|lia..].
  change (12 - 4) with 8. rewrite (seg_split (next + 4) 4 8) by lia.
  replace (next + 4 + 4) with (next + 8) by lia. change (8 - 4) with 4. rewrite Hs1, Hs2.
  change (Z.to_nat 4) with 4%nat. pose proof (reg_range 4 next crc ltac:(lia) Hc Hn ltac:(lia)) as Hr.
  rewrite (le_bytes_4 _ Hr), (le_bytes_4 v1 Hr1), (le_bytes_4 v2 Hr2). reflexivity.
Qed.

Lemma sf_step_x64_ok : step_ok 16 (sf_step_x64 input).
Proof using Hin.
  intros next len crc Hst Hk. pose proof Hst as (Hn & Hl & Hb & Hc). unfold sf_step_x64.
  destruct (rdu_seg 8 next) as (-> & _ & _); [lia..|]. cbn [rbind].
  destruct (rdu_word 8 (next + 8)) as (v1 & -> & Hs1 & Hr1); [lia..|]. cbn [rbind].
  rewrite <- (slice_block next 16 8 crc); [|by apply (state_prefix 16 next len); [|lia]|lia..].
  change (16 - 8) with 8. rewrite Hs1. change (Z.to_nat 8) with 8%nat.
  pose proof (reg_range 8 next crc ltac:(lia) Hc Hn ltac:(lia)) as Hr.
  rewrite (le_bytes_8 _ Hr), (le_bytes_8 v1 Hr1). reflexivity.
Qed.

Lemma adler_step_ok : step_ok 8 (adler_step input).
Proof using Hin.
  intros next len crc Hst Hk. pose proof Hst as (Hn & Hl & Hb & Hc). unfold adler_step.
  destruct (rdu_seg 8 next) as (-> & _ & _); [lia..|]. cbn [rbind].
  rewrite <- (slice_block next 8 8 crc); [|by apply (state_prefix 8 next len); [|lia]|lia..].
  change (8 - 8) with 0. rewrite seg_0, app_nil_r. change (Z.to_nat 8) with 8%nat.
  pose proof (reg_range 8 next crc ltac:(lia) Hc Hn ltac:(lia)) as Hr.
  rewrite (le_bytes_8 _ Hr). reflexivity.
Qed.

(** The tail loop ends with the checksum of everything. *)
Lemma tail_loop_spec step next len crc fuel :
  (forall c b, in_u 32 c -> byte_ok b -> step c b = Ret (steps 8 (Z.lxor c b))) ->
  state_ok next len crc -> len < Z.of_nat fuel ->
  exists n', byte_loop fuel (fun _ => true) step input next len crc =
    Ret (n', 0, crc_bytes crc (seg next len)) /\ in_u 32 (crc_bytes crc (seg next len)).
Proof using Hin.
  intros Hstep Hst Hf.
  destruct (byte_loop_spec (fun _ => true) step fuel Hstep next len crc Hst Hf)
    as (n' & l' & c' & -> & (Hst' & _ & _ & Hcrc) & [->|]); [|done].
  rewrite seg_0 in Hcrc. exists n'. rewrite <- Hcrc. by destruct Hst' as (_ & _ & _ & ?).
Qed.

Lemma init_range crci : in_u 32 crci -> in_u 32 (Z.lxor crci 0xffffffff).
Proof. intros. by apply lxor_range. Qed.

(** Three loops in a row: alignment, blocks of [size], tail. *)
Lemma sf_shape size step go crci n : 0 < size -> step_ok size step -> in_u 32 crci ->
  0 <= n <= Z.of_nat (length input) ->
  let fuel := S (Z.to_nat n) in
  (let! s := byte_loop fuel go table_step input 0 n (Z.lxor crci 0xffffffff) in
   let '(next, length, crc) := s in
   let! s := block_loop fuel size step next length crc in
   let '(next, length, crc) := s in
   let! s := byte_loop fuel (fun _ => true) table_step input next length crc in
   let '(_, _, crc) := s in
   Ret (Z.lxor (u32 crc) 0xffffffff)) = Ret (crc32c_spec crci (take (Z.to_nat n) input)).
Proof using Hin.
  intros Hsize Hstep Hc Hn fuel.
  assert (Hst : state_ok 0 n (Z.lxor crci 0xffffffff))
    by (split; [lia|]; split; [lia|]; split; [lia|]; by apply init_range).
  destruct (byte_loop_spec go table_step fuel table_step_spec _ _ _ Hst)
    as (n1 & l1 & c1 & -> & (Hst1 & Hl1 & _ & H1) & _); [unfold fuel; lia|]. cbn [rbind].
  destruct (block_loop_spec size step fuel Hsize Hstep _ _ _ Hst1)
    as (n2 & l2 & c2 & -> & (Hst2 & Hl2 & _ & H2) & _); [unfold fuel; lia|]. cbn [rbind].
  destruct (tail_loop_spec table_step n2 l2 c2 fuel table_step_spec Hst2)
    as (n3 & -> & Hr); [unfold fuel; lia|]. cbn [rbind].
  rewrite wrapu_id by done. by rewrite H2, H1.
Qed.
End Loops.

Lemma crc32c_sf_both x64 addr crci input n : bytes_ok input -> in_u 32 crci ->
  0 <= n <= Z.of_nat (length input) ->
  crc32c_sf x64 addr crci input n = Ret (crc32c_spec crci (take (Z.to_nat n) input)).
Proof.
  intros Hin Hc Hn. unfold crc32c_sf. destruct x64.
  - by apply (sf_shape input Hin 16 (sf_step_x64 input)); [|apply sf_step_x64_ok| |].
  - by apply (sf_shape input Hin 12 (sf_step input)); [|apply sf_step_ok| |].
Qed.

(** ** The bitwise routine of the source *)
Lemma trivial_bits_S n c : trivial_bits (S n) c =
  trivial_bits n (Z.lxor (Z.lxor (Z.shiftr c 1) 0x80000000) (u32 (Z.land (u32 (Z.lnot c)) 1 * POLY))).
Proof. reflexivity. Qed.

Lemma trivial_step c : in_u 32 c ->
  Z.lxor (Z.lxor (Z.lxor (Z.shiftr c 1) 0x80000000) (u32 (Z.land (u32 (Z.lnot c)) 1 * POLY))) 0xffffffff =
  crc_step (Z.lxor c 0xffffffff).
Proof.
  intros Hc. unfold crc_step. rewrite Z.shiftr_lxor, odd_lxor.
  assert (Hbit : u32 (Z.land (u32 (Z.lnot c)) 1 * POLY) = if Z.odd c then 0 else POLY).
  { change 1 with (2 ^ 1 - 1) at 1. rewrite land_mask by lia. change (2 ^ 1) with 2. unfold Z.lnot.
    destruct (wrapu_spec 32 (Z.pred (- c))) as [q Hq]; [lia|]. rewrite Hq.
    change (2 ^ 32) with (2147483648 * 2). rewrite Z.mul_assoc, Z_mod_plus_full.
    rewrite (Zmod_odd (Z.pred (- c))), Z.odd_pred, <- Z.negb_odd, Z.odd_opp.
    by destruct (Z.odd c). }
  rewrite Hbit. change (Z.shiftr 0xffffffff 1) with (Z.lxor 0x80000000 0xffffffff).
  rewrite !Z.lxor_assoc. f_equal. f_equal. rewrite Z.lxor_comm. f_equal.
  by destruct (Z.odd c).
Qed.

Lemma trivial_bits_spec n : forall c, in_u 32 c ->
  Z.lxor (trivial_bits n c) 0xffffffff = steps n (Z.lxor c 0xffffffff) /\ in_u 32 (trivial_bits n c).
Proof.
  induction n as [|n IH]; intros c Hc; [done|]. rewrite trivial_bits_S.
  set (c' := Z.lxor (Z.lxor (Z.shiftr c 1) _) _).
  assert (Heq : Z.lxor c' 0xffffffff = crc_step (Z.lxor c 0xffffffff)) by by apply trivial_step.
  assert (Hc' : in_u 32 c').
  { replace c' with (Z.lxor (Z.lxor c' 0xffffffff) 0xffffffff)
      by by rewrite Z.lxor_assoc, Z.lxor_nilpotent, Z.lxor_0_r.
    rewrite Heq. apply init_range, crc_step_range. by apply init_range. }
  destruct (IH c' Hc') as [-> Hr]. by rewrite Heq.
Qed.

Lemma append_trivial_spec post bs : forall pre c, in_u 32 c -> bytes_ok bs ->
  append_trivial_loop (length bs) c (pre ++ bs ++ post) (Z.of_nat (length pre)) =
    Ret (crc32c_spec c bs).
Proof.
  induction bs as [|b bs IH]; intros pre c Hc Hok; cbn [append_trivial_loop length].
  - unfold crc32c_spec. cbn [crc_bytes fold_left].
    by rewrite Z.lxor_assoc, Z.lxor_nilpotent, Z.lxor_0_r.
  - apply Forall_cons in Hok as [Hb Hok]. cbn [app]. rewrite rd1_app_mid by done. cbn [rbind].
    rewrite cons_middle, app_assoc.
    replace (Z.of_nat (length pre) + 1) with (Z.of_nat (length (pre ++ [b])))
      by (rewrite length_app; cbn [length]; lia).
    assert (Hcb : in_u 32 (Z.lxor c b))
      by (apply lxor_range; [lia|done|unfold in_u, byte_ok in *; lia]).
    destruct (trivial_bits_spec 8 (Z.lxor c b) Hcb) as [Ht Hr]. rewrite IH by done.
    unfold crc32c_spec. rewrite Ht, crc_bytes_cons. do 4 f_equal.
    rewrite !Z.lxor_assoc. f_equal. apply Z.lxor_comm.
Qed.

(** ** The zeros operators *)
Fixpoint chain_ok (tab : list (list Z)) (j : nat) (x : Z) : bool :=
  (tab_entry tab (Z.of_nat j / 8) (2 ^ (Z.of_nat j mod 8)) =? x) &&
  match j with
  | O => true
  | S j' => chain_ok tab j' (crc_step x)
  end.

(** Row [k] is linear in its index. *)
Definition rows_linear (tab : list (list Z)) : bool :=
  forallb (fun k => (tab_entry tab k 0 =? 0) &&
    forallb (fun t => forallb (fun i => tab_entry tab k (i + 2 ^ t) =?
      Z.lxor (tab_entry tab k i) (tab_entry tab k (2 ^ t))) (seqZ 0 (2 ^ t))) (seqZ 0 8)) (seqZ 0 4).

Definition zeros_ok (tab : list (list Z)) (n : nat) : bool :=
  rows_full tab && (length tab =? 4)%nat && rows_linear tab && chain_ok tab 31 (steps n (2 ^ 31)).

Lemma long_shifts_ok : zeros_ok long_shifts (8 * Z.to_nat LONG_SHIFT) = true.
Proof. vm_compute. reflexivity. Qed.

Lemma short_shifts_ok : zeros_ok short_shifts (8 * Z.to_nat SHORT_SHIFT) = true.
Proof. vm_compute. reflexivity. Qed.

Lemma steps_S n x : steps (S n) x = steps n (crc_step x).
Proof. reflexivity. Qed.

Lemma steps_comm n x : crc_step (steps n x) = steps n (crc_step x).
Proof.
  revert x. induction n as [|n IH]; intros x; [done|]. by rewrite !steps_S, IH.
Qed.

Lemma crc_step_pow2 j : 0 <= j -> crc_step (2 ^ (j + 1)) = 2 ^ j.
Proof.
  intros Hj. unfold crc_step. rewrite Z.pow_add_r, Z.odd_mul, andb_false_r, Z.lxor_0_r by lia.
  rewrite Z.shiftr_div_pow2 by lia. apply Z.div_mul. done.
Qed.

Lemma chain_spec tab n j : chain_ok tab j (steps n (2 ^ Z.of_nat j)) = true ->
  forall i, (i <= j)%nat ->
    tab_entry tab (Z.of_nat i / 8) (2 ^ (Z.of_nat i mod 8)) = steps n (2 ^ Z.of_nat i).
Proof.
  induction j as [|j IH]; intros Hc i Hi; cbn [chain_ok] in Hc; apply andb_prop in Hc as [He Hc].
  - apply Z.eqb_eq in He. by replace i with 0%nat by lia.
  - apply Z.eqb_eq in He. destruct (decide (i = S j)) as [->|Hne]; [done|].
    apply IH; [|lia]. rewrite steps_comm in Hc.
    replace (Z.of_nat (S j)) with (Z.of_nat j + 1) in Hc by lia.
    by rewrite crc_step_pow2 in Hc by lia.
Qed.

Lemma add_pow2_lxor i t : 0 <= t -> 0 <= i < 2 ^ t -> i + 2 ^ t = Z.lxor i (2 ^ t).
Proof.
  intros Ht Hi. pose proof (lor_shiftl i 1 t Ht Hi) as Hl. rewrite Z.mul_1_l in Hl.
  rewrite <- Hl, Z.shiftl_1_l. symmetry. apply Z.lxor_lor. apply Z.bits_inj'. intros k Hk.
  rewrite Z.land_spec, Z.bits_0. destruct (decide (k < t)).
  - rewrite Z.pow2_bits_false by lia. apply andb_false_r.
  - rewrite <- (Z.mod_small i (2 ^ t)), Z.mod_pow2_bits_high by lia. done.
Qed.

Section Zeros.
Context (tab : list (list Z)) (n : nat) (Htab : zeros_ok tab n = true).

Lemma zeros_parts : rows_full tab = true /\ length tab = 4%nat /\ rows_linear tab = true /\
  chain_ok tab 31 (steps n (2 ^ 31)) = true.
Proof using Htab.
  unfold zeros_ok in Htab. apply andb_prop in Htab as [H Hc]. apply andb_prop in H as [H Hl].
  apply andb_prop in H as [Hf Hn]. apply Nat.eqb_eq in Hn. done.
Qed.

(** [tab\[k\]\[i\]] advances byte [k] of the register by [n] bits. *)
Lemma tab_entry_zeros k : 0 <= k < 4 -> forall t, 0 <= t <= 8 -> forall i, 0 <= i < 2 ^ t ->
  tab_entry tab k i = steps n (2 ^ (8 * k) * i).
Proof using Htab.
  intros Hk. destruct zeros_parts as (_ & _ & Hlin & Hch). unfold rows_linear in Hlin.
  apply (check_range _ 4) with (s := k) in Hlin; [|done]. apply andb_prop in Hlin as [H0 Hlin].
  apply Z.eqb_eq in H0. intros t [Ht Ht8]. revert Ht8. pattern t.
  apply natlike_ind; [| |done]; clear t Ht.
  - intros _ i Hi. change (2 ^ 0) with 1 in Hi. replace i with 0 by lia.
    by rewrite H0, Z.mul_0_r, steps_0.
  - intros t Ht IH Ht8 i Hi. rewrite Z.pow_succ_r in Hi by lia.
    destruct (Z.lt_ge_cases i (2 ^ t)) as [Hlt|Hge]; [apply IH; lia|].
    apply (check_range _ 8) with (s := t) in Hlin; [|lia].
    apply (check_range _ (2 ^ t)) with (s := i - 2 ^ t) in Hlin; [|lia]. apply Z.eqb_eq in Hlin.
    replace (i - 2 ^ t + 2 ^ t) with i in Hlin by lia. rewrite Hlin, IH by lia.
    pose proof (chain_spec tab n 31 Hch (Z.to_nat (8 * k + t)) ltac:(lia)) as Hc.
    rewrite Z2Nat.id in Hc by lia.
    replace ((8 * k + t) / 8) with k in Hc by (apply (Z.div_unique _ _ _ t); lia).
    replace ((8 * k + t) mod 8) with t in Hc by (apply (Z.mod_unique _ _ k); lia).
    rewrite Hc, <- steps_lxor. f_equal.
    rewrite Z.pow_add_r, !(Z.mul_comm (2 ^ (8 * k))), <- !Z.shiftl_mul_pow2, <- Z.shiftl_lxor by lia.
    f_equal. rewrite <- add_pow2_lxor by lia. lia.
Qed.

Fixpoint lanes_xor (k : Z) (bs : list Z) : Z :=
  match bs with
  | [] => 0
  | b :: t => Z.lxor (2 ^ (8 * k) * b) (lanes_xor (k + 1) t)
  end.

Lemma lanes_xor_val bs : forall k, 0 <= k -> bytes_ok bs -> 2 ^ (8 * k) * le_val bs = lanes_xor k bs.
Proof.
  induction bs as [|b bs IH]; intros k Hk Hok; cbn [lanes_xor]; [apply Z.mul_0_r|].
  apply Forall_cons in Hok as [Hb Hok]. rewrite <- IH, le_val_cons by (done || lia).
  pose proof (lxor_add_high 0 b (le_val bs) Hb) as Hadd. rewrite !Z.lxor_0_l in Hadd.
  replace (8 * (k + 1)) with (8 * k + 8) by lia.
  rewrite Hadd, Z.pow_add_r, <- Z.mul_assoc, !(Z.mul_comm (2 ^ (8 * k))) by lia.
  change (2 ^ 8) with 256. by rewrite <- !Z.shiftl_mul_pow2, <- Z.shiftl_lxor by lia.
Qed.

Lemma shift_crc_spec c : in_u 32 c -> shift_crc tab c = Ret (steps n c).
Proof using Htab.
  intros Hc. destruct zeros_parts as (Hf & Hl & _ & _).
  pose proof (le_bytes_4 c Hc) as Hb. pose proof (le_bytes_ok 4 c) as Hok.
  assert (Hv : c = lanes_xor 0 (le_bytes 4 c)).
  { rewrite <- lanes_xor_val by (lia || done). rewrite le_val_bytes.
    rewrite Z.mod_small by exact Hc. change (2 ^ (8 * 0)) with 1. lia. }
  rewrite Hb in Hok, Hv. unfold shift_crc. cbn [xor_tabs].
  assert (Hlook : forall k b, 0 <= k < 4 -> byte_ok b ->
    tab_at tab k b = Ret (steps n (2 ^ (8 * k) * b))).
  { intros k b Hk Hbb. rewrite tab_at_entry by (done || lia). f_equal.
    by apply (tab_entry_zeros k Hk 8). }
  unfold bytes_ok in Hok. rewrite !Forall_cons in Hok. destruct Hok as (H0 & H1 & H2 & H3 & _).
  rewrite (Hlook 0 _ ltac:(lia) H0), (Hlook 1 _ ltac:(lia) H1), (Hlook 2 _ ltac:(lia) H2),
    (Hlook 3 _ ltac:(lia) H3). cbn [rbind]. f_equal.
  rewrite Hv at 5. cbn [lanes_xor]. change (0 + 1) with 1. change (1 + 1) with 2.
  change (2 + 1) with 3. rewrite !steps_lxor. by rewrite steps_0.
Qed.
End Zeros.

(** ** The instruction-driven version *)

(** What the processor manual says the CRC32 instructions compute: the operand
    is added to the register and run through the polynomial bit by bit. *)
Class SSE42Laws `{SSE42} := {
  mm_u8 c b : in_u 32 c -> in_u 8 b -> mm_crc32_u8 c b = steps 8 (Z.lxor c b);
  mm_u32 c a : in_u 32 c -> in_u 32 a -> mm_crc32_u32 c a = steps 32 (Z.lxor c a);
  mm_u64 c a : in_u 32 c -> in_u 64 a -> mm_crc32_u64 c a = steps 64 (Z.lxor c a) }.

Section Hardware.
Context (input : list Z) (Hin : bytes_ok input) (w : Z) (op : Z -> Z -> Z).
Context (Hw : w = 4 \/ w = 8).
Context (Hop : forall c a, in_u 32 c -> in_u (8 * w) a ->
  op c a = steps (8 * Z.to_nat w) (Z.lxor c a)).

Lemma op_seg c next : in_u 32 c -> 0 <= next -> next + w <= Z.of_nat (length input) ->
  exists a, rdu w input next = Ret a /\ op c a = crc_bytes c (seg input next w).
Proof using Hin Hop Hw.
  intros Hc Hn Hb. destruct (rdu_seg input Hin w next) as (Hr & _ & Hu); [lia..|].
  eexists. split; [exact Hr|]. rewrite Hop, crc_bytes_steps by (done || apply seg_ok, Hin).
  by rewrite length_seg by lia.
Qed.

Lemma lanes_spec shift m : forall fuel next c0 c1 c2,
  (0 < m)%nat -> (m <= fuel)%nat -> 0 <= next -> 0 <= shift ->
  next + 2 * shift + w * Z.of_nat m <= Z.of_nat (length input) ->
  in_u 32 c0 -> in_u 32 c1 -> in_u 32 c2 ->
  lanes fuel w shift op input next (next + w * Z.of_nat m) c0 c1 c2 =
    Ret (crc_bytes c0 (seg input next (w * Z.of_nat m)),
         crc_bytes c1 (seg input (next + shift) (w * Z.of_nat m)),
         crc_bytes c2 (seg input (next + 2 * shift) (w * Z.of_nat m))).
Proof using Hin Hop Hw.
  induction m as [|m IH]; intros fuel next c0 c1 c2 Hm Hf Hn Hs Hb H0 H1 H2; [lia|].
  destruct fuel as [|fuel]; [lia|]. cbn [lanes].
  destruct (op_seg c0 next H0) as (a0 & -> & Ho0); [lia..|]. cbn [rbind].
  destruct (op_seg c1 (next + shift) H1) as (a1 & -> & Ho1); [lia..|]. cbn [rbind].
  destruct (op_seg c2 (next + 2 * shift) H2) as (a2 & -> & Ho2); [lia..|]. cbn [rbind].
  rewrite Ho0, Ho1, Ho2.
  assert (Hsplit : forall c o, 0 <= o -> crc_bytes c (seg input o (w * Z.of_nat (S m))) =
    crc_bytes (crc_bytes c (seg input o w)) (seg input (o + w) (w * Z.of_nat m))).
  { intros c o Ho. rewrite (seg_split input o w) by lia. rewrite crc_bytes_app. do 2 f_equal. lia. }
  destruct (Z.ltb_spec (next + w) (next + w * Z.of_nat (S m))) as [Hlt|Hge].
  - replace (next + w * Z.of_nat (S m)) with (next + w + w * Z.of_nat m) by lia.
    rewrite IH by (lia || apply crc_bytes_range; (done || apply seg_ok, Hin)).
    rewrite !Hsplit by lia.
    by replace (next + w + shift) with (next + shift + w) by lia;
      replace (next + w + 2 * shift) with (next + 2 * shift + w) by lia.
  - assert (m = 0)%nat as -> by lia. rewrite !Hsplit by lia. by rewrite Z.mul_0_r, !seg_0.
Qed.

Lemma triple_step_ok tab shift : 0 < shift -> (w | shift) ->
  zeros_ok tab (8 * Z.to_nat shift) = true ->
  step_ok input (3 * shift) (triple_step tab w shift op input).
Proof using Hin Hop Hw.
  intros Hshift [m Hm] Htab next len crc (Hn & Hl & Hb & Hc) Hk.
  assert (Hr : forall c o l, in_u 32 c -> in_u 32 (crc_bytes c (seg input o l)))
    by (intros; apply crc_bytes_range; [done|apply seg_ok, Hin]).
  assert (Hmul : w * Z.of_nat (Z.to_nat m) = shift) by nia.
  unfold triple_step. rewrite <- Hmul at 3.
  rewrite (lanes_spec shift (Z.to_nat m)) by (done || nia). cbn [rbind]. rewrite Hmul.
  (* the register after one lane, moved past the next one *)
  assert (Hjoin : forall c o, in_u 32 c -> 0 <= o -> o + shift <= Z.of_nat (length input) ->
    (let! s := shift_crc tab (u32 c) in Ret (Z.lxor s (crc_bytes 0 (seg input o shift)))) =
    Ret (crc_bytes c (seg input o shift))).
  { intros c o Hcc Ho Hob. rewrite wrapu_id by done. rewrite (shift_crc_spec tab _ Htab) by done.
    cbn [rbind]. f_equal. rewrite !crc_bytes_steps by apply seg_ok, Hin.
    rewrite length_seg, Z.lxor_0_l by lia. by rewrite steps_lxor. }
  specialize (Hr crc next shift Hc) as Hr0.
  pose proof (Hjoin _ (next + shift) Hr0 ltac:(lia) ltac:(lia)) as Hj1.
  apply rbind_Ret_inv in Hj1 as (s1 & -> & [= Hj1]). cbn [rbind]. rewrite Hj1.
  pose proof (Hjoin _ (next + 2 * shift) (Hr _ (next + shift) shift Hr0) ltac:(lia) ltac:(lia)) as Hj2.
  apply rbind_Ret_inv in Hj2 as (s2 & -> & [= Hj2]). cbn [rbind]. rewrite Hj2. f_equal.
  rewrite (seg_split input next shift (3 * shift)), crc_bytes_app by lia.
  rewrite (seg_split input (next + shift) shift (3 * shift - shift)), crc_bytes_app by lia.
  replace (next + shift + shift) with (next + 2 * shift) by lia.
  by replace (3 * shift - shift - shift) with shift by lia.
Qed.

Lemma word_loop_spec m : forall fuel next c,
  (m < fuel)%nat -> 0 <= next -> next + w * Z.of_nat m <= Z.of_nat (length input) -> in_u 32 c ->
  word_loop fuel w op input next (next + w * Z.of_nat m) c =
    Ret (next + w * Z.of_nat m, crc_bytes c (seg input next (w * Z.of_nat m))).
Proof using Hin Hop Hw.
  induction m as [|m IH]; intros fuel next c Hf Hn Hb Hc; (destruct fuel as [|fuel]; [lia|]);
    cbn [word_loop].
  - rewrite Z.mul_0_r, Z.add_0_r, Z.ltb_irrefl. by rewrite seg_0.
  - rewrite (proj2 (Z.ltb_lt _ _)) by lia.
    destruct (op_seg c next Hc) as (a & -> & Ho); [lia..|]. cbn [rbind]. rewrite Ho.
    replace (next + w * Z.of_nat (S m)) with (next + w + w * Z.of_nat m) by lia.
    rewrite IH by (lia || apply crc_bytes_range; (done || apply seg_ok, Hin)).
    rewrite (seg_split input next w (w * Z.of_nat (S m))), crc_bytes_app by lia.
    do 4 f_equal. lia.
Qed.
End Hardware.

Lemma hw_op_ok `{SSE42Laws} (x64 : bool) c a :
  in_u 32 c -> in_u (8 * (if x64 then 8 else 4)) a ->
  (if x64 then mm_crc32_u64 else mm_crc32_u32) c a =
    steps (8 * Z.to_nat (if x64 then 8 else 4)) (Z.lxor c a).
Proof. destruct x64; [apply mm_u64|apply mm_u32]. Qed.

Lemma crc32c_hw_both `{SSE42Laws} x64 addr crci input n : bytes_ok input -> in_u 32 crci ->
  0 <= n <= Z.of_nat (length input) ->
  crc32c_hw x64 addr crci input n = Ret (crc32c_spec crci (take (Z.to_nat n) input)).
Proof.
  intros Hin Hc Hn. unfold crc32c_hw.
  set (fuel := S (Z.to_nat n)). set (w := if x64 then 8 else 4).
  set (op := if x64 then mm_crc32_u64 else mm_crc32_u32).
  assert (Hw : w = 4 \/ w = 8) by (unfold w; destruct x64; lia).
  assert (Hop : forall c a, in_u 32 c -> in_u (8 * w) a ->
    op c a = steps (8 * Z.to_nat w) (Z.lxor c a)) by (intros; by apply hw_op_ok).
  assert (Hbyte : forall c b, in_u 32 c -> byte_ok b ->
    Ret (mm_crc32_u8 (u32 c) b) = Ret (steps 8 (Z.lxor c b)))
    by (intros c b Hcc Hb; by rewrite wrapu_id, mm_u8 by done).
  assert (Hst : state_ok input 0 n (Z.lxor crci 0xffffffff))
    by (split; [lia|]; split; [lia|]; split; [lia|]; by apply init_range).
  destruct (byte_loop_spec input Hin (unaligned addr 7) _ fuel Hbyte _ _ _ Hst)
    as (n1 & l1 & c1 & -> & (Hst1 & Hl1 & _ & H1) & _); [unfold fuel; lia|]. cbn [rbind].
  assert (Hlong : step_ok input (3 * LONG_SHIFT) (triple_step long_shifts w LONG_SHIFT op input)).
  { apply triple_step_ok; [done|done|done|done| |apply long_shifts_ok].
    destruct Hw as [-> | ->]; [by exists 2048|by exists 1024]. }
  assert (Hshort : step_ok input (3 * SHORT_SHIFT) (triple_step short_shifts w SHORT_SHIFT op input)).
  { apply triple_step_ok; [done|done|done|done| |apply short_shifts_ok].
    destruct Hw as [-> | ->]; [by exists 64|by exists 32]. }
  destruct (block_loop_spec input Hin (3 * LONG_SHIFT) _ fuel ltac:(done) Hlong _ _ _ Hst1)
    as (n2 & l2 & c2 & -> & (Hst2 & Hl2 & _ & H2) & _); [unfold fuel; lia|]. cbn [rbind].
  destruct (block_loop_spec input Hin (3 * SHORT_SHIFT) _ fuel ltac:(done) Hshort _ _ _ Hst2)
    as (n3 & l3 & c3 & -> & (Hst3 & Hl3 & _ & H3) & _); [unfold fuel; lia|]. cbn [rbind].
  change 7 with (2 ^ 3 - 1). rewrite land_mask by lia. change (2 ^ 3) with 8.
  pose proof Hst3 as (Hn3 & Hl3' & Hb3 & Hc3).
  pose proof (Z.mod_pos_bound l3 8 ltac:(lia)) as Hmod. pose proof (Z.div_mod l3 8 ltac:(lia)) as Hdm.
  assert (Hm : exists m : nat, l3 - l3 mod 8 = w * Z.of_nat m /\ (m <= Z.to_nat l3)%nat).
  { assert (0 <= l3 / 8) by (apply Z.div_pos; lia).
    destruct Hw as [-> | ->]; [exists (Z.to_nat (2 * (l3 / 8)))|exists (Z.to_nat (l3 / 8))]; lia. }
  destruct Hm as (m & Hm & Hmle). rewrite Hm.
  rewrite (word_loop_spec input Hin w op Hw Hop m) by (done || lia || (unfold fuel; lia)). cbn [rbind].
  pose proof (later_step input Hin (w * Z.of_nat m) n3 l3 c3 Hst3 ltac:(lia)) as (Hst4 & _ & _ & H4).
  replace (l3 - w * Z.of_nat m) with (l3 mod 8) in * by lia.
  destruct (tail_loop_spec input Hin (fun c b => Ret (mm_crc32_u8 (u32 c) b)) _ _ _ fuel Hbyte Hst4)
    as (n5 & -> & Hr); [unfold fuel; lia|]. cbn [rbind].
  rewrite wrapu_id by done. by rewrite H4, H3, H2, H1.
Qed.

Lemma append_trivial_both crci input n : bytes_ok input -> in_u 32 crci ->
  0 <= n <= Z.of_nat (length input) ->
  append_trivial crci input n = Ret (crc32c_spec crci (take (Z.to_nat n) input)).
Proof.
  intros Hin Hc Hn. unfold append_trivial.
  rewrite <- (append_trivial_spec (drop (Z.to_nat n) input) (take (Z.to_nat n) input) [] crci)
    by (done || by apply Forall_take).
  cbn [app length]. by rewrite take_drop, length_take, Nat.min_l by lia.
Qed.

Lemma append_adler_both addr crci input n : bytes_ok input -> in_u 32 crci ->
  0 <= n <= Z.of_nat (length input) ->
  append_adler_table addr crci input n = Ret (crc32c_spec crci (take (Z.to_nat n) input)).
Proof.
  intros Hin Hc Hn. rewrite <- (sf_shape input Hin 8 (adler_step input) (unaligned addr 7) crci n)
    by (done || by apply adler_step_ok).
  unfold append_adler_table.
  destruct (byte_loop _ _ _ _ _ _ _) as [[[n1 l1] c1]| | |]; cbn [rbind]; try done.
  destruct (block_loop _ _ _ _ _ _) as [[[n2 l2] c2]| | |]; cbn [rbind]; try done.
  destruct (byte_loop _ _ _ _ _ _ _) as [[[n3 l3] c3]| | |]; cbn [rbind]; try done.
  f_equal. unfold wrapu. rewrite <- !Z.land_ones by lia.
  change 0xffffffff with (Z.ones 32). apply Z.bits_inj'. intros i Hi.
  rewrite !Z.land_spec, !Z.lxor_spec, Z.land_spec.
  destruct (decide (i < 32)).
  - rewrite Z.ones_spec_low by lia. by rewrite !andb_true_r.
  - rewrite Z.ones_spec_high by lia. by rewrite !andb_false_r.
Qed.

Lemma resolve_both `{SSE42Laws} arm sse42 x64 addr crci input n : bytes_ok input -> in_u 32 crci ->
  0 <= n <= Z.of_nat (length input) ->
  taosResolveCRC arm sse42 x64 addr crci input n =
    Ret (crc32c_spec crci (take (Z.to_nat n) input)).
Proof.
  intros. unfold taosResolveCRC. destruct arm; [by apply crc32c_sf_both|].
  destruct sse42; [by apply crc32c_hw_both|by apply crc32c_sf_both].
Qed.

(** ** Different states stay different *)
Lemma crc_step_kernel z : in_u 32 z -> crc_step z = 0 -> z = 0.
Proof.
  unfold crc_step, in_u. intros Hz H0. apply Z.lxor_eq in H0.
  rewrite Z.shiftr_div_pow2 in H0 by lia. change (2 ^ 1) with 2 in H0.
  pose proof (Z.div_mod z 2 ltac:(lia)) as Hdm. rewrite Zmod_odd in Hdm.
  destruct (Z.odd z); [|lia]. unfold POLY in H0. lia.
Qed.

Lemma steps_inj n x y : in_u 32 x -> in_u 32 y -> steps n x = steps n y -> x = y.
Proof.
  intros Hx Hy Heq. apply Z.lxor_eq.
  assert (Hz : in_u 32 (Z.lxor x y)) by by apply lxor_range.
  assert (H0 : steps n (Z.lxor x y) = 0) by by rewrite steps_lxor, Heq, Z.lxor_nilpotent.
  revert H0. generalize dependent (Z.lxor x y). clear. induction n as [|n IH]; intros z Hz H0; [done|].
  rewrite steps_S in H0. apply IH in H0; [by apply crc_step_kernel|by apply crc_step_range].
Qed.

Lemma lxor_inj_r x y b : Z.lxor x b = Z.lxor y b -> x = y.
Proof.
  intros H. apply (f_equal (fun z => Z.lxor z b)) in H.
  by rewrite !Z.lxor_assoc, Z.lxor_nilpotent, !Z.lxor_0_r in H.
Qed.

Lemma crc_bytes_inj b : forall x y, in_u 32 x -> in_u 32 y -> bytes_ok b ->
  crc_bytes x b = crc_bytes y b -> x = y.
Proof.
  induction b as [|v b IH]; intros x y Hx Hy Hok Heq; [done|].
  apply Forall_cons in Hok as [Hv Hok]. rewrite !crc_bytes_cons in Heq.
  assert (Hvu : in_u 32 v) by (unfold in_u, byte_ok in *; lia).
  assert (Hr : forall z, in_u 32 z -> in_u 32 (Z.lxor z v)) by (intros; by apply lxor_range).
  apply IH in Heq; [|by apply steps_range, Hr..|done].
  apply steps_inj in Heq; [by apply lxor_inj_r in Heq|by apply Hr..].
Qed.

(** A change within four consecutive bytes changes the checksum. *)
Lemma crc_burst c a m m' b : in_u 32 c -> bytes_ok (a ++ m ++ b) -> bytes_ok m' ->
  length m = length m' -> (length m <= 4)%nat -> m <> m' ->
  crc_bytes c (a ++ m ++ b) <> crc_bytes c (a ++ m' ++ b).
Proof.
  intros Hc Hok Hm' Hlen Hl Hne Heq. apply bytes_ok_app in Hok as [Ha Hok].
  apply bytes_ok_app in Hok as [Hm Hb]. rewrite !crc_bytes_app in Heq.
  pose proof (crc_bytes_range a c Hc Ha) as Hs. set (s := crc_bytes c a) in *.
  apply crc_bytes_inj in Heq; [|by apply crc_bytes_range..|done].
  rewrite !crc_bytes_steps, <- Hlen in Heq by done.
  assert (Hin : forall l, bytes_ok l -> length l = length m -> in_u 32 (le_val l)).
  { intros l Hlok Hll. pose proof (le_val_range l Hlok) as Hr. unfold in_u in *.
    pose proof (Z.pow_le_mono_r 2 (8 * Z.of_nat (length l)) 32). lia. }
  apply steps_inj in Heq; [|by apply lxor_range, Hin..].
  rewrite !(Z.lxor_comm s) in Heq. apply lxor_inj_r in Heq. apply Hne.
  rewrite <- (le_bytes_val m Hm), <- (le_bytes_val m' Hm'), Heq. by rewrite Hlen.
Qed.

(** ** Properties *)

(** C24.  The software checksum is CRC-32C: for every buffer, prefix length,
    initial value, build and alignment, [crc32c_sf] (three loops, slicing by
    twelve or sixteen through the tables) and [append_adler_table] return what
    the bit-at-a-time [append_trivial] returns, and that is the reference. *)
Theorem crc32c_sf_correct (x64 : bool) (addr crci n : Z) (input : list Z)
    (Hin : bytes_ok input) (Hc : in_u 32 crci) (Hn : 0 <= n <= Z.of_nat (length input)) :
  let c := crc32c_spec crci (take (Z.to_nat n) input) in
  crc32c_sf x64 addr crci input n = Ret c /\ append_adler_table addr crci input n = Ret c /\
  append_trivial crci input n = Ret c.
Proof.
  split; [by apply crc32c_sf_both|]. split; [by apply append_adler_both|by apply append_trivial_both].
Qed.

Lemma crc32c_spec_range crci input : bytes_ok input -> in_u 32 crci -> in_u 32 (crc32c_spec crci input).
Proof.
  intros. apply lxor_range; [done| |done]. apply crc_bytes_range; [by apply init_range|done].
Qed.

(** C25.  The instruction-driven checksum agrees with the software one for every
    buffer, length, initial value, build and alignment: the three interleaved
    lanes, recombined through the zeros operators, lose nothing, and every
    loop ends within its buffer. *)
Theorem crc32c_hw_correct `{SSE42Laws} (x64 x64' : bool) (addr addr' crci n : Z) (input : list Z)
    (Hin : bytes_ok input) (Hc : in_u 32 crci) (Hn : 0 <= n <= Z.of_nat (length input)) :
  exists c, crc32c_hw x64 addr crci input n = Ret c /\ in_u 32 c /\
    crc32c_sf x64' addr' crci input n = Ret c.
Proof.
  exists (crc32c_spec crci (take (Z.to_nat n) input)). split; [by apply crc32c_hw_both|].
  split; [|by apply crc32c_sf_both]. apply crc32c_spec_range; [by apply Forall_take|done].
Qed.

(** Reading back the four checksum bytes at the end of a record. *)
Lemma check_record `{SSE42Laws} arm sse42 x64 addr payload c post : bytes_ok (payload ++ post) ->
  in_u 32 c ->
  taosCheckChecksumWhole (taosResolveCRC arm sse42 x64) addr (payload ++ le_bytes 4 c ++ post)
    (Z.of_nat (length payload) + 4) = Ret (c =? crc32c_spec 0 payload).
Proof.
  intros Hok Hc. apply bytes_ok_app in Hok as [Hp Hq]. unfold taosCheckChecksumWhole.
  rewrite (proj2 (Z.ltb_ge _ _)) by lia. rewrite Z.add_simpl_r.
  unfold rdu. rewrite rd_app_mid by (done || by rewrite length_le_bytes). cbn [rbind].
  rewrite le_val_bytes, Z.mod_small by exact Hc.
  rewrite resolve_both; [|by rewrite !bytes_ok_app; repeat split; [|apply le_bytes_ok|]|done|
    rewrite length_app; lia].
  by rewrite Nat2Z.id, take_app_length.
Qed.

(** Appending a checksum to a buffer with four bytes reserved for it. *)
Lemma append_record `{SSE42Laws} arm sse42 x64 addr payload room post :
  bytes_ok (payload ++ room ++ post) -> length room = 4%nat ->
  taosCalcChecksumAppend (taosResolveCRC arm sse42 x64) addr 0 (payload ++ room ++ post)
    (Z.of_nat (length payload) + 4) =
  Ret (Some (payload ++ le_bytes 4 (crc32c_spec 0 payload) ++ post)).
Proof.
  intros Hok Hroom. unfold taosCalcChecksumAppend.
  rewrite (proj2 (Z.ltb_ge _ _)), Z.add_simpl_r by lia.
  rewrite resolve_both by (done || rewrite length_app; lia). cbn [rbind].
  rewrite (proj2 (Z.ltb_ge _ _)) by (rewrite !length_app; lia).
  rewrite Nat2Z.id, take_app_length. do 3 f_equal.
  replace (Z.to_nat (Z.of_nat (length payload) + 4)) with (length (payload ++ room))
    by (rewrite length_app; lia).
  by rewrite app_assoc, drop_app_length.
Qed.

(** C26.  Checksum records: appending the checksum to a record whose last four
    bytes are reserved for it keeps the rest of the buffer and makes
    [taosCheckChecksumWhole] accept it; after any change confined to four
    consecutive bytes of the payload it rejects it. *)
Theorem checksum_record `{SSE42Laws} (arm sse42 x64 : bool) (addr : Z)
    (a m m' b room post : list Z)
    (Hok : bytes_ok (a ++ m ++ b ++ room ++ post)) (Hroom : length room = 4%nat) :
  let crc32c := taosResolveCRC arm sse42 x64 in
  let ssize := Z.of_nat (length (a ++ m ++ b)) + 4 in
  exists c, taosCalcChecksumAppend crc32c addr 0 (a ++ m ++ b ++ room ++ post) ssize =
      Ret (Some (a ++ m ++ b ++ le_bytes 4 c ++ post)) /\
    taosCheckChecksumWhole crc32c addr (a ++ m ++ b ++ le_bytes 4 c ++ post) ssize = Ret true /\
    (bytes_ok m' -> length m' = length m -> (length m <= 4)%nat -> m' <> m ->
     taosCheckChecksumWhole crc32c addr (a ++ m' ++ b ++ le_bytes 4 c ++ post) ssize = Ret false).
Proof.
  intros crc32c ssize. set (payload := a ++ m ++ b).
  assert (Hassoc : forall x y, a ++ x ++ b ++ y = (a ++ x ++ b) ++ y)
    by (intros; by rewrite <- !app_assoc).
  exists (crc32c_spec 0 payload). rewrite !(Hassoc m), !(Hassoc m') in *. fold payload in Hok |- *.
  pose proof Hok as Hok'. apply bytes_ok_app in Hok' as [Hp Hrp].
  apply bytes_ok_app in Hrp as [Hr Hpost].
  assert (Hc : in_u 32 (crc32c_spec 0 payload)) by by apply crc32c_spec_range.
  assert (Hboth : bytes_ok (payload ++ post)) by by apply bytes_ok_app.
  unfold ssize, crc32c. fold payload. split; [|split].
  - by apply append_record.
  - rewrite check_record by done. by rewrite Z.eqb_refl.
  - intros Hm' Hlm Hl Hne. unfold payload.
    replace (length (a ++ m ++ b)) with (length (a ++ m' ++ b)) by (rewrite !length_app; lia).
    unfold payload in Hp. rewrite !bytes_ok_app in Hp.
    rewrite check_record by (done || rewrite !bytes_ok_app; tauto).
    f_equal. apply Z.eqb_neq. unfold crc32c_spec. intros Heq. apply lxor_inj_r in Heq.
    revert Heq. apply crc_burst; [done|rewrite !bytes_ok_app; tauto|done|done|done|done].
Qed.

(** The processor as the manual describes it. *)
Definition manual_sse42 : SSE42 := {|
  mm_crc32_u8 c b := steps 8 (Z.lxor c b);
  mm_crc32_u32 c a := steps 32 (Z.lxor c a);
  mm_crc32_u64 c a := steps 64 (Z.lxor c a) |}.

#[export] Instance manual_sse42_laws : @SSE42Laws manual_sse42.
Proof. split; reflexivity. Qed.

Lemma crc32c_sf_correct_witness :
  crc32c_sf false 5 0 [49; 50; 51; 52; 53; 54; 55; 56; 57] 9 = Ret 0xe3069283.
Proof.
  destruct (crc32c_sf_correct false 5 0 9 [49; 50; 51; 52; 53; 54; 55; 56; 57]) as (H & _);
    [repeat constructor; done|done|done|].
  rewrite H. vm_compute. reflexivity.
Defined.

Lemma crc32c_hw_correct_witness :
  exists c, @crc32c_hw manual_sse42 true 3 7 (replicate 900 42) 900 = Ret c /\ in_u 32 c /\
    crc32c_sf true 0 7 (replicate 900 42) 900 = Ret c.
Proof.
  apply (@crc32c_hw_correct manual_sse42 manual_sse42_laws true true 3 0 7 900);
    [apply Forall_replicate; done|done|by rewrite length_replicate].
Defined.

Lemma checksum_record_witness :
  let crc32c := @taosResolveCRC manual_sse42 false true false in
  let ssize := Z.of_nat (length ([1; 2] ++ [3] ++ [4; 5])) + 4 in
  exists c, taosCalcChecksumAppend crc32c 0 0 ([1; 2] ++ [3] ++ [4; 5] ++ [0; 0; 0; 0] ++ []) ssize =
      Ret (Some ([1; 2] ++ [3] ++ [4; 5] ++ le_bytes 4 c ++ [])) /\
    taosCheckChecksumWhole crc32c 0 ([1; 2] ++ [3] ++ [4; 5] ++ le_bytes 4 c ++ []) ssize = Ret true /\
    (bytes_ok [9] -> length [9] = length [3] -> (length [3] <= 4)%nat -> [9] <> [3] ->
     taosCheckChecksumWhole crc32c 0 ([1; 2] ++ [9] ++ [4; 5] ++ le_bytes 4 c ++ []) ssize = Ret false).
Proof.
  apply (@checksum_record manual_sse42 manual_sse42_laws false true false 0 [1; 2] [3] [9] [4; 5]
    [0; 0; 0; 0] []); [repeat constructor; done|reflexivity].
Defined.

(** ** What the storage components rely on: a sealed record is accepted *)
Class Checksum (crc32c : Z -> Z -> list Z -> Z -> res Z) (heap : Z) : Type := {
  record_sum : list Z -> Z;
  seal : forall payload room post, bytes_ok (payload ++ room ++ post) -> length room = 4%nat ->
    taosCalcChecksumAppend crc32c heap 0 (payload ++ room ++ post) (Z.of_nat (length payload) + 4) =
    Ret (Some (payload ++ le_bytes 4 (record_sum payload) ++ post));
  seal_ok : forall payload, bytes_ok payload ->
    taosCheckChecksumWhole crc32c heap (payload ++ le_bytes 4 (record_sum payload))
      (Z.of_nat (length payload) + 4) = Ret true }.

(** The checksum the library resolves to is one. *)
#[export] Instance resolved_checksum `{SSE42Laws} arm sse42 x64 heap :
  Checksum (taosResolveCRC arm sse42 x64) heap.
Proof.
  refine {| record_sum := crc32c_spec 0 |}.
  - intros. by apply append_record.
  - intros payload Hp. rewrite <- (app_nil_r (le_bytes 4 _)), check_record.
    + by rewrite Z.eqb_refl.
    + by rewrite app_nil_r.
    + by apply crc32c_spec_range.
Defined.

(** ** Checksums that are continued: that of two pieces is that of the whole *)
Class RunningSum (crc32c : Z -> Z -> list Z -> Z -> res Z) (heap : Z) : Type := {
  run_sum : Z -> list Z -> Z;
  run_range : forall c bs, in_u 32 c -> bytes_ok bs -> in_u 32 (run_sum c bs);
  run_calc : forall c stream n, bytes_ok stream -> in_u 32 c -> 0 <= n <= Z.of_nat (length stream) ->
    taosCalcChecksum crc32c heap c stream n = Ret (run_sum c (take (Z.to_nat n) stream));
  run_nil : forall c, run_sum c [] = c;
  run_app : forall c a b, run_sum (run_sum c a) b = run_sum c (a ++ b) }.

#[export] Instance resolved_running `{SSE42Laws} arm sse42 x64 heap : RunningSum (taosResolveCRC arm sse42 x64) heap.
Proof.
  refine {| run_sum := crc32c_spec |}.
  - intros. by apply crc32c_spec_range.
  - intros c stream n Hs Hc Hn. unfold taosCalcChecksum. by apply resolve_both.
  - intros c. unfold crc32c_spec. change (crc_bytes (Z.lxor c 0xffffffff) []) with (Z.lxor c 0xffffffff).
    rewrite Z.lxor_assoc, Z.lxor_nilpotent. apply Z.lxor_0_r.
  - intros c a b. unfold crc32c_spec. rewrite crc_bytes_app. do 2 f_equal.
    rewrite Z.lxor_assoc, Z.lxor_nilpotent. apply Z.lxor_0_r.
Defined.

Section Running.
Context {crc32c : Z -> Z -> list Z -> Z -> res Z} {heap : Z} `{!RunningSum crc32c heap}.

Lemma run_append stream n : bytes_ok stream -> 0 <= n -> n + 4 <= Z.of_nat (length stream) ->
  taosCalcChecksumAppend crc32c heap 0 stream (n + 4) =
    Ret (Some (take (Z.to_nat n) stream ++ le_bytes 4 (run_sum 0 (take (Z.to_nat n) stream)) ++ drop (Z.to_nat (n + 4)) stream)).
Proof.
  intros Hs Hn Hl. unfold taosCalcChecksumAppend. rewrite (proj2 (Z.ltb_ge _ _)), Z.add_simpl_r by lia.
  pose proof (run_calc 0 stream n Hs ltac:(done) ltac:(lia)) as Hc. unfold taosCalcChecksum in Hc. rewrite Hc. cbn [rbind].
  by rewrite (proj2 (Z.ltb_ge _ _)) by lia.
Qed.

Lemma run_check payload c : bytes_ok payload -> in_u 32 c ->
  taosCheckChecksumWhole crc32c heap (payload ++ le_bytes 4 c) (Z.of_nat (length payload) + 4) = Ret (c =? run_sum 0 payload).
Proof.
  intros Hp Hc. unfold taosCheckChecksumWhole. rewrite (proj2 (Z.ltb_ge _ _)), Z.add_simpl_r by lia.
  unfold rdu. replace (payload ++ le_bytes 4 c) with (payload ++ le_bytes 4 c ++ []) at 1 by (by rewrite app_nil_r).
  rewrite rd_app_mid by (done || by rewrite length_le_bytes). cbn [rbind]. rewrite le_val_bytes, Z.mod_small by exact Hc.
  assert (Hb : bytes_ok (payload ++ le_bytes 4 c)) by (apply bytes_ok_app; split; [done|apply le_bytes_ok]).
  pose proof (run_calc 0 _ (Z.of_nat (length payload)) Hb ltac:(done) ltac:(rewrite length_app; lia)) as Hr.
  unfold taosCalcChecksum in Hr. rewrite Hr. cbn [rbind]. by rewrite Nat2Z.id, take_app_length.
Qed.
End Running.
