(* ===== verification/ColTypes.v ===== *)
(** * Column types and their null values (util/src/ttypes.c), and the statistics
      of a column (client/src/tscFunctionImpl.c)

    Each type has a bit pattern that stands for no value.  A block of a data file
    keeps of each column the least, the largest and the sum of its values and how
    many rows have none. *)
From S2P Require Import Prelude CompBase.

Definition TSDB_DATA_TYPE_BOOL := 1.
Definition TSDB_DATA_TYPE_FLOAT := 6.
Definition TSDB_DATA_TYPE_DOUBLE := 7.
Definition TSDB_DATA_TYPE_BINARY := 8.
Definition TSDB_DATA_TYPE_TIMESTAMP := 9.
Definition TSDB_DATA_TYPE_NCHAR := 10.

(** [tDataTypeDesc\[type\].nSize] *)
Definition nSize (type : Z) : Z := nth (Z.to_nat type) [1; 1; 1; 2; 4; 8; 4; 8; 0; 8; 8] 0.

(** The width that is looked at, and the pattern. *)
Definition null_pattern (type : Z) : option (Z * Z) :=
  if type =? TSDB_DATA_TYPE_BOOL then Some (1, TSDB_DATA_BOOL_NULL)
  else if type =? TSDB_DATA_TYPE_TINYINT then Some (1, 0x80)
  else if type =? TSDB_DATA_TYPE_SMALLINT then Some (2, 0x8000)
  else if type =? TSDB_DATA_TYPE_INT then Some (4, 0x80000000)
  else if (type =? TSDB_DATA_TYPE_TIMESTAMP) || (type =? TSDB_DATA_TYPE_BIGINT) then Some (8, 0x8000000000000000)
  else if type =? TSDB_DATA_TYPE_FLOAT then Some (4, 0x7FF00000)
  else if type =? TSDB_DATA_TYPE_DOUBLE then Some (8, 0x7FFFFF0000000000)
  else if type =? TSDB_DATA_TYPE_NCHAR then Some (4, 0xFFFFFFFF)
  else if type =? TSDB_DATA_TYPE_BINARY then Some (1, 0xFF)
  else None.

Definition isNull (val : list Z) (off type : Z) : res bool :=
  match null_pattern type with
  | Some (w, p) => let! bs := rd val off w in Ret (le_val bs =? p)
  | None => Ret false
  end.

(** Strings lie [bytes] apart, other values as far as their type says. *)
Fixpoint set_nulls (n : nat) (i step w p : Z) (val : list Z) : res (list Z) :=
  match n with
  | O => Ret val
  | S n => let! val := wr val (i * step) (le_bytes (Z.to_nat w) p) in set_nulls n (i + 1) step w p val
  end.
Definition setNullN (val : list Z) (type bytes numOfElems : Z) : res (list Z) :=
  match null_pattern type with
  | Some (w, p) =>
    let step := if (type =? TSDB_DATA_TYPE_NCHAR) || (type =? TSDB_DATA_TYPE_BINARY) then bytes else nSize type in
    set_nulls (Z.to_nat numOfElems) 0 step w p val
  | None => set_nulls (Z.to_nat numOfElems) 0 (nSize TSDB_DATA_TYPE_INT) 4 0x80000000 val
  end.

(** ** Statistics *)
Record stats := mkStats { s_min : Z; s_max : Z; s_sum : Z; s_wsum : Z; s_nulls : Z }.

(** Integers of [w] bytes; [null] is what isNull compares with, as a signed integer. *)
Fixpoint int_loop (n : nat) (w type null : Z) (primaryKey data : list Z) (i : Z) (s : stats) (lastKey lastVal : Z) : res stats :=
  match n with
  | O => Ret s
  | S n =>
    let! v := rds w data i in
    let! isnull := isNull data (i * w) type in
    if isnull : bool then
      int_loop n w type null primaryKey data (i + 1) (mkStats (s_min s) (s_max s) (s_sum s) (s_wsum s) (i32 (s_nulls s + 1))) lastKey lastVal
    else
      let mn := if v <? s_min s then v else s_min s in
      let mx := if s_max s <? v then v else s_max s in
      let sum := i64 (s_sum s + v) in
      if type =? TSDB_DATA_TYPE_BOOL then
        int_loop n w type null primaryKey data (i + 1) (mkStats mn mx sum (s_wsum s) (s_nulls s)) lastKey lastVal
      else
        let! key := rds 8 primaryKey i in
        let wsum := if lastVal =? null then s_wsum s else i64 (lastVal * i64 (key - lastKey)) in
        int_loop n w type null primaryKey data (i + 1) (mkStats mn mx sum wsum (s_nulls s)) key v
  end.
Definition getStatics_int (w type null : Z) (primaryKey data : list Z) (numOfRow : Z) : res stats :=
  int_loop (Z.to_nat numOfRow) w type null primaryKey data 0 (mkStats INT64_MAX INT64_MIN 0 0 0) 0 null.

(** The arithmetic of the machine on floats and doubles, which are bit patterns here. *)
Class DoubleOps := {
  d_of_f : Z -> Z; d_of_i64 : Z -> Z; f_of_i64 : Z -> Z; d_add : Z -> Z -> Z; d_mul : Z -> Z -> Z; f_mul : Z -> Z -> Z;
  d_lt : Z -> Z -> bool }.

Definition DBL_MAX := 0x7FEFFFFFFFFFFFFF.
Definition NEG_DBL_MAX := 0xFFEFFFFFFFFFFFFF.
(** [TSDB_DATA_FLOAT_NULL] and [TSDB_DATA_DOUBLE_NULL] are integers; this is what
    they are when they are assigned to a float and a double. *)
Definition FLOAT_NULL_VALUE := 0x4EFFE000.
Definition DOUBLE_NULL_VALUE := 0x43DFFFFFC0000000.

Section Floats.
Context `{DoubleOps}.

Fixpoint double_loop (n : nat) (is_float : bool) (primaryKey data : list Z) (i : Z) (s : stats) (lastKey lastVal : Z) : res stats :=
  match n with
  | O => Ret s
  | S n =>
    let w := if is_float then 4 else 8 in
    let! bs := rd data (i * w) w in
    let v := le_val bs in
    let null := if is_float then 0x7FF00000 else 0x7FFFFF0000000000 in
    if v =? null then
      double_loop n is_float primaryKey data (i + 1) (mkStats (s_min s) (s_max s) (s_sum s) (s_wsum s) (i32 (s_nulls s + 1))) lastKey lastVal
    else
      let d := if is_float then d_of_f v else v in
      let mn := if d_lt d (s_min s) then d else s_min s in
      let mx := if d_lt (s_max s) d then d else s_max s in
      let! key := rds 8 primaryKey i in
      let gap := i64 (key - lastKey) in
      let wsum := if lastVal =? null then s_wsum s
                  else if is_float then d_of_f (f_mul lastVal (f_of_i64 gap)) else d_mul lastVal (d_of_i64 gap) in
      double_loop n is_float primaryKey data (i + 1) (mkStats mn mx (d_add (s_sum s) d) wsum (s_nulls s)) key v
  end.
Definition getStatics_double (is_float : bool) (primaryKey data : list Z) (numOfRow : Z) : res stats :=
  double_loop (Z.to_nat numOfRow) is_float primaryKey data 0 (mkStats DBL_MAX NEG_DBL_MAX 0 0 0) 0
    (if is_float then FLOAT_NULL_VALUE else DOUBLE_NULL_VALUE).

Fixpoint string_nulls (n : nat) (type size : Z) (data : list Z) (i nulls : Z) : res Z :=
  match n with
  | O => Ret nulls
  | S n => let! isnull := isNull data (i * size) type in string_nulls n type size data (i + 1) (if isnull : bool then i32 (nulls + 1) else nulls)
  end.

(** All results are 0 before the call. *)
Definition getStatistics (priData data : list Z) (size numOfRow type : Z) : res stats :=
  if (type =? TSDB_DATA_TYPE_BINARY) || (type =? TSDB_DATA_TYPE_NCHAR) then
    let! nulls := string_nulls (Z.to_nat numOfRow) type size data 0 0 in Ret (mkStats 0 0 0 0 nulls)
  else if (type =? TSDB_DATA_TYPE_TINYINT) || (type =? TSDB_DATA_TYPE_BOOL) then getStatics_int 1 type (-128) priData data numOfRow
  else if type =? TSDB_DATA_TYPE_SMALLINT then getStatics_int 2 type (-32768) priData data numOfRow
  else if type =? TSDB_DATA_TYPE_INT then getStatics_int 4 type (- 2 ^ 31) priData data numOfRow
  else if (type =? TSDB_DATA_TYPE_BIGINT) || (type =? TSDB_DATA_TYPE_TIMESTAMP) then getStatics_int 8 type (- 2 ^ 63) priData data numOfRow
  else if type =? TSDB_DATA_TYPE_DOUBLE then getStatics_double false priData data numOfRow
  else if type =? TSDB_DATA_TYPE_FLOAT then getStatics_double true priData data numOfRow
  else Ret (mkStats 0 0 0 0 0).
End Floats.

(** ** What the statistics are *)

(** The signed null value of an integer type of [w] bytes. *)
Definition int_null (w : Z) : Z := - 2 ^ (8 * w - 1).
Definition null_of (type w : Z) : Z := if type =? TSDB_DATA_TYPE_BOOL then TSDB_DATA_BOOL_NULL else int_null w.

(** The integer types with their widths. *)
Definition int_type (type w : Z) : Prop :=
  type = TSDB_DATA_TYPE_BOOL /\ w = 1 \/ type = TSDB_DATA_TYPE_TINYINT /\ w = 1 \/ type = TSDB_DATA_TYPE_SMALLINT /\ w = 2 \/
  type = TSDB_DATA_TYPE_INT /\ w = 4 \/ type = TSDB_DATA_TYPE_BIGINT /\ w = 8 \/ type = TSDB_DATA_TYPE_TIMESTAMP /\ w = 8.

(** The rows that have a value, with their keys. *)
Definition present (type w : Z) (rows : list (Z * Z)) : list (Z * Z) := filter (fun kv => kv.2 <> null_of type w) rows.

(** The weight of the last value but one, which is all that is left of them. *)
Fixpoint last_gap (rows : list (Z * Z)) : Z :=
  match rows with
  | (k, v) :: ((k', v') :: l) as rows' => match l with [] => i64 (v * i64 (k' - k)) | _ => last_gap rows' end
  | _ => 0
  end.

Lemma int_null_pattern type w v : int_type type w -> in_s (8 * w) v ->
  exists p, null_pattern type = Some (w, p) /\ (le_val (le_bytes (Z.to_nat w) v) =? p) = bool_decide (v = null_of type w).
Proof.
  intros Ht Hv.
  assert (Hwrap : forall n p, w = Z.of_nat n -> 0 <= p < 2 ^ (8 * w) -> wraps (8 * w) p = null_of type w ->
    (le_val (le_bytes (Z.to_nat w) v) =? p) = bool_decide (v = null_of type w)).
  { intros n p -> Hp <-. assert (Hn : (0 < n)%nat) by (unfold int_type in Ht; lia). rewrite Nat2Z.id, le_val_bytes.
    destruct (Z.eqb_spec (v mod 2 ^ (8 * Z.of_nat n)) p) as [E|E]; symmetry.
    - apply bool_decide_eq_true. subst p. fold (wrapu (8 * Z.of_nat n) v).
      rewrite wraps_wrapu by lia. symmetry. apply wraps_id; [lia|done].
    - apply bool_decide_eq_false. intros ->. apply E. fold (wrapu (8 * Z.of_nat n) (wraps (8 * Z.of_nat n) p)).
      rewrite wrapu_wraps by lia. by apply wrapu_id. }
  destruct Ht as [[-> ->]|[[-> ->]|[[-> ->]|[[-> ->]|[[-> ->]|[-> ->]]]]]]; eexists; (split; [reflexivity|]).
  - by apply (Hwrap 1%nat).
  - by apply (Hwrap 1%nat).
  - by apply (Hwrap 2%nat).
  - by apply (Hwrap 4%nat).
  - by apply (Hwrap 8%nat).
  - by apply (Hwrap 8%nat).
Qed.

(** One row. *)
Definition int_step (type w : Z) (a : stats * (Z * Z)) (row : Z * Z) : stats * (Z * Z) :=
  let '(s, (lastKey, lastVal)) := a in
  let '(k, v) := row in
  if decide (v = null_of type w) then (mkStats (s_min s) (s_max s) (s_sum s) (s_wsum s) (i32 (s_nulls s + 1)), (lastKey, lastVal))
  else if type =? TSDB_DATA_TYPE_BOOL then (mkStats (Z.min v (s_min s)) (Z.max v (s_max s)) (i64 (s_sum s + v)) (s_wsum s) (s_nulls s), (lastKey, lastVal))
  else (mkStats (Z.min v (s_min s)) (Z.max v (s_max s)) (i64 (s_sum s + v))
          (if lastVal =? int_null w then s_wsum s else i64 (lastVal * i64 (k - lastKey))) (s_nulls s), (k, v)).

Lemma int_loop_spec type w keys vals : int_type type w -> Forall (in_s 64) keys -> Forall (in_s (8 * w)) vals -> length keys = length vals ->
  forall n i s lk lv, 0 <= i -> Z.of_nat n + i = Z.of_nat (length vals) ->
  int_loop n w type (int_null w) (pack_elems 8 keys) (pack_elems (Z.to_nat w) vals) i s lk lv =
    Ret (fst (foldl (int_step type w) (s, (lk, lv)) (drop (Z.to_nat i) (zip keys vals)))).
Proof.
  intros Ht Hk Hv Hlen. assert (Hw : 0 < w) by (destruct Ht as [[? ->]|[[? ->]|[[? ->]|[[? ->]|[[? ->]|[? ->]]]]]]; lia).
  induction n as [|n IH]; intros i s lk lv Hi Hn.
  - rewrite drop_ge; [done|]. rewrite length_zip_with. lia.
  - destruct (lookup_lt_is_Some_2 keys (Z.to_nat i)) as [k Ek]; [lia|]. destruct (lookup_lt_is_Some_2 vals (Z.to_nat i)) as [v Ev]; [lia|].
    pose proof (Forall_lookup_1 _ _ _ _ Hk Ek) as Hkr. pose proof (Forall_lookup_1 _ _ _ _ Hv Ev) as Hvr. cbn [int_loop].
    assert (Hrk : rds 8 (pack_elems 8 keys) i = Ret k) by (apply (rds_pack 8); [lia|done|done|done]).
    pose proof (rds_pack (Z.to_nat w) vals i v ltac:(lia) Hi Ev) as Hr. rewrite Z2Nat.id in Hr by lia. rewrite Hr by done. cbn [rbind].
    destruct (int_null_pattern type w v Ht Hvr) as (p & Hp & Hnull). unfold isNull. rewrite Hp.
    assert (Ed : drop (Z.to_nat i) vals = v :: drop (S (Z.to_nat i)) vals) by (by apply drop_S).
    destruct (rd_pack_drop (Z.to_nat w) vals i v _ Hi Ed) as (Hrd & _). rewrite Z2Nat.id in Hrd by lia. rewrite Hrd. cbn [rbind].
    rewrite Hnull. assert (Ez : drop (Z.to_nat i) (zip keys vals) = (k, v) :: drop (Z.to_nat (i + 1)) (zip keys vals)).
    { replace (Z.to_nat (i + 1)) with (S (Z.to_nat i)) by lia. apply drop_S. rewrite lookup_zip_with, Ek, Ev. done. }
    rewrite Ez. cbn [foldl int_step]. destruct (decide (v = null_of type w)) as [E|E].
    + rewrite bool_decide_eq_true_2 by done. by rewrite IH by lia.
    + rewrite bool_decide_eq_false_2 by done.
      replace (if v <? s_min s then v else s_min s) with (Z.min v (s_min s)) by (destruct (Z.ltb_spec v (s_min s)); lia).
      replace (if s_max s <? v then v else s_max s) with (Z.max v (s_max s)) by (destruct (Z.ltb_spec (s_max s) v); lia).
      rewrite Hrk. cbn [rbind]. destruct (type =? TSDB_DATA_TYPE_BOOL); by rewrite IH by lia.
Qed.

Lemma foldr_min_acc l : forall a b, foldr Z.min (Z.min b a) l = Z.min b (foldr Z.min a l).
Proof. induction l as [|x l IH]; intros a b; cbn; [done|]. rewrite IH. lia. Qed.
Lemma foldr_max_acc l : forall a b, foldr Z.max (Z.max b a) l = Z.max b (foldr Z.max a l).
Proof. induction l as [|x l IH]; intros a b; cbn; [done|]. rewrite IH. lia. Qed.

Lemma i64_add a b : i64 (i64 a + b) = i64 (a + b).
Proof. destruct (wraps_spec 64 a ltac:(lia)) as [q Hq]. apply (wraps_congr 64 _ _ q); lia. Qed.

Definition values (type w : Z) (rows : list (Z * Z)) : list Z := map snd (present type w rows).

Lemma present_null type w k v rows : v = null_of type w -> present type w ((k, v) :: rows) = present type w rows.
Proof. intros ->. unfold present. by rewrite filter_cons_False by (cbn; tauto). Qed.
Lemma present_value type w k v rows : v <> null_of type w -> present type w ((k, v) :: rows) = (k, v) :: present type w rows.
Proof. intros. unfold present. by rewrite filter_cons_True. Qed.

(** What the steps make of the rows, but for the weight. *)
Lemma int_steps type w rows : forall s kv, let '(s', _) := foldl (int_step type w) (s, kv) rows in
  s_nulls s + Z.of_nat (length rows) < 2 ^ 31 -> 0 <= s_nulls s -> in_s 64 (s_sum s) ->
  s_min s' = foldr Z.min (s_min s) (values type w rows) /\ s_max s' = foldr Z.max (s_max s) (values type w rows) /\
  s_sum s' = i64 (s_sum s + foldr Z.add 0 (values type w rows)) /\
  s_nulls s' = s_nulls s + Z.of_nat (length rows) - Z.of_nat (length (present type w rows)).
Proof.
  unfold values. induction rows as [|[k v] rows IH]; intros s [lk lv]; cbn [foldl length].
  - intros _ _ Hs. cbn. rewrite Z.add_0_r, wraps_id by (done || lia). repeat split; lia.
  - cbn [int_step]. destruct (decide (v = null_of type w)) as [E|E].
    + rewrite (present_null _ _ _ _ _ E). specialize (IH (mkStats (s_min s) (s_max s) (s_sum s) (s_wsum s) (i32 (s_nulls s + 1))) (lk, lv)).
      destruct (foldl _ _ _) as [s' ?]. intros Hn H0 Hs. cbn [s_min s_max s_sum s_nulls] in IH. rewrite wraps_id in IH by (unfold in_s; lia).
      destruct IH as (-> & -> & -> & ->); [lia|lia|done|]. repeat split; lia.
    + rewrite (present_value _ _ _ _ _ E). cbn [map length foldr snd].
      set (s1 := if type =? TSDB_DATA_TYPE_BOOL then _ else _).
      assert (H1 : s_min s1.1 = Z.min v (s_min s) /\ s_max s1.1 = Z.max v (s_max s) /\ s_sum s1.1 = i64 (s_sum s + v) /\ s_nulls s1.1 = s_nulls s)
        by (unfold s1; by destruct (type =? _)).
      destruct s1 as [s1 kv1]. cbn [fst] in H1. destruct H1 as (E1 & E2 & E3 & E4). specialize (IH s1 kv1).
      destruct (foldl _ _ _) as [s' ?]. intros Hn H0 Hs. rewrite E1, E2, E3, E4, i64_add, foldr_min_acc, foldr_max_acc in IH.
      destruct IH as (-> & -> & -> & ->); [lia|lia|apply wraps_range; lia|].
      split; [done|]. split; [done|]. split; [f_equal; lia|lia].
Qed.

(** The weight. *)
Lemma weight_bool w rows : forall s kv, s_wsum (foldl (int_step TSDB_DATA_TYPE_BOOL w) (s, kv) rows).1 = s_wsum s.
Proof.
  induction rows as [|[k v] rows IH]; intros s [lk lv]; [done|]. cbn [foldl int_step].
  change (TSDB_DATA_TYPE_BOOL =? TSDB_DATA_TYPE_BOOL) with true. destruct (decide (v = null_of TSDB_DATA_TYPE_BOOL w)); by rewrite IH.
Qed.

Lemma weight_next type w rows : type <> TSDB_DATA_TYPE_BOOL -> forall s lk lv, lv <> int_null w ->
  s_wsum (foldl (int_step type w) (s, (lk, lv)) rows).1 =
    match present type w rows with [] => s_wsum s | l => last_gap ((lk, lv) :: l) end.
Proof.
  intros Ht. induction rows as [|[k v] rows IH]; intros s lk lv Hlv; [done|]. cbn [foldl int_step].
  destruct (decide (v = null_of type w)) as [E|E]; [by rewrite (present_null _ _ _ _ _ E), IH|].
  rewrite (present_value _ _ _ _ _ E), (proj2 (Z.eqb_neq _ _) Ht), (proj2 (Z.eqb_neq _ _) Hlv).
  rewrite IH by (unfold null_of in E; by rewrite (proj2 (Z.eqb_neq _ _) Ht) in E).
  by destruct (present type w rows).
Qed.

Lemma weight_first type w rows : type <> TSDB_DATA_TYPE_BOOL -> forall s lk, s_wsum s = 0 ->
  s_wsum (foldl (int_step type w) (s, (lk, int_null w)) rows).1 = last_gap (present type w rows).
Proof.
  intros Ht. induction rows as [|[k v] rows IH]; intros s lk Hs; [done|]. cbn [foldl int_step].
  destruct (decide (v = null_of type w)) as [E|E]; [by rewrite (present_null _ _ _ _ _ E), IH|].
  rewrite (present_value _ _ _ _ _ E), (proj2 (Z.eqb_neq _ _) Ht), Z.eqb_refl.
  rewrite weight_next by (try done; unfold null_of in E; by rewrite (proj2 (Z.eqb_neq _ _) Ht) in E).
  destruct (present type w rows); [|done]. cbn [s_wsum]. by rewrite Hs.
Qed.

(** C40.  Of a column of integers the statistics are the least, the largest and the sum
    (modulo 2^64) of the values that are not null, and how many rows are null; the
    weighted sum is not a sum, but the last two values and the time between them. *)
Theorem int_statistics `{DoubleOps} type w keys vals size : int_type type w -> Forall (in_s 64) keys -> Forall (in_s (8 * w)) vals ->
  length keys = length vals -> Z.of_nat (length vals) < 2 ^ 31 ->
  let rows := zip keys vals in
  let l := values type w rows in
  getStatistics (pack_elems 8 keys) (pack_elems (Z.to_nat w) vals) size (Z.of_nat (length vals)) type =
    Ret (mkStats (foldr Z.min INT64_MAX l) (foldr Z.max INT64_MIN l) (i64 (foldr Z.add 0 l))
           (if type =? TSDB_DATA_TYPE_BOOL then 0 else last_gap (present type w rows))
           (Z.of_nat (length vals) - Z.of_nat (length (present type w rows)))).
Proof.
  intros Ht Hk Hv Hlen Hmax rows l.
  assert (Hspec : getStatics_int w type (int_null w) (pack_elems 8 keys) (pack_elems (Z.to_nat w) vals) (Z.of_nat (length vals)) =
    Ret (mkStats (foldr Z.min INT64_MAX l) (foldr Z.max INT64_MIN l) (i64 (foldr Z.add 0 l))
           (if type =? TSDB_DATA_TYPE_BOOL then 0 else last_gap (present type w rows))
           (Z.of_nat (length vals) - Z.of_nat (length (present type w rows))))).
  { unfold getStatics_int. rewrite Nat2Z.id, (int_loop_spec type w keys vals) by (done || lia). cbn [Z.to_nat drop]. f_equal. fold rows.
    pose proof (int_steps type w rows (mkStats INT64_MAX INT64_MIN 0 0 0) (0, int_null w)) as Hst.
    assert (Hwt : s_wsum (foldl (int_step type w) (mkStats INT64_MAX INT64_MIN 0 0 0, (0, int_null w)) rows).1 =
      if type =? TSDB_DATA_TYPE_BOOL then 0 else last_gap (present type w rows)).
    { destruct (Z.eqb_spec type TSDB_DATA_TYPE_BOOL) as [->|E]; [by rewrite weight_bool|by rewrite weight_first]. }
    destruct (foldl _ _ _) as [s' ?]. cbn [fst s_min s_max s_sum s_nulls] in *. rewrite Z.add_0_l in Hst.
    assert (Hl : length rows = length vals) by (unfold rows; rewrite length_zip_with; lia). rewrite Hl in Hst.
    destruct Hst as (E1 & E2 & E3 & E4); [lia|lia|done|]. destruct s'. cbn in *. subst. f_equal. }
  unfold getStatistics.
  destruct Ht as [[-> ->]|[[-> ->]|[[-> ->]|[[-> ->]|[[-> ->]|[-> ->]]]]]]; exact Hspec.
Qed.

(** ** The statistics are computed *)
Lemma rd_within buf off len : 0 <= off -> 0 <= len -> off + len <= Z.of_nat (length buf) -> exists bs, rd buf off len = Ret bs.
Proof. intros. unfold rd. rewrite bool_decide_true by lia. by eexists. Qed.
Lemma rds_within w buf j : 0 <= w -> 0 <= j -> (j + 1) * w <= Z.of_nat (length buf) -> exists v, rds w buf j = Ret v.
Proof. intros. unfold rds. destruct (rd_within buf (j * w) w) as [bs ->]; [lia|lia|lia|]. by eexists. Qed.

Lemma int_loop_total w type null pri data : 0 < w -> (forall p q, null_pattern type = Some (p, q) -> 0 <= p <= w) ->
  forall n i s lk lv, 0 <= i -> (i + Z.of_nat n) * w <= Z.of_nat (length data) -> (i + Z.of_nat n) * 8 <= Z.of_nat (length pri) ->
  exists r, int_loop n w type null pri data i s lk lv = Ret r.
Proof.
  intros Hw Hp. induction n as [|n IH]; intros i s lk lv Hi Hd Hk; [by eexists|]. cbn [int_loop].
  assert (Hnw : 0 <= Z.of_nat n * w) by nia.
  destruct (rds_within w data i) as [v ->]; [lia|lia|lia|]. cbn [rbind].
  assert (Hnull : exists b, isNull data (i * w) type = Ret b).
  { unfold isNull. destruct (null_pattern type) as [[p q]|]; [|by eexists]. specialize (Hp p q eq_refl).
    destruct (rd_within data (i * w) p) as [bs ->]; [nia|lia|lia|]. by eexists. }
  destruct Hnull as [[] ->]; cbn [rbind]; [apply IH; lia|]. destruct (type =? _); [apply IH; lia|].
  destruct (rds_within 8 pri i) as [k ->]; [lia|lia|lia|]. cbn [rbind]. apply IH; lia.
Qed.

Lemma string_nulls_total type size data p q : null_pattern type = Some (p, q) -> 0 <= p <= size ->
  forall n i nulls, 0 <= i -> (i + Z.of_nat n) * size <= Z.of_nat (length data) -> exists r, string_nulls n type size data i nulls = Ret r.
Proof.
  intros Hp Hs. induction n as [|n IH]; intros i nulls Hi Hd; [by eexists|]. cbn [string_nulls]. unfold isNull. rewrite Hp.
  assert (Hnw : 0 <= Z.of_nat n * size) by nia.
  destruct (rd_within data (i * size) p) as [bs ->]; [nia|lia|lia|]. cbn [rbind]. apply IH; lia.
Qed.

Section Total.
Context `{DoubleOps}.
Lemma double_loop_total is_float pri data : let w := if is_float : bool then 4 else 8 in
  forall n i s lk lv, 0 <= i -> (i + Z.of_nat n) * w <= Z.of_nat (length data) -> (i + Z.of_nat n) * 8 <= Z.of_nat (length pri) ->
  exists r, double_loop n is_float pri data i s lk lv = Ret r.
Proof.
  intros w. assert (Hw : 0 < w) by (unfold w; destruct is_float; lia).
  induction n as [|n IH]; intros i s lk lv Hi Hd Hk; [by eexists|]. cbn [double_loop]. fold w.
  assert (Hnw : 0 <= Z.of_nat n * w) by nia.
  destruct (rd_within data (i * w) w) as [bs ->]; [nia|lia|lia|]. cbn [rbind].
  destruct (_ =? _); [apply IH; lia|]. destruct (rds_within 8 pri i) as [k ->]; [lia|lia|lia|]. cbn [rbind]. apply IH; lia.
Qed.

(** Of a column of any type, when the buffers have its rows. *)
Lemma statistics_total pri data size n type : 1 <= type <= 10 -> (type <> TSDB_DATA_TYPE_BINARY -> type <> TSDB_DATA_TYPE_NCHAR -> size = nSize type) ->
  (type = TSDB_DATA_TYPE_BINARY -> 1 <= size) -> (type = TSDB_DATA_TYPE_NCHAR -> 4 <= size) -> 0 <= n ->
  n * 8 <= Z.of_nat (length pri) -> n * size <= Z.of_nat (length data) -> exists s, getStatistics pri data size n type = Ret s.
Proof.
  intros Ht Hs Hb Hc Hn Hp Hd.
  assert (Hint : forall w null, nSize type = w -> 0 < w -> (forall p q, null_pattern type = Some (p, q) -> 0 <= p <= w) ->
    type <> TSDB_DATA_TYPE_BINARY -> type <> TSDB_DATA_TYPE_NCHAR -> exists s, getStatics_int w type null pri data n = Ret s).
  { intros w null <- Hw Hpq H1 H2. apply int_loop_total; [done|done|lia| |]; rewrite ?Z2Nat.id by lia; [by rewrite <- Hs|lia]. }
  assert (Hstr : forall p q, null_pattern type = Some (p, q) -> 0 <= p <= size ->
    exists s, (let! nulls := string_nulls (Z.to_nat n) type size data 0 0 in Ret (mkStats 0 0 0 0 nulls)) = Ret s).
  { intros p q Hpq Hps. destruct (string_nulls_total type size data p q Hpq Hps (Z.to_nat n) 0 0) as [r ->]; [lia|lia|]. by eexists. }
  assert (Hcase : type = 1 \/ type = 2 \/ type = 3 \/ type = 4 \/ type = 5 \/ type = 6 \/ type = 7 \/ type = 8 \/ type = 9 \/ type = 10) by lia.
  unfold getStatistics.
  destruct Hcase as [->|[->|[->|[->|[->|[->|[->|[->|[->| ->]]]]]]]]]; cbn [Z.eqb Pos.eqb orb];
    try (apply Hint; [reflexivity|lia|intros p q [= <- <-]; lia|done|done]).
  - apply (double_loop_total true); [lia| |lia]. pose proof (Hs ltac:(done) ltac:(done)) as E. change (nSize 6) with 4 in E. lia.
  - apply (double_loop_total false); [lia| |lia]. pose proof (Hs ltac:(done) ltac:(done)) as E. change (nSize 7) with 8 in E. lia.
  - apply (Hstr 1 0xFF); [done|]. specialize (Hb eq_refl). lia.
  - apply (Hstr 4 0xFFFFFFFF); [done|]. specialize (Hc eq_refl). lia.
Qed.
End Total.
