(* ===== verification/FileBlock.v ===== *)
(** * Blocks of data files (system/src/vnodeFile.c)

    Files with a position, and the blocks that a commit writes to them. *)
From S2P Require Import Prelude CompBase CompInt CompBool CompTime CompXor Tscompression Crc32c ColTypes.

(** * Open files

    The content of a file and the position of a descriptor.  [read] takes less than
    it is asked for at the end of the file, [write] fills a gap with zeros; both
    succeed otherwise. *)

Record fd := mkFd { content : list Z; offs : Z }.

Definition file_size (f : fd) : Z := Z.of_nat (length (content f)).

(** [lseek(fd, o, SEEK_SET)] fails for a negative offset and leaves the position. *)
Definition lseek_set (o : Z) (f : fd) : fd := if o <? 0 then f else mkFd (content f) o.
Definition lseek_cur (o : Z) (f : fd) : fd := lseek_set (offs f + o) f.
Definition lseek_end (f : fd) : fd := mkFd (content f) (file_size f).

Definition read (n : Z) (f : fd) : list Z * fd :=
  let got := take (Z.to_nat n) (drop (Z.to_nat (offs f)) (content f)) in
  (got, mkFd (content f) (offs f + Z.of_nat (length got))).

Definition write (bs : list Z) (f : fd) : fd :=
  let p := Z.to_nat (offs f) in
  mkFd (take p (content f) ++ replicate (p - length (content f)) 0 ++ bs ++ drop (p + length bs) (content f))
    (offs f + Z.of_nat (length bs)).

(** What is read over a buffer: the rest of it stays. *)
Definition over (got buf : list Z) : list Z := got ++ drop (length got) buf.

(** ** Laws *)
Lemma read_at n f a b c : content f = a ++ b ++ c -> offs f = Z.of_nat (length a) -> n = Z.of_nat (length b) ->
  read n f = (b, mkFd (content f) (offs f + n)).
Proof.
  intros Ec Eo ->. unfold read. rewrite Ec, Eo, !Nat2Z.id, drop_app_length, take_app_length. done.
Qed.

Lemma write_end bs f : write bs (lseek_end f) = mkFd (content f ++ bs) (file_size f + Z.of_nat (length bs)).
Proof.
  unfold write, lseek_end, file_size. cbn. rewrite Nat2Z.id, Nat.sub_diag, firstn_all. cbn.
  rewrite drop_ge by lia. by rewrite app_nil_r.
Qed.

Lemma write_here bs f : offs f = file_size f -> write bs f = mkFd (content f ++ bs) (file_size f + Z.of_nat (length bs)).
Proof.
  intros E. rewrite <- (write_end bs f). f_equal. unfold lseek_end. rewrite <- E. by destruct f.
Qed.

Lemma write_mid bs f a b c : content f = a ++ b ++ c -> offs f = Z.of_nat (length a) -> length b = length bs ->
  write bs f = mkFd (a ++ bs ++ c) (offs f + Z.of_nat (length bs)).
Proof.
  intros Ec Eo El. unfold write. rewrite Ec, Eo, Nat2Z.id, take_app_length, !length_app.
  replace (length a - (length a + (length b + length c)))%nat with 0%nat by lia. cbn [replicate app].
  rewrite (app_assoc a b c), drop_app_length' by (rewrite length_app; lia). done.
Qed.

Lemma over_full got buf : length got = length buf -> over got buf = got.
Proof. intros E. unfold over. rewrite E, drop_ge by lia. apply app_nil_r. Qed.

(** * Blocks in the data files of a vnode (system/src/vnodeFile.c)

    A block holds some rows of a table, column by column: first an array of
    [SField], one for each column, with a checksum, then the columns, compressed or
    not, each with its checksum.  Full blocks are appended to the data file, the
    last block of a table to the last file. *)

(** ** Data *)
Record SColumn := mkColumn { colId : Z; bytes : Z; type : Z }.
Record SMeterObj := mkMeter {
  uid : Z; schema : list SColumn; bytesPerPoint : Z; maxBytes : Z; pointsPerFileBlock : Z; sversion : Z }.

(** A column in memory: its length, and the buffer behind it. *)
Record SData := mkData { d_len : Z; d_data : list Z }.

Record SField := mkField {
  f_colId : Z; f_bytes : Z; f_nulls : Z; f_type : Z (* 8 bits *); f_offset : Z (* 24 bits *); f_len : Z;
  f_sum : Z; f_max : Z; f_min : Z; f_wsum : Z }.
Definition SIZEOF_SField := 64.
Definition SIZEOF_TSCKSUM := 4.
Definition EXTRA_BYTES := 2.

Definition field_bytes (f : SField) : list Z :=
  le_bytes 2 (f_colId f) ++ le_bytes 2 (f_bytes f) ++ le_bytes 4 (f_nulls f) ++ le_bytes 1 (f_type f) ++ le_bytes 3 (f_offset f) ++
  le_bytes 4 (f_len f) ++ le_bytes 8 (f_sum f) ++ le_bytes 8 (f_max f) ++ le_bytes 8 (f_min f) ++ le_bytes 8 (f_wsum f) ++
  replicate 16 0.

(** The bytes [a .. a + n) of a struct, as a signed integer. *)
Definition member (l : list Z) (a n : nat) : Z := wraps (8 * Z.of_nat n) (le_val (take n (drop a l))).
Definition field_of (l : list Z) : SField :=
  mkField (member l 0 2) (member l 2 2) (member l 4 4) (member l 8 1) (member l 9 3) (member l 12 4) (member l 16 8) (member l 24 8)
    (member l 32 8) (member l 40 8).
(** [fields\[col\]] *)
Definition field_at (fields : list Z) (col : Z) : res SField :=
  let! l := rd fields (col * SIZEOF_SField) SIZEOF_SField in Ret (field_of l).

(** [last] is one bit, and -1 when it is set; [offset] has 63 bits. *)
Record SCompBlock := mkBlock {
  b_last : Z; b_offset : Z; b_algorithm : Z (* 8 bits *); b_numOfPoints : Z (* 24 bits *); b_sversion : Z; b_len : Z;
  b_numOfCols : Z; b_keyFirst : Z; b_keyLast : Z }.

(** The descriptors that a commit has open; [tfd] is [None] for none. *)
Record files := mkFiles { dfd : fd; lfd : fd; tfd : option fd; dfSize : Z; compStorage : Z }.
Definition set_dfd (f : fd) (fs : files) : files := mkFiles f (lfd fs) (tfd fs) (dfSize fs) (compStorage fs).
Definition set_lfd (f : fd) (fs : files) : files := mkFiles (dfd fs) f (tfd fs) (dfSize fs) (compStorage fs).
Definition set_last (f : fd) (fs : files) : files :=
  match tfd fs with
  | Some _ => mkFiles (dfd fs) (lfd fs) (Some f) (dfSize fs) (compStorage fs)
  | None => mkFiles (dfd fs) f None (dfSize fs) (compStorage fs)
  end.
Definition grown (n : Z) (fs : files) : files := mkFiles (dfd fs) (lfd fs) (tfd fs) (dfSize fs + n) (compStorage fs + n).
Definition last_of (fs : files) : fd := match tfd fs with Some f => f | None => lfd fs end.

(** [points < pointsPerFileBlock * tsFileBlockMinPercent], where the option is a float. *)
Class BlockOptions := { few_points : Z -> Z -> bool }.

Section Blocks.
Context `{LZ4} `{DataModel} `{DoubleOps} `{BlockOptions}.
Context (crc32c : Z -> Z -> list Z -> Z -> res Z) (heap : Z).

(** ** The codecs *)
Definition pCompFunc (type : Z) (input : list Z) (inputSize nelements outputSize algorithm bufferSize : Z) : res (list Z) :=
  if type =? TSDB_DATA_TYPE_BOOL then tsCompressBool input inputSize nelements outputSize algorithm bufferSize
  else if type =? TSDB_DATA_TYPE_TINYINT then tsCompressTinyint input inputSize nelements outputSize algorithm bufferSize
  else if type =? TSDB_DATA_TYPE_SMALLINT then tsCompressSmallint input inputSize nelements outputSize algorithm bufferSize
  else if type =? TSDB_DATA_TYPE_INT then tsCompressInt input inputSize nelements outputSize algorithm bufferSize
  else if type =? TSDB_DATA_TYPE_BIGINT then tsCompressBigint input inputSize nelements outputSize algorithm bufferSize
  else if type =? TSDB_DATA_TYPE_FLOAT then tsCompressFloat input inputSize nelements outputSize algorithm bufferSize
  else if type =? TSDB_DATA_TYPE_DOUBLE then tsCompressDouble input inputSize nelements outputSize algorithm bufferSize
  else if (type =? TSDB_DATA_TYPE_BINARY) || (type =? TSDB_DATA_TYPE_NCHAR) then tsCompressString input inputSize nelements outputSize algorithm bufferSize
  else if type =? TSDB_DATA_TYPE_TIMESTAMP then tsCompressTimestamp input inputSize nelements outputSize algorithm bufferSize
  else Undef.
Definition pDecompFunc (type : Z) (input : list Z) (compressedSize nelements outputSize algorithm bufferSize : Z) : res (list Z) :=
  if type =? TSDB_DATA_TYPE_BOOL then tsDecompressBool input compressedSize nelements outputSize algorithm bufferSize
  else if type =? TSDB_DATA_TYPE_TINYINT then tsDecompressTinyint input compressedSize nelements outputSize algorithm bufferSize
  else if type =? TSDB_DATA_TYPE_SMALLINT then tsDecompressSmallint input compressedSize nelements outputSize algorithm bufferSize
  else if type =? TSDB_DATA_TYPE_INT then tsDecompressInt input compressedSize nelements outputSize algorithm bufferSize
  else if type =? TSDB_DATA_TYPE_BIGINT then tsDecompressBigint input compressedSize nelements outputSize algorithm bufferSize
  else if type =? TSDB_DATA_TYPE_FLOAT then tsDecompressFloat input compressedSize nelements outputSize algorithm bufferSize
  else if type =? TSDB_DATA_TYPE_DOUBLE then tsDecompressDouble input compressedSize nelements outputSize algorithm bufferSize
  else if (type =? TSDB_DATA_TYPE_BINARY) || (type =? TSDB_DATA_TYPE_NCHAR) then tsDecompressString input compressedSize nelements outputSize algorithm bufferSize
  else if type =? TSDB_DATA_TYPE_TIMESTAMP then tsDecompressTimestamp input compressedSize nelements outputSize algorithm bufferSize
  else Undef.

(** ** Writing a block *)

(** [data\[i\]] with its checksum behind the [len] bytes. *)
Definition sealed (d : SData) : res SData :=
  let! r := taosCalcChecksumAppend crc32c heap 0 (d_data d) (d_len d + SIZEOF_TSCKSUM) in
  Ret (match r with Some l => mkData (d_len d) l | None => d end).

(** The fields and the columns of a block, the keys of its rows being [priData].
    What [inputSize] says of a column is all a codec may read. *)
Fixpoint write_cols (m : SMeterObj) (compression points bufferSize : Z) (priData : list Z) (cols : list SColumn) (offset : Z)
    (data cdata : list SData) : res (list SField * list SData * list SData) :=
  match cols, data, cdata with
  | [], _, _ => Ret ([], data, cdata)
  | c :: cols, d :: data, cd :: cdata =>
    let! '(len, d, cd) :=
      (if negb (compression =? 0) then
         let! input := rd (d_data d) 0 (points * bytes c) in
         let! out := pCompFunc (type c) input (points * bytes c) points (bytes c * pointsPerFileBlock m + EXTRA_BYTES) compression bufferSize in
         let! buf := wr (d_data cd) 0 out in
         let! cd := sealed (mkData (Z.of_nat (length out)) buf) in Ret (d_len cd, d, cd)
       else let! d := sealed d in Ret (d_len d, d, cd)) in
    let! col := rd (d_data d) 0 (points * bytes c) in
    let! s := getStatistics priData col (bytes c) points (type c) in
    let field := mkField (colId c) (bytes c) (s_nulls s) (i8 (type c)) (wraps 24 offset) (i32 len) (s_sum s) (s_max s) (s_min s) (s_wsum s) in
    let! '(fields, data, cdata) := write_cols m compression points bufferSize priData cols (i32 (offset + (len + SIZEOF_TSCKSUM))) data cdata in
    Ret (field :: fields, d :: data, cd :: cdata)
  | _, _, _ => Undef
  end.

(** The columns are written one after the other. *)
Fixpoint write_datas (n : nat) (l : list SData) (f : fd) (len : Z) : res (fd * Z) :=
  match n, l with
  | O, _ => Ret (f, len)
  | S n, d :: l => let! bs := rd (d_data d) 0 (d_len d + SIZEOF_TSCKSUM) in write_datas n l (write bs f) (len + Z.of_nat (length bs))
  | S _, [] => Undef
  end.

(** The blocks' [compression] is that of the configuration.  The result is the code, the
    block, the columns and the files. *)
Definition vnodeWriteBlockToFile (m : SMeterObj) (compression : Z) (b : SCompBlock) (data cdata : list SData) (points : Z) (fs : files)
    : res (Z * SCompBlock * list SData * list SData * files) :=
  let numOfColumns := Z.of_nat (length (schema m)) in
  let size := SIZEOF_SField * numOfColumns + SIZEOF_TSCKSUM in
  let to_last := negb (b_last b =? 0) && few_points points (pointsPerFileBlock m) in
  let f := lseek_end (if to_last then last_of fs else dfd fs) in
  let offset := offs f in
  let bufferSize := if compression =? TWO_STAGE_COMP then maxBytes m * points + EXTRA_BYTES else 0 in
  let! d0 := match data with d :: _ => Ret d | [] => Undef end in
  let! priData := rd (d_data d0) 0 (points * 8) in
  let! '(fields, data, cdata) := write_cols m compression points bufferSize priData (schema m) size data cdata in
  let! r := taosCalcChecksumAppend crc32c heap 0 (concat (map field_bytes fields) ++ replicate 4 0) size in
  let! fbytes := match r with Some l => Ret l | None => Undef end in
  let f := write fbytes f in
  let! '(f, len) := write_datas (length (schema m)) (if negb (compression =? 0) then cdata else data) f (Z.of_nat (length fbytes)) in
  let fs := grown len (if to_last then set_last f fs else set_dfd f fs) in
  let! d0 := match data with d :: _ => Ret d | [] => Undef end in
  let! w := match schema m with c :: _ => Ret (bytes c) | [] => Undef end in
  let! first := rd (d_data d0) 0 8 in
  let! last := rd (d_data d0) ((points - 1) * w) 8 in
  Ret (0, mkBlock (if to_last then -1 else 0) (wraps 63 offset) (i8 compression) (wraps 24 points) (sversion m) (i32 len)
            (u16 numOfColumns) (i64 (le_val first)) (i64 (le_val last)), data, cdata, fs).

(** ** Reading a block *)

(** The fields are read unless they are there. *)
Definition load_fields (f : fd) (b : SCompBlock) (fields : option (list Z)) : res (bool * fd * list Z) :=
  match fields with
  | Some mem => Ret (true, f, mem)
  | None =>
    let size := SIZEOF_SField * b_numOfCols b + SIZEOF_TSCKSUM in
    let '(got, f) := read size (lseek_set (b_offset b) f) in
    let mem := over got (replicate (Z.to_nat size) 0) in
    let! ok := taosCheckChecksumWhole crc32c heap mem size in Ret (ok, f, mem)
  end.

(** [fields] is NULL or the memory that was read; [data] may be NULL.  [temp] and
    [buffer] have [bufferSize] bytes at least where they are used. *)
Definition vnodeReadColumnToMem (f : fd) (b : SCompBlock) (fields : option (list Z)) (col : Z) (data : option (list Z)) (dataSize : Z)
    (temp : list Z) (bufferSize : Z) : res (Z * fd * option (list Z) * option (list Z) * list Z) :=
  let! '(ok, f, mem) := load_fields f b fields in
  if negb ok then Ret (-1, f, Some mem, data, temp)
  else
    match data with
    | None => Ret (0, f, Some mem, None, temp)
    | Some buf =>
      let! t := field_at mem col in
      let f := lseek_set (b_offset b + f_offset t) f in
      if f_len t <? 0 then Undef
      else
        let '(got, f) := read (f_len t) f in
        let '(sum, f) := read SIZEOF_TSCKSUM f in
        let chksum := le_val (over sum (replicate 4 0)) in
        if negb (b_algorithm b =? 0) then
          let! temp := wr temp 0 got in
          let! c := taosCalcChecksum crc32c heap 0 temp (f_len t) in
          if negb (chksum =? c) then Ret (-1, f, Some mem, Some buf, temp)
          else
            let! out := pDecompFunc (f_type t) temp (f_len t) (b_numOfPoints b) dataSize (b_algorithm b) bufferSize in
            let! buf := wr buf 0 out in
            Ret (if Z.of_nat (length got) <=? 0 then -1 else 0, f, Some mem, Some buf, temp)
        else
          let! buf := wr buf 0 got in
          let! c := taosCalcChecksum crc32c heap 0 buf (f_len t) in
          if negb (chksum =? c) then Ret (-1, f, Some mem, Some buf, temp)
          else Ret (if Z.of_nat (length got) <=? 0 then -1 else 0, f, Some mem, Some buf, temp)
    end.

Definition block_buffer (m : SMeterObj) (b : SCompBlock) : Z :=
  if b_algorithm b =? TWO_STAGE_COMP then maxBytes m * b_numOfPoints b + EXTRA_BYTES else 0.
Definition block_temp (m : SMeterObj) (b : SCompBlock) : list Z :=
  replicate (Z.to_nat (bytesPerPoint m * (b_numOfPoints b + 1))) 0.

(** All columns of the last block of a table, into the buffers of a commit.  Memory
    of [malloc] is taken to be zero. *)
Fixpoint read_last_cols (n : nat) (m : SMeterObj) (b : SCompBlock) (f : fd) (fields : option (list Z)) (col : Z) (sdata : list SData)
    (temp : list Z) : res (Z * fd * list SData) :=
  match n with
  | O => Ret (0, f, sdata)
  | S n =>
    let! d := match sdata !! Z.to_nat col with Some d => Ret d | None => Undef end in
    let! c := match schema m !! Z.to_nat col with Some c => Ret c | None => Undef end in
    let! '(code, f, fields, buf, temp) := vnodeReadColumnToMem f b fields col (Some (d_data d))
        (pointsPerFileBlock m * bytes c + EXTRA_BYTES) temp (block_buffer m b) in
    let! buf := match buf with Some l => Ret l | None => Undef end in
    if code <? 0 then Ret (code, f, <[Z.to_nat col := mkData (d_len d) buf]> sdata)
    else read_last_cols n m b f fields (col + 1) (<[Z.to_nat col := mkData (bytes c * b_numOfPoints b) buf]> sdata) temp
  end.
Definition vnodeReadLastBlockToMem (m : SMeterObj) (b : SCompBlock) (sdata : list SData) (f : fd) : res (Z * fd * list SData) :=
  read_last_cols (Z.to_nat (b_numOfCols b)) m b f None 0 sdata (block_temp m b).
End Blocks.
