(* ===== verification/BlockWrite.v ===== *)
(** * Writing a block

    The codecs of a column by its type, and the bytes that a block has in its file. *)
From S2P Require Import Prelude CompBase CompInt CompBool CompTime CompXor Tscompression Crc32c ColTypes FileBlock.

(** * What the codecs of a block give back

    The functions of [pCompFunc] and [pDecompFunc] at one type are inverse to each
    other, whatever lies behind the compressed column. *)

#[local] Existing Instance LP64.

(** Strings have any width, other types the one of the type. *)
Definition is_string (type : Z) : bool := (type =? TSDB_DATA_TYPE_BINARY) || (type =? TSDB_DATA_TYPE_NCHAR).
Record column_ok (c : SColumn) : Prop := {
  co_type : 1 <= type c <= 10;
  co_bytes : 0 < bytes c;
  co_width : is_string (type c) = false -> bytes c = nSize (type c);
  co_nchar : type c = TSDB_DATA_TYPE_NCHAR -> 4 <= bytes c }.

(** On LP64 the codec of floats loses bits, so they survive only uncompressed. *)
Definition lossless (compression : Z) (c : SColumn) : Prop := compression = 0 \/ type c <> TSDB_DATA_TYPE_FLOAT.

Lemma entry_bytes `{LZ4Laws} width compress decompress `{!ColumnCodec width compress decompress} n input out outputSize algorithm bufferSize :
  bytes_ok input -> 0 <= n -> Z.of_nat (length input) = n * width -> (forall o, compress input n = Ret o -> o <> []) ->
  compress_with (compress input n) outputSize algorithm bufferSize = Ret out -> bytes_ok out /\ out <> [].
Proof.
  intros Hin Hn Hlen Hne Hc. unfold compress_with in Hc. destruct (algorithm =? ONE_STAGE_COMP).
  - apply rbind_Ret_inv in Hc as (o & Ho & Hc). apply fits_inv in Hc as [-> _].
    destruct (codec_law n input o [] Hin Hn Hlen Ho) as (Hok & _). split; [done|by apply Hne].
  - destruct (algorithm =? TWO_STAGE_COMP); [|done]. apply rbind_Ret_inv in Hc as (o & Ho & Hc).
    apply rbind_Ret_inv in Hc as (b & Hb & Hc). apply fits_inv in Hb as [-> _].
    destruct (codec_law n input o [] Hin Hn Hlen Ho) as (Hok & _).
    unfold tsCompressStringImp in Hc. rewrite rd_full in Hc. cbn [rbind] in Hc.
    destruct (_ || _); apply fits_inv in Hc as [-> _]; (split; [|done]); apply bytes_ok_cons; try done. by apply lz4_bytes.
Qed.

Lemma string_bytes `{LZ4Laws} input out outputSize : bytes_ok input ->
  tsCompressStringImp input (Z.of_nat (length input)) outputSize = Ret out -> bytes_ok out /\ out <> [].
Proof.
  intros Hok Hc. unfold tsCompressStringImp in Hc. rewrite rd_full in Hc. cbn [rbind] in Hc.
  destruct (_ || _); apply fits_inv in Hc as [-> _]; (split; [|done]); apply bytes_ok_cons; try done. by apply lz4_bytes.
Qed.

(** The buffer is for the second stage. *)
Lemma decompress_buffer `{LZ4} imp input compressedSize outputSize algorithm B B' : algorithm <> TWO_STAGE_COMP ->
  decompress_with imp input compressedSize outputSize algorithm B = decompress_with imp input compressedSize outputSize algorithm B'.
Proof. intros Ha. unfold decompress_with. by rewrite (proj2 (Z.eqb_neq _ _) Ha). Qed.

(** No codec makes nothing of something. *)
Lemma int_nonempty input n type o : tsCompressINTImp input n type = Ret o -> o <> [].
Proof.
  unfold tsCompressINTImp. intros H. apply rbind_Ret_inv in H as (wl & _ & H). apply rbind_Ret_inv in H as (r & _ & H).
  destruct r; [by injection H as <-|]. apply rbind_Ret_inv in H as (raw & _ & H). by injection H as <-.
Qed.
Lemma time_nonempty input n o : 0 < n -> tsCompressTimestampImp input n = Ret o -> o <> [].
Proof.
  unfold tsCompressTimestampImp. intros Hn H. destruct (negb _); [done|]. rewrite (proj2 (Z.eqb_neq _ _)) in H by lia.
  apply rbind_Ret_inv in H as (pv & _ & H). apply rbind_Ret_inv in H as (r & _ & H).
  destruct (match r with Some _ => _ | None => _ end); [by injection H as <-|]. apply rbind_Ret_inv in H as (raw & _ & H). by injection H as <-.
Qed.
Lemma double_nonempty input n o : tsCompressDoubleImp input n = Ret o -> o <> [].
Proof.
  unfold tsCompressDoubleImp, xor_compress. intros H. apply rbind_Ret_inv in H as (r & _ & H). apply rbind_Ret_inv in H as (d & _ & H).
  destruct d; [by injection H as <-|]. apply rbind_Ret_inv in H as (raw & _ & H). by injection H as <-.
Qed.
Lemma bool_nonempty input o : (0 < length input)%nat -> tsCompressBoolImp input (Z.of_nat (length input)) = Ret o -> o <> [].
Proof.
  intros Hn H. pose proof (bool_both input []) as Hb. destruct (forallb bool_ok input); [|congruence].
  destruct Hb as (o' & Ho & Hl & _). rewrite H in Ho. injection Ho as <-. intros ->. cbn [length] in Hl.
  pose proof (Z.div_le_mono 4 (Z.of_nat (length input) + 3) 4 ltac:(lia) ltac:(lia)) as Hd. change (4 / 4) with 1 in Hd. lia.
Qed.

Section Columns.
Context `{LZ4Laws}.

Lemma column_law c n column out post outputSize outputSize' algorithm bufferSize bufferSize' :
  column_ok c -> algorithm <> 0 -> lossless algorithm c -> bytes_ok column -> 0 < n -> Z.of_nat (length column) = n * bytes c ->
  pCompFunc (type c) column (n * bytes c) n outputSize algorithm bufferSize = Ret out ->
  n * bytes c <= outputSize' -> (algorithm = TWO_STAGE_COMP -> n * bytes c + 1 <= bufferSize') ->
  bytes_ok out /\ out <> [] /\ Z.of_nat (length out) <= n * bytes c + 2 /\
  pDecompFunc (type c) (out ++ post) (Z.of_nat (length out)) n outputSize' algorithm bufferSize' = Ret column.
Proof.
  intros [Ht Hb Hw _] Ha [?|Hf] Hin Hn Hlen Hc Ho' Hb'; [done|].
  assert (Hcase : type c = 1 \/ type c = 2 \/ type c = 3 \/ type c = 4 \/ type c = 5 \/ type c = 7 \/ type c = 8 \/ type c = 9 \/ type c = 10)
    by (unfold TSDB_DATA_TYPE_FLOAT in Hf; lia).
  assert (Hgen : forall compress decompress (CC : ColumnCodec (bytes c) compress decompress), (forall o, compress column n = Ret o -> o <> []) ->
    compress_with (compress column n) outputSize algorithm bufferSize = Ret out ->
    bytes_ok out /\ out <> [] /\ Z.of_nat (length out) <= n * bytes c + 2 /\
    decompress_with (fun b => decompress b n) (out ++ post) (Z.of_nat (length out)) outputSize' algorithm bufferSize' = Ret column).
  { intros compress decompress CC Hne Hcw.
    destruct (entry_bytes (bytes c) compress decompress n column out _ _ _ Hin ltac:(lia) Hlen Hne Hcw) as [? ?].
    assert (HB : exists B, n * bytes c + 1 <= B /\ decompress_with (fun b => decompress b n) (out ++ post) (Z.of_nat (length out)) outputSize' algorithm bufferSize' =
      decompress_with (fun b => decompress b n) (out ++ post) (Z.of_nat (length out)) outputSize' algorithm B).
    { destruct (decide (algorithm = TWO_STAGE_COMP)) as [E|E]; [exists bufferSize'; by split; [apply Hb'|]|].
      exists (n * bytes c + 1). split; [lia|by apply decompress_buffer]. }
    destruct HB as (B & HB & ->).
    destruct (entry_law (bytes c) compress decompress n column out post _ outputSize' _ _ B Hin ltac:(lia) Hlen Ho' HB Hcw). done. }
  unfold pCompFunc, pDecompFunc in *.
  destruct Hcase as [E|[E|[E|[E|[E|[E|[E|[E|E]]]]]]]]; rewrite E in Hc, Hw |- *.
  - assert (E1 : bytes c = 1) by (by apply Hw). apply (Hgen tsCompressBoolImp tsDecompressBoolImp); [rewrite E1; apply bool_codec| |exact Hc].
    intros o Ho. assert (En : n = Z.of_nat (length column)) by lia. rewrite En in Ho. apply (bool_nonempty column); [lia|done].
  - assert (E1 : bytes c = 1) by (by apply Hw).
    apply (Hgen _ _ ltac:(rewrite E1; exact (int_codec TSDB_DATA_TYPE_TINYINT 1 eq_refl))); [apply int_nonempty|exact Hc].
  - assert (E1 : bytes c = 2) by (by apply Hw).
    apply (Hgen _ _ ltac:(rewrite E1; exact (int_codec TSDB_DATA_TYPE_SMALLINT 2 eq_refl))); [apply int_nonempty|exact Hc].
  - assert (E1 : bytes c = 4) by (by apply Hw).
    apply (Hgen _ _ ltac:(rewrite E1; exact (int_codec TSDB_DATA_TYPE_INT 4 eq_refl))); [apply int_nonempty|exact Hc].
  - assert (E1 : bytes c = 8) by (by apply Hw).
    apply (Hgen _ _ ltac:(rewrite E1; exact (int_codec TSDB_DATA_TYPE_BIGINT 8 eq_refl))); [apply int_nonempty|exact Hc].
  - assert (E1 : bytes c = 8) by (by apply Hw). apply (Hgen tsCompressDoubleImp (@tsDecompressDoubleImp LP64)); [rewrite E1; apply double_codec|apply double_nonempty|exact Hc].
  - change (tsCompressStringImp column (n * bytes c) outputSize = Ret out) in Hc. rewrite <- Hlen in Hc.
    destruct (string_bytes _ _ _ Hin Hc). destruct (string_law column out post _ outputSize' Hin ltac:(lia) Hc) as [Hl Hd]. split; [done|]. split; [done|]. split; [lia|exact Hd].
  - assert (E1 : bytes c = 8) by (by apply Hw). apply (Hgen tsCompressTimestampImp tsDecompressTimestampImp); [rewrite E1; apply time_codec|by intros o Ho; apply (time_nonempty column n)|exact Hc].
  - change (tsCompressStringImp column (n * bytes c) outputSize = Ret out) in Hc. rewrite <- Hlen in Hc.
    destruct (string_bytes _ _ _ Hin Hc). destruct (string_law column out post _ outputSize' Hin ltac:(lia) Hc) as [Hl Hd]. split; [done|]. split; [done|]. split; [lia|exact Hd].
Qed.
End Columns.

(** ** Every column that can be stored is compressed *)

(** A bool is 0, 1 or null; of BIGINT the values have to fit 59 bits. *)
Definition storable (compression : Z) (c : SColumn) (column : list Z) : Prop :=
  compression = 0 \/
  (type c <> TSDB_DATA_TYPE_FLOAT /\ (type c = TSDB_DATA_TYPE_BOOL -> forallb bool_ok column = true) /\
   (type c = TSDB_DATA_TYPE_BIGINT -> exists vals, column = pack_elems 8 vals /\ Forall (in_s 59) vals)).

Section Compress.
Context `{LZ4Laws}.

Lemma compress_total width compress decompress `{!ColumnCodec width compress decompress} n input outputSize algorithm bufferSize :
  bytes_ok input -> 0 <= n -> Z.of_nat (length input) = n * width -> (exists o, compress input n = Ret o) -> 1 <= algorithm <= 2 ->
  n * width + 2 <= outputSize -> (algorithm = TWO_STAGE_COMP -> n * width + 1 <= bufferSize) ->
  exists out, compress_with (compress input n) outputSize algorithm bufferSize = Ret out.
Proof.
  intros Hin Hn Hlen [o Ho] Ha Hout Hbuf. destruct (codec_law n input o [] Hin Hn Hlen Ho) as (_ & Hl & _).
  unfold compress_with. rewrite Ho. cbn [rbind]. destruct (Z.eqb_spec algorithm ONE_STAGE_COMP) as [E|E].
  - eexists. apply fits_Ret. lia.
  - unfold ONE_STAGE_COMP, TWO_STAGE_COMP in *. rewrite (proj2 (Z.eqb_eq algorithm 2)) by lia. specialize (Hbuf ltac:(lia)).
    rewrite fits_Ret by lia. cbn [rbind]. apply string_total. lia.
Qed.

Lemma column_compresses c n column outputSize algorithm bufferSize :
  column_ok c -> 1 <= algorithm <= 2 -> storable algorithm c column -> bytes_ok column -> 0 < n -> Z.of_nat (length column) = n * bytes c ->
  n * bytes c + 2 <= outputSize -> (algorithm = TWO_STAGE_COMP -> n * bytes c + 1 <= bufferSize) ->
  exists out, pCompFunc (type c) column (n * bytes c) n outputSize algorithm bufferSize = Ret out.
Proof.
  intros [Ht Hb Hw _] Ha [?|(Hf & Hbool & Hbig)] Hin Hn Hlen Ho Hbuf; [lia|].
  assert (Hcase : type c = 1 \/ type c = 2 \/ type c = 3 \/ type c = 4 \/ type c = 5 \/ type c = 7 \/ type c = 8 \/ type c = 9 \/ type c = 10)
    by (unfold TSDB_DATA_TYPE_FLOAT in Hf; lia).
  assert (Hgen : forall compress decompress (CC : ColumnCodec (bytes c) compress decompress), (exists o, compress column n = Ret o) ->
    exists out, compress_with (compress column n) outputSize algorithm bufferSize = Ret out).
  { intros compress decompress CC Hex. by apply (compress_total (bytes c) compress decompress n column outputSize algorithm bufferSize Hin ltac:(lia) Hlen Hex Ha). }
  assert (Hint : forall t wl, word_length_of t = Ret wl -> bytes c = wl -> t <> TSDB_DATA_TYPE_BIGINT -> exists o, tsCompressINTImp column n t = Ret o).
  { intros t wl Hwl E Hnb. destruct (word_length_of_inv _ _ Hwl) as (w & -> & Hw0 & _).
    destruct (typed_view w (Z.to_nat n) column) as (vals & Hnv & Hvals & ->); [lia|done|nia|].
    destruct (int_all t (Z.of_nat w) n vals Hwl ltac:(lia) Hvals ltac:(done)) as [out Hout]. rewrite Nat2Z.id in Hout. by exists out. }
  unfold pCompFunc. destruct Hcase as [E|[E|[E|[E|[E|[E|[E|[E|E]]]]]]]]; rewrite E in Hw, Hbool, Hbig |- *.
  - assert (E1 : bytes c = 1) by (by apply Hw). apply (Hgen tsCompressBoolImp tsDecompressBoolImp); [rewrite E1; apply bool_codec|].
    pose proof (bool_both column []) as Hbb. rewrite (Hbool eq_refl) in Hbb. destruct Hbb as (o & Ho' & _).
    replace n with (Z.of_nat (length column)) by lia. by exists o.
  - assert (E1 : bytes c = 1) by (by apply Hw). apply (Hgen _ _ ltac:(rewrite E1; exact (int_codec TSDB_DATA_TYPE_TINYINT 1 eq_refl))). by apply (Hint _ 1).
  - assert (E1 : bytes c = 2) by (by apply Hw). apply (Hgen _ _ ltac:(rewrite E1; exact (int_codec TSDB_DATA_TYPE_SMALLINT 2 eq_refl))). by apply (Hint _ 2).
  - assert (E1 : bytes c = 4) by (by apply Hw). apply (Hgen _ _ ltac:(rewrite E1; exact (int_codec TSDB_DATA_TYPE_INT 4 eq_refl))). by apply (Hint _ 4).
  - assert (E1 : bytes c = 8) by (by apply Hw). apply (Hgen _ _ ltac:(rewrite E1; exact (int_codec TSDB_DATA_TYPE_BIGINT 8 eq_refl))).
    destruct (Hbig eq_refl) as (vals & -> & Hv). rewrite length_pack_elems in Hlen.
    apply (int_all TSDB_DATA_TYPE_BIGINT 8 n vals); [done|lia| |done].
    eapply Forall_impl; [exact Hv|]. intros v Hv0. unfold in_s in *. lia.
  - assert (E1 : bytes c = 8) by (by apply Hw). apply (Hgen tsCompressDoubleImp (@tsDecompressDoubleImp LP64)); [rewrite E1; apply double_codec|].
    destruct (double_both n column [] Hin ltac:(lia) ltac:(lia)) as (o & Ho' & _). by exists o.
  - change (exists out, tsCompressStringImp column (n * bytes c) outputSize = Ret out). rewrite <- Hlen. apply string_total. lia.
  - assert (E1 : bytes c = 8) by (by apply Hw). apply (Hgen tsCompressTimestampImp tsDecompressTimestampImp); [rewrite E1; apply time_codec|].
    destruct (time_both n column [] Hin ltac:(lia) ltac:(lia)) as (o & Ho' & _). by exists o.
  - change (exists out, tsCompressStringImp column (n * bytes c) outputSize = Ret out). rewrite <- Hlen. apply string_total. lia.
Qed.
End Compress.

(** * A block that is written

    [image] is what a block looks like in the file.  [vnodeWriteBlockToFile] appends
    the image of a block whose columns decode to those in the buffers. *)

#[local] Existing Instance LP64.

(** ** The fields *)
Lemma length_field_bytes f : length (field_bytes f) = 64%nat.
Proof. unfold field_bytes. by rewrite !length_app, !length_le_bytes, length_replicate. Qed.

Lemma field_bytes_ok f : bytes_ok (field_bytes f).
Proof. unfold field_bytes. rewrite !bytes_ok_app. repeat split; try apply le_bytes_ok. by apply Forall_replicate. Qed.

Lemma le_val_wraps n x : (0 < n)%nat -> wraps (8 * Z.of_nat n) (le_val (le_bytes n x)) = wraps (8 * Z.of_nat n) x.
Proof. intros Hn. rewrite le_val_bytes. change (_ mod _) with (wrapu (8 * Z.of_nat n) x). apply wraps_wrapu. lia. Qed.

(** What the code looks at in a field is what was written. *)
Lemma field_of_bytes f : in_s 16 (f_colId f) -> in_s 8 (f_type f) -> in_s 24 (f_offset f) -> in_s 32 (f_len f) ->
  f_colId (field_of (field_bytes f)) = f_colId f /\ f_type (field_of (field_bytes f)) = f_type f /\
  f_offset (field_of (field_bytes f)) = f_offset f /\ f_len (field_of (field_bytes f)) = f_len f.
Proof.
  intros H1 H2 H3 H4. split; [|split; [|split]].
  - transitivity (wraps 16 (le_val (le_bytes 2 (f_colId f)))); [reflexivity|]. rewrite (le_val_wraps 2) by lia. by apply wraps_id.
  - transitivity (wraps 8 (le_val (le_bytes 1 (f_type f)))); [reflexivity|]. rewrite (le_val_wraps 1) by lia. by apply wraps_id.
  - transitivity (wraps 24 (le_val (le_bytes 3 (f_offset f)))); [reflexivity|]. rewrite (le_val_wraps 3) by lia. by apply wraps_id.
  - transitivity (wraps 32 (le_val (le_bytes 4 (f_len f)))); [reflexivity|]. rewrite (le_val_wraps 4) by lia. by apply wraps_id.
Qed.

Definition fields_bytes (l : list SField) : list Z := concat (map field_bytes l).
Lemma length_fields_bytes l : length (fields_bytes l) = (64 * length l)%nat.
Proof. unfold fields_bytes. induction l as [|f l IH]; [done|]. cbn [map concat length]. rewrite length_app, length_field_bytes, IH. lia. Qed.
Lemma fields_bytes_ok l : bytes_ok (fields_bytes l).
Proof. unfold fields_bytes. induction l as [|f l IH]; [constructor|]. apply bytes_ok_app. split; [apply field_bytes_ok|done]. Qed.

Lemma field_at_bytes l post j f : l !! j = Some f -> field_at (fields_bytes l ++ post) (Z.of_nat j) = Ret (field_of (field_bytes f)).
Proof.
  intros Hj. unfold field_at, SIZEOF_SField. rewrite <- (take_drop_middle _ _ _ Hj). unfold fields_bytes.
  rewrite map_app, map_cons, concat_app. cbn [concat]. rewrite <- !app_assoc.
  rewrite (rd_app_mid (fields_bytes (take j l))); [done| |by rewrite length_field_bytes].
  rewrite length_fields_bytes, length_take. apply lookup_lt_Some in Hj. lia.
Qed.

(** ** The image of a block

    A column is stored as its field and its payload, which has a checksum behind it. *)
Abbreviation stored := (SField * list Z)%type.

Section Image.
Context {crc32c : Z -> Z -> list Z -> Z -> res Z} {heap : Z} `{!RunningSum crc32c heap}.

Definition seal (p : list Z) : list Z := p ++ le_bytes 4 (run_sum 0 p).
Definition payloads (l : list stored) : list Z := concat (map (fun c => seal c.2) l).
Definition image (l : list stored) : list Z := seal (fields_bytes (map fst l)) ++ payloads l.

Lemma length_seal p : length (seal p) = (length p + 4)%nat.
Proof. unfold seal. by rewrite length_app, length_le_bytes. Qed.
Lemma seal_ok p : bytes_ok p -> bytes_ok (seal p).
Proof. intros. apply bytes_ok_app. split; [done|apply le_bytes_ok]. Qed.
Lemma payloads_ok l : Forall (fun c => bytes_ok c.2) l -> bytes_ok (payloads l).
Proof. unfold payloads. induction 1 as [|c l Hc _ IH]; [constructor|]. cbn. apply bytes_ok_app. split; [by apply seal_ok|done]. Qed.
Lemma image_ok l : Forall (fun c => bytes_ok c.2) l -> bytes_ok (image l).
Proof. intros. apply bytes_ok_app. split; [apply seal_ok, fields_bytes_ok|by apply payloads_ok]. Qed.

(** A buffer of [n] bytes and four more is sealed. *)
Lemma sealed_spec d p : bytes_ok (d_data d) -> take (Z.to_nat (d_len d)) (d_data d) = p -> 0 <= d_len d ->
  d_len d + 4 <= Z.of_nat (length (d_data d)) ->
  exists post, sealed crc32c heap d = Ret (mkData (d_len d) (seal p ++ post)) /\ length (seal p ++ post) = length (d_data d) /\ bytes_ok post.
Proof.
  intros Hok Hp Hl Hroom. unfold sealed, SIZEOF_TSCKSUM. rewrite (run_append (d_data d) (d_len d)) by done. cbn [rbind]. rewrite Hp.
  exists (drop (Z.to_nat (d_len d + 4)) (d_data d)). rewrite app_assoc. split; [done|]. split; [|by apply Forall_drop].
  rewrite length_app, length_seal, length_drop. assert (length p = Z.to_nat (d_len d)) by (rewrite <- Hp, length_take; lia). lia.
Qed.
End Image.

(** ** Writing the columns *)
Section Write.
Context `{LZ4Laws} `{DoubleOps} {crc32c : Z -> Z -> list Z -> Z -> res Z} {heap : Z} `{!RunningSum crc32c heap}.

(** Decoding [payload] gives [column], whatever lies behind it. *)
Definition recovers (compression points : Z) (c : SColumn) (column payload : list Z) : Prop :=
  if decide (compression = 0) then payload = column
  else forall post outputSize bufferSize, points * bytes c <= outputSize ->
    (compression = TWO_STAGE_COMP -> points * bytes c + 1 <= bufferSize) ->
    pDecompFunc (type c) (payload ++ post) (Z.of_nat (length payload)) points outputSize compression bufferSize = Ret column.

Record col_stored (compression points : Z) (c : SColumn) (column : list Z) (offset : Z) (s : stored) : Prop := {
  cs_id : f_colId s.1 = colId c;
  cs_type : f_type s.1 = type c;
  cs_offset : f_offset s.1 = offset;
  cs_len : f_len s.1 = Z.of_nat (length s.2);
  cs_ok : bytes_ok s.2;
  cs_some : s.2 <> [];
  cs_size : Z.of_nat (length s.2) <= points * bytes c + 2;
  cs_column : Z.of_nat (length column) = points * bytes c;
  cs_range : 0 <= offset /\ offset + Z.of_nat (length s.2) < 2 ^ 23 /\ in_s 16 (colId c) /\ 1 <= type c <= 10;
  cs_recovers : recovers compression points c column s.2 }.

Fixpoint cols_stored (compression points : Z) (cols : list SColumn) (columns : list (list Z)) (offset : Z) (l : list stored) : Prop :=
  match cols, columns, l with
  | [], [], [] => True
  | c :: cols, column :: columns, s :: l => col_stored compression points c column offset s /\
      cols_stored compression points cols columns (offset + Z.of_nat (length s.2) + 4) l
  | _, _, _ => False
  end.

(** A column that can be written: its values are at the head of its buffer, and a
    codec can make something of them. *)
Record ready (ppfb compression points bufferSize : Z) (c : SColumn) (column : list Z) (d cd : SData) : Prop := {
  rd_column : column_ok c;
  rd_id : in_s 16 (colId c);
  rd_lossless : lossless compression c;
  rd_length : Z.of_nat (length column) = points * bytes c;
  rd_ok : bytes_ok (d_data d);
  rd_head : take (length column) (d_data d) = column;
  rd_cok : bytes_ok (d_data cd);
  rd_way : if decide (compression = 0) then d_len d = points * bytes c /\ points * bytes c + 4 <= Z.of_nat (length (d_data d))
    else bytes c * ppfb + EXTRA_BYTES + 4 <= Z.of_nat (length (d_data cd)) /\
      exists out, pCompFunc (type c) column (points * bytes c) points (bytes c * ppfb + EXTRA_BYTES) compression bufferSize = Ret out }.

Fixpoint all_ready (ppfb compression points bufferSize : Z) (cols : list SColumn) (columns : list (list Z)) (data cdata : list SData) : Prop :=
  match cols, columns, data, cdata with
  | [], [], [], [] => True
  | c :: cols, column :: columns, d :: data, cd :: cdata => ready ppfb compression points bufferSize c column d cd /\
      all_ready ppfb compression points bufferSize cols columns data cdata
  | _, _, _, _ => False
  end.

(** A buffer after the writing: it has the same size and the same values. *)
Definition kept (d d' : SData) : Prop := length (d_data d') = length (d_data d) /\ bytes_ok (d_data d').
Definition sealed_in (d : SData) (s : stored) : Prop := d_len d = Z.of_nat (length s.2) /\ exists post, d_data d = seal s.2 ++ post.

Definition row_width (cols : list SColumn) : Z := foldr Z.add 0 (map bytes cols).

Lemma rd_take_head l column n : take (length column) l = column -> n = Z.of_nat (length column) -> rd l 0 n = Ret column.
Proof.
  intros Hl ->. rewrite <- (take_drop (length column) l), Hl. by apply (rd_app_mid []).
Qed.

Lemma write_col m compression points bufferSize c column d cd : 0 < points <= pointsPerFileBlock m ->
  ready (pointsPerFileBlock m) compression points bufferSize c column d cd ->
  exists payload d' cd',
    (if negb (compression =? 0) then
       let! input := rd (d_data d) 0 (points * bytes c) in
       let! out := pCompFunc (type c) input (points * bytes c) points (bytes c * pointsPerFileBlock m + EXTRA_BYTES) compression bufferSize in
       let! buf := wr (d_data cd) 0 out in
       let! cd := sealed crc32c heap (mkData (Z.of_nat (length out)) buf) in Ret (d_len cd, d, cd)
     else let! d := sealed crc32c heap d in Ret (d_len d, d, cd)) = Ret (Z.of_nat (length payload), d', cd') /\
    bytes_ok payload /\ payload <> [] /\ Z.of_nat (length payload) <= points * bytes c + 2 /\ recovers compression points c column payload /\
    sealed_in (if negb (compression =? 0) then cd' else d') (mkField 0 0 0 0 0 0 0 0 0 0, payload) /\
    kept d d' /\ kept cd cd' /\ take (length column) (d_data d') = column.
Proof.
  intros Hp [Hc Hid Hll Hlen Hok Hhead Hcok Hway]. pose proof (co_bytes _ Hc) as Hb.
  assert (Hbok : bytes_ok column) by (rewrite <- Hhead; by apply Forall_take).
  assert (Hcn : column <> []) by (intros ->; cbn in Hlen; nia). unfold recovers in *.
  destruct (decide (compression = 0)) as [->|Hz]; cbn [Z.eqb negb].
  - destruct Hway as [Hdl Hroom]. destruct (sealed_spec (heap := heap) d column) as (post & -> & Hl & Hpo); [done| |nia|lia|].
    { replace (Z.to_nat (d_len d)) with (length column) by lia. done. }
    cbn [rbind d_len]. exists column, (mkData (d_len d) (seal column ++ post)), cd. rewrite Hdl, Hlen. split; [done|]. split; [done|]. split; [done|].
    split; [lia|]. split; [done|]. split; [split; [cbn; lia|by exists post]|]. split; [|split; [done|]].
    + split; [done|]. apply bytes_ok_app. split; [by apply seal_ok|done].
    + cbn. unfold seal. rewrite <- app_assoc. apply take_app_length.
  - rewrite (proj2 (Z.eqb_neq _ _) Hz). cbn [negb]. destruct Hway as [Hroom [out Hout]].
    rewrite (rd_take_head _ column) by done. cbn [rbind]. rewrite Hout. cbn [rbind].
    assert (Hlaw : forall post O B, points * bytes c <= O -> (compression = TWO_STAGE_COMP -> points * bytes c + 1 <= B) -> bytes_ok out /\ out <> [] /\
      Z.of_nat (length out) <= points * bytes c + 2 /\ pDecompFunc (type c) (out ++ post) (Z.of_nat (length out)) points O compression B = Ret column)
      by (intros; apply (column_law c points column out post (bytes c * pointsPerFileBlock m + EXTRA_BYTES) _ compression bufferSize); done || lia).
    destruct (Hlaw [] (points * bytes c) (points * bytes c + 1)) as (Hobytes & Hne & Hol & _); [lia|lia|].
    assert (Hcap : points * bytes c <= bytes c * pointsPerFileBlock m) by nia. unfold EXTRA_BYTES in Hroom.
    destruct (wr_ok (d_data cd) 0 out) as (buf & Hw & Hbl); [lia|lia|]. rewrite Hw. cbn [rbind].
    assert (Hbuf : buf = out ++ drop (length out) (d_data cd)).
    { unfold wr in Hw. rewrite bool_decide_true in Hw by lia. injection Hw as <-. done. }
    assert (Hbufok : bytes_ok buf) by (rewrite Hbuf; apply bytes_ok_app; split; [done|by apply Forall_drop]).
    destruct (sealed_spec (heap := heap) (mkData (Z.of_nat (length out)) buf) out) as (post & -> & Hl & Hpo); [done| |cbn; lia|cbn; lia|].
    { cbn. rewrite Nat2Z.id, Hbuf. apply take_app_length. }
    cbn [rbind d_len]. exists out, d, (mkData (Z.of_nat (length out)) (seal out ++ post)). split; [done|]. split; [done|]. split; [done|]. split; [done|].
    split; [by intros p O B ? ?; apply (Hlaw p O B)|]. split; [split; [done|by exists post]|]. split; [done|]. split; [|done].
    split; [cbn [d_data] in *; lia|]. apply bytes_ok_app. split; [by apply seal_ok|done].
Qed.

Lemma ready_stats ppfb compression points bufferSize c column d cd pri col : ready ppfb compression points bufferSize c column d cd ->
  0 <= points -> points * 8 <= Z.of_nat (length pri) -> points * bytes c <= Z.of_nat (length col) ->
  exists s, getStatistics pri col (bytes c) points (type c) = Ret s.
Proof.
  intros [[Ht Hb Hw Hn] _ _ _ _ _ _ _] Hp Hk Hc. apply statistics_total; try done.
  - intros E1 E2. apply Hw. unfold is_string. by rewrite (proj2 (Z.eqb_neq _ _) E1), (proj2 (Z.eqb_neq _ _) E2).
  - lia.
Qed.

Lemma write_cols_spec m compression points bufferSize pri : 0 < points <= pointsPerFileBlock m -> points * 8 <= Z.of_nat (length pri) ->
  forall cols columns data cdata offset, all_ready (pointsPerFileBlock m) compression points bufferSize cols columns data cdata ->
  0 <= offset -> offset + points * row_width cols + 6 * Z.of_nat (length cols) < 2 ^ 23 ->
  exists l data' cdata', write_cols crc32c heap m compression points bufferSize pri cols offset data cdata = Ret (map fst l, data', cdata') /\
    cols_stored compression points cols columns offset l /\
    Forall2 sealed_in (if negb (compression =? 0) then cdata' else data') l /\ Forall2 kept data data' /\ Forall2 kept cdata cdata' /\
    Forall2 (fun d column => take (length column) (d_data d) = column) data' columns.
Proof.
  intros Hp Hpri. induction cols as [|c cols IH]; intros columns data cdata offset Hr Hoff Hsum.
  - destruct columns, data, cdata; try done. exists [], [], []. cbn. split; [done|]. split; [done|]. by destruct (compression =? 0).
  - destruct columns as [|column columns], data as [|d data], cdata as [|cd cdata]; try done. destruct Hr as [Hr Hrs].
    pose proof (co_bytes _ (rd_column _ _ _ _ _ _ _ _ Hr)) as Hb. pose proof (co_type _ (rd_column _ _ _ _ _ _ _ _ Hr)) as Hty.
    pose proof (rd_length _ _ _ _ _ _ _ _ Hr) as Hlen. cbn [row_width map foldr length] in Hsum. change (foldr Z.add 0 (map bytes cols)) with (row_width cols) in Hsum.
    assert (Hrw : 0 <= row_width cols).
    { clear -Hrs. revert columns data cdata Hrs. induction cols as [|c cols IH]; intros [|? columns] [|? data] [|? cdata] Hrs; cbn in *; try done.
      destruct Hrs as [Hr Hrs]. pose proof (co_bytes _ (rd_column _ _ _ _ _ _ _ _ Hr)). specialize (IH _ _ _ Hrs). unfold row_width in *. cbn. lia. }
    assert (Hpw : 0 <= points * row_width cols) by nia. assert (Hpb : 0 <= points * bytes c) by nia.
    destruct (write_col m compression points bufferSize c column d cd Hp Hr) as
      (payload & d' & cd' & Hcol & Hpok & Hpne & Hpl & Hrec & Hseal & Hkd & Hkc & Hhead).
    cbn [write_cols]. rewrite Hcol. cbn [rbind].
    assert (Hd'len : points * bytes c <= Z.of_nat (length (d_data d'))).
    { pose proof (f_equal length Hhead) as E. rewrite length_take in E. lia. }
    assert (Hrd : rd (d_data d') 0 (points * bytes c) = Ret column) by (by apply rd_take_head).
    rewrite Hrd. cbn [rbind]. destruct (ready_stats _ _ _ _ _ _ _ _ pri column Hr) as [st ->]; [lia|lia|lia|]. cbn [rbind].
    set (f := mkField _ _ _ _ _ _ _ _ _ _).
    assert (Eoff : i32 (offset + (Z.of_nat (length payload) + SIZEOF_TSCKSUM)) = offset + Z.of_nat (length payload) + 4).
    { unfold SIZEOF_TSCKSUM. rewrite wraps_id; [lia|lia|]. unfold in_s. lia. }
    rewrite Eoff. destruct (IH columns data cdata (offset + Z.of_nat (length payload) + 4) Hrs) as (l & data' & cdata' & -> & Hst & Hsl & Hk1 & Hk2 & Hh).
    { lia. } { lia. }
    cbn [rbind]. exists ((f, payload) :: l), (d' :: data'), (cd' :: cdata'). split; [done|]. split; [|split; [|split; [by constructor|split; [by constructor|by constructor]]]].
    + split; [|done]. constructor; try done; cbn [f f_type f_offset f_len f_colId fst snd].
      all: cycle 3.
      1:{ pose proof (rd_id _ _ _ _ _ _ _ _ Hr). split; [lia|]. split; [lia|]. by split. }
      * apply wraps_id; [lia|]. unfold in_s. lia.
      * apply wraps_id; [lia|]. unfold in_s. lia.
      * apply wraps_id; [lia|]. unfold in_s. lia.
    + destruct (negb (compression =? 0)); by constructor.
Qed.

Lemma write_datas_spec l : forall st f len, Forall2 sealed_in l st -> Forall (fun s => s.2 <> []) st -> offs f = file_size f ->
  write_datas (length l) l f len = Ret (mkFd (content f ++ payloads st) (file_size f + Z.of_nat (length (payloads st))), len + Z.of_nat (length (payloads st))).
Proof.
  induction l as [|d l IH]; intros st f len Hl Hne Ho; inversion Hl as [|? s ? st' Hs Hl']; subst; cbn [length write_datas].
  - cbn. rewrite app_nil_r, !Z.add_0_r. rewrite <- Ho. by destruct f.
  - destruct Hs as [Hdl [post Hd]]. rewrite (rd_take_head _ (seal s.2)).
    + cbn [rbind]. apply Forall_cons in Hne as [_ Hne]. rewrite (IH st') by (try done; rewrite write_here by done; unfold file_size; cbn; rewrite length_app; lia).
      rewrite write_here by done. cbn [content]. unfold payloads at 4 5 6, file_size. cbn [map concat content]. fold (payloads st').
      rewrite <- app_assoc, !length_app. f_equal. f_equal; [f_equal; lia|lia].
    + rewrite Hd. apply take_app_length.
    + rewrite length_seal, Hdl. unfold SIZEOF_TSCKSUM. lia.
Qed.

(** A block is in a file. *)
Record block_in (file : list Z) (b : SCompBlock) (cols : list SColumn) (columns : list (list Z)) : Prop := {
  bi_image : exists pre l post, file = pre ++ image l ++ post /\ b_offset b = Z.of_nat (length pre) /\ b_len b = Z.of_nat (length (image l)) /\
    cols_stored (b_algorithm b) (b_numOfPoints b) cols columns (SIZEOF_SField * Z.of_nat (length cols) + SIZEOF_TSCKSUM) l;
  bi_cols : b_numOfCols b = Z.of_nat (length cols);
  bi_points : 0 < b_numOfPoints b }.

Lemma block_in_grown file more b cols columns : block_in file b cols columns -> block_in (file ++ more) b cols columns.
Proof.
  intros [(pre & l & post & -> & Hrest) Hc Hp]. constructor; [|done|done]. exists pre, l, (post ++ more). by rewrite <- !app_assoc.
Qed.

Record meter_ok (m : SMeterObj) : Prop := {
  mo_cols : 0 < Z.of_nat (length (schema m)) < 2 ^ 15;
  mo_bytes : bytesPerPoint m = row_width (schema m);
  mo_max : Forall (fun c => bytes c <= maxBytes m) (schema m);
  mo_key : match schema m with c :: _ => type c = TSDB_DATA_TYPE_TIMESTAMP | [] => False end;
  mo_ok : Forall (fun c => column_ok c /\ in_s 16 (colId c)) (schema m) }.

Lemma cols_stored_some compression points cols : forall columns offset l, cols_stored compression points cols columns offset l ->
  length l = length cols /\ length columns = length cols /\ Forall (fun s => s.2 <> []) l /\ Forall (fun s => bytes_ok s.2) l.
Proof.
  induction cols as [|c cols IH]; intros [|column columns] offset [|s l] Hl; cbn in Hl; try done.
  destruct Hl as [Hs Hl]. destruct (IH _ _ _ Hl) as (E1 & E2 & H3 & H4). destruct Hs. cbn. rewrite E1, E2. repeat split; by constructor.
Qed.

Lemma payloads_size compression points cols : forall columns offset l, cols_stored compression points cols columns offset l ->
  Z.of_nat (length (payloads l)) <= points * row_width cols + 6 * Z.of_nat (length cols).
Proof.
  induction cols as [|c cols IH]; intros [|column columns] offset [|s l] Hl; cbn in Hl; try done.
  - unfold row_width. cbn. lia.
  - destruct Hl as [Hs Hl]. specialize (IH _ _ _ Hl). destruct Hs. unfold payloads, row_width in *. cbn. rewrite length_app, length_seal. lia.
Qed.

Definition key_at (column : list Z) (i : Z) : Z := i64 (le_val (take 8 (drop (Z.to_nat (i * 8)) column))).

Lemma rd_key column post i : Z.of_nat (length column) >= 8 * (i + 1) -> 0 <= i ->
  rd (column ++ post) (i * 8) 8 = Ret (take 8 (drop (Z.to_nat (i * 8)) column)).
Proof.
  intros Hl Hi. unfold rd. rewrite bool_decide_true by (rewrite length_app; lia). change (Z.to_nat 8) with 8%nat.
  rewrite drop_app_le, take_app_le by (rewrite ?length_drop; lia). done.
Qed.

Context `{BlockOptions}.

Definition target (to_last : bool) (fs : files) : fd := if to_last then last_of fs else dfd fs.
Definition set_target (to_last : bool) (f : fd) (fs : files) : files := if to_last then set_last f fs else set_dfd f fs.

Lemma row_width_pos cols : Forall (fun c => column_ok c /\ in_s 16 (colId c)) cols -> 0 <= row_width cols.
Proof. unfold row_width. induction 1 as [|c cols [Hc _] _ IH]; cbn; [lia|]. pose proof (co_bytes _ Hc). lia. Qed.

(** [vnodeWriteBlockToFile] appends a block to one file and leaves the other. *)
Lemma write_block_spec m compression b data cdata points fs columns : meter_ok m -> 0 <= compression <= 2 -> 0 < points <= pointsPerFileBlock m ->
  let bufferSize := if compression =? TWO_STAGE_COMP then maxBytes m * points + EXTRA_BYTES else 0 in
  all_ready (pointsPerFileBlock m) compression points bufferSize (schema m) columns data cdata ->
  points * bytesPerPoint m + 70 * Z.of_nat (length (schema m)) + 4 < 2 ^ 23 ->
  let to_last := negb (b_last b =? 0) && few_points points (pointsPerFileBlock m) in
  file_size (target to_last fs) < 2 ^ 61 ->
  exists b' data' cdata' l f fs', vnodeWriteBlockToFile crc32c heap m compression b data cdata points fs = Ret (0, b', data', cdata', fs') /\
    content f = content (target to_last fs) ++ image l /\ offs f = file_size f /\ Z.of_nat (length (image l)) < 2 ^ 23 /\
    fs' = grown (Z.of_nat (length (image l))) (set_target to_last f fs) /\ block_in (content f) b' (schema m) columns /\
    b_last b' = (if to_last then -1 else 0) /\ b_algorithm b' = compression /\ b_numOfPoints b' = points /\ b_sversion b' = sversion m /\
    match columns with column :: _ => b_keyFirst b' = key_at column 0 /\ b_keyLast b' = key_at column (points - 1) | [] => False end /\
    Forall2 kept data data' /\ Forall2 kept cdata cdata' /\ Forall2 (fun d column => take (length column) (d_data d) = column) data' columns.
Proof.
  intros [Hn Hbpp Hmax Hkey Hok] Hcomp Hp bufferSize Hr Hfit to_last Hsize. rewrite Hbpp in Hfit.
  destruct (schema m) as [|c0 cols0] eqn:Es; [done|]. destruct columns as [|col0 columns0], data as [|d0 data0], cdata as [|cd0 cdata0]; try done.
  pose proof Hr as [Hr0 _]. pose proof (rd_length _ _ _ _ _ _ _ _ Hr0) as Hl0. pose proof (rd_head _ _ _ _ _ _ _ _ Hr0) as Hh0.
  assert (Hb0 : bytes c0 = 8).
  { rewrite (co_width _ (rd_column _ _ _ _ _ _ _ _ Hr0)); rewrite Hkey; done. }
  assert (Hpts : points < 2 ^ 23).
  { apply Forall_cons in Hok as [_ Hok0]. pose proof (row_width_pos _ Hok0) as Hrw. unfold row_width in Hfit, Hrw. cbn in Hfit, Hrw. nia. }
  assert (Hpri : rd (d_data d0) 0 (points * 8) = Ret col0) by (apply rd_take_head; [done|lia]).
  destruct (write_cols_spec m compression points bufferSize col0 Hp ltac:(lia) (c0 :: cols0) (col0 :: columns0) (d0 :: data0) (cd0 :: cdata0)
    (SIZEOF_SField * Z.of_nat (length (c0 :: cols0)) + SIZEOF_TSCKSUM) Hr) as (l & data' & cdata' & Hw & Hst & Hsl & Hk1 & Hk2 & Hh);
    [unfold SIZEOF_SField, SIZEOF_TSCKSUM; lia|unfold SIZEOF_SField, SIZEOF_TSCKSUM; lia|].
  destruct (cols_stored_some _ _ _ _ _ _ Hst) as (Hll & Hlc & Hne & Hlok).
  unfold vnodeWriteBlockToFile. rewrite Es. fold to_last bufferSize. cbn [rbind]. rewrite Hpri. cbn [rbind]. rewrite Hw. cbn [rbind].
  fold (fields_bytes (map fst l)). set (fb := fields_bytes (map fst l)).
  assert (Hfb : Z.of_nat (length fb) = SIZEOF_SField * Z.of_nat (length (c0 :: cols0))).
  { unfold fb. rewrite length_fields_bytes, length_map, Hll. unfold SIZEOF_SField. lia. }
  unfold SIZEOF_TSCKSUM at 1. rewrite <- Hfb, (run_append (fb ++ replicate 4 0)); [|by apply bytes_ok_app; split; [apply fields_bytes_ok|repeat constructor]|lia|rewrite length_app, length_replicate; lia].
  cbn [rbind]. rewrite Nat2Z.id, take_app_length.
  replace (drop (Z.to_nat (Z.of_nat (length fb) + 4)) (fb ++ replicate 4 0)) with (@nil Z) by (rewrite drop_ge; [done|rewrite length_app, length_replicate; lia]).
  rewrite app_nil_r. fold (seal (heap := heap) fb). fold (target to_last fs).
  assert (Hlw : length (if negb (compression =? 0) then cdata' else data') = length (c0 :: cols0)) by (rewrite <- Hll; by eapply Forall2_length).
  rewrite <- Hlw, (write_datas_spec _ l) by (try done; rewrite write_end; unfold file_size; cbn; rewrite length_app; lia).
  rewrite write_end. cbn [rbind content].
  inversion Hh as [|d1 ? data1 ? Hd1 Hh1]; subst. cbn [rbind].
  assert (Hd1' : exists post, d_data d1 = col0 ++ post) by (exists (drop (length col0) (d_data d1)); rewrite <- Hd1 at 1; by rewrite take_drop).
  destruct Hd1' as [post1 Ed1]. rewrite Ed1, Hb0. 
  pose proof (rd_key col0 post1 0 ltac:(lia) ltac:(lia)) as Hk0. change (0 * 8) with 0 in Hk0. rewrite Hk0. cbn [rbind]. rewrite (rd_key col0 post1 (points - 1)) by lia. cbn [rbind].
  assert (Himg : image l = seal (heap := heap) fb ++ payloads l) by done.
  pose proof (payloads_size _ _ _ _ _ _ Hst) as Hps.
  assert (Himl : Z.of_nat (length (image l)) < 2 ^ 23).
  { rewrite Himg, length_app, length_seal. unfold SIZEOF_SField in *. lia. }
  set (f0 := mkFd (content (target to_last fs) ++ seal (heap := heap) fb) (file_size (target to_last fs) + Z.of_nat (length (seal (heap := heap) fb)))).
  eexists _, _, _, l, (mkFd (content f0 ++ payloads l) (file_size f0 + Z.of_nat (length (payloads l)))), _. split; [reflexivity|]. cbn [content offs b_last b_algorithm b_numOfPoints b_sversion b_keyFirst b_keyLast].
  split; [by rewrite Himg, app_assoc|]. split.
  { unfold file_size, f0. cbn. rewrite !length_app. lia. }
  split; [done|]. split.
  { rewrite Himg, length_app, Nat2Z.inj_add. done. }
  split.
  { constructor; cbn [b_offset b_len b_algorithm b_numOfPoints b_numOfCols].
    - exists (content (target to_last fs)), l, []. rewrite app_nil_r, Himg. unfold f0. cbn [content]. rewrite <- app_assoc. split; [done|]. split.
      + cbn. apply wraps_id; [lia|]. unfold in_s, file_size in *. lia.
      + split; [rewrite length_app, Nat2Z.inj_add; apply wraps_id; [lia|]|].
        * rewrite Himg, length_app in Himl. unfold in_s. lia.
        * rewrite !wraps_id by (try lia; unfold in_s; lia). done.
    - rewrite Hlw. apply wrapu_id. unfold in_u. lia.
    - rewrite wraps_id; [lia|lia|]. unfold in_s. lia. }
  split; [done|]. split; [apply wraps_id; [lia|unfold in_s; lia]|]. split; [apply wraps_id; [lia|]|].
  { unfold in_s. lia. }
  split; [done|]. split; [done|]. done.
Qed.
End Write.
