(* ===== verification/BlockLife.v ===== *)
(** * A block is read as it was written

    Reading the columns of a block, the round trip, and a block of a small table. *)
From S2P Require Import Prelude CompBool CompTime CompXor CompBase CompInt Tscompression Crc32c ColTypes FileBlock BlockWrite.

(** * A block that is read

    [vnodeReadColumnToMem] gives back a column of a block that is in the file, and
    [vnodeReadLastBlockToMem] all of them. *)

#[local] Existing Instance LP64.

Section Read.
Context `{LZ4Laws} {crc32c : Z -> Z -> list Z -> Z -> res Z} {heap : Z} `{!RunningSum crc32c heap}.

Lemma payload_at compression points cols : forall columns offset l j c column, cols_stored compression points cols columns offset l ->
  cols !! j = Some c -> columns !! j = Some column ->
  exists s a rest o, l !! j = Some s /\ payloads l = a ++ seal s.2 ++ rest /\ o = offset + Z.of_nat (length a) /\ col_stored compression points c column o s.
Proof.
  induction cols as [|c0 cols IH]; intros [|column0 columns] offset [|s0 l] j c column Hl Hc Hcol; try done. destruct Hl as [Hs Hl].
  destruct j as [|j]; cbn in Hc, Hcol.
  - injection Hc as <-. injection Hcol as <-. exists s0, [], (payloads l), offset. split; [done|]. split; [done|]. split; [cbn; lia|done].
  - destruct (IH _ _ _ j c column Hl Hc Hcol) as (s & a & rest & o & Hj & Hp & -> & Hst).
    exists s, (seal s0.2 ++ a), rest, (offset + Z.of_nat (length s0.2) + 4 + Z.of_nat (length a)).
    split; [done|]. split; [|split; [|done]].
    + unfold payloads in *. cbn. rewrite Hp. by rewrite <- !app_assoc.
    + rewrite length_app, length_seal. lia.
Qed.

(** The memory with the fields of a block. *)
Definition fields_mem (l : list stored) : list Z := seal (fields_bytes (map fst l)).

Record block_as (file : list Z) (b : SCompBlock) (cols : list SColumn) (columns : list (list Z)) (l : list stored) : Prop := {
  ba_image : exists pre post, file = pre ++ image l ++ post /\ b_offset b = Z.of_nat (length pre);
  ba_cols : cols_stored (b_algorithm b) (b_numOfPoints b) cols columns (SIZEOF_SField * Z.of_nat (length cols) + SIZEOF_TSCKSUM) l;
  ba_n : b_numOfCols b = Z.of_nat (length cols);
  ba_points : 0 < b_numOfPoints b }.

Lemma block_in_as file b cols columns : block_in file b cols columns -> exists l, block_as file b cols columns l.
Proof. intros [(pre & l & post & E & Ho & _ & Hc) Hn Hp]. exists l. constructor; [by exists pre, post|done|done|done]. Qed.

(** Reading the fields. *)
Lemma read_fields f b cols columns l : block_as (content f) b cols columns l ->
  let size := SIZEOF_SField * b_numOfCols b + SIZEOF_TSCKSUM in
  exists f', read size (lseek_set (b_offset b) f) = (fields_mem l, f') /\ content f' = content f /\
    over (fields_mem l) (replicate (Z.to_nat size) 0) = fields_mem l /\
    taosCheckChecksumWhole crc32c heap (fields_mem l) size = Ret true.
Proof.
  intros [(pre & post & E & Ho) Hc Hn Hp] size. destruct (cols_stored_some _ _ _ _ _ _ Hc) as (Hll & _ & _ & _).
  assert (Hsz : size = Z.of_nat (length (fields_bytes (map fst l))) + 4).
  { unfold size, SIZEOF_SField, SIZEOF_TSCKSUM. rewrite length_fields_bytes, length_map, Hll, Hn. lia. }
  assert (Hlen : Z.of_nat (length (fields_mem l)) = size) by (unfold fields_mem; rewrite length_seal; lia).
  unfold lseek_set. rewrite (proj2 (Z.ltb_ge _ _)) by lia.
  rewrite (read_at size _ pre (fields_mem l) (payloads l ++ post)); [|cbn; rewrite E; unfold image, fields_mem; by rewrite <- !app_assoc|done|done].
  eexists. split; [done|]. split; [done|]. split; [apply over_full; rewrite length_replicate; lia|].
  rewrite Hsz. unfold fields_mem, seal. rewrite run_check.
  - by rewrite Z.eqb_refl.
  - apply fields_bytes_ok.
  - by apply run_range; [|apply fields_bytes_ok].
Qed.

Definition after_read (column buf : list Z) : list Z := column ++ drop (length column) buf.

Lemma wr_head buf bs : Z.of_nat (length bs) <= Z.of_nat (length buf) -> wr buf 0 bs = Ret (after_read bs buf).
Proof. intros. unfold wr, after_read. by rewrite bool_decide_true by lia. Qed.

(** One column; the fields are there already or are read first. *)
Lemma read_column_spec f b cols columns l j c column fields buf dataSize temp bufferSize :
  block_as (content f) b cols columns l -> cols !! j = Some c -> columns !! j = Some column ->
  fields = None \/ fields = Some (fields_mem l) ->
  bytes_ok buf -> bytes_ok temp -> Z.of_nat (length column) <= Z.of_nat (length buf) ->
  (b_algorithm b <> 0 -> Z.of_nat (length column) <= dataSize /\ (b_algorithm b = TWO_STAGE_COMP -> Z.of_nat (length column) + 1 <= bufferSize) /\
     Z.of_nat (length column) + 2 <= Z.of_nat (length temp)) ->
  bytes_ok column ->
  exists f' temp', vnodeReadColumnToMem crc32c heap f b fields (Z.of_nat j) (Some buf) dataSize temp bufferSize =
      Ret (0, f', Some (fields_mem l), Some (after_read column buf), temp') /\
    content f' = content f /\ length temp' = length temp /\ bytes_ok temp'.
Proof.
  intros Hb Hc Hcol Hfields Hbuf Htemp Hroom Halg Hcok.
  destruct (read_fields f b cols columns l Hb) as (f0 & Hread & Hf0 & Hover & Hcheck).
  assert (Hmem : exists f1, content f1 = content f /\ load_fields crc32c heap f b fields = Ret (true, f1, fields_mem l)).
  { destruct Hfields as [-> | ->]; [|by exists f]. exists f0. split; [done|]. unfold load_fields. cbv zeta in *. by rewrite Hread, Hover, Hcheck. }
  destruct Hmem as (f1 & Hf1 & Hmem). unfold vnodeReadColumnToMem. rewrite Hmem. cbn [rbind negb].
  destruct Hb as [(pre & post & E & Ho) Hst Hn Hp].
  destruct (payload_at _ _ _ _ _ _ j c column Hst Hc Hcol) as (s & a & rest & o & Hj & Hpay & -> & Hs). pose proof Hs as [].
  assert (Hjf : map fst l !! j = Some s.1) by (rewrite list_lookup_fmap, Hj; done).
  unfold fields_mem at 1, seal. rewrite (field_at_bytes _ _ j s.1 Hjf). cbn [rbind].
  destruct cs_range as (Ho1 & Ho2 & Hidr & Htr).
  destruct (field_of_bytes s.1) as (_ & Ety & Eoff & Elen).
  { by rewrite cs_id. } { rewrite cs_type. unfold in_s. lia. } { rewrite cs_offset. unfold in_s. lia. } { rewrite cs_len. unfold in_s. lia. }
  rewrite Ety, Eoff, Elen, cs_type, cs_offset, cs_len. rewrite (proj2 (Z.ltb_ge _ _)) by lia.
  assert (Hpos : content f1 = (pre ++ fields_mem l ++ a) ++ s.2 ++ (le_bytes 4 (run_sum 0 s.2) ++ rest ++ post)).
  { rewrite Hf1, E. unfold image, fields_mem. rewrite Hpay. unfold seal. by rewrite <- !app_assoc. }
  assert (Hpl : Z.of_nat (length (pre ++ fields_mem l ++ a)) = b_offset b +
    (SIZEOF_SField * Z.of_nat (length cols) + SIZEOF_TSCKSUM + Z.of_nat (length a))).
  { destruct (cols_stored_some _ _ _ _ _ _ Hst) as (Hll & _). rewrite !length_app. unfold fields_mem.
    rewrite length_seal, length_fields_bytes, length_map, Hll, Ho. unfold SIZEOF_SField, SIZEOF_TSCKSUM. lia. }
  unfold lseek_set at 1. rewrite (proj2 (Z.ltb_ge _ _)) by lia.
  rewrite (read_at _ _ (pre ++ fields_mem l ++ a) s.2 (le_bytes 4 (run_sum 0 s.2) ++ rest ++ post)) by (done || (cbn; lia)).
  rewrite (read_at SIZEOF_TSCKSUM _ ((pre ++ fields_mem l ++ a) ++ s.2) (le_bytes 4 (run_sum 0 s.2)) (rest ++ post));
    [|cbn [content]; rewrite Hpos; by rewrite <- !app_assoc|cbn [offs]; rewrite !length_app in *; lia|by rewrite length_le_bytes].
  cbv zeta. rewrite over_full by (by rewrite length_le_bytes). rewrite le_val_bytes. change (_ mod _) with (wrapu 32 (run_sum 0 s.2)).
  rewrite wrapu_id by (by apply run_range). cbn [content].
  assert (Hlpos : (Z.of_nat (length s.2) <=? 0) = false) by (apply Z.leb_gt; destruct s.2; [done|cbn; lia]).
  unfold recovers in cs_recovers. destruct (decide (b_algorithm b = 0)) as [Ea|Ea].
  - rewrite Ea. cbn [Z.eqb negb]. rewrite wr_head by (rewrite cs_recovers; lia). cbn [rbind].
    rewrite run_calc; [|by apply bytes_ok_app; split; [done|by apply Forall_drop]|done|unfold after_read; rewrite length_app; lia].
    cbn [rbind]. unfold after_read at 1. rewrite Nat2Z.id, take_app_length, Z.eqb_refl. cbn [negb]. rewrite Hlpos.
    exists (mkFd (content f1) (b_offset b + (SIZEOF_SField * Z.of_nat (length cols) + SIZEOF_TSCKSUM + Z.of_nat (length a)) + Z.of_nat (length s.2) + SIZEOF_TSCKSUM)), temp.
    rewrite cs_recovers. done.
  - rewrite (proj2 (Z.eqb_neq _ _) Ea). cbn [negb]. destruct (Halg Ea) as (Hds & Hbs & Htl). rewrite wr_head by lia. cbn [rbind].
    assert (Htok : bytes_ok (after_read s.2 temp)) by (apply bytes_ok_app; split; [done|by apply Forall_drop]).
    rewrite run_calc; [|done|done|unfold after_read; rewrite length_app; lia].
    cbn [rbind]. unfold after_read at 1. rewrite Nat2Z.id, take_app_length, Z.eqb_refl. cbn [negb].
    unfold after_read at 1. rewrite cs_recovers by (rewrite <- ?cs_column; lia || (intros; specialize (Hbs ltac:(done)); lia)). cbn [rbind]. rewrite wr_head by done. cbn [rbind]. rewrite Hlpos.
    exists (mkFd (content f1) (b_offset b + (SIZEOF_SField * Z.of_nat (length cols) + SIZEOF_TSCKSUM + Z.of_nat (length a)) + Z.of_nat (length s.2) + SIZEOF_TSCKSUM)), (after_read s.2 temp).
    split; [done|]. split; [done|]. split; [|done]. unfold after_read. rewrite length_app, length_drop. lia.
Qed.

(** A buffer has room for a column. *)
Definition fits_in (d : SData) (column : list Z) : Prop := bytes_ok (d_data d) /\ Z.of_nat (length column) <= Z.of_nat (length (d_data d)).
Definition read_into (d : SData) (column : list Z) : SData := mkData (Z.of_nat (length column)) (after_read column (d_data d)).

Lemma cols_stored_length compression points cols : forall columns offset l j c column, cols_stored compression points cols columns offset l ->
  cols !! j = Some c -> columns !! j = Some column -> Z.of_nat (length column) = points * bytes c.
Proof.
  intros columns offset l j c column Hl Hc Hcol. destruct (payload_at _ _ _ _ _ _ j c column Hl Hc Hcol) as (s & a & rest & o & _ & _ & _ & []). done.
Qed.

(** The scratch memory of a block has room for each of its columns. *)
Lemma temp_room m b j c : meter_ok m -> schema m !! j = Some c -> 0 < b_numOfPoints b ->
  b_numOfPoints b * bytes c + 2 <= Z.of_nat (length (block_temp m b)) /\
  (b_algorithm b = TWO_STAGE_COMP -> b_numOfPoints b * bytes c + 1 <= block_buffer m b).
Proof.
  intros [Hn Hbpp Hmax Hkey Hok] Hj Hp. unfold block_temp, block_buffer. rewrite length_replicate.
  pose proof (Forall_lookup_1 _ _ _ _ Hmax Hj) as Hmx. cbn in Hmx. split.
  2:{ intros ->. rewrite Z.eqb_refl. unfold EXTRA_BYTES. nia. }
  assert (Hw : bytes c <= bytesPerPoint m /\ 2 <= bytesPerPoint m); [|nia].
  rewrite Hbpp. destruct (schema m) as [|c0 cols]; [done|]. apply Forall_cons in Hok as [[Hc0 _] Hok].
  assert (Hb0 : bytes c0 = 8) by (rewrite (co_width _ Hc0); by rewrite Hkey).
  pose proof (row_width_pos _ Hok) as Hrw. unfold row_width in *. cbn. split; [|lia]. destruct j as [|j]; [cbn in Hj; injection Hj as <-; lia|].
  cbn in Hj. clear -Hj Hok Hb0. revert j Hj. induction Hok as [|c1 cols [Hc1 _] Hok IH]; intros [|j] Hj; cbn in Hj |- *; try done.
  - injection Hj as ->. pose proof (row_width_pos _ Hok) as Hrw. unfold row_width in Hrw. lia.
  - specialize (IH j Hj). pose proof (co_bytes _ Hc1). lia.
Qed.

Lemma read_last_cols_spec m b columns l : meter_ok m -> b_numOfPoints b <= pointsPerFileBlock m -> Forall bytes_ok columns ->
  forall n old rest f fields temp, block_as (content f) b (schema m) columns l ->
  length (old ++ rest) = length columns -> n = length rest -> fields = None \/ fields = Some (fields_mem l) ->
  Forall2 fits_in rest (drop (length old) columns) -> length temp = length (block_temp m b) -> bytes_ok temp ->
  exists f', read_last_cols crc32c heap n m b f fields (Z.of_nat (length old)) (old ++ rest) temp =
    Ret (0, f', old ++ zip_with read_into rest (drop (length old) columns)) /\ content f' = content f.
Proof.
  intros Hm Hp Hcok. induction n as [|n IH]; intros old rest f fields temp Hb Hlen Hn Hf Hfit Htl Htok.
  - destruct rest; [|done]. exists f. cbn. by rewrite app_nil_r.
  - destruct rest as [|d rest]; [done|]. injection Hn as Hn. cbn [read_last_cols]. rewrite Nat2Z.id.
    rewrite list_lookup_middle by done. cbn [rbind]. rewrite length_app in Hlen. cbn in Hlen.
    pose proof (cols_stored_some _ _ _ _ _ _ (ba_cols _ _ _ _ _ Hb)) as (_ & Hlc & _ & _).
    destruct (lookup_lt_is_Some_2 columns (length old)) as [column Hcol]; [lia|].
    destruct (lookup_lt_is_Some_2 (schema m) (length old)) as [c Hc]; [lia|]. rewrite Hc. cbn [rbind].
    rewrite (drop_S _ _ _ Hcol) in Hfit |- *. apply Forall2_cons in Hfit as [[Hdok Hdl] Hfit].
    pose proof (cols_stored_length _ _ _ _ _ _ _ c column (ba_cols _ _ _ _ _ Hb) Hc Hcol) as Hclen.
    destruct (temp_room m b _ c Hm Hc (ba_points _ _ _ _ _ Hb)) as [Hroom Hbuf].
    assert (Hbpos : 0 < bytes c) by (destruct (proj1 (Forall_lookup _ _) (mo_ok _ Hm) _ _ Hc) as [Hco _]; by apply co_bytes).
    destruct (read_column_spec f b (schema m) columns l (length old) c column fields (d_data d) (pointsPerFileBlock m * bytes c + EXTRA_BYTES) temp (block_buffer m b))
      as (f1 & temp1 & -> & Hf1 & Htl1 & Htok1); try done.
    { intros _. rewrite Htl, Hclen. unfold EXTRA_BYTES. split; [nia|]. split; [done|lia]. }
    { by eapply (Forall_lookup_1 _ _ _ _ Hcok). }
    cbn [rbind]. change (0 <? 0) with false. cbv iota.
    replace (mkData (bytes c * b_numOfPoints b) (after_read column (d_data d))) with (read_into d column) by (unfold read_into; f_equal; lia).
    replace (<[length old:=read_into d column]> (old ++ d :: rest)) with ((old ++ [read_into d column]) ++ rest).
    2:{ rewrite <- app_assoc. symmetry. replace (length old) with (length old + 0)%nat by lia. rewrite insert_app_r. done. }
    replace (Z.of_nat (length old) + 1) with (Z.of_nat (length (old ++ [read_into d column]))) by (rewrite length_app; cbn; lia).
    destruct (IH (old ++ [read_into d column]) rest f1 (Some (fields_mem l)) temp1) as (f2 & -> & Hf2); try done.
    { by rewrite Hf1. } { rewrite !length_app. cbn. lia. } { by right. }
    { rewrite length_app. cbn. by rewrite Nat.add_1_r. } { by rewrite Htl1. }
    exists f2. rewrite length_app. cbn [length]. rewrite Nat.add_1_r, <- app_assoc. cbn [app zip_with]. split; [done|congruence].
Qed.

(** Reading the last block of a table gives back its columns. *)
Lemma read_last_spec m b columns sdata f : meter_ok m -> block_in (content f) b (schema m) columns -> b_numOfPoints b <= pointsPerFileBlock m ->
  Forall bytes_ok columns -> Forall2 fits_in sdata columns ->
  exists f', vnodeReadLastBlockToMem crc32c heap m b sdata f = Ret (0, f', zip_with read_into sdata columns) /\ content f' = content f.
Proof.
  intros Hm Hb Hp Hcok Hfit. destruct (block_in_as _ _ _ _ Hb) as [l Hl].
  destruct (cols_stored_some _ _ _ _ _ _ (ba_cols _ _ _ _ _ Hl)) as (_ & Hlc & _ & _). pose proof (Forall2_length _ _ _ Hfit) as Hls.
  destruct (read_last_cols_spec m b columns l Hm Hp Hcok (length sdata) [] sdata f None (block_temp m b)) as (f' & Hr & Hf'); try done.
  { by left. } { by apply Forall_replicate. }
  exists f'. unfold vnodeReadLastBlockToMem. rewrite (ba_n _ _ _ _ _ Hl), Nat2Z.id, <- Hlc, <- Hls. done.
Qed.
End Read.

(** * A block is read as it was written

    The buffers of a commit are written as a block and read back, and what the
    statistics of a block and the width of its offsets come to on small examples. *)

#[local] Existing Instance LP64.

Section Life.
Context `{LZ4Laws} `{DoubleOps} `{BlockOptions} {crc32c : Z -> Z -> list Z -> Z -> res Z} {heap : Z} `{!RunningSum crc32c heap}.

(** A buffer as vnodeCommitMultiToFile allots it to a column, and one that holds the
    values of a column in [points] rows. *)
Definition col_buffer (ppfb : Z) (c : SColumn) (d : SData) : Prop :=
  bytes_ok (d_data d) /\ Z.of_nat (length (d_data d)) = bytes c * ppfb + EXTRA_BYTES + SIZEOF_TSCKSUM.
Definition holds (points : Z) (c : SColumn) (column : list Z) (d : SData) : Prop :=
  d_len d = points * bytes c /\ take (Z.to_nat (points * bytes c)) (d_data d) = column.
Definition filled (ppfb points : Z) (c : SColumn) (column : list Z) (d : SData) : Prop :=
  col_buffer ppfb c d /\ holds points c column d.

Lemma filled_length ppfb points c column d : column_ok c -> 0 < points <= ppfb -> filled ppfb points c column d ->
  Z.of_nat (length column) = points * bytes c /\ bytes_ok column /\ take (length column) (d_data d) = column.
Proof.
  intros Hc Hp [[Hok Hl] [_ Hh]]. pose proof (co_bytes _ Hc). assert (E : length column = Z.to_nat (points * bytes c)).
  { rewrite <- Hh, length_take. unfold EXTRA_BYTES, SIZEOF_TSCKSUM in Hl. nia. }
  split; [nia|]. split; [rewrite <- Hh; by apply Forall_take|by rewrite E].
Qed.

Lemma filled_ready ppfb compression points bufferSize c column d cd : column_ok c /\ in_s 16 (colId c) -> 0 <= compression <= 2 -> 0 < points <= ppfb ->
  (compression = TWO_STAGE_COMP -> points * bytes c + 1 <= bufferSize) ->
  storable compression c column -> filled ppfb points c column d -> col_buffer ppfb c cd ->
  ready ppfb compression points bufferSize c column d cd.
Proof.
  intros [Hc Hid] Hcomp Hp Hbuf Hst Hf [Hcok Hcl]. destruct (filled_length _ _ _ _ _ Hc Hp Hf) as (El & Hbok & Hh).
  pose proof (co_bytes _ Hc). destruct Hf as [[Hok Hl] [Hd _]]. unfold EXTRA_BYTES, SIZEOF_TSCKSUM in *. constructor; try done.
  { destruct Hst as [?|(? & _)]; [by left|by right]. }
  destruct (decide (compression = 0)) as [E|E]; [nia|]. split; [unfold EXTRA_BYTES; lia|].
  apply column_compresses; try done; unfold EXTRA_BYTES; nia.
Qed.

Lemma all_filled_ready ppfb compression points bufferSize cols columns data cdata : Forall (fun c => column_ok c /\ in_s 16 (colId c)) cols ->
  0 <= compression <= 2 -> 0 < points <= ppfb -> (compression = TWO_STAGE_COMP -> Forall (fun c => points * bytes c + 1 <= bufferSize) cols) ->
  Forall2 (storable compression) cols columns -> Forall3 (filled ppfb points) cols columns data -> Forall2 (col_buffer ppfb) cols cdata ->
  all_ready ppfb compression points bufferSize cols columns data cdata.
Proof.
  intros Hok Hcomp Hp Hbuf Hst Hf. revert cdata Hok Hbuf Hst. induction Hf as [|c column d cols columns data Hf Hfs IH]; intros cdata Hok Hbuf Hst Hcd.
  - by inversion Hcd.
  - apply Forall_cons in Hok as [Hc Hok]. apply Forall2_cons in Hst as [Hs Hst]. apply Forall2_cons_inv_l in Hcd as (cd & cdata' & Hcd & Hcds & ->).
    split; [apply filled_ready; try done|apply IH; try done].
    + intros E. by apply Hbuf, Forall_cons in E as [? _].
    + intros E. by apply Hbuf, Forall_cons in E as [_ ?].
Qed.

Lemma kept_buffers ppfb cols data data' : Forall2 (col_buffer ppfb) cols data -> Forall2 kept data data' -> Forall2 (col_buffer ppfb) cols data'.
Proof.
  intros Hb Hk. revert data' Hk. induction Hb as [|c d cols data [_ Hl] _ IH]; intros data' Hk; inversion Hk as [|? d' ? data1 [E Hok] Hk1]; subst; constructor.
  - split; [done|]. by rewrite E.
  - by apply IH.
Qed.

Lemma filled_buffers ppfb points cols columns data : Forall3 (filled ppfb points) cols columns data -> Forall2 (col_buffer ppfb) cols data.
Proof. induction 1 as [|c column d cols columns data [Hb _] _ IH]; by constructor. Qed.

Lemma filled_columns ppfb points cols columns data sdata : Forall (fun c => column_ok c /\ in_s 16 (colId c)) cols -> 0 < points <= ppfb ->
  Forall3 (filled ppfb points) cols columns data -> Forall2 (col_buffer ppfb) cols sdata ->
  Forall bytes_ok columns /\ Forall2 fits_in sdata columns /\ Forall3 (holds points) cols columns (zip_with read_into sdata columns).
Proof.
  intros Hok Hp Hf. revert sdata Hok. induction Hf as [|c column d cols columns data Hf Hfs IH]; intros sdata Hok Hs.
  - inversion Hs. repeat split; constructor.
  - apply Forall_cons in Hok as [[Hc _] Hok]. apply Forall2_cons_inv_l in Hs as (e & sdata' & [Hbe Hle] & Hs & ->).
    destruct (filled_length _ _ _ _ _ Hc Hp Hf) as (El & Hbok & _). destruct (IH sdata' Hok Hs) as (H1' & H2' & H3').
    pose proof (co_bytes _ Hc). split; [by constructor|]. split.
    + constructor; [|done]. split; [done|]. rewrite Hle, El. unfold EXTRA_BYTES, SIZEOF_TSCKSUM. nia.
    + cbn [zip_with]. constructor; [|done]. split; cbn [read_into d_len d_data]; [lia|]. unfold after_read.
      replace (Z.to_nat (points * bytes c)) with (length column) by lia. apply take_app_length.
Qed.

(** C6.  A block that a commit writes is read back as it was, if it has values that its
    compression keeps ([storable]: with compression no FLOAT column, BIGINT values of 59
    bits, the three bytes of BOOL) and its columns, with their sums, take less than 2^23
    bytes, which the 24 bits of an offset hold: [vnodeWriteBlockToFile] succeeds on any table
    whose columns are well-formed, for each compression, appends to one of the two files,
    which have fewer than 2^61 bytes, and leaves the other, says of the block how many rows
    it has and what its first and last keys are, and leaves buffers that can be used again;
    and whatever is appended later, and whatever was in the buffers that are read into,
    [vnodeReadLastBlockToMem] gets each column again. *)
Theorem block_roundtrip m compression b columns data cdata points fs : meter_ok m -> 0 <= compression <= 2 -> 0 < points <= pointsPerFileBlock m ->
  Forall2 (storable compression) (schema m) columns -> Forall3 (filled (pointsPerFileBlock m) points) (schema m) columns data ->
  Forall2 (col_buffer (pointsPerFileBlock m)) (schema m) cdata ->
  points * bytesPerPoint m + 70 * Z.of_nat (length (schema m)) + 4 < 2 ^ 23 ->
  let to_last := negb (b_last b =? 0) && few_points points (pointsPerFileBlock m) in
  file_size (target to_last fs) < 2 ^ 61 ->
  exists b' data' cdata' fs', vnodeWriteBlockToFile crc32c heap m compression b data cdata points fs = Ret (0, b', data', cdata', fs') /\
    (exists block, content (target to_last fs') = content (target to_last fs) ++ block) /\ target (negb to_last) fs' = target (negb to_last) fs /\
    b_numOfPoints b' = points /\
    match columns with keys :: _ => b_keyFirst b' = key_at keys 0 /\ b_keyLast b' = key_at keys (points - 1) | [] => False end /\
    Forall2 (col_buffer (pointsPerFileBlock m)) (schema m) data' /\ Forall2 (col_buffer (pointsPerFileBlock m)) (schema m) cdata' /\
    forall more pos sdata, Forall2 (col_buffer (pointsPerFileBlock m)) (schema m) sdata ->
      exists f' sdata', vnodeReadLastBlockToMem crc32c heap m b' sdata (mkFd (content (target to_last fs') ++ more) pos) = Ret (0, f', sdata') /\
        Forall3 (holds points) (schema m) columns sdata'.
Proof.
  intros Hm Hcomp Hp Hst Hf Hcd Hfit to_last Hsize.
  destruct (write_block_spec m compression b data cdata points fs columns Hm Hcomp Hp) as
    (b' & data' & cdata' & l & f & fs' & Hw & Hcont & _ & _ & Hfs & Hin & _ & _ & Hpts & _ & Hkeys & Hk1 & Hk2 & _); [|done|done|].
  { apply all_filled_ready; try done; [apply (mo_ok _ Hm)|]. intros ->. rewrite Z.eqb_refl. eapply Forall_impl; [apply (mo_max _ Hm)|].
    cbv beta. intros c Hc. unfold EXTRA_BYTES. nia. }
  fold to_last in Hcont, Hfs.
  assert (Ht : content (target to_last fs') = content f /\ target (negb to_last) fs' = target (negb to_last) fs).
  { rewrite Hfs. destruct to_last; cbn; [|by unfold last_of]. unfold set_last, last_of, grown. by destruct (tfd fs). }
  destruct Ht as [Ht Ho]. exists b', data', cdata', fs'. split; [done|]. split; [exists (image l); by rewrite Ht|]. split; [done|]. split; [done|]. split; [done|].
  pose proof (filled_buffers _ _ _ _ _ Hf) as Hb. split; [exact (kept_buffers _ _ _ _ Hb Hk1)|]. split; [exact (kept_buffers _ _ _ _ Hcd Hk2)|].
  intros more pos sdata Hs. destruct (filled_columns _ _ _ _ _ sdata (mo_ok _ Hm) Hp Hf Hs) as (Hbok & Hfits & Hholds).
  destruct (read_last_spec m b' columns sdata (mkFd (content (target to_last fs') ++ more) pos)) as (f' & Hr & _); try done.
  { cbn [content]. rewrite Ht. exact (block_in_grown _ more _ _ _ Hin). } { rewrite Hpts. lia. }
  by exists f', (zip_with read_into sdata columns).
Qed.
End Life.

(** * Blocks of a small table

    A table of a timestamp, an int and a string, some rows of which are written with
    both stages of compression to the last file. *)

(** tsFileBlockMinPercent is 0.05.  The table has no floats. *)
#[local] Existing Instances LP64 toy_lz4.
#[local] Instance five_percent : BlockOptions := {| few_points points ppfb := 20 * points <? ppfb |}.
#[local] Instance no_floats : DoubleOps := {|
  d_of_f := id; d_of_i64 := id; f_of_i64 := id; d_add := Z.add; d_mul := Z.mul; f_mul := Z.mul; d_lt := Z.ltb |}.
Definition demo_crc : Z -> Z -> list Z -> Z -> res Z := @taosResolveCRC manual_sse42 false false false.
#[local] Instance demo_running : RunningSum demo_crc 0 := @resolved_running manual_sse42 manual_sse42_laws false false false 0.

Definition demo_table : SMeterObj :=
  mkMeter 77 [mkColumn 0 8 TSDB_DATA_TYPE_TIMESTAMP; mkColumn 1 4 TSDB_DATA_TYPE_INT; mkColumn 2 3 TSDB_DATA_TYPE_BINARY] 15 8 100 0.
Definition demo_columns : list (list Z) :=
  [pack_elems 8 [1000; 2000; 3000; 4000]; pack_elems 4 [5; -7; -2147483648; 11]; [97; 98; 0; 99; 0; 0; 100; 0; 0; 101; 0; 0]].
Definition demo_buffer (c : SColumn) (column : list Z) : SData :=
  mkData (4 * bytes c) (column ++ replicate (Z.to_nat (bytes c * 100 + 6) - length column) 0).
Definition demo_empty (c : SColumn) : SData := mkData 0 (replicate (Z.to_nat (bytes c * 100 + 6)) 255).
Definition demo_data := zip_with demo_buffer (schema demo_table) demo_columns.
Definition demo_cdata := map demo_empty (schema demo_table).
Definition demo_files := mkFiles (mkFd [1; 2; 3] 0) (mkFd [9; 9] 1) None 3 0.
Definition demo_block := mkBlock 1 0 0 0 0 0 0 0 0.

Lemma demo_meter : meter_ok demo_table.
Proof.
  constructor; cbn; try done; try lia.
  - repeat constructor; done.
  - repeat constructor; cbn; try done; unfold in_s; lia.
Qed.

Lemma demo_filled : Forall3 (filled 100 4) (schema demo_table) demo_columns demo_data.
Proof. repeat constructor; cbn; try done; repeat constructor; lia. Qed.

Lemma demo_empties : Forall2 (col_buffer 100) (schema demo_table) demo_cdata.
Proof. repeat constructor; cbn; try done; apply Forall_replicate; done. Qed.

Lemma demo_storable : Forall2 (storable TWO_STAGE_COMP) (schema demo_table) demo_columns.
Proof. repeat (apply Forall2_cons; split; [right; repeat split; cbn; done|]). constructor. Qed.

Lemma block_roundtrip_witness : exists b' data' cdata' fs',
  vnodeWriteBlockToFile demo_crc 0 demo_table TWO_STAGE_COMP demo_block demo_data demo_cdata 4 demo_files = Ret (0, b', data', cdata', fs') /\
  b_keyFirst b' = 1000 /\ b_keyLast b' = 4000 /\
  exists f' sdata', vnodeReadLastBlockToMem demo_crc 0 demo_table b' demo_cdata (mkFd (content (lfd fs') ++ [4; 4; 4]) 0) = Ret (0, f', sdata') /\
    Forall3 (holds 4) (schema demo_table) demo_columns sdata'.
Proof.
  destruct (block_roundtrip (crc32c := demo_crc) (heap := 0) demo_table TWO_STAGE_COMP demo_block demo_columns demo_data demo_cdata 4 demo_files
    demo_meter ltac:(done) ltac:(cbn; lia) demo_storable demo_filled demo_empties eq_refl eq_refl)
    as (b' & data' & cdata' & fs' & Hw & _ & _ & _ & [Hk1 Hk2] & _ & _ & Hr).
  exists b', data', cdata', fs'. split; [exact Hw|]. split; [exact Hk1|]. split; [exact Hk2|].
  destruct (Hr [4; 4; 4] 0 demo_cdata demo_empties) as (f' & sdata' & Hread & Hh). exists f', sdata'. split; [|exact Hh].
  assert (E : target true fs' = lfd fs'); [|rewrite <- E; exact Hread].
  assert (Et : match vnodeWriteBlockToFile demo_crc 0 demo_table TWO_STAGE_COMP demo_block demo_data demo_cdata 4 demo_files with
    | Ret (_, _, _, _, fs) => tfd fs = None | _ => True end) by (vm_compute; exact eq_refl).
  rewrite Hw in Et. unfold target, last_of. by rewrite Et.
Defined.

(** The weighted sum of the values 5, -7, no value, 11 at 1000, 2000, 3000, 4000 is
    -7 times the 2000 to the last, where the sum over the gaps is -9000. *)
Lemma int_statistics_witness :
  getStatistics (pack_elems 8 [1000; 2000; 3000; 4000]) (pack_elems 4 [5; -7; -2147483648; 11]) 4 4 TSDB_DATA_TYPE_INT =
    Ret (mkStats (-7) 11 9 (-14000) 1).
Proof.
  assert (Hk : Forall (in_s 64) [1000; 2000; 3000; 4000]) by (repeat constructor; done).
  assert (Hv : Forall (in_s (8 * 4)) [5; -7; -2147483648; 11]) by (repeat constructor; done).
  refine (eq_trans (int_statistics TSDB_DATA_TYPE_INT 4 [1000; 2000; 3000; 4000] [5; -7; -2147483648; 11] 4 _ Hk Hv eq_refl eq_refl) _).
  - unfold int_type. cbn. tauto.
  - vm_compute. reflexivity.
Defined.
