(* ===== verification/BlockMerge.v ===== *)
(** * The blocks of many tables in the order of the file (system/src/vnodeQueryImpl.c)

    A query of a super table reads the blocks of its tables in the order in which they are
    in the file: [createDataBlocksInfoEx] merges the lists of the tables with a loser tree. *)
From stdpp Require Import sorting.
From S2P Require Import Prelude LoserTree FileBlock.

(** ** The code *)
Record SMeterDataInfo := mkData { numOfBlocks : Z; start : Z; pBlock : list SCompBlock; groupIdx : Z }.
(** [x_meter] is the place of the table in the array that [pMeterDataInfo] points into. *)
Record SMeterDataBlockInfoEx := mkInfoEx { compBlock : SCompBlock; x_meter : Z; x_groupIdx : Z; blockIndex : Z }.
Record SBlockOrderSupporter := mkSupporter {
  numOfMeters : Z; pDataBlockInfoEx : list (list SMeterDataBlockInfoEx); blockIndexArray : list Z; numOfBlocksPerMeter : list Z }.

Definition block_info (s : SBlockOrderSupporter) (table index : Z) : res SMeterDataBlockInfoEx :=
  if (table <? 0) || (index <? 0) then Undef
  else match pDataBlockInfoEx s !! Z.to_nat table with
       | Some l => match l !! Z.to_nat index with Some x => Ret x | None => Undef end
       | None => Undef
       end.

Definition blockAccessOrderComparator (s : SBlockOrderSupporter) (leftTableIndex rightTableIndex : Z) : res Z :=
  let! leftTableBlockIndex := rd1 (blockIndexArray s) leftTableIndex in
  let! rightTableBlockIndex := rd1 (blockIndexArray s) rightTableIndex in
  let! leftBlocks := rd1 (numOfBlocksPerMeter s) leftTableIndex in
  if leftBlocks <? leftTableBlockIndex then Ret 1
  else
    let! rightBlocks := rd1 (numOfBlocksPerMeter s) rightTableIndex in
    if rightBlocks <? rightTableBlockIndex then Ret (-1)
    else
      let! l := block_info s leftTableIndex leftTableBlockIndex in
      let! r := block_info s rightTableIndex rightTableBlockIndex in
      Ret (if b_offset (compBlock r) <? b_offset (compBlock l) then 1 else -1).

(** The blocks of the table at place [j]. *)
Fixpoint table_infos (j : Z) (m : SMeterDataInfo) (k n : nat) : res (list SMeterDataBlockInfoEx) :=
  match n with
  | O => Ret []
  | S n =>
    match pBlock m !! k with
    | None => Undef
    | Some b => let! l := table_infos j m (S k) n in Ret (mkInfoEx b j (groupIdx m) (i32 (start m + Z.of_nat k)) :: l)
    end
  end.

(** The tables that have blocks: the arrays have room for all tables. *)
Fixpoint qualify (j : Z) (ms : list SMeterDataInfo) (cnt : Z) (s : SBlockOrderSupporter) : res (Z * SBlockOrderSupporter) :=
  match ms with
  | [] => Ret (cnt, s)
  | m :: ms =>
    if numOfBlocks m =? 0 then qualify (j + 1) ms cnt s
    else
      let q := numOfMeters s in
      let! nb := wr (numOfBlocksPerMeter s) q [numOfBlocks m] in
      let! l := table_infos j m 0 (Z.to_nat (numOfBlocks m)) in
      qualify (j + 1) ms (i32 (cnt + Z.of_nat (length l))) (mkSupporter (q + 1) (<[Z.to_nat q := l]> (pDataBlockInfoEx s)) (blockIndexArray s) nb)
  end.

Fixpoint merge_loop (n : nat) (s : SBlockOrderSupporter) (t : SLoserTreeInfo) : res (list SMeterDataBlockInfoEx) :=
  match n with
  | O => Ret []
  | S n =>
    let! pos := rd1 (pNode t) 0 in
    let! index := rd1 (blockIndexArray s) pos in
    let! x := block_info s pos index in
    let! blocks := rd1 (numOfBlocksPerMeter s) pos in
    let index := i32 (index + 1) in
    let index := if blocks <=? index then i32 (blocks + 1) else index in
    let! bi := wr (blockIndexArray s) pos [index] in
    let s := mkSupporter (numOfMeters s) (pDataBlockInfoEx s) bi (numOfBlocksPerMeter s) in
    let! t := tLoserTreeAdjust (blockAccessOrderComparator s) (pos + numOfMeters s) t in
    let! out := merge_loop n s t in Ret (x :: out)
  end.

(** [numOfCompBlocks] is the room of the array of the result. *)
Definition createDataBlocksInfoEx (ms : list SMeterDataInfo) (numOfCompBlocks : Z) : res (list SMeterDataBlockInfoEx) :=
  let n := length ms in
  let! '(cnt, s) := qualify 0 ms 0 (mkSupporter 0 (replicate n []) (replicate n 0) (replicate n 0)) in
  if (cnt <=? numOfCompBlocks) && (numOfMeters s <=? Z.of_nat n) then
    let! t := tLoserTreeCreate (blockAccessOrderComparator s) (numOfMeters s) in
    merge_loop (Z.to_nat cnt) s t
  else Exit.

(** ** Merging *)
Abbreviation offset x := (b_offset (compBlock x)).
Abbreviation in_order := (StronglySorted (fun x y => offset x <= offset y)).

(** Always the first block of a list that has none before it. *)
Inductive merges : list (list SMeterDataBlockInfoEx) -> list SMeterDataBlockInfoEx -> Prop :=
| merges_nil rest : (forall q l, rest !! q = Some l -> l = []) -> merges rest []
| merges_cons rest q x l out : rest !! q = Some (x :: l) -> (forall q' x' l', rest !! q' = Some (x' :: l') -> offset x <= offset x') ->
    merges (<[q := l]> rest) out -> merges rest (x :: out).

Lemma merges_from rest out : merges rest out -> forall x, x ∈ out -> exists q l, rest !! q = Some l /\ x ∈ l.
Proof.
  induction 1 as [rest _|rest q x l out Hq _ _ IH]; intros y Hy; [by apply elem_of_nil in Hy|].
  apply elem_of_cons in Hy as [->|Hy]; [exists q, (x :: l); split; [done|by left]|].
  destruct (IH y Hy) as (q' & l' & Hl' & Hin). apply list_lookup_insert_Some in Hl' as [(<- & <- & _)|[_ Hl']]; [exists q, (x :: l); split; [done|by right]|by exists q', l'].
Qed.

Lemma merges_sorted rest out : merges rest out -> (forall q l, rest !! q = Some l -> in_order l) -> in_order out.
Proof.
  induction 1 as [rest _|rest q x l out Hq Hmin Hm IH]; intros Hs; [constructor|]. pose proof (Hs q _ Hq) as Hxl. apply StronglySorted_inv in Hxl as [Hl Hx].
  constructor.
  - apply IH. intros q' l' Hl'. apply list_lookup_insert_Some in Hl' as [(<- & <- & _)|[_ Hl']]; [done|by apply (Hs q')].
  - apply Forall_forall. intros y Hy. destruct (merges_from _ _ Hm y Hy) as (q' & l' & Hl' & Hin). apply list_lookup_insert_Some in Hl' as [(<- & <- & _)|[_ Hl']].
    + rewrite Forall_forall in Hx. by apply Hx.
    + destruct l' as [|x' l']; [by apply elem_of_nil in Hin|]. pose proof (Hmin q' x' l' Hl') as Hle. pose proof (Hs q' _ Hl') as Hsl.
      apply StronglySorted_inv in Hsl as [_ Hx']. apply elem_of_cons in Hin as [->|Hin]; [done|]. rewrite Forall_forall in Hx'. specialize (Hx' y Hin). lia.
Qed.

(** The blocks of a table stay in their order. *)
Lemma merges_filter rest out : merges rest out -> forall tag : nat -> Z, (forall q q' l l', rest !! q = Some l -> rest !! q' = Some l' -> tag q = tag q' -> q = q') ->
  (forall q l, rest !! q = Some l -> Forall (fun x => x_meter x = tag q) l) ->
  forall q l, rest !! q = Some l -> filter (fun x => x_meter x = tag q) out = l.
Proof.
  induction 1 as [rest Hnil|rest q x l out Hq _ _ IH]; intros tag Hinj Htag q0 l0 Hq0; [by rewrite (Hnil _ _ Hq0)|].
  assert (Hlt : (q < length rest)%nat) by (by eapply lookup_lt_Some).
  assert (IH' : forall q' l', <[q := l]> rest !! q' = Some l' -> filter (fun x => x_meter x = tag q') out = l').
  { apply IH.
    - assert (Hold : forall q' l', <[q := l]> rest !! q' = Some l' -> exists l2, rest !! q' = Some l2).
      { intros q' l' Hl'. apply list_lookup_insert_Some in Hl' as [(<- & _ & _)|[_ Hl']]; by eexists. }
      intros q1 q2 l1 l2 H1 H2. destruct (Hold _ _ H1) as [? ?], (Hold _ _ H2) as [? ?]. by eapply Hinj.
    - intros q' l' Hl'. apply list_lookup_insert_Some in Hl' as [(<- & <- & _)|[_ Hl']]; [|by apply Htag]. pose proof (Htag q _ Hq) as Hf. by apply Forall_cons in Hf as [_ ?]. }
  pose proof (Htag q _ Hq) as Hf. apply Forall_cons in Hf as [Hx _]. destruct (decide (q0 = q)) as [->|Hne].
  - assert (l0 = x :: l) as -> by congruence. rewrite filter_cons_True by done. f_equal. apply IH'. by apply list_lookup_insert_eq.
  - rewrite filter_cons_False by (intros E; apply Hne; rewrite Hx in E; symmetry; by eapply Hinj). apply IH'. by rewrite list_lookup_insert_ne.
Qed.

(** ** The state of the merge *)
Definition key (rest : list (list SMeterDataBlockInfoEx)) (a : Z) : option Z :=
  if a <? 0 then None else match rest !! Z.to_nat a with Some (x :: _) => Some (offset x) | _ => None end.
(** A table without blocks comes after the others. *)
Definition before (rest : list (list SMeterDataBlockInfoEx)) (a b : Z) : Prop :=
  match key rest b with None => True | Some v => match key rest a with Some u => u <= v | None => False end end.

Record supports (s : SBlockOrderSupporter) (rest : list (list SMeterDataBlockInfoEx)) : Prop := {
  su_tables : numOfMeters s = Z.of_nat (length rest);
  su_rest : forall q r, rest !! q = Some r -> exists l read, pDataBlockInfoEx s !! q = Some l /\ l = read ++ r /\ numOfBlocksPerMeter s !! q = Some (Z.of_nat (length l)) /\
    blockIndexArray s !! q = Some (match r with [] => Z.of_nat (length l) + 1 | _ => Z.of_nat (length read) end) /\ Z.of_nat (length l) + 1 < 2 ^ 31 }.

Lemma supports_at s rest a : supports s rest -> 0 <= a < Z.of_nat (length rest) -> exists r, rest !! Z.to_nat a = Some r /\
  exists l read, pDataBlockInfoEx s !! Z.to_nat a = Some l /\ l = read ++ r /\ rd1 (numOfBlocksPerMeter s) a = Ret (Z.of_nat (length l)) /\
    rd1 (blockIndexArray s) a = Ret (match r with [] => Z.of_nat (length l) + 1 | _ => Z.of_nat (length read) end) /\ Z.of_nat (length l) + 1 < 2 ^ 31 /\
    forall x r', r = x :: r' -> block_info s a (Z.of_nat (length read)) = Ret x.
Proof.
  intros [_ Hs] Ha. destruct (lookup_lt_is_Some_2 rest (Z.to_nat a)) as [r Hr]; [lia|]. exists r. split; [done|]. destruct (Hs _ r Hr) as (l & read & Hl & -> & Hn & Hb & Hsm).
  exists (read ++ r), read. split; [done|]. split; [done|]. split; [apply rd1_lookup; [lia|done]|]. split; [apply rd1_lookup; [lia|done]|]. split; [done|].
  intros x r' ->. unfold block_info. rewrite !(proj2 (Z.ltb_ge _ _)) by lia. cbn [orb]. by rewrite Hl, Nat2Z.id, list_lookup_middle.
Qed.

Lemma key_at rest a r : 0 <= a -> rest !! Z.to_nat a = Some r -> key rest a = match r with x :: _ => Some (offset x) | [] => None end.
Proof. intros Ha Hr. unfold key. by rewrite (proj2 (Z.ltb_ge _ _)), Hr by lia. Qed.

Lemma supports_ordered s rest : supports s rest -> ordered_by (Z.of_nat (length rest)) (before rest) (blockAccessOrderComparator s).
Proof.
  intros Hs. constructor.
  - intros a b Ha Hb _. unfold blockAccessOrderComparator. destruct (supports_at s rest a Hs Ha) as (ra & Hra & la & da & _ & Ela & Hna & Hia & _ & Hxa).
    destruct (supports_at s rest b Hs Hb) as (rb & Hrb & lb & db & _ & Elb & Hnb & Hib & _ & Hxb). rewrite Hia, Hib, Hna. cbn [rbind].
    unfold before. rewrite (key_at rest a ra), (key_at rest b rb) by (done || lia). destruct ra as [|xa ra].
    { rewrite (proj2 (Z.ltb_lt _ _)) by lia. exists 1. split; [done|]. split; [lia|by destruct rb]. }
    rewrite (proj2 (Z.ltb_ge _ _)) by (rewrite Ela, length_app; cbn; lia). rewrite Hnb. cbn [rbind]. destruct rb as [|xb rb].
    { rewrite (proj2 (Z.ltb_lt _ _)) by lia. exists (-1). split; [done|]. split; [done|lia]. }
    rewrite (proj2 (Z.ltb_ge _ _)) by (rewrite Elb, length_app; cbn; lia). rewrite (Hxa xa ra), (Hxb xb rb) by done. cbn [rbind].
    destruct (Z.ltb_spec (offset xb) (offset xa)); eexists; (split; [done|]); split; intros; lia.
  - intros a b c. unfold before. destruct (key rest a), (key rest b), (key rest c); try done. lia.
  - intros a. unfold before. destruct (key rest a); [lia|done].
Qed.

Lemma before_other rest w r a b : 0 <= w -> a <> w -> b <> w -> before rest a b -> before (<[Z.to_nat w := r]> rest) a b.
Proof.
  intros Hw Ha Hb. assert (E : forall c, c <> w -> key (<[Z.to_nat w := r]> rest) c = key rest c).
  { intros c Hc. unfold key. destruct (Z.ltb_spec c 0); [done|]. rewrite list_lookup_insert_ne by lia. done. }
  unfold before. by rewrite !E.
Qed.

Abbreviation total := (sum_list_with length).
Lemma total_insert (rest : list (list SMeterDataBlockInfoEx)) q x l : rest !! q = Some (x :: l) -> total rest = S (total (<[q := l]> rest)).
Proof.
  intros Hq. rewrite insert_take_drop by (by eapply lookup_lt_Some). rewrite <- (take_drop_middle rest q (x :: l) Hq) at 1.
  rewrite !sum_list_with_app. cbn. lia.
Qed.
Lemma total_some (rest : list (list SMeterDataBlockInfoEx)) n : total rest = S n -> exists q x l, rest !! q = Some (x :: l).
Proof.
  induction rest as [|[|x l] rest IH]; cbn; intros Hn; [done| |by exists 0%nat, x, l]. destruct (IH Hn) as (q & y & l & Hq). by exists (S q), y, l.
Qed.
Lemma total_none (rest : list (list SMeterDataBlockInfoEx)) q l : total rest = 0%nat -> rest !! q = Some l -> l = [].
Proof.
  revert q. induction rest as [|l0 rest IH]; intros q; cbn; intros Hn Hq; [done|]. destruct q as [|q]; [injection Hq as ->; destruct l; [done|cbn in Hn; lia]|].
  apply (IH q); [lia|done].
Qed.

Lemma merge_loop_ok n : forall s t rest, supports s rest -> 1 <= Z.of_nat (length rest) < 2 ^ 30 -> tree_from (Z.of_nat (length rest)) 0 (before rest) t -> n = total rest ->
  exists out, merge_loop n s t = Ret out /\ merges rest out /\ length out = n.
Proof.
  induction n as [|n IH]; intros s t rest Hs Hk Ht En.
  { exists []. split; [done|]. split; [|done]. constructor. intros q l. by apply total_none. }
  pose proof (supports_ordered s rest Hs) as Hord. destruct (tree_winner _ Hk _ _ t Hord Ht) as (w & Hw & Hwk & Hmin).
  assert (Hall : forall q x l, rest !! q = Some (x :: l) -> exists y l', rest !! Z.to_nat w = Some (y :: l') /\ offset y <= offset x).
  { intros q x l Hq. assert (Hlt : (q < length rest)%nat) by (by eapply lookup_lt_Some). specialize (Hmin (Z.of_nat q) ltac:(lia)). unfold before in Hmin.
    rewrite (key_at rest (Z.of_nat q) (x :: l)) in Hmin by (try lia; by rewrite Nat2Z.id). unfold key in Hmin. rewrite (proj2 (Z.ltb_ge w 0)) in Hmin by lia.
    destruct (rest !! Z.to_nat w) as [[|y l']|]; [done| |done]. by exists y, l'. }
  destruct (total_some rest n ltac:(done)) as (q0 & x0 & l0 & Hq0). destruct (Hall q0 x0 l0 Hq0) as (x & r & Hx & _).
  destruct (supports_at s rest w Hs Hwk) as (r' & Hr' & l & read & Hl & El & Hn & Hi & Hsm & Hbi). assert (r' = x :: r) as -> by congruence.
  set (W := Z.to_nat w) in *. set (index := if Z.of_nat (length l) <=? i32 (Z.of_nat (length read) + 1) then i32 (Z.of_nat (length l) + 1) else i32 (Z.of_nat (length read) + 1)).
  set (s' := mkSupporter (numOfMeters s) (pDataBlockInfoEx s) (<[W := index]> (blockIndexArray s)) (numOfBlocksPerMeter s)).
  assert (Hlen : Z.of_nat (length l) = Z.of_nat (length read) + 1 + Z.of_nat (length r)) by (rewrite El, length_app; cbn; lia).
  destruct (su_rest _ _ Hs W _ Hx) as (l3 & read3 & _ & _ & _ & Hb & _). pose proof (lookup_lt_Some _ _ _ Hb) as Hblen.
  assert (Hs' : supports s' (<[W := r]> rest)).
  { constructor; [cbn; rewrite length_insert; by destruct Hs|]. intros q rq Hq. cbn [pDataBlockInfoEx numOfBlocksPerMeter blockIndexArray s']. destruct (decide (q = W)) as [->|Hne].
    - rewrite list_lookup_insert_eq in Hq by (by eapply lookup_lt_Some). injection Hq as <-. destruct (su_rest _ _ Hs W _ Hx) as (l2 & read2 & Hl2 & El2 & Hn2 & _ & _).
      assert (l2 = l) as -> by congruence. exists l, (read ++ [x]). split; [done|]. split; [by rewrite El, <- app_assoc|]. split; [done|]. split; [|done].
      rewrite list_lookup_insert_eq by done. f_equal. unfold index. rewrite !(wraps_id 32) by (try lia; unfold in_s; lia). rewrite length_app. cbn [length].
      destruct r as [|y r]; cbn [length] in Hlen; [rewrite (proj2 (Z.leb_le _ _)) by lia; lia|rewrite (proj2 (Z.leb_gt _ _)) by lia; lia].
    - rewrite list_lookup_insert_ne in Hq by done. rewrite list_lookup_insert_ne by done. by apply Hs. }
  assert (Hlr : length (<[W := r]> rest) = length rest) by apply length_insert.
  pose proof (supports_ordered s' _ Hs') as Hord'. rewrite Hlr in Hord'.
  destruct (adjust_winner _ Hk (before rest) _ _ t w Hord' Ht Hw Hwk) as (t' & Ht1 & Ht2); [intros a b Ha Hb2; apply before_other; [lia|done|done]|].
  destruct (IH s' t' (<[W := r]> rest) Hs') as (out & Hout & Hm & Hol); [by rewrite Hlr|by rewrite Hlr|rewrite (total_insert rest W x r Hx) in En; lia|].
  exists (x :: out). split; [|split; [|by cbn; rewrite Hol]].
  - cbn [merge_loop]. rewrite (rd1_lookup (pNode t) 0 w) by (lia || exact Hw). cbn [rbind]. rewrite Hi. cbn [rbind]. rewrite (Hbi x r eq_refl). cbn [rbind]. rewrite Hn. cbn [rbind].
    fold index. rewrite wr_one by (lia || done). cbn [rbind]. fold W. fold s'. rewrite (su_tables _ _ Hs'), Hlr, Ht1. cbn [rbind]. by rewrite Hout.
  - econstructor; [exact Hx| |exact Hm]. intros q' x' l' Hq'. destruct (Hall q' x' l' Hq') as (y & l2 & Hy & Hle). congruence.
Qed.

(** ** The tables that have blocks *)
Definition infos_of (j : Z) (m : SMeterDataInfo) : list SMeterDataBlockInfoEx :=
  imap (fun k b => mkInfoEx b j (groupIdx m) (i32 (start m + Z.of_nat k))) (take (Z.to_nat (numOfBlocks m)) (pBlock m)).
Definition data_ok (m : SMeterDataInfo) : Prop := 0 <= numOfBlocks m <= Z.of_nat (length (pBlock m)).

Fixpoint qualified (j : Z) (ms : list SMeterDataInfo) : list (Z * SMeterDataInfo) :=
  match ms with
  | [] => []
  | m :: ms => if numOfBlocks m =? 0 then qualified (j + 1) ms else (j, m) :: qualified (j + 1) ms
  end.
Definition lists_of (qs : list (Z * SMeterDataInfo)) : list (list SMeterDataBlockInfoEx) := map (fun q => infos_of q.1 q.2) qs.

Lemma infos_length j m : data_ok m -> Z.of_nat (length (infos_of j m)) = numOfBlocks m.
Proof. intros Hm. unfold infos_of. rewrite length_imap, length_take. unfold data_ok in Hm. lia. Qed.

Lemma table_infos_ok j m n : forall k, (k + n <= length (pBlock m))%nat ->
  table_infos j m k n = Ret (imap (fun i b => mkInfoEx b j (groupIdx m) (i32 (start m + Z.of_nat (k + i)))) (take n (drop k (pBlock m)))).
Proof.
  induction n as [|n IH]; intros k Hk; [done|]. cbn [table_infos]. destruct (lookup_lt_is_Some_2 (pBlock m) k) as [b Hb]; [lia|].
  rewrite Hb, IH by lia. cbn [rbind]. rewrite (drop_S _ b k Hb). cbn [take imap]. f_equal. f_equal; [by rewrite Nat.add_0_r|]. apply imap_ext. intros i x _. unfold compose. do 2 f_equal. lia.
Qed.

Lemma elem_qualified ms : forall j i m, (i, m) ∈ qualified j ms <-> j <= i /\ ms !! Z.to_nat (i - j) = Some m /\ numOfBlocks m <> 0.
Proof.
  induction ms as [|m0 ms IH]; intros j i m; cbn [qualified].
  - split; [by intros ?%elem_of_nil|]. intros (_ & Hm & _). by rewrite lookup_nil in Hm.
  - assert (Hrec : (i, m) ∈ qualified (j + 1) ms <-> j + 1 <= i /\ (m0 :: ms) !! Z.to_nat (i - j) = Some m /\ numOfBlocks m <> 0).
    { rewrite IH. split; intros (Hi & Hm & Hn); (split; [done|]); (split; [|done]).
      - replace (Z.to_nat (i - j)) with (S (Z.to_nat (i - (j + 1)))) by lia. done.
      - replace (Z.to_nat (i - j)) with (S (Z.to_nat (i - (j + 1)))) in Hm by lia. done. }
    assert (Hhead : (m0 :: ms) !! Z.to_nat (j - j) = Some m0) by (by rewrite Z.sub_diag).
    destruct (Z.eqb_spec (numOfBlocks m0) 0) as [E|E]; rewrite ?elem_of_cons, Hrec.
    + split; [intros (? & ? & ?); split; [lia|done]|]. intros (Hi & Hm & Hn). destruct (Z.eq_dec i j) as [->|]; [congruence|]. split; [lia|done].
    + split; [intros [[= -> ->]|(? & ? & ?)]; [split; [lia|done]|split; [lia|done]]|]. intros (Hi & Hm & Hn). destruct (Z.eq_dec i j) as [->|]; [left; congruence|right]. split; [lia|done].
Qed.
Lemma qualified_distinct ms : forall j q q' a b, qualified j ms !! q = Some a -> qualified j ms !! q' = Some b -> a.1 = b.1 -> q = q'.
Proof.
  induction ms as [|m0 ms IH]; intros j q q' a b Ha Hb E; cbn [qualified] in *; [by rewrite lookup_nil in Ha|]. destruct (numOfBlocks m0 =? 0); [by eapply IH|].
  assert (Hge : forall q c, qualified (j + 1) ms !! q = Some c -> j < c.1).
  { intros q0 [i m] Hc. apply list_elem_of_lookup_2, elem_qualified in Hc. cbn. lia. }
  destruct q as [|q], q' as [|q']; cbn in Ha, Hb; [done| | |f_equal; by eapply IH].
  - injection Ha as <-. apply Hge in Hb. cbn in E. lia.
  - injection Hb as <-. apply Hge in Ha. cbn in E. lia.
Qed.

Lemma qualify_ok ms : forall N j cnt s qs, Forall data_ok ms -> numOfMeters s = Z.of_nat (length qs) -> (length qs + length ms <= N)%nat ->
  length (pDataBlockInfoEx s) = N -> length (numOfBlocksPerMeter s) = N ->
  (forall q l, lists_of qs !! q = Some l -> pDataBlockInfoEx s !! q = Some l /\ numOfBlocksPerMeter s !! q = Some (Z.of_nat (length l))) ->
  0 <= cnt -> cnt + Z.of_nat (total (lists_of (qualified j ms))) < 2 ^ 31 ->
  exists s', qualify j ms cnt s = Ret (cnt + Z.of_nat (total (lists_of (qualified j ms))), s') /\ numOfMeters s' = Z.of_nat (length (qs ++ qualified j ms)) /\
    blockIndexArray s' = blockIndexArray s /\
    forall q l, lists_of (qs ++ qualified j ms) !! q = Some l -> pDataBlockInfoEx s' !! q = Some l /\ numOfBlocksPerMeter s' !! q = Some (Z.of_nat (length l)).
Proof.
  induction ms as [|m ms IH]; intros N j cnt s qs Hok Hq HN H1 H2 Hs Hc Hsm; cbn [qualify qualified].
  - exists s. rewrite app_nil_r. cbn. rewrite Z.add_0_r. done.
  - apply Forall_cons in Hok as [Hm Hok]. cbn [length] in HN. cbn [qualified] in Hsm. destruct (Z.eqb_spec (numOfBlocks m) 0) as [E|E]; [by apply (IH N); try done; lia|].
    pose proof (infos_length j m Hm) as Hil. unfold data_ok in Hm. rewrite Hq, wr_one by lia. cbn [rbind]. rewrite table_infos_ok by lia. cbn [rbind]. rewrite drop_0. cbn [Nat.add].
    change (imap _ _) with (infos_of j m). rewrite Nat2Z.id. cbn [lists_of map sum_list_with fst snd] in Hsm. fold (lists_of (qualified (j + 1) ms)) in Hsm.
    rewrite (wraps_id 32) by (try lia; unfold in_s; lia).
    destruct (IH N (j + 1) (cnt + Z.of_nat (length (infos_of j m))) (mkSupporter (Z.of_nat (length qs) + 1) (<[length qs := infos_of j m]> (pDataBlockInfoEx s)) (blockIndexArray s)
      (<[length qs := numOfBlocks m]> (numOfBlocksPerMeter s))) (qs ++ [(j, m)])) as (s' & Hst & K1 & K2 & K3); try done; cbn [numOfMeters pDataBlockInfoEx numOfBlocksPerMeter blockIndexArray].
    + rewrite length_app. cbn. lia.
    + rewrite length_app. cbn. lia.
    + by rewrite length_insert.
    + by rewrite length_insert.
    + intros q l. unfold lists_of. rewrite map_app. cbn [map]. intros Hl. apply lookup_app_Some in Hl as [Hl|[Hge Hl]].
      * assert (q < length qs)%nat by (apply lookup_lt_Some in Hl; by rewrite length_map in Hl). rewrite !list_lookup_insert_ne by lia. by apply Hs.
      * rewrite length_map in Hge, Hl. destruct (q - length qs)%nat eqn:Ed; [|done]. assert (q = length qs) as -> by lia. injection Hl as <-. cbn [fst snd].
        rewrite !list_lookup_insert_eq by lia. by rewrite Hil.
    + lia.
    + lia.
    + exists s'. rewrite Hst. rewrite <- app_assoc in K1, K3. split; [|done]. cbn [lists_of map sum_list_with fst snd]. fold (lists_of (qualified (j + 1) ms)). do 2 f_equal. lia.
Qed.

Lemma qualified_length ms : forall j, (length (qualified j ms) <= length ms)%nat.
Proof. induction ms as [|m ms IH]; intros j; cbn [qualified length]; [done|]. specialize (IH (j + 1)). destruct (_ =? 0); cbn [length]; lia. Qed.
Lemma total_member (rest : list (list SMeterDataBlockInfoEx)) q l : rest !! q = Some l -> (length l <= total rest)%nat.
Proof.
  revert q. induction rest as [|l0 rest IH]; intros q Hq; [done|]. destruct q as [|q]; cbn; [injection Hq as ->; lia|]. specialize (IH q Hq). lia.
Qed.

Lemma infos_sorted j m : StronglySorted (fun a b => b_offset a <= b_offset b) (pBlock m) -> in_order (infos_of j m).
Proof.
  unfold infos_of. intros Hs. rewrite <- (take_drop (Z.to_nat (numOfBlocks m)) (pBlock m)) in Hs. apply StronglySorted_app_1_l in Hs.
  assert (Hf : forall f : nat -> SCompBlock -> SMeterDataBlockInfoEx, (forall k b, compBlock (f k b) = b) -> in_order (imap f (take (Z.to_nat (numOfBlocks m)) (pBlock m)))); [|by apply Hf].
  induction Hs as [|b l Hl IH Hb]; intros f Hf; cbn [imap]; constructor; [by apply IH; intros; apply Hf|]. apply Forall_forall. intros x Hx.
  apply list_elem_of_lookup in Hx as (i & Hi). rewrite list_lookup_imap in Hi. destruct (l !! i) as [c|] eqn:Hc; [|done]. injection Hi as <-. unfold compose.
  rewrite !Hf. rewrite Forall_forall in Hb. apply Hb. by eapply list_elem_of_lookup_2.
Qed.

Lemma merge_qualified ms numOfCompBlocks : Forall data_ok ms -> Z.of_nat (length ms) < 2 ^ 30 ->
  Z.of_nat (total (lists_of (qualified 0 ms))) <= numOfCompBlocks -> numOfCompBlocks < 2 ^ 31 - 1 ->
  exists out, createDataBlocksInfoEx ms numOfCompBlocks = Ret out /\ merges (lists_of (qualified 0 ms)) out.
Proof.
  intros Hok Hlen Hroom Hsm. set (qs := qualified 0 ms) in *. set (rest := lists_of qs) in *. set (n := length ms). unfold createDataBlocksInfoEx. fold n.
  destruct (qualify_ok ms n 0 0 (mkSupporter 0 (replicate n []) (replicate n 0) (replicate n 0)) [] Hok) as (s & Hq & Hnum & Hbi & Hs); try done; try lia; cbn [pDataBlockInfoEx numOfBlocksPerMeter].
  { by rewrite length_replicate. } { by rewrite length_replicate. } { fold qs rest. lia. }
  cbn [app] in Hnum, Hs. fold qs in Hq, Hnum, Hs. fold rest in Hq, Hs. rewrite Hq. cbn [rbind]. rewrite Z.add_0_l. pose proof (qualified_length ms 0) as Hql. fold qs n in Hql.
  assert (Hlr : length rest = length qs) by (unfold rest, lists_of; apply length_map).
  rewrite !(proj2 (Z.leb_le _ _)) by lia. cbn [andb]. rewrite Nat2Z.id, Hnum. destruct (decide (length qs = 0%nat)) as [Eq|Eq].
  { rewrite Eq. exists []. assert (Er : rest = []) by (apply length_zero_iff_nil; lia). rewrite Er. split; [reflexivity|]. constructor. intros q l Hl. by rewrite lookup_nil in Hl. }
  assert (Hsup : supports s rest).
  { constructor; [by rewrite Hnum, Hlr|]. intros q r Hr. destruct (Hs q r Hr) as [Hl Hn]. exists r, []. split; [done|]. split; [done|]. split; [done|].
    assert (Hqn : (q < n)%nat) by (apply lookup_lt_Some in Hr; lia). pose proof (total_member rest q r Hr). split; [|lia]. rewrite Hbi. cbn [blockIndexArray]. rewrite lookup_replicate_2 by done.
    destruct r; [|done]. exfalso. unfold rest, lists_of in Hr. apply list_lookup_fmap_Some in Hr as ([i m] & E & Ha). apply list_elem_of_lookup_2 in Ha. unfold qs in Ha.
    apply elem_qualified in Ha as (_ & Hm & Hnz). cbn in E. rewrite Forall_forall in Hok. pose proof (infos_length i m (Hok m ltac:(by eapply list_elem_of_lookup_2))) as Hil. rewrite <- E in Hil. cbn in Hil. lia. }
  rewrite <- Hlr. pose proof (supports_ordered s rest Hsup) as Hord. assert (Hk : 1 <= Z.of_nat (length rest) < 2 ^ 30) by (unfold n in Hql; lia). destruct (create_ok _ Hk _ _ Hord) as (t & -> & Ht). cbn [rbind].
  destruct (merge_loop_ok (total rest) s t rest Hsup Hk Ht eq_refl) as (out & -> & Hm & _). by exists out.
Qed.

(** C33.  The blocks of all tables are merged: each once, those of a table in their order; if
    the tables have theirs in the order of the file the result is in the order of the file. *)
Theorem blocks_in_order ms numOfCompBlocks : Forall data_ok ms -> Z.of_nat (length ms) < 2 ^ 30 ->
  Z.of_nat (total (lists_of (qualified 0 ms))) <= numOfCompBlocks -> numOfCompBlocks < 2 ^ 31 - 1 ->
  exists out, createDataBlocksInfoEx ms numOfCompBlocks = Ret out /\
    (forall j m, ms !! j = Some m -> filter (fun x => x_meter x = Z.of_nat j) out = infos_of (Z.of_nat j) m) /\
    Forall (fun x => 0 <= x_meter x < Z.of_nat (length ms)) out /\
    (Forall (fun m => StronglySorted (fun a b => b_offset a <= b_offset b) (pBlock m)) ms -> in_order out).
Proof.
  intros Hok Hlen Hroom Hsm. destruct (merge_qualified ms numOfCompBlocks Hok Hlen Hroom Hsm) as (out & Hc & Hm). exists out. split; [done|].
  set (qs := qualified 0 ms) in *. set (rest := lists_of qs) in *.
  assert (Hrest : forall q l, rest !! q = Some l -> exists i m, qs !! q = Some (i, m) /\ l = infos_of i m /\ 0 <= i /\ ms !! Z.to_nat i = Some m).
  { intros q l Hl. apply list_lookup_fmap_Some in Hl as ([i m] & -> & Ha). exists i, m. split; [done|]. split; [done|].
    apply list_elem_of_lookup_2, elem_qualified in Ha as (? & Hm' & _). by rewrite Z.sub_0_r in Hm'. }
  assert (Hmeter : forall i m x, x ∈ infos_of i m -> x_meter x = i).
  { intros i m x Hx. apply list_elem_of_lookup in Hx as (k & Hk). unfold infos_of in Hk. rewrite list_lookup_imap in Hk. destruct (_ !! k); [|done]. by injection Hk as <-. }
  assert (Hfrom : forall x, x ∈ out -> exists i m, (i, m) ∈ qs /\ x_meter x = i /\ 0 <= i /\ ms !! Z.to_nat i = Some m).
  { intros x Hx. destruct (merges_from _ _ Hm x Hx) as (q & l & Hl & Hin). destruct (Hrest q l Hl) as (i & m & Hq & -> & Hi & Hms). exists i, m.
    split; [by eapply list_elem_of_lookup_2|]. split; [by eapply Hmeter|done]. }
  split; [|split].
  - intros j m Hj. destruct (Z.eq_dec (numOfBlocks m) 0) as [E|E].
    + unfold infos_of. rewrite E. cbn. apply filter_none, Forall_forall. intros x Hx Ex. destruct (Hfrom x Hx) as (i & m' & Hq & Ei & Hi & Hms).
      apply elem_qualified in Hq as (_ & _ & Hnz). assert (Z.to_nat i = j) by lia. congruence.
    + assert (Hq : (Z.of_nat j, m) ∈ qs) by (apply elem_qualified; rewrite Z.sub_0_r, Nat2Z.id; split; [lia|done]). apply list_elem_of_lookup in Hq as (q & Hq).
      set (tag := fun q => match qs !! q with Some a => a.1 | None => 0 end). assert (Et : tag q = Z.of_nat j) by (unfold tag; by rewrite Hq).
      assert (Hfil : filter (fun x => x_meter x = tag q) out = infos_of (Z.of_nat j) m); [|by rewrite Et in Hfil]. apply (merges_filter rest out Hm tag).
      * intros q1 q2 l1 l2 H1 H2. destruct (Hrest _ _ H1) as (i1 & m1 & E1 & _), (Hrest _ _ H2) as (i2 & m2 & E2 & _). unfold tag. rewrite E1, E2. by eapply qualified_distinct.
      * intros q1 l1 H1. destruct (Hrest _ _ H1) as (i1 & m1 & E1 & -> & _). unfold tag. rewrite E1. apply Forall_forall. intros x Hx. by eapply Hmeter.
      * unfold rest, lists_of. by rewrite list_lookup_fmap, Hq.
  - apply Forall_forall. intros x Hx. destruct (Hfrom x Hx) as (i & m & _ & -> & Hi & Hms). apply lookup_lt_Some in Hms. lia.
  - intros Hsort. apply (merges_sorted rest out Hm). intros q l Hl. destruct (Hrest q l Hl) as (i & m & _ & -> & _ & Hms). apply infos_sorted.
    rewrite Forall_forall in Hsort. apply Hsort. by eapply list_elem_of_lookup_2.
Qed.

(** Three tables, of which one has no blocks. *)
Definition block_at (offset : Z) : SCompBlock := mkBlock 0 offset 0 1 0 0 0 0 0.
Definition some_tables : list SMeterDataInfo :=
  [mkData 3 0 (map block_at [512; 900; 2000]) 0; mkData 0 0 [] 0; mkData 2 5 (map block_at [700; 1500]) 1].
Lemma blocks_in_order_witness : Forall data_ok some_tables /\ exists out, createDataBlocksInfoEx some_tables 5 = Ret out /\ in_order out /\
  filter (fun x => x_meter x = 2) out = infos_of 2 (mkData 2 5 (map block_at [700; 1500]) 1).
Proof.
  assert (Hok : Forall data_ok some_tables) by (repeat constructor; cbn; lia). split; [exact Hok|].
  destruct (blocks_in_order some_tables 5 Hok) as (out & Hc & Hf & _ & Hs); [cbn; lia|vm_compute; discriminate|lia|].
  exists out. split; [exact Hc|]. split; [|exact (Hf 2%nat _ eq_refl)]. apply Hs. repeat constructor; cbn; lia.
Defined.
Lemma blocks_merged : createDataBlocksInfoEx some_tables 5 = Ret (concat [[mkInfoEx (block_at 512) 0 0 0]; [mkInfoEx (block_at 700) 2 1 5]; [mkInfoEx (block_at 900) 0 0 1];
  [mkInfoEx (block_at 1500) 2 1 6]; [mkInfoEx (block_at 2000) 0 0 2]]).
Proof. vm_compute. reflexivity. Qed.
