(* ===== verification/HeadFile.v ===== *)
(** * The head file of a vnode (system/src/vnodeFile.c, vnodeUtil.c)

    The head file says where the blocks of each table are: behind a header of
    512 bytes an array of offsets with a checksum, one for each table, then for each
    table that has blocks an [SCompInfo], its blocks and their checksum.  A commit
    reads the old head file and writes a new one. *)
From S2P Require Import Prelude CompBase CompInt CompBool CompTime CompXor Tscompression Crc32c ColTypes FileBlock.

Definition TSDB_FILE_HEADER_LEN := 512.
Definition TSDB_VNODE_DELIMITER := 0xF00AFA0F.
Definition TSDB_CODE_FILE_CORRUPTED := 87.
Definition SIZEOF_SCompHeader := 8.
Definition SIZEOF_SCompBlock := 56.
Definition SIZEOF_SCompInfo := 24.

(** ** What is in the file *)

(** The bit of [last] is the lowest one of the first eight bytes; [reserved] and the
    gap before [keyFirst] are zero. *)
Definition block_bytes (b : SCompBlock) : list Z :=
  le_bytes 8 (b_last b mod 2 + 2 * b_offset b) ++ le_bytes 4 (b_algorithm b mod 2 ^ 8 + 2 ^ 8 * b_numOfPoints b) ++
  le_bytes 4 (b_sversion b) ++ le_bytes 4 (b_len b) ++ le_bytes 2 (b_numOfCols b) ++ replicate 18 0 ++
  le_bytes 8 (b_keyFirst b) ++ le_bytes 8 (b_keyLast b).
Definition umember (l : list Z) (a n : nat) : Z := le_val (take n (drop a l)).
Definition block_of (l : list Z) : SCompBlock :=
  mkBlock (wraps 1 (umember l 0 8)) (wraps 63 (umember l 0 8 / 2)) (wraps 8 (umember l 8 4)) (wraps 24 (umember l 8 4 / 2 ^ 8))
    (member l 12 4) (member l 16 4) (umember l 20 2) (member l 40 8) (member l 48 8).
Definition zero_block : SCompBlock := mkBlock 0 0 0 0 0 0 0 0 0.

Definition blocks_bytes (l : list SCompBlock) : list Z := concat (map block_bytes l).
Fixpoint blocks_of (n : nat) (l : list Z) : list SCompBlock :=
  match n with O => [] | S n => block_of (take 56 l) :: blocks_of n (drop 56 l) end.

(** Without the checksum. *)
Record SCompInfo := mkCompInfo { i_uid : Z; i_last : Z; i_numOfBlocks : Z; i_delimiter : Z }.
Definition info_bytes (i : SCompInfo) : list Z :=
  le_bytes 8 (i_uid i) ++ le_bytes 8 (i_last i mod 2 + 2 * (i_numOfBlocks i mod 2 ^ 62)) ++ le_bytes 4 (i_delimiter i).
Definition info_of (l : list Z) : SCompInfo :=
  mkCompInfo (umember l 0 8) (wraps 1 (umember l 8 8)) (wraps 62 (umember l 8 8 / 2)) (umember l 16 4).

(** The offsets of [n] tables. *)
Definition offsets_of (n : nat) (l : list Z) : list Z := map (fun i => member l (8 * i) 8) (seq 0 n).

(** [pVnode->meterList\[sid\]]: its state, whether it has a cache, its newest key and the
    newest one in the files. *)
Record STable := mkTable { t_obj : SMeterObj; t_deleting : bool; t_cached : bool; t_lastKey : Z; t_lastKeyOnFile : Z }.

Record SMeterInfo := mkInfo {
  tempHeadOffset : Z; compInfoOffset : Z; oldCompBlockOffset : Z; oldNumOfBlocks : Z; newNumOfBlocks : Z; finalNumOfBlocks : Z;
  committedPoints : Z; mi_last : Z; changed : bool; lastBlock : SCompBlock }.
Definition zero_info : SMeterInfo := mkInfo 0 0 0 0 0 0 0 0 false zero_block.
Definition set_place (at_ : Z) (mi : SMeterInfo) : SMeterInfo :=
  mkInfo (tempHeadOffset mi) at_ (oldCompBlockOffset mi) (oldNumOfBlocks mi) (newNumOfBlocks mi) (oldNumOfBlocks mi + newNumOfBlocks mi)
    (committedPoints mi) (mi_last mi) (changed mi) (lastBlock mi).

Section Head.
Context (crc32c : Z -> Z -> list Z -> Z -> res Z) (heap : Z).

(** ** Reading the old file: [None] is [goto _over] *)

Definition vnodeGetHeadFileHeaderInfo (f : fd) : Z * fd :=
  let '(got, f) := read 8 (lseek_set (TSDB_FILE_HEADER_LEN / 4) f) in (i64 (le_val (over got (replicate 8 0))), f).

Definition header_size (maxSessions : nat) : Z := SIZEOF_SCompHeader * Z.of_nat maxSessions + SIZEOF_TSCKSUM.
Definition read_header (maxSessions : nat) (f : fd) : res (option (list Z * fd)) :=
  let tmsize := header_size maxSessions in
  let '(got, f) := read tmsize (lseek_set TSDB_FILE_HEADER_LEN f) in
  if Z.of_nat (length got) <=? 0 then Ret None
  else
    let tmem := over got (replicate (Z.to_nat tmsize) 0) in
    let! ok := taosCheckChecksumWhole crc32c heap tmem tmsize in
    if ok : bool then Ret (Some (offsets_of maxSessions tmem, f)) else Ret None.

Definition read_info (f : fd) (t : STable) (offset : Z) : res (option (fd * SMeterInfo)) :=
  if offset <=? 0 then Ret (Some (f, zero_info))
  else
    let '(got, f) := read SIZEOF_SCompInfo (lseek_set offset f) in
    if negb (Z.of_nat (length got) =? SIZEOF_SCompInfo) then Ret None
    else
      let! ok := taosCheckChecksumWhole crc32c heap got SIZEOF_SCompInfo in
      if negb ok then Ret None
      else
        let i := info_of got in
        if uid (t_obj t) =? i_uid i then
          let '(last, f) :=
            if negb (i_last i =? 0) then
              let '(b, f) := read SIZEOF_SCompBlock (lseek_cur (SIZEOF_SCompBlock * (i_numOfBlocks i - 1)) f) in
              (block_of (over b (block_bytes zero_block)), f)
            else (zero_block, f) in
          Ret (Some (f, mkInfo 0 0 (offset + SIZEOF_SCompInfo) (i_numOfBlocks i) 0 0 0 (i_last i) false last))
        else Ret (Some (f, zero_info)).

Fixpoint read_infos (f : fd) (tabs : list (option STable)) (offsets : list Z) : res (option (fd * list SMeterInfo)) :=
  match tabs, offsets with
  | [], _ => Ret (Some (f, []))
  | x :: tabs, o :: offsets =>
    let! r := match x with
              | Some t => if t_deleting t then Ret (Some (f, zero_info)) else read_info f t o
              | None => Ret (Some (f, zero_info))
              end in
    match r with
    | None => Ret None
    | Some (f, mi) =>
      let! r := read_infos f tabs offsets in
      match r with None => Ret None | Some (f, mis) => Ret (Some (f, mi :: mis)) end
    end
  | _ :: _, [] => Undef
  end.

Definition max_blocks (mis : list SMeterInfo) : Z := foldl (fun n mi => if n <? oldNumOfBlocks mi then i32 (oldNumOfBlocks mi) else n) 1 mis.

(** ** Writing the new file *)

(** [vnodeOpenCommitFiles]: the header of a new file, given its 512 bytes, and no
    blocks of any table. *)
Definition open_head (file_header : list Z) (maxSessions : nat) : res fd :=
  let size := header_size maxSessions in
  let! r := taosCalcChecksumAppend crc32c heap 0 (replicate (Z.to_nat size) 0) size in
  match r with Some temp => Ret (write temp (write file_header (mkFd [] 0))) | None => Undef end.

Fixpoint place_infos (tabs : list (option STable)) (offsets : list Z) (mis : list SMeterInfo) (at_ : Z) : res (list Z * list SMeterInfo) :=
  match tabs, offsets, mis with
  | [], _, _ => Ret ([], [])
  | None :: tabs, _ :: offsets, mi :: mis => let! '(os, l) := place_infos tabs offsets mis at_ in Ret (0 :: os, mi :: l)
  | Some t :: tabs, o :: offsets, mi :: mis =>
    let mi := set_place at_ mi in
    if 0 <? finalNumOfBlocks mi then
      let! '(os, l) := place_infos tabs offsets mis (i32 (at_ + (SIZEOF_SCompInfo + finalNumOfBlocks mi * SIZEOF_SCompBlock + SIZEOF_TSCKSUM))) in
      Ret (at_ :: os, mi :: l)
    else let! '(os, l) := place_infos tabs offsets mis at_ in Ret (o :: os, mi :: l)
  | _, _, _ => Undef
  end.

(** The old blocks are copied; the result has their checksum. *)
Definition copy_blocks (hfd nfd : fd) (maxOldBlocks : Z) (mi : SMeterInfo) : res (Z * fd * fd) :=
  if oldNumOfBlocks mi =? 0 then Ret (0, hfd, nfd)
  else
    let hfd := lseek_set (oldCompBlockOffset mi) hfd in
    let n := oldNumOfBlocks mi * SIZEOF_SCompBlock in
    let '(got, hfd) := read n hfd in
    if changed mi then
      let! mem := wr (replicate (Z.to_nat (SIZEOF_SCompBlock * maxOldBlocks)) 0) 0 got in
      let! l := rd mem 0 (i32 n) in
      let! c := taosCalcChecksum crc32c heap 0 l (i32 n) in Ret (c, hfd, write l nfd)
    else
      let '(c, hfd) := read SIZEOF_TSCKSUM hfd in Ret (le_val (over c (replicate 4 0)), hfd, write got nfd).

Definition write_info (hfd nfd : fd) (hmem : list Z) (maxOldBlocks : Z) (t : STable) (mi : SMeterInfo) : res (fd * fd) :=
  let i := mkCompInfo (uid (t_obj t)) (mi_last mi) (finalNumOfBlocks mi) TSDB_VNODE_DELIMITER in
  let! r := taosCalcChecksumAppend crc32c heap 0 (info_bytes i ++ replicate 4 0) SIZEOF_SCompInfo in
  let! l := match r with Some l => Ret l | None => Undef end in
  let nfd := write l (lseek_set (compInfoOffset mi) nfd) in
  let! '(chksum, hfd, nfd) := copy_blocks hfd nfd maxOldBlocks mi in
  let! '(chksum, nfd) :=
    (if negb (newNumOfBlocks mi =? 0) then
       let! l := rd hmem (tempHeadOffset mi) (newNumOfBlocks mi * SIZEOF_SCompBlock) in
       let! c := taosCalcChecksum crc32c heap chksum l (newNumOfBlocks mi * SIZEOF_SCompBlock) in Ret (c, write l nfd)
     else Ret (chksum, nfd)) in
  Ret (hfd, write (le_bytes 4 chksum) nfd).

Fixpoint write_infos (hfd nfd : fd) (hmem : list Z) (maxOldBlocks : Z) (tabs : list (option STable)) (mis : list SMeterInfo) : res (fd * fd) :=
  match tabs, mis with
  | [], _ => Ret (hfd, nfd)
  | Some t :: tabs, mi :: mis =>
    let! '(hfd, nfd) := if finalNumOfBlocks mi <=? 0 then Ret (hfd, nfd) else write_info hfd nfd hmem maxOldBlocks t mi in
    write_infos hfd nfd hmem maxOldBlocks tabs mis
  | None :: tabs, _ :: mis => write_infos hfd nfd hmem maxOldBlocks tabs mis
  | _ :: _, [] => Undef
  end.

Definition vnodeUpdateHeadFileHeader (f : fd) (totalStorage : Z) : fd :=
  write (le_bytes 8 totalStorage) (lseek_set (TSDB_FILE_HEADER_LEN / 4) f).

(** From "calculate the new compInfoOffset" on. *)
Definition write_head (maxOldBlocks : Z) (hfd nfd : fd) (hmem : list Z) (totalStorage : Z) (tabs : list (option STable)) (offsets : list Z) (mis : list SMeterInfo)
    : res (fd * fd * list SMeterInfo) :=
  let tmsize := header_size (length tabs) in
  let! '(offsets, mis) := place_infos tabs offsets mis (TSDB_FILE_HEADER_LEN + tmsize) in
  let nfd := lseek_set TSDB_FILE_HEADER_LEN (vnodeUpdateHeadFileHeader nfd totalStorage) in
  let! r := taosCalcChecksumAppend crc32c heap 0 (pack_elems 8 offsets ++ replicate 4 0) tmsize in
  let! tmem := match r with Some l => Ret l | None => Undef end in
  let! '(hfd, nfd) := write_infos hfd (write tmem nfd) hmem maxOldBlocks tabs mis in Ret (hfd, nfd, mis).

(** ** What a query reads of a table: a code, or how many blocks there are, and the blocks *)
Definition vnodeGetCompBlockInfo (head : list Z) (maxSessions : nat) (sid : nat) (uid : Z) : res (Z * list SCompBlock) :=
  let tmsize := header_size maxSessions in
  let '(got, f) := read tmsize (lseek_set TSDB_FILE_HEADER_LEN (mkFd head 0)) in
  if negb (Z.of_nat (length got) =? tmsize) then Ret (- TSDB_CODE_FILE_CORRUPTED, [])
  else
    let! ok := taosCheckChecksumWhole crc32c heap got tmsize in
    if negb ok then Ret (- TSDB_CODE_FILE_CORRUPTED, [])
    else
      let! offset := match offsets_of maxSessions got !! sid with Some o => Ret o | None => Undef end in
      if offset =? 0 then Ret (0, [])
      else
        let '(got, f) := read SIZEOF_SCompInfo (lseek_set offset f) in
        let compInfo := over got (replicate 24 0) in
        let! ok := taosCheckChecksumWhole crc32c heap compInfo SIZEOF_SCompInfo in
        if negb ok then Ret (- TSDB_CODE_FILE_CORRUPTED, [])
        else
          let i := info_of compInfo in
          if i_numOfBlocks i <=? 0 then Ret (0, [])
          else if negb (i_uid i =? uid) then Ret (0, [])
          else
            let n := i_numOfBlocks i * SIZEOF_SCompBlock in
            let '(got, f) := read n f in
            let mem := over got (replicate (Z.to_nat n) 0) in
            let '(c, f) := read SIZEOF_TSCKSUM f in
            let! sum := taosCalcChecksum crc32c heap 0 mem n in
            if negb (le_val (over c (replicate 4 0)) =? sum) then Ret (- TSDB_CODE_FILE_CORRUPTED, [])
            else Ret (i_numOfBlocks i, blocks_of (Z.to_nat (i_numOfBlocks i)) mem).
End Head.
