(* ===== verification/HeadWrite.v ===== *)
(** * Reading a head file and writing a new one *)
From S2P Require Import Prelude CompBase CompInt CompBool CompTime CompXor Tscompression Crc32c ColTypes FileBlock BlockWrite HeadFile.

(** * A head file that is written

    [head_ok] is what a head file looks like: for each table the offset of its
    entry, and behind it the blocks with their checksum. *)

(** ** Structures and their bytes *)
Lemma length_block_bytes b : length (block_bytes b) = 56%nat.
Proof. unfold block_bytes. by rewrite !length_app, !length_le_bytes, length_replicate. Qed.
Lemma block_bytes_ok b : bytes_ok (block_bytes b).
Proof. unfold block_bytes. rewrite !bytes_ok_app. repeat split; try apply le_bytes_ok. by apply Forall_replicate. Qed.
Lemma length_info_bytes i : length (info_bytes i) = 20%nat.
Proof. unfold info_bytes. by rewrite !length_app, !length_le_bytes. Qed.
Lemma info_bytes_ok i : bytes_ok (info_bytes i).
Proof. unfold info_bytes. rewrite !bytes_ok_app. repeat split; apply le_bytes_ok. Qed.

Lemma length_blocks_bytes l : Z.of_nat (length (blocks_bytes l)) = 56 * Z.of_nat (length l).
Proof. unfold blocks_bytes. induction l as [|b l IH]; [done|]. cbn [map concat length]. rewrite length_app, length_block_bytes. lia. Qed.
Lemma blocks_bytes_ok l : bytes_ok (blocks_bytes l).
Proof. unfold blocks_bytes. induction l as [|b l IH]; [constructor|]. apply bytes_ok_app. split; [apply block_bytes_ok|done]. Qed.
Lemma blocks_bytes_one b : blocks_bytes [b] = block_bytes b.
Proof. unfold blocks_bytes. cbn [map concat]. apply app_nil_r. Qed.
Lemma blocks_bytes_app a b : blocks_bytes (a ++ b) = blocks_bytes a ++ blocks_bytes b.
Proof. unfold blocks_bytes. by rewrite map_app, concat_app. Qed.

(** The bits of [last] and the number beside it. *)
Lemma flag_bits w last x : 0 < w -> last = 0 \/ last = -1 ->
  wraps 1 ((last mod 2 + 2 * x) mod 2 ^ (w + 1)) = last /\ ((last mod 2 + 2 * x) mod 2 ^ (w + 1)) / 2 = x mod 2 ^ w.
Proof.
  intros Hw Hl. set (b := last mod 2). assert (Hb : 0 <= b < 2) by (apply Z.mod_pos_bound; lia).
  assert (E : (b + 2 * x) mod 2 ^ (w + 1) = b + 2 * (x mod 2 ^ w)).
  { rewrite Z.pow_add_r by lia. change (2 ^ 1) with 2. symmetry. apply (Z.mod_unique _ _ (x / 2 ^ w)).
    - left. pose proof (Z.mod_pos_bound x (2 ^ w) ltac:(apply Z.pow_pos_nonneg; lia)). nia.
    - pose proof (Z.div_mod x (2 ^ w) ltac:(apply Z.pow_nonzero; lia)). nia. }
  rewrite E. split.
  - rewrite (wraps_congr 1 _ b (x mod 2 ^ w)) by (change (2 ^ 1) with 2; lia). unfold b. by destruct Hl as [-> | ->].
  - rewrite (Z.mul_comm 2), Z.div_add by lia. rewrite (Z.div_small b 2) by lia. lia.
Qed.

Record block_ok (b : SCompBlock) : Prop := {
  bk_last : b_last b = 0 \/ b_last b = -1;
  bk_offset : in_s 63 (b_offset b); bk_algorithm : in_s 8 (b_algorithm b); bk_points : in_s 24 (b_numOfPoints b);
  bk_sversion : in_s 32 (b_sversion b); bk_len : in_s 32 (b_len b); bk_cols : in_u 16 (b_numOfCols b);
  bk_first : in_s 64 (b_keyFirst b); bk_keyLast : in_s 64 (b_keyLast b) }.

Lemma block_of_bytes b : block_ok b -> block_of (block_bytes b) = b.
Proof.
  intros []. unfold block_of.
  assert (E0 : umember (block_bytes b) 0 8 = (b_last b mod 2 + 2 * b_offset b) mod 2 ^ (63 + 1)).
  { transitivity (le_val (le_bytes 8 (b_last b mod 2 + 2 * b_offset b))); [done|]. by rewrite le_val_bytes. }
  assert (E1 : umember (block_bytes b) 8 4 = (b_algorithm b mod 2 ^ 8 + 2 ^ 8 * b_numOfPoints b) mod 2 ^ 32).
  { transitivity (le_val (le_bytes 4 (b_algorithm b mod 2 ^ 8 + 2 ^ 8 * b_numOfPoints b))); [done|]. by rewrite le_val_bytes. }
  destruct (flag_bits 63 (b_last b) (b_offset b) ltac:(lia) bk_last0) as [F1 F2]. rewrite E0, F1, F2, E1.
  change (b_offset b mod 2 ^ 63) with (wrapu 63 (b_offset b)). rewrite wraps_wrapu, wraps_id by (done || lia).
  set (a := b_algorithm b mod 2 ^ 8). assert (Ha : 0 <= a < 2 ^ 8) by (apply Z.mod_pos_bound; lia).
  assert (E2 : (a + 2 ^ 8 * b_numOfPoints b) mod 2 ^ 32 = a + 2 ^ 8 * (b_numOfPoints b mod 2 ^ 24)).
  { symmetry. apply (Z.mod_unique _ _ (b_numOfPoints b / 2 ^ 24)).
    - left. pose proof (Z.mod_pos_bound (b_numOfPoints b) (2 ^ 24) ltac:(lia)). lia.
    - pose proof (Z.div_mod (b_numOfPoints b) (2 ^ 24) ltac:(lia)). lia. }
  rewrite E2, (wraps_congr 8 _ a (b_numOfPoints b mod 2 ^ 24)) by lia. unfold a at 1. change (b_algorithm b mod 2 ^ 8) with (wrapu 8 (b_algorithm b)).
  rewrite wraps_wrapu, wraps_id by (done || lia). rewrite (Z.mul_comm (2 ^ 8)), Z.div_add, (Z.div_small a) by lia. rewrite Z.add_0_l.
  change (b_numOfPoints b mod 2 ^ 24) with (wrapu 24 (b_numOfPoints b)). rewrite wraps_wrapu, wraps_id by (done || lia).
  assert (E3 : member (block_bytes b) 12 4 = b_sversion b).
  { transitivity (wraps 32 (le_val (le_bytes 4 (b_sversion b)))); [done|]. rewrite (le_val_wraps 4) by lia. by apply wraps_id. }
  assert (E4 : member (block_bytes b) 16 4 = b_len b).
  { transitivity (wraps 32 (le_val (le_bytes 4 (b_len b)))); [done|]. rewrite (le_val_wraps 4) by lia. by apply wraps_id. }
  assert (E5 : umember (block_bytes b) 20 2 = b_numOfCols b).
  { transitivity (le_val (le_bytes 2 (b_numOfCols b))); [done|]. rewrite le_val_bytes. by apply wrapu_id. }
  assert (E6 : member (block_bytes b) 40 8 = b_keyFirst b).
  { transitivity (wraps 64 (le_val (le_bytes 8 (b_keyFirst b)))); [done|]. rewrite (le_val_wraps 8) by lia. by apply wraps_id. }
  assert (E7 : member (block_bytes b) 48 8 = b_keyLast b).
  { transitivity (wraps 64 (le_val (le_bytes 8 (b_keyLast b)))); [done|]. rewrite (le_val_wraps 8) by lia. by apply wraps_id. }
  rewrite E3, E4, E5, E6, E7. by destruct b.
Qed.

Lemma blocks_of_bytes l post : Forall block_ok l -> blocks_of (length l) (blocks_bytes l ++ post) = l.
Proof.
  induction 1 as [|b l Hb Hl IH]; [done|]. cbn [length blocks_of]. unfold blocks_bytes. cbn [map concat]. fold (blocks_bytes l).
  rewrite <- app_assoc, take_app_length', drop_app_length' by (by rewrite length_block_bytes). by rewrite block_of_bytes, IH.
Qed.

Lemma info_of_bytes i post : in_u 64 (i_uid i) -> i_last i = 0 \/ i_last i = -1 -> 0 <= i_numOfBlocks i < 2 ^ 61 -> in_u 32 (i_delimiter i) ->
  info_of (info_bytes i ++ post) = i.
Proof.
  intros Hu Hl Hn Hd. unfold info_of.
  assert (E0 : umember (info_bytes i ++ post) 0 8 = i_uid i).
  { transitivity (le_val (le_bytes 8 (i_uid i))); [done|]. rewrite le_val_bytes. by apply wrapu_id. }
  assert (E1 : umember (info_bytes i ++ post) 8 8 = (i_last i mod 2 + 2 * (i_numOfBlocks i mod 2 ^ 62)) mod 2 ^ (63 + 1)).
  { transitivity (le_val (le_bytes 8 (i_last i mod 2 + 2 * (i_numOfBlocks i mod 2 ^ 62)))); [done|]. by rewrite le_val_bytes. }
  assert (E2 : umember (info_bytes i ++ post) 16 4 = i_delimiter i).
  { transitivity (le_val (le_bytes 4 (i_delimiter i))); [done|]. rewrite le_val_bytes. by apply wrapu_id. }
  rewrite E0, E1, E2. destruct (flag_bits 63 (i_last i) (i_numOfBlocks i mod 2 ^ 62) ltac:(lia) Hl) as [-> ->].
  rewrite (Z.mod_small (i_numOfBlocks i)) by lia. rewrite Z.mod_small by lia. rewrite wraps_id; [by destruct i|lia|unfold in_s; lia].
Qed.

Lemma offsets_of_bytes offsets post : Forall (in_s 64) offsets -> offsets_of (length offsets) (pack_elems 8 offsets ++ post) = offsets.
Proof.
  intros Hok. unfold offsets_of. apply list_eq. intros j. rewrite list_lookup_fmap. destruct (offsets !! j) as [o|] eqn:Ej.
  - pose proof (lookup_lt_Some _ _ _ Ej) as Hj. rewrite lookup_seq_lt by done. cbn [fmap option_fmap option_map]. f_equal.
    unfold member. rewrite <- (take_drop_middle _ _ _ Ej). rewrite pack_elems_app, pack_elems_cons, <- !app_assoc.
    rewrite drop_app_length' by (rewrite length_pack_elems, length_take; lia).
    rewrite take_app_length' by (by rewrite length_le_bytes). change (8 * Z.of_nat 8) with 64.
    rewrite (le_val_wraps 8) by lia. apply wraps_id; [lia|]. by eapply (Forall_lookup_1 _ _ _ _ Hok).
  - apply lookup_ge_None in Ej. by rewrite lookup_seq_ge by done.
Qed.

(** ** The entries of a head file *)

(** [bs] is in the file at [offset]. *)
Definition lies (file : list Z) (offset : Z) (bs : list Z) : Prop := exists pre post, file = pre ++ bs ++ post /\ offset = Z.of_nat (length pre).

Lemma lies_more file more offset bs : lies file offset bs -> lies (file ++ more) offset bs.
Proof. intros (pre & post & -> & ->). exists pre, (post ++ more). by rewrite <- !app_assoc. Qed.
Lemma lies_part file offset a b c : lies file offset (a ++ b ++ c) -> lies file (offset + Z.of_nat (length a)) b.
Proof. intros (pre & post & -> & ->). exists (pre ++ a), (c ++ post). rewrite <- !app_assoc. split; [done|]. rewrite length_app. lia. Qed.
Lemma lies_head file offset a b : lies file offset (a ++ b) -> lies file offset a.
Proof. intros (pre & post & -> & ->). exists pre, (b ++ post). by rewrite <- !app_assoc. Qed.
Lemma lies_tail file offset a b : lies file offset (a ++ b) -> lies file (offset + Z.of_nat (length a)) b.
Proof. intros H. apply (lies_part file offset a b []). by rewrite app_nil_r. Qed.
Lemma lies_pos file offset bs : lies file offset bs -> 0 <= offset /\ offset + Z.of_nat (length bs) <= Z.of_nat (length file).
Proof. intros (pre & post & -> & ->). rewrite !length_app. lia. Qed.

Lemma read_lies n file offset bs : lies file offset bs -> n = Z.of_nat (length bs) -> read n (mkFd file offset) = (bs, mkFd file (offset + n)).
Proof. intros (pre & post & E & Eo) Hn. exact (read_at n (mkFd file offset) pre bs post E Eo Hn). Qed.
Lemma seek_lies file offset bs f : content f = file -> lies file offset bs -> lseek_set offset f = mkFd file offset.
Proof. intros <- H. destruct (lies_pos _ _ _ H). unfold lseek_set. by rewrite (proj2 (Z.ltb_ge _ _)) by lia. Qed.

Record entry := mkEntry { e_uid : Z; e_last : Z; e_blocks : list SCompBlock }.
Record entry_ok (e : entry) : Prop := {
  en_uid : in_u 64 (e_uid e); en_last : e_last e = 0 \/ e_last e = -1;
  en_blocks : e_blocks e <> []; en_size : 56 * Z.of_nat (length (e_blocks e)) < 2 ^ 31; en_ok : Forall block_ok (e_blocks e) }.

Section Entries.
Context {crc32c : Z -> Z -> list Z -> Z -> res Z} {heap : Z} `{!RunningSum crc32c heap}.

Definition info_entry (e : entry) : SCompInfo := mkCompInfo (e_uid e) (e_last e) (Z.of_nat (length (e_blocks e))) TSDB_VNODE_DELIMITER.
Definition blocks_sealed (l : list SCompBlock) : list Z := seal (crc32c := crc32c) (heap := heap) (blocks_bytes l).
Definition entry_bytes (e : entry) : list Z := seal (crc32c := crc32c) (heap := heap) (info_bytes (info_entry e)) ++ blocks_sealed (e_blocks e).

Lemma length_entry_bytes e : Z.of_nat (length (entry_bytes e)) = 28 + 56 * Z.of_nat (length (e_blocks e)).
Proof.
  unfold entry_bytes, blocks_sealed. rewrite length_app, !length_seal, length_info_bytes. pose proof (length_blocks_bytes (e_blocks e)). lia.
Qed.

(** What an offset of the header says of a table. *)
Definition entry_at (file : list Z) (offset : Z) (x : option entry) : Prop :=
  match x with None => offset = 0 | Some e => entry_ok e /\ 0 < offset /\ lies file offset (entry_bytes e) end.

Definition head_ok (file : list Z) (ents : list (option entry)) : Prop :=
  exists hdr offsets post, file = hdr ++ seal (crc32c := crc32c) (heap := heap) (pack_elems 8 offsets) ++ post /\
    length hdr = 512%nat /\ Forall (in_s 64) offsets /\ Forall2 (entry_at file) offsets ents.

Lemma seal_check p : bytes_ok p -> taosCheckChecksumWhole crc32c heap (seal (crc32c := crc32c) (heap := heap) p) (Z.of_nat (length p) + 4) = Ret true.
Proof.
  intros Hp. unfold seal. rewrite run_check; [by rewrite Z.eqb_refl|done|]. by apply run_range.
Qed.
Lemma seal_append p n : bytes_ok p -> n = Z.of_nat (length p) + 4 ->
  taosCalcChecksumAppend crc32c heap 0 (p ++ replicate 4 0) n = Ret (Some (seal (crc32c := crc32c) (heap := heap) p)).
Proof.
  intros Hp ->. rewrite run_append.
  - rewrite Nat2Z.id, take_app_length. rewrite drop_ge by (rewrite length_app, length_replicate; lia). by rewrite app_nil_r.
  - apply bytes_ok_app. split; [done|]. by repeat constructor.
  - lia.
  - rewrite length_app, length_replicate. lia.
Qed.
End Entries.

(** ** Reading the file *)
Section Reading.
Context {crc32c : Z -> Z -> list Z -> Z -> res Z} {heap : Z} `{!RunningSum crc32c heap}.

Lemma header_length offsets : Z.of_nat (length (seal (crc32c := crc32c) (heap := heap) (pack_elems 8 offsets))) = header_size (length offsets) /\
  header_size (length offsets) = Z.of_nat (length (pack_elems 8 offsets)) + 4.
Proof. unfold header_size, SIZEOF_SCompHeader, SIZEOF_TSCKSUM. rewrite length_seal, length_pack_elems. lia. Qed.

Lemma read_header_spec f ents : head_ok (content f) ents ->
  exists offsets f', read_header crc32c heap (length ents) f = Ret (Some (offsets, f')) /\ content f' = content f /\
    Forall2 (entry_at (crc32c := crc32c) (heap := heap) (content f)) offsets ents.
Proof.
  intros (hdr & offsets & post & E & Hh & Hs & Hents). pose proof (Forall2_length _ _ _ Hents) as Hn. destruct (header_length offsets) as [Hl Hp].
  assert (Hlies : lies (content f) TSDB_FILE_HEADER_LEN (seal (crc32c := crc32c) (heap := heap) (pack_elems 8 offsets))).
  { exists hdr, post. split; [done|]. by rewrite Hh. }
  exists offsets. unfold read_header. rewrite <- Hn, (seek_lies _ _ _ f eq_refl Hlies).
  rewrite (read_lies _ _ _ _ Hlies) by done.
  rewrite (proj2 (Z.leb_gt _ _)) by (unfold header_size, SIZEOF_SCompHeader, SIZEOF_TSCKSUM in *; lia).
  rewrite over_full by (rewrite length_replicate; lia). rewrite Hp, seal_check by apply pack_elems_ok. cbn [rbind].
  unfold seal at 1. rewrite offsets_of_bytes by done. eexists. split; [done|]. by split.
Qed.

(** What is read of a table. *)
Definition old_info (t : STable) (offset : Z) (x : option entry) : SMeterInfo :=
  match x with
  | Some e =>
    if uid (t_obj t) =? e_uid e then
      mkInfo 0 0 (offset + SIZEOF_SCompInfo) (Z.of_nat (length (e_blocks e))) 0 0 0 (e_last e) false
        (if negb (e_last e =? 0) then default zero_block (last (e_blocks e)) else zero_block)
    else zero_info
  | None => zero_info
  end.
Definition old_infos (x : option STable) (offset : Z) (e : option entry) : SMeterInfo :=
  match x with Some t => if t_deleting t then zero_info else old_info t offset e | None => zero_info end.

Lemma info_entry_length e : Z.of_nat (length (seal (crc32c := crc32c) (heap := heap) (info_bytes (info_entry e)))) = SIZEOF_SCompInfo.
Proof. by rewrite length_seal, length_info_bytes. Qed.
Lemma info_of_entry e : entry_ok e -> info_of (seal (crc32c := crc32c) (heap := heap) (info_bytes (info_entry e))) = info_entry e.
Proof.
  intros [Hu Hl Hb Hs Hok]. unfold seal. apply info_of_bytes; cbn; [done|done|lia|]. unfold in_u, TSDB_VNODE_DELIMITER. lia.
Qed.

Lemma read_info_spec f t offset x : entry_at (crc32c := crc32c) (heap := heap) (content f) offset x ->
  exists f', read_info crc32c heap f t offset = Ret (Some (f', old_info t offset x)) /\ content f' = content f.
Proof.
  intros Hx. unfold read_info, entry_at in *. destruct x as [e|]; [|subst offset; by exists f].
  destruct Hx as (Hok & Hpos & Hl). rewrite (proj2 (Z.leb_gt _ _)) by lia. unfold entry_bytes in Hl.
  pose proof (lies_head _ _ _ _ Hl) as Hinfo. pose proof (lies_tail _ _ _ _ Hl) as Hblocks. rewrite info_entry_length in Hblocks.
  rewrite (seek_lies _ _ _ f eq_refl Hinfo), (read_lies _ _ _ _ Hinfo) by (by rewrite info_entry_length). rewrite info_entry_length.
  change (SIZEOF_SCompInfo =? SIZEOF_SCompInfo) with true. cbn [negb].
  replace SIZEOF_SCompInfo with (Z.of_nat (length (info_bytes (info_entry e))) + 4) at 2 by (by rewrite length_info_bytes).
  rewrite seal_check by apply info_bytes_ok. cbn [rbind negb]. rewrite info_of_entry by done. cbn [info_entry i_uid i_last i_numOfBlocks].
  unfold old_info. destruct (uid (t_obj t) =? e_uid e); [|by eexists]. destruct Hok as [Hu Hlast Hne Hs Hbok].
  destruct (negb (e_last e =? 0)) eqn:El; [|by eexists].
  destruct (exists_last Hne) as (bs & b & Eb). rewrite Eb in *. rewrite last_snoc. cbn [default].
  unfold blocks_sealed, seal in Hblocks. rewrite blocks_bytes_app, blocks_bytes_one, <- app_assoc in Hblocks. apply lies_part in Hblocks.
  unfold lseek_cur. cbn [offs].
  assert (Hblk : lies (content f) (offset + SIZEOF_SCompInfo + SIZEOF_SCompBlock * (Z.of_nat (length (bs ++ [b])) - 1)) (block_bytes b)).
  { rewrite length_blocks_bytes in Hblocks.
    rewrite length_app. cbn [length]. unfold SIZEOF_SCompBlock. replace (56 * (Z.of_nat (length bs + 1) - 1)) with (56 * Z.of_nat (length bs)) by lia. done. }
  rewrite (seek_lies (content f) _ (block_bytes b) (mkFd (content f) (offset + SIZEOF_SCompInfo)) eq_refl Hblk).
  rewrite (read_lies SIZEOF_SCompBlock _ _ _ Hblk) by (by rewrite length_block_bytes).
  rewrite over_full by (by rewrite !length_block_bytes). apply Forall_app in Hbok as [_ Hb]. apply Forall_cons in Hb as [Hb _].
  rewrite block_of_bytes by done. by eexists.
Qed.

Fixpoint infos_of (tabs : list (option STable)) (offsets : list Z) (ents : list (option entry)) : list SMeterInfo :=
  match tabs, offsets, ents with
  | x :: tabs, o :: offsets, e :: ents => old_infos x o e :: infos_of tabs offsets ents
  | _, _, _ => []
  end.

Lemma read_infos_spec tabs : forall offsets ents f, Forall2 (entry_at (crc32c := crc32c) (heap := heap) (content f)) offsets ents ->
  length tabs = length ents ->
  exists f', read_infos crc32c heap f tabs offsets = Ret (Some (f', infos_of tabs offsets ents)) /\ content f' = content f.
Proof.
  induction tabs as [|x tabs IH]; intros offsets ents f He Hl.
  - destruct ents; [|done]. by exists f.
  - destruct ents as [|e ents]; [done|]. apply Forall2_cons_inv_r in He as (o & offsets' & Ho & He & ->). injection Hl as Hl.
    assert (Hx : exists f', match x with
        | Some t => if t_deleting t then Ret (Some (f, zero_info)) else read_info crc32c heap f t o
        | None => Ret (Some (f, zero_info)) end = Ret (Some (f', old_infos x o e)) /\ content f' = content f).
    { unfold old_infos. destruct x as [t|]; [|by eexists]. destruct (t_deleting t); [by eexists|]. by apply read_info_spec. }
    destruct Hx as (f1 & Hx & Hf1). cbn [read_infos]. rewrite Hx. cbn [rbind].
    destruct (IH offsets' ents f1) as (f2 & -> & Hf2); [by rewrite Hf1|done|]. cbn [rbind].
    exists f2. split; [done|congruence].
Qed.

(** A query gets the blocks of its table. *)
Lemma get_blocks_spec file ents sid x uid : head_ok (crc32c := crc32c) (heap := heap) file ents -> ents !! sid = Some x ->
  vnodeGetCompBlockInfo crc32c heap file (length ents) sid uid =
    Ret match x with
        | Some e => if e_uid e =? uid then (Z.of_nat (length (e_blocks e)), e_blocks e) else (0, [])
        | None => (0, [])
        end.
Proof.
  intros (hdr & offsets & post & E & Hh & Hs & Hents) Hx. pose proof (Forall2_length _ _ _ Hents) as Hn. destruct (header_length offsets) as [Hl Hp].
  assert (Hlies : lies file TSDB_FILE_HEADER_LEN (seal (crc32c := crc32c) (heap := heap) (pack_elems 8 offsets))).
  { exists hdr, post. split; [done|]. by rewrite Hh. }
  unfold vnodeGetCompBlockInfo. rewrite <- Hn, (seek_lies _ _ _ (mkFd file 0) eq_refl Hlies).
  rewrite (read_lies _ _ _ _ Hlies) by done. rewrite Hl, Z.eqb_refl. cbn [negb].
  rewrite Hp, seal_check by apply pack_elems_ok. cbn [rbind negb].
  unfold seal at 1. rewrite offsets_of_bytes by done. destruct (Forall2_lookup_r _ _ _ _ _ Hents Hx) as (o & Ho & Hat). rewrite Ho. cbn [rbind].
  unfold entry_at in Hat. destruct x as [e|]; [|subst o; done]. destruct Hat as (Hok & Hpos & He). rewrite (proj2 (Z.eqb_neq _ _)) by lia.
  unfold entry_bytes in He. pose proof (lies_head _ _ _ _ He) as Hinfo. pose proof (lies_tail _ _ _ _ He) as Hblocks. rewrite info_entry_length in Hblocks.
  cbn [content]. rewrite (seek_lies file _ _ (mkFd file _) eq_refl Hinfo), (read_lies _ _ _ _ Hinfo) by (by rewrite info_entry_length).
  rewrite over_full by (by rewrite length_seal, length_info_bytes).
  replace SIZEOF_SCompInfo with (Z.of_nat (length (info_bytes (info_entry e))) + 4) at 1 by (by rewrite length_info_bytes).
  rewrite seal_check by apply info_bytes_ok. cbn [rbind negb]. rewrite info_of_entry by done. cbn [info_entry i_uid i_last i_numOfBlocks].
  destruct Hok as [Hu Hlast Hne Hsz Hbok]. rewrite (proj2 (Z.leb_gt _ _)) by (destruct (e_blocks e); [done|cbn; lia]).
  destruct (e_uid e =? uid); [|done]. cbn [negb]. cbn [content offs]. set (n := Z.of_nat (length (e_blocks e)) * SIZEOF_SCompBlock).
  assert (En : n = Z.of_nat (length (blocks_bytes (e_blocks e)))) by (rewrite length_blocks_bytes; unfold n, SIZEOF_SCompBlock; lia).
  unfold blocks_sealed, seal in Hblocks. pose proof (lies_head _ _ _ _ Hblocks) as Hb1. pose proof (lies_tail _ _ _ _ Hblocks) as Hb2.
  rewrite (read_lies n _ _ _ Hb1) by done. rewrite <- En in Hb2. rewrite (read_lies SIZEOF_TSCKSUM _ _ _ Hb2) by (by rewrite length_le_bytes).
  rewrite !over_full by (rewrite ?length_le_bytes, ?length_replicate; lia || done).
  rewrite run_calc by (try apply blocks_bytes_ok; done || lia). cbn [rbind]. rewrite En, Nat2Z.id, firstn_all.
  rewrite le_val_bytes. change (_ mod _) with (wrapu 32 (run_sum 0 (blocks_bytes (e_blocks e)))). rewrite wrapu_id by (apply run_range; [done|apply blocks_bytes_ok]).
  rewrite Z.eqb_refl. cbn [negb]. rewrite Nat2Z.id. pose proof (blocks_of_bytes (e_blocks e) [] Hbok) as Hbs. rewrite app_nil_r in Hbs. by rewrite Hbs.
Qed.
End Reading.

(** * A commit writes a new head file *)

Section New.
Context {crc32c : Z -> Z -> list Z -> Z -> res Z} {heap : Z} `{!RunningSum crc32c heap}.
Abbreviation sealed_blocks l := (blocks_sealed (crc32c := crc32c) (heap := heap) l).
Abbreviation bytes_of e := (entry_bytes (crc32c := crc32c) (heap := heap) e).

(** The blocks of the table: those it keeps, which are in the old file, and those the
    commit has put into [hmem]. *)
Record meter_ready (head hmem : list Z) (maxOld : Z) (t : STable) (mi : SMeterInfo) (e : entry) (old new : list SCompBlock) : Prop := {
  mr_entry : entry_ok e;
  mr_uid : e_uid e = uid (t_obj t);
  mr_last : e_last e = mi_last mi;
  mr_blocks : e_blocks e = old ++ new;
  mr_old : oldNumOfBlocks mi = Z.of_nat (length old);
  mr_new : newNumOfBlocks mi = Z.of_nat (length new);
  mr_final : finalNumOfBlocks mi = Z.of_nat (length (e_blocks e));
  mr_max : Z.of_nat (length old) <= maxOld;
  mr_there : old <> [] -> lies head (oldCompBlockOffset mi) (if changed mi then blocks_bytes old else sealed_blocks old);
  mr_hmem : new <> [] -> rd hmem (tempHeadOffset mi) (56 * Z.of_nat (length new)) = Ret (blocks_bytes new) }.

Lemma copy_blocks_spec head hmem maxOld t mi e old new hfd nfd : meter_ready head hmem maxOld t mi e old new -> content hfd = head -> offs nfd = file_size nfd ->
  exists hfd' nfd', copy_blocks crc32c heap hfd nfd maxOld mi = Ret (run_sum 0 (blocks_bytes old), hfd', nfd') /\
    content hfd' = head /\ content nfd' = content nfd ++ blocks_bytes old /\ offs nfd' = file_size nfd'.
Proof.
  intros Hr Hh Hn. pose proof Hr as []. unfold copy_blocks. rewrite mr_old0.
  destruct (Z.eqb_spec (Z.of_nat (length old)) 0) as [E|E].
  { destruct old; [|done]. exists hfd, nfd. cbn. unfold blocks_bytes. cbn. rewrite run_nil, app_nil_r. done. }
  assert (Hne : old <> []) by (by destruct old). specialize (mr_there0 Hne).
  assert (El : Z.of_nat (length old) * SIZEOF_SCompBlock = Z.of_nat (length (blocks_bytes old))) by (rewrite length_blocks_bytes; unfold SIZEOF_SCompBlock; lia).
  assert (Hlen : Z.of_nat (length (blocks_bytes old)) < 2 ^ 31).
  { rewrite length_blocks_bytes. destruct mr_entry0 as [_ _ _ Hsz _]. rewrite mr_blocks0, length_app in Hsz. lia. }
  assert (Hblk : lies head (oldCompBlockOffset mi) (blocks_bytes old)) by (destruct (changed mi); [done|by eapply lies_head]).
  rewrite (seek_lies head _ _ hfd Hh Hblk), El, (read_lies _ _ _ _ Hblk) by done.
  assert (Hw : write (blocks_bytes old) nfd = mkFd (content nfd ++ blocks_bytes old) (file_size nfd + Z.of_nat (length (blocks_bytes old)))) by (by apply write_here).
  assert (Hsize : file_size nfd + Z.of_nat (length (blocks_bytes old)) = file_size (write (blocks_bytes old) nfd)).
  { rewrite Hw. unfold file_size. cbn. rewrite length_app. lia. }
  destruct (changed mi).
  - unfold wr. rewrite bool_decide_true by (rewrite length_replicate; unfold SIZEOF_SCompBlock; rewrite length_blocks_bytes; lia).
    cbn [rbind]. rewrite wraps_id by (try lia; unfold in_s; lia). change (take (Z.to_nat 0) ?l) with (@nil Z). cbn [app].
    rewrite (rd_take_head _ (blocks_bytes old)) by (done || apply take_app_length). cbn [rbind]. rewrite run_calc by (try apply blocks_bytes_ok; done || lia). cbn [rbind].
    rewrite Nat2Z.id, firstn_all. eexists _, _. split; [done|]. split; [done|]. rewrite <- Hsize, Hw. done.
  - unfold blocks_sealed, seal in mr_there0. apply lies_tail in mr_there0.
    rewrite (read_lies SIZEOF_TSCKSUM _ _ _ mr_there0) by (by rewrite length_le_bytes). rewrite over_full by (by rewrite length_le_bytes).
    rewrite le_val_bytes. change (_ mod _) with (wrapu 32 (run_sum (crc32c := crc32c) (heap := heap) 0 (blocks_bytes old))).
    rewrite wrapu_id by (by apply run_range; [|apply blocks_bytes_ok]).
    eexists _, _. split; [done|]. split; [done|]. rewrite <- Hsize, Hw. done.
Qed.

Lemma write_info_spec head hmem maxOld t mi e old new hfd nfd : meter_ready head hmem maxOld t mi e old new -> content hfd = head ->
  compInfoOffset mi = file_size nfd ->
  exists hfd' nfd', write_info crc32c heap hfd nfd hmem maxOld t mi = Ret (hfd', nfd') /\ content hfd' = head /\ content nfd' = content nfd ++ bytes_of e.
Proof.
  intros Hr Hh Hoff. pose proof Hr as []. unfold write_info.
  assert (Ei : mkCompInfo (uid (t_obj t)) (mi_last mi) (finalNumOfBlocks mi) TSDB_VNODE_DELIMITER = info_entry e).
  { unfold info_entry. by rewrite mr_uid0, mr_last0, mr_final0. }
  rewrite Ei, seal_append by (try apply info_bytes_ok; by rewrite length_info_bytes). cbn [rbind]. set (l := seal (info_bytes (info_entry e))).
  assert (Hseek : lseek_set (compInfoOffset mi) nfd = lseek_end nfd).
  { rewrite Hoff. unfold lseek_set, lseek_end. rewrite (proj2 (Z.ltb_ge _ _)) by (unfold file_size; lia). done. }
  rewrite Hseek, write_end. set (nfd1 := mkFd _ _).
  destruct (copy_blocks_spec head hmem maxOld t mi e old new hfd nfd1 Hr Hh) as (hfd2 & nfd2 & -> & Hh2 & Hc2 & Ho2).
  { unfold nfd1, file_size. cbn [offs content]. rewrite length_app. lia. }
  cbn [rbind]. rewrite mr_new0.
  assert (Hnew : exists nfd3, (if negb (Z.of_nat (length new) =? 0) then
       let! l := rd hmem (tempHeadOffset mi) (Z.of_nat (length new) * SIZEOF_SCompBlock) in
       let! c := taosCalcChecksum crc32c heap (run_sum 0 (blocks_bytes old)) l (Z.of_nat (length new) * SIZEOF_SCompBlock) in Ret (c, write l nfd2)
     else Ret (run_sum 0 (blocks_bytes old), nfd2)) = Ret (run_sum 0 (blocks_bytes (e_blocks e)), nfd3) /\
     content nfd3 = content nfd1 ++ blocks_bytes (e_blocks e) /\ offs nfd3 = file_size nfd3).
  { rewrite mr_blocks0, blocks_bytes_app. destruct (Z.eqb_spec (Z.of_nat (length new)) 0) as [E|E]; cbn [negb].
    - destruct new; [|done]. exists nfd2. rewrite !app_nil_r. done.
    - assert (Hne : new <> []) by (by destruct new). specialize (mr_hmem0 Hne).
      replace (Z.of_nat (length new) * SIZEOF_SCompBlock) with (56 * Z.of_nat (length new)) by (unfold SIZEOF_SCompBlock; lia).
      rewrite mr_hmem0. cbn [rbind]. pose proof (length_blocks_bytes new) as Hl.
      rewrite run_calc; [|apply blocks_bytes_ok|apply run_range; [done|apply blocks_bytes_ok]|lia]. cbn [rbind].
      rewrite <- Hl, Nat2Z.id, firstn_all, run_app. eexists. split; [done|]. rewrite write_here by done. cbn [content offs].
      split; [by rewrite Hc2, <- app_assoc|]. unfold file_size. cbn [content]. rewrite length_app. lia. }
  destruct Hnew as (nfd3 & -> & Hc3 & Ho3). cbn [rbind]. eexists _, _. split; [done|]. split; [done|].
  rewrite write_here by done. cbn [content]. rewrite Hc3. unfold nfd1. cbn [content]. unfold entry_bytes, blocks_sealed, seal at 2. fold l.
  by rewrite <- !app_assoc.
Qed.

(** ** All the tables *)

(** Where the entries come to lie: [offsets] and [mis] are those of [place_infos]. *)
Fixpoint placed (head hmem : list Z) (maxOld at_ : Z) (tabs : list (option STable)) (mis : list SMeterInfo) (offsets : list Z) (ents : list (option entry)) : Prop :=
  match tabs, mis, offsets, ents with
  | [], [], [], [] => True
  | x :: tabs, mi :: mis, o :: offsets, y :: ents =>
    match y with
    | None => o = 0 /\ (x = None \/ finalNumOfBlocks mi = 0) /\ placed head hmem maxOld at_ tabs mis offsets ents
    | Some e => o = at_ /\ compInfoOffset mi = at_ /\ (exists t old new, x = Some t /\ meter_ready head hmem maxOld t mi e old new) /\
        placed head hmem maxOld (at_ + Z.of_nat (length (bytes_of e))) tabs mis offsets ents
    end
  | _, _, _, _ => False
  end.

(** What the commit has to have prepared of a table: [o] is its offset in the old file. *)
Definition table_ready (head hmem : list Z) (maxOld o : Z) (x : option STable) (mi : SMeterInfo) (y : option entry) : Prop :=
  match y with
  | None => x = None \/ (oldNumOfBlocks mi + newNumOfBlocks mi = 0 /\ o = 0)
  | Some e => exists t old new, x = Some t /\ meter_ready head hmem maxOld t (set_place 0 mi) e old new
  end.
Fixpoint all_prepared (head hmem : list Z) (maxOld : Z) (offsets : list Z) (tabs : list (option STable)) (mis : list SMeterInfo) (ents : list (option entry)) : Prop :=
  match offsets, tabs, mis, ents with
  | [], [], [], [] => True
  | o :: offsets, x :: tabs, mi :: mis, y :: ents => table_ready head hmem maxOld o x mi y /\ all_prepared head hmem maxOld offsets tabs mis ents
  | _, _, _, _ => False
  end.

Definition ents_bytes (ents : list (option entry)) : list Z := concat (map (fun y => match y with Some e => bytes_of e | None => [] end) ents).

Lemma meter_placed head hmem maxOld t mi at_ e old new : meter_ready head hmem maxOld t (set_place 0 mi) e old new ->
  meter_ready head hmem maxOld t (set_place at_ mi) e old new.
Proof. intros []. by constructor. Qed.

(** What [place_infos] does to each [SMeterInfo]. *)
Definition info_placed (x : option STable) (mi mi' : SMeterInfo) : Prop :=
  match x with Some _ => exists at_, mi' = set_place at_ mi | None => mi' = mi end.

Lemma place_infos_spec head hmem maxOld offsets : forall tabs mis ents at_, all_prepared head hmem maxOld offsets tabs mis ents ->
  0 <= at_ -> at_ + Z.of_nat (length (ents_bytes ents)) < 2 ^ 31 ->
  exists offsets' mis', place_infos tabs offsets mis at_ = Ret (offsets', mis') /\ placed head hmem maxOld at_ tabs mis' offsets' ents /\
    Forall3 info_placed tabs mis mis'.
Proof.
  induction offsets as [|o offsets IH]; intros [|x tabs] [|mi mis] [|y ents] at_ Hr Hat Hlen; try done; [exists [], []; by repeat constructor|].
  destruct Hr as [Hy Hr]. destruct y as [e|].
  - destruct Hy as (t & old & new & -> & Hm). pose proof Hm as []. cbn [place_infos].
    unfold ents_bytes in Hlen. cbn [map concat] in Hlen. fold (ents_bytes ents) in Hlen. rewrite length_app, Nat2Z.inj_add in Hlen.
    pose proof (length_entry_bytes (crc32c := crc32c) (heap := heap) e) as Hel. change (finalNumOfBlocks (set_place 0 mi)) with (finalNumOfBlocks (set_place at_ mi)) in mr_final0.
    rewrite mr_final0. destruct mr_entry0 as [_ _ Hne Hsz _]. rewrite (proj2 (Z.ltb_lt _ _)) by (destruct (e_blocks e); [done|cbn; lia]).
    replace (i32 (at_ + (SIZEOF_SCompInfo + Z.of_nat (length (e_blocks e)) * SIZEOF_SCompBlock + SIZEOF_TSCKSUM))) with (at_ + Z.of_nat (length (bytes_of e))).
    2:{ rewrite Hel. unfold SIZEOF_SCompInfo, SIZEOF_SCompBlock, SIZEOF_TSCKSUM. rewrite wraps_id; [lia|lia|]. unfold in_s. lia. }
    destruct (IH tabs mis ents (at_ + Z.of_nat (length (bytes_of e))) Hr) as (os & l & -> & Hp & Hpl); [lia|lia|]. cbn [rbind].
    exists (at_ :: os), (set_place at_ mi :: l). split; [done|]. split; [|constructor; [by exists at_|done]]. split; [done|]. split; [done|]. split; [|done].
    exists t, old, new. split; [done|]. by apply meter_placed.
  - destruct (IH tabs mis ents at_ Hr) as (os & l & E & Hp & Hpl); [done|exact Hlen|]. destruct x as [t|]; cbn [place_infos].
    + destruct Hy as [?|[Hz ->]]; [done|]. change (finalNumOfBlocks (set_place at_ mi)) with (oldNumOfBlocks mi + newNumOfBlocks mi).
      rewrite Hz, E. change (0 <? 0) with false. cbn [rbind]. exists (0 :: os), (set_place at_ mi :: l). split; [done|].
      split; [|constructor; [by exists at_|done]]. split; [done|]. split; [by right|done].
    + rewrite E. cbn [rbind]. exists (0 :: os), (mi :: l). split; [done|]. split; [|by constructor]. split; [done|]. split; [by left|done].
Qed.

Lemma write_infos_spec head hmem maxOld tabs : forall mis offsets ents hfd nfd, placed head hmem maxOld (file_size nfd) tabs mis offsets ents ->
  content hfd = head -> 0 < file_size nfd ->
  exists hfd' nfd', write_infos crc32c heap hfd nfd hmem maxOld tabs mis = Ret (hfd', nfd') /\ content hfd' = head /\
    content nfd' = content nfd ++ ents_bytes ents /\ Forall2 (entry_at (crc32c := crc32c) (heap := heap) (content nfd')) offsets ents.
Proof.
  induction tabs as [|x tabs IH]; intros [|mi mis] [|o offsets] [|y ents] hfd nfd Hp Hh Hn; try done.
  - exists hfd, nfd. cbn. rewrite app_nil_r. by repeat split.
  - destruct y as [e|].
    + destruct Hp as (-> & Hoff & (t & old & new & -> & Hm) & Hp). cbn [write_infos]. pose proof (mr_final _ _ _ _ _ _ _ _ Hm) as Hfin.
      pose proof (mr_entry _ _ _ _ _ _ _ _ Hm) as Hok. pose proof Hok as [_ _ Hne _ _]. rewrite Hfin, (proj2 (Z.leb_gt _ _)) by (destruct (e_blocks e); [done|cbn; lia]).
      destruct (write_info_spec head hmem maxOld t mi e old new hfd nfd Hm Hh Hoff) as (hfd1 & nfd1 & -> & Hh1 & Hc1). cbn [rbind].
      assert (Hs : file_size nfd1 = file_size nfd + Z.of_nat (length (bytes_of e))) by (unfold file_size; rewrite Hc1, length_app; lia).
      destruct (IH mis offsets ents hfd1 nfd1) as (hfd2 & nfd2 & -> & Hh2 & Hc2 & Hf); [by rewrite Hs|done|lia|].
      exists hfd2, nfd2. split; [done|]. split; [done|]. assert (E : content nfd2 = content nfd ++ bytes_of e ++ ents_bytes ents) by (by rewrite Hc2, Hc1, <- app_assoc).
      split; [done|]. constructor; [|done]. split; [done|]. split; [done|]. exists (content nfd), (ents_bytes ents). split; [done|]. done.
    + destruct Hp as (-> & Hx & Hp). assert (E : write_infos crc32c heap hfd nfd hmem maxOld (x :: tabs) (mi :: mis) = write_infos crc32c heap hfd nfd hmem maxOld tabs mis).
      { cbn [write_infos]. destruct x as [t|]; [|done]. destruct Hx as [?| ->]; done. }
      rewrite E. destruct (IH mis offsets ents hfd nfd Hp Hh Hn) as (hfd2 & nfd2 & -> & Hh2 & Hc2 & Hf). exists hfd2, nfd2.
      split; [done|]. split; [done|]. split; [done|]. by constructor.
Qed.

Lemma placed_lengths head hmem maxOld tabs : forall at_ mis offsets ents, placed head hmem maxOld at_ tabs mis offsets ents -> 0 <= at_ ->
  at_ + Z.of_nat (length (ents_bytes ents)) < 2 ^ 31 ->
  length offsets = length tabs /\ length ents = length tabs /\ Forall (in_s 64) offsets.
Proof.
  induction tabs as [|x tabs IH]; intros at_ [|mi mis] [|o offsets] [|y ents] Hp Hat Hlen; try done. destruct y as [e|].
  - destruct Hp as (-> & _ & _ & Hp). unfold ents_bytes in Hlen. cbn [map concat] in Hlen. fold (ents_bytes ents) in Hlen. rewrite length_app, Nat2Z.inj_add in Hlen.
    destruct (IH _ _ _ _ Hp) as (E1 & E2 & E3); [lia|lia|]. cbn. rewrite E1, E2. split; [done|]. split; [done|]. constructor; [unfold in_s; lia|done].
  - destruct Hp as (-> & _ & Hp). destruct (IH _ _ _ _ Hp) as (E1 & E2 & E3); [lia|exact Hlen|]. cbn. rewrite E1, E2. split; [done|]. split; [done|].
    constructor; [unfold in_s; lia|done].
Qed.

(** The file that [vnodeOpenCommitFiles] has made. *)
Lemma pack_zeros n : pack_elems 8 (replicate n 0) = replicate (8 * n) 0.
Proof. induction n as [|n IH]; [done|]. cbn [replicate]. rewrite pack_elems_cons, IH. replace (8 * S n)%nat with (8 + 8 * n)%nat by lia. by rewrite replicate_add. Qed.

Lemma open_head_sealed file_header n : length file_header = 512%nat ->
  exists f, open_head crc32c heap file_header n = Ret f /\ content f = file_header ++ seal (crc32c := crc32c) (heap := heap) (pack_elems 8 (replicate n 0)).
Proof.
  intros Hh. unfold open_head. rewrite pack_zeros. set (size := header_size n).
  assert (Hs : size = Z.of_nat (length (replicate (8 * n) 0)) + 4) by (unfold size, header_size, SIZEOF_SCompHeader, SIZEOF_TSCKSUM; rewrite length_replicate; lia).
  assert (E : replicate (Z.to_nat size) 0 = replicate (8 * n) 0 ++ replicate 4 0).
  { rewrite <- replicate_add. f_equal. rewrite length_replicate in Hs. lia. }
  rewrite E, seal_append; [|by apply Forall_replicate|done]. cbn [rbind]. eexists. split; [reflexivity|].
  rewrite (write_here file_header) by done. cbn [content app]. by rewrite write_here.
Qed.

Lemma open_head_spec file_header n : length file_header = 512%nat ->
  exists f rest, open_head crc32c heap file_header n = Ret f /\ content f = file_header ++ rest /\ Z.of_nat (length rest) = header_size n.
Proof.
  intros Hh. destruct (open_head_sealed file_header n Hh) as (f & Hf & Hc). exists f, (seal (pack_elems 8 (replicate n 0))). split; [done|]. split; [done|].
  rewrite (proj1 (header_length _)). by rewrite length_replicate.
Qed.

(** The head file that is made first has no blocks. *)
Lemma open_head_empty file_header n : length file_header = 512%nat ->
  exists f, open_head crc32c heap file_header n = Ret f /\ head_ok (crc32c := crc32c) (heap := heap) (content f) (replicate n None).
Proof.
  intros Hh. destruct (open_head_sealed file_header n Hh) as (f & Hf & Hc). exists f. split; [done|].
  exists file_header, (replicate n 0), []. rewrite app_nil_r. split; [done|]. split; [done|]. split; [by apply Forall_replicate|].
  clear. induction n; cbn; constructor; done.
Qed.

(** The new file has the entries. *)
Lemma write_head_spec maxOld file_header rest hfd nfd hmem totalStorage tabs offsets mis ents : length file_header = 512%nat ->
  content nfd = file_header ++ rest -> Z.of_nat (length rest) = header_size (length tabs) ->
  all_prepared (content hfd) hmem maxOld offsets tabs mis ents ->
  512 + header_size (length tabs) + Z.of_nat (length (ents_bytes ents)) < 2 ^ 31 ->
  exists hfd' nfd' mis', write_head crc32c heap maxOld hfd nfd hmem totalStorage tabs offsets mis = Ret (hfd', nfd', mis') /\
    Forall3 info_placed tabs mis mis' /\
    head_ok (crc32c := crc32c) (heap := heap) (content nfd') ents.
Proof.
  intros Hh Hn Hrest Hr Hlen. unfold write_head.
  assert (Hs : 4 <= header_size (length tabs)) by (unfold header_size, SIZEOF_SCompHeader, SIZEOF_TSCKSUM; lia).
  destruct (place_infos_spec _ _ _ _ _ _ _ (TSDB_FILE_HEADER_LEN + header_size (length tabs)) Hr) as (os & l & -> & Hp & Hinfos); unfold TSDB_FILE_HEADER_LEN in *; [lia|lia|]. cbn [rbind].
  destruct (placed_lengths _ _ _ _ _ _ _ _ Hp ltac:(lia) ltac:(lia)) as (Lo & Le & Los). destruct (header_length (crc32c := crc32c) (heap := heap) os) as [Hsl Hpl]. rewrite Lo in Hsl, Hpl.
  rewrite seal_append by (apply pack_elems_ok || lia). cbn [rbind]. set (tmem := seal (pack_elems 8 os)) in *.
  unfold vnodeUpdateHeadFileHeader, TSDB_FILE_HEADER_LEN. change (512 / 4) with 128. unfold lseek_set at 2. change (128 <? 0) with false. cbv iota.
  assert (Hsplit : file_header = take 128 file_header ++ take 8 (drop 128 file_header) ++ drop 136 file_header).
  { rewrite <- (take_drop 128 file_header) at 1. f_equal. rewrite <- (take_drop 8 (drop 128 file_header)) at 1. by rewrite drop_drop. }
  rewrite (write_mid (le_bytes 8 totalStorage) (mkFd (content nfd) 128) (take 128 file_header) (take 8 (drop 128 file_header)) (drop 136 file_header ++ rest)).
  2:{ cbn [content]. rewrite Hn, Hsplit at 1. by rewrite <- !app_assoc. }
  2:{ cbn [offs]. rewrite length_take. lia. }
  2:{ rewrite length_take, length_drop, length_le_bytes. lia. }
  cbn [offs]. set (hdr' := take 128 file_header ++ le_bytes 8 totalStorage ++ drop 136 file_header).
  assert (Hhdr : length hdr' = 512%nat) by (unfold hdr'; rewrite !length_app, length_le_bytes, length_take, length_drop; lia).
  unfold lseek_set. change (512 <? 0) with false. cbv iota. cbn [content].
  rewrite (write_mid tmem _ hdr' rest []).
  2:{ cbn [content]. unfold hdr'. by rewrite app_nil_r, <- !app_assoc. }
  2:{ cbn [offs]. by rewrite Hhdr. }
  2:{ apply Nat2Z.inj. lia. }
  set (nfd1 := mkFd _ _).
  assert (Hsz : file_size nfd1 = 512 + header_size (length tabs)).
  { unfold file_size, nfd1. cbn [content]. rewrite !length_app, Hhdr. cbn [length]. lia. }
  destruct (write_infos_spec (content hfd) hmem maxOld tabs l os ents hfd nfd1) as (hfd2 & nfd2 & -> & _ & Hc & Hf); [by rewrite Hsz|done|lia|].
  exists hfd2, nfd2, l. split; [done|]. split; [done|]. exists hdr', os, (ents_bytes ents). rewrite Hc. unfold nfd1. cbn [content]. split; [by rewrite app_nil_r, <- !app_assoc|].
  split; [done|]. split; [done|]. rewrite Hc in Hf. unfold nfd1 in Hf. cbn [content] in Hf. by rewrite app_nil_r in *.
Qed.
End New.
