(* ===== verification/CommitFile.v ===== *)
(** * The commit of a vnode (system/src/vnodeFile.c)

    A commit appends the rows of the cache to the data file, as blocks, and lists
    these in a new head file.  The last block of a table is kept in the last file as
    long as it has few rows, and is written again with the next rows. *)
From S2P Require Import Prelude CompBase CompInt CompBool CompTime CompXor Tscompression Crc32c ColTypes FileBlock HeadFile.

(** ** Where the rows come from

    A query of the cache: [q_begin] is [vnodeSetCommitQuery], with the key that [firstKey]
    of the vnode is lowered to, if any; [q_fill] the repeated
    [vnodeQueryFromCache] that fills the buffers of a block, given how many rows they
    have; the result is how many they have then. *)
Class RowReader (Q : Type) := {
  q_begin : nat -> res (Q * option Z);
  q_over : Q -> bool;
  q_keyIsMet : Q -> bool;
  q_again : Q -> Q (* over = 0 *);
  q_fill : nat -> Z -> Z -> Q -> list SData -> res (Z * Q * list SData) }.

(** ** State *)
Record cstate := mkState { c_files : files; c_hmem : list Z; c_totalStorage : Z; c_firstKey : Z }.
Definition set_files (fs : files) (st : cstate) : cstate := mkState fs (c_hmem st) (c_totalStorage st) (c_firstKey st).
Definition put_block (b : SCompBlock) (st : cstate) : cstate := mkState (c_files st) (c_hmem st ++ block_bytes b) (c_totalStorage st) (c_firstKey st).
Definition add_storage (n : Z) (st : cstate) : cstate := mkState (c_files st) (c_hmem st) (i64 (c_totalStorage st + n)) (c_firstKey st).
Definition set_firstKey (k : Z) (st : cstate) : cstate := mkState (c_files st) (c_hmem st) (c_totalStorage st) k.

Definition lower_firstKey (low : option Z) (st : cstate) : cstate :=
  match low with Some k => if k <? c_firstKey st then set_firstKey k st else st | None => st end.

Definition set_tempHead (off : Z) (mi : SMeterInfo) : SMeterInfo :=
  mkInfo off (compInfoOffset mi) (oldCompBlockOffset mi) (oldNumOfBlocks mi) (newNumOfBlocks mi) (finalNumOfBlocks mi) (committedPoints mi) (mi_last mi)
    (changed mi) (lastBlock mi).
(** A block is added, with [n] rows that were not in the files. *)
Definition add_block (last n : Z) (mi : SMeterInfo) : SMeterInfo :=
  mkInfo (tempHeadOffset mi) (compInfoOffset mi) (oldCompBlockOffset mi) (oldNumOfBlocks mi) (newNumOfBlocks mi + 1) (finalNumOfBlocks mi)
    (committedPoints mi + n) last (changed mi) (lastBlock mi).
Definition drop_last (mi : SMeterInfo) : SMeterInfo :=
  mkInfo (tempHeadOffset mi) (compInfoOffset mi) (oldCompBlockOffset mi) (oldNumOfBlocks mi - 1) (newNumOfBlocks mi) (finalNumOfBlocks mi)
    (committedPoints mi) 0 true (lastBlock mi).

Record vfiles := mkVfiles { v_head : list Z; v_data : list Z; v_last : list Z }.

Section Commit.
Context {Q : Type} `{RowReader Q} `{LZ4} `{DataModel} `{DoubleOps} `{BlockOptions}.
Context (crc32c : Z -> Z -> list Z -> Z -> res Z) (heap : Z).
(** The configuration, the size of [hmem], [pVnode->commitLastKey], and what is in the
    buffers of a table before. *)
Context (compression hmsize commitLastKey : Z) (dmem cmem : nat -> list SData).

(** [assert(dmem - (char * )pCompBlock >= sizeof(SCompBlock))] *)
Definition no_room (st : cstate) : bool := hmsize - Z.of_nat (length (c_hmem st)) <? SIZEOF_SCompBlock.

(** ** The last block of a table: [None] is [goto _over]

    It is moved to the data file if the columns of the table have changed, and read
    into the buffers otherwise.  The last result is [pointsReadLast]. *)
Definition take_last (m : SMeterObj) (q : Q) (data : list SData) (st : cstate) (mi : SMeterInfo)
    : res (option (cstate * SMeterInfo * Q * list SData * Z)) :=
  let b := lastBlock mi in
  if mi_last mi =? 0 then Ret (Some (st, mi, q, data, 0))
  else if negb (b_sversion b =? sversion m) then
    if no_room st then Exit
    else
      let fs := c_files st in
      let d := lseek_end (dfd fs) in
      let b' := mkBlock 0 (wraps 63 (offs d)) (b_algorithm b) (b_numOfPoints b) (b_sversion b) (b_len b) (b_numOfCols b) (b_keyFirst b) (b_keyLast b) in
      let '(got, l) := read (b_len b) (lseek_set (b_offset b) (lfd fs)) in
      let fs := mkFiles (write got d) l (tfd fs) (b_offset b' + b_len b) (compStorage fs) in
      Ret (Some (put_block b' (set_files fs st), drop_last (add_block (mi_last mi) 0 mi), q, data, 0))
  else
    let! '(code, l, data) := vnodeReadLastBlockToMem crc32c heap m b data (lfd (c_files st)) in
    if code <? 0 then Ret None
    else Ret (Some (add_storage (- (b_numOfPoints b * bytesPerPoint m)) (set_files (set_lfd l (c_files st)) st), drop_last mi, q_again q, data, b_numOfPoints b)).

(** ** The blocks of a table: the state, its [SMeterInfo], [lastKeyOnFile] and the query *)
Fixpoint commit_loop (fuel : nat) (sid : nat) (m : SMeterObj) (q : Q) (pointsReadLast : Z) (data cdata : list SData) (st : cstate) (mi : SMeterInfo)
    (onFile : Z) : res (option (cstate * SMeterInfo * Z * Q)) :=
  match fuel with
  | O => NoFuel
  | S fuel =>
    if q_over q then Ret (Some (st, mi, onFile, q))
    else if no_room st then Exit
    else
      let! '(pointsRead, q, data) := q_fill sid (pointsPerFileBlock m) pointsReadLast q data in
      if pointsRead =? 0 then Ret (Some (st, mi, onFile, q))
      else
        let n := pointsRead - pointsReadLast in
        let! '(code, b, data, cdata, fs) := vnodeWriteBlockToFile crc32c heap m compression (mkBlock (-1) 0 0 0 0 0 0 0 0) data cdata pointsRead (c_files st) in
        if code <? 0 then Ret None
        else
          let onFile := if onFile <? b_keyLast b then b_keyLast b else onFile in
          let st := put_block b (add_storage (n * bytesPerPoint m) (set_files fs st)) in
          let mi := add_block (b_last b) n mi in
          if (pointsRead <? pointsPerFileBlock m) || q_keyIsMet q then Ret (Some (st, mi, onFile, q))
          else commit_loop fuel sid m q 0 data cdata st mi onFile
  end.

(** The first key that the vnode has still to commit. *)
Definition next_key (t : STable) (onFile : Z) (st : cstate) : cstate :=
  let nextKey := if commitLastKey <? t_lastKey t then commitLastKey + 1 else if onFile <? t_lastKey t then onFile + 1 else 0 in
  if (nextKey <? c_firstKey st) && (1 <? nextKey) then set_firstKey nextKey st else st.

Context (fuel : nat).

Definition commit_table (sid : nat) (t : STable) (mi : SMeterInfo) (st : cstate) : res (option (cstate * SMeterInfo * STable * Q)) :=
  let mi := set_tempHead (Z.of_nat (length (c_hmem st))) mi in
  let! '(q, low) := q_begin sid in
  let! r := take_last (t_obj t) q (dmem sid) (lower_firstKey low st) mi in
  match r with
  | None => Ret None
  | Some (st, mi, q, data, pointsReadLast) =>
    let! r := commit_loop fuel sid (t_obj t) q pointsReadLast data (cmem sid) st mi (t_lastKeyOnFile t) in
    match r with
    | None => Ret None
    | Some (st, mi, onFile, q) =>
      Ret (Some (next_key t onFile st, mi, mkTable (t_obj t) (t_deleting t) (t_cached t) (t_lastKey t) onFile, q))
    end
  end.

(** The tables [ssid .. esid], the first of [tabs] being [sid]; of those that were
    committed the query is kept. *)
Fixpoint commit_tables (sid ssid esid : nat) (tabs : list (option STable)) (mis : list SMeterInfo) (st : cstate)
    : res (option (cstate * list SMeterInfo * list (option STable) * list (option Q))) :=
  match tabs, mis with
  | [], _ => Ret (Some (st, [], [], []))
  | x :: tabs, mi :: mis =>
    let! r := match x with
              | Some t =>
                if t_cached t && (ssid <=? sid)%nat && (sid <=? esid)%nat then
                  let! r := commit_table sid t mi st in
                  Ret (match r with Some (st, mi, t, q) => Some (st, mi, Some t, Some q) | None => None end)
                else Ret (Some (st, mi, x, None))
              | None => Ret (Some (st, mi, None, None))
              end in
    match r with
    | None => Ret None
    | Some (st, mi, x, q) =>
      let! r := commit_tables (S sid) ssid esid tabs mis st in
      match r with
      | None => Ret None
      | Some (st, mis, tabs, qs) => Ret (Some (st, mi :: mis, x :: tabs, q :: qs))
      end
    end
  | _ :: _, [] => Undef
  end.

(** ** A whole commit

    From [_again] to [vnodeCloseCommitFiles]: [file_header] is what
    [vnodeCreateFileHeaderFd] writes.  The old head file, the data file and the last
    file have a minimal size. *)
Definition open_commit_files (file_header : list Z) (ssid n : nat) (v : vfiles) (storage : Z) : res (option (fd * fd * files)) :=
  if (Z.of_nat (length (v_head v)) <? SIZEOF_SCompHeader * Z.of_nat n + SIZEOF_TSCKSUM + TSDB_FILE_HEADER_LEN) ||
     (Z.of_nat (length (v_data v)) <? TSDB_FILE_HEADER_LEN) || (Z.of_nat (length (v_last v)) <? TSDB_FILE_HEADER_LEN) then Ret None
  else
    let! nfd := open_head crc32c heap file_header n in
    let tfd := if (ssid =? 0)%nat then Some (write file_header (mkFd [] 0)) else None in
    Ret (Some (mkFd (v_head v) 0, nfd, mkFiles (lseek_end (mkFd (v_data v) 0)) (mkFd (v_last v) 0) tfd (Z.of_nat (length (v_data v))) storage)).

(** The first files of a vnode: no blocks, and two more with a header only. *)
Definition vnodeCreateEmptyCompFile (file_header : list Z) (maxSessions : nat) : res vfiles :=
  let! hfd := open_head crc32c heap file_header maxSessions in Ret (mkVfiles (content hfd) file_header file_header).

(** Of which tables the commit is marked in the cache ([vnodeUpdateCommitInfo]), at the
    place where their query is. *)
Definition committed (mi : SMeterInfo) (q : option Q) : option Q :=
  if (0 <? finalNumOfBlocks mi) && (0 <? committedPoints mi) then q else None.

Definition vnodeCloseCommitFiles (nfd : fd) (fs : files) : vfiles := mkVfiles (content nfd) (content (dfd fs)) (content (last_of fs)).

Definition vnodeCommitMultiToFile (file_header : list Z) (ssid esid : nat) (tabs : list (option STable)) (firstKey storage : Z) (v : vfiles)
    : res (option (vfiles * list (option STable) * list (option Q) * Z * Z)) :=
  let n := length tabs in
  let! r := open_commit_files file_header ssid n v storage in
  match r with
  | None => Ret None
  | Some (hfd, nfd, fs) =>
    let '(totalStorage, hfd) := vnodeGetHeadFileHeaderInfo hfd in
    let! r := read_header crc32c heap n hfd in
    match r with
    | None => Ret None
    | Some (offsets, hfd) =>
      let! r := read_infos crc32c heap hfd tabs offsets in
      match r with
      | None => Ret None
      | Some (hfd, mis) =>
        let maxOldBlocks := max_blocks mis in
        let! r := commit_tables 0 ssid esid tabs mis (mkState fs [] totalStorage firstKey) in
        match r with
        | None => Ret None
        | Some (st, mis, tabs, qs) =>
          let! '(_, nfd, mis) := write_head crc32c heap maxOldBlocks hfd nfd (c_hmem st) (c_totalStorage st) tabs offsets mis in
          Ret (Some (vnodeCloseCommitFiles nfd (c_files st), tabs, zip_with committed mis qs, c_firstKey st, compStorage (c_files st)))
        end
      end
    end
  end.
End Commit.
