(* ===== verification/CommitTable.v ===== *)
(** * The commit of a table

    Rows and columns, the commit of a block, and the commit of the blocks of a table. *)
From S2P Require Import Prelude CompBase CompInt CompBool CompTime CompXor Tscompression Crc32c ColTypes FileBlock BlockWrite BlockLife HeadFile HeadWrite CommitFile.

(** * The rows of a block

    A block is kept column by column.  Its rows are lists of values, the bytes of one
    value for each column. *)

#[local] Existing Instance LP64.

Definition cell (w : Z) (col : list Z) (j : nat) : list Z := take (Z.to_nat w) (drop (j * Z.to_nat w) col).
Definition row_at (cols : list SColumn) (columns : list (list Z)) (j : nat) : list (list Z) := zip_with (fun c col => cell (bytes c) col j) cols columns.
Definition rows_of (cols : list SColumn) (n : nat) (columns : list (list Z)) : list (list (list Z)) := map (row_at cols columns) (seq 0 n).

Lemma length_rows_of cols n columns : length (rows_of cols n columns) = n.
Proof. unfold rows_of. by rewrite length_map, length_seq. Qed.

Lemma rows_of_lookup cols n columns j : (j < n)%nat -> rows_of cols n columns !! j = Some (row_at cols columns j).
Proof. intros Hj. unfold rows_of. rewrite list_lookup_fmap, lookup_seq_lt by done. done. Qed.

Lemma rows_of_take cols n k columns : (k <= n)%nat -> take k (rows_of cols n columns) = rows_of cols k columns.
Proof. intros Hk. unfold rows_of. rewrite firstn_map, take_seq. by rewrite Nat.min_l. Qed.

(** Rows look at the values only. *)
Lemma row_at_ext (P : SColumn -> list Z -> list Z -> Prop) cols columns columns' j :
  (forall c a b, P c a b -> cell (bytes c) a j = cell (bytes c) b j) -> Forall3 P cols columns columns' -> row_at cols columns j = row_at cols columns' j.
Proof. intros HP. unfold row_at. induction 1 as [|c a b cols columns columns' Hab _ IH]; [done|]. cbn [zip_with]. f_equal; [by apply HP|done]. Qed.

Lemma rows_of_ext (P : SColumn -> list Z -> list Z -> Prop) cols n columns columns' :
  (forall c a b j, P c a b -> (j < n)%nat -> cell (bytes c) a j = cell (bytes c) b j) -> Forall3 P cols columns columns' ->
  rows_of cols n columns = rows_of cols n columns'.
Proof.
  intros HP Hall. unfold rows_of. apply map_ext_in. intros j Hj. apply in_seq in Hj. apply (row_at_ext P); [|done]. intros c a b Hab. apply HP; [done|lia].
Qed.

Lemma cell_take w col j n : (j < n)%nat -> cell w (take (n * Z.to_nat w) col) j = cell w col j.
Proof.
  intros Hj. unfold cell. rewrite skipn_firstn_comm, take_take. f_equal. apply Nat.min_l. rewrite <- Nat.mul_sub_distr_r. nia.
Qed.

(** A column is its values. *)
Lemma column_cells w col n : length col = (n * Z.to_nat w)%nat -> col = concat (map (cell w col) (seq 0 n)).
Proof.
  revert col. induction n as [|n IH]; intros col Hl; [by destruct col|].
  rewrite seq_S, map_app, concat_app. cbn [map concat]. rewrite app_nil_r. cbn [Nat.add].
  assert (E : map (cell w col) (seq 0 n) = map (cell w (take (n * Z.to_nat w) col)) (seq 0 n)).
  { apply map_ext_in. intros j Hj. apply in_seq in Hj. symmetry. apply cell_take. lia. }
  rewrite E, <- IH by (rewrite length_take; lia). unfold cell. rewrite (take_ge (drop _ _)) by (rewrite length_drop; lia). by rewrite take_drop.
Qed.

(** ** Values that a block keeps *)
Definition value_ok (compression : Z) (c : SColumn) (v : list Z) : Prop :=
  compression = 0 \/
  (type c <> TSDB_DATA_TYPE_FLOAT /\ (type c = TSDB_DATA_TYPE_BOOL -> forallb bool_ok v = true) /\
   (type c = TSDB_DATA_TYPE_BIGINT -> in_s 59 (wraps 64 (le_val v)))).
Definition row_ok (compression : Z) (cols : list SColumn) (row : list (list Z)) : Prop := Forall2 (value_ok compression) cols row.

Lemma cells_storable compression c col n : column_ok c -> (0 < n)%nat -> bytes_ok col -> length col = (n * Z.to_nat (bytes c))%nat ->
  Forall (value_ok compression c) (map (cell (bytes c) col) (seq 0 n)) -> storable compression c col.
Proof.
  intros Hc Hn Hok Hl Hv. destruct (decide (compression = 0)) as [E|E]; [by left|]. right.
  assert (Hv' : forall j, (j < n)%nat -> type c <> TSDB_DATA_TYPE_FLOAT /\ (type c = TSDB_DATA_TYPE_BOOL -> forallb bool_ok (cell (bytes c) col j) = true) /\
    (type c = TSDB_DATA_TYPE_BIGINT -> in_s 59 (wraps 64 (le_val (cell (bytes c) col j))))).
  { intros j Hj. rewrite Forall_map, Forall_forall in Hv. destruct (Hv j) as [?|?]; [|done..]. apply elem_of_seq. lia. }
  split; [by apply (Hv' 0%nat)|]. split.
  - intros Ht. rewrite (column_cells (bytes c) col n Hl). clear Hv Hl. induction (seq 0 n) as [|j l IH] eqn:El in n, Hv', Hn |- *; [done|].
    assert (Hall : forall l, (forall j, j ∈ l -> forallb bool_ok (cell (bytes c) col j) = true) -> forallb bool_ok (concat (map (cell (bytes c) col) l)) = true).
    { clear. induction l as [|j l IH]; intros Hj; [done|]. cbn [map concat]. rewrite forallb_app, Hj by set_solver. cbn. apply IH. set_solver. }
    rewrite <- El. apply Hall. intros i Hi. apply elem_of_seq in Hi. apply Hv'; [lia|done].
  - intros Ht. assert (Hw : bytes c = 8) by (rewrite (co_width _ Hc); by rewrite Ht). rewrite Hw in *. change (Z.to_nat 8) with 8%nat in Hl.
    exists (map (fun j => wraps 64 (le_val (cell 8 col j))) (seq 0 n)). split.
    + rewrite (column_cells 8 col n Hl) at 1. unfold pack_elems. rewrite map_map. f_equal. apply map_ext_in. intros j Hj. apply in_seq in Hj.
      assert (Hlen : length (cell 8 col j) = 8%nat) by (unfold cell; rewrite length_take, length_drop; lia).
      rewrite (le_bytes_wraps 8) by lia. rewrite <- Hlen at 1. symmetry. apply le_bytes_val. unfold cell. by apply Forall_take, Forall_drop.
    + apply Forall_map, Forall_forall. intros j Hj. apply elem_of_seq in Hj. apply Hv'; [lia|done].
Qed.

Lemma rows_storable compression cols n columns : Forall (fun c => column_ok c /\ in_s 16 (colId c)) cols -> (0 < n)%nat ->
  Forall2 (fun c col => bytes_ok col /\ length col = (n * Z.to_nat (bytes c))%nat) cols columns ->
  Forall (row_ok compression cols) (rows_of cols n columns) -> Forall2 (storable compression) cols columns.
Proof.
  intros Hok Hn Hcols. induction Hcols as [|c col cols columns [Hb Hl] Hcols IH]; intros Hrows; [constructor|].
  apply Forall_cons in Hok as [[Hc _] Hok].
  assert (Hsplit : forall j, (j < n)%nat -> value_ok compression c (cell (bytes c) col j) /\ row_ok compression cols (row_at cols columns j)).
  { intros j Hj. pose proof (Forall_lookup_1 _ _ _ _ Hrows (rows_of_lookup (c :: cols) n (col :: columns) j Hj)) as Hr.
    by apply Forall2_cons in Hr. }
  constructor.
  - apply (cells_storable compression c col n Hc Hn Hb Hl). apply Forall_map, Forall_forall. intros j Hj. apply elem_of_seq in Hj. apply Hsplit. lia.
  - apply IH; [done|]. unfold rows_of. apply Forall_map, Forall_forall. intros j Hj. apply elem_of_seq in Hj. apply Hsplit. lia.
Qed.

(** * One block of a commit

    The rows in the buffers of a commit come to be the rows of a block, in the data
    file or in the last file. *)

#[local] Existing Instance LP64.

(** A block with few rows is not full: tsFileBlockMinPercent is at most 1. *)
Class BlockOptionsLaws `{BlockOptions} := few_rows points ppfb : 0 <= points -> few_points points ppfb = true -> points < ppfb.

(** What a commit needs of a table. *)
Record table_ok (m : SMeterObj) : Prop := {
  to_meter : meter_ok m;
  to_uid : in_u 64 (uid m);
  to_sversion : in_s 32 (sversion m);
  to_points : 0 < pointsPerFileBlock m;
  to_size : pointsPerFileBlock m * bytesPerPoint m + 70 * Z.of_nat (length (schema m)) + 4 < 2 ^ 23 }.

Abbreviation part := (list SColumn * list (list (list Z)))%type.

Section Block.
Context `{LZ4Laws} `{DoubleOps} `{BlockOptionsLaws} {crc32c : Z -> Z -> list Z -> Z -> res Z} {heap : Z} `{!RunningSum crc32c heap}.

Definition holds_rows (file : list Z) (b : SCompBlock) (p : part) : Prop :=
  exists columns, block_in (crc32c := crc32c) (heap := heap) file b p.1 columns /\ Forall bytes_ok columns /\
    rows_of p.1 (Z.to_nat (b_numOfPoints b)) columns = p.2.
(** A block of a table: [last] says which file it is in. *)
Definition block_rows (dataf lastf : list Z) (b : SCompBlock) (p : part) : Prop := holds_rows (if b_last b =? 0 then dataf else lastf) b p.

Lemma holds_rows_more file more b p : holds_rows file b p -> holds_rows (file ++ more) b p.
Proof. intros (columns & Hin & Hr). exists columns. split; [exact (block_in_grown _ more _ _ _ Hin)|done]. Qed.
Lemma block_rows_more dataf lastf md ml b p : block_rows dataf lastf b p -> block_rows (dataf ++ md) (lastf ++ ml) b p.
Proof. unfold block_rows. destruct (b_last b =? 0); apply holds_rows_more. Qed.

(** The columns that the buffers hold. *)
Definition columns_of (cols : list SColumn) (points : Z) (data : list SData) : list (list Z) :=
  zip_with (fun c d => take (Z.to_nat (points * bytes c)) (d_data d)) cols data.

Lemma columns_filled ppfb points cols data : Forall2 (col_buffer ppfb) cols data -> Forall2 (fun c d => d_len d = points * bytes c) cols data ->
  Forall3 (filled ppfb points) cols (columns_of cols points data) data.
Proof.
  intros Hb. induction Hb as [|c d cols data Hc _ IH]; intros Hd; [constructor|]. apply Forall2_cons in Hd as [Hd Hds].
  constructor; [|by apply IH]. split; [done|]. by split.
Qed.

Lemma columns_rows cols points data : Forall (fun c => column_ok c /\ in_s 16 (colId c)) cols -> 0 <= points -> length data = length cols ->
  rows_of cols (Z.to_nat points) (columns_of cols points data) = rows_of cols (Z.to_nat points) (map d_data data).
Proof.
  intros Hok Hp Hl. apply (rows_of_ext (fun c a b => 0 < bytes c /\ a = take (Z.to_nat (points * bytes c)) b)).
  - intros c a b j [Hb ->] Hj. rewrite Z2Nat.inj_mul by lia. by apply cell_take.
  - revert data Hl. induction Hok as [|c cols [Hc _] _ IH]; intros [|d data] Hl; try done; [constructor|].
    cbn. constructor; [|apply IH; by injection Hl]. split; [by apply co_bytes|done].
Qed.

Lemma columns_lengths ppfb points cols data : Forall (fun c => column_ok c /\ in_s 16 (colId c)) cols -> 0 < points <= ppfb ->
  Forall2 (col_buffer ppfb) cols data -> Forall2 (fun c col => bytes_ok col /\ length col = (Z.to_nat points * Z.to_nat (bytes c))%nat) cols (columns_of cols points data).
Proof.
  intros Hok Hp Hb. induction Hb as [|c d cols data [Hd Hl] _ IH]; [constructor|]. apply Forall_cons in Hok as [[Hc _] Hok]. pose proof (co_bytes _ Hc).
  constructor; [|by apply IH]. split; [by apply Forall_take|]. rewrite length_take, <- Z2Nat.inj_mul by lia. unfold EXTRA_BYTES, SIZEOF_TSCKSUM in Hl. nia.
Qed.

(** The files while a commit goes on: which of them are there stays as it is. *)
Definition same_files (fs fs' : files) : Prop := match tfd fs with Some _ => content (lfd fs') = content (lfd fs) /\ tfd fs' <> None | None => tfd fs' = None end.
Definition grows (fs fs' : files) (md ml : list Z) : Prop :=
  content (dfd fs') = content (dfd fs) ++ md /\ content (last_of fs') = content (last_of fs) ++ ml /\ same_files fs fs'.

Lemma grows_refl fs : grows fs fs [] [].
Proof. unfold grows, same_files. rewrite !app_nil_r. split; [done|]. split; [done|]. by destruct (tfd fs). Qed.
Lemma grows_trans fs fs1 fs2 md ml md' ml' : grows fs fs1 md ml -> grows fs1 fs2 md' ml' -> grows fs fs2 (md ++ md') (ml ++ ml').
Proof.
  intros (E1 & E2 & Hs) (F1 & F2 & Ht). unfold grows. rewrite !app_assoc, <- E1, <- E2. split; [done|]. split; [done|].
  unfold same_files in *. destruct (tfd fs) as [f|]; [|by rewrite Hs in Ht]. destruct Hs as [Hl Hs]. destruct (tfd fs1); [|done]. destruct Ht. split; [congruence|done].
Qed.

Lemma target_grows fs to_last f image : content f = content (target to_last fs) ++ image ->
  grows fs (grown (Z.of_nat (length image)) (set_target to_last f fs)) (if to_last then [] else image) (if to_last then image else []).
Proof.
  intros E. destruct fs as [d l [t|] sz cs], to_last; cbn in E; unfold grows, same_files, last_of; cbn; rewrite app_nil_r, E; by repeat split.
Qed.

(** A block is written. *)
Lemma block_written m compression points data cdata fs rows : table_ok m -> 0 <= compression <= 2 -> 0 < points <= pointsPerFileBlock m ->
  Forall2 (col_buffer (pointsPerFileBlock m)) (schema m) data -> Forall2 (fun c d => d_len d = points * bytes c) (schema m) data ->
  Forall2 (col_buffer (pointsPerFileBlock m)) (schema m) cdata ->
  rows_of (schema m) (Z.to_nat points) (map d_data data) = rows -> Forall (row_ok compression (schema m)) rows ->
  file_size (dfd fs) < 2 ^ 61 -> file_size (last_of fs) < 2 ^ 61 ->
  exists b data' cdata' fs' md ml, vnodeWriteBlockToFile crc32c heap m compression (mkBlock (-1) 0 0 0 0 0 0 0 0) data cdata points fs = Ret (0, b, data', cdata', fs') /\
    grows fs fs' md ml /\ Z.of_nat (length (md ++ ml)) < 2 ^ 23 /\
    block_rows (content (dfd fs')) (content (last_of fs')) b (schema m, rows) /\ block_ok b /\ b_sversion b = sversion m /\
    b_numOfPoints b = points /\ (b_last b <> 0 -> points < pointsPerFileBlock m) /\
    Forall2 (col_buffer (pointsPerFileBlock m)) (schema m) data' /\ Forall2 (col_buffer (pointsPerFileBlock m)) (schema m) cdata'.
Proof.
  intros [Hm _ Hsv Hpp Hsize] Hcomp Hp Hb Hd Hcb Hrows Hok Hfd Hfl. pose proof (mo_ok _ Hm) as Hcols. pose proof (Forall2_length _ _ _ Hb) as Hlen.
  pose proof (columns_rows (schema m) points data Hcols ltac:(lia) ltac:(lia)) as Hcr. rewrite Hrows in Hcr.
  pose proof (columns_lengths _ _ _ _ Hcols Hp Hb) as Hcl. pose proof (columns_filled _ _ _ _ Hb Hd) as Hf.
  assert (Hst : Forall2 (storable compression) (schema m) (columns_of (schema m) points data)).
  { apply (rows_storable compression (schema m) (Z.to_nat points)); [done|lia|done|by rewrite Hcr]. }
  set (to_last := few_points points (pointsPerFileBlock m)).
  assert (Htgt : file_size (target to_last fs) < 2 ^ 61) by (destruct to_last; done).
  assert (Hbpp : 0 <= bytesPerPoint m) by (rewrite (mo_bytes _ Hm); by apply row_width_pos).
  destruct (write_block_spec m compression (mkBlock (-1) 0 0 0 0 0 0 0 0) data cdata points fs (columns_of (schema m) points data) Hm Hcomp Hp) as
    (b & data' & cdata' & l & f & fs' & Hw & Hcont & _ & Himg & Hfs & Hin & Hlast & Halg & Hpts & Hsver & Hkeys & Hk1 & Hk2 & _); [|nia|exact Htgt|].
  { apply all_filled_ready; try done. intros ->. rewrite Z.eqb_refl. eapply Forall_impl; [apply (mo_max _ Hm)|]. cbv beta. intros c Hc. unfold EXTRA_BYTES. nia. }
  cbn [b_last] in *. change (negb (-1 =? 0)) with true in *. cbn [andb] in *. fold to_last in Hcont, Hfs, Hlast.
  exists b, data', cdata', fs', (if to_last then [] else image l), (if to_last then image l else []).
  split; [done|]. pose proof (target_grows fs to_last f (image l) Hcont) as Hgr. rewrite <- Hfs in Hgr. split; [done|].
  split; [by destruct to_last; rewrite ?app_nil_r|].
  assert (Hfile : (if b_last b =? 0 then content (dfd fs') else content (last_of fs')) = content f).
  { rewrite Hlast. destruct Hgr as (G1 & G2 & _). destruct to_last; cbn [Z.eqb]; [rewrite G2|rewrite G1]; by rewrite Hcont. }
  split; [|split; [|split; [done|split; [done|split]]]].
  - exists (columns_of (schema m) points data). rewrite Hfile, Hpts. split; [done|]. split; [|done].
    clear -Hcl. induction Hcl as [|c col cs cols [? _] _ IH]; by constructor.
  - assert (Hl01 : b_last b = 0 \/ b_last b = -1) by (rewrite Hlast; destruct to_last; auto).
    destruct Hin as [(pre & l' & post & E & Ho & Hbl & Hcst) Hnc Hnp].
    pose proof (payloads_size _ _ _ _ _ _ Hcst) as Hps. destruct (cols_stored_some _ _ _ _ _ _ Hcst) as (Hll & _). rewrite Hpts in Hps.
    assert (Hil : Z.of_nat (length (image l')) < 2 ^ 23).
    { rewrite (mo_bytes _ Hm) in Hsize. pose proof (row_width_pos _ Hcols). unfold image. rewrite length_app, length_seal, length_fields_bytes, length_map, Hll. nia. }
    pose proof (f_equal length E) as El. rewrite !length_app in El.
    rewrite Hcont, length_app in El. unfold file_size in Htgt. pose proof (mo_cols _ Hm) as Hnum.
    assert (Hp23 : points < 2 ^ 23).
    { pose proof (mo_bytes _ Hm) as Hby. pose proof (mo_key _ Hm) as Hkey. destruct (schema m) as [|c0 cs]; [done|]. apply Forall_cons in Hcols as [[Hc0 _] Hcs].
      pose proof (row_width_pos _ Hcs). pose proof (co_bytes _ Hc0). unfold row_width in *. cbn in Hby. nia. }
    constructor; [done|unfold in_s; lia|rewrite Halg; unfold in_s; lia|rewrite Hpts; unfold in_s; lia|by rewrite Hsver|rewrite Hbl; unfold in_s; lia|rewrite Hnc; unfold in_u; lia| |].
    all: destruct (columns_of (schema m) points data); [done|]; destruct Hkeys as [K1 K2]; rewrite ?K1, ?K2; apply wraps_range; lia.
  - intros Hnz. apply few_rows; [lia|]. rewrite Hlast in Hnz. fold to_last. by destruct to_last.
  - split; [exact (kept_buffers _ _ _ _ Hb Hk1)|exact (kept_buffers _ _ _ _ Hcb Hk2)].
Qed.

Lemma cols_stored_lengths compression points cols : forall columns offset l, cols_stored compression points cols columns offset l ->
  Forall2 (fun c col => Z.of_nat (length col) = points * bytes c) cols columns.
Proof.
  induction cols as [|c cols IH]; intros [|col columns] offset [|s l] Hl; cbn in Hl; try done.
  destruct Hl as [[] Hl]. constructor; [done|]. by eapply IH.
Qed.

(** A last block that is read fills the buffers with its rows. *)
Lemma last_block_read m b rows data f : table_ok m -> holds_rows (content f) b (schema m, rows) -> b_numOfPoints b <= pointsPerFileBlock m ->
  Forall2 (col_buffer (pointsPerFileBlock m)) (schema m) data ->
  exists f' data', vnodeReadLastBlockToMem crc32c heap m b data f = Ret (0, f', data') /\ content f' = content f /\
    Forall2 (col_buffer (pointsPerFileBlock m)) (schema m) data' /\ Forall2 (fun c d => d_len d = b_numOfPoints b * bytes c) (schema m) data' /\
    rows_of (schema m) (Z.to_nat (b_numOfPoints b)) (map d_data data') = rows.
Proof.
  intros Ht (columns & Hin & Hcok & Hr) Hle Hb. cbn [fst snd] in *. pose proof (to_meter _ Ht) as Hm. pose proof (mo_ok _ Hm) as Hok. pose proof (bi_points _ _ _ _ Hin) as Hp.
  assert (Hlens : Forall2 (fun c col => Z.of_nat (length col) = b_numOfPoints b * bytes c) (schema m) columns).
  { destruct (bi_image _ _ _ _ Hin) as (pre & l & post & _ & _ & _ & Hst). by eapply cols_stored_lengths. }
  assert (Hall : Forall2 fits_in data columns /\ Forall2 (col_buffer (pointsPerFileBlock m)) (schema m) (zip_with read_into data columns) /\
    Forall2 (fun c d => d_len d = b_numOfPoints b * bytes c) (schema m) (zip_with read_into data columns) /\
    Forall3 (fun c a b' => 0 < bytes c /\ a = take (Z.to_nat (b_numOfPoints b * bytes c)) b') (schema m) columns (map d_data (zip_with read_into data columns))).
  { clear -Hok Hcok Hlens Hb Hp Hle. revert columns Hlens Hcok. induction Hb as [|c d cols data [Hd Hl] _ IH]; intros columns Hlens Hcok.
    - inversion Hlens. repeat split; constructor.
    - apply Forall2_cons_inv_l in Hlens as (col & columns' & Hlen & Hlens & ->). apply Forall_cons in Hok as [[Hc _] Hok]. apply Forall_cons in Hcok as [Hco Hcok].
      destruct (IH Hok _ Hlens Hcok) as (I1 & I2 & I3 & I4). pose proof (co_bytes _ Hc). unfold EXTRA_BYTES, SIZEOF_TSCKSUM in Hl.
      assert (Hfit : Z.of_nat (length col) <= Z.of_nat (length (d_data d))) by nia. cbn [zip_with map].
      split; [by constructor|]. split; [|split; [by constructor|]]; (constructor; [|done]); cbn [read_into d_data d_len]; unfold after_read.
      + split; cbn [read_into d_data]; unfold after_read; [apply bytes_ok_app; split; [done|by apply Forall_drop]|]. rewrite length_app, length_drop. unfold EXTRA_BYTES, SIZEOF_TSCKSUM. lia.
      + split; [done|]. replace (Z.to_nat (b_numOfPoints b * bytes c)) with (length col) by lia. by rewrite take_app_length. }
  destruct Hall as (Hfit & Hb' & Hd' & Hcells).
  destruct (read_last_spec m b columns data f Hm Hin Hle Hcok Hfit) as (f' & Hread & Hf'). exists f', (zip_with read_into data columns).
  split; [done|]. split; [done|]. split; [done|]. split; [done|]. rewrite <- Hr. symmetry. eapply rows_of_ext; [|exact Hcells].
  cbv beta. intros c a b' j [Hbc ->] Hj. rewrite Z2Nat.inj_mul by lia. by apply cell_take.
Qed.
End Block.

(** * The commit of a table

    What the query of a table has still to give comes to be the rows of new blocks,
    behind those of the last block, which is written again or moved. *)

#[local] Existing Instance LP64.

(** ** What a query promises

    [q_pending] are the rows it has still to give.  A call of [q_fill] puts the next of
    them behind those in the buffers, until these are full or there are no more. *)
Definition lens_ok (m : SMeterObj) (points : Z) (data : list SData) : Prop :=
  0 < points -> Forall2 (fun c d => d_len d = points * bytes c) (schema m) data.
Abbreviation buffers m data := (Forall2 (col_buffer (pointsPerFileBlock m)) (schema m) data).
Abbreviation rows_in m n data := (rows_of (schema m) (Z.to_nat n) (map d_data data)).

Class ReaderLaws (Q : Type) `{RowReader Q} := {
  q_ready : nat -> SMeterObj -> Q -> Prop;
  q_pending : nat -> Q -> list (list (list Z));
  q_again_law : forall sid m q, q_ready sid m q -> q_ready sid m (q_again q) /\ q_over (q_again q) = false /\
    q_pending sid (q_again q) = q_pending sid q /\ q_keyIsMet (q_again q) = q_keyIsMet q;
  q_fill_law : forall sid m q p data, q_ready sid m q -> q_over q = false -> 0 <= p < pointsPerFileBlock m -> buffers m data -> lens_ok m p data ->
    exists n q' data', q_fill sid (pointsPerFileBlock m) p q data = Ret (p + n, q', data') /\
      0 <= n <= Z.of_nat (length (q_pending sid q)) /\ p + n <= pointsPerFileBlock m /\ q_ready sid m q' /\
      q_pending sid q' = drop (Z.to_nat n) (q_pending sid q) /\ buffers m data' /\ lens_ok m (p + n) data' /\
      rows_in m (p + n) data' = rows_in m p data ++ take (Z.to_nat n) (q_pending sid q) /\
      (if q_over q' then q_pending sid q' = [] else p + n = pointsPerFileBlock m /\ q_keyIsMet q' = q_keyIsMet q) }.

(** ** New blocks *)
Definition last_flag (d : Z) (bs : list SCompBlock) : Z := match last bs with Some b => b_last b | None => d end.
Definition add_blocks (bs : list SCompBlock) (n : Z) (mi : SMeterInfo) : SMeterInfo :=
  mkInfo (tempHeadOffset mi) (compInfoOffset mi) (oldCompBlockOffset mi) (oldNumOfBlocks mi) (newNumOfBlocks mi + Z.of_nat (length bs)) (finalNumOfBlocks mi)
    (committedPoints mi + n) (last_flag (mi_last mi) bs) (changed mi) (lastBlock mi).

Lemma add_blocks_nil mi : add_blocks [] 0 mi = mi.
Proof. unfold add_blocks. cbn. rewrite !Z.add_0_r. by destruct mi. Qed.
Lemma last_flag_cons d b bs : last_flag d (b :: bs) = last_flag (b_last b) bs.
Proof. unfold last_flag. rewrite last_cons. by destruct (last bs). Qed.
Lemma add_blocks_cons b bs n k mi : add_blocks bs k (add_block (b_last b) n mi) = add_blocks (b :: bs) (n + k) mi.
Proof. unfold add_blocks, add_block. cbn. rewrite last_flag_cons. f_equal; lia. Qed.

Section Table.
Context {Q : Type} `{ReaderLaws Q} `{LZ4Laws} `{DoubleOps} `{BlockOptionsLaws} {crc32c : Z -> Z -> list Z -> Z -> res Z} {heap : Z} `{!RunningSum crc32c heap}.
Context (compression hmsize : Z).
Context (Hcomp : 0 <= compression <= 2).
Abbreviation block_row d l := (block_rows (crc32c := crc32c) (heap := heap) d l).

(** A last block of the present columns can be written again with more rows. *)
Definition last_fits (m : SMeterObj) (b : SCompBlock) (p : part) : Prop :=
  p.1 = schema m /\ b_numOfPoints b < pointsPerFileBlock m /\ Forall (row_ok compression (schema m)) p.2.

(** The blocks of a table, only the last of which may be in the last file. *)
Record chain_ok (m : SMeterObj) (dataf lastf : list Z) (bs : list SCompBlock) (parts : list part) : Prop := {
  ch_rows : Forall2 (block_row dataf lastf) bs parts;
  ch_ok : Forall block_ok bs;
  ch_inner : forall i b, bs !! i = Some b -> (S i < length bs)%nat -> b_last b = 0;
  ch_last : forall b p, last bs = Some b -> last parts = Some p -> b_last b <> 0 -> b_sversion b = sversion m ->
    last_fits m b p }.

Lemma chain_nil m dataf lastf : chain_ok m dataf lastf [] [].
Proof. by constructor; try constructor. Qed.
(** A block has rows. *)
Lemma chain_none m dataf lastf bs parts : chain_ok m dataf lastf bs parts -> concat (map snd parts) = [] -> bs = [].
Proof.
  intros [Hr _ _ _] Hc. destruct Hr as [|b p bs parts (columns & Hin & _ & Hp) _]; [done|]. cbn in Hc. apply app_eq_nil in Hc as [Hc _].
  pose proof (bi_points _ _ _ _ Hin) as Hpos. rewrite Hc in Hp. apply (f_equal length) in Hp. rewrite length_rows_of in Hp. cbn in Hp. lia.
Qed.
Lemma chain_cons m dataf lastf b p bs parts : block_row dataf lastf b p -> block_ok b ->
  (if bs is [] then b_last b <> 0 -> b_sversion b = sversion m -> last_fits m b p else b_last b = 0) ->
  chain_ok m dataf lastf bs parts -> chain_ok m dataf lastf (b :: bs) (p :: parts).
Proof.
  intros Hb Hok Hl [Hr Hbs Hin Hla]. constructor; [by constructor|by constructor| |].
  - intros [|i] x Hx Hi; cbn in Hx, Hi; [|apply (Hin i); [done|lia]]. injection Hx as <-. destruct bs; [cbn in Hi; lia|done].
  - intros x y. destruct bs as [|b' bs]; inversion Hr; subst; cbn; [by intros [= <-] [= <-]|]. intros Hx Hy. by apply Hla.
Qed.
Lemma chain_ok_app m dataf lastf bs parts bs' parts' : chain_ok m dataf lastf bs parts -> Forall (fun b => b_last b = 0) bs \/ bs' = [] ->
  chain_ok m dataf lastf bs' parts' -> chain_ok m dataf lastf (bs ++ bs') (parts ++ parts').
Proof.
  intros [Hr Hbs Hin Hla] [Hz| ->] H'.
  - clear Hin Hla. revert parts Hr Hbs. induction bs as [|b bs IH]; intros parts Hr Hbs; inversion Hr; subst; [done|]. apply Forall_cons in Hz as [Hz Hzs].
    apply Forall_cons in Hbs as [Hb Hbs]. cbn [app]. apply chain_cons; [done|done| |by apply IH]. destruct (bs ++ bs'); [|done]. by rewrite Hz.
  - destruct H' as [Hr' _ _ _]. inversion Hr'. rewrite !app_nil_r. by constructor.
Qed.
Lemma chain_more m dataf lastf md ml bs parts : chain_ok m dataf lastf bs parts -> chain_ok m (dataf ++ md) (lastf ++ ml) bs parts.
Proof.
  intros [Hr Hbs Hin Hla]. constructor; try done. eapply Forall2_impl; [exact Hr|]. intros. by apply block_rows_more.
Qed.

(** There is room for [n] more blocks. *)
Definition budget (n : Z) (st : cstate) : Prop :=
  Z.of_nat (length (c_hmem st)) + 56 * n <= hmsize /\ file_size (dfd (c_files st)) + 2 ^ 31 * n < 2 ^ 61 /\
  file_size (last_of (c_files st)) + 2 ^ 31 * n < 2 ^ 61.
Lemma budget_less n k st : budget n st -> k <= n -> budget k st.
Proof. unfold budget. lia. Qed.
Lemma budget_room n st : budget n st -> 1 <= n -> no_room hmsize st = false.
Proof. unfold budget, no_room, SIZEOF_SCompBlock. intros. apply Z.ltb_ge. lia. Qed.
Lemma budget_grows n st st' b md ml : budget n st -> grows (c_files st) (c_files st') md ml -> Z.of_nat (length (md ++ ml)) < 2 ^ 31 ->
  c_hmem st' = c_hmem st ++ block_bytes b -> budget (n - 1) st'.
Proof.
  intros (B1 & B2 & B3) (G1 & G2 & _) Hl Hh. unfold budget, file_size in *. rewrite Hh, G1, G2, !length_app, length_block_bytes in *. lia.
Qed.

Definition blocks_needed (m : SMeterObj) (n : nat) : Z := Z.of_nat n / pointsPerFileBlock m + 1.

(** Neither the last block nor the loop change [firstKey]. *)
Lemma take_last_firstKey m q data st mi st' mi' q' data' p : take_last crc32c heap hmsize m q data st mi = Ret (Some (st', mi', q', data', p)) -> c_firstKey st' = c_firstKey st.
Proof.
  unfold take_last. destruct (_ =? 0); [by intros [= <-]|]. destruct (negb _).
  - destruct (no_room _ _); [done|]. destruct (read _ _). by intros [= <-].
  - intros Ht. apply rbind_Ret_inv in Ht as ([[code l] d] & _ & Ht). destruct (code <? 0); [done|]. by injection Ht as <-.
Qed.
Lemma commit_loop_firstKey sid m fuel : forall q p data cdata st mi onFile st' mi' onFile' q',
  commit_loop crc32c heap compression hmsize fuel sid m q p data cdata st mi onFile = Ret (Some (st', mi', onFile', q')) -> c_firstKey st' = c_firstKey st.
Proof.
  induction fuel as [|fuel IH]; intros q p data cdata st mi onFile st' mi' onFile' q' Hl; [done|]. cbn [commit_loop] in Hl.
  destruct (q_over q); [by injection Hl as <-|]. destruct (no_room _ _); [done|]. apply rbind_Ret_inv in Hl as ([[n q1] d1] & _ & Hl).
  destruct (n =? 0); [by injection Hl as <-|]. apply rbind_Ret_inv in Hl as ([[[[code b] d2] cd2] fs] & _ & Hl). destruct (code <? 0); [done|].
  destruct (_ || _); [by injection Hl as <-|]. by apply IH in Hl.
Qed.

(** The loop writes all that is pending. *)
Lemma blocks_commit_spec sid m : table_ok m -> forall fuel q L data cdata st mi onFile n,
  q_ready sid m q -> q_keyIsMet q = false -> (q_over q = true -> q_pending sid q = [] /\ L = []) ->
  Z.of_nat (length L) < pointsPerFileBlock m -> buffers m data -> lens_ok m (Z.of_nat (length L)) data -> buffers m cdata ->
  rows_in m (Z.of_nat (length L)) data = L -> Forall (row_ok compression (schema m)) (L ++ q_pending sid q) ->
  (length (q_pending sid q) < fuel)%nat -> blocks_needed m (length (L ++ q_pending sid q)) <= n -> budget n st ->
  exists st' mi' onFile' q' bs parts md ml,
    commit_loop crc32c heap compression hmsize fuel sid m q (Z.of_nat (length L)) data cdata st mi onFile = Ret (Some (st', mi', onFile', q')) /\
    c_hmem st' = c_hmem st ++ blocks_bytes bs /\ grows (c_files st) (c_files st') md ml /\
    mi' = add_blocks bs (Z.of_nat (length (q_pending sid q))) mi /\
    chain_ok m (content (dfd (c_files st'))) (content (last_of (c_files st'))) bs parts /\ concat (map snd parts) = L ++ q_pending sid q /\
    q_ready sid m q' /\ q_pending sid q' = [] /\ (0 < Z.of_nat (length bs) -> Z.of_nat (length bs) <= blocks_needed m (length (L ++ q_pending sid q))) /\
    budget (n - Z.of_nat (length bs)) st' /\ (forall b, In b bs -> b_sversion b = sversion m).
Proof.
  intros Htab. pose proof (to_points _ Htab) as Hpp. induction fuel as [|fuel IH]; intros q L data cdata st mi onFile n Hq Hmet Hov HL Hb Hlens Hcb Hrows Hok Hfuel Hneed Hbud; [lia|].
  set (P := q_pending sid q) in *.
  assert (Hn1 : 1 <= n).
  { unfold blocks_needed in Hneed. pose proof (Z.div_pos (Z.of_nat (length (L ++ P))) (pointsPerFileBlock m) ltac:(lia) ltac:(lia)). lia. }
  cbn [commit_loop]. destruct (q_over q) eqn:Eo.
  { destruct (Hov eq_refl) as [Ep ->]. exists st, mi, onFile, q, [], [], [], []. rewrite Ep. cbn. rewrite add_blocks_nil, app_nil_r.
    split; [done|]. split; [done|]. split; [apply grows_refl|]. split; [done|]. split; [apply chain_nil|]. split; [done|]. split; [done|]. split; [done|].
    split; [lia|]. split; [by rewrite Z.sub_0_r|done]. }
  rewrite (budget_room n) by done.
  destruct (q_fill_law sid m q (Z.of_nat (length L)) data Hq Eo ltac:(lia) Hb Hlens) as (k & q1 & data1 & Hf & Hk & Hkp & Hq1 & Hp1 & Hb1 & Hl1 & Hr1 & Hend).
  fold P in Hk, Hp1, Hr1. rewrite Hf. cbn [rbind]. rewrite Hrows in Hr1.
  destruct (Z.eqb_spec (Z.of_nat (length L) + k) 0) as [Ez|Ez].
  { assert (k = 0) as -> by lia. destruct L; [|cbn in Ez; lia]. destruct (q_over q1) eqn:Eo1; [|cbn in Hend; lia].
    exists st, mi, onFile, q1, [], [], [], []. assert (EP : P = []) by (by rewrite Hp1 in Hend).
    rewrite EP. cbn. rewrite add_blocks_nil, app_nil_r. split; [done|]. split; [done|]. split; [apply grows_refl|]. split; [done|]. split; [apply chain_nil|].
    split; [done|]. split; [done|]. split; [done|]. split; [lia|]. split; [by rewrite Z.sub_0_r|done]. }
  assert (Hpoints : 0 < Z.of_nat (length L) + k <= pointsPerFileBlock m) by lia.
  assert (Hok1 : Forall (row_ok compression (schema m)) (L ++ take (Z.to_nat k) P)).
  { rewrite <- (take_drop (Z.to_nat k) P) in Hok. rewrite app_assoc in Hok. by apply Forall_app in Hok as [? _]. }
  destruct Hbud as (Hbu1 & Hbu2 & Hbu3).
  destruct (block_written (crc32c := crc32c) (heap := heap) m compression (Z.of_nat (length L) + k) data1 cdata (c_files st) (L ++ take (Z.to_nat k) P) Htab Hcomp Hpoints Hb1 (Hl1 ltac:(lia)) Hcb Hr1 Hok1)
    as (b & data2 & cdata2 & fs & md & ml & Hw & Hgr & Hsz & Hbr & Hbok & Hsv & Hpts & Hfew & Hb2 & Hcb2); [lia|lia|].
  rewrite Hw. cbn [rbind]. change (0 <? 0) with false. cbv iota.
  set (onFile1 := if onFile <? b_keyLast b then b_keyLast b else onFile). replace (Z.of_nat (length L) + k - Z.of_nat (length L)) with k by lia.
  set (st1 := put_block b (add_storage (k * bytesPerPoint m) (set_files fs st))).
  assert (Hgr1 : grows (c_files st) (c_files st1) md ml) by done.
  assert (Hbud1 : budget (n - 1) st1) by (apply (budget_grows n st st1 b md ml); [by repeat split|done|lia|done]).
  assert (Hneed1 : 1 <= blocks_needed m (length (L ++ P))).
  { unfold blocks_needed. pose proof (Z.div_pos (Z.of_nat (length (L ++ P))) (pointsPerFileBlock m) ltac:(lia) ltac:(lia)). lia. }
  destruct ((Z.of_nat (length L) + k <? pointsPerFileBlock m) || q_keyIsMet q1) eqn:Estop.
  { assert (Hdone : drop (Z.to_nat k) P = []).
    { destruct (q_over q1) eqn:Eo1; [by rewrite <- Hp1|]. destruct Hend as [E1 E2]. rewrite E1, E2, Hmet, Z.ltb_irrefl in Estop. done. }
    assert (Ek : take (Z.to_nat k) P = P) by (rewrite <- (take_drop (Z.to_nat k) P) at 2; by rewrite Hdone, app_nil_r).
    assert (Ekl : k = Z.of_nat (length P)) by (rewrite <- Ek, length_take; lia).
    exists st1, (add_block (b_last b) k mi), onFile1, q1, [b], [(schema m, L ++ P)], md, ml.
    split; [done|]. split; [by rewrite blocks_bytes_one|]. split; [done|].
    split; [rewrite <- (add_blocks_nil (add_block _ _ _)), add_blocks_cons; f_equal; lia|].
    split; [apply chain_cons; [by rewrite Ek in Hbr|done| |apply chain_nil]; intros; split; [done|]; split; [rewrite Hpts; by apply Hfew|done]|].
    split; [cbn; by rewrite app_nil_r|]. split; [done|]. split; [by rewrite Hp1|]. split; [cbn; lia|]. split; [done|]. by intros x [<-|[]]. }
  apply orb_false_iff in Estop as [Efull Emet]. apply Z.ltb_ge in Efull.
  destruct (IH q1 [] data2 cdata2 st1 (add_block (b_last b) k mi) onFile1 (n - 1)) as
    (st2 & mi2 & onFile2 & q2 & bs & parts & md2 & ml2 & Hl & Hh2 & Hg2 & Hmi2 & Hch & Hcat & Hq2 & Hp2 & Hcnt & Hbud2 & Hsv2); try done.
  { intros Eo1. rewrite Eo1 in Hend. by split. }
  { cbn [app]. rewrite Hp1. apply Forall_app in Hok as [_ Hok]. by apply Forall_drop. }
  { rewrite Hp1, length_drop. assert (0 < k) by lia. lia. }
  { cbn [app]. rewrite Hp1. unfold blocks_needed in *. rewrite length_drop.
    assert (E : Z.of_nat (length (L ++ P)) = Z.of_nat (length P - Z.to_nat k) + 1 * pointsPerFileBlock m) by (rewrite length_app; lia).
    rewrite E, Z.div_add in Hneed by lia. lia. }
  cbn [length] in Hl. change (Z.of_nat 0) with 0 in Hl. cbn [app] in Hcat, Hcnt. rewrite Hp1 in Hcat, Hmi2, Hcnt.
  exists st2, mi2, onFile2, q2, (b :: bs), ((schema m, L ++ take (Z.to_nat k) P) :: parts), (md ++ md2), (ml ++ ml2).
  split; [done|]. split; [rewrite Hh2; unfold st1; cbn [c_hmem put_block add_storage set_files]; unfold blocks_bytes; cbn; by rewrite <- app_assoc|].
  split; [by eapply grows_trans|].
  split; [rewrite Hmi2, add_blocks_cons; f_equal; rewrite length_drop; lia|].
  split.
  { apply chain_cons; [|done| |done].
    - destruct Hg2 as (-> & -> & _). by apply block_rows_more.
    - assert (Hz : b_last b = 0) by (destruct (Z.eq_dec (b_last b) 0) as [|Hnz]; [done|specialize (Hfew Hnz); lia]).
      destruct bs; [|done]. by intros ?. }
  split; [cbn [map concat snd]; rewrite Hcat, <- app_assoc; by rewrite take_drop|].
  split; [done|]. split; [done|]. split.
  { intros _. cbn [length]. unfold blocks_needed in *.
    assert (E : Z.of_nat (length (L ++ P)) = Z.of_nat (length (drop (Z.to_nat k) P)) + 1 * pointsPerFileBlock m) by (rewrite length_app, length_drop; lia).
    rewrite E, Z.div_add by lia. pose proof (Z.div_pos (Z.of_nat (length (drop (Z.to_nat k) P))) (pointsPerFileBlock m) ltac:(lia) ltac:(lia)). lia. }
  split; [cbn [length]; replace (n - Z.of_nat (S (length bs))) with (n - 1 - Z.of_nat (length bs)) by lia; done|].
  intros x [<-|Hx]; [done|by apply Hsv2].
Qed.

(** ** The last block of the table, and the table *)
Lemma chain_data m dataf lastf lastf' md bs parts : Forall (fun b => b_last b = 0) bs -> chain_ok m dataf lastf bs parts ->
  chain_ok m (dataf ++ md) lastf' bs parts.
Proof.
  intros Hz [Hr Hok Hin Hla]. constructor; try done. clear Hok Hin Hla. induction Hr as [|b p bs parts Hb _ IH]; [constructor|].
  apply Forall_cons in Hz as [Hz Hzs]. constructor; [|by apply IH]. unfold block_rows in *. rewrite Hz in *. by apply holds_rows_more.
Qed.

Lemma chain_ok_split m dataf lastf bs b parts : chain_ok m dataf lastf (bs ++ [b]) parts ->
  exists ps p, parts = ps ++ [p] /\ chain_ok m dataf lastf bs ps /\ Forall (fun b => b_last b = 0) bs /\ block_row dataf lastf b p /\ block_ok b /\
    (b_last b <> 0 -> b_sversion b = sversion m -> last_fits m b p).
Proof.
  intros [Hr Hok Hin Hla]. apply Forall2_app_inv_l in Hr as (ps & p1 & Hr & Hb & ->). apply Forall2_cons_inv_l in Hb as (p & p2 & Hb & Hn & ->). inversion Hn; subst.
  apply Forall_app in Hok as [Hok Hb1]. apply Forall_cons in Hb1 as [Hb1 _].
  assert (Hz : Forall (fun b => b_last b = 0) bs).
  { apply Forall_lookup. intros i x Hx. apply (Hin i); [by apply lookup_app_l_Some|]. apply lookup_lt_Some in Hx. rewrite length_app. cbn. lia. }
  exists ps, p. split; [done|]. split; [|split; [done|split; [done|split; [done|]]]].
  - constructor; [done|done| |].
    + intros i x Hx _. by eapply (Forall_lookup_1 _ _ _ _ Hz).
    + intros x y Hx _ Hnz. destruct Hnz. eapply (Forall_lookup_1 _ _ _ _ Hz). rewrite last_lookup in Hx. exact Hx.
  - apply Hla; apply last_snoc.
Qed.

(** A descriptor that has been read has its content. *)
Lemma set_lfd_grows fs l : content l = content (lfd fs) -> grows fs (set_lfd l fs) [] [].
Proof. intros E. destruct fs as [d l0 [t|] sz cs]; unfold grows, same_files, last_of; cbn in *; rewrite !app_nil_r; by repeat split. Qed.

(** The new [SMeterInfo] keeps [kept] of the old blocks and has [bs] new ones. *)
Record info_after (mi mi' : SMeterInfo) (olds kept bs : list SCompBlock) (last : Z) : Prop := {
  ia_temp : tempHeadOffset mi' = tempHeadOffset mi;
  ia_place : oldCompBlockOffset mi' = oldCompBlockOffset mi;
  ia_old : oldNumOfBlocks mi' = Z.of_nat (length kept);
  ia_new : newNumOfBlocks mi' = newNumOfBlocks mi + Z.of_nat (length bs);
  ia_last : mi_last mi' = last;
  ia_kept : (changed mi' = changed mi /\ kept = olds) \/ (changed mi' = true /\ exists b, olds = kept ++ [b]) }.

Lemma take_last_spec sid m q mi st data n olds oldparts : table_ok m -> q_ready sid m q -> q_keyIsMet q = false ->
  (q_over q = true -> q_pending sid q = []) -> chain_ok m (content (dfd (c_files st))) (content (lfd (c_files st))) olds oldparts ->
  mi_last mi = last_flag 0 olds -> (mi_last mi <> 0 -> lastBlock mi = default zero_block (last olds)) -> oldNumOfBlocks mi = Z.of_nat (length olds) ->
  buffers m data -> 1 <= n -> budget n st ->
  exists st' mi' q' data' L kept moved parts md,
    take_last crc32c heap hmsize m q data st mi = Ret (Some (st', mi', q', data', Z.of_nat (length L))) /\
    c_hmem st' = c_hmem st ++ blocks_bytes moved /\ grows (c_files st) (c_files st') md [] /\
    info_after mi mi' olds kept moved 0 /\ committedPoints mi' = committedPoints mi /\
    (forall lastf, chain_ok m (content (dfd (c_files st'))) lastf (kept ++ moved) parts) /\ Forall (fun b => b_last b = 0) (kept ++ moved) /\
    concat (map snd parts) ++ L = concat (map snd oldparts) /\
    q_ready sid m q' /\ q_keyIsMet q' = false /\ q_pending sid q' = q_pending sid q /\ (q_over q' = true -> q_pending sid q' = [] /\ L = []) /\
    Z.of_nat (length L) < pointsPerFileBlock m /\ buffers m data' /\ lens_ok m (Z.of_nat (length L)) data' /\ rows_in m (Z.of_nat (length L)) data' = L /\
    Forall (row_ok compression (schema m)) L /\ budget (n - Z.of_nat (length moved)) st' /\ (length moved <= 1)%nat.
Proof.
  intros Htab Hq Hmet Hov Hch Hl Hlb Hold Hb Hn Hbud. pose proof (to_points _ Htab) as Hpp. unfold take_last.
  destruct (Z.eqb_spec (mi_last mi) 0) as [Ez|Enz].
  { (* no last block *)
    assert (Hz : Forall (fun b => b_last b = 0) olds).
    { destruct (decide (olds = [])) as [->|Hne]; [constructor|]. destruct (exists_last Hne) as (bs & b & ->). unfold last_flag in Hl. rewrite last_snoc in Hl.
      destruct (chain_ok_split _ _ _ _ _ _ Hch) as (ps & p & -> & _ & Hz & _). apply Forall_app. split; [done|]. constructor; [congruence|constructor]. }
    exists st, mi, q, data, [], olds, [], oldparts, []. split; [done|]. split; [cbn; by rewrite app_nil_r|]. split; [apply grows_refl|].
    split; [by constructor; try done; [cbn; lia|by left]|]. split; [done|]. rewrite !app_nil_r. split.
    { intros lastf. rewrite <- (app_nil_r (content (dfd (c_files st)))). by eapply chain_data. }
    split; [done|]. split; [done|]. split; [done|]. split; [done|]. split; [done|]. split; [intros Eo; by split; [apply Hov|]|].
    split; [done|]. split; [done|]. split; [intros Hc; cbn in Hc; lia|]. split; [done|]. split; [constructor|]. split; [by rewrite Z.sub_0_r|]. cbn. lia. }
  assert (Hne : olds <> []) by (intros ->; by rewrite Hl in Enz).
  destruct (exists_last Hne) as (kept & b & ->). unfold last_flag in Hl. rewrite last_snoc in Hl, Hlb. rewrite Hlb by done. cbn [default id].
  destruct (chain_ok_split _ _ _ _ _ _ Hch) as (ps & p & -> & Hch1 & Hz & Hbr & Hbok & Hfit). rewrite Hl in Enz.
  unfold block_rows in Hbr. rewrite (proj2 (Z.eqb_neq _ _) Enz) in Hbr. rewrite length_app in Hold. cbn in Hold.
  assert (Hcat : concat (map snd (ps ++ [p])) = concat (map snd ps) ++ p.2).
  { rewrite map_app, concat_app. cbn. by rewrite app_nil_r. }
  destruct (Z.eqb_spec (b_sversion b) (sversion m)) as [Esv|Esv]; cbn [negb].
  - (* read into the buffers *)
    destruct (Hfit Enz Esv) as (Ep & Hfew & Hpok). destruct p as [cols rows]. cbn [fst snd] in *. subst cols.
    destruct (last_block_read (crc32c := crc32c) (heap := heap) m b rows data (lfd (c_files st)) Htab Hbr ltac:(lia) Hb) as (l & data' & Hread & Hl' & Hb' & Hd' & Hrows).
    rewrite Hread. cbn [rbind]. change (0 <? 0) with false. cbv iota.
    destruct Hbr as (columns & Hin & _ & Hr). pose proof (bi_points _ _ _ _ Hin) as Hpos. cbn [fst snd] in *.
    assert (Elen : b_numOfPoints b = Z.of_nat (length rows)) by (rewrite <- Hr, length_rows_of; lia).
    destruct (q_again_law sid m q Hq) as (Hq' & Ho' & Hp' & Hm').
    eexists _, (drop_last mi), (q_again q), data', rows, kept, [], ps, []. rewrite Elen. split; [reflexivity|]. rewrite !app_nil_r.
    split; [done|]. split; [by apply set_lfd_grows|].
    split; [constructor; cbn; try done; [lia|lia|right; split; [done|by exists b]]|]. split; [done|]. split.
    { intros lastf. cbn. rewrite <- (app_nil_r (content (dfd (c_files st)))). by eapply chain_data. }
    split; [done|]. split; [done|]. split; [done|]. split; [congruence|]. split; [done|]. split; [by rewrite Ho'|].
    split; [lia|]. split; [done|]. split; [intros _; by rewrite <- Elen|]. split; [by rewrite <- Elen|]. split; [done|]. cbn [length]. rewrite Z.sub_0_r. split; [|lia].
    destruct Hbud as (B1 & B2 & B3). unfold budget, file_size in *. destruct (set_lfd_grows (c_files st) l Hl') as (G1 & G2 & _). cbn. rewrite app_nil_r in G1, G2.
    cbn in G1, G2. change (content (dfd (set_lfd l (c_files st)))) with (content (dfd (c_files st))). by rewrite G2.
  - (* moved to the data file *)
    rewrite (budget_room n) by done. destruct Hbr as (columns & Hin & Hcok & Hr). pose proof Hin as [(pre & im & post & E & Ho & Hlen & Hst) Hnc Hnp].
    assert (Hlies : lies (content (lfd (c_files st))) (b_offset b) (image (crc32c := crc32c) (heap := heap) im)) by (exists pre, post; by split).
    rewrite (seek_lies _ _ _ (lfd (c_files st)) eq_refl Hlies), (read_lies _ _ _ _ Hlies) by done. rewrite write_end. cbn [offs lseek_end].
    destruct Hbud as (B1 & B2 & B3). set (fs := c_files st) in *. assert (Hsz : 0 <= file_size (dfd fs) < 2 ^ 61) by (unfold file_size in *; lia).
    rewrite (wraps_id 63) by (try lia; unfold in_s; lia).
    set (b' := mkBlock 0 (file_size (dfd fs)) _ _ _ _ _ _ _). set (d' := mkFd (content (dfd fs) ++ image im) _).
    set (l' := mkFd (content (lfd fs)) _). set (fs' := mkFiles d' l' (tfd fs) _ _).
    assert (Hg : grows fs fs' (image (crc32c := crc32c) (heap := heap) im) []).
    { destruct fs as [dd ll [t|] sz cs]; unfold grows, same_files, last_of, fs'; cbn; rewrite ?app_nil_r; by repeat split. }
    assert (Hbok' : block_ok b') by (destruct Hbok; constructor; cbn; try done; [by left|unfold in_s; lia]).
    assert (Hbr' : forall lastf, block_row (content d') lastf b' p).
    { intros lastf. exists columns. cbn [b_last b' Z.eqb]. split; [|split; [done|done]]. constructor; [|done|done].
      exists (content (dfd fs)), im, []. rewrite app_nil_r. split; [done|]. split; [done|]. by split. }
    exists (put_block b' (set_files fs' st)), (drop_last (add_block (mi_last mi) 0 mi)), q, data, [], kept, [b'], (ps ++ [p]), (image (crc32c := crc32c) (heap := heap) im).
    split; [done|]. split; [cbn [put_block c_hmem set_files]; by rewrite blocks_bytes_one|]. split; [exact Hg|].
    split; [constructor; cbn; try done; [lia|right; split; [done|by exists b]]|]. split; [cbn; lia|]. split.
    { intros lastf. cbn [c_files put_block set_files]. apply chain_ok_app; [by eapply chain_data|by left|]. apply chain_cons; [apply Hbr'|done| |apply chain_nil]. by intros Hnz. }
    split; [apply Forall_app; split; [done|]; by constructor|]. split; [by rewrite app_nil_r|]. split; [done|]. split; [done|]. split; [done|].
    split; [intros Eo; by split; [apply Hov|]|]. split; [done|]. split; [done|]. split; [intros Hc; cbn in Hc; lia|]. split; [done|]. split; [constructor|].
    split; [|cbn; lia]. assert (Him : Z.of_nat (length (image (crc32c := crc32c) (heap := heap) im ++ [])) < 2 ^ 31).
    { rewrite app_nil_r, <- Hlen. destruct Hbok as [_ _ _ _ _ Hbl _ _ _]. unfold in_s in Hbl. lia. }
    apply (budget_grows n st (put_block b' (set_files fs' st)) b' (image (crc32c := crc32c) (heap := heap) im) []); [by repeat split|exact Hg|exact Him|done].
Qed.
End Table.
