(* ===== verification/CommitLife.v ===== *)
(** * Commits of a vnode to its files

    The commit of all tables, and what the files have before and after. *)
From S2P Require Import Prelude CompBase CompInt CompBool CompTime CompXor Tscompression Crc32c ColTypes FileBlock BlockWrite BlockLife HeadFile HeadWrite CommitFile CommitTable.

(** * The commit of all tables *)

#[local] Existing Instance LP64.

Lemma last_flag_zero d a bs : Forall (fun b => b_last b = 0) a -> last_flag d (a ++ bs) = last_flag (last_flag d a) bs.
Proof.
  intros _. unfold last_flag. rewrite last_app. destruct (last bs); [done|]. by destruct (last a).
Qed.
Lemma last_flag_all a : Forall (fun b => b_last b = 0) a -> last_flag 0 a = 0.
Proof.
  intros Ha. unfold last_flag. destruct (last a) as [b|] eqn:E; [|done]. rewrite last_lookup in E. by eapply (Forall_lookup_1 _ _ _ _ Ha).
Qed.

Section All.
Context {Q : Type} `{ReaderLaws Q} `{LZ4Laws} `{DoubleOps} `{BlockOptionsLaws} {crc32c : Z -> Z -> list Z -> Z -> res Z} {heap : Z} `{!RunningSum crc32c heap}.
Context (compression hmsize commitLastKey : Z) (dmem cmem : nat -> list SData) (fuel : nat).
Context (Hcomp : 0 <= compression <= 2).
Abbreviation chain m d l := (chain_ok (crc32c := crc32c) (heap := heap) compression m d l).
Abbreviation rooms n st := (budget hmsize n st).

(** The query of the table starts at [rows], or it is late: there are older rows than those
    of this commit, and the file has none of the table. *)
Definition begins (sid : nat) (m : SMeterObj) (old rows : list (list (list Z))) : Prop :=
  exists q low, q_begin sid = Ret (q, low) /\ q_ready sid m q /\ q_keyIsMet q = false /\ (forall k, low = Some k -> 0 <= k) /\
    ((q_over q = true -> q_pending sid q = []) /\ q_pending sid q = rows \/ q_over q = true /\ old = [] /\ rows = []).
(** More blocks than are written for [n] rows. *)
Definition need (m : SMeterObj) (n : nat) : Z := Z.of_nat n / pointsPerFileBlock m + 3.

(** What is to commit of a table, and that there is memory for it. *)
Record to_commit (sid : nat) (m : SMeterObj) (old rows : list (list (list Z))) : Prop := {
  tc_begins : begins sid m old rows;
  tc_rows : Forall (row_ok compression (schema m)) rows;
  tc_fuel : (length rows < fuel)%nat;
  tc_dmem : buffers m (dmem sid);
  tc_cmem : buffers m (cmem sid) }.

(** What the old head file said of the table. *)
Record info_before (mi : SMeterInfo) (olds : list SCompBlock) : Prop := {
  ib_last : mi_last mi = last_flag 0 olds;
  ib_block : mi_last mi <> 0 -> lastBlock mi = default zero_block (last olds);
  ib_old : oldNumOfBlocks mi = Z.of_nat (length olds);
  ib_new : newNumOfBlocks mi = 0;
  ib_committed : committedPoints mi = 0;
  ib_changed : changed mi = false }.

Lemma need_enough m L rows : 0 < pointsPerFileBlock m -> Z.of_nat (length L) < pointsPerFileBlock m ->
  1 + blocks_needed m (length (L ++ rows : list (list (list Z)))) <= need m (length rows) /\ 3 <= need m (length rows).
Proof.
  intros Hp HL. unfold blocks_needed, need. rewrite length_app.
  assert (Z.of_nat (length L + length rows) / pointsPerFileBlock m <= (Z.of_nat (length rows) + 1 * pointsPerFileBlock m) / pointsPerFileBlock m) by (apply Z.div_le_mono; lia).
  rewrite Z.div_add in * by lia. pose proof (Z.div_pos (Z.of_nat (length rows)) (pointsPerFileBlock m) ltac:(lia) ltac:(lia)). lia.
Qed.

(** The first key to commit later is only lowered. *)
Definition lowered (st st' : cstate) : Prop := c_firstKey st' <= c_firstKey st /\ (0 <= c_firstKey st -> 0 <= c_firstKey st').
Lemma lowered_trans st1 st2 st3 : lowered st1 st2 -> lowered st2 st3 -> lowered st1 st3.
Proof. intros [H1a H1b] [H2a H2b]. split; [lia|auto]. Qed.
Lemma lowered_low low st : (forall k, low = Some k -> 0 <= k) -> lowered st (lower_firstKey low st).
Proof. intros Hl. unfold lower_firstKey. destruct low as [k|]; [|by split]. specialize (Hl k eq_refl). destruct (Z.ltb_spec k (c_firstKey st)); split; cbn; lia. Qed.
Lemma lowered_next t o st : lowered st (next_key commitLastKey t o st).
Proof.
  unfold next_key. set (k := if _ <? _ then _ else _). destruct ((k <? c_firstKey st) && (1 <? k)) eqn:E; [|by split].
  apply andb_prop in E as [E1 E2]. apply Z.ltb_lt in E1, E2. split; cbn; lia.
Qed.

Lemma same_lower low st : c_files (lower_firstKey low st) = c_files st /\ c_hmem (lower_firstKey low st) = c_hmem st.
Proof. unfold lower_firstKey. destruct low as [k|]; [|done]. by destruct (k <? _). Qed.
Lemma same_next t o st : c_files (next_key commitLastKey t o st) = c_files st /\ c_hmem (next_key commitLastKey t o st) = c_hmem st.
Proof. unfold next_key. by destruct ((_ <? c_firstKey st) && _). Qed.

Lemma table_commit_spec sid t mi st rows olds oldparts n : table_ok (t_obj t) -> to_commit sid (t_obj t) (concat (map snd oldparts)) rows -> info_before mi olds ->
  chain (t_obj t) (content (dfd (c_files st))) (content (lfd (c_files st))) olds oldparts -> need (t_obj t) (length rows) <= n -> rooms n st ->
  exists st' mi' t' q' kept bs parts md ml,
    commit_table crc32c heap compression hmsize commitLastKey dmem cmem fuel sid t mi st = Ret (Some (st', mi', t', q')) /\
    c_hmem st' = c_hmem st ++ blocks_bytes bs /\ grows (c_files st) (c_files st') md ml /\
    info_after (set_tempHead (Z.of_nat (length (c_hmem st))) mi) mi' olds kept bs (last_flag 0 (kept ++ bs)) /\
    chain (t_obj t) (content (dfd (c_files st'))) (content (last_of (c_files st'))) (kept ++ bs) parts /\
    concat (map snd parts) = concat (map snd oldparts) ++ rows /\ Z.of_nat (length bs) <= need (t_obj t) (length rows) /\
    committedPoints mi' = Z.of_nat (length rows) /\ q_ready sid (t_obj t) q' /\
    t_obj t' = t_obj t /\ t_deleting t' = t_deleting t /\ t_cached t' = t_cached t /\ (rows <> [] -> q_pending sid q' = []) /\ rooms (n - need (t_obj t) (length rows)) st' /\ lowered st st'.
Proof.
  intros Htab [(q & low & Hq & Hrdy & Hmet & Hlow & Hcase) Hrows Hfuel Hdm Hcm] [Hl Hlb Hold Hnew Hcom Hchg] Hch Hneed Hroom. pose proof (to_points _ Htab) as Hpp.
  destruct (need_enough (t_obj t) [] rows Hpp Hpp) as [_ Hn3].
  unfold commit_table. rewrite Hq. cbn [rbind]. set (mi0 := set_tempHead (Z.of_nat (length (c_hmem st))) mi).
  destruct (same_lower low st) as [Hlf Hlh]. pose proof (lowered_low low st Hlow) as Hlo. set (st0 := lower_firstKey low st) in *. rewrite <- Hlf in Hch. assert (Hroom0 : rooms n st0) by (unfold budget; by rewrite Hlf, Hlh).
  destruct Hcase as [[Hov Hpend]|(Hov & Hold0 & ->)].
  2:{ assert (olds = []) as -> by (by eapply chain_none). destruct oldparts as [|p ps]; [|destruct Hch as [Hr _ _ _]; inversion Hr].
      unfold take_last. rewrite (proj2 (Z.eqb_eq (mi_last mi0) 0)) by done. cbn [rbind]. destruct fuel as [|f]; [cbn in Hfuel; lia|]. cbn [commit_loop]. rewrite Hov. cbn [rbind].
      destruct (same_next t (t_lastKeyOnFile t) st0) as [Hnf Hnh]. rewrite Hlf in Hnf. rewrite Hlh in Hnh. set (st1 := next_key commitLastKey t (t_lastKeyOnFile t) st0) in *.
      exists st1, mi0, (mkTable (t_obj t) (t_deleting t) (t_cached t) (t_lastKey t) (t_lastKeyOnFile t)), q, [], [], [], [], [].
      split; [reflexivity|]. rewrite Hnf, Hnh, app_nil_r. split; [done|]. split; [apply grows_refl|]. split; [constructor; cbn; try done; [lia|by left]|].
      split; [apply chain_nil|]. split; [done|]. split; [change (Z.of_nat (length [])) with 0; lia|]. split; [exact Hcom|]. split; [done|]. do 3 (split; [done|]). split; [done|].
      split; [unfold budget; rewrite Hnf, Hnh; eapply budget_less; [exact Hroom|]; lia|]. eapply lowered_trans; [exact Hlo|apply lowered_next]. }
  destruct (take_last_spec compression hmsize sid (t_obj t) q mi0 st0 (dmem sid) n olds oldparts Htab Hrdy Hmet Hov Hch Hl Hlb Hold Hdm ltac:(lia) Hroom0)
    as (st1 & mi1 & q1 & data1 & L & kept & moved & parts1 & md1 & Htl & Hh1 & Hg1 & Hia & Hcom1 & Hch1 & Hz1 & Hcat1 & Hrdy1 & Hmet1 & Hp1 & Hov1 & HL & Hb1 & Hlen1 & Hr1 & HLok & Hbud1 & Hmv).
  rewrite Htl. cbn [rbind]. destruct (need_enough (t_obj t) L rows Hpp HL) as [Hnl _].
  rewrite Hpend in Hp1.
  destruct (blocks_commit_spec (crc32c := crc32c) (heap := heap) compression hmsize Hcomp sid (t_obj t) Htab fuel q1 L data1 (cmem sid) st1 mi1 (t_lastKeyOnFile t) (n - Z.of_nat (length moved)))
    as (st2 & mi2 & onFile & q2 & bs & parts2 & md2 & ml2 & Hloop & Hh2 & Hg2 & Hmi2 & Hch2 & Hcat2 & Hrdy2 & Hp2 & Hcnt & Hbud2 & _); try done.
  { rewrite Hp1. by apply Forall_app. } { by rewrite Hp1. } { rewrite Hp1. lia. }
  rewrite Hp1 in *. rewrite Hloop. cbn [rbind].
  destruct (same_next t onFile st2) as [Hnf Hnh]. rewrite Hlf in Hg1. rewrite Hlh in Hh1.
  exists (next_key commitLastKey t onFile st2), mi2, (mkTable (t_obj t) (t_deleting t) (t_cached t) (t_lastKey t) onFile), q2, kept, (moved ++ bs), (parts1 ++ parts2), (md1 ++ md2), ml2.
  split; [done|]. rewrite Hnh, Hnf. split; [by rewrite Hh2, Hh1, blocks_bytes_app, app_assoc|].
  split; [exact (grows_trans _ _ _ _ _ _ _ Hg1 Hg2)|]. split.
  { destruct Hia as [A1 A2 A3 A4 A5 A6]. rewrite Hmi2. constructor; cbn; try done.
    - rewrite A4, length_app. unfold mi0. cbn. lia.
    - rewrite A5, app_assoc, (last_flag_zero 0 (kept ++ moved)) by done. by rewrite (last_flag_all (kept ++ moved)). }
  split.
  { rewrite app_assoc. apply chain_ok_app; [|by left|exact Hch2]. destruct Hg2 as (-> & _ & _). eapply chain_data; [done|]. exact (Hch1 []). }
  split; [rewrite map_app, concat_app, Hcat2, app_assoc; by rewrite Hcat1|].
  assert (Hbs : Z.of_nat (length bs) <= blocks_needed (t_obj t) (length (L ++ rows))).
  { destruct bs; [|by apply Hcnt; cbn; lia]. cbn [length]. unfold blocks_needed.
    pose proof (Z.div_pos (Z.of_nat (length (L ++ rows))) (pointsPerFileBlock (t_obj t)) ltac:(lia) ltac:(lia)). lia. }
  split; [rewrite length_app; lia|]. split; [rewrite Hmi2; cbn; rewrite Hcom1; unfold mi0; cbn; lia|]. split; [done|]. do 3 (split; [done|]). split; [done|]. split.
  { unfold budget. rewrite Hnh, Hnf. fold (budget hmsize (n - need (t_obj t) (length rows)) st2). eapply budget_less; [exact Hbud2|]. lia. }
  apply take_last_firstKey in Htl. apply commit_loop_firstKey in Hloop. eapply lowered_trans; [exact Hlo|]. eapply (lowered_trans _ st2); [|apply lowered_next].
  unfold lowered. rewrite Hloop, Htl. by split.
Qed.

(** ** All tables *)

(** A table before the commit: its blocks and their rows, and the rows to commit. *)
Record tdesc := mkDesc { td_blocks : list SCompBlock; td_parts : list part; td_new : list (list (list Z)) }.
Definition touched (ssid esid sid : nat) (t : STable) : bool := t_cached t && (ssid <=? sid)%nat && (sid <=? esid)%nat.

Record table_before (ssid esid sid : nat) (dataf lastf : list Z) (tmp : bool) (t : STable) (mi : SMeterInfo) (d : tdesc) : Prop := {
  tb_table : table_ok (t_obj t);
  tb_info : info_before mi (td_blocks d);
  tb_chain : chain (t_obj t) dataf lastf (td_blocks d) (td_parts d);
  tb_new : if touched ssid esid sid t then to_commit sid (t_obj t) (concat (map snd (td_parts d))) (td_new d)
           else td_new d = [] /\ (tmp = true -> Forall (fun b => b_last b = 0) (td_blocks d)) }.

Record table_after (hmem dataf lastf : list Z) (m : SMeterObj) (mi mi' : SMeterInfo) (d : tdesc) (kept bs : list SCompBlock) (parts : list part) : Prop := {
  ta_info : info_after (set_tempHead (tempHeadOffset mi') mi) mi' (td_blocks d) kept bs (last_flag 0 (kept ++ bs));
  ta_hmem : lies hmem (tempHeadOffset mi') (blocks_bytes bs) \/ bs = [];
  ta_chain : chain m dataf lastf (kept ++ bs) parts;
  ta_rows : concat (map snd parts) = concat (map snd (td_parts d)) ++ td_new d;
  ta_committed : committedPoints mi' = Z.of_nat (length (td_new d));
  ta_count : Z.of_nat (length bs) <= need m (length (td_new d)) }.

Fixpoint tables_before (ssid esid sid : nat) (dataf lastf : list Z) (tmp : bool) (tabs : list (option STable)) (mis : list SMeterInfo) (ds : list tdesc) : Prop :=
  match tabs, mis, ds with
  | [], [], [] => True
  | x :: tabs, mi :: mis, d :: ds => match x with Some t => table_before ssid esid sid dataf lastf tmp t mi d | None => True end /\
      tables_before ssid esid (S sid) dataf lastf tmp tabs mis ds
  | _, _, _ => False
  end.
Fixpoint tables_after (ssid esid sid : nat) (hmem dataf lastf : list Z) (tabs tabs' : list (option STable)) (mis mis' : list SMeterInfo) (ds : list tdesc) (qs : list (option Q)) : Prop :=
  match tabs, tabs', mis, mis', ds, qs with
  | [], [], [], [], [], [] => True
  | x :: tabs, x' :: tabs', mi :: mis, mi' :: mis', d :: ds, q :: qs =>
      match x with
      | Some t => exists t' kept bs parts, x' = Some t' /\ t_obj t' = t_obj t /\ t_deleting t' = t_deleting t /\ t_cached t' = t_cached t /\
          table_after hmem dataf lastf (t_obj t) mi mi' d kept bs parts /\
          (touched ssid esid sid t = true -> exists q', q = Some q' /\ q_ready sid (t_obj t) q' /\ (td_new d <> [] -> q_pending sid q' = []))
      | None => x' = None
      end /\ tables_after ssid esid (S sid) hmem dataf lastf tabs tabs' mis mis' ds qs
  | _, _, _, _, _, _ => False
  end.
Fixpoint total_need (tabs : list (option STable)) (news : list (list (list (list Z)))) : Z :=
  match tabs, news with
  | x :: tabs, new :: news => match x with Some t => need (t_obj t) (length new) | None => 0 end + total_need tabs news
  | _, _ => 0
  end.

Lemma tables_before_more ssid esid dataf lastf tmp md ml tabs : forall sid mis ds, tables_before ssid esid sid dataf lastf tmp tabs mis ds ->
  tables_before ssid esid sid (dataf ++ md) (lastf ++ ml) tmp tabs mis ds.
Proof.
  induction tabs as [|x tabs IH]; intros sid [|mi mis] [|d ds] Hb; try done. destruct Hb as [Hx Hb]. split; [|by apply IH].
  destruct x as [t|]; [|done]. destruct Hx. constructor; try done. by apply chain_more.
Qed.

Lemma total_need_pos dataf lastf tmp ssid esid tabs : forall sid mis ds, tables_before ssid esid sid dataf lastf tmp tabs mis ds -> 0 <= total_need tabs (map td_new ds).
Proof.
  induction tabs as [|x tabs IH]; intros sid [|mi mis] [|d ds] Hb; try done. destruct Hb as [Hx Hb]. cbn [map total_need]. specialize (IH _ _ _ Hb).
  destruct x as [t|]; [|lia]. pose proof (to_points _ (tb_table _ _ _ _ _ _ _ _ _ Hx)) as Hp. unfold need.
  pose proof (Z.div_pos (Z.of_nat (length (td_new d))) (pointsPerFileBlock (t_obj t)) ltac:(lia) ltac:(lia)). lia.
Qed.

Lemma grows_lfd fs fs' md ml : grows fs fs' md ml -> exists ml', content (lfd fs') = content (lfd fs) ++ ml'.
Proof.
  intros (_ & G & Hs). unfold same_files, last_of in *. destruct (tfd fs).
  - destruct Hs as [-> _]. exists []. by rewrite app_nil_r.
  - rewrite Hs in G. by exists ml.
Qed.
Definition has_tmp (fs : files) : bool := match tfd fs with Some _ => true | None => false end.
Lemma grows_tmp fs fs' md ml : grows fs fs' md ml -> has_tmp fs' = has_tmp fs.
Proof. intros (_ & _ & Hs). unfold has_tmp, same_files in *. destruct (tfd fs); [destruct Hs; by destruct (tfd fs')|by rewrite Hs]. Qed.

Lemma info_same mi olds : info_before mi olds -> info_after (set_tempHead (tempHeadOffset mi) mi) mi olds olds [] (last_flag 0 (olds ++ [])).
Proof. intros []. rewrite app_nil_r. constructor; cbn; try done; [lia|by left]. Qed.

Lemma commit_tables_spec ssid esid tabs : forall sid mis st ds n,
  tables_before ssid esid sid (content (dfd (c_files st))) (content (lfd (c_files st))) (has_tmp (c_files st)) tabs mis ds ->
  total_need tabs (map td_new ds) <= n -> rooms n st ->
  exists st' mis' tabs' qs md ml, commit_tables crc32c heap compression hmsize commitLastKey dmem cmem fuel sid ssid esid tabs mis st = Ret (Some (st', mis', tabs', qs)) /\
    grows (c_files st) (c_files st') md ml /\ lowered st st' /\ (exists hm, c_hmem st' = c_hmem st ++ hm) /\
    tables_after ssid esid sid (c_hmem st') (content (dfd (c_files st'))) (content (last_of (c_files st'))) tabs tabs' mis mis' ds qs.
Proof.
  induction tabs as [|x tabs IH]; intros sid [|mi mis] st [|d ds] n Hb Hn Hroom; try done.
  { exists st, [], [], [], [], []. split; [done|]. split; [apply grows_refl|]. split; [by split|]. split; [exists []; by rewrite app_nil_r|done]. }
  destruct Hb as [Hx Hb]. cbn [map total_need] in Hn. pose proof (total_need_pos _ _ _ _ _ _ _ _ _ Hb) as Hpos. cbn [commit_tables].
  destruct x as [t|].
  2:{ cbn [rbind]. destruct (IH (S sid) mis st ds n Hb ltac:(lia) Hroom) as (st' & mis' & tabs' & qs & md & ml & -> & Hg & Hlo & Hh & Ha). cbn [rbind].
      exists st', (mi :: mis'), (None :: tabs'), (None :: qs), md, ml. split; [done|]. split; [done|]. split; [done|]. split; [done|]. by split. }
  destruct Hx as [Htab Hinfo Hch Hnew]. unfold touched in Hnew.
  destruct (t_cached t && (ssid <=? sid)%nat && (sid <=? esid)%nat) eqn:Et.
  - destruct (table_commit_spec sid t mi st (td_new d) (td_blocks d) (td_parts d) n Htab Hnew Hinfo Hch) as
      (st1 & mi1 & t1 & q1 & kept & bs & parts & md1 & ml1 & Hc1 & Hh1 & Hg1 & Hia & Hch1 & Hcat & Hcnt & Hcm & Hrq & E1 & E2 & E3 & Hq1 & Hroom1 & Hlo1); [lia|done|].
    rewrite Hc1. cbn [rbind]. destruct (grows_lfd _ _ _ _ Hg1) as [mll Hlfd]. pose proof (grows_tmp _ _ _ _ Hg1) as Htmp.
    destruct (IH (S sid) mis st1 ds (n - need (t_obj t) (length (td_new d)))) as (st2 & mis2 & tabs2 & qs & md2 & ml2 & Hc2 & Hg2 & Hlo2 & [hm Hh2] & Ha).
    { rewrite Htmp, Hlfd. destruct Hg1 as (-> & _). by apply tables_before_more. } { lia. } { done. }
    rewrite Hc2. cbn [rbind]. exists st2, (mi1 :: mis2), (Some t1 :: tabs2), (Some q1 :: qs), (md1 ++ md2), (ml1 ++ ml2).
    split; [done|]. split; [by eapply grows_trans|]. split; [by eapply lowered_trans|]. split; [exists (blocks_bytes bs ++ hm); by rewrite Hh2, Hh1, app_assoc|].
    split; [|done]. exists t1, kept, bs, parts. do 4 (split; [done|]). split; [|intros _; by exists q1].
    assert (Etemp : tempHeadOffset mi1 = Z.of_nat (length (c_hmem st))) by (by destruct Hia).
    constructor; [by rewrite Etemp| | |done|done|done].
    + left. rewrite Etemp. exists (c_hmem st), hm. split; [by rewrite Hh2, Hh1, app_assoc|done].
    + destruct Hg2 as (-> & -> & _). by apply chain_more.
  - destruct Hnew as [Hnil Htmp]. cbn [rbind].
    destruct (IH (S sid) mis st ds (n - need (t_obj t) (length (td_new d)))) as (st2 & mis2 & tabs2 & qs & md2 & ml2 & Hc2 & Hg2 & Hlo2 & [hm Hh2] & Ha).
    { done. } { lia. } { eapply budget_less; [done|]. pose proof (to_points _ Htab). destruct (need_enough (t_obj t) [] (td_new d)); [done|done|]. lia. }
    rewrite Hc2. cbn [rbind]. exists st2, (mi :: mis2), (Some t :: tabs2), (None :: qs), md2, ml2.
    split; [done|]. split; [done|]. split; [done|]. split; [by exists hm|]. split; [|done]. exists t, (td_blocks d), [], (td_parts d). do 4 (split; [done|]).
    split; [|unfold touched; by rewrite Et].
    constructor; [by apply info_same|by right| |by rewrite Hnil, app_nil_r|by rewrite Hnil; destruct Hinfo|].
    + rewrite app_nil_r. destruct Hg2 as (-> & -> & Hs). unfold has_tmp in Htmp. destruct (tfd (c_files st)) eqn:Etfd.
      * eapply chain_data; [by apply Htmp|exact Hch].
      * unfold last_of. rewrite Etfd. by apply chain_more.
    + cbn. pose proof (to_points _ Htab). destruct (need_enough (t_obj t) [] (td_new d)); [done|done|]. lia.
Qed.
End All.

(** * The files of a vnode after a commit

    [vnode_ok] says what rows the files of a vnode have of each table.  A commit leads
    from one such state to another, with the rows of the cache behind the old ones. *)

#[local] Existing Instance LP64.

Lemma rd_lies l off bs n : lies l off bs -> n = Z.of_nat (length bs) -> rd l off n = Ret bs.
Proof. intros (pre & post & -> & ->) ->. by apply rd_app_mid. Qed.

(** The buffer for old blocks has room for those of each table. *)
Lemma max_blocks_ge mis : Forall (fun mi => 0 <= oldNumOfBlocks mi < 2 ^ 31) mis -> forall i mi, mis !! i = Some mi -> oldNumOfBlocks mi <= max_blocks mis.
Proof.
  unfold max_blocks. intros Hall.
  set (step := fun n mi => if n <? oldNumOfBlocks mi then i32 (oldNumOfBlocks mi) else n).
  assert (Hmono : forall l n, Forall (fun mi => 0 <= oldNumOfBlocks mi < 2 ^ 31) l -> n <= foldl step n l).
  { intros l. induction l as [|mi l IH]; intros n Hl; [done|]. apply Forall_cons in Hl as [Hm Hl]. cbn [foldl]. etrans; [|by apply IH].
    unfold step. destruct (Z.ltb_spec n (oldNumOfBlocks mi)); [|lia]. rewrite wraps_id; [lia|lia|]. unfold in_s. lia. }
  generalize 1. induction mis as [|m mis IH]; intros n [|i] mi Hi; try done; apply Forall_cons in Hall as [Hm Hall]; cbn [foldl].
  - injection Hi as ->. etrans; [|by apply Hmono]. unfold step. destruct (Z.ltb_spec n (oldNumOfBlocks mi)); [|lia]. rewrite wraps_id; [lia|lia|]. unfold in_s. lia.
  - by apply (IH Hall (step n m) i).
Qed.

Section Life.
Context {Q : Type} `{ReaderLaws Q} `{LZ4Laws} `{DoubleOps} `{BlockOptionsLaws} {crc32c : Z -> Z -> list Z -> Z -> res Z} {heap : Z} `{!RunningSum crc32c heap}.
Context (compression hmsize commitLastKey : Z) (dmem cmem : nat -> list SData) (fuel : nat).
Context (Hcomp : 0 <= compression <= 2).
Abbreviation chain m d l := (chain_ok (crc32c := crc32c) (heap := heap) compression m d l).
Abbreviation row := (list (list Z)).

(** ** What the files hold *)
Definition table_in (dataf lastf : list Z) (x : option STable) (y : option entry) (rows : list row) : Prop :=
  match x with
  | None => rows = []
  | Some t => table_ok (t_obj t) /\ t_deleting t = false /\
      match y with
      | None => rows = []
      | Some e => e_uid e = uid (t_obj t) /\ e_last e = last_flag 0 (e_blocks e) /\
          exists parts, chain (t_obj t) dataf lastf (e_blocks e) parts /\ concat (map snd parts) = rows
      end
  end.

Definition blocks_in (y : option entry) : list SCompBlock := match y with Some e => e_blocks e | None => [] end.
Definition count_blocks (ents : list (option entry)) : Z := foldr (fun y n => Z.of_nat (length (blocks_in y)) + n) 0 ents.

(** [nb] is a bound on the number of blocks. *)
Record vnode_ok (tabs : list (option STable)) (v : vfiles) (contents : list (list row)) (nb : Z) : Prop := {
  vo_files : exists ents, head_ok (crc32c := crc32c) (heap := heap) (v_head v) ents /\ length ents = length tabs /\ length contents = length tabs /\
    (forall sid x y rows, tabs !! sid = Some x -> ents !! sid = Some y -> contents !! sid = Some rows -> table_in (v_data v) (v_last v) x y rows) /\
    count_blocks ents <= nb;
  vo_data : 512 <= Z.of_nat (length (v_data v));
  vo_last : 512 <= Z.of_nat (length (v_last v)) }.

(** What reading a block gives: each of its columns, whatever is in the buffers. *)
Definition readable (file : list Z) (b : SCompBlock) (p : part) : Prop :=
  exists columns, length columns = length p.1 /\ rows_of p.1 (Z.to_nat (b_numOfPoints b)) columns = p.2 /\
    forall j c column f buf dataSize temp bufferSize, p.1 !! j = Some c -> columns !! j = Some column -> content f = file ->
      bytes_ok buf -> bytes_ok temp -> Z.of_nat (length column) <= Z.of_nat (length buf) ->
      (b_algorithm b <> 0 -> Z.of_nat (length column) <= dataSize /\ (b_algorithm b = TWO_STAGE_COMP -> Z.of_nat (length column) + 1 <= bufferSize) /\
         Z.of_nat (length column) + 2 <= Z.of_nat (length temp)) ->
      exists f' mem temp', vnodeReadColumnToMem crc32c heap f b None (Z.of_nat j) (Some buf) dataSize temp bufferSize =
        Ret (0, f', mem, Some (column ++ drop (length column) buf), temp') /\ content f' = file.

Lemma holds_readable file b p : holds_rows (crc32c := crc32c) (heap := heap) file b p -> readable file b p.
Proof.
  intros (columns & Hin & Hok & Hr). destruct (block_in_as _ _ _ _ Hin) as [l Hl]. exists columns.
  destruct (cols_stored_some _ _ _ _ _ _ (ba_cols _ _ _ _ _ Hl)) as (_ & Hlen & _ & _). split; [done|]. split; [done|].
  intros j c column f buf dataSize temp bufferSize Hc Hcol <- Hbuf Htemp Hroom Halg.
  destruct (read_column_spec f b p.1 columns l j c column None buf dataSize temp bufferSize Hl Hc Hcol) as (f' & temp' & Hread & Hf & _); try done.
  { by left. } { by eapply (Forall_lookup_1 _ _ _ _ Hok). }
  by exists f', (Some (fields_mem l)), temp'.
Qed.

Definition read_back (v : vfiles) (b : SCompBlock) (p : part) : Prop := readable (if b_last b =? 0 then v_data v else v_last v) b p.

(** A query finds the blocks of its table, and in them the rows. *)
Lemma vnode_query tabs v contents nb sid t rows : vnode_ok tabs v contents nb -> tabs !! sid = Some (Some t) -> contents !! sid = Some rows ->
  exists blocks parts, vnodeGetCompBlockInfo crc32c heap (v_head v) (length tabs) sid (uid (t_obj t)) = Ret (Z.of_nat (length blocks), blocks) /\
    Forall2 (read_back v) blocks parts /\ concat (map snd parts) = rows.
Proof.
  intros [(ents & Hh & Hle & Hlc & Hall & _) _ _] Ht Hr. destruct (lookup_lt_is_Some_2 ents sid) as [y Hy].
  { rewrite Hle. by eapply lookup_lt_Some. }
  rewrite <- Hle, (get_blocks_spec _ _ _ _ _ Hh Hy). destruct (Hall _ _ _ _ Ht Hy Hr) as (_ & _ & Hx). destruct y as [e|].
  - destruct Hx as (-> & _ & parts & [Hch _ _ _] & Hcat). rewrite Z.eqb_refl. exists (e_blocks e), parts. split; [done|]. split; [|done].
    eapply Forall2_impl; [exact Hch|]. intros b p. by apply holds_readable.
  - exists [], []. subst. by repeat split; try constructor.
Qed.

(** The files that are made first have no rows. *)
Lemma created_vnode file_header tabs : length file_header = 512%nat ->
  (forall sid t, tabs !! sid = Some (Some t) -> table_ok (t_obj t) /\ t_deleting t = false) ->
  exists v, vnodeCreateEmptyCompFile crc32c heap file_header (length tabs) = Ret v /\ vnode_ok tabs v (replicate (length tabs) []) 0 /\
    v_data v = file_header /\ v_last v = file_header.
Proof.
  intros Hh Htabs. destruct (open_head_empty (crc32c := crc32c) (heap := heap) file_header (length tabs) Hh) as (f & Hf & Hok).
  unfold vnodeCreateEmptyCompFile. rewrite Hf. eexists. split; [reflexivity|]. split; [|done]. constructor; [|cbn; lia..].
  exists (replicate (length tabs) None). split; [exact Hok|]. rewrite !length_replicate. split; [done|]. split; [done|]. split.
  - intros sid x y rows Hx Hy Hr. apply lookup_replicate in Hy as [-> _], Hr as [-> _]. destruct x as [t|]; [|done]. destruct (Htabs _ _ Hx). by split.
  - clear. induction (length tabs) as [|k IH]; [done|]. exact IH.
Qed.

(** ** From one state to the next *)

Lemma before_info t o y dataf lastf rows : table_in dataf lastf (Some t) y rows -> info_before (old_infos (Some t) o y) (blocks_in y).
Proof.
  intros (_ & Hdel & Hy). unfold old_infos. rewrite Hdel. destruct y as [e|]; [|by constructor]. destruct Hy as (Hu & Hl & _).
  unfold old_info. rewrite Hu, Z.eqb_refl. constructor; cbn; try done. intros Hnz. by rewrite (proj2 (Z.eqb_neq _ _) Hnz).
Qed.

Definition can_commit (ssid esid sid : nat) (x : option STable) (old new : list row) : Prop :=
  match x with
  | Some t => if touched ssid esid sid t then to_commit (Q := Q) compression dmem cmem fuel sid (t_obj t) old new else new = [] /\ ssid <> 0%nat
  | None => new = []
  end.

Lemma describe ssid esid dataf lastf tabs : forall sid offsets ents contents news, length offsets = length tabs -> length ents = length tabs ->
  length contents = length tabs -> length news = length tabs ->
  (forall i x y rows, tabs !! i = Some x -> ents !! i = Some y -> contents !! i = Some rows -> table_in dataf lastf x y rows) ->
  (forall i x old new, tabs !! i = Some x -> contents !! i = Some old -> news !! i = Some new -> can_commit ssid esid (sid + i) x old new) ->
  exists ds, tables_before (crc32c := crc32c) (heap := heap) compression dmem cmem fuel ssid esid sid dataf lastf (ssid =? 0)%nat tabs (infos_of tabs offsets ents) ds /\
    map td_new ds = news /\
    (forall i t y d rows, tabs !! i = Some (Some t) -> ents !! i = Some y -> ds !! i = Some d -> contents !! i = Some rows ->
       td_blocks d = blocks_in y /\ concat (map snd (td_parts d)) = rows).
Proof.
  induction tabs as [|x tabs IH]; intros sid [|o offsets] [|y ents] [|rows contents] [|new news] L1 L2 L3 L4 Htab Hnew; try done.
  { by exists []. }
  destruct (IH (S sid) offsets ents contents news) as (ds & Hb & Hn & Hd); [cbn in *; lia|cbn in *; lia|cbn in *; lia|cbn in *; lia| | |].
  { intros i. apply (Htab (S i)). } { intros i x' old' new' Hx Ho Hn. rewrite Nat.add_succ_comm. by apply (Hnew (S i)). }
  pose proof (Htab 0%nat x y rows eq_refl eq_refl eq_refl) as Hx. pose proof (Hnew 0%nat x rows new eq_refl eq_refl eq_refl) as Hc. rewrite Nat.add_0_r in Hc.
  assert (Hdesc : exists d, match x with Some t => table_before (crc32c := crc32c) (heap := heap) compression dmem cmem fuel ssid esid sid dataf lastf (ssid =? 0)%nat t (old_infos x o y) d /\
      td_blocks d = blocks_in y /\ concat (map snd (td_parts d)) = rows | None => True end /\ td_new d = new).
  { destruct x as [t|]; [|by exists (mkDesc [] [] new)]. pose proof (before_info t o y _ _ _ Hx) as Hi. destruct Hx as (Hok & Hdel & Hy).
    assert (Hp : exists parts, chain (t_obj t) dataf lastf (blocks_in y) parts /\ concat (map snd parts) = rows).
    { destruct y as [e|]; [by destruct Hy as (_ & _ & ?)|]. subst. exists []. split; [apply chain_nil|done]. }
    destruct Hp as (parts & Hch & Hcat). exists (mkDesc (blocks_in y) parts new). split; [|done]. split; [|done]. constructor; [done|done|done|].
    cbn [td_new td_parts can_commit] in *. rewrite Hcat. destruct (touched ssid esid sid t); [done|]. destruct Hc as [-> Hs]. split; [done|]. by apply Nat.eqb_neq in Hs as ->. }
  destruct Hdesc as (d & Hd0 & Hn0). exists (d :: ds). split; [|split].
  - split; [|done]. destruct x as [t|]; [by destruct Hd0 as (? & _ & _)|done].
  - cbn. by rewrite Hn0, Hn.
  - intros [|i] t y' d' rows' E1 E2 E3 E4; cbn in *; [|by eapply Hd]. simplify_eq. by destruct Hd0 as (_ & ? & ?).
Qed.

(** A table has its entry in the new head file. *)
Lemma table_prepared head hmem dataf lastf dataf' lastf' maxOld t t' o y mi' d kept bs parts rows new :
  table_in dataf lastf (Some t) y rows -> entry_at (crc32c := crc32c) (heap := heap) head o y ->
  td_blocks d = blocks_in y -> concat (map snd (td_parts d)) = rows -> td_new d = new -> t_obj t' = t_obj t -> t_deleting t' = t_deleting t ->
  table_after (crc32c := crc32c) (heap := heap) compression hmem dataf' lastf' (t_obj t) (old_infos (Some t) o y) mi' d kept bs parts ->
  Z.of_nat (length (blocks_in y)) <= maxOld -> 56 * (Z.of_nat (length (blocks_in y)) + need (t_obj t) (length new)) < 2 ^ 31 ->
  exists y', table_ready (crc32c := crc32c) (heap := heap) head hmem maxOld o (Some t') mi' y' /\ table_in dataf' lastf' (Some t') y' (rows ++ new) /\
    Z.of_nat (length (blocks_in y')) <= Z.of_nat (length (blocks_in y)) + need (t_obj t) (length new).
Proof.
  intros Hx Hat Eb Er En Eo Ed [Hinfo Hhm Hch Hcat _ Hcnt] Hmax Hsz. pose proof (before_info t o y _ _ _ Hx) as [_ _ Hb3 Hb4 _ Hb5].
  remember (old_infos (Some t) o y) as mi eqn:Emi. destruct Hx as (Hok & Hdel & Hy). rewrite Eb in Hinfo. destruct Hinfo as [I1 I2 I3 I4 I5 I6]. rewrite Er, En in Hcat. rewrite En in Hcnt. cbn in I2, I4, I6.
  rewrite Hb4 in I4. rewrite Hb5 in I6.
  assert (Hklen : Z.of_nat (length kept) <= Z.of_nat (length (blocks_in y))).
  { destruct I6 as [[_ <-]|[_ [b ->]]]; [done|]. rewrite length_app. lia. }
  destruct (decide (kept ++ bs = [])) as [Enil|Enn].
  - apply app_eq_nil in Enil as [-> ->]. exists None. pose proof (ch_rows _ _ _ _ _ _ Hch) as Hp. inversion Hp; subst. cbn in Hcat. symmetry in Hcat. apply app_eq_nil in Hcat as [Hc1 Hc2].
    assert (Hnone : y = None).
    { destruct y as [e|]; [|done]. destruct Hat as (Hen & _). pose proof (en_blocks _ Hen) as Hne. cbn in *. destruct I6 as [[_ E]|[_ [b E]]]; [by rewrite <- E in Hne|].
      destruct Hy as (_ & _ & parts' & Hch' & Hcat'). rewrite E in Hch'. cbn [app] in Hch'. destruct (chain_ok_split _ _ _ _ [] b _ Hch') as (ps & p & -> & Hps & _ & (columns & Hin & _ & Hr) & _).
      exfalso. rewrite Hc1 in Hcat'. pose proof (ch_rows _ _ _ _ _ _ Hps) as Hps'. inversion Hps'; subst. cbn in Hcat'. rewrite app_nil_r in Hcat'.
      pose proof (bi_points _ _ _ _ Hin) as Hpos. rewrite Hcat' in Hr. apply (f_equal length) in Hr. rewrite length_rows_of in Hr. cbn in Hr. lia. }
    subst y. cbn in Hat, I3, I4 |- *. split; [right; split; [lia|done]|]. rewrite Hc1, Hc2. rewrite Eo, Ed.
    split; [by split|]. pose proof (to_points _ Hok) as Hpp. destruct (need_enough (t_obj t) [] [] Hpp Hpp) as [_ Hn3]. cbn [length] in *. lia.
  - exists (Some (mkEntry (uid (t_obj t')) (last_flag 0 (kept ++ bs)) (kept ++ bs))). split; [|split].
    + exists t', kept, bs. split; [done|].
      assert (Hentry : entry_ok (mkEntry (uid (t_obj t')) (last_flag 0 (kept ++ bs)) (kept ++ bs))).
      { constructor; cbn; [rewrite Eo; by apply to_uid| |done|rewrite length_app; lia|by apply (ch_ok _ _ _ _ _ _ Hch)].
        unfold last_flag. destruct (last (kept ++ bs)) as [b|] eqn:El; [|by left]. rewrite last_lookup in El.
        apply bk_last. by eapply (Forall_lookup_1 _ _ _ _ (ch_ok _ _ _ _ _ _ Hch)). }
      constructor; [exact Hentry|done|done|done|done| | |lia| |].
      * cbn. lia.
      * cbn. rewrite length_app. lia.
      * intros Hkn. cbn. destruct y as [e|]; [|destruct I6 as [[_ ->]|[_ [b E]]]; [done|by destruct kept]]. destruct Hy as (Hu & _).
        destruct Hat as (_ & _ & Hl). unfold entry_bytes in Hl. apply lies_tail in Hl. rewrite info_entry_length in Hl.
        rewrite Emi in I2. unfold old_infos in I2. rewrite Hdel in I2. cbn [old_info] in I2. rewrite Hu, Z.eqb_refl in I2. cbn in I2. rewrite I2.
        cbn [blocks_in] in I6. destruct I6 as [[-> ->]|[-> [b E]]]; [done|]. unfold blocks_sealed, seal in Hl. rewrite E, blocks_bytes_app, <- app_assoc in Hl.
        by eapply lies_head.
      * intros Hbn. cbn. destruct Hhm as [Hhm|?]; [|done]. apply rd_lies; [done|]. pose proof (length_blocks_bytes bs). lia.
    + split; [by rewrite Eo|]. split; [by rewrite Ed|]. cbn. split; [done|]. split; [done|]. rewrite Eo. by exists parts.
    + cbn. rewrite length_app. lia.
Qed.

Lemma count_blocks_cons y ents : count_blocks (y :: ents) = Z.of_nat (length (blocks_in y)) + count_blocks ents.
Proof. done. Qed.
Lemma count_blocks_pos ents : 0 <= count_blocks ents.
Proof. induction ents as [|y ents IH]; [done|]. rewrite count_blocks_cons. lia. Qed.

Lemma length_ents_bytes ents : Z.of_nat (length (ents_bytes (crc32c := crc32c) (heap := heap) ents)) <= 28 * Z.of_nat (length ents) + 56 * count_blocks ents.
Proof.
  induction ents as [|y ents IH]; [done|]. rewrite count_blocks_cons. unfold ents_bytes in *. cbn [map concat length]. rewrite length_app.
  destruct y as [e|]; cbn [blocks_in]; [|cbn [length]; lia]. pose proof (length_entry_bytes (crc32c := crc32c) (heap := heap) e). lia.
Qed.

Lemma tables_prepared ssid esid head hmem dataf lastf tmp dataf' lastf' dataf0 lastf0 maxOld tabs : forall sid offsets ents tabs' mis' ds qs contents,
  Forall2 (entry_at (crc32c := crc32c) (heap := heap) head) offsets ents -> length ents = length tabs -> length contents = length tabs ->
  (forall i x y rows, tabs !! i = Some x -> ents !! i = Some y -> contents !! i = Some rows -> table_in dataf lastf x y rows) ->
  tables_before (crc32c := crc32c) (heap := heap) compression dmem cmem fuel ssid esid sid dataf0 lastf0 tmp tabs (infos_of tabs offsets ents) ds ->
  (forall i t y d rows, tabs !! i = Some (Some t) -> ents !! i = Some y -> ds !! i = Some d -> contents !! i = Some rows ->
     td_blocks d = blocks_in y /\ concat (map snd (td_parts d)) = rows) ->
  (forall i new, tabs !! i = Some None -> map td_new ds !! i = Some new -> new = []) ->
  tables_after (crc32c := crc32c) (heap := heap) compression ssid esid sid hmem dataf' lastf' tabs tabs' (infos_of tabs offsets ents) mis' ds qs ->
  (forall i mi, infos_of tabs offsets ents !! i = Some mi -> oldNumOfBlocks mi <= maxOld) ->
  56 * (count_blocks ents + total_need tabs (map td_new ds)) < 2 ^ 31 ->
  exists ents', all_prepared (crc32c := crc32c) (heap := heap) head hmem maxOld offsets tabs' mis' ents' /\ length ents' = length tabs /\ length tabs' = length tabs /\
    (forall i x y rows, tabs' !! i = Some x -> ents' !! i = Some y -> zip_with app contents (map td_new ds) !! i = Some rows -> table_in dataf' lastf' x y rows) /\
    count_blocks ents' <= count_blocks ents + total_need tabs (map td_new ds).
Proof.
  induction tabs as [|x tabs IH]; intros sid offsets ents tabs' mis' ds qs contents Hat L1 L2 Htab Hbef Hd Hnone Hafter Hmax Hsz.
  { destruct ents; [|done]. inversion Hat; subst. destruct tabs', mis', ds, qs; try done. exists []. by repeat split. }
  destruct ents as [|y ents]; [done|]. apply Forall2_cons_inv_r in Hat as (o & offsets' & Ho & Hat & ->). destruct contents as [|rows contents]; [done|].
  destruct tabs' as [|x' tabs'], mis' as [|mi' mis'], ds as [|d ds], qs as [|q qs]; try (by destruct Hafter). cbn [infos_of] in *. destruct Hafter as [Hx Hafter].
  destruct Hbef as [Hb0 Hbef]. cbn [map total_need] in *. rewrite count_blocks_cons in Hsz.
  pose proof (total_need_pos _ _ _ _ _ _ _ _ _ _ _ _ _ Hbef) as Htn. pose proof (count_blocks_pos ents) as Hcb.
  pose proof (Htab 0%nat x y rows eq_refl eq_refl eq_refl) as Hx0.
  assert (Hneed : 0 <= match x with Some t => need (t_obj t) (length (td_new d)) | None => 0 end).
  { destruct x as [t|]; [|done]. destruct Hx0 as (Hok & _). pose proof (to_points _ Hok) as Hpp. destruct (need_enough (t_obj t) [] (td_new d) Hpp Hpp). lia. }
  destruct (IH (S sid) offsets' ents tabs' mis' ds qs contents) as (ents' & Hprep & Hl1 & Hl2 & Hin & Hcnt); try done.
  { by injection L1. } { by injection L2. } { intros i. apply (Htab (S i)). } { intros i. apply (Hd (S i)). } { intros i. apply (Hnone (S i)). }
  { intros i. apply (Hmax (S i)). } { lia. }
  assert (Hone : exists y', table_ready (crc32c := crc32c) (heap := heap) head hmem maxOld o x' mi' y' /\ table_in dataf' lastf' x' y' (rows ++ td_new d) /\
    Z.of_nat (length (blocks_in y')) <= Z.of_nat (length (blocks_in y)) + match x with Some t => need (t_obj t) (length (td_new d)) | None => 0 end).
  { destruct x as [t|].
    - destruct Hx as (t' & kept & bs & parts & -> & E1 & E2 & E3 & Hta & _). destruct (Hd 0%nat t y d rows eq_refl eq_refl eq_refl eq_refl) as [Eb Er].
      apply (table_prepared head hmem dataf lastf dataf' lastf' maxOld t t' o y mi' d kept bs parts rows (td_new d)); try done; [|lia].
      pose proof (before_info t o y _ _ _ Hx0) as [_ _ Hold _ _ _]. rewrite <- Hold. by apply (Hmax 0%nat).
    - subst x'. exists None. split; [by left|]. cbn in Hx0 |- *. subst rows. rewrite (Hnone 0%nat (td_new d)) by done. split; [done|lia]. }
  destruct Hone as (y' & Hy1 & Hy2 & Hy3). exists (y' :: ents'). split; [by split|]. split; [cbn; congruence|]. split; [cbn; congruence|]. split.
  - intros [|i] a b r Ha Hb Hr; cbn in *; [by simplify_eq|]. by eapply Hin.
  - rewrite !count_blocks_cons. lia.
Qed.

(** A table stays as it is, but for its newest key in the files. *)
Definition kept_table (x x' : option STable) : Prop :=
  match x, x' with
  | Some t, Some t' => t_obj t' = t_obj t /\ t_deleting t' = t_deleting t /\ t_cached t' = t_cached t
  | None, None => True
  | _, _ => False
  end.
Lemma after_tables ssid esid hmem dataf lastf tabs : forall k tabs' mis mis' ds qs,
  tables_after (crc32c := crc32c) (heap := heap) compression ssid esid k hmem dataf lastf tabs tabs' mis mis' ds qs -> Forall2 kept_table tabs tabs'.
Proof.
  induction tabs as [|x tabs IH]; intros k [|x' tabs'] [|mi mis] [|mi' mis'] [|d ds] [|q qs] Ha; try done. destruct Ha as [Hx Ha].
  constructor; [|by eapply IH]. destruct x as [t|]; [|by subst]. by destruct Hx as (t' & _ & _ & _ & -> & E & E2 & E3 & _).
Qed.

(** Of a table that was committed the cache is told where its query is, if it gave any rows. *)
Lemma after_committed ssid esid hmem dataf lastf tabs : forall k tabs' mis mis' mis2 ds qs sid t d,
  tables_after (crc32c := crc32c) (heap := heap) compression ssid esid k hmem dataf lastf tabs tabs' mis mis' ds qs ->
  Forall3 info_placed tabs' mis' mis2 -> Forall (fun mi => newNumOfBlocks mi = 0) mis ->
  tabs !! sid = Some (Some t) -> ds !! sid = Some d -> touched ssid esid (k + sid) t = true ->
  exists q, q_ready (k + sid) (t_obj t) q /\ (td_new d <> [] -> q_pending (k + sid) q = []) /\
    zip_with committed mis2 qs !! sid = Some (if td_new d is [] then None else Some q).
Proof.
  induction tabs as [|x tabs IH]; intros k [|x' tabs'] [|mi mis] [|mi' mis'] mis2 [|d0 ds] [|q0 qs] sid t d Ha Hpl Hz Ht Hd Hto; try done. destruct Ha as [Hx Ha].
  inversion Hpl as [|? ? mi2 ? ? mis3 Hp1 Hp2]; subst. apply Forall_cons in Hz as [Hz Hzs]. destruct sid as [|sid]; cbn in Ht, Hd.
  - simplify_eq. rewrite Nat.add_0_r in *. destruct Hx as (t' & kept & bs & parts & -> & _ & _ & _ & [Hinfo _ Hch Hcat Hcom _] & Hq). destruct (Hq Hto) as (q & -> & Hr & Hp).
    exists q. split; [done|]. split; [done|]. cbn. unfold committed. destruct Hp1 as [at_ ->]. cbn. rewrite Hcom. destruct Hinfo as [_ _ -> -> _ _]. cbn. rewrite Hz.
    destruct (td_new d) as [|r rows]; [by rewrite andb_false_r|]. rewrite !(proj2 (Z.ltb_lt _ _)); [done|cbn; lia|].
    destruct kept, bs; cbn [length]; try lia. destruct Hch as [Hrows _ _ _]. inversion Hrows; subst. cbn in Hcat. by destruct (concat (map snd (td_parts d))).
  - destruct (IH (S k) tabs' mis mis' mis3 ds qs sid t d Ha Hp2 Hzs Ht Hd) as (q & Hr & Hp & Hq); [by rewrite Nat.add_succ_comm|].
    exists q. by rewrite <- Nat.add_succ_comm.
Qed.

Lemma head_ok_length head ents : head_ok (crc32c := crc32c) (heap := heap) head ents -> 512 + header_size (length ents) <= Z.of_nat (length head).
Proof.
  intros (hdr & offsets & post & -> & Hh & _ & Hf). rewrite <- (Forall2_length _ _ _ Hf). destruct (header_length (crc32c := crc32c) (heap := heap) offsets) as [Hs _].
  rewrite !length_app, Hh. lia.
Qed.

Lemma infos_small head tabs : forall offsets ents, Forall2 (entry_at (crc32c := crc32c) (heap := heap) head) offsets ents ->
  Forall (fun mi => 0 <= oldNumOfBlocks mi < 2 ^ 31) (infos_of tabs offsets ents).
Proof.
  induction tabs as [|x tabs IH]; intros offsets ents Hf; [by constructor|]. destruct Hf as [|o y offsets ents Ho Hf]; [by constructor|]. cbn [infos_of].
  constructor; [|by apply IH]. unfold old_infos. destruct x as [t|]; [|done]. destruct (t_deleting t); [done|]. unfold old_info. destruct y as [e|]; [|done].
  destruct (_ =? _); [|done]. cbn. destruct Ho as ([] & _). lia.
Qed.

Lemma infos_new tabs : forall offsets ents, Forall (fun mi => newNumOfBlocks mi = 0) (infos_of tabs offsets ents).
Proof.
  induction tabs as [|x tabs IH]; intros [|o offsets] [|y ents]; try constructor; [|by apply IH]. unfold old_infos, old_info. by repeat case_match.
Qed.

(** From files with the rows [contents], with room for the new blocks, a commit ends
    without a failed assertion, and the new files have the rows [contents] followed by
    [news]. *)
Lemma commit_vnode (file_header : list Z) ssid esid tabs v contents news nb storage firstKey : length file_header = 512%nat ->
  vnode_ok tabs v contents nb -> length news = length tabs ->
  (forall sid x old new, tabs !! sid = Some x -> contents !! sid = Some old -> news !! sid = Some new -> can_commit ssid esid sid x old new) ->
  let n := total_need tabs news in
  512 + header_size (length tabs) + 28 * Z.of_nat (length tabs) + 56 * (nb + n) < 2 ^ 31 -> 56 * n <= hmsize ->
  Z.of_nat (length (v_data v)) + 2 ^ 31 * n < 2 ^ 61 -> Z.of_nat (length (v_last v)) + 2 ^ 31 * n < 2 ^ 61 ->
  exists v' tabs' qs firstKey' storage',
    vnodeCommitMultiToFile crc32c heap compression hmsize commitLastKey dmem cmem fuel file_header ssid esid tabs firstKey storage v =
      Ret (Some (v', tabs', qs, firstKey', storage')) /\
    vnode_ok tabs' v' (zip_with app contents news) (nb + n) /\
    Forall2 kept_table tabs tabs' /\ (firstKey' <= firstKey /\ (0 <= firstKey -> 0 <= firstKey')) /\
    forall sid t new, tabs !! sid = Some (Some t) -> news !! sid = Some new -> touched ssid esid sid t = true ->
      exists q, q_ready sid (t_obj t) q /\ (new <> [] -> q_pending sid q = []) /\ qs !! sid = Some (if new is [] then None else Some q).
Proof.
  intros Hfh Hv Hln Hnew n Hhead Hhm Hvd Hvl. pose proof Hv as [(ents & Hho & Hle & Hlc & Htab & Hnb) Hdata Hlast].
  unfold vnodeCommitMultiToFile, open_commit_files. pose proof (head_ok_length _ _ Hho) as Hhl. rewrite Hle in Hhl.
  rewrite (proj2 (Z.ltb_ge (Z.of_nat (length (v_head v))) _)) by (unfold header_size, TSDB_FILE_HEADER_LEN in *; lia).
  rewrite !(proj2 (Z.ltb_ge _ TSDB_FILE_HEADER_LEN)) by (unfold TSDB_FILE_HEADER_LEN; lia). cbn [orb].
  destruct (open_head_spec (crc32c := crc32c) (heap := heap) file_header (length tabs) Hfh) as (nfd & rest & -> & Hnfd & Hrest). cbn [rbind].
  set (tmp := if (ssid =? 0)%nat then Some (write file_header (mkFd [] 0)) else None). set (fs := mkFiles _ _ tmp _ storage).
  unfold vnodeGetHeadFileHeaderInfo. destruct (read 8 _) as [got hfd] eqn:Eread. assert (Ehfd : content hfd = v_head v) by (by injection Eread as _ <-).
  rewrite <- Hle. destruct (read_header_spec (crc32c := crc32c) (heap := heap) hfd ents) as (offsets & hfd1 & -> & Ehfd1 & Hat); [by rewrite Ehfd|]. cbn [rbind].
  rewrite Ehfd in Hat, Ehfd1. destruct (read_infos_spec (crc32c := crc32c) (heap := heap) tabs offsets ents hfd1) as (hfd2 & -> & Ehfd2); [by rewrite Ehfd1|done|]. cbn [rbind].
  rewrite Ehfd1 in Ehfd2. pose proof (Forall2_length _ _ _ Hat) as Hlo. set (mis := infos_of tabs offsets ents).
  destruct (describe ssid esid (v_data v) (v_last v) tabs 0 offsets ents contents news) as (ds & Hbef & Hdn & Hdd); [congruence|done|done|done|done|done|]. fold mis in Hbef.
  assert (Hroom : budget hmsize n (mkState fs [] (i64 (le_val (over got (replicate 8 0)))) firstKey)).
  { split; [cbn; lia|]. split; [exact Hvd|]. unfold fs, last_of, tmp. cbn. destruct (ssid =? 0)%nat; [|exact Hvl]. rewrite (write_here file_header (mkFd [] 0)) by done.
    unfold file_size. cbn [content app]. rewrite Hfh. change (Z.of_nat 512) with 512. lia. }
  destruct (commit_tables_spec (crc32c := crc32c) (heap := heap) compression hmsize commitLastKey dmem cmem fuel Hcomp ssid esid tabs 0 mis
    (mkState fs [] (i64 (le_val (over got (replicate 8 0)))) firstKey) ds n) as (st & mis' & tabs' & qs & md & ml & -> & Hg & Hlow & _ & Haft).
  { cbn [c_files]. replace (has_tmp fs) with (ssid =? 0)%nat by (unfold has_tmp, fs, tmp; cbn; by destruct (ssid =? 0)%nat). exact Hbef. }
  { by rewrite Hdn. } { done. }
  cbn [rbind]. pose proof (infos_small (v_head v) tabs offsets ents Hat) as Hsm. fold mis in Hsm.
  destruct (tables_prepared ssid esid (v_head v) (c_hmem st) (v_data v) (v_last v) (ssid =? 0)%nat (content (dfd (c_files st))) (content (last_of (c_files st)))
    (v_data v) (v_last v) (max_blocks mis) tabs 0 offsets ents tabs' mis' ds qs contents Hat Hle Hlc Htab Hbef Hdd) as (ents' & Hprep & Hle' & Hlt' & Htab' & Hnb'); try done.
  { intros i new Hx Hn. rewrite Hdn in Hn. destruct (lookup_lt_is_Some_2 contents i) as [old Hi]; [rewrite Hlc; by eapply lookup_lt_Some|]. by apply (Hnew i None old). }
  { by apply max_blocks_ge. } { rewrite Hdn. fold n. unfold header_size, SIZEOF_SCompHeader, SIZEOF_TSCKSUM in Hhead. lia. }
  rewrite Hdn in Htab', Hnb'. fold n in Hnb'. rewrite <- Ehfd2 in Hprep.
  destruct (write_head_spec (max_blocks mis) file_header rest hfd2 nfd (c_hmem st) (c_totalStorage st) tabs' offsets mis' ents' Hfh Hnfd) as (hfd3 & nfd3 & mis2 & Hwh & Hplaced & Hho').
  { by rewrite Hlt'. } { done. }
  { pose proof (length_ents_bytes ents') as Hl. rewrite Hle' in Hl. rewrite Hlt'. lia. }
  rewrite Hwh. cbn [rbind]. eexists _, tabs', (zip_with committed mis2 qs), _, _. split; [reflexivity|]. split.
  { constructor.
    - exists ents'. split; [done|]. split; [congruence|]. split; [rewrite length_zip_with; lia|]. split; [done|lia].
    - destruct Hg as (G & _). cbn. rewrite G, length_app. cbn. lia.
    - destruct Hg as (_ & G & _). cbn [v_last vnodeCloseCommitFiles]. rewrite G, length_app. cbn [c_files]. unfold fs, last_of, tmp. cbn [tfd lfd].
      destruct (ssid =? 0)%nat; [|cbn [content]; lia]. rewrite (write_here file_header (mkFd [] 0)) by done. cbn [content app]. rewrite Hfh. change (512 + ?a)%nat with (512 + a)%nat. lia. }
  split; [by eapply after_tables|]. split; [exact Hlow|]. intros sid t new Ht Hn Hto. rewrite <- Hdn in Hn. apply list_lookup_fmap_Some in Hn as (d & -> & Hd).
  exact (after_committed _ _ _ _ _ _ 0 _ _ _ _ _ _ sid t d Haft Hplaced (infos_new _ _ _) Ht Hd Hto).
Qed.
End Life.
