(* ===== verification/CacheReader.v ===== *)
(** * The query of a commit reads the cache

    What is in the blocks are bytes, the buffers of the query get the cells of its rows, and
    the cache is a reader of rows as [CommitFile] uses it. *)
From S2P Require Import Prelude CacheLife KeySearch CachePool CacheInv CacheQuery CacheScan CacheFlush CompBase CompInt CompBool CompTime CompXor Tscompression Crc32c ColTypes FileBlock BlockWrite BlockLife HeadFile CommitFile CommitTable.

(** * The memory of the cache holds bytes *)

Definition mem_ok (c : cache) : Prop := Forall (fun b => bytes_ok (b_mem b)) (pMem (pool c)).

Lemma block_mem c i b : mem_ok c -> block c i = Ret b -> bytes_ok (b_mem b).
Proof. unfold block, mem_ok. intros Hm Hb. destruct (pMem (pool c) !! i) eqn:E; [|done]. injection Hb as <-. exact (Forall_lookup_1 _ _ _ _ Hm E). Qed.
Lemma mem_set_block c i b : mem_ok c -> bytes_ok (b_mem b) -> mem_ok (set_block i b c).
Proof. intros Hm Hb. by apply Forall_insert. Qed.
Lemma mem_same c c' : pMem (pool c') = pMem (pool c) -> mem_ok c -> mem_ok c'.
Proof. unfold mem_ok. by intros ->. Qed.
Lemma mem_thread p c : mem_ok (set_pool p c) -> mem_ok (set_pool (vnodeCreateCommitThread p) c).
Proof. apply mem_same. unfold vnodeCreateCommitThread. by repeat case_match. Qed.

(** [mem_step] goes on from a state whose memory holds bytes. *)
Ltac mem_step := repeat first
  [ eassumption
  | match goal with
    | |- mem_ok (set_block _ _ _) => apply mem_set_block
    | |- mem_ok (set_meter _ _ ?c) => change (mem_ok c)
    | |- mem_ok (set_pool (vnodeCreateCommitThread _) _) => apply mem_thread
    | |- mem_ok (set_pool (with_slots _ _ _) ?c) => change (mem_ok c)
    | |- mem_ok (set_pool (with_count _ _) ?c) => change (mem_ok c)
    | |- mem_ok (set_pool (pool ?c) _) => apply (mem_same c); [done|]
    | |- mem_ok (if _ then _ else _) => case_match
    | |- bytes_ok _ => eapply block_mem; [|eassumption]
    end; cbn [b_mem] ].

Lemma free_block_mem x c z c' : vnodeFreeCacheBlock x c = Ret (z, c') -> mem_ok c -> mem_ok c'.
Proof. unfold vnodeFreeCacheBlock. intros H Hm. walk; mem_step. Qed.

Lemma commit_loop_mem fuel : forall m mb ppb s pos t n c n' c', CachePool.commit_loop fuel m mb ppb s pos t n c = Ret (n', c') -> mem_ok c -> mem_ok c'.
Proof.
  induction fuel as [|fuel IH]; intros m mb ppb s pos t n c n' c' H Hm; [done|]. cbn in H. unfold commit_block in H. walk; mem_step.
  eapply IH; [exact H|]. mem_step.
Qed.
Lemma update_commit_mem m s pos cnt c c' : vnodeUpdateCommitInfo m s pos cnt c = Ret c' -> mem_ok c -> mem_ok c'.
Proof. unfold vnodeUpdateCommitInfo. intros H Hm. walk. mem_step. by eapply commit_loop_mem. Qed.

Lemma evict_mem b c c' : evict b c = Ret (Some c') -> mem_ok c -> mem_ok c'.
Proof. unfold evict. intros H Hm. walk; try done. eapply free_block_mem; [eassumption|]. mem_step. Qed.

Lemma find_free_mem fuel : forall n c r c', find_free fuel n c = Ret (r, c') -> mem_ok c -> mem_ok c'.
Proof.
  induction fuel as [|fuel IH]; intros n c r c' H Hm; [done|]. cbn in H. walk; mem_step.
  - eapply IH; [eassumption|]. mem_step.
  - by eapply evict_mem.
  - eapply IH; [eassumption|]. mem_step.
Qed.

Lemma take_block_mem m c r c' : take_block m c = Ret (r, c') -> mem_ok c -> mem_ok c'.
Proof. unfold take_block. intros H Hm. walk; mem_step; try (eapply free_block_mem; [eassumption|]; mem_step). Qed.

Lemma allocate_mem m c r c' : vnodeAllocateCacheBlock m c = Ret (r, c') -> mem_ok c -> mem_ok c'.
Proof.
  unfold vnodeAllocateCacheBlock. intros H Hm. walk; mem_step; [by eapply find_free_mem|]. eapply take_block_mem; [eassumption|]. by eapply find_free_mem.
Qed.

Lemma put_row_mem cols : forall offs n data mem mem', put_row cols offs n data mem = Ret mem' -> bytes_ok data -> bytes_ok mem -> bytes_ok mem'.
Proof.
  induction cols as [|w cols IH]; intros [|off offs] n data mem mem' H Hd Hm; cbn in H; walk; try done.
  eapply IH; [eassumption|by apply Forall_drop|].
  match goal with H : wr _ _ _ = Ret _ |- _ => apply wr_Ret in H as (_ & _ & a & b & c & -> & _ & _ & ->) end.
  rewrite !bytes_ok_app in *. destruct Hm as (? & _ & ?). split; [done|]. split; [|done].
  match goal with H : rd data _ _ = Ret _ |- _ => exact (bytes_ok_rd _ _ _ _ Hd H) end.
Qed.
Lemma store_mem m row c r c' : store_row m row c = Ret (r, c') -> bytes_ok row -> mem_ok c -> mem_ok c'.
Proof. unfold store_row. intros H Hr Hm. walk. mem_step. eapply put_row_mem; [eassumption|done|]. by eapply block_mem. Qed.

Lemma insert_mem m row c r c' : vnodeInsertPointToCache m row c = Ret (r, c') -> bytes_ok row -> mem_ok c -> mem_ok c'.
Proof.
  unfold vnodeInsertPointToCache. intros H Hr Hm. walk;
    repeat match goal with
      | H : vnodeAllocateCacheBlock _ ?c = Ret _, Hm : mem_ok ?c |- _ => apply allocate_mem in H; [|exact Hm]
      | H : store_row _ _ ?c = Ret _, Hm : mem_ok ?c |- _ => apply store_mem in H; [|exact Hr|exact Hm]
      end; done.
Qed.

Lemma insert_rows_mem m del ts ms rows : forall points c code k c', insert_rows m del ts ms points rows c = Ret (code, k, c') ->
  Forall bytes_ok rows -> mem_ok c -> mem_ok c'.
Proof.
  induction rows as [|r rows IH]; intros points c code k c' H Hr Hm; cbn in H; [by walk|]. apply Forall_cons in Hr as [Hr Hrs].
  walk; try done; try (by eapply IH); try (by eapply insert_mem). eapply IH; [eassumption|done|]. mem_step. by eapply insert_mem.
Qed.

(** A batch of rows that are bytes, and the end of a commit. *)
Lemma insert_step_mem m del ts ms rows w w' : step (Insert m del ts ms rows) w = Ret w' -> Forall bytes_ok rows -> mem_ok (w_cache w) -> mem_ok (w_cache w').
Proof.
  cbn [step]. intros H Hr Hm. unfold insert_points in H. walk; cbn [w_cache]; mem_step. by eapply insert_rows_mem.
Qed.
Lemma over_step_mem m cnt w w' : step (Over m cnt) w = Ret w' -> mem_ok (w_cache w) -> mem_ok (w_cache w').
Proof. cbn [step]. intros H Hm. walk; cbn [w_cache]; mem_step. by eapply update_commit_mem. Qed.
Lemma opened_mem bs total pm p : vnodeOpenCachePool bs total pm = Some p -> mem_ok (w_cache (opened p)).
Proof.
  unfold vnodeOpenCachePool. destruct (_ <? 1); [done|]. intros [= <-]. unfold mem_ok. cbn. apply Forall_replicate. cbn. by apply Forall_replicate.
Qed.

(** * What a reading of the cache leaves in the buffers

    A commit gives the buffers of a block of a data file to the query of the cache.
    After it each has its length and bytes, and the rows in them are those of the cache
    cut into the values of the columns. *)

(** ** The lengths of the buffers *)
Lemma block_of_mem pi s c b : mem_ok c -> CacheQuery.block_of pi s c = Ret b -> bytes_ok (b_mem b).
Proof.
  intros Hm Hb. unfold CacheQuery.block_of in Hb. res_inv. by eapply block_mem.
Qed.

Abbreviation same_buffers q q' := (q_len q' = q_len q /\ q_sdata q' = q_sdata q /\ q_pointsOffset q' = q_pointsOffset q).

Lemma update_buffers pi c q q' : vnodeUpdateQuerySlotPos pi c q = Ret q' -> same_buffers q q'.
Proof. unfold vnodeUpdateQuerySlotPos. intros Hq. repeat case_match; res_inv; done. Qed.

Lemma forward_buffers pi c s b q q' : forward_offset pi c s b q = Ret q' -> same_buffers q q'.
Proof.
  unfold forward_offset. destruct (_ <? _); [intros Hq; res_inv; done|]. destruct (_ =? 1); [intros Hq; res_inv; done|].
  intros Hq. res_inv. destruct a as [[[] ?] ?]; res_inv; done.
Qed.

Lemma search_buffers pi c q q' : vnodeSearchPointInCache pi c q = Ret q' -> same_buffers q q'.
Proof.
  unfold vnodeSearchPointInCache. destruct (_ <=? 0); [intros Hq; res_inv; done|]. intros Hq. res_inv.
  destruct (if q_asc _ then _ else _); [res_inv; done|]. res_inv. destruct a3 as [[mid kf] kl].
  repeat (destruct (_ && _); [res_inv; done|]). res_inv. destruct (0 <? _); [|res_inv; done]. apply forward_buffers in Hq. done.
Qed.

Lemma copy_cols_bytes cols : forall offs start n at_ mem sdata sdata', copy_cols cols offs start n at_ mem sdata = Ret sdata' ->
  bytes_ok mem -> Forall bytes_ok sdata -> Forall bytes_ok sdata'.
Proof.
  induction cols as [|w cols IH]; intros offs start n at_ mem sdata sdata' Hc Hm Hs; cbn in Hc; [by injection Hc as <-|].
  destruct offs as [|off offs]; [done|]. destruct sdata as [|d sdata]; [done|]. apply Forall_cons in Hs as [Hd Hs]. res_inv. constructor; [|by eapply IH].
  apply wr_Ret in Ha0 as (_ & _ & x & y & z & -> & _ & _ & ->). apply bytes_ok_app in Hd as [Hx Hd]. apply bytes_ok_app in Hd as [_ Hz].
  rewrite !bytes_ok_app. split; [done|]. split; [|done]. exact (bytes_ok_rd _ _ _ _ Hm Ha).
Qed.

(** A reading leaves the lengths, and reads nothing, or sets them. *)
Lemma query_buffers m c q n q' o : vnodeQueryFromCache m c q = Ret (n, q') -> meters c !! m = Some o -> mem_ok c -> Forall bytes_ok (q_sdata q) ->
  Forall bytes_ok (q_sdata q') /\
  (q_len q' = q_len q /\ n = 0 \/ q_len q' = map (fun w => w * (n + q_pointsOffset q)) (CachePool.schema o)).
Proof.
  intros Hq Ho Hm Hs. unfold vnodeQueryFromCache in Hq. cbn [set_read CacheQuery.q_over q_slot q_pos] in Hq.
  destruct (CacheQuery.q_over q); [res_inv; simplify_eq; auto|]. unfold meter in Hq. rewrite Ho in Hq. cbn [rbind] in Hq.
  destruct (pCache o) as [pi|]; [|injection Hq as <- <-; auto]. destruct (_ =? 0); [injection Hq as <- <-; auto|].
  apply rbind_Ret_inv in Hq as (q1 & Hq1 & Hq).
  assert (H1 : same_buffers q q1).
  { destruct (_ || _); [|by injection Hq1 as <-]. apply search_buffers in Hq1. done. }
  clear Hq1. destruct H1 as (L1 & S1 & P1). destruct (_ || _); [injection Hq as <- <-; cbn; rewrite L1, S1; auto|].
  apply rbind_Ret_inv in Hq as (b & Hb & Hq). destruct (_ <=? 0).
  { apply rbind_Ret_inv in Hq as (q2 & H2 & Hq). injection Hq as <- <-. apply update_buffers in H2 as (-> & -> & _). rewrite L1, S1. auto. }
  apply rbind_Ret_inv in Hq as ([e lp] & _ & Hq).
  destruct (if _ <? e then _ else _) as [k q2] eqn:E2. assert (H2 : same_buffers q1 q2).
  { repeat case_match; simplify_eq; done. }
  clear E2. destruct H2 as (L2 & S2 & P2). apply rbind_Ret_inv in Hq as (sdata & Hc & Hq). apply rbind_Ret_inv in Hq as (key & _ & Hq).
  apply rbind_Ret_inv in Hq as (q3 & H3 & Hq). injection Hq as <- <-. cbn [set_read q_sdata q_len].
  assert (P3 : q_pointsOffset q3 = q_pointsOffset q).
  { destruct (_ || _); [apply update_buffers in H3 as (_ & _ & ->); cbn; congruence|injection H3 as <-; cbn; congruence]. }
  split; [|right; by rewrite P3]. eapply copy_cols_bytes; [exact Hc|by eapply block_of_mem|]. by rewrite S2, S1.
Qed.

Definition lens_of (cols : list Z) (p : Z) (q : SQuery) : Prop :=
  length (q_len q) = length cols /\ (0 < p -> q_len q = map (fun w => w * p) cols).

Lemma fill_buffers m c ppfb o : meters c !! m = Some o -> mem_ok c -> forall fuel p q p' q', fill_block fuel m c ppfb p q = Ret (p', q') ->
  Forall bytes_ok (q_sdata q) -> lens_of (CachePool.schema o) p q -> Forall bytes_ok (q_sdata q') /\ lens_of (CachePool.schema o) p' q'.
Proof.
  intros Ho Hm. induction fuel as [|fuel IH]; intros p q p' q' Hf Hs Hl; [done|]. cbn [fill_block] in Hf.
  destruct (p <? ppfb); [|by injection Hf as <- <-]. apply rbind_Ret_inv in Hf as ([n q1] & Hq & Hf).
  apply (query_buffers m c _ _ _ o) in Hq as [Hs1 Hl1]; [|done..]. cbn [set_toRead q_len q_pointsOffset] in Hl1.
  assert (Hl2 : lens_of (CachePool.schema o) (p + n) q1).
  { destruct Hl1 as [[E ->]|E]; unfold lens_of; rewrite E; [by rewrite Z.add_0_r|]. rewrite length_map. split; [done|]. intros _. by rewrite (Z.add_comm p). }
  destruct (CacheQuery.q_over q1); [by injection Hf as <- <-|]. by apply (IH _ _ _ _ Hf).
Qed.

(** ** Rows cut into values *)
Fixpoint cells_of (cols : list Z) (r : list Z) : list (list Z) :=
  match cols with
  | [] => []
  | w :: cols => take (Z.to_nat w) r :: cells_of cols (drop (Z.to_nat w) r)
  end.

Lemma out_row_cells cols : forall sdata j r, out_row (map bytes cols) sdata (Z.of_nat j) = Ret r -> Forall (fun c => 0 <= bytes c) cols ->
  row_at cols sdata j = cells_of (map bytes cols) r.
Proof.
  induction cols as [|c cols IH]; intros sdata j r Hr Hok; [done|]. apply Forall_cons in Hok as [Hc Hok]. cbn [map out_row] in Hr.
  destruct sdata as [|d sdata]; [done|]. res_inv. unfold row_at in *. cbn [zip_with map cells_of].
  assert (Ea : a = cell (bytes c) d j).
  { unfold rd in Ha. case_bool_decide; [|done]. injection Ha as <-. unfold cell. do 2 f_equal. lia. }
  assert (Hla : length a = Z.to_nat (bytes c)).
  { apply rd_Ret in Ha as (? & ? & _ & _ & Hl). lia. }
  rewrite take_app_length', drop_app_length' by done. f_equal; [done|]. by apply IH.
Qed.

Lemma out_row_defined cols n sdata : room cols n sdata -> forall j, 0 <= j < n -> exists r, out_row cols sdata j = Ret r.
Proof.
  induction 1 as [|w d cols sdata [Hw Hd] _ IH]; intros j Hj; [by exists []|]. destruct (IH j Hj) as [r Hr]. cbn [out_row]. rewrite Hr.
  unfold rd. rewrite bool_decide_true by nia. cbn [rbind]. eauto.
Qed.

(** The rows before [p] stay and those of [rows] come behind them. *)
Lemma rows_of_filled cols p n sdata sdata' rows ppfb : Forall (fun c => 0 <= bytes c) cols -> 0 <= p -> Z.of_nat (length rows) = n -> p <= ppfb ->
  room (map bytes cols) ppfb sdata -> out_rows (map bytes cols) sdata' p rows ->
  (forall j, 0 <= j < p -> out_row (map bytes cols) sdata' j = out_row (map bytes cols) sdata j) ->
  rows_of cols (Z.to_nat (p + n)) sdata' = rows_of cols (Z.to_nat p) sdata ++ map (cells_of (map bytes cols)) rows.
Proof.
  intros Hok Hp Hn Hle Hroom Hout Hkeep. unfold rows_of. rewrite Z2Nat.inj_add by lia. rewrite seq_app, map_app. f_equal.
  - apply map_ext_in. intros j Hj. apply in_seq in Hj. destruct (out_row_defined _ _ _ Hroom (Z.of_nat j)) as [r Hr]; [lia|].
    rewrite (out_row_cells cols sdata j r) by done. apply out_row_cells; [|done]. rewrite Hkeep by lia. done.
  - apply list_eq. intros i. rewrite !list_lookup_fmap. destruct (rows !! i) as [r|] eqn:E.
    + pose proof (lookup_lt_Some _ _ _ E). rewrite lookup_seq_lt by lia. cbn. f_equal. apply out_row_cells; [|done].
      rewrite <- (Hout i r E). f_equal. lia.
    + apply lookup_ge_None in E. by rewrite lookup_seq_ge by lia.
Qed.

(** * The query of a commit reads the cache

    The cache, at the time of a commit, is a reader of rows as [CommitFile] uses it, and
    keeps what [CommitTable] asks of one. *)

Definition with_buffers (data : list SData) (q : SQuery) : SQuery := set_read (q_pointsRead q) (map d_data data) (map d_len data) q.

(** A table is known by its number.  Its fuel is twice its blocks. *)
Definition cache_reader (c : cache) (skey ekey : Z) : RowReader SQuery := {|
  q_begin sid := vnodeSetCommitQuery (Z.of_nat sid) c (commit_query skey ekey []);
  q_over := CacheQuery.q_over;
  q_keyIsMet := CacheQuery.q_keyIsMet;
  q_again q := set_over false (CacheQuery.q_keyIsMet q) q;
  q_fill sid ppfb pointsRead q data :=
    let! o := meter c (Z.of_nat sid) in
    let! pi := info o in
    let! '(n, q) := fill_block (Z.to_nat (2 * maxBlocks pi + 3)) (Z.of_nat sid) c ppfb pointsRead (with_buffers data q) in
    Ret (n, q, zip_with mkData (q_len q) (q_sdata q)) |}.

Section Reader.
Context (bs : Z) (c : cache) (G : gmap Z ghost) (skey ekey : Z).
Context (Hinv : inv bs c G) (Hmem : mem_ok c).
Let reader := cache_reader c skey ekey.
#[local] Existing Instance reader.

(** What the cache has of a table [m], and a query of it. *)
Record cached_as (sid : nat) (m : SMeterObj) (o : CachePool.SMeterObj) (pi : SCacheInfo) (g : ghost) : Prop := {
  ca_meter : meters c !! Z.of_nat sid = Some o;
  ca_cache : pCache o = Some pi;
  ca_ghost : G !! Z.of_nat sid = Some g;
  ca_keyed : keyed o;
  ca_sorted : sorted g;
  ca_schema : CachePool.schema o = map bytes (schema m);
  ca_points : CachePool.pointsPerFileBlock o = pointsPerFileBlock m }.

Definition place_in (o : CachePool.SMeterObj) (pi : SCacheInfo) (g : ghost) (q : SQuery) : Z :=
  place_of o q (g_hi g - (g_hi g - 1 - q_slot q) mod maxBlocks pi).
(** The rows up to the end of the commit, behind the place [t]. *)
Definition due (g : ghost) (t : Z) : list (list Z) := filter (fun r => row_key r <= ekey) (drop (Z.to_nat t) (g_rows g)).
Definition pending (sid : nat) (q : SQuery) : list (list (list Z)) :=
  match meters c !! Z.of_nat sid, G !! Z.of_nat sid with
  | Some o, Some g =>
    match pCache o with
    | Some pi => if numOfBlocks pi =? 0 then [] else map (cells_of (CachePool.schema o)) (due g (place_in o pi g q))
    | None => []
    end
  | _, _ => []
  end.
(** The query is at [t], and has passed only rows up to the end of the commit. *)
Definition passed (g : ghost) (t : Z) : Prop := g_com g <= t /\ all_upto g (g_com g) (t - g_com g) ekey.
Definition ready (sid : nat) (m : SMeterObj) (q : SQuery) : Prop :=
  Forall (fun c => 0 <= bytes c) (schema m) /\
  exists o pi g, cached_as sid m o pi g /\ q_ekey q = ekey /\
    (numOfBlocks pi = 0 \/ 0 < numOfBlocks pi /\ exists k, cursor o pi g q k /\ passed g (place_of o q k)).

Lemma cursor_block sid m o pi g q k : cached_as sid m o pi g -> cursor o pi g q k -> place_in o pi g q = place_of o q k.
Proof using Hinv.
  intros [] [? Hslot ? ? Hlive ?]. destruct (scan_bounds bs c G _ o pi g Hinv ca_meter0 ca_cache0 ca_ghost0) as (_ & Hmb & Hn & _).
  unfold live in Hlive. unfold place_in. f_equal. rewrite Hslot, Zminus_mod_idemp_r.
  replace (g_hi g - 1 - (k - 1)) with (g_hi g - k) by lia. rewrite Z.mod_small by lia. lia.
Qed.

Lemma due_split g t n : 0 <= t -> 0 <= n -> all_upto g t n ekey -> due g t = rows_from g t n ++ due g (t + n).
Proof.
  intros Ht Hn Hall. unfold due. rewrite <- (take_drop (Z.to_nat n) (drop (Z.to_nat t) (g_rows g))) at 1. rewrite filter_app. f_equal.
  - apply filter_id, Forall_lookup_2. intros i r Hi. apply lookup_take_Some in Hi as [Hi Hl]. rewrite lookup_drop in Hi.
    apply (Hall (Z.of_nat i)); [lia|]. rewrite <- Hi. f_equal. lia.
  - rewrite drop_drop. do 2 f_equal. lia.
Qed.
Lemma due_none g t : 0 <= t -> sorted g -> none_from g t ekey -> due g t = [].
Proof.
  intros Ht Hs Hn. apply filter_none, Forall_lookup_2. intros i r Hi. rewrite lookup_drop in Hi.
  destruct (lookup_lt_is_Some_2 (g_rows g) (Z.to_nat t)) as [r0 Hr0]; [apply lookup_lt_Some in Hi; lia|]. specialize (Hn r0 Hr0).
  assert (row_key r0 <= row_key r); [|lia]. apply (key_le g t (t + Z.of_nat i)); [done|lia|done|]. rewrite <- Hi. f_equal. lia.
Qed.

(** The first row of a table that is not in the files. *)
Lemma pending_cursor sid m o pi g q k : cached_as sid m o pi g -> 0 < numOfBlocks pi -> cursor o pi g q k ->
  pending sid q = map (cells_of (CachePool.schema o)) (due g (place_of o q k)).
Proof using Hinv.
  intros Hca Hn Hcu. unfold pending. rewrite (ca_meter _ _ _ _ _ Hca), (ca_ghost _ _ _ _ _ Hca), (ca_cache _ _ _ _ _ Hca).
  rewrite (proj2 (Z.eqb_neq _ _)) by lia. by rewrite (cursor_block sid m o pi g q k Hca Hcu).
Qed.
Lemma pending_empty sid m o pi g q : cached_as sid m o pi g -> numOfBlocks pi = 0 -> pending sid q = [].
Proof.
  intros Hca Hn. unfold pending. by rewrite (ca_meter _ _ _ _ _ Hca), (ca_ghost _ _ _ _ _ Hca), (ca_cache _ _ _ _ _ Hca), Hn.
Qed.

(** ** The laws *)
Lemma buffers_room m data : Forall (fun c => 0 <= bytes c) (schema m) -> buffers m data ->
  room (map bytes (schema m)) (pointsPerFileBlock m) (map d_data data) /\ Forall bytes_ok (map d_data data).
Proof.
  intros Hok Hb. induction Hb as [|c0 d cols data [Hd Hl] _ IH]; [by split; constructor|]. apply Forall_cons in Hok as [Hc Hok].
  destruct (IH Hok) as [H1 H2]. unfold EXTRA_BYTES, SIZEOF_TSCKSUM in Hl. split; constructor; try done. split; [done|]. rewrite Hl. lia.
Qed.

Lemma filled_data m data sdata len p : Forall (fun c => 0 <= bytes c) (schema m) -> buffers m data -> map length sdata = map length (map d_data data) ->
  Forall bytes_ok sdata -> length len = length data -> (0 < p -> len = map (fun w => w * p) (map bytes (schema m))) ->
  let data' := zip_with mkData len sdata in buffers m data' /\ lens_ok m p data' /\ map d_data data' = sdata.
Proof.
  intros Hok Hb Hl Hs Hlen Hp data'. pose proof (f_equal length Hl) as Hl0. rewrite !length_map in Hl0.
  assert (E1 : map d_data data' = sdata).
  { unfold data'. clear -Hl0 Hlen. revert len data Hl0 Hlen. induction sdata as [|x s IH]; intros [|y len] [|d data] ? ?; try done. cbn. f_equal. by apply (IH len data); injection Hl0; injection Hlen. }
  assert (E2 : map d_len data' = len).
  { unfold data'. clear -Hl0 Hlen. revert len data Hl0 Hlen. induction sdata as [|x s IH]; intros [|y len] [|d data] ? ?; try done. cbn. f_equal. by apply (IH len data); injection Hl0; injection Hlen. }
  split; [|split; [|done]].
  - apply Forall2_same_length_lookup_2; [rewrite <- (length_map d_data), E1, Hl0; by eapply Forall2_length|]. intros i c0 d Hi Hd.
    destruct (Forall2_lookup_l _ _ _ _ _ Hb Hi) as (d0 & Hd0 & Hok0 & Hlen0).
    assert (Hsd : sdata !! i = Some (d_data d)) by (rewrite <- E1, list_lookup_fmap, Hd; done). split; [by eapply (Forall_lookup_1 _ _ _ _ Hs)|].
    rewrite <- Hlen0. f_equal. apply (f_equal (fun l => l !! i)) in Hl. rewrite !list_lookup_fmap, Hsd, Hd0 in Hl. by injection Hl.
  - intros Hp0. specialize (Hp Hp0). rewrite <- E2 in Hp. pose proof (Forall2_length _ _ _ Hb) as Hlb.
    apply Forall2_same_length_lookup_2; [rewrite <- (length_map d_len), E2; congruence|]. intros i c0 d Hi Hd.
    apply (f_equal (fun l => l !! i)) in Hp. rewrite !list_lookup_fmap, Hd, Hi in Hp. cbn in Hp. injection Hp as ->. lia.
Qed.

Lemma again_ready sid m q : ready sid m q -> ready sid m (q_again q) /\ q_over (q_again q) = false /\
  pending sid (q_again q) = pending sid q /\ q_keyIsMet (q_again q) = q_keyIsMet q.
Proof.
  intros [Hok (o & pi & g & Hca & Hek & Hcase)]. split; [|done]. split; [done|]. exists o, pi, g. split; [done|]. split; [done|].
  destruct Hcase as [?|[? (k & Hcu & Hpa)]]; [by left|right]. split; [done|]. exists k. split; [by destruct Hcu|exact Hpa].
Qed.

Lemma fill_ready sid m q p data : ready sid m q -> q_over q = false -> 0 <= p < pointsPerFileBlock m -> buffers m data -> lens_ok m p data ->
  exists n q' data', q_fill sid (pointsPerFileBlock m) p q data = Ret (p + n, q', data') /\
    0 <= n <= Z.of_nat (length (pending sid q)) /\ p + n <= pointsPerFileBlock m /\ ready sid m q' /\
    pending sid q' = drop (Z.to_nat n) (pending sid q) /\ buffers m data' /\ lens_ok m (p + n) data' /\
    rows_in m (p + n) data' = rows_in m p data ++ take (Z.to_nat n) (pending sid q) /\
    (if q_over q' then pending sid q' = [] else p + n = pointsPerFileBlock m /\ q_keyIsMet q' = q_keyIsMet q).
Proof using Hinv Hmem.
  intros [Hok (o & pi & g & Hca & Hek & Hcase)] Hov Hp Hb Hl. pose proof Hca as [Ho Hpi Hg Hk Hs Es Ep].
  cbn [q_fill reader cache_reader]. unfold meter, info. rewrite Ho. cbn [rbind]. rewrite Hpi. cbn [rbind].
  destruct (buffers_room m data Hok Hb) as [Hroom Hbytes]. set (fuel := Z.to_nat _). set (q0 := with_buffers data q).
  assert (Hl0 : lens_of (CachePool.schema o) p q0).
  { unfold lens_of, q0. cbn. rewrite Es, !length_map. pose proof (Forall2_length _ _ _ Hb). split; [done|]. intros Hp0. specialize (Hl Hp0).
    rewrite map_map. clear -Hl. induction Hl as [|c0 d cols data E _ IH]; [done|]. cbn. rewrite E, IH. f_equal. lia. }
  destruct (scan_bounds bs c G _ o pi g Hinv Ho Hpi Hg) as (_ & Hmb & Hn & _).
  destruct Hcase as [Hz|[Hpos (k & Hcu & Hpa1 & Hpa2)]].
  - assert (Ef : exists f, fuel = S f) by (exists (fuel - 1)%nat; unfold fuel; lia). destruct Ef as [f Ef].
    assert (E : fill_block fuel (Z.of_nat sid) c (pointsPerFileBlock m) p q0 = Ret (p + 0, set_over true (CacheQuery.q_keyIsMet q) (set_read 0 (q_sdata q0) (q_len q0) (set_toRead (pointsPerFileBlock m - p) p q0)))).
    { rewrite Ef. cbn [fill_block]. rewrite (proj2 (Z.ltb_lt _ _)) by lia. unfold vnodeQueryFromCache.
      cbn [set_read set_toRead CacheQuery.q_over q0 with_buffers]. cbn in Hov. rewrite Hov. unfold meter. rewrite Ho. cbn [rbind]. by rewrite Hpi, Hz. }
    destruct (fill_buffers _ c _ o Ho Hmem fuel p q0 _ _ E Hbytes Hl0) as [_ [Hlen Hlens]]. rewrite E. cbn [rbind].
    set (q' := set_over true _ _) in *. cbn [q' set_over set_read q_len q_sdata] in *.
    destruct (filled_data m data (map d_data data) (q_len q0) (p + 0) Hok Hb eq_refl Hbytes) as (Hb' & Hl' & Ed).
    { cbn. by rewrite length_map. } { rewrite <- Es. exact Hlens. }
    eexists 0, q', _. split; [reflexivity|]. rewrite !(pending_empty sid m o pi g) by done. rewrite Z.add_0_r in *. cbn [length].
    split; [lia|]. split; [lia|]. split; [split; [done|]; exists o, pi, g; split; [done|]; split; [done|by left]|].
    change (q_sdata q0) with (map d_data data). split; [done|]. split; [exact Hb'|]. split; [exact Hl'|]. split; [|done].
    rewrite Ed. symmetry. apply app_nil_r.
  - destruct (fill_spec bs c G _ o pi g Hinv Ho Hpi Hg Hk Hs (pointsPerFileBlock m) fuel p q0 k) as
      (n & q' & k' & E & Hn0 & Hle & Hcu' & Hpl & Hek' & Hlen & Hrows & Hkeep & Hall & Hend).
    { by destruct Hcu. } { exact Hov. } { done. } { rewrite Es. exact Hroom. }
    { pose proof (left_nonneg o pi g q0 k) as Hleft. assert (cursor o pi g q0 k) as Hc0 by (by destruct Hcu). specialize (Hleft Hc0). unfold fuel. lia. }
    change (place_of o q0 k) with (place_of o q k) in *. change (q_ekey q0) with (q_ekey q) in *. rewrite Hek in *.
    assert (Hpend : pending sid q = map (cells_of (CachePool.schema o)) (due g (place_of o q k))) by (by apply (pending_cursor sid m o pi)).
    assert (Hpend' : pending sid q' = map (cells_of (CachePool.schema o)) (due g (place_of o q' k'))) by (by apply (pending_cursor sid m o pi)).
    pose proof (cursor_place bs c G _ o pi g Hinv Ho Hpi Hg q k Hcu) as Hp0. pose proof (cursor_place bs c G _ o pi g Hinv Ho Hpi Hg q' k' Hcu') as Hp1.
    rewrite Hpl in Hpend', Hp1. rewrite (due_split g (place_of o q k) n) in Hpend by (done || lia). rewrite map_app in Hpend.
    pose proof (length_rows_from g (place_of o q k) n ltac:(lia) Hn0 ltac:(lia)) as Hlr.
    assert (Hlm : length (map (cells_of (CachePool.schema o)) (rows_from g (place_of o q k) n)) = Z.to_nat n) by (rewrite length_map; lia).
    destruct (fill_buffers _ c _ o Ho Hmem fuel p q0 _ _ E Hbytes Hl0) as [Hby [Hlq Hlens]]. rewrite E. cbn [rbind].
    destruct (filled_data m data (q_sdata q') (q_len q') (p + n) Hok Hb Hlen Hby) as (Hb' & Hl' & Ed).
    { rewrite Hlq, Es, length_map. by eapply Forall2_length. } { rewrite <- Es. exact Hlens. }
    eexists n, q', _. split; [reflexivity|]. split; [rewrite Hpend, length_app, Hlm; lia|]. split; [done|].
    split; [split; [done|]; exists o, pi, g; split; [done|]; split; [done|right]; split; [done|]; exists k'; split; [done|]|].
    { rewrite Hpl. split; [lia|]. replace (place_of o q k + n - g_com g) with (place_of o q k - g_com g + n) by lia. apply all_upto_add; [lia|done|].
      by replace (g_com g + (place_of o q k - g_com g)) with (place_of o q k) by lia. }
    split; [by rewrite Hpend, Hpend', drop_app_length' by done|]. split; [exact Hb'|]. split; [exact Hl'|]. split.
    + rewrite Ed, Hpend, take_app_length' by done. rewrite Es in *.
      apply (rows_of_filled (schema m) p n (map d_data data) (q_sdata q') _ (pointsPerFileBlock m)); (done || lia).
    + cbn [q_over reader cache_reader]. destruct (CacheQuery.q_over q'); [|done]. rewrite Hpend', (due_none g) by (done || lia). done.
Qed.

Definition reader_laws : ReaderLaws SQuery := {| q_again_law := again_ready; q_fill_law := fill_ready |}.

(** The first row that is not committed is older than the rows of this commit. *)
Definition late (g : ghost) : Prop := exists r, g_rows g !! Z.to_nat (g_com g) = Some r /\ row_key r < skey.

(** The query begins at the first row that is not committed, unless that is late. *)
Lemma reader_begins sid m o pi g : cached_as sid m o pi g -> Forall (fun c => 0 <= bytes c) (schema m) -> tight o g ->
  exists q low, q_begin sid = Ret (q, low) /\ ready sid m q /\ q_keyIsMet q = false /\ (late g -> q_over q = true) /\
    (~ late g -> q_over q = true -> pending sid q = []) /\
    (forall k, low = Some k -> exists r, g_rows g !! Z.to_nat (g_com g) = Some r /\ row_key r = k) /\
    pending sid q = map (cells_of (CachePool.schema o)) (due g (g_com g)).
Proof using Hinv.
  intros Hca Hok Htight. pose proof Hca as [Ho Hpi Hg Hk Hs Es Ep]. pose proof (in_settled _ _ _ Hinv _ o pi g Ho Hpi Hg) as Hset.
  destruct (se_com _ _ _ Hset) as [Hcom _].
  destruct (set_commit_spec bs c G _ o pi g Hinv Ho Hpi Hg Hk skey ekey [] Htight) as (q & low & Hq & Hek & Hsd & Hmet & Hov & Hsmall & Hlow & Hcase).
  assert (Hdone : g_com g = nrows g -> due g (g_com g) = []).
  { intros E. unfold due. rewrite drop_ge; [done|]. unfold nrows in E. lia. }
  exists q, low. split; [exact Hq|]. assert (Hl : late g -> CacheQuery.q_over q = true) by (intros (r & Hr & Hlt); by apply (Hsmall r)).
  destruct Hcase as [(Hz & _ & Eall)|(Hpos & k & Hcu & Hpl)].
  - rewrite (pending_empty sid m o pi g q Hca Hz), Hdone by done. split; [|done]. split; [done|]. exists o, pi, g. split; [done|]. split; [done|by left].
  - rewrite (pending_cursor sid m o pi g q k Hca Hpos Hcu), Hpl. split; [|split; [done|split; [done|split; [|by split]]]].
    + split; [done|]. exists o, pi, g. split; [done|]. split; [done|right]. split; [done|]. exists k. split; [done|].
      rewrite Hpl. split; [lia|]. intros j r Hj. lia.
    + intros Hnl Hover. destruct (Hov Hover) as [E|(r & Hr & Hlt)]; [by rewrite Hdone|]. destruct Hnl. by exists r.
Qed.

(** Where a query is that has no more rows to give. *)
Lemma drained sid m q : ready sid m q -> pending sid q = [] -> exists o pi g, cached_as sid m o pi g /\
  ((numOfBlocks pi = 0 /\ due g (g_com g) = []) \/ exists k, cursor o pi g q k /\ g_com g <= place_of o q k /\
    due g (g_com g) = rows_from g (g_com g) (place_of o q k - g_com g)).
Proof using Hinv.
  intros [Hok (o & pi & g & Hca & Hek & Hcase)] Hp. exists o, pi, g. split; [done|]. pose proof Hca as [Ho Hpi Hg Hk Hs Es Ep].
  pose proof (in_settled _ _ _ Hinv _ o pi g Ho Hpi Hg) as Hset. destruct (se_com _ _ _ Hset) as [Hcom Hdone].
  destruct (scan_bounds bs c G _ o pi g Hinv Ho Hpi Hg) as (Hppb & _ & Hn & _).
  destruct Hcase as [Hz|[Hpos (k & Hcu & Hpa1 & Hpa2)]]; [left|right].
  - split; [done|]. unfold due. rewrite drop_ge; [done|].
    pose proof (se_unc _ _ _ Hset) as Hu. pose proof (se_unc_range _ _ _ Hset) as Hur. pose proof (se_rows _ _ _ Hset) as Hrows.
    pose proof (Z.mul_div_le (g_com g) (pointsPerBlock o) ltac:(lia)) as Hlow. rewrite <- Hdone in Hlow. assert (g_done g = g_hi g) as E by lia.
    rewrite E in Hlow. unfold nrows in *. lia.
  - exists k. split; [done|]. split; [done|]. rewrite (pending_cursor sid m o pi g q k Hca Hpos Hcu) in Hp. apply map_eq_nil in Hp.
    rewrite (due_split g (g_com g) (place_of o q k - g_com g)) by (done || lia).
    replace (g_com g + (place_of o q k - g_com g)) with (place_of o q k) by lia. by rewrite Hp, app_nil_r.
Qed.
End Reader.
