(* ===== verification/CommitCache.v ===== *)
(** * A commit of the cache

    The query of a commit reads the cache ([CacheReader]); the files that a commit writes
    then have the rows that were accepted ([CacheLife]) up to its last key. *)
From S2P Require Import Prelude KeySearch CachePool CacheInv CacheQuery CacheScan CacheFlush CacheLife CompBase CompInt CompBool CompTime CompXor Tscompression Crc32c ColTypes FileBlock BlockWrite BlockLife HeadFile HeadWrite CommitFile CommitTable CommitLife CacheReader.

#[local] Existing Instance LP64.

Section Cache.
Context `{LZ4Laws} `{DoubleOps} `{BlockOptionsLaws} {crc32c : Z -> Z -> list Z -> Z -> res Z} {heap : Z} `{!RunningSum crc32c heap}.
Context (compression hmsize : Z) (dmem cmem : nat -> list SData) (fuel : nat).

(** The commit of the rows from [skey] to [ekey], the keys of a file. *)
Definition commit_cache (c : cache) (skey ekey : Z) :=
  @vnodeCommitMultiToFile SQuery (cache_reader c skey ekey) _ _ _ _ crc32c heap compression hmsize ekey dmem cmem fuel.

(** The rows of a table that were accepted and are not in the files, as values. *)
Definition uncommitted (w : world) (m : Z) : list (list Z) := drop (length (rows_at (w_file w) m)) (rows_at (w_in w) m).
Definition values_of (t : STable) (rows : list (list Z)) : list (list (list Z)) := map (cells_of (map bytes (schema (t_obj t)))) rows.
(** None of them is committed if the first belongs into an older file. *)
Definition due_rows (w : world) (skey ekey m : Z) : list (list Z) :=
  match uncommitted w m with
  | r :: rows => if row_key r <? skey then [] else filter (fun r => row_key r <= ekey) (r :: rows)
  | [] => []
  end.
Definition next_rows (w : world) (skey ekey : Z) (sid : nat) (x : option STable) : list (list (list Z)) :=
  match x with Some t => values_of t (due_rows w skey ekey (Z.of_nat sid)) | None => [] end.

(** What the vnode says of a table agrees with the cache. *)
Record table_linked (w : world) (sid : nat) (t : STable) : Prop := {
  tl_cached : t_cached t = true;
  tl_meter : exists o, meters (w_cache w) !! Z.of_nat sid = Some o /\ CachePool.schema o = map bytes (schema (t_obj t)) /\
    CachePool.pointsPerFileBlock o = pointsPerFileBlock (t_obj t) }.

(** The values of a table can be stored, and there is memory for them. *)
Record commit_ready (w : world) (skey ekey : Z) (sid : nat) (t : STable) : Prop := {
  cr_values : Forall (row_ok compression (schema (t_obj t))) (next_rows w skey ekey sid (Some t));
  cr_fuel : (length (next_rows w skey ekey sid (Some t)) < fuel)%nat;
  cr_dmem : buffers (t_obj t) (dmem sid);
  cr_cmem : buffers (t_obj t) (cmem sid) }.

(** The world when the commit has read the cache: what [SMeterInfo] has of the query, with
    30 bits for [commitPos], is kept for [vnodeUpdateCommitInfo]. *)
Definition read_out (m skey ekey : Z) (q : option SQuery) (w : world) : world :=
  mkWorld (w_cache w) (match q with Some q => <[m := (q_slot q, wraps 30 (q_pos q))]> (w_pend w) | None => w_pend w end) (w_in w)
    (<[m := rows_at (w_file w) m ++ due_rows w skey ekey m]> (w_file w)).
Fixpoint read_outs (skey ekey : Z) (sid : nat) (tabs : list (option STable)) (qs : list (option SQuery)) (w : world) : world :=
  match tabs, qs with
  | Some _ :: tabs, q :: qs => read_outs skey ekey (S sid) tabs qs (read_out (Z.of_nat sid) skey ekey q w)
  | None :: tabs, _ :: qs => read_outs skey ekey (S sid) tabs qs w
  | _, _ => w
  end.

Lemma world_table bs pm w G sid t : winv bs pm w G -> table_linked w sid t -> w_pend w !! Z.of_nat sid = None ->
  exists o pi g, cached_as (w_cache w) G sid (t_obj t) o pi g /\ tight o g /\
  w_in w !! Z.of_nat sid = Some (g_rows g) /\ w_file w !! Z.of_nat sid = Some (take (Z.to_nat (g_com g)) (g_rows g)) /\
  uncommitted w (Z.of_nat sid) = drop (Z.to_nat (g_com g)) (g_rows g).
Proof.
  intros Hw [? (o & Ho & Es & Ep)] Hidle. destruct (wi_tables _ _ _ _ Hw _ o Ho) as (pi & g & Hpi & Hg & []). rewrite Hidle in tb_out.
  exists o, pi, g. split; [by constructor|]. do 3 (split; [done|]). unfold uncommitted, rows_at. rewrite tb_in, tb_out. cbn [default].
  destruct (se_com _ _ _ (in_settled _ _ _ (wi_inv _ _ _ _ Hw) _ o pi g Ho Hpi Hg)) as [Hcom _]. unfold nrows in Hcom. unfold id.
  rewrite length_take. f_equal. lia.
Qed.

(** What the commit of a table tells: where its query is, if it gave any rows. *)
Definition told (w : world) (G : gmap Z ghost) (skey ekey : Z) (sid : nat) (t : STable) (q : option SQuery) : Prop :=
  exists o pi g, cached_as (w_cache w) G sid (t_obj t) o pi g /\
    (q = None /\ due_rows w skey ekey (Z.of_nat sid) = [] \/ exists q' k, q = Some q' /\ cursor o pi g q' k /\ g_com g < place_of o q' k /\
       due_rows w skey ekey (Z.of_nat sid) = rows_from g (g_com g) (place_of o q' k - g_com g)).

(** The rows to commit are those that the query gives, if there are any. *)
Lemma due_rows_spec w skey ekey sid g : uncommitted w (Z.of_nat sid) = drop (Z.to_nat (g_com g)) (g_rows g) ->
  late skey g /\ due_rows w skey ekey (Z.of_nat sid) = [] \/ ~ late skey g /\ due_rows w skey ekey (Z.of_nat sid) = due ekey g (g_com g).
Proof.
  intros Hun. unfold due_rows. rewrite Hun. unfold late, due. destruct (drop _ _) as [|r rows] eqn:E.
  { right. split; [|done]. intros (r & Hr & _). rewrite <- (Nat.add_0_r (Z.to_nat _)), <- lookup_drop, E in Hr. done. }
  assert (Hr : g_rows g !! Z.to_nat (g_com g) = Some r) by (by rewrite <- (Nat.add_0_r (Z.to_nat _)), <- lookup_drop, E).
  destruct (Z.ltb_spec (row_key r) skey) as [Hlt|Hge]; [left|right]; (split; [|done]).
  - by exists r.
  - intros (r' & Hr' & Hlt). assert (r' = r) as -> by congruence. lia.
Qed.

Section Linked.
Context (bs pm : Z) (w : world) (G : gmap Z ghost) (Hw : winv bs pm w G) (Hmem : mem_ok (w_cache w)) (skey ekey : Z).
Let reader := cache_reader (w_cache w) skey ekey.
Let laws := reader_laws bs (w_cache w) G skey ekey (wi_inv _ _ _ _ Hw) Hmem.

Lemma linked_commit sid t old : CommitTable.table_ok (t_obj t) -> table_linked w sid t -> w_pend w !! Z.of_nat sid = None -> commit_ready w skey ekey sid t ->
  (forall r rows, uncommitted w (Z.of_nat sid) = r :: rows -> row_key r < skey -> old = []) ->
  (forall r, r ∈ uncommitted w (Z.of_nat sid) -> 0 <= row_key r) ->
  @to_commit SQuery reader laws compression dmem cmem fuel sid (t_obj t) old (next_rows w skey ekey sid (Some t)).
Proof using Hw.
  intros Htab Hl Hidle Hc Hlate Hkeys. destruct (world_table bs pm w G sid t Hw Hl Hidle) as (o & pi & g & Hca & Htight & _ & _ & Hun).
  pose proof Hc as [Hval Hfuel Hdm Hcm].
  assert (Hok : Forall (fun c => 0 <= bytes c) (schema (t_obj t))).
  { eapply Forall_impl; [exact (mo_ok _ (to_meter _ Htab))|]. intros c [Hcc _]. pose proof (co_bytes _ Hcc). lia. }
  constructor; try done. unfold begins.
  destruct (reader_begins bs (w_cache w) G skey ekey (wi_inv _ _ _ _ Hw) sid (t_obj t) o pi g Hca Hok Htight) as (q & low & Hq & Hr & Hm & Ho & Ho2 & Hlow & Hp).
  exists q, low. split; [exact Hq|]. split; [exact Hr|]. split; [exact Hm|]. split.
  { intros k Hk. destruct (Hlow k Hk) as (r & Hr2 & <-). rewrite (drop_S _ r _ Hr2) in Hun. apply (Hkeys r). rewrite Hun. by left. } unfold next_rows, values_of.
  destruct (due_rows_spec w skey ekey sid g Hun) as [[Hl2 ->]|[Hl2 ->]].
  - right. split; [by apply Ho|]. split; [|done]. destruct Hl2 as (r & Hr2 & Hlt).
    rewrite (drop_S _ r _ Hr2) in Hun. by eapply Hlate.
  - left. split; [by apply Ho2|]. etransitivity; [exact Hp|]. by rewrite (ca_schema _ _ _ _ _ _ _ Hca).
Qed.

Lemma ready_told sid t q : table_linked w sid t -> w_pend w !! Z.of_nat sid = None -> @q_ready SQuery reader laws sid (t_obj t) q ->
  (next_rows w skey ekey sid (Some t) <> [] -> @q_pending SQuery reader laws sid q = []) ->
  told w G skey ekey sid t (if next_rows w skey ekey sid (Some t) is [] then None else Some q).
Proof using Hw.
  intros Hl Hidle Hr Hp. destruct (world_table bs pm w G sid t Hw Hl Hidle) as (o & pi & g & Hca & _ & _ & _ & Hun).
  unfold next_rows, values_of in *. destruct (due_rows w skey ekey (Z.of_nat sid)) as [|d0 drows] eqn:Ed.
  { exists o, pi, g. split; [done|]. left. by rewrite Ed. }
  destruct (drained bs (w_cache w) G ekey (wi_inv _ _ _ _ Hw) sid (t_obj t) q Hr (Hp ltac:(done))) as (o' & pi' & g' & Hca' & Hwhere).
  assert (g' = g) as -> by (destruct Hca, Hca'; congruence). exists o', pi', g. split; [done|]. cbn [map]. rewrite Ed.
  destruct (due_rows_spec w skey ekey sid g Hun) as [[_ E0]|[_ E0]]; rewrite Ed in E0; [done|]. rewrite <- E0 in Hwhere.
  destruct Hwhere as [[_ E]|(k & Hcu & Hle & E)]; [done|]. right.
  exists q, k. split; [done|]. split; [done|]. split; [|done]. destruct (decide (g_com g = place_of o' q k)) as [Ez|]; [|lia].
  rewrite Ez, Z.sub_diag in E. done.
Qed.
End Linked.

(** The cache agrees with what the commit of a table tells. *)
Lemma read_out_ok bs pm w G skey ekey sid t q : winv bs pm w G -> table_linked w sid t -> w_pend w !! Z.of_nat sid = None ->
  told w G skey ekey sid t q -> winv bs pm (read_out (Z.of_nat sid) skey ekey q w) G.
Proof.
  intros Hw Hl Hidle (o' & pi' & g' & Hca' & Hwhere). destruct (world_table bs pm w G sid t Hw Hl Hidle) as (o & pi & g & Hca & Htight & Hin & Hfile & Hun).
  assert (o' = o) as -> by (destruct Hca, Hca'; congruence). assert (pi' = pi) as -> by (destruct Hca, Hca'; congruence).
  assert (g' = g) as -> by (destruct Hca, Hca'; congruence). clear Hca'. pose proof Hca as [Ho Hpi Hg _ _ _ _]. pose proof (wi_inv _ _ _ _ Hw) as Hinv.
  destruct (scan_bounds bs _ G _ o pi g Hinv Ho Hpi Hg) as (Hppb & _). destruct (se_com _ _ _ (in_settled _ _ _ Hinv _ o pi g Ho Hpi Hg)) as [Hcom _].
  destruct (wi_tables _ _ _ _ Hw _ o Ho) as (pi' & g' & Hpi' & Hg' & Htab). assert (pi' = pi) as -> by congruence. assert (g' = g) as -> by congruence.
  destruct Htab. unfold read_out. apply (winv_frame bs pm w _ G G (Z.of_nat sid)); cbn [w_cache w_pend w_in w_file]; [done|done|done| |].
  - intros m2 Hne. rewrite lookup_insert_ne by done. do 2 (split; [done|]). split; [|done]. destruct q; [by rewrite lookup_insert_ne|done].
  - rewrite Ho. exists pi, g. split; [done|]. split; [done|]. constructor; cbn [w_in w_pend w_file]; try done.
    rewrite lookup_insert_eq. unfold rows_at. rewrite Hfile. cbn [default]. unfold id.
    destruct Hwhere as [[-> Hd]|(q' & k & -> & Hcu & Hlt & Hd)].
    + by rewrite Hidle, Hd, app_nil_r.
    + pose proof (cursor_place bs _ G _ o pi g Hinv Ho Hpi Hg q' k Hcu) as Hpl. destruct Hcu as [_ Hslot _ _ Hlive Hpos].
      assert (Hpp : 0 <= q_pos q' <= pointsPerBlock o) by (unfold pts in Hpos; lia).
      rewrite lookup_insert_eq, (wraps_id 30) by (try lia; unfold in_s; lia). exists k. cbv zeta. fold (place_of o q' k).
      destruct (scan_bounds bs _ G _ o pi g Hinv Ho Hpi Hg) as (_ & _ & Hn & Hn2 & _).
      split; [unfold live in Hlive; lia|]. split; [done|]. split; [done|]. split; [lia|]. rewrite Hd. f_equal. unfold rows_from.
      replace (Z.to_nat (place_of o q' k)) with (Z.to_nat (g_com g) + Z.to_nat (place_of o q' k - g_com g))%nat by lia.
      pose proof (take_add_drop (g_rows g) (Z.to_nat (g_com g)) (Z.to_nat (place_of o q' k - g_com g)) 0) as E. rewrite drop_0 in E. by rewrite E.
Qed.
End Cache.

