(* ===== verification/VnodeKeys.v ===== *)
(** * The files of a vnode and the keys in them (system/src/vnodeFile.c)

    A file has the rows of some days.  The files of a vnode are numbered without gaps; the
    newest is [fileId], and [lastKeyOnFile] the last key that belongs into it.  A commit
    makes the files that are missing, and removes those that are too old. *)
From S2P Require Import Prelude.

(** The members of [SVnodeObj] that say which keys are where. *)
Record vkeys := mkKeys {
  k_firstKey : Z; k_lastKey : Z; k_lastKeyOnFile : Z; k_fileId : Z; k_numOfFiles : Z;
  k_commitFirstKey : Z; k_commitLastKey : Z; k_commitFileId : Z }.

Definition with_rows (firstKey lastKey : Z) (k : vkeys) : vkeys :=
  mkKeys firstKey lastKey (k_lastKeyOnFile k) (k_fileId k) (k_numOfFiles k) (k_commitFirstKey k) (k_commitLastKey k) (k_commitFileId k).
Definition with_files (lastKeyOnFile fileId numOfFiles : Z) (k : vkeys) : vkeys :=
  mkKeys (k_firstKey k) (k_lastKey k) lastKeyOnFile fileId numOfFiles (k_commitFirstKey k) (k_commitLastKey k) (k_commitFileId k).
Definition with_commit (commitFirstKey commitLastKey commitFileId : Z) (k : vkeys) : vkeys :=
  mkKeys (k_firstKey k) (k_lastKey k) (k_lastKeyOnFile k) (k_fileId k) (k_numOfFiles k) commitFirstKey commitLastKey commitFileId.

Section Keys.
Context (daysPerFile msPerDay : Z).

(** ** [vnodeOpenCommitFiles], with the files it makes *)

Definition first_file (k : vkeys) : vkeys * option Z :=
  if k_lastKeyOnFile k =? 0 then
    let fileId := i32 (Z.quot (Z.quot (k_firstKey k) msPerDay) daysPerFile) in
    (with_files (i64 (i32 (fileId + 1) * daysPerFile * msPerDay - 1)) fileId 1 k, Some fileId)
  else (k, None).

(** How many files there are behind that of [commitFirstKey]; -1 if it is newer than all. *)
Definition files_behind (k : vkeys) : Z :=
  if k_lastKeyOnFile k <? k_commitFirstKey k then -1
  else i32 (Z.quot (Z.quot (k_lastKeyOnFile k - k_commitFirstKey k) msPerDay) daysPerFile).

Definition set_range (n : Z) (k : vkeys) : vkeys :=
  let commitLastKey := i64 (k_lastKeyOnFile k - n * msPerDay * daysPerFile) in
  with_commit (i64 (commitLastKey - msPerDay * daysPerFile + 1)) commitLastKey (i32 (k_fileId k - n)) k.

Definition choose_file (k : vkeys) : vkeys * list Z :=
  let n := files_behind k in
  if k_numOfFiles k <=? n then
    let filesAdded := n - k_numOfFiles k + 1 in
    (with_files (k_lastKeyOnFile k) (k_fileId k) (i32 (k_numOfFiles k + filesAdded)) (set_range n k),
     map (fun i => i32 (k_fileId k - k_numOfFiles k - Z.of_nat i)) (seq 0 (Z.to_nat filesAdded)))
  else if n <? 0 then
    let fileId := i32 (k_fileId k + 1) in
    let k := with_files (i64 (k_lastKeyOnFile k + msPerDay * daysPerFile)) fileId (k_numOfFiles k) k in
    (with_files (k_lastKeyOnFile k) (k_fileId k) (i32 (k_numOfFiles k + 1)) (set_range 0 k), [fileId])
  else (set_range n k, []).

(** ** The files that [vnodeCloseCommitFiles] removes: [cfile] is the file of the present *)
Definition retention (cfile maxFiles : Z) (k : vkeys) : vkeys * list Z :=
  let fileId := k_fileId k - k_numOfFiles k + 1 in
  let n := Z.to_nat (cfile - maxFiles - fileId + 1) in
  (with_files (k_lastKeyOnFile k) (k_fileId k) (i32 (k_numOfFiles k - Z.of_nat n)) k, map (fun i => fileId + Z.of_nat i) (seq 0 n)).

(** The next file of the same commit. *)
Definition next_file (k : vkeys) : vkeys := with_commit (i64 (k_commitLastKey k + 1)) (k_commitLastKey k) (k_commitFileId k) k.

(** ** What they do *)
Definition span : Z := daysPerFile * msPerDay.
Context (keyMax : Z) (Hdays : 0 < daysPerFile) (Hms : 0 < msPerDay) (Hspan : 1 < span) (Hmax : 0 < keyMax <= 2 ^ 30 * span) (Hmax2 : keyMax + 2 * span < 2 ^ 62).

Record keys_ok (k : vkeys) : Prop := {
  ko_last : k_lastKeyOnFile k = (k_fileId k + 1) * span - 1;
  ko_fileId : 0 <= k_fileId k /\ k_fileId k * span <= keyMax;
  ko_files : 1 <= k_numOfFiles k <= k_fileId k + 1 }.
Definition has_file (k : vkeys) (f : Z) : Prop := k_fileId k - k_numOfFiles k < f <= k_fileId k.
(** The file of a key. *)
Definition file_of (key : Z) : Z := key / span.

(** The first key of the file that a commit from [commitFirstKey] begins with. *)
Definition start_of (k : vkeys) : Z := Z.min (k_lastKeyOnFile k + 1) (file_of (k_commitFirstKey k) * span).

Lemma quot_span key : 0 <= key -> Z.quot (Z.quot key msPerDay) daysPerFile = file_of key.
Proof using Hdays Hms.
  intros Hk. rewrite !Z.quot_div_nonneg by (try apply Z.quot_pos; lia). rewrite Z.div_div by lia. unfold file_of, span. f_equal. lia.
Qed.
Lemma file_bounds key : file_of key * span <= key < file_of key * span + span.
Proof using Hspan. unfold file_of. pose proof (Z.div_mod key span ltac:(lia)). pose proof (Z.mod_pos_bound key span ltac:(lia)). lia. Qed.
Lemma file_pos key : 0 <= key -> 0 <= file_of key.
Proof using Hspan. intros. apply Z.div_pos; lia. Qed.
Lemma file_small f : f * span <= keyMax -> f <= 2 ^ 30.
Proof using Hmax Hspan. intros. destruct (Z.le_gt_cases f (2 ^ 30)); [done|]. assert ((2 ^ 30 + 1) * span <= f * span) by (apply Z.mul_le_mono_nonneg_r; lia). lia. Qed.
Lemma file_in f key : f * span <= key < f * span + span -> file_of key = f.
Proof using Hspan. intros Hk. unfold file_of. symmetry. apply (Z.div_unique _ _ f (key - f * span)); lia. Qed.

Lemma first_file_ok k : 0 <= k_firstKey k <= keyMax -> k_lastKeyOnFile k = 0 \/ keys_ok k ->
  exists k' made, first_file k = (k', made) /\ keys_ok k' /\ k_firstKey k' = k_firstKey k /\ k_lastKey k' = k_lastKey k /\
    k_commitFirstKey k' = k_commitFirstKey k /\
    if k_lastKeyOnFile k =? 0 then made = Some (k_fileId k') /\ k_numOfFiles k' = 1 else made = None /\ k' = k.
Proof using Hdays Hms Hspan Hmax Hmax2.
  intros Hf Hk. unfold first_file. destruct (Z.eqb_spec (k_lastKeyOnFile k) 0) as [E|E].
  - rewrite quot_span by lia. pose proof (file_bounds (k_firstKey k)) as Hb. pose proof (file_pos (k_firstKey k) ltac:(lia)) as Hp.
    assert (Hs : file_of (k_firstKey k) * span <= keyMax) by lia. pose proof (file_small _ Hs) as H30. set (f := file_of (k_firstKey k)) in *.
    rewrite (wraps_id 32 f), (wraps_id 32 (f + 1)) by (try lia; unfold in_s; lia).
    replace ((f + 1) * daysPerFile * msPerDay - 1) with ((f + 1) * span - 1) by (unfold span; lia).
    rewrite (wraps_id 64) by (try lia; unfold in_s; lia). eexists _, _. split; [reflexivity|]. split; [|done]. constructor; cbn; [done|done|lia].
  - destruct Hk as [?|Hk]; [done|]. by exists k, None.
Qed.

Lemma elem_of_below a n f : f ∈ map (fun i => a - Z.of_nat i) (seq 0 n) <-> a - Z.of_nat n < f <= a.
Proof.
  rewrite list_elem_of_fmap. split.
  - intros (i & -> & Hi). apply elem_of_seq in Hi. lia.
  - intros Hf. exists (Z.to_nat (a - f)). rewrite elem_of_seq. lia.
Qed.
Lemma elem_of_above a n f : f ∈ map (fun i => a + Z.of_nat i) (seq 0 n) <-> a <= f < a + Z.of_nat n.
Proof.
  rewrite list_elem_of_fmap. split.
  - intros (i & -> & Hi). apply elem_of_seq in Hi. lia.
  - intros Hf. exists (Z.to_nat (f - a)). rewrite elem_of_seq. lia.
Qed.

Lemma range_ok n k : keys_ok k -> -1 <= n <= k_fileId k -> (k_fileId k - n) * span <= keyMax ->
  set_range n k = with_commit ((k_fileId k - n) * span) ((k_fileId k - n) * span + span - 1) (k_fileId k - n) k.
Proof using Hdays Hms Hspan Hmax Hmax2.
  intros [Hl [Hf1 Hf2] Hn] Hr Hs. unfold set_range. rewrite Hl. pose proof (file_small _ Hf2) as H30.
  replace ((k_fileId k + 1) * span - 1 - n * msPerDay * daysPerFile) with ((k_fileId k - n) * span + span - 1) by (unfold span; lia).
  assert (0 <= (k_fileId k - n) * span) by (apply Z.mul_nonneg_nonneg; lia).
  rewrite (wraps_id 64 ((k_fileId k - n) * span + span - 1)) by (try lia; unfold in_s; lia).
  replace ((k_fileId k - n) * span + span - 1 - msPerDay * daysPerFile + 1) with ((k_fileId k - n) * span) by (unfold span; lia).
  rewrite (wraps_id 64), (wraps_id 32) by (try lia; unfold in_s; lia). done.
Qed.

(** The file of a commit begins at or before its first key; the files that were not there
    are made. *)
Lemma choose_file_ok k : keys_ok k -> 0 <= k_commitFirstKey k <= keyMax ->
  exists k' made, choose_file k = (k', made) /\ keys_ok k' /\ k_firstKey k' = k_firstKey k /\ k_lastKey k' = k_lastKey k /\
    k_commitFirstKey k' = start_of k /\ k_commitLastKey k' = start_of k + span - 1 /\ start_of k = k_commitFileId k' * span /\
    start_of k <= k_commitFirstKey k /\ has_file k' (k_commitFileId k') /\
    (forall f, has_file k' f <-> has_file k f \/ f ∈ made) /\ (forall f, f ∈ made -> ~ has_file k f) /\ NoDup made.
Proof using Hdays Hms Hspan Hmax Hmax2.
  intros Hk Hc. pose proof Hk as [Hl [Hf1 Hf2] Hn]. pose proof (file_small _ Hf2) as H30. unfold choose_file, files_behind, start_of.
  pose proof (file_bounds (k_commitFirstKey k)) as Hb. pose proof (file_pos (k_commitFirstKey k) ltac:(lia)) as Hp.
  set (F := k_fileId k) in *. set (N := k_numOfFiles k) in *. set (c := k_commitFirstKey k) in *. set (g := file_of c) in *.
  destruct (Z.ltb_spec (k_lastKeyOnFile k) c) as [Hnew|Hold].
  - rewrite (proj2 (Z.leb_gt N (-1))) by lia. change (-1 <? 0) with true. cbv iota.
    assert (Hg : F + 1 <= g).
    { destruct (Z.le_gt_cases (F + 1) g); [done|]. assert ((g + 1) * span <= (F + 1) * span) by (apply Z.mul_le_mono_nonneg_r; lia). lia. }
    assert (H30' : F + 1 <= 2 ^ 30) by (apply file_small; lia).
    rewrite (wraps_id 32 (F + 1)) by (try lia; unfold in_s; lia).
    replace (k_lastKeyOnFile k + msPerDay * daysPerFile) with ((F + 1 + 1) * span - 1) by (unfold span in *; lia).
    assert (0 <= F * span) by (apply Z.mul_nonneg_nonneg; lia). assert ((F + 1) * span <= g * span) by (apply Z.mul_le_mono_nonneg_r; lia).
    rewrite (wraps_id 64) by (try lia; unfold in_s; lia).
    set (k1 := with_files _ (F + 1) N k). assert (Hk1 : keys_ok k1) by (constructor; cbn; lia).
    rewrite (range_ok 0 k1 Hk1) by (cbn; lia). rewrite (wraps_id 32) by (try lia; unfold in_s; cbn; lia).
    rewrite Z.min_l by lia. eexists _, _. split; [reflexivity|]. cbn. rewrite Z.sub_0_r, Hl. split; [constructor; cbn; lia|]. do 2 (split; [done|]).
    split; [lia|]. split; [lia|]. split; [lia|]. split; [lia|]. unfold has_file. cbn. fold F N. split; [lia|]. split; [|split].
    + intros f. rewrite list_elem_of_singleton. lia.
    + intros f. rewrite list_elem_of_singleton. lia.
    + apply NoDup_singleton.
  - rewrite quot_span by lia. set (n := file_of (k_lastKeyOnFile k - c)). pose proof (file_bounds (k_lastKeyOnFile k - c)) as Hbn. fold n in Hbn.
    assert (Hgn : g = F - n) by (apply file_in; lia). assert (Hn0 : 0 <= n) by (apply file_pos; lia).
    assert (Hgs : g * span <= keyMax) by lia. pose proof (file_small _ Hgs).
    rewrite (wraps_id 32 n) by (try lia; unfold in_s; lia). rewrite (range_ok n k Hk) by (fold F; rewrite <- ?Hgn; lia). fold F. rewrite <- Hgn.
    rewrite Z.min_r by lia.
    destruct (Z.leb_spec N n) as [Hmore|Hless].
    + rewrite (wraps_id 32) by (try lia; unfold in_s; lia).
      assert (Em : map (fun i => i32 (F - N - Z.of_nat i)) (seq 0 (Z.to_nat (n - N + 1))) = map (fun i => F - N - Z.of_nat i) (seq 0 (Z.to_nat (n - N + 1)))).
      { apply map_ext_in. intros i Hi. apply in_seq in Hi. apply wraps_id; [lia|unfold in_s; lia]. }
      rewrite Em. eexists _, _. split; [reflexivity|]. cbn. split; [constructor; cbn; fold F N; lia|]. do 2 (split; [done|]). do 4 (split; [lia|]).
      unfold has_file. cbn. fold F N. split; [lia|]. split; [|split].
      * intros f. rewrite elem_of_below. lia.
      * intros f. rewrite elem_of_below. lia.
      * apply NoDup_fmap_2; [intros a b E; lia|apply NoDup_seq].
    + rewrite (proj2 (Z.ltb_ge n 0)) by lia. eexists _, _. split; [reflexivity|]. cbn. split; [by constructor|]. do 2 (split; [done|]). do 4 (split; [lia|]).
      unfold has_file. cbn. fold F N. split; [lia|]. split; [|split].
      * intros f. rewrite elem_of_nil. tauto.
      * intros f. by rewrite elem_of_nil.
      * constructor.
Qed.

(** Old files go, as long as the newest one stays. *)
Lemma retention_ok cfile maxFiles k : keys_ok k -> cfile - maxFiles < k_fileId k ->
  exists k' removed, retention cfile maxFiles k = (k', removed) /\ keys_ok k' /\
    k' = with_files (k_lastKeyOnFile k) (k_fileId k) (k_numOfFiles k') k /\
    (forall f, has_file k' f <-> has_file k f /\ f ∉ removed) /\ (forall f, f ∈ removed -> has_file k f).
Proof using Hdays Hms Hspan Hmax Hmax2.
  intros Hk Hc. pose proof Hk as [Hl [Hf1 Hf2] Hn]. pose proof (file_small _ Hf2) as H30. unfold retention.
  set (F := k_fileId k) in *. set (N := k_numOfFiles k) in *. set (n := Z.to_nat _).
  rewrite (wraps_id 32) by (try lia; unfold in_s; lia). eexists _, _. split; [reflexivity|]. split; [constructor; cbn; lia|]. split; [done|].
  unfold has_file. cbn. fold F N. split; intros f; rewrite elem_of_above; lia.
Qed.
(** A commit goes on with the file behind. *)
Lemma next_start fk lk numOfFiles k : keys_ok k -> has_file k (k_commitFileId k) -> k_commitFirstKey k = k_commitFileId k * span ->
  k_commitLastKey k = k_commitFirstKey k + span - 1 -> k_commitLastKey k < keyMax ->
  start_of (first_file (next_file (with_files (k_lastKeyOnFile k) (k_fileId k) numOfFiles (with_rows fk lk k)))).1 = k_commitFirstKey k + span.
Proof using Hmax Hspan Hmax2.
  intros [Hl [Hf1 Hf2] Hn] [Hh1 Hh2] E1 E2 Hlt. unfold first_file, next_file. cbn. assert (0 <= k_fileId k * span) by (apply Z.mul_nonneg_nonneg; lia).
  rewrite (proj2 (Z.eqb_neq _ _)) by lia. unfold start_of. cbn. assert (k_commitFileId k * span <= k_fileId k * span) by (apply Z.mul_le_mono_nonneg_r; lia).
  assert (0 <= k_commitFileId k * span) by (apply Z.mul_nonneg_nonneg; lia).
  rewrite (wraps_id 64) by (try lia; unfold in_s; lia). rewrite (file_in (k_commitFileId k + 1)) by lia. lia.
Qed.
End Keys.

(** ** A vnode that was idle for longer than its files are kept

    [retention] does not stop at the newest file: [numOfFiles] becomes negative, and the
    commit of a new row comes back to the same file for ever. *)
Definition next_round (daysPerFile msPerDay cfile maxFiles : Z) (k : vkeys) : vkeys :=
  let k := (first_file daysPerFile msPerDay k).1 in
  let k := (choose_file daysPerFile msPerDay k).1 in
  next_file (retention cfile maxFiles k).1.

(** Three files of ten days up to file 100, of which five are kept; a row of file 110. *)
Definition day : Z := 86400000.
Definition idle_keys : vkeys := mkKeys (110 * 10 * day) (110 * 10 * day) (101 * 10 * day - 1) 100 3 (100 * 10 * day + 5) 0 0.
Lemma commit_never_ends n : (1 <= n)%nat -> let k := Nat.iter n (next_round 10 day 110 5) idle_keys in
  k_commitLastKey k < k_lastKey k /\ ((2 <= n)%nat -> k_commitFileId k = 101).
Proof.
  assert (E : next_round 10 day 110 5 (next_round 10 day 110 5 (next_round 10 day 110 5 idle_keys)) = next_round 10 day 110 5 (next_round 10 day 110 5 idle_keys)) by (vm_compute; reflexivity).
  assert (H : forall m, Nat.iter (S (S m)) (next_round 10 day 110 5) idle_keys = next_round 10 day 110 5 (next_round 10 day 110 5 idle_keys)).
  { induction m as [|m IH]; [done|]. change (next_round 10 day 110 5 (Nat.iter (S (S m)) (next_round 10 day 110 5) idle_keys) = next_round 10 day 110 5 (next_round 10 day 110 5 idle_keys)). by rewrite IH. }
  intros Hn. destruct n as [|[|m]]; [lia| |].
  - split; [by vm_compute|lia].
  - cbv zeta. rewrite H. split; [by vm_compute|]. intros _. by vm_compute.
Qed.
