(* ===== verification/Vnode.v ===== *)
(** * The life of a vnode

    Batches are inserted into the cache; a commit goes through the files from that of its
    first key on, and writes to each the rows that belong there; then the cache is told of
    each table how far its commit has come.  These steps come in any order, and rows may
    come at any time between them. *)
From S2P Require Import Prelude KeySearch CachePool CacheInv CacheQuery CacheScan CacheFlush CacheLife CompBase CompInt CompBool CompTime CompXor Tscompression Crc32c ColTypes FileBlock BlockWrite BlockLife HeadFile HeadWrite CommitFile CommitTable CommitLife CacheReader CommitCache VnodeKeys.

#[local] Existing Instance LP64.

(** ** State *)

(** The files of one number, with more blocks than they have. *)
Record vfile := mkFile { f_files : vfiles; f_blocks : Z }.

(** Where a commit is: its next file is to be opened, or its file is written and the cache is
    told of it; [again] if rows are left for newer files. *)
Inductive phase := Idle | Choose | Marking (again : bool).

(** The cache, with what was accepted and written of each table; the tables, the number of
    the vnode's being their place; the files, and the numbers of those that were removed. *)
Record vnode := mkVnode {
  n_world : world; n_tabs : list (option STable); n_files : gmap Z vfile; n_gone : gset Z; n_keys : vkeys; n_phase : phase }.
Definition set_world (w : world) (s : vnode) : vnode := mkVnode w (n_tabs s) (n_files s) (n_gone s) (n_keys s) (n_phase s).
Definition set_commit (k : vkeys) (p : phase) (s : vnode) : vnode := mkVnode (n_world s) (n_tabs s) (n_files s) (n_gone s) k p.

(** [Put] is [vnodeInsertPoints]; the others are [vnodeCommitMultiToFile]: [Begin] up to
    [_again], [File] up to [vnodeCloseCommitFiles], [Mark] the call of
    [vnodeUpdateCommitInfo] for a table, and [Next] what follows these. *)
Inductive vop :=
| Put (m : Z) (deleting : bool) (tsKey : Z) (rows : list (list Z))
| Begin
| File (cfile : Z)
| Mark (m cnt : Z)
| Next.

Section Vnode.
Context `{LZ4Laws} `{DoubleOps} `{BlockOptionsLaws} {crc32c : Z -> Z -> list Z -> Z -> res Z} {heap : Z} `{!RunningSum crc32c heap}.
Context (daysPerFile msPerDay maxFiles : Z).
Context (compression hmsize : Z) (dmem cmem : nat -> list SData) (fuel : nat) (file_header : list Z).
Abbreviation files_have tabs v contents nb := (vnode_ok (crc32c := crc32c) (heap := heap) compression tabs v contents nb).
Abbreviation spn := (span daysPerFile msPerDay).

(** ** A batch *)

(** Rows whose first key is 0 get the present and the times after it. *)
Definition stamp (tsKey : Z) (rows : list (list Z)) : Z * list (list Z) :=
  match rows with
  | r :: _ => if row_key r =? 0 then (tsKey + Z.of_nat (length rows), imap (fun i r => le_bytes 8 (tsKey + Z.of_nat i) ++ drop 8 r) rows) else (tsKey, rows)
  | [] => (tsKey, rows)
  end.

Definition put_refused (m n : Z) (c : cache) : res bool :=
  let! o := meter c m in
  Ret (((blocksPerMeter (pool c) - 2) * pointsPerBlock o <=? n) ||
       ((freePoints o <? n) || (freePoints o <? Z.shiftl (pointsPerBlock o) 1) || (totalBlocks (pool c) - 2 <? notFreeSlots (pool c)))).

(** The keys belong into files that are too old, or newer than the next one. *)
Definition out_of_window (tsKey firstKey lastKey : Z) : bool :=
  let id key := i32 (Z.quot (Z.quot key daysPerFile) msPerDay) in
  let cfile := id tsKey in
  (id firstKey <=? cfile - maxFiles) || (cfile + 1 <? id firstKey) || (id lastKey <=? cfile - maxFiles) || (cfile + 1 <? id lastKey).

Definition put_rows (m : Z) (deleting : bool) (tsKey : Z) (rows : list (list Z)) (s : vnode) : res vnode :=
  let w := n_world s in
  match meters (w_cache w) !! m with
  | None => Ret s
  | Some _ =>
    let '(now, rows) := stamp tsKey rows in
    let! refused := put_refused m (Z.of_nat (length rows)) (w_cache w) in
    if refused : bool then let! w := step (Insert m deleting now msPerDay rows) w in Ret (set_world w s)
    else
      match rows, last rows with
      | r :: _, Some r' =>
        if out_of_window tsKey (row_key r) (row_key r') then Ret s
        else
          let! w := step (Insert m deleting now msPerDay rows) w in
          let! o := meter (w_cache w) m in
          let k := n_keys s in
          let lastKey := if k_lastKey k <? lastKey o then lastKey o else k_lastKey k in
          let firstKey := if row_key r <? k_firstKey k then row_key r else k_firstKey k in
          Ret (set_commit (with_rows firstKey lastKey k) (n_phase s) (set_world w s))
      | _, _ => Undef
      end
  end.

(** ** A commit *)

(** [vnodeCreateEmptyCompFile] fails for files that are there. *)
Definition create_file (tabs : nat) (id : Z) (files : gmap Z vfile) : res (option (gmap Z vfile)) :=
  match files !! id with
  | Some _ => Ret None
  | None => let! v := vnodeCreateEmptyCompFile crc32c heap file_header tabs in Ret (Some (<[id := mkFile v 0]> files))
  end.
Fixpoint create_files (tabs : nat) (ids : list Z) (files : gmap Z vfile) : res (option (gmap Z vfile)) :=
  match ids with
  | [] => Ret (Some files)
  | id :: ids =>
    let! r := create_file tabs id files in match r with Some files => create_files tabs ids files | None => Ret None end
  end.

(** [vnodeOpenCommitFiles]: whether the first file could be made is not looked at. *)
Definition open_files (tabs : nat) (k : vkeys) (files : gmap Z vfile) : res (vkeys * option (gmap Z vfile)) :=
  let '(k, first) := first_file daysPerFile msPerDay k in
  let! files := match first with Some id => let! r := create_file tabs id files in Ret (default files r) | None => Ret files end in
  let '(k, made) := choose_file daysPerFile msPerDay k in
  let! r := create_files tabs made files in Ret (k, r).

(** The tables with their newest keys. *)
Definition tabs_now (w : world) (tabs : list (option STable)) : list (option STable) :=
  imap (fun sid x => match x, meters (w_cache w) !! Z.of_nat sid with
                     | Some t, Some o => Some (mkTable (t_obj t) (t_deleting t) (t_cached t) (lastKey o) (t_lastKeyOnFile t))
                     | _, _ => x
                     end) tabs.

Definition news (w : world) (k : vkeys) (tabs : list (option STable)) : list (list (list (list Z))) :=
  imap (next_rows w (k_commitFirstKey k) (k_commitLastKey k)) tabs.

Definition commit_file (cfile : Z) (s : vnode) : res vnode :=
  let! '(k, r) := open_files (length (n_tabs s)) (n_keys s) (n_files s) in
  match r with
  | None => Ret (set_commit k Idle s)
  | Some files =>
    match files !! k_commitFileId k with
    | None => Ret (set_commit k Idle s)
    | Some f =>
      let w := n_world s in
      let tabs := tabs_now w (n_tabs s) in
      let! r := commit_cache (crc32c := crc32c) (heap := heap) compression hmsize dmem cmem fuel (w_cache w) (k_commitFirstKey k) (k_commitLastKey k) file_header
                  0 (length tabs - 1) tabs (k_firstKey k) 0 (f_files f) in
      match r with
      | None => Ret (set_commit k Idle s)
      | Some (v, tabs', qs, firstKey, _) =>
        let commitAgain := k_commitLastKey k <? k_lastKey k in
        let '(k', removed) := retention cfile maxFiles (with_rows firstKey (k_lastKey k) k) in
        let files := <[k_commitFileId k := mkFile v (f_blocks f + total_need tabs (news w k tabs))]> files in
        Ret (mkVnode (read_outs (k_commitFirstKey k) (k_commitLastKey k) 0 tabs qs w) tabs' (foldr delete files removed) (n_gone s ∪ list_to_set removed) k'
               (Marking commitAgain))
      end
    end
  end.

Definition vstep (x : vop) (s : vnode) : res vnode :=
  match x, n_phase s with
  | Put m deleting tsKey rows, _ => put_rows m deleting tsKey rows s
  | Begin, Idle =>
    let k := n_keys s in
    if k_lastKey k =? 0 then Ret s
    else Ret (set_commit (with_commit (k_firstKey k) (k_commitLastKey k) (k_commitFileId k) (with_rows (i64 (k_lastKey k + 1)) (k_lastKey k) k)) Choose s)
  | File cfile, Choose => commit_file cfile s
  | Mark m cnt, Marking _ => let! w := step (Over m cnt) (n_world s) in Ret (set_world w s)
  | Next, Marking again =>
    if bool_decide (w_pend (n_world s) = ∅) then Ret (if again then set_commit (next_file (n_keys s)) Choose s else set_commit (n_keys s) Idle s)
    else Ret s
  | _, _ => Ret s
  end.

(** ** What the rest of the node sees to

    Keys are positive and below [keyMax]; a batch has rows, of the columns of its table; the
    newest file is not older than those that are kept; there is memory for the blocks that
    a commit makes, and the files have sizes that 31 bits can hold. *)
Context (keyMax : Z).

Definition commit_ok (cfile : Z) (s : vnode) : Prop :=
  let k := (choose_file daysPerFile msPerDay (first_file daysPerFile msPerDay (n_keys s)).1).1 in
  let w := n_world s in
  let tabs := tabs_now w (n_tabs s) in
  let f := default (mkFile (mkVfiles [] file_header file_header) 0) (n_files s !! k_commitFileId k) in
  let n := total_need tabs (news w k tabs) in
  cfile - maxFiles < k_fileId k /\
  (forall sid t, tabs !! sid = Some (Some t) -> commit_ready compression dmem cmem fuel w (k_commitFirstKey k) (k_commitLastKey k) sid t) /\
  512 + header_size (length tabs) + 28 * Z.of_nat (length tabs) + 56 * (f_blocks f + n) < 2 ^ 31 /\ 56 * n <= hmsize /\
  Z.of_nat (length (v_data (f_files f))) + 2 ^ 31 * n < 2 ^ 61 /\ Z.of_nat (length (v_last (f_files f))) + 2 ^ 31 * n < 2 ^ 61.

Definition vop_ok (x : vop) (s : vnode) : Prop :=
  match x with
  | Put m deleting tsKey rows =>
    let '(now, rows) := stamp tsKey rows in
    rows <> [] /\ op_ok (Insert m deleting now msPerDay rows) (n_world s) /\ Forall bytes_ok rows /\ Forall (fun r => 0 < row_key r < keyMax) rows
  | File cfile => n_phase s = Choose -> commit_ok cfile s
  | Begin | Mark _ _ | Next => True
  end.

(** The tables are made, and were given no rows; there are no files. *)
Record starts (w0 : world) (s : vnode) : Prop := {
  st_world : reachable w0 (n_world s);
  st_mem : mem_ok (w_cache (n_world s));
  st_pend : w_pend (n_world s) = ∅;
  st_tables : forall sid t, n_tabs s !! sid = Some (Some t) -> CommitTable.table_ok (t_obj t) /\ t_deleting t = false /\ table_linked (n_world s) sid t /\
    rows_at (w_in (n_world s)) (Z.of_nat sid) = [];
  st_meters : forall m o, meters (w_cache (n_world s)) !! m = Some o -> 0 <= lastKey o < keyMax;
  st_files : n_files s = ∅;
  st_keys : k_lastKeyOnFile (n_keys s) = 0 /\ k_lastKey (n_keys s) = 0 /\ 0 <= k_firstKey (n_keys s) <= keyMax;
  st_phase : n_phase s = Idle }.

Inductive vreach (s0 : vnode) : vnode -> Prop :=
| vreach_start : vreach s0 s0
| vreach_step s x s' : vreach s0 s -> vop_ok x s -> vstep x s = Ret s' -> vreach s0 s'.


(** ** A whole commit

    [whole_commit] is [vnodeCommitMultiToFile] when no rows come while it runs: each round
    writes one file and tells the cache of every table. *)
Abbreviation start s := (start_of daysPerFile msPerDay (first_file daysPerFile msPerDay (n_keys s)).1).
Context (cfile : Z) (cnt : nat -> Z).

Fixpoint vsteps (l : list vop) (s : vnode) : res vnode :=
  match l with [] => Ret s | x :: l => let! s := vstep x s in vsteps l s end.
Definition commit_round (s : vnode) : res vnode :=
  vsteps (File cfile :: map (fun sid => Mark (Z.of_nat sid) (cnt sid)) (seq 0 (length (n_tabs s))) ++ [Next]) s.
Fixpoint commit_rounds (rounds : nat) (s : vnode) : res vnode :=
  match n_phase s, rounds with
  | Idle, _ => Ret s
  | _, O => NoFuel
  | _, S rounds => let! s := commit_round s in commit_rounds rounds s
  end.
(** There is room for each file when its turn comes. *)
Fixpoint rounds_ok (rounds : nat) (s : vnode) : Prop :=
  match n_phase s, rounds with
  | Choose, S rounds => commit_ok cfile s /\ match commit_round s with Ret s => rounds_ok rounds s | _ => True end
  | _, _ => True
  end.

(** From the file of the first key to that of the last. *)
Definition rounds_of (s : vnode) : nat := S (Z.to_nat ((k_lastKey (n_keys s) - start s) / spn)).
Definition whole_commit (s : vnode) : res vnode := let! s := vstep Begin s in commit_rounds (rounds_of s) s.
Definition whole_ok (s : vnode) : Prop := match vstep Begin s with Ret s => rounds_ok (rounds_of s) s | _ => True end.


(** ** What is found in the files *)
Abbreviation infile f := (fun r => file_of daysPerFile msPerDay (row_key r) = f).
Definition finds (s : vnode) (f : Z) (sid : nat) (t : STable) (rows : list (list Z)) : Prop :=
  exists x blocks parts, n_files s !! f = Some x /\
    vnodeGetCompBlockInfo crc32c heap (v_head (f_files x)) (length (n_tabs s)) sid (uid (t_obj t)) = Ret (Z.of_nat (length blocks), blocks) /\
    Forall2 (read_back (crc32c := crc32c) (heap := heap) (f_files x)) blocks parts /\ concat (map snd parts) = values_of t rows.
(** The rows are in the files; those that are kept have all of theirs. *)
Definition filed (s : vnode) (sid : nat) (t : STable) (rows : list (list Z)) : Prop :=
  (forall f, is_Some (n_files s !! f) -> f ∉ n_gone s -> finds s f sid t (filter (infile f) rows)) /\
  forall r, r ∈ rows -> is_Some (n_files s !! file_of daysPerFile msPerDay (row_key r)) \/ file_of daysPerFile msPerDay (row_key r) ∈ n_gone s.

End Vnode.
