(* ===== verification/VnodeLife.v ===== *)
(** * The life of a vnode: the invariant, and what is found in the files

    The rows of a table are written in their order, each to the file of its day; those that
    are left are not older than the key with which the next commit begins. *)
From S2P Require Import Prelude KeySearch CachePool CacheInv CacheQuery CacheScan CacheFlush CacheLife CompBase CompInt CompBool CompTime CompXor Tscompression Crc32c ColTypes FileBlock BlockWrite BlockLife HeadFile HeadWrite CommitFile CommitTable CommitLife CacheReader CommitCache VnodeKeys Vnode.

#[local] Existing Instance LP64.

Section Vnode.
Context `{LZ4Laws} `{DoubleOps} `{BlockOptionsLaws} {crc32c : Z -> Z -> list Z -> Z -> res Z} {heap : Z} `{!RunningSum crc32c heap}.
Context (daysPerFile msPerDay maxFiles : Z).
Context (compression hmsize : Z) (dmem cmem : nat -> list SData) (fuel : nat) (file_header : list Z) (keyMax : Z).
Abbreviation infile f := (fun r => file_of daysPerFile msPerDay (row_key r) = f).
Abbreviation files_have tabs v contents nb := (vnode_ok (crc32c := crc32c) (heap := heap) compression tabs v contents nb).
Abbreviation spn := (span daysPerFile msPerDay).
Abbreviation start s := (start_of daysPerFile msPerDay (first_file daysPerFile msPerDay (n_keys s)).1).
Abbreviation put_rows := (Vnode.put_rows daysPerFile msPerDay maxFiles).
Abbreviation create_file := (Vnode.create_file (crc32c := crc32c) (heap := heap) file_header).
Abbreviation create_files := (Vnode.create_files (crc32c := crc32c) (heap := heap) file_header).
Abbreviation open_files := (Vnode.open_files (crc32c := crc32c) (heap := heap) daysPerFile msPerDay file_header).
Abbreviation commit_file := (Vnode.commit_file (crc32c := crc32c) (heap := heap) daysPerFile msPerDay maxFiles compression hmsize dmem cmem fuel file_header).
Abbreviation vstep := (Vnode.vstep (crc32c := crc32c) (heap := heap) daysPerFile msPerDay maxFiles compression hmsize dmem cmem fuel file_header).
Abbreviation commit_ok := (Vnode.commit_ok daysPerFile msPerDay maxFiles compression hmsize dmem cmem fuel file_header).
Abbreviation vop_ok := (Vnode.vop_ok daysPerFile msPerDay maxFiles compression hmsize dmem cmem fuel file_header keyMax).
Abbreviation starts := (Vnode.starts keyMax).
Abbreviation vreach := (Vnode.vreach (crc32c := crc32c) (heap := heap) daysPerFile msPerDay maxFiles compression hmsize dmem cmem fuel file_header keyMax).
Abbreviation vsteps := (Vnode.vsteps (crc32c := crc32c) (heap := heap) daysPerFile msPerDay maxFiles compression hmsize dmem cmem fuel file_header).
Abbreviation rounds_of := (Vnode.rounds_of daysPerFile msPerDay).
Abbreviation finds := (Vnode.finds (crc32c := crc32c) (heap := heap)).
Abbreviation filed := (Vnode.filed (crc32c := crc32c) (heap := heap) daysPerFile msPerDay).

(** ** The invariant *)
Context (Hdays : 0 < daysPerFile) (Hms : 0 < msPerDay) (Hspan : 1 < spn) (Hmax : 0 < keyMax <= 2 ^ 30 * spn) (Hmax2 : keyMax + 2 * spn < 2 ^ 62).

(** Of a table the file has its rows among those written, but for those that it had when it
    was removed. *)
Definition holds_file (w : world) (tabs : list (option STable)) (gone : gset Z) (f : Z) (x : vfile) : Prop :=
  exists contents, files_have tabs (f_files x) contents (f_blocks x) /\
    forall sid t, tabs !! sid = Some (Some t) -> exists n,
      contents !! sid = Some (values_of t (drop n (filter (infile f) (rows_at (w_file w) (Z.of_nat sid))))) /\ (f ∉ gone -> n = 0%nat).

(** A row with this key is committed before the commit ends, or by the next one. *)
Definition seen (k : vkeys) (p : phase) (key : Z) : Prop :=
  k_firstKey k <= key \/
  match p with Idle => False | Choose => k_commitFirstKey k <= key | Marking again => again = true /\ k_commitLastKey k < key end.

Record keys_inv (s : vnode) : Prop := {
  ki_files : k_lastKeyOnFile (n_keys s) = 0 /\ n_files s = ∅ \/ keys_ok daysPerFile msPerDay keyMax (n_keys s) /\
    forall f, is_Some (n_files s !! f) <-> has_file (n_keys s) f;
  ki_range : 0 <= k_firstKey (n_keys s) <= keyMax /\ 0 <= k_lastKey (n_keys s) < keyMax;
  ki_phase : match n_phase s with
    | Idle => True
    | Choose => 0 <= k_commitFirstKey (n_keys s) <= keyMax
    | Marking again => again = true -> 0 <= k_commitLastKey (n_keys s) < k_lastKey (n_keys s)
    end }.

Record vinv (bs pm : Z) (s : vnode) : Prop := {
  vi_world : exists G, winv bs pm (n_world s) G;
  vi_mem : mem_ok (w_cache (n_world s));
  vi_pend : match n_phase s with Marking _ => True | _ => w_pend (n_world s) = ∅ end;
  vi_meters : forall m o, meters (w_cache (n_world s)) !! m = Some o -> 0 <= lastKey o < keyMax;
  vi_tables : forall sid t, n_tabs s !! sid = Some (Some t) -> CommitTable.table_ok (t_obj t) /\ t_deleting t = false /\ table_linked (n_world s) sid t;
  vi_keys : keys_inv s;
  vi_files : forall f x, n_files s !! f = Some x -> holds_file (n_world s) (n_tabs s) (n_gone s) f x;
  vi_written : forall sid t r, n_tabs s !! sid = Some (Some t) -> r ∈ rows_at (w_file (n_world s)) (Z.of_nat sid) ->
    is_Some (n_files s !! file_of daysPerFile msPerDay (row_key r)) \/ file_of daysPerFile msPerDay (row_key r) ∈ n_gone s;
  vi_seen : forall sid t r, n_tabs s !! sid = Some (Some t) -> r ∈ uncommitted (n_world s) (Z.of_nat sid) -> seen (n_keys s) (n_phase s) (row_key r);
  vi_high : forall sid t r, n_tabs s !! sid = Some (Some t) -> r ∈ rows_at (w_in (n_world s)) (Z.of_nat sid) -> 0 < row_key r <= k_lastKey (n_keys s) }.

(** ** The rows of a table *)
Lemma linked_same w w' sid t : same_shapes w w' -> table_linked w sid t -> table_linked w' sid t.
Proof.
  intros Hs [Hc (o & Ho & E1 & E2)]. split; [done|]. specialize (Hs (Z.of_nat sid)). rewrite Ho in Hs.
  destruct (meters (w_cache w') !! Z.of_nat sid) as [o'|]; [|done]. unfold shape in Hs. cbn in Hs. injection Hs as E3 E4. exists o'. split; [done|]. by rewrite E3, E4.
Qed.

Lemma world_rows bs pm w G sid t : winv bs pm w G -> table_linked w sid t -> exists o g n, meters (w_cache w) !! Z.of_nat sid = Some o /\
  w_in w !! Z.of_nat sid = Some (g_rows g) /\ sorted g /\ newest o g /\ rows_at (w_file w) (Z.of_nat sid) = take n (g_rows g) /\
  uncommitted w (Z.of_nat sid) = drop n (g_rows g) /\ rows_at (w_file w) (Z.of_nat sid) ++ uncommitted w (Z.of_nat sid) = rows_at (w_in w) (Z.of_nat sid).
Proof.
  intros Hw [_ (o & Ho & _)]. destruct (wi_tables _ _ _ _ Hw _ o Ho) as (pi & g & Hpi & Hg & []).
  assert (Hpre : exists n, (n <= length (g_rows g))%nat /\ w_file w !! Z.of_nat sid = Some (take n (g_rows g))).
  { assert (Hn : exists n, w_file w !! Z.of_nat sid = Some (take n (g_rows g))).
    { destruct (w_pend w !! Z.of_nat sid) as [[? ?]|]; [destruct tb_out as (kt & _ & _ & _ & _ & E)|]; by eexists. }
    destruct Hn as [n E]. destruct (decide (n <= length (g_rows g))%nat); [by exists n|]. exists (length (g_rows g)). rewrite firstn_all.
    by rewrite (take_ge (g_rows g) n) in E by lia. }
  destruct Hpre as (n & Hn & E). exists o, g, n. do 4 (split; [done|]). unfold uncommitted, rows_at. rewrite E, tb_in. cbn [default]. unfold id.
  rewrite length_take, Nat.min_l by done. do 2 (split; [done|]). apply take_drop.
Qed.

(** The rows of a table that were written are older than those that were not. *)
Lemma written_older bs pm w G sid t r r' : winv bs pm w G -> table_linked w sid t -> r ∈ rows_at (w_file w) (Z.of_nat sid) ->
  r' ∈ uncommitted w (Z.of_nat sid) -> row_key r < row_key r'.
Proof.
  intros Hw Hl Hr Hr'. destruct (world_rows bs pm w G sid t Hw Hl) as (o & g & n & _ & _ & Hs & _ & E1 & E2 & _). rewrite E1 in Hr. rewrite E2 in Hr'.
  apply list_elem_of_lookup in Hr as [i Hi], Hr' as [j Hj]. apply lookup_take_Some in Hi as [Hi Hin]. rewrite lookup_drop in Hj.
  unfold sorted in Hs. apply (Hs i (n + j)%nat); [lia|by rewrite list_lookup_fmap, Hi|by rewrite list_lookup_fmap, Hj].
Qed.
Lemma first_oldest bs pm w G sid t r rows r' : winv bs pm w G -> table_linked w sid t -> uncommitted w (Z.of_nat sid) = r :: rows ->
  r' ∈ r :: rows -> row_key r <= row_key r'.
Proof.
  intros Hw Hl Hu Hr'. destruct (world_rows bs pm w G sid t Hw Hl) as (o & g & n & _ & _ & Hs & _ & _ & E2 & _). rewrite Hu in E2.
  apply list_elem_of_lookup in Hr' as [[|j] Hj]; cbn in Hj; [by injection Hj as ->|].
  assert (R0 : (r :: rows) !! 0%nat = Some r) by done. assert (R1 : (r :: rows) !! S j = Some r') by done. rewrite E2, lookup_drop in R0, R1.
  apply Z.lt_le_incl. unfold sorted in Hs. apply (Hs (n + 0)%nat (n + S j)%nat); [lia|by rewrite list_lookup_fmap, R0|by rewrite list_lookup_fmap, R1].
Qed.

Lemma due_rows_in bs pm w G sid t skey ekey r : winv bs pm w G -> table_linked w sid t -> r ∈ due_rows w skey ekey (Z.of_nat sid) ->
  skey <= row_key r <= ekey /\ r ∈ uncommitted w (Z.of_nat sid).
Proof.
  intros Hw Hl. unfold due_rows. destruct (uncommitted w (Z.of_nat sid)) as [|r0 rows] eqn:Hu; [by intros ?%elem_of_nil|].
  destruct (Z.ltb_spec (row_key r0) skey) as [Hlt|Hge]; [by intros ?%elem_of_nil|]. intros Hr. apply list_elem_of_filter in Hr as [Hle Hr].
  pose proof (first_oldest bs pm w G sid t r0 rows r Hw Hl Hu Hr). split; [lia|done].
Qed.

(** ** What a commit makes of the cache *)
Lemma read_out_others m skey ekey q w m2 : m2 <> m -> w_pend (read_out m skey ekey q w) !! m2 = w_pend w !! m2 /\
  rows_at (w_file (read_out m skey ekey q w)) m2 = rows_at (w_file w) m2 /\ uncommitted (read_out m skey ekey q w) m2 = uncommitted w m2 /\
  due_rows (read_out m skey ekey q w) skey ekey m2 = due_rows w skey ekey m2.
Proof.
  intros Hne. assert (E : rows_at (w_file (read_out m skey ekey q w)) m2 = rows_at (w_file w) m2) by (unfold rows_at; cbn; by rewrite lookup_insert_ne).
  assert (Eu : uncommitted (read_out m skey ekey q w) m2 = uncommitted w m2) by (unfold uncommitted; by rewrite E).
  split; [cbn; destruct q; [by rewrite lookup_insert_ne|done]|]. split; [done|]. split; [done|]. unfold due_rows. by rewrite Eu.
Qed.

Lemma read_outs_ok bs pm G skey ekey tabs : forall sid qs w, winv bs pm w G ->
  (forall i t, tabs !! i = Some (Some t) -> table_linked w (sid + i) t /\ w_pend w !! Z.of_nat (sid + i) = None /\
     exists q, qs !! i = Some q /\ told w G skey ekey (sid + i) t q) ->
  let w' := read_outs skey ekey sid tabs qs w in
  winv bs pm w' G /\ w_cache w' = w_cache w /\ w_in w' = w_in w /\ (forall m, m < Z.of_nat sid -> rows_at (w_file w') m = rows_at (w_file w) m) /\
  forall i t, tabs !! i = Some (Some t) ->
    rows_at (w_file w') (Z.of_nat (sid + i)) = rows_at (w_file w) (Z.of_nat (sid + i)) ++ due_rows w skey ekey (Z.of_nat (sid + i)).
Proof using Type.
  induction tabs as [|x tabs IH]; intros sid qs w Hw Ht w'; [by do 4 (split; [done|])|]. destruct qs as [|q qs].
  { assert (E : w' = w) by (by destruct x). rewrite E. repeat (split; [done|]). intros i t Hi. by destruct (Ht i t Hi) as (_ & _ & ? & ? & _). }
  destruct x as [t0|]; cbn [read_outs] in w'.
  - destruct (Ht 0%nat t0 eq_refl) as (Hl & Hidle & q' & Hq' & Htold). rewrite Nat.add_0_r in *. cbn in Hq'. injection Hq' as <-.
    pose proof (read_out_ok bs pm w G skey ekey sid t0 q Hw Hl Hidle Htold) as Hw1. set (w1 := read_out _ _ _ _ _) in *.
    assert (Hout : forall i, (sid < i)%nat -> w_pend w1 !! Z.of_nat i = w_pend w !! Z.of_nat i /\
      rows_at (w_file w1) (Z.of_nat i) = rows_at (w_file w) (Z.of_nat i) /\ due_rows w1 skey ekey (Z.of_nat i) = due_rows w skey ekey (Z.of_nat i)).
    { intros i Hi. destruct (read_out_others (Z.of_nat sid) skey ekey q w (Z.of_nat i)) as (? & ? & _ & ?); [lia|done]. }
    destruct (IH (S sid) qs w1 Hw1) as (K1 & K2 & K3 & K4 & K5).
    { intros i t Hi. destruct (Ht (S i) t Hi) as (Hl' & Hi' & q2 & Hq2 & Hto2). rewrite Nat.add_succ_r in *. cbn [Nat.add]. destruct (Hout (S (sid + i)) ltac:(lia)) as (Hp & _ & Hd).
      split; [by destruct Hl'|]. split; [by rewrite Hp|]. exists q2. split; [done|]. unfold told in *. rewrite Hd. exact Hto2. }
    split; [exact K1|]. split; [exact K2|]. split; [exact K3|]. split.
    + intros m Hm. unfold w'. rewrite (K4 m) by lia. by apply read_out_others; lia.
    + intros [|i] t Hi.
      * rewrite Nat.add_0_r. unfold w'. rewrite (K4 (Z.of_nat sid)) by lia. unfold rows_at at 1. cbn. by rewrite lookup_insert_eq.
      * rewrite Nat.add_succ_r. unfold w'. change (S (sid + i)) with (S sid + i)%nat. rewrite (K5 i t Hi). by destruct (Hout (S sid + i)%nat ltac:(lia)) as (_ & -> & ->).
  - destruct (IH (S sid) qs w Hw) as (K1 & K2 & K3 & K4 & K5).
    { intros i t Hi. rewrite Nat.add_succ_comm. by apply (Ht (S i)). }
    split; [done|]. split; [done|]. split; [done|]. split; [intros m Hm; apply K4; lia|]. intros [|i] t Hi; [done|]. rewrite <- Nat.add_succ_comm. by apply (K5 i t).
Qed.

Lemma read_outs_pend skey ekey tabs m : forall sid qs w, w_pend (read_outs skey ekey sid tabs qs w) !! m <> None ->
  w_pend w !! m <> None \/ exists i, (i < length tabs)%nat /\ m = Z.of_nat (sid + i).
Proof using Type.
  induction tabs as [|x tabs IH]; intros sid qs w Hm; [by left|]. destruct qs as [|q qs]; [left; by destruct x|].
  assert (Hnext : forall w', w_pend w' !! m <> None \/ (exists i, (i < length tabs)%nat /\ m = Z.of_nat (S sid + i)) ->
    (w_pend w' !! m <> None -> w_pend w !! m <> None \/ m = Z.of_nat sid) -> w_pend w !! m <> None \/ exists i, (i < length (x :: tabs))%nat /\ m = Z.of_nat (sid + i)).
  { intros w' [Hp|(i & Hi & ->)] Hw; [destruct (Hw Hp) as [?| ->]; [by left|right; exists 0%nat; cbn; split; [lia|f_equal; lia]]|].
    right. exists (S i). cbn. split; [lia|f_equal; lia]. }
  destruct x as [t|]; cbn [read_outs] in Hm; apply IH in Hm; apply (Hnext _ Hm); [|by left].
  intros Hp. destruct (decide (m = Z.of_nat sid)) as [->|Hne]; [by right|left]. unfold read_out in Hp. cbn in Hp. destruct q; [by rewrite lookup_insert_ne in Hp|done].
Qed.

(** The rows that are left are newer, or the table is late. *)
Lemma left_rows bs pm w w' G sid t skey ekey r : winv bs pm w G -> winv bs pm w' G -> table_linked w sid t -> table_linked w' sid t -> w_in w' = w_in w ->
  rows_at (w_file w') (Z.of_nat sid) = rows_at (w_file w) (Z.of_nat sid) ++ due_rows w skey ekey (Z.of_nat sid) ->
  r ∈ uncommitted w' (Z.of_nat sid) -> r ∈ uncommitted w (Z.of_nat sid) /\
    (ekey < row_key r \/ exists r0 rows, uncommitted w (Z.of_nat sid) = r0 :: rows /\ row_key r0 < skey /\ row_key r0 <= row_key r).
Proof using Type.
  intros Hw Hw' Hl Hl' Ei Ef Hr. destruct (world_rows bs pm w G sid t Hw Hl) as (_ & _ & _ & _ & _ & _ & _ & _ & _ & E).
  destruct (world_rows bs pm w' G sid t Hw' Hl') as (_ & _ & _ & _ & _ & _ & _ & _ & _ & E'). rewrite Ei, Ef, <- E, <- app_assoc in E'. apply app_inv_head in E'.
  set (U' := uncommitted w' (Z.of_nat sid)) in *. unfold due_rows in E'. destruct (uncommitted w (Z.of_nat sid)) as [|r0 rows] eqn:Hu.
  { apply app_eq_nil in E' as [_ E']. rewrite E' in Hr. by apply elem_of_nil in Hr. }
  destruct (Z.ltb_spec (row_key r0) skey) as [Hlt|Hge].
  - cbn [app] in E'. rewrite E' in Hr. split; [done|]. right. exists r0, rows. split; [done|]. split; [done|]. by eapply (first_oldest bs pm w G sid t r0 rows).
  - set (P := fun r => row_key r <= ekey) in *. assert (En : filter P U' = []).
    { pose proof (f_equal (filter P) E') as E2. rewrite filter_app in E2. apply (app_inv_head (filter P (filter P (r0 :: rows)))).
      rewrite E2, app_nil_r. symmetry. apply filter_id. apply Forall_forall. intros x Hx. by apply list_elem_of_filter in Hx as [? _]. }
    split; [rewrite <- E'; apply elem_of_app; by right|]. left. destruct (Z.lt_ge_cases ekey (row_key r)) as [|Hle]; [done|].
    assert (Hin : r ∈ filter P U') by (apply list_elem_of_filter; by split). rewrite En in Hin. by apply elem_of_nil in Hin.
Qed.

Lemma vnode_ok_kept tabs tabs' v contents nb : Forall2 kept_table tabs tabs' -> files_have tabs v contents nb -> files_have tabs' v contents nb.
Proof using Type.
  intros Hk [(ents & Hh & L1 & L2 & Hall & Hn) Hd Hl]. constructor; [|done|done]. pose proof (Forall2_length _ _ _ Hk) as Hlen.
  exists ents. split; [done|]. split; [congruence|]. split; [congruence|]. split; [|done]. intros sid x' y rows Hx' Hy Hr.
  destruct (Forall2_lookup_r _ _ _ _ _ Hk Hx') as (x & Hx & Hkt). specialize (Hall sid x y rows Hx Hy Hr). destruct x as [t|], x' as [t'|]; try done.
  destruct Hkt as (Eo & Ed & _). unfold table_in in *. by rewrite Eo, Ed.
Qed.
Lemma vnode_ok_more tabs v contents nb nb' : files_have tabs v contents nb -> nb <= nb' -> files_have tabs v contents nb'.
Proof using Type.
  intros [(ents & Hh & L1 & L2 & Hall & Hn) Hd Hl] Hle. constructor; [|done|done]. exists ents. split; [done|]. split; [done|]. split; [done|]. split; [done|lia].
Qed.

Lemma kept_back (tabs tabs' : list (option STable)) sid t' : Forall2 kept_table tabs tabs' -> tabs' !! sid = Some (Some t') ->
  exists t, tabs !! sid = Some (Some t) /\ t_obj t' = t_obj t /\ t_deleting t' = t_deleting t /\ t_cached t' = t_cached t.
Proof using Type.
  intros Hk Ht. destruct (Forall2_lookup_r _ _ _ _ _ Hk Ht) as (x & Hx & Hkt). destruct x as [t|]; [|done]. exists t. split; [done|]. by destruct Hkt as (? & ? & ?).
Qed.
Lemma tabs_now_kept w tabs : Forall2 kept_table tabs (tabs_now w tabs).
Proof using Type.
  apply Forall2_same_length_lookup_2; [unfold tabs_now; by rewrite length_imap|]. intros i x y Hx Hy. unfold tabs_now in Hy. rewrite list_lookup_imap, Hx in Hy. cbn in Hy. injection Hy as <-.
  destruct x as [t|]; [|done]. by destruct (meters (w_cache w) !! Z.of_nat i).
Qed.
Lemma kept_refl (tabs : list (option STable)) : Forall2 kept_table tabs tabs.
Proof using Type. induction tabs as [|x tabs IH]; constructor; [|done]. by destruct x. Qed.
Lemma kept_trans tabs1 tabs2 tabs3 : Forall2 kept_table tabs1 tabs2 -> Forall2 kept_table tabs2 tabs3 -> Forall2 kept_table tabs1 tabs3.
Proof using Type.
  intros H12. revert tabs3. induction H12 as [|x y l1 l2 Hxy H12 IH]; intros tabs3 H23; inversion H23 as [|? z ? l3 Hyz H23']; subst; constructor; [|by apply IH].
  destruct x, y, z; try done. destruct Hxy as (? & ? & ?), Hyz as (? & ? & ?). cbn. repeat split; congruence.
Qed.
Lemma linked_kept w sid t t' : table_linked w sid t -> t_obj t' = t_obj t -> t_cached t' = t_cached t -> table_linked w sid t'.
Proof using Type. intros [Hc Hm] Eo Ec. constructor; [by rewrite Ec|]. by rewrite Eo. Qed.
Lemma values_kept t t' rows : t_obj t' = t_obj t -> values_of t' rows = values_of t rows.
Proof using Type. intros E. unfold values_of. by rewrite E. Qed.

(** ** Batches and marks keep the invariant *)
Lemma seen_lower k p firstKey lastKey key : firstKey <= k_firstKey k -> seen k p key -> seen (with_rows firstKey lastKey k) p key.
Proof using Type. intros Hle [Hf|Hp]; [left; cbn; lia|right]. by destruct p. Qed.

Lemma world_step bs pm s w' firstKey lastKey' : vinv bs pm s -> (exists G, winv bs pm w' G) -> mem_ok (w_cache w') ->
  match n_phase s with Marking _ => True | _ => w_pend w' = ∅ end ->
  (forall m o', meters (w_cache w') !! m = Some o' -> 0 <= lastKey o' < keyMax) -> same_shapes (n_world s) w' ->
  (forall m, rows_at (w_file w') m = rows_at (w_file (n_world s)) m) -> 0 <= firstKey <= k_firstKey (n_keys s) -> k_lastKey (n_keys s) <= lastKey' < keyMax ->
  (forall sid t r, n_tabs s !! sid = Some (Some t) -> r ∈ uncommitted w' (Z.of_nat sid) -> r ∈ uncommitted (n_world s) (Z.of_nat sid) \/ firstKey <= row_key r) ->
  (forall sid t r, n_tabs s !! sid = Some (Some t) -> r ∈ rows_at (w_in w') (Z.of_nat sid) -> 0 < row_key r <= lastKey') ->
  vinv bs pm (set_commit (with_rows firstKey lastKey' (n_keys s)) (n_phase s) (set_world w' s)).
Proof using Type.
  intros [HG Hmem Hpend Hmet Htabs [Hkf [Hr1 Hr2] Hkp] Hfiles Hwritten Hseen Hhigh] HG' Hmem' Hpend' Hmet' Hsh Hfile Hfk Hlk Hunc Hin.
  constructor; cbn [n_world n_tabs n_files n_gone n_keys n_phase set_commit set_world]; try done.
  - intros sid t Ht. destruct (Htabs sid t Ht) as (? & ? & Hl). split; [done|]. split; [done|]. by eapply linked_same.
  - constructor; cbn [n_world n_tabs n_files n_gone n_keys n_phase set_commit set_world].
    + destruct Hkf as [?|[[] ?]]; [by left|right]. split; [by constructor|done].
    + cbn. lia.
    + destruct (n_phase s) as [| |again]; [done|done|]. intros Ha. specialize (Hkp Ha). cbn. lia.
  - intros f x Hx. destruct (Hfiles f x Hx) as (contents & Hv & Hc). exists contents. split; [done|]. intros sid t Ht. rewrite Hfile. by apply Hc.
  - intros sid t r Ht Hr. rewrite Hfile in Hr. by apply (Hwritten sid t r).
  - intros sid t r Ht Hr. destruct (Hunc sid t r Ht Hr) as [Hu|Hge]; [|by left]. apply seen_lower; [lia|]. by apply (Hseen sid t r).
Qed.

Lemma same_keys k : with_rows (k_firstKey k) (k_lastKey k) k = k.
Proof using Type. by destruct k. Qed.

Lemma accepts_newer rows : forall lk r, r ∈ accepts lk rows -> lk < row_key r /\ r ∈ rows.
Proof using Type.
  induction rows as [|r0 rows IH]; intros lk r Hr; [by apply elem_of_nil in Hr|]. cbn [accepts] in Hr. destruct (Z.leb_spec (row_key r0) lk).
  - apply IH in Hr as [? ?]. split; [done|by right].
  - apply elem_of_cons in Hr as [->|Hr]; [split; [lia|by left]|]. apply IH in Hr as [? ?]. split; [lia|by right].
Qed.
Lemma accepts_first lk r0 rows r : r ∈ accepts lk (r0 :: rows) -> row_key r0 <= row_key r.
Proof using Type.
  cbn [accepts]. destruct (Z.leb_spec (row_key r0) lk); intros Hr.
  - apply accepts_newer in Hr as [? _]. lia.
  - apply elem_of_cons in Hr as [->|Hr]; [lia|]. apply accepts_newer in Hr as [? _]. lia.
Qed.

Lemma insert_shape m del ts rows w w' o : step (Insert m del ts msPerDay rows) w = Ret w' -> meters (w_cache w) !! m = Some o ->
  exists n, w_pend w' = w_pend w /\ w_file w' = w_file w /\ w_in w' = <[m := rows_at (w_in w) m ++ take n (accepts (lastKey o) rows)]> (w_in w) /\
    (put_refused m (Z.of_nat (length rows)) (w_cache w) = Ret true -> n = 0%nat).
Proof using Type.
  intros Hst Ho. cbn [step] in Hst. rewrite Ho in Hst. apply rbind_Ret_inv in Hst as ([[code points] c'] & Hins & Hst). injection Hst as <-.
  exists (Z.to_nat points). do 3 (split; [done|]). intros Href. unfold put_refused, meter in Href. rewrite Ho in Href. cbn [rbind] in Href. injection Href as Href.
  unfold insert_points, meter in Hins. rewrite Ho in Hins. cbn [rbind] in Hins. destruct (_ <=? Z.of_nat (length rows)); [by injection Hins as _ <- _|].
  cbn [orb] in Href. rewrite <- orb_assoc in Hins. rewrite <- orb_assoc in Href. rewrite Href in Hins. by injection Hins as _ <- _.
Qed.

Lemma accepted_split bs pm s sid t : vinv bs pm s -> n_tabs s !! sid = Some (Some t) ->
  rows_at (w_in (n_world s)) (Z.of_nat sid) = rows_at (w_file (n_world s)) (Z.of_nat sid) ++ uncommitted (n_world s) (Z.of_nat sid).
Proof using Type.
  intros Hs Ht. destruct (vi_world _ _ _ Hs) as [G Hw]. destruct (vi_tables _ _ _ Hs sid t Ht) as (_ & _ & Hl).
  by destruct (world_rows bs pm (n_world s) G sid t Hw Hl) as (_ & _ & _ & _ & _ & _ & _ & _ & _ & E).
Qed.
Lemma uncommitted_high bs pm s sid t r : vinv bs pm s -> n_tabs s !! sid = Some (Some t) -> r ∈ uncommitted (n_world s) (Z.of_nat sid) -> 0 < row_key r <= k_lastKey (n_keys s).
Proof using Type. intros Hs Ht Hr. apply (vi_high _ _ _ Hs sid t r Ht). rewrite (accepted_split bs pm s sid t Hs Ht). apply elem_of_app. by right. Qed.

(** What a batch adds to a table. *)
Lemma insert_grows bs pm s m del ts rows w' o : vinv bs pm s -> step (Insert m del ts msPerDay rows) (n_world s) = Ret w' -> meters (w_cache (n_world s)) !! m = Some o ->
  exists n, w_pend w' = w_pend (n_world s) /\ (forall k, rows_at (w_file w') k = rows_at (w_file (n_world s)) k) /\
    (put_refused m (Z.of_nat (length rows)) (w_cache (n_world s)) = Ret true -> n = 0%nat) /\
    (forall sid t r, n_tabs s !! sid = Some (Some t) -> r ∈ uncommitted w' (Z.of_nat sid) -> r ∈ uncommitted (n_world s) (Z.of_nat sid) \/ r ∈ take n (accepts (lastKey o) rows)) /\
    forall sid r, r ∈ rows_at (w_in w') sid -> r ∈ rows_at (w_in (n_world s)) sid \/ sid = m /\ r ∈ take n (accepts (lastKey o) rows).
Proof using Type.
  intros Hs Hst Ho. destruct (insert_shape _ _ _ _ _ _ _ Hst Ho) as (n & E1 & E2 & E3 & E4). exists n. split; [done|]. split; [intros k; by rewrite E2|]. split; [done|].
  assert (Hrows : forall sid, rows_at (w_in w') sid = rows_at (w_in (n_world s)) sid ++ (if decide (sid = m) then take n (accepts (lastKey o) rows) else [])).
  { intros sid. unfold rows_at. rewrite E3. destruct (decide (sid = m)) as [->|Hne]; [by rewrite lookup_insert_eq|]. by rewrite lookup_insert_ne, app_nil_r. }
  split.
  - intros sid t r Ht Hr. destruct (vi_world _ _ _ Hs) as [G Hw]. destruct (vi_tables _ _ _ Hs sid t Ht) as (_ & _ & Hl).
    destruct (world_rows bs pm (n_world s) G sid t Hw Hl) as (_ & _ & _ & _ & _ & _ & _ & _ & _ & E). unfold uncommitted in Hr at 1. rewrite Hrows in Hr.
    assert (Ef : rows_at (w_file w') (Z.of_nat sid) = rows_at (w_file (n_world s)) (Z.of_nat sid)) by (by rewrite E2). rewrite Ef in Hr.
    rewrite <- E, <- app_assoc, drop_app_length in Hr. apply elem_of_app in Hr as [Hr|Hr]; [by left|right]. destruct (decide _); [done|by apply elem_of_nil in Hr].
  - intros sid r Hr. rewrite Hrows in Hr. apply elem_of_app in Hr as [Hr|Hr]; [by left|right]. destruct (decide (sid = m)); [done|by apply elem_of_nil in Hr].
Qed.

Lemma put_rows_step bs pm s m del tsKey rows : vinv bs pm s -> vop_ok (Put m del tsKey rows) s ->
  exists s', put_rows m del tsKey rows s = Ret s' /\ vinv bs pm s'.
Proof using Type.
  unfold Vnode.vop_ok, Vnode.put_rows. destruct (stamp tsKey rows) as [now l]. intros Hs (Hne & Hok & Hb & Hkeys).
  destruct (meters (w_cache (n_world s)) !! m) as [o|] eqn:Ho; [|by exists s]. destruct (vi_world _ _ _ Hs) as [G Hw].
  destruct (insert_step bs pm (n_world s) G Hw m del now msPerDay l Hok) as (w' & G' & Hst & Hsh & Hkf & Hw').
  destruct (insert_grows bs pm s m del now l w' o Hs Hst Ho) as (n & Ep & Ef & Hn & Hunc & Hin).
  pose proof (insert_step_mem m del now msPerDay l _ w' Hst Hb (vi_mem _ _ _ Hs)) as Hmem'. pose proof (ki_range _ (vi_keys _ _ _ Hs)) as [Hr1 Hr2].
  assert (Hpend' : match n_phase s with Marking _ => True | _ => w_pend w' = ∅ end) by (rewrite Ep; exact (vi_pend _ _ _ Hs)).
  assert (Hmet' : forall m0 o', meters (w_cache w') !! m0 = Some o' -> 0 <= lastKey o' < keyMax).
  { intros m0 o' Ho'. destruct (Hkf m0 o' Ho') as (o0 & Ho0 & [->|(r & Hr & ->)]); [by apply (vi_meters _ _ _ Hs m0)|].
    rewrite Forall_forall in Hkeys. specialize (Hkeys r Hr). lia. }
  assert (Href : exists refused, put_refused m (Z.of_nat (length l)) (w_cache (n_world s)) = Ret refused) by (unfold put_refused, meter; rewrite Ho; by eexists).
  destruct Href as [refused Href]. rewrite Href. cbn [rbind]. destruct refused.
  - rewrite Hst. cbn [rbind]. eexists. split; [reflexivity|].
    pose proof (world_step bs pm s w' (k_firstKey (n_keys s)) (k_lastKey (n_keys s)) Hs) as Hf. rewrite same_keys in Hf. apply Hf; try done; [by exists G'|lia|lia| |].
    + intros sid t r Ht Hr. left. destruct (Hunc sid t r Ht Hr) as [|Hr2']; [done|]. rewrite (Hn Href), take_0 in Hr2'. by apply elem_of_nil in Hr2'.
    + intros sid t r Ht Hr. destruct (Hin _ r Hr) as [Hold|[_ Hr2']]; [by apply (vi_high _ _ _ Hs sid t)|]. rewrite (Hn Href), take_0 in Hr2'. by apply elem_of_nil in Hr2'.
  - destruct l as [|r0 l]; [done|]. destruct (last (r0 :: l)) as [rl|] eqn:El; [|by apply last_None in El]. destruct (out_of_window _ _ _ _ _ _); [by exists s|].
    rewrite Hst. cbn [rbind]. unfold meter. destruct (meters (w_cache w') !! m) as [o'|] eqn:Ho'; [|specialize (Hsh m); by rewrite Ho, Ho' in Hsh].
    cbn [rbind]. eexists. split; [reflexivity|]. pose proof Hkeys as Hk0. apply Forall_cons in Hk0 as [Hk0 _]. specialize (Hmet' m o' Ho') as Hlo.
    apply world_step; try done; [by exists G'|by destruct (Z.ltb_spec (row_key r0) (k_firstKey (n_keys s))); lia|by destruct (Z.ltb_spec (k_lastKey (n_keys s)) (lastKey o')); lia| |].
    + intros sid t r Ht Hr. destruct (Hunc sid t r Ht Hr) as [|Hr2']; [by left|right]. apply elem_of_take in Hr2' as (j & Hj & _). apply list_elem_of_lookup_2, accepts_first in Hj.
      destruct (Z.ltb_spec (row_key r0) (k_firstKey (n_keys s))); lia.
    + intros sid t r Ht Hr. destruct (Hin _ r Hr) as [Hold|[Em Hr2']].
      * pose proof (vi_high _ _ _ Hs sid t r Ht Hold). destruct (Z.ltb_spec (k_lastKey (n_keys s)) (lastKey o')); lia.
      * apply elem_of_take in Hr2' as (j & Hj & _). apply list_elem_of_lookup_2, accepts_newer in Hj as [_ Hj]. rewrite Forall_forall in Hkeys. specialize (Hkeys r Hj). split; [lia|].
        destruct (vi_tables _ _ _ Hs sid t Ht) as (_ & _ & Hl). destruct (world_rows bs pm w' G' sid t Hw' (linked_same _ _ _ _ Hsh Hl)) as (o2 & g & _ & Ho2 & Ei & _ & Hnew & _).
        assert (o2 = o') as -> by congruence. unfold rows_at in Hr. rewrite Ei in Hr. cbn in Hr. unfold newest in Hnew. rewrite Forall_forall in Hnew. specialize (Hnew r Hr).
        destruct (Z.ltb_spec (k_lastKey (n_keys s)) (lastKey o')); lia.
Qed.

Lemma mark_step bs pm s m cnt : vinv bs pm s -> exists w', step (Over m cnt) (n_world s) = Ret w' /\ w_in w' = w_in (n_world s) /\ w_file w' = w_file (n_world s) /\
  ((exists again, n_phase s = Marking again) -> vinv bs pm (set_world w' s)).
Proof using Type.
  intros Hs. destruct (vi_world _ _ _ Hs) as [G Hw]. destruct (over_step bs pm (n_world s) G Hw m cnt) as (w' & G' & Hst & Hsh & Hkf & Hw').
  pose proof (ki_range _ (vi_keys _ _ _ Hs)) as [Hr1 Hr2]. exists w'. split; [done|].
  assert (E : w_in w' = w_in (n_world s) /\ w_file w' = w_file (n_world s)).
  { cbn [step] in Hst. destruct (w_pend _ !! m) as [[? ?]|]; [|by injection Hst as <-]. apply rbind_Ret_inv in Hst as (c' & _ & Hst). by injection Hst as <-. }
  destruct E as [Ei Ef]. split; [done|]. split; [done|]. intros [again Hph].
  pose proof (world_step bs pm s w' (k_firstKey (n_keys s)) (k_lastKey (n_keys s)) Hs) as Hf. rewrite same_keys in Hf. apply Hf; try done; [by exists G'| |by rewrite Hph| | |lia|lia| |].
  - by eapply over_step_mem; [|apply (vi_mem _ _ _ Hs)].
  - intros m0 o' Ho'. destruct (Hkf m0 o' Ho') as (o0 & Ho0 & [->|(r & Hr & _)]); [by apply (vi_meters _ _ _ Hs m0)|by apply elem_of_nil in Hr].
  - intros k. by rewrite Ef.
  - intros sid t r Ht Hr. left. unfold uncommitted in *. by rewrite Ei, Ef in Hr.
  - intros sid t r Ht Hr. rewrite Ei in Hr. by apply (vi_high _ _ _ Hs sid t).
Qed.

Context (Hfh : length file_header = 512%nat) (Hcomp : 0 <= compression <= 2).

(** The commit of one file: the rows that are due are behind those it had. *)
Lemma commit_out bs pm w G skey ekey tabs v contents nb firstKey : winv bs pm w G -> mem_ok (w_cache w) -> w_pend w = ∅ ->
  (forall sid t, tabs !! sid = Some (Some t) -> table_linked w sid t) -> files_have tabs v contents nb ->
  (forall sid t r rows, tabs !! sid = Some (Some t) -> uncommitted w (Z.of_nat sid) = r :: rows -> row_key r < skey -> contents !! sid = Some []) ->
  (forall sid t r, tabs !! sid = Some (Some t) -> r ∈ uncommitted w (Z.of_nat sid) -> 0 <= row_key r) ->
  (forall sid t, tabs !! sid = Some (Some t) -> commit_ready compression dmem cmem fuel w skey ekey sid t) ->
  let new := imap (next_rows w skey ekey) tabs in
  let n := total_need tabs new in
  512 + header_size (length tabs) + 28 * Z.of_nat (length tabs) + 56 * (nb + n) < 2 ^ 31 -> 56 * n <= hmsize ->
  Z.of_nat (length (v_data v)) + 2 ^ 31 * n < 2 ^ 61 -> Z.of_nat (length (v_last v)) + 2 ^ 31 * n < 2 ^ 61 ->
  exists v' tabs' qs firstKey' storage',
    commit_cache (crc32c := crc32c) (heap := heap) compression hmsize dmem cmem fuel (w_cache w) skey ekey file_header 0 (length tabs - 1) tabs firstKey 0 v =
      Ret (Some (v', tabs', qs, firstKey', storage')) /\
    files_have tabs' v' (zip_with app contents new) (nb + n) /\ Forall2 kept_table tabs tabs' /\ (firstKey' <= firstKey /\ (0 <= firstKey -> 0 <= firstKey')) /\
    let w' := read_outs skey ekey 0 tabs qs w in
    winv bs pm w' G /\ w_cache w' = w_cache w /\ w_in w' = w_in w /\
    forall sid t, tabs !! sid = Some (Some t) -> rows_at (w_file w') (Z.of_nat sid) = rows_at (w_file w) (Z.of_nat sid) ++ due_rows w skey ekey (Z.of_nat sid).
Proof using Hfh Hcomp H0 H3.
  intros Hw Hmem Hidle Htabs Hfiles Hlate Hpos Hready new n Hhead Hhm Hvd Hvl.
  set (reader := cache_reader (w_cache w) skey ekey). set (laws := reader_laws bs (w_cache w) G skey ekey (wi_inv _ _ _ _ Hw) Hmem).
  pose proof Hfiles as [(ents & _ & Hle & Hlc & Htab & _) _ _].
  assert (Hto : forall sid t, tabs !! sid = Some (Some t) -> touched 0 (length tabs - 1) sid t = true).
  { intros sid t Ht. pose proof (lookup_lt_Some _ _ _ Ht). unfold touched. rewrite (tl_cached _ _ _ (Htabs sid t Ht)), !(proj2 (Nat.leb_le _ _)) by lia. done. }
  destruct (@commit_vnode SQuery reader laws _ _ _ _ _ crc32c heap _ compression hmsize ekey dmem cmem fuel Hcomp file_header 0%nat (length tabs - 1)%nat tabs v
    contents new nb 0 firstKey Hfh Hfiles) as (v' & tabs' & qs & fk & st & Hc & Hv' & Hkept & Hfk & Hqs); try done.
  { unfold new. by rewrite length_imap. }
  { intros sid x old y Hx Hold Hn. unfold new in Hn. rewrite list_lookup_imap, Hx in Hn. injection Hn as <-. pose proof (lookup_lt_Some _ _ _ Hx) as Hlt.
    destruct x as [t|]; [|done]. cbn [can_commit]. rewrite (Hto sid t Hx). destruct (lookup_lt_is_Some_2 ents sid) as [y Hy]; [lia|].
    apply linked_commit; [|by apply Htabs|by rewrite Hidle, lookup_empty|by apply Hready| |intros r; by apply (Hpos sid t)].
    - by destruct (Htab sid (Some t) y old Hx Hy Hold).
    - intros r rows Hu Hlt2. specialize (Hlate sid t r rows Hx Hu Hlt2). congruence. }
  exists v', tabs', qs, fk, st. split; [exact Hc|]. split; [exact Hv'|]. split; [exact Hkept|]. split; [exact Hfk|].
  destruct (read_outs_ok bs pm G skey ekey tabs 0 qs w Hw) as (Hw' & Ec & Ei & _ & Hrows).
  { intros sid t Ht. cbn [Nat.add]. pose proof (Htabs sid t Ht) as Hl.
    destruct (Hqs sid t (next_rows w skey ekey sid (Some t)) Ht) as (q & Hr & Hp & Hq).
    { unfold new. by rewrite list_lookup_imap, Ht. } { by apply Hto. }
    split; [done|]. split; [by rewrite Hidle, lookup_empty|]. eexists. split; [exact Hq|]. apply (ready_told bs pm w G Hw Hmem skey ekey sid t q); [done|by rewrite Hidle, lookup_empty|done|exact Hp]. }
  split; [exact Hw'|]. split; [exact Ec|]. split; [exact Ei|exact Hrows].
Qed.

(** ** Opening the files of a commit *)
Lemma create_files_ok tabs v0 ids : vnodeCreateEmptyCompFile crc32c heap file_header tabs = Ret v0 -> forall files, NoDup ids ->
  (forall f, f ∈ ids -> files !! f = None) ->
  exists files', create_files tabs ids files = Ret (Some files') /\ forall f, files' !! f = if decide (f ∈ ids) then Some (mkFile v0 0) else files !! f.
Proof using Type.
  intros Hv. induction ids as [|id ids IH]; intros files Hnd Hno; [by exists files|]. apply NoDup_cons in Hnd as [Hid Hnd].
  cbn [Vnode.create_files]. unfold Vnode.create_file. rewrite (Hno id) by (by left). rewrite Hv. cbn [rbind].
  destruct (IH (<[id := mkFile v0 0]> files) Hnd) as (files' & -> & Hf).
  { intros f Hf. rewrite lookup_insert_ne by congruence. apply Hno. by right. }
  exists files'. split; [done|]. intros f. rewrite Hf. destruct (decide (f ∈ ids)) as [Hin|Hnin]; [by rewrite decide_True by (by right)|].
  destruct (decide (f = id)) as [->|Hne]; [by rewrite lookup_insert_eq, decide_True by (by left)|]. rewrite lookup_insert_ne by done.
  rewrite decide_False; [done|]. by intros [?|?]%elem_of_cons.
Qed.

Lemma open_ok bs pm s : vinv bs pm s -> n_phase s = Choose ->
  let k1 := (first_file daysPerFile msPerDay (n_keys s)).1 in
  let k := (choose_file daysPerFile msPerDay k1).1 in
  exists files v0, open_files (length (n_tabs s)) (n_keys s) (n_files s) = Ret (k, Some files) /\
    keys_ok daysPerFile msPerDay keyMax k /\ (forall f, is_Some (files !! f) <-> has_file k f) /\
    k_firstKey k = k_firstKey (n_keys s) /\ k_lastKey k = k_lastKey (n_keys s) /\ k_commitFirstKey k <= k_commitFirstKey (n_keys s) /\
    k_commitFirstKey k = start_of daysPerFile msPerDay k1 /\ k_commitFirstKey k = k_commitFileId k * spn /\ k_commitLastKey k = k_commitFirstKey k + spn - 1 /\
    has_file k (k_commitFileId k) /\ files_have (n_tabs s) v0 (replicate (length (n_tabs s)) []) 0 /\ v_data v0 = file_header /\ v_last v0 = file_header /\
    (forall f x, n_files s !! f = Some x -> files !! f = Some x) /\ forall f x, files !! f = Some x -> n_files s !! f = Some x \/ n_files s !! f = None /\ x = mkFile v0 0.
Proof using Hfh Hdays Hms Hspan Hmax Hmax2 H0.
  intros Hs Hph k1 k. pose proof (vi_keys _ _ _ Hs) as [Hfiles [Hfk Hlk] Hp]. rewrite Hph in Hp.
  destruct (created_vnode (crc32c := crc32c) (heap := heap) compression file_header (n_tabs s) Hfh) as (v0 & Hv0 & Hok0 & Hd0 & Hl0).
  { intros sid t Ht. by destruct (vi_tables _ _ _ Hs sid t Ht) as (? & ? & _). }
  destruct (first_file_ok daysPerFile msPerDay keyMax Hdays Hms Hspan Hmax Hmax2 (n_keys s) Hfk) as (k1' & first & E1 & Hk1 & F1 & F2 & F3 & Hcase).
  { destruct Hfiles as [[? _]|[? _]]; [by left|by right]. }
  assert (E1' : k1 = k1') by (unfold k1; by rewrite E1). rewrite <- E1' in *.
  destruct (choose_file_ok daysPerFile msPerDay keyMax Hdays Hms Hspan Hmax Hmax2 k1 Hk1) as (k' & made & E2 & Hk2 & C1 & C2 & C3 & C4 & C5 & C6 & C7 & C8 & C9 & C10).
  { by rewrite F3. }
  assert (E2' : k = k') by (unfold k; by rewrite E2). rewrite <- E2' in *.
  assert (Hf1 : exists files1, match first with Some id => let! r := create_file (length (n_tabs s)) id (n_files s) in Ret (default (n_files s) r) | None => Ret (n_files s) end = Ret files1 /\
    (forall f, is_Some (files1 !! f) <-> has_file k1 f) /\ (forall f x, n_files s !! f = Some x -> files1 !! f = Some x) /\ forall f x, files1 !! f = Some x -> n_files s !! f = Some x \/ n_files s !! f = None /\ x = mkFile v0 0).
  { destruct (Z.eqb_spec (k_lastKeyOnFile (n_keys s)) 0) as [Ez|Ez].
    - destruct Hcase as [-> En]. destruct Hfiles as [[_ Ef]|[Hk _]].
      2:{ destruct Hk as [Hl [? _] _]. assert (0 <= k_fileId (n_keys s) * spn) by (apply Z.mul_nonneg_nonneg; lia). lia. }
      exists (<[k_fileId k1 := mkFile v0 0]> (n_files s)). split; [|split; [|split; [by rewrite Ef|]]].
      + unfold Vnode.create_file. rewrite Ef, lookup_empty, Hv0. done.
      + intros f. rewrite Ef, lookup_insert_is_Some, lookup_empty. unfold has_file. split; [intros [?|[_ [? ?]]]; [lia|done]|intros ?; left; lia].
      + intros f x. rewrite lookup_insert_Some. intros [[<- <-]|[_ ?]]; [right; by rewrite Ef, lookup_empty|by left].
    - destruct Hcase as [-> Ek]. exists (n_files s). split; [done|]. destruct Hfiles as [[? _]|[_ Hdom]]; [done|]. rewrite <- Ek in Hdom. split; [exact Hdom|split; [done|by left]]. }
  destruct Hf1 as (files1 & Ef1 & Hdom1 & Hsup1 & Hfrom1).
  destruct (create_files_ok (length (n_tabs s)) v0 made Hv0 files1 C10) as (files & Ef & Hlook).
  { intros f Hf. apply eq_None_not_Some. intros Hsome. apply Hdom1 in Hsome. by apply (C9 f). }
  exists files, v0. split; [|split; [done|split; [|split; [congruence|split; [congruence|]]]]].
  - unfold Vnode.open_files. rewrite E1. rewrite Ef1. cbn [rbind]. rewrite E2. rewrite Ef. done.
  - intros f. rewrite Hlook, C8, <- Hdom1. destruct (decide (f ∈ made)); split; [by right|by intros _; eexists|by left|by intros [?|?]].
  - rewrite <- F3. split; [by rewrite C3|]. split; [done|]. split; [by rewrite C3|]. split; [by rewrite C4, C3|]. do 4 (split; [done|]).
    assert (Hnew : forall f, f ∈ made -> n_files s !! f = None).
    { intros f Hf. apply eq_None_not_Some. intros [y Hy]. apply (C9 f Hf), Hdom1. rewrite (Hsup1 _ _ Hy). by eexists. }
    split; intros f x; rewrite Hlook; destruct (decide (f ∈ made)) as [Hin|]; [|by apply Hsup1| |by apply Hfrom1].
    + intros Hx. rewrite (Hnew f Hin) in Hx. done.
    + intros [= <-]. right. split; [by apply Hnew|done].
Qed.

Lemma lookup_removed (l : list Z) (m : gmap Z vfile) f : foldr delete m l !! f = if decide (f ∈ l) then None else m !! f.
Proof using Type.
  induction l as [|a l IH]; [done|]. cbn [foldr]. destruct (decide (f = a)) as [->|Hne].
  - rewrite lookup_delete_eq, decide_True by (by left). done.
  - rewrite lookup_delete_ne, IH by done. destruct (decide (f ∈ l)) as [Hin|Hnin]; [by rewrite decide_True by (by right)|].
    rewrite decide_False; [done|]. by intros [?|?]%elem_of_cons.
Qed.

(** A new file has no rows, and there are none that would belong into it. *)
Lemma created_holds bs pm s v0 f : vinv bs pm s -> files_have (n_tabs s) v0 (replicate (length (n_tabs s)) []) 0 -> n_files s !! f = None ->
  holds_file (n_world s) (n_tabs s) (n_gone s) f (mkFile v0 0).
Proof using Type.
  intros Hs Hv Hno. exists (replicate (length (n_tabs s)) []). split; [done|]. intros sid t Ht. set (l := filter _ _).
  exists (if decide (f ∈ n_gone s) then length l else 0%nat). split.
  - rewrite (proj2 (lookup_replicate _ _ _ _) (conj eq_refl (lookup_lt_Some _ _ _ Ht))). f_equal. destruct (decide (f ∈ n_gone s)) as [|Hng]; [by rewrite drop_all|].
    assert (El : l = []); [|by rewrite El]. apply filter_none, Forall_forall. intros r Hr Hf.
    destruct (vi_written _ _ _ Hs sid t r Ht Hr) as [[x Hx]|Hg]; rewrite Hf in *; congruence.
  - intros Hng. by rewrite decide_False.
Qed.

(** Rows that belong into the file come behind those it has. *)
Lemma holds_app w w' tabs tabs' gone f x v' contents new n due : Forall2 kept_table tabs tabs' ->
  files_have tabs (f_files x) contents (f_blocks x) ->
  (forall sid t, tabs !! sid = Some (Some t) -> exists n,
      contents !! sid = Some (values_of t (drop n (filter (infile f) (rows_at (w_file w) (Z.of_nat sid))))) /\ (f ∉ gone -> n = 0%nat)) ->
  files_have tabs' v' (zip_with app contents new) (f_blocks x + n) ->
  (forall sid t, tabs !! sid = Some (Some t) -> new !! sid = Some (values_of t (due sid)) /\ Forall (infile f) (due sid) /\
     rows_at (w_file w') (Z.of_nat sid) = rows_at (w_file w) (Z.of_nat sid) ++ due sid) ->
  forall gone', gone ⊆ gone' -> holds_file w' tabs' gone' f (mkFile v' (f_blocks x + n)).
Proof using Type.
  clear Hfh. intros Hk Hv Hc Hv' Hnew gone' Hg. exists (zip_with app contents new). split; [done|]. intros sid t' Ht'.
  destruct (kept_back _ _ _ _ Hk Ht') as (t & Ht & Eo & _). destruct (Hc sid t Ht) as (k & Hk1 & Hk2). destruct (Hnew sid t Ht) as (Hn1 & Hn2 & Hn3).
  set (l := filter _ _) in *. exists (Nat.min k (length l)). split; [|intros Hng; rewrite Hk2; [done|]; intros Hin; by apply Hng, Hg].
  rewrite lookup_zip_with, Hk1, Hn1, Hn3. cbn. f_equal. rewrite filter_app, (filter_id _ (due sid)) by done. fold l.
  rewrite drop_app_le by lia. rewrite !(values_kept t t') by done. unfold values_of. rewrite map_app. do 2 f_equal.
  destruct (Nat.le_ge_cases k (length l)); [by rewrite Nat.min_l|]. by rewrite Nat.min_r, drop_all, drop_ge by lia.
Qed.

(** Rows that belong into other files leave it as it is. *)
Lemma holds_other w w' tabs tabs' gone f x due : Forall2 kept_table tabs tabs' -> holds_file w tabs gone f x ->
  (forall sid t, tabs !! sid = Some (Some t) -> Forall (fun r => ~ infile f r) (due sid) /\
     rows_at (w_file w') (Z.of_nat sid) = rows_at (w_file w) (Z.of_nat sid) ++ due sid) ->
  forall gone', gone ⊆ gone' -> holds_file w' tabs' gone' f x.
Proof using Type.
  intros Hk (contents & Hv & Hc) Hrows gone' Hg. exists contents. split; [by eapply vnode_ok_kept|]. intros sid t' Ht'.
  destruct (kept_back _ _ _ _ Hk Ht') as (t & Ht & Eo & _). destruct (Hc sid t Ht) as (k & Hk1 & Hk2). destruct (Hrows sid t Ht) as [Hn1 Hn2].
  exists k. split; [|intros Hng; apply Hk2; intros Hin; by apply Hng, Hg]. rewrite Hk1, Hn2, filter_app, (filter_none _ (due sid)) by done. by rewrite app_nil_r, (values_kept t t').
Qed.

(** ** The commit of a file *)
Abbreviation chosen s := ((choose_file daysPerFile msPerDay (first_file daysPerFile msPerDay (n_keys s)).1).1).
Definition after_file (cfile : Z) (s : vnode) (k : vkeys) (files : gmap Z vfile) (x : vfile) (v : vfiles) (tabs' : list (option STable)) (qs : list (option SQuery)) (firstKey : Z) : vnode :=
  let w := n_world s in
  let tabs := tabs_now w (n_tabs s) in
  let '(k', removed) := retention cfile maxFiles (with_rows firstKey (k_lastKey k) k) in
  mkVnode (read_outs (k_commitFirstKey k) (k_commitLastKey k) 0 tabs qs w) tabs'
    (foldr delete (<[k_commitFileId k := mkFile v (f_blocks x + total_need tabs (news w k tabs))]> files) removed) (n_gone s ∪ list_to_set removed) k'
    (Marking (k_commitLastKey k <? k_lastKey k)).

Lemma file_committed bs pm s cfile G : vinv bs pm s -> winv bs pm (n_world s) G -> n_phase s = Choose -> commit_ok cfile s ->
  let k := chosen s in
  exists files x v tabs' qs fk, let s' := after_file cfile s k files x v tabs' qs fk in
    commit_file cfile s = Ret s' /\ cfile - maxFiles < k_fileId k /\ keys_ok daysPerFile msPerDay keyMax k /\
    (k_commitFirstKey k <= k_commitFirstKey (n_keys s) /\ k_commitFirstKey k = start s) /\ k_commitFirstKey k = k_commitFileId k * spn /\ k_commitLastKey k = k_commitFirstKey k + spn - 1 /\
    has_file k (k_commitFileId k) /\ k_firstKey k = k_firstKey (n_keys s) /\ k_lastKey k = k_lastKey (n_keys s) /\ 0 <= fk <= k_firstKey k /\
    (forall f, is_Some (files !! f) <-> has_file k f) /\ (forall f y, n_files s !! f = Some y -> files !! f = Some y) /\
    Forall2 kept_table (n_tabs s) tabs' /\ winv bs pm (n_world s') G /\ w_cache (n_world s') = w_cache (n_world s) /\ w_in (n_world s') = w_in (n_world s) /\
    (forall sid t, n_tabs s !! sid = Some (Some t) -> rows_at (w_file (n_world s')) (Z.of_nat sid) =
       rows_at (w_file (n_world s)) (Z.of_nat sid) ++ due_rows (n_world s) (k_commitFirstKey k) (k_commitLastKey k) (Z.of_nat sid)) /\
    forall f y gone', <[k_commitFileId k := mkFile v (f_blocks x + total_need (tabs_now (n_world s) (n_tabs s)) (news (n_world s) k (tabs_now (n_world s) (n_tabs s))))]> files !! f = Some y ->
      n_gone s ⊆ gone' -> holds_file (n_world s') tabs' gone' f y.
Proof using All.
  intros Hs Hw Hph (Hret & Hready & Hhead & Hhm & Hvd & Hvl) k. fold k in Hret, Hready, Hhead, Hhm, Hvd, Hvl.
  destruct (open_ok bs pm s Hs Hph) as (files & v0 & Eo & Hk & Hdom & Ef & El & Hle & Hstart & Est & Een & Hin & Hv0 & Hd0 & Hl0 & Hsup & Hfrom). fold k in Eo, Hk, Hdom, Ef, El, Hle, Hstart, Est, Een, Hin.
  pose proof Hs as [_ Hmem Hpend Hmet Htabs [_ [Hfk Hlk] Hphase] Hfiles Hwritten Hseen Hhigh]. rewrite Hph in Hpend, Hphase.
  set (w := n_world s) in *. set (tabs := tabs_now w (n_tabs s)) in *. pose proof (tabs_now_kept w (n_tabs s)) as Hkn. fold tabs in Hkn.
  pose proof (Forall2_length _ _ _ Hkn) as Hlen. set (skey := k_commitFirstKey k) in *. set (ekey := k_commitLastKey k) in *. set (fid := k_commitFileId k) in *.
  assert (Hback : forall sid t, tabs !! sid = Some (Some t) -> exists t0, n_tabs s !! sid = Some (Some t0) /\ table_linked w sid t0 /\ table_linked w sid t /\ t_obj t = t_obj t0).
  { intros sid t Ht. destruct (kept_back _ _ _ _ Hkn Ht) as (t0 & Ht0 & Eo0 & Ed0 & Ec0). exists t0. destruct (Htabs sid t0 Ht0) as (_ & _ & Hl). split; [done|]. split; [done|]. split; [by eapply linked_kept|done]. }
  destruct (proj2 (Hdom fid) Hin) as [x Hx].
  assert (Hxf : holds_file w (n_tabs s) (n_gone s) fid x).
  { destruct (Hfrom fid x Hx) as [Hold|[Hno ->]]; [by apply Hfiles|by apply (created_holds bs pm)]. }
  destruct Hxf as (contents & Hfv & Hcont).
  assert (Hsz : default (mkFile (mkVfiles [] file_header file_header) 0) (n_files s !! fid) = x \/ n_files s !! fid = None /\ x = mkFile v0 0).
  { destruct (Hfrom fid x Hx) as [Hold|[Hno ->]]; [left; by rewrite Hold|by right]. }
  assert (Hbig : 512 + header_size (length tabs) + 28 * Z.of_nat (length tabs) + 56 * (f_blocks x + total_need tabs (news w k tabs)) < 2 ^ 31 /\
    Z.of_nat (length (v_data (f_files x))) + 2 ^ 31 * total_need tabs (news w k tabs) < 2 ^ 61 /\
    Z.of_nat (length (v_last (f_files x))) + 2 ^ 31 * total_need tabs (news w k tabs) < 2 ^ 61).
  { destruct Hsz as [E|[E ->]]; rewrite E in Hhead, Hvd, Hvl; [done|]. cbn [default f_files f_blocks v_data v_last] in *. by rewrite Hd0, Hl0. }
  destruct Hbig as (Hhead' & Hvd' & Hvl').
  assert (Hlate : forall sid t r rows, tabs !! sid = Some (Some t) -> uncommitted w (Z.of_nat sid) = r :: rows -> row_key r < skey -> contents !! sid = Some []).
  { intros sid t r rows Ht Hu Hlt. destruct (Hback sid t Ht) as (t0 & Ht0 & Hl & _). destruct (Hcont sid t0 Ht0) as (n & Hc & _). rewrite Hc.
    assert (E : filter (infile fid) (rows_at (w_file w) (Z.of_nat sid)) = []); [|by rewrite E, drop_nil].
    apply filter_none, Forall_forall. intros y Hy Hf. assert (row_key y < row_key r) by (apply (written_older bs pm w G sid t0); [done|done|done|rewrite Hu; by left]).
    pose proof (file_bounds daysPerFile msPerDay Hspan (row_key y)) as Hb. rewrite Hf in Hb. lia. }
  assert (Hpos : forall sid t r, tabs !! sid = Some (Some t) -> r ∈ uncommitted w (Z.of_nat sid) -> 0 <= row_key r).
  { intros sid t r Ht Hr. destruct (Hback sid t Ht) as (t0 & Ht0 & _). pose proof (uncommitted_high bs pm s sid t0 r Hs Ht0 Hr). lia. }
  destruct (commit_out bs pm w G skey ekey tabs (f_files x) contents (f_blocks x) (k_firstKey k) Hw Hmem Hpend) as
    (v' & tabs' & qs & fk & stg & Hc & Hv' & Hkept & [Hfk1 Hfk2] & Hw' & Ec & Ei & Hrows); try done.
  { intros sid t Ht. by destruct (Hback sid t Ht) as (? & _ & _ & ? & _). }
  { by eapply vnode_ok_kept. }
  assert (Hkt : Forall2 kept_table (n_tabs s) tabs') by (by eapply kept_trans).
  assert (Hdue : forall sid t, n_tabs s !! sid = Some (Some t) -> Forall (infile fid) (due_rows w skey ekey (Z.of_nat sid)) /\
    rows_at (w_file (read_outs skey ekey 0 tabs qs w)) (Z.of_nat sid) = rows_at (w_file w) (Z.of_nat sid) ++ due_rows w skey ekey (Z.of_nat sid)).
  { intros sid t Ht. destruct (Htabs sid t Ht) as (_ & _ & Hl). split.
    - apply Forall_forall. intros r Hr. destruct (due_rows_in bs pm w G sid t skey ekey r Hw Hl Hr) as [Hkr _]. apply (file_in daysPerFile msPerDay Hspan); lia.
    - destruct (Forall2_lookup_l _ _ _ _ _ Hkn Ht) as ([t1|] & Ht1 & Hk1); [by eapply Hrows|by destruct Hk1]. }
  assert (Hfk0 : 0 <= fk <= k_firstKey k) by (split; [apply Hfk2; lia|lia]).
  exists files, x, v', tabs', qs, fk. unfold after_file. split.
  { unfold Vnode.commit_file. rewrite Eo. cbn [rbind]. fold fid. rewrite Hx. fold w tabs skey ekey. rewrite Hc. cbn [rbind]. by destruct (retention _ _ _). }
  destruct (retention _ _ _) as [k' removed]. cbn [n_world n_tabs].
  do 7 (split; [done|]). split; [exact El|]. split; [exact Hfk0|]. split; [exact Hdom|]. split; [exact Hsup|]. split; [exact Hkt|]. split; [exact Hw'|].
  split; [exact Ec|]. split; [exact Ei|]. split; [intros sid t Ht; by apply (Hdue sid t)|].
  intros f y gone' Hy Hg. apply lookup_insert_Some in Hy as [[<- <-]|[Hne Hy]].
  - eapply (holds_app w _ tabs tabs' (n_gone s) fid x v' contents _ _ (fun sid => due_rows w skey ekey (Z.of_nat sid))); [done|by eapply vnode_ok_kept| |exact Hv'| |exact Hg].
    + intros sid t Ht. destruct (kept_back _ _ _ _ Hkn Ht) as (t0 & Ht0 & Eo0 & _).
      destruct (Hcont sid t0 Ht0) as (n & Hn1 & Hn2). exists n. by rewrite (values_kept t0 t).
    + intros sid t Ht. destruct (kept_back _ _ _ _ Hkn Ht) as (t0 & Ht0 & _). destruct (Hdue sid t0 Ht0). split; [|done]. by rewrite list_lookup_imap, Ht.
  - eapply (holds_other w _ (n_tabs s) tabs' (n_gone s) f y (fun sid => due_rows w skey ekey (Z.of_nat sid))); [done| | |exact Hg].
    + destruct (Hfrom f y Hy) as [Hold|[Hno ->]]; [by apply Hfiles|by apply (created_holds bs pm)].
    + intros sid t Ht. destruct (Hdue sid t Ht) as [Hd1 Hd2]. split; [|done]. eapply Forall_impl; [exact Hd1|]. intros r Hr E. cbn in Hr, E. congruence.
Qed.

Lemma linked_cache w w' sid t : w_cache w' = w_cache w -> table_linked w sid t -> table_linked w' sid t.
Proof using Type. intros Ec [Hc Hm]. constructor; [done|]. by rewrite Ec. Qed.

Lemma vi_pend_choose bs pm s : vinv bs pm s -> n_phase s = Choose -> w_pend (n_world s) = ∅.
Proof using Type. intros Hs Hph. pose proof (vi_pend _ _ _ Hs) as Hp. by rewrite Hph in Hp. Qed.

Lemma file_step bs pm s cfile : vinv bs pm s -> n_phase s = Choose -> commit_ok cfile s ->
  let k := chosen s in
  exists s', commit_file cfile s = Ret s' /\ vinv bs pm s' /\ n_phase s' = Marking (k_commitLastKey k <? k_lastKey (n_keys s)) /\
    Forall2 kept_table (n_tabs s) (n_tabs s') /\ w_in (n_world s') = w_in (n_world s) /\
    k_commitLastKey (n_keys s') = k_commitLastKey k /\ k_lastKey (n_keys s') = k_lastKey (n_keys s) /\
    k_commitFirstKey k <= k_commitFirstKey (n_keys s) /\
    (forall m, w_pend (n_world s') !! m <> None -> exists sid, (sid < length (n_tabs s))%nat /\ m = Z.of_nat sid) /\
    (k_commitLastKey k = start s + spn - 1 /\ (k_commitLastKey k < k_lastKey (n_keys s) -> start_of daysPerFile msPerDay (first_file daysPerFile msPerDay (next_file (n_keys s'))).1 = start s + spn)) /\
    forall sid t r, n_tabs s !! sid = Some (Some t) -> r ∈ uncommitted (n_world s') (Z.of_nat sid) ->
      r ∈ uncommitted (n_world s) (Z.of_nat sid) /\ (k_commitLastKey k < row_key r \/
        exists r0, r0 ∈ uncommitted (n_world s) (Z.of_nat sid) /\ row_key r0 < k_commitFirstKey k /\ row_key r0 <= row_key r).
Proof using All.
  intros Hs Hph Hok k. destruct (vi_world _ _ _ Hs) as [G Hw].
  destruct (file_committed bs pm s cfile G Hs Hw Hph Hok) as (files & x & v & tabs' & qs & fk & Hst & Hret & Hk & [Hle Hstart] & Est & Een & Hin & Ef & El & Hfk & Hdom & Hsup & Hkt & Hw' & Ec & Ei & Hrows & Hholds).
  fold k in Hst, Hret, Hk, Hle, Hstart, Est, Een, Hin, Ef, El, Hfk, Hdom, Hw', Ec, Ei, Hrows, Hholds. set (s' := after_file _ _ _ _ _ _ _ _ _) in *.
  assert (Hleft : forall sid t r, n_tabs s !! sid = Some (Some t) -> r ∈ uncommitted (n_world s') (Z.of_nat sid) ->
      r ∈ uncommitted (n_world s) (Z.of_nat sid) /\ (k_commitLastKey k < row_key r \/
        exists r0, r0 ∈ uncommitted (n_world s) (Z.of_nat sid) /\ row_key r0 < k_commitFirstKey k /\ row_key r0 <= row_key r)).
  { intros sid t r Ht Hr. destruct (vi_tables _ _ _ Hs sid t Ht) as (_ & _ & Hl).
    destruct (left_rows bs pm (n_world s) (n_world s') G sid t _ _ r Hw Hw' Hl (linked_cache _ _ _ _ Ec Hl) Ei (Hrows sid t Ht) Hr) as [Hu [?|(r0 & rows & E & ? & ?)]]; (split; [done|]); [by left|].
    right. exists r0. rewrite E. split; [by left|done]. }
  exists s'. split; [exact Hst|]. revert Hw' Ec Ei Hrows Hholds Hleft. unfold s', after_file.
  destruct (retention_ok daysPerFile msPerDay keyMax Hdays Hms Hspan Hmax Hmax2 cfile maxFiles (with_rows fk (k_lastKey k) k)) as (k' & removed & -> & Hk' & Ek' & Hdom' & _); [by destruct Hk|done|].
  cbn [n_world n_tabs n_files n_gone n_keys n_phase]. rewrite El. set (w' := read_outs _ _ _ _ _ _). intros Hw' Ec Ei Hrows Hholds Hleft.
  pose proof Hs as [_ Hmem _ Hmet Htabs [_ [Hr1 Hr2] Hphase] _ Hwritten Hseen Hhigh]. rewrite Hph in Hphase.
  split; [|split; [done|split; [done|split; [done|split; [by rewrite Ek'|split; [by rewrite Ek'|split; [done|split; [|split; [|exact Hleft]]]]]]]]].
  2:{ intros m Hm. apply read_outs_pend in Hm as [Hm|(i & Hi & ->)]; [by rewrite (vi_pend_choose _ _ _ Hs Hph), lookup_empty in Hm|]. exists i. unfold tabs_now in Hi. by rewrite length_imap in Hi. }
  2:{ split; [lia|]. intros Hag. rewrite Ek', <- Hstart. cbn [k_lastKeyOnFile k_fileId with_rows]. apply (next_start daysPerFile msPerDay keyMax Hspan Hmax Hmax2); try done. lia. }
  assert (Hdel : forall f, is_Some (foldr delete (<[k_commitFileId k:=mkFile v (f_blocks x + total_need (tabs_now (n_world s) (n_tabs s)) (news (n_world s) k (tabs_now (n_world s) (n_tabs s))))]> files) removed !! f) <->
    (f ∉ removed) /\ has_file k f).
  { intros f. rewrite lookup_removed. destruct (decide (f ∈ removed)) as [Hr|Hr].
    - split; [by intros [? ?]|by intros [? _]].
    - rewrite lookup_insert_is_Some, Hdom. split; [intros [<-|[_ ?]]; by split|]. intros [_ Hf]. destruct (decide (k_commitFileId k = f)); [by left|by right]. }
  constructor; cbn [n_world n_tabs n_files n_gone n_keys n_phase].
  - by exists G.
  - by rewrite Ec.
  - done.
  - by rewrite Ec.
  - intros sid t' Ht'. destruct (kept_back _ _ _ _ Hkt Ht') as (t & Ht & Eo & Ed & Ect). destruct (Htabs sid t Ht) as (Ht1 & Ht2 & Hl). rewrite Eo, Ed. split; [done|]. split; [done|].
    eapply linked_cache; [exact Ec|]. by eapply linked_kept.
  - constructor; cbn [n_world n_tabs n_files n_gone n_keys n_phase].
    + right. split; [exact Hk'|]. intros f. rewrite Hdel, Hdom'. unfold has_file at 2. cbn. unfold has_file. tauto.
    + rewrite Ek'. cbn. rewrite El. lia.
    + intros Hag. apply Z.ltb_lt in Hag. rewrite Ek'. cbn. rewrite El. split; [|lia]. rewrite Een, Est. destruct Hk as [_ [Hk1 Hk2] Hk3]. unfold has_file in Hin.
      assert (0 <= k_commitFileId k * spn) by (apply Z.mul_nonneg_nonneg; lia). lia.
  - intros f y Hy. rewrite lookup_removed in Hy. destruct (decide (f ∈ removed)); [done|]. eapply Hholds; [exact Hy|]. intros z Hz. apply elem_of_union. by left.
  - intros sid t' r Ht' Hr. destruct (kept_back _ _ _ _ Hkt Ht') as (t & Ht & _). rewrite (Hrows sid t Ht) in Hr. rewrite Hdel, elem_of_union, elem_of_list_to_set.
    destruct (decide (file_of daysPerFile msPerDay (row_key r) ∈ removed)) as [|Hnr]; [auto|]. apply elem_of_app in Hr as [Hr|Hr].
    + destruct (Hwritten sid t r Ht Hr) as [[y Hy]|Hg]; [left|auto]. split; [done|]. apply Hdom. rewrite (Hsup _ _ Hy). by eexists.
    + left. split; [done|]. destruct (Htabs sid t Ht) as (_ & _ & Hl). destruct (due_rows_in bs pm (n_world s) G sid t _ _ r Hw Hl Hr) as [Hkr _].
      rewrite (file_in daysPerFile msPerDay Hspan (k_commitFileId k)) by lia. exact Hin.
  - intros sid t' r Ht' Hr. destruct (kept_back _ _ _ _ Hkt Ht') as (t & Ht & _). destruct (Hleft sid t r Ht Hr) as [Hu Hcase]. unfold seen. rewrite Ek'. cbn.
    pose proof (Hseen sid t r Ht Hu) as Hsr. unfold seen in Hsr. rewrite Hph in Hsr. destruct Hcase as [Hnew|(r0 & Hu0 & Hlt & Hle0)].
    + destruct Hsr as [?|?]; [left; lia|right]. split; [|done]. apply Z.ltb_lt. pose proof (uncommitted_high bs pm s sid t r Hs Ht Hu). lia.
    + left. pose proof (Hseen sid t r0 Ht Hu0) as Hs0. unfold seen in Hs0. rewrite Hph in Hs0. lia.
  - intros sid t' r Ht' Hr. destruct (kept_back _ _ _ _ Hkt Ht') as (t & Ht & _). rewrite Ek'. cbn. rewrite El. rewrite Ei in Hr. by apply (Hhigh sid t r Ht).
Qed.

(** ** The other steps of a commit *)
Lemma begin_step bs pm s : vinv bs pm s -> n_phase s = Idle -> exists s', vstep Begin s = Ret s' /\ vinv bs pm s' /\ n_world s' = n_world s /\ n_tabs s' = n_tabs s /\
  k_lastKey (n_keys s') = k_lastKey (n_keys s) /\ (n_phase s' = Idle /\ k_lastKey (n_keys s) = 0 \/ n_phase s' = Choose /\ k_commitFirstKey (n_keys s') = k_firstKey (n_keys s)).
Proof using Hmax2 Hmax Hspan Hfh.
  intros Hs Hph. cbn [Vnode.vstep]. rewrite Hph. destruct (Z.eqb_spec (k_lastKey (n_keys s)) 0) as [E|E].
  { exists s. do 5 (split; [done|]). by left. }
  eexists. split; [reflexivity|]. cbn. split; [|do 3 (split; [done|]); by right].
  pose proof Hs as [HG Hmem Hpend Hmet Htabs [Hkf [Hr1 Hr2] _] Hfiles Hwritten Hseen Hhigh]. rewrite Hph in Hpend.
  constructor; cbn [n_world n_tabs n_files n_gone n_keys n_phase set_commit]; try done.
  - constructor; cbn; try done.
    + destruct Hkf as [?|[[] ?]]; [by left|right]. split; [by constructor|done].
    + rewrite (wraps_id 64) by (try lia; unfold in_s; lia). lia.
  - intros sid t r Ht Hr. right. cbn. destruct (Hseen sid t r Ht Hr) as [?|Hf]; [done|]. by rewrite Hph in Hf.
Qed.

Lemma next_step bs pm s again : vinv bs pm s -> n_phase s = Marking again -> w_pend (n_world s) = ∅ -> exists s', vstep Next s = Ret s' /\ vinv bs pm s' /\
  n_world s' = n_world s /\ n_tabs s' = n_tabs s /\ n_phase s' = (if again then Choose else Idle) /\ n_keys s' = if again then next_file (n_keys s) else n_keys s.
Proof using Hmax2 Hmax Hspan Hfh.
  intros Hs Hph Hp. cbn [Vnode.vstep]. rewrite Hph, bool_decide_true by done. eexists. split; [reflexivity|].
  pose proof Hs as [HG Hmem Hpend Hmet Htabs [Hkf [Hr1 Hr2] Hkp] Hfiles Hwritten Hseen Hhigh]. rewrite Hph in Hkp.
  destruct again; (split; [|by cbn]); constructor; cbn [n_world n_tabs n_files n_gone n_keys n_phase set_commit]; try done.
  - specialize (Hkp eq_refl). assert (E : k_commitFirstKey (next_file (n_keys s)) = k_commitLastKey (n_keys s) + 1) by (apply wraps_id; [lia|unfold in_s; lia]).
    constructor; cbn [n_world n_tabs n_files n_gone n_keys n_phase set_commit]; [|done|rewrite E; lia].
    destruct Hkf as [?|[[] ?]]; [by left|right]. split; [by constructor|done].
  - specialize (Hkp eq_refl). assert (E : k_commitFirstKey (next_file (n_keys s)) = k_commitLastKey (n_keys s) + 1) by (apply wraps_id; [lia|unfold in_s; lia]).
    intros sid t r Ht Hr. destruct (Hseen sid t r Ht Hr) as [?|Hf]; [by left|right]. rewrite Hph in Hf. rewrite E. lia.
  - intros sid t r Ht Hr. destruct (Hseen sid t r Ht Hr) as [?|Hf]; [by left|]. rewrite Hph in Hf. by destruct Hf.
Qed.

Lemma vnode_step bs pm s x : vinv bs pm s -> vop_ok x s -> exists s', vstep x s = Ret s' /\ vinv bs pm s'.
Proof using All.
  intros Hs Hok. destruct x as [m del tsKey rows| |cfile|m cnt|].
  - destruct (put_rows_step bs pm s m del tsKey rows Hs Hok) as (s' & Hst & Hs'). exists s'. cbn [Vnode.vstep]. by destruct (n_phase s).
  - destruct (n_phase s) eqn:Hph; [|by exists s; cbn [Vnode.vstep]; rewrite Hph..]. destruct (begin_step bs pm s Hs Hph) as (s' & Hst & Hs' & _). by exists s'.
  - destruct (n_phase s) eqn:Hph; [by exists s; cbn [Vnode.vstep]; rewrite Hph| |by exists s; cbn [Vnode.vstep]; rewrite Hph].
    destruct (file_step bs pm s cfile Hs Hph (Hok Hph)) as (s' & Hst & Hs' & _). exists s'. cbn [Vnode.vstep]. by rewrite Hph.
  - destruct (n_phase s) as [| |again] eqn:Hph; [by exists s; cbn [Vnode.vstep]; rewrite Hph..|].
    destruct (mark_step bs pm s m cnt Hs) as (w' & Hst & _ & _ & Hs'). exists (set_world w' s). cbn [Vnode.vstep]. rewrite Hph, Hst. split; [done|]. apply Hs'. by exists again.
  - destruct (n_phase s) as [| |again] eqn:Hph; [by exists s; cbn [Vnode.vstep]; rewrite Hph..|]. destruct (decide (w_pend (n_world s) = ∅)) as [Hp|Hp].
    + destruct (next_step bs pm s again Hs Hph Hp) as (s' & Hst & Hs' & _). by exists s'.
    + exists s. cbn [Vnode.vstep]. by rewrite Hph, bool_decide_false.
Qed.

Lemma starts_ok bs total pm p s0 : vnodeOpenCachePool bs total pm = Some p -> 0 < bs -> 0 < total < 2 ^ 30 -> starts (opened p) s0 -> vinv bs pm s0.
Proof using Hfh Hmax.
  intros Hp Hbs Ht []. destruct (reachable_ok bs total pm p (n_world s0) Hp Hbs Ht st_world) as [G Hw].
  assert (Hno : forall sid t r, n_tabs s0 !! sid = Some (Some t) -> r ∉ rows_at (w_in (n_world s0)) (Z.of_nat sid)).
  { intros sid t r Htab. destruct (st_tables sid t Htab) as (_ & _ & _ & ->). apply not_elem_of_nil. }
  constructor.
  - by exists G.
  - done.
  - by rewrite st_phase.
  - done.
  - intros sid t Htab. by destruct (st_tables sid t Htab) as (? & ? & ? & _).
  - destruct st_keys as (E1 & E2 & ?). constructor; [by left| |by rewrite st_phase]. pose proof Hmax. lia.
  - intros f x Hx. by rewrite st_files, lookup_empty in Hx.
  - intros sid t r Htab Hr. destruct (st_tables sid t Htab) as (_ & _ & Hl & E). destruct (world_rows bs pm (n_world s0) G sid t Hw Hl) as (_ & _ & _ & _ & _ & _ & _ & _ & _ & E').
    rewrite E in E'. apply app_eq_nil in E' as [E' _]. rewrite E' in Hr. by apply elem_of_nil in Hr.
  - intros sid t r Htab Hr. unfold uncommitted in Hr. destruct (st_tables sid t Htab) as (_ & _ & _ & E). rewrite E, drop_nil in Hr. by apply elem_of_nil in Hr.
  - intros sid t r Htab Hr. by destruct (Hno sid t r Htab).
Qed.

Lemma vreach_ok bs pm s0 s : vinv bs pm s0 -> vreach s0 s -> vinv bs pm s.
Proof using All.
  intros H0' Hr. induction Hr as [|s x s' Hr IH Hok Hst]; [done|]. destruct (vnode_step bs pm s x IH Hok) as (s2 & Hst2 & Hs2). congruence.
Qed.
(** ** A whole commit *)
Context (cfile : Z) (cnt : nat -> Z).
Abbreviation commit_round := (Vnode.commit_round (crc32c := crc32c) (heap := heap) daysPerFile msPerDay maxFiles compression hmsize dmem cmem fuel file_header cfile cnt).
Abbreviation commit_rounds := (Vnode.commit_rounds (crc32c := crc32c) (heap := heap) daysPerFile msPerDay maxFiles compression hmsize dmem cmem fuel file_header cfile cnt).
Abbreviation rounds_ok := (Vnode.rounds_ok (crc32c := crc32c) (heap := heap) daysPerFile msPerDay maxFiles compression hmsize dmem cmem fuel file_header cfile cnt).
Abbreviation whole_commit := (Vnode.whole_commit (crc32c := crc32c) (heap := heap) daysPerFile msPerDay maxFiles compression hmsize dmem cmem fuel file_header cfile cnt).
Abbreviation whole_ok := (Vnode.whole_ok (crc32c := crc32c) (heap := heap) daysPerFile msPerDay maxFiles compression hmsize dmem cmem fuel file_header cfile cnt).

(** The rows that are not in the files will be when the commit is over. *)
Definition all_due (s : vnode) : Prop :=
  forall sid t r, n_tabs s !! sid = Some (Some t) -> r ∈ uncommitted (n_world s) (Z.of_nat sid) ->
    match n_phase s with Idle => False | Choose => k_commitFirstKey (n_keys s) <= row_key r | Marking again => again = true /\ k_commitLastKey (n_keys s) < row_key r end.

Lemma marks_step bs pm again sids : forall s, vinv bs pm s -> n_phase s = Marking again ->
  exists s', vsteps (map (fun sid => Mark (Z.of_nat sid) (cnt sid)) sids) s = Ret s' /\ vinv bs pm s' /\ n_phase s' = Marking again /\ n_keys s' = n_keys s /\ n_tabs s' = n_tabs s /\
    w_in (n_world s') = w_in (n_world s) /\ w_file (n_world s') = w_file (n_world s) /\
    forall m, w_pend (n_world s') !! m <> None -> w_pend (n_world s) !! m <> None /\ forall sid, sid ∈ sids -> m <> Z.of_nat sid.
Proof using Type.
  induction sids as [|sid sids IH]; intros s Hs Hph.
  { exists s. do 7 (split; [done|]). intros m Hm. split; [done|]. by intros sid ?%elem_of_nil. }
  destruct (mark_step bs pm s (Z.of_nat sid) (cnt sid) Hs) as (w' & Hst & Ei & Ef & Hs'). specialize (Hs' (ex_intro _ again Hph)).
  destruct (IH (set_world w' s) Hs' Hph) as (s' & Hl & Hs2 & K1 & K2 & K3 & K4 & K5 & K6). exists s'. cbn [map Vnode.vsteps Vnode.vstep]. rewrite Hph, Hst. cbn [rbind].
  split; [exact Hl|]. split; [done|]. split; [done|]. split; [done|]. split; [done|]. split; [by rewrite K4|]. split; [by rewrite K5|].
  assert (Ep : w_pend w' = delete (Z.of_nat sid) (w_pend (n_world s))).
  { cbn [step] in Hst. destruct (w_pend _ !! Z.of_nat sid) as [[? ?]|] eqn:Ep; [|injection Hst as <-; by rewrite delete_id].
    apply rbind_Ret_inv in Hst as (c' & _ & Hst). by injection Hst as <-. }
  intros m Hm. destruct (K6 m Hm) as [Hp Hsids]. cbn [n_world set_world] in Hp. rewrite Ep in Hp.
  destruct (decide (m = Z.of_nat sid)) as [->|Hne]; [by rewrite lookup_delete_eq in Hp|]. rewrite lookup_delete_ne in Hp by done.
  split; [done|]. intros sid' [->|?]%elem_of_cons; [done|by apply Hsids].
Qed.
Lemma vsteps_app l1 l2 : forall s, vsteps (l1 ++ l2) s = let! s := vsteps l1 s in vsteps l2 s.
Proof using Type. induction l1 as [|x l1 IH]; intros s; [done|]. cbn [app Vnode.vsteps]. destruct (vstep x s); [apply IH|done..]. Qed.

Lemma round_step bs pm s : vinv bs pm s -> n_phase s = Choose -> commit_ok cfile s ->
  exists s', commit_round s = Ret s' /\ vinv bs pm s' /\ Forall2 kept_table (n_tabs s) (n_tabs s') /\ w_in (n_world s') = w_in (n_world s) /\
    k_lastKey (n_keys s') = k_lastKey (n_keys s) /\ (all_due s -> all_due s') /\
    if start s + spn - 1 <? k_lastKey (n_keys s) then n_phase s' = Choose /\ start s' = start s + spn else n_phase s' = Idle.
Proof using All.
  intros Hs Hph Hok. destruct (file_step bs pm s cfile Hs Hph Hok) as (s1 & H1' & Hs1 & Hph1 & Hk1 & Ei1 & Ec1 & El1 & Hle & Hp1 & [Ee Hnext] & Hleft).
  set (k := chosen s) in *. set (again := k_commitLastKey k <? k_lastKey (n_keys s)) in *.
  destruct (marks_step bs pm again (seq 0 (length (n_tabs s))) s1 Hs1 Hph1) as (s2 & H2' & Hs2 & Hph2 & Ek2 & Et2 & Ei2 & Ef2 & Hp2).
  assert (Hp : w_pend (n_world s2) = ∅).
  { apply map_empty. intros m. destruct (w_pend (n_world s2) !! m) eqn:E; [|done]. destruct (Hp2 m) as [Hm Hno]; [by rewrite E|].
    destruct (Hp1 m Hm) as (sid & Hlt & ->). destruct (Hno sid); [|done]. apply elem_of_seq. lia. }
  destruct (next_step bs pm s2 again Hs2 Hph2 Hp) as (s3 & H3' & Hs3 & Ew3 & Et3 & Hph3 & Ek3).
  exists s3. split.
  { unfold Vnode.commit_round. cbn [Vnode.vsteps Vnode.vstep]. rewrite Hph, H1'. cbn [rbind]. rewrite vsteps_app, H2'. cbn [rbind Vnode.vsteps]. by rewrite H3'. }
  split; [done|]. split; [by rewrite Et3, Et2|]. split; [by rewrite Ew3, Ei2|]. split; [by rewrite Ek3; destruct again; cbn; rewrite Ek2|]. split.
  - intros Hdue sid t3 r Ht Hr. rewrite Et3, Et2 in Ht. rewrite Ew3 in Hr. destruct (kept_back _ _ _ _ Hk1 Ht) as (t & Ht0 & _).
    unfold uncommitted in Hr. rewrite Ei2, Ef2 in Hr. destruct (Hleft sid t r Ht0 Hr) as [Hu Hcase]. rewrite Hph3, Ek3.
    assert (Hnew : k_commitLastKey k < row_key r).
    { destruct Hcase as [?|(r0 & Hu0 & Hlt & _)]; [done|]. specialize (Hdue sid t r0 Ht0 Hu0). rewrite Hph in Hdue. lia. }
    assert (Ha : again = true) by (apply Z.ltb_lt; pose proof (uncommitted_high bs pm s sid t r Hs Ht0 Hu); lia).
    rewrite Ha in *. pose proof (ki_phase _ (vi_keys _ _ _ Hs1)) as Hkp. rewrite Hph1 in Hkp. specialize (Hkp eq_refl). pose proof (ki_range _ (vi_keys _ _ _ Hs1)) as [_ Hr1].
    rewrite Ek2. unfold next_file. cbn [k_commitFirstKey with_commit]. rewrite (wraps_id 64) by (try lia; unfold in_s; lia). lia.
  - subst again. rewrite <- Ee. rewrite Hph3, Ek3. destruct (Z.ltb_spec (k_commitLastKey k) (k_lastKey (n_keys s))) as [Hlt|Hge]; [|done].
    split; [done|]. rewrite Ek2. by apply Hnext.
Qed.

Lemma rounds_step bs pm rounds : forall s, vinv bs pm s -> n_phase s = Choose -> all_due s -> rounds_ok (S rounds) s -> k_lastKey (n_keys s) < start s + Z.of_nat (S rounds) * spn ->
  exists s', commit_rounds (S rounds) s = Ret s' /\ vinv bs pm s' /\ Forall2 kept_table (n_tabs s) (n_tabs s') /\ w_in (n_world s') = w_in (n_world s) /\ n_phase s' = Idle /\ all_due s'.
Proof using All.
  induction rounds as [|rounds IH]; intros s Hs Hph Hdue Hok Hlt; cbn [Vnode.rounds_ok] in Hok; rewrite Hph in Hok; destruct Hok as [Hok Hrest];
    destruct (round_step bs pm s Hs Hph Hok) as (s1 & Hst & Hs1 & Hk1 & Ei1 & El1 & Hd1 & Hcase); rewrite Hst in Hrest; cbn [Vnode.commit_rounds]; rewrite Hph, Hst; cbn [rbind].
  - destruct (Z.ltb_spec (start s + spn - 1) (k_lastKey (n_keys s))); [lia|]. exists s1. rewrite Hcase. repeat (split; [done|]). by apply Hd1.
  - destruct (Z.ltb_spec (start s + spn - 1) (k_lastKey (n_keys s))) as [Hmore|Hdone].
    + destruct Hcase as [Hph1 Est]. destruct (IH s1 Hs1 Hph1 (Hd1 Hdue) Hrest) as (s' & Hl & Hs' & Hk' & Ei' & Hph' & Hd'); [rewrite El1, Est; lia|].
      cbn [Vnode.commit_rounds] in Hl. rewrite Hph1 in Hl. rewrite Hph1. exists s'. split; [exact Hl|]. split; [done|]. split; [by eapply kept_trans|]. split; [by rewrite Ei'|]. by split.
    + exists s1. rewrite Hcase. repeat (split; [done|]). by apply Hd1.
Qed.
Lemma vinv_filed bs pm s sid t : vinv bs pm s -> n_tabs s !! sid = Some (Some t) -> filed s sid t (rows_at (w_file (n_world s)) (Z.of_nat sid)).
Proof using Type.
  intros Hs Ht. split; [|intros r; by apply (vi_written _ _ _ Hs sid t)]. intros f [x Hx] Hg. destruct (vi_files _ _ _ Hs f x Hx) as (contents & Hv & Hc).
  destruct (Hc sid t Ht) as (n & Hrows & Hn). rewrite (Hn Hg), drop_0 in Hrows.
  destruct (vnode_query compression (n_tabs s) (f_files x) contents (f_blocks x) sid t _ Hv Ht Hrows) as (blocks & parts & Hq & Hb & Hp). by exists x, blocks, parts.
Qed.

Section Reached.
Context (bs total pm : Z) (p : SCachePool) (s0 s : vnode) (Hpool : vnodeOpenCachePool bs total pm = Some p) (Hbs : 0 < bs) (Htotal : 0 < total < 2 ^ 30)
  (Hstart : starts (opened p) s0) (Hreach : vreach s0 s).

(** C1.  In every vnode that is reached from an empty one by steps whose conditions hold
    ([vop_ok]), each further step whose conditions hold is made.  The conditions: a batch has
    rows, as wide as its table's, with keys between 0 and a bound; a commit of a file finds
    the newest file within the retention, values that the compression keeps (with compression
    no FLOAT column, BIGINT values of 59 bits, the three bytes of BOOL), its buffers, and
    room in the offsets of the files.  Without them a step may fail or a value be lost
    ([CompXor.float_lossy_lp64], [CompInt.int_guard_gap], [VnodeKeys.commit_never_ends]).
    The rows that were accepted of a table are those that were written and the rest: the
    written ones are found, in their order and as they were, in the files of their days, as
    long as these were not removed; and when no commit runs the next one begins with or
    before the rest. *)
Theorem vnode_life :
  (forall x, vop_ok x s -> exists s', vstep x s = Ret s') /\
  forall sid t, n_tabs s !! sid = Some (Some t) -> exists written rest,
    rows_at (w_in (n_world s)) (Z.of_nat sid) = written ++ rest /\ filed s sid t written /\
    (n_phase s = Idle -> Forall (fun r => k_firstKey (n_keys s) <= row_key r) rest).
Proof using All -(cfile cnt).
  pose proof (vreach_ok bs pm s0 s (starts_ok bs total pm p s0 Hpool Hbs Htotal Hstart) Hreach) as Hs. split.
  { intros x Hok. destruct (vnode_step bs pm s x Hs Hok) as (s' & Hst & _). by exists s'. }
  intros sid t Ht. exists (rows_at (w_file (n_world s)) (Z.of_nat sid)), (uncommitted (n_world s) (Z.of_nat sid)).
  split; [by eapply accepted_split|]. split; [by eapply vinv_filed|]. intros Hph. apply Forall_forall. intros r Hr.
  destruct (vi_seen _ _ _ Hs sid t r Ht Hr) as [?|Hf]; [done|]. by rewrite Hph in Hf.
Qed.

(** C2.  In every such vnode a commit that no batch interrupts ends, if at each of its rounds
    the conditions of a commit hold ([whole_ok]: the newest file is within the retention, the
    values are kept by the compression, there are buffers and room in the files): the rounds
    from the file of the first key to that of the last are enough.  Then every row that was
    accepted is in the files, but for files that retention removed. *)
Theorem commit_complete : n_phase s = Idle -> whole_ok s ->
  exists s', whole_commit s = Ret s' /\ n_phase s' = Idle /\ w_in (n_world s') = w_in (n_world s) /\ Forall2 kept_table (n_tabs s) (n_tabs s') /\
    forall sid t, n_tabs s' !! sid = Some (Some t) -> filed s' sid t (rows_at (w_in (n_world s)) (Z.of_nat sid)).
Proof using All.
  pose proof (vreach_ok bs pm s0 s (starts_ok bs total pm p s0 Hpool Hbs Htotal Hstart) Hreach) as Hs. unfold Vnode.whole_ok, Vnode.whole_commit. intros Hph Hok.
  destruct (begin_step bs pm s Hs Hph) as (s1 & Hst & Hs1 & Ew & Et & El & Hcase). rewrite Hst in *. cbn [rbind].
  assert (Hend : exists s', commit_rounds (rounds_of s1) s1 = Ret s' /\ vinv bs pm s' /\ Forall2 kept_table (n_tabs s1) (n_tabs s') /\ w_in (n_world s') = w_in (n_world s1) /\ n_phase s' = Idle /\ all_due s').
  { destruct Hcase as [[Hph1 Ez]|[Hph1 Ek]].
    - exists s1. unfold Vnode.rounds_of. cbn [Vnode.commit_rounds]. rewrite Hph1. do 2 (split; [done|]). split; [by apply kept_refl|]. do 2 (split; [done|]).
      intros sid t r Ht Hr. pose proof (uncommitted_high bs pm s1 sid t r Hs1 Ht Hr). rewrite El in *. lia.
    - apply (rounds_step bs pm); try done.
      + intros sid t r Ht Hr. rewrite Hph1, Ek. rewrite Et in Ht. rewrite Ew in Hr. destruct (vi_seen _ _ _ Hs sid t r Ht Hr) as [?|Hf]; [done|]. by rewrite Hph in Hf.
      + pose proof (Z.div_mod (k_lastKey (n_keys s1) - start s1) spn ltac:(lia)). pose proof (Z.mod_pos_bound (k_lastKey (n_keys s1) - start s1) spn ltac:(lia)).
        destruct (Z.le_gt_cases 0 ((k_lastKey (n_keys s1) - start s1) / spn)); nia. }
  destruct Hend as (s' & Hc & Hs' & Hk & Ei & Hph' & Hdue). exists s'. split; [done|]. split; [done|]. split; [by rewrite Ei, Ew|]. split; [by rewrite <- Et|].
  intros sid t Ht. rewrite <- Ew, <- Ei, (accepted_split bs pm s' sid t Hs' Ht). destruct (uncommitted (n_world s') (Z.of_nat sid)) as [|r rest] eqn:Hu.
  - rewrite app_nil_r. by eapply vinv_filed.
  - specialize (Hdue sid t r Ht). rewrite Hu, Hph' in Hdue. destruct Hdue. by left.
Qed.
End Reached.
End Vnode.



