(* ===== verification/CommitDemo.v ===== *)
(** * The life of a small vnode

    Rows of the two tables of [CacheDemo] are committed to new files, and can be committed
    again with more rows. *)
From S2P Require Import Prelude KeySearch CachePool CacheInv CacheInsert CacheQuery CacheScan CacheSearch CacheLife CacheDemo CompBase CompInt Tscompression Crc32c ColTypes FileBlock BlockWrite BlockLife HeadFile HeadWrite CommitFile CommitTable CommitLife CacheReader CommitCache VnodeKeys Vnode VnodeLife.

(** tsFileBlockMinPercent is 0.5.  The tables have no floats. *)
#[local] Existing Instances LP64 toy_lz4.
#[local] Instance half_full : BlockOptions := {| few_points points ppfb := 2 * points <? ppfb |}.
#[local] Instance half_full_laws : BlockOptionsLaws.
Proof. intros points ppfb Hp Hf. apply Z.ltb_lt in Hf. lia. Qed.
#[local] Instance no_floats : DoubleOps := {|
  d_of_f := id; d_of_i64 := id; f_of_i64 := id; d_add := Z.add; d_mul := Z.mul; f_mul := Z.mul; d_lt := Z.ltb |}.
Definition vnode_crc : Z -> Z -> list Z -> Z -> res Z := @taosResolveCRC manual_sse42 false false false.
#[local] Instance vnode_running : RunningSum vnode_crc 0 := @resolved_running manual_sse42 manual_sse42_laws false false false 0.

Definition columns : list SColumn := [mkColumn 0 8 TSDB_DATA_TYPE_TIMESTAMP; mkColumn 1 4 TSDB_DATA_TYPE_INT].
Definition vtable (u : Z) : STable := mkTable (mkMeter u columns 12 8 10 0) false true 0 0.
Definition vtables : list (option STable) := [None; Some (vtable 71); Some (vtable 72)].
Definition vbuffers : list SData := map (fun c => mkData 0 (replicate (Z.to_nat (bytes c * 10 + 6)) 0)) columns.
Definition vheader : list Z := replicate 512 32.

(** A file has four keys. *)
Definition world0 : world := match run [Create 1 table; Create 2 table] (opened pool4) with Ret w => w | _ => opened pool4 end.
Definition keys0 : vkeys := mkKeys 1000 0 0 0 0 0 0 0.
Definition first_vnode : vnode := mkVnode world0 vtables ∅ ∅ keys0 Idle.

Abbreviation vmem := (fun _ : nat => vbuffers).
Abbreviation vnode_step := (vstep (crc32c := vnode_crc) (heap := 0) 1 4 100 TWO_STAGE_COMP 10000 vmem vmem 20 vheader).
Abbreviation vnode_op_ok := (vop_ok 1 4 100 TWO_STAGE_COMP 10000 vmem vmem 20 vheader 1000).
Fixpoint vrun (l : list vop) (s : vnode) : res vnode :=
  match l with [] => Ret s | x :: l => let! s := vnode_step x s in vrun l s end.
Definition marks : list vop := [Mark 1 7; Mark 2 7; Next].
Definition vlife : list vop :=
  [Put 1 false 4 [row 1; row 2; row 3]; Put 2 false 4 [row 5]; Begin; File 1; Put 1 false 4 [row 6]] ++ marks ++ [File 1] ++ marks ++ [Put 1 false 4 [row 9]].
Definition lived_vnode : res vnode := vrun vlife first_vnode.

(** ** The conditions of the steps, on closed terms *)
Lemma vtable_ok u : in_u 64 u -> table_ok (t_obj (vtable u)).
Proof.
  intros Hu. constructor; cbn; try done; try lia. constructor; cbn; try done; try lia.
  - repeat constructor; done.
  - repeat constructor; cbn; try done; unfold in_s; lia.
Qed.
Lemma vbuffers_ok u : buffers (t_obj (vtable u)) vbuffers.
Proof. repeat constructor; cbn; try done; apply Forall_replicate; done. Qed.

Definition due_ok (rows : list (list (list Z))) : bool := forallb (fun r => bool_decide (map length r = [8; 4]%nat)) rows && (length rows <? 20)%nat.
Lemma due_row_ok r : map length r = [8; 4]%nat -> row_ok TWO_STAGE_COMP columns r.
Proof.
  destruct r as [|a [|b [|]]]; try done. intros _. constructor; [by right|]. constructor; [by right|constructor].
Qed.
Definition vtable_with (u : Z) (keys : Z * Z) : STable := mkTable (mkMeter u columns 12 8 10 0) false true keys.1 keys.2.
Definition ready_test (w : world) (skey ekey : Z) (sid : nat) : bool := due_ok (next_rows w skey ekey sid (Some (vtable 0))).
Lemma ready_test_ok w skey ekey sid u keys : ready_test w skey ekey sid = true -> commit_ready TWO_STAGE_COMP vmem vmem 20 w skey ekey sid (vtable_with u keys).
Proof.
  unfold ready_test, due_ok. intros Hd. apply andb_prop in Hd as [Hd Hl]. apply Nat.ltb_lt in Hl.
  constructor; try done; try apply (vbuffers_ok u).
  apply Forall_forall. intros r Hr. rewrite forallb_forall in Hd. apply list_elem_of_In in Hr. specialize (Hd r Hr). apply due_row_ok. by apply bool_decide_eq_true in Hd.
Qed.

Definition vtables_with (keys1 keys2 : Z * Z) : list (option STable) := [None; Some (vtable_with 71 keys1); Some (vtable_with 72 keys2)].
Definition chosen_keys (s : vnode) : vkeys := (choose_file 1 4 (first_file 1 4 (n_keys s)).1).1.
Definition commit_test (keys1 keys2 : Z * Z) (cfile : Z) (s : vnode) : bool :=
  let k := chosen_keys s in
  let f := default (mkFile (mkVfiles [] vheader vheader) 0) (n_files s !! k_commitFileId k) in
  let n := total_need (vtables_with keys1 keys2) (news (n_world s) k (vtables_with keys1 keys2)) in
  (cfile - 100 <? k_fileId k) && ready_test (n_world s) (k_commitFirstKey k) (k_commitLastKey k) 1 && ready_test (n_world s) (k_commitFirstKey k) (k_commitLastKey k) 2 &&
  (0 <=? f_blocks f) && (f_blocks f + n <=? 100) && (0 <=? n) && (n <=? 6) &&
  (Z.of_nat (length (v_data (f_files f))) <=? 10000) && (Z.of_nat (length (v_last (f_files f))) <=? 10000).
Lemma commit_test_ok keys1 keys2 cfile s : tabs_now (n_world s) (n_tabs s) = vtables_with keys1 keys2 -> commit_test keys1 keys2 cfile s = true ->
  commit_ok 1 4 100 TWO_STAGE_COMP 10000 vmem vmem 20 vheader cfile s.
Proof.
  unfold commit_test, commit_ok. cbv zeta. intros -> Ht. fold (chosen_keys s). set (n := total_need _ _) in *. set (f := default _ _) in *. set (k := chosen_keys s) in *.
  repeat match goal with H : _ && _ = true |- _ => apply andb_prop in H as [H ?] end.
  repeat match goal with H : (_ <=? _) = true |- _ => apply Z.leb_le in H | H : (_ <? _) = true |- _ => apply Z.ltb_lt in H end.
  split; [done|]. split.
  - intros sid t Hs. destruct sid as [|[|[|sid]]]; [discriminate Hs|..|discriminate Hs]; injection Hs as <-; by apply ready_test_ok.
  - change (header_size (length (vtables_with keys1 keys2))) with 28. change (Z.of_nat (length (vtables_with keys1 keys2))) with 3. lia.
Qed.

(** ** The run *)
Fixpoint vall_ok (l : list vop) (s : vnode) : Prop :=
  match l with [] => True | x :: l => vnode_op_ok x s /\ match vnode_step x s with Ret s => vall_ok l s | _ => False end end.
Abbreviation reaches := (vreach (crc32c := vnode_crc) (heap := 0) 1 4 100 TWO_STAGE_COMP 10000 vmem vmem 20 vheader 1000).

Lemma vreach_run s0 l : forall s s', reaches s0 s -> vall_ok l s -> vrun l s = Ret s' -> reaches s0 s'.
Proof.
  induction l as [|x l IH]; intros s s' Hr Hok Hrun; cbn [vrun] in Hrun; [injection Hrun as <-; exact Hr|].
  cbn [vall_ok] in Hok. destruct Hok as [Hx Hok]. destruct (vnode_step x s) as [s1| | |] eqn:Hs; try exact (False_ind _ Hok).
  cbn [rbind] in Hrun. apply (IH s1); [|exact Hok|exact Hrun]. eapply vreach_step; [exact Hr|exact Hx|exact Hs].
Qed.
Lemma vall_ok_cons x l s s' : vnode_op_ok x s -> vnode_step x s = Ret s' -> vall_ok l s' -> vall_ok (x :: l) s.
Proof. intros Hx Hs Hl. cbn [vall_ok]. rewrite Hs. split; [exact Hx|exact Hl]. Qed.

Definition keys_within (rows : list (list Z)) : bool := forallb (fun r => (0 <? row_key r) && (row_key r <? 1000)) rows.
Lemma keys_found rows : keys_within rows = true -> Forall (fun r => 0 < row_key r < 1000) rows.
Proof.
  intros Ht. apply Forall_forall. intros r Hr. unfold keys_within in Ht. rewrite forallb_forall in Ht. apply list_elem_of_In in Hr.
  specialize (Ht r Hr). apply andb_prop in Ht as [? ?]. by split; apply Z.ltb_lt.
Qed.
Lemma bytes_found (rows : list (list Z)) : forallb (forallb (fun b => (0 <=? b) && (b <? 256))) rows = true -> Forall bytes_ok rows.
Proof.
  intros Ht. apply Forall_forall. intros r Hr. apply Forall_forall. intros b Hb. rewrite forallb_forall in Ht. apply list_elem_of_In in Hr, Hb.
  specialize (Ht r Hr). rewrite forallb_forall in Ht. specialize (Ht b Hb). apply andb_prop in Ht as [? ?]. by split; [apply Z.leb_le|apply Z.ltb_lt].
Qed.

Ltac commit_holds :=
  match goal with |- commit_ok _ _ _ _ _ _ _ _ _ _ ?s =>
    match eval vm_compute in (tabs_now (n_world s) (n_tabs s)) with
    [None; Some (mkTable _ _ _ ?a ?b); Some (mkTable _ _ _ ?c ?d)] => apply (commit_test_ok (a, b) (c, d)); vm_compute; reflexivity end end.
Ltac vop_holds :=
  match goal with
  | |- vop_ok _ _ _ _ _ _ _ _ _ _ (Put _ _ _ _) _ => split; [discriminate|split; [op_holds|split; [apply bytes_found; reflexivity|apply keys_found; reflexivity]]]
  | |- vop_ok _ _ _ _ _ _ _ _ _ _ (File _) _ => intros _; commit_holds
  | |- _ => exact I
  end.
Ltac vrun_step :=
  match goal with |- vall_ok (?x :: _) ?s =>
    match eval vm_compute in (vnode_step x s) with Ret ?v => apply (vall_ok_cons x _ s v); [vop_holds|vm_compute; reflexivity|] end end.

Definition state_of (r : res vnode) : vnode := match r with Ret s => s | _ => first_vnode end.
Definition last_vnode : vnode := Eval vm_compute in state_of lived_vnode.

Lemma vlife_ok : vall_ok vlife first_vnode.
Proof. unfold vlife, marks. cbn [app]. do 13 vrun_step. exact I. Qed.

Lemma vreached : reaches first_vnode last_vnode.
Proof.
  eapply (vreach_run first_vnode vlife first_vnode last_vnode); [apply vreach_start|exact vlife_ok|vm_compute; reflexivity].
Qed.

(** ** The start *)
Lemma world0_reachable : reachable (opened pool4) world0.
Proof.
  apply (reach_run _ [Create 1 table; Create 2 table] (opened pool4)); [constructor|do 2 run_step; exact I|vm_compute; reflexivity].
Qed.
Lemma world0_linked sid t : vtables !! sid = Some (Some t) -> table_linked world0 sid t.
Proof.
  intros Ht. destruct sid as [|[|[|sid]]]; [discriminate Ht|..|discriminate Ht]; injection Ht as <-; (split; [reflexivity|]); eexists; (split; [vm_compute; reflexivity|]); split; reflexivity.
Qed.
Lemma world0_mem : mem_ok (w_cache world0).
Proof.
  apply Forall_forall. intros b Hb. pose proof (bytes_found (map b_mem (pMem (pool (w_cache world0)))) ltac:(vm_compute; reflexivity)) as Hm.
  rewrite Forall_map, Forall_forall in Hm. by apply Hm.
Qed.
Lemma world0_keys m o : meters (w_cache world0) !! m = Some o -> 0 <= lastKey o < 1000.
Proof.
  intros Ho. apply elem_of_map_to_list in Ho. assert (Hall : Forall (fun x => 0 <= lastKey (snd x) < 1000) (map_to_list (meters (w_cache world0)))).
  { vm_compute. repeat constructor; discriminate. }
  rewrite Forall_forall in Hall. exact (Hall _ Ho).
Qed.
Lemma vnode_starts : starts 1000 (opened pool4) first_vnode.
Proof.
  constructor.
  - exact world0_reachable.
  - exact world0_mem.
  - vm_compute. reflexivity.
  - intros sid t Ht. change (n_tabs first_vnode) with vtables in Ht. split; [|split; [|split; [exact (world0_linked sid t Ht)|]]];
      destruct sid as [|[|[|sid]]]; try discriminate Ht; injection Ht as <-; try reflexivity; try (vm_compute; reflexivity); apply vtable_ok; unfold in_u; lia.
  - exact world0_keys.
  - reflexivity.
  - cbn. lia.
  - reflexivity.
Qed.

(** ** The life *)
Abbreviation vround := (commit_round (crc32c := vnode_crc) (heap := 0) 1 4 100 TWO_STAGE_COMP 10000 vmem vmem 20 vheader 1 (fun _ => 7)).
Abbreviation vrounds_ok := (rounds_ok (crc32c := vnode_crc) (heap := 0) 1 4 100 TWO_STAGE_COMP 10000 vmem vmem 20 vheader 1 (fun _ => 7)).
Abbreviation vwhole := (whole_commit (crc32c := vnode_crc) (heap := 0) 1 4 100 TWO_STAGE_COMP 10000 vmem vmem 20 vheader 1 (fun _ => 7)).
Abbreviation vwhole_ok := (whole_ok (crc32c := vnode_crc) (heap := 0) 1 4 100 TWO_STAGE_COMP 10000 vmem vmem 20 vheader 1 (fun _ => 7)).
Abbreviation vfiled := (filed (crc32c := vnode_crc) (heap := 0) 1 4).

Lemma vrounds_step n s s' : n_phase s = Choose -> commit_ok 1 4 100 TWO_STAGE_COMP 10000 vmem vmem 20 vheader 1 s -> vround s = Ret s' -> vrounds_ok n s' -> vrounds_ok (S n) s.
Proof. intros Hp Hok Hs Hr. cbn [rounds_ok]. rewrite Hp, Hs. split; [exact Hok|exact Hr]. Qed.
Lemma vrounds_idle n s : n_phase s = Idle -> vrounds_ok n s.
Proof. intros Hp. destruct n; cbn [rounds_ok]; rewrite Hp; exact I. Qed.
Lemma vwhole_start s s' n : vnode_step Begin s = Ret s' -> rounds_of 1 4 s' = n -> vrounds_ok n s' -> vwhole_ok s.
Proof. intros Hs Hn Hr. unfold whole_ok. rewrite Hs, Hn. exact Hr. Qed.
Ltac vround_step :=
  match goal with |- vrounds_ok (S ?n) ?s =>
    match eval vm_compute in (vround s) with Ret ?v => apply (vrounds_step n s v); [reflexivity|commit_holds|vm_compute; reflexivity|] end end.

(** The second commit goes over two files: the rows 5 and 9 are in them. *)
Lemma last_whole_ok : vwhole_ok last_vnode.
Proof.
  match eval vm_compute in (vnode_step Begin last_vnode) with Ret ?v => apply (vwhole_start last_vnode v 2); [vm_compute; reflexivity|vm_compute; reflexivity|] end.
  do 2 vround_step. apply vrounds_idle. reflexivity.
Qed.
Lemma last_rows : rows_at (w_in (n_world last_vnode)) 1 = [row 1; row 2; row 3; row 9].
Proof. vm_compute. reflexivity. Qed.
Lemma last_table : n_tabs last_vnode !! 1%nat = Some (Some (vtable_with 71 (3, 3))).
Proof. reflexivity. Qed.

Lemma key_bounds : 0 < 1000 <= 2 ^ 30 * span 1 4 /\ 1000 + 2 * span 1 4 < 2 ^ 62.
Proof. unfold span. lia. Qed.

Lemma vnode_life_witness : reaches first_vnode last_vnode /\ exists written rest,
  [row 1; row 2; row 3; row 9] = written ++ rest /\ vfiled last_vnode 1 (vtable_with 71 (3, 3)) written /\ Forall (fun r => 4 <= row_key r) rest.
Proof.
  split; [exact vreached|].
  destruct (vnode_life (crc32c := vnode_crc) (heap := 0) 1 4 100 TWO_STAGE_COMP 10000 vmem vmem 20 vheader 1000 eq_refl eq_refl eq_refl (proj1 key_bounds) (proj2 key_bounds)
    eq_refl ltac:(unfold TWO_STAGE_COMP; lia) 76 4 4 pool4 first_vnode last_vnode eq_refl eq_refl (conj eq_refl eq_refl) vnode_starts vreached) as [_ Hlife].
  destruct (Hlife 1%nat (vtable_with 71 (3, 3)) last_table) as (written & rest & E & Hf & Hrest). exists written, rest.
  split; [rewrite <- last_rows; exact E|]. split; [exact Hf|exact (Hrest eq_refl)].
Defined.

Lemma commit_complete_witness : reaches first_vnode last_vnode /\ vwhole_ok last_vnode /\ exists s',
  vwhole last_vnode = Ret s' /\ n_phase s' = Idle /\ forall t, n_tabs s' !! 1%nat = Some (Some t) -> vfiled s' 1 t [row 1; row 2; row 3; row 9].
Proof.
  split; [exact vreached|]. split; [exact last_whole_ok|].
  destruct (commit_complete (crc32c := vnode_crc) (heap := 0) 1 4 100 TWO_STAGE_COMP 10000 vmem vmem 20 vheader 1000 eq_refl eq_refl eq_refl (proj1 key_bounds) (proj2 key_bounds)
    eq_refl ltac:(unfold TWO_STAGE_COMP; lia) 1 (fun _ => 7) 76 4 4 pool4 first_vnode last_vnode eq_refl eq_refl (conj eq_refl eq_refl) vnode_starts vreached eq_refl last_whole_ok)
    as (s' & Hc & Hp & _ & _ & Hf).
  exists s'. split; [exact Hc|]. split; [exact Hp|]. intros t Ht. rewrite <- last_rows. exact (Hf 1%nat t Ht).
Defined.
