(* ===== verification/SdbIndex.v ===== *)
(** * The index of a management table: interface

    The engine of src/src/sdb/src/sdbEngine.c reaches the rows of a table
    through one of two hash tables, picked by the key type.  Here are what it
    asks of either, as a class, and the part of the proof the two share. *)
From S2P Require Import Prelude Chain.

(** [SRowMeta]: [row] is the address of the object. *)
Record SRowMeta := { id : Z; offset : Z; rowSize : Z; row : Z }.

Definition SIZEOF_SRowMeta : Z := 32.

Inductive KEYTYPE := SDB_KEYTYPE_STRING | SDB_KEYTYPE_UINT32 | SDB_KEYTYPE_AUTO.

(** The number of bytes a deletion record keeps of the key. *)
Definition key_size (kt : KEYTYPE) (mem : list Z) : res Z :=
  match kt with
  | SDB_KEYTYPE_STRING => let! s := c_string mem in Ret (Z.of_nat (length s) + 1)
  | SDB_KEYTYPE_UINT32 => Ret 4
  | SDB_KEYTYPE_AUTO => Ret 8
  end.

(** The functions of [sdbInitIndexFp], [sdbAddIndexFp], ..., for one index.
    Keys are read at the start of the memory that is passed; nodes are named by
    their addresses, 0 is [NULL], and [ix_load] and [ix_store] are the accesses
    of the engine to the [SRowMeta] in a node. *)
Class SdbIndex (I : Type) := {
  ix_init : Z -> res (option I);
  ix_add : I -> list Z -> SRowMeta -> res I;
  ix_delete : I -> list Z -> res I;
  ix_get : I -> list Z -> res Z;
  ix_fetch : I -> Z -> res Z;
  ix_load : I -> Z -> res SRowMeta;
  ix_store : I -> Z -> SRowMeta -> res I;
  ix_close : I -> res unit }.

(** What the engine relies on: the index is a map from keys to nodes, of at
    most [ix_room] rows, that is walked once from [NULL] to [NULL]. *)
Class SdbIndexLaws (I K : Type) `{SdbIndex I} `{Countable K} := {
  ix_kind : KEYTYPE -> Prop;
  ix_key : list Z -> res K;
  ix_key_ok : K -> Prop;
  ix_is : I -> Z -> gmap K (Z * SRowMeta) -> Prop;
  ix_key_prefix : forall kt mem k n b rest, ix_kind kt -> ix_key mem = Ret k ->
    key_size kt mem = Ret n -> rd mem 0 n = Ret b -> ix_key (b ++ rest) = Ret k;
  ix_key_app : forall mem k rest, ix_key mem = Ret k -> ix_key (mem ++ rest) = Ret k;
  ix_init_is : forall n o, 0 < n -> ix_init n = Ret (Some o) -> ix_is o n ∅;
  ix_add_is : forall o n m mem k v, ix_is o n m -> ix_key mem = Ret k -> ix_key_ok k ->
    m !! k = None -> Z.of_nat (size m) < n ->
    exists o' a, ix_add o mem v = Ret o' /\ ix_is o' n (<[k := (a, v)]> m);
  ix_delete_is : forall o n m mem k, ix_is o n m -> ix_key mem = Ret k -> ix_key_ok k ->
    exists o', ix_delete o mem = Ret o' /\ ix_is o' n (delete k m);
  ix_get_is : forall o n m mem k, ix_is o n m -> ix_key mem = Ret k -> ix_key_ok k ->
    ix_get o mem = Ret (match m !! k with Some (a, _) => a | None => 0 end);
  ix_node : forall o n m k a v, ix_is o n m -> m !! k = Some (a, v) -> a <> 0 /\ ix_key_ok k /\
    ix_load o a = Ret v /\
    forall v', exists o', ix_store o a v' = Ret o' /\ ix_is o' n (<[k := (a, v')]> m);
  ix_walk : forall o n m, ix_is o n m -> exists l, l ≡ₚ map_to_list m /\
    ix_fetch o 0 = Ret (match l with kv :: _ => kv.2.1 | [] => 0 end) /\
    forall pre kv post, l = pre ++ kv :: post ->
      ix_fetch o kv.2.1 = Ret (match post with kv' :: _ => kv'.2.1 | [] => 0 end);
  ix_close_is : forall o n m, ix_is o n m -> ix_close o = Ret tt }.

(** ** Both hash tables: chains of nodes that keep the bucket with the row *)
Section MapTable.
Context {K : Type} `{Countable K}.
Implicit Types (t : table K (Z * SRowMeta)) (m : gmap K (Z * SRowMeta)).

(** The loop of the fetch functions over the buckets, and its start. *)
Definition fetch_node (t : table K (Z * SRowMeta)) (ptr : Z) : res Z :=
  let! '(hash, pNode) :=
    if negb (ptr =? 0) then
      let! n := load (heap t) ptr in Ret ((data n).1 + 1, next n)
    else Ret (0, 0) in
  Ret (if pNode =? 0 then first_node (drop (Z.to_nat hash) (hashList t)) else pNode).

Definition load_meta (t : table K (Z * SRowMeta)) (a : Z) : res SRowMeta :=
  let! n := load (heap t) a in Ret (data n).2.

Definition store_meta (t : table K (Z * SRowMeta)) (a : Z) (v : SRowMeta) : res (table K (Z * SRowMeta)) :=
  let! n := load (heap t) a in
  let! h := set_data a ((data n).1, v) (heap t) in Ret (set_heap h t).

(** The hash function on the keys that may be stored. *)
Context (hash : K -> Z) (ok : K -> Prop).

Definition hf (k : K) : res Z := Ret (hash k).

Definition view m (k : K) : list (Z * (Z * SRowMeta)) :=
  match m !! k with Some (a, v) => [(a, (hash k, v))] | None => [] end.

Record map_table t m : Prop := {
  mt_range : forall k, ok k -> 0 <= hash k < Z.of_nat (length (hashList t));
  mt_stacks : stacks hf t (view m);
  mt_keys : forall k, is_Some (m !! k) -> ok k }.

Lemma map_in_table t m k : map_table t m -> ok k -> in_table hf t k (hash k).
Proof using. intros Ht Hk. split; [done|]. by apply (mt_range _ _ Ht). Qed.

Lemma stacks_ext t (s s' : K -> list (Z * (Z * SRowMeta))) : (forall k, s k = s' k) ->
  stacks hf t s -> stacks hf t s'.
Proof using. intros He (bs & Hch & Hm). exists bs. split; [done|]. intros k h Hk. by rewrite <- He, (Hm k h). Qed.

Lemma view_insert m k a v x :
  set_stack k [(a, (hash k, v))] (view m) x = view (<[k := (a, v)]> m) x.
Proof using.
  unfold view. destruct (decide (x = k)) as [->|Hne].
  - by rewrite set_stack_same, lookup_insert_eq.
  - by rewrite set_stack_other, lookup_insert_ne.
Qed.

Lemma view_delete m k x : set_stack k [] (view m) x = view (delete k m) x.
Proof using.
  unfold view. destruct (decide (x = k)) as [->|Hne].
  - by rewrite set_stack_same, lookup_delete_eq.
  - by rewrite set_stack_other, lookup_delete_ne.
Qed.

(** The nodes in memory are those of the map. *)
Lemma map_table_dom t m a : map_table t m ->
  is_Some (heap t !! a) <-> exists k v, m !! k = Some (a, v).
Proof using.
  intros Ht. pose proof (mt_stacks _ _ Ht) as (bs & Hch & Hm). split.
  - intros Ha%(ch_dom _ _ _ Hch). unfold addresses in Ha.
    rewrite <- concat_map in Ha. apply list_elem_of_fmap in Ha as (e & -> & He).
    pose proof (entries_stack _ _ _ _ _ Hch Hm He) as Hin. unfold view in Hin.
    destruct (m !! ekey e) as [[a v]|] eqn:E; [|by apply elem_of_nil in Hin].
    apply list_elem_of_singleton in Hin as [= -> _]. by exists (ekey e), v.
  - intros (k & v & E). destruct (find_stacks _ _ _ k (hash k) (mt_stacks _ _ Ht)) as [_ Hf].
    { apply (map_in_table _ _ _ Ht), (mt_keys _ _ Ht). by eexists. }
    unfold view in Hf. rewrite E in Hf. apply Forall_cons_1 in Hf as [(_ & n & Hn & _) _]. by exists n.
Qed.

Lemma map_table_empty n : (forall k, ok k -> 0 <= hash k < n) -> map_table (empty_table n) ∅.
Proof using.
  intros Hr. constructor.
  - intros k Hk. cbn [hashList empty_table]. rewrite length_replicate. specialize (Hr k Hk). lia.
  - apply (stacks_ext _ (fun _ => [])); [|apply stacks_empty]. intros k. unfold view. by rewrite lookup_empty.
  - intros k [? E]. by rewrite lookup_empty in E.
Qed.

Lemma map_table_add t m k a v : map_table t m -> ok k -> m !! k = None -> a <> 0 -> heap t !! a = None ->
  exists t', push_node t (hash k) a k (hash k, v) = Ret t' /\ map_table t' (<[k := (a, v)]> m) /\
    length (hashList t') = length (hashList t).
Proof using.
  intros Ht Hk Hm Ha Hf.
  destruct (push_stacks _ _ _ k (hash k) a (hash k, v) (mt_stacks _ _ Ht) (map_in_table _ _ _ Ht Hk) Ha Hf)
    as (t' & Hp & Hl & Hs & _).
  exists t'. split; [done|]. split; [|done]. constructor.
  - intros k' Hk'. rewrite Hl. by apply (mt_range _ _ Ht).
  - apply (stacks_ext _ _ _ (view_insert m k a v)). unfold view in Hs at 1. by rewrite Hm in Hs.
  - intros k' Hs'. destruct (decide (k' = k)) as [->|Hne]; [done|].
    rewrite lookup_insert_ne in Hs' by done. by apply (mt_keys _ _ Ht).
Qed.

Lemma map_table_find t m k : map_table t m -> ok k ->
  find_in t (hash k) k = Ret (match m !! k with Some (a, _) => a | None => 0 end).
Proof using.
  intros Ht Hk. destruct (find_stacks _ _ _ k _ (mt_stacks _ _ Ht) (map_in_table _ _ _ Ht Hk)) as [-> _].
  unfold view. by destruct (m !! k) as [[a v]|].
Qed.

Lemma map_table_node t m k a v : map_table t m -> m !! k = Some (a, v) ->
  a <> 0 /\ ok k /\ exists n, heap t !! a = Some n /\ key n = k /\ data n = (hash k, v).
Proof using.
  intros Ht E. assert (Hk : ok k) by (apply (mt_keys _ _ Ht); by eexists).
  destruct (find_stacks _ _ _ k _ (mt_stacks _ _ Ht) (map_in_table _ _ _ Ht Hk)) as [_ Hf].
  unfold view in Hf. rewrite E in Hf. apply Forall_cons_1 in Hf as [(Ha & n & Hn & Hkn & Hd) _].
  split; [done|]. split; [done|]. by exists n.
Qed.

Lemma map_table_delete t m k a v : map_table t m -> m !! k = Some (a, v) ->
  exists t1 hp, unlink_node t (hash k) a = Ret t1 /\ free_node a (heap t1) = Ret hp /\
    map_table (set_heap hp t1) (delete k m) /\ length (hashList t1) = length (hashList t).
Proof using.
  intros Ht E. destruct (map_table_node _ _ _ _ _ Ht E) as (_ & Hk & _).
  destruct (delete_stacks _ _ _ k (hash k) a (hash k, v) [] (mt_stacks _ _ Ht) (map_in_table _ _ _ Ht Hk))
    as (t1 & hp & Hu & Hf & Hl & Hs & _).
  { unfold view. by rewrite E. }
  exists t1, hp. split; [done|]. split; [done|]. split; [|done]. constructor.
  - intros k' Hk'. cbn [hashList set_heap]. rewrite Hl. by apply (mt_range _ _ Ht).
  - by apply (stacks_ext _ _ _ (view_delete m k)).
  - intros k' Hs'. destruct (decide (k' = k)) as [->|Hne]; [done|].
    rewrite lookup_delete_ne in Hs' by done. by apply (mt_keys _ _ Ht).
Qed.

Lemma map_table_store t m k a v v' : map_table t m -> m !! k = Some (a, v) ->
  exists t', store_meta t a v' = Ret t' /\ map_table t' (<[k := (a, v')]> m) /\
    length (hashList t') = length (hashList t) /\ dom (heap t') = dom (heap t).
Proof using.
  intros Ht E. destruct (map_table_node _ _ _ _ _ Ht E) as (_ & Hk & n & Hn & _ & Hd).
  destruct (set_data_stacks _ _ _ k (hash k) a (hash k, v) (hash k, v') [] (mt_stacks _ _ Ht)
    (map_in_table _ _ _ Ht Hk)) as (hp & Hset & Hs & Hdata); [unfold view; by rewrite E|].
  unfold store_meta, load. rewrite Hn. cbn [rbind]. rewrite Hd. cbn [fst]. rewrite Hset. cbn [rbind].
  eexists. split; [done|]. cbn [hashList heap set_heap]. split; [|split; [done|]].
  - constructor; [apply (mt_range _ _ Ht)| |].
    + by apply (stacks_ext _ _ _ (view_insert m k a v')).
    + intros k' Hs'. destruct (decide (k' = k)) as [->|Hne]; [done|].
      rewrite lookup_insert_ne in Hs' by done. by apply (mt_keys _ _ Ht).
  - rewrite <- (dom_fmap_L data hp), Hdata, dom_insert_L, dom_fmap_L.
    assert (a ∈ dom (heap t)) by (apply elem_of_dom; by exists n).
    apply subseteq_union_1_L. by apply singleton_subseteq_l.
Qed.

Definition entry_row (e : entry) : K * (Z * SRowMeta) := (ekey e, (addr e, (e.2 : Z * SRowMeta).2)).

Lemma map_table_walk t m : map_table t m -> exists l, l ≡ₚ map_to_list m /\
  fetch_node t 0 = Ret (match l with kv :: _ => kv.2.1 | [] => 0 end) /\
  forall pre kv post, l = pre ++ kv :: post ->
    fetch_node t kv.2.1 = Ret (match post with kv' :: _ => kv'.2.1 | [] => 0 end).
Proof using.
  intros Ht. pose proof (mt_stacks _ _ Ht) as (bs & Hch & Hm).
  assert (Hin : forall e, e ∈ entries bs -> m !! ekey e = Some (entry_row e).2).
  { intros e He. pose proof (entries_stack _ _ _ _ _ Hch Hm He) as Hin. unfold view in Hin.
    destruct (m !! ekey e) as [[a v]|] eqn:E; [|by apply elem_of_nil in Hin].
    apply list_elem_of_singleton in Hin as [= Ha Hv]. unfold entry_row. by rewrite Ha, Hv. }
  assert (Hhead : forall l : list entry,
    head_addr l = match map entry_row l with kv :: _ => kv.2.1 | [] => 0 end) by (by intros []).
  exists (map entry_row (entries bs)). split; [|split].
  - apply NoDup_Permutation; [|apply NoDup_map_to_list|].
    + pose proof (ch_nodup _ _ _ Hch) as Hnd. unfold addresses in Hnd. rewrite <- concat_map in Hnd.
      apply (NoDup_fmap_1 (fun kv : K * (Z * SRowMeta) => kv.2.1)).
      unfold entries. change (fmap ?f (map ?g ?l)) with (map f (map g l)). rewrite map_map. exact Hnd.
    + intros [k [a v]]. rewrite elem_of_map_to_list. split.
      * intros (e & [= -> -> ->] & He)%list_elem_of_fmap. by rewrite (Hin e He).
      * intros E. destruct (map_table_node _ _ _ _ _ Ht E) as (_ & Hk & _).
        pose proof (Hm k (hash k) (map_in_table _ _ _ Ht Hk)) as Hv. unfold view in Hv. rewrite E in Hv.
        unfold stack in Hv. destruct (bs !! Z.to_nat (hash k)) as [l|] eqn:El; [|done].
        cbn [default from_option Datatypes.id] in Hv.
        assert (Hx : (a, (hash k, v)) ∈ map (fun e : entry => (addr e, e.2)) (filter (fun e : entry => ekey e = k) l))
          by (rewrite <- Hv; by constructor).
        apply list_elem_of_fmap in Hx as (e & [= -> Ee] & [<- He]%list_elem_of_filter).
        apply list_elem_of_fmap. exists e. split; [unfold entry_row; by rewrite <- Ee|].
        apply list_elem_of_In, in_concat. exists l. split; apply list_elem_of_In; [|done].
        by eapply list_elem_of_lookup_2.
  - unfold fetch_node. cbn [Z.eqb negb rbind]. rewrite <- Hhead. change (Z.to_nat 0) with 0%nat.
    by rewrite (first_node_spec _ _ _ 0 Hch), drop_0.
  - intros pre kv post Hl.
    apply map_eq_app in Hl as (pre' & r & He & <- & Hr). apply map_eq_cons in Hr as (e & post' & -> & <- & <-).
    rewrite <- Hhead.
    assert (Hei : e ∈ entries bs) by (rewrite He; apply elem_of_app; right; by constructor).
    assert (Hok : ok (ekey e)) by (apply (mt_keys _ _ Ht); rewrite (Hin e Hei); by eexists).
    pose proof (mt_range _ _ Ht _ Hok) as Hrg.
    destruct (next_entry hf t bs pre' e post' (Z.to_nat (hash (ekey e))) Hch He) as (n & Hn & _ & Hd & Hnz & Hnext).
    { unfold hf. f_equal. lia. }
    destruct (map_table_node _ _ _ _ _ Ht (Hin e Hei)) as (_ & _ & n' & Hn' & _ & Hd').
    cbn [entry_row fst snd] in Hn' |- *. assert (n' = n) as -> by congruence.
    unfold fetch_node. rewrite (proj2 (Z.eqb_neq _ _) Hnz). cbn [negb]. unfold load. rewrite Hn. cbn [rbind].
    rewrite Hd'. cbn [fst]. rewrite <- Hnext. f_equal.
    replace (Z.to_nat (hash (ekey e) + 1)) with (S (Z.to_nat (hash (ekey e)))) by lia. done.
Qed.
End MapTable.
