(* ===== verification/SdbHashInt.v ===== *)
(** * The index by integer (src/src/sdb/src/hashint.c)

    The nodes are blocks of a memory pool, which lies at [pool_base]; what they
    hold is seen through the chains of Chain.v.  The operations implement the
    interface of SdbIndex.v for [SDB_KEYTYPE_UINT32] and [SDB_KEYTYPE_AUTO]. *)
From S2P Require Import Prelude Ring MemPool Chain SdbIndex.

(** Where [malloc] puts the pool, and what fresh memory holds. *)
Class PoolMemory := { pool_base : Z; pool_base_pos : 0 < pool_base; pool_junk : Z }.

(** [SLongHash]: the key, the links, and as data the bucket and the row. *)
Definition SLongHash : Type := node Z (Z * SRowMeta).
Definition SIZEOF_SLongHash : Z := 24.

Record SHashObj := {
  longHashList : table Z (Z * SRowMeta);
  longHashMemPool : pool_t;
  maxSessions : Z;
  dataSize : Z }.

Definition set_tab (t : table Z (Z * SRowMeta)) (p : pool_t) (o : SHashObj) : SHashObj :=
  {| longHashList := t; longHashMemPool := p; maxSessions := maxSessions o; dataSize := dataSize o |}.

Definition int_key (mem : list Z) : res Z := let! b := rd mem 0 4 in Ret (le_val b).

Definition sdbHashLong (maxSessions ip : Z) : Z :=
  Z.rem (i32 (Z.shiftr ip 16 + Z.land ip 65535)) maxSessions.

Section Ops.
Context `{PoolMemory}.

Definition sdbAddIntHash (o : SHashObj) (pKey : list Z) (d : SRowMeta) : res SHashObj :=
  let! key := int_key pKey in
  if maxSessions o =? 0 then Ret o else
  let hash := sdbHashLong (maxSessions o) key in
  let! '(pNode, p) := taosMemPoolMalloc (longHashMemPool o) in
  match pNode with
  | None => Undef
  | Some pos =>
      let! t := push_node (longHashList o) hash (pool_base + pos) key (hash, d) in
      Ret (set_tab t p o)
  end.

Definition sdbDeleteIntHash (o : SHashObj) (pKey : list Z) : res SHashObj :=
  let! key := int_key pKey in
  if maxSessions o =? 0 then Ret o else
  let hash := sdbHashLong (maxSessions o) key in
  let! pNode := find_in (longHashList o) hash key in
  if pNode =? 0 then Ret o else
  let! t := unlink_node (longHashList o) hash pNode in
  let! h := free_node pNode (heap t) in
  let! p := taosMemPoolFree (longHashMemPool o) (Some (pNode - pool_base)) in
  Ret (set_tab (set_heap h t) p o).

Definition sdbGetIntHashData (o : SHashObj) (pKey : list Z) : res Z :=
  let! key := int_key pKey in
  if maxSessions o =? 0 then Ret 0 else
  find_in (longHashList o) (sdbHashLong (maxSessions o) key) key.

(** All calls of [malloc] succeed. *)
Definition sdbOpenIntHash (maxSessions0 dataSize0 : Z) : res (option SHashObj) :=
  let! pool := taosMemPoolInit true pool_junk maxSessions0 (SIZEOF_SLongHash + dataSize0) in
  Ret (match pool with
       | None => None
       | Some p => Some {| longHashList := empty_table maxSessions0; longHashMemPool := p;
                           maxSessions := maxSessions0; dataSize := dataSize0 |}
       end).

Definition sdbFetchIntHashData (o : SHashObj) (ptr : Z) : res Z :=
  if maxSessions o <=? 0 then Ret 0 else fetch_node (longHashList o) ptr.
End Ops.

(** Closing gives the pool and the buckets back, without a look at the nodes. *)
#[export] Instance int_index `{PoolMemory} : SdbIndex SHashObj := {
  ix_init n := sdbOpenIntHash n SIZEOF_SRowMeta;
  ix_add := sdbAddIntHash;
  ix_delete := sdbDeleteIntHash;
  ix_get := sdbGetIntHashData;
  ix_fetch := sdbFetchIntHashData;
  ix_load o a := load_meta (longHashList o) a;
  ix_store o a v := let! t := store_meta (longHashList o) a v in Ret (set_tab t (longHashMemPool o) o);
  ix_close o := Ret tt }.

(** ** It implements the interface *)
Section Laws.
Context `{PoolMemory}.

Definition int_key_ok (k : Z) : Prop := in_u 32 k.

(** The blocks handed out by the pool are the nodes of the map. *)
Record int_is (o : SHashObj) (n : Z) (m : gmap Z (Z * SRowMeta)) : Prop := {
  ii_max : maxSessions o = n /\ 0 < n;
  ii_len : Z.of_nat (length (hashList (longHashList o))) = n;
  ii_map : map_table (sdbHashLong n) int_key_ok (longHashList o) m;
  ii_pool : exists held, mem_inv (longHashMemPool o) held /\ numOfBlock (longHashMemPool o) = n /\
    map (fun h => pool_base + h.1) held ≡ₚ map (fun kv => kv.2.1) (map_to_list m) }.

Lemma hash_long_range n k : 0 < n -> int_key_ok k -> 0 <= sdbHashLong n k < n.
Proof using.
  intros Hn Hk. unfold sdbHashLong, int_key_ok, in_u in *.
  change 65535 with (2 ^ 16 - 1). rewrite land_mask, Z.shiftr_div_pow2 by lia.
  pose proof (Z.mod_pos_bound k (2 ^ 16) ltac:(lia)).
  assert (0 <= k / 2 ^ 16 < 2 ^ 16) by (split; [apply Z.div_pos; lia|apply Z.div_lt_upper_bound; lia]).
  rewrite (wraps_id 32) by (unfold in_s; lia). rewrite rem_mod by lia. apply Z.mod_pos_bound. lia.
Qed.

Lemma int_is_keep o n m t m' p held : int_is o n m ->
  length (hashList t) = length (hashList (longHashList o)) ->
  map_table (sdbHashLong n) int_key_ok t m' -> mem_inv p held -> numOfBlock p = n ->
  map (fun h => pool_base + h.1) held ≡ₚ map (fun kv => kv.2.1) (map_to_list m') ->
  int_is (set_tab t p o) n m'.
Proof using.
  intros [H1 H2 _ _] Hl Hm Hp Hb Hperm. constructor; cbn [maxSessions longHashList longHashMemPool set_tab];
    [done|by rewrite Hl|done|]. by exists held.
Qed.

Lemma int_add o n m mem k v : int_is o n m -> int_key mem = Ret k -> int_key_ok k ->
  m !! k = None -> Z.of_nat (size m) < n ->
  exists o' a, sdbAddIntHash o mem v = Ret o' /\ int_is o' n (<[k := (a, v)]> m).
Proof using.
  intros Hi Hk Hok Hm Hsz. pose proof Hi as [[Hmax Hn] Hl Ht (held & Hmi & Hnb & Hperm)].
  assert (Hlen : length held = size m).
  { apply Permutation_length in Hperm. rewrite !length_map in Hperm. by rewrite Hperm, length_map_to_list. }
  assert (Hfree : numOfFree (longHashMemPool o) <> 0).
  { pose proof (mi_perm _ _ Hmi) as Hp. apply Permutation_length in Hp.
    rewrite length_app, length_map, length_seqZ, Hnb in Hp. pose proof (wf_free _ (mi_wf _ _ Hmi)).
    pose proof (wf_len _ (mi_wf _ _ Hmi)).
    pose proof (length_ring (freeList (longHashMemPool o)) (first (longHashMemPool o)) (numOfFree (longHashMemPool o))).
    unfold free_blocks in Hp. lia. }
  destruct (malloc_spec _ _ Hmi Hfree) as (b & p & Hma & Hb & _ & Hnb' & Hmi').
  set (pos := blockSize (longHashMemPool o) * b) in *. pose proof pool_base_pos as Hbase.
  assert (Hpos : 0 <= pos) by (unfold pos; pose proof (wf_size _ (mi_wf _ _ Hmi)); nia).
  assert (Hfresh : heap (longHashList o) !! (pool_base + pos) = None).
  { destruct (heap (longHashList o) !! (pool_base + pos)) eqn:E; [|done]. exfalso.
    destruct (proj1 (map_table_dom _ _ _ _ (pool_base + pos) Ht)) as (k' & v' & E'); [by eexists|].
    assert (Hin : pool_base + pos ∈ map (fun h : Z * list Z => pool_base + h.1) held).
    { rewrite Hperm. apply list_elem_of_fmap. exists (k', (pool_base + pos, v')). split; [done|].
      by apply elem_of_map_to_list. }
    apply list_elem_of_fmap in Hin as ([a bs] & Ea & Hin). cbn [fst] in Ea. assert (a = pos) as -> by lia.
    pose proof (mi_perm _ _ Hmi') as Hp'. assert (Hnd : NoDup (free_blocks p ++ map (fun h : Z * list Z => h.1 / blockSize p)
      ((pos, replicate (Z.to_nat (blockSize (longHashMemPool o))) 0) :: held))) by (rewrite Hp'; apply NoDup_seqZ).
    apply NoDup_app in Hnd as (_ & _ & Hnd). cbn [map fst] in Hnd. apply NoDup_cons in Hnd as [Hni _].
    apply Hni. apply list_elem_of_fmap. by exists (pos, bs). }
  assert (Hnz : pool_base + pos <> 0) by lia.
  destruct (map_table_add _ _ _ _ k (pool_base + pos) v Ht Hok Hm Hnz Hfresh) as (t & Hp & Ht' & Hl').
  unfold sdbAddIntHash. rewrite Hk. cbn [rbind]. rewrite (proj2 (Z.eqb_neq _ 0)) by lia.
  rewrite Hma. cbn [rbind]. rewrite Hmax, Hp. cbn [rbind]. eexists _, (pool_base + pos). split; [done|].
  eapply (int_is_keep _ _ m); [done|done|done|exact Hmi'|lia|].
  rewrite map_to_list_insert by done. cbn [map fst snd]. by rewrite Hperm.
Qed.

Lemma int_get o n m mem k : int_is o n m -> int_key mem = Ret k -> int_key_ok k ->
  sdbGetIntHashData o mem = Ret (match m !! k with Some (a, _) => a | None => 0 end).
Proof using.
  intros [[Hmax Hn] Hl Ht _] Hk Hok. unfold sdbGetIntHashData. rewrite Hk. cbn [rbind].
  rewrite (proj2 (Z.eqb_neq _ 0)) by lia. rewrite Hmax. by apply (map_table_find _ _ _ _ _ Ht).
Qed.

Lemma int_delete o n m mem k : int_is o n m -> int_key mem = Ret k -> int_key_ok k ->
  exists o', sdbDeleteIntHash o mem = Ret o' /\ int_is o' n (delete k m).
Proof using.
  intros Hi Hk Hok. pose proof Hi as [[Hmax Hn] Hl Ht (held & Hmi & Hnb & Hperm)].
  unfold sdbDeleteIntHash. rewrite Hk. cbn [rbind]. rewrite (proj2 (Z.eqb_neq _ 0)) by lia.
  rewrite Hmax, (map_table_find _ _ _ _ _ Ht Hok). cbn [rbind]. destruct (m !! k) as [[a v]|] eqn:E.
  - destruct (map_table_node _ _ _ _ _ _ _ Ht E) as (Ha & _ & _). rewrite (proj2 (Z.eqb_neq _ _) Ha).
    destruct (map_table_delete _ _ _ _ _ _ _ Ht E) as (t & hp & -> & Hf & Ht' & Hl'). cbn [rbind].
    rewrite Hf. cbn [rbind].
    assert (Hin : a ∈ map (fun h : Z * list Z => pool_base + h.1) held).
    { rewrite Hperm. apply list_elem_of_fmap. exists (k, (a, v)). split; [done|]. by apply elem_of_map_to_list. }
    apply list_elem_of_fmap in Hin as ([pos bs] & -> & Hin). cbn [fst] in *.
    apply list_elem_of_split in Hin as (h1 & h2 & ->).
    destruct (free_spec _ _ _ _ _ Hmi) as (p & Hfr & _ & Hnb' & Hmi').
    replace (pool_base + pos - pool_base) with pos by lia. rewrite Hfr. cbn [rbind].
    eexists. split; [done|]. eapply (int_is_keep _ _ m); [done|by rewrite <- Hl'|done|exact Hmi'|lia|].
    rewrite <- (map_to_list_delete m k (pool_base + pos, v) E), map_app in Hperm. cbn [map fst snd] in Hperm.
    rewrite <- Permutation_middle in Hperm. rewrite map_app. by apply (Permutation_cons_inv Hperm).
  - exists o. split; [done|]. by rewrite delete_id.
Qed.

Lemma int_node o n m k a v : int_is o n m -> m !! k = Some (a, v) -> a <> 0 /\ int_key_ok k /\
  load_meta (longHashList o) a = Ret v /\
  forall v', exists o', (let! t := store_meta (longHashList o) a v' in Ret (set_tab t (longHashMemPool o) o)) = Ret o' /\
    int_is o' n (<[k := (a, v')]> m).
Proof using.
  intros Hi E. pose proof Hi as [[Hmax Hn] Hl Ht (held & Hmi & Hnb & Hperm)].
  destruct (map_table_node _ _ _ _ _ _ _ Ht E) as (Ha & Hok & nd & Hnd & _ & Hd).
  split; [done|]. split; [done|]. split; [unfold load_meta, load; rewrite Hnd; cbn [rbind]; by rewrite Hd|].
  intros v'. destruct (map_table_store _ _ _ _ _ _ _ v' Ht E) as (t & -> & Ht' & Hl' & _). cbn [rbind].
  eexists. split; [done|]. eapply (int_is_keep _ _ m); [done|done|done|exact Hmi|done|].
  rewrite Hperm, <- (map_to_list_delete m k (a, v) E), <- (insert_delete_eq m k (a, v')).
  rewrite map_to_list_insert by apply lookup_delete_eq. done.
Qed.

Lemma int_key_rd mem k : int_key mem = Ret k -> exists b rest, mem = b ++ rest /\ length b = 4%nat /\ k = le_val b.
Proof using.
  intros Hk. apply rbind_Ret_inv in Hk as (b & Hr & [= <-]). apply rd_Ret in Hr as (a & c & -> & Ha & Hb).
  destruct a; [|done]. exists b, c. split; [done|]. split; [lia|done].
Qed.

Lemma int_key_of b rest : length b = 4%nat -> int_key (b ++ rest) = Ret (le_val b).
Proof using. intros Hb. unfold int_key. rewrite (rd_app_mid [] b rest) by (cbn; lia). done. Qed.

#[export] Instance int_index_laws : SdbIndexLaws SHashObj Z.
Proof using.
  refine {| ix_kind kt := kt = SDB_KEYTYPE_UINT32 \/ kt = SDB_KEYTYPE_AUTO;
    ix_key := int_key; ix_key_ok := int_key_ok; ix_is := int_is |}.
  - intros kt mem k n b rest Hkt (b4 & r & -> & Hl & ->)%int_key_rd Hn Hr.
    assert (Hn4 : 4 <= n) by (destruct Hkt as [-> | ->]; injection Hn as <-; lia).
    apply rd_Ret in Hr as (a & c & E & Ha & Hb). destruct a; [|done]. cbn [app] in E.
    assert (b = b4 ++ drop 4 b) as ->.
    { rewrite <- (take_drop 4 b) at 1. f_equal. apply (f_equal (take 4)) in E.
      rewrite !take_app_le, (take_ge b4) in E by lia. done. }
    rewrite <- app_assoc. by apply int_key_of.
  - intros mem k rest (b4 & r & -> & Hl & ->)%int_key_rd. rewrite <- app_assoc. by apply int_key_of.
  - cbn [ix_init int_index]. unfold sdbOpenIntHash. intros n o _ Ho.
    apply rbind_Ret_inv in Ho as ([p|] & Hp & [= <-]).
    destruct (init_mem_inv _ _ _ _ _ Hp) as (Hmi & Hnb & _). pose proof (wf_blocks _ (mi_wf _ _ Hmi)).
    constructor; cbn [maxSessions longHashList longHashMemPool hashList empty_table].
    + split; [done|lia].
    + rewrite length_replicate. lia.
    + apply map_table_empty. intros k Hk. apply hash_long_range; [lia|done].
    + exists []. done.
  - apply int_add.
  - apply int_delete.
  - apply int_get.
  - apply int_node.
  - intros o n m [[Hmax Hn] _ Ht _]. cbn [ix_fetch int_index]. unfold sdbFetchIntHashData.
    rewrite (proj2 (Z.leb_gt _ _)) by lia. by apply map_table_walk in Ht.
  - done.
Defined.
End Laws.
