(* ===== verification/SdbHashStr.v ===== *)
(** * The index by string (src/src/sdb/src/hashstr.c)

    Nodes come from [malloc], modelled as a counter: it never fails and never
    gives the same address twice.  The operations implement the interface of
    SdbIndex.v for [SDB_KEYTYPE_STRING]. *)
From S2P Require Import Prelude Chain SdbIndex.

Definition TSDB_METER_ID_LEN : Z := 32 + 64 + 2 * 1 + 9 + 10.

(** [SHashNode]: the string, the links, and as data the bucket and the row. *)
Definition SHashNode : Type := node (list Z) (Z * SRowMeta).

(** [brk] is the address the next [malloc] returns. *)
Record SHashObj := {
  hashTable : table (list Z) (Z * SRowMeta);
  maxSessions : Z;
  dataSize : Z;
  brk : Z }.

Definition set_tab (t : table (list Z) (Z * SRowMeta)) (brk : Z) (o : SHashObj) : SHashObj :=
  {| hashTable := t; maxSessions := maxSessions o; dataSize := dataSize o; brk := brk |}.

(** The two loops of [sdbHashString]: words of four bytes, then single bytes. *)
Definition sum_bytes (s : list Z) (hash : Z) : Z := fold_left (fun h c => u32 (h + i8 c)) s hash.

Fixpoint sum_words (s : list Z) (hash : Z) : Z :=
  match s with
  | a :: b :: c :: d :: s => sum_words s (u32 (hash + i32 (le_val [a; b; c; d])))
  | _ => sum_bytes s hash
  end.

Definition sdbHashString (maxSessions : Z) (string : list Z) : Z :=
  let hash := sum_words string 0 in
  let hashv := hash / maxSessions in
  u32 (hashv + hash mod maxSessions) mod maxSessions.

(** [strcpy] into the node is undefined for a string that does not fit. *)
Definition sdbAddStrHash (o : SHashObj) (key : list Z) (d : SRowMeta) : res SHashObj :=
  if maxSessions o =? 0 then Ret o else
  let! string := c_string key in
  let hash := sdbHashString (maxSessions o) string in
  let pNode := brk o in
  if TSDB_METER_ID_LEN <=? Z.of_nat (length string) then Undef else
  let! t := push_node (hashTable o) hash pNode string (hash, d) in
  Ret (set_tab t (brk o + 1) o).

Definition sdbDeleteStrHash (o : SHashObj) (key : list Z) : res SHashObj :=
  if maxSessions o =? 0 then Ret o else
  let! string := c_string key in
  let hash := sdbHashString (maxSessions o) string in
  let! pNode := find_in (hashTable o) hash string in
  if pNode =? 0 then Ret o else
  let! t := unlink_node (hashTable o) hash pNode in
  let! h := free_node pNode (heap t) in
  Ret (set_tab (set_heap h t) (brk o) o).

Definition sdbGetStrHashData (o : SHashObj) (key : list Z) : res Z :=
  if maxSessions o =? 0 then Ret 0 else
  let! string := c_string key in
  find_in (hashTable o) (sdbHashString (maxSessions o) string) string.

(** A negative size is too large for [malloc]. *)
Definition sdbOpenStrHash (maxSessions0 dataSize0 : Z) : option SHashObj :=
  if maxSessions0 <? 0 then None
  else Some {| hashTable := empty_table maxSessions0; maxSessions := maxSessions0;
               dataSize := dataSize0; brk := 1 |}.

(** The nodes that are left when all have been freed. *)
Definition sdbCloseStrHash (o : SHashObj) : res (gmap Z SHashNode) :=
  if maxSessions o <=? 0 then Ret (heap (hashTable o))
  else free_buckets (find_fuel (hashTable o)) (heap (hashTable o)) (hashList (hashTable o)).

Definition sdbFetchStrHashData (o : SHashObj) (ptr : Z) : res Z :=
  if maxSessions o <=? 0 then Ret 0 else fetch_node (hashTable o) ptr.

#[export] Instance str_index : SdbIndex SHashObj := {
  ix_init n := Ret (sdbOpenStrHash n SIZEOF_SRowMeta);
  ix_add := sdbAddStrHash;
  ix_delete := sdbDeleteStrHash;
  ix_get := sdbGetStrHashData;
  ix_fetch := sdbFetchStrHashData;
  ix_load o a := load_meta (hashTable o) a;
  ix_store o a v := let! t := store_meta (hashTable o) a v in Ret (set_tab t (brk o) o);
  ix_close o := let! _ := sdbCloseStrHash o in Ret tt }.

(** ** It implements the interface *)
Definition str_key_ok (s : list Z) : Prop := Z.of_nat (length s) < TSDB_METER_ID_LEN.

Record str_is (o : SHashObj) (n : Z) (m : gmap (list Z) (Z * SRowMeta)) : Prop := {
  si_max : maxSessions o = n /\ 0 < n;
  si_len : Z.of_nat (length (hashList (hashTable o))) = n;
  si_map : map_table (sdbHashString n) str_key_ok (hashTable o) m;
  si_brk : 0 < brk o /\ forall a, is_Some (heap (hashTable o) !! a) -> a < brk o }.

Lemma hash_string_range n s : 0 < n -> 0 <= sdbHashString n s < n.
Proof. intros. apply Z.mod_pos_bound. lia. Qed.

Lemma str_add o n m mem k v : str_is o n m -> c_string mem = Ret k -> str_key_ok k ->
  m !! k = None ->
  exists o' a, sdbAddStrHash o mem v = Ret o' /\ str_is o' n (<[k := (a, v)]> m).
Proof.
  intros [[Hmax Hn] Hl Ht [Hb Hfr]] Hk Hok Hm.
  assert (Hfresh : heap (hashTable o) !! brk o = None).
  { destruct (heap (hashTable o) !! brk o) eqn:E; [|done]. specialize (Hfr (brk o) ltac:(by eexists)). lia. }
  destruct (map_table_add _ _ _ _ k (brk o) v Ht Hok Hm ltac:(lia) Hfresh) as (t & Hp & Ht' & Hl').
  unfold sdbAddStrHash. rewrite (proj2 (Z.eqb_neq _ 0)), Hk by lia. cbn [rbind].
  unfold str_key_ok in Hok. rewrite (proj2 (Z.leb_gt _ _)) by lia. rewrite Hmax, Hp. cbn [rbind].
  eexists _, (brk o). split; [done|]. constructor; cbn [maxSessions hashTable brk set_tab];
    [done|by rewrite Hl'|done|]. split; [lia|].
  intros a (k' & v' & E)%(map_table_dom _ _ _ _ _ Ht'). destruct (decide (k' = k)) as [->|Hne].
  - rewrite lookup_insert_eq in E. injection E as <- _. lia.
  - rewrite lookup_insert_ne in E by done.
    pose proof (Hfr a (proj2 (map_table_dom _ _ _ _ _ Ht) (ex_intro _ k' (ex_intro _ v' E)))). lia.
Qed.

Lemma str_get o n m mem k : str_is o n m -> c_string mem = Ret k -> str_key_ok k ->
  sdbGetStrHashData o mem = Ret (match m !! k with Some (a, _) => a | None => 0 end).
Proof.
  intros [[Hmax Hn] Hl Ht _] Hk Hok. unfold sdbGetStrHashData.
  rewrite (proj2 (Z.eqb_neq _ 0)), Hk by lia. cbn [rbind]. rewrite Hmax. by apply (map_table_find _ _ _ _ _ Ht).
Qed.

Lemma str_delete o n m mem k : str_is o n m -> c_string mem = Ret k -> str_key_ok k ->
  exists o', sdbDeleteStrHash o mem = Ret o' /\ str_is o' n (delete k m).
Proof.
  intros [[Hmax Hn] Hl Ht [Hb Hfr]] Hk Hok. unfold sdbDeleteStrHash.
  rewrite (proj2 (Z.eqb_neq _ 0)), Hk by lia. cbn [rbind].
  rewrite Hmax, (map_table_find _ _ _ _ _ Ht Hok). cbn [rbind]. destruct (m !! k) as [[a v]|] eqn:E.
  - destruct (map_table_node _ _ _ _ _ _ _ Ht E) as (Ha & _ & _). rewrite (proj2 (Z.eqb_neq _ _) Ha).
    destruct (map_table_delete _ _ _ _ _ _ _ Ht E) as (t & hp & -> & Hf & Ht' & Hl'). cbn [rbind].
    rewrite Hf. cbn [rbind]. eexists. split; [done|].
    constructor; cbn [maxSessions hashTable brk set_tab]; [done|by rewrite <- Hl, <- Hl'|done|]. split; [done|].
    intros x (k' & v' & E')%(map_table_dom _ _ _ _ _ Ht'). apply Hfr.
    apply lookup_delete_Some in E' as [_ E']. apply (map_table_dom _ _ _ _ _ Ht). by exists k', v'.
  - exists o. split; [done|]. rewrite delete_id by done. by constructor.
Qed.

Lemma str_node o n m k a v : str_is o n m -> m !! k = Some (a, v) -> a <> 0 /\ str_key_ok k /\
  load_meta (hashTable o) a = Ret v /\
  forall v', exists o', (let! t := store_meta (hashTable o) a v' in Ret (set_tab t (brk o) o)) = Ret o' /\
    str_is o' n (<[k := (a, v')]> m).
Proof.
  intros [[Hmax Hn] Hl Ht [Hb Hfr]] E.
  destruct (map_table_node _ _ _ _ _ _ _ Ht E) as (Ha & Hok & nd & Hnd & _ & Hd).
  split; [done|]. split; [done|]. split; [unfold load_meta, load; rewrite Hnd; cbn [rbind]; by rewrite Hd|].
  intros v'. destruct (map_table_store _ _ _ _ _ _ _ v' Ht E) as (t & -> & Ht' & Hl' & Hdom). cbn [rbind].
  eexists. split; [done|]. constructor; cbn [maxSessions hashTable brk set_tab]; [done|by rewrite Hl'|done|].
  split; [done|]. intros x Hx. apply Hfr. apply elem_of_dom. rewrite <- Hdom. by apply elem_of_dom.
Qed.

#[export] Instance str_index_laws : SdbIndexLaws SHashObj (list Z).
Proof.
  refine {| ix_kind kt := kt = SDB_KEYTYPE_STRING;
    ix_key := c_string; ix_key_ok := str_key_ok; ix_is := str_is |}.
  - intros kt mem k n b rest -> Hk Hn Hr. cbn [key_size] in Hn. rewrite Hk in Hn. injection Hn as <-.
    apply c_string_inv in Hk as (r & -> & Hs). apply rd_Ret in Hr as (a & c & E & Ha & Hb).
    destruct a; [|done]. cbn [app] in E.
    assert (b = k ++ [0]) as ->.
    { apply (f_equal (take (length b))) in E. rewrite take_app_length in E. rewrite <- E.
      change (k ++ 0 :: r) with (k ++ [0] ++ r). rewrite app_assoc, take_app_le by (rewrite length_app; cbn; lia).
      rewrite take_ge; [done|]. rewrite length_app. cbn. lia. }
    rewrite <- app_assoc. by apply c_string_of.
  - intros mem k rest Hk. apply c_string_inv in Hk as (r & -> & Hs). rewrite <- app_assoc. by apply c_string_of.
  - cbn [ix_init str_index]. unfold sdbOpenStrHash. intros n o Hn Ho.
    rewrite (proj2 (Z.ltb_ge n 0)) in Ho by lia. injection Ho as <-.
    constructor; cbn [maxSessions hashTable brk hashList empty_table heap].
    + done.
    + rewrite length_replicate. lia.
    + apply map_table_empty. intros k _. by apply hash_string_range.
    + split; [lia|]. intros a [? E]. by rewrite lookup_empty in E.
  - intros o n m mem k v Hi Hk Hok Hm _. by apply str_add.
  - apply str_delete.
  - apply str_get.
  - apply str_node.
  - intros o n m [[Hmax Hn] _ Ht _]. cbn [ix_fetch str_index]. unfold sdbFetchStrHashData.
    rewrite (proj2 (Z.leb_gt _ _)) by lia. by apply map_table_walk in Ht.
  - intros o n m [[Hmax Hn] _ Ht _]. cbn [ix_close str_index]. unfold sdbCloseStrHash.
    destruct (mt_stacks _ _ _ _ Ht) as (bs & Hch & _). rewrite (proj2 (Z.leb_gt _ _)) by lia.
    by rewrite (cleanup_chains _ _ _ Hch).
Defined.
