(* ===== verification/Sdb.v ===== *)
(** * The engine of the management tables (src/src/sdb/src/sdbEngine.c)

    A table keeps its rows in memory, found through an index, and appends every
    change to a log file: records with a checksum, each change closed by a
    commit mark.  Opening a table replays the file.  The objects of the rows
    belong to the application, which the engine calls through [appTool]. *)
From S2P Require Import Prelude Crc32c Chain SdbIndex.

Definition SDB_DELIMITER : Z := 0xFFF00F00.
Definition SDB_ENDCOMMIT : Z := 0xAFFFAAAF.
Definition SIZEOF_HEADER : Z := 24.
Definition SIZEOF_SRowHead : Z := 16.
Definition TSCKSUM : Z := 4.
Definition sdbFileVersion : Z := 0.

(** The functions of the application.  [app_mem] is the memory at the address
    of an object, where its key is; [app_encode] answers [None] for a row size
    of -1; [app_set_auto] is the assignment of an automatic key;
    [app_batch_update] may change all objects and names the next one to save. *)
Class AppTool (obj : Type) := {
  app_mem : obj -> list Z;
  app_set_auto : obj -> Z -> obj;
  app_decode : list Z -> Z -> obj;
  app_encode : obj -> Z -> option (list Z);
  app_reset : obj -> list Z -> Z -> obj;
  app_update : obj -> list Z -> Z -> obj;
  app_batch_update : gmap Z obj -> Z -> list Z -> Z -> gmap Z obj * Z }.

(** The calls that tell the application of a change. *)
Inductive event :=
| ev_insert (row : Z) | ev_delete (row : Z) | ev_before_batch (row : Z) | ev_after_batch (row : Z).

(** The types kept in the update list. *)
Inductive update_type := SDB_TYPE_INSERT | SDB_TYPE_DELETE | SDB_TYPE_UPDATE.

(** [SSdbTable], with what it stands on: the file behind [fd] and its position,
    a snapshot file left behind, the global version, the objects in memory, the
    address the next object gets, and the calls made to the application. *)
Record SSdbTable (I obj : Type) := {
  header : list Z;
  maxRows : Z;
  maxRowSize : Z;
  keyType : KEYTYPE;
  autoIndex : Z;
  numOfRows : Z;
  tid : Z;
  tsize : Z;
  iHandle : I;
  file : list Z;
  pos : Z;
  dotFile : option (list Z);
  update : list (update_type * Z);
  numOfUpdates : Z;
  updatePos : Z;
  sdbVersion : Z;
  objs : gmap Z obj;
  brk : Z;
  events : list event }.
Arguments header {I obj}. Arguments maxRows {I obj}. Arguments maxRowSize {I obj}.
Arguments keyType {I obj}. Arguments autoIndex {I obj}. Arguments numOfRows {I obj}.
Arguments tid {I obj}. Arguments tsize {I obj}. Arguments iHandle {I obj}.
Arguments file {I obj}. Arguments pos {I obj}. Arguments dotFile {I obj}.
Arguments update {I obj}. Arguments numOfUpdates {I obj}. Arguments updatePos {I obj}.
Arguments sdbVersion {I obj}. Arguments objs {I obj}. Arguments brk {I obj}. Arguments events {I obj}.

(** The row argument of the operations: the address of an object, or other memory. *)
Inductive row_arg := Obj (a : Z) | Mem (bytes : list Z).

Section Engine.
Context {I obj : Type} `{SdbIndex I} `{AppTool obj}.
Context (crc32c : Z -> Z -> list Z -> Z -> res Z) (cheap : Z).
Implicit Types t : SSdbTable I obj.

(** ** Fields *)
Definition with_file (h f : list Z) (p sz : Z) (dot : option (list Z)) t : SSdbTable I obj :=
  {| header := h; maxRows := maxRows t; maxRowSize := maxRowSize t; keyType := keyType t;
     autoIndex := autoIndex t; numOfRows := numOfRows t; tid := tid t; tsize := sz;
     iHandle := iHandle t; file := f; pos := p; dotFile := dot; update := update t;
     numOfUpdates := numOfUpdates t; updatePos := updatePos t; sdbVersion := sdbVersion t;
     objs := objs t; brk := brk t; events := events t |}.
Definition with_ids (auto rows i version : Z) t : SSdbTable I obj :=
  {| header := header t; maxRows := maxRows t; maxRowSize := maxRowSize t; keyType := keyType t;
     autoIndex := auto; numOfRows := rows; tid := i; tsize := tsize t;
     iHandle := iHandle t; file := file t; pos := pos t; dotFile := dotFile t; update := update t;
     numOfUpdates := numOfUpdates t; updatePos := updatePos t; sdbVersion := version;
     objs := objs t; brk := brk t; events := events t |}.
Definition with_index (ix : I) t : SSdbTable I obj :=
  {| header := header t; maxRows := maxRows t; maxRowSize := maxRowSize t; keyType := keyType t;
     autoIndex := autoIndex t; numOfRows := numOfRows t; tid := tid t; tsize := tsize t;
     iHandle := ix; file := file t; pos := pos t; dotFile := dotFile t; update := update t;
     numOfUpdates := numOfUpdates t; updatePos := updatePos t; sdbVersion := sdbVersion t;
     objs := objs t; brk := brk t; events := events t |}.
Definition with_objs (os : gmap Z obj) (b : Z) t : SSdbTable I obj :=
  {| header := header t; maxRows := maxRows t; maxRowSize := maxRowSize t; keyType := keyType t;
     autoIndex := autoIndex t; numOfRows := numOfRows t; tid := tid t; tsize := tsize t;
     iHandle := iHandle t; file := file t; pos := pos t; dotFile := dotFile t; update := update t;
     numOfUpdates := numOfUpdates t; updatePos := updatePos t; sdbVersion := sdbVersion t;
     objs := os; brk := b; events := events t |}.
Definition with_update (u : list (update_type * Z)) (n p : Z) t : SSdbTable I obj :=
  {| header := header t; maxRows := maxRows t; maxRowSize := maxRowSize t; keyType := keyType t;
     autoIndex := autoIndex t; numOfRows := numOfRows t; tid := tid t; tsize := tsize t;
     iHandle := iHandle t; file := file t; pos := pos t; dotFile := dotFile t; update := u;
     numOfUpdates := n; updatePos := p; sdbVersion := sdbVersion t;
     objs := objs t; brk := brk t; events := events t |}.
Definition with_event (e : event) t : SSdbTable I obj :=
  {| header := header t; maxRows := maxRows t; maxRowSize := maxRowSize t; keyType := keyType t;
     autoIndex := autoIndex t; numOfRows := numOfRows t; tid := tid t; tsize := tsize t;
     iHandle := iHandle t; file := file t; pos := pos t; dotFile := dotFile t; update := update t;
     numOfUpdates := numOfUpdates t; updatePos := updatePos t; sdbVersion := sdbVersion t;
     objs := objs t; brk := brk t; events := events t ++ [e] |}.

Definition set_fd (f : list Z) (p : Z) t := with_file (header t) f p (tsize t) (dotFile t) t.
Definition set_tsize (sz : Z) t := with_file (header t) (file t) (pos t) sz (dotFile t) t.

(** ** The file *)
Definition file_write (f : list Z) (p : Z) (bs : list Z) : list Z :=
  take (Z.to_nat p) (f ++ replicate (Z.to_nat p - length f) 0) ++ bs ++
  drop (Z.to_nat p + length bs) f.

Definition fd_write (bs : list Z) t : SSdbTable I obj :=
  set_fd (file_write (file t) (pos t) bs) (pos t + Z.of_nat (length bs)) t.

(** [read] of up to [n] bytes. *)
Definition fd_read (n : Z) t : list Z * SSdbTable I obj :=
  let bs := take (Z.to_nat n) (drop (Z.to_nat (pos t)) (file t)) in
  (bs, set_fd (file t) (pos t + Z.of_nat (length bs)) t).

(** The assertion aborts the program. *)
Definition sdbFinishCommit t : res (SSdbTable I obj) :=
  let offset := Z.of_nat (length (file t)) in
  if negb (offset =? tsize t) then Exit else
  let t := fd_write (le_bytes 4 SDB_ENDCOMMIT) (set_fd (file t) offset t) in
  Ret (set_tsize (tsize t + 4) t).

(** A row with its head and the room for its checksum, sealed; [None] when
    [taosCalcChecksumAppend] fails. *)
Definition row_bytes (rid : Z) (data : list Z) : res (option (list Z)) :=
  let n := Z.of_nat (length data) in
  taosCalcChecksumAppend crc32c cheap 0
    (le_bytes 4 SDB_DELIMITER ++ le_bytes 4 n ++ le_bytes 8 rid ++ data ++ replicate 4 0)
    (SIZEOF_SRowHead + n + TSCKSUM).

(** ** Objects *)
Definition obj_at t (a : Z) : res obj :=
  match objs t !! a with Some o => Ret o | None => Undef end.
Definition new_obj (o : obj) t : Z * SSdbTable I obj :=
  (brk t, with_objs (<[brk t := o]> (objs t)) (brk t + 1) t).
Definition set_obj (a : Z) (o : obj) t : SSdbTable I obj := with_objs (<[a := o]> (objs t)) (brk t) t.
Definition destroy_obj (a : Z) t : res (SSdbTable I obj) :=
  let! _ := obj_at t a in Ret (with_objs (delete a (objs t)) (brk t) t).

Definition row_mem t (r : row_arg) : res (list Z) :=
  match r with Obj a => let! o := obj_at t a in Ret (app_mem o) | Mem bs => Ret bs end.

(** The address of the object of a row found in the index. *)
Definition sdbGetRowMeta t (key : list Z) : res Z := ix_get (iHandle t) key.

Definition sdbGetRow t (key : list Z) : res Z :=
  let! pMeta := ix_get (iHandle t) key in
  if pMeta =? 0 then Ret 0 else
  let! v := ix_load (iHandle t) pMeta in Ret (row v).

Definition sdbAddIntoUpdateList (type : update_type) (r : Z) t : res (SSdbTable I obj) :=
  if maxRows t =? 0 then Undef else
  let n := numOfUpdates t + 1 in
  let p := Z.rem n (maxRows t) in
  match update t !! Z.to_nat p with
  | None => Undef
  | Some (old, oldrow) =>
      let! t := match old with SDB_TYPE_DELETE => destroy_obj oldrow t | _ => Ret t end in
      Ret (with_update (<[Z.to_nat p := (type, r)]> (update t)) n p t)
  end.

Definition ix_add_row (key : list Z) (v : SRowMeta) t : res (SSdbTable I obj) :=
  let! ix := ix_add (iHandle t) key v in Ret (with_index ix t).
Definition ix_delete_row (key : list Z) t : res (SSdbTable I obj) :=
  let! ix := ix_delete (iHandle t) key in Ret (with_index ix t).
Definition ix_store_row (a : Z) (v : SRowMeta) t : res (SSdbTable I obj) :=
  let! ix := ix_store (iHandle t) a v in Ret (with_index ix t).
(** ** Changing rows *)
Definition next_id t : SSdbTable I obj :=
  with_ids (autoIndex t) (numOfRows t) (tid t + 1) (sdbVersion t + 1) t.
Definition count_rows (d : Z) t : SSdbTable I obj :=
  with_ids (autoIndex t) (numOfRows t + d) (tid t) (sdbVersion t) t.

(** [write] of a sealed row. *)
Definition append_row (rec : list Z) t : SSdbTable I obj :=
  set_tsize (tsize t + Z.of_nat (length rec)) (fd_write rec t).

Definition encode_row (a : Z) t : res (list Z) :=
  let! o := obj_at t a in
  match app_encode o (maxRowSize t) with Some data => Ret data | None => Undef end.

(** The automatic key of a new object. *)
Definition assign_auto (pObj : Z) (data : list Z) t : res (list Z * SSdbTable I obj) :=
  match keyType t with
  | SDB_KEYTYPE_AUTO =>
      let auto := u32 (autoIndex t + 1) in
      let! o := obj_at t pObj in
      let t := set_obj pObj (app_set_auto o auto) (with_ids auto (numOfRows t) (tid t) (sdbVersion t) t) in
      let! data := encode_row pObj t in
      Ret (data, t)
  | _ => Ret (data, t)
  end.

(** From the sealed row on: index, file, update list. *)
Definition insert_log (pObj : Z) (data : list Z) t : res (Z * SSdbTable I obj) :=
  let! rec := row_bytes (tid t) data in
  match rec with
  | None => Ret (-1, t)
  | Some rec =>
      let! o := obj_at t pObj in
      let! t := ix_add_row (app_mem o)
        {| id := tid t; offset := tsize t; rowSize := Z.of_nat (length data); row := pObj |} t in
      let! t := sdbFinishCommit (append_row rec t) in
      let! t := sdbAddIntoUpdateList SDB_TYPE_INSERT pObj t in
      let t := count_rows 1 t in
      Ret (tid t, if 0 <=? tid t then with_event (ev_insert pObj) t else t)
  end.

(** [rowSize0 = 0]: the row is the object itself, otherwise it is encoded. *)
Definition sdbInsertRow (r : row_arg) (rowSize0 : Z) t : res (Z * SSdbTable I obj) :=
  let! mem := row_mem t r in
  let! known :=
    match keyType t with
    | SDB_KEYTYPE_AUTO => let! b := rd mem 0 8 in Ret (negb (le_val b =? 0))
    | _ => Ret true
    end in
  let! found := if known then sdbGetRow t mem else Ret 0 in
  if negb (found =? 0) then Ret (-1, t) else
  let! '(pObj, t) :=
    if rowSize0 =? 0 then match r with Obj a => Ret (a, t) | Mem _ => Undef end
    else Ret (new_obj (app_decode mem rowSize0) t) in
  let! o := obj_at t pObj in
  match app_encode o (maxRowSize t) with
  | None => Exit
  | Some data =>
      let n := Z.of_nat (length data) in
      if (n <=? 0) || (maxRowSize t <? n) then Exit else
      let t := next_id t in
      let! '(data, t) := assign_auto pObj data t in
      insert_log pObj data t
  end.

Definition sdbDeleteRow (r : row_arg) t : res (Z * SSdbTable I obj) :=
  let! mem := row_mem t r in
  let! pMeta := sdbGetRowMeta t mem in
  if pMeta =? 0 then Ret (-1, t) else
  let! v := ix_load (iHandle t) pMeta in
  if row v =? 0 then Exit else
  let! n := key_size (keyType t) mem in
  let t := next_id t in
  let! data := rd mem 0 n in
  let! rec := row_bytes (- tid t) data in
  match rec with
  | None => Ret (-1, t)
  | Some rec =>
      let! t := sdbFinishCommit (append_row rec t) in
      let t := count_rows (-1) t in
      let! t := sdbAddIntoUpdateList SDB_TYPE_DELETE (row v) t in
      let! mem := row_mem t r in
      let! t := ix_delete_row mem t in
      Ret (0, with_event (ev_delete (row v)) t)
  end.

(** The row data to write: the object encoded, or the bytes that were passed. *)
Definition update_data (r : row_arg) (pMetaRow updateSize : Z) t : res (list Z) :=
  match r with
  | Obj a => if a =? pMetaRow then encode_row a t
             else let! mem := row_mem t r in
                  if maxRowSize t + TSCKSUM <? updateSize then Undef else rd mem 0 updateSize
  | Mem mem => if maxRowSize t + TSCKSUM <? updateSize then Undef else rd mem 0 updateSize
  end.

Definition sdbUpdateRow (r : row_arg) (updateSize : Z) (isUpdated : bool) t : res (Z * SSdbTable I obj) :=
  let! mem := row_mem t r in
  let! pMeta := sdbGetRowMeta t mem in
  if pMeta =? 0 then Ret (-1, t) else
  let! v := ix_load (iHandle t) pMeta in
  if row v =? 0 then Exit else
  let! t :=
    if isUpdated then Ret t
    else let! o := obj_at t (row v) in Ret (set_obj (row v) (app_update o mem updateSize) t) in
  let! data := update_data r (row v) updateSize t in
  let t := next_id t in
  let! rec := row_bytes (tid t) data in
  match rec with
  | None => Ret (-1, t)
  | Some rec =>
      let! t := ix_store_row pMeta
        {| id := tid t; offset := tsize t; rowSize := Z.of_nat (length data); row := row v |} t in
      let! t := sdbFinishCommit (append_row rec t) in
      let! t := sdbAddIntoUpdateList SDB_TYPE_UPDATE (row v) t in
      Ret (0, t)
  end.

(** The loop of [sdbBatchUpdateRow]: [pMeta] stays that of the row being saved. *)
Fixpoint batch_loop (fuel : nat) (pMeta next_row : Z) (mem : list Z) (rowSize0 : Z) t
    : res (SSdbTable I obj) :=
  match fuel with
  | O => NoFuel
  | S fuel' =>
      if next_row =? 0 then Ret t else
      let t := next_id t in
      let last_row := next_row in
      let '(os, next_row) := app_batch_update (objs t) last_row mem rowSize0 in
      let t := with_objs os (brk t) t in
      let! data := encode_row last_row t in
      let! rec := row_bytes (tid t) data in
      match rec with
      | None => Undef
      | Some rec =>
          let! v := ix_load (iHandle t) pMeta in
          let! t := ix_store_row pMeta
            {| id := tid t; offset := tsize t; rowSize := Z.of_nat (length data); row := row v |} t in
          let t := append_row rec (set_fd (file t) (tsize t) t) in
          let! t := sdbAddIntoUpdateList SDB_TYPE_UPDATE last_row t in
          let! pMeta :=
            if negb (next_row =? 0) then
              let! o := obj_at t next_row in sdbGetRowMeta t (app_mem o)
            else Ret pMeta in
          batch_loop fuel' pMeta next_row mem rowSize0 t
      end
  end.

Definition sdbBatchUpdateRow (fuel : nat) (r : row_arg) (rowSize0 : Z) t : res (Z * SSdbTable I obj) :=
  if rowSize0 <=? 0 then Ret (-1, t) else
  let! mem := row_mem t r in
  let! pMeta := sdbGetRowMeta t mem in
  if pMeta =? 0 then Ret (-1, t) else
  let! v := ix_load (iHandle t) pMeta in
  if row v =? 0 then Exit else
  let t := with_event (ev_before_batch (row v)) t in
  let! t := batch_loop fuel pMeta (row v) mem rowSize0 t in
  let! t := sdbFinishCommit t in
  Ret (0, with_event (ev_after_batch (row v)) t).

(** ** Snapshots *)
Fixpoint snap_loop (fuel : nat) (pNode : Z) (f : list Z) (p numRows : Z) t
    : res (bool * (list Z * Z * Z)) :=
  match fuel with
  | O => NoFuel
  | S fuel' =>
      let! pNode := ix_fetch (iHandle t) pNode in
      if pNode =? 0 then Ret (true, (f, p, numRows)) else
      let! v := ix_load (iHandle t) pNode in
      let! data := encode_row (row v) t in
      let! rec := row_bytes (id v) data in
      match rec with
      | None => Ret (false, (f, p, numRows))
      | Some rec =>
          let out := rec ++ le_bytes 4 SDB_ENDCOMMIT in
          snap_loop fuel' pNode (file_write f p out) (p + Z.of_nat (length out)) (numRows + 1) t
      end
  end.

(** The snapshot is written over what the file [.name.db] holds, and takes the
    place of the table's file. *)
Definition sdbSaveSnapShot t : res (SSdbTable I obj) :=
  let out := header t ++ le_bytes 4 SDB_ENDCOMMIT in
  let f := file_write (default [] (dotFile t)) 0 out in
  let! '(done, (f, size, numRows)) :=
    snap_loop (S (Z.to_nat (numOfRows t))) 0 f (Z.of_nat (length out)) 0 t in
  Ret (if (done : bool) then
         with_ids (autoIndex t) numRows (tid t) (sdbVersion t) (with_file (header t) f size size None t)
       else with_file (header t) (file t) (pos t) (tsize t) (Some f) t).

(** ** Opening a table *)
(** The search for the last commit mark, from offset [n] down. *)
Fixpoint find_commit (f : list Z) (n : nat) : option nat :=
  match n with
  | O => None
  | S n' => if bool_decide (take 4 (drop n f) = le_bytes 4 SDB_ENDCOMMIT) then Some n else find_commit f n'
  end.

Definition truncate_uncommitted (f : list Z) : list Z :=
  match find_commit f (length f - 4) with Some n => take (n + 4) f | None => f end.

(** [main] and [dot] are the files [name.db] and [.name.db]; the result is
    negative when the header cannot be written or read. *)
Definition sdbOpenSdbFile (swVersion : list Z) (main dot : option (list Z)) t : res (Z * SSdbTable I obj) :=
  let '(main, dot) :=
    match dot, main with
    | Some _, Some _ => (main, None)
    | Some _, None => (dot, None)
    | None, _ => (main, None)
    end in
  let f := default [] main in
  let t := with_file (header t) f 0 0 dot t in
  let! '(code, t) :=
    match f with
    | [] =>
        let h := swVersion ++ le_bytes 2 sdbFileVersion ++ drop 10 (header t) in
        let! h := taosCalcChecksumAppend crc32c cheap 0 h SIZEOF_HEADER in
        match h with
        | None => Ret (-1, t)
        | Some h =>
            let t := fd_write h (with_file h [] 0 0 dot t) in
            let! t := sdbFinishCommit (set_tsize (tsize t + SIZEOF_HEADER) t) in
            Ret (0, t)
        end
    | _ =>
        let t := set_fd (truncate_uncommitted f) 0 t in
        let '(h, t) := fd_read SIZEOF_HEADER t in
        if Z.of_nat (length h) <? SIZEOF_HEADER then Ret (-1, t) else
        let t := with_file h (file t) (pos t) (tsize t) (dotFile t) t in
        let! ok := taosCheckChecksumWhole crc32c cheap h SIZEOF_HEADER in
        if negb ok then Ret (-1, t) else
        Ret (0, set_tsize (tsize t + SIZEOF_HEADER + 4) (set_fd (file t) (pos t + 4) t))
    end in
  if code <? 0 then Ret (code, t) else
  Ret (0, with_ids (autoIndex t) 0 (tid t) (sdbVersion t) t).

(** What a valid record does to the rows in memory; [buf] is [rowHead->data]. *)
Definition load_row (rid : Z) (buf : list Z) (rsize : Z) (dels : Z) t : res (SSdbTable I obj * Z) :=
  let! pMetaRow := sdbGetRow t buf in
  if pMetaRow =? 0 then
    if rid <? 0 then Ret (t, dels) else
    let '(a, t) := new_obj (app_decode buf rsize) t in
    let! o := obj_at t a in
    let! t := ix_add_row (app_mem o) {| id := rid; offset := tsize t; rowSize := rsize; row := a |} t in
    let auto := match keyType t with SDB_KEYTYPE_AUTO => u32 (autoIndex t + 1) | _ => autoIndex t end in
    Ret (with_ids auto (numOfRows t + 1) (tid t) (sdbVersion t) t, dels)
  else if rid <? 0 then
    let! t := ix_delete_row buf t in
    let! t := destroy_obj pMetaRow t in
    Ret (count_rows (-1) t, dels + 1 + 1)
  else
    let! o := obj_at t pMetaRow in
    Ret (set_obj pMetaRow (app_reset o buf rsize) t, dels + 1).

(** The macro of line 34, at the type of the id. *)
Definition abs (x : Z) : Z := if x <? 0 then i64 (- x) else x.

(** One turn of the loop of [sdbInitTableByFile]; [inr] leaves the loop. *)
Definition load_step (dels : Z) t : res ((SSdbTable I obj * Z) + (SSdbTable I obj * Z)) :=
  let '(head, t) := fd_read SIZEOF_SRowHead t in
  let bytes := Z.of_nat (length head) in
  if bytes =? 0 then Ret (inr (t, dels)) else
  if (bytes <? SIZEOF_SRowHead) || negb (le_val (take 4 head) =? SDB_DELIMITER) then
    Ret (inl (set_fd (file t) (pos t - (bytes - 1)) (set_tsize (tsize t + 1) t), dels))
  else
  let rsize := i32 (le_val (take 4 (drop 4 head))) in
  let rid := i64 (le_val (drop 8 head)) in
  if (rsize <? 0) || (maxRowSize t <? rsize) then
    Ret (inl (set_tsize (tsize t + SIZEOF_SRowHead) t, dels))
  else
  let '(data, t) := fd_read (rsize + TSCKSUM) t in
  if Z.of_nat (length data) <? rsize + TSCKSUM then Ret (inr (t, dels)) else
  let real_size := SIZEOF_SRowHead + rsize + TSCKSUM in
  let! ok := taosCheckChecksumWhole crc32c cheap (head ++ data) real_size in
  if negb ok then Ret (inl (set_tsize (tsize t + real_size) t, dels)) else
  let buf := data ++ replicate (Z.to_nat (maxRowSize t - rsize)) 0 in
  let! '(t, dels) := load_row rid buf rsize dels t in
  let t := set_tsize (tsize t + real_size) t in
  Ret (inl (if tid t <? abs rid
            then with_ids (autoIndex t) (numOfRows t) (abs rid) (sdbVersion t) t else t, dels)).

Fixpoint load_loop (fuel : nat) (dels : Z) t : res (SSdbTable I obj * Z) :=
  match fuel with
  | O => NoFuel
  | S fuel' =>
      let! s := load_step dels t in
      match s with inl (t, dels) => load_loop fuel' dels t | inr s => Ret s end
  end.

Definition sdbInitTableByFile (swVersion : list Z) (main dot : option (list Z)) t : res (Z * SSdbTable I obj) :=
  let oldId := tid t in
  let! '(code, t) := sdbOpenSdbFile swVersion main dot t in
  if code <? 0 then Ret (-1, t) else
  let! '(t, dels) := load_loop (S (length (file t))) 0 t in
  let t := with_ids (autoIndex t) (numOfRows t) (tid t) (sdbVersion t + (tid t - oldId)) t in
  let! t := if Z.quot (maxRows t) 4 <? dels then sdbSaveSnapShot t else Ret t in
  Ret (0, with_update (update t) 0 0 t).

(** The next node and the address of its row, 0 at the end. *)
Definition sdbFetchRow t (pNode : Z) : res (Z * Z) :=
  let! pNode := ix_fetch (iHandle t) pNode in
  if pNode =? 0 then Ret (0, 0) else
  let! v := ix_load (iHandle t) pNode in Ret (pNode, row v).

Fixpoint close_loop (fuel : nat) (pNode : Z) t : res (SSdbTable I obj) :=
  match fuel with
  | O => NoFuel
  | S fuel' =>
      let! '(pNode, r) := sdbFetchRow t pNode in
      if r =? 0 then Ret t else
      let! t := destroy_obj r t in close_loop fuel' pNode t
  end.

(** What is left is the memory of the table's objects that were not freed. *)
Definition sdbCloseTable t : res (gmap Z obj) :=
  let! t := close_loop (S (Z.to_nat (numOfRows t))) 0 t in
  let! _ := ix_close (iHandle t) in Ret (objs t).

(** A new table; [version] is the global one, [b] where the next object goes. *)
Definition sdbOpenTable (swVersion : list Z) (main dot : option (list Z)) (version b : Z)
    (maxRows0 maxRowSize0 : Z) (kt : KEYTYPE) : res (option (SSdbTable I obj)) :=
  let! ix := ix_init maxRows0 in
  match ix with
  | None => Undef
  | Some ix =>
      let t := {| header := replicate 24 0; maxRows := maxRows0; maxRowSize := maxRowSize0; keyType := kt;
                  autoIndex := 0; numOfRows := 0; tid := 0; tsize := 0; iHandle := ix; file := [];
                  pos := 0; dotFile := None;
                  update := replicate (Z.to_nat maxRows0) (SDB_TYPE_INSERT, 0); numOfUpdates := 0;
                  updatePos := 0; sdbVersion := version; objs := ∅; brk := b; events := [] |} in
      let! '(code, t) := sdbInitTableByFile swVersion main dot t in
      Ret (if code <? 0 then None else Some t)
  end.
End Engine.
