(* ===== verification/SdbRows.v ===== *)
(** * The rows of a management table in memory

    What the engine of Sdb.v keeps in memory, related to an abstract map from
    keys to encoded rows: every row is found through the index, its object is
    alive and encodes to the row; objects of deleted rows wait in the update
    list. *)
From S2P Require Import Prelude Crc32c Chain SdbIndex Sdb.

(** What the engine relies on of the application, for rows of at most [n]
    bytes: [app_row k d] says that [d] is the encoding of an object with key [k],
    and [app_key_ok] which keys the application uses. *)
Class AppLaws (I K obj : Type) `{SdbIndexLaws I K} `{AppTool obj} (n : Z) := {
  app_row : K -> list Z -> Prop;
  app_key_ok : K -> Prop;
  app_key_ix : forall k, app_key_ok k -> ix_key_ok k;
  app_row_encode : forall o k d, ix_key (app_mem o) = Ret k -> app_key_ok k ->
    app_encode o n = Some d -> app_row k d;
  app_row_ok : forall k d, app_row k d -> app_key_ok k;
  app_row_len : forall k d, app_row k d -> 0 < Z.of_nat (length d) <= n /\ bytes_ok d;
  app_row_key : forall k d, app_row k d -> ix_key d = Ret k /\ ix_key_ok k;
  app_decode_row : forall k d z, app_row k d ->
    app_encode (app_decode (d ++ z) (Z.of_nat (length d))) n = Some d /\
    ix_key (app_mem (app_decode (d ++ z) (Z.of_nat (length d)))) = Ret k;
  app_reset_row : forall o k d z, app_row k d ->
    app_encode (app_reset o (d ++ z) (Z.of_nat (length d))) n = Some d /\
    ix_key (app_mem (app_reset o (d ++ z) (Z.of_nat (length d)))) = Ret k;
  app_update_row : forall o k d, app_row k d ->
    app_encode (app_update o d (Z.of_nat (length d))) n = Some d /\
    ix_key (app_mem (app_update o d (Z.of_nat (length d)))) = Ret k;
  app_key_size : forall kt o k d, ix_kind kt -> ix_key (app_mem o) = Ret k -> app_row k d ->
    app_encode o n = Some d -> exists sz b, key_size kt (app_mem o) = Ret sz /\
      rd (app_mem o) 0 sz = Ret b /\ bytes_ok b /\ Z.of_nat (length b) <= n }.

Section Rows.
Context {I K obj : Type} `{AppLaws I K obj n}.
Implicit Types (os : gmap Z obj) (m : gmap K (list Z)) (mi : gmap K (Z * SRowMeta)).

Definition row_obj os (k : K) (d : list Z) (a : Z) : Prop :=
  exists o, os !! a = Some o /\ ix_key (app_mem o) = Ret k /\ app_row k d /\ app_encode o n = Some d.

(** [dead]: the objects of deleted rows that still have to be destroyed. *)
Record rows_of mi os (b : Z) (dead : list Z) m : Prop := {
  ro_rel : forall k, match m !! k, mi !! k with
    | None, None => True
    | Some d, Some (_, v) => 0 <= id v < 2 ^ 63 /\ row_obj os k d (row v)
    | _, _ => False
    end;
  ro_inj : forall k1 k2 a1 v1 a2 v2, mi !! k1 = Some (a1, v1) -> mi !! k2 = Some (a2, v2) ->
    row v1 = row v2 -> k1 = k2;
  ro_nodup : NoDup dead;
  ro_dead : forall a, a ∈ dead -> is_Some (os !! a) /\ forall k a' v, mi !! k = Some (a', v) -> row v <> a;
  ro_fresh : 0 < b /\ forall a, is_Some (os !! a) -> 0 < a < b }.

Definition rows (ix : I) (nmax : Z) os b dead m : Prop :=
  exists mi, ix_is ix nmax mi /\ rows_of mi os b dead m.

Lemma ro_some mi os b dead m k d : rows_of mi os b dead m -> m !! k = Some d ->
  exists a v, mi !! k = Some (a, v) /\ 0 <= id v < 2 ^ 63 /\ row_obj os k d (row v) /\ row v <> 0.
Proof using.
  intros Hr E. pose proof (ro_rel _ _ _ _ _ Hr k) as Hk. rewrite E in Hk.
  destruct (mi !! k) as [[a v]|]; [|done]. destruct Hk as [Hid Ho]. exists a, v.
  split; [done|]. split; [done|]. split; [done|]. destruct Ho as (o & Eo & _).
  destruct (ro_fresh _ _ _ _ _ Hr) as [_ Hf]. pose proof (Hf (row v) ltac:(by eexists)). lia.
Qed.

Lemma ro_none mi os b dead m k : rows_of mi os b dead m -> m !! k = None -> mi !! k = None.
Proof using.
  intros Hr E. pose proof (ro_rel _ _ _ _ _ Hr k) as Hk. rewrite E in Hk. by destruct (mi !! k).
Qed.

Lemma ro_dom mi os b dead m : rows_of mi os b dead m -> dom mi = dom m.
Proof using.
  intros Hr. apply set_eq. intros k. rewrite !elem_of_dom. pose proof (ro_rel _ _ _ _ _ Hr k) as Hk.
  by destruct (m !! k), (mi !! k) as [[a v]|].
Qed.

Lemma ro_size mi os b dead m : rows_of mi os b dead m -> size mi = size m.
Proof using. intros Hr%ro_dom. by rewrite <- !size_dom, Hr. Qed.

Lemma ro_perm mi os b dead dead' m : dead ≡ₚ dead' -> rows_of mi os b dead m -> rows_of mi os b dead' m.
Proof using.
  intros Hp [R1 R2 R3 R4 R5]. constructor; try done; [by rewrite <- Hp|].
  intros a Ha. apply R4. by rewrite Hp.
Qed.

(** A new object. *)
Lemma ro_new mi os b dead m o : rows_of mi os b dead m -> rows_of mi (<[b := o]> os) (b + 1) dead m.
Proof using.
  intros [R1 R2 R3 R4 [R5 R6]].
  assert (Hne : forall a, is_Some (os !! a) -> <[b := o]> os !! a = os !! a).
  { intros a Ha. apply lookup_insert_ne. specialize (R6 a Ha). lia. }
  constructor; [|done|done| |split; [lia|]].
  - intros k. specialize (R1 k). destruct (m !! k) as [d|], (mi !! k) as [[a v]|]; try done.
    destruct R1 as [Hid (o' & E & Hrest)]. split; [done|]. exists o'. split; [|done].
    rewrite Hne; [done|by eexists].
  - intros a Ha. destruct (R4 a Ha) as [Hs Hl]. split; [by rewrite Hne|done].
  - intros a Ha. destruct (decide (a = b)) as [->|Hab]; [lia|]. rewrite lookup_insert_ne in Ha by done.
    specialize (R6 a Ha). lia.
Qed.

Definition unused mi (dead : list Z) (a : Z) : Prop :=
  (a ∉ dead) /\ forall k a' v, mi !! k = Some (a', v) -> row v <> a.

Lemma ro_unused_new mi os b dead m : rows_of mi os b dead m -> unused mi dead b.
Proof using.
  intros Hr. destruct (ro_fresh _ _ _ _ _ Hr) as [_ Hf]. split.
  - intros Hb. destruct (ro_dead _ _ _ _ _ Hr b Hb) as [Hs _]. specialize (Hf b Hs). lia.
  - intros k a' v E Hv. pose proof (ro_rel _ _ _ _ _ Hr k) as Hk. rewrite E in Hk.
    destruct (m !! k) as [d|]; [|done]. destruct Hk as [_ (o & Eo & _)]. specialize (Hf (row v) ltac:(by eexists)). lia.
Qed.

(** The object of a row, or one not used yet, changes. *)
Lemma ro_insert mi os b dead m k d a v o : rows_of mi os b dead m ->
  (mi !! k = None /\ unused mi dead (row v) \/ exists a0 v0, mi !! k = Some (a0, v0) /\ row v0 = row v) ->
  is_Some (os !! row v) ->
  0 <= id v < 2 ^ 63 -> ix_key (app_mem o) = Ret k -> app_row k d -> app_encode o n = Some d ->
  rows_of (<[k := (a, v)]> mi) (<[row v := o]> os) b dead (<[k := d]> m).
Proof using.
  intros [R1 R2 R3 R4 [R5 R6]] Hcase Hex Hid Hkey Hrow Henc.
  assert (Hother : forall k' a' v', k' <> k -> mi !! k' = Some (a', v') -> row v' <> row v).
  { intros k' a' v' Hne E. destruct Hcase as [[Hn [_ Hu]]|(a0 & v0 & E0 & Er)]; [by eapply Hu|].
    intros Hv. apply Hne. eapply R2; [exact E|exact E0|congruence]. }
  assert (Hdead : forall a', a' ∈ dead -> a' <> row v).
  { intros a' Ha'. destruct Hcase as [[Hn [Hu _]]|(a0 & v0 & E0 & Er)]; [by intros ->|].
    destruct (R4 a' Ha') as [_ Hl]. specialize (Hl _ _ _ E0). congruence. }
  constructor; [|  |done| |split; [done|]].
  - intros k'. destruct (decide (k' = k)) as [->|Hne].
    + rewrite !lookup_insert_eq. split; [done|]. exists o. by rewrite lookup_insert_eq.
    + rewrite !lookup_insert_ne by done. specialize (R1 k').
      destruct (m !! k') as [d'|], (mi !! k') as [[a' v']|] eqn:E; try done.
      destruct R1 as [Hid' (o' & Eo & Hrest)]. split; [done|]. exists o'. split; [|done].
      rewrite lookup_insert_ne; [done|]. symmetry. by eapply Hother.
  - intros k1 k2 a1 v1 a2 v2 E1 E2 Er.
    destruct (decide (k1 = k)) as [->|Hn1], (decide (k2 = k)) as [->|Hn2]; [done|..].
    + rewrite lookup_insert_eq in E1. injection E1 as <- <-. rewrite lookup_insert_ne in E2 by done.
      destruct (Hother _ _ _ Hn2 E2). by symmetry.
    + rewrite lookup_insert_eq in E2. injection E2 as <- <-. rewrite lookup_insert_ne in E1 by done.
      by destruct (Hother _ _ _ Hn1 E1).
    + rewrite lookup_insert_ne in E1, E2 by done. by eapply R2.
  - intros a' Ha'. destruct (R4 a' Ha') as [Hs Hl]. split.
    + rewrite lookup_insert_ne; [done|]. symmetry. by apply Hdead.
    + intros k' a2 v2 E. destruct (decide (k' = k)) as [->|Hne].
      * rewrite lookup_insert_eq in E. injection E as <- <-. symmetry. by apply Hdead.
      * rewrite lookup_insert_ne in E by done. by eapply Hl.
  - intros a' Ha'. destruct (decide (a' = row v)) as [->|Hne]; [by apply R6|].
    rewrite lookup_insert_ne in Ha' by done. by apply R6.
Qed.

Lemma ro_delete mi os b dead m k a v : rows_of mi os b dead m -> mi !! k = Some (a, v) ->
  rows_of (delete k mi) os b (row v :: dead) (delete k m).
Proof using.
  intros [R1 R2 R3 R4 R5] E. constructor; [| | | |done].
  - intros k'. destruct (decide (k' = k)) as [->|Hne].
    + by rewrite !lookup_delete_eq.
    + rewrite !lookup_delete_ne by done. apply R1.
  - intros k1 k2 a1 v1 a2 v2 E1%lookup_delete_Some E2%lookup_delete_Some Er.
    eapply R2; [apply E1|apply E2|done].
  - constructor; [|done]. intros Hin. destruct (R4 _ Hin) as [_ Hl]. by eapply Hl.
  - intros a' [->|Ha']%elem_of_cons.
    + split.
      * specialize (R1 k). rewrite E in R1. destruct (m !! k); [|done].
        destruct R1 as [_ (o & Eo & _)]. by eexists.
      * intros k' a2 v2 [Hne E2]%lookup_delete_Some Er. apply Hne. symmetry. by eapply R2.
    + destruct (R4 a' Ha') as [Hs Hl]. split; [done|]. intros k' a2 v2 [_ E2]%lookup_delete_Some. by eapply Hl.
Qed.

Lemma ro_destroy mi os b dead m a : rows_of mi os b (a :: dead) m -> rows_of mi (delete a os) b dead m.
Proof using.
  intros [R1 R2 R3 R4 [R5 R6]]. apply NoDup_cons in R3 as [Hni R3].
  destruct (R4 a ltac:(by constructor)) as [_ Ha].
  constructor; [|done|done| |split; [done|]].
  - intros k. specialize (R1 k). destruct (m !! k) as [d|], (mi !! k) as [[a' v]|] eqn:E; try done.
    destruct R1 as [Hid (o & Eo & Hrest)]. split; [done|]. exists o. split; [|done].
    rewrite lookup_delete_ne; [done|]. symmetry. by eapply Ha.
  - intros a' Ha'. destruct (R4 a' ltac:(by constructor)) as [Hs Hl]. split; [|done].
    rewrite lookup_delete_ne; [done|]. by intros ->.
  - intros a' Ha'. apply R6. destruct (decide (a' = a)) as [->|Hne]; [by rewrite lookup_delete_eq in Ha'; destruct Ha'|].
    by rewrite lookup_delete_ne in Ha' by done.
Qed.

Lemma ro_empty b : 0 < b -> rows_of ∅ ∅ b [] ∅.
Proof using.
  intros Hb. constructor.
  - intros k. by rewrite !lookup_empty.
  - intros k1 k2 a1 v1 a2 v2 E. by rewrite lookup_empty in E.
  - constructor.
  - intros a Ha. by apply elem_of_nil in Ha.
  - split; [done|]. intros a [? E]. by rewrite lookup_empty in E.
Qed.

(** ** The rows through the index *)
Lemma rows_size ix nmax os b dead m : rows ix nmax os b dead m ->
  exists mi, ix_is ix nmax mi /\ size mi = size m.
Proof using. intros (mi & Hix & Hr). exists mi. split; [done|]. by eapply ro_size. Qed.

Lemma rows_perm ix nmax os b dead dead' m : dead ≡ₚ dead' -> rows ix nmax os b dead m ->
  rows ix nmax os b dead' m.
Proof using. intros Hp (mi & Hix & Hr). exists mi. split; [done|]. by eapply ro_perm. Qed.

Lemma rows_destroy ix nmax os b dead m a : rows ix nmax os b (a :: dead) m ->
  is_Some (os !! a) /\ rows ix nmax (delete a os) b dead m.
Proof using.
  intros (mi & Hix & Hr). split; [apply (ro_dead _ _ _ _ _ Hr); by constructor|].
  exists mi. split; [done|]. by apply ro_destroy.
Qed.

Lemma rows_new ix nmax os b dead m o : rows ix nmax os b dead m ->
  rows ix nmax (<[b := o]> os) (b + 1) dead m.
Proof using. intros (mi & Hix & Hr). exists mi. split; [done|]. by apply ro_new. Qed.

(** An object allocated and freed again. *)
Lemma rows_free ix nmax os b dead m o : rows ix nmax os b dead m ->
  rows ix nmax (delete b (<[b := o]> os)) (b + 1) dead m.
Proof using.
  intros (mi & Hix & [R1 R2 R3 R4 [R5 R6]]). exists mi. split; [done|].
  rewrite delete_insert_id.
  - constructor; try done. split; [lia|]. intros a Ha. specialize (R6 a Ha). lia.
  - destruct (os !! b) eqn:E; [|done]. pose proof (R6 b ltac:(by eexists)). lia.
Qed.

Lemma rows_none ix nmax os b dead m k mem : rows ix nmax os b dead m -> m !! k = None ->
  ix_key mem = Ret k -> ix_key_ok k -> ix_get ix mem = Ret 0.
Proof using.
  intros (mi & Hix & Hr) E Hk Hok. rewrite (ix_get_is _ _ _ _ _ Hix Hk Hok).
  by rewrite (ro_none _ _ _ _ _ _ Hr E).
Qed.

(** Memory with the same key finds the same node. *)
Lemma rows_get_key ix nmax os b dead m k mem mem' : rows ix nmax os b dead m ->
  ix_key mem = Ret k -> ix_key mem' = Ret k -> ix_key_ok k -> ix_get ix mem = ix_get ix mem'.
Proof using.
  intros (mi & Hix & _) Hk Hk' Hok. by rewrite (ix_get_is _ _ _ _ _ Hix Hk Hok), (ix_get_is _ _ _ _ _ Hix Hk' Hok).
Qed.

Lemma rows_dead ix nmax os b dead m a : rows ix nmax os b dead m -> a ∈ dead -> is_Some (os !! a).
Proof using. intros (mi & _ & Hr) Ha. by apply (ro_dead _ _ _ _ _ Hr). Qed.

(** The node and the object of a row. *)
Lemma rows_some ix nmax os b dead m k d mem : rows ix nmax os b dead m -> m !! k = Some d ->
  ix_key mem = Ret k -> exists a v, ix_get ix mem = Ret a /\ a <> 0 /\ ix_load ix a = Ret v /\
    row v <> 0 /\ row_obj os k d (row v) /\ ix_key_ok k /\ 0 <= id v < 2 ^ 63 /\
    (forall o d', ix_key (app_mem o) = Ret k -> app_row k d' -> app_encode o n = Some d' ->
      rows ix nmax (<[row v := o]> os) b dead (<[k := d']> m) /\
      forall v', row v' = row v -> 0 <= id v' < 2 ^ 63 -> exists ix', ix_store ix a v' = Ret ix' /\
        rows ix' nmax (<[row v := o]> os) b dead (<[k := d']> m)) /\
    exists ix', ix_delete ix mem = Ret ix' /\ rows ix' nmax os b (row v :: dead) (delete k m).
Proof using.
  intros (mi & Hix & Hr) E Hk. destruct (ro_some _ _ _ _ _ _ _ Hr E) as (a & v & Ei & Hid & Ho & Hnz).
  destruct (ix_node _ _ _ _ _ _ Hix Ei) as (Ha & Hok & Hload & Hstore). exists a, v.
  rewrite (ix_get_is _ _ _ _ _ Hix Hk Hok), Ei. split; [done|]. split; [done|]. split; [done|].
  split; [done|]. split; [done|]. split; [done|]. split; [done|].
  assert (Hex : is_Some (os !! row v)) by (destruct Ho as (o & Eo & _); by eexists).
  split.
  - intros o d' Hko Hrow Henc. split.
    + exists mi. split; [done|]. rewrite <- (insert_id mi k (a, v)) by done.
      eapply ro_insert; try done. right. by exists a, v.
    + intros v' Hv' Hid'. destruct (Hstore v') as (ix' & Hs & Hix'). exists ix'. split; [done|].
      exists (<[k := (a, v')]> mi). split; [done|]. rewrite <- Hv'.
      eapply ro_insert; try done; [|by rewrite Hv']. right. by exists a, v.
  - destruct (ix_delete_is _ _ _ _ _ Hix Hk Hok) as (ix' & Hd & Hix'). exists ix'. split; [done|].
    exists (delete k mi). split; [done|]. by eapply ro_delete.
Qed.

Lemma rows_add ix nmax os b dead m k d o v : rows ix nmax os b dead m -> m !! k = None ->
  Z.of_nat (size m) < nmax -> ix_key (app_mem o) = Ret k -> app_row k d -> app_encode o n = Some d ->
  row v = b -> 0 <= id v < 2 ^ 63 ->
  exists ix', ix_add ix (app_mem o) v = Ret ix' /\ rows ix' nmax (<[b := o]> os) (b + 1) dead (<[k := d]> m).
Proof using.
  intros (mi & Hix & Hr) E Hsz Hk Hrow Henc Hv Hid. destruct (app_row_key _ _ Hrow) as [_ Hok].
  destruct (ix_add_is ix nmax mi (app_mem o) k v Hix Hk Hok (ro_none _ _ _ _ _ _ Hr E)) as (ix' & a & Ha & Hix').
  { by rewrite (ro_size _ _ _ _ _ Hr). }
  exists ix'. split; [done|]. exists (<[k := (a, v)]> mi). split; [done|].
  rewrite <- (insert_insert_eq os b o o), <- Hv. eapply ro_insert; try done.
  - rewrite Hv. by apply ro_new.
  - left. split; [by eapply ro_none|]. rewrite Hv. by eapply ro_unused_new.
  - rewrite lookup_insert_eq. by eexists.
Qed.

Lemma get_row_spec (t : SSdbTable I obj) dead m k mem :
  rows (iHandle t) (maxRows t) (objs t) (brk t) dead m -> ix_key mem = Ret k -> ix_key_ok k ->
  exists r, sdbGetRow t mem = Ret r /\
    match m !! k with None => r = 0 | Some d => r <> 0 /\ row_obj (objs t) k d r end.
Proof using.
  intros Hr Hk Hok. unfold sdbGetRow. destruct (m !! k) as [d|] eqn:E.
  - destruct (rows_some _ _ _ _ _ _ _ _ _ Hr E Hk) as (a & v & -> & Ha & Hl & Hnz & Ho & _).
    cbn [rbind]. rewrite (proj2 (Z.eqb_neq _ _) Ha), Hl. by exists (row v).
  - rewrite (rows_none _ _ _ _ _ _ _ _ Hr E Hk Hok). by exists 0.
Qed.
End Rows.
