(* ===== verification/SdbLog.v ===== *)
(** * The log of a management table and its replay

    The file is a header and a list of sealed rows and commit marks.  Reading
    it back, as [sdbInitTableByFile] does, gives the rows the log stands for. *)
From S2P Require Import Prelude Crc32c Chain SdbIndex Sdb SdbRows.

Inductive item := item_row (rid : Z) (data : list Z) | item_commit.

Section Log.
Context {I K obj : Type} `{AppLaws I K obj n} `{Checksum crc32c cheap}.
Implicit Types (t : SSdbTable I obj) (m : gmap K (list Z)).

(** ** The bytes of the log *)
Definition payload (rid : Z) (d : list Z) : list Z :=
  le_bytes 4 SDB_DELIMITER ++ le_bytes 4 (Z.of_nat (length d)) ++ le_bytes 8 rid ++ d.
Definition sealed (rid : Z) (d : list Z) : list Z :=
  payload rid d ++ le_bytes 4 (record_sum (payload rid d)).
Definition commit_mark : list Z := le_bytes 4 SDB_ENDCOMMIT.
Definition render (x : item) : list Z :=
  match x with item_row rid d => sealed rid d | item_commit => commit_mark end.
Definition render_all (l : list item) : list Z := concat (map render l).

Lemma payload_ok rid d : bytes_ok d -> bytes_ok (payload rid d).
Proof using. intros Hd. unfold payload. rewrite !bytes_ok_app. eauto using le_bytes_ok. Qed.

Lemma length_payload rid d : length (payload rid d) = (16 + length d)%nat.
Proof using. unfold payload. rewrite !length_app, !length_le_bytes. lia. Qed.

Lemma length_sealed_row rid d : length (sealed rid d) = (20 + length d)%nat.
Proof using. unfold sealed. rewrite length_app, length_payload, length_le_bytes. lia. Qed.

Lemma row_bytes_spec rid d : bytes_ok d -> row_bytes crc32c cheap rid d = Ret (Some (sealed rid d)).
Proof using.
  intros Hd. unfold row_bytes.
  pose proof (seal (payload rid d) (replicate 4 0) []) as Hs. rewrite !app_nil_r in Hs.
  rewrite length_payload in Hs. unfold SIZEOF_SRowHead, TSCKSUM.
  replace (16 + Z.of_nat (length d) + 4) with (Z.of_nat (16 + length d) + 4) by lia.
  replace (le_bytes 4 SDB_DELIMITER ++ _) with (payload rid d ++ replicate 4 0)
    by (unfold payload; by rewrite <- !app_assoc).
  apply Hs; [|done]. apply bytes_ok_app. split; [by apply payload_ok|]. repeat constructor; done.
Qed.

Lemma render_all_app l1 l2 : render_all (l1 ++ l2) = render_all l1 ++ render_all l2.
Proof using. unfold render_all. by rewrite map_app, concat_app. Qed.

Lemma render_all_snoc l x : render_all (l ++ [x]) = render_all l ++ render x.
Proof using. rewrite render_all_app. unfold render_all at 2. cbn. by rewrite app_nil_r. Qed.

(** ** What a log stands for *)
Definition del_row (k : K) (d : list Z) : Prop :=
  (forall rest, ix_key (d ++ rest) = Ret k) /\ ix_key_ok k /\ bytes_ok d /\ Z.of_nat (length d) <= n.

Inductive replay (nmax : Z) : list item -> gmap K (list Z) -> Prop :=
| rp_nil : replay nmax [] ∅
| rp_commit l m : replay nmax l m -> replay nmax (l ++ [item_commit]) m
| rp_put l m rid k d : replay nmax l m -> app_row k d -> 0 <= rid < 2 ^ 63 ->
    (m !! k = None -> Z.of_nat (size m) < nmax) ->
    replay nmax (l ++ [item_row rid d]) (<[k := d]> m)
| rp_del l m rid k d d0 : replay nmax l m -> m !! k = Some d0 -> del_row k d -> 0 < rid < 2 ^ 63 ->
    replay nmax (l ++ [item_row (- rid) d]) (delete k m).

(** ** Loading *)
Definition env t : list Z * Z * Z * KEYTYPE * list Z * option (list Z) * list (update_type * Z) * Z * list event * Z :=
  (header t, maxRows t, maxRowSize t, keyType t, file t, dotFile t, update t, sdbVersion t, events t, numOfUpdates t).

(** The table while it is loaded, at offset [p], having accounted for [sz] bytes:
    it holds [m]. *)
Record loading (t0 t : SSdbTable I obj) (p sz : nat) m : Prop := {
  ld_env : env t = env t0;
  ld_pos : pos t = Z.of_nat p /\ tsize t = Z.of_nat sz;
  ld_rows : rows (iHandle t) (maxRows t) (objs t) (brk t) [] m;
  ld_num : numOfRows t = Z.of_nat (size m);
  ld_tid : 0 <= tid t < 2 ^ 63;
  ld_len : maxRowSize t = n }.

Lemma size_insert_Z m k (d : list Z) : Z.of_nat (size (<[k := d]> m)) =
  Z.of_nat (size m) + match m !! k with None => 1 | Some _ => 0 end.
Proof using. rewrite map_size_insert. destruct (m !! k); unfold Datatypes.id; lia. Qed.

Lemma size_delete_Z m k (d : list Z) : m !! k = Some d ->
  Z.of_nat (size (delete k m)) = Z.of_nat (size m) - 1.
Proof using.
  intros E. rewrite map_size_delete, E. assert (size m <> 0%nat); [|lia].
  intros Hz%map_size_empty_inv. subst m. by rewrite lookup_empty in E.
Qed.

Lemma load_row_put t0 t p sz m rid k d z dels : loading t0 t p sz m -> app_row k d -> 0 <= rid < 2 ^ 63 ->
  (m !! k = None -> Z.of_nat (size m) < maxRows t) ->
  exists t' dels', load_row rid (d ++ z) (Z.of_nat (length d)) dels t = Ret (t', dels') /\
    loading t0 t' p sz (<[k := d]> m).
Proof using.
  intros [He Hp Hr Hn Ht Hlen] Hrow Hrid Hroom. destruct (app_row_key _ _ Hrow) as [Hk Hok].
  pose proof (ix_key_app _ _ z Hk) as Hkz. unfold load_row.
  destruct (get_row_spec t [] m k (d ++ z) Hr Hkz Hok) as (r & Hg & Hrk). rewrite Hg. cbn [rbind].
  destruct (m !! k) as [d0|] eqn:E.
  - destruct Hrk as [Hnz (o & Eo & _)]. rewrite (proj2 (Z.eqb_neq _ _) Hnz), (proj2 (Z.ltb_ge _ _)) by lia.
    destruct (rows_some _ _ _ _ _ _ _ _ _ Hr E Hkz) as (a & v & Hga & Ha & Hl & Hnv & _ & _ & _ & Hset & _).
    assert (r = row v) as ->.
    { unfold sdbGetRow in Hg. rewrite Hga in Hg. cbn [rbind] in Hg.
      rewrite (proj2 (Z.eqb_neq _ _) Ha), Hl in Hg. by injection Hg as <-. }
    unfold obj_at. rewrite Eo. cbn [rbind]. eexists _, _. split; [done|].
    destruct (app_reset_row o k d z Hrow) as [Henc Hkey].
    destruct (Hset _ _ Hkey Hrow Henc) as [Hrows _].
    constructor; cbn; try done. rewrite size_insert_Z, E. lia.
  - subst r. cbn [Z.eqb]. rewrite (proj2 (Z.ltb_ge _ _)) by lia. cbn [new_obj].
    destruct (app_decode_row k d z Hrow) as [Henc Hkey].
    set (o := app_decode (d ++ z) (Z.of_nat (length d))) in *.
    unfold obj_at. cbn [objs with_objs]. rewrite lookup_insert_eq. cbn [rbind].
    destruct (rows_add _ _ _ _ _ _ k d o
      {| id := rid; offset := tsize t; rowSize := Z.of_nat (length d); row := brk t |}
      Hr E (Hroom eq_refl) Hkey Hrow Henc eq_refl Hrid) as (ix' & Hadd & Hrows).
    unfold ix_add_row. cbn [iHandle tsize with_objs]. rewrite Hadd. cbn [rbind].
    eexists _, _. split; [reflexivity|].
    constructor; cbn; try done. rewrite size_insert_Z, E. lia.
Qed.

Lemma load_row_del t0 t p sz m rid k d d0 z dels : loading t0 t p sz m -> m !! k = Some d0 -> del_row k d ->
  0 < rid -> exists t' dels', load_row (- rid) (d ++ z) (Z.of_nat (length d)) dels t = Ret (t', dels') /\
    loading t0 t' p sz (delete k m).
Proof using.
  intros [He Hp Hr Hn Ht Hlen] E (Hk & Hok & Hd & Hdn) Hrid. specialize (Hk z). unfold load_row.
  destruct (get_row_spec t [] m k (d ++ z) Hr Hk Hok) as (r & Hg & Hrk). rewrite Hg. cbn [rbind].
  rewrite E in Hrk. destruct Hrk as [Hnz _].
  rewrite (proj2 (Z.eqb_neq _ _) Hnz), (proj2 (Z.ltb_lt _ _)) by lia.
  destruct (rows_some _ _ _ _ _ _ _ _ _ Hr E Hk) as (a & v & Hga & Ha & Hl & Hnv & _ & _ & _ & _ & ix' & Hdel & Hrows).
  assert (r = row v) as ->.
  { unfold sdbGetRow in Hg. rewrite Hga in Hg. cbn [rbind] in Hg.
    rewrite (proj2 (Z.eqb_neq _ _) Ha), Hl in Hg. by injection Hg as <-. }
  unfold ix_delete_row. rewrite Hdel. cbn [rbind].
  apply rows_destroy in Hrows as [[o Eo] Hrows]. unfold destroy_obj, obj_at. cbn [objs with_index].
  rewrite Eo. cbn [rbind]. eexists _, _. split; [done|].
  constructor; cbn; try done. rewrite (size_delete_Z _ _ _ E). lia.
Qed.

(** ** One turn of the loop *)
Lemma fd_read_at t pre rest k : file t = pre ++ rest -> pos t = Z.of_nat (length pre) ->
  fd_read (Z.of_nat k) t = (take k rest, set_fd (pre ++ rest) (pos t + Z.of_nat (length (take k rest))) t).
Proof using.
  intros Hf Hp. unfold fd_read. rewrite Hf, Hp, !Nat2Z.id, drop_app_length. done.
Qed.

Lemma loading_move t0 t p sz m p' sz' : loading t0 t p sz m ->
  loading t0 (set_tsize (Z.of_nat sz') (set_fd (file t) (Z.of_nat p') t)) p' sz' m.
Proof using. intros [He Hp Hr Hn Ht Hl]. by constructor. Qed.

(** A byte that does not start a row is skipped. *)
Lemma load_step_skip t0 t pre c rest m dels : loading t0 t (length pre) (length pre) m -> file t = pre ++ c :: rest ->
  (length (c :: rest) < 16)%nat \/ (byte_ok c /\ c <> 0) ->
  exists t', load_step crc32c cheap dels t = Ret (inl (t', dels)) /\ loading t0 t' (length (pre ++ [c])) (length (pre ++ [c])) m.
Proof using.
  intros Hld Hf Hc. pose proof (ld_pos _ _ _ _ _ Hld) as [Hp Hsz]. unfold load_step.
  change SIZEOF_SRowHead with (Z.of_nat 16). rewrite (fd_read_at t pre (c :: rest) 16 Hf Hp).
  set (head := take 16 (c :: rest)).
  assert (Hl : (0 < length head)%nat) by (unfold head; rewrite length_take; cbn; lia).
  rewrite (proj2 (Z.eqb_neq _ 0)) by lia.
  assert (Hskip : (Z.of_nat (length head) <? Z.of_nat 16) || negb (le_val (take 4 head) =? SDB_DELIMITER) = true).
  { destruct Hc as [Hshort|[Hb Hnz]].
    - apply orb_true_iff. left. apply Z.ltb_lt. unfold head. rewrite length_take. lia.
    - apply orb_true_iff. right. apply negb_true_iff, Z.eqb_neq. unfold head. cbn [take le_val].
      set (r := le_val _). intros E. apply Hnz. unfold SDB_DELIMITER in E. unfold byte_ok in Hb. lia. }
  rewrite Hskip. eexists. split; [reflexivity|].
  rewrite length_app. cbn [length].
  replace (set_fd _ _ _) with
    (set_tsize (Z.of_nat (length pre + 1)) (set_fd (file t) (Z.of_nat (length pre + 1)) t)).
  - by apply (loading_move t0 t (length pre) (length pre)).
  - unfold set_tsize, set_fd, with_file. cbn. rewrite Hf, Hp, Hsz. f_equal; lia.
Qed.

Lemma load_step_end t0 t pre m dels : loading t0 t (length pre) (length pre) m -> file t = pre ->
  exists t', load_step crc32c cheap dels t = Ret (inr (t', dels)) /\ loading t0 t' (length pre) (length pre) m.
Proof using.
  intros Hld Hf. pose proof (ld_pos _ _ _ _ _ Hld) as [Hp Hsz]. unfold load_step.
  rewrite <- (app_nil_r pre) in Hf.
  change SIZEOF_SRowHead with (Z.of_nat 16). rewrite (fd_read_at t pre [] 16 Hf Hp). cbn [take length Z.of_nat Z.eqb].
  eexists. split; [reflexivity|]. destruct Hld as [He _ Hr Hn Ht Hlen]. constructor; try done.
  - cbn. unfold env in *. cbn. by rewrite <- Hf.
  - cbn. split; [lia|done].
Qed.

Lemma head_fields rid d rest : in_s 64 rid -> Z.of_nat (length d) < 2 ^ 31 ->
  take 16 (sealed rid d ++ rest) = le_bytes 4 SDB_DELIMITER ++ le_bytes 4 (Z.of_nat (length d)) ++ le_bytes 8 rid /\
  drop 16 (sealed rid d ++ rest) = d ++ le_bytes 4 (record_sum (payload rid d)) ++ rest /\
  le_val (le_bytes 4 SDB_DELIMITER) = SDB_DELIMITER /\
  i32 (le_val (le_bytes 4 (Z.of_nat (length d)))) = Z.of_nat (length d) /\
  i64 (le_val (le_bytes 8 rid)) = rid.
Proof using.
  intros Hrid Hd.
  assert (E : sealed rid d ++ rest = (le_bytes 4 SDB_DELIMITER ++ le_bytes 4 (Z.of_nat (length d)) ++ le_bytes 8 rid) ++
    d ++ le_bytes 4 (record_sum (payload rid d)) ++ rest) by (unfold sealed, payload; by rewrite <- !app_assoc).
  rewrite E. split; [|split; [|split; [reflexivity|split]]].
  - rewrite take_app_le by (rewrite !length_app, !length_le_bytes; lia).
    apply take_ge. rewrite !length_app, !length_le_bytes. lia.
  - apply drop_app_length'. by rewrite !length_app, !length_le_bytes.
  - rewrite le_val_bytes. change (8 * Z.of_nat 4) with 32. rewrite Z.mod_small by lia.
    apply wraps_id; [lia|unfold in_s; lia].
  - rewrite le_val_bytes. change (8 * Z.of_nat 8) with 64. fold (wrapu 64 rid).
    rewrite wraps_wrapu by lia. by apply wraps_id.
Qed.

Lemma abs_range rid : in_s 64 rid -> abs rid < 2 ^ 63.
Proof using. intros Hr. unfold abs. pose proof (wraps_range 64 (- rid) ltac:(lia)) as Hw. unfold in_s in *. destruct (Z.ltb_spec rid 0); lia. Qed.

(** A row that is there in full takes effect. *)
Lemma load_step_row t0 t pre rid d rest m m' dels : n < 2 ^ 31 -> loading t0 t (length pre) (length pre) m ->
  file t = pre ++ sealed rid d ++ rest -> bytes_ok d -> Z.of_nat (length d) <= n -> in_s 64 rid ->
  Z.abs rid < 2 ^ 63 ->
  (forall t1 z p sz, loading t0 t1 p sz m -> maxRows t1 = maxRows t -> exists t2 dels2,
    load_row rid (d ++ z) (Z.of_nat (length d)) dels t1 = Ret (t2, dels2) /\
    loading t0 t2 p sz m') ->
  exists t' dels', load_step crc32c cheap dels t = Ret (inl (t', dels')) /\
    loading t0 t' (length (pre ++ sealed rid d)) (length (pre ++ sealed rid d)) m'.
Proof using.
  intros Hn Hld Hf Hd Hdn Hrid Habs Hrow. pose proof (ld_pos _ _ _ _ _ Hld) as [Hp Hsz]. unfold load_step.
  pose proof (ld_len _ _ _ _ _ Hld) as Hmax.
  change SIZEOF_SRowHead with (Z.of_nat 16). rewrite (fd_read_at t pre _ 16 Hf Hp).
  destruct (head_fields rid d rest Hrid ltac:(lia)) as (Eh & Ed & Edel & Esz & Eid). rewrite Eh.
  set (h1 := le_bytes 4 SDB_DELIMITER) in *. set (h2 := le_bytes 4 (Z.of_nat (length d))) in *.
  set (h3 := le_bytes 8 rid) in *.
  assert (L1 : length h1 = 4%nat) by apply length_le_bytes.
  assert (L2 : length h2 = 4%nat) by apply length_le_bytes.
  assert (L3 : length h3 = 8%nat) by apply length_le_bytes.
  assert (Lh : length (h1 ++ h2 ++ h3) = 16%nat) by (rewrite !length_app; lia).
  rewrite Lh. change (Z.of_nat 16 =? 0) with false.
  rewrite (take_app_le h1), (take_ge h1), Edel, Z.eqb_refl, Z.ltb_irrefl by lia. cbn [orb negb].
  rewrite (drop_app_ge h1 _ 4), L1 by lia. change (4 - 4)%nat with 0%nat. rewrite drop_0.
  rewrite (take_app_le h2), (take_ge h2), Esz by lia.
  rewrite (app_assoc h1 h2 h3), (drop_app_ge (h1 ++ h2)) by (rewrite length_app; lia).
  rewrite length_app, L1, L2. change (8 - (4 + 4))%nat with 0%nat. rewrite drop_0, Eid.
  rewrite (proj2 (Z.ltb_ge _ 0)) by lia. cbn [orb maxRowSize set_fd with_file]. rewrite Hmax.
  rewrite (proj2 (Z.ltb_ge n _)) by lia.
  set (t1 := set_fd _ _ _).
  set (sum := le_bytes 4 (record_sum (payload rid d))) in *.
  assert (Ls : length sum = 4%nat) by apply length_le_bytes.
  assert (Hf1 : file t1 = (pre ++ h1 ++ h2 ++ h3) ++ (d ++ sum) ++ rest).
  { change (file t1) with (pre ++ sealed rid d ++ rest).
    rewrite <- (take_drop 16 (sealed rid d ++ rest)), Eh, Ed. by rewrite <- !app_assoc. }
  assert (Hp1 : pos t1 = Z.of_nat (length (pre ++ h1 ++ h2 ++ h3))).
  { cbn [pos t1 set_fd with_file]. rewrite ?length_app. lia. }
  unfold TSCKSUM. replace (Z.of_nat (length d) + 4) with (Z.of_nat (length (d ++ sum))) by (rewrite length_app; lia).
  rewrite (fd_read_at t1 _ _ _ Hf1 Hp1). rewrite take_app_le, take_ge by lia.
  rewrite Z.ltb_irrefl.
  replace ((h1 ++ h2) ++ h3) with (h1 ++ h2 ++ h3) by by rewrite app_assoc.
  assert (Hseal : taosCheckChecksumWhole crc32c cheap ((h1 ++ h2 ++ h3) ++ d ++ sum)
    (Z.of_nat 16 + Z.of_nat (length d) + 4) = Ret true).
  { pose proof (seal_ok (payload rid d) (payload_ok rid d Hd)) as Hs. rewrite length_payload in Hs.
    replace ((h1 ++ h2 ++ h3) ++ d ++ sum) with (payload rid d ++ sum)
      by (unfold payload; by rewrite <- !app_assoc).
    rewrite <- Hs. f_equal. lia. }
  rewrite Hseal. cbn [rbind negb].
  set (t2 := set_fd _ _ _). rewrite <- (app_assoc d sum).
  assert (Hld2 : loading t0 t2 (length (pre ++ sealed rid d)) (length pre) m).
  { destruct Hld as [He _ Hr Hnum Ht Hlen]. constructor; try done.
    - rewrite <- He. assert (Ef : file t2 = file t).
      { transitivity (file t1); [symmetry; exact Hf1|symmetry; exact Hf]. }
      unfold env. by rewrite Ef.
    - split; [|exact Hsz]. cbn [pos t2 set_fd with_file]. rewrite Hp1, !length_app, length_sealed_row. lia. }
  destruct (Hrow t2 (sum ++ replicate (Z.to_nat (maxRowSize t2 - Z.of_nat (length d))) 0) _ _ Hld2 eq_refl)
    as (t3 & dels3 & Hl3 & Hld3).
  rewrite Hl3. cbn [rbind]. eexists _, _. split; [reflexivity|].
  pose proof (ld_pos _ _ _ _ _ Hld3) as [Hp3 Hs3]. destruct Hld3 as [He3 _ Hr3 Hn3 Ht3 Hl3'].
  assert (Hs4 : tsize t3 + (Z.of_nat 16 + Z.of_nat (length d) + 4) = Z.of_nat (length (pre ++ sealed rid d))).
  { rewrite Hs3, length_app, length_sealed_row. lia. }
  pose proof (abs_range rid Hrid) as Habs'.
  destruct (Z.ltb_spec (tid (set_tsize (tsize t3 + (Z.of_nat 16 + Z.of_nat (length d) + 4)) t3)) (abs rid));
    constructor; try done; cbn in *; lia.
Qed.

(** A row that is cut short ends the loop. *)
Lemma load_step_torn t0 t pre rid d m dels j : n < 2 ^ 31 -> loading t0 t (length pre) (length pre) m ->
  file t = pre ++ take j (sealed rid d) -> (16 <= j < length (sealed rid d))%nat ->
  Z.of_nat (length d) <= n -> in_s 64 rid ->
  exists t' p, load_step crc32c cheap dels t = Ret (inr (t', dels)) /\ loading t0 t' p (length pre) m.
Proof using.
  intros Hn Hld Hf Hj Hdn Hrid. pose proof (ld_pos _ _ _ _ _ Hld) as [Hp Hsz]. unfold load_step.
  pose proof (ld_len _ _ _ _ _ Hld) as Hmax.
  change SIZEOF_SRowHead with (Z.of_nat 16). rewrite (fd_read_at t pre _ 16 Hf Hp).
  rewrite take_take, Nat.min_l by lia.
  destruct (head_fields rid d [] Hrid ltac:(lia)) as (Eh & Ed & Edel & Esz & Eid).
  rewrite app_nil_r in Eh. rewrite Eh.
  set (h1 := le_bytes 4 SDB_DELIMITER) in *. set (h2 := le_bytes 4 (Z.of_nat (length d))) in *.
  set (h3 := le_bytes 8 rid) in *.
  assert (L1 : length h1 = 4%nat) by apply length_le_bytes.
  assert (L2 : length h2 = 4%nat) by apply length_le_bytes.
  assert (L3 : length h3 = 8%nat) by apply length_le_bytes.
  assert (Lh : length (h1 ++ h2 ++ h3) = 16%nat) by (rewrite !length_app; lia).
  rewrite Lh. change (Z.of_nat 16 =? 0) with false.
  rewrite (take_app_le h1), (take_ge h1), Edel, Z.eqb_refl, Z.ltb_irrefl by lia. cbn [orb negb].
  rewrite (drop_app_ge h1 _ 4), L1 by lia. change (4 - 4)%nat with 0%nat. rewrite drop_0.
  rewrite (take_app_le h2), (take_ge h2), Esz by lia.
  rewrite (proj2 (Z.ltb_ge _ 0)) by lia. cbn [orb maxRowSize set_fd with_file]. rewrite Hmax.
  rewrite (proj2 (Z.ltb_ge n _)) by lia.
  set (t1 := set_fd _ _ _). rewrite length_sealed_row in Hj.
  assert (Hread : Z.of_nat (length (fd_read (Z.of_nat (length d) + TSCKSUM) t1).1) < Z.of_nat (length d) + TSCKSUM).
  { unfold fd_read, TSCKSUM. cbn [fst file pos t1 set_fd with_file].
    rewrite length_take, length_drop, length_app, length_take, length_sealed_row, Hp. lia. }
  assert (Hsame : (fd_read (Z.of_nat (length d) + TSCKSUM) t1).2 =
    set_fd (file t1) (pos t1 + Z.of_nat (length (fd_read (Z.of_nat (length d) + TSCKSUM) t1).1)) t1) by done.
  destruct (fd_read _ t1) as [data t2]. cbn [fst snd] in Hread, Hsame. rewrite (proj2 (Z.ltb_lt _ _)) by done.
  eexists _, (Z.to_nat (pos t1 + Z.of_nat (length data))). split; [reflexivity|]. subst t2.
  destruct Hld as [He _ Hr Hnum Ht Hlen]. constructor; try done.
  - rewrite <- He. unfold env. cbn. by rewrite Hf.
  - split; [|done]. cbn. lia.
Qed.

(** ** The whole loop *)
(** The loop reaches a state after at most [bytes] turns. *)
Definition loads t (dels : Z) t' (dels' : Z) (bytes : nat) : Prop :=
  exists k, (k <= bytes)%nat /\ forall fuel,
    load_loop crc32c cheap (k + fuel) dels t = load_loop crc32c cheap fuel dels' t'.

Lemma loads_refl t dels b : loads t dels t dels b.
Proof using. exists 0%nat. split; [lia|done]. Qed.

Lemma loads_trans t d t1 d1 t2 d2 b1 b2 b : loads t d t1 d1 b1 -> loads t1 d1 t2 d2 b2 ->
  (b1 + b2 <= b)%nat -> loads t d t2 d2 b.
Proof using.
  intros (k1 & Hk1 & E1) (k2 & Hk2 & E2) Hb. exists (k1 + k2)%nat. split; [lia|].
  intros fuel. by rewrite <- Nat.add_assoc, E1, E2.
Qed.

Lemma loads_step t d t1 d1 b : (0 < b)%nat -> load_step crc32c cheap d t = Ret (inl (t1, d1)) -> loads t d t1 d1 b.
Proof using. intros Hb E. exists 1%nat. split; [lia|]. intros fuel. cbn [load_loop Nat.add]. by rewrite E. Qed.

(** Bytes that start no row: a commit mark, or less than a head at the end. *)
Lemma loads_skip t0 q : forall t pre rest m d, loading t0 t (length pre) (length pre) m ->
  file t = pre ++ q ++ rest ->
  Forall (fun c => byte_ok c /\ c <> 0) q \/ (length (q ++ rest) < 16)%nat ->
  exists t', loads t d t' d (length q) /\ loading t0 t' (length (pre ++ q)) (length (pre ++ q)) m.
Proof using.
  induction q as [|c q IH]; intros t pre rest m d Hld Hf Hc.
  - exists t. split; [apply loads_refl|]. by rewrite app_nil_r.
  - destruct (load_step_skip t0 t pre c (q ++ rest) m d Hld Hf) as (t1 & E1 & Hld1).
    { destruct Hc as [Hc|Hc]; [right; by apply Forall_cons_1 in Hc as [? _]|by left]. }
    assert (Hf1 : file t1 = (pre ++ [c]) ++ q ++ rest).
    { pose proof (ld_env _ _ _ _ _ Hld1) as E. rewrite <- (ld_env _ _ _ _ _ Hld) in E.
      injection E as _ _ _ _ E _ _ _ _ _. by rewrite E, Hf, <- app_assoc. }
    destruct (IH t1 (pre ++ [c]) rest m d Hld1 Hf1) as (t2 & Hl2 & Hld2).
    { destruct Hc as [Hc|Hc]; [left; by apply Forall_cons_1 in Hc as [_ ?]|right; cbn in Hc; lia]. }
    exists t2. rewrite <- app_assoc in Hld2. split; [|done].
    eapply (loads_trans _ _ _ _ _ _ 1); [by apply loads_step; [|exact E1]; lia|exact Hl2|cbn; lia].
Qed.

Lemma commit_bytes : Forall (fun c => byte_ok c /\ c <> 0) commit_mark.
Proof using. repeat constructor; unfold byte_ok; try done; cbn; lia. Qed.

Lemma loading_file t0 t p sz m : loading t0 t p sz m -> file t = file t0 /\ maxRows t = maxRows t0.
Proof using. intros Hld. pose proof (ld_env _ _ _ _ _ Hld) as E. by injection E. Qed.

Lemma del_row_range rid d k : 0 < rid < 2 ^ 63 -> del_row k d -> in_s 64 (- rid) /\ Z.abs (- rid) < 2 ^ 63.
Proof using. unfold in_s. lia. Qed.

(** Reading a log leads to what it stands for. *)
Lemma loads_log t0 l m pre rest : n < 2 ^ 31 -> file t0 = pre ++ render_all l ++ rest ->
  replay (maxRows t0) l m -> forall t d, loading t0 t (length pre) (length pre) ∅ ->
  exists t' d', loads t d t' d' (length (render_all l)) /\
    loading t0 t' (length (pre ++ render_all l)) (length (pre ++ render_all l)) m.
Proof using.
  intros Hn Hf Hrep. revert rest Hf.
  induction Hrep as [|l m Hrep IH|l m rid k d Hrep IH Hrow Hrid Hroom|l m rid k d d0 Hrep IH E Hdel Hrid];
    intros rest Hf t dels Hld.
  - exists t, dels. split; [apply loads_refl|]. cbn. by rewrite app_nil_r.
  - rewrite render_all_snoc in Hf |- *. cbn [render] in Hf |- *. rewrite <- app_assoc in Hf. destruct (IH _ Hf t dels Hld) as (t1 & d1 & Hl1 & Hld1).
    destruct (loading_file _ _ _ _ _ Hld1) as [Hf1 _].
    destruct (loads_skip t0 commit_mark t1 (pre ++ render_all l) rest m d1 Hld1) as (t2 & Hl2 & Hld2).
    { by rewrite Hf1, Hf, <- app_assoc. }
    { left. apply commit_bytes. }
    exists t2, d1. rewrite <- app_assoc in Hld2. split; [|done].
    by eapply loads_trans; [exact Hl1|exact Hl2|rewrite length_app].
  - rewrite render_all_snoc in Hf |- *. cbn [render] in Hf |- *. rewrite <- app_assoc in Hf. destruct (IH _ Hf t dels Hld) as (t1 & d1 & Hl1 & Hld1).
    destruct (loading_file _ _ _ _ _ Hld1) as [Hf1 Hm1].
    destruct (app_row_len _ _ Hrow) as [Hlen Hok].
    destruct (load_step_row t0 t1 (pre ++ render_all l) rid d rest m (<[k:=d]> m) d1) as (t2 & d2 & Hs & Hld2);
      try done; [by rewrite Hf1, Hf, <- app_assoc|lia|unfold in_s; lia|lia|..].
    { intros t3 z p sz Hld3 Hm3. eapply load_row_put; try done. rewrite Hm3, Hm1. done. }
    exists t2, d2. rewrite <- app_assoc in Hld2. split; [|done].
    eapply loads_trans; [exact Hl1|apply (loads_step _ _ _ _ (length (sealed rid d))); [rewrite length_sealed_row; lia|exact Hs]|by rewrite length_app].
  - rewrite render_all_snoc in Hf |- *. cbn [render] in Hf |- *. rewrite <- app_assoc in Hf. destruct (IH _ Hf t dels Hld) as (t1 & d1 & Hl1 & Hld1).
    destruct (loading_file _ _ _ _ _ Hld1) as [Hf1 Hm1].
    destruct (del_row_range _ _ _ Hrid Hdel) as [Hin Habs].
    destruct (load_step_row t0 t1 (pre ++ render_all l) (- rid) d rest m (delete k m) d1) as (t2 & d2 & Hs & Hld2);
      try done; [by rewrite Hf1, Hf, <- app_assoc|apply Hdel|apply Hdel|..].
    { intros t3 z p sz Hld3 _. eapply load_row_del; try done. lia. }
    exists t2, d2. rewrite <- app_assoc in Hld2. split; [|done].
    eapply loads_trans; [exact Hl1|apply (loads_step _ _ _ _ (length (sealed (- rid) d))); [rewrite length_sealed_row; lia|exact Hs]|by rewrite length_app].
Qed.
End Log.
