(* ===== verification/SdbOpen.v ===== *)
(** * Opening a management table

    The search for the last commit mark, the replay of what is in front of it,
    and snapshots: opening a file gives the rows of its log, and a change that
    was cut short is there or is not. *)
From S2P Require Import Prelude Crc32c Chain SdbIndex Sdb SdbRows SdbLog.

Section Open.
Context {I K obj : Type} `{AppLaws I K obj n} `{Checksum crc32c cheap}.
Implicit Types (t : SSdbTable I obj) (m : gmap K (list Z)).

(** ** The invariant of a table *)
Definition dead_row (x : update_type * Z) : list Z :=
  match x.1 with SDB_TYPE_DELETE => [x.2] | _ => [] end.

(** In memory: the rows, the objects, and the update list. *)
Record table_inv t m : Prop := {
  ti_kind : ix_kind (keyType t);
  ti_len : maxRowSize t = n;
  ti_rows : rows (iHandle t) (maxRows t) (objs t) (brk t) (concat (map dead_row (update t))) m;
  ti_num : numOfRows t = Z.of_nat (size m);
  ti_upd : Z.of_nat (length (update t)) = maxRows t /\ 0 < maxRows t /\ 0 <= numOfUpdates t;
  ti_tid : 0 <= tid t < 2 ^ 63 }.

Definition hdr_ok (h : list Z) : Prop :=
  exists p, length p = 20%nat /\ bytes_ok p /\ h = p ++ le_bytes 4 (record_sum p).

(** A log whose last change is complete. *)
Definition closed (l : list item) : Prop := l = [] \/ exists l', l = l' ++ [item_commit].

Definition file_of_log (h : list Z) (l : list item) : list Z := h ++ commit_mark ++ render_all l.

(** On disk: the file is a log of the rows, and the position is at its end. *)
Record file_inv t m : Prop := {
  fi_log : exists l, file t = file_of_log (header t) l /\ replay (maxRows t) l m /\ closed l;
  fi_hdr : hdr_ok (header t);
  fi_pos : pos t = Z.of_nat (length (file t)) /\ tsize t = pos t;
  fi_dot : dotFile t = None }.

Lemma hdr_length h : hdr_ok h -> length h = 24%nat.
Proof using. intros (p & Hp & _ & ->). rewrite length_app, length_le_bytes. lia. Qed.

Lemma hdr_check h : hdr_ok h -> taosCheckChecksumWhole crc32c cheap h SIZEOF_HEADER = Ret true.
Proof using.
  intros (p & Hp & Hb & ->). pose proof (seal_ok p Hb) as Hs. rewrite Hp in Hs.
  rewrite <- Hs. f_equal.
Qed.

Lemma replay_size nmax l m : 0 <= nmax -> replay nmax l m -> Z.of_nat (size m) <= nmax.
Proof using.
  intros Hn. induction 1 as [|l m Hr IH|l m rid k d Hr IH Hrow Hrid Hroom|l m rid k d d0 Hr IH E Hd Hrid]; try done.
  - rewrite size_insert_Z. destruct (m !! k); [lia|]. specialize (Hroom eq_refl). lia.
  - rewrite (size_delete_Z _ _ _ E). lia.
Qed.

(** ** The last commit mark *)
Lemma find_commit_ge f (i : nat) : forall k, (0 < i <= k)%nat -> take 4 (drop i f) = commit_mark ->
  exists i', find_commit f k = Some i' /\ (i <= i' <= k)%nat.
Proof using.
  induction k as [|k IH]; intros Hi Hat; [lia|]. cbn [find_commit]. case_bool_decide as Hb.
  - exists (S k). split; [done|lia].
  - assert (i <> S k) by (intros ->; done). destruct (IH ltac:(lia) Hat) as (i' & -> & Hr).
    exists i'. split; [done|lia].
Qed.

Lemma truncate_spec a q : (0 < length a)%nat -> exists j,
  truncate_uncommitted (a ++ commit_mark ++ q) = a ++ commit_mark ++ take j q.
Proof using.
  intros Ha. unfold truncate_uncommitted.
  assert (Hc : length commit_mark = 4%nat) by done.
  assert (Hlen : length (a ++ commit_mark ++ q) = (length a + 4 + length q)%nat)
    by (rewrite !length_app; lia).
  destruct (find_commit_ge (a ++ commit_mark ++ q) (length a) (length (a ++ commit_mark ++ q) - 4))
    as (i & -> & Hi).
  - lia.
  - rewrite drop_app_length, take_app_le, take_ge by lia. done.
  - exists (i - length a)%nat. rewrite take_app_ge by lia. f_equal.
    rewrite take_app_ge by lia. f_equal. f_equal. lia.
Qed.

(** ** The rest of the file behind the log *)
Lemma loads_end t d t1 d1 t2 d2 b F :
  loads (crc32c := crc32c) (cheap := cheap) t d t1 d1 b ->
  load_step crc32c cheap d1 t1 = Ret (inr (t2, d2)) -> (b <= F)%nat ->
  load_loop crc32c cheap (S F) d t = Ret (t2, d2).
Proof using.
  intros (k & Hk & E) Hs Hb. replace (S F) with (k + S (F - k))%nat by lia. rewrite E.
  cbn [load_loop]. by rewrite Hs.
Qed.

(** The effect of a row record on the rows. *)
Definition row_effect (nmax : Z) (rid : Z) (d : list Z) m m' : Prop :=
  bytes_ok d /\ Z.of_nat (length d) <= n /\ in_s 64 rid /\ Z.abs rid < 2 ^ 63 /\
  forall t0 t z p sz dels, loading t0 t p sz m -> maxRows t = nmax -> exists t2 dels2,
    load_row rid (d ++ z) (Z.of_nat (length d)) dels t = Ret (t2, dels2) /\ loading t0 t2 p sz m'.

Lemma effect_put nmax rid k d m : app_row k d -> 0 <= rid < 2 ^ 63 ->
  (m !! k = None -> Z.of_nat (size m) < nmax) -> row_effect nmax rid d m (<[k := d]> m).
Proof using.
  intros Hrow Hrid Hroom. destruct (app_row_len _ _ Hrow) as [Hl Hb].
  split; [done|]. split; [lia|]. split; [unfold in_s; lia|]. split; [lia|]. intros t0 t z p sz dels Hld Hm. eapply load_row_put; try done. by rewrite Hm.
Qed.

Lemma effect_del nmax rid k d d0 m : m !! k = Some d0 -> del_row (n := n) k d -> 0 < rid < 2 ^ 63 ->
  row_effect nmax (- rid) d m (delete k m).
Proof using.
  intros E Hdel Hrid. destruct (del_row_range _ _ _ Hrid Hdel) as [Hr Ha].
  split; [apply Hdel|]. split; [apply Hdel|]. split; [done|]. split; [done|]. intros t0 t z p sz dels Hld Hm. eapply load_row_del; try done. lia.
Qed.

(** Nothing, or part of a row and its commit mark. *)
Lemma load_tail t0 t pre m m' rid d j dels F : n < 2 ^ 31 ->
  loading t0 t (length pre) (length pre) m -> row_effect (maxRows t0) rid d m m' ->
  file t0 = pre ++ take j (sealed rid d ++ commit_mark) -> (length (take j (sealed rid d ++ commit_mark)) <= F)%nat ->
  exists t' d' p sz, load_loop crc32c cheap (S F) dels t = Ret (t', d') /\
    (loading t0 t' p sz m \/ loading t0 t' p sz m').
Proof using.
  intros Hn Hld (Hb & Hdn & Hrid & Habs & Heff) Hf HF.
  destruct (loading_file _ _ _ _ _ Hld) as [Hft Hmt].
  assert (Hls : length (sealed rid d) = (20 + length d)%nat) by apply length_sealed_row.
  assert (Hlc : length commit_mark = 4%nat) by done.
  destruct (decide (length (sealed rid d) <= j)%nat) as [Hj|Hj].
  - rewrite take_app_ge in Hf, HF by done. set (c := take _ commit_mark) in Hf, HF.
    rewrite length_app in HF.
    assert (Hcl : (length c <= 4)%nat) by (unfold c; rewrite length_take; lia).
    destruct (load_step_row t0 t pre rid d c m m' dels) as (t1 & d1 & Hs & Hld1); try done.
    { by rewrite Hft. } { intros t3 z p sz Hld3 Hm3. eapply Heff; [exact Hld3|]. by rewrite Hm3. }
    destruct (loading_file _ _ _ _ _ Hld1) as [Hf1 _].
    destruct (loads_skip (crc32c := crc32c) (cheap := cheap) t0 c t1 (pre ++ sealed rid d) [] m' d1 Hld1) as (t2 & Hl2 & Hld2).
    { rewrite Hf1, Hf, app_nil_r. by rewrite <- app_assoc. }
    { left. apply Forall_take, commit_bytes. }
    destruct (loading_file _ _ _ _ _ Hld2) as [Hf2 _].
    destruct (load_step_end (crc32c := crc32c) (cheap := cheap) t0 t2 ((pre ++ sealed rid d) ++ c) m' d1 Hld2) as (t3 & He & Hld3).
    { by rewrite Hf2, Hf, <- app_assoc. }
    eexists t3, d1, _, _. split; [|right; exact Hld3].
    eapply (loads_end _ _ _ _ _ _ (1 + length c)); [|exact He|lia].
    eapply loads_trans; [apply (loads_step _ _ _ _ 1); [lia|exact Hs]|exact Hl2|lia].
  - rewrite take_app_le in Hf, HF by lia. destruct (decide (16 <= j)%nat) as [Hj16|Hj16].
    + destruct (load_step_torn t0 t pre rid d m dels j) as (t1 & p & Hs & Hld1); try done; [by rewrite Hft|lia|].
      eexists t1, dels, _, _. split; [|left; exact Hld1]. cbn [load_loop]. by rewrite Hs.
    + destruct (loads_skip (crc32c := crc32c) (cheap := cheap) t0 (take j (sealed rid d)) t pre [] m dels Hld) as (t2 & Hl2 & Hld2).
      { by rewrite Hft, Hf, app_nil_r. }
      { right. rewrite app_nil_r, length_take. lia. }
      destruct (loading_file _ _ _ _ _ Hld2) as [Hf2 _].
      destruct (load_step_end (crc32c := crc32c) (cheap := cheap) t0 t2 (pre ++ take j (sealed rid d)) m dels Hld2) as (t3 & He & Hld3); [by rewrite Hf2|].
      eexists t3, dels, _, _. split; [|left; exact Hld3].
      eapply loads_end; [exact Hl2|exact He|exact HF].
Qed.

(** ** Snapshots *)
Lemma file_write_end f bs : file_write f (Z.of_nat (length f)) bs = f ++ bs.
Proof using.
  unfold file_write. rewrite Nat2Z.id, Nat.sub_diag. cbn [replicate]. rewrite app_nil_r, firstn_all, drop_ge by lia.
  by rewrite app_nil_r.
Qed.

(** The log of the rows at the addresses the index gives. *)
Definition snap_items m (l : list (K * (Z * SRowMeta))) : list item :=
  concat (map (fun kv => [item_row (id kv.2.2) (default [] (m !! kv.1)); item_commit]) l).

Lemma snap_items_cons m kv l : render_all (snap_items m (kv :: l)) =
  sealed (id kv.2.2) (default [] (m !! kv.1)) ++ commit_mark ++ render_all (snap_items m l).
Proof using. unfold snap_items. cbn [map concat]. rewrite render_all_app. cbn. by rewrite <- app_assoc. Qed.

(** What the fetch function gives behind the rows [pre]. *)
Definition fetched (ix : I) (l : list (K * (Z * SRowMeta))) (ptr : Z) (post : list (K * (Z * SRowMeta))) : Prop :=
  ix_fetch ix ptr = Ret (match post with kv :: _ => kv.2.1 | [] => 0 end) /\
  exists pre, l = pre ++ post.

Lemma snap_loop_spec t m mi dead l : ix_is (iHandle t) (maxRows t) mi ->
  rows_of (n := n) mi (objs t) (brk t) dead m -> maxRowSize t = n -> l ≡ₚ map_to_list mi ->
  (forall pre kv post, l = pre ++ kv :: post ->
    ix_fetch (iHandle t) kv.2.1 = Ret (match post with kv' :: _ => kv'.2.1 | [] => 0 end)) ->
  forall post fuel ptr f c, fetched (iHandle t) l ptr post -> (length post < fuel)%nat ->
  snap_loop crc32c cheap fuel ptr f (Z.of_nat (length f)) c t =
    Ret (true, (f ++ render_all (snap_items m post),
      Z.of_nat (length (f ++ render_all (snap_items m post))), c + Z.of_nat (length post))).
Proof using.
  intros Hix Hro Hn Hperm Hnext. induction post as [|[k [a v]] post IH]; intros [|fuel] ptr f c [Hf [pre Hpre]] Hfuel;
    cbn [length] in Hfuel; try lia; cbn [snap_loop]; rewrite Hf; cbn [rbind fst snd].
  - cbn. by rewrite app_nil_r, Z.add_0_r.
  - assert (E : mi !! k = Some (a, v)).
    { apply elem_of_map_to_list. rewrite <- Hperm, Hpre. apply elem_of_app. right. by constructor. }
    destruct (ix_node _ _ _ _ _ _ Hix E) as (Ha & _ & Hload & _).
    pose proof (ro_rel _ _ _ _ _ Hro k) as Hk. rewrite E in Hk. destruct (m !! k) as [d|] eqn:Em; [|done].
    destruct Hk as [Hid (o & Eo & _ & Hrow & Henc)]. destruct (app_row_len _ _ Hrow) as [_ Hb].
    rewrite (proj2 (Z.eqb_neq _ _) Ha), Hload. cbn [rbind]. unfold encode_row, obj_at. rewrite Eo. cbn [rbind].
    rewrite Hn, Henc. cbn [rbind]. rewrite (row_bytes_spec _ _ Hb). cbn [rbind].
    change (le_bytes 4 SDB_ENDCOMMIT) with commit_mark.
    rewrite file_write_end, <- Nat2Z.inj_add, <- length_app.
    rewrite IH; [|split; [by eapply (Hnext pre (k, (a, v)))|exists (pre ++ [(k, (a, v))]); by rewrite <- app_assoc]|lia].
    rewrite snap_items_cons. cbn [fst snd]. rewrite Em. cbn [default from_option Datatypes.id].
    assert (Ha' : (f ++ sealed (id v) d ++ commit_mark) ++ render_all (snap_items m post) =
      f ++ sealed (id v) d ++ commit_mark ++ render_all (snap_items m post)) by by rewrite <- !app_assoc.
    rewrite Ha'. cbn [length]. replace (c + 1 + Z.of_nat (length post)) with (c + Z.of_nat (S (length post))) by lia. done.
Qed.

Lemma snap_replay m mi os b dead nmax l : rows_of (n := n) mi os b dead m -> Z.of_nat (size m) <= nmax ->
  l ≡ₚ map_to_list mi -> replay nmax (snap_items m l) m.
Proof using.
  intros Hro Hsz Hperm.
  assert (Hnd : NoDup (map fst l)).
  { rewrite Hperm. apply NoDup_fst_map_to_list. }
  assert (Hgen : forall post pre, l = pre ++ post -> exists mp, replay nmax (snap_items m pre) mp /\
    forall k, mp !! k = if decide (k ∈ map fst pre) then m !! k else None).
  { intros post pre. revert post. induction pre as [|[k [a v]] pre IH] using rev_ind; intros post Hl.
    - exists ∅. split; [constructor|]. intros k. rewrite decide_False by apply not_elem_of_nil. apply lookup_empty.
    - rewrite <- app_assoc in Hl. destruct (IH _ Hl) as (mp & Hrep & Hmp).
      assert (E : mi !! k = Some (a, v)).
      { apply elem_of_map_to_list. rewrite <- Hperm, Hl. apply elem_of_app. right. by constructor. }
      pose proof (ro_rel _ _ _ _ _ Hro k) as Hk. rewrite E in Hk. destruct (m !! k) as [d|] eqn:Em; [|done].
      destruct Hk as [Hid (o & Eo & _ & Hrow & _)].
      assert (Hni : k ∉ map fst pre).
      { rewrite Hl, map_app in Hnd. cbn in Hnd. apply NoDup_app in Hnd as (_ & Hd & _). intros Hin.
        apply (Hd k Hin). by constructor. }
      assert (Hnone : mp !! k = None) by (rewrite Hmp; by rewrite decide_False).
      assert (Hsub : <[k := d]> mp ⊆ m).
      { apply map_subseteq_spec. intros k' d' Hk'. destruct (decide (k' = k)) as [->|Hne].
        - rewrite lookup_insert_eq in Hk'. congruence.
        - rewrite lookup_insert_ne, Hmp in Hk' by done. by case_decide. }
      exists (<[k := d]> mp). split.
      + unfold snap_items. rewrite map_app, concat_app. cbn [map concat fst snd app]. rewrite Em.
        cbn [default from_option Datatypes.id].
        change [item_row (id v) d; item_commit] with ([item_row (id v) d] ++ [item_commit]).
        rewrite app_assoc. constructor. eapply rp_put; [exact Hrep|exact Hrow|done|].
        intros _. apply map_subseteq_size in Hsub. rewrite map_size_insert_None in Hsub by done. lia.
      + intros k'. rewrite map_app. cbn [map fst]. destruct (decide (k' = k)) as [->|Hne].
        * rewrite lookup_insert_eq, decide_True; [done|]. apply elem_of_app. right. by constructor.
        * rewrite lookup_insert_ne, Hmp by done. destruct (decide (k' ∈ map fst pre)) as [Hin|Hin].
          -- rewrite decide_True; [done|]. apply elem_of_app. by left.
          -- rewrite decide_False; [done|]. rewrite elem_of_app. intros [|Hx%list_elem_of_singleton]; done. }
  destruct (Hgen [] l ltac:(by rewrite app_nil_r)) as (mp & Hrep & Hmp).
  assert (mp = m) as <-; [|done]. apply map_eq. intros k. rewrite Hmp. case_decide as Hin; [done|].
  destruct (m !! k) as [d|] eqn:Em; [|done]. exfalso. apply Hin.
  destruct (ro_some _ _ _ _ _ _ _ Hro Em) as (a & v & E & _).
  apply list_elem_of_fmap. exists (k, (a, v)). split; [done|]. rewrite Hperm. by apply elem_of_map_to_list.
Qed.

Lemma snap_closed m l : closed (snap_items m l).
Proof using.
  induction l as [|kv l _] using rev_ind; [by left|]. right. unfold snap_items. rewrite map_app, concat_app.
  cbn [map concat]. rewrite app_nil_r. by eexists (_ ++ [_]); rewrite <- app_assoc.
Qed.

Lemma snapshot_spec t m : table_inv t m -> hdr_ok (header t) -> Z.of_nat (size m) <= maxRows t ->
  dotFile t = None ->
  exists t', sdbSaveSnapShot crc32c cheap t = Ret t' /\ table_inv t' m /\ file_inv t' m.
Proof using.
  intros [Hkind Hlen (mi & Hix & Hro) Hnum Hupd Htid] Hh Hsz Hdot. unfold sdbSaveSnapShot. rewrite Hdot.
  set (out := header t ++ le_bytes 4 SDB_ENDCOMMIT). cbn [default from_option].
  change (file_write [] 0 out) with (file_write [] (Z.of_nat (@length Z [])) out). rewrite file_write_end, app_nil_l.
  destruct (ix_walk _ _ _ Hix) as (l & Hl & Hfirst & Hnext).
  assert (Hlsz : length l = size m).
  { rewrite Hl, length_map_to_list. by eapply ro_size. }
  rewrite (snap_loop_spec t m mi _ l Hix Hro Hlen Hl Hnext l _ 0 out 0); [|split; [done|by exists []]|lia].
  cbn [rbind]. eexists. split; [reflexivity|]. split.
  - constructor; cbn; try done; [by exists mi|lia].
  - constructor; cbn; try done. exists (snap_items m l). split.
    + unfold file_of_log, out. by rewrite <- app_assoc.
    + split; [by eapply snap_replay|]. apply snap_closed.
Qed.

(** ** Opening *)
Lemma closed_file h l : closed l -> (0 < length h)%nat ->
  exists a, file_of_log h l = a ++ commit_mark /\ (0 < length a)%nat /\ exists b, a ++ commit_mark = h ++ b.
Proof using.
  intros [->|[l' ->]] Hh; unfold file_of_log.
  - exists h. unfold render_all. cbn [map concat]. rewrite app_nil_r. split; [done|]. split; [done|]. by eexists.
  - rewrite render_all_snoc. cbn [render]. exists (h ++ commit_mark ++ render_all l').
    split; [by rewrite <- !app_assoc|]. split; [rewrite length_app; lia|]. eexists. by rewrite <- app_assoc.
Qed.

Definition stored (main dot : option (list Z)) : option (list Z) :=
  match main with Some f => Some f | None => dot end.

(** A file whose log is closed, and what follows it. *)
Lemma open_existing sw main dot t h l q : stored main dot = Some (file_of_log h l ++ q) -> hdr_ok h -> closed l ->
  exists j, sdbOpenSdbFile crc32c cheap sw main dot t =
    Ret (0, with_ids (autoIndex t) 0 (tid t) (sdbVersion t)
      (with_file h (file_of_log h l ++ take j q) 28 28 None t)).
Proof using.
  intros Hst Hh Hcl. pose proof (hdr_length _ Hh) as Hhl.
  destruct (closed_file h l Hcl ltac:(lia)) as (a & Ea & Hal & b & Eb).
  rewrite Ea in Hst. rewrite <- app_assoc in Hst. destruct (truncate_spec a q Hal) as [j Hj]. exists j.
  assert (exists c f', a ++ commit_mark ++ q = c :: f') as (c & f' & Hf)
    by (destruct a; [cbn in Hal; lia|by eexists _, _]).
  rewrite Ea. rewrite Hf in Hst, Hj.
  assert (Hmain : match dot, main with
    | Some _, Some _ => (main, None) | Some _, None => (dot, None) | None, _ => (main, None) end =
    (Some (c :: f'), @None (list Z))).
  { unfold stored in Hst. by destruct main as [?|], dot as [?|]; rewrite ?Hst. }
  unfold sdbOpenSdbFile. rewrite Hmain. cbn [default from_option Datatypes.id].
  rewrite Hj. set (g := a ++ commit_mark ++ take j q). set (f0 := c :: f').
  assert (Hg : take 24 g = h).
  { unfold g. rewrite app_assoc, Eb, <- app_assoc, take_app_le, take_ge by lia. done. }
  assert (Hread : fd_read SIZEOF_HEADER (set_fd g 0 (with_file (header t) f0 0 0 None t)) =
    (h, set_fd g 24 (with_file (header t) f0 0 0 None t))).
  { unfold fd_read, SIZEOF_HEADER. cbn [pos file set_fd with_file]. change (Z.to_nat 24) with 24%nat.
    rewrite drop_0, Hg, Hhl. done. }
  rewrite Hread, Hhl. cbn [Z.of_nat Pos.of_succ_nat Pos.succ]. change (24 <? SIZEOF_HEADER) with false.
  rewrite (hdr_check h Hh). cbn [rbind negb]. change (0 <? 0) with false. cbv iota.
  unfold g. rewrite <- app_assoc. reflexivity.
Qed.

(** A table without a file, or with an empty one. *)
Lemma open_new sw main dot t : default [] (stored main dot) = [] -> length sw = 8%nat -> bytes_ok sw ->
  header t = replicate 24 0 -> exists h, hdr_ok h /\
    sdbOpenSdbFile crc32c cheap sw main dot t =
    Ret (0, with_ids (autoIndex t) 0 (tid t) (sdbVersion t)
      (with_file h (file_of_log h []) 28 28 None t)).
Proof using.
  intros Hst Hsw Hb Hh. set (p := sw ++ le_bytes 2 sdbFileVersion ++ replicate 10 0).
  assert (Hp : length p = 20%nat) by (unfold p; rewrite !length_app, Hsw; done).
  assert (Hpb : bytes_ok p).
  { unfold p. rewrite !bytes_ok_app. split; [done|]. split; [apply le_bytes_ok|]. repeat constructor; done. }
  exists (p ++ le_bytes 4 (record_sum p)). split; [by exists p|].
  assert (Hmain : exists mn : option (list Z), match dot, main with
    | Some _, Some _ => (main, None) | Some _, None => (dot, None) | None, _ => (main, None) end = (mn, @None (list Z))
    /\ default [] mn = []).
  { unfold stored in Hst. destruct main as [?|], dot as [?|]; eexists; split; try reflexivity; done. }
  destruct Hmain as (mn & Hm & Hd). unfold sdbOpenSdbFile. rewrite Hm, Hd.
  cbn [header with_file]. rewrite Hh.
  change (drop 10 (replicate 24 0)) with (replicate 10 0 ++ replicate 4 0).
  rewrite (app_assoc (le_bytes 2 sdbFileVersion)), (app_assoc sw). fold p.
  pose proof (seal p (replicate 4 0) []) as Hs. rewrite !app_nil_r, Hp in Hs.
  change (Z.of_nat 20 + 4) with SIZEOF_HEADER in Hs. rewrite Hs;
    [|apply bytes_ok_app; split; [done|repeat constructor; done]|done].
  cbn [rbind]. set (h := p ++ le_bytes 4 (record_sum p)).
  assert (Hl : length h = 24%nat) by (unfold h; rewrite length_app, length_le_bytes; lia).
  assert (Hw : fd_write h (with_file h [] 0 0 None (with_file (replicate 24 0) [] 0 0 None t)) =
    with_file h h 24 0 None t).
  { unfold fd_write, file_write. cbn. rewrite drop_nil, app_nil_r, Hl. done. }
  rewrite Hw. unfold sdbFinishCommit. cbn [file tsize set_tsize with_file header pos dotFile].
  rewrite Hl. change (Z.of_nat 24 =? 0 + SIZEOF_HEADER) with true. cbn [negb rbind].
  change (0 <? 0) with false. cbv iota. unfold fd_write, set_fd, set_tsize.
  cbn [file pos tsize header dotFile with_file autoIndex tid sdbVersion].
  rewrite <- Hl, file_write_end, Hl. unfold file_of_log, render_all. cbn [map concat]. rewrite app_nil_r. reflexivity.
Qed.

Definition same_table (t t' : SSdbTable I obj) : Prop :=
  header t' = header t /\ maxRows t' = maxRows t /\ keyType t' = keyType t.

Lemma snapshot_same t t' : sdbSaveSnapShot crc32c cheap t = Ret t' -> same_table t t'.
Proof using.
  unfold sdbSaveSnapShot. destruct (snap_loop _ _ _ _ _ _ _ _) as [(ok & (f & s) & r)| | |]; try done.
  intros [= <-]. by destruct ok.
Qed.

(** The end of [sdbInitTableByFile]: a snapshot when many rows were deleted. *)
Lemma init_finish t1 t2 p sz m dels upd : loading t1 t2 p sz m -> 
  rows (n := n) (iHandle t2) (maxRows t2) (objs t2) (brk t2) (concat (map dead_row (update t1))) m ->
  ix_kind (keyType t1) -> hdr_ok (header t1) -> dotFile t1 = None -> Z.of_nat (size m) <= maxRows t1 ->
  Z.of_nat (length (update t1)) = maxRows t1 /\ 0 < maxRows t1 -> 0 <= numOfUpdates t1 ->
  let t3 := with_ids (autoIndex t2) (numOfRows t2) (tid t2) upd t2 in
  exists t4, (if Z.quot (maxRows t3) 4 <? dels then sdbSaveSnapShot crc32c cheap t3 else Ret t3) = Ret t4 /\
    maxRows t4 = maxRows t1 /\ keyType t4 = keyType t1 /\
    table_inv (with_update (update t4) 0 0 t4) m /\
    ((exists l, file t1 = file_of_log (header t1) l /\ replay (maxRows t1) l m /\ closed l) ->
     p = length (file t1) -> sz = p -> file_inv (with_update (update t4) 0 0 t4) m).
Proof using.
  intros [He [Hp Hsz] Hr Hn Ht Hl] Hrows Hkind Hh Hdot Hsize [Hu1 Hu2] Hnu t3.
  injection He as E1 E2 E3 E4 E5 E6 E7 _ _ E8.
  assert (Hti : table_inv t3 m).
  { constructor; cbn; rewrite ?E4, ?E7, ?E8; try done. by rewrite E2. }
  case_match.
  - destruct (snapshot_spec t3 m Hti) as (t4 & Hs & Hti4 & Hfi4).
    { cbn. by rewrite E1. } { cbn. by rewrite E2. } { cbn. by rewrite E6. }
    destruct (snapshot_same _ _ Hs) as (_ & S2 & S3). cbn in S2, S3.
    exists t4. split; [done|]. split; [congruence|]. split; [congruence|]. split.
    + destruct Hti4 as [G1 G2 G3 G4 (G5 & G6 & _) G7]. by constructor.
    + intros _ _ _. destruct Hfi4. by constructor.
  - exists t3. split; [done|]. split; [done|]. split; [done|]. split.
    + destruct Hti as [G1 G2 G3 G4 (G5 & G6 & _) G7]. by constructor.
    + intros (l & Hf & Hrep & Hcl) -> ->. constructor; cbn; rewrite ?E1, ?E2, ?E5, ?E6; try done.
      * by exists l.
      * by split; [|congruence].
Qed.

(** ** Opening a table *)
Definition new_table (ix : I) (version b maxRows0 : Z) (kt : KEYTYPE) : SSdbTable I obj :=
  {| header := replicate 24 0; maxRows := maxRows0; maxRowSize := n; keyType := kt;
     autoIndex := 0; numOfRows := 0; tid := 0; tsize := 0; iHandle := ix; file := [];
     pos := 0; dotFile := None;
     update := replicate (Z.to_nat maxRows0) (SDB_TYPE_INSERT, 0); numOfUpdates := 0;
     updatePos := 0; sdbVersion := version; objs := ∅; brk := b; events := [] |}.

Lemma no_dead k : concat (map dead_row (replicate k (SDB_TYPE_INSERT, 0))) = [].
Proof using. induction k; done. Qed.

(** The state in which the log is replayed. *)
Definition opened (ix : I) (version b maxRows0 : Z) (kt : KEYTYPE) (h f : list Z) : SSdbTable I obj :=
  with_ids 0 0 0 version (with_file h f 28 28 None (new_table ix version b maxRows0 kt)).

Section Table.
Context (ix : I) (version b maxRows0 : Z) (kt : KEYTYPE).
Context (Hinit : ix_init maxRows0 = Ret (Some ix)) (Hpos : 0 < maxRows0) (Hb : 0 < b).
Context (Hkind : ix_kind kt) (Hn : n < 2 ^ 31).

Lemma opened_loading h f : hdr_ok h ->
  loading (n := n) (opened ix version b maxRows0 kt h f) (opened ix version b maxRows0 kt h f)
    (length (h ++ commit_mark)) (length (h ++ commit_mark)) ∅.
Proof using Hinit Hpos Hb.
  intros Hh%hdr_length. constructor; try done.
  - rewrite length_app, Hh. done.
  - exists ∅. split; [by eapply ix_init_is|]. by apply ro_empty.
Qed.

(** What is left to do once the file has been read. *)
Lemma open_finish sw main dot h f t2 dels p sz m :
  sdbOpenSdbFile crc32c cheap sw main dot (new_table ix version b maxRows0 kt) =
    Ret (0, opened ix version b maxRows0 kt h f) -> hdr_ok h ->
  load_loop crc32c cheap (S (length f)) 0 (opened ix version b maxRows0 kt h f) = Ret (t2, dels) ->
  loading (n := n) (opened ix version b maxRows0 kt h f) t2 p sz m -> Z.of_nat (size m) <= maxRows0 ->
  exists t, sdbOpenTable crc32c cheap sw main dot version b maxRows0 n kt = Ret (Some t) /\
    maxRows t = maxRows0 /\ keyType t = kt /\ table_inv t m /\
    ((exists l, f = file_of_log h l /\ replay maxRows0 l m /\ closed l) ->
     p = length f -> sz = p -> file_inv t m).
Proof using Hinit Hpos Hb Hkind.
  intros Hopen Hh Hloop Hld Hsz. unfold sdbOpenTable. rewrite Hinit. cbn [rbind].
  fold (new_table ix version b maxRows0 kt). unfold sdbInitTableByFile. rewrite Hopen. cbn [rbind].
  change (0 <? 0) with false. cbv iota. change (file (opened ix version b maxRows0 kt h f)) with f.
  rewrite Hloop. cbn [rbind].
  destruct (init_finish _ t2 p sz m dels (sdbVersion t2 + (tid t2 - tid (new_table ix version b maxRows0 kt))) Hld)
    as (t4 & Hs & Hm4 & Hk4 & Hti & Hfi); try done.
  - cbn [update opened with_ids with_file new_table]. rewrite no_dead. apply (ld_rows _ _ _ _ _ Hld).
  - cbn. rewrite length_replicate. lia.
  - rewrite Hs. cbn [rbind]. change (0 <? 0) with false. eexists. split; [done|]. split; [exact Hm4|]. split; [exact Hk4|]. split; [done|]. exact Hfi.
Qed.

(** A missing or empty file gives an empty table. *)
Lemma open_table_new sw main dot : default [] (stored main dot) = [] -> length sw = 8%nat -> bytes_ok sw ->
  exists t, sdbOpenTable crc32c cheap sw main dot version b maxRows0 n kt = Ret (Some t) /\
    maxRows t = maxRows0 /\ keyType t = kt /\ table_inv t ∅ /\ file_inv t ∅.
Proof using Hinit Hpos Hb Hkind Hn.
  intros Hst Hsw Hswb.
  destruct (open_new sw main dot (new_table ix version b maxRows0 kt) Hst Hsw Hswb eq_refl) as (h & Hh & Hopen).
  set (f := file_of_log h []) in *. pose proof (opened_loading h f Hh) as Hld.
  assert (Hf : f = h ++ commit_mark) by (unfold f, file_of_log, render_all; cbn [map concat]; by rewrite app_nil_r).
  destruct (load_step_end (crc32c := crc32c) (cheap := cheap) _ _ _ _ 0 Hld) as (t2 & He & Hld2); [exact Hf|].
  assert (Hall : load_loop crc32c cheap (S (length f)) 0 (opened ix version b maxRows0 kt h f) = Ret (t2, 0))
    by (cbn [load_loop]; by rewrite He).
  destruct (open_finish sw main dot h f t2 0 _ _ ∅ Hopen Hh Hall Hld2) as (t & Ht & Hmt & Hkt & Hti & Hfi).
  - rewrite map_size_empty. lia.
  - exists t. split; [done|]. split; [done|]. split; [done|]. split; [done|]. apply Hfi; [|by rewrite Hf|done]. exists []. split; [done|].
    split; [constructor|by left].
Qed.

(** A complete log gives its rows. *)
Lemma open_table_log sw main dot h l m : stored main dot = Some (file_of_log h l) -> hdr_ok h ->
  closed l -> replay maxRows0 l m ->
  exists t, sdbOpenTable crc32c cheap sw main dot version b maxRows0 n kt = Ret (Some t) /\
    maxRows t = maxRows0 /\ keyType t = kt /\ table_inv t m /\ file_inv t m.
Proof using Hinit Hpos Hb Hkind Hn.
  intros Hst Hh Hcl Hrep.
  destruct (open_existing sw main dot (new_table ix version b maxRows0 kt) h l []) as (j & Hopen); try done.
  { by rewrite app_nil_r. }
  rewrite take_nil, app_nil_r in Hopen. set (f := file_of_log h l) in *.
  pose proof (opened_loading h f Hh) as Hld.
  destruct (loads_log (crc32c := crc32c) (cheap := cheap) (opened ix version b maxRows0 kt h f) l m
    (h ++ commit_mark) [] Hn) with (t := opened ix version b maxRows0 kt h f) (d := 0)
    as (t1 & d1 & Hl1 & Hld1); try done.
  { cbn. unfold f, file_of_log. by rewrite app_nil_r, <- app_assoc. }
  destruct (loading_file _ _ _ _ _ Hld1) as [Hf1 _].
  assert (Hff : f = (h ++ commit_mark) ++ render_all l) by (unfold f, file_of_log; by rewrite <- app_assoc).
  destruct (load_step_end (crc32c := crc32c) (cheap := cheap) _ _ _ _ d1 Hld1) as (t2 & He & Hld2).
  { rewrite Hf1. exact Hff. }
  assert (Hall : load_loop crc32c cheap (S (length f)) 0 (opened ix version b maxRows0 kt h f) = Ret (t2, d1)).
  { eapply loads_end; [exact Hl1|exact He|]. rewrite Hff, !length_app. lia. }
  destruct (open_finish sw main dot h f t2 d1 _ _ m Hopen Hh Hall Hld2) as (t & Ht & Hmt & Hkt & Hti & Hfi).
  - apply (replay_size maxRows0 l); [lia|done].
  - exists t. split; [done|]. split; [done|]. split; [done|]. split; [done|]. apply Hfi; [|by rewrite Hff|done]. by exists l.
Qed.

(** A log followed by part of one more change gives its rows, with or without
    the change. *)
Lemma open_table_torn sw main dot h l m m' rid d j :
  stored main dot = Some (file_of_log h l ++ take j (sealed rid d ++ commit_mark)) -> hdr_ok h ->
  closed l -> replay maxRows0 l m -> row_effect maxRows0 rid d m m' -> Z.of_nat (size m') <= maxRows0 ->
  exists t, sdbOpenTable crc32c cheap sw main dot version b maxRows0 n kt = Ret (Some t) /\
    (table_inv t m \/ table_inv t m').
Proof using Hinit Hpos Hb Hkind Hn.
  intros Hst Hh Hcl Hrep Heff Hsz'.
  destruct (open_existing sw main dot (new_table ix version b maxRows0 kt) h l _ Hst Hh Hcl) as (j' & Hopen).
  rewrite take_take in Hopen. set (q := take (j' `min` j) (sealed rid d ++ commit_mark)) in *.
  set (f := file_of_log h l ++ q) in *.
  pose proof (opened_loading h f Hh) as Hld.
  destruct (loads_log (crc32c := crc32c) (cheap := cheap) (opened ix version b maxRows0 kt h f) l m
    (h ++ commit_mark) q Hn) with (t := opened ix version b maxRows0 kt h f) (d := 0)
    as (t1 & d1 & (k & Hk & Hl1) & Hld1); try done.
  { cbn. unfold f, file_of_log. by rewrite <- !app_assoc. }
  assert (Hff : f = ((h ++ commit_mark) ++ render_all l) ++ q) by (unfold f, file_of_log; by rewrite <- !app_assoc).
  destruct (loading_file _ _ _ _ _ Hld1) as [Hf1 Hm1].
  destruct (load_tail (opened ix version b maxRows0 kt h f) t1 _ m m' rid d (j' `min` j) d1 (length f - k) Hn Hld1)
    as (t2 & d2 & p & sz & Hloop & Hcases); [done|exact Hff|fold q; rewrite Hff, !length_app; lia|].
  assert (Hall : load_loop crc32c cheap (S (length f)) 0 (opened ix version b maxRows0 kt h f) = Ret (t2, d2)).
  { replace (S (length f)) with (k + S (length f - k))%nat by (rewrite Hff, !length_app; lia). by rewrite Hl1. }
  destruct Hcases as [Hld2|Hld2].
  - destruct (open_finish sw main dot h f t2 d2 p sz m Hopen Hh Hall Hld2) as (t & Ht & _ & _ & Hti & _).
    + apply (replay_size maxRows0 l); [lia|done].
    + exists t. split; [done|by left].
  - destruct (open_finish sw main dot h f t2 d2 p sz m' Hopen Hh Hall Hld2 Hsz') as (t & Ht & _ & _ & Hti & _).
    exists t. split; [done|by right].
Qed.
End Table.
End Open.
