(* ===== verification/SdbClient.v ===== *)
(** * A client of a management table

    Insertions, deletions and updates keep the rows in memory, the log on disk
    and an abstract map in step; the theorems on durability, on crashes and on
    the absence of failures follow. *)
From S2P Require Import Prelude Crc32c Chain SdbIndex Sdb SdbRows SdbLog SdbOpen.

Section Client.
Context {I K obj : Type} `{AppLaws I K obj n} `{Checksum crc32c cheap}.
Implicit Types (t : SSdbTable I obj) (m : gmap K (list Z)).

(** ** The parts of an operation *)
Lemma commit_spec t rec : pos t = Z.of_nat (length (file t)) -> tsize t = pos t ->
  sdbFinishCommit (append_row rec t) =
  Ret (with_file (header t) (file t ++ rec ++ commit_mark)
    (Z.of_nat (length (file t ++ rec ++ commit_mark)))
    (Z.of_nat (length (file t ++ rec ++ commit_mark))) (dotFile t) t).
Proof using.
  intros Hp Hs. unfold append_row, fd_write. rewrite Hp, file_write_end.
  unfold sdbFinishCommit. cbn [file tsize set_tsize set_fd with_file].
  rewrite Hs, Hp, <- Nat2Z.inj_add, <- length_app, Z.eqb_refl. cbn [negb].
  unfold fd_write. cbn [file pos set_tsize set_fd with_file]. rewrite file_write_end.
  unfold set_tsize, set_fd. cbn [file pos tsize header dotFile with_file].
  rewrite Hs, Hp. change (le_bytes 4 SDB_ENDCOMMIT) with commit_mark.
  assert (El : Z.of_nat (length (file t ++ rec ++ commit_mark)) = Z.of_nat (length (file t ++ rec)) + 4).
  { rewrite app_assoc, length_app. change (length commit_mark) with 4%nat. lia. }
  rewrite El, <- app_assoc. change (Z.of_nat (length commit_mark)) with 4. reflexivity.
Qed.

Lemma add_update ix nmax t ty r m : 
  rows (n := n) ix nmax (objs t) (brk t) (dead_row (ty, r) ++ concat (map dead_row (update t))) m ->
  Z.of_nat (length (update t)) = maxRows t -> 0 < maxRows t -> 0 <= numOfUpdates t ->
  exists os u p, sdbAddIntoUpdateList ty r t =
      Ret (with_update u (numOfUpdates t + 1) p (with_objs os (brk t) t)) /\
    rows (n := n) ix nmax os (brk t) (concat (map dead_row u)) m /\ length u = length (update t) /\ (ty, r) ∈ u /\
    forall a o, os !! a = Some o -> objs t !! a = Some o.
Proof using.
  intros Hr Hl Hm Hu. unfold sdbAddIntoUpdateList. rewrite (proj2 (Z.eqb_neq _ 0)) by lia.
  set (p := Z.rem (numOfUpdates t + 1) (maxRows t)).
  assert (Hp : 0 <= p < maxRows t) by (unfold p; rewrite rem_mod by lia; apply Z.mod_pos_bound; lia).
  destruct (lookup_lt_is_Some_2 (update t) (Z.to_nat p)) as [[old oldrow] E]; [lia|]. rewrite E.
  pose proof (collect_insert dead_row (update t) (Z.to_nat p) (old, oldrow) (ty, r) E) as Hperm.
  eapply rows_perm in Hr; [|rewrite Permutation_app_comm, <- Hperm, Permutation_app_comm; reflexivity].
  destruct old; cbn [dead_row fst snd app rbind] in *.
  - exists (objs t), (<[Z.to_nat p := (ty, r)]> (update t)), p. split; [by destruct t|].
    split; [done|]. split; [by rewrite length_insert|]. split; [by apply list_elem_of_insert; lia|done].
  - apply rows_destroy in Hr as [[o Eo] Hr]. unfold destroy_obj, obj_at. rewrite Eo. cbn [rbind].
    eexists _, (<[Z.to_nat p := (ty, r)]> (update t)), p. split; [reflexivity|].
    split; [done|]. split; [by rewrite length_insert|].
    split; [apply list_elem_of_insert; lia|]. intros a o' [_ ?]%lookup_delete_Some. done.
  - exists (objs t), (<[Z.to_nat p := (ty, r)]> (update t)), p. split; [by destruct t|].
    split; [done|]. split; [by rewrite length_insert|]. split; [by apply list_elem_of_insert; lia|done].
Qed.

(** A table in memory and on disk. *)
Definition sdb_inv t m : Prop := table_inv (n := n) t m /\ file_inv (n := n) (crc32c := crc32c) (cheap := cheap) t m.

(** The file after one more change. *)
Lemma file_grow t t' m m' rid d : file_inv (n := n) (crc32c := crc32c) (cheap := cheap) t m ->
  header t' = header t -> maxRows t' = maxRows t -> dotFile t' = dotFile t ->
  file t' = file t ++ sealed rid d ++ commit_mark -> pos t' = Z.of_nat (length (file t')) ->
  tsize t' = pos t' ->
  (forall l, replay (n := n) (maxRows t) l m -> replay (n := n) (maxRows t) (l ++ [item_row rid d]) m') ->
  file_inv (n := n) (crc32c := crc32c) (cheap := cheap) t' m'.
Proof using.
  intros [(l & Hf & Hrep & Hcl) Hh Hp Hd] E1 E2 E3 E4 E5 E6 Hnew.
  constructor; rewrite ?E1, ?E2, ?E3; try done.
  exists (l ++ [item_row rid d; item_commit]). split; [|split].
  - rewrite E4, Hf. unfold file_of_log. rewrite render_all_app. unfold render_all at 3. cbn [map concat render].
    by rewrite app_nil_r, <- !app_assoc.
  - change [item_row rid d; item_commit] with ([item_row rid d] ++ [item_commit]). rewrite app_assoc.
    constructor. by apply Hnew.
  - right. exists (l ++ [item_row rid d]). by rewrite <- app_assoc.
Qed.

(** One complete record on the file. *)
Definition logged (t t' : SSdbTable I obj) (m m' : gmap K (list Z)) : Prop :=
  same_table t t' /\ exists rid d, file t' = file t ++ sealed rid d ++ commit_mark /\
    row_effect (n := n) (maxRows t) rid d m m' /\ Z.of_nat (size m') <= maxRows t.

Lemma inv_size t m : sdb_inv t m -> Z.of_nat (size m) <= maxRows t.
Proof using.
  intros [Hti [(l & _ & Hrep & _) _ _ _]]. apply (replay_size (maxRows t) l); [|done].
  pose proof (ti_upd _ _ Hti). lia.
Qed.

(** ** Insertion *)
(** [t]: the object [o] is new, at address [b]. *)
Lemma insert_log_spec t os b m k d o : 
  rows (n := n) (iHandle t) (maxRows t) os b (concat (map dead_row (update t))) m ->
  objs t = <[b := o]> os -> brk t = b + 1 -> ix_kind (keyType t) -> maxRowSize t = n ->
  numOfRows t = Z.of_nat (size m) ->
  Z.of_nat (length (update t)) = maxRows t /\ 0 < maxRows t /\ 0 <= numOfUpdates t ->
  0 <= tid t < 2 ^ 63 -> file_inv (n := n) (crc32c := crc32c) (cheap := cheap) t m ->
  m !! k = None -> Z.of_nat (size m) < maxRows t -> ix_key (app_mem o) = Ret k -> app_key_ok k ->
  app_encode o n = Some d ->
  exists t', insert_log crc32c cheap b d t = Ret (tid t, t') /\ sdb_inv t' (<[k := d]> m) /\
    logged t t' m (<[k := d]> m) /\ tid t' = tid t /\ keyType t' = keyType t /\ maxRows t' = maxRows t /\
    autoIndex t' = autoIndex t.
Proof using.
  intros Hr Ho Hbrk Hkind Hlen Hnum (Hu1 & Hu2 & Hu3) Htid Hfi E Hsz Hk Hok Henc.
  pose proof (app_row_encode o k d Hk Hok Henc) as Hrow. destruct (app_row_len _ _ Hrow) as [Hdl Hdb].
  unfold insert_log. rewrite (row_bytes_spec _ _ Hdb). cbn [rbind].
  unfold obj_at. rewrite Ho, lookup_insert_eq. cbn [rbind].
  set (v := {| id := tid t; offset := tsize t; rowSize := Z.of_nat (length d); row := b |}).
  destruct (rows_add _ _ _ _ _ _ k d o v Hr E Hsz Hk Hrow Henc eq_refl Htid) as (ix' & Hadd & Hr').
  unfold ix_add_row. rewrite Hadd. cbn [rbind]. set (t1 := with_index ix' t).
  pose proof (fi_pos _ _ Hfi) as [Hp1 Hp2].
  rewrite (commit_spec t1) by done. cbn [rbind]. set (t2 := with_file _ _ _ _ _ t1).
  destruct (add_update ix' (maxRows t) t2 SDB_TYPE_INSERT b (<[k := d]> m)) as (os' & u & p & Hadd2 & Hr2 & Hul & _);
    [|done..|].
  { cbn [objs brk update t2 t1 with_file with_index dead_row fst app]. by rewrite Ho, Hbrk. }
  rewrite Hadd2. cbn [rbind]. rewrite (proj2 (Z.leb_le 0 _)) by (cbn; lia).
  eexists. split; [reflexivity|].
  assert (Hput : forall l, replay (n := n) (maxRows t) l m ->
    replay (n := n) (maxRows t) (l ++ [item_row (tid t) d]) (<[k := d]> m)) by (intros; by eapply rp_put).
  split; [split|].
  - constructor; cbn; try done; [|rewrite Hul; cbn; lia].
    rewrite Hnum, size_insert_Z, E. lia.
  - eapply (file_grow t _ m _ (tid t) d Hfi); try done.
  - split; [|done]. split; [done|]. exists (tid t), d. split; [done|]. split; [by apply effect_put|].
    rewrite size_insert_Z, E. lia.
Qed.

(** A new object, or a row to decode. *)
Lemma insert_spec t m k d o r sz : sdb_inv t m -> keyType t <> SDB_KEYTYPE_AUTO ->
  (r = Obj (brk t) /\ sz = 0 \/ exists z, r = Mem (d ++ z) /\ sz = Z.of_nat (length d) /\ app_row k d /\
    o = app_decode (d ++ z) sz) ->
  ix_key (app_mem o) = Ret k -> app_key_ok k -> app_encode o n = Some d -> tid t + 1 < 2 ^ 63 ->
  (m !! k = None -> Z.of_nat (size m) < maxRows t) ->
  let t0 := match r with Obj _ => (new_obj o t).2 | Mem _ => t end in
  match m !! k with
  | Some _ => sdbInsertRow crc32c cheap r sz t0 = Ret (-1, t0)
  | None => exists t', sdbInsertRow crc32c cheap r sz t0 = Ret (tid t + 1, t') /\
      sdb_inv t' (<[k := d]> m) /\ logged t t' m (<[k := d]> m)
  end.
Proof using.
  intros [Hti Hfi] Hkt Hr Hk Hok Henc Htid Hsz t0.
  destruct Hti as [Hkind Hlen Hrows Hnum Hupd Ht].
  pose proof (app_row_encode o k d Hk Hok Henc) as Hrow. destruct (app_row_len _ _ Hrow) as [Hdl Hdb].
  pose proof (rows_new _ _ _ _ _ _ o Hrows) as Hrows1.
  assert (Hmem : exists mem, row_mem t0 r = Ret mem /\ ix_key mem = Ret k).
  { destruct Hr as [[-> ->]|(z & -> & -> & Hrow' & ->)]; unfold row_mem.
    - unfold obj_at. cbn [t0 new_obj snd objs with_objs]. rewrite lookup_insert_eq. by eexists.
    - eexists. split; [done|]. apply ix_key_app. by apply app_row_key in Hrow' as [? _]. }
  destruct Hmem as (mem & Hmem & Hkm). unfold sdbInsertRow. rewrite Hmem. cbn [rbind].
  assert (Hkt0 : keyType t0 = keyType t) by (by destruct r). rewrite Hkt0.
  assert (Hknown : (match keyType t with SDB_KEYTYPE_AUTO => let! b := rd mem 0 8 in Ret (negb (le_val b =? 0)) | _ => Ret true end) = Ret true)
    by (by destruct (keyType t)).
  rewrite Hknown. cbn [rbind].
  assert (Hget : exists a, sdbGetRow t0 mem = Ret a /\ match m !! k with None => a = 0 | Some _ => a <> 0 end).
  { assert (Hr0 : rows (n := n) (iHandle t0) (maxRows t0) (objs t0) (brk t0) (concat (map dead_row (update t))) m)
      by (destruct r; [exact Hrows1|exact Hrows]).
    destruct (get_row_spec t0 _ m k mem Hr0 Hkm (app_key_ix k Hok)) as (a & -> & Ha). exists a. split; [done|].
    destruct (m !! k); [by destruct Ha|done]. }
  destruct Hget as (a & -> & Ha). cbn [rbind]. destruct (m !! k) as [d0|] eqn:E.
  { by rewrite (proj2 (Z.eqb_neq _ _) Ha). }
  subst a. cbn [Z.eqb negb].
  set (t1 := (new_obj o t).2).
  assert (Hobj : (if sz =? 0 then match r with Obj a => Ret (a, t0) | Mem _ => Undef end
    else Ret (new_obj (app_decode mem sz) t0)) = Ret (brk t, t1)).
  { destruct Hr as [[-> ->]|(z & -> & -> & Hrow' & ->)]; [done|].
    rewrite (proj2 (Z.eqb_neq _ 0)) by lia. injection Hmem as <-. done. }
  rewrite Hobj. cbn [rbind]. unfold obj_at at 1. cbn [t1 new_obj snd objs with_objs].
  rewrite lookup_insert_eq. cbn [rbind maxRowSize with_objs]. rewrite Hlen, Henc.
  rewrite (proj2 (Z.leb_gt _ 0)), (proj2 (Z.ltb_ge n _)) by lia. cbn [orb].
  unfold assign_auto. cbn [keyType next_id with_ids with_objs]. 
  destruct (insert_log_spec (next_id t1) (objs t) (brk t) m k d o) as (t' & Hins & Hinv & Hlog & _); try done.
  { cbn. lia. }
  { destruct Hfi. by constructor. }
  { by apply Hsz. }
  destruct (keyType t); try done; cbn [rbind]; exists t'; by split.
Qed.

(** With an automatic key, which must not be in use. *)
Lemma insert_auto_spec t m k d d0 o b8 : sdb_inv t m -> keyType t = SDB_KEYTYPE_AUTO ->
  rd (app_mem o) 0 8 = Ret b8 ->
  le_val b8 = 0 \/ (exists k0, ix_key (app_mem o) = Ret k0 /\ ix_key_ok k0 /\ m !! k0 = None) ->
  app_encode o n = Some d0 -> 0 < Z.of_nat (length d0) <= n ->
  let o' := app_set_auto o (u32 (autoIndex t + 1)) in
  ix_key (app_mem o') = Ret k -> app_key_ok k -> app_encode o' n = Some d -> tid t + 1 < 2 ^ 63 ->
  Z.of_nat (size m) < maxRows t -> m !! k = None ->
  exists t', sdbInsertRow crc32c cheap (Obj (brk t)) 0 (new_obj o t).2 = Ret (tid t + 1, t') /\
      sdb_inv t' (<[k := d]> m) /\ logged t t' m (<[k := d]> m) /\ autoIndex t' = u32 (autoIndex t + 1).
Proof using.
  intros [Hti Hfi] Hkt Hb8 Hz Henc0 Hlen0 o' Hk Hok Henc Htid Hsz E.
  destruct Hti as [Hkind Hlen Hrows Hnum Hupd Ht].
  pose proof (rows_new _ _ _ _ _ _ o Hrows) as Hrows1.
  unfold sdbInsertRow, row_mem, obj_at. cbn [new_obj snd objs with_objs keyType]. rewrite lookup_insert_eq.
  cbn [rbind]. rewrite Hkt, Hb8. cbn [rbind].
  assert (Hg : (if negb (le_val b8 =? 0) then sdbGetRow (with_objs (<[brk t := o]> (objs t)) (brk t + 1) t) (app_mem o)
    else Ret 0) = Ret 0).
  { destruct (Z.eqb_spec (le_val b8) 0) as [_|Hnz]; [done|]. destruct Hz as [Hz|(k0 & Hk0 & Hok0 & E0)]; [done|].
    destruct (get_row_spec (with_objs (<[brk t := o]> (objs t)) (brk t + 1) t) _ m k0 (app_mem o) Hrows1 Hk0 Hok0)
      as (r & -> & Hr). rewrite E0 in Hr. by subst r. }
  rewrite Hg. cbn [Z.eqb negb rbind].
  cbn [objs with_objs]. rewrite lookup_insert_eq. cbn [rbind maxRowSize with_objs]. rewrite Hlen, Henc0.
  rewrite (proj2 (Z.leb_gt _ 0)), (proj2 (Z.ltb_ge n _)) by lia. cbn [orb].
  unfold assign_auto. cbn [keyType next_id with_ids with_objs]. rewrite Hkt. unfold obj_at.
  cbn [objs next_id with_ids with_objs autoIndex]. rewrite lookup_insert_eq. cbn [rbind]. fold o'.
  unfold encode_row, obj_at. cbn [objs set_obj next_id with_ids with_objs maxRowSize]. rewrite lookup_insert_eq.
  cbn [rbind]. rewrite Hlen, Henc. cbn [rbind].
  set (t1 := set_obj _ _ _).
  destruct (insert_log_spec t1 (objs t) (brk t) m k d o') as (t' & Hins & Hinv & Hlog & _ & _ & _ & Hauto); try done.
  { cbn. by rewrite insert_insert_eq. }
  { cbn. lia. }
  { destruct Hfi. by constructor. }
  exists t'. split; [done|]. split; [done|]. split; [done|]. by rewrite Hauto.
Qed.

(** ** The object of a row *)
Lemma row_found t dead m k d mem a : rows (n := n) (iHandle t) (maxRows t) (objs t) (brk t) dead m ->
  m !! k = Some d -> ix_key mem = Ret k -> sdbGetRow t mem = Ret a ->
  exists p v, ix_get (iHandle t) mem = Ret p /\ p <> 0 /\ ix_load (iHandle t) p = Ret v /\ row v = a /\ a <> 0 /\
    row_obj (n := n) (objs t) k d a.
Proof using.
  intros Hr E Hk Hg. destruct (rows_some _ _ _ _ _ _ _ _ _ Hr E Hk) as (p & v & Hp & Hnz & Hl & Ha & Ho & _).
  unfold sdbGetRow in Hg. rewrite Hp in Hg. cbn [rbind] in Hg. rewrite (proj2 (Z.eqb_neq _ _) Hnz), Hl in Hg.
  cbn [rbind] in Hg. injection Hg as Hg. exists p, v. rewrite Hg in Ha, Ho. by rewrite Hg.
Qed.

(** ** Deletion of the object found under a key *)
Lemma delete_spec t m k d mem a : sdb_inv t m -> m !! k = Some d -> ix_key mem = Ret k ->
  sdbGetRow t mem = Ret a -> tid t + 1 < 2 ^ 63 ->
  exists t', sdbDeleteRow crc32c cheap (Obj a) t = Ret (0, t') /\ sdb_inv t' (delete k m) /\
    logged t t' m (delete k m).
Proof using.
  intros [Hti Hfi] E Hk Hg Htid. destruct Hti as [Hkind Hlen Hrows Hnum Hupd Ht].
  destruct (row_found _ _ _ _ _ _ _ Hrows E Hk Hg) as (p0 & v0 & _ & _ & _ & _ & Ha & o & Eo & Hok & Hrow & Henc).
  destruct (rows_some _ _ _ _ _ _ _ _ _ Hrows E Hok) as (p & v & Hp & Hnz & Hl & _ & _ & Hkok & _ & _ & ix' & Hdel & Hrows').
  assert (Hv : row v = a).
  { unfold sdbGetRow in Hg. rewrite (rows_get_key _ _ _ _ _ _ _ _ _ Hrows Hk Hok Hkok), Hp in Hg.
    cbn [rbind] in Hg. rewrite (proj2 (Z.eqb_neq _ _) Hnz), Hl in Hg. by injection Hg. }
  rewrite Hv in Hrows'.
  destruct (app_key_size _ _ _ _ Hkind Hok Hrow Henc) as (sz & b & Hks & Hrd & Hb & Hbn).
  assert (Hdr : del_row (n := n) k b).
  { split; [|done]. intros rest. by eapply ix_key_prefix. }
  unfold sdbDeleteRow, row_mem, obj_at. rewrite Eo. cbn [rbind]. unfold sdbGetRowMeta. rewrite Hp. cbn [rbind].
  rewrite (proj2 (Z.eqb_neq _ _) Hnz), Hl. cbn [rbind]. rewrite Hv, (proj2 (Z.eqb_neq _ _) Ha), Hks. cbn [rbind].
  rewrite Hrd. cbn [rbind]. rewrite (row_bytes_spec _ _ Hb). cbn [rbind].
  pose proof (fi_pos _ _ Hfi) as [Hp1 Hp2].
  rewrite (commit_spec (next_id t)) by done. cbn [rbind]. set (t1 := count_rows (-1) _).
  destruct (add_update ix' (maxRows t) t1 SDB_TYPE_DELETE a (delete k m)) as (os & u & q & Hadd & Hr1 & Hul & Hin & Hsub);
    [exact Hrows'|exact (proj1 Hupd)|exact (proj1 (proj2 Hupd))|exact (proj2 (proj2 Hupd))|].
  rewrite Hadd. cbn [rbind objs with_update with_objs].
  assert (Hoa : os !! a = Some o).
  { destruct (rows_dead _ _ _ _ _ _ a Hr1) as [o' Eo'].
    - apply list_elem_of_In, in_concat. exists [a]. split; [|by left].
      apply (in_map dead_row _ _ (proj1 (list_elem_of_In _ _) Hin)).
    - pose proof (Hsub _ _ Eo') as Eo2. cbn in Eo2. congruence. }
  rewrite Hoa. cbn [rbind]. unfold ix_delete_row. cbn [iHandle with_update with_objs].
  change (iHandle t1) with (iHandle t). rewrite Hdel. cbn [rbind].
  eexists. split; [reflexivity|].
  assert (Hsz : Z.of_nat (size (delete k m)) = Z.of_nat (size m) - 1) by by eapply size_delete_Z.
  split; [split|].
  - constructor; cbn; try done; [lia|rewrite Hul; cbn; lia|lia].
  - apply (file_grow t _ m _ (- (tid t + 1)) b Hfi); try done. intros l Hrep.
    eapply rp_del; [exact Hrep|exact E|exact Hdr|lia].
  - split; [done|]. exists (- (tid t + 1)), b. split; [done|]. split; [eapply effect_del; [exact E|exact Hdr|lia]|].
    pose proof (inv_size t m) as Hm. rewrite Hsz. assert (Z.of_nat (size m) <= maxRows t); [|lia].
    apply Hm. split; [by constructor|done].
Qed.

(** ** An object changed in place, and saved *)
Lemma update_spec t m k d d' mem a o : sdb_inv t m -> m !! k = Some d -> ix_key mem = Ret k ->
  sdbGetRow t mem = Ret a -> ix_key (app_mem o) = Ret k -> app_encode o n = Some d' -> tid t + 1 < 2 ^ 63 ->
  exists t', sdbUpdateRow crc32c cheap (Obj a) 0 true (set_obj a o t) = Ret (0, t') /\ sdb_inv t' (<[k := d']> m) /\
    logged t t' m (<[k := d']> m).
Proof using.
  intros [Hti Hfi] E Hk Hg Hok Henc Htid. destruct Hti as [Hkind Hlen Hrows Hnum Hupd Ht].
  destruct (rows_some _ _ _ _ _ _ _ _ _ Hrows E Hok) as (p & v & Hp & Hnz & Hl & Ha & _ & Hkok & _ & Hset & _).
  assert (Hrow : app_row k d').
  { destruct (row_found _ _ _ _ _ _ _ Hrows E Hk Hg) as (p0 & v0 & _ & _ & _ & _ & _ & o0 & _ & _ & Hr0 & _).
    apply (app_row_encode o k d' Hok); [by eapply app_row_ok|done]. }
  destruct (app_row_len _ _ Hrow) as [Hdl Hdb].
  assert (Hv : row v = a).
  { unfold sdbGetRow in Hg. rewrite (rows_get_key _ _ _ _ _ _ _ _ _ Hrows Hk Hok Hkok), Hp in Hg.
    cbn [rbind] in Hg. rewrite (proj2 (Z.eqb_neq _ _) Hnz), Hl in Hg. by injection Hg. }
  rewrite Hv in Ha. destruct (Hset o d' Hok Hrow Henc) as [_ Hst].
  unfold sdbUpdateRow, row_mem, obj_at. cbn [objs set_obj with_objs]. rewrite lookup_insert_eq. cbn [rbind].
  unfold sdbGetRowMeta. cbn [iHandle set_obj with_objs]. rewrite Hp. cbn [rbind].
  rewrite (proj2 (Z.eqb_neq _ _) Hnz), Hl. cbn [rbind]. rewrite Hv, (proj2 (Z.eqb_neq _ _) Ha). cbn [rbind].
  unfold update_data. rewrite Z.eqb_refl. unfold encode_row, obj_at. cbn [objs set_obj with_objs].
  rewrite lookup_insert_eq. cbn [rbind maxRowSize set_obj with_objs]. rewrite Hlen, Henc. cbn [rbind].
  rewrite (row_bytes_spec _ _ Hdb). cbn [rbind].
  unfold ix_store_row. cbn [iHandle next_id with_ids set_obj with_objs].
  set (v' := {| id := _; offset := _; rowSize := _; row := a |}).
  destruct (Hst v') as (ix' & Hs & Hrows'); [by rewrite Hv|cbn; lia|]. rewrite Hv in Hrows'.
  rewrite Hs. cbn [rbind]. pose proof (fi_pos _ _ Hfi) as [Hp1 Hp2].
  rewrite (commit_spec (with_index ix' _)) by done. cbn [rbind]. set (t1 := with_file _ _ _ _ _ _).
  destruct (add_update ix' (maxRows t) t1 SDB_TYPE_UPDATE a (<[k := d']> m)) as (os & u & q & Hadd & Hr1 & Hul & _);
    [exact Hrows'|exact (proj1 Hupd)|exact (proj1 (proj2 Hupd))|exact (proj2 (proj2 Hupd))|].
  rewrite Hadd. cbn [rbind]. eexists. split; [reflexivity|].
  assert (Hsz : Z.of_nat (size (<[k := d']> m)) = Z.of_nat (size m)) by (rewrite size_insert_Z, E; lia).
  assert (Hroom : m !! k = None -> Z.of_nat (size m) < maxRows t) by congruence.
  split; [split|].
  - constructor; cbn; try done; [lia|rewrite Hul; cbn; lia|lia].
  - apply (file_grow t _ m _ (tid t + 1) d' Hfi); try done. intros l Hrep. apply rp_put; try done. lia.
  - split; [done|]. exists (tid t + 1), d'. split; [done|]. split; [apply effect_put; try done; lia|].
    rewrite Hsz. apply inv_size. split; [by constructor|done].
Qed.
End Client.
