(* ===== verification/SdbRun.v ===== *)
(** * The life of a management table

    A client that inserts, updates and deletes rows the way the functions of
    src/src/system/src/mgmtUser.c, mgmtDb.c and lmGate.c do, and takes
    snapshots; every table it can reach holds the rows of an abstract map, in
    memory and on disk, and so does a table opened from its files. *)
From S2P Require Import Prelude Crc32c Chain SdbIndex Sdb SdbRows SdbLog SdbOpen SdbClient.

(** [mem] is the memory with the key; [o] is what the client has made of the object. *)
Inductive sdb_op (obj : Type) :=
| op_insert (o : obj) | op_update (mem : list Z) (o : obj) | op_delete (mem : list Z) | op_snapshot.
Arguments op_insert {obj}. Arguments op_update {obj}. Arguments op_delete {obj}. Arguments op_snapshot {obj}.

Section Ops.
Context {I obj : Type} `{SdbIndex I} `{AppTool obj}.
Context (crc32c : Z -> Z -> list Z -> Z -> res Z) (cheap : Z).
Implicit Types t : SSdbTable I obj.

(** As [mgmtCreateUser], [mgmtDropUser] and the callers of [mgmtUpdateUser] use
    the table: an object that was not inserted is freed, rows are looked up first. *)
Definition run_op (x : sdb_op obj) t : res (Z * SSdbTable I obj) :=
  match x with
  | op_insert o =>
      let '(pObj, t) := new_obj o t in
      let! '(code, t) := sdbInsertRow crc32c cheap (Obj pObj) 0 t in
      if code <? 0 then let! t := destroy_obj pObj t in Ret (code, t) else Ret (code, t)
  | op_update mem o =>
      let! pObj := sdbGetRow t mem in
      if pObj =? 0 then Ret (-1, t) else sdbUpdateRow crc32c cheap (Obj pObj) 0 true (set_obj pObj o t)
  | op_delete mem =>
      let! pObj := sdbGetRow t mem in
      if pObj =? 0 then Ret (-1, t) else sdbDeleteRow crc32c cheap (Obj pObj) t
  | op_snapshot => let! t := sdbSaveSnapShot crc32c cheap t in Ret (0, t)
  end.

Fixpoint run_ops (l : list (sdb_op obj)) t : res (SSdbTable I obj) :=
  match l with
  | [] => Ret t
  | x :: l => let! '(_, t) := run_op x t in run_ops l t
  end.

(** The row under the key in [mem], encoded. *)
Definition lookup_row t (mem : list Z) : res (option (list Z)) :=
  let! a := sdbGetRow t mem in
  if a =? 0 then Ret None else let! o := obj_at t a in Ret (app_encode o (maxRowSize t)).
End Ops.

Section Life.
Context {I K obj : Type} `{AppLaws I K obj n} `{Hck : Checksum crc32c cheap}.
Implicit Types (t : SSdbTable I obj) (m : gmap K (list Z)).

(** What an operation does to the rows, by cases; no case is for an insertion
    into a full table, which no client does. *)
Inductive op_result t m : sdb_op obj -> Z -> gmap K (list Z) -> Prop :=
| res_insert o k d : keyType t <> SDB_KEYTYPE_AUTO -> ix_key (app_mem o) = Ret k -> app_key_ok k ->
    app_encode o n = Some d -> m !! k = None -> Z.of_nat (size m) < maxRows t ->
    op_result t m (op_insert o) (tid t + 1) (<[k := d]> m)
| res_insert_there o k d : keyType t <> SDB_KEYTYPE_AUTO -> ix_key (app_mem o) = Ret k -> app_key_ok k ->
    app_encode o n = Some d -> is_Some (m !! k) -> op_result t m (op_insert o) (-1) m
| res_insert_auto o b8 d0 k d : keyType t = SDB_KEYTYPE_AUTO -> rd (app_mem o) 0 8 = Ret b8 ->
    le_val b8 = 0 \/ (exists k0, ix_key (app_mem o) = Ret k0 /\ ix_key_ok k0 /\ m !! k0 = None) ->
    app_encode o n = Some d0 -> 0 < Z.of_nat (length d0) <= n ->
    ix_key (app_mem (app_set_auto o (u32 (autoIndex t + 1)))) = Ret k -> app_key_ok k ->
    app_encode (app_set_auto o (u32 (autoIndex t + 1))) n = Some d ->
    m !! k = None -> Z.of_nat (size m) < maxRows t ->
    op_result t m (op_insert o) (tid t + 1) (<[k := d]> m)
| res_update mem o k d0 d : ix_key mem = Ret k -> m !! k = Some d0 -> ix_key (app_mem o) = Ret k ->
    app_encode o n = Some d -> op_result t m (op_update mem o) 0 (<[k := d]> m)
| res_update_none mem o k : ix_key mem = Ret k -> ix_key_ok k -> m !! k = None ->
    op_result t m (op_update mem o) (-1) m
| res_delete mem k d : ix_key mem = Ret k -> m !! k = Some d -> op_result t m (op_delete mem) 0 (delete k m)
| res_delete_none mem k : ix_key mem = Ret k -> ix_key_ok k -> m !! k = None ->
    op_result t m (op_delete mem) (-1) m
| res_snapshot : op_result t m op_snapshot 0 m.

(** How an operation changes the file. *)
Definition file_step t t' m m' : Prop :=
  same_table t t' /\ (file t' = file t /\ m' = m \/ logged (n := n) (crc32c := crc32c) (cheap := cheap) t t' m m').

Definition op_done t m x c m' : Prop := exists t',
  run_op crc32c cheap x t = Ret (c, t') /\ sdb_inv (n := n) (crc32c := crc32c) (cheap := cheap) t' m' /\
  same_table t t' /\ (x <> op_snapshot -> file_step t t' m m').

Lemma tid_pos t m : sdb_inv (n := n) (crc32c := crc32c) (cheap := cheap) t m -> 0 <= tid t.
Proof using. intros [Hti _]. apply (ti_tid _ _ Hti). Qed.

Lemma done_logged t m x c m' t' : run_op crc32c cheap x t = Ret (c, t') ->
  sdb_inv (n := n) (crc32c := crc32c) (cheap := cheap) t' m' ->
  logged (n := n) (crc32c := crc32c) (cheap := cheap) t t' m m' -> op_done t m x c m'.
Proof using.
  intros Hr Hi Hl. exists t'. split; [done|]. split; [done|]. split; [apply Hl|]. intros _. split; [apply Hl|by right].
Qed.

Lemma done_same t m x c : run_op crc32c cheap x t = Ret (c, t) ->
  sdb_inv (n := n) (crc32c := crc32c) (cheap := cheap) t m -> op_done t m x c m.
Proof using.
  intros Hr Hi. exists t. split; [done|]. split; [done|]. split; [done|]. intros _. split; [done|by left].
Qed.

Lemma sdb_rows t m : sdb_inv (n := n) (crc32c := crc32c) (cheap := cheap) t m ->
  rows (n := n) (iHandle t) (maxRows t) (objs t) (brk t) (concat (map dead_row (update t))) m.
Proof using. intros [Hti _]. apply (ti_rows _ _ Hti). Qed.

Lemma get_there t m k d mem : sdb_inv (n := n) (crc32c := crc32c) (cheap := cheap) t m -> m !! k = Some d ->
  ix_key mem = Ret k -> exists a, sdbGetRow t mem = Ret a /\ a <> 0 /\ row_obj (n := n) (objs t) k d a.
Proof using.
  intros Hi E Hk. pose proof (sdb_rows _ _ Hi) as Hr.
  destruct (rows_some _ _ _ _ _ _ _ _ _ Hr E Hk) as (p & v & _ & _ & _ & _ & _ & Hok & _).
  destruct (get_row_spec t _ m k mem Hr Hk Hok) as (a & Ha & Hc). rewrite E in Hc. by exists a.
Qed.

Lemma get_none t m k mem : sdb_inv (n := n) (crc32c := crc32c) (cheap := cheap) t m -> m !! k = None ->
  ix_key mem = Ret k -> ix_key_ok k -> sdbGetRow t mem = Ret 0.
Proof using.
  intros Hi E Hk Hok. destruct (get_row_spec t _ m k mem (sdb_rows _ _ Hi) Hk Hok) as (a & Ha & Hc).
  rewrite E in Hc. by subst a.
Qed.

(** Every operation is done, without a failed assertion or a use of freed memory. *)
Lemma run_op_spec t m x c m' : sdb_inv (n := n) (crc32c := crc32c) (cheap := cheap) t m ->
  op_result t m x c m' -> tid t + 1 < 2 ^ 63 -> op_done t m x c m'.
Proof using.
  intros Hi Hres Ht. pose proof (tid_pos _ _ Hi) as Hpos.
  destruct Hres as [o k d Hkt Hk Hok He E Hsz|o k d Hkt Hk Hok He [d0 E]
    |o b8 d0 k d Hkt Hb8 Hz He0 Hl0 Hk Hok He E Hsz|mem o k d0 d Hk E Hko He|mem o k Hk Hok E|mem k d Hk E|mem k Hk Hok E|].
  - pose proof (insert_spec t m k d o (Obj (brk t)) 0 Hi Hkt ltac:(by left) Hk Hok He Ht (fun _ => Hsz)) as Hs.
    cbv zeta in Hs. rewrite E in Hs. destruct Hs as (t' & Hrun & Hi' & Hlog). apply (done_logged _ _ _ _ _ t'); try done.
    cbn [run_op new_obj]. cbn [new_obj snd] in Hrun. rewrite Hrun. cbn [rbind].
    by rewrite (proj2 (Z.ltb_ge _ 0)) by lia.
  - pose proof (insert_spec t m k d o (Obj (brk t)) 0 Hi Hkt ltac:(by left) Hk Hok He Ht ltac:(congruence)) as Hs.
    cbv zeta in Hs. rewrite E in Hs. cbn [new_obj snd] in Hs.
    eexists. split.
    { cbn [run_op new_obj]. rewrite Hs. cbn [rbind]. change (-1 <? 0) with true. cbv iota.
      unfold destroy_obj, obj_at. cbn [objs with_objs]. rewrite lookup_insert_eq. reflexivity. }
    split; [|split; [done|intros _; split; [done|by left]]].
    destruct Hi as [[G1 G2 G3 G4 G5 G6] [F1 F2 F3 F4]]. split; [|by constructor].
    constructor; try done. cbn. by apply rows_free.
  - destruct (insert_auto_spec t m k d d0 o b8) as (t' & Hrun & Hi' & Hlog & _); try done.
    apply (done_logged _ _ _ _ _ t'); try done.
    cbn [run_op new_obj]. cbn [new_obj snd] in Hrun. rewrite Hrun. cbn [rbind].
    by rewrite (proj2 (Z.ltb_ge _ 0)) by lia.
  - destruct (get_there _ _ _ _ _ Hi E Hk) as (a & Ha & Hnz & _).
    destruct (update_spec t m k d0 d mem a o Hi E Hk Ha Hko He Ht) as (t' & Hrun & Hi' & Hlog).
    apply (done_logged _ _ _ _ _ t'); try done.
    cbn [run_op]. rewrite Ha. cbn [rbind]. by rewrite (proj2 (Z.eqb_neq _ _) Hnz).
  - apply done_same; [|done]. cbn [run_op]. by rewrite (get_none _ _ _ _ Hi E Hk Hok).
  - destruct (get_there _ _ _ _ _ Hi E Hk) as (a & Ha & Hnz & _).
    destruct (delete_spec t m k d mem a Hi E Hk Ha Ht) as (t' & Hrun & Hi' & Hlog).
    apply (done_logged _ _ _ _ _ t'); try done.
    cbn [run_op]. rewrite Ha. cbn [rbind]. by rewrite (proj2 (Z.eqb_neq _ _) Hnz).
  - apply done_same; [|done]. cbn [run_op]. by rewrite (get_none _ _ _ _ Hi E Hk Hok).
  - pose proof (inv_size _ _ Hi) as Hsz. destruct Hi as [Hti Hfi].
    destruct (snapshot_spec t m Hti (fi_hdr _ _ Hfi) Hsz (fi_dot _ _ Hfi)) as (t' & Hs & Hti' & Hfi').
    exists t'. cbn [run_op]. rewrite Hs. split; [done|]. split; [by split|].
    split; [by apply (snapshot_same (crc32c := crc32c) (cheap := cheap))|done].
Qed.

(** ** What a table shows *)
Definition holds t m : Prop :=
  (forall k mem, ix_key mem = Ret k -> ix_key_ok k -> lookup_row t mem = Ret (m !! k)) /\
  numOfRows t = Z.of_nat (size m).

Lemma inv_holds t m : table_inv (n := n) t m -> holds t m.
Proof using.
  intros Hti. split; [|apply (ti_num _ _ Hti)]. intros k mem Hk Hok. unfold lookup_row.
  destruct (get_row_spec t _ m k mem (ti_rows _ _ Hti) Hk Hok) as (a & -> & Ha). cbn [rbind].
  destruct (m !! k) as [d|] eqn:E; [|by subst a]. destruct Ha as [Hnz (o & Eo & _ & _ & He)].
  rewrite (proj2 (Z.eqb_neq _ _) Hnz). unfold obj_at. rewrite Eo. cbn [rbind]. by rewrite (ti_len _ _ Hti), He.
Qed.

(** The files [name.db] and [.name.db] when the program stops during an operation. *)
Inductive crash_disk (x : sdb_op obj) (f f' : list Z) : option (list Z) -> option (list Z) -> Prop :=
| crash_append j dot : x <> op_snapshot -> (length f <= j)%nat -> crash_disk x f f' (Some (take j f')) dot
| crash_old dot : crash_disk x f f' (Some f) dot
| crash_rename : x = op_snapshot -> crash_disk x f f' None (Some f')
| crash_new dot : crash_disk x f f' (Some f') dot.

Section Table.
Context (ix : I) (maxRows0 : Z) (kt : KEYTYPE) (sw : list Z).
Context (Hinit : ix_init maxRows0 = Ret (Some ix)) (Hpos : 0 < maxRows0).
Context (Hkind : ix_kind kt) (Hn : n < 2 ^ 31).

Lemma reopen t m sw' main dot version b : sdb_inv (n := n) (crc32c := crc32c) (cheap := cheap) t m ->
  maxRows t = maxRows0 -> stored main dot = Some (file t) -> 0 < b ->
  exists t', sdbOpenTable crc32c cheap sw' main dot version b maxRows0 n kt = Ret (Some t') /\
    maxRows t' = maxRows0 /\ keyType t' = kt /\ sdb_inv (n := n) (crc32c := crc32c) (cheap := cheap) t' m.
Proof using Hinit Hpos Hkind Hn Hck.
  intros [Hti [(l & Hf & Hrep & Hcl) Hh _ _]] Hm Hst Hb. rewrite Hf in Hst. rewrite Hm in Hrep.
  destruct (open_table_log (crc32c := crc32c) (cheap := cheap) ix version b maxRows0 kt Hinit Hpos Hb Hkind Hn
    sw' main dot (header t) l m Hst Hh Hcl Hrep) as (t' & Ht' & Hm' & Hk' & Hinv).
  by exists t'.
Qed.

Lemma reopen_torn t m m' main dot version b j : sdb_inv (n := n) (crc32c := crc32c) (cheap := cheap) t m ->
  maxRows t = maxRows0 -> 0 < b ->
  forall rid d, row_effect (n := n) (maxRows t) rid d m m' -> Z.of_nat (size m') <= maxRows t ->
  stored main dot = Some (file t ++ take j (sealed (crc32c := crc32c) (cheap := cheap) rid d ++ commit_mark)) ->
  exists t', sdbOpenTable crc32c cheap sw main dot version b maxRows0 n kt = Ret (Some t') /\ (holds t' m \/ holds t' m').
Proof using Hinit Hpos Hkind Hn Hck.
  intros [Hti [(l & Hf & Hrep & Hcl) Hh _ _]] Hm Hb rid d Heff Hsz Hst. rewrite Hf in Hst. rewrite Hm in Hrep, Heff, Hsz.
  destruct (open_table_torn (crc32c := crc32c) (cheap := cheap) ix version b maxRows0 kt Hinit Hpos Hb Hkind Hn
    sw main dot (header t) l m m' rid d j Hst Hh Hcl Hrep Heff Hsz) as (t' & Ht' & Hcase).
  exists t'. split; [done|]. destruct Hcase; [left|right]; by apply inv_holds.
Qed.

(** The life of a table begins with an empty file; the program stops any number of
    times between two operations and opens the table from what is stored. *)
Inductive reachable : list (sdb_op obj) -> SSdbTable I obj -> gmap K (list Z) -> Prop :=
| reach_new version b t0 : 0 < b -> length sw = 8%nat -> bytes_ok sw ->
    sdbOpenTable crc32c cheap sw None None version b maxRows0 n kt = Ret (Some t0) -> reachable [] t0 ∅
| reach_op l t m x c m' t' : reachable l t m -> op_result t m x c m' -> tid t + 1 < 2 ^ 63 ->
    run_op crc32c cheap x t = Ret (c, t') -> reachable (l ++ [x]) t' m'
| reach_restart l t m sw' main dot version b t' : reachable l t m -> stored main dot = Some (file t) -> 0 < b ->
    sdbOpenTable crc32c cheap sw' main dot version b maxRows0 n kt = Ret (Some t') -> reachable l t' m.

Lemma reachable_inv l t m : reachable l t m ->
  sdb_inv (n := n) (crc32c := crc32c) (cheap := cheap) t m /\ maxRows t = maxRows0 /\ keyType t = kt.
Proof using Hinit Hpos Hkind Hn Hck.
  induction 1 as [version b t0 Hb Hsw Hswb Ho|l t m x c m' t' _ (Hi & Hm & Hk) Hres Ht Hrun|l t m sw' main dot version b t' _ (Hi & Hm & Hk) Hst Hb Ho].
  - destruct (open_table_new (crc32c := crc32c) (cheap := cheap) ix version b maxRows0 kt Hinit Hpos Hb Hkind Hn
      sw None None eq_refl Hsw Hswb) as (t1 & Ho1 & Hm & Hk & Hinv). by assert (t1 = t0) as -> by congruence.
  - destruct (run_op_spec _ _ _ _ _ Hi Hres Ht) as (t2 & Hrun2 & Hi2 & (_ & Hm2 & Hk2) & _).
    assert (t2 = t') as -> by congruence. split; [done|]. split; congruence.
  - destruct (reopen t m sw' main dot version b Hi Hm Hst Hb) as (t1 & Ho1 & Hm1 & Hk1 & Hi1).
    by assert (t1 = t') as -> by congruence.
Qed.

Lemma next_both l t m x c m' : reachable l t m -> op_result t m x c m' -> tid t + 1 < 2 ^ 63 ->
  exists t', run_op crc32c cheap x t = Ret (c, t') /\ reachable (l ++ [x]) t' m' /\ holds t' m'.
Proof using Hinit Hpos Hkind Hn Hck.
  intros Hr Hres Ht. destruct (reachable_inv l t m Hr) as (Hi & _).
  destruct (run_op_spec t m x c m' Hi Hres Ht) as (t' & Hrun & Hi' & _). exists t'. split; [done|].
  split; [by eapply reach_op|apply inv_holds, Hi'].
Qed.

Lemma durable_both l t m : reachable l t m -> holds t m /\
  forall sw' main dot version b, stored main dot = Some (file t) -> 0 < b -> exists t',
    sdbOpenTable crc32c cheap sw' main dot version b maxRows0 n kt = Ret (Some t') /\ reachable l t' m /\ holds t' m.
Proof using Hinit Hpos Hkind Hn Hck.
  intros Hr. destruct (reachable_inv l t m Hr) as (Hi & Hm & Hk). split; [apply inv_holds, Hi|]. intros sw' main dot version b Hst Hb.
  destruct (reopen t m sw' main dot version b Hi Hm Hst Hb) as (t' & Ho & _ & _ & Hi'). exists t'. split; [done|].
  split; [by eapply reach_restart|apply inv_holds, Hi'].
Qed.

Lemma crash_both l t m x c m' t' main dot version b : reachable l t m -> op_result t m x c m' ->
  tid t + 1 < 2 ^ 63 -> run_op crc32c cheap x t = Ret (c, t') ->
  crash_disk x (file t) (file t') main dot -> 0 < b -> exists t'',
    sdbOpenTable crc32c cheap sw main dot version b maxRows0 n kt = Ret (Some t'') /\ (holds t'' m \/ holds t'' m').
Proof using Hinit Hpos Hkind Hn Hck.
  intros (Hi & Hm & Hk)%reachable_inv Hres Ht Hrun Hd Hb.
  destruct (run_op_spec _ _ _ _ _ Hi Hres Ht) as (t2 & Hrun2 & Hi2 & (_ & Hm2 & _) & Hstep).
  assert (t2 = t') as -> by congruence. assert (Hm' : maxRows t' = maxRows0) by congruence.
  destruct Hd as [j dot Hx Hj|dot|Hx|dot].
  - destruct (Hstep Hx) as (_ & [[Hf ->]|(_ & rid & d & Hf & Heff & Hsz)]).
    + rewrite Hf, take_ge by lia. destruct (reopen t m sw (Some (file t)) dot version b Hi Hm eq_refl Hb) as (t'' & ? & _ & _ & [? _]).
      exists t''. split; [done|left; by apply inv_holds].
    + rewrite Hf, take_app_ge by lia. by apply (reopen_torn t m m' _ _ _ _ (j - length (file t)) Hi Hm Hb rid d).
  - destruct (reopen t m sw (Some (file t)) dot version b Hi Hm eq_refl Hb) as (t'' & ? & _ & _ & [? _]).
    exists t''. split; [done|left; by apply inv_holds].
  - destruct (reopen t' m' sw None (Some (file t')) version b Hi2 Hm' eq_refl Hb) as (t'' & ? & _ & _ & [? _]).
    exists t''. split; [done|right; by apply inv_holds].
  - destruct (reopen t' m' sw (Some (file t')) dot version b Hi2 Hm' eq_refl Hb) as (t'' & ? & _ & _ & [? _]).
    exists t''. split; [done|right; by apply inv_holds].
Qed.
End Table.
End Life.
