(* ===== verification/SdbUser.v ===== *)
(** * Applications of the management tables

    Objects without pointers, and the tables of users and vnode groups. *)
From S2P Require Import Prelude MemPool Crc32c Chain SdbIndex SdbHashInt SdbHashStr Sdb SdbRows.

(** * Tables of plain objects

    The callbacks of src/src/system/src/mgmtUser.c, mgmtDb.c, mgmtVgroup.c and
    lmGate.c are the same text: a row is the first bytes of its object, up to
    the member [updateEnd].  Here they are for an object of [size] bytes whose
    [updateEnd] is at [upd], with what the engine relies on. *)

(** ** Objects *)
Definition mem_ok (size : nat) (l : list Z) : bool :=
  (length l =? size)%nat && forallb (fun b => (0 <=? b) && (b <? 256)) l.

(** An object is the memory it occupies. *)
Definition FlatObj (size : nat) : Type := { l : list Z | mem_ok size l = true }.

Definition obj_mem {size : nat} (o : FlatObj size) : list Z := proj1_sig o.

(** [memset] to 0, then a copy of [bs]. *)
Definition obj_bytes (size : nat) (bs : list Z) : list Z := take size (map u8 bs ++ replicate size 0).

Lemma obj_bytes_ok size bs : mem_ok size (obj_bytes size bs) = true.
Proof.
  unfold mem_ok, obj_bytes. apply andb_true_iff. split.
  - apply Nat.eqb_eq. rewrite length_take, length_app, length_replicate. lia.
  - apply forallb_forall. intros b Hb%list_elem_of_In%elem_of_take.
    destruct Hb as (i & Hb & _). apply list_elem_of_lookup_2 in Hb.
    apply elem_of_app in Hb as [(x & -> & _)%list_elem_of_fmap|[-> _]%elem_of_replicate]; [|done].
    pose proof (byte_ok_u8 x) as Hx. unfold byte_ok in Hx.
    apply andb_true_iff. split; [apply Z.leb_le|apply Z.ltb_lt]; lia.
Qed.

Definition make_obj (size : nat) (bs : list Z) : FlatObj size := exist _ (obj_bytes size bs) (obj_bytes_ok size bs).

Lemma obj_mem_spec size (o : FlatObj size) : length (obj_mem o) = size /\ bytes_ok (obj_mem o).
Proof.
  destruct o as [l Hl]. cbn [obj_mem proj1_sig]. unfold mem_ok in Hl.
  apply andb_true_iff in Hl as [Hlen Hb]. apply Nat.eqb_eq in Hlen. split; [done|].
  apply Forall_forall. intros b Hin%list_elem_of_In. rewrite forallb_forall in Hb.
  specialize (Hb b Hin). unfold byte_ok. lia.
Qed.

Lemma map_u8 l : bytes_ok l -> map u8 l = l.
Proof.
  induction 1 as [|b l Hb Hl IH]; [done|]. cbn [map]. rewrite IH. f_equal.
  unfold byte_ok in Hb. apply Z.mod_small. lia.
Qed.

Lemma obj_bytes_app size d z : bytes_ok d -> bytes_ok z -> (length d + length z <= size)%nat ->
  exists z', obj_bytes size (d ++ z) = d ++ z'.
Proof.
  intros Hd Hz Hl. unfold obj_bytes. rewrite map_u8 by by apply bytes_ok_app.
  rewrite <- app_assoc, take_app_ge by lia. by eexists.
Qed.

(** ** The callbacks *)
Section Actions.
Context (size upd : nat).

(** [None] is an [*ssize] of -1. *)
Definition action_encode (row : FlatObj size) (room : Z) : option (list Z) :=
  if room <? Z.of_nat upd then None else Some (take upd (obj_mem row)).

Definition action_decode (str : list Z) : FlatObj size := make_obj size (take upd str).

Definition action_reset (row : FlatObj size) (str : list Z) : FlatObj size :=
  make_obj size (take upd str ++ drop upd (obj_mem row)).

(** The batch update answers [NULL]: there is no next row. *)
Definition action_batch_update (objs : gmap Z (FlatObj size)) : gmap Z (FlatObj size) * Z := (objs, 0).

Definition flat_app : AppTool (FlatObj size) := {|
  app_mem := obj_mem;
  app_set_auto o auto := make_obj size (le_bytes 4 auto ++ drop 4 (obj_mem o));
  app_decode str _ := action_decode str;
  app_encode := action_encode;
  app_reset o str _ := action_reset o str;
  app_update o str _ := action_reset o str;
  app_batch_update os _ _ _ := action_batch_update os |}.

(** ** What the engine relies on *)
Section Laws.
Context {I K : Type} `{SdbIndexLaws I K} (key_ok : K -> Prop).
Context (Hsize : (0 < upd <= size)%nat) (Hok : forall k, key_ok k -> ix_key_ok k).
(** The key is in the part that is saved. *)
Context (Hfit : forall mem k, length mem = size -> ix_key mem = Ret k -> key_ok k ->
  ix_key (take upd mem) = Ret k).
Context (Hdel : forall kt mem k, length mem = size -> ix_kind kt -> ix_key mem = Ret k -> key_ok k ->
  exists sz b, key_size kt mem = Ret sz /\ rd mem 0 sz = Ret b).

Record flat_row (k : K) (d : list Z) : Prop := {
  fr_len : length d = upd;
  fr_bytes : bytes_ok d;
  fr_key : ix_key d = Ret k;
  fr_ok : key_ok k }.

(** A row read back into an object. *)
Lemma flat_object k d z : flat_row k d -> bytes_ok z -> (length z <= size - upd)%nat ->
  action_encode (make_obj size (d ++ z)) (Z.of_nat size) = Some d /\
  ix_key (obj_mem (make_obj size (d ++ z))) = Ret k.
Proof using Hsize.
  intros [Hl Hb Hk _] Hz Hlz. cbn [obj_mem make_obj proj1_sig].
  destruct (obj_bytes_app size d z Hb Hz) as [z' E]; [lia|].
  unfold action_encode. cbn [obj_mem make_obj proj1_sig]. rewrite E. split.
  - rewrite (proj2 (Z.ltb_ge _ _)) by lia. by rewrite take_app_le, take_ge by lia.
  - by apply ix_key_app.
Qed.

Lemma flat_reset o k d z : flat_row k d ->
  action_encode (action_reset o (d ++ z)) (Z.of_nat size) = Some d /\
  ix_key (obj_mem (action_reset o (d ++ z))) = Ret k.
Proof using Hsize.
  intros Hr. destruct (obj_mem_spec _ o) as [Ho Hb].
  assert (E : action_reset o (d ++ z) = make_obj size (d ++ drop upd (obj_mem o))).
  { unfold action_reset. by rewrite <- (fr_len _ _ Hr) at 1; rewrite take_app_length. }
  rewrite E. apply flat_object; [done|by apply Forall_drop|rewrite length_drop; lia].
Qed.

Definition flat_laws : @AppLaws I K (FlatObj size) _ _ _ _ flat_app (Z.of_nat size).
Proof using Hsize Hok Hfit Hdel.
  refine {| app_row := flat_row; app_key_ok := key_ok |}.
  - exact Hok.
  - intros o k d Hk Hko. cbn [app_encode flat_app]. unfold action_encode.
    rewrite (proj2 (Z.ltb_ge _ _)) by lia. intros [= <-]. destruct (obj_mem_spec _ o) as [Ho Hb].
    constructor; [|by apply Forall_take|by apply Hfit|done]. rewrite length_take, Ho. lia.
  - intros k d Hr. apply (fr_ok _ _ Hr).
  - intros k d [Hl Hb _ _]. split; [lia|done].
  - intros k d [_ _ Hk Hko]. split; [done|]. by apply Hok.
  - intros k d z Hr. cbn [app_decode app_encode app_mem flat_app].
    assert (E : action_decode (d ++ z) = make_obj size (d ++ [])).
    { unfold action_decode. by rewrite <- (fr_len _ _ Hr), take_app_length, app_nil_r. }
    rewrite E. apply flat_object; [done|constructor|cbn; lia].
  - intros o k d z Hr. by apply flat_reset.
  - intros o k d Hr. cbn [app_update app_encode app_mem flat_app]. rewrite <- (app_nil_r d) at 1 3.
    by apply flat_reset.
  - intros kt o k d Hkt Hk Hr _. destruct (obj_mem_spec _ o) as [Ho Hb].
    cbn [app_mem flat_app] in *. destruct (Hdel kt (obj_mem o) k Ho Hkt Hk (fr_ok _ _ Hr)) as (sz & b & Hs & Hrd).
    exists sz, b. split; [done|]. split; [done|]. split; [by eapply bytes_ok_rd|].
    apply rd_Ret in Hrd as (a & c & E & _ & _). rewrite <- Ho, E, !length_app. lia.
Defined.
End Laws.
End Actions.

(** * The tables of users and of vnode groups

    The two kinds of table the management node keeps, as instances of SdbUser.v:
    users (src/src/system/src/mgmtUser.c) under their name, vnode groups
    (src/src/system/src/mgmtVgroup.c) under a number the engine assigns. *)

Lemma rd_front mem k : 0 <= k -> k <= Z.of_nat (length mem) -> exists b, rd mem 0 k = Ret b.
Proof. intros Hk Hl. unfold rd. rewrite bool_decide_eq_true_2 by lia. by eexists. Qed.

(** ** Users *)
(** [SUserObj] (LP64): the name is its first member. *)
Definition TSDB_USER_LEN : nat := 24.
Definition SIZEOF_SUserObj : nat := 120.
Definition SUserObj_updateEnd : nat := 97.
Definition SUserObj : Type := FlatObj SIZEOF_SUserObj.

Definition mgmtUserActionEncode : SUserObj -> Z -> option (list Z) :=
  action_encode SIZEOF_SUserObj SUserObj_updateEnd.
Definition mgmtUserActionDecode : list Z -> SUserObj := action_decode SIZEOF_SUserObj SUserObj_updateEnd.
Definition mgmtUserActionReset : SUserObj -> list Z -> SUserObj := action_reset SIZEOF_SUserObj SUserObj_updateEnd.

#[export] Instance mgmtUserAction : AppTool SUserObj := flat_app SIZEOF_SUserObj SUserObj_updateEnd.

Definition user_key_ok (name : list Z) : Prop := (length name <= TSDB_USER_LEN)%nat.

#[export] Instance user_laws : AppLaws SdbHashStr.SHashObj (list Z) SUserObj (Z.of_nat SIZEOF_SUserObj).
Proof.
  apply (flat_laws SIZEOF_SUserObj SUserObj_updateEnd user_key_ok);
    unfold user_key_ok, TSDB_USER_LEN, SIZEOF_SUserObj, SUserObj_updateEnd.
  - lia.
  - intros k Hk. change (str_key_ok k). unfold str_key_ok, TSDB_METER_ID_LEN. lia.
  - intros mem k Hl (r & E & Hs)%c_string_inv Hk.
    rewrite E, take_app_ge by lia. destruct (97 - length k)%nat eqn:Ek; [lia|].
    cbn [take]. by apply c_string_of.
  - intros kt mem k Hl -> Hk Hok. cbn [key_size]. change (c_string mem = Ret k) in Hk. rewrite Hk. cbn [rbind].
    destruct (rd_front mem (Z.of_nat (length k) + 1)) as [b Hb]; [lia|lia|]. by eexists _, b.
Defined.

(** ** Vnode groups *)
(** [SVgObj] (LP64): the number is its first member. *)
Definition SIZEOF_SVgObj : nat := 208.
Definition SVgObj_updateEnd : nat := 169.
Definition SVgObj : Type := FlatObj SIZEOF_SVgObj.

Definition mgmtVgroupActionEncode : SVgObj -> Z -> option (list Z) := action_encode SIZEOF_SVgObj SVgObj_updateEnd.
Definition mgmtVgroupActionDecode : list Z -> SVgObj := action_decode SIZEOF_SVgObj SVgObj_updateEnd.
Definition mgmtVgroupActionReset : SVgObj -> list Z -> SVgObj := action_reset SIZEOF_SVgObj SVgObj_updateEnd.

#[export] Instance mgmtVgroupAction : AppTool SVgObj := flat_app SIZEOF_SVgObj SVgObj_updateEnd.

#[export] Instance vgroup_laws `{PoolMemory} : AppLaws SdbHashInt.SHashObj Z SVgObj (Z.of_nat SIZEOF_SVgObj).
Proof.
  apply (flat_laws SIZEOF_SVgObj SVgObj_updateEnd int_key_ok); unfold SIZEOF_SVgObj, SVgObj_updateEnd.
  - lia.
  - done.
  - intros mem k Hl (b & r & E & Hb & ->)%int_key_rd _. rewrite E, take_app_ge by lia. by apply int_key_of.
  - intros kt mem k Hl Hkt Hk _. destruct Hkt as [-> | ->].
    + destruct (rd_front mem 4) as [b Hb]; [lia|lia|]. by eexists _, b.
    + destruct (rd_front mem 8) as [b Hb]; [lia|lia|]. by eexists _, b.
Defined.
