(* ===== verification/SdbLife.v ===== *)
(** * The life of a management table

    Closing it, and all of its operations with crashes and reopening. *)
From S2P Require Import Prelude Crc32c Chain SdbIndex SdbHashInt SdbHashStr Sdb SdbRows SdbOpen SdbClient SdbRun SdbUser.

(** * Walking and closing a management table

    Closing walks the index and destroys the object of every row. *)

Section Close.
Context {I K obj : Type} `{AppLaws I K obj n}.
Implicit Types (t : SSdbTable I obj) (m : gmap K (list Z)) (mi : gmap K (Z * SRowMeta)).

(** The addresses of the objects of the rows. *)
Definition row_addrs mi : list Z := map (fun kv => row kv.2.2) (map_to_list mi).

Lemma row_addrs_nodup mi os b dead m : rows_of (n := n) mi os b dead m -> NoDup (row_addrs mi).
Proof using.
  intros Hr. unfold row_addrs. apply NoDup_fmap_2_strong; [|apply NoDup_map_to_list].
  intros [k1 [a1 v1]] [k2 [a2 v2]] E1%elem_of_map_to_list E2%elem_of_map_to_list Hrow. cbn in Hrow.
  assert (k1 = k2) as <- by (eapply (ro_inj _ _ _ _ _ Hr); eauto). congruence.
Qed.

Lemma row_addrs_live mi os b dead m a : rows_of (n := n) mi os b dead m -> a ∈ row_addrs mi ->
  is_Some (os !! a) /\ a <> 0 /\ a ∉ dead.
Proof using.
  intros Hr ([k [p v]] & -> & E%elem_of_map_to_list)%list_elem_of_fmap. cbn.
  pose proof (ro_rel _ _ _ _ _ Hr k) as Hk. rewrite E in Hk.
  destruct (m !! k) as [d|] eqn:Em; [|done]. destruct Hk as [_ (o & Eo & _)].
  split; [by eexists|]. destruct (ro_fresh _ _ _ _ _ Hr) as [_ Hf].
  pose proof (Hf (row v) ltac:(by eexists)). split; [lia|]. intros Hd.
  destruct (ro_dead _ _ _ _ _ Hr _ Hd) as [_ Hl]. by eapply Hl.
Qed.

Lemma fetch_row t mi (l : list (K * (Z * SRowMeta))) p :
  ix_is (iHandle t) (maxRows t) mi -> l ⊆ map_to_list mi ->
  ix_fetch (iHandle t) p = Ret (match l with kv :: _ => kv.2.1 | [] => 0 end) ->
  sdbFetchRow t p = Ret (match l with kv :: _ => (kv.2.1, row kv.2.2) | [] => (0, 0) end).
Proof using.
  intros Hix Hsub Hf. unfold sdbFetchRow. rewrite Hf. cbn [rbind]. destruct l as [|[k [a v]] l]; [done|]. cbn [fst snd].
  assert (E : mi !! k = Some (a, v)) by (apply elem_of_map_to_list, Hsub; by constructor).
  destruct (ix_node _ _ _ _ _ _ Hix E) as (Ha & _ & Hl & _). rewrite (proj2 (Z.eqb_neq _ _) Ha), Hl. done.
Qed.

(** The loop, from the row behind [pre] on. *)
Lemma close_loop_spec mi (l0 : list (K * (Z * SRowMeta))) : l0 ⊆ map_to_list mi ->
  forall l pre t p F, l0 = pre ++ l -> ix_is (iHandle t) (maxRows t) mi ->
  (forall pre kv post, l0 = pre ++ kv :: post ->
    ix_fetch (iHandle t) kv.2.1 = Ret (match post with kv' :: _ => kv'.2.1 | [] => 0 end)) ->
  ix_fetch (iHandle t) p = Ret (match l with kv :: _ => kv.2.1 | [] => 0 end) ->
  NoDup (map (fun kv : K * (Z * SRowMeta) => row kv.2.2) l) ->
  (forall kv, kv ∈ l -> is_Some (objs t !! row kv.2.2) /\ row kv.2.2 <> 0) -> (length l < F)%nat ->
  exists t', close_loop F p t = Ret t' /\ iHandle t' = iHandle t /\ maxRows t' = maxRows t /\
    forall a, objs t' !! a = if bool_decide (a ∈ map (fun kv : K * (Z * SRowMeta) => row kv.2.2) l) then None else objs t !! a.
Proof using.
  intros Hsub. induction l as [|kv l IH]; intros pre t p F Hl0 Hix Hnext Hf Hnd Hlive HF;
    (destruct F as [|F]; [cbn in HF; lia|]); cbn [close_loop].
  - rewrite (fetch_row t mi [] p Hix) by (try done; apply list_subseteq_nil). cbn [rbind Z.eqb]. exists t.
    split; [done|]. split; [done|]. split; [done|]. intros a. rewrite bool_decide_eq_false_2; [done|]. apply not_elem_of_nil.
  - assert (Hs : kv :: l ⊆ map_to_list mi) by (intros x Hx; apply Hsub; rewrite Hl0; apply elem_of_app; by right).
    rewrite (fetch_row t mi (kv :: l) p Hix Hs Hf). cbn [rbind].
    destruct (Hlive kv ltac:(by constructor)) as [[o Eo] Hnz]. rewrite (proj2 (Z.eqb_neq _ _) Hnz).
    unfold destroy_obj, obj_at. rewrite Eo. cbn [rbind]. cbn [map] in Hnd. apply NoDup_cons in Hnd as [Hni Hnd].
    destruct (IH (pre ++ [kv]) (with_objs (delete (row kv.2.2) (objs t)) (brk t) t) kv.2.1 F) as (t' & Hc & Hi & Hm & Ho);
      try done.
    + by rewrite <- app_assoc.
    + by apply (Hnext pre).
    + intros kv' Hin. destruct (Hlive kv' ltac:(by constructor)) as [Hs' Hnz']. split; [|done].
      cbn [objs with_objs]. rewrite lookup_delete_ne; [done|]. intros E. apply Hni.
      apply list_elem_of_fmap. by exists kv'.
    + cbn in HF. lia.
    + exists t'. split; [done|]. split; [done|]. split; [done|]. intros a. rewrite Ho. cbn [objs with_objs map].
      case_bool_decide as Hin; [by rewrite bool_decide_eq_true_2 by by constructor|].
      destruct (decide (a = row kv.2.2)) as [->|Hne].
      * rewrite bool_decide_eq_true_2 by constructor. by rewrite lookup_delete_eq.
      * rewrite bool_decide_eq_false_2 by (by rewrite elem_of_cons; intros [?|?]). by rewrite lookup_delete_ne.
Qed.

(** Every row's object is destroyed, once; the objects of deleted rows that are
    still in the update list are not. *)
Lemma close_spec t m : table_inv (n := n) t m -> exists os, sdbCloseTable t = Ret os /\
  (forall k mem a, is_Some (m !! k) -> ix_key mem = Ret k -> sdbGetRow t mem = Ret a -> os !! a = None) /\
  forall a, a ∈ concat (map dead_row (update t)) -> os !! a = objs t !! a /\ is_Some (os !! a).
Proof using.
  intros [_ _ (mi & Hix & Hr) Hnum _ _]. destruct (ix_walk _ _ _ Hix) as (l & Hl & Hfirst & Hnext).
  assert (Hll : length l = size m).
  { rewrite Hl, length_map_to_list. by eapply ro_size. }
  assert (Hperm : map (fun kv : K * (Z * SRowMeta) => row kv.2.2) l ≡ₚ row_addrs mi) by (unfold row_addrs; by rewrite Hl).
  destruct (close_loop_spec mi l) with (l := l) (pre := @nil (K * (Z * SRowMeta))) (t := t) (p := 0) (F := S (Z.to_nat (numOfRows t)))
    as (t' & Hc & Hi & Hm & Ho); try done.
  - intros x Hx. by rewrite <- Hl.
  - rewrite Hperm. by eapply row_addrs_nodup.
  - intros kv Hkv. destruct (row_addrs_live mi (objs t) (brk t) (concat (map dead_row (update t))) m (row kv.2.2) Hr)
      as (? & ? & _); [|done]. apply list_elem_of_fmap. exists kv. split; [done|]. by rewrite <- Hl.
  - rewrite Hnum, Nat2Z.id. lia.
  - unfold sdbCloseTable. rewrite Hc. cbn [rbind]. rewrite Hi, (ix_close_is _ _ _ Hix). cbn [rbind].
    exists (objs t'). split; [done|]. split.
    + intros k mem a [d E] Hk Hg. rewrite Ho, bool_decide_eq_true_2; [done|]. rewrite Hperm.
      destruct (ro_some _ _ _ _ _ _ _ Hr E) as (p & v & Ei & _).
      destruct (ix_node _ _ _ _ _ _ Hix Ei) as (Ha & Hok & Hload & _).
      unfold sdbGetRow in Hg. rewrite (ix_get_is _ _ _ _ _ Hix Hk Hok), Ei in Hg. cbn [rbind] in Hg.
      rewrite (proj2 (Z.eqb_neq _ _) Ha), Hload in Hg. injection Hg as <-.
      apply list_elem_of_fmap. exists (k, (p, v)). split; [done|]. by apply elem_of_map_to_list.
    + intros a Ha. rewrite Ho. rewrite bool_decide_eq_false_2.
      * split; [done|]. by apply (ro_dead _ _ _ _ _ Hr).
      * rewrite Hperm. intros Hin. by destruct (row_addrs_live _ _ _ _ _ _ Hr Hin) as (_ & _ & ?).
Qed.
End Close.

(** * What a management table guarantees

    The theorems on the life of a table, and their instances at the table of
    users with the string index and the software checksum. *)

(** ** The guarantees *)
Section Guarantees.
Context {I K obj : Type} `{AppLaws I K obj n} `{Hck : Checksum crc32c cheap}.
Implicit Types (t : SSdbTable I obj) (m : gmap K (list Z)).
Context (ix : I) (maxRows0 : Z) (kt : KEYTYPE) (sw : list Z).
Context (Hinit : ix_init maxRows0 = Ret (Some ix)) (Hpos : 0 < maxRows0).
Context (Hkind : ix_kind kt) (Hn : n < 2 ^ 31).

(** C3.  A management table never loses or invents a row.  After any operations of a
    client (insertions, updates, deletions and snapshots; below the maximum number of
    rows, automatic keys only while the next number is free, fewer than 2^63 changes) and
    any restarts between two of them, every key looks up exactly the row the operations
    left under it and the row count is right; and opening the table's files again - by any
    software version, with a left-over snapshot file next to it, or with only the snapshot
    file - gives the same rows, and a table that goes on in the same way. *)
Theorem sdb_durable l t m :
  reachable (n := n) (crc32c := crc32c) (cheap := cheap) maxRows0 kt sw l t m ->
  holds t m /\
  forall sw' main dot version b, stored main dot = Some (file t) -> 0 < b -> exists t',
    sdbOpenTable crc32c cheap sw' main dot version b maxRows0 n kt = Ret (Some t') /\
    reachable (n := n) (crc32c := crc32c) (cheap := cheap) maxRows0 kt sw l t' m /\ holds t' m.
Proof using Hinit Hpos Hkind Hn Hck. by apply durable_both with (ix := ix). Qed.

(** C9.  An operation that is cut short by a crash, wherever the write of its
    record and commit mark stopped or the files of a snapshot were being
    exchanged, leaves files that open to the rows before it or the rows after.  (What
    the table opened from a file with a torn record does next is not claimed: its size
    is wrong, sdbEngine.c:222.) *)
Theorem sdb_crash_atomic l t m x c m' t' main dot version b :
  reachable (n := n) (crc32c := crc32c) (cheap := cheap) maxRows0 kt sw l t m ->
  op_result (n := n) t m x c m' -> tid t + 1 < 2 ^ 63 ->
  run_op crc32c cheap x t = Ret (c, t') -> crash_disk x (file t) (file t') main dot -> 0 < b ->
  exists t'', sdbOpenTable crc32c cheap sw main dot version b maxRows0 n kt = Ret (Some t'') /\
    (holds t'' m \/ holds t'' m').
Proof using Hinit Hpos Hkind Hn Hck. intros; by eapply crash_both. Qed.

(** C10.  Every operation of a client succeeds or is refused as its case says: no
    assertion fails, no freed object is used or freed again, and the update list never
    runs out.  The cases of [op_result] are all but these: an insertion into a full table,
    an automatic key that is in use, and 2^63 changes; the tables are those reached from
    empty files with any number of restarts, but for a restart from a torn record. *)
Theorem sdb_operations l t m x c m' :
  reachable (n := n) (crc32c := crc32c) (cheap := cheap) maxRows0 kt sw l t m ->
  op_result (n := n) t m x c m' -> tid t + 1 < 2 ^ 63 ->
  exists t', run_op crc32c cheap x t = Ret (c, t') /\
    reachable (n := n) (crc32c := crc32c) (cheap := cheap) maxRows0 kt sw (l ++ [x]) t' m' /\ holds t' m'.
Proof using Hinit Hpos Hkind Hn Hck. by apply next_both with (ix := ix). Qed.

(** C23.  Closing a table destroys the object of every row, each of them once, and
    touches nothing else; the objects of deleted rows that still wait in the
    update list are not destroyed, then or later. *)
Theorem sdb_closed l t m :
  reachable (n := n) (crc32c := crc32c) (cheap := cheap) maxRows0 kt sw l t m ->
  exists os, sdbCloseTable t = Ret os /\
    (forall k mem a, is_Some (m !! k) -> ix_key mem = Ret k -> sdbGetRow t mem = Ret a -> os !! a = None) /\
    forall a, a ∈ concat (map dead_row (update t)) -> os !! a = objs t !! a /\ is_Some (os !! a).
Proof using Hinit Hpos Hkind Hn Hck.
  intros Hr. destruct (reachable_inv ix maxRows0 kt sw Hinit Hpos Hkind Hn l t m Hr) as [[Hti _] _].
  by apply (close_spec t m).
Qed.
End Guarantees.

(** ** The table of users *)
Definition user_crc : Z -> Z -> list Z -> Z -> res Z := @taosResolveCRC manual_sse42 false false false.
Definition user_version : list Z := [1; 6; 0; 0; 0; 0; 0; 0].

Definition open_users (main dot : option (list Z)) : res (option (SSdbTable SdbHashStr.SHashObj SUserObj)) :=
  sdbOpenTable (I := SdbHashStr.SHashObj) user_crc 0 user_version main dot 0 1 3 (Z.of_nat SIZEOF_SUserObj) SDB_KEYTYPE_STRING.

#[export] Instance user_checksum : Checksum user_crc 0 := @resolved_checksum manual_sse42 manual_sse42_laws false false false 0.

Definition users_reach := reachable (n := Z.of_nat SIZEOF_SUserObj) (crc32c := user_crc) (cheap := 0)
  3 SDB_KEYTYPE_STRING user_version.
Definition user_result := op_result (n := Z.of_nat SIZEOF_SUserObj) (I := SdbHashStr.SHashObj) (K := list Z) (obj := SUserObj).

#[local] Opaque sdbOpenTable run_op.

(** Two users, one of whom gets a password and the other is dropped. *)
Definition bob : list Z := [98; 111; 98].
Definition amy : list Z := [97; 109; 121].
Definition user_named (name rest : list Z) : SUserObj := make_obj SIZEOF_SUserObj (name ++ 0 :: rest).
Definition named_row (name rest : list Z) : list Z := take SUserObj_updateEnd (obj_mem (user_named name rest)).
Definition demo_ops : list (sdb_op SUserObj) :=
  [op_insert (user_named bob []); op_insert (user_named amy []);
   op_update (bob ++ [0]) (user_named bob (replicate 21 0 ++ [7])); op_delete (amy ++ [0])].
Definition demo_rows : gmap (list Z) (list Z) :=
  delete amy (<[bob := named_row bob (replicate 21 0 ++ [7])]>
    (<[amy := named_row amy []]> (<[bob := named_row bob []]> ∅))).

Definition tid_after (l : list (sdb_op SUserObj)) (t : SSdbTable SdbHashStr.SHashObj SUserObj) : Z :=
  match run_ops user_crc 0 l t with Ret t => tid t | _ => 2 ^ 63 end.

Lemma demo_open : exists t0, open_users None None = Ret (Some t0) /\
  forall k, (k <= 4)%nat -> tid_after (take k demo_ops) t0 + 1 < 2 ^ 63.
Proof.
  assert (E : match open_users None None with
    | Ret (Some t0) => forallb (fun k => tid_after (take k demo_ops) t0 + 1 <? 2 ^ 63) (seq 0 5) | _ => false end = true)
    by (vm_compute; reflexivity).
  destruct (open_users None None) as [[t0|]| | |]; try done. exists t0. split; [done|]. intros k Hk.
  rewrite forallb_forall in E. apply Z.ltb_lt, E, in_seq. lia.
Qed.

Lemma users_init : exists ix : SdbHashStr.SHashObj, ix_init 3 = Ret (Some ix).
Proof. by eexists. Qed.

Lemma users_kind : ix_kind (I := SdbHashStr.SHashObj) (K := list Z) SDB_KEYTYPE_STRING.
Proof. reflexivity. Qed.

Lemma users_table l t m : users_reach l t m -> keyType t = SDB_KEYTYPE_STRING /\ maxRows t = 3.
Proof.
  intros Hr. destruct users_init as [ix E].
  destruct (reachable_inv ix 3 SDB_KEYTYPE_STRING user_version E ltac:(lia) users_kind ltac:(done) l t m Hr)
    as (_ & Hm & Hk). done.
Qed.

Lemma demo_result l t m k x c m' t0 : open_users None None = Ret (Some t0) ->
  run_ops user_crc 0 l t0 = Ret t -> l = take k demo_ops -> tid_after (take k demo_ops) t0 + 1 < 2 ^ 63 ->
  users_reach l t m -> (keyType t = SDB_KEYTYPE_STRING -> maxRows t = 3 -> user_result t m x c m') ->
  exists t', run_ops user_crc 0 (l ++ [x]) t0 = Ret t' /\ users_reach (l ++ [x]) t' m' /\
    run_op user_crc 0 x t = Ret (c, t').
Proof.
  intros Ho Hl -> Ht Hr Hres. destruct (users_table _ _ _ Hr) as [Hk Hm].
  unfold tid_after in Ht. rewrite Hl in Ht.
  destruct users_init as [ix E].
  destruct (next_both ix 3 SDB_KEYTYPE_STRING user_version E ltac:(lia) users_kind ltac:(done) _ t m x c m' Hr (Hres Hk Hm) Ht)
    as (t' & Hrun & Hr' & _). exists t'.
  split; [|done]. clear - Hl Hrun. revert t0 Hl. generalize (take k demo_ops) as l.
  induction l as [|y l IH]; intros t0 Hl; cbn [app run_ops] in *.
  - injection Hl as <-. by rewrite Hrun.
  - destruct (run_op user_crc 0 y t0) as [[c1 t1]| | |]; try done. by apply IH.
Qed.

Lemma user_added t m name rest : keyType t <> SDB_KEYTYPE_AUTO ->
  c_string (obj_mem (user_named name rest)) = Ret name -> user_key_ok name -> m !! name = None ->
  Z.of_nat (size m) < maxRows t ->
  user_result t m (op_insert (user_named name rest)) (tid t + 1) (<[name := named_row name rest]> m).
Proof. intros. by apply (res_insert (n := Z.of_nat SIZEOF_SUserObj)). Qed.

Lemma demo_opens_again t0 t : open_users None None = Ret (Some t0) -> run_ops user_crc 0 demo_ops t0 = Ret t ->
  exists t1, open_users (Some (file t)) None = Ret (Some t1) /\ tid t1 + 1 < 2 ^ 63.
Proof.
  assert (E : match open_users None None with
    | Ret (Some t0) => match run_ops user_crc 0 demo_ops t0 with
      | Ret t => match open_users (Some (file t)) None with Ret (Some t1) => tid t1 + 1 <? 2 ^ 63 | _ => false end | _ => false end
    | _ => false end = true) by (vm_compute; reflexivity).
  intros E0 E1. rewrite E0, E1 in E. destruct (open_users (Some (file t)) None) as [[t1|]| | |]; try done. exists t1. split; [done|]. by apply Z.ltb_lt.
Qed.

(** The life of the two users, and the table [t1] after a restart. *)
Lemma demo_history : exists t t1, users_reach demo_ops t demo_rows /\ tid t + 1 < 2 ^ 63 /\ users_reach demo_ops t1 demo_rows /\ tid t1 + 1 < 2 ^ 63.
Proof.
  destruct demo_open as (t0 & Ho & Ht).
  assert (R0 : users_reach [] t0 ∅).
  { apply (reach_new _ _ _ 0 1); [done|done|repeat constructor; done|exact Ho]. }
  destruct (demo_result [] t0 ∅ 0 (op_insert (user_named bob [])) (tid t0 + 1) (<[bob := named_row bob []]> ∅) t0 Ho
    eq_refl eq_refl (Ht 0%nat ltac:(lia)) R0) as (t1 & E1 & R1 & _).
  { intros Hk Hm. apply user_added; [by rewrite Hk|reflexivity|apply Nat.leb_le; reflexivity|reflexivity|by rewrite Hm]. }
  destruct (demo_result _ t1 _ 1 (op_insert (user_named amy [])) (tid t1 + 1)
    (<[amy := named_row amy []]> (<[bob := named_row bob []]> ∅)) t0 Ho E1 eq_refl (Ht 1%nat ltac:(lia)) R1)
    as (t2 & E2 & R2 & _).
  { intros Hk Hm. apply user_added; [by rewrite Hk|reflexivity|apply Nat.leb_le; reflexivity|reflexivity|by rewrite Hm]. }
  destruct (demo_result _ t2 _ 2 (op_update (bob ++ [0]) (user_named bob (replicate 21 0 ++ [7]))) 0
    (<[bob := named_row bob (replicate 21 0 ++ [7])]> (<[amy := named_row amy []]> (<[bob := named_row bob []]> ∅))) t0 Ho E2
    eq_refl (Ht 2%nat ltac:(lia)) R2) as (t3 & E3 & R3 & _).
  { intros _ _. eapply (res_update (n := Z.of_nat SIZEOF_SUserObj)); reflexivity. }
  destruct (demo_result _ t3 _ 3 (op_delete (amy ++ [0])) 0 demo_rows t0 Ho E3 eq_refl (Ht 3%nat ltac:(lia)) R3)
    as (t4 & E4 & R4 & _).
  { intros _ _. eapply (res_delete (n := Z.of_nat SIZEOF_SUserObj)); reflexivity. }
  destruct (demo_opens_again t0 t4 Ho E4) as (t5 & Ho5 & Ht5). exists t4, t5. split; [exact R4|]. split.
  2:{ split; [|exact Ht5]. exact (reach_restart _ _ _ demo_ops t4 demo_rows user_version (Some (file t4)) None 0 1 t5 R4 eq_refl eq_refl Ho5). }
  pose proof (Ht 4%nat ltac:(lia)) as T. unfold tid_after in T.
  change (take 4 demo_ops) with demo_ops in T. cbn [app] in E4. unfold demo_ops in T. by rewrite E4 in T.
Qed.

(** ** The guarantees for these two users *)
Lemma sdb_durable_witness : exists t, users_reach demo_ops t demo_rows /\ holds t demo_rows /\
  exists t', open_users (Some (file t)) None = Ret (Some t') /\ holds t' demo_rows.
Proof.
  destruct demo_history as (t & _ & Hr & _). destruct users_init as [ix E]. exists t. split; [exact Hr|].
  destruct (sdb_durable ix 3 SDB_KEYTYPE_STRING user_version E ltac:(lia) users_kind ltac:(done) demo_ops t demo_rows Hr)
    as [Hh Ho]. split; [exact Hh|].
  destruct (Ho user_version (Some (file t)) None 0 1 eq_refl ltac:(lia)) as (t' & Ho' & _ & Hh'). exists t'. split; [exact Ho'|exact Hh'].
Defined.

(** After a restart the program stops after ten bytes of the record that drops the first user. *)
Lemma sdb_crash_atomic_witness : exists t t', users_reach demo_ops t demo_rows /\
  run_op user_crc 0 (op_delete (bob ++ [0])) t = Ret (0, t') /\
  exists t'', open_users (Some (take (length (file t) + 10) (file t'))) None = Ret (Some t'') /\
    (holds t'' demo_rows \/ holds t'' (delete bob demo_rows)).
Proof.
  destruct demo_history as (_ & t & _ & _ & Hr & Ht). destruct users_init as [ix E].
  assert (Hres : user_result t demo_rows (op_delete (bob ++ [0])) 0 (delete bob demo_rows))
    by (eapply (res_delete (n := Z.of_nat SIZEOF_SUserObj)); reflexivity).
  destruct (next_both ix 3 SDB_KEYTYPE_STRING user_version E ltac:(lia) users_kind ltac:(done) _ t _ _ _ _ Hr Hres Ht)
    as (t' & Hrun & _). exists t, t'. split; [exact Hr|]. split; [exact Hrun|].
  refine (sdb_crash_atomic ix 3 SDB_KEYTYPE_STRING user_version E ltac:(lia) users_kind ltac:(done) demo_ops t
    demo_rows _ _ _ t' _ None 0 1 Hr Hres Ht Hrun _ ltac:(lia)).
  apply crash_append; [discriminate|apply Nat.le_add_r].
Defined.

Lemma sdb_operations_witness : exists t t', users_reach demo_ops t demo_rows /\
  run_op user_crc 0 (op_delete (bob ++ [0])) t = Ret (0, t') /\ holds t' (delete bob demo_rows).
Proof.
  destruct demo_history as (_ & t & _ & _ & Hr & Ht). destruct users_init as [ix E].
  assert (Hres : user_result t demo_rows (op_delete (bob ++ [0])) 0 (delete bob demo_rows))
    by (eapply (res_delete (n := Z.of_nat SIZEOF_SUserObj)); reflexivity).
  destruct (sdb_operations ix 3 SDB_KEYTYPE_STRING user_version E ltac:(lia) users_kind ltac:(done) demo_ops t
    demo_rows _ _ _ Hr Hres Ht) as (t' & Hrun & _ & Hh).
  exists t, t'. split; [exact Hr|]. split; [exact Hrun|exact Hh].
Defined.

(** Bob's object is destroyed. *)
Lemma sdb_closed_witness : exists t os, users_reach demo_ops t demo_rows /\ sdbCloseTable t = Ret os /\
  forall a, sdbGetRow t (bob ++ [0]) = Ret a -> os !! a = None.
Proof.
  destruct demo_history as (t & _ & Hr & _). destruct users_init as [ix E].
  destruct (sdb_closed ix 3 SDB_KEYTYPE_STRING user_version E ltac:(lia) users_kind ltac:(done) demo_ops t demo_rows Hr)
    as (os & Hc & Hgone & _). exists t, os. split; [exact Hr|]. split; [exact Hc|].
  intros a. apply (Hgone bob); [|reflexivity].
  exists (named_row bob (replicate 21 0 ++ [7])). vm_compute. reflexivity.
Defined.

(** ** Automatic numbers *)
#[local] Transparent sdbOpenTable run_op.

#[local] Instance vg_pool : PoolMemory := { pool_base := 4096; pool_base_pos := eq_refl; pool_junk := 0 }.

Definition vg_named (name : list Z) : SVgObj := make_obj SIZEOF_SVgObj (replicate 4 0 ++ name).
Definition vg_row (vgId : Z) (name : list Z) : list Z :=
  take SVgObj_updateEnd (obj_bytes SIZEOF_SVgObj (le_bytes 4 vgId ++ name)).

(** Open the table of vnode groups, use it. *)
Definition vg_session (main : option (list Z)) (l : list (sdb_op SVgObj))
    : res (SSdbTable SdbHashInt.SHashObj SVgObj) :=
  let! t := sdbOpenTable user_crc 0 user_version main None 0 1 4 (Z.of_nat SIZEOF_SVgObj) SDB_KEYTYPE_AUTO in
  match t with None => Undef | Some t => run_ops user_crc 0 l t end.

Definition vg_key (vgId : Z) : list Z := le_bytes 8 vgId.

(** Groups 1, 2 and 3 are created and group 2 is dropped; the next start writes
    a snapshot, the one after that reads it. *)
Definition vg_restarted : res (SSdbTable SdbHashInt.SHashObj SVgObj) :=
  let! t := vg_session None [op_insert (vg_named [97]); op_insert (vg_named [98]); op_insert (vg_named [99]);
    op_delete (vg_key 2)] in
  let! t := vg_session (Some (file t)) [] in
  vg_session (Some (file t)) [].

(** The counter of automatic keys is rebuilt as the number of new rows met
    while loading, not as the largest key: once a snapshot has dropped deleted
    rows the next number is one that is in use, the new row hides the old one,
    and the next start has overwritten it. *)
Theorem auto_key_reused :
  (let! t := vg_restarted in
   let! old := lookup_row t (vg_key 3) in
   let! '(_, t') := run_op user_crc 0 (op_insert (vg_named [100])) t in
   let! new := lookup_row t' (vg_key 3) in
   let! t'' := vg_session (Some (file t')) [] in
   let! kept := lookup_row t'' (vg_key 3) in
   Ret ((old, numOfRows t), (new, numOfRows t'), (kept, numOfRows t''))) =
  Ret ((Some (vg_row 3 [99]), 2), (Some (vg_row 3 [100]), 3), (Some (vg_row 3 [100]), 2)).
Proof. vm_compute. reflexivity. Qed.
