(* ===== verification/EdbTypes.v ===== *)
(** * The embedded database: types and constants (edb/inc/db.h, db.c)

    Column, storage and compression types, the log header, the index record
    and its byte layout. *)
From S2P Require Import Prelude.

Inductive COL_TYPE : Type :=
| COL_TYPE_BOOL
| COL_TYPE_TING_INT
| COL_TYPE_SMALL_INT
| COL_TYPE_INT
| COL_TYPE_BIG_INT
| COL_TYPE_FLOAT
| COL_TYPE_DOUBLE
| COL_TYPE_STRING
| COL_TYPE_TIMESTAMP
| COL_TYPE_MAX_TYPES.

Inductive STORE_TYPE : Type := STORE_BY_ROW | STORE_BY_COL.

Inductive COMPRESS_TYPE : Type :=
| COMPRESS_NONE
| COMPRESS_ZLIB
| COMPRESS_TAOS_ONE_STEP
| COMPRESS_TAOS_TWO_STEP
| COMPRESS_ZSTD.

Inductive BLOCK_TYPE : Type :=
| BLOCK_NONE
| BLOCK_LEFT
| BLOCK_RIGHT
| BLOCK_EQUAL
| BLOCK_LEFT_CROSS
| BLOCK_CONTAINED
| BLOCK_CONTAINING
| BLOCK_RIGHT_CROSS.

Inductive ORDER_TYPE : Type := ORDER_ASC | ORDER_DESC.

#[export] Instance COL_TYPE_eq_dec : EqDecision COL_TYPE.
Proof. solve_decision. Defined.
#[export] Instance STORE_TYPE_eq_dec : EqDecision STORE_TYPE.
Proof. solve_decision. Defined.
#[export] Instance COMPRESS_TYPE_eq_dec : EqDecision COMPRESS_TYPE.
Proof. solve_decision. Defined.
#[export] Instance BLOCK_TYPE_eq_dec : EqDecision BLOCK_TYPE.
Proof. solve_decision. Defined.
#[export] Instance ORDER_TYPE_eq_dec : EqDecision ORDER_TYPE.
Proof. solve_decision. Defined.

(** The enumerators as the integers C compares and adds. *)
Definition block_type_val (t : BLOCK_TYPE) : Z :=
  match t with
  | BLOCK_NONE => 0 | BLOCK_LEFT => 1 | BLOCK_RIGHT => 2 | BLOCK_EQUAL => 3
  | BLOCK_LEFT_CROSS => 4 | BLOCK_CONTAINED => 5 | BLOCK_CONTAINING => 6 | BLOCK_RIGHT_CROSS => 7
  end.

Definition order_val (o : ORDER_TYPE) : Z :=
  match o with ORDER_ASC => 1 | ORDER_DESC => -1 end.

Definition col_type_val (t : COL_TYPE) : Z :=
  match t with
  | COL_TYPE_BOOL => 0 | COL_TYPE_TING_INT => 1 | COL_TYPE_SMALL_INT => 2 | COL_TYPE_INT => 3
  | COL_TYPE_BIG_INT => 4 | COL_TYPE_FLOAT => 5 | COL_TYPE_DOUBLE => 6 | COL_TYPE_STRING => 7
  | COL_TYPE_TIMESTAMP => 8 | COL_TYPE_MAX_TYPES => 9
  end.

Definition MAX_COL_COUNT : Z := 32.
Definition gMillisecondOfHour : Z := 60 * 60 * 1000.

Definition gColTypeSize (t : COL_TYPE) : Z :=
  match t with
  | COL_TYPE_BOOL => 1 | COL_TYPE_TING_INT => 1 | COL_TYPE_SMALL_INT => 2 | COL_TYPE_INT => 4
  | COL_TYPE_BIG_INT => 8 | COL_TYPE_FLOAT => 4 | COL_TYPE_DOUBLE => 8 | COL_TYPE_STRING => 32
  | COL_TYPE_TIMESTAMP => 8 | COL_TYPE_MAX_TYPES => 0
  end.

(** The header of log.data.  [colType] holds [colCount] entries: the declared
    element and the ones that follow the struct in the mapping. *)
Record LOG_HEAD := {
  storeType : STORE_TYPE;
  compressType : COMPRESS_TYPE;
  hoursPerFile : Z;
  maxColSize : Z;
  curRowCount : Z;
  cacheSize : Z;
  rowSize : Z;
  dataPos : Z;
  startTimestamp : Z;
  endTimestamp : Z;
  colCount : Z;
  colType : list COL_TYPE }.

(** [sizeof(LOG_HEAD)], [sizeof(COL_TYPE)], [sizeof(INDEX)], [sizeof(TSCKSUM)]
    with the natural alignment of the members. *)
Definition SIZEOF_LOG_HEAD : Z := 80.
Definition SIZEOF_COL_TYPE : Z := 4.
Definition SIZEOF_INDEX : Z := 40.
Definition SIZEOF_TSCKSUM : Z := 4.

(** One block's index record. *)
Record INDEX := {
  ix_rowCount : Z;
  ix_startTimestamp : Z;
  ix_endTimestamp : Z;
  ix_dataOffset : Z;
  ix_dataLength : Z;
  ix_colLens : list Z }.

(** Its bytes, as [calloc] and the assignments leave them: padding and
    [reserved] are zero. *)
Definition index_bytes (x : INDEX) : list Z :=
  le_bytes 4 (ix_rowCount x) ++ [0; 0; 0; 0] ++ le_bytes 8 (ix_startTimestamp x) ++
  le_bytes 8 (ix_endTimestamp x) ++ le_bytes 4 (ix_dataOffset x) ++ le_bytes 4 (ix_dataLength x) ++
  replicate 8 0 ++ pack_elems 4 (ix_colLens x).

(** The record in a buffer of [SIZEOF_INDEX + 4 * colCount] bytes. *)
Definition index_of_bytes (bs : list Z) (cols : nat) : INDEX := {|
  ix_rowCount := wraps 32 (le_val (take 4 bs));
  ix_startTimestamp := wraps 64 (le_val (take 8 (drop 8 bs)));
  ix_endTimestamp := wraps 64 (le_val (take 8 (drop 16 bs)));
  ix_dataOffset := wraps 32 (le_val (take 4 (drop 24 bs)));
  ix_dataLength := wraps 32 (le_val (take 4 (drop 28 bs)));
  ix_colLens := map (fun i => wraps 32 (le_val (take 4 (drop (40 + 4 * i) bs)))) (seq 0 cols) |}.

Definition index_ok (x : INDEX) : Prop :=
  in_s 32 (ix_rowCount x) /\ in_s 64 (ix_startTimestamp x) /\ in_s 64 (ix_endTimestamp x) /\
  in_s 32 (ix_dataOffset x) /\ in_s 32 (ix_dataLength x) /\ Forall (in_s 32) (ix_colLens x).

Lemma length_index_bytes x :
  length (index_bytes x) = (40 + 4 * length (ix_colLens x))%nat.
Proof.
  unfold index_bytes. rewrite !length_app, !length_le_bytes, length_pack_elems. cbn [length replicate].
  lia.
Qed.

(** A field written little-endian is read back. *)
Lemma field_back (w : nat) a v c : (0 < w)%nat -> in_s (8 * Z.of_nat w) v ->
  wraps (8 * Z.of_nat w) (le_val (take w (drop (length a) (a ++ le_bytes w v ++ c)))) = v.
Proof.
  intros Hw Hv. rewrite drop_app_length. rewrite <- (length_le_bytes w v) at 2.
  rewrite take_app_length, le_val_bytes. change (_ mod _) with (wrapu (8 * Z.of_nat w) v).
  rewrite wraps_wrapu by lia. apply wraps_id; [lia|done].
Qed.

(** Entry [i] of the array that ends the record. *)
Lemma col_field hd cl rest i v : length hd = 40%nat -> cl !! i = Some v -> in_s 32 v ->
  wraps 32 (le_val (take 4 (drop (40 + 4 * i) (hd ++ pack_elems 4 cl ++ rest)))) = v.
Proof.
  intros Hhd Hv Hr. pose proof (lookup_lt_Some _ _ _ Hv) as Hi.
  assert (Hlen : length (hd ++ pack_elems 4 (take i cl)) = (40 + 4 * i)%nat)
    by (rewrite length_app, length_pack_elems, length_take; lia).
  assert (Hbuf : hd ++ pack_elems 4 cl ++ rest = (hd ++ pack_elems 4 (take i cl)) ++ le_bytes 4 v ++
    pack_elems 4 (drop (S i) cl) ++ rest).
  { rewrite <- (take_drop_middle cl i v Hv) at 1. rewrite pack_elems_app, pack_elems_cons.
    by rewrite <- !app_assoc. }
  rewrite Hbuf, <- Hlen. apply (field_back 4); [lia|exact Hr].
Qed.

Lemma index_back x rest : index_ok x ->
  index_of_bytes (index_bytes x ++ rest) (length (ix_colLens x)) = x.
Proof.
  intros (H1 & H2 & H3 & H4 & H5 & H6). destruct x as [rc st en off len cl].
  cbn [ix_rowCount ix_startTimestamp ix_endTimestamp ix_dataOffset ix_dataLength ix_colLens] in *.
  unfold index_of_bytes, index_bytes. cbn [ix_rowCount ix_startTimestamp ix_endTimestamp
    ix_dataOffset ix_dataLength ix_colLens]. repeat rewrite <- app_assoc. f_equal.
  - exact (field_back 4 [] rc _ ltac:(lia) H1).
  - exact (field_back 8 (le_bytes 4 rc ++ [0; 0; 0; 0]) st _ ltac:(lia) H2).
  - exact (field_back 8 (le_bytes 4 rc ++ [0; 0; 0; 0] ++ le_bytes 8 st) en _ ltac:(lia) H3).
  - exact (field_back 4 (le_bytes 4 rc ++ [0; 0; 0; 0] ++ le_bytes 8 st ++ le_bytes 8 en) off _
      ltac:(lia) H4).
  - exact (field_back 4 (le_bytes 4 rc ++ [0; 0; 0; 0] ++ le_bytes 8 st ++ le_bytes 8 en ++
      le_bytes 4 off) len _ ltac:(lia) H5).
  - apply list_eq. intros i. rewrite list_lookup_fmap.
    destruct (decide (i < length cl)%nat) as [Hi|Hi].
    + rewrite lookup_seq_lt by done. destruct (lookup_lt_is_Some_2 cl i Hi) as [v Hv].
      rewrite Hv. apply (f_equal Some).
      pose proof (col_field (le_bytes 4 rc ++ [0; 0; 0; 0] ++ le_bytes 8 st ++ le_bytes 8 en ++
        le_bytes 4 off ++ le_bytes 4 len ++ replicate 8 0) cl rest i v eq_refl Hv) as Hf.
      repeat rewrite <- app_assoc in Hf. apply Hf.
      rewrite Forall_forall in H6. apply H6. by eapply list_elem_of_lookup_2.
    + rewrite (lookup_ge_None_2 (seq _ _)) by (rewrite length_seq; lia).
      by rewrite (lookup_ge_None_2 cl) by lia.
Qed.
