(* ===== verification/EdbStore.v ===== *)
(** * The embedded database: writing (edb/src/db.c, compress.c)

    The row cache in the log mapping, the block files, and the operations
    that create a database, add a row and save the cache as a block. *)
From S2P Require Import Prelude CompBase Tscompression Crc32c EdbTypes.

From S2P Require Import CompBool CompXor CompTime CompInt.

(** [signature]: the handle is not NULL and carries its own address.
    [logData]: the mapped bytes from [pLogData] on.  A descriptor is [None]
    for 0, or the number in the name of the file it has open; [indexFiles] and
    [recordFiles] are the files [index<n>.data] and [record<n>.data]. *)
Record DB := {
  signature : bool;
  logHead : LOG_HEAD;
  logData : list Z;
  recordFd : option Z;
  indexFd : option Z;
  curFileIndex : Z;
  gErrorCode : Z;
  indexFiles : gmap Z (list Z);
  recordFiles : gmap Z (list Z) }.

(** Assignments to one member. *)
Definition set_gErrorCode (e : Z) (d : DB) : DB :=
  {| signature := signature d; logHead := logHead d; logData := logData d; recordFd := recordFd d;
     indexFd := indexFd d; curFileIndex := curFileIndex d; gErrorCode := e;
     indexFiles := indexFiles d; recordFiles := recordFiles d |}.
Definition set_logHead (h : LOG_HEAD) (d : DB) : DB :=
  {| signature := signature d; logHead := h; logData := logData d; recordFd := recordFd d;
     indexFd := indexFd d; curFileIndex := curFileIndex d; gErrorCode := gErrorCode d;
     indexFiles := indexFiles d; recordFiles := recordFiles d |}.
Definition set_logData (l : list Z) (d : DB) : DB :=
  {| signature := signature d; logHead := logHead d; logData := l; recordFd := recordFd d;
     indexFd := indexFd d; curFileIndex := curFileIndex d; gErrorCode := gErrorCode d;
     indexFiles := indexFiles d; recordFiles := recordFiles d |}.
Definition set_recordFiles (f : gmap Z (list Z)) (d : DB) : DB :=
  {| signature := signature d; logHead := logHead d; logData := logData d; recordFd := recordFd d;
     indexFd := indexFd d; curFileIndex := curFileIndex d; gErrorCode := gErrorCode d;
     indexFiles := indexFiles d; recordFiles := f |}.
Definition set_indexFiles (f : gmap Z (list Z)) (d : DB) : DB :=
  {| signature := signature d; logHead := logHead d; logData := logData d; recordFd := recordFd d;
     indexFd := indexFd d; curFileIndex := curFileIndex d; gErrorCode := gErrorCode d;
     indexFiles := f; recordFiles := recordFiles d |}.

(** The row counter and the two timestamps of the header. *)
Definition set_rows (rows st en : Z) (h : LOG_HEAD) : LOG_HEAD :=
  {| storeType := storeType h; compressType := compressType h; hoursPerFile := hoursPerFile h;
     maxColSize := maxColSize h; curRowCount := rows; cacheSize := cacheSize h;
     rowSize := rowSize h; dataPos := dataPos h; startTimestamp := st; endTimestamp := en;
     colCount := colCount h; colType := colType h |}.

(** The file a descriptor has open; descriptor 0 is not a block file. *)
Definition file_of (fd : option Z) (files : gmap Z (list Z)) : res (list Z) :=
  match fd with
  | Some k => match files !! k with Some f => Ret f | None => Undef end
  | None => Undef
  end.

(** [write(pDb->recordFd, bs, length bs)] with the offset at the end. *)
Definition write_record (bs : list Z) (d : DB) : res DB :=
  match recordFd d with
  | Some k =>
      let! f := file_of (recordFd d) (recordFiles d) in
      Ret (set_recordFiles (<[k := f ++ bs]> (recordFiles d)) d)
  | None => Undef
  end.

Definition write_index (bs : list Z) (d : DB) : res DB :=
  match indexFd d with
  | Some k =>
      let! f := file_of (indexFd d) (indexFiles d) in
      Ret (set_indexFiles (<[k := f ++ bs]> (indexFiles d)) d)
  | None => Undef
  end.

(** [open(path, O_RDWR | O_CREAT)] of both files of [k]. *)
Definition open_files (k : Z) (d : DB) : DB :=
  {| signature := signature d; logHead := logHead d; logData := logData d; recordFd := Some k;
     indexFd := Some k; curFileIndex := k; gErrorCode := gErrorCode d;
     indexFiles := <[k := default [] (indexFiles d !! k)]> (indexFiles d);
     recordFiles := <[k := default [] (recordFiles d !! k)]> (recordFiles d) |}.

Definition col_type_at (h : LOG_HEAD) (i : Z) : res COL_TYPE :=
  match colType h !! Z.to_nat i with Some t => Ret t | None => Undef end.

(** ** create_db *)
Definition row_sizes (cols : list COL_TYPE) : Z * Z :=
  fold_left (fun '(maxColSize, rowSize) t =>
    let colSize := gColTypeSize t in
    (if maxColSize <? colSize then u8 colSize else maxColSize, u16 (rowSize + colSize)))
    cols (8, 8).

(** The header written to log.data and the size allocated for it, or the
    negative result.  [exists_] says whether log.data is there already;
    the calls to the file system are taken to succeed. *)
Definition create_db (rootLen nameLen : Z) (exists_ : bool) (colCount : Z) (colType : list COL_TYPE)
    (cacheSize : Z) (storeType : STORE_TYPE) (compressType : COMPRESS_TYPE) (hoursPerFile : Z)
    : res (Z * option (LOG_HEAD * Z)) :=
  if 100 <? rootLen + nameLen then Ret (-1, None)
  else if MAX_COL_COUNT <? colCount + 1 then Ret (-2, None)
  else if exists_ then Ret (-3, None)
  else if Z.of_nat (length colType) <? colCount then Undef
  else
    let cols := take (Z.to_nat colCount) colType in
    let '(maxColSize, rowSize) := row_sizes cols in
    let dataPos := u16 (SIZEOF_LOG_HEAD + colCount * SIZEOF_COL_TYPE) in
    let mappingSize := SIZEOF_LOG_HEAD + rowSize * cacheSize in
    let head := {|
      EdbTypes.storeType :=
        match compressType with
        | COMPRESS_TAOS_ONE_STEP | COMPRESS_TAOS_TWO_STEP => STORE_BY_COL
        | _ => storeType
        end;
      EdbTypes.compressType := compressType;
      EdbTypes.hoursPerFile := hoursPerFile;
      EdbTypes.maxColSize := maxColSize;
      curRowCount := 0;
      EdbTypes.cacheSize := cacheSize;
      EdbTypes.rowSize := rowSize;
      EdbTypes.dataPos := dataPos;
      startTimestamp := 0;
      endTimestamp := 0;
      EdbTypes.colCount := u8 (colCount + 1);
      EdbTypes.colType := COL_TYPE_TIMESTAMP :: cols |} in
    Ret (0, Some (head, mappingSize)).

(** [open_db]: [file] is log.data from [dataPos] on, [st_size] its full size.
    The mapping covers whole pages; past the end of the file it reads zero. *)
Definition open_db (page : Z) (head : LOG_HEAD) (file : list Z) (st_size : Z)
    (indexFiles recordFiles : gmap Z (list Z)) : DB :=
  let mapped := (st_size + page - 1) / page * page - dataPos head in
  {| signature := true; logHead := head;
     logData := take (Z.to_nat mapped) (file ++ replicate (Z.to_nat mapped) 0);
     recordFd := None; indexFd := None; curFileIndex := 0; gErrorCode := 0;
     EdbStore.indexFiles := indexFiles; EdbStore.recordFiles := recordFiles |}.

(** ** Saving the cache as a block *)
Section Save.
Context `{LZ4} `{DataModel}.
(** The checksum pointer and the allocator: [malloc n] is the content of a new
    block of [n] bytes, or [None]; [heap] is the address a buffer is given. *)
Context (crc32c : Z -> Z -> list Z -> Z -> res Z).
Context (malloc : Z -> option (list Z)) (heap : Z).

(** [gTaosCompFunc\[type\]] and [gTaosDecompFunc\[type\]]. *)
Definition gTaosCompFunc (type : COL_TYPE)
    : list Z -> Z -> Z -> Z -> Z -> Z -> res (list Z) :=
  match type with
  | COL_TYPE_BOOL => tsCompressBool
  | COL_TYPE_TING_INT => tsCompressTinyint
  | COL_TYPE_SMALL_INT => tsCompressSmallint
  | COL_TYPE_INT => tsCompressInt
  | COL_TYPE_BIG_INT => tsCompressBigint
  | COL_TYPE_FLOAT => tsCompressFloat
  | COL_TYPE_DOUBLE => tsCompressDouble
  | COL_TYPE_STRING => tsCompressString
  | COL_TYPE_TIMESTAMP => tsCompressTimestamp
  | COL_TYPE_MAX_TYPES => tsCompressString
  end.

Definition gTaosDecompFunc (type : COL_TYPE)
    : list Z -> Z -> Z -> Z -> Z -> Z -> res (list Z) :=
  match type with
  | COL_TYPE_BOOL => tsDecompressBool
  | COL_TYPE_TING_INT => tsDecompressTinyint
  | COL_TYPE_SMALL_INT => tsDecompressSmallint
  | COL_TYPE_INT => tsDecompressInt
  | COL_TYPE_BIG_INT => tsDecompressBigint
  | COL_TYPE_FLOAT => tsDecompressFloat
  | COL_TYPE_DOUBLE => tsDecompressDouble
  | COL_TYPE_STRING => tsDecompressString
  | COL_TYPE_TIMESTAMP => tsDecompressTimestamp
  | COL_TYPE_MAX_TYPES => tsDecompressString
  end.

(** [taosCalcChecksumAppend(0, pOutput, size); write(pDb->recordFd, pOutput, size);]:
    the buffer and the database afterwards. *)
Definition seal_and_write (pOutput : list Z) (size : Z) (d : DB) : res (list Z * DB) :=
  let! sealed := taosCalcChecksumAppend crc32c heap 0 pOutput size in
  let pOutput := default pOutput sealed in
  let! bs := rd pOutput 0 size in
  let! d := write_record bs d in
  Ret (pOutput, d).

(** The loop of [compressNone] over the columns; [n] is [colCount - i] and
    [pInput] an offset into [logData].  The result is the total size, the
    [colLens] and the database. *)
Fixpoint none_loop (n : nat) (i inputCount pInput totalSize : Z) (colLens : list Z)
    (pOutput : list Z) (d : DB) : res (Z * list Z * DB) :=
  match n with
  | O => Ret (totalSize, colLens, d)
  | S n' =>
      let! type := col_type_at (logHead d) i in
      let colSize := gColTypeSize type in
      let size := colSize * inputCount in
      let! src := rd (logData d) pInput size in
      let! pOutput := wr pOutput 0 src in
      let size := size + SIZEOF_TSCKSUM in
      let! s := seal_and_write pOutput size d in
      let '(pOutput, d) := s in
      none_loop n' (i + 1) inputCount (pInput + colSize * cacheSize (logHead d))
        (totalSize + size) (colLens ++ [size]) pOutput d
  end.

Definition compressNone (d : DB) : res (Z * list Z * DB) :=
  if negb (signature d) then Ret (-1, [], set_gErrorCode 3 d) else
  let inputCount := curRowCount (logHead d) in
  let outSize := maxColSize (logHead d) * inputCount + SIZEOF_TSCKSUM in
  match malloc outSize with
  | None => Ret (-2, [], d)
  | Some pOutput =>
      none_loop (Z.to_nat (colCount (logHead d))) 0 inputCount 0 0 [] pOutput d
  end.

(** The loop of [compressTaosOneStep]. *)
Fixpoint onestep_loop (n : nat) (i inputCount outSize pInput totalSize : Z) (colLens : list Z)
    (pOutput : list Z) (d : DB) : res (Z * list Z * DB) :=
  match n with
  | O => Ret (totalSize, colLens, d)
  | S n' =>
      let! type := col_type_at (logHead d) i in
      let colSize := gColTypeSize type in
      let! out := gTaosCompFunc type (drop (Z.to_nat pInput) (logData d)) (colSize * inputCount)
                    inputCount outSize ONE_STAGE_COMP 0 in
      let! pOutput := wr pOutput 0 out in
      let size := Z.of_nat (length out) in
      let size := size + (4 - Z.rem size 4) in
      let size := size + SIZEOF_TSCKSUM in
      let! s := seal_and_write pOutput size d in
      let '(pOutput, d) := s in
      onestep_loop n' (i + 1) inputCount outSize (pInput + colSize * cacheSize (logHead d))
        (totalSize + size) (colLens ++ [size]) pOutput d
  end.

Definition compressTaosOneStep (d : DB) : res (Z * list Z * DB) :=
  if negb (signature d) then Ret (-1, [], d) else
  let inputCount := curRowCount (logHead d) in
  let outSize := maxColSize (logHead d) * inputCount + SIZEOF_TSCKSUM in
  match malloc outSize with
  | None => Ret (-2, [], d)
  | Some pOutput =>
      onestep_loop (Z.to_nat (colCount (logHead d))) 0 inputCount outSize 0 0 [] pOutput d
  end.

Definition compressTaosTwoStep (d : DB) : res (Z * list Z * DB) :=
  if negb (signature d) then Ret (-1, [], set_gErrorCode 3 d) else Ret (0, [], d).

(** The zlib-backed compressors are left open. *)
Context (compressZlib compressZstd : DB -> res (Z * list Z * DB)).

Definition gCompress (t : COMPRESS_TYPE) : DB -> res (Z * list Z * DB) :=
  match t with
  | COMPRESS_NONE => compressNone
  | COMPRESS_ZLIB => compressZlib
  | COMPRESS_TAOS_ONE_STEP => compressTaosOneStep
  | COMPRESS_TAOS_TWO_STEP => compressTaosTwoStep
  | COMPRESS_ZSTD => compressZstd
  end.

(** [ts / (hoursPerFile * gMillisecondOfHour)]; division by zero is undefined. *)
Definition file_index (h : LOG_HEAD) (ts : Z) : res Z :=
  let q := hoursPerFile h * gMillisecondOfHour in
  if q =? 0 then Undef else Ret (Z.quot ts q).

Definition saveToFile (d : DB) : res (Z * DB) :=
  let d := set_gErrorCode 0 d in
  if negb (signature d) then Ret (-1, set_gErrorCode 3 d) else
  let! first := rds 8 (logData d) 0 in
  let! cur := file_index (logHead d) first in
  let d := if curFileIndex d =? cur then d else open_files cur d in
  let! f := file_of (recordFd d) (recordFiles d) in
  let dataOffset := i32 (Z.of_nat (length f)) in
  let! c := gCompress (compressType (logHead d)) d in
  let '(len, colLens, d) := c in
  if 0 <? len then
    let h := logHead d in
    let ix := {| ix_rowCount := curRowCount h; ix_startTimestamp := startTimestamp h;
                 ix_endTimestamp := endTimestamp h; ix_dataOffset := dataOffset;
                 ix_dataLength := len; ix_colLens := colLens |} in
    let! d := write_index (index_bytes ix) d in
    Ret (0, set_logHead (set_rows 0 0 0 h) d)
  else Ret (0, d).

(** ** Adding a row *)

(** The column loop of [put_db]; [n] is [colCount - i]. *)
Fixpoint put_cols (n : nat) (i pos pData : Z) (data : list Z) (d : DB) : res DB :=
  match n with
  | O => Ret d
  | S n' =>
      let h := logHead d in
      let! type := col_type_at h i in
      let! prev := col_type_at h (i - 1) in
      let size := gColTypeSize type in
      let pos := pos + gColTypeSize prev * cacheSize h in
      let! bs := rd data pData size in
      let! mem := wr (logData d) (pos + size * curRowCount h) bs in
      put_cols n' (i + 1) pos (pData + size) data (set_logData mem d)
  end.

(** The part of [put_db] that copies the row into the cache. *)
Definition put_row (st : Z) (data : list Z) (d : DB) : res DB :=
  let h := logHead d in
  match storeType h with
  | STORE_BY_ROW =>
      let pos := rowSize h * curRowCount h in
      let! mem := wr (logData d) pos (le_bytes 8 st) in
      let! bs := rd data 0 (rowSize h - 8) in
      let! mem := wr mem (pos + 8) bs in
      Ret (set_logData mem d)
  | STORE_BY_COL =>
      let! mem := wr (logData d) (8 * curRowCount h) (le_bytes 8 st) in
      put_cols (Z.to_nat (colCount h - 1)) 1 0 0 data (set_logData mem d)
  end.

(** [if (pDb->pLogHead->curRowCount > 0) ...]: saving before the row goes in. *)
Definition put_flush (st : Z) (d : DB) : res DB :=
  let h := logHead d in
  if 0 <? curRowCount h then
    if cacheSize h <=? curRowCount h then
      let! s := saveToFile d in Ret s.2
    else
      let! expect := file_index h st in
      let! cur := file_index h (startTimestamp h) in
      if cur =? expect then Ret d else let! s := saveToFile d in Ret s.2
  else Ret d.

(** [put_db] at time [st]; the lock serialises the calls. *)
Definition put_db (st : Z) (pData : list Z) (d : DB) : res (Z * DB) :=
  let d := set_gErrorCode 0 d in
  if negb (signature d) then Ret (-1, set_gErrorCode 3 d) else
  let! d := put_flush st d in
  let! d := put_row st pData d in
  let h := logHead d in
  let start := if curRowCount h =? 0 then st else startTimestamp h in
  let d := set_logHead (set_rows (u16 (curRowCount h + 1)) start st h) d in
  if cacheSize (logHead d) <=? curRowCount (logHead d) then
    let! s := saveToFile d in Ret (0, s.2)
  else Ret (0, d).
End Save.
