(* ===== verification/EdbQuery.v ===== *)
(** * The embedded database: reading (edb/src/query.c, compress.c)

    The cursor over the blocks of a time range: classification of a block
    against the range, the search inside a block, and the walk over blocks,
    files and the cache. *)
From S2P Require Import Prelude CompBase Tscompression Crc32c EdbTypes EdbStore.

Definition get_block_type (dataStart dataEnd targetStart targetEnd : Z) : BLOCK_TYPE :=
  if (dataEnd <? dataStart) || (targetEnd <? targetStart) then BLOCK_NONE
  else if (dataStart =? targetStart) || (dataEnd =? targetEnd) then BLOCK_NONE
  else if dataEnd <? targetStart then BLOCK_LEFT
  else if targetEnd <? dataStart then BLOCK_RIGHT
  else if dataEnd <=? targetEnd then
    if dataStart <? targetStart then BLOCK_LEFT_CROSS else BLOCK_CONTAINED
  else if dataStart <=? targetStart then BLOCK_CONTAINING else BLOCK_RIGHT_CROSS.

(** The loop of [binary_search] on [int64_t data\[\]] at the head of [buf]:
    [inl] is the early return, [inr] the last values of [start] and [end],
    [None] while uninitialised. *)
Fixpoint binary_search_loop (fuel : nat) (buf : list Z) (key low high : Z) (start end_ : option Z)
    : res (Z + option Z * option Z) :=
  match fuel with
  | O => NoFuel
  | S fuel' =>
      if low <=? high then
        let center := Z.quot (low + high) 2 in
        let! v := rds 8 buf center in
        if v =? key then Ret (inl center)
        else if key <? v then binary_search_loop fuel' buf key low (center - 1) (Some center) end_
        else binary_search_loop fuel' buf key (center + 1) high start (Some center)
      else Ret (inr (start, end_))
  end.

Definition binary_search (buf : list Z) (key count isStart : Z) : res Z :=
  let! r := binary_search_loop (S (Z.to_nat count)) buf key 0 (count - 1) None None in
  match r with
  | inl center => Ret center
  | inr (start, end_) =>
      match (if 0 <? isStart then start else end_) with
      | Some i => Ret i
      | None => Undef
      end
  end.

(** The cursor.  A descriptor is [None] for 0, [Some (Some k)] with file
    number [k] open, and [Some None] once closed; [q_indexPos] is the offset
    of [indexFd]. *)
Record QUERY := {
  q_signature : bool;
  q_startTimestamp : Z;
  q_endTimestamp : Z;
  q_order : ORDER_TYPE;
  q_colBitmap : Z;
  q_logChecked : Z;
  q_startFileIndex : Z;
  q_endFileIndex : Z;
  q_curFileIndex : Z;
  q_startBlockIndex : Z;
  q_endBlockIndex : Z;
  q_curBlockIndex : Z;
  q_rowCount : Z;
  q_startDataIndex : Z;
  q_endDataIndex : Z;
  q_curDataIndex : Z;
  q_recordFd : option (option Z);
  q_indexFd : option (option Z);
  q_indexPos : Z;
  q_buf : list Z }.

Definition set_data (st en cur : Z) (q : QUERY) : QUERY :=
  {| q_signature := q_signature q; q_startTimestamp := q_startTimestamp q;
     q_endTimestamp := q_endTimestamp q; q_order := q_order q; q_colBitmap := q_colBitmap q;
     q_logChecked := q_logChecked q; q_startFileIndex := q_startFileIndex q;
     q_endFileIndex := q_endFileIndex q; q_curFileIndex := q_curFileIndex q;
     q_startBlockIndex := q_startBlockIndex q; q_endBlockIndex := q_endBlockIndex q;
     q_curBlockIndex := q_curBlockIndex q; q_rowCount := q_rowCount q;
     q_startDataIndex := st; q_endDataIndex := en; q_curDataIndex := cur;
     q_recordFd := q_recordFd q; q_indexFd := q_indexFd q;
     q_indexPos := q_indexPos q; q_buf := q_buf q |}.

Definition set_blocks (st en cur : Z) (q : QUERY) : QUERY :=
  {| q_signature := q_signature q; q_startTimestamp := q_startTimestamp q;
     q_endTimestamp := q_endTimestamp q; q_order := q_order q; q_colBitmap := q_colBitmap q;
     q_logChecked := q_logChecked q; q_startFileIndex := q_startFileIndex q;
     q_endFileIndex := q_endFileIndex q; q_curFileIndex := q_curFileIndex q;
     q_startBlockIndex := st; q_endBlockIndex := en; q_curBlockIndex := cur;
     q_rowCount := q_rowCount q; q_startDataIndex := q_startDataIndex q;
     q_endDataIndex := q_endDataIndex q; q_curDataIndex := q_curDataIndex q;
     q_recordFd := q_recordFd q; q_indexFd := q_indexFd q;
     q_indexPos := q_indexPos q; q_buf := q_buf q |}.

Definition set_file (cur : Z) (q : QUERY) : QUERY :=
  {| q_signature := q_signature q; q_startTimestamp := q_startTimestamp q;
     q_endTimestamp := q_endTimestamp q; q_order := q_order q; q_colBitmap := q_colBitmap q;
     q_logChecked := q_logChecked q; q_startFileIndex := q_startFileIndex q;
     q_endFileIndex := q_endFileIndex q; q_curFileIndex := cur;
     q_startBlockIndex := q_startBlockIndex q; q_endBlockIndex := q_endBlockIndex q;
     q_curBlockIndex := q_curBlockIndex q; q_rowCount := q_rowCount q;
     q_startDataIndex := q_startDataIndex q; q_endDataIndex := q_endDataIndex q;
     q_curDataIndex := q_curDataIndex q; q_recordFd := q_recordFd q; q_indexFd := q_indexFd q;
     q_indexPos := q_indexPos q;
     q_buf := q_buf q |}.

Definition set_fds (idx rec : option (option Z)) (q : QUERY) : QUERY :=
  {| q_signature := q_signature q; q_startTimestamp := q_startTimestamp q;
     q_endTimestamp := q_endTimestamp q; q_order := q_order q; q_colBitmap := q_colBitmap q;
     q_logChecked := q_logChecked q; q_startFileIndex := q_startFileIndex q;
     q_endFileIndex := q_endFileIndex q; q_curFileIndex := q_curFileIndex q;
     q_startBlockIndex := q_startBlockIndex q; q_endBlockIndex := q_endBlockIndex q;
     q_curBlockIndex := q_curBlockIndex q; q_rowCount := q_rowCount q;
     q_startDataIndex := q_startDataIndex q; q_endDataIndex := q_endDataIndex q;
     q_curDataIndex := q_curDataIndex q; q_recordFd := rec; q_indexFd := idx;
     q_indexPos := 0; q_buf := q_buf q |}.

Definition set_rows_buf (rows : Z) (buf : list Z) (q : QUERY) : QUERY :=
  {| q_signature := q_signature q; q_startTimestamp := q_startTimestamp q;
     q_endTimestamp := q_endTimestamp q; q_order := q_order q; q_colBitmap := q_colBitmap q;
     q_logChecked := q_logChecked q; q_startFileIndex := q_startFileIndex q;
     q_endFileIndex := q_endFileIndex q; q_curFileIndex := q_curFileIndex q;
     q_startBlockIndex := q_startBlockIndex q; q_endBlockIndex := q_endBlockIndex q;
     q_curBlockIndex := q_curBlockIndex q; q_rowCount := rows;
     q_startDataIndex := q_startDataIndex q; q_endDataIndex := q_endDataIndex q;
     q_curDataIndex := q_curDataIndex q; q_recordFd := q_recordFd q; q_indexFd := q_indexFd q;
     q_indexPos := q_indexPos q;
     q_buf := buf |}.

Definition set_logChecked (v : Z) (q : QUERY) : QUERY :=
  {| q_signature := q_signature q; q_startTimestamp := q_startTimestamp q;
     q_endTimestamp := q_endTimestamp q; q_order := q_order q; q_colBitmap := q_colBitmap q;
     q_logChecked := v; q_startFileIndex := q_startFileIndex q;
     q_endFileIndex := q_endFileIndex q; q_curFileIndex := q_curFileIndex q;
     q_startBlockIndex := q_startBlockIndex q; q_endBlockIndex := q_endBlockIndex q;
     q_curBlockIndex := q_curBlockIndex q; q_rowCount := q_rowCount q;
     q_startDataIndex := q_startDataIndex q; q_endDataIndex := q_endDataIndex q;
     q_curDataIndex := q_curDataIndex q; q_recordFd := q_recordFd q; q_indexFd := q_indexFd q;
     q_indexPos := q_indexPos q;
     q_buf := q_buf q |}.

Definition set_indexPos (v : Z) (q : QUERY) : QUERY :=
  {| q_signature := q_signature q; q_startTimestamp := q_startTimestamp q;
     q_endTimestamp := q_endTimestamp q; q_order := q_order q; q_colBitmap := q_colBitmap q;
     q_logChecked := q_logChecked q; q_startFileIndex := q_startFileIndex q;
     q_endFileIndex := q_endFileIndex q; q_curFileIndex := q_curFileIndex q;
     q_startBlockIndex := q_startBlockIndex q; q_endBlockIndex := q_endBlockIndex q;
     q_curBlockIndex := q_curBlockIndex q; q_rowCount := q_rowCount q;
     q_startDataIndex := q_startDataIndex q; q_endDataIndex := q_endDataIndex q;
     q_curDataIndex := q_curDataIndex q; q_recordFd := q_recordFd q; q_indexFd := q_indexFd q;
     q_indexPos := v; q_buf := q_buf q |}.

Definition is_asc (q : QUERY) : bool := bool_decide (q_order q = ORDER_ASC).

Definition set_data_index (type : BLOCK_TYPE) (q : QUERY) : res (Z * QUERY) :=
  if negb (q_signature q) then Ret (-1, q) else
  let n := q_rowCount q in
  let! se :=
    match type with
    | BLOCK_EQUAL | BLOCK_CONTAINED =>
        Ret (if is_asc q then 0 else n - 1, if is_asc q then n - 1 else 0)
    | BLOCK_LEFT_CROSS =>
        let! start := binary_search (q_buf q) (q_startTimestamp q) n 1 in
        Ret (if is_asc q then start else n - 1, if is_asc q then n - 1 else start)
    | BLOCK_RIGHT_CROSS =>
        let! end_ := binary_search (q_buf q) (q_endTimestamp q) n 0 in
        Ret (if is_asc q then 0 else end_, if is_asc q then end_ else 0)
    | BLOCK_CONTAINING =>
        let! start := binary_search (q_buf q) (q_startTimestamp q) n 1 in
        let! end_ := binary_search (q_buf q) (q_endTimestamp q) n 0 in
        Ret (if is_asc q then start else end_, if is_asc q then end_ else start)
    | _ => Ret (q_startDataIndex q, q_endDataIndex q)
    end in
  Ret (0, set_data se.1 se.2 se.1 q).

(** ** Unpacking a block *)
Section Read.
Context `{LZ4} `{DataModel}.
Context (crc32c : Z -> Z -> list Z -> Z -> res Z).
Context (malloc : Z -> option (list Z)) (heap : Z).

(** The results of the decompressors are ignored by the caller; what matters
    is the buffer, written at offset [pOutput]. *)
Definition decompressNone (d : DB) (pInput : list Z) (ix : INDEX) (col pOutput : Z)
    (buf : list Z) : res (list Z) :=
  if negb (signature d) then Ret buf else
  let! type := col_type_at (logHead d) col in
  let! src := rd pInput 0 (gColTypeSize type * ix_rowCount ix) in
  wr buf pOutput src.

Definition decompressTaosOneStep (d : DB) (pInput : list Z) (ix : INDEX) (col pOutput outSize : Z)
    (buf : list Z) : res (list Z) :=
  if negb (signature d) then Ret buf else
  let! type := col_type_at (logHead d) col in
  match ix_colLens ix !! Z.to_nat col with
  | None => Undef
  | Some len =>
      let! out := gTaosDecompFunc type pInput (len - SIZEOF_TSCKSUM) (ix_rowCount ix) outSize
                    ONE_STAGE_COMP 0 in
      wr buf pOutput out
  end.

Context (decompressZlib decompressZstd :
  DB -> list Z -> INDEX -> Z -> Z -> Z -> list Z -> res (list Z)).

Definition gDecompress (t : COMPRESS_TYPE) (d : DB) (pInput : list Z) (ix : INDEX)
    (col pOutput outSize : Z) (buf : list Z) : res (list Z) :=
  match t with
  | COMPRESS_NONE => decompressNone d pInput ix col pOutput buf
  | COMPRESS_ZLIB => decompressZlib d pInput ix col pOutput outSize buf
  | COMPRESS_TAOS_ONE_STEP => decompressTaosOneStep d pInput ix col pOutput outSize buf
  | COMPRESS_TAOS_TWO_STEP => Ret buf
  | COMPRESS_ZSTD => decompressZstd d pInput ix col pOutput outSize buf
  end.

(** The column loop of [check_block]: [off] is the offset of [recordFd], [rec]
    the record file.  The result is the return value so far and the buffer. *)
Fixpoint block_cols (n : nat) (d : DB) (q_bitmap : Z) (rec : list Z) (ix : INDEX)
    (i off pOutput : Z) (buf : list Z) : res (Z * list Z) :=
  match n with
  | O => Ret (0, buf)
  | S n' =>
      match ix_colLens ix !! Z.to_nat i with
      | None => Undef
      | Some len =>
          let! type := col_type_at (logHead d) i in
          let outSize := gColTypeSize type * cacheSize (logHead d) in
          if negb (Z.land q_bitmap (i32 (Z.shiftl 1 i)) =? 0) then
            if len <? 0 then Undef
            else if Z.of_nat (length rec) <? off + len then Ret (-2, buf)
            else
              let! pInput := rd rec off len in
              let! ok := taosCheckChecksumWhole crc32c heap pInput len in
              if negb ok then Ret (-3, buf)
              else
                let! buf := gDecompress (compressType (logHead d)) d pInput ix i pOutput outSize buf in
                block_cols n' d q_bitmap rec ix (i + 1) (off + len) (pOutput + outSize) buf
          else block_cols n' d q_bitmap rec ix (i + 1) (off + len) (pOutput + outSize) buf
      end
  end.

(** [lseek(indexFd, block * indexSize, SEEK_SET)], the product in 32 bits: a
    negative offset is an error and leaves the descriptor where it was. *)
Definition seek_index (block cols pos : Z) : Z :=
  let off := i32 (block * (SIZEOF_INDEX + 4 * cols)) in if off <? 0 then pos else off.

(** [calloc], then [read(indexFd, pIndex, indexSize)] at [pos]: a short read
    leaves zeros.  The record and the new offset. *)
Definition read_index (idx : list Z) (cols pos : Z) : INDEX * Z :=
  let indexSize := Z.to_nat (SIZEOF_INDEX + 4 * cols) in
  let bs := take indexSize (drop (Z.to_nat pos) idx) in
  (index_of_bytes (bs ++ replicate (indexSize - length bs) 0) (Z.to_nat cols),
   pos + Z.of_nat (length bs)).

Definition check_block (d : DB) (q : QUERY) : res (Z * QUERY) :=
  if negb (q_signature q) then Ret (-1, q) else
  match q_indexFd q, q_recordFd q with
  | Some indexFd, Some recordFd =>
      let! idx := file_of indexFd (indexFiles d) in
      let! rec := file_of recordFd (recordFiles d) in
      let cols := colCount (logHead d) in
      let '(ix, pos) := read_index idx cols (seek_index (q_curBlockIndex q) cols (q_indexPos q)) in
      let q := set_indexPos pos q in
      let type := get_block_type (ix_startTimestamp ix) (ix_endTimestamp ix)
                    (q_startTimestamp q) (q_endTimestamp q) in
      if block_type_val type <? block_type_val BLOCK_EQUAL then Ret (-1, q) else
      let! r := block_cols (Z.to_nat cols) d (q_colBitmap q) rec ix 0 (ix_dataOffset ix) 0 (q_buf q) in
      let '(code, buf) := r in
      if negb (code =? 0) then Ret (code, set_rows_buf (q_rowCount q) buf q) else
      let! s := set_data_index type (set_rows_buf (ix_rowCount ix) buf q) in
      Ret (0, s.2)
  | _, _ => Ret (-1, q)
  end.

Definition check_log (d : DB) (q : QUERY) : res (Z * QUERY) :=
  if negb (q_signature q) then Ret (-1, q) else
  let q := set_logChecked 1 q in
  let h := logHead d in
  let type := get_block_type (startTimestamp h) (endTimestamp h) (q_startTimestamp q)
                (q_endTimestamp q) in
  if block_type_val type <? block_type_val BLOCK_EQUAL then Ret (-1, q) else
  let! bs := rd (logData d) 0 (rowSize h * cacheSize h) in
  let! buf := wr (q_buf q) 0 bs in
  let! s := set_data_index type (set_rows_buf (curRowCount h) buf q) in
  Ret (0, s.2).

(** ** The walk over blocks and files *)
Fixpoint searchBlockIndex (fuel : nat) (d : DB) (q : QUERY) : res (Z * QUERY) :=
  match fuel with
  | O => NoFuel
  | S fuel' =>
      if negb (q_signature q) then Ret (-1, q) else
      if (if is_asc q then q_endBlockIndex q <? q_curBlockIndex q
          else q_curBlockIndex q <? q_endBlockIndex q)
      then Ret (-1, set_blocks (-1) (-1) (-1) q)
      else
        let! c := check_block d q in
        if c.1 =? 0 then Ret (0, c.2)
        else searchBlockIndex fuel' d (set_blocks (q_startBlockIndex c.2) (q_endBlockIndex c.2)
               (i32 (q_curBlockIndex c.2 + order_val (q_order c.2))) c.2)
  end.

(** Enough turns for a cursor between its two block bounds. *)
Definition block_fuel (q : QUERY) : nat :=
  S (S (Z.to_nat (Z.abs (q_endBlockIndex q - q_curBlockIndex q)))).

(** [checkFile]; it also assigns [pDb->curFileIndex]. *)
Definition set_db_file (k : Z) (d : DB) : DB :=
  {| signature := signature d; logHead := logHead d; logData := logData d; recordFd := recordFd d;
     indexFd := indexFd d; curFileIndex := k; gErrorCode := gErrorCode d;
     indexFiles := indexFiles d; recordFiles := recordFiles d |}.

Definition checkFile (d : DB) (q : QUERY) : res (Z * DB * QUERY) :=
  if negb (q_signature q) then Ret (-1, d, q) else
  let! cur := file_index (logHead d) (startTimestamp (logHead d)) in
  let d := set_db_file cur d in
  let q := set_blocks (-1) (-1) (-1) q in
  let finish (q : QUERY) :=
    let! s := searchBlockIndex (block_fuel q) d q in
    Ret (if s.1 =? 0 then 0 else -1, d, s.2) in
  match indexFiles d !! q_curFileIndex q with
  | None => if negb (q_curFileIndex q =? curFileIndex d) then Ret (-1, d, q) else finish q
  | Some idx =>
      let last := i32 (Z.quot (Z.of_nat (length idx)) SIZEOF_INDEX - 1) in
      let q := if is_asc q then set_blocks 0 last 0 q else set_blocks last 0 last q in
      match recordFiles d !! q_curFileIndex q with
      | None => Ret (-1, d, set_fds (Some None) ((fun _ => None) <$> q_recordFd q) q)
      | Some _ =>
          let fd := Some (Some (q_curFileIndex q)) in finish (set_fds fd fd q)
      end
  end.

Fixpoint searchFileIndex (fuel : nat) (d : DB) (q : QUERY) : res (Z * DB * QUERY) :=
  match fuel with
  | O => NoFuel
  | S fuel' =>
      if negb (q_signature q) then Ret (-1, d, q) else
      if (if is_asc q then q_endFileIndex q <? q_curFileIndex q
          else q_curFileIndex q <? q_endFileIndex q)
      then Ret (-1, d, q)
      else
        let! c := checkFile d q in
        let '(code, d, q) := c in
        if code =? 0 then Ret (0, d, q)
        else searchFileIndex fuel' d (set_file (i64 (q_curFileIndex q + order_val (q_order q))) q)
  end.

Definition file_fuel (q : QUERY) : nat :=
  S (S (Z.to_nat (Z.abs (q_endFileIndex q - q_curFileIndex q)))).

(** The early parts of [move_next]: [None] when the call goes on. *)
Definition next_log (want : ORDER_TYPE) (d : DB) (q : QUERY) : res (option unit * QUERY) :=
  if bool_decide (q_order q = want) && (q_logChecked q =? 0) then
    let! c := check_log d q in
    Ret (if c.1 =? 0 then Some tt else None, c.2)
  else Ret (None, q).

Definition next_first (d : DB) (q : QUERY) : res (option unit * DB * QUERY) :=
  if (q_curDataIndex q =? -1) && (q_curFileIndex q =? -1) then
    let q := set_file (q_startFileIndex q) q in
    let! c := searchFileIndex (file_fuel q) d q in
    let '(code, d, q) := c in Ret (if code =? 0 then Some tt else None, d, q)
  else Ret (None, d, q).

Definition next_block (d : DB) (q : QUERY) : res (option unit * DB * QUERY) :=
  if negb (q_curDataIndex q =? -1) && (q_curDataIndex q =? q_endDataIndex q) then
    let q := set_data (-1) (-1) (-1) q in
    if q_curFileIndex q =? -1 then
      let q := set_file (q_startFileIndex q) q in
      let! c := searchFileIndex (file_fuel q) d q in
      let '(code, d, q) := c in Ret (if code =? 0 then Some tt else None, d, q)
    else
      let q := set_blocks (q_startBlockIndex q) (q_endBlockIndex q)
                 (i32 (q_curBlockIndex q + order_val (q_order q))) q in
      let! s := searchBlockIndex (block_fuel q) d q in
      if s.1 =? 0 then Ret (Some tt, d, s.2) else
      let q := set_file (i64 (q_curFileIndex s.2 + order_val (q_order s.2))) s.2 in
      let! c := searchFileIndex (file_fuel q) d q in
      let '(code, d, q) := c in Ret (if code =? 0 then Some tt else None, d, q)
  else Ret (None, d, q).

Definition move_next (d : DB) (q : QUERY) : res (Z * DB * QUERY) :=
  if negb (q_signature q) then Ret (-1, d, q) else
  let! a := next_log ORDER_DESC d q in
  match a with
  | (Some _, q) => Ret (0, d, q)
  | (None, q) =>
      let! b := next_first d q in
      match b with
      | (Some _, d, q) => Ret (0, d, q)
      | (None, d, q) =>
          let! c := next_block d q in
          match c with
          | (Some _, d, q) => Ret (0, d, q)
          | (None, d, q) =>
              if negb (q_curDataIndex q =? -1) then
                Ret (0, d, set_data (q_startDataIndex q) (q_endDataIndex q)
                             (i32 (q_curDataIndex q + order_val (q_order q))) q)
              else
                let! e := next_log ORDER_ASC d q in
                match e with
                | (Some _, q) => Ret (0, d, q)
                | (None, q) => Ret (-1, d, q)
                end
          end
      end
  end.

(** The offset in [buf] of column [colIndex] of the current row, or [None]
    for [NULL]. *)
Fixpoint col_offset (n : nat) (h : LOG_HEAD) (i pos : Z) : res Z :=
  match n with
  | O => Ret pos
  | S n' =>
      let! t := col_type_at h i in col_offset n' h (i + 1) (pos + gColTypeSize t * cacheSize h)
  end.

Definition fetch_col (d : DB) (q : QUERY) (colIndex : Z) : res (option Z) :=
  if negb (q_signature q) then Ret None else
  if colCount (logHead d) <=? colIndex then Ret None else
  let! pos := col_offset (Z.to_nat colIndex) (logHead d) 0 0 in
  let! t := col_type_at (logHead d) colIndex in
  Ret (Some (pos + gColTypeSize t * q_curDataIndex q)).

(** [open_query] once the two times are parsed; [None] is [NULL]. *)
Definition open_query (d : DB) (startTime endTime : Z) (order : ORDER_TYPE) : res (option QUERY) :=
  if negb (signature d) then Ret None else
  let h := logHead d in
  match malloc (rowSize h * cacheSize h + 100) with
  | None => Ret None
  | Some buf =>
      let en := if startTime <? endTime then endTime else startTime in
      let st := if startTime <? endTime then startTime else endTime in
      let! fe := file_index h en in
      let! fs := file_index h st in
      let asc := bool_decide (order = ORDER_ASC) in
      Ret (Some {| q_signature := true; q_startTimestamp := st; q_endTimestamp := en;
        q_order := order; q_colBitmap := -1; q_logChecked := 0;
        q_startFileIndex := if asc then fs else fe; q_endFileIndex := if asc then fe else fs;
        q_curFileIndex := -1; q_startBlockIndex := 0; q_endBlockIndex := 0; q_curBlockIndex := -1;
        q_rowCount := 0; q_startDataIndex := 0; q_endDataIndex := 0; q_curDataIndex := -1;
        q_recordFd := None; q_indexFd := None; q_indexPos := 0; q_buf := buf |})
  end.
End Read.

(** ** Searching a block *)

(** Timestamps that do not go back. *)
Definition ordered (ts : list Z) : Prop :=
  forall i j x y, (i < j)%nat -> ts !! i = Some x -> ts !! j = Some y -> x <= y.
(** No two rows have the time [key]. *)
Definition once (key : Z) (ts : list Z) : Prop :=
  forall i j, ts !! i = Some key -> ts !! j = Some key -> i = j.

Lemma rows_pos (ts : list Z) : ts <> [] -> 0 < Z.of_nat (length ts).
Proof. intros Hne. destruct ts; [done|]. cbn [length]. lia. Qed.

Section Search.
Context (ts : list Z) (rest : list Z) (Hts : Forall (in_s 64) ts) (Hinc : ordered ts).
Let n := Z.of_nat (length ts).
Let buf := pack_elems 8 ts ++ rest.

(** [data\[i\]] *)
Definition at_ (i : Z) : Z := nth (Z.to_nat i) ts 0.

Lemma at_lookup i : 0 <= i < n -> ts !! Z.to_nat i = Some (at_ i).
Proof using.
  intros Hi. destruct (lookup_lt_is_Some_2 ts (Z.to_nat i)) as [v Hv]; [unfold n in Hi; lia|].
  unfold at_. by rewrite (nth_lookup_Some _ _ _ _ Hv).
Qed.

Lemma at_le i j : 0 <= i -> i <= j -> j < n -> at_ i <= at_ j.
Proof using Hinc.
  intros Hi Hij Hj. destruct (decide (i = j)) as [->|]; [lia|].
  apply (Hinc (Z.to_nat i) (Z.to_nat j)); [lia|apply at_lookup; lia..].
Qed.

Lemma at_once key i j : once key ts -> 0 <= i < n -> 0 <= j < n -> at_ i = key -> at_ j = key -> i = j.
Proof using.
  intros Hk Hi Hj Ei Ej. pose proof (at_lookup i Hi) as Hi'. pose proof (at_lookup j Hj) as Hj'.
  rewrite Ei in Hi'. rewrite Ej in Hj'. pose proof (Hk _ _ Hi' Hj'). lia.
Qed.

Lemma rds_at i : 0 <= i < n -> rds 8 buf i = Ret (at_ i).
Proof using Hts.
  intros Hi. pose proof (at_lookup i Hi) as Hl. unfold buf, rds.
  rewrite <- (take_drop_middle _ _ _ Hl), pack_elems_app, pack_elems_cons.
  rewrite <- !app_assoc. rewrite rd_app_mid.
  - cbn [rbind]. rewrite le_val_bytes. change (_ mod _) with (u64 (at_ i)).
    change (8 * 8) with 64. rewrite wraps_wrapu by lia. rewrite wraps_id; [done|lia|].
    rewrite Forall_forall in Hts. apply Hts. by eapply list_elem_of_lookup_2.
  - rewrite length_pack_elems, length_take. unfold n in Hi. lia.
  - by rewrite length_le_bytes.
Qed.

(** What is known when the window is [low .. high]. *)
Definition window (key low high : Z) (start end_ : option Z) : Prop :=
  0 <= low /\ low <= high + 1 /\ high < n /\
  (forall i, 0 <= i < low -> at_ i < key) /\ (forall i, high < i < n -> key < at_ i) /\
  start = (if high + 1 <? n then Some (high + 1) else None) /\
  end_ = (if 0 <? low then Some (low - 1) else None).

(** The first index not below [key], the last not above. *)
Definition first_ge (key : Z) (i : Z) : Prop :=
  0 <= i < n /\ key <= at_ i /\ forall j, 0 <= j < i -> at_ j < key.
Definition last_le (key : Z) (i : Z) : Prop :=
  0 <= i < n /\ at_ i <= key /\ forall j, i < j < n -> key < at_ j.

Definition found (key : Z) (r : Z + option Z * option Z) : Prop :=
  match r with
  | inl i => first_ge key i /\ last_le key i
  | inr (start, end_) =>
      match start with Some i => first_ge key i | None => forall j, 0 <= j < n -> at_ j < key end /\
      match end_ with Some i => last_le key i | None => forall j, 0 <= j < n -> key < at_ j end
  end.

Lemma binary_search_loop_spec key fuel : once key ts -> forall low high start end_,
  window key low high start end_ -> high - low + 1 < Z.of_nat fuel ->
  exists r, binary_search_loop fuel buf key low high start end_ = Ret r /\ found key r.
Proof using Hts Hinc.
  intros Honce. induction fuel as [|fuel IH]; intros low high start end_ (Hl & Hlh & Hh & Hlow & Hhigh & Hs & He) Hf;
    [lia|]. cbn [binary_search_loop].
  destruct (Z.leb_spec low high) as [Hle|Hgt].
  - rewrite Z.quot_div_nonneg by lia.
    assert (Hc : low <= (low + high) / 2 <= high)
      by (pose proof (Z.div_mod (low + high) 2 ltac:(lia));
          pose proof (Z.mod_pos_bound (low + high) 2 ltac:(lia)); lia).
    set (center := (low + high) / 2) in *. clearbody center.
    rewrite rds_at by lia. cbn [rbind].
    destruct (Z.eqb_spec (at_ center) key) as [Heq|Hne].
    + eexists. split; [done|]. split.
      * split; [lia|]. split; [lia|]. intros j Hj. pose proof (at_le j center ltac:(lia) ltac:(lia) ltac:(lia)).
        pose proof (at_once key j center Honce ltac:(lia) ltac:(lia)). lia.
      * split; [lia|]. split; [lia|]. intros j Hj. pose proof (at_le center j ltac:(lia) ltac:(lia) ltac:(lia)).
        pose proof (at_once key j center Honce ltac:(lia) ltac:(lia)). lia.
    + destruct (Z.ltb_spec key (at_ center)) as [Hk|Hk].
      * apply IH; [|lia]. split; [lia|]. split; [lia|]. split; [lia|]. split; [done|].
        split; [|split; [|done]].
        -- intros i Hi. destruct (decide (high < i)); [by apply Hhigh; lia|].
           pose proof (at_le center i ltac:(lia) ltac:(lia) ltac:(lia)). lia.
        -- rewrite (proj2 (Z.ltb_lt _ _)) by lia. f_equal. lia.
      * apply IH; [|lia]. split; [lia|]. split; [lia|]. split; [lia|].
        split; [|split; [done|split; [done|]]].
        -- intros i Hi. destruct (decide (i < low)); [by apply Hlow; lia|].
           pose proof (at_le i center ltac:(lia) ltac:(lia) ltac:(lia)). lia.
        -- rewrite (proj2 (Z.ltb_lt _ _)) by lia. f_equal. lia.
  - eexists. split; [done|]. assert (Hhl : high + 1 = low) by lia. rewrite Hhl in Hs. subst start end_.
    split.
    + destruct (Z.ltb_spec low n) as [Hn|Hn].
      * split; [lia|]. split; [|done]. pose proof (Hhigh low ltac:(lia)). lia.
      * intros j Hj. apply Hlow. lia.
    + destruct (Z.ltb_spec 0 low) as [Hz|Hz].
      * split; [lia|]. split; [pose proof (Hlow (low - 1) ltac:(lia)); lia|].
        intros j Hj. apply Hhigh. lia.
      * intros j Hj. apply Hhigh. lia.
Qed.

Lemma binary_search_both key isStart : once key ts ->
  if 0 <? isStart then
    (exists i, binary_search buf key n isStart = Ret i /\ first_ge key i) \/
    (binary_search buf key n isStart = Undef /\ forall j, 0 <= j < n -> at_ j < key)
  else
    (exists i, binary_search buf key n isStart = Ret i /\ last_le key i) \/
    (binary_search buf key n isStart = Undef /\ forall j, 0 <= j < n -> key < at_ j).
Proof using Hts Hinc.
  intros Honce. unfold binary_search.
  destruct (binary_search_loop_spec key (S (Z.to_nat n)) Honce 0 (n - 1) None None) as (r & -> & Hr).
  { split; [lia|]. split; [unfold n; lia|]. split; [lia|]. split; [intros; lia|].
    split; [intros; lia|]. rewrite Z.sub_add, Z.ltb_irrefl. done. }
  { unfold n. lia. }
  cbn [rbind]. destruct r as [i|[start end_]]; [|destruct Hr as [Hs He]].
  - destruct Hr as [Hs He]. destruct (0 <? isStart); left; by exists i.
  - destruct (0 <? isStart); [destruct start as [i|]|destruct end_ as [i|]];
      try (left; exists i; done); right; done.
Qed.
Lemma first_ge_iff key i j : first_ge key i -> 0 <= j < n -> (i <= j <-> key <= at_ j).
Proof using Hinc.
  intros (Hi & Hk & Hlow) Hj. split.
  - intros Hij. pose proof (at_le i j ltac:(lia) Hij ltac:(lia)). lia.
  - intros Hkj. destruct (Z.le_gt_cases i j) as [|Hlt]; [done|]. specialize (Hlow j ltac:(lia)). lia.
Qed.

Lemma last_le_iff key i j : last_le key i -> 0 <= j < n -> (j <= i <-> at_ j <= key).
Proof using Hinc.
  intros (Hi & Hk & Hhigh) Hj. split.
  - intros Hij. pose proof (at_le j i ltac:(lia) Hij ltac:(lia)). lia.
  - intros Hkj. destruct (Z.le_gt_cases j i) as [|Hlt]; [done|].
    specialize (Hhigh j ltac:(lia)). lia.
Qed.

End Search.

(** ** The rows of a block that the cursor walks *)
Section Block.
Context (ts rest : list Z) (Hts : Forall (in_s 64) ts) (Hinc : ordered ts) (Hne : ts <> []).
Context (q : QUERY) (Hsig : q_signature q = true).
Context (Hbuf : q_buf q = pack_elems 8 ts ++ rest) (Hrows : q_rowCount q = Z.of_nat (length ts)).
Context (Hfrom : once (q_startTimestamp q) ts) (Hto : once (q_endTimestamp q) ts).
Let n := Z.of_nat (length ts).
Let first := at_ ts 0.
Let last_ := at_ ts (n - 1).
Let type := get_block_type first last_ (q_startTimestamp q) (q_endTimestamp q).

Lemma search_start key : once key ts -> (exists i, 0 <= i < n /\ key <= at_ ts i) ->
  exists i, binary_search (q_buf q) key (q_rowCount q) 1 = Ret i /\ first_ge ts key i.
Proof using Hts Hinc Hbuf Hrows.
  intros Ho (i & Hi & Hk). rewrite Hbuf, Hrows.
  destruct (binary_search_both ts rest Hts Hinc key 1 Ho) as [H|[_ H]]; [done|].
  specialize (H i Hi). lia.
Qed.

Lemma search_end key : once key ts -> (exists i, 0 <= i < n /\ at_ ts i <= key) ->
  exists i, binary_search (q_buf q) key (q_rowCount q) 0 = Ret i /\ last_le ts key i.
Proof using Hts Hinc Hbuf Hrows.
  intros Ho (i & Hi & Hk). rewrite Hbuf, Hrows.
  destruct (binary_search_both ts rest Hts Hinc key 0 Ho) as [H|[_ H]]; [done|].
  specialize (H i Hi). lia.
Qed.

(** What [set_data_index] leaves: [lo] and [hi] delimit the rows in range. *)
Definition selects (q' : QUERY) (lo hi : Z) : Prop :=
  q' = set_data (if is_asc q then lo else hi) (if is_asc q then hi else lo)
         (if is_asc q then lo else hi) q /\
  forall r, 0 <= r < n ->
    (lo <= r <= hi <-> q_startTimestamp q <= at_ ts r <= q_endTimestamp q).

Lemma set_data_index_both : block_type_val BLOCK_EQUAL <= block_type_val type ->
  exists q' lo hi, set_data_index type q = Ret (0, q') /\ 0 <= lo <= n /\ -1 <= hi < n /\
    selects q' lo hi.
Proof using Hts Hinc Hne Hsig Hbuf Hrows Hfrom Hto.
  intros Htype. pose proof (rows_pos ts Hne) as Hn. fold n in Hn.
  assert (Hmid : forall j, 0 <= j < n -> first <= at_ ts j <= last_)
    by (intros j Hj; split; unfold first, last_; apply at_le; (done || unfold n in *; lia)).
  pose proof (Hmid 0 ltac:(lia)) as Hfl. unfold set_data_index. rewrite Hsig. cbn [negb].
  unfold type, get_block_type in Htype |- *.
  destruct (Z.ltb_spec last_ first); [simpl in Htype; lia|]. cbn [orb] in Htype |- *.
  destruct (Z.ltb_spec (q_endTimestamp q) (q_startTimestamp q)); [simpl in Htype; lia|].
  destruct (Z.eqb_spec first (q_startTimestamp q)) as [|Hfs]; [simpl in Htype; lia|]. cbn [orb] in Htype |- *.
  destruct (Z.eqb_spec last_ (q_endTimestamp q)) as [|Hle]; [simpl in Htype; lia|].
  destruct (Z.ltb_spec last_ (q_startTimestamp q)); [simpl in Htype; lia|].
  destruct (Z.ltb_spec (q_endTimestamp q) first); [simpl in Htype; lia|].
  assert (Hend : exists i, 0 <= i < n /\ q_startTimestamp q <= at_ ts i)
    by (exists (n - 1); split; [lia|]; fold last_; lia).
  assert (Hstart : exists i, 0 <= i < n /\ at_ ts i <= q_endTimestamp q)
    by (exists 0; split; [lia|]; fold first; lia).
  destruct (search_start _ Hfrom Hend) as (s & Hs & Hsge). destruct (search_end _ Hto Hstart) as (e & He & Hele).
  pose proof Hsge as (Hsr & _). pose proof Hele as (Her & _). fold n in Hsr, Her.
  destruct (Z.leb_spec last_ (q_endTimestamp q));
    [destruct (Z.ltb_spec first (q_startTimestamp q))|
     destruct (Z.leb_spec first (q_startTimestamp q))]; rewrite ?Hs, ?He; cbn [rbind].
  - exists (set_data (if is_asc q then s else n - 1) (if is_asc q then n - 1 else s)
      (if is_asc q then s else n - 1) q), s, (n - 1).
    rewrite Hrows. split; [done|]. split; [lia|]. split; [lia|]. split; [done|].
    intros r Hr. pose proof (first_ge_iff ts Hinc _ _ r Hsge Hr). specialize (Hmid r Hr). lia.
  - exists (set_data (if is_asc q then 0 else n - 1) (if is_asc q then n - 1 else 0)
      (if is_asc q then 0 else n - 1) q), 0, (n - 1).
    rewrite Hrows. split; [done|]. split; [lia|]. split; [lia|]. split; [done|].
    intros r Hr. specialize (Hmid r Hr). lia.
  - exists (set_data (if is_asc q then s else e) (if is_asc q then e else s)
      (if is_asc q then s else e) q), s, e.
    split; [done|]. split; [lia|]. split; [lia|]. split; [done|].
    intros r Hr. pose proof (first_ge_iff ts Hinc _ _ r Hsge Hr). pose proof (last_le_iff ts Hinc _ _ r Hele Hr). lia.
  - exists (set_data (if is_asc q then 0 else e) (if is_asc q then e else 0)
      (if is_asc q then 0 else e) q), 0, e.
    split; [done|]. split; [lia|]. split; [lia|]. split; [done|].
    intros r Hr. pose proof (last_le_iff ts Hinc _ _ r Hele Hr). specialize (Hmid r Hr). lia.
Qed.
End Block.

(** ** The walk ends *)
Lemma is_asc_cases q : (q_order q = ORDER_ASC /\ is_asc q = true) \/
  (q_order q = ORDER_DESC /\ is_asc q = false).
Proof. unfold is_asc. destruct (q_order q); [left|right]; done. Qed.

Lemma file_of_ends fd files : ends (file_of fd files).
Proof. unfold file_of. by repeat case_match. Qed.

Lemma binary_search_ends buf key count isStart : ends (binary_search buf key count isStart).
Proof.
  assert (Hloop : forall fuel low high st en, 0 <= low -> high - low + 1 < Z.of_nat fuel -> (0 < fuel)%nat ->
    ends (binary_search_loop fuel buf key low high st en)).
  { induction fuel as [|fuel IH]; intros low high st en Hl Hf Hp; [lia|]. cbn [binary_search_loop].
    destruct (Z.leb_spec low high) as [Hle|]; [|done]. apply ends_bind; [apply rds_ends|intros v _].
    rewrite Z.quot_div_nonneg by lia.
    pose proof (Z.div_mod (low + high) 2 ltac:(lia)).
    pose proof (Z.mod_pos_bound (low + high) 2 ltac:(lia)).
    destruct (v =? key); [done|]. destruct (key <? v); apply IH; lia. }
  unfold binary_search. apply ends_bind; [apply Hloop; lia|].
  intros [?|[st en]] _; [done|]. by repeat case_match.
Qed.

Lemma set_data_index_ends type q : ends (set_data_index type q).
Proof.
  unfold set_data_index. destruct (negb _); [done|]. apply ends_bind; [|done].
  destruct type; try done; repeat (apply ends_bind; [apply binary_search_ends|intros]); done.
Qed.

Lemma decompressNone_ends d bs ix col pos buf :
  ends (decompressNone d bs ix col pos buf).
Proof.
  unfold decompressNone. destruct (negb _); [done|].
  apply ends_bind; [unfold col_type_at; by case_match|intros ty _].
  apply ends_bind; [apply rd_ends|intros]. apply wr_ends.
Qed.

(** No decompressor runs, and the index files are shorter than 80 GiB. *)
Record plain_store (d : DB) : Prop := {
  ps_type : compressType (logHead d) = COMPRESS_NONE \/ compressType (logHead d) = COMPRESS_TAOS_TWO_STEP;
  ps_bytes : map_Forall (fun _ f => bytes_ok f) (recordFiles d);
  ps_index : map_Forall (fun _ f => Z.of_nat (length f) < SIZEOF_INDEX * 2 ^ 31) (indexFiles d) }.

(** The numbers of a cursor in their types, the bounds not the last of theirs. *)
Record in_walk (q : QUERY) : Prop := {
  iw_block : in_s 32 (q_curBlockIndex q);
  iw_endBlock : - 2 ^ 31 < q_endBlockIndex q < 2 ^ 31 - 1;
  iw_start : in_s 64 (q_startFileIndex q);
  iw_file : in_s 64 (q_curFileIndex q);
  iw_endFile : - 2 ^ 63 < q_endFileIndex q < 2 ^ 63 - 1 }.

Section Walk.
Context `{LZ4} `{DataModel}.
Context (crc32c : Z -> Z -> list Z -> Z -> res Z) (heap : Z).
Context (decompressZlib decompressZstd :
  DB -> list Z -> INDEX -> Z -> Z -> Z -> list Z -> res (list Z)).

Let check := check_block crc32c heap decompressZlib decompressZstd.

(** The files, the range of files and the order stay. *)
Definition same_walk (q q' : QUERY) : Prop :=
  q_order q' = q_order q /\ q_startFileIndex q' = q_startFileIndex q /\ q_endFileIndex q' = q_endFileIndex q /\
  q_curFileIndex q' = q_curFileIndex q.

Lemma set_data_index_keeps type q c q' : set_data_index type q = Ret (c, q') ->
  q_curBlockIndex q' = q_curBlockIndex q /\ q_endBlockIndex q' = q_endBlockIndex q /\ same_walk q q'.
Proof.
  unfold set_data_index. intros Hs. destruct (negb _); [by injection Hs as <- <-|].
  apply rbind_Ret_inv in Hs as (se & _ & Hs). by injection Hs as <- <-.
Qed.

Lemma check_block_keeps d q c q' : check d q = Ret (c, q') ->
  q_curBlockIndex q' = q_curBlockIndex q /\ q_endBlockIndex q' = q_endBlockIndex q /\
  same_walk q q'.
Proof.
  unfold check, check_block. intros Hc. destruct (negb _); [by injection Hc as <- <-|].
  destruct (q_indexFd q); [|by injection Hc as <- <-].
  destruct (q_recordFd q); [|by injection Hc as <- <-].
  apply rbind_Ret_inv in Hc as (idx & _ & Hc). apply rbind_Ret_inv in Hc as (rec & _ & Hc).
  destruct (read_index _ _ _) as [ix pos]. cbv zeta in Hc.
  destruct (_ <? block_type_val BLOCK_EQUAL); [by injection Hc as <- <-|].
  apply rbind_Ret_inv in Hc as ([code buf] & _ & Hc).
  destruct (negb (code =? 0)); [by injection Hc as <- <-|].
  apply rbind_Ret_inv in Hc as ([c0 q0] & Hs & Hc). injection Hc as <- <-.
  by apply set_data_index_keeps in Hs.
Qed.

Lemma next_log_keeps want d q o q' : next_log want d q = Ret (o, q') -> in_walk q -> in_walk q'.
Proof.
  unfold next_log. intros Hn Hq. destruct (_ && _); [|by injection Hn as <- <-].
  apply rbind_Ret_inv in Hn as ([c q1] & Hc & Hn). injection Hn as <- <-. unfold check_log in Hc.
  destruct (negb _); [by injection Hc as <- <-|]. cbv zeta in Hc.
  destruct (_ <? block_type_val BLOCK_EQUAL); [injection Hc as <- <-; by destruct Hq|].
  apply rbind_Ret_inv in Hc as (bs & _ & Hc). apply rbind_Ret_inv in Hc as (buf & _ & Hc).
  apply rbind_Ret_inv in Hc as ([c0 q0] & Hs & Hc). injection Hc as <- <-.
  apply set_data_index_keeps in Hs as (E1 & E2 & _ & E3 & E4 & E5). destruct Hq. cbn in *. constructor; congruence.
Qed.

(** The checksum ends. *)
Context (Hcrc : forall bs len, bytes_ok bs -> 0 <= len <= Z.of_nat (length bs) -> ends (crc32c heap 0 bs len)).

Lemma checksum_ends rec off len bs : bytes_ok rec -> rd rec off len = Ret bs -> ends (taosCheckChecksumWhole crc32c heap bs len).
Proof using Hcrc.
  intros Hrec Hrd. pose proof (bytes_ok_rd _ _ _ _ Hrec Hrd) as Hok. apply rd_Ret in Hrd as (x & y & _ & _ & Hl).
  unfold taosCheckChecksumWhole. destruct (Z.ltb_spec len 4); [done|]. unfold rdu.
  apply ends_bind; [apply ends_bind; [apply rd_ends|done]|intros v _].
  apply ends_bind; [apply Hcrc; [done|lia]|done].
Qed.

Lemma block_cols_ends d n bitmap rec ix : plain_store d -> bytes_ok rec -> forall i off pos buf,
  ends (block_cols crc32c heap decompressZlib decompressZstd n d bitmap rec ix i off pos buf).
Proof using Hcrc.
  intros Hd Hrec. induction n as [|n IH]; intros i off pos buf; cbn [block_cols]; [done|].
  destruct (_ !! _); [|done]. apply ends_bind; [unfold col_type_at; by case_match|intros ty _].
  cbv zeta. destruct (negb _); [|apply IH]. destruct (_ <? 0); [done|]. destruct (_ <? _); [done|].
  apply ends_bind; [apply rd_ends|intros bs Hbs]. apply ends_bind; [by eapply checksum_ends|].
  intros ok _. destruct (negb ok); [done|]. apply ends_bind; [|intros; apply IH].
  destruct (ps_type _ Hd) as [-> | ->]; [apply decompressNone_ends|done].
Qed.

Lemma check_block_ends d q : plain_store d -> ends (check d q).
Proof using Hcrc.
  intros Hd. unfold check, check_block. destruct (negb _); [done|]. destruct (q_indexFd q); [|done].
  destruct (q_recordFd q) as [fd|]; [|done]. apply ends_bind; [apply file_of_ends|intros idx _].
  apply ends_bind; [apply file_of_ends|intros rec Hrec].
  assert (bytes_ok rec).
  { unfold file_of in Hrec. destruct fd as [k|]; [|done]. destruct (recordFiles d !! k) as [f|] eqn:E; [|done].
    injection Hrec as <-. by apply (ps_bytes _ Hd k). }
  destruct (read_index _ _ _). cbv zeta.
  destruct (_ <? _); [done|]. apply ends_bind; [by apply block_cols_ends|intros [code buf] _].
  destruct (negb _); [done|]. apply ends_bind; [apply set_data_index_ends|done].
Qed.

Let walk := searchBlockIndex crc32c heap decompressZlib decompressZstd.

Lemma searchBlockIndex_ends d fuel : plain_store d -> forall q, in_walk q ->
  match q_order q with
  | ORDER_ASC => q_endBlockIndex q - q_curBlockIndex q
  | ORDER_DESC => q_curBlockIndex q - q_endBlockIndex q
  end < Z.of_nat fuel - 1 -> (0 < fuel)%nat -> ends (walk fuel d q).
Proof using Hcrc.
  intros Hd. unfold walk. induction fuel as [|fuel IH]; intros q Hin Hq Hf; [lia|]. cbn [searchBlockIndex].
  destruct (negb _); [done|].
  destruct (if is_asc q then _ else _) eqn:Hstop; [done|].
  apply ends_bind; [by apply check_block_ends|]. intros [c q'] Hc. cbn [fst snd].
  destruct (c =? 0); [done|].
  apply check_block_keeps in Hc as (Hcur & Hend & Hord & Hfs & Hfe & Hfc). destruct Hin as [I1 I2 I3 I4 I5].
  assert (Hnext : i32 (q_curBlockIndex q' + order_val (q_order q')) = q_curBlockIndex q + order_val (q_order q)).
  { rewrite Hcur, Hord. apply wraps_id; [lia|]. unfold in_s in *.
    destruct (is_asc_cases q) as [[E F]|[E F]]; rewrite E; rewrite F in Hstop; cbn [order_val]; lia. }
  apply IH; [|cbn [q_order q_endBlockIndex q_curBlockIndex set_blocks]; rewrite Hnext, Hord, Hend;
    destruct (q_order q); cbn [order_val]; lia|destruct (is_asc_cases q) as [[E F]|[E F]]; rewrite E in Hq; rewrite F in Hstop; cbn iota in Hq, Hstop; lia].
  constructor; cbn; [apply wraps_range; lia|rewrite ?Hend, ?Hfs, ?Hfc, ?Hfe; done..].
Qed.

Lemma searchBlockIndex_keeps d fuel : forall q c q', walk fuel d q = Ret (c, q') -> same_walk q q' /\ (in_walk q -> in_walk q').
Proof.
  unfold walk. induction fuel as [|fuel IH]; intros q c q' Hs; cbn [searchBlockIndex] in Hs; [done|].
  destruct (negb _); [by injection Hs as <- <-|].
  destruct (if is_asc q then _ else _).
  { injection Hs as <- <-. split; [done|]. intros []. by constructor. }
  apply rbind_Ret_inv in Hs as ([c1 q1] & Hc & Hs). cbn [fst snd] in Hs.
  apply check_block_keeps in Hc as (E1 & E2 & H1 & H2 & H3 & H4).
  destruct (c1 =? 0).
  { injection Hs as <- <-. split; [done|]. intros []. constructor; congruence. }
  apply IH in Hs as ((H5 & H6 & H7 & H8) & Hin). cbn in H5, H6, H7, H8. split; [unfold same_walk; by split_and!; congruence|].
  intros []. apply Hin. constructor; cbn; [apply wraps_range; lia|congruence..].
Qed.

Lemma block_walk_ends d q : plain_store d -> in_walk q -> ends (walk (block_fuel q) d q).
Proof using Hcrc.
  intros Hd Hq. apply searchBlockIndex_ends; [done|done|unfold block_fuel..]; [|lia].
  destruct (q_order q); lia.
Qed.

Let look := checkFile crc32c heap decompressZlib decompressZstd.
Let files := searchFileIndex crc32c heap decompressZlib decompressZstd.

(** The number of the last block that [checkFile] takes a file to have. *)
Lemma last_block d k idx : plain_store d -> indexFiles d !! k = Some idx ->
  let last := i32 (Z.quot (Z.of_nat (length idx)) SIZEOF_INDEX - 1) in - 2 ^ 31 < last < 2 ^ 31 - 1.
Proof.
  intros Hd Hk. pose proof (ps_index _ Hd k idx Hk) as Hl. cbv beta in Hl. unfold SIZEOF_INDEX in *.
  rewrite Z.quot_div_nonneg by lia. pose proof (Z.div_pos (Z.of_nat (length idx)) 40 ltac:(lia) ltac:(lia)).
  pose proof (Z.div_lt_upper_bound (Z.of_nat (length idx)) 40 (2 ^ 31) ltac:(lia) Hl). cbv zeta. rewrite wraps_id; unfold in_s; lia.
Qed.

Lemma to_block d q fds cur last : plain_store d -> in_walk q -> - 2 ^ 31 < last < 2 ^ 31 - 1 -> in_walk (set_fds fds cur (if is_asc q then set_blocks 0 last 0 q else set_blocks last 0 last q)).
Proof. intros Hd [] Hl. destruct (is_asc q); constructor; cbn; unfold in_s in *; lia. Qed.

Lemma set_db_file_plain d k : plain_store d -> plain_store (set_db_file k d).
Proof. by intros []. Qed.

Lemma no_blocks q : in_walk q -> in_walk (set_blocks (-1) (-1) (-1) q).
Proof. intros []. by constructor. Qed.

Lemma checkFile_both d q : plain_store d -> in_walk q -> ends (look d q) /\
  forall c d' q', look d q = Ret (c, d', q') -> plain_store d' /\ in_walk q' /\ same_walk q q'.
Proof using Hcrc.
  intros Hd Hq. unfold look, checkFile. destruct (negb _).
  { split; [done|]. intros c d' q' Hc. by injection Hc as <- <- <-. }
  apply no_blocks in Hq as Hq1. set (q1 := set_blocks (-1) (-1) (-1) q) in *.
  unfold file_index. cbv zeta. destruct (_ =? 0); cbn [rbind]; [split; [done|intros; done]|].
  set (d1 := set_db_file _ d). assert (Hd1 : plain_store d1) by by apply set_db_file_plain.
  assert (Hfin : forall q2, in_walk q2 -> same_walk q q2 ->
    let r := (let! s := walk (block_fuel q2) d1 q2 in Ret (if s.1 =? 0 then 0 else -1, d1, s.2)) in
    ends r /\ forall c d' q', r = Ret (c, d', q') -> plain_store d' /\ in_walk q' /\ same_walk q q').
  { intros q2 Hq2 Hs r. split; [apply ends_bind; [by apply block_walk_ends|done]|]. intros c d' q' Hr.
    apply rbind_Ret_inv in Hr as ([c1 q3] & Hw & Hr). injection Hr as <- <- <-. apply searchBlockIndex_keeps in Hw as [(E1 & E2 & E3 & E4) Hi].
    split; [done|]. split; [by apply Hi|]. destruct Hs as (? & ? & ? & ?). cbn. unfold same_walk. by split_and!; congruence. }
  change (indexFiles d) with (indexFiles d1). destruct (indexFiles d1 !! _) as [idx|] eqn:Hidx.
  - pose proof (last_block _ _ _ Hd1 Hidx) as Hlast. cbv zeta in Hlast.
    assert (Hs : forall fds cur, same_walk q (set_fds fds cur (if is_asc q1 then set_blocks 0 (i32 (Z.quot (Z.of_nat (length idx)) SIZEOF_INDEX - 1)) 0 q1
      else set_blocks (i32 (Z.quot (Z.of_nat (length idx)) SIZEOF_INDEX - 1)) 0 (i32 (Z.quot (Z.of_nat (length idx)) SIZEOF_INDEX - 1)) q1)))
      by (intros; by destruct (is_asc q1)).
    destruct (recordFiles d1 !! _).
    + apply Hfin; [by eapply to_block|done].
    + split; [done|]. intros c d' q' Hc. injection Hc as <- <- <-. split; [done|]. split; [by eapply to_block|done].
  - destruct (negb _).
    + split; [done|]. intros c d' q' Hc. by injection Hc as <- <- <-.
    + by apply Hfin.
Qed.

Lemma to_file d q k : plain_store d -> in_walk q -> in_s 64 k -> in_walk (set_file k q).
Proof. intros _ [] Hk. by constructor. Qed.

Lemma searchFileIndex_both fuel : forall d q, plain_store d -> in_walk q ->
  match q_order q with
  | ORDER_ASC => q_endFileIndex q - q_curFileIndex q
  | ORDER_DESC => q_curFileIndex q - q_endFileIndex q
  end < Z.of_nat fuel - 1 -> (0 < fuel)%nat -> ends (files fuel d q) /\
  forall c d' q', files fuel d q = Ret (c, d', q') -> plain_store d' /\ in_walk q'.
Proof using Hcrc.
  unfold files. induction fuel as [|fuel IH]; intros d q Hd Hin Hq Hf; [lia|]. cbn [searchFileIndex].
  destruct (negb _); [split; [done|]; intros c d' q' Hc; by injection Hc as <- <- <-|].
  destruct (if is_asc q then _ else _) eqn:Hstop; [split; [done|]; intros c d' q' Hc; by injection Hc as <- <- <-|].
  destruct (checkFile_both d q Hd Hin) as [He Hk]. unfold look in He, Hk.
  destruct (checkFile _ _ _ _ d q) as [[[c d1] q1]| | |]; try (split; [done|intros; done]). cbn [rbind].
  destruct (Hk _ _ _ eq_refl) as (Hd1 & Hq1 & Hord & Hfs & Hfe & Hfc).
  destruct (c =? 0); [split; [done|]; intros c' d' q' Hc; by injection Hc as <- <- <-|].
  pose proof Hin as [I1 I2 I3 I4 I5]. unfold in_s in I4.
  assert (Hnext : i64 (q_curFileIndex q1 + order_val (q_order q1)) = q_curFileIndex q + order_val (q_order q)).
  { rewrite Hfc, Hord. apply wraps_id; [lia|]. unfold in_s.
    destruct (is_asc_cases q) as [[E F]|[E F]]; rewrite E; rewrite F in Hstop; cbn [order_val]; lia. }
  apply IH; [done|eapply to_file; [done..|apply wraps_range; lia]| |
    destruct (is_asc_cases q) as [[E F]|[E F]]; rewrite E in Hq; rewrite F in Hstop; cbn iota in Hq, Hstop; lia].
  cbn [q_order q_endFileIndex q_curFileIndex set_file]. rewrite Hnext, Hord, Hfe. destruct (q_order q); cbn [order_val]; lia.
Qed.

Lemma file_walk_both d q : plain_store d -> in_walk q -> ends (files (file_fuel q) d q) /\
  forall c d' q', files (file_fuel q) d q = Ret (c, d', q') -> plain_store d' /\ in_walk q'.
Proof using Hcrc.
  intros Hd Hq. apply searchFileIndex_both; [done|done|unfold file_fuel..]; [|lia].
  destruct (q_order q); lia.
Qed.

Lemma next_log_ends want d q : ends (next_log want d q).
Proof.
  unfold next_log. destruct (_ && _); [|done]. apply ends_bind; [|done].
  unfold check_log. destruct (negb _); [done|]. cbv zeta. destruct (_ <? _); [done|].
  apply ends_bind; [apply rd_ends|intros]. apply ends_bind; [apply wr_ends|intros].
  apply ends_bind; [apply set_data_index_ends|done].
Qed.

Lemma next_first_both d q : plain_store d -> in_walk q -> ends (next_first crc32c heap decompressZlib decompressZstd d q) /\
  forall o d' q', next_first crc32c heap decompressZlib decompressZstd d q = Ret (o, d', q') -> plain_store d' /\ in_walk q'.
Proof using Hcrc.
  intros Hd Hq. unfold next_first. destruct (_ && _); [|split; [done|]; intros o d' q' Hr; by injection Hr as <- <- <-].
  destruct (file_walk_both d (set_file (q_startFileIndex q) q) Hd) as [He Hk]; [apply (to_file d); [done..|apply (iw_start _ Hq)]|]. unfold files in He, Hk.
  split; [apply ends_bind; [done|]; by intros [[c d1] q1] _|]. intros o d' q' Hr. apply rbind_Ret_inv in Hr as ([[c d1] q1] & Hf & Hr).
  injection Hr as <- <- <-. by apply (Hk c).
Qed.

Lemma next_block_ends d q : plain_store d -> in_walk q -> ends (next_block crc32c heap decompressZlib decompressZstd d q).
Proof using Hcrc.
  intros Hd Hq. unfold next_block. destruct (_ && _); [|done].
  assert (Hq1 : in_walk (set_data (-1) (-1) (-1) q)) by (destruct Hq; by constructor). set (q1 := set_data _ _ _ q) in *.
  destruct (_ =? -1).
  - destruct (file_walk_both d (set_file (q_startFileIndex q1) q1) Hd) as [He _]; [apply (to_file d); [done..|apply (iw_start _ Hq1)]|].
    apply ends_bind; [done|]. by intros [[c d2] q3] _.
  - assert (Hq2 : in_walk (set_blocks (q_startBlockIndex q1) (q_endBlockIndex q1) (i32 (q_curBlockIndex q1 + order_val (q_order q1))) q1)).
    { destruct Hq1. constructor; cbn; try done. apply wraps_range. lia. }
    apply ends_bind; [by apply block_walk_ends|]. intros [c q3] Hs. cbn [fst snd]. destruct (_ =? 0); [done|].
    apply searchBlockIndex_keeps in Hs as [_ Hq3]. specialize (Hq3 Hq2).
    destruct (file_walk_both d (set_file (i64 (q_curFileIndex q3 + order_val (q_order q3))) q3) Hd) as [He _].
    { apply (to_file d); [done..|apply wraps_range; lia]. }
    apply ends_bind; [done|]. by intros [[c2 d2] q4] _.
Qed.

Lemma move_ends d q : plain_store d -> in_walk q -> ends (move_next crc32c heap decompressZlib decompressZstd d q).
Proof using Hcrc.
  intros Hd Hq. unfold move_next. destruct (negb _); [done|].
  apply ends_bind; [apply next_log_ends|]. intros [[[]|] q1] Hl; [done|]. apply next_log_keeps in Hl; [|done].
  destruct (next_first_both d q1 Hd Hl) as [He Hk]. apply ends_bind; [done|]. intros [[o d1] q2] Hf.
  destruct (Hk _ _ _ Hf) as [Hd1 Hq2]. destruct o as [[]|]; [done|]. apply ends_bind; [by apply next_block_ends|].
  intros [[[[]|] d2] q3] _; [done|]. destruct (negb _); [done|].
  apply ends_bind; [apply next_log_ends|]. by intros [[[]|] q4] _.
Qed.
End Walk.

(** ** Theorems *)

(** Over the timestamps at the head of the buffer, in their order, [binary_search]
    always ends: with [isStart] it returns the first row not before [key], without
    it the last row not after [key], if no two rows have the time [key]; when there
    is no such row the value it returns was never assigned. *)
Theorem binary_search_spec (ts rest : list Z) key isStart :
  Forall (in_s 64) ts -> ordered ts -> once key ts ->
  let r := binary_search (pack_elems 8 ts ++ rest) key (Z.of_nat (length ts)) isStart in
  if 0 <? isStart then
    (exists i, r = Ret i /\ first_ge ts key i) \/ (r = Undef /\ Forall (fun t => t < key) ts)
  else
    (exists i, r = Ret i /\ last_le ts key i) \/ (r = Undef /\ Forall (fun t => key < t) ts).
Proof.
  intros Hts Hinc Ho r. pose proof (binary_search_both ts rest Hts Hinc key isStart Ho) as Hb. fold r in Hb.
  assert (Hall : forall P : Z -> Prop,
    (forall j, 0 <= j < Z.of_nat (length ts) -> P (at_ ts j)) -> Forall P ts).
  { intros P HP. apply Forall_lookup. intros i x Hi. specialize (HP (Z.of_nat i)).
    pose proof (lookup_lt_Some _ _ _ Hi). unfold at_ in HP. rewrite Nat2Z.id in HP.
    rewrite (nth_lookup_Some _ _ _ _ Hi) in HP. apply HP. lia. }
  destruct (0 <? isStart); destruct Hb as [Hb|[Hu Hb]]; [by left|right; auto|by left|right; auto].
Qed.

(** Of rows with the same time the search returns any. *)
Lemma binary_search_duplicates :
  binary_search (pack_elems 8 [10; 20; 20; 20; 30]) 20 5 1 = Ret 2 /\ binary_search (pack_elems 8 [10; 20; 20; 20; 30]) 20 5 0 = Ret 2.
Proof. vm_compute. done. Qed.

(** [get_block_type] never answers [BLOCK_EQUAL].  For a block and a range
    that are not empty, the answer is one that makes the caller read the block
    exactly when they overlap and neither begin nor end at the same time. *)
Theorem block_type_spec (ds de ts te : Z) :
  get_block_type ds de ts te <> BLOCK_EQUAL /\
  (ds <= de -> ts <= te ->
    (block_type_val BLOCK_EQUAL <= block_type_val (get_block_type ds de ts te) <->
     (exists t, ds <= t <= de /\ ts <= t <= te) /\ ds <> ts /\ de <> te)).
Proof.
  assert (Hov : ds <= de -> ts <= te ->
    ((exists t, ds <= t <= de /\ ts <= t <= te) <-> ts <= de /\ ds <= te)).
  { intros. split; [intros (t & ?); lia|]. intros. exists (Z.max ds ts). lia. }
  unfold get_block_type. split.
  - repeat case_match; discriminate.
  - intros Hd Ht. rewrite Hov by done.
    destruct (Z.ltb_spec de ds), (Z.ltb_spec te ts), (Z.eqb_spec ds ts), (Z.eqb_spec de te),
      (Z.ltb_spec de ts), (Z.ltb_spec te ds), (Z.leb_spec de te), (Z.ltb_spec ds ts),
      (Z.leb_spec ds ts); cbn [orb block_type_val]; lia.
Qed.

(** A block from 10 to 40 and the range from 20 to 50. *)
Lemma block_type_spec_witness :
  get_block_type 10 40 20 50 <> BLOCK_EQUAL /\
  block_type_val BLOCK_EQUAL <= block_type_val (get_block_type 10 40 20 50).
Proof.
  destruct (block_type_spec 10 40 20 50) as [H1 H2]. split; [exact H1|].
  apply H2; [lia|lia|]. split; [|lia]. exists 30. lia.
Defined.

(** [k] calls of [move_next] in a row, all of which must succeed. *)
Fixpoint advance `{LZ4} `{DataModel} (crc32c : Z -> Z -> list Z -> Z -> res Z) (heap : Z)
    (decompressZlib decompressZstd : DB -> list Z -> INDEX -> Z -> Z -> Z -> list Z -> res (list Z))
    (k : nat) (d : DB) (q : QUERY) : res (option (DB * QUERY)) :=
  match k with
  | O => Ret (Some (d, q))
  | S k' =>
      let! r := move_next crc32c heap decompressZlib decompressZstd d q in
      let '(code, d, q) := r in
      if code =? 0 then advance crc32c heap decompressZlib decompressZstd k' d q else Ret None
  end.

(** The cursor has passed the point where the cache is looked at first. *)
Definition log_passed (q : QUERY) : Prop := q_order q = ORDER_ASC \/ q_logChecked q <> 0.

Section Cursor.
Context `{LZ4} `{DataModel}.
Context (crc32c : Z -> Z -> list Z -> Z -> res Z) (heap : Z).
Context (decompressZlib decompressZstd :
  DB -> list Z -> INDEX -> Z -> Z -> Z -> list Z -> res (list Z)).

Let move := move_next crc32c heap decompressZlib decompressZstd.
Let moves := advance crc32c heap decompressZlib decompressZstd.

Lemma next_log_skip want d q : (q_order q = want -> q_logChecked q <> 0) ->
  next_log want d q = Ret (None, q).
Proof.
  intros Hw. unfold next_log. case_bool_decide as Ho; [|done].
  by rewrite (proj2 (Z.eqb_neq _ _) (Hw Ho)).
Qed.

(** Inside a block a call of [move_next] moves by one row. *)
Lemma move_within d q : q_signature q = true -> log_passed q ->
  q_curDataIndex q <> -1 -> q_curDataIndex q <> q_endDataIndex q ->
  in_s 32 (q_curDataIndex q + order_val (q_order q)) ->
  move d q = Ret (0, d, set_data (q_startDataIndex q) (q_endDataIndex q)
                          (q_curDataIndex q + order_val (q_order q)) q).
Proof.
  intros Hs Hl Hc He Hw. unfold move, move_next. rewrite Hs. cbn [negb].
  rewrite next_log_skip by (destruct Hl as [-> |]; [discriminate|done]). cbn [rbind].
  unfold next_first. rewrite (proj2 (Z.eqb_neq _ _) Hc). cbn [andb rbind].
  unfold next_block. rewrite (proj2 (Z.eqb_neq _ _) Hc), (proj2 (Z.eqb_neq _ _) He).
  cbn [andb negb rbind]. rewrite (proj2 (Z.eqb_neq _ _) Hc). cbn [negb]. by rewrite wraps_id by (done || lia).
Qed.

Lemma moves_within d k : forall q, q_signature q = true -> log_passed q ->
  (forall j, 0 <= j < Z.of_nat k -> q_curDataIndex q + j * order_val (q_order q) <> -1 /\
     q_curDataIndex q + j * order_val (q_order q) <> q_endDataIndex q /\
     in_s 32 (q_curDataIndex q + (j + 1) * order_val (q_order q))) ->
  moves k d q = Ret (Some (d, set_data (q_startDataIndex q) (q_endDataIndex q)
                          (q_curDataIndex q + Z.of_nat k * order_val (q_order q)) q)).
Proof.
  induction k as [|k IH]; intros q Hs Hl Hk.
  - cbn [moves advance]. rewrite Z.mul_0_l, Z.add_0_r. by destruct q.
  - unfold moves in *. cbn [advance]. destruct (Hk 0 ltac:(lia)) as (H1 & H2 & H3).
    rewrite Z.mul_0_l, Z.add_0_r in H1, H2. rewrite Z.mul_1_l in H3.
    pose proof (move_within d q Hs Hl H1 H2 H3) as Hm. unfold move in Hm. rewrite Hm. cbn [rbind Z.eqb].
    rewrite IH; [|done|done|].
    + apply (f_equal (fun c => Ret (Some (d, set_data (q_startDataIndex q) (q_endDataIndex q) c q)))).
      cbn [q_curDataIndex q_order set_data]. lia.
    + intros j Hj. destruct (Hk (j + 1) ltac:(lia)) as (H4 & H5 & H6). destruct q. cbn in *.
      split; [intros E; apply H4; lia|]. split; [intros E; apply H5; lia|].
      unfold in_s in *. lia.
Qed.

(** C31.  When the range overlaps a block that was read into the buffer, neither begins
    nor ends with it, and has one of its rows at least: the cursor set up by
    [set_data_index] walks through exactly the rows whose time is in the range: the
    [k]-th call of [move_next] is at the [k]-th of them, from the first up or from the
    last down as the order of the query says, and after the last of them the cursor is at
    the end of the block.  The times of the rows do not go back, and the range begins and
    ends at times that no two rows have. *)
Theorem block_rows_walked (ts rest : list Z) (d : DB) (q : QUERY) :
  Forall (in_s 64) ts -> ordered ts -> once (q_startTimestamp q) ts -> once (q_endTimestamp q) ts ->
  q_signature q = true -> log_passed q ->
  q_buf q = pack_elems 8 ts ++ rest -> q_rowCount q = Z.of_nat (length ts) -> in_s 32 (q_rowCount q) ->
  let n := Z.of_nat (length ts) in
  let in_range r := 0 <= r < n /\ q_startTimestamp q <= at_ ts r <= q_endTimestamp q in
  let type := get_block_type (at_ ts 0) (at_ ts (n - 1)) (q_startTimestamp q) (q_endTimestamp q) in
  block_type_val BLOCK_EQUAL <= block_type_val type -> (exists r, in_range r) ->
  exists q' lo hi, set_data_index type q = Ret (0, q') /\ lo <= hi /\
    (forall r, lo <= r <= hi <-> in_range r) /\
    forall k, Z.of_nat k <= hi - lo ->
      exists qk, advance crc32c heap decompressZlib decompressZstd k d q' = Ret (Some (d, qk)) /\
        q_curDataIndex qk = (if is_asc q then lo + Z.of_nat k else hi - Z.of_nat k) /\
        (q_curDataIndex qk = q_endDataIndex qk <-> Z.of_nat k = hi - lo).
Proof.
  intros Hts Hinc Hfrom Hto Hsig Hlog Hbuf Hrows H32 n in_range type Htype [r0 [Hr0 Hin0]].
  assert (Hne : ts <> []) by (intros ->; unfold n in Hr0; cbn in Hr0; lia).
  destruct (set_data_index_both ts rest Hts Hinc Hne q Hsig Hbuf Hrows Hfrom Hto Htype)
    as (q' & lo & hi & Hset & Hlo & Hhi & Hq' & Hsel). fold n in Hlo, Hhi, Hsel.
  pose proof (proj2 (Hsel r0 Hr0) Hin0) as Hle. unfold in_s in H32. rewrite Hrows in H32. fold n in H32.
  exists q', lo, hi. split; [exact Hset|]. split; [lia|].
  split; [intros r; unfold in_range; split; [intros Hr; split; [lia|apply Hsel; lia]|intros [Hr Ht]; by apply Hsel]|]. intros k Hk.
  pose proof (moves_within d k q') as Hm. subst q'. cbn [q_signature q_curDataIndex q_endDataIndex
    q_startDataIndex q_order set_data] in Hm.
  eexists. split; [apply Hm; [done|exact Hlog|]|].
  - intros j Hj. unfold in_s. destruct (is_asc_cases q) as [[-> ->]|[-> ->]]; cbn [order_val]; lia.
  - cbn [q_curDataIndex q_endDataIndex set_data].
    destruct (is_asc_cases q) as [[-> ->]|[-> ->]]; cbn [order_val]; lia.
Qed.

(** When no row of the block is in the range, but rows on both sides are
    around it, the cursor of an ascending query starts behind its end: it is on
    a row outside the range, and no number of calls of [move_next] ever finds
    the end of the block, so that it runs past the rows that were read. *)
Theorem empty_range_escapes (ts rest : list Z) (d : DB) (q : QUERY) i :
  Forall (in_s 64) ts -> ordered ts -> q_signature q = true -> q_order q = ORDER_ASC ->
  q_buf q = pack_elems 8 ts ++ rest -> q_rowCount q = Z.of_nat (length ts) ->
  0 <= i -> i + 1 < Z.of_nat (length ts) ->
  at_ ts i < q_startTimestamp q -> q_startTimestamp q <= q_endTimestamp q ->
  q_endTimestamp q < at_ ts (i + 1) ->
  exists q', set_data_index (get_block_type (at_ ts 0) (at_ ts (Z.of_nat (length ts) - 1))
      (q_startTimestamp q) (q_endTimestamp q)) q = Ret (0, q') /\
    forall k, i + 1 + Z.of_nat k < 2 ^ 31 ->
      exists qk, advance crc32c heap decompressZlib decompressZstd k d q' = Ret (Some (d, qk)) /\
    q_curDataIndex qk = i + 1 + Z.of_nat k.
Proof.
  intros Hts Hinc Hsig Hord Hbuf Hrows Hi Hin Hs Hse He.
  set (n := Z.of_nat (length ts)) in *.
  pose proof (at_le ts Hinc 0 i ltac:(lia) Hi ltac:(lia)) as Hfirst.
  pose proof (at_le ts Hinc (i + 1) (n - 1) ltac:(lia) ltac:(lia) ltac:(lia)) as Hlast.
  assert (Htype : get_block_type (at_ ts 0) (at_ ts (n - 1)) (q_startTimestamp q)
    (q_endTimestamp q) = BLOCK_CONTAINING).
  { unfold get_block_type. destruct (Z.ltb_spec (at_ ts (n - 1)) (at_ ts 0)); [lia|].
    destruct (Z.ltb_spec (q_endTimestamp q) (q_startTimestamp q)); [lia|].
    destruct (Z.eqb_spec (at_ ts 0) (q_startTimestamp q)); [lia|].
    destruct (Z.eqb_spec (at_ ts (n - 1)) (q_endTimestamp q)); [lia|]. cbn [orb].
    destruct (Z.ltb_spec (at_ ts (n - 1)) (q_startTimestamp q)); [lia|].
    destruct (Z.ltb_spec (q_endTimestamp q) (at_ ts 0)); [lia|].
    destruct (Z.leb_spec (at_ ts (n - 1)) (q_endTimestamp q)); [lia|].
    by rewrite (proj2 (Z.leb_le _ _)) by lia. }
  assert (Hno : forall key, at_ ts i < key < at_ ts (i + 1) -> once key ts).
  { intros key Hkey j j' Hj _. exfalso. pose proof (lookup_lt_Some _ _ _ Hj) as Hlt. unfold n in *.
    assert (E : at_ ts (Z.of_nat j) = key) by (unfold at_; rewrite Nat2Z.id; by erewrite nth_lookup_Some).
    destruct (Z.le_gt_cases (Z.of_nat j) i); [pose proof (at_le ts Hinc (Z.of_nat j) i ltac:(lia) ltac:(lia) ltac:(lia)); lia|].
    pose proof (at_le ts Hinc (i + 1) (Z.of_nat j) ltac:(lia) ltac:(lia) ltac:(lia)). lia. }
  destruct (search_start ts rest Hts Hinc q Hbuf Hrows (q_startTimestamp q) (Hno (q_startTimestamp q) ltac:(lia))) as (s & Hbs & Hsge).
  { exists (i + 1). unfold n in *. lia. }
  destruct (search_end ts rest Hts Hinc q Hbuf Hrows (q_endTimestamp q) (Hno (q_endTimestamp q) ltac:(lia))) as (e & Hbe & Hele).
  { exists i. unfold n in *. lia. }
  pose proof (proj1 (first_ge_iff ts Hinc _ _ i Hsge ltac:(unfold n in *; lia))) as H1.
  pose proof (proj2 (first_ge_iff ts Hinc _ _ (i + 1) Hsge ltac:(unfold n in *; lia))) as H2.
  pose proof (proj2 (last_le_iff ts Hinc _ _ i Hele ltac:(unfold n in *; lia))) as H3.
  pose proof (proj1 (last_le_iff ts Hinc _ _ (i + 1) Hele ltac:(unfold n in *; lia))) as H4.
  assert (s = i + 1) by lia. assert (e = i) by lia. subst s e.
  exists (set_data (i + 1) i (i + 1) q). split.
  { rewrite Htype. unfold set_data_index, is_asc. rewrite Hsig, Hord. cbn [negb].
    rewrite Hbs. cbn [rbind]. rewrite Hbe. reflexivity. }
  intros k Hk. pose proof (moves_within d k (set_data (i + 1) i (i + 1) q)) as Hm.
  cbn [q_signature q_curDataIndex q_endDataIndex q_startDataIndex q_order set_data] in Hm.
  rewrite Hord in Hm. cbn [order_val] in Hm.
  eexists. split; [apply Hm; [done|by left|intros; unfold in_s; lia]|]. cbn [q_curDataIndex set_data]. lia.
Qed.
End Cursor.

(** A cursor over four rows, from 15 to [en]. *)
Definition demo_query (en : Z) : QUERY :=
  {| q_signature := true; q_startTimestamp := 15; q_endTimestamp := en; q_order := ORDER_ASC;
     q_colBitmap := -1; q_logChecked := 0; q_startFileIndex := 0; q_endFileIndex := 0;
     q_curFileIndex := 0; q_startBlockIndex := 0; q_endBlockIndex := 0; q_curBlockIndex := 0;
     q_rowCount := 4; q_startDataIndex := 0; q_endDataIndex := 0; q_curDataIndex := -1;
     q_recordFd := None; q_indexFd := None; q_indexPos := 0;
     q_buf := pack_elems 8 [10; 20; 30; 40] ++ replicate 68 0 |}.

Definition demo_head : LOG_HEAD :=
  {| storeType := STORE_BY_COL; compressType := COMPRESS_NONE; hoursPerFile := 1; maxColSize := 8;
     curRowCount := 0; cacheSize := 4; rowSize := 8; dataPos := 80; startTimestamp := 0;
     endTimestamp := 0; colCount := 1; colType := [COL_TYPE_TIMESTAMP] |}.

Definition demo_db : DB :=
  {| signature := true; logHead := demo_head; logData := replicate 32 0; recordFd := None;
     indexFd := None; curFileIndex := 0; gErrorCode := 0; indexFiles := ∅; recordFiles := ∅ |}.

Lemma demo_times : Forall (in_s 64) [10; 20; 30; 40] /\ ordered [10; 20; 30; 40] /\ forall key, once key [10; 20; 30; 40].
Proof.
  split; [repeat constructor; unfold in_s; lia|]. split.
  - intros i j x y Hij Hi Hj. pose proof (lookup_lt_Some _ _ _ Hj) as Hl. simpl in Hl.
    destruct i as [|[|[|[|]]]], j as [|[|[|[|]]]]; simpl in *; simplify_eq; lia.
  - intros key i j Hi Hj. destruct i as [|[|[|[|]]]], j as [|[|[|[|]]]]; simpl in *; simplify_eq; try done; lia.
Qed.

(** From 15 to 35: rows 1 and 2. *)
Lemma block_rows_walked_witness : exists q' q1,
  set_data_index BLOCK_CONTAINING (demo_query 35) = Ret (0, q') /\
  advance (H := toy_lz4) (H0 := LP64) (fun _ _ _ _ => Ret 0) 0 (fun _ _ _ _ _ _ b => Ret b)
    (fun _ _ _ _ _ _ b => Ret b) 1 demo_db q' = Ret (Some (demo_db, q1)) /\
  q_curDataIndex q1 = 2 /\ q_endDataIndex q1 = 2.
Proof.
  destruct demo_times as (Hts & Hinc & Honce).
  destruct (block_rows_walked (H := toy_lz4) (H0 := LP64) (fun _ _ _ _ => Ret 0) 0
    (fun _ _ _ _ _ _ b => Ret b) (fun _ _ _ _ _ _ b => Ret b) [10; 20; 30; 40] (replicate 68 0)
    demo_db (demo_query 35) Hts Hinc (Honce _) (Honce _) eq_refl (or_introl eq_refl) eq_refl eq_refl)
    as (q' & lo & hi & Hset & Hle & Hsel & Hmv); [vm_compute; split; [discriminate|done]|vm_compute; discriminate| |].
  { exists 1. vm_compute. split; split; first [done|discriminate]. }
  assert (lo <= 1 <= hi) as Hin1 by (apply Hsel; vm_compute; split; split; first [done|discriminate]).
  assert (lo <= 2 <= hi) as Hin2 by (apply Hsel; vm_compute; split; split; first [done|discriminate]).
  assert (~ (lo <= 0 <= hi)) as Hout0.
  { rewrite Hsel. intros [_ [Hc _]]. vm_compute in Hc. by apply Hc. }
  assert (~ (lo <= 3 <= hi)) as Hout3.
  { rewrite Hsel. intros [_ [_ Hc]]. vm_compute in Hc. by apply Hc. }
  destruct (Hmv 1%nat) as (q1 & Hadv & Hcur & Hend); [lia|].
  exists q', q1. split; [exact Hset|]. split; [exact Hadv|].
  change (is_asc (demo_query 35)) with true in Hcur. cbn [andb] in Hcur.
  assert (q_curDataIndex q1 = 2) by lia. split; [done|]. rewrite <- (proj2 Hend) by lia. done.
Defined.

(** From 15 to 18 no row lies in the range; the third call is at row 4 of 4. *)
Lemma empty_range_escapes_witness : exists q' qk,
  set_data_index BLOCK_CONTAINING (demo_query 18) = Ret (0, q') /\
  advance (H := toy_lz4) (H0 := LP64) (fun _ _ _ _ => Ret 0) 0 (fun _ _ _ _ _ _ b => Ret b)
    (fun _ _ _ _ _ _ b => Ret b) 3 demo_db q' = Ret (Some (demo_db, qk)) /\
  q_curDataIndex qk = 4.
Proof.
  destruct demo_times as (Hts & Hinc & _).
  destruct (empty_range_escapes (H := toy_lz4) (H0 := LP64) (fun _ _ _ _ => Ret 0) 0
    (fun _ _ _ _ _ _ b => Ret b) (fun _ _ _ _ _ _ b => Ret b) [10; 20; 30; 40] (replicate 68 0)
    demo_db (demo_query 18) 0 Hts Hinc eq_refl eq_refl eq_refl eq_refl) as (q' & Hset & Hmv);
    [vm_compute; first [reflexivity|discriminate]..|].
  destruct (Hmv 3%nat) as (qk & Hadv & Hcur); [simpl; lia|].
  exists q', qk. split; [exact Hset|]. split; [exact Hadv|]. rewrite Hcur. reflexivity.
Defined.

(** C30.  In a database whose files are not compressed, [move_next] ends: whatever bytes the
    files hold, the walk over the blocks of a file and over the files of a range stops
    within the fuel given to it, with the checksum the library resolves to.  The index files
    are shorter than 80 GiB, so that the number of a block does not wrap around in 32 bits,
    and the numbers of the cursor are in their types. *)
Theorem move_next_ends `{LZ4} `{DataModel} `{SSE42Laws} (arm sse42 x64 : bool) heap decompressZlib decompressZstd d q :
  plain_store d -> in_walk q ->
  ends (move_next (taosResolveCRC arm sse42 x64) heap decompressZlib decompressZstd d q).
Proof.
  apply move_ends. intros bs len Hok Hlen. rewrite resolve_both; [done|done|unfold in_u; lia|done].
Qed.

(** A database whose only file holds other bytes than blocks. *)
Definition odd_db : DB :=
  {| signature := true; logHead := demo_head; logData := replicate 32 0; recordFd := None;
     indexFd := None; curFileIndex := 0; gErrorCode := 0; indexFiles := {[0 := replicate 100 255]};
     recordFiles := {[0 := replicate 100 7]} |}.

Lemma move_next_ends_witness :
  ends (move_next (H := toy_lz4) (H0 := LP64) (@taosResolveCRC manual_sse42 false true true) 0
    (fun _ _ _ _ _ _ b => Ret b) (fun _ _ _ _ _ _ b => Ret b) odd_db (demo_query 35)).
Proof.
  apply (move_next_ends (H := toy_lz4) (H0 := LP64) (H1 := manual_sse42) (H2 := manual_sse42_laws) false true true 0
    (fun _ _ _ _ _ _ b => Ret b) (fun _ _ _ _ _ _ b => Ret b) odd_db (demo_query 35)).
  - constructor; [by left| |]; apply map_Forall_singleton; [apply Forall_replicate; split; [discriminate|done]|cbn; unfold SIZEOF_INDEX; lia].
  - constructor; cbn; unfold in_s; lia.
Defined.
