(* ===== verification/EdbCache.v ===== *)
(** * The embedded database: the row cache (edb/src/db.c)

    The cache seen as a table of cells, [put_db] as appending a row to it, and
    the sizes [create_db] lays the mapping out with. *)
From S2P Require Import Prelude CompBase Tscompression EdbTypes EdbStore.

(** ** The cache as a table *)

(** Where column [i] begins in the cache when the rows are stored by column. *)
Definition sizes (ts : list COL_TYPE) : Z := foldr (fun t s => gColTypeSize t + s) 0 ts.
Definition col_pos (h : LOG_HEAD) (i : nat) : Z := sizes (take i (colType h)) * cacheSize h.
Definition col_size (h : LOG_HEAD) (i : nat) : Z :=
  match colType h !! i with Some t => gColTypeSize t | None => 0 end.

(** Cell [i] of row [r], all the cells of a row, and the rows in the cache. *)
Definition cell (h : LOG_HEAD) (mem : list Z) (r i : nat) : res (list Z) :=
  rd mem (col_pos h i + col_size h i * Z.of_nat r) (col_size h i).
Definition row_cells (h : LOG_HEAD) (mem : list Z) (r : nat) : list (res (list Z)) :=
  map (cell h mem r) (seq 0 (length (colType h))).
Definition cache_rows (d : DB) : list (list (res (list Z))) :=
  map (row_cells (logHead d) (logData d)) (seq 0 (Z.to_nat (curRowCount (logHead d)))).

Lemma sizes_app a b : sizes (a ++ b) = sizes a + sizes b.
Proof. induction a as [|t a IH]; cbn [sizes foldr app] in *; unfold sizes in *; [lia|]. rewrite IH. lia. Qed.

Lemma col_size_pos h i : 0 <= col_size h i.
Proof. unfold col_size. destruct (_ !! _) as [[]|]; cbn; lia. Qed.

Lemma sizes_nonneg ts : 0 <= sizes ts.
Proof. induction ts as [|t ts IH]; cbn; [lia|]. unfold sizes in IH. destruct t; cbn [gColTypeSize]; lia. Qed.

Lemma col_pos_S h i : col_pos h (S i) = col_pos h i + col_size h i * cacheSize h.
Proof.
  unfold col_pos, col_size. destruct (colType h !! i) as [t|] eqn:Ht.
  - rewrite (take_S_r _ _ _ Ht), sizes_app. cbn [sizes foldr]. lia.
  - apply lookup_ge_None in Ht. rewrite !take_ge by lia. lia.
Qed.

Lemma col_pos_mono h i j : 0 <= cacheSize h -> (i <= j)%nat -> 0 <= col_pos h i <= col_pos h j.
Proof.
  intros Hc Hij. split.
  - unfold col_pos. pose proof (sizes_nonneg (take i (colType h))). nia.
  - induction Hij as [|j Hij IH]; [lia|]. rewrite col_pos_S. pose proof (col_size_pos h j). nia.
Qed.

(** Different cells do not overlap. *)
Lemma cells_disjoint h i r j s : (r < Z.to_nat (cacheSize h))%nat -> (s < Z.to_nat (cacheSize h))%nat ->
  (i, r) <> (j, s) ->
  let a := col_pos h i + col_size h i * Z.of_nat r in
  let b := col_pos h j + col_size h j * Z.of_nat s in
  a + col_size h i <= b \/ b + col_size h j <= a.
Proof.
  intros Hr Hs Hne a b. pose proof (col_size_pos h i). pose proof (col_size_pos h j).
  destruct (lt_eq_lt_dec i j) as [[Hij|<-]|Hij].
  - left. pose proof (col_pos_mono h (S i) j ltac:(lia) Hij) as Hm. rewrite col_pos_S in Hm.
    unfold a, b. nia.
  - unfold a, b. assert (r <> s) by congruence. nia.
  - right. pose proof (col_pos_mono h (S j) i ltac:(lia) Hij) as Hm. rewrite col_pos_S in Hm.
    unfold a, b. nia.
Qed.

(** ** Adding a row *)
Section Put.
Context (h : LOG_HEAD) (r : nat) (Hcur : curRowCount h = Z.of_nat r).
Context (Hr : (r < Z.to_nat (cacheSize h))%nat).
Context (Hlen : Z.of_nat (length (colType h)) = colCount h).

Let total := col_pos h (length (colType h)).

Lemma cell_in (mem : list Z) i : (i < length (colType h))%nat -> total <= Z.of_nat (length mem) ->
  0 <= col_pos h i + col_size h i * Z.of_nat r /\
  col_pos h i + col_size h i * Z.of_nat r + col_size h i <= Z.of_nat (length mem).
Proof.
  intros Hi Hm. pose proof (col_pos_mono h (S i) (length (colType h)) ltac:(lia) Hi) as Hp.
  pose proof (col_pos_mono h i i ltac:(lia) ltac:(lia)). pose proof (col_size_pos h i).
  rewrite col_pos_S in Hp. unfold total in *. nia.
Qed.

(** [put_cols] from column [i] on writes the values it is given into the
    cells of row [r] and leaves all other cells alone. *)
Lemma put_cols_spec vals : forall n i pData data d pre,
  (1 <= i)%nat -> (n + i = length (colType h))%nat -> logHead d = h ->
  total <= Z.of_nat (length (logData d)) ->
  length vals = n -> (forall k v, vals !! k = Some v -> Z.of_nat (length v) = col_size h (i + k)) ->
  data = pre ++ concat vals -> pData = Z.of_nat (length pre) ->
  exists mem, put_cols n (Z.of_nat i) (col_pos h (i - 1)) pData data d = Ret (set_logData mem d) /\
    length mem = length (logData d) /\
    (forall k v, vals !! k = Some v -> cell h mem r (i + k) = Ret v) /\
    (forall j s, (s < Z.to_nat (cacheSize h))%nat -> s <> r \/ (j < i)%nat ->
      cell h mem s j = cell h (logData d) s j).
Proof.
  induction vals as [|v vals IH]; intros n i pData data d pre Hi Hn Hh Htot Hl Hv Hd Hp.
  - subst n. exists (logData d). cbn [put_cols length]. split; [by destruct d|].
    split; [done|]. split; [intros k w Hk; by rewrite lookup_nil in Hk|done].
  - destruct n as [|n]; [done|]. injection Hl as Hl. cbn [put_cols].
    assert (Hvi : Z.of_nat (length v) = col_size h i) by (rewrite (Hv 0%nat v eq_refl); f_equal; lia).
    destruct (lookup_lt_is_Some_2 (colType h) i) as [t Ht]; [lia|].
    destruct (lookup_lt_is_Some_2 (colType h) (i - 1)%nat) as [t' Ht']; [lia|].
    unfold col_type_at. rewrite Hh, Nat2Z.id. replace (Z.to_nat (Z.of_nat i - 1)) with (i - 1)%nat by lia.
    rewrite Ht, Ht'. cbn [rbind].
    assert (Hst : gColTypeSize t = col_size h i) by (unfold col_size; by rewrite Ht).
    assert (Hpos : col_pos h (i - 1) + gColTypeSize t' * cacheSize h = col_pos h i).
    { transitivity (col_pos h (S (i - 1))); [|f_equal; lia]. rewrite col_pos_S. unfold col_size.
      by rewrite Ht'. }
    rewrite Hst, Hpos. rewrite Hd, Hp, <- Hvi. cbn [concat].
    rewrite rd_app_mid by done. cbn [rbind]. rewrite Hvi, Hcur.
    destruct (cell_in (logData d) i ltac:(lia) Htot) as [Hc1 Hc2].
    destruct (wr_ok (logData d) (col_pos h i + col_size h i * Z.of_nat r) v Hc1) as (mem & Hw & Hml);
      [lia|]. rewrite Hw. cbn [rbind].
    destruct (IH n (S i) (Z.of_nat (length (pre ++ v))) (pre ++ v ++ concat vals) (set_logData mem d) (pre ++ v))
      as (mem' & Hr' & Hl' & Hnew & Hold); try done.
    + lia.
    + lia.
    + cbn [logData set_logData]. lia.
    + intros k w Hk. rewrite (Hv (S k) w Hk). f_equal. lia.
    + by rewrite app_assoc.
    + exists mem'. split.
      { rewrite length_app, Nat2Z.inj_add, Hvi in Hr'. replace (S i - 1)%nat with i in Hr' by lia.
        replace (Z.of_nat (S i)) with (Z.of_nat i + 1) in Hr' by lia. etransitivity; [exact Hr'|].
        by destruct d. }
      cbn [logData set_logData] in *. split; [lia|]. split.
      * intros [|k] w Hk.
        -- injection Hk as <-. rewrite Nat.add_0_r, Hold by lia. unfold cell.
           rewrite <- Hvi at 2. by apply (rd_wr_same (logData d)).
        -- replace (i + S k)%nat with (S i + k)%nat by lia. by apply Hnew.
      * intros j s Hs Hjs. rewrite Hold by lia. apply (rd_wr_other _ _ _ _ _ _ Hw). rewrite Hvi.
        apply cells_disjoint; [done|done|]. intros [= -> ->]. lia.
Qed.
End Put.

(** A handle whose cache is stored by column, in a mapping that has room for it. *)
Record cache_ok (d : DB) : Prop := {
  ok_signature : signature d = true;
  ok_store : storeType (logHead d) = STORE_BY_COL;
  ok_time : colType (logHead d) !! 0%nat = Some COL_TYPE_TIMESTAMP;
  ok_cols : Z.of_nat (length (colType (logHead d))) = colCount (logHead d);
  ok_count : 0 <= curRowCount (logHead d);
  ok_cache : in_u 16 (cacheSize (logHead d));
  ok_hours : 0 < hoursPerFile (logHead d);
  ok_room : col_pos (logHead d) (length (colType (logHead d))) <= Z.of_nat (length (logData d)) }.

(** The rows of the cache depend on the layout in the header only. *)
Lemma cells_set_rows rows st en h mem r : row_cells (set_rows rows st en h) mem r = row_cells h mem r.
Proof. done. Qed.

Lemma put_row_spec st vals d : cache_ok d -> curRowCount (logHead d) < cacheSize (logHead d) ->
  Forall2 (fun t v => Z.of_nat (length v) = gColTypeSize t) (tail (colType (logHead d))) vals ->
  exists mem, put_row st (concat vals) d = Ret (set_logData mem d) /\
    length mem = length (logData d) /\
    row_cells (logHead d) mem (Z.to_nat (curRowCount (logHead d))) = map Ret (le_bytes 8 st :: vals) /\
    forall s, (s < Z.to_nat (curRowCount (logHead d)))%nat ->
      row_cells (logHead d) mem s = row_cells (logHead d) (logData d) s.
Proof.
  intros [Hsig Hst Htime Hcols Hcnt Hcache Hhours Hroom] Hlt Hvals.
  set (h := logHead d) in *. set (r := Z.to_nat (curRowCount h)).
  assert (Hcur : curRowCount h = Z.of_nat r) by (unfold r; lia).
  assert (Hr : (r < Z.to_nat (cacheSize h))%nat) by (unfold r; lia).
  destruct (colType h) as [|t0 cols] eqn:Hct; [done|]. injection Htime as ->. cbn [tail] in Hvals.
  pose proof (Forall2_length _ _ _ Hvals) as Hlv. rewrite <- Hct in *.
  unfold put_row. fold h. rewrite Hst.
  assert (Hpos0 : col_pos h 0 = 0) by reflexivity.
  assert (Hsz0 : col_size h 0 = 8) by (unfold col_size; by rewrite Hct).
  destruct (cell_in h r Hr (logData d) 0) as [_ Hin]; [rewrite Hct; simpl; lia|done|].
  rewrite Hpos0, Hsz0 in Hin.
  destruct (wr_ok (logData d) (8 * curRowCount h) (le_bytes 8 st)) as (mem0 & Hw & Hl0);
    [lia|rewrite length_le_bytes; lia|].
  rewrite Hw. cbn [rbind].
  destruct (put_cols_spec h r Hcur Hr vals (Z.to_nat (colCount h - 1)) 1 0 (concat vals)
    (set_logData mem0 d) []) as (mem & Hp & Hl & Hnew & Hold); try done.
  - rewrite Hct in Hcols |- *. cbn [length] in Hcols |- *. lia.
  - cbn [logData set_logData]. lia.
  - rewrite Hct in Hcols. cbn [length] in Hcols. lia.
  - intros k v Hk. destruct (Forall2_lookup_r _ _ _ _ _ Hvals Hk) as (t & Ht & Hv).
    rewrite Hv. unfold col_size. rewrite Hct.
    change ((_ :: cols) !! (1 + k)%nat) with (cols !! k). by rewrite Ht.
  - change (col_pos h (1 - 1)) with 0 in Hp. change (Z.of_nat 1) with 1 in Hp.
    cbn [logData set_logData] in Hl, Hold. exists mem. split; [by rewrite Hp; destruct d|].
    split; [lia|]. split.
    + unfold row_cells. apply list_eq. intros i. rewrite list_lookup_fmap.
      destruct (decide (i < length (colType h))%nat) as [Hi|Hi].
      * rewrite lookup_seq_lt by done. cbn [fmap option_fmap option_map Nat.add].
        destruct i as [|i].
        -- cbn. apply (f_equal Some). rewrite Hold by lia. unfold cell.
           rewrite Hpos0, Hsz0, Z.add_0_l. change 8 with (Z.of_nat (length (le_bytes 8 st))) at 2.
           apply (rd_wr_same (logData d)). by rewrite <- Hcur.
        -- rewrite Hct in Hi. cbn [length] in Hi. destruct (lookup_lt_is_Some_2 vals i) as [v Hv]; [lia|].
           rewrite list_lookup_fmap. change ((_ :: vals) !! S i) with (vals !! i). rewrite Hv.
           apply (f_equal Some). apply (Hnew i v Hv).
      * rewrite (lookup_ge_None_2 (seq _ _)) by (rewrite length_seq; lia).
        rewrite (lookup_ge_None_2 (map _ _)); [done|].
        rewrite length_map. rewrite Hct in Hi. cbn [length] in *. lia.
    + intros s Hs. unfold row_cells. apply map_ext_in. intros i Hi%in_seq.
      rewrite Hold by lia. apply (rd_wr_other _ _ _ _ _ _ Hw). rewrite length_le_bytes.
      destruct i as [|i].
      * rewrite Hpos0, Hsz0. left. lia.
      * right. pose proof (col_pos_mono h 1 (S i) ltac:(lia) ltac:(lia)) as Hm.
        rewrite col_pos_S, Hpos0, Hsz0 in Hm. pose proof (col_size_pos h (S i)). nia.
Qed.

(** ** Theorems *)
Section PutDb.
Context `{LZ4} `{DataModel}.
Context (crc32c : Z -> Z -> list Z -> Z -> res Z) (malloc : Z -> option (list Z)) (heap : Z).
Context (compressZlib compressZstd : DB -> res (Z * list Z * DB)).

(** As long as the cache is not full after the row and the row belongs to the same file
    as the rows in it, [put_db] appends the row: the rows of the cache are
    afterwards the old ones followed by the time and the values given, the
    header counts them and holds the first and last time, no file changes, and
    the cache is still well formed. *)
Theorem put_db_appends st vals d : cache_ok d ->
  curRowCount (logHead d) + 1 < cacheSize (logHead d) ->
  Forall2 (fun t v => Z.of_nat (length v) = gColTypeSize t) (tail (colType (logHead d))) vals ->
  curRowCount (logHead d) = 0 \/
    file_index (logHead d) (startTimestamp (logHead d)) = file_index (logHead d) st ->
  exists d', put_db crc32c malloc heap compressZlib compressZstd st (concat vals) d = Ret (0, d') /\
    cache_ok d' /\
    cache_rows d' = cache_rows d ++ [map Ret (le_bytes 8 st :: vals)] /\
    endTimestamp (logHead d') = st /\
    startTimestamp (logHead d') =
      (if curRowCount (logHead d) =? 0 then st else startTimestamp (logHead d)) /\
    recordFiles d' = recordFiles d /\ indexFiles d' = indexFiles d.
Proof.
  intros Hok Hlt Hvals Hsame. pose proof Hok as [Hsig Hst Htime Hcols Hcnt Hcache Hhours Hroom].
  unfold in_u in Hcache. unfold put_db. cbn [signature set_gErrorCode]. rewrite Hsig. cbn [negb].
  assert (Hflush : put_flush crc32c malloc heap compressZlib compressZstd st (set_gErrorCode 0 d) =
    Ret (set_gErrorCode 0 d)).
  { unfold put_flush. cbn [logHead set_gErrorCode].
    destruct (Z.ltb_spec 0 (curRowCount (logHead d))); [|done].
    rewrite (proj2 (Z.leb_gt _ _)) by lia. destruct Hsame as [|Hsame]; [lia|].
    unfold file_index in *. destruct (_ =? 0) eqn:Hz; [unfold gMillisecondOfHour in Hz; lia|].
    cbn [rbind]. injection Hsame as ->. by rewrite Z.eqb_refl. }
  rewrite Hflush. cbn [rbind].
  destruct (put_row_spec st vals (set_gErrorCode 0 d)) as (mem & Hp & Hl & Hnew & Hold);
    [by destruct Hok; constructor|cbn [logHead set_gErrorCode]; lia|done|].
  rewrite Hp. cbn [rbind logHead logData set_gErrorCode set_logData set_logHead] in *.
  assert (Hu : u16 (curRowCount (logHead d) + 1) = curRowCount (logHead d) + 1)
    by (apply wrapu_id; unfold in_u; lia).
  cbn [cacheSize curRowCount set_rows]. rewrite Hu, (proj2 (Z.leb_gt _ _)) by lia.
  eexists. split; [done|]. split.
  - constructor; cbn; rewrite ?Hl; try done. lia.
  - split; [|done]. unfold cache_rows. cbn [logHead logData curRowCount set_rows set_logHead set_logData].
    rewrite Z2Nat.inj_add, seq_app, map_app by lia. change (Z.to_nat 1) with 1%nat.
    cbn [seq map Nat.add]. f_equal; [|by f_equal].
    apply map_ext_in. intros s Hs%in_seq. apply (Hold s). lia.
Qed.
End PutDb.

(** A database with one BIGINT column, and room for four rows. *)
Definition two_col_head : LOG_HEAD :=
  {| storeType := STORE_BY_COL; compressType := COMPRESS_NONE; hoursPerFile := 1; maxColSize := 8;
     curRowCount := 0; cacheSize := 4; rowSize := 16; dataPos := 84; startTimestamp := 0;
     endTimestamp := 0; colCount := 2; colType := [COL_TYPE_TIMESTAMP; COL_TYPE_BIG_INT] |}.

Definition two_col_db : DB :=
  {| signature := true; logHead := two_col_head; logData := replicate 64 0; recordFd := None;
     indexFd := None; curFileIndex := 0; gErrorCode := 0; indexFiles := ∅; recordFiles := ∅ |}.

Lemma put_db_appends_witness : exists d',
  put_db (H := toy_lz4) (H0 := LP64) (fun _ _ _ _ => Ret 0) (fun _ => None) 0 (fun d => Ret (0, [], d))
    (fun d => Ret (0, [], d)) 1000 (concat [le_bytes 8 77]) two_col_db = Ret (0, d') /\
  cache_rows d' = [[Ret (le_bytes 8 1000); Ret (le_bytes 8 77)]].
Proof.
  destruct (put_db_appends (H := toy_lz4) (H0 := LP64) (fun _ _ _ _ => Ret 0) (fun _ => None) 0
    (fun d => Ret (0, [], d)) (fun d => Ret (0, [], d)) 1000 [le_bytes 8 77] two_col_db)
    as (d' & Hput & _ & Hrows & _).
  - constructor; first [reflexivity | vm_compute; done | vm_compute; split; [discriminate|reflexivity]
      | vm_compute; discriminate].
  - reflexivity.
  - by constructor.
  - by left.
  - exists d'. split; [exact Hput|]. rewrite Hrows. reflexivity.
Defined.

(** ** Creating a database *)
Lemma row_sizes_spec cols m s : (length cols <= 31)%nat -> 0 <= m < 256 ->
  0 <= s -> s + 32 * Z.of_nat (length cols) < 2 ^ 16 ->
  fold_left (fun '(maxColSize, rowSize) t =>
    let colSize := gColTypeSize t in
    (if maxColSize <? colSize then u8 colSize else maxColSize, u16 (rowSize + colSize))) cols (m, s) =
  (fold_left (fun a t => Z.max a (gColTypeSize t)) cols m, s + sizes cols).
Proof.
  revert m s. induction cols as [|t cols IH]; intros m s Hn Hm Hs Hb; cbn [fold_left].
  - cbn. by rewrite Z.add_0_r.
  - cbn [length] in Hn, Hb. assert (Ht : 0 <= gColTypeSize t <= 32) by (destruct t; cbn; lia).
    replace (if m <? gColTypeSize t then u8 (gColTypeSize t) else m) with (Z.max m (gColTypeSize t)).
    2:{ rewrite (wrapu_id 8) by (unfold in_u; lia). destruct (Z.ltb_spec m (gColTypeSize t)); lia. }
    rewrite (wrapu_id 16) by (unfold in_u; lia).
    rewrite IH by lia. f_equal. cbn [sizes foldr]. unfold sizes. lia.
Qed.

Lemma create_db_both rootLen nameLen exists_ cols types cache st ct hours :
  in_u 8 cols -> in_u 16 cache -> cols <= Z.of_nat (length types) ->
  create_db rootLen nameLen exists_ cols types cache st ct hours =
    if 100 <? rootLen + nameLen then Ret (-1, None)
    else if 31 <? cols then Ret (-2, None)
    else if exists_ then Ret (-3, None)
    else
      let h := {| storeType := match ct with
                    | COMPRESS_TAOS_ONE_STEP | COMPRESS_TAOS_TWO_STEP => STORE_BY_COL
                    | _ => st end;
                  compressType := ct; hoursPerFile := hours;
                  maxColSize := fold_left (fun a t => Z.max a (gColTypeSize t))
                                  (take (Z.to_nat cols) types) 8;
                  curRowCount := 0; cacheSize := cache;
                  rowSize := sizes (COL_TYPE_TIMESTAMP :: take (Z.to_nat cols) types);
                  dataPos := 80 + 4 * cols; startTimestamp := 0; endTimestamp := 0;
                  colCount := cols + 1;
                  colType := COL_TYPE_TIMESTAMP :: take (Z.to_nat cols) types |} in
      Ret (0, Some (h, dataPos h + col_pos h (length (colType h)) - 4 * cols)).
Proof.
  intros Hc Hcache Hlen. unfold in_u in *. unfold create_db, MAX_COL_COUNT.
  destruct (100 <? _); [done|].
  replace (32 <? cols + 1) with (31 <? cols)
    by (destruct (Z.ltb_spec 31 cols), (Z.ltb_spec 32 (cols + 1)); lia).
  destruct (Z.ltb_spec 31 cols); [done|]. destruct exists_; [done|].
  rewrite (proj2 (Z.ltb_ge _ _)) by lia.
  unfold row_sizes. rewrite row_sizes_spec by (rewrite ?length_take; lia).
  rewrite (wrapu_id 16) by (unfold in_u, SIZEOF_LOG_HEAD, SIZEOF_COL_TYPE; lia).
  rewrite (wrapu_id 8) by (unfold in_u; lia).
  unfold SIZEOF_LOG_HEAD, SIZEOF_COL_TYPE. cbv zeta. cbn [dataPos colType]. unfold col_pos.
  cbn [colType cacheSize]. rewrite firstn_all.
  replace (80 + cols * 4) with (80 + 4 * cols) by lia.
  replace (8 + sizes (take (Z.to_nat cols) types)) with
    (sizes (COL_TYPE_TIMESTAMP :: take (Z.to_nat cols) types)) by reflexivity.
  apply (f_equal (fun z => Ret (0, Some (_, z)))). lia.
Qed.

(** [create_db] refuses long names, more than 31 columns and an existing
    database; otherwise it writes a header whose layout is the one the other
    operations use.  The file it allocates, however, is four bytes short of that
    layout for every column but the first. *)
Theorem create_db_spec rootLen nameLen exists_ cols types cache st ct hours :
  in_u 8 cols -> in_u 16 cache -> cols <= Z.of_nat (length types) ->
  create_db rootLen nameLen exists_ cols types cache st ct hours =
    if 100 <? rootLen + nameLen then Ret (-1, None)
    else if 31 <? cols then Ret (-2, None)
    else if exists_ then Ret (-3, None)
    else
      let h := {| storeType := match ct with
                    | COMPRESS_TAOS_ONE_STEP | COMPRESS_TAOS_TWO_STEP => STORE_BY_COL
                    | _ => st end;
                  compressType := ct; hoursPerFile := hours;
                  maxColSize := fold_left (fun a t => Z.max a (gColTypeSize t))
                                  (take (Z.to_nat cols) types) 8;
                  curRowCount := 0; cacheSize := cache;
                  rowSize := sizes (COL_TYPE_TIMESTAMP :: take (Z.to_nat cols) types);
                  dataPos := 80 + 4 * cols; startTimestamp := 0; endTimestamp := 0;
                  colCount := cols + 1;
                  colType := COL_TYPE_TIMESTAMP :: take (Z.to_nat cols) types |} in
      Ret (0, Some (h, dataPos h + col_pos h (length (colType h)) - 4 * cols)).
Proof. apply create_db_both. Qed.

(** One BIGINT column and 251 rows: 4096 bytes are allocated, 4100 are used. *)
Lemma create_db_spec_witness : exists h,
  create_db 4 4 false 1 [COL_TYPE_BIG_INT] 251 STORE_BY_COL COMPRESS_NONE 1 =
    Ret (0, Some (h, 4096)) /\ dataPos h + col_pos h (length (colType h)) = 4100.
Proof.
  pose proof (create_db_spec 4 4 false 1 [COL_TYPE_BIG_INT] 251 STORE_BY_COL COMPRESS_NONE 1
    ltac:(split; reflexivity || discriminate) ltac:(split; reflexivity || discriminate)
    ltac:(discriminate)) as Hc.
  eexists. split; [etransitivity; [exact Hc|]|]; reflexivity.
Defined.

(** [put_cols] does not return when the mapping ends before the last cell. *)
Lemma put_cols_short h r data : curRowCount h = Z.of_nat r -> Z.of_nat r + 1 = cacheSize h ->
  forall n i pData d, (1 <= i)%nat -> (n + i = length (colType h))%nat -> (1 <= n)%nat ->
  logHead d = h -> Z.of_nat (length (logData d)) < col_pos h (length (colType h)) ->
  put_cols n (Z.of_nat i) (col_pos h (i - 1)) pData data d = Undef.
Proof.
  intros Hcur Hcache. induction n as [|n IH]; intros i pData d Hi Hn H1 Hh Hs; [lia|].
  cbn [put_cols]. unfold col_type_at. rewrite Hh, Nat2Z.id.
  replace (Z.to_nat (Z.of_nat i - 1)) with (i - 1)%nat by lia.
  destruct (lookup_lt_is_Some_2 (colType h) i) as [t Ht]; [lia|].
  destruct (lookup_lt_is_Some_2 (colType h) (i - 1)%nat) as [t' Ht']; [lia|].
  rewrite Ht, Ht'. cbn [rbind].
  assert (Hst : gColTypeSize t = col_size h i) by (unfold col_size; by rewrite Ht).
  assert (Hpos : col_pos h (i - 1) + gColTypeSize t' * cacheSize h = col_pos h i).
  { transitivity (col_pos h (S (i - 1))); [|f_equal; lia]. rewrite col_pos_S. unfold col_size.
    by rewrite Ht'. }
  rewrite Hst, Hpos.
  destruct (rd data pData _) as [bs| | |] eqn:Hrd; try (unfold rd in Hrd; by case_bool_decide).
  cbn [rbind]. apply rd_Ret in Hrd as Hrd'.
  destruct (wr (logData d) _ bs) as [mem| | |] eqn:Hw; try (unfold wr in Hw; by case_bool_decide).
  cbn [rbind]. destruct n as [|n].
  - exfalso. apply wr_Ret in Hw as (_ & _ & a & b & c & Hd & Ha & Hb & _).
    assert (Hlen : length bs = Z.to_nat (col_size h i)).
    { unfold rd in Hrd. case_bool_decide; [|done]. injection Hrd as <-.
      rewrite length_take, length_drop. lia. }
    rewrite Hd, !length_app in Hs. pose proof (col_size_pos h i).
    replace (length (colType h)) with (S i) in Hs by lia. rewrite col_pos_S in Hs. nia.
  - replace (Z.of_nat i + 1) with (Z.of_nat (S i)) by lia.
    replace (col_pos h i) with (col_pos h (S i - 1)) by (f_equal; lia).
    apply IH; [lia..|done|]. apply wr_Ret in Hw as (_ & Hl & _). cbn [logData set_logData]. lia.
Qed.

(** A consequence of the missing bytes: when they do not fit in the rest of
    the last page of the file, adding the last row of the cache writes outside
    the mapping. *)
Theorem last_row_outside page rootLen nameLen cols types cache ct hours h size file idx rec :
  in_u 8 cols -> in_u 16 cache -> 1 <= cols <= Z.of_nat (length types) -> 1 <= cache ->
  create_db rootLen nameLen false cols types cache STORE_BY_COL ct hours = Ret (0, Some (h, size)) ->
  (size + page - 1) / page * page < size + 4 * cols ->
  forall start end_ st data,
    put_row st data (set_logHead (set_rows (cache - 1) start end_ h)
                       (open_db page h file size idx rec)) = Undef.
Proof.
  intros Hc Hcache Hlen H1 Hcreate Hpage start end_ st data.
  rewrite create_db_both in Hcreate by (done || lia).
  destruct (100 <? _); [done|]. destruct (31 <? cols); [done|]. cbv zeta in Hcreate.
  injection Hcreate as Hh Hsize.
  assert (Hstore : storeType h = STORE_BY_COL) by (subst h; by destruct ct).
  assert (Hn : length (colType h) = S (Z.to_nat cols))
    by (subst h; cbn [colType length]; rewrite length_take; lia).
  assert (Hcols : colCount h = cols + 1) by by subst h.
  assert (Hcs : cacheSize h = cache) by by subst h.
  assert (Hs : size + 4 * cols = dataPos h + col_pos h (length (colType h)))
    by (rewrite <- Hsize, <- Hh; apply Z.sub_add).
  assert (Hpos1 : col_pos h 1 = 8 * cache) by (rewrite <- Hh; reflexivity).
  clear Hh Hsize. set (h' := set_rows (cache - 1) start end_ h).
  assert (Hmem : Z.of_nat (length (logData (open_db page h file size idx rec))) <
    col_pos h' (length (colType h'))).
  { change (col_pos h' (length (colType h'))) with (col_pos h (length (colType h))).
    unfold open_db. cbn [logData]. rewrite length_take, length_app, length_replicate.
    pose proof (col_pos_mono h 1 (length (colType h)) ltac:(lia) ltac:(lia)) as [Hp0 Hp].
    lia. }
  unfold put_row. cbn [logHead set_logHead]. change (storeType h') with (storeType h). rewrite Hstore.
  cbn [logData set_logHead].
  destruct (wr _ (8 * _) _) as [mem| | |] eqn:Hw; try (unfold wr in Hw; by case_bool_decide).
  cbn [rbind]. apply wr_Ret in Hw as (_ & Hl & _).
  change (colCount h') with (colCount h). rewrite Hcols, Z.add_simpl_r.
  apply (put_cols_short h' (Z.to_nat (cache - 1)) data) with (i := 1%nat).
  - cbn. lia.
  - change (cacheSize h') with (cacheSize h). lia.
  - lia.
  - change (colType h') with (colType h). lia.
  - lia.
  - done.
  - cbn [logData set_logData]. rewrite Hl. exact Hmem.
Qed.

(** The database of the previous witness, with pages of 4096 bytes. *)
Lemma last_row_outside_witness : exists h,
  create_db 4 4 false 1 [COL_TYPE_BIG_INT] 251 STORE_BY_COL COMPRESS_NONE 1 = Ret (0, Some (h, 4096)) /\
  put_row 1000 (le_bytes 8 7) (set_logHead (set_rows 250 0 0 h) (open_db 4096 h [] 4096 ∅ ∅)) = Undef.
Proof.
  eexists. split; [reflexivity|].
  apply (last_row_outside 4096 4 4 1 [COL_TYPE_BIG_INT] 251 COMPRESS_NONE 1 _ 4096 [] ∅ ∅).
  - split; [discriminate|reflexivity].
  - split; [discriminate|reflexivity].
  - split; discriminate.
  - discriminate.
  - reflexivity.
  - reflexivity.
Defined.
