(* ===== verification/EdbBlocks.v ===== *)
(** * The embedded database: blocks on disk (edb/src/db.c, compress.c, query.c)

    Saving an uncompressed cache and reading it back: what [saveToFile] appends
    to the two files of a period, and what [check_block] makes of it. *)
From S2P Require Import Prelude CompBase Tscompression Crc32c EdbTypes EdbStore EdbQuery EdbCache.

Lemma rd_head a b len : len = Z.of_nat (length a) -> rd (a ++ b) 0 len = Ret a.
Proof. intros Hl. by apply (rd_app_mid []). Qed.

(** ** The shape of a block *)
Section Block.
Context `{Checksum crc32c heap}.

(** The bytes of column [i] in the cache, and sealed as they are written. *)
Definition block_col (h : LOG_HEAD) (mem : list Z) (i : nat) : list Z :=
  take (Z.to_nat (col_size h i * curRowCount h)) (drop (Z.to_nat (col_pos h i)) mem).
Definition sealed (bs : list Z) : list Z := bs ++ le_bytes 4 (record_sum bs).
Definition block_bytes (h : LOG_HEAD) (mem : list Z) (i n : nat) : list Z :=
  concat (map (fun j => sealed (block_col h mem j)) (seq i n)).
Definition block_lens (h : LOG_HEAD) (i n : nat) : list Z :=
  map (fun j => col_size h j * curRowCount h + 4) (seq i n).

(** A cache stored by column that can be saved. *)
Record save_ok (d : DB) : Prop := {
  sv_signature : signature d = true;
  sv_bytes : bytes_ok (logData d);
  sv_cols : Z.of_nat (length (colType (logHead d))) = colCount (logHead d);
  sv_rows : 0 <= curRowCount (logHead d) <= cacheSize (logHead d);
  sv_max : forall i, col_size (logHead d) i <= maxColSize (logHead d);
  sv_room : col_pos (logHead d) (length (colType (logHead d))) <= Z.of_nat (length (logData d)) }.

Lemma col_in h (mem : list Z) i : 0 <= curRowCount h <= cacheSize h -> (i < length (colType h))%nat ->
  col_pos h (length (colType h)) <= Z.of_nat (length mem) ->
  0 <= col_pos h i /\ 0 <= col_size h i * curRowCount h /\
  col_pos h i + col_size h i * curRowCount h <= Z.of_nat (length mem).
Proof using.
  intros Hc Hi Hm. pose proof (col_pos_mono h (S i) (length (colType h)) ltac:(lia) Hi) as Hp.
  pose proof (col_pos_mono h i i ltac:(lia) ltac:(lia)). pose proof (col_size_pos h i).
  rewrite col_pos_S in Hp. nia.
Qed.

Lemma length_block_col h mem i : 0 <= curRowCount h <= cacheSize h -> (i < length (colType h))%nat ->
  col_pos h (length (colType h)) <= Z.of_nat (length mem) ->
  Z.of_nat (length (block_col h mem i)) = col_size h i * curRowCount h.
Proof using.
  intros Hc Hi Hm. destruct (col_in h mem i Hc Hi Hm) as (? & ? & ?).
  unfold block_col. rewrite length_take, length_drop. lia.
Qed.

Lemma rd_block_col h mem i : 0 <= curRowCount h <= cacheSize h -> (i < length (colType h))%nat ->
  col_pos h (length (colType h)) <= Z.of_nat (length mem) ->
  rd mem (col_pos h i) (col_size h i * curRowCount h) = Ret (block_col h mem i).
Proof using.
  intros Hc Hi Hm. destruct (col_in h mem i Hc Hi Hm) as (? & ? & ?).
  unfold rd. by rewrite bool_decide_true by lia.
Qed.

Lemma length_sealed bs : Z.of_nat (length (sealed bs)) = Z.of_nat (length bs) + 4.
Proof using. unfold sealed. rewrite length_app, length_le_bytes. lia. Qed.

(** One column sealed in the output buffer and appended to the record file. *)
Lemma seal_and_write_spec d src out k f : bytes_ok src -> bytes_ok out ->
  Z.of_nat (length src) + 4 <= Z.of_nat (length out) ->
  recordFd d = Some k -> recordFiles d !! k = Some f ->
  exists out', (let! o := wr out 0 src in seal_and_write crc32c heap o (Z.of_nat (length src) + 4) d) =
    Ret (out', set_recordFiles (<[k := f ++ sealed src]> (recordFiles d)) d) /\
    length out' = length out /\ bytes_ok out'.
Proof.
  intros Hs Ho Hl Hfd Hf.
  assert (exists old room post, out = old ++ room ++ post /\ length old = length src /\
    length room = 4%nat) as (old & room & post & -> & Hol & Hrl).
  { exists (take (length src) out), (take 4 (drop (length src) out)), (drop (length src + 4) out).
    rewrite <- drop_drop, !take_drop, !length_take, length_drop. split; [done|lia]. }
  pose proof (wr_app_mid [] old (room ++ post) 0 src eq_refl Hol) as Hw. cbn [app] in Hw.
  rewrite Hw. cbn [rbind]. apply bytes_ok_app in Ho as [_ Hok].
  unfold seal_and_write. rewrite seal; [|by apply bytes_ok_app|done].
  cbn [rbind default from_option id].
  assert (Hrd : rd (src ++ le_bytes 4 (record_sum src) ++ post) 0 (Z.of_nat (length src) + 4) =
    Ret (sealed src)).
  { rewrite app_assoc. apply rd_head. by rewrite <- length_sealed. }
  rewrite Hrd. cbn [rbind].
  unfold write_record. rewrite Hfd. cbn [file_of]. rewrite Hf. cbn [rbind].
  eexists. split; [done|]. split.
  - rewrite !length_app, length_le_bytes. lia.
  - rewrite !bytes_ok_app. apply bytes_ok_app in Hok as [_ ?]. repeat split; [done|apply le_bytes_ok|done].
Qed.

(** [compressNone] appends the sealed columns to the record file. *)
Lemma none_loop_spec h mem k n : 0 <= curRowCount h <= cacheSize h -> bytes_ok mem ->
  col_pos h (length (colType h)) <= Z.of_nat (length mem) ->
  forall i total lens out d f, (n + i = length (colType h))%nat ->
  logHead d = h -> logData d = mem -> recordFd d = Some k -> recordFiles d !! k = Some f ->
  bytes_ok out -> (forall j, col_size h j * curRowCount h + 4 <= Z.of_nat (length out)) ->
  none_loop crc32c heap n (Z.of_nat i) (curRowCount h) (col_pos h i) total lens out d =
    Ret (total + Z.of_nat (length (block_bytes h mem i n)), lens ++ block_lens h i n,
         set_recordFiles (<[k := f ++ block_bytes h mem i n]> (recordFiles d)) d).
Proof.
  intros Hc Hmem Hroom. induction n as [|n IH]; intros i total lens out d f Hn Hh Hd Hfd Hf Ho Hlen;
    cbn [none_loop].
  - unfold block_bytes, block_lens. cbn [seq map concat]. rewrite !app_nil_r, insert_id by done.
    cbn [length]. rewrite Z.add_0_r. by destruct d.
  - destruct (lookup_lt_is_Some_2 (colType h) i) as [t Ht]; [lia|].
    unfold col_type_at. rewrite Hh, Nat2Z.id, Ht. cbn [rbind].
    assert (Hst : gColTypeSize t = col_size h i) by (unfold col_size; by rewrite Ht).
    rewrite Hst, Hd, rd_block_col by (done || lia). cbn [rbind].
    pose proof (length_block_col h mem i Hc ltac:(lia) Hroom) as Hcl.
    specialize (Hlen i) as Hli.
    destruct (seal_and_write_spec d (block_col h mem i) out k f) as (out' & Hw & Hl' & Hok');
      [by apply Forall_take, Forall_drop|done|lia|done|done|].
    rewrite <- Hcl. unfold SIZEOF_TSCKSUM.
    rewrite <- rbind_assoc. cbv beta in Hw |- *.
    match goal with |- rbind ?m _ = _ => replace m with
      (Ret (out', set_recordFiles (<[k := f ++ sealed (block_col h mem i)]> (recordFiles d)) d)) end.
    cbn [rbind logHead set_recordFiles]. rewrite Hh.
    replace (col_pos h i + col_size h i * cacheSize h) with (col_pos h (S i)) by by rewrite col_pos_S.
    replace (Z.of_nat i + 1) with (Z.of_nat (S i)) by lia.
    erewrite IH; [|lia|done|done|done|cbn [recordFiles set_recordFiles]; apply lookup_insert_eq|done|].
    + unfold block_bytes, block_lens. cbn [seq map concat set_recordFiles recordFiles].
      rewrite insert_insert_eq, length_app, <- !app_assoc, Hcl. cbn [app].
      rewrite Nat2Z.inj_add, length_sealed, Hcl. do 2 f_equal. f_equal. lia.
    + intros j. rewrite Hl'. apply Hlen.
Qed.

(** Reading the columns of such a block back.  [h] is the header at the time
    the block was written; the reader's may count other rows. *)
Context `{LZ4} `{DataModel}.
Context (decompressZlib decompressZstd :
  DB -> list Z -> INDEX -> Z -> Z -> Z -> list Z -> res (list Z)).

Definition selected (bitmap : Z) (i : nat) : Prop :=
  Z.land bitmap (i32 (Z.shiftl 1 (Z.of_nat i))) <> 0.

Lemma block_cols_spec h mem d bitmap ix pre post : 0 <= curRowCount h <= cacheSize h ->
  bytes_ok mem -> col_pos h (length (colType h)) <= Z.of_nat (length mem) ->
  signature d = true -> compressType (logHead d) = COMPRESS_NONE ->
  colType (logHead d) = colType h -> cacheSize (logHead d) = cacheSize h ->
  ix_rowCount ix = curRowCount h -> ix_colLens ix = block_lens h 0 (length (colType h)) ->
  forall n i buf, (n + i = length (colType h))%nat ->
  col_pos h (length (colType h)) <= Z.of_nat (length buf) ->
  exists buf', block_cols crc32c heap decompressZlib decompressZstd n d bitmap
      (pre ++ block_bytes h mem 0 (length (colType h)) ++ post) ix (Z.of_nat i)
      (Z.of_nat (length (pre ++ block_bytes h mem 0 i))) (col_pos h i) buf = Ret (0, buf') /\
    length buf' = length buf /\
    (forall off len, off + len <= col_pos h i -> rd buf' off len = rd buf off len) /\
    forall j, (i <= j < length (colType h))%nat -> selected bitmap j ->
      rd buf' (col_pos h j) (col_size h j * curRowCount h) = Ret (block_col h mem j).
Proof.
  intros Hc Hmem Hroom Hsig Hnone Htypes Hcache Hrows Hlens.
  induction n as [|n IH]; intros i buf Hn Hbuf; cbn [block_cols].
  { exists buf. split; [done|]. split; [done|]. split; [done|]. intros j Hj. lia. }
  assert (Hsplit : block_bytes h mem 0 (length (colType h)) =
    block_bytes h mem 0 i ++ sealed (block_col h mem i) ++ block_bytes h mem (S i) n).
  { unfold block_bytes. rewrite <- Hn. replace (S n + i)%nat with (i + S n)%nat by lia.
    rewrite seq_app, map_app, concat_app. done. }
  assert (Hli : ix_colLens ix !! i = Some (col_size h i * curRowCount h + 4)).
  { rewrite Hlens. unfold block_lens. rewrite list_lookup_fmap, lookup_seq_lt by lia. done. }
  destruct (lookup_lt_is_Some_2 (colType h) i) as [t Ht]; [lia|].
  assert (Hst : gColTypeSize t = col_size h i) by (unfold col_size; by rewrite Ht).
  rewrite Nat2Z.id, Hli. unfold col_type_at at 1. rewrite Htypes, Nat2Z.id, Ht.
  cbn [rbind]. rewrite Hcache, Hst, Hnone. pose proof (length_block_col h mem i Hc ltac:(lia) Hroom) as Hcl.
  pose proof (col_pos_S h i) as HpS. replace (Z.of_nat i + 1) with (Z.of_nat (S i)) by lia.
  rewrite <- HpS.
  assert (Hoff : Z.of_nat (length (pre ++ block_bytes h mem 0 i)) + (col_size h i * curRowCount h + 4) =
    Z.of_nat (length (pre ++ block_bytes h mem 0 (S i)))).
  { unfold block_bytes. rewrite seq_S, map_app, concat_app. cbn [map concat Nat.add].
    rewrite app_nil_r, !length_app, !Nat2Z.inj_add, length_sealed. lia. }
  rewrite Hoff. pose proof (col_size_pos h i) as Hsz.
  pose proof (col_pos_mono h (S i) (length (colType h)) ltac:(lia) ltac:(lia)) as Hmono.
  pose proof (col_pos_mono h i (S i) ltac:(lia) ltac:(lia)) as Hmono'.
  destruct (negb _) eqn:Hbit.
  - rewrite (proj2 (Z.ltb_ge _ _)) by nia. rewrite (proj2 (Z.ltb_ge _ _)).
    2:{ rewrite Hsplit. rewrite app_assoc, <- app_assoc, app_assoc, <- Hoff.
        rewrite !length_app, !Nat2Z.inj_add, length_sealed. lia. }
    rewrite Hsplit. rewrite <- !app_assoc, app_assoc.
    rewrite rd_app_mid; [|done|by rewrite length_sealed, Hcl]. cbn [rbind].
    unfold sealed at 1. rewrite <- Hcl, seal_ok by by apply Forall_take, Forall_drop.
    cbn [rbind negb gDecompress]. unfold decompressNone. rewrite Hsig. cbn [negb].
    unfold col_type_at at 1. rewrite Htypes, Nat2Z.id, Ht. cbn [rbind].
    rewrite Hst, Hrows. unfold sealed at 1.
    rewrite rd_head by done. cbn [rbind].
    destruct (wr_ok buf (col_pos h i) (block_col h mem i)) as (b1 & Hw & Hl1); [lia|nia|].
    rewrite Hw. cbn [rbind].
    destruct (IH (S i) b1) as (buf' & Hrun & Hl & Hold & Hnew); [lia|lia|].
    rewrite Hsplit, <- !app_assoc, app_assoc in Hrun.
    exists buf'. split; [exact Hrun|]. split; [lia|]. split.
    + intros off len Ho. rewrite Hold by lia. apply (rd_wr_other _ _ _ _ _ _ Hw). lia.
    + intros j Hj Hsel. destruct (decide (j = i)) as [->|]; [|by apply Hnew; [lia|]].
      rewrite Hold by nia. rewrite <- Hcl. by apply (rd_wr_same buf).
  - destruct (IH (S i) buf) as (buf' & Hrun & Hl & Hold & Hnew); [lia|lia|].
    exists buf'. split; [exact Hrun|]. split; [lia|]. split.
    + intros off len Ho. apply Hold. lia.
    + intros j Hj Hsel. destruct (decide (j = i)) as [->|]; [|by apply Hnew; [lia|]].
      exfalso. apply Hsel. apply negb_false_iff in Hbit. by apply Z.eqb_eq.
Qed.

(** The index record at a multiple of the record size. *)
Lemma read_index_back ipre ix ipost b pos : index_ok ix -> 0 <= b ->
  Z.of_nat (length ipre) = b * (SIZEOF_INDEX + 4 * Z.of_nat (length (ix_colLens ix))) -> Z.of_nat (length ipre) < 2 ^ 31 ->
  read_index (ipre ++ index_bytes ix ++ ipost) (Z.of_nat (length (ix_colLens ix)))
    (seek_index b (Z.of_nat (length (ix_colLens ix))) pos) =
  (ix, Z.of_nat (length (ipre ++ index_bytes ix))).
Proof using.
  intros Hix Hb Hpre Hlt. unfold seek_index, read_index, SIZEOF_INDEX in *.
  rewrite wraps_id by (unfold in_s; lia). rewrite (proj2 (Z.ltb_ge _ _)) by lia. rewrite <- Hpre, !Nat2Z.id, drop_app_length.
  pose proof (length_index_bytes ix) as Hl.
  replace (Z.to_nat (40 + 4 * Z.of_nat (length (ix_colLens ix)))) with (length (index_bytes ix)) by lia.
  rewrite take_app_length, Nat.sub_diag. cbn [replicate]. rewrite index_back by done.
  by rewrite length_app, Nat2Z.inj_add.
Qed.

(** A block written from [mem], as [check_block] finds it. *)
Lemma check_block_spec h mem d q k ipre ix ipost pre post : 0 <= curRowCount h <= cacheSize h ->
  bytes_ok mem -> col_pos h (length (colType h)) <= Z.of_nat (length mem) ->
  signature d = true -> compressType (logHead d) = COMPRESS_NONE ->
  colType (logHead d) = colType h -> cacheSize (logHead d) = cacheSize h ->
  colCount (logHead d) = Z.of_nat (length (colType h)) ->
  index_ok ix -> ix_rowCount ix = curRowCount h ->
  ix_colLens ix = block_lens h 0 (length (colType h)) ->
  ix_dataOffset ix = Z.of_nat (length pre) ->
  indexFiles d !! k = Some (ipre ++ index_bytes ix ++ ipost) ->
  recordFiles d !! k = Some (pre ++ block_bytes h mem 0 (length (colType h)) ++ post) ->
  q_signature q = true -> q_indexFd q = Some (Some k) -> q_recordFd q = Some (Some k) ->
  0 <= q_curBlockIndex q -> Z.of_nat (length ipre) =
    q_curBlockIndex q * (SIZEOF_INDEX + 4 * Z.of_nat (length (colType h))) -> Z.of_nat (length ipre) < 2 ^ 31 ->
  col_pos h (length (colType h)) <= Z.of_nat (length (q_buf q)) ->
  let type := get_block_type (ix_startTimestamp ix) (ix_endTimestamp ix) (q_startTimestamp q)
                (q_endTimestamp q) in
  block_type_val BLOCK_EQUAL <= block_type_val type ->
  exists buf pos, check_block crc32c heap decompressZlib decompressZstd d q =
      (let! s := set_data_index type (set_rows_buf (curRowCount h) buf (set_indexPos pos q)) in
       Ret (0, s.2)) /\
    forall j, (j < length (colType h))%nat -> selected (q_colBitmap q) j ->
      rd buf (col_pos h j) (col_size h j * curRowCount h) = Ret (block_col h mem j).
Proof.
  intros Hc Hmem Hroom Hsig Hnone Htypes Hcache Hcols Hix Hrows Hlens Hoff Hidx Hrec Hqs Hqi Hqr
    Hb Hpre Hi32 Hbuf type Htype.
  assert (Hll : length (ix_colLens ix) = length (colType h))
    by (rewrite Hlens; unfold block_lens; by rewrite length_map, length_seq).
  destruct (block_cols_spec h mem d (q_colBitmap q) ix pre post Hc Hmem Hroom Hsig Hnone Htypes Hcache
    Hrows Hlens (length (colType h)) 0 (q_buf q) ltac:(lia) Hbuf) as (buf & Hrun & _ & _ & Hnew).
  exists buf, (Z.of_nat (length (ipre ++ index_bytes ix))). split.
  - unfold check_block. rewrite Hqs, Hqi, Hqr. cbn [negb file_of]. rewrite Hidx, Hrec. cbn [rbind].
    rewrite Hcols, <- Hll in *. rewrite read_index_back by (done || by rewrite ?Hpre, <- ?Hll).
    cbv zeta. cbn [q_startTimestamp q_endTimestamp q_colBitmap q_buf set_indexPos]. fold type.
    rewrite (proj2 (Z.ltb_ge _ _)) by done. rewrite Nat2Z.id, Hoff.
    change (Z.of_nat 0) with 0 in Hrun. change (col_pos h 0) with 0 in Hrun.
    unfold block_bytes at 2 in Hrun. cbn [seq map concat] in Hrun. rewrite app_nil_r in Hrun.
    rewrite Hrun. cbn [rbind Z.eqb negb]. by rewrite Hrows.
  - intros j Hj Hsel. apply Hnew; [lia|done].
Qed.

(** ** Saving *)
(** The index record of a block at offset [off]. *)
Definition block_index (h : LOG_HEAD) (mem : list Z) (off : Z) : INDEX :=
  let n := length (colType h) in
  {| ix_rowCount := curRowCount h; ix_startTimestamp := startTimestamp h;
     ix_endTimestamp := endTimestamp h; ix_dataOffset := off;
     ix_dataLength := Z.of_nat (length (block_bytes h mem 0 n));
     ix_colLens := block_lens h 0 n |}.

(** Block [b] of period [k] holds the cache [mem] with header [h]. *)
Definition block_at (d : DB) (k b : Z) (h : LOG_HEAD) (mem : list Z) : Prop :=
  exists ipre ipost pre post, 0 <= b /\
    Z.of_nat (length ipre) = b * (SIZEOF_INDEX + 4 * Z.of_nat (length (colType h))) /\
    indexFiles d !! k =
      Some (ipre ++ index_bytes (block_index h mem (Z.of_nat (length pre))) ++ ipost) /\
    recordFiles d !! k = Some (pre ++ block_bytes h mem 0 (length (colType h)) ++ post) /\
    Z.of_nat (length pre) < 2 ^ 31.

Context (malloc : Z -> option (list Z)).
Context (compressZlib compressZstd : DB -> res (Z * list Z * DB)).

(** The files of period [cur] as [saveToFile] finds them: open already, or
    opened, and created where they do not exist. *)
Definition files_before (d : DB) (cur : Z) (fi fr : list Z) : Prop :=
  (curFileIndex d <> cur /\ default [] (indexFiles d !! cur) = fi /\
     default [] (recordFiles d !! cur) = fr) \/
  (curFileIndex d = cur /\ indexFd d = Some cur /\ recordFd d = Some cur /\
     indexFiles d !! cur = Some fi /\ recordFiles d !! cur = Some fr).

Lemma block_nonempty h mem n : (0 < n)%nat -> (0 < length (block_bytes h mem 0 n))%nat.
Proof using.
  intros Hn. destruct n as [|n]; [lia|]. unfold block_bytes. cbn [seq map concat].
  rewrite length_app. unfold sealed. rewrite length_app, length_le_bytes. lia.
Qed.

Lemma saveToFile_spec d out fi fr t cur : save_ok d -> (0 < length (colType (logHead d)))%nat ->
  compressType (logHead d) = COMPRESS_NONE ->
  malloc (maxColSize (logHead d) * curRowCount (logHead d) + SIZEOF_TSCKSUM) = Some out ->
  Z.of_nat (length out) = maxColSize (logHead d) * curRowCount (logHead d) + SIZEOF_TSCKSUM ->
  bytes_ok out -> rds 8 (logData d) 0 = Ret t -> file_index (logHead d) t = Ret cur ->
  files_before d cur fi fr -> Z.of_nat (length fr) < 2 ^ 31 ->
  exists d', saveToFile crc32c malloc heap compressZlib compressZstd d = Ret (0, d') /\
    signature d' = true /\ logHead d' = set_rows 0 0 0 (logHead d) /\ logData d' = logData d /\
    indexFiles d' !! cur = Some (fi ++ index_bytes (block_index (logHead d) (logData d) (Z.of_nat (length fr)))) /\
    recordFiles d' !! cur =
      Some (fr ++ block_bytes (logHead d) (logData d) 0 (length (colType (logHead d)))) /\
    (forall k, k <> cur -> indexFiles d' !! k = indexFiles d !! k /\
      recordFiles d' !! k = recordFiles d !! k) /\
    curFileIndex d' = cur /\ indexFd d' = Some cur /\ recordFd d' = Some cur.
Proof.
  intros [Hsig Hbytes Hcols Hrows Hmax Hroom] Hpos Hnone Hmal Hout Hook Ht Hcur Hfiles Hfr.
  set (h := logHead d) in *. unfold saveToFile. cbn [signature set_gErrorCode]. rewrite Hsig.
  cbn [negb logData logHead set_gErrorCode]. fold h. rewrite Ht. cbn [rbind]. rewrite Hcur.
  cbn [rbind curFileIndex set_gErrorCode].
  set (d1 := if curFileIndex d =? cur then _ else _).
  assert (Hd1 : signature d1 = true /\ logHead d1 = h /\ logData d1 = logData d /\
    recordFd d1 = Some cur /\ indexFd d1 = Some cur /\ curFileIndex d1 = cur /\
    indexFiles d1 !! cur = Some fi /\ recordFiles d1 !! cur = Some fr /\
    forall k, k <> cur -> indexFiles d1 !! k = indexFiles d !! k /\
      recordFiles d1 !! k = recordFiles d !! k).
  { unfold d1. destruct Hfiles as [(Hne & <- & <-)|(Hcf & Hi & Hr & E1 & E2)].
    - rewrite (proj2 (Z.eqb_neq _ _) Hne). cbn. rewrite !lookup_insert_eq.
      split_and!; try done. intros k Hk. by rewrite !lookup_insert_ne.
    - rewrite Hcf, Z.eqb_refl. by split_and!. }
  clearbody d1. destruct Hd1 as (Hs1 & Hh1 & Hl1 & Hr1 & Hi1 & Hc1 & Hfi & Hff & Hother).
  rewrite Hr1. cbn [file_of]. rewrite Hff. cbn [rbind]. rewrite Hh1, Hnone. cbn [gCompress].
  unfold compressNone. rewrite Hs1. cbn [negb]. rewrite Hh1, Hmal.
  rewrite <- Hcols, Nat2Z.id.
  pose proof (none_loop_spec h (logData d) cur (length (colType h)) Hrows Hbytes Hroom 0 0 [] out d1 fr
    ltac:(lia) Hh1 Hl1 Hr1 Hff Hook) as Hloop.
  change (Z.of_nat 0) with 0 in Hloop. change (col_pos h 0) with 0 in Hloop. rewrite Hloop.
  2:{ intros j. specialize (Hmax j). pose proof (col_size_pos h j). unfold SIZEOF_TSCKSUM in Hout. nia. }
  cbn [rbind]. rewrite Z.add_0_l.
  pose proof (block_nonempty h (logData d) (length (colType h)) Hpos) as Hne.
  rewrite (proj2 (Z.ltb_lt _ _)) by lia.
  cbn [logHead set_recordFiles]. rewrite Hh1. unfold write_index.
  cbn [indexFd set_recordFiles indexFiles]. rewrite Hi1. cbn [file_of]. rewrite Hfi. cbn [rbind].
  rewrite (wraps_id 32) by (unfold in_s; lia).
  eexists. split; [reflexivity|]. cbn. rewrite !lookup_insert_eq.
  split_and!; try done.
  intros k Hk. rewrite !lookup_insert_ne by done. by apply Hother.
Qed.


(** Reading a block: the buffer of the query receives every selected column
    of the rows that were saved, and the cursor is placed on exactly the rows
    whose time is in the range of the query.  The times of the rows do not go back; the
    range overlaps the block, neither begins nor ends with it, has one of its rows at least,
    and begins and ends at times that no two rows have; the record of the block lies in the
    first 2^31 bytes of the index file. *)
Theorem read_block d q k b h mem ts : block_at d k b h mem ->
  0 <= curRowCount h <= cacheSize h -> bytes_ok mem ->
  col_pos h (length (colType h)) <= Z.of_nat (length mem) ->
  signature d = true -> compressType (logHead d) = COMPRESS_NONE ->
  colType (logHead d) = colType h -> cacheSize (logHead d) = cacheSize h ->
  colCount (logHead d) = Z.of_nat (length (colType h)) ->
  (forall off, 0 <= off < 2 ^ 31 -> index_ok (block_index h mem off)) ->
  b * (SIZEOF_INDEX + 4 * Z.of_nat (length (colType h))) < 2 ^ 31 ->
  Forall (in_s 64) ts -> ordered ts -> once (q_startTimestamp q) ts -> once (q_endTimestamp q) ts ->
  Z.of_nat (length ts) = curRowCount h ->
  colType h !! 0%nat = Some COL_TYPE_TIMESTAMP -> block_col h mem 0 = pack_elems 8 ts ->
  startTimestamp h = at_ ts 0 -> endTimestamp h = at_ ts (curRowCount h - 1) ->
  q_signature q = true -> q_indexFd q = Some (Some k) -> q_recordFd q = Some (Some k) ->
  q_curBlockIndex q = b -> col_pos h (length (colType h)) <= Z.of_nat (length (q_buf q)) ->
  selected (q_colBitmap q) 0 ->
  block_type_val BLOCK_EQUAL <= block_type_val
    (get_block_type (startTimestamp h) (endTimestamp h) (q_startTimestamp q) (q_endTimestamp q)) ->
  let in_range r := 0 <= r < curRowCount h /\ q_startTimestamp q <= at_ ts r <= q_endTimestamp q in
  (exists r, in_range r) ->
  exists q' lo hi, check_block crc32c heap decompressZlib decompressZstd d q = Ret (0, q') /\
    (forall j, (j < length (colType h))%nat -> selected (q_colBitmap q) j ->
      rd (q_buf q') (col_pos h j) (col_size h j * curRowCount h) = Ret (block_col h mem j)) /\
    q_rowCount q' = curRowCount h /\ lo <= hi /\ (forall r, lo <= r <= hi <-> in_range r) /\
    q_curDataIndex q' = (if is_asc q then lo else hi) /\
    q_endDataIndex q' = (if is_asc q then hi else lo).
Proof.
  intros (ipre & ipost & pre & post & Hb & Hpre & Hidx & Hrec & Hlt) Hc Hmem Hroom Hsig Hnone Htypes
    Hcache Hcols Hix Hseek Hts Hinc Hfrom Hto Hlen Htime Hcol0 Hst Hen Hqs Hqi Hqr Hqb Hbuf Hsel Htype in_range [r0 [Hr0 Hin0]].
  assert (Hne : ts <> []) by (intros ->; cbn in Hlen; lia).
  set (ix := block_index h mem (Z.of_nat (length pre))) in *.
  assert (Hcols0 : (0 < length (colType h))%nat) by (destruct (colType h); [done|cbn [length]; lia]).
  destruct (check_block_spec h mem d q k ipre ix ipost pre post Hc Hmem Hroom Hsig Hnone Htypes Hcache
    Hcols (Hix (Z.of_nat (length pre)) ltac:(lia)) eq_refl eq_refl eq_refl Hidx Hrec Hqs Hqi Hqr ltac:(lia)
    ltac:(by rewrite Hqb) ltac:(lia) Hbuf Htype) as (buf & pos & Hrun & Hbufs).
  pose proof (Hbufs 0%nat Hcols0 Hsel) as H00. rewrite Hcol0 in H00.
  change (col_pos h 0) with 0 in H00. apply rd_Ret in H00 as (x & y & Hxy & Hx & Hlx).
  assert (x = []) as -> by (destruct x; [done|cbn in Hx; lia]). cbn [app] in Hxy.
  change (ix_startTimestamp ix) with (startTimestamp h) in Hrun.
  change (ix_endTimestamp ix) with (endTimestamp h) in Hrun.
  set (q0 := set_rows_buf (curRowCount h) buf (set_indexPos pos q)) in *.
  destruct (set_data_index_both ts y Hts Hinc Hne q0 Hqs Hxy (eq_sym Hlen) Hfrom Hto)
    as (q' & lo & hi & Hset & Hlo & Hhi & Hq' & Hrows).
  { rewrite Hlen, <- Hst, <- Hen. exact Htype. }
  rewrite Hlen, <- Hst, <- Hen in Hset. cbn [q_startTimestamp q_endTimestamp q0 set_rows_buf set_indexPos] in Hset.
  pose proof (proj2 (Hrows r0 ltac:(lia)) Hin0) as Hle.
  exists q', lo, hi. split; [rewrite Hrun, Hset; done|]. subst q'.
  split; [exact Hbufs|]. split; [done|]. split; [lia|]. split; [|done].
  intros r. unfold in_range. split; [intros Hr; split; [lia|apply Hrows; lia]|intros [Hr Ht]; apply Hrows; [lia|done]].
Qed.
End Block.

(** Two rows of a time and a BIGINT. *)
Definition saved_head : LOG_HEAD := set_rows 2 3600000 3600005 two_col_head.
Definition saved_mem : list Z := pack_elems 8 [3600000; 3600005; 0; 0; 7; 8; 0; 0].
Definition saved_db : DB := set_logData saved_mem (set_logHead saved_head two_col_db).
Definition resolved : Z -> Z -> list Z -> Z -> res Z := @taosResolveCRC manual_sse42 false true true.
Definition no_zip (d : DB) : res (Z * list Z * DB) := Ret (0, [], d).
Definition no_unzip (d : DB) (bs : list Z) (ix : INDEX) (col pos size : Z) (buf : list Z)
    : res (list Z) := Ret buf.

Lemma saved_bytes : bytes_ok saved_mem.
Proof. apply pack_elems_ok. Qed.

#[local] Instance resolved_is : Checksum resolved 0 := resolved_checksum false true true 0.


(** The block in the files, and a cursor from 3600001 to 3600009 on it. *)
Definition block_db : DB :=
  {| signature := true; logHead := set_rows 0 0 0 saved_head; logData := saved_mem; recordFd := Some 1;
     indexFd := Some 1; curFileIndex := 1; gErrorCode := 0;
     indexFiles := {[1 := index_bytes (block_index saved_head saved_mem 0)]};
     recordFiles := {[1 := block_bytes saved_head saved_mem 0 2]} |}.

Definition block_query : QUERY :=
  {| q_signature := true; q_startTimestamp := 3600001; q_endTimestamp := 3600009;
     q_order := ORDER_ASC; q_colBitmap := -1; q_logChecked := 0; q_startFileIndex := 1;
     q_endFileIndex := 1; q_curFileIndex := 1; q_startBlockIndex := 0; q_endBlockIndex := 0;
     q_curBlockIndex := 0; q_rowCount := 0; q_startDataIndex := 0; q_endDataIndex := 0;
     q_curDataIndex := -1; q_recordFd := Some (Some 1); q_indexFd := Some (Some 1); q_indexPos := 0;
     q_buf := replicate 164 0 |}.

Lemma read_block_witness : exists q',
  check_block (H := toy_lz4) (H0 := LP64) resolved 0 no_unzip no_unzip block_db block_query =
    Ret (0, q') /\
  rd (q_buf q') 32 16 = Ret (pack_elems 8 [7; 8]) /\ q_endDataIndex q' = 1.
Proof.
  destruct (read_block (H0 := toy_lz4) (H1 := LP64) (crc32c := resolved) (heap := 0) no_unzip no_unzip
    block_db block_query 1 0 saved_head saved_mem [3600000; 3600005])
    as (q' & lo & hi & Hrun & Hcols & _ & _ & Hrows & _ & Hend).
  - exists [], [], [], []. rewrite !app_nil_r. by split_and!.
  - split; discriminate.
  - exact saved_bytes.
  - discriminate.
  - reflexivity.
  - reflexivity.
  - reflexivity.
  - reflexivity.
  - reflexivity.
  - intros off Hoff. unfold index_ok, block_index.
    cbn [ix_rowCount ix_startTimestamp ix_endTimestamp ix_dataOffset ix_dataLength ix_colLens].
    split; [split; [discriminate|reflexivity]|]. split; [split; [discriminate|reflexivity]|].
    split; [split; [discriminate|reflexivity]|]. split; [unfold in_s; lia|].
    split; [split; vm_compute; [discriminate|reflexivity]|].
    repeat constructor; discriminate.
  - reflexivity.
  - repeat constructor; vm_compute; first [reflexivity|discriminate].
  - intros i j x y Hij Hi Hj. pose proof (lookup_lt_Some _ _ _ Hj) as Hl. simpl in Hl.
    destruct i as [|[|]], j as [|[|]]; simpl in *; simplify_eq; lia.
  - intros i j Hi _. exfalso. destruct i as [|[|]]; vm_compute in Hi; discriminate.
  - intros i j Hi _. exfalso. destruct i as [|[|]]; vm_compute in Hi; discriminate.
  - reflexivity.
  - reflexivity.
  - reflexivity.
  - reflexivity.
  - reflexivity.
  - reflexivity.
  - reflexivity.
  - reflexivity.
  - reflexivity.
  - discriminate.
  - discriminate.
  - vm_compute. discriminate.
  - exists 1. vm_compute. split; split; first [reflexivity|discriminate].
  - exists q'. split; [exact Hrun|]. split.
    + exact (Hcols 1%nat ltac:(cbn; lia) ltac:(discriminate)).
    + rewrite Hend. change (is_asc block_query) with true. cbn [andb].
      assert (lo <= 1 <= hi) by (apply Hrows; vm_compute; split; split; first [reflexivity|discriminate]).
      assert (~ lo <= 2 <= hi) by (rewrite Hrows; intros [[_ Hc] _]; discriminate Hc). lia.
Defined.
