(* ===== verification/EdbLimits.v ===== *)
(** * The limits of the embedded database

    Columns compressed in one step, and the runs that leave a buffer. *)
From S2P Require Import Prelude CompBool CompInt CompXor CompBase CompTime Tscompression Crc32c EdbTypes EdbStore EdbQuery EdbCache.

(** * The embedded database: the one-step compressor (edb/src/compress.c)

    A column compressed through [gTaosCompFunc] is recovered by
    [decompressTaosOneStep], padding and checksum behind it notwithstanding. *)


(** Any codec, through the one-stage entry points, whatever compressed size the
    decoder is told. *)
Lemma one_stage `{LZ4} width compress decompress `{!ColumnCodec width compress decompress}
    n input out post outputSize size outputSize' :
  bytes_ok input -> 0 <= n -> Z.of_nat (length input) = n * width -> n * width <= outputSize' ->
  compress_with (compress input n) outputSize ONE_STAGE_COMP 0 = Ret out ->
  decompress_with (fun b => decompress b n) (out ++ post) size outputSize' ONE_STAGE_COMP 0 = Ret input.
Proof.
  intros Hin Hn Hlen Hout' Hc. unfold compress_with, decompress_with in *.
  change (ONE_STAGE_COMP =? ONE_STAGE_COMP) with true in *. cbn iota in *.
  apply rbind_Ret_inv in Hc as (o & Ho & Hc). apply fits_inv in Hc as [-> _].
  destruct (codec_law n input o post Hin Hn Hlen Ho) as (_ & _ & ->). cbn [rbind].
  apply fits_Ret. lia.
Qed.

(** On LP64, a column of any type but FLOAT and STRING that
    [compressTaosOneStep] could compress comes back unchanged: whatever padding
    and checksum follow it in the record, [decompressTaosOneStep] writes the
    original bytes to the place of the column in the buffer of the query. *)
Theorem onestep_column_roundtrip `{LZ4} (type : COL_TYPE) d ix col len n input out post
    outSize outSize' pOutput buf :
  type <> COL_TYPE_FLOAT -> type <> COL_TYPE_STRING -> type <> COL_TYPE_MAX_TYPES ->
  bytes_ok input -> 0 <= n -> Z.of_nat (length input) = gColTypeSize type * n ->
  gColTypeSize type * n <= outSize' ->
  gTaosCompFunc (H0 := LP64) type input (gColTypeSize type * n) n outSize ONE_STAGE_COMP 0 = Ret out ->
  signature d = true -> colType (logHead d) !! Z.to_nat col = Some type ->
  ix_rowCount ix = n -> ix_colLens ix !! Z.to_nat col = Some len ->
  decompressTaosOneStep (H0 := LP64) d (out ++ post) ix col pOutput outSize' buf = wr buf pOutput input.
Proof.
  intros Hf Hs Hm Hin Hn Hlen Hout Hc Hsig Htype Hrows Hcl. unfold decompressTaosOneStep.
  rewrite Hsig. cbn [negb]. unfold col_type_at. rewrite Htype. cbn [rbind]. rewrite Hcl, Hrows.
  enough (Hdec : gTaosDecompFunc (H0 := LP64) type (out ++ post) (len - SIZEOF_TSCKSUM) n outSize'
    ONE_STAGE_COMP 0 = Ret input) by by rewrite Hdec.
  rewrite Z.mul_comm in Hlen, Hout.
  destruct type; try done; cbn [gTaosCompFunc gTaosDecompFunc gColTypeSize] in *.
  - by apply (one_stage 1 tsCompressBoolImp tsDecompressBoolImp n input out post outSize).
  - exact (@one_stage _ 1 _ _ (int_codec TSDB_DATA_TYPE_TINYINT 1 eq_refl) n input out post outSize _ outSize'
      Hin Hn Hlen Hout Hc).
  - exact (@one_stage _ 2 _ _ (int_codec TSDB_DATA_TYPE_SMALLINT 2 eq_refl) n input out post outSize _ outSize'
      Hin Hn Hlen Hout Hc).
  - exact (@one_stage _ 4 _ _ (int_codec TSDB_DATA_TYPE_INT 4 eq_refl) n input out post outSize _ outSize'
      Hin Hn Hlen Hout Hc).
  - exact (@one_stage _ 8 _ _ (int_codec TSDB_DATA_TYPE_BIGINT 8 eq_refl) n input out post outSize _ outSize'
      Hin Hn Hlen Hout Hc).
  - by apply (one_stage 8 tsCompressDoubleImp (@tsDecompressDoubleImp LP64) n input out post outSize).
  - by apply (one_stage 8 tsCompressTimestampImp tsDecompressTimestampImp n input out post outSize).
Qed.

(** Four rows of an INT column. *)
Lemma onestep_column_roundtrip_witness : exists out,
  gTaosCompFunc (H := toy_lz4) (H0 := LP64) COL_TYPE_INT (pack_elems 4 [5; 6; 7; 9]) 16 4 100
    ONE_STAGE_COMP 0 = Ret out /\
  decompressTaosOneStep (H := toy_lz4) (H0 := LP64)
    (set_logHead {| storeType := STORE_BY_COL; compressType := COMPRESS_TAOS_ONE_STEP; hoursPerFile := 1;
       maxColSize := 8; curRowCount := 0; cacheSize := 4; rowSize := 12; dataPos := 84;
       startTimestamp := 0; endTimestamp := 0; colCount := 2;
       colType := [COL_TYPE_TIMESTAMP; COL_TYPE_INT] |} demo_db) (out ++ [0; 0; 0; 1; 2; 3; 4])
    {| ix_rowCount := 4; ix_startTimestamp := 0; ix_endTimestamp := 0; ix_dataOffset := 0;
       ix_dataLength := 0; ix_colLens := [0; 16] |} 1 32 16 (replicate 48 0) =
  Ret (replicate 32 0 ++ pack_elems 4 [5; 6; 7; 9]).
Proof.
  eexists. split; [vm_compute; reflexivity|]. etransitivity.
  - eapply (onestep_column_roundtrip (H := toy_lz4) COL_TYPE_INT) with (n := 4) (len := 16)
      (input := pack_elems 4 [5; 6; 7; 9]) (outSize := 100); try discriminate; try reflexivity.
    + apply pack_elems_ok.
  - reflexivity.
Defined.

(** * The embedded database: where the operations fall short

    Results about states the code reaches and does not handle: the two-step
    compressor that never saves, the output buffer of the one-step compressor,
    blocks that share a boundary with the range, and the file number a query
    leaves in the handle. *)

Section Limits.
Context `{LZ4} `{DataModel}.
Context (crc32c : Z -> Z -> list Z -> Z -> res Z) (malloc : Z -> option (list Z)) (heap : Z).
Context (compressZlib compressZstd : DB -> res (Z * list Z * DB)).

(** One timestamp of 1987 or later takes eight or nine bytes. *)
Lemma one_timestamp (input : list Z) t : rds 8 input 0 = Ret t -> 2 ^ 39 <= t < 2 ^ 63 ->
  exists out, tsCompressTimestampImp input 1 = Ret out /\
    (length out = 8 \/ length out = 9)%nat.
Proof.
  intros Ht Hr. unfold tsCompressTimestampImp.
  change (negb (0 <=? 1)) with false. change (1 =? 0) with false. cbn iota.
  unfold LONG_BYTES at 1. rewrite Ht. cbn [rbind].
  change (Z.to_nat 1) with 1%nat. cbn [time_loop]. unfold LONG_BYTES at 1. rewrite Ht. cbn [rbind].
  assert (Hneg : i64 (- t) = - t) by (apply wraps_id; [lia|unfold in_s; lia]). rewrite !Hneg.
  rewrite safeInt64Add_spec, bool_decide_true by (unfold in_s; lia). cbn [negb].
  rewrite Z.sub_diag, (wraps_id 64 0), Z.opp_involutive by (unfold in_s; lia).
  rewrite (wraps_id 64 t) by (unfold in_s; lia).
  rewrite safeInt64Add_spec, bool_decide_true by (unfold in_s; lia). cbn [negb].
  replace (0 - - t) with t by lia. rewrite (wraps_id 64 t) by (unfold in_s; lia).
  rewrite zigzag_encode_eq by (unfold in_s; lia).
  rewrite (proj2 (Z.ltb_ge _ _)) by lia. change (Z.rem 0 2 =? 0) with true. cbn iota.
  destruct (dd_flag_spec (2 * t)) as [Hf Hlt]; [unfold in_u; lia|].
  set (f := dd_flag (2 * t)) in *. assert (Hf6 : 6 <= f).
  { destruct (Z.le_gt_cases 6 f); [done|]. pose proof (Z.pow_le_mono_r 2 (8 * f) 40). lia. }
  cbn [rbind]. unfold time_tail. change (Z.rem 1 2 =? 1) with true. cbn iota.
  assert (Hput : forall v, put_bytes 1 CHAR_BYTES v [] = Some (le_bytes 1 v)) by reflexivity.
  rewrite Hput. unfold put_bytes. rewrite length_le_bytes. unfold LONG_BYTES.
  destruct (Z.leb_spec (1 * 8) (1 + Z.of_nat 1 + f - 1)) as [Hraw|Hfit].
  - unfold rds in Ht. apply rbind_Ret_inv in Ht as (bs & Hrd & _).
    change (0 * 8) with 0 in Hrd. change (1 * 8) with 8. rewrite Hrd. cbn [rbind].
    apply rd_Ret in Hrd as (_ & _ & _ & _ & Hl). eexists. split; [done|]. right. cbn [length]. lia.
  - eexists. split; [done|]. left. cbn [length]. rewrite length_app, !length_le_bytes. lia.
Qed.

(** C32.  With a single row in the cache, whose time is 1987 or later, and no
    string column, the one-step compressor seals the time column past the end
    of its output buffer: it reserves [maxColSize * rows + 4 = 12] bytes, while
    the sealed column takes 16. *)
Theorem onestep_one_row_overflow d out t :
  signature d = true -> curRowCount (logHead d) = 1 -> maxColSize (logHead d) = 8 ->
  1 <= colCount (logHead d) -> colType (logHead d) !! 0%nat = Some COL_TYPE_TIMESTAMP ->
  malloc 12 = Some out -> length out = 12%nat ->
  rds 8 (logData d) 0 = Ret t -> 2 ^ 39 <= t < 2 ^ 63 ->
  (forall bs n, 0 <= n <= Z.of_nat (length bs) -> exists c, crc32c heap 0 bs n = Ret c) ->
  compressTaosOneStep crc32c malloc heap d = Undef.
Proof.
  intros Hsig Hrows Hmax Hcols Htype Hmal Hout Ht Hr Hcrc. unfold compressTaosOneStep.
  rewrite Hsig, Hrows, Hmax. cbn [negb]. change (8 * 1 + SIZEOF_TSCKSUM) with 12. rewrite Hmal.
  replace (Z.to_nat (colCount (logHead d))) with (S (Z.to_nat (colCount (logHead d) - 1))) by lia.
  cbn [onestep_loop]. unfold col_type_at. change (Z.to_nat 0) with 0%nat. rewrite Htype. cbn [rbind].
  cbn [gTaosCompFunc]. rewrite drop_0. unfold tsCompressTimestamp, compress_with.
  change (ONE_STAGE_COMP =? ONE_STAGE_COMP) with true. cbn iota.
  destruct (one_timestamp (logData d) t Ht Hr) as (bs & Hc & Hlen). rewrite Hc. cbn [rbind].
  unfold fits. rewrite (proj2 (Z.leb_le _ _)) by lia. cbn [rbind].
  destruct (wr_ok out 0 bs) as (o & Hw & Hlo); [lia|lia|]. rewrite Hw. cbn [rbind].
  assert (Hsz : Z.of_nat (length bs) + (4 - Z.rem (Z.of_nat (length bs)) 4) + SIZEOF_TSCKSUM = 16)
    by (destruct Hlen as [-> | ->]; reflexivity).
  rewrite Hsz. unfold seal_and_write, taosCalcChecksumAppend. cbn [Z.ltb Z.compare].
  destruct (Hcrc o (16 - 4)) as [c Hcc]; [lia|]. change (16 <? 4) with false. cbn iota.
  rewrite Hcc. cbn [rbind]. rewrite (proj2 (Z.ltb_lt _ _)) by lia. done.
Qed.

(** With the two-step compressor nothing is ever saved: [saveToFile]
    returns 0, but no row leaves the cache and no file grows. *)
Lemma twostep_never_saves d r d' : compressType (logHead d) = COMPRESS_TAOS_TWO_STEP ->
  signature d = true -> saveToFile crc32c malloc heap compressZlib compressZstd d = Ret (r, d') ->
  r = 0 /\ logHead d' = logHead d /\ logData d' = logData d /\
  forall k, default [] (indexFiles d' !! k) = default [] (indexFiles d !! k) /\
    default [] (recordFiles d' !! k) = default [] (recordFiles d !! k).
Proof.
  intros Htwo Hsig. unfold saveToFile. cbn [signature set_gErrorCode]. rewrite Hsig. cbn [negb].
  intros Hs. apply rbind_Ret_inv in Hs as (first & _ & Hs). apply rbind_Ret_inv in Hs as (cur & _ & Hs).
  cbv zeta in Hs. set (d1 := if _ =? cur then _ else _) in Hs.
  apply rbind_Ret_inv in Hs as (f & _ & Hs).
  assert (Hd1 : signature d1 = true /\ logHead d1 = logHead d /\ logData d1 = logData d /\
    forall k, default [] (indexFiles d1 !! k) = default [] (indexFiles d !! k) /\
      default [] (recordFiles d1 !! k) = default [] (recordFiles d !! k)).
  { unfold d1. destruct (_ =? cur); [by split_and!|]. cbn. split_and!; try done. intros k.
    destruct (decide (k = cur)) as [->|]; [by rewrite !lookup_insert_eq|by rewrite !lookup_insert_ne]. }
  clearbody d1. destruct Hd1 as (Hs1 & Hh1 & Hl1 & Hf1). rewrite Hh1, Htwo in Hs.
  cbn [gCompress] in Hs. unfold compressTaosTwoStep in Hs. rewrite Hs1 in Hs. cbn in Hs.
  injection Hs as <- <-. by split_and!.
Qed.

(** A query leaves the number of the file of the cached rows in the
    handle; when no file was opened yet, the next [saveToFile] takes it for the
    number of an open file and works on descriptor 0. *)
Theorem query_breaks_save dz ds d q c d' q' t cur :
  signature d = true -> q_signature q = true -> recordFd d = None ->
  rds 8 (logData d) 0 = Ret t -> startTimestamp (logHead d) = t ->
  file_index (logHead d) t = Ret cur ->
  checkFile crc32c heap dz ds d q = Ret (c, d', q') ->
  curFileIndex d' = cur /\
  saveToFile crc32c malloc heap compressZlib compressZstd d' = Undef.
Proof.
  intros Hsig Hqs Hfd Ht Hst Hcur Hc. unfold checkFile in Hc. rewrite Hqs in Hc. cbn [negb] in Hc.
  rewrite Hst, Hcur in Hc. cbn [rbind] in Hc. cbv zeta in Hc.
  assert (d' = set_db_file cur d) as ->.
  { repeat case_match; try (by injection Hc as <- <- <-);
      apply rbind_Ret_inv in Hc as (? & _ & Hc); by injection Hc as <- <- <-. }
  split; [done|]. unfold saveToFile. cbn [signature set_gErrorCode set_db_file].
  rewrite Hsig. cbn [negb logData logHead set_gErrorCode set_db_file]. rewrite Ht. cbn [rbind].
  rewrite Hcur. cbn [rbind curFileIndex set_gErrorCode set_db_file]. rewrite Z.eqb_refl.
  cbn [recordFd set_gErrorCode set_db_file]. by rewrite Hfd.
Qed.

(** A consequence of the answer [BLOCK_NONE] for ranges that begin or end
    exactly where the cached rows do: [check_log] refuses them, so that a query
    from the time of the first cached row returns none of the cached rows. *)
Lemma shared_boundary_misses_cache d q : q_signature q = true ->
  startTimestamp (logHead d) = q_startTimestamp q \/ endTimestamp (logHead d) = q_endTimestamp q ->
  check_log d q = Ret (-1, set_logChecked 1 q).
Proof.
  intros Hqs Hb. unfold check_log. rewrite Hqs. cbn [negb q_startTimestamp q_endTimestamp set_logChecked].
  assert (Hty : get_block_type (startTimestamp (logHead d)) (endTimestamp (logHead d))
    (q_startTimestamp q) (q_endTimestamp q) = BLOCK_NONE).
  { unfold get_block_type. destruct (_ || _); [done|].
    replace (_ || _) with true; [done|]. symmetry. apply orb_true_iff. by rewrite !Z.eqb_eq. }
  cbv zeta. by rewrite Hty.
Qed.
End Limits.

(** A database compressed in the given way, with one row of 2023 in its cache. *)
Definition one_row_head (c : COMPRESS_TYPE) : LOG_HEAD :=
  {| storeType := STORE_BY_COL; compressType := c; hoursPerFile := 1; maxColSize := 8;
     curRowCount := 1; cacheSize := 4; rowSize := 16; dataPos := 84; startTimestamp := 1700000000000;
     endTimestamp := 1700000000000; colCount := 2; colType := [COL_TYPE_TIMESTAMP; COL_TYPE_BIG_INT] |}.
Definition one_row_db (c : COMPRESS_TYPE) : DB :=
  set_logData (pack_elems 8 [1700000000000; 0; 0; 0; 7; 0; 0; 0])
    (set_logHead (one_row_head c) two_col_db).

Lemma onestep_one_row_overflow_witness :
  compressTaosOneStep (H := toy_lz4) (H0 := LP64) (fun _ _ _ _ => Ret 0)
    (fun n => Some (replicate (Z.to_nat n) 0)) 0 (one_row_db COMPRESS_TAOS_ONE_STEP) = Undef.
Proof.
  apply (onestep_one_row_overflow (H := toy_lz4) (H0 := LP64) (fun _ _ _ _ => Ret 0)
    (fun n => Some (replicate (Z.to_nat n) 0)) 0 (one_row_db COMPRESS_TAOS_ONE_STEP) (replicate 12 0)
    1700000000000); first [reflexivity | discriminate | split; [discriminate|reflexivity] | eauto].
Defined.

Lemma twostep_never_saves_witness : exists d',
  saveToFile (H := toy_lz4) (H0 := LP64) (fun _ _ _ _ => Ret 0) (fun _ => None) 0
    (fun d => Ret (0, [], d)) (fun d => Ret (0, [], d)) (one_row_db COMPRESS_TAOS_TWO_STEP) = Ret (0, d') /\
  curRowCount (logHead d') = 1.
Proof.
  eexists. split; [vm_compute; reflexivity|].
  match goal with |- curRowCount (logHead ?x) = 1 =>
    destruct (twostep_never_saves (H := toy_lz4) (H0 := LP64) (fun _ _ _ _ => Ret 0) (fun _ => None) 0
      (fun d => Ret (0, [], d)) (fun d => Ret (0, [], d)) (one_row_db COMPRESS_TAOS_TWO_STEP) 0 x
      eq_refl eq_refl ltac:(vm_compute; reflexivity)) as (_ & -> & _)
  end. reflexivity.
Defined.

Lemma query_breaks_save_witness : exists c d' q',
  checkFile (H := toy_lz4) (H0 := LP64) (fun _ _ _ _ => Ret 0) 0 (fun _ _ _ _ _ _ b => Ret b)
    (fun _ _ _ _ _ _ b => Ret b) (one_row_db COMPRESS_NONE) (demo_query 40) = Ret (c, d', q') /\
  saveToFile (H := toy_lz4) (H0 := LP64) (fun _ _ _ _ => Ret 0) (fun _ => None) 0
    (fun d => Ret (0, [], d)) (fun d => Ret (0, [], d)) d' = Undef.
Proof.
  do 3 eexists. split; [vm_compute; reflexivity|].
  match goal with |- saveToFile _ _ _ _ _ ?x = Undef =>
    refine (proj2 (query_breaks_save (H := toy_lz4) (H0 := LP64) (fun _ _ _ _ => Ret 0) (fun _ => None) 0
      (fun d => Ret (0, [], d)) (fun d => Ret (0, [], d)) (fun _ _ _ _ _ _ b => Ret b)
      (fun _ _ _ _ _ _ b => Ret b) (one_row_db COMPRESS_NONE) (demo_query 40) _ x _ 1700000000000
      472222 eq_refl eq_refl eq_refl eq_refl eq_refl eq_refl _))
  end. vm_compute. reflexivity.
Defined.

Lemma shared_boundary_misses_cache_witness :
  check_log (set_logHead (set_rows 4 15 40 demo_head) demo_db) (demo_query 35) =
    Ret (-1, set_logChecked 1 (demo_query 35)).
Proof. apply (shared_boundary_misses_cache _ (demo_query 35) eq_refl). left. reflexivity. Defined.
