(* ===== verification/EdbPut.v ===== *)
(** * The embedded database: a life of insertions (edb/src/db.c, compress.c)

    What a database of an uncompressed schema holds after any sequence of
    [put_db]: the rows in its cache, and the exact bytes of its files. *)
From S2P Require Import Prelude CompBase Tscompression Crc32c EdbTypes EdbStore EdbQuery EdbCache EdbBlocks.

(** ** Rows and the files that hold them *)

(** A row: its time, and the bytes of its values. *)
Definition row : Type := Z * list (list Z).
Definition row_values (r : row) : list (list Z) := le_bytes 8 r.1 :: r.2.

(** The first and the last time of some rows, as the header has them. *)
Definition first_time (rows : list row) : Z := match rows with [] => 0 | r :: _ => r.1 end.
Definition last_time (rows : list row) : Z := match last rows with Some r => r.1 | None => 0 end.

(** The values of column [j], one after the other. *)
Definition column (rows : list row) (j : nat) : list Z :=
  concat (map (fun r => nth j (row_values r) []) rows).

(** The number in the names of the files of a time. *)
Definition period (h : LOG_HEAD) (st : Z) : Z := Z.quot st (hoursPerFile h * gMillisecondOfHour).
Definition of_period (h : LOG_HEAD) (k : Z) (rows : list row) : list row :=
  filter (fun r => period h r.1 = k) rows.

Section Image.
Context `{Checksum crc32c heap}.
Context (h : LOG_HEAD).

(** A block of rows in the record file: each column with its checksum. *)
Definition rows_bytes (rows : list row) : list Z :=
  concat (map (fun j => sealed (column rows j)) (seq 0 (length (colType h)))).
Definition record_image (blocks : list (list row)) : list Z := concat (map rows_bytes blocks).

(** Its record in the index file, if it begins at [off] of the record file. *)
Definition rows_index (off : Z) (rows : list row) : INDEX :=
  {| ix_rowCount := Z.of_nat (length rows); ix_startTimestamp := first_time rows;
     ix_endTimestamp := last_time rows; ix_dataOffset := off;
     ix_dataLength := Z.of_nat (length (rows_bytes rows));
     ix_colLens := map (fun j => col_size h j * Z.of_nat (length rows) + 4) (seq 0 (length (colType h))) |}.
Fixpoint index_image (off : Z) (blocks : list (list row)) : list Z :=
  match blocks with
  | [] => []
  | b :: bs => index_bytes (rows_index off b) ++ index_image (off + Z.of_nat (length (rows_bytes b))) bs
  end.

Lemma record_image_snoc bs b : record_image (bs ++ [b]) = record_image bs ++ rows_bytes b.
Proof using. unfold record_image. rewrite map_app, concat_app. cbn. by rewrite app_nil_r. Qed.

Lemma index_image_app l1 l2 off : index_image off (l1 ++ l2) =
  index_image off l1 ++ index_image (off + Z.of_nat (length (record_image l1))) l2.
Proof using.
  revert off. induction l1 as [|b l1 IH]; intros off; cbn [index_image app].
  - cbn. by rewrite Z.add_0_r.
  - rewrite IH, <- app_assoc. f_equal. f_equal. f_equal. unfold record_image. cbn [map concat].
    rewrite length_app. lia.
Qed.

Lemma index_image_length bs off :
  length (index_image off bs) = (length bs * (40 + 4 * length (colType h)))%nat.
Proof using.
  revert off. induction bs as [|b bs IH]; intros off; cbn [index_image length]; [done|].
  rewrite length_app, length_index_bytes, IH. cbn [ix_colLens rows_index].
  rewrite length_map, length_seq. lia.
Qed.

(** A row as wide as its table. *)
Definition row_fits (r : row) : Prop :=
  in_s 64 r.1 /\ period h r.1 <> 0 /\ Forall bytes_ok r.2 /\
  Forall2 (fun t v => Z.of_nat (length v) = gColTypeSize t) (tail (colType h)) r.2.

(** The bytes one row adds to a record file at most. *)
Definition row_room : Z := sizes (colType h) + 4 * Z.of_nat (length (colType h)).
End Image.

(** ** Columns of the cache and columns of rows *)
Section Columns.
Context (h : LOG_HEAD) (Htime : colType h !! 0%nat = Some COL_TYPE_TIMESTAMP).

Lemma row_value_length r j : row_fits h r -> (j < length (colType h))%nat ->
  Z.of_nat (length (nth j (row_values r) [])) = col_size h j.
Proof using Htime.
  intros (_ & _ & _ & Hv) Hj. unfold col_size.
  destruct (colType h) as [|t0 cols]; [done|]. injection Htime as ->. destruct j as [|j]; [reflexivity|].
  cbn [tail length] in *. destruct (lookup_lt_is_Some_2 cols j) as [t Ht]; [lia|].
  destruct (Forall2_lookup_l _ _ _ _ _ Hv Ht) as (v & Hj' & Hl).
  change ((COL_TYPE_TIMESTAMP :: cols) !! S j) with (cols !! j). rewrite Ht.
  cbn [row_values nth]. by rewrite (nth_lookup_Some _ _ [] _ Hj').
Qed.

Lemma length_column rows j : Forall (row_fits h) rows -> (j < length (colType h))%nat ->
  Z.of_nat (length (column rows j)) = col_size h j * Z.of_nat (length rows).
Proof using Htime.
  intros Hr Hj. induction Hr as [|r rows Hr _ IH]; unfold column in *; cbn [map concat length]; [lia|].
  rewrite length_app, Nat2Z.inj_add, IH, row_value_length by done. lia.
Qed.

(** If the cells of a memory are those of some rows, so are its columns. *)
Lemma block_col_rows mem j rows : 0 <= cacheSize h ->
  (forall i r, rows !! i = Some r -> cell h mem i j = Ret (nth j (row_values r) [])) ->
  take (Z.to_nat (col_size h j * Z.of_nat (length rows))) (drop (Z.to_nat (col_pos h j)) mem) =
    column rows j.
Proof using.
  intros Hc. pose proof (col_pos_mono h j j Hc ltac:(lia)) as [Hp _]. pose proof (col_size_pos h j) as Hs.
  induction rows as [|r rows IH] using rev_ind; intros Hcell.
  - cbn [length]. by rewrite Z.mul_0_r.
  - assert (Hlast : cell h mem (length rows) j = Ret (nth j (row_values r) []))
      by (apply Hcell; by rewrite list_lookup_middle).
    destruct (rd_Ret _ _ _ _ Hlast) as (a & c & Hm & Ha & Hl).
    unfold column in *. rewrite map_app, concat_app. cbn [map concat].
    rewrite app_nil_r, <- IH.
    + set (v := nth j (row_values r) []) in *. rewrite length_app. cbn [length].
      set (n := Z.to_nat (col_size h j * Z.of_nat (length rows))).
      replace (Z.to_nat (col_size h j * Z.of_nat (length rows + 1))) with (n + length v)%nat by lia.
      assert (Hla : length a = (Z.to_nat (col_pos h j) + n)%nat) by lia.
      rewrite <- (take_take_drop _ n (length v)). f_equal. rewrite drop_drop, Hm, <- Hla.
      by rewrite drop_app_length, take_app_length.
    + intros i r' Hi. apply Hcell. by apply lookup_app_l_Some.
Qed.

Lemma rows_bytes_length `{Checksum crc32c heap} rows : Forall (row_fits h) rows -> forall n i,
  (i + n <= length (colType h))%nat ->
  Z.of_nat (length (concat (map (fun j => sealed (column rows j)) (seq i n)))) =
    sizes (take n (drop i (colType h))) * Z.of_nat (length rows) + 4 * Z.of_nat n.
Proof using Htime.
  intros Hr. induction n as [|n IH]; intros i Hi; cbn [seq map concat length take]; [done|].
  destruct (lookup_lt_is_Some_2 (colType h) i) as [t Ht]; [lia|].
  rewrite length_app, Nat2Z.inj_add, length_sealed, length_column, IH by (done || lia).
  rewrite (drop_S _ _ _ Ht). cbn [take]. unfold sizes at 2. cbn [foldr]. fold (sizes (take n (drop (S i) (colType h)))).
  unfold col_size. rewrite Ht. lia.
Qed.

Lemma record_room `{Checksum crc32c heap} blocks : Forall (Forall (row_fits h)) blocks ->
  Forall (fun b => b <> []) blocks ->
  Z.of_nat (length (record_image h blocks)) <= Z.of_nat (length (concat blocks)) * row_room h.
Proof using Htime.
  intros Hb Hne. induction Hne as [|b bs Hb0 _ IH]; [cbn; lia|]. apply Forall_cons in Hb as [Hb Hbs].
  unfold record_image in *. cbn [map concat]. rewrite !length_app, !Nat2Z.inj_add.
  unfold rows_bytes at 1. rewrite rows_bytes_length by (done || lia).
  rewrite drop_0, take_ge by lia. specialize (IH Hbs). unfold row_room in *.
  assert (1 <= Z.of_nat (length b)) by (destruct b; [done|cbn [length]; lia]). nia.
Qed.
End Columns.

(** ** The bytes of the cache *)
Lemma wr_bytes buf off bs buf' : wr buf off bs = Ret buf' -> bytes_ok buf -> bytes_ok bs -> bytes_ok buf'.
Proof.
  unfold wr. case_bool_decide; [|done]. intros [= <-] Hb Hs.
  apply bytes_ok_app. split; [by apply Forall_take|]. apply bytes_ok_app. split; [done|by apply Forall_drop].
Qed.

Lemma put_cols_bytes data n : forall i pos pData d d', put_cols n i pos pData data d = Ret d' ->
  bytes_ok data -> bytes_ok (logData d) -> bytes_ok (logData d').
Proof.
  induction n as [|n IH]; intros i pos pData d d' Hp Hd Hl; cbn [put_cols] in Hp; [by injection Hp as <-|].
  res_inv. eapply IH; [eassumption|done|]. cbn [logData set_logData].
  eapply wr_bytes; [eassumption|done|]. eapply bytes_ok_rd; [exact Hd|eassumption].
Qed.

Lemma put_row_bytes st data d d' : put_row st data d = Ret d' -> bytes_ok data ->
  bytes_ok (logData d) -> bytes_ok (logData d').
Proof.
  intros Hp Hd Hl. unfold put_row in Hp. destruct (storeType (logHead d)); res_inv.
  - cbn. eapply wr_bytes; [eassumption|eapply wr_bytes; [eassumption|done|apply le_bytes_ok]|].
    eapply bytes_ok_rd; [exact Hd|eassumption].
  - eapply put_cols_bytes; [eassumption|done|]. cbn. eapply wr_bytes; [eassumption|done|apply le_bytes_ok].
Qed.

(** ** Databases that hold rows *)
Section Holds.
Context `{Checksum crc32c heap}.

(** The cache has the rows [cached], and the files of each period [k] are the
    images of [blocks k]. *)
Record holds (h : LOG_HEAD) (d : DB) (blocks : Z -> list (list row)) (cached : list row) : Prop := {
  hd_signature : signature d = true;
  hd_head : logHead d = set_rows (Z.of_nat (length cached)) (first_time cached) (last_time cached) h;
  hd_cells : cache_rows d = map (fun r => map Ret (row_values r)) cached;
  hd_index : forall k, default [] (indexFiles d !! k) = index_image h 0 (blocks k);
  hd_record : forall k, default [] (recordFiles d !! k) = record_image h (blocks k) }.

(** The schema, with room for its cache in a mapping of [m] bytes. *)
Record schema_ok (h : LOG_HEAD) (m : nat) : Prop := {
  sc_store : storeType h = STORE_BY_COL;
  sc_none : compressType h = COMPRESS_NONE;
  sc_time : colType h !! 0%nat = Some COL_TYPE_TIMESTAMP;
  sc_cols : Z.of_nat (length (colType h)) = colCount h;
  sc_cache : 1 <= cacheSize h < 2 ^ 16;
  sc_hours : 0 < hoursPerFile h;
  sc_max : forall i, col_size h i <= maxColSize h;
  sc_byte : maxColSize h < 2 ^ 8;
  sc_room : col_pos h (length (colType h)) <= Z.of_nat m }.

(** What a database is between two insertions, besides: the rows of the cache
    belong to one period and are at most as many as fit, the rows are as wide as
    the table, no block is empty, and the files of [curFileIndex] are open. *)
Record settled (h : LOG_HEAD) (d : DB) (blocks : Z -> list (list row)) (cached : list row) : Prop := {
  st_holds : holds h d blocks cached;
  st_bytes : bytes_ok (logData d);
  st_schema : schema_ok h (length (logData d));
  st_full : Z.of_nat (length cached) <= cacheSize h;
  st_same : Forall (fun r => period h r.1 = period h (first_time cached)) cached;
  st_rows : Forall (row_fits h) cached;
  st_blocks : forall k, Forall (Forall (row_fits h)) (blocks k) /\
    Forall (fun b => b <> [] /\ Z.of_nat (length b) <= cacheSize h) (blocks k);
  st_open : curFileIndex d = 0 \/
    indexFd d = Some (curFileIndex d) /\ recordFd d = Some (curFileIndex d) /\
    is_Some (indexFiles d !! curFileIndex d) /\ is_Some (recordFiles d !! curFileIndex d) }.

Lemma period_index h n s e st : 0 < hoursPerFile h -> file_index (set_rows n s e h) st = Ret (period h st).
Proof using.
  intros Hh. unfold file_index, period, gMillisecondOfHour. cbn [hoursPerFile set_rows].
  destruct (Z.eqb_spec (hoursPerFile h * (60 * 60 * 1000)) 0); [lia|done].
Qed.

(** A cell of the cache is the value of its row. *)
Lemma holds_cell h d blocks cached i r j : holds h d blocks cached -> cached !! i = Some r ->
  (j < length (colType h))%nat -> cell h (logData d) i j = Ret (nth j (row_values r) []).
Proof using.
  intros [_ Hhead Hcells _ _] Hi Hj. pose proof (lookup_lt_Some _ _ _ Hi) as Hlt.
  unfold cache_rows in Hcells. rewrite Hhead in Hcells. cbn [curRowCount set_rows] in Hcells.
  rewrite Nat2Z.id in Hcells. apply (f_equal (.!! i)) in Hcells.
  rewrite !list_lookup_fmap, Hi, lookup_seq_lt in Hcells by done.
  apply (inj Some) in Hcells. rewrite cells_set_rows in Hcells.
  apply (f_equal (.!! j)) in Hcells. unfold row_cells in Hcells.
  rewrite !list_lookup_fmap, lookup_seq_lt in Hcells by done.
  destruct (row_values r !! j) as [v|] eqn:Hv; [|done]. apply (inj Some) in Hcells.
  by rewrite (nth_lookup_Some _ _ [] _ Hv).
Qed.

Lemma holds_block h d blocks cached j : 0 <= cacheSize h -> holds h d blocks cached ->
  (j < length (colType h))%nat -> block_col (logHead d) (logData d) j = column cached j.
Proof using.
  intros Hc Hh Hj. unfold block_col. rewrite (hd_head _ _ _ _ Hh).
  apply (block_col_rows h _ j cached Hc). intros i r Hi. by eapply holds_cell.
Qed.

Lemma holds_image h d blocks cached off : 0 <= cacheSize h -> holds h d blocks cached ->
  block_bytes (logHead d) (logData d) 0 (length (colType (logHead d))) = rows_bytes h cached /\
  block_index (logHead d) (logData d) off = rows_index h off cached.
Proof.
  intros Hc Hh. assert (Hb : block_bytes (logHead d) (logData d) 0 (length (colType (logHead d))) =
    rows_bytes h cached).
  { replace (colType (logHead d)) with (colType h) by by rewrite (hd_head _ _ _ _ Hh).
    unfold block_bytes, rows_bytes. f_equal. apply map_ext_in. intros j Hj%in_seq. f_equal. apply (holds_block h d blocks); [done..|lia]. }
  split; [exact Hb|]. unfold block_index, rows_index. rewrite Hb.
  by rewrite (hd_head _ _ _ _ Hh).
Qed.

(** ** Saving *)
Context `{LZ4} `{DataModel}.
Context (malloc : Z -> option (list Z)) (compressZlib compressZstd : DB -> res (Z * list Z * DB)).
Context (Hmalloc : forall n, 0 <= n < 2 ^ 31 ->
  exists out, malloc n = Some out /\ Z.of_nat (length out) = n /\ bytes_ok out).

Definition add_block (k : Z) (b : list row) (blocks : Z -> list (list row)) (k' : Z) : list (list row) :=
  if k' =? k then blocks k' ++ [b] else blocks k'.

Lemma settled_first h d blocks r cached : settled h d blocks (r :: cached) ->
  rds 8 (logData d) 0 = Ret r.1.
Proof using.
  intros Hs. destruct (st_schema _ _ _ _ Hs). pose proof (st_rows _ _ _ _ Hs) as [[Hr _] _]%Forall_cons.
  assert (Hlen : (0 < length (colType h))%nat) by (destruct (colType h); [done|cbn; lia]).
  pose proof (holds_cell h d blocks (r :: cached) 0 r 0 (st_holds _ _ _ _ Hs) eq_refl Hlen) as Hc.
  unfold cell in Hc. assert (Hsz : col_size h 0 = 8) by (unfold col_size; by rewrite sc_time0).
  rewrite Hsz in Hc. change (col_pos h 0 + 8 * Z.of_nat 0) with (0 * 8) in Hc. unfold rds. rewrite Hc.
  cbn [rbind row_values nth]. rewrite le_val_bytes. change (_ mod _) with (wrapu 64 r.1).
  change (8 * 8) with 64. rewrite wraps_wrapu by lia. by rewrite wraps_id.
Qed.

(** The room the blocks of a period take, with one more. *)
Definition has_room (h : LOG_HEAD) (blocks : Z -> list (list row)) (k : Z) : Prop :=
  Z.of_nat (length (concat (blocks k))) * row_room h < 2 ^ 31.

Lemma save_settled h d blocks cached : settled h d blocks cached -> cached <> [] ->
  has_room h blocks (period h (first_time cached)) ->
  exists d', saveToFile crc32c malloc heap compressZlib compressZstd d = Ret (0, d') /\
    settled h d' (add_block (period h (first_time cached)) cached blocks) [].
Proof.
  intros Hs Hne Hroom. set (cur := period h (first_time cached)) in *.
  pose proof Hs as [Hh Hbytes Hsc Hfull _ Hrows Hblocks Hopen]. pose proof Hsc as [? ? ? ? Hc ? ? ? ?].
  pose proof Hh as [Hsig Hhead _ Hidx Hrec].
  assert (exists r cached0, cached = r :: cached0) as (r & cached0 & Hcd)
    by (destruct cached as [|r0 c0]; [done|by exists r0, c0]).
  assert (Hr : row_fits h r) by (rewrite Hcd in Hrows; by inversion Hrows).
  assert (Hcur : cur <> 0) by (unfold cur; rewrite Hcd; apply Hr).
  assert (Hlen : (0 < length (colType h))%nat) by (destruct (colType h); [done|cbn; lia]).
  destruct (holds_image h d blocks cached (Z.of_nat (length (record_image h (blocks cur))))
    ltac:(lia) Hh) as [Him Hix].
  set (need := maxColSize h * Z.of_nat (length cached) + SIZEOF_TSCKSUM).
  assert (0 <= maxColSize h) by (specialize (sc_max0 0%nat); pose proof (col_size_pos h 0); lia).
  destruct (Hmalloc need) as (out & Hout & Hol & Hob); [unfold need, SIZEOF_TSCKSUM; nia|].
  destruct (saveToFile_spec malloc compressZlib compressZstd d out (index_image h 0 (blocks cur))
    (record_image h (blocks cur)) r.1 cur)
    as (d' & Hsave & Hs' & Hh' & Hl' & Hi' & Hr' & Hother & Hcf & Hfi & Hfr); rewrite ?Hhead; try done.
  - constructor; rewrite ?Hhead; try done. cbn [curRowCount cacheSize set_rows]. lia.
  - apply (settled_first h d blocks r cached0). by rewrite <- Hcd.
  - rewrite period_index by done. unfold cur. by rewrite Hcd.
  - destruct (decide (curFileIndex d = cur)) as [E|E]; [right|by left].
    destruct Hopen as [?|(? & ? & [fi Hfi] & [fr Hfr])]; [congruence|]. rewrite E in *.
    specialize (Hidx cur). specialize (Hrec cur). rewrite Hfi in Hidx. rewrite Hfr in Hrec.
    cbn in Hidx, Hrec. subst fi fr. by split_and!.
  - destruct (Hblocks cur) as [Hb1 Hb2]. unfold has_room in Hroom.
    pose proof (record_room h sc_time0 (blocks cur) Hb1 ltac:(eapply Forall_impl; [exact Hb2|by intros ? []])). lia.
  - exists d'. split; [exact Hsave|]. rewrite Him in Hr'. rewrite Hix in Hi'.
    constructor; try done.
    + constructor; try done; [by rewrite Hh', Hhead| by unfold cache_rows; rewrite Hh'| |].
      * intros k. unfold add_block. destruct (Z.eqb_spec k cur) as [->|Hk].
        -- rewrite Hi', index_image_app, Z.add_0_l. cbn [index_image]. by rewrite app_nil_r.
        -- by rewrite (proj1 (Hother k Hk)).
      * intros k. unfold add_block. destruct (Z.eqb_spec k cur) as [->|Hk].
        -- by rewrite Hr', record_image_snoc.
        -- by rewrite (proj2 (Hother k Hk)).
    + by rewrite Hl'.
    + by rewrite Hl'.
    + cbn [length]. lia.
    + intros k. unfold add_block. destruct (k =? cur); [|done]. destruct (Hblocks k) as [H1' H2'].
      split; apply Forall_app; (split; [done|]); constructor; done.
    + right. rewrite Hcf. by rewrite Hi', Hr'.
Qed.

(** ** Adding a row *)

(** All the rows a database has of one period, the saved ones first. *)
Definition kept (h : LOG_HEAD) (blocks : Z -> list (list row)) (cached : list row) (k : Z) : list row :=
  concat (blocks k) ++ of_period h k cached.

Lemma of_period_same h k rows p : Forall (fun r => period h r.1 = p) rows ->
  of_period h k rows = if k =? p then rows else [].
Proof using.
  intros Hp. unfold of_period. destruct (Z.eqb_spec k p) as [->|Hk]; [by apply filter_id|].
  apply filter_none. eapply Forall_impl; [exact Hp|]. cbn. intros r <-. congruence.
Qed.

Lemma kept_saved h blocks cached k : Forall (fun r => period h r.1 = period h (first_time cached)) cached ->
  kept h (add_block (period h (first_time cached)) cached blocks) [] k = kept h blocks cached k.
Proof using.
  intros Hp. unfold kept, add_block. rewrite (of_period_same h k cached _ Hp).
  destruct (k =? _); [|done]. rewrite concat_app. cbn. by rewrite !app_nil_r.
Qed.

Lemma row_room_nonneg h : 0 <= row_room h.
Proof using. unfold row_room. pose proof (sizes_nonneg (colType h)). lia. Qed.

Lemma kept_room h blocks cached k :
  Z.of_nat (length (kept h blocks cached k)) * row_room h < 2 ^ 31 -> has_room h blocks k.
Proof using.
  unfold kept, has_room. rewrite length_app. pose proof (row_room_nonneg h). nia.
Qed.

Lemma settled_cache_ok h d blocks cached : settled h d blocks cached -> cache_ok d.
Proof using.
  intros [[Hsig Hhead _ _ _] _ [] _ _ _ _ _]. constructor; rewrite ?Hhead; try done; cbn; unfold in_u; lia.
Qed.

Lemma settled_err h d blocks cached e : settled h d blocks cached ->
  settled h (set_gErrorCode e d) blocks cached.
Proof using. intros [[] ? ? ? ? ? ? ?]. constructor; try done. Qed.

(** Before the row goes in, rows of another period are saved. *)
Lemma put_flush_settled h d blocks cached st : settled h d blocks cached ->
  Z.of_nat (length cached) < cacheSize h -> has_room h blocks (period h (first_time cached)) ->
  exists d1 blocks1 cached1,
    put_flush crc32c malloc heap compressZlib compressZstd st d = Ret d1 /\
    settled h d1 blocks1 cached1 /\ Z.of_nat (length cached1) < cacheSize h /\
    Forall (fun r => period h r.1 = period h st) cached1 /\
    forall k, kept h blocks1 cached1 k = kept h blocks cached k.
Proof.
  intros Hs Hlt Hroom. pose proof (st_same _ _ _ _ Hs) as Hsame. pose proof (st_schema _ _ _ _ Hs) as Hsc.
  unfold put_flush. rewrite (hd_head _ _ _ _ (st_holds _ _ _ _ Hs)). cbn [curRowCount cacheSize startTimestamp set_rows].
  destruct (Z.ltb_spec 0 (Z.of_nat (length cached))) as [Hpos|Hpos].
  - rewrite (proj2 (Z.leb_gt _ _)) by lia. rewrite !period_index by apply Hsc. cbn [rbind].
    destruct (Z.eqb_spec (period h (first_time cached)) (period h st)) as [E|E].
    + exists d, blocks, cached. split_and!; try done. by rewrite <- E.
    + destruct (save_settled h d blocks cached Hs) as (d' & Hsave & Hs'); [by intros ->|done|].
      rewrite Hsave. cbn [rbind snd]. eexists _, _, []. split; [done|]. split; [exact Hs'|].
      split; [cbn; lia|]. split; [done|]. intros k. by apply kept_saved.
  - assert (cached = []) as -> by (destruct cached; [done|cbn [length] in Hpos; lia]).
    exists d, blocks, []. by split_and!.
Qed.

Lemma put_row_settled h d blocks cached r : settled h d blocks cached ->
  Z.of_nat (length cached) < cacheSize h -> Forall (fun r' => period h r'.1 = period h r.1) cached ->
  row_fits h r ->
  exists d1, put_row r.1 (concat r.2) d = Ret d1 /\ logHead d1 = logHead d /\
    settled h (set_logHead (set_rows (u16 (curRowCount (logHead d) + 1))
      (if curRowCount (logHead d) =? 0 then r.1 else startTimestamp (logHead d)) r.1 (logHead d)) d1)
      blocks (cached ++ [r]).
Proof using.
  intros Hs Hlt Hsame Hr. pose proof Hs as [Hh Hbytes Hsc Hfull _ Hrows Hblocks Hopen].
  pose proof Hh as [Hsig Hhead Hcells Hidx Hrec]. destruct Hr as (Hr1 & Hr2 & Hr3 & Hr4) eqn:Er. clear Er.
  destruct (put_row_spec r.1 r.2 d (settled_cache_ok _ _ _ _ Hs)) as (mem & Hp & Hl & Hnew & Hold);
    [rewrite Hhead; cbn; lia|by rewrite Hhead|].
  assert (Hmem : bytes_ok mem).
  { apply (put_row_bytes _ _ _ _ Hp); [|done]. apply Forall_concat. exact Hr3. }
  eexists. split; [exact Hp|]. split; [done|].
  assert (Hn : curRowCount (logHead d) = Z.of_nat (length cached)) by by rewrite Hhead.
  assert (Hu : u16 (curRowCount (logHead d) + 1) = Z.of_nat (length (cached ++ [r]))).
  { rewrite length_app. cbn [length]. rewrite wrapu_id; [lia|]. destruct Hsc. unfold in_u. lia. }
  constructor.
  - constructor; try done.
    + cbn [logHead set_logHead set_logData]. rewrite Hu, Hn, Hhead. unfold last_time. rewrite last_snoc.
      destruct cached; reflexivity.
    + unfold cache_rows. cbn [logHead logData set_logHead set_logData curRowCount set_rows].
      rewrite Hu, Nat2Z.id, length_app, seq_app, !map_app. cbn [length seq map Nat.add]. f_equal.
      * rewrite <- Hcells. unfold cache_rows. rewrite Hn, Nat2Z.id. apply map_ext_in.
        intros s Hin%in_seq. rewrite cells_set_rows. apply Hold. lia.
      * f_equal. rewrite cells_set_rows. rewrite Hn, Nat2Z.id in Hnew. exact Hnew.
  - exact Hmem.
  - cbn [logData set_logHead set_logData]. by rewrite Hl.
  - rewrite length_app. cbn [length]. lia.
  - assert (Hf : period h (first_time (cached ++ [r])) = period h r.1)
      by (destruct Hsame as [|r' c Hr' _]; [done|exact Hr']).
    rewrite Hf. apply Forall_app. split; [done|]. by constructor.
  - apply Forall_app. split; [done|]. by constructor.
  - done.
  - exact Hopen.
Qed.

(** One insertion. *)
Lemma put_db_settled h d blocks cached r : settled h d blocks cached ->
  Z.of_nat (length cached) < cacheSize h -> row_fits h r ->
  (forall k, has_room h blocks k) ->
  Z.of_nat (length (kept h blocks cached (period h r.1))) * row_room h < 2 ^ 31 ->
  exists d' blocks' cached',
    put_db crc32c malloc heap compressZlib compressZstd r.1 (concat r.2) d = Ret (0, d') /\
    settled h d' blocks' cached' /\ Z.of_nat (length cached') < cacheSize h /\
    forall k, kept h blocks' cached' k = kept h blocks cached k ++ of_period h k [r].
Proof.
  intros Hs Hlt Hr Hroom Hroomr. unfold put_db.
  pose proof (settled_err h d blocks cached 0 Hs) as Hs0.
  rewrite (hd_signature _ _ _ _ (st_holds _ _ _ _ Hs0)). cbn [negb].
  destruct (put_flush_settled h _ blocks cached r.1 Hs0 Hlt (Hroom _))
    as (d1 & blocks1 & cached1 & Hf & Hs1 & Hlt1 & Hsame1 & Hk1).
  rewrite Hf. cbn [rbind].
  destruct (put_row_settled h d1 blocks1 cached1 r Hs1 Hlt1 Hsame1 Hr) as (d2 & Hp & Hh2 & Hs2).
  rewrite Hp. cbn [rbind]. rewrite Hh2. set (d3 := set_logHead _ d2) in *.
  pose proof (hd_head _ _ _ _ (st_holds _ _ _ _ Hs2)) as Hh3. rewrite Hh3.
  cbn [cacheSize curRowCount set_rows].
  assert (Hk : forall k, kept h blocks1 (cached1 ++ [r]) k = kept h blocks cached k ++ of_period h k [r]).
  { intros k. rewrite <- Hk1. unfold kept, of_period. by rewrite filter_app, app_assoc. }
  match goal with |- context [?a <=? ?b] => destruct (Z.leb_spec a b) as [Hful|Hful] end.
  - destruct (save_settled h d3 blocks1 (cached1 ++ [r]) Hs2) as (d' & Hsave & Hs').
    + by destruct cached1.
    + apply (kept_room h blocks1 cached1). rewrite Hk1.
      assert (Hfp : period h (first_time (cached1 ++ [r])) = period h r.1)
        by (destruct Hsame1 as [|r' c Hr' _]; [done|exact Hr']). by rewrite Hfp.
    + rewrite Hsave. cbn [rbind snd]. eexists _, _, []. split; [done|]. split; [exact Hs'|].
      split; [destruct (st_schema _ _ _ _ Hs); cbn; lia|]. intros k.
      rewrite kept_saved by apply (st_same _ _ _ _ Hs2). apply Hk.
  - eexists _, blocks1, (cached1 ++ [r]). by split_and!.
Qed.

(** ** Runs *)
Inductive puts : list row -> DB -> DB -> Prop :=
| puts_nil d : puts [] d d
| puts_cons r rows d d1 d2 :
    put_db crc32c malloc heap compressZlib compressZstd r.1 (concat r.2) d = Ret (0, d1) ->
    puts rows d1 d2 -> puts (r :: rows) d d2.

Lemma puts_settled h rows : forall d blocks cached, settled h d blocks cached ->
  Z.of_nat (length cached) < cacheSize h -> Forall (row_fits h) rows ->
  (forall k, Z.of_nat (length (kept h blocks cached k ++ of_period h k rows)) * row_room h < 2 ^ 31) ->
  exists d' blocks' cached', puts rows d d' /\ settled h d' blocks' cached' /\
    Z.of_nat (length cached') < cacheSize h /\
    forall k, kept h blocks' cached' k = kept h blocks cached k ++ of_period h k rows.
Proof.
  pose proof (row_room_nonneg h) as Hrr.
  induction rows as [|r rows IH]; intros d blocks cached Hs Hlt Hrows Hroom.
  - exists d, blocks, cached. split_and!; try done; [constructor|].
    intros k. by rewrite app_nil_r.
  - apply Forall_cons in Hrows as [Hr Hrows].
    assert (Hkr : forall k, Z.of_nat (length (kept h blocks cached k)) * row_room h < 2 ^ 31).
    { intros k. specialize (Hroom k). rewrite length_app in Hroom. nia. }
    destruct (put_db_settled h d blocks cached r Hs Hlt Hr) as (d1 & blocks1 & cached1 & Hp & Hs1 & Hlt1 & Hk1);
      [intros k; by apply (kept_room h blocks cached)|apply Hkr|].
    assert (Hsplit : forall k, of_period h k (r :: rows) = of_period h k [r] ++ of_period h k rows)
      by (intros k; unfold of_period; by rewrite <- filter_app).
    destruct (IH d1 blocks1 cached1 Hs1 Hlt1 Hrows) as (d2 & blocks2 & cached2 & Hps & Hs2 & Hlt2 & Hk2).
    { intros k. rewrite Hk1, <- app_assoc, <- Hsplit. apply Hroom. }
    exists d2, blocks2, cached2. split_and!; try done; [by eapply puts_cons|].
    intros k. by rewrite Hk2, Hk1, Hsplit, app_assoc.
Qed.

(** ** Reading what was put *)

(** A memory that has the rows in its columns. *)
Definition rows_memory (h : LOG_HEAD) (rows : list row) (i n : nat) : list Z :=
  concat (map (fun j => column rows j ++
    replicate (Z.to_nat (col_size h j * (cacheSize h - Z.of_nat (length rows)))) 0) (seq i n)).

Lemma column_bytes h rows j : Forall (row_fits h) rows -> bytes_ok (column rows j).
Proof using.
  intros Hr. apply Forall_concat. induction Hr as [|r rows (_ & _ & Hb & _) _ IH]; cbn [map]; constructor; [|done].
  destruct j as [|j]; cbn [row_values nth]; [apply le_bytes_ok|].
  destruct (nth_in_or_default j r.2 []) as [Hin| ->]; [|constructor].
  rewrite Forall_forall in Hb. apply Hb. by apply list_elem_of_In.
Qed.

Lemma rows_memory_column h rows j n : colType h !! 0%nat = Some COL_TYPE_TIMESTAMP ->
  Forall (row_fits h) rows -> Z.of_nat (length rows) <= cacheSize h -> forall i,
  (i + n <= length (colType h))%nat -> (i <= j < i + n)%nat ->
  take (Z.to_nat (col_size h j * Z.of_nat (length rows)))
    (drop (Z.to_nat (col_pos h j - col_pos h i)) (rows_memory h rows i n)) = column rows j.
Proof using.
  intros Htime Hr Hn. induction n as [|n IH]; intros i Hi Hj; [lia|].
  pose proof (length_column h Htime rows i Hr ltac:(lia)) as Hlc. pose proof (col_size_pos h i) as Hsz.
  unfold rows_memory. cbn [seq map concat]. fold (rows_memory h rows (S i) n).
  destruct (decide (j = i)) as [->|Hji].
  - rewrite Z.sub_diag, drop_0, <- Hlc, Nat2Z.id, <- app_assoc. apply take_app_length.
  - pose proof (col_pos_mono h (S i) j ltac:(lia) ltac:(lia)) as Hp. rewrite col_pos_S in Hp.
    match goal with |- context [?blk ++ rows_memory _ _ _ _] =>
      assert (Hblk : Z.of_nat (length blk) = col_size h i * cacheSize h) end.
    { rewrite length_app, length_replicate, Nat2Z.inj_add, Hlc, Z2Nat.id by nia. lia. }
    rewrite drop_app_ge by lia.
    replace (_ - length _)%nat with (Z.to_nat (col_pos h j - col_pos h (S i))) by (rewrite col_pos_S; lia).
    apply IH; lia.
Qed.

Lemma default_some (o : option (list Z)) a b c : default [] o = a ++ b ++ c -> (0 < length b)%nat ->
  o = Some (a ++ b ++ c).
Proof using.
  destruct o as [f|]; cbn [default from_option id]; intros Ho Hb; [by rewrite Ho|].
  apply (f_equal length) in Ho. rewrite !length_app in Ho. cbn [length] in Ho. lia.
Qed.

(** A saved block, as the reader finds it. *)
Lemma holds_block_at h d blocks cached k b rows : colType h !! 0%nat = Some COL_TYPE_TIMESTAMP ->
  0 <= cacheSize h -> holds h d blocks cached -> blocks k !! b = Some rows ->
  Forall (row_fits h) rows -> Z.of_nat (length rows) <= cacheSize h ->
  Z.of_nat (length (record_image h (blocks k))) < 2 ^ 31 ->
  let h' := set_rows (Z.of_nat (length rows)) (first_time rows) (last_time rows) h in
  let mem := rows_memory h rows 0 (length (colType h)) in
  block_at d k (Z.of_nat b) h' mem /\ bytes_ok mem /\
  (forall j, (j < length (colType h))%nat -> block_col h' mem j = column rows j) /\
  (forall off, block_index h' mem off = rows_index h off rows) /\
  Z.of_nat (length (rows_bytes h rows)) < 2 ^ 31.
Proof.
  intros Htime Hc Hh Hb Hr Hn Hroom h' mem. pose proof Hh as [_ _ _ Hidx Hrec].
  assert (Hcol : forall j, (j < length (colType h))%nat -> block_col h' mem j = column rows j).
  { intros j Hj. unfold block_col, mem. rewrite <- (rows_memory_column h rows j (length (colType h)) Htime Hr Hn 0) by lia.
    change (col_pos h 0) with 0. by rewrite Z.sub_0_r. }
  assert (Hbytes : block_bytes h' mem 0 (length (colType h)) = rows_bytes h rows).
  { unfold block_bytes, rows_bytes. f_equal. apply map_ext_in. intros j Hj%in_seq. by rewrite Hcol by lia. }
  pose proof (take_drop_middle _ _ _ Hb) as Hsplit. set (pre := take b (blocks k)) in *.
  set (post := drop (S b) (blocks k)) in *.
  assert (Hrim : record_image h (blocks k) = record_image h pre ++ rows_bytes h rows ++ record_image h post)
    by (rewrite <- Hsplit; unfold record_image; by rewrite map_app, concat_app).
  assert (Hpre : length pre = b) by (apply length_take_le; apply lookup_lt_Some in Hb; lia).
  assert (Hlen : (0 < length (colType h))%nat) by (destruct (colType h); [done|cbn; lia]).
  assert (Hrb : (0 < length (rows_bytes h rows))%nat) by (rewrite <- Hbytes; by apply block_nonempty).
  rewrite Hrim, !length_app in Hroom. split_and!; [|..|exact Hcol|intros off; unfold block_index; change (colType h') with (colType h); by rewrite Hbytes|lia].
  - exists (index_image h 0 pre), (index_image h (Z.of_nat (length (record_image h pre)) +
      Z.of_nat (length (rows_bytes h rows))) post), (record_image h pre), (record_image h post).
    split; [lia|]. split; [rewrite index_image_length, Hpre; unfold SIZEOF_INDEX; cbn [colType h' set_rows]; lia|].
    change (colType h') with (colType h). split; [|split; [|lia]].
    + specialize (Hidx k). rewrite <- Hsplit, index_image_app in Hidx. cbn [index_image] in Hidx.
      rewrite Z.add_0_l in Hidx. unfold block_index. change (colType h') with (colType h). rewrite Hbytes.
      change (index_bytes _) with (index_bytes (rows_index h (Z.of_nat (length (record_image h pre))) rows)).
      apply default_some; [done|]. rewrite length_index_bytes. lia.
    + rewrite Hbytes. specialize (Hrec k). rewrite Hrim in Hrec.
      by apply default_some.
  - apply Forall_concat, Forall_map, Forall_true. intros j. apply bytes_ok_app.
    split; [by eapply column_bytes|apply Forall_replicate; unfold byte_ok; lia].
Qed.

Lemma rows_memory_length h rows n : colType h !! 0%nat = Some COL_TYPE_TIMESTAMP ->
  Forall (row_fits h) rows -> Z.of_nat (length rows) <= cacheSize h -> forall i,
  (i + n <= length (colType h))%nat ->
  Z.of_nat (length (rows_memory h rows i n)) = col_pos h (i + n) - col_pos h i.
Proof using.
  intros Htime Hr Hn. induction n as [|n IH]; intros i Hi; [rewrite Nat.add_0_r, Z.sub_diag; done|].
  pose proof (length_column h Htime rows i Hr ltac:(lia)) as Hlc. pose proof (col_size_pos h i) as Hsz.
  unfold rows_memory. cbn [seq map concat]. fold (rows_memory h rows (S i) n).
  rewrite !length_app, length_replicate, !Nat2Z.inj_add, Hlc, IH, Z2Nat.id by (nia || lia).
  rewrite col_pos_S. replace (S i + n)%nat with (i + S n)%nat by lia. lia.
Qed.

Lemma rows_index_ok h rows off : Forall (row_fits h) rows -> (forall i, col_size h i <= maxColSize h) ->
  maxColSize h < 2 ^ 8 -> Z.of_nat (length rows) < 2 ^ 16 ->
  Z.of_nat (length (rows_bytes h rows)) < 2 ^ 31 -> 0 <= off < 2 ^ 31 -> index_ok (rows_index h off rows).
Proof using.
  intros Hr Hmax Hbyte Hn Hlen Hoff.
  assert (Ht : in_s 64 (first_time rows) /\ in_s 64 (last_time rows)).
  { unfold last_time. split; [destruct Hr as [|r l [] _]; [by split|done]|].
    destruct (last rows) as [r|] eqn:Hl; [|by split].
    apply last_Some_elem_of in Hl. rewrite Forall_forall in Hr. by apply (Hr r Hl). }
  unfold index_ok, rows_index. cbn [ix_rowCount ix_startTimestamp ix_endTimestamp ix_dataOffset ix_dataLength ix_colLens].
  split_and!; try (unfold in_s; lia); try apply Ht.
  apply Forall_map, Forall_true. intros j. specialize (Hmax j). pose proof (col_size_pos h j).
  unfold in_s. nia.
Qed.

Lemma column_times rows : column rows 0 = pack_elems 8 (map fst rows).
Proof using. unfold column, pack_elems. by rewrite map_map. Qed.

Lemma first_time_at rows : rows <> [] -> first_time rows = at_ (map fst rows) 0.
Proof using. by destruct rows. Qed.

Lemma last_time_at rows : rows <> [] -> last_time rows = at_ (map fst rows) (Z.of_nat (length rows) - 1).
Proof using.
  intros Hne. destruct (exists_last Hne) as (l & r & ->). unfold last_time, at_. rewrite last_snoc.
  unfold row in *. rewrite length_app, map_app. cbn [length map].
  replace (Z.to_nat _) with (length (map fst l)) by (rewrite length_map; lia). by rewrite nth_middle.
Qed.

(** A cursor on block [b] of period [k], with a buffer for a block, that reads the times. *)
Record on_block (h : LOG_HEAD) (q : QUERY) (k b : Z) : Prop := {
  ob_signature : q_signature q = true;
  ob_index : q_indexFd q = Some (Some k);
  ob_record : q_recordFd q = Some (Some k);
  ob_block : q_curBlockIndex q = b;
  ob_buf : col_pos h (length (colType h)) <= Z.of_nat (length (q_buf q));
  ob_times : selected (q_colBitmap q) 0;
  ob_seek : b * (SIZEOF_INDEX + 4 * Z.of_nat (length (colType h))) < 2 ^ 31 }.

Context (decompressZlib decompressZstd : DB -> list Z -> INDEX -> Z -> Z -> Z -> list Z -> res (list Z)).


(** ** From a new database *)

Lemma widest_bounds l m : m <= 32 ->
  let w := fold_left (fun a t => Z.max a (gColTypeSize t)) l m in
  m <= w <= 32 /\ Forall (fun t => gColTypeSize t <= w) l.
Proof using.
  revert m. induction l as [|t l IH]; intros m Hm; [cbn; split; [lia|done]|].
  cbn [fold_left]. assert (gColTypeSize t <= 32) by (destruct t; cbn; lia).
  destruct (IH (Z.max m (gColTypeSize t)) ltac:(lia)) as [Hw Hl]. cbv zeta. split; [lia|].
  constructor; [lia|done].
Qed.

(** The header of a new database, in a mapping whose pages have room for the cache. *)
Lemma create_db_settled rootLen nameLen types cache hours h size page file :
  create_db rootLen nameLen false (Z.of_nat (length types)) types cache STORE_BY_COL COMPRESS_NONE hours =
    Ret (0, Some (h, size)) ->
  1 <= cache < 2 ^ 16 -> 0 < hours -> bytes_ok file ->
  size + 4 * Z.of_nat (length types) <= (size + page - 1) / page * page ->
  settled h (open_db page h file size ∅ ∅) (fun _ => []) [] /\ cacheSize h = cache.
Proof using.
  intros Hcreate Hcache Hhours Hfile Hpage.
  assert (Hcols : Z.of_nat (length types) <= 31).
  { unfold create_db, MAX_COL_COUNT in Hcreate. destruct (100 <? _); [done|].
    destruct (Z.ltb_spec 32 (Z.of_nat (length types) + 1)); [done|lia]. }
  rewrite create_db_both in Hcreate by (unfold in_u; lia). destruct (100 <? _); [done|].
  rewrite (proj2 (Z.ltb_ge _ _)) in Hcreate by lia. cbv zeta in Hcreate.
  rewrite Nat2Z.id, firstn_all in Hcreate.
  pose proof (widest_bounds types 8 ltac:(lia)) as Hw. cbv zeta in Hw.
  set (w := fold_left _ types 8) in *. destruct Hw as [Hw1 Hw2].
  injection Hcreate as Hh Hsize.
  assert (Hs : size + 4 * Z.of_nat (length types) = dataPos h + col_pos h (length (colType h)))
    by (rewrite <- Hsize, <- Hh; apply Z.sub_add).
  assert (Hcs : cacheSize h = cache) by by subst h.
  assert (0 <= col_pos h (length (colType h))) by (apply (col_pos_mono h _ (length (colType h))); lia).
  assert (Hlen : Z.of_nat (length (logData (open_db page h file size ∅ ∅))) =
    (size + page - 1) / page * page - dataPos h).
  { unfold open_db. cbn [logData]. rewrite length_take, length_app, length_replicate. lia. }
  split; [|done]. clear Hsize. constructor; try done.
  - constructor; try done; by subst h.
  - apply Forall_take, Forall_app. split; [done|]. apply Forall_replicate. unfold byte_ok. lia.
  - constructor; try lia; try (by subst h).
    + subst h. cbn [colType colCount length]. lia.
    + subst h. intros i. unfold col_size. cbn [colType maxColSize].
      destruct ((COL_TYPE_TIMESTAMP :: types) !! i) as [t|] eqn:Ht; [|lia].
      destruct i as [|i]; [injection Ht as <-; cbn; lia|].
      by apply (Forall_lookup_1 _ _ _ _ Hw2 Ht).
    + subst h. cbn [maxColSize]. lia.
  - cbn [length]. lia.
  - by left.
Qed.

(** C29.  A database that [create_db] made of a schema without compression, with its
    columns apart, and whose mapping has room for its cache: whatever rows are put
    in it, in whatever order of their times, every [put_db] returns 0, and the rows
    of each period are in its files, block after block, and then in the cache, in
    the order they came.  The index and the record file of a period are byte for
    byte the images of its blocks ([holds]); a block has at least one row and at
    most as many as the cache, which is never left full and has rows of one period.
    The values are as wide as their columns, the times are in 64 bits and not in
    the period 0 of 1970, the record file of each period stays shorter than 2^31 bytes, there is
    memory, and no query comes between ([EdbLimits.query_breaks_save]). *)
Theorem put_db_keeps_rows rootLen nameLen types cache hours h size page file rows :
  create_db rootLen nameLen false (Z.of_nat (length types)) types cache STORE_BY_COL COMPRESS_NONE hours =
    Ret (0, Some (h, size)) ->
  1 <= cache < 2 ^ 16 -> 0 < hours -> bytes_ok file ->
  size + 4 * Z.of_nat (length types) <= (size + page - 1) / page * page ->
  Forall (row_fits h) rows ->
  (forall k, Z.of_nat (length (of_period h k rows)) * row_room h < 2 ^ 31) ->
  exists d' blocks cached, puts rows (open_db page h file size ∅ ∅) d' /\
    holds h d' blocks cached /\
    (forall k, concat (blocks k) ++ of_period h k cached = of_period h k rows) /\
    (forall k, Forall (fun b => b <> [] /\ Z.of_nat (length b) <= cache) (blocks k)) /\
    Z.of_nat (length cached) < cache /\
    Forall (fun r => period h r.1 = period h (first_time cached)) cached.
Proof.
  intros Hcreate Hcache Hhours Hfile Hpage Hrows Hroom.
  destruct (create_db_settled _ _ _ _ _ _ _ page file Hcreate Hcache Hhours Hfile Hpage) as [Hs Hcs].
  destruct (puts_settled h rows _ _ [] Hs) as (d' & blocks & cached & Hp & Hs' & Hlt & Hk);
    [cbn [length]; lia|done|exact Hroom|].
  exists d', blocks, cached. rewrite <- Hcs. split; [done|]. split; [by apply Hs'|]. split; [exact Hk|].
  split; [intros k; by apply Hs'|]. split; [done|by apply Hs'].
Qed.
End Holds.

(** Three rows of two hours, two of which fill the cache. *)
Definition three_rows : list row :=
  [(3600000, [le_bytes 8 7]); (7200000, [le_bytes 8 9]); (3600005, [le_bytes 8 8])].
Definition hour_head : LOG_HEAD :=
  {| storeType := STORE_BY_COL; compressType := COMPRESS_NONE; hoursPerFile := 1; maxColSize := 8;
     curRowCount := 0; cacheSize := 2; rowSize := 16; dataPos := 84; startTimestamp := 0;
     endTimestamp := 0; colCount := 2; colType := [COL_TYPE_TIMESTAMP; COL_TYPE_BIG_INT] |}.

Lemma put_db_keeps_rows_witness : exists d' blocks cached,
  puts (H0 := toy_lz4) (H1 := LP64) (crc32c := resolved) (heap := 0)
    (fun n => Some (replicate (Z.to_nat n) 0)) no_zip no_zip three_rows
    (open_db 4096 hour_head [] 112 ∅ ∅) d' /\
  concat (blocks 1) ++ of_period hour_head 1 cached =
    [(3600000, [le_bytes 8 7]); (3600005, [le_bytes 8 8])].
Proof.
  destruct (put_db_keeps_rows (crc32c := resolved) (heap := 0)
    (H := resolved_checksum false true true 0) (H0 := toy_lz4) (H1 := LP64)
    (fun n => Some (replicate (Z.to_nat n) 0)) no_zip no_zip) with (rootLen := 4) (nameLen := 4)
    (types := [COL_TYPE_BIG_INT]) (cache := 2) (hours := 1) (h := hour_head) (size := 112) (page := 4096)
    (file := @nil Z) (rows := three_rows) as (d' & blocks & cached & Hp & _ & Hk & _).
  - intros n Hn. eexists. split; [reflexivity|]. rewrite length_replicate. split; [lia|].
    apply Forall_replicate. split; [discriminate|reflexivity].
  - reflexivity.
  - lia.
  - lia.
  - constructor.
  - vm_compute. discriminate.
  - repeat constructor; vm_compute; first [discriminate|reflexivity].
  - intros k. apply Z.le_lt_trans with (3 * 24); [|reflexivity].
    change (row_room hour_head) with 24.
    assert (length (of_period hour_head k three_rows) <= 3)%nat by apply (length_filter _ three_rows). lia.
  - exists d', blocks, cached. split; [exact Hp|]. rewrite Hk. reflexivity.
Defined.

(** The block of [EdbBlocks.block_db], as the rows that were put. *)
Definition two_rows : list row := [(3600000, [le_bytes 8 7]); (3600005, [le_bytes 8 8])].
Definition two_rows_block (k : Z) : list (list row) := if k =? 1 then [two_rows] else [].

#[local] Instance resolved_sum : Checksum resolved 0 := resolved_checksum false true true 0.

Lemma block_db_settled :
  settled two_col_head block_db two_rows_block [].
Proof.
  assert (Hfit : Forall (row_fits two_col_head) two_rows)
    by (repeat constructor; vm_compute; first [discriminate|reflexivity]).
  constructor.
  - constructor; try reflexivity; intros k; unfold two_rows_block; cbn [indexFiles recordFiles block_db];
      (destruct (Z.eqb_spec k 1) as [->|Hk]; [vm_compute; reflexivity|by rewrite lookup_singleton_ne]).
  - exact saved_bytes.
  - constructor; try reflexivity; try discriminate; try (split; [discriminate|reflexivity]).
    intros [|[|[|i]]]; vm_compute; discriminate.
  - discriminate.
  - constructor.
  - constructor.
  - intros k. unfold two_rows_block. destruct (k =? 1); split; repeat constructor; try done.
    all: vm_compute; first [discriminate|reflexivity].
  - right. split_and!; try reflexivity; by eexists.
Qed.

